(* ===== verification/_CoqProject ===== *)
-Q . S2P
Prelude.v
CLib.v
Inet.v
Utility.v
Crc32.v
FileSys.v
Nvram.v
NvramSpec.v
NvramCorrect.v
Scfg.v
ScfgCorrect.v
Sample.v
StoreTheorems.v
CfgStore.v
ApCfgSys.v
ApCfgWlan.v
CfgRefine.v
ApCfgSpec.v
AplFlag.v
CfgImpl.v
ApCfgLists.v
Session.v
CfgOverflow.v
CfgTheorems.v
CfgMode.v
FlagTheorems.v
UtilityCorrect.v
UtilityTheorems.v
ListCorrect.v
ListTheorems.v
Apply.v
ApplyCorrect.v
WifiScript.v
WifiSecurity.v
WifiStart.v
WifiCorrect.v
WifiConf.v
WifiStartCorrect.v
WifiTheorems.v
ApplyTheorems.v
EditVars.v
EditAssign.v
EditOutput.v
EditTable.v
EditParse.v
EditApCfg.v
EditLines.v
EditEffect.v
EditSafe.v
EditImport.v
EditRead.v
EditWrite.v
EditRound.v
EditTheorems.v
Cli.v
CliSystem.v
CliServices.v
CliNetwork.v
CliRadio.v
CliSecurity.v
CliTable.v
CliParser.v
CliLookup.v
CliLine.v
CliSwitch.v
CliSecret.v
CliTheorems.v
WebText.v
WebTextCorrect.v
Web.v
WebServe.v
WebCorrect.v
WebLock.v
WebTheorems.v
Led.v
LedCorrect.v
LedAp.v
Button.v
DeviceCorrect.v
DeviceTheorems.v
