(* ===== verification/Prelude.v ===== *)
(** * Verification of the WAP4410N access-point firmware

    The firmware is a Linux 2.6 system for a big-endian MIPS board.  Most of the
    source tree is third-party (kernel, boot loader, busybox, servers); the
    vendor's own logic is under [apps/apps_sc]: a configuration store, a service
    that owns it, a library of some three hundred configuration parameters, the
    process that applies changed parameters, the utilities they share, and the
    drivers and daemons of the LEDs and the reset button; in the shell of
    busybox stands the vendor's command line, and in the web server the vendor's
    login.  This development models that logic from the C sources and proves it
    correct, or proves how it goes wrong.  Paths below are relative to [src/src/apps].

    ** The parts and how they interact

    A parameter is read by [nvram_safe_get] straight from the shadow file
    [/tmp/nvram] (falling back on the file of defaults), and written by
    [scfgmgr_set], which sends [name=value] over a socket to the service; the
    service calls [nvram_set], which rewrites the shadow file.  [nvram_commit]
    writes the shadow file with a checksummed header to the flash partition and
    [nvram_load] reads it back at boot.  A setter of [apcfg.c] compares the new
    value with the stored one and, when they differ, stores it and raises an
    apply flag with [apl_set_flag], which appends a line to [/tmp/apl_flag].
    [apl_do_apply] later reads that file, marks the items, and walks a tree of
    items calling their handlers, which restart services by shell commands.  For
    the radio a handler writes shell scripts, the files of hostapd and of WPS
    from the parameters, and runs the scripts.  [OutputCFG] prints the parameters as a
    text file and [parseCFG] sets them from one; between file and parameters
    stand global variables, one for each attribute.  A line typed at the console
    is split into tokens, which a parser resolves along tables of commands; the
    handlers call the getters and setters, and [genericCliCmdSet] commits when
    a [set] line succeeded.  The web server forks a child for each connection; the
    child answers with a file, a program or an error, and signals the parent, which
    keeps who is logged in.

    ** Files

    - [Prelude]: bytes and strings as lists of [ascii]; [outcome] ([Done],
      [Fault] for undefined behaviour of C, [Stuck] for a loop that never ends);
      the state monad [M S] over it, [runs m s Q] (from [s] the program ends,
      without a fault, in a result and a state with [Q]) and its rules; shared
      tactics.  [CLib]: the string functions of C ([strtok], [atoi], [sprintf]
      of integers, [strcpy] into a buffer of a given size, [fgets]).  [Inet]:
      addresses.  [FileSys]: the machine, a record of files by path, the flash
      partition and the shell commands run so far.
    - [Crc32], [Nvram]: [apps_sc/libs/libnv/nvram.c].  [NvramSpec] is the
      abstract store, a finite map from names to values behind the list of
      entries of the file; [NvramCorrect] the refinement.
    - [Scfg]: [apps_sc/libs/libscfg] (message format, client calls, the
      service's handlers and its loop over a connection); [ScfgCorrect].
    - [CfgStore]: the interface between the parameter library and the store, a
      class of operations [CfgStore] with the class of laws [CfgStoreLaws]
      against an abstract configuration [cfg] (a value for each name, and the
      flags raised).  [CfgImpl] discharges the laws for the machine with the
      service and the flag file.
    - [ApCfgSys], [ApCfgWlan], [ApCfgLists]: [apps_sc/libs/libapcfg/apcfg.c],
      every getter and setter, over the interface; a getter that copies into a
      static buffer of fixed size faults when the text does not fit.
      [CfgRefine], [ApCfgSpec]: the specification of a parameter (name, what is
      accepted, encoding, decoding, effect) and its refinement by the code, for
      each parameter of three tables; [Session]: sessions of calls over the
      tables; [CfgMode]: the operation mode; [CfgOverflow]: the setters whose
      checks are too weak; [ListCorrect]: the lists.
    - [AplFlag], [Apply]: [apps_sc/libs/libapcfg/apply.c].  What the wireless
      handlers use of [wifiuti.c] is the interface [Wifi].  [ApplyCorrect]: the
      walk.
    - [WifiScript], [WifiSecurity], [WifiStart]:
      [apps_sc/libs/libapcfg/wifiuti.c], and the version and the management
      bridge of [utility.c]; the instance [wifiuti] of [Wifi].  What a shell
      command does to the machine, the address of an interface and what lies
      behind [vapStr] on the stack are the class [Board].  [WifiCorrect]: a
      logic for steps of a script's making ([reads], [says], [tame]);
      [WifiConf]: the settings that the file of hostapd holds ([sets]);
      [WifiStartCorrect]: starting and stopping ([calm], [faults]).
    - [Utility]: [apps_sc/libs/libutility/utility.c], validators and converters;
      [UtilityCorrect].
    - [Led]: [apps_sc/led/led.c], the LED driver as a step relation over writes
      to [/proc/led] and expiring timers, with the GPIO registers as 32-bit
      words; [LedCorrect].  [LedAp]: [apps_sc/led/led_ap.c], with the text that
      the kernel prints to [/proc/net/dev].  [Button]:
      [apps_sc/push_button] (driver and daemon); [DeviceCorrect].
    - [EditVars], [EditAssign], [EditOutput], [EditTable], [EditParse],
      [EditApCfg]: [apps_sc/libs/libeditapcfg], the configuration as a text file:
      the page variables with their sizes, the functions that assign and print a
      value, the tables of attributes, the scanners and the writer, and the way
      between the variables and the parameters; the clock, the text of an IPv6
      address and the conversion of character sets are the class [Host].
      [EditLines]: the scanners on lines; [EditEffect]: an assignment as a
      function on the bytes of its variable; [EditSafe]: the types of the
      attributes; [EditImport]: a logic for programs that end or fault;
      [EditRead]: values printed and read back; [EditWrite]: the lines of a
      written file; [EditRound]: such a file is read back.
    - [Cli]: [busybox-1.1.0/shell/linksysCli.c], the state of the
      console, its tokens and printing, and what the handlers share; the commit,
      the clock and the random device are the class [Console].  [CliSystem],
      [CliServices], [CliNetwork], [CliRadio], [CliSecurity]: the handlers, in
      the order of the source.  [CliTable]: the tables of commands, with
      [entries] from the names of tables ([tbl]) to them.  [CliParser]: lookup,
      help and parsing.  [CliLookup]: the counting of letters against the plain
      rule [resolve], and the depth of the tables ([rank]); [CliLine]: the ring of
      tokens as a queue ([waiting]); [CliSwitch]: what the [get] handlers keep
      ([shows]), and commands that switch a parameter against an abstract board; [CliSecret]: the digits of the WPS number.
    - [WebText], [Web], [WebServe]: [mini_httpd-1.17beta1] ([mini_httpd.c],
      [match.c]): texts, patterns and tables; the name of a file; the state [web] of a child, programs that may
      exit ([W]) and answers; the cookie and the notes of the login; a request
      from its bytes to its end; the main loop, the session and the signals, as a
      step relation ([server_step]).  The files of the pages, programs that start,
      the texts of the clock, the addresses of interfaces and what the radio's
      tool prints are the class [Www].  [WebTextCorrect]: what a name means
      ([resolve], [climbs], [below]), what a pattern means ([glob]), the file of
      passwords; [WebCorrect]: a logic for programs that end, exit or fault
      ([sends]), the ends of the loops, and what every request keeps; [WebLock]: a
      page noted at a timeout, and a request that is asked for no login.
    - [Sample]: a concrete machine for the witnesses.
    - [StoreTheorems], [CfgTheorems], [FlagTheorems], [ListTheorems],
      [UtilityTheorems], [ApplyTheorems], [WifiTheorems], [EditTheorems],
      [CliTheorems], [WebTheorems], [DeviceTheorems]: the theorems.

    ** What the theorems show

    - The store: [nvram_set] refines insertion in the finite map and
      [nvram_safe_get] the two-level lookup; the service keeps the file well
      formed whatever a client sends; a text set through the socket, an equals
      sign in it or not, is the one
      read; commit and load are inverse, any one-byte damage is detected, and
      the table-driven checksum is CRC-32; messages survive fragmentation.
    - The parameters: any session of getter and setter calls does what the
      specifications say; values read back; parameters are independent; a change
      raises a flag; the restrictions of an operation mode are kept.
    - The lists: the sort sorts; access-control and VLAN lists refine operations
      on abstract lists, with the exact conditions under which they do not.
    - Applying: the walk ends, serves each flagged item exactly once (itself or
      through an item above it), in table order, for any invariant of the
      handlers due; the run of [apl_do_apply] gives the commands computed from
      the configuration for the items that restart services, the port, the access
      points, the radio and the VLANs, and clears the flags.  The items of the
      second radio, whose handlers report an error, and the reboot timer, which
      has no name in the log, are left out.
    - The radio: the handler of an access point and the restart of the radio end
      in every operation mode, run exactly their scripts and keep the
      configuration; hostapd is told what the parameters say about who may join;
      how an SSID reaches the shell, and the stack overrun of [wlanStart].  The
      restart is proved for channels of 20 MHz, where no channel is corrected
      (with 20/40 MHz the start may store another channel), and with a byte to
      spare behind [vapStr].
    - The devices: the LED driver keeps its table, registers and timers
      consistent in every order of writes and expiries, and blinking ends, in
      the state that the last blinking command named; how
      often an LED flashes; the daemon reads back what the kernel prints; what a
      press of the button does by its duration.
    - The configuration file: importing any file ends and keeps the types of the
      attributes; what is exported with its secrets shown is imported again, with
      the exceptions named there; the time zones that are refused.
    - The command line: which command a word is, which words of a line count and
      when the line leaves its buffer, the room that help and the recursion of
      the parser take; [get] lines change nothing; nineteen commands switch their
      parameter, from the text of the line to a partition from which a load
      restores the configuration ([committed]); the
      generated WPS number is one that the console accepts.
    - The web server: every request ends or leaves what C defines; who is shown a
      page, and that [login.htm] in a query opens every program; names that are
      served lie below the root; while a page is noted others are refused; a path
      of a hundred bytes overruns a buffer; patterns mean what they should; when
      a password is asked for.
    - Validators: the exact set of inputs accepted.
    - Errors: the theorems whose conclusion is [Fault], or a success answer for
      an operation that failed, are defects of the code; the manifest lists them.

    ** Conventions and bounds

    [int] is a Z; where a value passes through a narrower or wrapping place
    ([atoi], [sprintf] buffers, 32-bit words, the signed length of a header) the
    width is written out.  Loops that the source bounds by the input take fuel:
    the length of the input plus one for scans ([get_loop], [set_loop],
    [flag_ids], [acl_find]), the number of elements for the sort, and the size
    of the table plus one for the apply tree, whose links all lead to larger
    indices; the parser of the command line and its help take [DEPTH], the four
    levels of the tables; the loops of the web server take the length of what
    they read plus one; running out of fuel is [Stuck], and [runs] excludes it.

    ** Not modelled

    Memory exhaustion outside the service's message buffers (there [Heap]
    decides), file locking and failing [fopen]s, syslog, what shell commands do
    (they are recorded; the marker files of the apply process and [Board] are the
    exceptions), the aliasing of static buffers across callers (except in the
    VLAN list, where it matters), and interleavings of processes: the
    wait of [apl_set_flag] for a running parse is [Stuck].  The
    devices' daemons poll: a round is modelled with what it reads, and their
    writes to [/proc/led] as carried out in order.  Of the shell around the
    command line (signals, line editing, the built-in table) nothing is modelled;
    a conversion of [printf] takes a text that is already formatted.  Of the web
    server: options, sockets and SSL; directory listings (compiled out) and
    [auth_check] (not called with cookies); the sorting of the content types,
    whose tables are generated; [handle_chdir]; pipes and processes always come
    about, a child runs without others in between (its signals arrive at any later
    time), and a [strcpy] of a text onto its own front copies forwards.
    Third-party programs are not modelled. *)

From Stdlib Require Export Ascii String ZArith Lia Bool.
From stdpp Require Export base strings gmap numbers option list.
Export list.

#[global] Open Scope Z_scope.
#[global] Set Default Goal Selector "!".

(** ** Bytes and C characters *)

(** Characters and bytes are [ascii]; a buffer and a C string (without its
    terminator) are lists of them.  A Rocq string literal is accepted where a
    byte list is expected. *)
Abbreviation bytes := (list ascii).
Abbreviation cstr := (list ascii).
Coercion list_ascii_of_string : string >-> list.

Definition NUL : ascii := "000"%char.

(** The value of a byte as an [unsigned char], and the byte a value is
    truncated to. *)
Definition code (c : ascii) : Z := Z.of_N (N_of_ascii c).
Definition chr (z : Z) : ascii := ascii_of_N (Z.to_N (z mod 256)).

Lemma code_range c : 0 <= code c < 256.
Proof. unfold code. pose proof (N_ascii_bounded c). lia. Qed.

Lemma chr_code c : chr (code c) = c.
Proof.
  unfold chr. rewrite Z.mod_small by apply code_range.
  unfold code. by rewrite N2Z.id, ascii_N_embedding.
Qed.

Lemma code_chr z : code (chr z) = z mod 256.
Proof.
  unfold code, chr. pose proof (Z.mod_pos_bound z 256 ltac:(lia)).
  rewrite N_ascii_embedding by lia. lia.
Qed.

#[global] Instance code_inj : Inj (=) (=) code.
Proof. intros x y Hxy. by rewrite <- (chr_code x), Hxy, chr_code. Qed.

(** A finite case analysis over all 256 bytes, for decidable byte facts. *)
Ltac by_all_bytes c :=
  destruct c as [[] [] [] [] [] [] [] []]; vm_compute; try done; try lia.

(** C strings hold no terminator. *)
Definition nul_free (s : bytes) : Prop := NUL ∉ s.
#[global] Instance nul_free_dec s : Decision (nul_free s).
Proof. unfold nul_free. apply _. Defined.

Lemma nul_free_nil : nul_free [].
Proof. apply not_elem_of_nil. Qed.

Lemma nul_free_cons c s : nul_free (c :: s) ↔ c ≠ NUL ∧ nul_free s.
Proof. unfold nul_free. rewrite not_elem_of_cons. naive_solver. Qed.

Lemma nul_free_app s t : nul_free (s ++ t) ↔ nul_free s ∧ nul_free t.
Proof. unfold nul_free. rewrite not_elem_of_app. done. Qed.

(** ** Outcomes of C code *)

(** [Fault] is behaviour C leaves undefined (an access outside an object, a
    null pointer, a value that was never written); [Stuck] is a loop that does
    not end. *)
Inductive outcome (A : Type) : Type :=
  | Done (a : A)
  | Fault
  | Stuck.
Arguments Done {A} a.
Arguments Fault {A}.
Arguments Stuck {A}.

#[export] Instance outcome_ret : MRet outcome := λ A a, Done a.
#[export] Instance outcome_bind : MBind outcome := λ A B k m,
  match m with Done a => k a | Fault => Fault | Stuck => Stuck end.

Definition guard_fault (b : bool) : outcome unit := if b then Done tt else Fault.

(** ** Stateful code *)

Definition M (S A : Type) : Type := S → outcome (A * S).

#[export] Instance M_ret {S} : MRet (M S) := λ A a s, Done (a, s).
#[export] Instance M_bind {S} : MBind (M S) := λ A B k m s,
  match m s with Done (a, s') => k a s' | Fault => Fault | Stuck => Stuck end.

Definition getS {S} : M S S := λ s, Done (s, s).
Definition putS {S} (s : S) : M S unit := λ _, Done (tt, s).
Definition modS {S} (f : S → S) : M S unit := λ s, Done (tt, f s).
Definition faultM {S A} : M S A := λ _, Fault.
Definition stuckM {S A} : M S A := λ _, Stuck.
Definition liftO {S A} (o : outcome A) : M S A := λ s,
  match o with Done a => Done (a, s) | Fault => Fault | Stuck => Stuck end.

(** The laws of the two monads, up to the pointwise equality of programs. *)
Definition M_equiv {S A} : relation (M S A) := λ m1 m2, ∀ s, m1 s = m2 s.
#[export] Instance M_equiv_equivalence {S A} : Equivalence (@M_equiv S A).
Proof.
  split.
  - by intros m s.
  - intros m1 m2 H s. by rewrite H.
  - intros m1 m2 m3 H1 H2 s. by rewrite H1, H2.
Qed.
Infix "≈M" := M_equiv (at level 70).

#[export] Instance M_bind_proper {S A B} :
  Proper (pointwise_relation A M_equiv ==> M_equiv ==> M_equiv)
    (mbind (M:=M S) (A:=A) (B:=B)).
Proof.
  intros k1 k2 Hk m1 m2 Hm s. unfold mbind, M_bind. rewrite (Hm s).
  destruct (m2 s) as [[a s']| |]; [apply Hk|done|done].
Qed.

Lemma bind_ret_l {S A B} (a : A) (k : A → M S B) : (mret a ≫= k) ≈M k a.
Proof. done. Qed.
Lemma bind_ret_r {S A} (m : M S A) : (m ≫= mret) ≈M m.
Proof. intros s. unfold mbind, M_bind. by destruct (m s) as [[? ?]| |]. Qed.
Lemma bind_assoc {S A B C} (m : M S A) (k : A → M S B) (h : B → M S C) :
  ((m ≫= k) ≫= h) ≈M (m ≫= λ a, k a ≫= h).
Proof. intros s. unfold mbind, M_bind. by destruct (m s) as [[? ?]| |]. Qed.

(** ** Total-correctness triples *)

(** [runs m s Q]: from [s] the program ends without a fault, in a result and a
    state that satisfy [Q]. *)
Definition runs {S A} (m : M S A) (s : S) (Q : A → S → Prop) : Prop :=
  match m s with Done (a, s') => Q a s' | _ => False end.

Section runs.
Context {S : Type}.

Lemma runs_ret {A} (a : A) (s : S) (Q : A → S → Prop) :
  Q a s → runs (mret a) s Q.
Proof. done. Qed.

Lemma runs_bind {A B} (m : M S A) (k : A → M S B) s (Q : B → S → Prop) :
  runs m s (λ a s', runs (k a) s' Q) → runs (m ≫= k) s Q.
Proof.
  unfold runs, mbind, M_bind. destruct (m s) as [[a s']| |]; done.
Qed.

Lemma runs_mono {A} (m : M S A) s (Q Q' : A → S → Prop) :
  runs m s Q → (∀ a s', Q a s' → Q' a s') → runs m s Q'.
Proof. unfold runs. destruct (m s) as [[a s']| |]; naive_solver. Qed.

Lemma runs_done {A} (m : M S A) s (Q : A → S → Prop) :
  runs m s Q ↔ ∃ a s', m s = Done (a, s') ∧ Q a s'.
Proof.
  unfold runs. destruct (m s) as [[a s']| |]; naive_solver.
Qed.

Lemma runs_get s (Q : S → S → Prop) : Q s s → runs getS s Q.
Proof. done. Qed.
Lemma runs_put s s' (Q : unit → S → Prop) : Q tt s' → runs (putS s') s Q.
Proof. done. Qed.
Lemma runs_mod f s (Q : unit → S → Prop) : Q tt (f s) → runs (modS f) s Q.
Proof. done. Qed.
Lemma runs_lift {A} (o : outcome A) a s (Q : A → S → Prop) :
  o = Done a → Q a s → runs (liftO o) s Q.
Proof. intros ->. done. Qed.
End runs.

Create HintDb wap discriminated.
#[export] Hint Resolve runs_ret runs_get runs_put runs_mod nul_free_nil code_range : wap.

(** Steps through the binds of a program. *)
Ltac runs_step :=
  lazymatch goal with
  | |- runs (mbind _ _) _ _ => apply runs_bind
  | |- runs (mret _) _ _ => apply runs_ret
  | |- runs getS _ _ => apply runs_get
  | |- runs (putS _) _ _ => apply runs_put
  | |- runs (modS _) _ _ => apply runs_mod
  end; cbv beta.
Ltac runs_steps := repeat runs_step.
Ltac use_runs H := eapply runs_mono; [eapply H | cbv beta].

(** ** Invariants kept by a program that ends *)

Definition keeps {S A} (P : S → Prop) (m : M S A) : Prop :=
  ∀ s a s', P s → m s = Done (a, s') → P s'.

Section keeps.
Context {S : Type} (P : S → Prop).

Lemma keeps_ret {A} (a : A) : keeps P (mret a).
Proof. intros s b s' Hs [= <- <-]. done. Qed.

Lemma keeps_fault {A} : keeps P (faultM : M S A).
Proof. by intros s b s' Hs. Qed.

Lemma keeps_get : keeps P getS.
Proof. by intros s b s' Hs [= <- <-]. Qed.

Lemma keeps_lift {A} (o : outcome A) : keeps P (liftO o).
Proof. intros s b s' Hs. unfold liftO. by destruct o; intros [= <- <-]. Qed.

Lemma keeps_mod f : (∀ s, P s → P (f s)) → keeps P (modS f).
Proof. intros Hf s b s' Hs [= <- <-]. by apply Hf. Qed.

(** The continuation may use how its argument was obtained. *)
Lemma keeps_bind_eq {A B} (m : M S A) (k : A → M S B) :
  keeps P m → (∀ a, (∃ s s', P s ∧ m s = Done (a, s')) → keeps P (k a)) →
  keeps P (m ≫= k).
Proof.
  intros Hm Hk s b s' Hs. unfold mbind, M_bind.
  destruct (m s) as [[a s1]| |] eqn:E; [|done|done].
  intros Hb. eapply Hk; [by exists s, s1|by eapply Hm|done].
Qed.

Lemma keeps_bind {A B} (m : M S A) (k : A → M S B) :
  keeps P m → (∀ a, keeps P (k a)) → keeps P (m ≫= k).
Proof. intros Hm Hk. apply keeps_bind_eq; auto. Qed.

Lemma keeps_runs {A} (m : M S A) :
  (∀ s, P s → runs m s (λ _ s', P s')) → keeps P m.
Proof. intros H s a s' Hs E. specialize (H s Hs). unfold runs in H. by rewrite E in H. Qed.
End keeps.

#[export] Hint Resolve keeps_ret keeps_fault keeps_get keeps_lift keeps_bind : wap.

(** Splits a goal [keeps P m] along the structure of [m]. *)
Ltac keeps_steps :=
  repeat first
    [ apply keeps_ret | apply keeps_fault | apply keeps_get | apply keeps_lift
    | apply keeps_bind; [|intros ?] | progress case_match | progress cbv beta zeta ].

(** ** Machine integers *)

Definition wrap32 (z : Z) : Z := z mod 2 ^ 32.
(** The [int] (or 32-bit [long]) a 32-bit pattern denotes. *)
Definition sint32 (z : Z) : Z := (z + 2 ^ 31) mod 2 ^ 32 - 2 ^ 31.

Lemma wrap32_range z : 0 <= wrap32 z < 2 ^ 32.
Proof. unfold wrap32. apply Z.mod_pos_bound. lia. Qed.

Lemma sint32_small z : - 2 ^ 31 <= z < 2 ^ 31 → sint32 z = z.
Proof. intros. unfold sint32. rewrite Z.mod_small; lia. Qed.

Lemma sint32_range z : - 2 ^ 31 <= sint32 z < 2 ^ 31.
Proof.
  unfold sint32. pose proof (Z.mod_pos_bound (z + 2 ^ 31) (2 ^ 32) ltac:(lia)). lia.
Qed.

(** C's truth values. *)
Definition boolZ (b : bool) : Z := if b then 1 else 0.

Abbreviation zlen l := (Z.of_nat (length l)).
