(* ===== verification/CLib.v ===== *)
(** * The C library calls the firmware relies on

    Executable definitions of the string, number and buffer routines of the C
    library that the modelled sources call, with their lemmas.  Strings are
    lists of bytes without the terminator; a buffer is the list of the bytes
    of the object, so a walk that leaves it is a [Fault]. *)

From S2P Require Import Prelude.

(** ** Character classes *)

Definition isdigit (c : ascii) : bool := (48 <=? code c) && (code c <=? 57).
Definition isupper (c : ascii) : bool := (65 <=? code c) && (code c <=? 90).
Definition islower (c : ascii) : bool := (97 <=? code c) && (code c <=? 122).
(** The white space that [strtol] and [sscanf] skip. *)
Definition c_isspace (c : ascii) : bool :=
  (code c =? 32) || ((9 <=? code c) && (code c <=? 13)).
Definition tolower (c : ascii) : ascii :=
  if isupper c then chr (code c + 32) else c.
Definition toupper (c : ascii) : ascii :=
  if islower c then chr (code c - 32) else c.

(** ** Reading strings out of buffers *)

(** The C string at the start of a buffer. *)
Fixpoint rd_str (m : bytes) : outcome cstr :=
  match m with
  | [] => Fault
  | c :: m' =>
      if decide (c = NUL) then Done []
      else s ← rd_str m'; Done (c :: s)
  end.

Lemma rd_str_app s m : nul_free s → rd_str (s ++ NUL :: m) = Done s.
Proof.
  induction s as [|c s IH]; intros Hs; simpl; [done|].
  apply nul_free_cons in Hs as [Hc Hs].
  destruct (decide (c = NUL)); [done|]. by rewrite IH.
Qed.

Lemma rd_str_inv m s : rd_str m = Done s → nul_free s ∧ ∃ m', m = s ++ NUL :: m'.
Proof.
  revert s; induction m as [|c m IH]; intros s Hs; simpl in Hs; [done|].
  destruct (decide (c = NUL)) as [->|Hc].
  - injection Hs as <-. split; [apply nul_free_nil|by exists m].
  - destruct (rd_str m) as [t| |]; simplify_eq/=.
    destruct (IH t eq_refl) as (Ht & m' & ->).
    split; [by apply nul_free_cons|by exists m'].
Qed.

(** ** Searching *)

Definition strchr (s : cstr) (c : ascii) : bool := bool_decide (c ∈ s ++ [NUL]).

(** The part of a string before, and the part from, the first of [ds]. *)
Fixpoint span_until (ds : list ascii) (s : cstr) : cstr * cstr :=
  match s with
  | [] => ([], [])
  | c :: s' =>
      if decide (c ∈ ds) then ([], s)
      else let '(a, b) := span_until ds s' in (c :: a, b)
  end.

Fixpoint skip_while (ds : list ascii) (s : cstr) : cstr :=
  match s with
  | [] => []
  | c :: s' => if decide (c ∈ ds) then skip_while ds s' else s
  end.

(** One call of [strtok] on the saved position [s]: the token and the position
    saved for the next call. *)
Definition strtok (ds : list ascii) (s : cstr) : option cstr * cstr :=
  match skip_while ds s with
  | [] => (None, [])
  | s1 => let '(tok, rest) := span_until ds s1 in (Some tok, tail rest)
  end.

Lemma span_until_free ds s :
  (∀ c, c ∈ ds → c ∉ s) → span_until ds s = (s, []).
Proof.
  induction s as [|c s IH]; intros H; simpl; [done|].
  destruct (decide (c ∈ ds)) as [Hc|Hc].
  - destruct (H c Hc). apply list_elem_of_here.
  - rewrite IH; [done|]. intros c' Hc' Hin. eapply H; [done|].
    by apply list_elem_of_further.
Qed.

Lemma span_until_app ds s d t :
  (∀ c, c ∈ ds → c ∉ s) → d ∈ ds → span_until ds (s ++ d :: t) = (s, d :: t).
Proof.
  induction s as [|c s IH]; intros H Hd; simpl.
  - by destruct (decide (d ∈ ds)).
  - destruct (decide (c ∈ ds)) as [Hc|Hc].
    { destruct (H c Hc). apply list_elem_of_here. }
    rewrite IH; [done| |done]. intros c' Hc' Hin. eapply H; [done|].
    by apply list_elem_of_further.
Qed.

Lemma span_until_fst_free ds s c : c ∈ ds → c ∉ (span_until ds s).1.
Proof.
  induction s as [|c' s IH]; intros Hc; simpl; [apply not_elem_of_nil|].
  destruct (decide (c' ∈ ds)); [apply not_elem_of_nil|].
  destruct (span_until ds s) as [a b]; simpl in *.
  rewrite not_elem_of_cons. split; [by intros ->|by apply IH].
Qed.

Lemma span_until_fst_sublist ds s c : c ∈ (span_until ds s).1 → c ∈ s.
Proof.
  induction s as [|c' s IH]; simpl; [done|].
  destruct (decide (c' ∈ ds)); [by intros ?%not_elem_of_nil|].
  destruct (span_until ds s) as [a b]; simpl in *.
  rewrite !elem_of_cons. naive_solver.
Qed.

Lemma skip_while_sublist ds s c : c ∈ skip_while ds s → c ∈ s.
Proof.
  induction s as [|c' s IH]; simpl; [done|].
  destruct (decide (c' ∈ ds)); [|done]. rewrite elem_of_cons. naive_solver.
Qed.

Lemma skip_while_id ds c s : c ∉ ds → skip_while ds (c :: s) = c :: s.
Proof. intros. simpl. by rewrite decide_False. Qed.

Lemma span_until_length ds s :
  (length (span_until ds s).1 <= length s)%nat.
Proof.
  induction s as [|c s IH]; simpl; [lia|].
  destruct (decide (c ∈ ds)); simpl; [lia|].
  destruct (span_until ds s); simpl in *. lia.
Qed.

Lemma skip_while_length ds s : (length (skip_while ds s) <= length s)%nat.
Proof.
  induction s as [|c s IH]; simpl; [lia|]. destruct (decide (c ∈ ds)); simpl; lia.
Qed.

(** ** Decimal numbers *)

Definition digit (n : Z) : ascii := chr (48 + n).

(** The digits of [n], most significant first, before [acc]. *)
Fixpoint dec_go (fuel : nat) (n : Z) (acc : cstr) : cstr :=
  match fuel with
  | O => acc
  | S fuel' =>
      let acc' := digit (n mod 10) :: acc in
      if n <? 10 then acc' else dec_go fuel' (n / 10) acc'
  end.

(** [sprintf("%d", z)]; the fuel is more than the number of binary digits. *)
Definition dec (z : Z) : cstr :=
  if z <? 0 then "-"%char :: dec_go (S (Z.to_nat (Z.log2 (- z)))) (- z) []
  else dec_go (S (Z.to_nat (Z.log2 z))) z [].

(** [strtol] in base 10 on the digits at the front, with the value so far. *)
Fixpoint digits_val (acc : Z) (s : cstr) : Z :=
  match s with
  | c :: s' => if isdigit c then digits_val (10 * acc + (code c - 48)) s' else acc
  | [] => acc
  end.

Fixpoint skip_space (s : cstr) : cstr :=
  match s with
  | c :: s' => if c_isspace c then skip_space s' else s
  | [] => []
  end.

Definition clamp_int (z : Z) : Z := Z.max (- 2 ^ 31) (Z.min (2 ^ 31 - 1) z).

(** [atoi], that is [strtol] in base 10 with its saturation at the bounds of
    the 32-bit [long]. *)
Definition atoi (s : cstr) : Z :=
  match skip_space s with
  | "-"%char :: s' => clamp_int (- digits_val 0 s')
  | "+"%char :: s' => clamp_int (digits_val 0 s')
  | s' => clamp_int (digits_val 0 s')
  end.

Lemma isdigit_digit n : 0 <= n < 10 → isdigit (digit n) = true.
Proof.
  intros. unfold isdigit, digit. rewrite code_chr, Z.mod_small by lia. lia.
Qed.

Lemma code_digit n : 0 <= n < 10 → code (digit n) - 48 = n.
Proof. intros. unfold digit. rewrite code_chr, Z.mod_small by lia. lia. Qed.

(** The digits are read back as the number, whatever follows them. *)
Lemma digits_val_dec_go fuel n a acc :
  0 <= n < 2 ^ Z.of_nat fuel →
  ∃ k, 0 <= k ∧ digits_val a (dec_go fuel n acc) = digits_val (a * 10 ^ k + n) acc.
Proof.
  revert n a acc. induction fuel as [|fuel IH]; intros n a acc Hn.
  - change (2 ^ Z.of_nat 0) with 1 in Hn. exists 0. simpl.
    replace (a * 10 ^ 0 + n) with a by lia. done.
  - cbn [dec_go].
    assert (Hm : 0 <= n mod 10 < 10) by (apply Z.mod_pos_bound; lia).
    destruct (Z.ltb_spec n 10) as [Hlt|Hge].
    + exists 1. split; [lia|]. cbn [digits_val].
      rewrite isdigit_digit, code_digit by done.
      rewrite Z.mod_small by lia. f_equal. lia.
    + destruct (IH (n / 10) a (digit (n mod 10) :: acc)) as (k & Hk & ->).
      { split; [apply Z.div_pos; lia|].
        apply Z.div_lt_upper_bound; [lia|].
        rewrite Nat2Z.inj_succ, Z.pow_succ_r in Hn by lia.
        pose proof (Z.pow_nonneg 2 (Z.of_nat fuel) ltac:(lia)). lia. }
      exists (k + 1). split; [lia|]. cbn [digits_val].
      rewrite isdigit_digit, code_digit by done. f_equal.
      rewrite Z.pow_add_r by lia. pose proof (Z.div_mod n 10 ltac:(lia)). lia.
Qed.

Lemma dec_fuel n : 0 <= n → 0 <= n < 2 ^ Z.of_nat (S (Z.to_nat (Z.log2 n))).
Proof.
  intros Hn. split; [done|].
  rewrite Nat2Z.inj_succ, Z2Nat.id by apply Z.log2_nonneg.
  destruct (decide (n = 0)) as [->|]; [done|].
  apply Z.log2_spec. lia.
Qed.

(** Every character of [%d] is a digit or the leading sign. *)
Lemma dec_go_digits fuel n acc :
  0 <= n → (∀ c, c ∈ dec_go fuel n acc → isdigit c = true ∨ c ∈ acc).
Proof.
  revert n acc. induction fuel as [|fuel IH]; intros n acc Hn c Hc; [by right|].
  cbn [dec_go] in Hc.
  assert (Hm : isdigit (digit (n mod 10)) = true)
    by (apply isdigit_digit, Z.mod_pos_bound; lia).
  destruct (n <? 10).
  - apply elem_of_cons in Hc as [->|]; auto.
  - apply IH in Hc; [|apply Z.div_pos; lia].
    destruct Hc as [|Hc]; [by left|].
    apply elem_of_cons in Hc as [->|]; auto.
Qed.

Lemma dec_chars z c : c ∈ dec z → isdigit c = true ∨ c = "-"%char.
Proof.
  unfold dec. destruct (Z.ltb_spec z 0) as [Hz|Hz]; intros Hc.
  - apply elem_of_cons in Hc as [->|Hc]; [by right|].
    apply dec_go_digits in Hc; [|lia].
    destruct Hc as [?|?%not_elem_of_nil]; [by left|done].
  - apply dec_go_digits in Hc; [|lia].
    destruct Hc as [?|?%not_elem_of_nil]; [by left|done].
Qed.

Lemma dec_nonneg_digits n c : 0 <= n → c ∈ dec n → isdigit c = true.
Proof.
  intros Hn. unfold dec. rewrite (proj2 (Z.ltb_ge n 0)) by done. intros Hc.
  apply dec_go_digits in Hc; [|done]. destruct Hc as [?|?%not_elem_of_nil]; done.
Qed.


Lemma dec_nul_free z : nul_free (dec z).
Proof. intros Hc%dec_chars. by destruct Hc. Qed.

Lemma dec_go_head fuel n acc :
  0 <= n → ∃ c s, dec_go (S fuel) n acc = c :: s ∧ isdigit c = true.
Proof.
  revert n acc. induction fuel as [|fuel IH]; intros n acc Hn.
  - cbn [dec_go]. assert (isdigit (digit (n mod 10)) = true)
      by (apply isdigit_digit, Z.mod_pos_bound; lia).
    destruct (n <? 10); eauto.
  - cbn [dec_go]. assert (isdigit (digit (n mod 10)) = true)
      by (apply isdigit_digit, Z.mod_pos_bound; lia).
    destruct (n <? 10); [eauto|]. apply IH. apply Z.div_pos; lia.
Qed.

Lemma atoi_digit_head c s :
  isdigit c = true → atoi (c :: s) = clamp_int (digits_val 0 (c :: s)).
Proof. destruct c as [[] [] [] [] [] [] [] []]; vm_compute code; done. Qed.

Lemma atoi_minus s : atoi ("-"%char :: s) = clamp_int (- digits_val 0 s).
Proof. done. Qed.

Lemma clamp_int_id z : - 2 ^ 31 <= z < 2 ^ 31 → clamp_int z = z.
Proof. unfold clamp_int. lia. Qed.

(** Printing an [int] with [%d] and reading it with [atoi] gives it back. *)
Lemma atoi_dec z : - 2 ^ 31 <= z < 2 ^ 31 → atoi (dec z) = z.
Proof.
  intros Hz. unfold dec. destruct (Z.ltb_spec z 0) as [Hneg|Hpos].
  - rewrite atoi_minus.
    destruct (digits_val_dec_go (S (Z.to_nat (Z.log2 (- z)))) (- z) 0 [])
      as (k & Hk & ->); [apply dec_fuel; lia|].
    cbn [digits_val]. rewrite clamp_int_id; lia.
  - destruct (dec_go_head (Z.to_nat (Z.log2 z)) z []) as (c & s & E & Hc); [lia|].
    rewrite E, atoi_digit_head by done. rewrite <- E.
    destruct (digits_val_dec_go (S (Z.to_nat (Z.log2 z))) z 0 [])
      as (k & Hk & ->); [by apply dec_fuel|].
    cbn [digits_val]. rewrite clamp_int_id; lia.
Qed.

Lemma atoi_range s : - 2 ^ 31 <= atoi s < 2 ^ 31.
Proof.
  assert (H : ∀ z, - 2 ^ 31 <= clamp_int z < 2 ^ 31) by (unfold clamp_int; lia).
  unfold atoi. repeat case_match; apply H.
Qed.


Lemma dec_inj x y :
  - 2 ^ 31 <= x < 2 ^ 31 → - 2 ^ 31 <= y < 2 ^ 31 → dec x = dec y → x = y.
Proof. intros Hx Hy E. rewrite <- (atoi_dec x), E, atoi_dec; done. Qed.

(** The longest [%d] of an [int] has eleven characters. *)
Lemma dec_go_length fuel n acc k :
  0 <= n < 10 ^ Z.of_nat k → (0 < k)%nat →
  (length (dec_go fuel n acc) <= k + length acc)%nat.
Proof.
  revert n acc k. induction fuel as [|fuel IH]; intros n acc k Hn Hk; [simpl; lia|].
  cbn [dec_go]. destruct (Z.ltb_spec n 10) as [|Hge]; [simpl; lia|].
  destruct k as [|[|k]]; [lia|simpl in Hn; lia|].
  etransitivity; [apply (IH _ _ (S k)); [|lia]|simpl; lia].
  split; [apply Z.div_pos; lia|]. apply Z.div_lt_upper_bound; [lia|].
  rewrite <- Z.pow_succ_r by lia. rewrite <- Nat2Z.inj_succ. lia.
Qed.

Lemma dec_length z : - 2 ^ 31 <= z < 2 ^ 31 → (length (dec z) <= 11)%nat.
Proof.
  intros Hz. unfold dec. destruct (Z.ltb_spec z 0).
  - cbn [length]. pose proof (dec_go_length (S (Z.to_nat (Z.log2 (- z)))) (- z) [] 10).
    simpl length in *. lia.
  - pose proof (dec_go_length (S (Z.to_nat (Z.log2 z))) z [] 10).
    simpl length in *. lia.
Qed.

#[export] Hint Resolve dec_nul_free atoi_range : wap.

(** ** Hexadecimal numbers *)

Definition hexdigit (upper : bool) (n : Z) : ascii :=
  if n <? 10 then chr (48 + n) else chr ((if upper then 55 else 87) + n).

Fixpoint hex_go (upper : bool) (fuel : nat) (n : Z) (acc : cstr) : cstr :=
  match fuel with
  | O => acc
  | S fuel' =>
      let acc' := hexdigit upper (n mod 16) :: acc in
      if n <? 16 then acc' else hex_go upper fuel' (n / 16) acc'
  end.

(** [%x] and [%X] of a 32-bit value; eight digits are enough. *)
Definition hex (upper : bool) (z : Z) : cstr := hex_go upper 8 (wrap32 z) [].

(** The [0] flag with a field width. *)
Definition pad0 (width : nat) (s : cstr) : cstr := replicate (width - length s) "0"%char ++ s.

(** ** [sscanf] directives on a buffer

    Each reads from the front of the buffer and gives the rest; [Done None] is
    a matching failure, and running off the buffer is a [Fault]. *)

Fixpoint scan_space (m : bytes) : outcome bytes :=
  match m with
  | [] => Fault
  | c :: m' => if c_isspace c then scan_space m' else Done m
  end.

Fixpoint scan_digits (acc : Z) (m : bytes) : outcome (Z * bytes) :=
  match m with
  | [] => Fault
  | c :: m' =>
      if isdigit c then scan_digits (10 * acc + (code c - 48)) m' else Done (acc, m)
  end.

(** [%d] *)
Definition scan_d (m : bytes) : outcome (option (Z * bytes)) :=
  m1 ← scan_space m;
  let '(neg, m2) := match m1 with
                    | "-"%char :: r => (true, r)
                    | "+"%char :: r => (false, r)
                    | r => (false, r)
                    end in
  match m2 with
  | [] => Fault
  | c :: _ =>
      if isdigit c then
        r ← scan_digits 0 m2;
        let '(v, rest) := (r : Z * bytes) in
        Done (Some (clamp_int (if (neg : bool) then - v else v), rest))
      else Done None
  end.

(** A literal character. *)
Definition scan_lit (c : ascii) (m : bytes) : outcome (option bytes) :=
  match m with
  | [] => Fault
  | d :: m' => Done (if decide (d = c) then Some m' else None)
  end.

(** [%*[^c]]: at least one character other than [c]. *)
Fixpoint scan_until (c : ascii) (m : bytes) : outcome bytes :=
  match m with
  | [] => Fault
  | d :: m' => if decide (d = c ∨ d = NUL) then Done m else scan_until c m'
  end.
Definition scan_not (c : ascii) (m : bytes) : outcome (option bytes) :=
  r ← scan_until c m;
  Done (if decide (length r = length m) then None else Some r).

(** [strstr] in a buffer: the suffix at the first occurrence, [Done None] at
    the terminator. *)
Fixpoint buf_prefix (p m : bytes) : outcome bool :=
  match p, m with
  | [], _ => Done true
  | _, [] => Fault
  | a :: p', b :: m' => if decide (a = b) then buf_prefix p' m' else Done false
  end.
Fixpoint buf_strstr (p m : bytes) : outcome (option bytes) :=
  match m with
  | [] => Fault
  | c :: m' =>
      if decide (c = NUL) then Done None
      else b ← buf_prefix p m; if (b : bool) then Done (Some m) else buf_strstr p m'
  end.

(** ** Formats *)

(** Flags, a width and a precision. *)
Fixpoint skip_flags (f : cstr) : cstr :=
  match f with
  | c :: f' => if isdigit c || bool_decide (c ∈ ["."; "-"; "l"]%char) then skip_flags f' else f
  | [] => []
  end.

(** A format as the source writes it: a conversion is the next argument, a
    text that is already as wide as the conversion makes it; [%%] a percent
    sign, [%q] a double quote; [\n] and [\t] the characters they stand for. *)
Fixpoint format_go (fuel : nat) (f : cstr) (args : list cstr) : cstr :=
  match fuel with
  | O => []
  | S fuel =>
      match f with
      | "%"%char :: "%"%char :: f' => "%"%char :: format_go fuel f' args
      | "%"%char :: "q"%char :: f' => "034"%char :: format_go fuel f' args
      | "%"%char :: f' =>
          match args with
          | a :: args' => a ++ format_go fuel (tail (skip_flags f')) args'
          | [] => format_go fuel (tail (skip_flags f')) []
          end
      | "\"%char :: "n"%char :: f' => "010"%char :: format_go fuel f' args
      | "\"%char :: "t"%char :: f' => "009"%char :: format_go fuel f' args
      | c :: f' => c :: format_go fuel f' args
      | [] => []
      end
  end.
Definition format (f : cstr) (args : list cstr) : cstr := format_go (length f) f args.
