(* ===== verification/Inet.v ===== *)
(** * IPv4 addresses of the C library

    [inet_ntoa] and [inet_addr] as the BSD library defines them (one to four
    parts, each decimal, octal or hexadecimal), on the big-endian target, where
    the address as an integer has its first byte on top. *)

From S2P Require Import Prelude CLib.

Definition INADDR_NONE : Z := 0xffffffff.

(** The four bytes of an address. *)
Definition octet (z : Z) (i : Z) : Z := (z / 2 ^ (8 * (3 - i))) mod 256.

(** The argument is the 32-bit pattern or the [int] that holds it. *)
Definition inet_ntoa (z : Z) : cstr :=
  dec (octet z 0) ++ "."%char :: dec (octet z 1) ++ "."%char ::
  dec (octet z 2) ++ "."%char :: dec (octet z 3).

Definition isxalpha (c : ascii) : bool :=
  ((65 <=? code c) && (code c <=? 70)) || ((97 <=? code c) && (code c <=? 102)).
Definition xval (c : ascii) : Z := if islower c then code c - 87 else code c - 55.

(** The digits of one part in a base, with the value so far (modulo 2^32). *)
Fixpoint part_digits (base v : Z) (s : cstr) : Z * cstr :=
  match s with
  | c :: s' =>
      if isdigit c then part_digits base (wrap32 (v * base + (code c - 48))) s'
      else if (base =? 16) && isxalpha c
      then part_digits base (wrap32 (v * 16 + xval c)) s'
      else (v, s)
  | [] => (v, s)
  end.

Definition part (s : cstr) : option (Z * cstr) :=
  match s with
  | [] => None
  | c :: s' =>
      if negb (isdigit c) then None
      else if decide (c = "0"%char) then
        match s' with
        | "x"%char :: s2 | "X"%char :: s2 => Some (part_digits 16 0 s2)
        | _ => Some (part_digits 8 0 s')
        end
      else Some (part_digits 10 0 s)
  end.

(** At most [n] more parts after the current one. *)
Fixpoint parts (n : nat) (s : cstr) : option (list Z * cstr) :=
  match part s with
  | None => None
  | Some (v, rest) =>
      match rest with
      | "."%char :: rest' =>
          match n with
          | O => None
          | S n' => match parts n' rest' with
                    | Some (vs, r) => Some (v :: vs, r)
                    | None => None
                    end
          end
      | _ => Some ([v], rest)
      end
  end.

(** [inet_aton]: [None] for the result 0. *)
Definition inet_aton (s : cstr) : option Z :=
  match parts 3 s with
  | None => None
  | Some (vs, rest) =>
      let tail_ok := match rest with [] => true | c :: _ => c_isspace c end in
      if negb tail_ok then None
      else match vs with
           | [v] => Some v
           | [a; v] => if (0xffffff <? v) || (255 <? a) then None
                       else Some (a * 2 ^ 24 + v)
           | [a; b; v] => if (0xffff <? v) || (255 <? a) || (255 <? b) then None
                          else Some (a * 2 ^ 24 + b * 2 ^ 16 + v)
           | [a; b; c; v] =>
               if (255 <? v) || (255 <? a) || (255 <? b) || (255 <? c) then None
               else Some (a * 2 ^ 24 + b * 2 ^ 16 + c * 2 ^ 8 + v)
           | _ => None
           end
  end.

Definition inet_addr (s : cstr) : Z := default INADDR_NONE (inet_aton s).

(** ** The round trip *)

Lemma octet_range z i : 0 <= octet z i < 256.
Proof. unfold octet. apply Z.mod_pos_bound. lia. Qed.

(** Every byte, by evaluation: the printed part is read back, whatever
    character that is neither a digit nor [x] follows. *)
Definition part_ok (b : Z) : bool :=
  match part (dec b ++ ["."%char]), part (dec b) with
  | Some (v, r), Some (w, q) =>
      (v =? b) && (w =? b) && bool_decide (r = ["."%char]) && bool_decide (q = [])
  | _, _ => false
  end.

Lemma part_all : forallb part_ok (map Z.of_nat (seq 0 256)) = true.
Proof. vm_compute. reflexivity. Qed.

Lemma part_byte b : 0 <= b < 256 → part_ok b = true.
Proof.
  intros Hb. pose proof part_all as H. rewrite forallb_forall in H. apply H.
  apply in_map_iff. exists (Z.to_nat b). split; [lia|]. apply in_seq. lia.
Qed.

(** What follows the dot does not matter. *)
Lemma part_digits_app base v s r x t :
  part_digits base v (s ++ ["."%char]) = (x, r) → r = ["."%char] →
  part_digits base v (s ++ "."%char :: t) = (x, "."%char :: t).
Proof.
  revert v. induction s as [|c s IH]; intros v H Hr.
  - simpl in *. change (isdigit ".") with false in *. cbn match in *.
    change (isxalpha ".") with false in *. rewrite andb_false_r in *. by simplify_eq.
  - simpl in *. destruct (isdigit c); [by apply IH|].
    destruct ((base =? 16) && isxalpha c); [by apply IH|].
    simplify_eq. destruct s; simplify_eq/=.
Qed.

Lemma dec_byte_shape b : 0 <= b < 256 →
  ∃ c s, dec b = c :: s ∧ isdigit c = true ∧ (c = "0"%char → s = []).
Proof.
  intros Hb.
  assert (H : forallb (λ b, match dec b with
      | c :: s => isdigit c && (negb (bool_decide (c = "0"%char)) || bool_decide (s = []))
      | [] => false end) (map Z.of_nat (seq 0 256)) = true) by (vm_compute; reflexivity).
  rewrite forallb_forall in H. specialize (H b). cbv beta in H.
  destruct (dec b) as [|c s].
  { assert (false = true); [|done]. apply H. apply in_map_iff. exists (Z.to_nat b).
    split; [lia|]. apply in_seq. lia. }
  exists c, s. assert (Hc : isdigit c && (negb (bool_decide (c = "0"%char)) || bool_decide (s = [])) = true).
  { apply H. apply in_map_iff. exists (Z.to_nat b). split; [lia|]. apply in_seq. lia. }
  apply andb_true_iff in Hc as [Hc1 Hc2]. split; [done|]. split; [done|]. intros ->.
  rewrite bool_decide_true in Hc2 by done. simpl in Hc2. by apply bool_decide_eq_true in Hc2.
Qed.

Lemma part_dec_dot b t : 0 <= b < 256 → part (dec b ++ "."%char :: t) = Some (b, "."%char :: t).
Proof.
  intros Hb. pose proof (part_byte b Hb) as H. unfold part_ok in H.
  destruct (dec_byte_shape b Hb) as (c & s & E & Hc & Hz). rewrite E in *.
  cbn [app part] in *. rewrite Hc in *. cbn [negb] in *.
  destruct (decide (c = "0"%char)) as [Ec|Ec].
  - rewrite (Hz Ec) in *. subst c. cbn [app] in *.
    cbn in H |- *. replace b with 0; [done|].
    destruct b; [done|discriminate H|discriminate H].
  - change (c :: s ++ ["."%char]) with ((c :: s) ++ ["."%char]) in H.
    destruct (part_digits 10 0 ((c :: s) ++ ["."%char])) as [v r] eqn:Ed.
    destruct (part_digits 10 0 (c :: s)) as [w q].
    apply andb_true_iff in H as [H _]. apply andb_true_iff in H as [H Hr%bool_decide_eq_true].
    apply andb_true_iff in H as [Hv%Z.eqb_eq _]. subst.
    change (c :: s ++ "."%char :: t) with ((c :: s) ++ "."%char :: t).
    f_equal. by eapply part_digits_app.
Qed.

Lemma part_dec_end b : 0 <= b < 256 → part (dec b) = Some (b, []).
Proof.
  intros Hb. pose proof (part_byte b Hb) as H. unfold part_ok in H.
  destruct (part (dec b ++ ["."%char])) as [[v r]|]; [|done].
  destruct (part (dec b)) as [[w q]|]; [|done].
  apply andb_true_iff in H as [H Hq%bool_decide_eq_true].
  apply andb_true_iff in H as [H _]. apply andb_true_iff in H as [_ Hw%Z.eqb_eq]. by subst.
Qed.

Lemma octets z : 0 <= z < 2 ^ 32 →
  octet z 0 * 2 ^ 24 + octet z 1 * 2 ^ 16 + octet z 2 * 2 ^ 8 + octet z 3 = z.
Proof.
  intros Hz. unfold octet. cbn [Z.sub Z.mul Z.opp Z.add Pos.add].
  change (2 ^ (8 * (3 - 0))) with (2 ^ 8 * 2 ^ 8 * 2 ^ 8).
  change (2 ^ (8 * (3 - 1))) with (2 ^ 8 * 2 ^ 8). change (2 ^ (8 * (3 - 2))) with (2 ^ 8).
  change (2 ^ (8 * (3 - 3))) with 1. rewrite <- !Z.div_div by lia.
  change (2 ^ 8) with 256. change (2 ^ 24) with 16777216. change (2 ^ 16) with 65536.
  change (2 ^ 32) with 4294967296 in Hz. Z.to_euclidean_division_equations. lia.
Qed.

(** [inet_addr] reads what [inet_ntoa] prints. *)
Lemma inet_addr_ntoa z : 0 <= z < 2 ^ 32 → inet_addr (inet_ntoa z) = z.
Proof.
  intros Hz. unfold inet_addr, inet_aton, inet_ntoa.
  pose proof (octet_range z) as H.
  cbn [parts]. rewrite part_dec_dot by done. cbn match. cbn [parts].
  rewrite part_dec_dot by done. cbn match. cbn [parts].
  rewrite part_dec_dot by done. cbn match. cbn [parts].
  rewrite part_dec_end by done. cbn match. cbn [negb].
  rewrite !(proj2 (Z.ltb_ge 255 (octet z _)))
    by (pose proof (H 0); pose proof (H 1); pose proof (H 2); pose proof (H 3); lia).
  cbn [orb default from_option id]. by apply octets.
Qed.

Lemma octet_sint32 z i : 0 <= z < 2 ^ 32 → 0 <= i <= 3 → octet (sint32 z) i = octet z i.
Proof.
  intros Hz Hi. unfold sint32, octet.
  destruct (decide (z < 2 ^ 31)).
  { rewrite (Z.mod_small (z + 2 ^ 31)) by lia. do 2 f_equal. lia. }
  replace ((z + 2 ^ 31) mod 2 ^ 32 - 2 ^ 31) with (z + (-1) * 2 ^ 32).
  2: { replace (z + 2 ^ 31) with (z - 2 ^ 31 + 1 * 2 ^ 32) by lia.
       rewrite Z.mod_add, Z.mod_small by lia. lia. }
  replace (2 ^ 32) with (2 ^ (8 * (i + 1)) * 2 ^ (8 * (3 - i))) by (rewrite <- Z.pow_add_r by lia; f_equal; lia).
  rewrite Z.mul_assoc, Z.div_add by (apply Z.pow_nonzero; lia).
  replace (-1 * 2 ^ (8 * (i + 1))) with ((- 2 ^ (8 * i)) * 256)
    by (replace (8 * (i + 1)) with (8 * i + 8) by lia; rewrite Z.pow_add_r by lia; lia).
  by rewrite Z.mod_add by lia.
Qed.

(** As [int]s, which is how the configuration functions pass addresses. *)
Lemma inet_addr_ntoa_int v :
  - 2 ^ 31 <= v < 2 ^ 31 → sint32 (inet_addr (inet_ntoa v)) = v.
Proof.
  intros Hv.
  assert (Hs : sint32 (wrap32 v) = v)
    by (unfold sint32, wrap32; rewrite Zplus_mod_idemp_l, Z.mod_small by lia; lia).
  replace (inet_ntoa v) with (inet_ntoa (wrap32 v)).
  { by rewrite inet_addr_ntoa by apply wrap32_range. }
  rewrite <- Hs at 2. unfold inet_ntoa. by rewrite !octet_sint32 by (apply wrap32_range || lia).
Qed.

Lemma dec_no_eq z : "="%char ∉ dec z.
Proof. intros Hc%dec_chars. by destruct Hc. Qed.

Lemma inet_ntoa_chars z c : c ∈ inet_ntoa z → isdigit c = true ∨ c = "-"%char ∨ c = "."%char.
Proof.
  unfold inet_ntoa. rewrite !elem_of_app, !elem_of_cons, !elem_of_app, !elem_of_cons, !elem_of_app, !elem_of_cons.
  intros H. assert (∀ b, c ∈ dec b → isdigit c = true ∨ c = "-"%char) by (intros b; apply dec_chars).
  naive_solver.
Qed.

Lemma inet_ntoa_length z : (length (inet_ntoa z) <= 15)%nat.
Proof.
  unfold inet_ntoa. rewrite !length_app. cbn [length]. rewrite !length_app. cbn [length].
  rewrite !length_app. cbn [length].
  assert (H : ∀ i, (length (dec (octet z i)) <= 3)%nat).
  { intros i. pose proof (octet_range z i) as Hr. unfold dec.
    rewrite (proj2 (Z.ltb_ge _ _)) by lia.
    pose proof (dec_go_length (S (Z.to_nat (Z.log2 (octet z i)))) (octet z i) [] 3) as Hl.
    simpl length in *. lia. }
  pose proof (H 0). pose proof (H 1). pose proof (H 2). pose proof (H 3). lia.
Qed.
