(* ===== verification/Utility.v ===== *)
(** * The utility functions (libutility/utility.c)

    The validators, converters and the sort of the firmware's utility library.
    A string argument is the list of its characters without the terminator; an
    argument that is a buffer is the list of the bytes that may be read, so
    reading past it is a [Fault].  [memcmp] on strings compares up to the first
    difference. *)

From S2P Require Import Prelude CLib Inet.

(** The character at an index of a string, the terminator included. *)
Definition ch (s : cstr) (i : nat) : ascii := nth i s NUL.
(** The same of a buffer. *)
Definition at_buf (m : bytes) (i : nat) : outcome ascii :=
  match m !! i with Some c => Done c | None => Fault end.
(** [memcmp(p, lit, n) == 0] at the front of a string. *)
Definition starts (lit s : cstr) : bool := bool_decide (take (length lit) s = lit).

(** ** Case and character classes *)

Definition scToLows (charStr : cstr) : cstr := map tolower charStr.
Definition scToUppers (charStr : cstr) : cstr := map toupper charStr.

Definition scIsIpAddress (ipAddr : cstr) : bool :=
  let ip := inet_addr ipAddr in
  negb ((ip <? inet_addr "1.0.0.1") || (inet_addr "254.255.255.254" <? ip)).

Definition scIsAllnumber (s : cstr) : bool := forallb (strchr "0123456789.") s.

Definition str : cstr := "abcdefghijklmnopqrstuvwxyzABCDEFGHIJKLMNOPQRSTUVWXYZ0123456789_.".
Definition scValidStr (charStr : cstr) : bool := forallb (strchr str) charStr.

Definition dquote : ascii := "034"%char.
Definition validstr : cstr := dquote :: "\[<]>:;,|=+*? ~!@#$%^&()`{}".

(** [strncasecmp(p, lit, strlen(lit)) == 0] *)
Definition starts_nocase (lit s : cstr) : bool :=
  bool_decide (take (length lit) (map tolower s) = lit).

Definition scValidUrl (charStr : cstr) : outcome bool :=
  if decide (129 <= length charStr)%nat then Fault
  else
    let tempUrl := charStr in
    let pt := if starts_nocase "http://" tempUrl then drop 7 tempUrl
              else if starts_nocase "https://" tempUrl then drop 8 tempUrl
              else tempUrl in
    let count := length (filter (λ c, c = "."%char) pt) in
    Done (if decide (count = 0%nat) then false
          else if bool_decide (count = 3%nat) && scIsIpAddress tempUrl then true
          else if existsb (strchr validstr) pt then false
          else negb (scIsAllnumber pt)).

Definition scValidHex (c : ascii) : bool := strchr "0123456789ABCDEFabcdef" c.
Definition scValidHexs (s : bytes) (len : Z) : outcome bool :=
  if decide (len <= zlen s) then Done (forallb scValidHex (take (Z.to_nat len) s))
  else if forallb scValidHex s then Fault else Done false.

(** ** IPv6 addresses *)

Record v6 : Type := V6 {
  flagdotNo : Z; flagcolNo : Z; flagcolCo : Z; flaghex : Z; flagdec : Z;
  flagslash : Z; start_p : nat;
}.

(** One round of the [for] loop at index [i]: [None] is [return 0]; otherwise
    the index the round ended at and whether it left the loop. *)
Definition v6_step (ipStr : cstr) (flag : bool) (i : nat) (f : v6) : option (nat * bool * v6) :=
  let size := length ipStr in
  let c := ch ipStr i in
  if decide (c = "/"%char) then
    let f' := V6 (flagdotNo f) (flagcolNo f) (flagcolCo f) (flaghex f) (flagdec f)
                 (flagslash f + 1) (start_p f) in
    if flag then
      let p1 := drop (S i) ipStr in
      if bool_decide ("/"%char ∈ p1) then None
      else if (atoi p1 <? 0) || (128 <? atoi p1) then None
      else Some (i, true, f')
    else None
  else if decide (c = ":"%char) then
    if starts ":::" (drop i ipStr) then None
    else
      r ← (if starts "::" (drop i ipStr) then
             if 1 <=? flagcolCo f then None
             else Some (S i, V6 (flagdotNo f) (flagcolNo f) (flagcolCo f + 1) 0 0
                               (flagslash f) (S (S i)))
           else if decide (i = 0%nat) then None
           else if (if flag then bool_decide (ch ipStr (S i) = "/"%char)
                    else bool_decide (S i = size)) then None
           else Some (i, f));
      let '(j, f1) := (r : nat * v6) in
      if negb (starts "::" (drop (j - 1) ipStr)) && bool_decide (ch ipStr (S j) = "."%char)
      then None
      else if (flagdotNo f1 =? 0) && (flagcolNo f1 <? 7) then
        Some (j, false, V6 (flagdotNo f1) (flagcolNo f1 + 1) (flagcolCo f1) 0 0
                          (flagslash f1) (S j))
      else None
  else if scValidHex c then
    let hex := flaghex f + 1 in
    let dec := if isdigit c then flagdec f + 1 else 0 in
    if 4 <? hex then None
    else Some (i, false, V6 (flagdotNo f) (flagcolNo f) (flagcolCo f) hex dec
                           (flagslash f) (start_p f))
  else if decide (c = "."%char) then
    if (1 <=? flaghex f) && (flaghex f <=? 3) && (flagdec f =? flaghex f) then
      if isdigit (ch ipStr (S i)) then
        let dotNo := flagdotNo f + 1 in
        if (dotNo =? 1) && (inet_addr (drop (start_p f) ipStr) =? INADDR_NONE) then None
        else if 3 <? dotNo then None
        else Some (i, false, V6 dotNo (flagcolNo f) (flagcolCo f) 0 0 (flagslash f) (start_p f))
      else None
    else None
  else None.

Fixpoint v6_loop (fuel : nat) (ipStr : cstr) (flag : bool) (i : nat) (f : v6) : option v6 :=
  match fuel with
  | O => Some f
  | S fuel' =>
      if decide (length ipStr <= i)%nat then Some f
      else
        match v6_step ipStr flag i f with
        | None => None
        | Some (j, true, f') => Some f'
        | Some (j, false, f') => v6_loop fuel' ipStr flag (S j) f'
        end
  end.

Definition scValidIPv6 (ipStr : cstr) (flag : bool) : bool :=
  if (if flag then 46 else 40) <? zlen ipStr then false
  else
    match v6_loop (length ipStr) ipStr flag 0 (V6 0 0 0 0 0 0 0) with
    | None => false
    | Some f =>
        negb (((flagcolNo f =? 1) && (7 <? flagcolCo f)) ||
              ((flagcolCo f =? 0) && negb (flagcolNo f =? 7)) ||
              (negb (flagdotNo f =? 0) && negb (flagdotNo f =? 3)) ||
              (if flag then negb (flagslash f =? 1) else false))
    end.

(** The [else] branch of [scValidGWv6] on the rest of the token; [prev] is the
    byte before it, [None] when that is outside the buffer. *)
Fixpoint gw_loop (fuel : nat) (prev : option ascii) (p : cstr) (colCo colNo hex : Z) : outcome bool :=
  match fuel, p with
  | _, [] => Done true
  | O, _ => Stuck
  | S fuel', c :: p1 =>
      if decide (c = ":"%char) then
        if starts ":::" p then Done false
        else if starts "::" p && (1 <=? colCo) then Done false
        else
          let '(prev', q, colCo', hex') :=
            if starts "::" p then (Some c, tail p, colCo + 1, 0) else (prev, p, colCo, hex) in
          bad ← (if decide (length q = 1%nat) then
                   match prev' with
                   | Some b => Done (negb (bool_decide (b = ":"%char)))
                   | None => Fault
                   end
                 else Done false);
          if (bad : bool) then Done false
          else if colNo <? 7 then gw_loop fuel' (Some ":"%char) (tail q) colCo' (colNo + 1) 0
          else Done false
      else if scValidHex c then
        if 4 <? hex + 1 then Done false
        else gw_loop fuel' (Some c) p1 colCo colNo (hex + 1)
      else Done false
  end.

Definition scValidGWv6 (ipStr : cstr) : outcome bool :=
  if decide (46 <= length ipStr)%nat then Fault
  else
    let '(tok, saved) := strtok ["/"%char] ipStr in
    let '(p, prefix) := match tok with None => (ipStr, 128) | Some p => (p, 0) end in
    let prev := if starts "/" ipStr && bool_decide (is_Some tok) then Some "/"%char else None in
    lst ← (if bool_decide (ch p 0 = ":"%char) then Done ":"%char
           else match last p with Some c => Done c | None => Fault end);
    ok ← (if negb (bool_decide (lst = ":"%char)) then Done (scValidIPv6 p false)
          else gw_loop (S (length p)) prev p 0 0 0);
    if negb (ok : bool) then Done false
    else if prefix =? 128 then Done true
    else
      match (strtok ["/"%char] saved).1 with
      | None => Fault
      | Some q => let prefix := atoi q in Done (negb ((prefix <? 0) || (128 <? prefix)))
      end.

(** ** E-mail addresses and host names *)

Definition InvalidStr : cstr := "`~!@#$%^&*-+=\" ++ dquote :: "'()[]{};:,<>?/ ".

(** The index of the last dot after the first character, 0 when there is none. *)
Fixpoint last_dot (i last_ : nat) (s : cstr) : nat :=
  match s with
  | [] => last_
  | c :: s' => last_dot (S i) (if decide (c = "."%char) then i else last_) s'
  end.

(** [strchr(email, '@')] as an index. *)
Fixpoint first_at (i : nat) (s : cstr) : option nat :=
  match s with
  | [] => None
  | c :: s' => if decide (c = "@"%char) then Some i else first_at (S i) s'
  end.

Definition scValidEmailAddr (email : cstr) (len : Z) : bool :=
  match first_at 0 email with
  | None => false
  | Some sign =>
      if starts "." email then false
      else
        let lastdot := last_dot 1 0 (tail email) in
        let d := len - Z.of_nat lastdot in
        if bool_decide (lastdot = 0%nat) || (negb (d =? 3) && negb (d =? 4)) then false
        else forallb (λ i, bool_decide (i = sign) || negb (strchr InvalidStr (ch email i)))
               (seq 0 (Z.to_nat len))
  end.

Definition scHostnameIsAllNumber (s : cstr) : bool := forallb (strchr "0123456789") s.
Definition HostnameStr : cstr := "abcdefghijklmnopqrstuvwxyzABCDEFGHIJKLMNOPQRSTUVWXYZ0123456789-".
Definition scValidHostnameStr (charStr : cstr) : bool := forallb (strchr HostnameStr) charStr.

Definition scValidHostName (pName : cstr) (len : Z) : outcome bool :=
  if len <? 1 then Done false
  else
    let buf := pName ++ [NUL] in
    a ← at_buf buf 0;
    z ← (if decide (a = "-"%char) then Done a else at_buf buf (Z.to_nat (len - 1)));
    if decide (a = "-"%char ∨ z = "-"%char) then Done false
    else if negb (scValidHostnameStr pName) then Done false
    else Done (negb (scHostnameIsAllNumber pName)).

Definition invalidMSNameStr : cstr := dquote :: "/\[<]>.:;,|=+*? `".

(** [len] characters of a buffer; [strstr] with the empty string succeeds. *)
Definition scValidNetbiosName (pName : bytes) (len : Z) : outcome bool :=
  if len <? 1 then Done false
  else if starts "-" pName then Done false
  else if zlen pName <? len then Fault
  else
    let name := take (Z.to_nat len) pName in
    if bool_decide (last name = Some "-"%char) then Done false
    else if existsb (strchr invalidMSNameStr) name then Done false
    else Done (existsb (λ c, negb (isdigit c)) name).

(** ** Bytes and hexadecimal text *)

(** [for(i=5; i>=0 && !++mac1[i]; i--);] on the bytes from the last one. *)
Fixpoint mac_carry (rev_mac : bytes) : bytes :=
  match rev_mac with
  | [] => []
  | c :: m => let c' := chr (code c + 1) in
              if code c' =? 0 then c' :: mac_carry m else c' :: m
  end.
Definition mac_plus_one (mac : bytes) : bytes := rev (mac_carry (rev mac)).

Definition hex2 (c : ascii) : cstr := pad0 2 (hex true (code c)).

(** Writes a string and its terminator at an offset of the output. *)
Definition put_str (buf : bytes) (off : nat) (s : cstr) : bytes :=
  take off buf ++ s ++ NUL :: drop (off + length s + 1) buf.

(** The output buffer and the count returned; [charStr] holds [strLen] bytes. *)
Fixpoint chars2hexs_loop (charStr : bytes) (sep : option cstr) (p : nat) (cnt : Z) (hexBuf : bytes)
    : nat * Z * bytes :=
  match charStr with
  | [] => (p, cnt, hexBuf)
  | c :: rest =>
      match sep with
      | Some s => chars2hexs_loop rest sep (p + 3) (cnt + zlen (hex2 c ++ s))
                    (put_str hexBuf p (hex2 c ++ s))
      | None => chars2hexs_loop rest sep (p + 2) (cnt + 2) (put_str hexBuf p (hex2 c))
      end
  end.
Definition scChars2Hexs (charStr : bytes) (sep : option cstr) : outcome (Z * cstr) :=
  let '(p, cnt, buf) := chars2hexs_loop charStr sep 0 0 [] in
  match sep, p with
  | Some _, O => Fault
  | Some _, S p' => Done (cnt - 1, take p' buf)
  | None, _ => Done (cnt, take p buf)
  end.
Definition macAddrToString (macAddress : bytes) (sep : option cstr) : outcome (Z * cstr) :=
  scChars2Hexs (take 6 macAddress) sep.

Definition hexval (c : ascii) : option Z :=
  if isdigit c then Some (code c - 48)
  else if (65 <=? code c) && (code c <=? 70) then Some (code c - 65 + 10)
  else if (97 <=? code c) && (code c <=? 102) then Some (code c - 97 + 10)
  else None.

(** [None] in the result is -1. *)
Fixpoint scHex2Char (s : bytes) (len : nat) (result : Z) : outcome (option Z) :=
  match len, s with
  | O, _ => Done (Some result)
  | S _, [] => Fault
  | S len', c :: s' =>
      if decide (c = NUL) then Done (Some result)
      else if decide (c = " "%char) then scHex2Char s' len' result
      else match hexval c with
           | Some v => scHex2Char s' len' (sint32 (result * 16 + v))
           | None => Done None
           end
  end.

(** [lTemp] starts indeterminate and keeps its value on a bad digit. *)
Fixpoint scHexs2Chars (hexs : bytes) (len : nat) (interval : bool) (lTemp : option Z)
    : outcome bytes :=
  match len with
  | O => Done []
  | S len' =>
      r ← scHex2Char hexs 2 0;
      let lTemp' := match r with Some v => Some v | None => lTemp end in
      match lTemp' with
      | None => Fault
      | Some v =>
          rest ← scHexs2Chars (drop (if interval then 3 else 2) hexs) len' interval lTemp';
          Done (chr v :: rest)
      end
  end.

Definition scMacStr17ToStr12 (str17 : bytes) : outcome cstr :=
  if decide (length str17 < 17)%nat then Fault
  else Done (omap (λ i, if decide ((i + 1) mod 3 = 0)%nat then None else str17 !! i) (seq 0 17)).

Definition scMacStr12ToStr17 (str12 : bytes) (separator : ascii) : outcome cstr :=
  if decide (length str12 < 12)%nat then Fault
  else Done (map (λ i, if decide ((i + 1) mod 3 = 0)%nat then separator
                       else nth (i - (i + 1) / 3) str12 NUL) (seq 0 17)).

(** The key bytes stored; [A_EINVAL] (1) on a bad character, with what was
    stored before it. *)
Fixpoint passkey_loop (s : cstr) (room : nat) (tval : Z) (half : bool) (key : bytes) : Z * bytes :=
  match room, s with
  | O, _ | _, [] => (0, key)
  | S room', c :: s' =>
      match hexval c with
      | None => (1, key)
      | Some v =>
          let t := Z.lor (tval * 16 mod 256) v in
          if half then passkey_loop s' room' 0 false (key ++ [chr t])
          else passkey_loop s' room t true key
      end
  end.
Definition asciiToPassphraseKey (pstr : cstr) (encryptedKeyLen : nat) : Z * bytes :=
  passkey_loop pstr encryptedKeyLen 0 false [].

Definition scGetWord (buf : bytes) : outcome Z :=
  match buf with a :: b :: _ => Done (code a * 256 + code b) | _ => Fault end.
Definition scSetWord (w : Z) : bytes := [chr (w / 256); chr w].
Definition scGetDword (buf : bytes) : outcome Z :=
  match buf with
  | a :: b :: c :: d :: _ =>
      Done (code a * 2 ^ 24 + code b * 2 ^ 16 + code c * 2 ^ 8 + code d)
  | _ => Fault
  end.
Definition scSetDword (w : Z) : bytes :=
  [chr (w / 2 ^ 24); chr (w / 2 ^ 16); chr (w / 2 ^ 8); chr w].

(** ** Text for pages and scripts *)

Definition sgml_char (readOnly : bool) (c : ascii) : cstr :=
  if decide (c = "&"%char) then "&#38;"
  else if decide (c = dquote) then "&#34;"
  else if decide (c = "<"%char) then "&#60;"
  else if decide (c = ">"%char) then "&#62;"
  else if decide (c = "("%char) then "&#40;"
  else if decide (c = ")"%char) then "&#41;"
  else if decide (c = "'"%char) then "&#39;"
  else if decide (c = " "%char) then (if readOnly then "&nbsp;" else "&#32;")
  else [c].
Definition sgml_encode (pStrSrc : cstr) (readOnly : bool) : cstr :=
  concat (map (sgml_char readOnly) pStrSrc).

Definition scSecretHide (secret : cstr) : cstr := map (λ _, "*"%char) secret.
Definition scSecretHidden (secret : cstr) : bool :=
  match secret with [] => false | _ => forallb (λ c, bool_decide (c = "*"%char)) secret end.

Definition ssid_char (c : ascii) : cstr :=
  if decide (c = dquote ∨ c = "\"%char ∨ c = "`"%char) then ["\"%char; c] else [c].
Definition scConversionSSID (src : cstr) : cstr := concat (map ssid_char src).

(** ** IPv4 validity *)

(** [sscanf(netstr, "%d.%d.%d.%d", ...)] of the printed address. *)
Definition scIpSeparateTo4 (ipAddress : Z) : outcome (option (Z * Z * Z * Z)) :=
  let netstr := inet_ntoa ipAddress ++ [NUL] in
  let dot (k : bytes → outcome (option (Z * Z * Z * Z))) (m : bytes) :=
    r ← scan_lit "."%char m;
    match r with Some m' => k m' | None => Done None end in
  let num (k : Z → bytes → outcome (option (Z * Z * Z * Z))) (m : bytes) :=
    r ← scan_d m;
    match r with Some (v, m') => k v m' | None => Done None end in
  num (λ ip1, dot (num (λ ip2, dot (num (λ ip3, dot (num (λ ip4 _,
    Done (Some (ip1, ip2, ip3, ip4))))))))) netstr.

Definition scValidIpAddress (ipAddress : Z) : outcome bool :=
  r ← scIpSeparateTo4 ipAddress;
  Done (match r with
        | None => false
        | Some (ip0, ip1, ip2, ip3) =>
            if (ip0 <? 1) || (223 <? ip0) || (127 =? ip0) then false
            else if (ip1 <? 0) || (255 <? ip1) then false
            else if (ip2 <? 0) || (255 <? ip2) then false
            else if (ip3 <? 1) || (254 <? ip3) then false
            else true
        end).

Definition scIpMaskTable : list Z := [0; 128; 192; 224; 240; 248; 252; 254; 255].
Definition scIpMaskRange : list (nat * nat) := [(2, 8); (0, 8); (0, 8); (0, 7)]%nat.

(** One octet: [found] for the byte [m] at position [i]. *)
Definition mask_found (i : nat) (m : Z) : bool :=
  let '(start, end_) := nth i scIpMaskRange (0, 0)%nat in
  existsb (λ j, (negb (m =? 0) || bool_decide (i = 3%nat)) && (m =? nth j scIpMaskTable 0))
    (seq start (S end_ - start)).

(** The loop from octet [i] on: [None] when every octet is found, otherwise
    [returnValue] and the octets it leaves. *)
Fixpoint mask_loop (i : nat) (mask : list Z) : option (bool * list Z) :=
  match mask with
  | [] => None
  | m :: rest =>
      if mask_found i m then
        match mask_loop (S i) rest with
        | None => None
        | Some (b, l) => Some (b, m :: l)
        end
      else Some (forallb (λ x, x =? 0) mask, map (λ _, 0) mask)
  end.

(** [sprintf(netstr, "%d.%d.%d.%d", ...)] *)
Definition dotted (l : list Z) : cstr :=
  concat (map dec (take 1 l)) ++ concat (map (λ m, "."%char :: dec m) (drop 1 l)).

(** The result, and what is stored through [pValidIpMask]; [None] when nothing
    is. *)
Definition scValidIpMask (ipMask : Z) : outcome (bool * option Z) :=
  r ← scIpSeparateTo4 ipMask;
  match r with
  | None => Done (false, None)
  | Some (m0, m1, m2, m3) =>
      match mask_loop 0 [m0; m1; m2; m3] with
      | None => Done (true, Some ipMask)
      | Some (b, l) => Done (b, Some (inet_addr (dotted l)))
      end
  end.

Definition scValidIpGateWay (gateway : Z) : outcome bool :=
  if gateway =? 0 then Done true else scValidIpAddress gateway.

Definition lnot32 (z : Z) : Z := 0xffffffff - z.
Definition scValidIpMaskGateWay (ipaddr netmask gateway : Z) : bool :=
  if (Z.land ipaddr (lnot32 netmask) =? 0) || (lnot32 (Z.lor ipaddr netmask) =? 0) then false
  else if gateway =? 0 then true
  else if (Z.land gateway (lnot32 netmask) =? 0) || (lnot32 (Z.lor gateway netmask) =? 0) then false
  else Z.land ipaddr netmask =? Z.land gateway netmask.

Definition invalidHttpPortArray : list Z :=
  [1; 2; 3; 5; 7; 9; 20; 21; 22; 23; 25; 31; 53; 67; 68; 69; 79; 81; 82; 123; 137; 138; 139; 161;
   168; 169; 80; 443].
Definition scInvalidHttpPort (port flag : Z) : bool :=
  existsb (λ p, (port =? p) && negb ((flag =? 1) && (port =? 80)) &&
                negb ((flag =? 2) && (port =? 443))) invalidHttpPortArray.

(** ** VLAN lists *)

(** The first loop: digits, and commas that are neither first nor doubled. *)
Fixpoint wds_chars (count : Z) (s : cstr) : bool :=
  match s with
  | [] => true
  | c :: s' =>
      if negb (isdigit c) then
        if decide (c ≠ ","%char) then false
        else if 1 <? count + 1 then false
        else wds_chars (count + 1) s'
      else wds_chars 0 s'
  end.

(** The loop over the tokens; [value] holds the identifiers so far. *)
Fixpoint wds_tokens (fuel : nat) (saved : cstr) (value : list Z) : bool :=
  match fuel with
  | O => true
  | S fuel' =>
      match strtok [","%char] saved with
      | (None, _) => true
      | (Some pa, saved') =>
          let v := atoi pa in
          if (v <? 1) || (4094 <? v) then false
          else if existsb (Z.eqb v) value then false
          else if (3 <? length value)%nat then false
          else wds_tokens fuel' saved' (value ++ [v])
      end
  end.

Definition scValidwdsVlanList (list : cstr) : bool :=
  if negb (zlen list <? 21) then false
  else if negb (wds_chars 1 list) then false
  else match list with [] => true | _ => wds_tokens (S (length list)) list [] end.

(** ** The sort *)

Definition sc_swap (v : list Z) (i j : nat) : list Z :=
  <[j := nth i v 0]> (<[i := nth j v 0]> v).

(** The [for] loop: [n] elements from [i] on, compared with the pivot. *)
Fixpoint partition_loop (n : nat) (v : list Z) (left last_ i : nat) : list Z * nat :=
  match n with
  | O => (v, last_)
  | S n' =>
      if nth i v 0 <? nth left v 0
      then partition_loop n' (sc_swap v (S last_) i) left (S last_) (S i)
      else partition_loop n' v left last_ (S i)
  end.

(** [left] and [right] are [int]s; the width of the segment is enough fuel. *)
Fixpoint scCompositor (fuel : nat) (v : list Z) (left right : Z) : list Z :=
  match fuel with
  | O => v
  | S fuel' =>
      if right <=? left then v
      else
        let l := Z.to_nat left in
        let v1 := sc_swap v l (Z.to_nat ((left + right) / 2)) in
        let '(v2, last_) := partition_loop (Z.to_nat (right - left)) v1 l l (S l) in
        let v3 := sc_swap v2 l last_ in
        let v4 := scCompositor fuel' v3 left (Z.of_nat last_ - 1) in
        scCompositor fuel' v4 (Z.of_nat last_ + 1) right
  end.
