(* ===== verification/Crc32.v ===== *)
(** * The checksum of the flash image (libnv/nvram.c, [crc32])

    The table-driven CRC-32 that guards the configuration partition, its
    equivalence with the bit-serial definition, and the error detection the
    loader relies on. *)

From S2P Require Import Prelude CLib.

Definition poly : Z := 0xEDB88320.

(** One pass of the inner loop that builds a table entry. *)
Definition crc_shift (crc : Z) : Z :=
  if Z.odd crc then Z.lxor (Z.shiftr crc 1) poly else Z.shiftr crc 1.

(** [for (j=8; j>0; j--)] *)
Fixpoint crc_shifts (j : nat) (crc : Z) : Z :=
  match j with O => crc | S j' => crc_shifts j' (crc_shift crc) end.

(** [for (i=0; i<256; i++) crcTable[i] = ...] *)
Definition crcTable : list Z := map (λ i, crc_shifts 8 (Z.of_nat i)) (seq 0 256).

(** The table as the loop leaves it, computed once. *)
Definition crcTable_nf : list Z := Eval vm_compute in crcTable.

Definition crc_lookup (i : Z) : Z := nth (Z.to_nat i) crcTable_nf 0.

(** The body of [while (length-- > 0)]. *)
Definition crc_step (crc : Z) (b : ascii) : Z :=
  Z.lxor (Z.land (Z.shiftr crc 8) 0x00FFFFFF)
         (crc_lookup (Z.land (Z.lxor crc (code b)) 0xFF)).

Definition crc_run (crc : Z) (data : bytes) : Z := fold_left crc_step data crc.

Definition crc32_bytes (data : bytes) : Z :=
  Z.lxor (crc_run 0xFFFFFFFF data) 0xFFFFFFFF.

(** [crc32(data, length)] on a buffer: [length] is an [int], so a negative one
    reads nothing; a length beyond the buffer leaves it. *)
Definition crc32 (buf : bytes) (length : Z) : outcome Z :=
  if length <=? 0 then Done (crc32_bytes [])
  else if length <=? zlen buf then Done (crc32_bytes (take (Z.to_nat length) buf))
  else Fault.

(** ** The bit-serial reference *)

Definition crc_step_bits (crc : Z) (b : ascii) : Z := crc_shifts 8 (Z.lxor crc (code b)).
Definition crc32_bits (data : bytes) : Z :=
  Z.lxor (fold_left crc_step_bits data 0xFFFFFFFF) 0xFFFFFFFF.

(** ** Words *)

Definition word (z : Z) : Prop := 0 <= z < 2 ^ 32.

Lemma word_land z : word z ↔ 0 <= z ∧ Z.land z (Z.ones 32) = z.
Proof.
  unfold word. rewrite Z.land_ones by lia. split.
  - intros [??]. split; [done|]. by apply Z.mod_small.
  - intros [? <-]. apply Z.mod_pos_bound. lia.
Qed.

Lemma word_lxor a b : word a → word b → word (Z.lxor a b).
Proof.
  rewrite !word_land. intros [Ha Ea] [Hb Eb]. split; [by apply Z.lxor_nonneg|].
  rewrite <- Ea, <- Eb at 2. apply Z.bits_inj'. intros n Hn.
  rewrite !Z.land_spec, !Z.lxor_spec, !Z.land_spec.
  by destruct (Z.testbit a n), (Z.testbit b n), (Z.testbit (Z.ones 32) n).
Qed.

Lemma word_shiftr a n : 0 <= n → word a → word (Z.shiftr a n).
Proof.
  unfold word. intros Hn [Ha Hb]. rewrite Z.shiftr_div_pow2 by done.
  pose proof (Z.pow_pos_nonneg 2 n ltac:(lia) Hn). split; [by apply Z.div_pos|].
  apply Z.div_lt_upper_bound; nia.
Qed.

Lemma word_land_l a b : word a → 0 <= b → word (Z.land a b).
Proof.
  rewrite !word_land. intros [Ha Ea] Hb. split; [apply Z.land_nonneg; auto|].
  rewrite <- Z.land_assoc, (Z.land_comm b), Z.land_assoc. by rewrite Ea.
Qed.

Lemma word_code b : word (code b).
Proof. unfold word. pose proof (code_range b). lia. Qed.

Lemma word_poly : word poly.
Proof. unfold word, poly. lia. Qed.

Lemma crc_shift_word c : word c → word (crc_shift c).
Proof.
  intros Hc. unfold crc_shift. pose proof (word_shiftr c 1 ltac:(lia) Hc).
  destruct (Z.odd c); [apply word_lxor; [done|apply word_poly]|done].
Qed.

Lemma crc_shifts_word j c : word c → word (crc_shifts j c).
Proof. revert c. induction j; simpl; auto using crc_shift_word. Qed.

#[export] Hint Resolve word_lxor word_code word_poly crc_shift_word crc_shifts_word : wap.

(** ** Linearity, and the table against the bit-serial step *)

Lemma crc_shift_lxor a b : crc_shift (Z.lxor a b) = Z.lxor (crc_shift a) (crc_shift b).
Proof.
  unfold crc_shift. rewrite <- !Z.bit0_odd, Z.lxor_spec, Z.shiftr_lxor.
  generalize (Z.shiftr a 1) (Z.shiftr b 1). intros x y.
  destruct (Z.testbit a 0), (Z.testbit b 0); simpl xorb; cbv iota;
    apply Z.bits_inj'; intros n _; rewrite ?Z.lxor_spec;
    by destruct (Z.testbit x n), (Z.testbit y n), (Z.testbit poly n).
Qed.

Lemma crc_shifts_lxor j a b :
  crc_shifts j (Z.lxor a b) = Z.lxor (crc_shifts j a) (crc_shifts j b).
Proof. revert a b. induction j; simpl; intros; [done|]. by rewrite crc_shift_lxor. Qed.

(** Bits above the low byte are only shifted by the eight passes. *)
Lemma crc_shifts_even j x :
  crc_shifts j (Z.shiftl x (Z.of_nat j)) = x.
Proof.
  revert x. induction j as [|j IH]; intros x; [simpl; apply Z.shiftl_0_r|].
  cbn [crc_shifts].
  assert (E : Z.shiftl x (Z.of_nat (S j)) = 2 * Z.shiftl x (Z.of_nat j)).
  { rewrite !Z.shiftl_mul_pow2 by lia. rewrite Nat2Z.inj_succ, Z.pow_succ_r by lia. lia. }
  rewrite E. unfold crc_shift. rewrite Z.odd_mul. simpl Z.odd.
  cbv iota. rewrite Z.shiftr_div_pow2 by lia. rewrite Z.mul_comm, Z.pow_1_r, Z.div_mul by lia.
  apply IH.
Qed.

Lemma split_low_byte x : 0 <= x →
  x = Z.lxor (Z.shiftl (Z.shiftr x 8) 8) (Z.land x 0xFF).
Proof.
  intros Hx. change 0xFF with (Z.ones 8). apply Z.bits_inj'. intros n Hn.
  rewrite Z.lxor_spec, Z.land_spec.
  destruct (Z.ltb_spec n 8).
  - rewrite Z.shiftl_spec_low by done. rewrite Z.ones_spec_low by lia.
    by destruct (Z.testbit x n).
  - rewrite Z.shiftl_spec_high by lia. rewrite Z.shiftr_spec by lia.
    rewrite Z.ones_spec_high by lia. replace (n - 8 + 8) with n by lia.
    by destruct (Z.testbit x n).
Qed.

Lemma land_ff_range x : 0 <= x → 0 <= Z.land x 0xFF < 256.
Proof.
  intros. change 0xFF with (Z.ones 8). rewrite Z.land_ones by lia.
  apply Z.mod_pos_bound. lia.
Qed.

Lemma crc_lookup_spec i : 0 <= i < 256 → crc_lookup i = crc_shifts 8 i.
Proof.
  intros Hi. unfold crc_lookup. change crcTable_nf with crcTable. unfold crcTable.
  rewrite (nth_indep _ _ (crc_shifts 8 (Z.of_nat 0)))
    by (rewrite length_map, length_seq; lia).
  rewrite (map_nth (λ i, crc_shifts 8 (Z.of_nat i)) (seq 0 256) 0%nat), seq_nth by lia. simpl Nat.add. by rewrite Z2Nat.id by lia.
Qed.

(** The masking of the shifted register loses nothing. *)
Lemma shiftr8_mask c : word c → Z.land (Z.shiftr c 8) 0x00FFFFFF = Z.shiftr c 8.
Proof.
  unfold word. intros Hc. change 0x00FFFFFF with (Z.ones 24).
  rewrite Z.land_ones, Z.shiftr_div_pow2 by lia.
  apply Z.mod_small. split; [apply Z.div_pos; lia|].
  apply Z.div_lt_upper_bound; lia.
Qed.

Lemma shiftr8_code b : Z.shiftr (code b) 8 = 0.
Proof.
  pose proof (code_range b). rewrite Z.shiftr_div_pow2 by lia.
  apply Z.div_small. lia.
Qed.

Lemma crc_step_eq c b : word c → crc_step c b = crc_step_bits c b.
Proof.
  intros Hc. unfold crc_step, crc_step_bits.
  assert (Hx : word (Z.lxor c (code b))) by auto with wap.
  destruct Hx as [Hx _].
  rewrite shiftr8_mask by done.
  rewrite crc_lookup_spec by by apply land_ff_range.
  rewrite (split_low_byte (Z.lxor c (code b))) at 2 by done.
  rewrite crc_shifts_lxor. f_equal.
  rewrite Z.shiftr_lxor, shiftr8_code, Z.lxor_0_r.
  by rewrite (crc_shifts_even 8).
Qed.

Lemma crc_step_word c b : word c → word (crc_step c b).
Proof. intros. rewrite crc_step_eq by done. unfold crc_step_bits. auto with wap. Qed.

Lemma crc_run_word c d : word c → word (crc_run c d).
Proof. revert c. induction d; simpl; auto using crc_step_word. Qed.

Lemma crc_run_eq c d : word c → crc_run c d = fold_left crc_step_bits d c.
Proof.
  revert c. induction d as [|b d IH]; intros c Hc; [done|]. simpl.
  rewrite IH by by apply crc_step_word. by rewrite crc_step_eq.
Qed.

Lemma word_ones : word 0xFFFFFFFF.
Proof. unfold word. lia. Qed.
#[export] Hint Resolve word_ones crc_step_word crc_run_word : wap.

Lemma crc32_bytes_word d : word (crc32_bytes d).
Proof. unfold crc32_bytes. auto with wap. Qed.

(** ** The step is injective in the register and in the byte *)

(** The high bytes of the table entries are pairwise different. *)
Definition table_high : list Z := map (λ i, Z.shiftr (crc_lookup (Z.of_nat i)) 24) (seq 0 256).

Lemma table_high_nodup : NoDup table_high.
Proof. apply (bool_decide_unpack _). vm_compute. exact I. Qed.

Lemma table_high_inj i j :
  0 <= i < 256 → 0 <= j < 256 →
  Z.shiftr (crc_lookup i) 24 = Z.shiftr (crc_lookup j) 24 → i = j.
Proof.
  intros Hi Hj E.
  assert (H : ∀ k, 0 <= k < 256 →
    table_high !! Z.to_nat k = Some (Z.shiftr (crc_lookup k) 24)).
  { intros k Hk. unfold table_high. rewrite list_lookup_fmap, lookup_seq_lt by lia.
    simpl. by rewrite Z2Nat.id by lia. }
  pose proof (NoDup_lookup _ _ _ _ table_high_nodup (H i Hi)
                (eq_trans (H j Hj) (f_equal Some (eq_sym E)))). lia.
Qed.

Lemma crc_step_index c b c' b' :
  word c → word c' → crc_step c b = crc_step c' b' →
  Z.shiftr c 8 = Z.shiftr c' 8 ∧
  Z.land (Z.lxor c (code b)) 0xFF = Z.land (Z.lxor c' (code b')) 0xFF.
Proof.
  intros Hc Hc' E. unfold crc_step in E. rewrite !shiftr8_mask in E by done.
  assert (Hi : 0 <= Z.land (Z.lxor c (code b)) 0xFF < 256)
    by (apply land_ff_range; apply word_lxor; auto with wap).
  assert (Hi' : 0 <= Z.land (Z.lxor c' (code b')) 0xFF < 256)
    by (apply land_ff_range; apply word_lxor; auto with wap).
  revert E Hi Hi'. generalize (Z.land (Z.lxor c (code b)) 0xFF).
  generalize (Z.land (Z.lxor c' (code b')) 0xFF). intros i' i E Hi Hi'.
  assert (Hz : ∀ x, word x → Z.shiftr (Z.shiftr x 8) 24 = 0).
  { unfold word. intros x Hx. rewrite Z.shiftr_shiftr, Z.shiftr_div_pow2 by lia.
    apply Z.div_small. lia. }
  assert (i = i') as ->.
  { apply table_high_inj; [done|done|].
    apply (f_equal (λ z, Z.shiftr z 24)) in E. rewrite !Z.shiftr_lxor, !Hz in E by done.
    by rewrite !Z.lxor_0_l in E. }
  split; [|done].
  apply (f_equal (λ z, Z.lxor z (crc_lookup i'))) in E.
  by rewrite !Z.lxor_assoc, Z.lxor_nilpotent, !Z.lxor_0_r in E.
Qed.

Lemma lxor_cancel_r a b c : Z.lxor a c = Z.lxor b c → a = b.
Proof.
  intros E. apply (f_equal (λ z, Z.lxor z c)) in E.
  by rewrite !Z.lxor_assoc, Z.lxor_nilpotent, !Z.lxor_0_r in E.
Qed.

Lemma land_lxor_distr_r a b c : Z.land (Z.lxor a b) c = Z.lxor (Z.land a c) (Z.land b c).
Proof.
  apply Z.bits_inj'. intros n _. rewrite !Z.land_spec, !Z.lxor_spec, !Z.land_spec.
  by destruct (Z.testbit a n), (Z.testbit b n), (Z.testbit c n).
Qed.

Lemma code_land_ff b : Z.land (code b) 0xFF = code b.
Proof.
  change 0xFF with (Z.ones 8). rewrite Z.land_ones by lia.
  apply Z.mod_small, code_range.
Qed.

Lemma crc_step_inj_l c c' b :
  word c → word c' → crc_step c b = crc_step c' b → c = c'.
Proof.
  intros Hc Hc' E. destruct (crc_step_index _ _ _ _ Hc Hc' E) as [Eh El].
  rewrite !land_lxor_distr_r in El. apply lxor_cancel_r in El.
  rewrite (split_low_byte c), (split_low_byte c') by (unfold word in *; lia).
  by rewrite Eh, El.
Qed.

Lemma crc_step_inj_r c b b' : word c → crc_step c b = crc_step c b' → b = b'.
Proof.
  intros Hc E. destruct (crc_step_index _ _ _ _ Hc Hc E) as [_ El].
  rewrite !land_lxor_distr_r, !code_land_ff, !(Z.lxor_comm (Z.land c _)) in El.
  apply lxor_cancel_r in El. by apply (inj code).
Qed.

Lemma crc_run_inj c c' d :
  word c → word c' → crc_run c d = crc_run c' d → c = c'.
Proof.
  revert c c'. induction d as [|b d IH]; intros c c' Hc Hc' E; [done|]. simpl in E.
  apply IH in E; [|by apply crc_step_word..]. by eapply crc_step_inj_l.
Qed.

(** Two images that differ in one byte have different checksums. *)
Lemma crc32_bytes_single pre b b' post :
  crc32_bytes (pre ++ b :: post) = crc32_bytes (pre ++ b' :: post) → b = b'.
Proof.
  unfold crc32_bytes. intros E%lxor_cancel_r.
  unfold crc_run in E. rewrite !fold_left_app in E. simpl in E.
  assert (Hp : word (fold_left crc_step pre 0xFFFFFFFF))
    by (apply (crc_run_word _ pre); auto with wap).
  apply (crc_run_inj _ _ post) in E; [|by apply crc_step_word..].
  by eapply crc_step_inj_r.
Qed.

(** The published check value of this CRC. *)
Example crc32_check : crc32 "123456789" 9 = Done 0xCBF43926.
Proof. vm_compute. done. Qed.
