(* ===== verification/FileSys.v ===== *)
(** * The machine state shared by the firmware's processes

    The files the modelled code reads and writes (by path), the flash
    partition behind [/dev/mtdblock4], and the shell commands that were run.
    The calls are those of the C library with the results the sources test. *)

From S2P Require Import Prelude CLib.

Record sys : Type := Sys {
  files : gmap cstr bytes;      (** regular files, by absolute path *)
  flash : option bytes;         (** the configuration partition, if present *)
  cmds : list cstr;             (** [system(3)] commands, oldest first *)
}.

Definition set_files (f : gmap cstr bytes) (s : sys) : sys := Sys f (flash s) (cmds s).
Definition set_flash (f : option bytes) (s : sys) : sys := Sys (files s) f (cmds s).
Definition add_cmd (c : cstr) (s : sys) : sys := Sys (files s) (flash s) (cmds s ++ [c]).

(** [access(path, F_OK) == 0] *)
Definition access (path : cstr) : M sys bool :=
  s ← getS; mret (bool_decide (is_Some (files s !! path))).

(** The contents of an existing file. *)
Definition read_file (path : cstr) : M sys (option bytes) :=
  s ← getS; mret (files s !! path).

(** [open(path, O_CREAT|O_TRUNC|O_WRONLY)] followed by [write]. *)
Definition write_file (path : cstr) (data : bytes) : M sys unit :=
  modS (λ s, set_files (<[path := data]> (files s)) s).

(** [fopen(path, "a+")] followed by a write. *)
Definition append_file (path : cstr) (data : bytes) : M sys unit :=
  modS (λ s, set_files (<[path := default [] (files s !! path) ++ data]> (files s)) s).

Definition unlink (path : cstr) : M sys unit :=
  modS (λ s, set_files (delete path (files s)) s).

Definition system (cmd : cstr) : M sys unit := modS (add_cmd cmd).

(** ** Big-endian words (the target is a big-endian MIPS) *)

Definition be32 (z : Z) : bytes :=
  [chr (z / 2 ^ 24); chr (z / 2 ^ 16); chr (z / 2 ^ 8); chr z].

Definition de32 (a b c d : ascii) : Z :=
  code a * 2 ^ 24 + code b * 2 ^ 16 + code c * 2 ^ 8 + code d.

(** The word at byte offset [off] of a buffer of which [m] has been written. *)
Definition word_at (m : bytes) (off : nat) : outcome Z :=
  match take 4 (drop off m) with
  | [a; b; c; d] => Done (de32 a b c d)
  | _ => Fault
  end.

Lemma de32_range a b c d : 0 <= de32 a b c d < 2 ^ 32.
Proof.
  unfold de32. pose proof (code_range a). pose proof (code_range b).
  pose proof (code_range c). pose proof (code_range d). lia.
Qed.

Lemma de32_be32 z :
  0 <= z < 2 ^ 32 →
  de32 (chr (z / 2 ^ 24)) (chr (z / 2 ^ 16)) (chr (z / 2 ^ 8)) (chr z) = z.
Proof.
  intros Hz. unfold de32. rewrite !code_chr.
  change (2 ^ 24) with (2 ^ 16 * 2 ^ 8). change (2 ^ 16) with (2 ^ 8 * 2 ^ 8).
  rewrite <- !Z.div_div by lia. change (2 ^ 8) with 256.
  change (2 ^ 32) with 4294967296 in Hz.
  Z.to_euclidean_division_equations. lia.
Qed.

Lemma be32_length z : length (be32 z) = 4%nat.
Proof. done. Qed.

Lemma word_at_be32 pre z post :
  0 <= z < 2 ^ 32 → word_at (pre ++ be32 z ++ post) (length pre) = Done z.
Proof.
  intros Hz. unfold word_at. rewrite drop_app_length. simpl take.
  unfold be32. by rewrite de32_be32.
Qed.
