(* ===== verification/Nvram.v ===== *)
(** * The configuration store (libnv/nvram.c)

    The shadow file [/tmp/nvram] holds [name=value] entries, each ended by a
    zero byte, the list ended by one more; [/etc/default] has the same format.
    The functions below walk those buffers byte by byte as the C code does, so
    leaving a buffer, or writing past the block that was allocated, is a
    [Fault]. *)

From S2P Require Import Prelude CLib Crc32 FileSys.

Definition NVRAM_TMP_PATH : cstr := "/tmp/nvram".
Definition NVRAM_DEFAULT : cstr := "/etc/default".
Definition NVRAM_MAGIC : Z := 0x004E4F52.
Definition NVRAM_HEADER_SIZE : nat := 40.
Definition NVRAM_SIZE : Z := 0x10000.
Definition END_SYMBOL : ascii := NUL.

Definition NVRAM_SUCCESS : Z := 0.
Definition NVRAM_FLASH_ERR : Z := 1.
Definition NVRAM_MAGIC_ERR : Z := 2.
Definition NVRAM_CRC_ERR : Z := 4.
Definition NVRAM_SHADOW_ERR : Z := 5.

(** ** Whole files *)

(** The contents, or [None] for the result -1. *)
Definition readFileBin (path : cstr) : M sys (option bytes) := read_file path.

(** [len] is an [int]: a negative one is an invalid count for [write], which
    then writes nothing to the file just truncated. *)
Definition writeFileBin (path : cstr) (data : bytes) (len : Z) : M sys unit :=
  write_file path (take (Z.to_nat len) data).

(** ** Looking a name up *)

(** [!strncmp(s, name, strlen(name)) && s[strlen(name)] == '='] *)
Fixpoint match_name (s name : bytes) : outcome bool :=
  match name, s with
  | _, [] => Fault
  | [], c :: _ => Done (bool_decide (c = "="%char))
  | n :: name', c :: s' => if decide (c = n) then match_name s' name' else Done false
  end.

(** The loop that moves [s] to the end of its entry is [to_nul] from the next byte. *)
Fixpoint to_nul (s : bytes) : outcome bytes :=
  match s with
  | [] => Fault
  | c :: s' => if decide (c = NUL) then Done s else to_nul s'
  end.

(** The [for] loop of [nvram_get_fun]; every round consumes a byte, so the
    length of the buffer is enough fuel. *)
Fixpoint get_loop (fuel : nat) (name s : bytes) : outcome (option cstr) :=
  match fuel with
  | O => Stuck
  | S fuel' =>
      match s with
      | [] => Fault
      | c :: s' =>
          if decide (c = NUL) then Done None
          else
            b ← match_name s name;
            if (b : bool)
            then v ← rd_str (drop (S (length name)) s); Done (Some v)
            else e ← to_nul s'; get_loop fuel' name (tail e)
      end
  end.

Definition nvram_get_buf (name buf : bytes) : outcome (option cstr) :=
  get_loop (S (length buf)) name buf.

Definition nvram_get_fun (name path : cstr) : M sys (option cstr) :=
  buf ← readFileBin path;
  match buf with
  | None => mret None
  | Some b => liftO (nvram_get_buf name b)
  end.

(** ** Replacing or adding a name *)

(** Writes at [sp] in a block of [cap] bytes of which [out] is already
    written; [strcpy] also writes the terminator. *)
Definition emit (cap : nat) (out s : bytes) : outcome bytes :=
  if decide (length out + length s <= cap)%nat then Done (out ++ s) else Fault.

Definition emit_str (cap : nat) (out s : bytes) : outcome bytes :=
  if decide (length out + length s + 1 <= cap)%nat then Done (out ++ s) else Fault.

(** Copies the rest of the entry at [s] to [sp]. *)
Fixpoint copy_entry (cap : nat) (s out : bytes) : outcome (bytes * bytes) :=
  match s with
  | [] => Fault
  | c :: s' =>
      if decide (c = NUL) then Done (s, out)
      else out' ← emit cap out [c]; copy_entry cap s' out'
  end.

(** [strcpy(sp,name); ...; *sp++ = '='; strcpy(sp,value); sp+=strlen(value);] *)
Definition emit_pair (cap : nat) (name value out : bytes) : outcome bytes :=
  o1 ← emit_str cap out name;
  o2 ← emit cap o1 ["="%char];
  emit_str cap o2 value.

Fixpoint set_loop (fuel cap : nat) (name value s out : bytes) (found : bool)
    : outcome (bytes * bool) :=
  match fuel with
  | O => Stuck
  | S fuel' =>
      match s with
      | [] => Fault
      | c :: s' =>
          if decide (c = NUL) then Done (out, found)
          else
            b ← match_name s name;
            r ← (if (b : bool) then
                   o ← emit_pair cap name value out;
                   e ← to_nul s';
                   Done (e, o, true)
                 else Done (s, out, found));
            let '(s1, out1, found1) := (r : bytes * bytes * bool) in
            r2 ← copy_entry cap s1 out1;
            let '(s2, out2) := (r2 : bytes * bytes) in
            out3 ← emit cap out2 [END_SYMBOL];
            set_loop fuel' cap name value (tail s2) out3 found1
      end
  end.

(** The buffer [nvram_set] writes back, from the file it read ([None] when the
    file could not be opened). *)
Definition nvram_set_buf (name value : bytes) (file : option bytes) : outcome bytes :=
  let size := from_option length 0%nat file in
  let cap := (size + length name + length value + 2)%nat in
  r ← match file with
      | Some (c :: b) => set_loop (S size) cap name value (c :: b) [] false
      | _ => Done ([], false)
      end;
  let '(out, found) := (r : bytes * bool) in
  out1 ← (if (found : bool) then Done out
          else o ← emit_pair cap name value out; emit cap o [END_SYMBOL]);
  emit cap out1 [END_SYMBOL].

Definition nvram_set (name value : cstr) : M sys Z :=
  file ← readFileBin NVRAM_TMP_PATH;
  out ← liftO (nvram_set_buf name value file);
  _ ← writeFileBin NVRAM_TMP_PATH out (zlen out);
  mret NVRAM_SUCCESS.

(** ** The getters the rest of the firmware uses *)

Definition nvram_get (name : cstr) : M sys (option cstr) :=
  pt ← nvram_get_fun name NVRAM_TMP_PATH;
  match pt with
  | Some v => mret (Some v)
  | None =>
      pt ← nvram_get_fun name NVRAM_DEFAULT;
      match pt with
      | Some v => _ ← nvram_set name v; mret (Some v)
      | None => mret None
      end
  end.

Definition emp_str : cstr := [].

Definition nvram_safe_get (name : cstr) : M sys cstr :=
  pt ← nvram_get_fun name NVRAM_TMP_PATH;
  match pt with
  | Some v => mret v
  | None =>
      pt ← nvram_get_fun name NVRAM_DEFAULT;
      match pt with
      | Some v => _ ← nvram_set name v; mret v
      | None => mret emp_str
      end
  end.

(** The bytes stored in the caller's buffer, or [None] for [NULL]. *)
Definition nvram_getall (bytes_ : Z) : M sys (option bytes) :=
  buf ← readFileBin NVRAM_TMP_PATH;
  match buf with
  | None => mret None
  | Some b =>
      let n := if zlen b <? bytes_ then zlen b else bytes_ in
      mret (Some (take (Z.to_nat n) b))
  end.

Definition nvram_match (name match_ : cstr) : M sys bool :=
  value ← nvram_get name;
  mret (match value with Some v => bool_decide (v = match_) | None => false end).

Definition nvram_invmatch (name invmatch : cstr) : M sys bool :=
  value ← nvram_get name;
  mret (match value with Some v => bool_decide (v ≠ invmatch) | None => false end).

(** ** Flash *)

(** What the flash device makes of a write: old contents, offset, data. *)
Class FlashDev : Type := dev_write : bytes → nat → bytes → bytes.

(** A device that stores what it is given, up to its size. *)
Definition splice (old : bytes) (off : nat) (data : bytes) : bytes :=
  take off old ++ take (length old - off) data ++ drop (off + length data) old.
Definition ideal_dev : FlashDev := splice.

Inductive open_mode : Type := O_RDONLY | O_WRONLY | O_RDWR.

(** [read] on the device: -1 ([None]) on a descriptor opened for writing only. *)
Definition dev_read (mode : open_mode) (dev : bytes) (off n : nat) : option bytes :=
  match mode with
  | O_WRONLY => None
  | _ => Some (take n (drop off dev))
  end.

Record nvram_header_t : Type := Header {
  magic : Z; len : Z; crc : Z; reserved : Z;
}.

Definition header_bytes (h : nvram_header_t) : bytes :=
  be32 (magic h) ++ be32 (len h) ++ be32 (crc h) ++ be32 (reserved h).

Definition nvram_load : M sys Z :=
  s ← getS;
  match flash s with
  | None => mret NVRAM_FLASH_ERR
  | Some dev =>
      let header := default [] (dev_read O_RDONLY dev 0 16) in
      h_magic ← liftO (word_at header 0);
      if negb (h_magic =? NVRAM_MAGIC) then mret NVRAM_MAGIC_ERR
      else
        h_len ← liftO (word_at header 4);
        let data := default [] (dev_read O_RDONLY dev NVRAM_HEADER_SIZE
                                  (Z.to_nat (wrap32 (h_len + 1)))) in
        c ← liftO (crc32 data (sint32 h_len));
        h_crc ← liftO (word_at header 8);
        if negb (c =? h_crc) then mret NVRAM_CRC_ERR
        else
          _ ← writeFileBin NVRAM_TMP_PATH data (sint32 h_len);
          mret NVRAM_SUCCESS
  end.

Definition led_busy : cstr := "/bin/echo w1>/proc/led".
Definition led_idle : cstr := "/bin/echo w0>/proc/led".

(** [reserved] is whatever the stack held: the code never sets that field. *)
Definition nvram_commit `{FlashDev} (reserved : Z) : M sys Z :=
  s ← getS;
  match flash s with
  | None => mret NVRAM_FLASH_ERR
  | Some dev =>
      file ← readFileBin NVRAM_TMP_PATH;
      match file with
      | None | Some [] => mret NVRAM_SHADOW_ERR
      | Some data =>
          let mode := O_WRONLY in
          _ ← system led_busy;
          h_crc ← liftO (crc32 data (zlen data));
          let header := Header NVRAM_MAGIC (zlen data) h_crc reserved in
          let dev1 := dev_write dev 0 (header_bytes header) in
          let dev2 := dev_write dev1 NVRAM_HEADER_SIZE data in
          _ ← modS (set_flash (Some dev2));
          let data' :=
            match dev_read mode dev2 NVRAM_HEADER_SIZE (length data) with
            | Some r => r ++ drop (length r) data
            | None => data
            end in
          c ← liftO (crc32 data' (zlen data));
          if negb (h_crc =? c) then
            _ ← system led_idle; mret NVRAM_FLASH_ERR
          else
            _ ← system led_idle; mret NVRAM_SUCCESS
      end
  end.
