(* ===== verification/NvramSpec.v ===== *)
(** * The configuration store as a finite map

    The format of the shadow file, the abstract store (a finite map from names
    to values) it represents, and the lemmas that the byte-level walks of
    [Nvram] compute the abstract lookup and insertion. *)

From S2P Require Import Prelude CLib Crc32 FileSys Nvram.

(** ** The image format *)

Definition entry_ok (e : cstr) : Prop := e ≠ [] ∧ nul_free e.

(** The entries, each followed by a zero byte. *)
Definition body (es : list cstr) : bytes := concat (map (λ e, e ++ [NUL]) es).
Definition enc (es : list cstr) : bytes := body es ++ [NUL].

(** An image may hold anything after the empty entry that ends the list. *)
Definition image (es : list cstr) (img : bytes) : Prop :=
  Forall entry_ok es ∧ ∃ junk, img = enc es ++ junk.

Lemma body_cons e es : body (e :: es) = e ++ NUL :: body es.
Proof. unfold body. simpl. by rewrite <- app_assoc. Qed.

Lemma body_app es fs : body (es ++ fs) = body es ++ body fs.
Proof. unfold body. by rewrite map_app, concat_app. Qed.

Lemma body_length es : (length es <= length (body es))%nat.
Proof.
  induction es as [|e es IH]; [simpl; lia|].
  rewrite body_cons, length_app. simpl. lia.
Qed.

(** ** Entries as name/value pairs *)

(** [Some v] when the entry is the name [p] followed by [v]. *)
Fixpoint strip (p e : cstr) : option cstr :=
  match p, e with
  | [], _ => Some e
  | a :: p', b :: e' => if decide (b = a) then strip p' e' else None
  | _ :: _, [] => None
  end.

Definition entry_val (name e : cstr) : option cstr := strip (name ++ ["="%char]) e.

(** The pair an entry denotes; an entry without ['='] denotes none. *)
Definition kv (e : cstr) : option (cstr * cstr) :=
  match span_until ["="%char] e with
  | (k, _ :: v) => Some (k, v)
  | (_, []) => None
  end.

Definition pair_entry (name value : cstr) : cstr := name ++ "="%char :: value.

Definition good_name (name : cstr) : Prop := nul_free name ∧ "="%char ∉ name.

Lemma strip_Some p e v : strip p e = Some v ↔ e = p ++ v.
Proof.
  revert e. induction p as [|a p IH]; intros [|b e]; simpl.
  - naive_solver.
  - naive_solver.
  - naive_solver.
  - destruct (decide (b = a)) as [->|].
    + rewrite IH. naive_solver.
    + naive_solver.
Qed.

Lemma entry_val_Some name e v : entry_val name e = Some v ↔ e = pair_entry name v.
Proof.
  unfold entry_val, pair_entry. rewrite strip_Some, <- app_assoc. done.
Qed.

Lemma kv_pair name v : "="%char ∉ name → kv (pair_entry name v) = Some (name, v).
Proof.
  intros Hn. unfold kv, pair_entry. rewrite span_until_app; [done| |set_solver].
  intros c ->%list_elem_of_singleton. done.
Qed.

Lemma kv_Some e k v : kv e = Some (k, v) → e = pair_entry k v ∧ "="%char ∉ k.
Proof.
  unfold kv, pair_entry. intros H.
  pose proof (span_until_fst_free ["="%char] e "="%char ltac:(set_solver)) as Hf.
  revert H Hf. revert k v. induction e as [|c e IH]; intros k v; simpl; [done|].
  destruct (decide (c ∈ ["="%char])) as [->%list_elem_of_singleton|Hc].
  - intros [= <- <-] _. split; [done|apply not_elem_of_nil].
  - destruct (span_until ["="%char] e) as [a [|x b]]; [done|].
    intros [= <- <-] Hf. simpl in Hf. apply not_elem_of_cons in Hf as [Hf1 Hf2].
    destruct (IH a b eq_refl Hf2) as [-> Hk].
    split; [done|]. by apply not_elem_of_cons.
Qed.

Lemma entry_val_kv name e v :
  "="%char ∉ name → entry_val name e = Some v ↔ kv e = Some (name, v).
Proof.
  intros Hn. rewrite entry_val_Some. split.
  - intros ->. by apply kv_pair.
  - intros H. by apply kv_Some in H as [-> _].
Qed.

(** ** The abstract store *)

Abbreviation store := (gmap cstr cstr).

(** The first entry of a name wins, as in the lookup loop. *)
Definition abs (es : list cstr) : store := list_to_map (omap kv es).

(** The names of the entries. *)
Definition names (es : list cstr) : list cstr := (omap kv es).*1.

(** No name occurs twice: the invariant under which the block [nvram_set]
    allocates is large enough. *)
Definition uniq (es : list cstr) : Prop := NoDup (names es).

Fixpoint lookup_kv (name : cstr) (es : list cstr) : option cstr :=
  match es with
  | [] => None
  | e :: es' => match entry_val name e with Some v => Some v | None => lookup_kv name es' end
  end.

Definition upd (name value e : cstr) : cstr :=
  if entry_val name e is Some _ then pair_entry name value else e.

Definition set_kv (name value : cstr) (es : list cstr) : list cstr :=
  match lookup_kv name es with
  | Some _ => map (upd name value) es
  | None => es ++ [pair_entry name value]
  end.

Lemma lookup_kv_abs name es :
  "="%char ∉ name → lookup_kv name es = abs es !! name.
Proof.
  intros Hn. unfold abs. induction es as [|e es IH]; [done|]. simpl.
  destruct (entry_val name e) as [v|] eqn:E.
  - apply entry_val_kv in E; [|done]. rewrite E. simpl.
    by rewrite lookup_insert_eq.
  - rewrite IH. destruct (kv e) as [[k v]|] eqn:E2; [|done]. simpl.
    rewrite lookup_insert_ne; [done|]. intros ->.
    apply entry_val_kv in E2; [|done]. congruence.
Qed.

Lemma kv_upd name value e :
  "="%char ∉ name →
  kv (upd name value e) =
    match kv e with
    | Some (k, v) => Some (k, if decide (k = name) then value else v)
    | None => None
    end.
Proof.
  intros Hn. unfold upd. destruct (entry_val name e) as [v|] eqn:E.
  - pose proof E as E2. apply entry_val_kv in E2; [|done]. rewrite E2, kv_pair by done.
    by rewrite decide_True.
  - destruct (kv e) as [[k v]|] eqn:E2; [|done].
    rewrite decide_False; [done|]. intros ->.
    apply entry_val_kv in E2; [|done]. congruence.
Qed.

Lemma names_upd name value es :
  "="%char ∉ name → names (map (upd name value) es) = names es.
Proof.
  intros Hn. unfold names. induction es as [|e es IH]; [done|].
  cbn [map omap list_omap]. rewrite kv_upd by done.
  destruct (kv e) as [[k v]|]; simpl; [by f_equal|exact IH].
Qed.

Lemma lookup_kv_names name es :
  "="%char ∉ name → lookup_kv name es = None → name ∉ names es.
Proof.
  intros Hn H Hin. rewrite lookup_kv_abs in H by done.
  apply not_elem_of_list_to_map_2 in H. done.
Qed.


Lemma set_kv_uniq name value es :
  "="%char ∉ name → uniq es → uniq (set_kv name value es).
Proof.
  intros Hn Hu. unfold uniq, set_kv. destruct (lookup_kv name es) eqn:E.
  - by rewrite names_upd.
  - unfold names. rewrite omap_app. simpl. rewrite kv_pair by done. simpl.
    rewrite fmap_app. apply NoDup_app. split; [done|]. simpl. split.
    + intros x Hx ->%list_elem_of_singleton. by apply lookup_kv_names in E.
    + apply NoDup_singleton.
Qed.

(** Setting a name is insertion in the abstract store. *)
Lemma abs_set_kv name value es :
  "="%char ∉ name → abs (set_kv name value es) = <[name := value]> (abs es).
Proof.
  intros Hn. apply map_eq. intros k. unfold set_kv.
  destruct (lookup_kv name es) as [v0|] eqn:E.
  - assert (H : abs (map (upd name value) es) !! k =
                  (λ v, if decide (k = name) then value else v) <$> abs es !! k).
    { unfold abs. clear E. induction es as [|e es IH]; [done|].
      cbn [map omap list_omap]. rewrite kv_upd by done.
      destruct (kv e) as [[k' v]|]; [|done]. simpl.
      destruct (decide (k' = k)) as [->|Hne].
      - rewrite !lookup_insert_eq. done.
      - rewrite !lookup_insert_ne by done. apply IH. }
    rewrite H. destruct (decide (k = name)) as [->|Hne].
    + rewrite lookup_insert_eq. rewrite lookup_kv_abs in E by done. by rewrite E.
    + rewrite lookup_insert_ne by done. by destruct (abs es !! k).
  - rewrite lookup_kv_abs in E by done.
    unfold abs in *. rewrite omap_app. simpl. rewrite kv_pair by done. simpl.
    rewrite list_to_map_app. apply not_elem_of_list_to_map_2 in E as Hnin.
    destruct (decide (k = name)) as [->|Hne].
    + rewrite lookup_insert_eq, lookup_union, E. simpl. by rewrite lookup_insert_eq.
    + rewrite lookup_insert_ne by done. rewrite lookup_union. simpl.
      rewrite lookup_insert_ne, lookup_empty by done.
      by destruct (list_to_map (omap kv es) !! k).
Qed.

Lemma pair_entry_ok name value :
  nul_free name → nul_free value → entry_ok (pair_entry name value).
Proof.
  intros Hn Hv. unfold entry_ok, pair_entry. split; [by destruct name|].
  apply nul_free_app. split; [done|]. by apply nul_free_cons.
Qed.

Lemma set_kv_ok name value es :
  nul_free name → nul_free value → Forall entry_ok es → Forall entry_ok (set_kv name value es).
Proof.
  intros Hn Hv Hes. unfold set_kv. destruct (lookup_kv name es).
  - apply Forall_map. eapply Forall_impl; [done|]. intros e He. simpl. unfold upd.
    destruct (entry_val name e); [by apply pair_entry_ok|done].
  - apply Forall_app. split; [done|]. apply Forall_singleton. by apply pair_entry_ok.
Qed.
