(* ===== verification/NvramCorrect.v ===== *)
(** * The configuration store is correct

    The walks of [Nvram] on a well-formed image compute the abstract lookup and
    insertion of [NvramSpec], without a fault and within their fuel; the flash
    image round-trips and a corrupted one is refused. *)

From S2P Require Import Prelude CLib Crc32 FileSys Nvram NvramSpec.

(** ** The walks on one entry *)

Definition is_match (name e : cstr) : bool := if entry_val name e is Some _ then true else false.

Lemma match_name_entry name e rest :
  nul_free name → nul_free e →
  match_name (e ++ NUL :: rest) name = Done (is_match name e).
Proof.
  unfold is_match, entry_val. revert e. induction name as [|n name IH]; intros e Hn He.
  - destruct e as [|c e]; simpl; [done|].
    destruct (decide (c = "="%char)); [by rewrite bool_decide_true|by rewrite bool_decide_false].
  - apply nul_free_cons in Hn as [Hn1 Hn2].
    destruct e as [|c e]; simpl.
    + by rewrite decide_False.
    + apply nul_free_cons in He as [He1 He2].
      destruct (decide (c = n)) as [->|]; [by apply IH|done].
Qed.

Lemma match_name_cons name c e rest :
  nul_free name → nul_free (c :: e) →
  match_name (c :: e ++ NUL :: rest) name = Done (is_match name (c :: e)).
Proof. intros. by apply (match_name_entry name (c :: e)). Qed.

Lemma to_nul_entry e rest : nul_free e → to_nul (e ++ NUL :: rest) = Done (NUL :: rest).
Proof.
  induction e as [|c e IH]; intros He; simpl; [done|].
  apply nul_free_cons in He as [Hc He]. rewrite decide_False by done. by apply IH.
Qed.

Lemma get_value_entry name e v rest :
  nul_free e → entry_val name e = Some v →
  rd_str (drop (S (length name)) (e ++ NUL :: rest)) = Done v.
Proof.
  intros He ->%entry_val_Some. unfold pair_entry in *.
  apply nul_free_app in He as [_ [_ Hv]%nul_free_cons].
  replace (S (length name)) with (length (name ++ ["="%char]))%nat
    by (rewrite length_app; simpl; lia).
  replace (name ++ "="%char :: v) with ((name ++ ["="%char]) ++ v) by by rewrite <- app_assoc.
  rewrite <- app_assoc, drop_app_length. by apply rd_str_app.
Qed.

(** ** Lookup *)

Lemma get_loop_spec fuel name es junk :
  nul_free name → Forall entry_ok es → (length es < fuel)%nat →
  get_loop fuel name (enc es ++ junk) = Done (lookup_kv name es).
Proof.
  intros Hn. revert fuel. induction es as [|e es IH]; intros fuel Hes Hf.
  { destruct fuel; [simpl in Hf; lia|]. done. }
  destruct fuel as [|fuel]; [simpl in Hf; lia|].
  apply Forall_cons in Hes as [[He1 He2] Hes].
  unfold enc. rewrite body_cons. rewrite <- !app_assoc. simpl app.
  destruct e as [|c e]; [done|]. cbn [get_loop app].
  apply nul_free_cons in He2 as He3. destruct He3 as [Hc He3].
  rewrite decide_False by done.
  rewrite match_name_cons by done.
  cbn [mbind outcome_bind]. unfold is_match. cbn [lookup_kv].
  destruct (entry_val name (c :: e)) as [v|] eqn:E.
  - pose proof (get_value_entry name (c :: e) v (body es ++ NUL :: junk) He2 E) as H.
    cbn [app] in H. by rewrite H.
  - rewrite to_nul_entry by done. cbn [mbind outcome_bind tail].
    rewrite <- (IH fuel Hes) by (simpl in Hf; lia). unfold enc. by rewrite <- app_assoc.
Qed.

Lemma nvram_get_buf_spec name es img :
  nul_free name → image es img → nvram_get_buf name img = Done (lookup_kv name es).
Proof.
  intros Hn [Hes [junk ->]]. unfold nvram_get_buf.
  apply get_loop_spec; [done|done|].
  pose proof (body_length es). unfold enc. rewrite !length_app. simpl. lia.
Qed.

(** ** Insertion *)

Lemma emit_ok cap out s :
  (length out + length s <= cap)%nat → emit cap out s = Done (out ++ s).
Proof. intros. unfold emit. by rewrite decide_True. Qed.

Lemma emit_str_ok cap out s :
  (length out + length s + 1 <= cap)%nat → emit_str cap out s = Done (out ++ s).
Proof. intros. unfold emit_str. by rewrite decide_True. Qed.

Lemma pair_entry_length name value :
  length (pair_entry name value) = (length name + length value + 1)%nat.
Proof. unfold pair_entry. rewrite length_app. simpl. lia. Qed.

Lemma emit_pair_ok cap name value out :
  (length out + length (pair_entry name value) + 1 <= cap)%nat →
  emit_pair cap name value out = Done (out ++ pair_entry name value).
Proof.
  rewrite pair_entry_length. intros H. unfold emit_pair.
  rewrite emit_str_ok by lia. simpl.
  rewrite emit_ok by (rewrite length_app; simpl; lia). simpl.
  rewrite emit_str_ok by (rewrite !length_app; simpl; lia).
  unfold pair_entry. by rewrite <- !app_assoc.
Qed.

Lemma copy_entry_ok cap e rest out :
  nul_free e → (length out + length e <= cap)%nat →
  copy_entry cap (e ++ NUL :: rest) out = Done (NUL :: rest, out ++ e).
Proof.
  revert out. induction e as [|c e IH]; intros out He Hl; simpl.
  { by rewrite app_nil_r. }
  apply nul_free_cons in He as [Hc He]. simpl in Hl.
  rewrite decide_False by done. rewrite emit_ok by (simpl; lia). simpl.
  rewrite IH by (rewrite ?length_app; simpl; done || lia).
  by rewrite <- app_assoc.
Qed.

Lemma set_loop_spec fuel cap name value es junk out found :
  nul_free name → nul_free value → Forall entry_ok es → (length es < fuel)%nat →
  (length out + length (body (map (upd name value) es)) <= cap)%nat →
  set_loop fuel cap name value (enc es ++ junk) out found =
    Done (out ++ body (map (upd name value) es),
          found || (if lookup_kv name es is Some _ then true else false)).
Proof.
  intros Hn Hv. revert fuel out found.
  induction es as [|e es IH]; intros fuel out found Hes Hf Hc.
  { destruct fuel; [simpl in Hf; lia|]. simpl. by rewrite app_nil_r, orb_false_r. }
  destruct fuel as [|fuel]; [simpl in Hf; lia|].
  apply Forall_cons in Hes as [[He1 He2] Hes].
  unfold enc. rewrite body_cons. rewrite <- !app_assoc. cbn [app].
  cbn [map] in *. rewrite body_cons in Hc |- *.
  rewrite length_app in Hc. cbn [length] in Hc, Hf.
  assert (Hgo : ∀ o, length o = (length out + length (upd name value e) + 1)%nat →
    ∀ f, set_loop fuel cap name value (body es ++ NUL :: junk) o f =
      Done (o ++ body (map (upd name value) es),
            f || (if lookup_kv name es is Some _ then true else false))).
  { intros o Ho f. rewrite <- (IH fuel o f Hes) by lia. unfold enc. by rewrite <- app_assoc. }
  destruct e as [|c e]; [done|]. cbn [set_loop app].
  apply nul_free_cons in He2 as He3. destruct He3 as [Hcn He3].
  rewrite decide_False by done.
  rewrite match_name_cons by done.
  cbn [mbind outcome_bind]. unfold is_match. cbn [lookup_kv].
  unfold upd in Hgo, Hc |- *.
  destruct (entry_val name (c :: e)) as [v|] eqn:E.
  - rewrite emit_pair_ok by (unfold upd; lia). cbn [mbind outcome_bind].
    rewrite to_nul_entry by done. cbn [mbind outcome_bind].
    cbn [copy_entry]. rewrite decide_True by done. cbn [mbind outcome_bind tail].
    rewrite emit_ok by (rewrite length_app; simpl; lia). cbn [mbind outcome_bind].
    rewrite Hgo by (rewrite !length_app; simpl; lia).
    rewrite <- !app_assoc. by rewrite orb_true_r.
  - cbn [mbind outcome_bind].
    pose proof (copy_entry_ok cap (c :: e) (body es ++ NUL :: junk) out He2
                  ltac:(simpl; simpl in Hc; lia)) as H.
    cbn [app] in H. rewrite H. cbn [mbind outcome_bind tail].
    rewrite emit_ok by (rewrite length_app; simpl; simpl in Hc; lia). cbn [mbind outcome_bind].
    rewrite Hgo by (rewrite !length_app; simpl; lia).
    by rewrite <- !app_assoc.
Qed.

(** With at most one entry of the name, the updated entries fit the block. *)
Lemma upd_notin name value es :
  lookup_kv name es = None → map (upd name value) es = es.
Proof.
  induction es as [|e es IH]; [done|]. cbn [lookup_kv map].
  destruct (entry_val name e) eqn:E; [done|]. intros H.
  unfold upd at 1. rewrite E. by rewrite IH.
Qed.

Lemma upd_body_length name value es :
  "="%char ∉ name → uniq es →
  (length (body (map (upd name value) es)) <=
     length (body es) + length name + length value + 1)%nat.
Proof.
  intros Hn. unfold uniq. induction es as [|e es IH]; intros Hu; [simpl; lia|].
  cbn [map]. rewrite !body_cons, !length_app. cbn [length].
  destruct (entry_val name e) as [v|] eqn:E.
  - assert (lookup_kv name es = None) as Hnone.
    { apply entry_val_kv in E; [|done]. unfold names in Hu. simpl in Hu. rewrite E in Hu.
      simpl in Hu. apply NoDup_cons in Hu as [Hnin _].
      rewrite lookup_kv_abs by done. by apply not_elem_of_list_to_map_1. }
    rewrite upd_notin by done. unfold upd. rewrite E, pair_entry_length. lia.
  - assert (Hu' : NoDup (names es)).
    { unfold names in *. simpl in Hu. destruct (kv e); [|done].
      simpl in Hu. by apply NoDup_cons in Hu as [_ ?]. }
    specialize (IH Hu'). unfold upd at 1. rewrite E. lia.
Qed.

Lemma enc_snoc es e : enc (es ++ [e]) = ((body es ++ e) ++ [NUL]) ++ [NUL].
Proof. unfold enc. by rewrite body_app, body_cons, <- !app_assoc. Qed.

Lemma nvram_set_buf_spec name value es img :
  good_name name → nul_free value → image es img → uniq es →
  nvram_set_buf name value (Some img) = Done (enc (set_kv name value es)).
Proof.
  intros [Hn Hn2] Hv [Hes [junk ->]] Hu.
  pose proof (upd_body_length name value es Hn2 Hu) as Hl.
  assert (Hlen : (length (enc es ++ junk) >= length (body es) + 1)%nat)
    by (unfold enc; rewrite !length_app; simpl; lia).
  set (cap := (length (enc es ++ junk) + length name + length value + 2)%nat).
  assert (Hloop : set_loop (S (length (enc es ++ junk))) cap name value (enc es ++ junk) [] false =
    Done (body (map (upd name value) es), if lookup_kv name es is Some _ then true else false)).
  { rewrite set_loop_spec; [done|done|done|done| |unfold cap; simpl; lia].
    pose proof (body_length es). lia. }
  unfold nvram_set_buf. cbn [from_option]. fold cap.
  destruct (enc es ++ junk) as [|c b] eqn:Eimg; [simpl in Hlen; lia|].
  rewrite Hloop. cbn [mbind outcome_bind].
  unfold set_kv. destruct (lookup_kv name es) as [v|] eqn:E; cbn [mbind outcome_bind].
  - rewrite emit_ok; [done|]. unfold cap. simpl length in *. lia.
  - rewrite upd_notin in * by done.
    rewrite emit_pair_ok by (rewrite pair_entry_length; unfold cap; simpl length in *; lia).
    cbn [mbind outcome_bind].
    rewrite emit_ok by (rewrite length_app, pair_entry_length; unfold cap; simpl length in *; lia).
    cbn [mbind outcome_bind].
    rewrite emit_ok
      by (rewrite !length_app, pair_entry_length; unfold cap; simpl length in *; lia).
    by rewrite enc_snoc.
Qed.

(** Without a shadow file (or with an empty one) the block is one byte short of
    the pair and the two terminators. *)
Lemma nvram_set_buf_short name value file :
  from_option length 0%nat file = 0%nat → nvram_set_buf name value file = Fault.
Proof.
  intros Hf. unfold nvram_set_buf. rewrite Hf.
  replace (match file with Some (c :: b) => _ | _ => _ end) with (Done ([] : bytes, false))
    by (by destruct file as [[|??]|]).
  cbn [mbind outcome_bind].
  rewrite emit_pair_ok by (rewrite pair_entry_length; simpl; lia). cbn [mbind outcome_bind app].
  rewrite emit_ok by (rewrite pair_entry_length; simpl; lia). cbn [mbind outcome_bind].
  unfold emit. rewrite decide_False; [done|].
  rewrite length_app, pair_entry_length. simpl. lia.
Qed.

(** ** The store behind the files *)

(** [nv_rep s es ds]: the shadow file is an image of the entries [es], with no
    name twice, and the defaults file, if present, one of [ds]. *)
Record nv_rep (s : sys) (es ds : list cstr) : Prop := {
  rep_shadow : ∃ img, files s !! NVRAM_TMP_PATH = Some img ∧ image es img;
  rep_uniq : uniq es;
  rep_default :
    match files s !! NVRAM_DEFAULT with
    | Some img => image ds img
    | None => ds = []
    end;
}.

(** What [nvram_get] answers: the shadow first, then the defaults. *)
Definition view (es ds : list cstr) (k : cstr) : option cstr :=
  match abs es !! k with Some v => Some v | None => abs ds !! k end.

Lemma nul_free_kv e k v : nul_free e → kv e = Some (k, v) → nul_free k ∧ nul_free v.
Proof.
  intros He [-> _]%kv_Some. unfold pair_entry in He.
  apply nul_free_app in He as [? [_ ?]%nul_free_cons]. done.
Qed.

Lemma abs_lookup_nul_free es k v :
  Forall entry_ok es → abs es !! k = Some v → nul_free v.
Proof.
  intros Hes H. unfold abs in H. apply elem_of_list_to_map_2 in H.
  apply list_elem_of_omap in H as (e & He & Hkv).
  rewrite Forall_forall in Hes. destruct (Hes _ He) as [_ Hn].
  by eapply nul_free_kv.
Qed.

Lemma nvram_get_fun_shadow s es ds name :
  nv_rep s es ds → good_name name →
  nvram_get_fun name NVRAM_TMP_PATH s = Done (abs es !! name, s).
Proof.
  intros Hr [Hn Hn2]. destruct (rep_shadow _ _ _ Hr) as (img & Himg & Hi).
  unfold nvram_get_fun, readFileBin, read_file, getS, mbind, M_bind. simpl. rewrite Himg.
  unfold liftO. rewrite (nvram_get_buf_spec _ es) by done.
  by rewrite lookup_kv_abs.
Qed.

Lemma nvram_get_fun_default s es ds name :
  nv_rep s es ds → good_name name →
  nvram_get_fun name NVRAM_DEFAULT s = Done (abs ds !! name, s).
Proof.
  intros Hr [Hn Hn2]. pose proof (rep_default _ _ _ Hr) as Hd.
  unfold nvram_get_fun, readFileBin, read_file, getS, mbind, M_bind. simpl.
  destruct (files s !! NVRAM_DEFAULT) as [img|]; [|by subst].
  unfold liftO. rewrite (nvram_get_buf_spec _ ds) by done.
  by rewrite lookup_kv_abs.
Qed.

Lemma image_enc es : Forall entry_ok es → image es (enc es).
Proof. intros H. split; [done|]. exists []. by rewrite app_nil_r. Qed.

Lemma nvram_set_runs s es ds name value :
  nv_rep s es ds → good_name name → nul_free value →
  runs (nvram_set name value) s (λ r s',
    r = NVRAM_SUCCESS ∧ nv_rep s' (set_kv name value es) ds ∧
    flash s' = flash s ∧ cmds s' = cmds s ∧
    (∀ p, p ≠ NVRAM_TMP_PATH → files s' !! p = files s !! p)).
Proof.
  intros Hr Hn Hv. destruct (rep_shadow _ _ _ Hr) as (img & Himg & Hi).
  unfold nvram_set, readFileBin, read_file, getS, runs, mbind, M_bind. simpl. rewrite Himg.
  unfold liftO. rewrite (nvram_set_buf_spec _ _ es) by (done || apply (rep_uniq _ _ _ Hr)).
  split; [done|]. split.
  - pose proof (rep_uniq _ _ _ Hr) as Hu. destruct Hn as [Hn1 Hn2]. split; simpl.
    + exists (enc (set_kv name value es)). rewrite lookup_insert_eq.
      rewrite Nat2Z.id, take_ge by lia. split; [done|].
      apply image_enc, set_kv_ok; [done|done|apply Hi].
    + by apply set_kv_uniq.
    + rewrite lookup_insert_ne by done. apply (rep_default _ _ _ Hr).
  - simpl. split; [done|]. split; [done|]. intros p Hp. by rewrite lookup_insert_ne.
Qed.

(** The parts of the machine a store operation leaves alone. *)
Definition nv_frame (s s' : sys) : Prop :=
  flash s' = flash s ∧ cmds s' = cmds s ∧
  ∀ p, p ≠ NVRAM_TMP_PATH → files s' !! p = files s !! p.

Lemma nv_frame_refl s : nv_frame s s.
Proof. done. Qed.

Lemma view_set_kv es ds name value k :
  "="%char ∉ name →
  view (set_kv name value es) ds k = if decide (k = name) then Some value else view es ds k.
Proof.
  intros Hn. unfold view. rewrite abs_set_kv by done.
  destruct (decide (k = name)) as [->|Hk].
  - by rewrite lookup_insert_eq.
  - by rewrite lookup_insert_ne.
Qed.

Lemma rep_defaults_ok s es ds : nv_rep s es ds → Forall entry_ok ds.
Proof.
  intros Hr. pose proof (rep_default _ _ _ Hr) as Hd.
  destruct (files s !! NVRAM_DEFAULT); [apply Hd|by subst].
Qed.

Lemma rep_entries_ok s es ds : nv_rep s es ds → Forall entry_ok es.
Proof. intros Hr. destruct (rep_shadow _ _ _ Hr) as (img & _ & Hi). apply Hi. Qed.

Lemma view_nul_free s es ds k v : nv_rep s es ds → view es ds k = Some v → nul_free v.
Proof.
  intros Hr. unfold view. destruct (abs es !! k) eqn:E; intros H.
  - injection H as <-. eapply abs_lookup_nul_free; [by eapply rep_entries_ok|done].
  - eapply abs_lookup_nul_free; [by eapply rep_defaults_ok|done].
Qed.

(** Both getters, by the result they give for a name that is stored nowhere. *)
Lemma nvram_get_gen {A} s es ds name (found : cstr → A) (missing : A) :
  nv_rep s es ds → good_name name →
  runs (pt ← nvram_get_fun name NVRAM_TMP_PATH;
        match pt with
        | Some v => mret (found v)
        | None =>
            pt ← nvram_get_fun name NVRAM_DEFAULT;
            match pt with
            | Some v => _ ← nvram_set name v; mret (found v)
            | None => mret missing
            end
        end) s
    (λ r s', r = match view es ds name with Some v => found v | None => missing end ∧
             nv_frame s s' ∧
             ∃ es', nv_rep s' es' ds ∧ ∀ k, view es' ds k = view es ds k).
Proof.
  intros Hr Hn. apply runs_bind. unfold runs at 1.
  rewrite (nvram_get_fun_shadow _ es ds) by done. unfold view at 1.
  destruct (abs es !! name) as [v|] eqn:E1.
  { split; [done|]. split; [apply nv_frame_refl|]. by exists es. }
  apply runs_bind. unfold runs at 1.
  rewrite (nvram_get_fun_default _ es ds) by done.
  destruct (abs ds !! name) as [v|] eqn:E2.
  2: { split; [done|]. split; [apply nv_frame_refl|]. by exists es. }
  apply runs_bind.
  assert (Hv : nul_free v)
    by (eapply abs_lookup_nul_free; [by eapply rep_defaults_ok|done]).
  use_runs (nvram_set_runs s es ds name v Hr Hn Hv).
  intros r s' (-> & Hr' & Hf & Hc & Hp). apply runs_ret.
  split; [done|]. split; [done|].
  exists (set_kv name v es). split; [done|]. intros k.
  destruct Hn as [_ Hn]. rewrite view_set_kv by done.
  destruct (decide (k = name)) as [->|]; [|done]. unfold view. by rewrite E1, E2.
Qed.

Lemma nvram_safe_get_runs s es ds name :
  nv_rep s es ds → good_name name →
  runs (nvram_safe_get name) s (λ v s',
    v = default [] (view es ds name) ∧ nv_frame s s' ∧
    ∃ es', nv_rep s' es' ds ∧ ∀ k, view es' ds k = view es ds k).
Proof.
  intros Hr Hn. use_runs (nvram_get_gen s es ds name id emp_str Hr Hn).
  intros v s' (-> & H). by destruct (view es ds name).
Qed.

Lemma nvram_get_runs s es ds name :
  nv_rep s es ds → good_name name →
  runs (nvram_get name) s (λ v s',
    v = view es ds name ∧ nv_frame s s' ∧
    ∃ es', nv_rep s' es' ds ∧ ∀ k, view es' ds k = view es ds k).
Proof.
  intros Hr Hn. use_runs (nvram_get_gen s es ds name Some None Hr Hn).
  intros v s' (-> & H). by destruct (view es ds name).
Qed.

(** ** Flash images *)

(** The first sixteen bytes of an image, and the data behind the header. *)
Lemma header_bytes_words h rest :
  word (magic h) → word (len h) → word (crc h) →
  word_at (header_bytes h ++ rest) 0 = Done (magic h) ∧
  word_at (header_bytes h ++ rest) 4 = Done (len h) ∧
  word_at (header_bytes h ++ rest) 8 = Done (crc h).
Proof.
  intros Hm Hl Hc. unfold header_bytes. rewrite <- !app_assoc. split_and!.
  - by apply (word_at_be32 [] (magic h)).
  - by apply (word_at_be32 (be32 (magic h)) (len h)).
  - rewrite app_assoc. by apply (word_at_be32 (be32 (magic h) ++ be32 (len h)) (crc h)).
Qed.

Lemma header_bytes_length h : length (header_bytes h) = 16%nat.
Proof. done. Qed.

(** What the loader makes of a partition that holds a header and data. *)
Lemma nvram_load_image s h gap data tl :
  flash s = Some (header_bytes h ++ gap ++ data ++ tl) →
  length gap = 24%nat → word (magic h) → word (crc h) → len h = zlen data →
  0 < zlen data < 2 ^ 31 →
  nvram_load s =
    if negb (magic h =? NVRAM_MAGIC) then Done (NVRAM_MAGIC_ERR, s)
    else if negb (crc32_bytes data =? crc h) then Done (NVRAM_CRC_ERR, s)
    else Done (NVRAM_SUCCESS, set_files (<[NVRAM_TMP_PATH := data]> (files s)) s).
Proof.
  intros Hf Hg Hm Hc Hl Hd.
  unfold nvram_load, getS, mbind, M_bind. rewrite Hf.
  cbn [dev_read from_option id]. cbv zeta. change 16%nat with (length (header_bytes h)).
  rewrite drop_0, take_app_length.
  assert (Hw : word (len h)) by (rewrite Hl; unfold word; lia).
  destruct (header_bytes_words h [] Hm Hw Hc) as (E1 & E2 & E3).
  rewrite app_nil_r in E1, E2, E3. unfold liftO. rewrite E1.
  destruct (magic h =? NVRAM_MAGIC); [cbn [negb]|done]. rewrite E2.
  replace (drop NVRAM_HEADER_SIZE (header_bytes h ++ gap ++ data ++ tl)) with (data ++ tl).
  2: { rewrite app_assoc. rewrite drop_app_length'; [done|].
       rewrite length_app, header_bytes_length, Hg. done. }
  rewrite Hl, sint32_small by lia.
  unfold wrap32. rewrite Z.mod_small by lia.
  set (buf := take (Z.to_nat (zlen data + 1)) (data ++ tl)).
  assert (Hbuf : take (Z.to_nat (zlen data)) buf = data).
  { unfold buf. rewrite take_take, Nat.min_l by lia. rewrite Nat2Z.id. apply take_app_length. }
  assert (Hlen : zlen data <= zlen buf).
  { unfold buf. rewrite length_take, length_app. lia. }
  unfold crc32. destruct (Z.leb_spec (zlen data) 0); [lia|].
  destruct (Z.leb_spec (zlen data) (zlen buf)); [|lia].
  rewrite Hbuf, E3. destruct (crc32_bytes data =? crc h); [cbn [negb]|done].
  unfold writeFileBin, write_file, modS. by rewrite Hbuf.
Qed.

Lemma splice_length old off data :
  (off + length data <= length old)%nat → length (splice old off data) = length old.
Proof.
  intros. unfold splice. rewrite !length_app, length_take, length_drop, length_take. lia.
Qed.

Lemma splice_length_any old off data : length (splice old off data) = length old.
Proof. unfold splice. rewrite !length_app, !length_take, length_drop. lia. Qed.

(** The partition after a commit on a device that keeps what it is given. *)
Lemma splice_commit dev h data :
  (NVRAM_HEADER_SIZE + length data <= length dev)%nat →
  ∃ gap tl, length gap = 24%nat ∧
    splice (splice dev 0 (header_bytes h)) NVRAM_HEADER_SIZE data =
      header_bytes h ++ gap ++ data ++ tl.
Proof.
  intros H. unfold NVRAM_HEADER_SIZE in *.
  set (d1 := splice dev 0 (header_bytes h)).
  assert (E1 : d1 = header_bytes h ++ drop 16 dev).
  { unfold d1, splice. rewrite take_0. cbn [app].
    rewrite (take_ge (header_bytes h)) by (rewrite header_bytes_length; lia). done. }
  assert (L1 : length d1 = length dev)
    by (apply splice_length; rewrite header_bytes_length; lia).
  exists (take 24 (drop 16 dev)), (drop (40 + length data) d1).
  split; [rewrite length_take, length_drop; lia|].
  unfold splice. rewrite (take_ge data) by lia.
  rewrite E1 at 1. rewrite take_app_ge by (rewrite header_bytes_length; lia).
  rewrite header_bytes_length, <- app_assoc. done.
Qed.

Lemma nvram_commit_eq `{FlashDev} reserved s dev data :
  flash s = Some dev → files s !! NVRAM_TMP_PATH = Some data → data ≠ [] →
  nvram_commit reserved s = Done (NVRAM_SUCCESS,
    Sys (files s)
        (Some (dev_write (dev_write dev 0 (header_bytes
           (Header NVRAM_MAGIC (zlen data) (crc32_bytes data) reserved)))
           NVRAM_HEADER_SIZE data))
        (cmds s ++ [led_busy; led_idle])).
Proof.
  intros Hf Hd Hne.
  assert (Hcrc : crc32 data (zlen data) = Done (crc32_bytes data)).
  { unfold crc32. destruct (Z.leb_spec (zlen data) 0); [destruct data; simpl in *; [done|lia]|].
    destruct (Z.leb_spec (zlen data) (zlen data)); [|lia]. by rewrite Nat2Z.id, take_ge. }
  unfold nvram_commit, getS, readFileBin, read_file, getS, mbind, M_bind. rewrite Hf, Hd.
  destruct data as [|c data]; [done|].
  unfold system, modS, liftO, mret, M_ret. cbv beta iota zeta. rewrite Hcrc. cbn [dev_read]. rewrite Hcrc.
  rewrite Z.eqb_refl. cbn [negb]. unfold add_cmd, set_flash. simpl.
  by rewrite <- app_assoc.
Qed.

(** A load behind a commit restores the shadow file, on a device that keeps what
    it is given. *)
Lemma nvram_load_commit reserved s dev data s1 :
  flash s = Some dev → files s !! NVRAM_TMP_PATH = Some data → data ≠ [] →
  (NVRAM_HEADER_SIZE + length data <= length dev)%nat → zlen data < 2 ^ 31 →
  @nvram_commit ideal_dev reserved s = Done (NVRAM_SUCCESS, s1) →
  ∀ f, nvram_load (set_files f s1) =
    Done (NVRAM_SUCCESS, set_files (<[NVRAM_TMP_PATH := data]> f) s1).
Proof.
  intros Hf Hd Hne Hfit Hlen Hc f.
  rewrite (nvram_commit_eq _ _ dev data) in Hc by done. injection Hc as <-.
  set (h := Header NVRAM_MAGIC (zlen data) (crc32_bytes data) reserved).
  destruct (splice_commit dev h data Hfit) as (gap & tl & Hgap & E).
  assert (0 < zlen data) by (destruct data; [done|simpl; lia]).
  rewrite (nvram_load_image _ h gap data tl); [|by rewrite <- E|done|done|..].
  - cbn [magic crc h]. by rewrite !Z.eqb_refl.
  - apply crc32_bytes_word.
  - done.
  - lia.
Qed.

(** ** A machine whose configuration survives a reboot *)

(** Whatever happens to the files, loading the partition brings the shadow file
    back as it is, provided it fits the partition behind the header. *)
Definition committed (s : sys) : Prop :=
  ∀ dev data, flash s = Some dev → files s !! NVRAM_TMP_PATH = Some data → data ≠ [] →
    (NVRAM_HEADER_SIZE + length data <= length dev)%nat → zlen data < 2 ^ 31 →
    ∀ f, nvram_load (set_files f s) =
      Done (NVRAM_SUCCESS, set_files (<[NVRAM_TMP_PATH := data]> f) s).

Lemma nvram_commit_committed reserved s :
  runs (@nvram_commit ideal_dev reserved) s (λ _ s', committed s' ∧ files s' = files s).
Proof.
  destruct (flash s) as [dev|] eqn:Ef.
  2: { unfold runs, nvram_commit, mbind, M_bind, getS, mret, M_ret. rewrite Ef.
    split; [|done]. intros ? ? H. congruence. }
  destruct (files s !! NVRAM_TMP_PATH) as [[|c data]|] eqn:Ed;
    [unfold runs, nvram_commit, readFileBin, read_file, mbind, M_bind, getS, mret, M_ret;
       rewrite Ef, Ed; split; [|done]; intros ? ? ? H; congruence| |
     unfold runs, nvram_commit, readFileBin, read_file, mbind, M_bind, getS, mret, M_ret;
       rewrite Ef, Ed; split; [|done]; intros ? ? ? H; congruence].
  pose proof (nvram_commit_eq (H := ideal_dev) reserved s dev (c :: data) Ef Ed ltac:(done)) as E.
  unfold runs. rewrite E. split; [|done].
  intros dev' data' Hf' Hd' Hne Hfit Hlen. cbn [flash files] in Hf', Hd'.
  rewrite Ed in Hd'. injection Hd' as <-. injection Hf' as <-.
  apply (nvram_load_commit reserved s dev (c :: data)); try done.
  unfold ideal_dev in Hfit. by rewrite !splice_length_any in Hfit.
Qed.
