(* ===== verification/Scfg.v ===== *)
(** * The configuration service (libscfg/socket_tools.c, libscfg/scfgmgr.c)

    The request/reply protocol on TCP port 32764, the service that executes the
    requests on the configuration store, and the client calls. *)

From S2P Require Import Prelude CLib Crc32 FileSys Nvram.

Definition SCM_MAGIC : Z := 0x53634d4d.

Definition SCFG_ERR : Z := -1.
Definition SCFG_OK : Z := 0.
Definition SCFG_GETALL : Z := 1.
Definition SCFG_GET : Z := 2.
Definition SCFG_SET : Z := 3.
Definition SCFG_COMMIT : Z := 4.
Definition SCFG_TEST : Z := 5.
Definition SCFG_ADSL_STATUS : Z := 6.
Definition SCFG_CONSOLE : Z := 7.
Definition SCFG_RECEIVE : Z := 8.
Definition SCFG_VERSION : Z := 9.
Definition SCFG_LOCAL_IP : Z := 10.
Definition SCFG_RESTORE : Z := 11.
Definition SCFG_CHECKSUM : Z := 12.
Definition SCFG_CFG_INIT : Z := 13.

Record scfgmgr_header : Type := Hdr { h_magic : Z; h_cmd : Z; h_len : Z }.

(** The structure in memory: two words around a signed one. *)
Definition hdr_bytes (h : scfgmgr_header) : bytes :=
  be32 (h_magic h) ++ be32 (wrap32 (h_cmd h)) ++ be32 (h_len h).

(** Whether [malloc] succeeds for a size; the firmware checks it only here. *)
Class Heap : Type := alloc_ok : Z → bool.

(** ** The socket *)

(** What has arrived on a connection, in the pieces [read] returns it; after
    the last piece the peer has closed. *)
Definition sock_read (n : nat) (segs : list bytes) : bytes * list bytes :=
  match segs with
  | [] => ([], [])
  | s :: segs' =>
      if (length s <=? n)%nat then (s, segs') else (take n s, drop n s :: segs')
  end.

(** [while (total < len)]: every [read] asks for [len] bytes at [pt], whatever
    is left of the block; a [read] of 0 bytes leaves the loop where it was. *)
Fixpoint read_loop (len : nat) (got : bytes) (segs : list bytes)
    : outcome (bytes * list bytes) :=
  if (len <=? length got)%nat then Done (got, segs)
  else
    match segs with
    | [] => Stuck
    | s :: segs' =>
        if (length s <=? len)%nat then
          if (length got + length s <=? len)%nat
          then read_loop len (got ++ s) segs'
          else Fault
        else
          if (length got =? 0)%nat
          then Done (take len s, drop len s :: segs')
          else Fault
    end.

Inductive read_result : Type :=
  | RdError                                             (** -1 *)
  | RdOk (h : scfgmgr_header) (data : option bytes).    (** 0 *)

(** [data_ok] tells whether the caller passed a place for the payload. *)
Definition socket_read `{Heap} (data_ok : bool) (segs : list bytes)
    : outcome (read_result * list bytes) :=
  let '(hb, segs1) := sock_read 12 segs in
  magic ← word_at hb 0;
  if negb (magic =? SCM_MAGIC) then Done (RdError, segs1)
  else
    cmd ← word_at hb 4;
    len ← word_at hb 8;
    let h := Hdr magic (sint32 cmd) len in
    if 0 <? len then
      if negb data_ok then Fault
      else if negb (alloc_ok len) then Done (RdError, segs1)
      else
        r ← read_loop (Z.to_nat len) [] segs1;
        let '(data, segs2) := (r : bytes * list bytes) in
        Done (RdOk h (Some data), segs2)
    else Done (RdOk h None, segs1).

(** The bytes written, in the pieces of the two [write] calls. *)
Definition socket_write (h : scfgmgr_header) (data : bytes) : outcome (list bytes) :=
  if 0 <? h_len h then
    if zlen data <? h_len h then Fault
    else Done [hdr_bytes h; take (Z.to_nat (h_len h)) data]
  else Done [hdr_bytes h].

(** ** The service *)

(** The shell behind [popen] (working directory, command: output and new
    machine state) and the kernel's [chdir]. *)
Class Shell : Type := {
  run_shell : cstr → cstr → sys → cstr * sys;
  change_dir : cstr → cstr → cstr;
}.

(** A connection: the machine, what is still to be read, what was written, the
    [console_mode] flag and the working directory of the process serving it. *)
Record conn : Type := Conn {
  c_sys : sys;
  c_in : list bytes;
  c_out : list bytes;
  console_mode : Z;
  c_cwd : cstr;
}.

Definition with_sys (s : sys) (c : conn) : conn := Conn s (c_in c) (c_out c) (console_mode c) (c_cwd c).
Definition set_in (i : list bytes) (c : conn) : conn := Conn (c_sys c) i (c_out c) (console_mode c) (c_cwd c).
Definition add_out (o : list bytes) (c : conn) : conn :=
  Conn (c_sys c) (c_in c) (c_out c ++ o) (console_mode c) (c_cwd c).
Definition set_console (z : Z) (c : conn) : conn := Conn (c_sys c) (c_in c) (c_out c) z (c_cwd c).
Definition set_cwd (d : cstr) (c : conn) : conn := Conn (c_sys c) (c_in c) (c_out c) (console_mode c) d.

Definition on_sys {A} (m : M sys A) : M conn A := λ c,
  match m (c_sys c) with
  | Done (a, s') => Done (a, with_sys s' c)
  | Fault => Fault
  | Stuck => Stuck
  end.

(** What a request leaves in [buf] and [buf_len]: [Reply] is the way out after
    the [switch], [Error] the [error:] label. *)
Inductive answer : Type := Reply (buf : bytes) | Error.

(** [strcpy(buf, s); buf_len = strlen(s)+1;] *)
Definition reply_str (s : cstr) : M conn answer :=
  if zlen s <? NVRAM_SIZE then mret (Reply (s ++ [NUL])) else faultM.

(** The string at the start of the payload; the pointer is null when the
    request had no payload. *)
Definition payload_str (payload : option bytes) : M conn cstr :=
  match payload with
  | None => faultM
  | Some p => liftO (rd_str p)
  end.

Definition SCFG_GETALL_handler : M conn answer :=
  f ← on_sys (read_file NVRAM_TMP_PATH);
  match f with
  | None => mret Error
  | Some b => if NVRAM_SIZE <? zlen b then faultM else mret (Reply b)
  end.

Definition SCFG_GET_handler (payload : option bytes) : M conn answer :=
  pt ← payload_str payload;
  value ← on_sys (nvram_get pt);
  match value with
  | None => mret Error
  | Some v => reply_str v
  end.

Definition SCFG_SET_handler (payload : option bytes) : M conn answer :=
  pt ← payload_str payload;
  if negb (strchr pt "="%char) then mret Error
  else if negb (zlen pt <? NVRAM_SIZE) then faultM
  else
    let '(name, saved) := strtok ["="%char] pt in
    let value := default [] (strtok [] saved).1 in
    match name with
    | Some n => _ ← on_sys (nvram_set n value); mret (Reply [])
    | None => mret Error
    end.

Definition SCFG_COMMIT_handler `{FlashDev} (stack : Z) : M conn answer :=
  r ← on_sys (nvram_commit stack);
  if r <? 0 then mret Error else mret (Reply []).

Definition SCFG_TEST_handler : M conn answer :=
  _ ← on_sys (nvram_set "wan_mode" "bridgedonly");
  _ ← on_sys (nvram_set "wan_encap" "0");
  _ ← on_sys (nvram_set "wan_vpi" "8");
  _ ← on_sys (nvram_set "wan_vci" "81");
  _ ← on_sys (system "/usr/bin/killall br2684ctl");
  _ ← on_sys (system "/usr/sbin/rc wan restart&");
  _ ← on_sys (system "/usr/bin/killall udhcpd");
  mret (Reply []).

(** [sscanf(pt, "%*[^:]: %d %*[^:]: %d", &upstream, &downstream)] *)
Definition scan_adsl (pt : bytes) : outcome (Z * Z) :=
  a ← scan_not ":"%char pt;
  match a with
  | None => Done (0, 0)
  | Some a =>
      b ← scan_lit ":"%char a;
      match b with
      | None => Done (0, 0)
      | Some b =>
          up ← scan_d b;
          match up with
          | None => Done (0, 0)
          | Some (up, c) =>
              c ← scan_space c;
              d ← scan_not ":"%char c;
              match d with
              | None => Done (up, 0)
              | Some d =>
                  e ← scan_lit ":"%char d;
                  match e with
                  | None => Done (up, 0)
                  | Some e =>
                      down ← scan_d e;
                      Done (up, match down with Some (v, _) => v | None => 0 end)
                  end
              end
          end
      end
  end.

Definition SCFG_ADSL_STATUS_handler : M conn answer :=
  _ ← modS (set_console 1);
  f ← on_sys (read_file "/proc/avalanche/avsar_modem_stats");
  match f with
  | None => mret Error
  | Some b =>
      if NVRAM_SIZE <? zlen b then faultM
      else
        pt ← liftO (buf_strstr "US" b);
        r ← liftO (match pt with Some p => scan_adsl p | None => Done (0, 0) end);
        let '(upstream, downstream) := (r : Z * Z) in
        reply_str (dec downstream ++ "Kbps/" ++ dec upstream ++ "Kbps")
  end.

Definition SCFG_CONSOLE_handler `{Shell} (payload : option bytes) : M conn answer :=
  cmd ← payload_str payload;
  if bool_decide (cmd ∈ ["exit" : cstr; "quit" : cstr; "bye" : cstr]) then
    _ ← modS (set_console 0);
    mret (Reply [])
  else
    _ ← modS (set_console 1);
    if bool_decide (take 3 cmd = "cd ") then
      _ ← modS (λ c, set_cwd (change_dir (c_cwd c) (drop 3 cmd)) c);
      c ← getS;
      (* getcwd into mytmp[1024] *)
      if zlen (c_cwd c) <? 1024 then reply_str ("cd " ++ c_cwd c) else faultM
    else
      c ← getS;
      let '(data, s') := run_shell (c_cwd c) cmd (c_sys c) in
      _ ← modS (with_sys s');
      reply_str data.

(** The file name is copied to [tmp[128]] without room for the terminator, and
    then behind ["/tmp/"] to [filename[128]]. *)
Definition SCFG_RECEIVE_handler (len : Z) (payload : option bytes) : M conn answer :=
  match payload with
  | None => faultM
  | Some p =>
      tmp ← liftO (match rd_str (take 128 p) with
                   | Done t => Done t
                   | _ => Fault
                   end);
      if 128 <? 5 + zlen tmp + 1 then faultM
      else
        _ ← on_sys (write_file ("/tmp/" ++ tmp)
                      (take (Z.to_nat (len - zlen tmp - 1)) (drop (S (length tmp)) p)));
        mret (Reply [])
  end.

(** [sscanf(buf, "%c%d.%d.%d", &annex, &a, &b, &c)]; [annex] stays unset when
    nothing was read. *)
Definition scan_version (m : bytes) : outcome (ascii * Z * Z * Z) :=
  match m with
  | [] => Fault
  | annex :: m1 =>
      r ← scan_d m1;
      match r with
      | None => Done (annex, 0, 0, 0)
      | Some (a, m2) =>
          l ← scan_lit "."%char m2;
          match l with
          | None => Done (annex, a, 0, 0)
          | Some m3 =>
              r ← scan_d m3;
              match r with
              | None => Done (annex, a, 0, 0)
              | Some (b, m4) =>
                  l ← scan_lit "."%char m4;
                  match l with
                  | None => Done (annex, a, b, 0)
                  | Some m5 =>
                      r ← scan_d m5;
                      Done (annex, a, b, match r with Some (c, _) => c | None => 0 end)
                  end
              end
          end
      end
  end.

Definition SCFG_VERSION_handler : M conn answer :=
  _ ← modS (set_console 1);
  f ← on_sys (read_file "/etc/version");
  match f with
  | None => faultM
  | Some b =>
      r ← liftO (scan_version (take 128 b));
      let '(annex, va, vb, vc) := (r : ascii * Z * Z * Z) in
      reply_str (annex :: "." ++ pad0 2 (hex false va) ++ pad0 2 (hex false vb)
                              ++ pad0 2 (hex false vc))
  end.

Definition SCFG_LOCAL_IP_handler : M conn answer :=
  _ ← modS (set_console 1);
  v ← on_sys (nvram_get "lan_ipaddr");
  match v with Some v => reply_str v | None => faultM end.

Definition SCFG_RESTORE_handler `{FlashDev} (stack : Z) : M conn answer :=
  _ ← modS (set_console 1);
  _ ← on_sys (nvram_set "restore_defaults" "1");
  _ ← on_sys (nvram_commit stack);
  mret (Reply []).

Definition SCFG_CHECKSUM_handler : M conn answer :=
  f ← on_sys (read_file "/dev/mtdblock/0");
  match f with
  | None => mret Error
  | Some b =>
      match take 2 (drop (length b - 4) b) with
      | [x; y] =>
          _ ← modS (set_console 1);
          reply_str (hex false (code x * 256 + code y))
      | _ => faultM
      end
  end.

Definition SCFG_CFG_INIT_handler `{FlashDev} (stack : Z) : M conn answer :=
  _ ← on_sys nvram_load;
  _ ← on_sys (nvram_commit stack);
  mret (Reply []).

Definition scfg_dispatch `{FlashDev} `{Shell} (stack : Z) (h : scfgmgr_header)
    (payload : option bytes) : M conn answer :=
  let cmd := h_cmd h in
  if cmd =? SCFG_GETALL then SCFG_GETALL_handler
  else if cmd =? SCFG_GET then SCFG_GET_handler payload
  else if cmd =? SCFG_SET then SCFG_SET_handler payload
  else if cmd =? SCFG_COMMIT then SCFG_COMMIT_handler stack
  else if cmd =? SCFG_TEST then SCFG_TEST_handler
  else if cmd =? SCFG_ADSL_STATUS then SCFG_ADSL_STATUS_handler
  else if cmd =? SCFG_CONSOLE then SCFG_CONSOLE_handler payload
  else if cmd =? SCFG_RECEIVE then SCFG_RECEIVE_handler (h_len h) payload
  else if cmd =? SCFG_VERSION then SCFG_VERSION_handler
  else if cmd =? SCFG_LOCAL_IP then SCFG_LOCAL_IP_handler
  else if cmd =? SCFG_RESTORE then SCFG_RESTORE_handler stack
  else if cmd =? SCFG_CHECKSUM then SCFG_CHECKSUM_handler
  else if cmd =? SCFG_CFG_INIT then SCFG_CFG_INIT_handler stack
  else mret Error.

Definition send_reply (cmd : Z) (buf : bytes) : M conn unit :=
  o ← liftO (socket_write (Hdr SCM_MAGIC cmd (zlen buf)) buf);
  modS (add_out o).

(** One request.  [stack] is the indeterminate word [nvram_commit] stores. *)
Definition scfg_run `{Heap} `{FlashDev} `{Shell} (stack : Z) : M conn unit :=
  _ ← modS (set_console 0);
  c ← getS;
  r ← liftO (socket_read true (c_in c));
  let '(res, rest) := (r : read_result * list bytes) in
  _ ← modS (set_in rest);
  match res with
  | RdError => send_reply SCFG_ERR []
  | RdOk h payload =>
      a ← scfg_dispatch stack h payload;
      match a with
      | Reply buf => send_reply SCFG_OK buf
      | Error => send_reply SCFG_ERR []
      end
  end.

(** [scfg_init]: 0 when the shadow file exists. *)
Definition scfg_init : M sys Z :=
  b ← access NVRAM_TMP_PATH;
  mret (if (b : bool) then 0 else -1).

(** ** The clients *)

(** A connection to the service on this machine: the request is served by a
    fresh process, which reads each [write] of the client as one piece. *)
Definition scfgmgr_connect `{Heap} `{FlashDev} `{Shell} (stack : Z)
    (shd : scfgmgr_header) (sdata : bytes) (data_ok : bool) : M sys (option (scfgmgr_header * option bytes)) :=
  o ← liftO (socket_write shd sdata);
  s ← getS;
  r ← liftO (scfg_run stack (Conn s o [] 1 "/"));
  let '(_, c) := (r : unit * conn) in
  _ ← putS (c_sys c);
  r ← liftO (socket_read data_ok (c_out c));
  let '(res, _) := (r : read_result * list bytes) in
  mret (match res with RdError => None | RdOk h d => Some (h, d) end).

(** The result and the payload of the reply. *)
Definition scfgmgr_cmd `{Heap} `{FlashDev} `{Shell} (stack cmd : Z) : M sys (Z * option bytes) :=
  r ← scfgmgr_connect stack (Hdr SCM_MAGIC cmd 0) [] true;
  match r with
  | None => mret (-1, None)
  | Some (rhd, d) => mret (if h_cmd rhd =? SCFG_ERR then -1 else 0, d)
  end.

Definition scfgmgr_set `{Heap} `{FlashDev} `{Shell} (stack : Z) (name data : cstr) : M sys Z :=
  let tmp := name ++ "="%char :: data in
  if 4500 <? zlen tmp + 1 then faultM
  else
    r ← scfgmgr_connect stack (Hdr SCM_MAGIC SCFG_SET (zlen tmp + 1)) (tmp ++ [NUL]) false;
    match r with
    | None => mret (-1)
    | Some (rhd, _) => mret (if h_cmd rhd =? SCFG_ERR then -1 else 0)
    end.

Definition scfgmgr_sendfile `{Heap} `{FlashDev} `{Shell} (stack : Z) (data : bytes) (len : Z) : M sys Z :=
  r ← scfgmgr_connect stack (Hdr SCM_MAGIC SCFG_RECEIVE (wrap32 len)) data false;
  match r with
  | None => mret (-1)
  | Some (rhd, _) => mret (if h_cmd rhd =? SCFG_ERR then -1 else 0)
  end.

(** The three callers below test [i], which they never set. *)
Definition scfgmgr_query `{Heap} `{FlashDev} `{Shell} (stack : Z) (h : scfgmgr_header) (data : bytes)
    : M sys (Z * option bytes) :=
  let i := 0 in
  r ← scfgmgr_connect stack h data true;
  match r with
  | None => mret (-1, None)
  | Some (_, d) => mret (if i =? SCFG_ERR then -1 else 0, d)
  end.

Definition scfgmgr_getall `{Heap} `{FlashDev} `{Shell} (stack : Z) : M sys (Z * option bytes) :=
  scfgmgr_query stack (Hdr SCM_MAGIC SCFG_GETALL 0) [].

Definition scfgmgr_get `{Heap} `{FlashDev} `{Shell} (stack : Z) (data : cstr) : M sys (Z * option bytes) :=
  scfgmgr_query stack (Hdr SCM_MAGIC SCFG_GET (zlen data + 1)) (data ++ [NUL]).

Definition scfgmgr_console `{Heap} `{FlashDev} `{Shell} (stack : Z) (data : cstr) : M sys (Z * option bytes) :=
  scfgmgr_query stack (Hdr SCM_MAGIC SCFG_CONSOLE (zlen data + 1)) (data ++ [NUL]).

(** ** The life of a connection *)

(** [while (console_mode) scfg_run(infd);] in the process that serves it. *)
Inductive conn_step `{Heap} `{FlashDev} `{Shell} (stack : Z) : conn → conn → Prop :=
  | step_run c c' :
      console_mode c ≠ 0 → scfg_run stack c = Done (tt, c') → conn_step stack c c'.
