(* ===== verification/ScfgCorrect.v ===== *)
(** * The configuration service is correct

    The message format round-trips whatever the fragmentation; a [SET] request
    through the socket is an insertion in the abstract store; the requests that
    only work on the store keep it well formed. *)

From S2P Require Import Prelude CLib Crc32 FileSys Nvram NvramSpec NvramCorrect Scfg.

(** ** Messages *)

Lemma hdr_bytes_length h : length (hdr_bytes h) = 12%nat.
Proof. done. Qed.

Definition hdr_ok (h : scfgmgr_header) : Prop :=
  word (h_magic h) ∧ - 2 ^ 31 <= h_cmd h < 2 ^ 31 ∧ word (h_len h).

Lemma sint32_wrap32 z : - 2 ^ 31 <= z < 2 ^ 31 → sint32 (wrap32 z) = z.
Proof.
  intros Hz. unfold sint32, wrap32.
  rewrite Zplus_mod_idemp_l, Z.mod_small by lia. lia.
Qed.

Lemma hdr_words h rest :
  hdr_ok h →
  word_at (hdr_bytes h ++ rest) 0 = Done (h_magic h) ∧
  word_at (hdr_bytes h ++ rest) 4 = Done (wrap32 (h_cmd h)) ∧
  word_at (hdr_bytes h ++ rest) 8 = Done (h_len h).
Proof.
  intros (Hm & Hc & Hl). unfold hdr_bytes. rewrite <- !app_assoc. split_and!.
  - by apply (word_at_be32 [] (h_magic h)).
  - apply (word_at_be32 (be32 (h_magic h)) (wrap32 (h_cmd h))). apply wrap32_range.
  - rewrite app_assoc.
    by apply (word_at_be32 (be32 (h_magic h) ++ be32 (wrap32 (h_cmd h))) (h_len h)).
Qed.

(** A whole header as the first piece, then the payload in any pieces. *)
Lemma read_loop_pieces len got segs rest :
  Forall (λ s, s ≠ []) segs → length (got ++ concat segs) = len →
  read_loop len got (segs ++ rest) = Done (got ++ concat segs, rest).
Proof.
  revert got. induction segs as [|s segs IH]; intros got Hne Hlen; simpl in *.
  - rewrite app_nil_r in *.
    destruct rest; simpl; by rewrite (proj2 (Nat.leb_le _ _)) by lia.
  - apply Forall_cons in Hne as [Hs Hne].
    rewrite !length_app in Hlen.
    assert (0 < length s)%nat by (destruct s; [done|simpl; lia]).
    rewrite (proj2 (Nat.leb_gt _ _)) by lia.
    rewrite (proj2 (Nat.leb_le (length s) _)) by lia.
    rewrite (proj2 (Nat.leb_le (length got + length s) _)) by lia.
    rewrite IH; [by rewrite <- app_assoc|done|]. rewrite !length_app. lia.
Qed.

Lemma socket_read_pieces `{Heap} h segs rest :
  hdr_ok h → h_magic h = SCM_MAGIC → Forall (λ s, s ≠ []) segs →
  zlen (concat segs) = h_len h → 0 < h_len h → alloc_ok (h_len h) = true →
  socket_read true (hdr_bytes h :: segs ++ rest) = Done (RdOk h (Some (concat segs)), rest).
Proof.
  intros Hh Hm Hne Hlen Hpos Ha.
  destruct (hdr_words h [] Hh) as (E1 & E2 & E3). rewrite app_nil_r in *.
  destruct Hh as (_ & Hc & _).
  unfold socket_read, sock_read. rewrite hdr_bytes_length. simpl Nat.leb. cbv iota.
  rewrite E1. cbn [mbind outcome_bind]. rewrite Hm, Z.eqb_refl. cbn [negb].
  rewrite E2, E3. cbn [mbind outcome_bind].
  rewrite (proj2 (Z.ltb_lt _ _) Hpos). cbn [negb]. rewrite Ha. cbn [negb].
  rewrite read_loop_pieces; [|done|simpl; lia].
  cbn [mbind outcome_bind app]. rewrite sint32_wrap32 by done.
  rewrite <- Hm. by destruct h.
Qed.

Lemma socket_read_bare `{Heap} d h rest :
  hdr_ok h → h_magic h = SCM_MAGIC → h_len h = 0 →
  socket_read d (hdr_bytes h :: rest) = Done (RdOk h None, rest).
Proof.
  intros Hh Hm Hl.
  destruct (hdr_words h [] Hh) as (E1 & E2 & E3). rewrite app_nil_r in *.
  destruct Hh as (_ & Hc & _).
  unfold socket_read, sock_read. rewrite hdr_bytes_length. simpl Nat.leb. cbv iota.
  rewrite E1. cbn [mbind outcome_bind]. rewrite Hm, Z.eqb_refl. cbn [negb].
  rewrite E2, E3. cbn [mbind outcome_bind]. rewrite Hl, sint32_wrap32 by done.
  simpl. rewrite <- Hm, <- Hl. by destruct h.
Qed.

(** ** The name and the value of a [SET] request *)

(** [strtok] without delimiters answers the whole rest of the text. *)
Lemma strtok_rest s : default [] (strtok [] s).1 = s.
Proof.
  unfold strtok. destruct s as [|c s]; [done|].
  rewrite skip_while_id by set_solver.
  rewrite span_until_free; [done|]. intros c' Hc'. by apply not_elem_of_nil in Hc'.
Qed.

Lemma strtok_name name data :
  name ≠ [] → "="%char ∉ name →
  strtok ["="%char] (name ++ "="%char :: data) = (Some name, data).
Proof.
  intros Hne Hn. unfold strtok. destruct name as [|c name]; [done|].
  cbn [app]. rewrite skip_while_id by set_solver.
  change (c :: name ++ "="%char :: data) with ((c :: name) ++ "="%char :: data).
  rewrite span_until_app; [done| |set_solver].
  by intros c' ->%list_elem_of_singleton.
Qed.

(** The name [strtok] finds is one the store can hold. *)
Lemma strtok_good s name saved :
  nul_free s → strtok ["="%char] s = (Some name, saved) →
  good_name name ∧ nul_free saved.
Proof.
  unfold strtok. intros Hs.
  destruct (skip_while ["="%char] s) as [|c t] eqn:E; [done|].
  assert (Ht : nul_free (c :: t)).
  { intros Hin. apply Hs. apply (skip_while_sublist ["="%char]). by rewrite E. }
  pose proof (span_until_fst_free ["="%char] (c :: t) "="%char ltac:(set_solver)) as Hf.
  assert (Hsplit : (span_until ["="%char] (c :: t)).1 ++ (span_until ["="%char] (c :: t)).2 = c :: t).
  { generalize (c :: t). intros l. induction l as [|x l IH]; [done|]. simpl.
    destruct (decide (x ∈ ["="%char])); [done|].
    destruct (span_until ["="%char] l); simpl in *. by f_equal. }
  destruct (span_until ["="%char] (c :: t)) as [a b]. intros [= <- <-].
  simpl in *. rewrite <- Hsplit in Ht. apply nul_free_app in Ht as [Ha Hb].
  split; [done|]. destruct b; [done|]. by apply nul_free_cons in Hb as [_ ?].
Qed.

(** ** Lifting store operations to the connection *)

Lemma runs_on_sys {A} (m : M sys A) c (Q : A → conn → Prop) :
  runs m (c_sys c) (λ a s, Q a (with_sys s c)) → runs (on_sys m) c Q.
Proof. unfold runs, on_sys. by destruct (m (c_sys c)) as [[a s]| |]. Qed.

Lemma strchr_eq s c : c ≠ NUL → strchr s c = bool_decide (c ∈ s).
Proof. intros. unfold strchr. apply bool_decide_ext. set_solver. Qed.

Section service.
Context {heap : Heap} {dev : FlashDev} {shell : Shell}.

Lemma SET_handler_runs c es ds name data :
  nv_rep (c_sys c) es ds → name ≠ [] → good_name name → nul_free data →
  zlen name + 1 + zlen data < NVRAM_SIZE →
  runs (SCFG_SET_handler (Some (name ++ "="%char :: data ++ [NUL]))) c
    (λ a c', a = Reply [] ∧ ∃ s', c' = with_sys s' c ∧ nv_frame (c_sys c) s' ∧
             nv_rep s' (set_kv name data es) ds).
Proof.
  intros Hr Hne Hn Hd Hlen. pose proof Hn as [Hn1 Hn2].
  assert (Hpt : rd_str (name ++ "="%char :: data ++ [NUL]) = Done (name ++ "="%char :: data)).
  { change (name ++ "="%char :: data ++ [NUL]) with (name ++ ("="%char :: data) ++ [NUL]).
    rewrite app_assoc. apply rd_str_app. apply nul_free_app. split; [done|].
    by apply nul_free_cons. }
  unfold SCFG_SET_handler, payload_str. rewrite Hpt. apply runs_bind.
  eapply runs_lift; [done|]. cbv beta.
  rewrite strchr_eq by done. rewrite bool_decide_true by set_solver. cbn [negb].
  rewrite (proj2 (Z.ltb_lt _ _)) by (rewrite length_app; simpl; lia). cbn [negb].
  rewrite strtok_name by done. rewrite strtok_rest. apply runs_bind, runs_on_sys.
  use_runs (nvram_set_runs (c_sys c) es ds name data Hr Hn Hd).
  intros r s' (-> & Hr' & Hf & Hc & Hp). apply runs_ret. split; [done|].
  by exists s'.
Qed.

(** A [SET] through the socket, up to the reply. *)
Lemma scfg_run_set stack s es ds name data :
  nv_rep s es ds → name ≠ [] → good_name name → nul_free data →
  zlen name + 1 + zlen data < NVRAM_SIZE →
  alloc_ok (zlen (name ++ "="%char :: data) + 1) = true →
  runs (scfg_run stack) (Conn s [hdr_bytes (Hdr SCM_MAGIC SCFG_SET (zlen (name ++ "="%char :: data) + 1));
                                 (name ++ "="%char :: data) ++ [NUL]] [] 1 "/")
    (λ _ c', c_out c' = [hdr_bytes (Hdr SCM_MAGIC SCFG_OK 0)] ∧ nv_frame s (c_sys c') ∧
             nv_rep (c_sys c') (set_kv name data es) ds).
Proof.
  intros Hr Hne Hn Hd Hlen Ha. unfold scfg_run.
  set (h := Hdr SCM_MAGIC SCFG_SET (zlen (name ++ "="%char :: data) + 1)) in *.
  apply runs_bind, runs_mod, runs_bind, runs_get, runs_bind. cbn [set_console c_in].
  assert (Hh : hdr_ok h).
  { unfold hdr_ok, h, word, SCM_MAGIC, SCFG_SET. simpl. rewrite length_app. simpl.
    unfold NVRAM_SIZE in Hlen. lia. }
  eapply runs_lift.
  { apply (socket_read_pieces h [(name ++ "="%char :: data) ++ [NUL]] []); try done.
    - apply Forall_singleton. by destruct name.
    - simpl. rewrite app_nil_r, length_app. simpl. lia.
    - simpl. lia. }
  apply runs_bind, runs_mod. cbn [concat app]. rewrite app_nil_r.
  apply runs_bind. unfold scfg_dispatch, h. cbn [h_cmd h_len].
  cbn [Z.eqb SCFG_SET SCFG_GETALL SCFG_GET].
  set (c := set_in _ _).
  replace ((name ++ "="%char :: data) ++ [NUL]) with (name ++ "="%char :: data ++ [NUL])
    by by rewrite <- app_assoc.
  use_runs (SET_handler_runs c es ds name data Hr Hne Hn Hd Hlen).
  intros a c' (-> & s' & -> & Hfr & Hr').
  unfold send_reply. apply runs_bind. eapply runs_lift; [done|]. cbv beta.
  apply runs_mod. split; [done|]. by split.
Qed.

(** The client call of the whole firmware: a set through the service. *)
Lemma scfgmgr_set_runs stack s es ds name data :
  nv_rep s es ds → name ≠ [] → good_name name → nul_free data →
  zlen name + 1 + zlen data < 4500 →
  (∀ n, 0 < n <= 4500 → alloc_ok n = true) →
  runs (scfgmgr_set stack name data) s
    (λ r s', r = 0 ∧ nv_frame s s' ∧ nv_rep s' (set_kv name data es) ds).
Proof.
  intros Hr Hne Hn Hd Hlen Ha. unfold scfgmgr_set.
  assert (Hl : zlen (name ++ "="%char :: data) = zlen name + 1 + zlen data)
    by (rewrite length_app; simpl; lia).
  rewrite (proj2 (Z.ltb_ge _ _)) by lia.
  unfold scfgmgr_connect.
  set (h := Hdr SCM_MAGIC SCFG_SET (zlen (name ++ "="%char :: data) + 1)).
  apply runs_bind, runs_bind.
  eapply runs_lift.
  { unfold socket_write, h. cbn [h_len].
    rewrite (proj2 (Z.ltb_lt _ _)) by lia.
    rewrite (proj2 (Z.ltb_ge _ _)) by (rewrite !length_app; simpl; lia).
    rewrite take_ge by (rewrite !length_app; simpl; lia). done. }
  cbv beta. apply runs_bind, runs_get, runs_bind.
  assert (Hsz : zlen name + 1 + zlen data < NVRAM_SIZE) by (unfold NVRAM_SIZE; lia).
  assert (Hal : alloc_ok (zlen (name ++ "="%char :: data) + 1) = true) by (apply Ha; lia).
  pose proof (scfg_run_set stack s es ds name data Hr Hne Hn Hd Hsz Hal) as Hrun.
  apply runs_done in Hrun as (u & c' & Hrun & Hout & Hfr & Hr').
  eapply runs_lift; [fold h in Hrun; exact Hrun|]. cbv beta.
  apply runs_bind, runs_put. apply runs_bind. rewrite Hout.
  eapply runs_lift.
  { apply (socket_read_bare false (Hdr SCM_MAGIC SCFG_OK 0) []); [|done|done].
    unfold hdr_ok, word, SCM_MAGIC, SCFG_OK. simpl. lia. }
  cbv beta. apply runs_ret. apply runs_ret. done.
Qed.

(** ** The requests that only work on the store keep it well formed *)

(** No default value holds an ['=']. *)
Definition plain_entry (e : cstr) : Prop :=
  match kv e with Some (_, v) => "="%char ∉ v | None => True end.
#[global] Instance plain_entry_dec e : Decision (plain_entry e).
Proof. unfold plain_entry. destruct (kv e) as [[??]|]; apply _. Defined.

Definition plain (ds : list cstr) : Prop := Forall plain_entry ds.

Lemma kv_split a b v : "="%char ∉ a → kv (pair_entry (a ++ "="%char :: b) v) =
  Some (a, b ++ "="%char :: v).
Proof. intros Ha. unfold pair_entry. rewrite <- app_assoc. by apply kv_pair. Qed.

Lemma plain_lookup ds name : plain ds → "="%char ∈ name → lookup_kv name ds = None.
Proof.
  intros Hp Hin. induction ds as [|e ds IH]; [done|].
  apply Forall_cons in Hp as [He Hp]. simpl.
  destruct (entry_val name e) as [v|] eqn:E; [|by apply IH].
  apply entry_val_Some in E as ->.
  apply list_elem_of_split_l in Hin as (a & b & -> & Ha).
  exfalso. unfold plain_entry in He. rewrite kv_split in He by done. set_solver.
Qed.

Definition store_inv (ds : list cstr) (s : sys) : Prop := plain ds ∧ ∃ es, nv_rep s es ds.

Lemma nv_rep_files s s' es ds : files s' = files s → nv_rep s es ds → nv_rep s' es ds.
Proof. intros E [H1 H2 H3]. split; rewrite ?E; done. Qed.

Lemma nvram_get_keeps ds name : nul_free name → keeps (store_inv ds) (nvram_get name).
Proof.
  intros Hn. apply keeps_runs. intros s [Hp (es & Hr)].
  destruct (decide ("="%char ∈ name)) as [Hin|Hnin].
  - destruct (rep_shadow _ _ _ Hr) as (img & Himg & Hi).
    pose proof (rep_default _ _ _ Hr) as Hd.
    assert (E1 : nvram_get_fun name NVRAM_TMP_PATH s = Done (lookup_kv name es, s)).
    { unfold nvram_get_fun, readFileBin, read_file, getS, mbind, M_bind. simpl. rewrite Himg.
      unfold liftO. by rewrite (nvram_get_buf_spec _ es). }
    assert (E2 : nvram_get_fun name NVRAM_DEFAULT s = Done (None, s)).
    { unfold nvram_get_fun, readFileBin, read_file, getS, mbind, M_bind. simpl.
      destruct (files s !! NVRAM_DEFAULT) as [d|]; [|done].
      unfold liftO. rewrite (nvram_get_buf_spec _ ds) by done. by rewrite plain_lookup. }
    unfold nvram_get. apply runs_bind. unfold runs at 1. rewrite E1.
    destruct (lookup_kv name es); [apply runs_ret; split; eauto|].
    apply runs_bind. unfold runs at 1. rewrite E2. apply runs_ret. split; eauto.
  - use_runs (nvram_get_runs s es ds name Hr (conj Hn Hnin)).
    intros v s' (_ & _ & es' & Hr' & _). split; eauto.
Qed.

Lemma nvram_set_keeps ds name value :
  good_name name → nul_free value → keeps (store_inv ds) (nvram_set name value).
Proof.
  intros Hn Hv. apply keeps_runs. intros s [Hp (es & Hr)].
  use_runs (nvram_set_runs s es ds name value Hr Hn Hv).
  intros r s' (_ & Hr' & _). split; eauto.
Qed.

Lemma system_keeps ds cmd : keeps (store_inv ds) (system cmd).
Proof.
  apply keeps_mod. intros s [Hp (es & Hr)]. split; [done|]. exists es.
  by apply (nv_rep_files s).
Qed.

Lemma read_file_keeps ds p : keeps (store_inv ds) (read_file p).
Proof. unfold read_file. keeps_steps. Qed.

Lemma nvram_commit_keeps ds stack : keeps (store_inv ds) (nvram_commit stack).
Proof.
  unfold nvram_commit, readFileBin. keeps_steps;
    try apply system_keeps; try apply read_file_keeps.
  all: apply keeps_mod; intros s' [Hp (es & Hr)]; split; [done|]; exists es;
    by apply (nv_rep_files s').
Qed.

Definition conn_inv (ds : list cstr) (c : conn) : Prop := store_inv ds (c_sys c).

Lemma on_sys_keeps {A} ds (m : M sys A) :
  keeps (store_inv ds) m → keeps (conn_inv ds) (on_sys m).
Proof.
  intros Hm c a c' Hc. unfold on_sys.
  destruct (m (c_sys c)) as [[b s]| |] eqn:E; intros [= <- <-]. by eapply Hm.
Qed.

Lemma keeps_conn_mod ds f :
  (∀ c, c_sys (f c) = c_sys c) → keeps (conn_inv ds) (modS f).
Proof. intros Hf. apply keeps_mod. intros c Hc. unfold conn_inv. by rewrite Hf. Qed.

Lemma reply_str_keeps ds s : keeps (conn_inv ds) (reply_str s).
Proof. unfold reply_str. keeps_steps. Qed.

(** The commands that run a shell command, write a file of the caller's choice,
    or reload the partition. *)
Definition store_cmd (cmd : Z) : Prop :=
  cmd ≠ SCFG_CONSOLE ∧ cmd ≠ SCFG_RECEIVE ∧ cmd ≠ SCFG_CFG_INIT.

Lemma payload_str_nul_free payload p c c' :
  payload_str payload c = Done (p, c') → nul_free p.
Proof.
  unfold payload_str, liftO. destruct payload as [m|]; [|done].
  destruct (rd_str m) as [q| |] eqn:E; intros [= <- <-].
  by apply rd_str_inv in E as [? _].
Qed.

Lemma payload_str_keeps ds payload : keeps (conn_inv ds) (payload_str payload).
Proof. unfold payload_str. keeps_steps. Qed.

#[local] Hint Resolve on_sys_keeps nvram_get_keeps nvram_set_keeps system_keeps
  read_file_keeps nvram_commit_keeps keeps_conn_mod reply_str_keeps payload_str_keeps : wap.

Ltac good_lit := split; apply (bool_decide_unpack _); vm_compute; exact I.

Lemma SET_handler_keeps ds payload : keeps (conn_inv ds) (SCFG_SET_handler payload).
Proof.
  unfold SCFG_SET_handler. apply keeps_bind_eq; [auto with wap|].
  intros pt (c & c' & _ & Hpt%payload_str_nul_free).
  case_match; [auto with wap|]. case_match; [auto with wap|].
  destruct (strtok ["="%char] pt) as [[name|] saved] eqn:E; [|auto with wap].
  destruct (strtok_good _ _ _ Hpt E) as [Hn Hs].
  rewrite strtok_rest. apply keeps_bind; [|auto with wap]. by apply on_sys_keeps, nvram_set_keeps.
Qed.

Lemma GET_handler_keeps ds payload : keeps (conn_inv ds) (SCFG_GET_handler payload).
Proof.
  unfold SCFG_GET_handler. apply keeps_bind_eq; [auto with wap|].
  intros pt (c & c' & _ & Hpt%payload_str_nul_free).
  apply keeps_bind; [auto with wap|]. intros [v|]; auto with wap.
Qed.

Lemma dispatch_keeps ds stack h payload :
  store_cmd (h_cmd h) → keeps (conn_inv ds) (scfg_dispatch stack h payload).
Proof.
  intros (H1 & H2 & H3). unfold scfg_dispatch.
  repeat case_match; rewrite ?Z.eqb_eq in *; try congruence;
    auto using SET_handler_keeps, GET_handler_keeps with wap;
    unfold SCFG_GETALL_handler, SCFG_COMMIT_handler, SCFG_TEST_handler,
      SCFG_ADSL_STATUS_handler, SCFG_VERSION_handler, SCFG_LOCAL_IP_handler,
      SCFG_RESTORE_handler, SCFG_CHECKSUM_handler;
    keeps_steps; auto with wap;
    apply on_sys_keeps; first [apply nvram_set_keeps; [good_lit|] | apply nvram_get_keeps];
    apply (bool_decide_unpack _); vm_compute; exact I.
Qed.

Lemma send_reply_keeps ds cmd buf : keeps (conn_inv ds) (send_reply cmd buf).
Proof. unfold send_reply. apply keeps_bind; [auto with wap|]. intros. by apply keeps_conn_mod. Qed.

(** The commands of the requests a connection delivers. *)
Inductive conn_run (stack : Z) : list Z → conn → conn → Prop :=
  | run_stop c : conn_run stack [] c c
  | run_bad cmds c c1 c' rest :
      socket_read true (c_in c) = Done (RdError, rest) →
      conn_step stack c c1 → conn_run stack cmds c1 c' → conn_run stack cmds c c'
  | run_req cmds c c1 c' h payload rest :
      socket_read true (c_in c) = Done (RdOk h payload, rest) →
      conn_step stack c c1 → conn_run stack cmds c1 c' →
      conn_run stack (h_cmd h :: cmds) c c'.

Lemma scfg_run_keeps ds stack c c' :
  conn_inv ds c → scfg_run stack c = Done (tt, c') →
  (∀ h payload rest, socket_read true (c_in c) = Done (RdOk h payload, rest) → store_cmd (h_cmd h)) →
  conn_inv ds c'.
Proof.
  intros Hc E Hcmd. revert E. unfold scfg_run, modS, getS, liftO, mbind, M_bind.
  cbn [set_console c_in].
  destruct (socket_read true (c_in c)) as [[[|h payload] rest]| |] eqn:Er; [| |done|done].
  - by apply send_reply_keeps.
  - destruct (scfg_dispatch _ _ _ _) as [[a c1]| |] eqn:Ed; [|done|done].
    apply (dispatch_keeps ds) in Ed; [|by eapply Hcmd|done].
    destruct a; by apply send_reply_keeps.
Qed.

Lemma conn_run_keeps ds stack cmds c c' :
  conn_run stack cmds c c' → Forall store_cmd cmds → conn_inv ds c → conn_inv ds c'.
Proof.
  induction 1 as [|cmds c c1 c' rest Er Hs Hr IH|cmds c c1 c' h p rest Er Hs Hr IH];
    intros Hf Hc; [done| |].
  - apply IH; [done|]. destruct Hs as [c c1 _ E].
    eapply scfg_run_keeps; [done|done|]. intros h p rest'. by rewrite Er.
  - apply Forall_cons in Hf as [Hh Hf]. apply IH; [done|]. destruct Hs as [c c1 _ E].
    eapply scfg_run_keeps; [done|done|]. intros h' p' rest'. rewrite Er.
    by intros [= -> -> ->].
Qed.

End service.
