(* ===== verification/Sample.v ===== *)
(** * A concrete machine

    A small machine in the state the firmware boots to: a shadow file, a
    defaults file and a partition.  The theorems are instantiated on it. *)

From S2P Require Import Prelude CLib Crc32 FileSys Nvram NvramSpec NvramCorrect Scfg.

Definition sample_es : list cstr :=
  ["sys_name=wap" : cstr; "lan_ipaddr=192.168.1.245" : cstr; "wlan0_ssid0=ciscosb" : cstr].
Definition sample_ds : list cstr :=
  ["sys_name=wap" : cstr; "lan_netmask=255.255.255.0" : cstr; "lan_dhcpc=1" : cstr].

Definition sample_flash : bytes := replicate 256 NUL.

Definition sample : sys :=
  Sys (<[NVRAM_TMP_PATH := enc sample_es]> (<[NVRAM_DEFAULT := enc sample_ds]> ∅))
      (Some sample_flash) [].

Definition sample_heap : Heap := λ n, n <=? 0x100000.
Definition sample_shell : Shell := {|
  run_shell := λ _ _ s, ([], s);
  change_dir := λ _ p, p;
|}.

#[global] Instance entry_ok_dec e : Decision (entry_ok e).
Proof. unfold entry_ok. apply _. Defined.

Ltac decided := apply (bool_decide_unpack _); vm_compute; exact I.

Lemma sample_rep : nv_rep sample sample_es sample_ds.
Proof.
  split.
  - exists (enc sample_es). unfold sample. cbn [files].
    split; [by rewrite lookup_insert_eq|].
    apply image_enc. decided.
  - unfold uniq. decided.
  - unfold sample. cbn [files]. rewrite lookup_insert_ne by done. rewrite lookup_insert_eq.
    apply image_enc. decided.
Defined.

Lemma sample_shadow : files sample !! NVRAM_TMP_PATH = Some (enc sample_es).
Proof. unfold sample. cbn [files]. by rewrite lookup_insert_eq. Qed.

Lemma sample_heap_ok n : 0 < n <= 4500 → sample_heap n = true.
Proof. unfold sample_heap. lia. Qed.
