(* ===== verification/StoreTheorems.v ===== *)
(** * The theorems about the configuration store and its service *)

From S2P Require Import Prelude CLib Crc32 FileSys Nvram NvramSpec NvramCorrect Scfg ScfgCorrect Sample.

(** C4: setting a name through the socket service and reading it back.  From a
    well-formed store the client's [scfgmgr_set] ends without a fault, returns
    0, and the value read afterwards is the text sent, whatever characters it
    holds (the ['='] included); every other name keeps its value, and neither the
    flash, the shell nor any file but the shadow file is touched.  The pair must
    fit the 4500 bytes of a request. *)
Theorem set_get_through_service {heap : Heap} {dev : FlashDev} {shell : Shell}
    stack s es ds name data :
  nv_rep s es ds → name ≠ [] → good_name name → nul_free data →
  zlen name + 1 + zlen data < 4500 → (∀ n, 0 < n <= 4500 → alloc_ok n = true) →
  runs (r ← scfgmgr_set stack name data; v ← nvram_safe_get name; mret (r, v)) s
    (λ rv s', rv = (0, data) ∧ nv_frame s s' ∧
      ∃ es', nv_rep s' es' ds ∧ ∀ k, k ≠ name → view es' ds k = view es ds k).
Proof.
  intros Hr Hne Hn Hd Hl Ha. apply runs_bind.
  use_runs (scfgmgr_set_runs stack s es ds name data Hr Hne Hn Hd Hl Ha).
  intros r s1 (-> & (F1 & F2 & F3) & Hr1). apply runs_bind.
  use_runs (nvram_safe_get_runs s1 _ ds name Hr1 Hn).
  destruct Hn as [_ Hn]. intros v s2 (-> & (G1 & G2 & G3) & es' & Hr2 & Hv).
  rewrite view_set_kv, decide_True by done. apply runs_ret. split; [done|].
  split; [split_and!; [congruence|congruence|]; intros p Hp; rewrite G3, F3; done|].
  exists es'. split; [done|]. intros k Hk. by rewrite Hv, view_set_kv, decide_False.
Qed.

Example set_get_through_service_witness :
  runs (r ← @scfgmgr_set sample_heap ideal_dev sample_shell 7 "wlan0_ssid0" "ssid=office";
        v ← nvram_safe_get "wlan0_ssid0"; mret (r, v)) sample
    (λ rv s', rv = (0, "ssid=office" : cstr) ∧ nv_frame sample s' ∧
      ∃ es', nv_rep s' es' sample_ds ∧
        ∀ k, k ≠ ("wlan0_ssid0" : cstr) → view es' sample_ds k = view sample_es sample_ds k).
Proof.
  apply (@set_get_through_service sample_heap ideal_dev sample_shell
           7 sample sample_es sample_ds "wlan0_ssid0" "ssid=office");
    [apply sample_rep|done|split; decided|decided|vm_compute; done|apply sample_heap_ok].
Defined.

(** C2: [nvram_set] refines insertion in a finite map.  On a well-formed store
    it succeeds without leaving the buffers it reads and writes, the new shadow
    file represents the old map with the name bound to the value, and the
    invariant (well-formed entries, no name twice) holds again. *)
Theorem nvram_set_refines_insert s es ds name value :
  nv_rep s es ds → good_name name → nul_free value →
  runs (nvram_set name value) s (λ r s',
    r = NVRAM_SUCCESS ∧ nv_frame s s' ∧
    ∃ es', nv_rep s' es' ds ∧ abs es' = <[name := value]> (abs es)).
Proof.
  intros Hr Hn Hv. use_runs (nvram_set_runs s es ds name value Hr Hn Hv).
  intros r s' (-> & Hr' & Hf & Hc & Hp). split; [done|]. split; [done|].
  exists (set_kv name value es). split; [done|]. apply abs_set_kv, Hn.
Qed.

Example nvram_set_refines_insert_witness :
  runs (nvram_set "sys_name" "ap7") sample (λ r s',
    r = NVRAM_SUCCESS ∧ nv_frame sample s' ∧
    ∃ es', nv_rep s' es' sample_ds ∧
      abs es' = <[("sys_name" : cstr) := ("ap7" : cstr)]> (abs sample_es)).
Proof.
  apply nvram_set_refines_insert; [apply sample_rep|split; decided|decided].
Defined.

(** C3: [nvram_safe_get] refines the two-level lookup.  It answers the value in
    the shadow file, else the one in the defaults file, else the empty string;
    although it copies a default into the shadow file, what every name reads as
    afterwards is what it read as before. *)
Theorem nvram_safe_get_refines_view s es ds name :
  nv_rep s es ds → good_name name →
  runs (nvram_safe_get name) s (λ v s',
    v = default [] (view es ds name) ∧ nv_frame s s' ∧
    ∃ es', nv_rep s' es' ds ∧ ∀ k, view es' ds k = view es ds k).
Proof. apply nvram_safe_get_runs. Qed.

Example nvram_safe_get_refines_view_witness :
  runs (nvram_safe_get "lan_netmask") sample (λ v s',
    v = default [] (view sample_es sample_ds "lan_netmask") ∧ nv_frame sample s' ∧
    ∃ es', nv_rep s' es' sample_ds ∧
      ∀ k, view es' sample_ds k = view sample_es sample_ds k).
Proof.
  apply nvram_safe_get_refines_view; [apply sample_rep|split; decided].
Defined.

(** C6: commit then load is the identity on the shadow file.  On a device that
    keeps what it is given, an image that fits the partition behind the header
    is restored whatever happened to the shadow file in between, and the load
    reports success. *)
Theorem commit_load_roundtrip reserved s dev data s1 :
  flash s = Some dev → files s !! NVRAM_TMP_PATH = Some data → data ≠ [] →
  (NVRAM_HEADER_SIZE + length data <= length dev)%nat → zlen data < 2 ^ 31 →
  @nvram_commit ideal_dev reserved s = Done (NVRAM_SUCCESS, s1) →
  ∀ f, nvram_load (set_files f s1) =
    Done (NVRAM_SUCCESS, set_files (<[NVRAM_TMP_PATH := data]> f) s1).
Proof. apply nvram_load_commit. Qed.

Example commit_load_roundtrip_witness :
  nvram_load (set_files ∅ (Sys (files sample)
     (Some (splice (splice sample_flash 0 (header_bytes
        (Header NVRAM_MAGIC (zlen (enc sample_es)) (crc32_bytes (enc sample_es)) 7)))
        NVRAM_HEADER_SIZE (enc sample_es)))
     ([] ++ [led_busy; led_idle]))) =
  Done (NVRAM_SUCCESS, set_files (<[NVRAM_TMP_PATH := enc sample_es]> ∅) (Sys (files sample)
     (Some (splice (splice sample_flash 0 (header_bytes
        (Header NVRAM_MAGIC (zlen (enc sample_es)) (crc32_bytes (enc sample_es)) 7)))
        NVRAM_HEADER_SIZE (enc sample_es)))
     ([] ++ [led_busy; led_idle]))).
Proof.
  apply (commit_load_roundtrip 7 sample sample_flash (enc sample_es));
    [done|apply sample_shadow|done|decided|vm_compute; done|].
  apply nvram_commit_eq; [done|apply sample_shadow|done].
Defined.

(** C24: the loader refuses a damaged image.  If one byte of the committed data
    has changed, whatever its position and new value, [nvram_load] reports
    [NVRAM_CRC_ERR] and leaves the shadow file as it was. *)
Theorem load_rejects_single_byte_damage s h gap pre b b' post tl :
  flash s = Some (header_bytes h ++ gap ++ (pre ++ b' :: post) ++ tl) →
  length gap = 24%nat → magic h = NVRAM_MAGIC →
  crc h = crc32_bytes (pre ++ b :: post) → len h = zlen (pre ++ b :: post) →
  len h < 2 ^ 31 → b ≠ b' →
  nvram_load s = Done (NVRAM_CRC_ERR, s).
Proof.
  intros Hf Hg Hm Hc Hl Hs Hb.
  assert (El : zlen (pre ++ b' :: post) = zlen (pre ++ b :: post))
    by (rewrite !length_app; done).
  rewrite (nvram_load_image s h gap (pre ++ b' :: post) tl Hf Hg).
  - rewrite Hm, Hc, Z.eqb_refl. cbn [negb].
    destruct (Z.eqb_spec (crc32_bytes (pre ++ b' :: post)) (crc32_bytes (pre ++ b :: post)))
      as [E%crc32_bytes_single|]; [congruence|done].
  - by rewrite Hm.
  - rewrite Hc. apply crc32_bytes_word.
  - by rewrite Hl.
  - rewrite El, <- Hl. split; [|done]. rewrite Hl, length_app. simpl. lia.
Qed.

Example load_rejects_single_byte_damage_witness :
  let data := ("a=1" : bytes) ++ "0"%char :: [NUL; NUL] in
  let s := Sys ∅ (Some (header_bytes (Header NVRAM_MAGIC (zlen data) (crc32_bytes data) 0) ++
                        replicate 24 NUL ++ (("a=1" : bytes) ++ "1"%char :: [NUL; NUL]) ++ [])) [] in
  nvram_load s = Done (NVRAM_CRC_ERR, s).
Proof.
  intros data s.
  apply (load_rejects_single_byte_damage s (Header NVRAM_MAGIC (zlen data) (crc32_bytes data) 0)
           (replicate 24 NUL) "a=1" "0"%char "1"%char [NUL; NUL] []); done.
Defined.

(** The verification in [nvram_commit] sees nothing.  The partition is
    opened for writing only, so reading the data back fails and the checksum
    is compared with itself: once the partition opens and the shadow file is
    not empty, the result is success whatever the device made of the writes. *)
Theorem commit_success_is_unverified {dev : FlashDev} reserved s part data :
  flash s = Some part → files s !! NVRAM_TMP_PATH = Some data → data ≠ [] →
  ∃ s', nvram_commit reserved s = Done (NVRAM_SUCCESS, s').
Proof. intros Hf Hd Hne. eexists. by apply (nvram_commit_eq _ _ part data). Qed.

(** The witness uses a device that stores nothing. *)
Example commit_success_is_unverified_witness :
  ∃ s', @nvram_commit (λ old _ _, old) 0 sample = Done (NVRAM_SUCCESS, s').
Proof.
  apply (@commit_success_is_unverified (λ old _ _, old) 0 sample sample_flash (enc sample_es));
    [done|apply sample_shadow|done].
Defined.

(** C5: the service keeps the store well formed.  However a connection goes, as
    long as its requests are not the ones that run a shell command, write a
    file or reload the partition ([store_cmd] excludes CONSOLE, RECEIVE and
    CFG_INIT), whatever bytes they carry, the shadow file stays an image of
    well-formed entries with no name twice; the entries of the defaults file are
    well formed and none of their values holds an ['='] ([plain]). *)
Theorem service_keeps_store {heap : Heap} {dev : FlashDev} {shell : Shell} ds stack cmds c c' :
  plain ds → (∃ es, nv_rep (c_sys c) es ds) →
  conn_run stack cmds c c' → Forall store_cmd cmds →
  ∃ es', nv_rep (c_sys c') es' ds.
Proof.
  intros Hp He Hrun Hf.
  by destruct (conn_run_keeps ds stack cmds c c' Hrun Hf (conj Hp He)) as [_ ?].
Qed.

Definition sample_conn : conn :=
  Conn sample [hdr_bytes (Hdr SCM_MAGIC SCFG_SET 8); ("a=b=c==" : bytes) ++ [NUL]] [] 1 "/".

Example service_keeps_store_witness :
  ∃ c', conn_run (heap := sample_heap) (dev := ideal_dev) (shell := sample_shell)
          0 [SCFG_SET] sample_conn c' ∧
    ∃ es', nv_rep (c_sys c') es' sample_ds.
Proof.
  destruct (@scfg_run sample_heap ideal_dev sample_shell 0 sample_conn) as [[[] c']| |] eqn:E;
    [|vm_compute in E; discriminate E|vm_compute in E; discriminate E].
  exists c'.
  assert (Hrun : conn_run (heap := sample_heap) (dev := ideal_dev) (shell := sample_shell)
                   0 [SCFG_SET] sample_conn c').
  { refine (run_req 0 [] sample_conn c' c' (Hdr SCM_MAGIC SCFG_SET 8)
              (Some (("a=b=c==" : bytes) ++ [NUL])) [] _ _ (run_stop _ _)).
    - vm_compute. reflexivity.
    - by apply step_run. }
  split; [exact Hrun|].
  apply (@service_keeps_store sample_heap ideal_dev sample_shell sample_ds 0 [SCFG_SET]
           sample_conn c').
  - unfold plain. decided.
  - exists sample_es. apply sample_rep.
  - exact Hrun.
  - repeat constructor; done.
Defined.

(** C25: a message survives fragmentation.  However the payload of a well-formed
    message is cut into non-empty pieces, [socket_read] returns the header and
    exactly the payload, and consumes nothing that follows. *)
Theorem socket_read_any_pieces {heap : Heap} h segs rest :
  hdr_ok h → h_magic h = SCM_MAGIC → Forall (λ s, s ≠ []) segs →
  zlen (concat segs) = h_len h → 0 < h_len h → alloc_ok (h_len h) = true →
  socket_read true (hdr_bytes h :: segs ++ rest) = Done (RdOk h (Some (concat segs)), rest).
Proof. apply socket_read_pieces. Qed.

Example socket_read_any_pieces_witness :
  @socket_read sample_heap true
    (hdr_bytes (Hdr SCM_MAGIC SCFG_GET 5) :: ["ab" : bytes; "c" : bytes; "de" : bytes] ++ ["xx" : bytes]) =
  Done (RdOk (Hdr SCM_MAGIC SCFG_GET 5) (Some ("abcde" : bytes)), ["xx" : bytes]).
Proof.
  apply (@socket_read_any_pieces sample_heap (Hdr SCM_MAGIC SCFG_GET 5)
           ["ab" : bytes; "c" : bytes; "de" : bytes] ["xx" : bytes]);
    [unfold hdr_ok, word; vm_compute; intuition congruence|done|repeat constructor; done|done|done|done].
Defined.

(** C26: the table-driven checksum is the bit-serial CRC-32, for every message. *)
Theorem crc32_table_correct data : crc32_bytes data = crc32_bits data.
Proof.
  unfold crc32_bytes, crc32_bits. rewrite crc_run_eq; [done|]. apply word_ones.
Qed.

(** A failed commit is reported as done.  The service tests the result for
    being negative, while every error of [nvram_commit] is positive: without a
    partition to write to, the client that sent [SCFG_COMMIT] still gets
    [SCFG_OK]. *)
Theorem failed_commit_reported_ok {heap : Heap} {dev : FlashDev} {shell : Shell} stack s :
  flash s = None →
  nvram_commit stack s = Done (NVRAM_FLASH_ERR, s) ∧
  runs (scfgmgr_cmd stack SCFG_COMMIT) s (λ r s', r = (0, None) ∧ s' = s).
Proof.
  intros Hf.
  assert (E : nvram_commit stack s = Done (NVRAM_FLASH_ERR, s))
    by (unfold nvram_commit, getS, mbind, M_bind; by rewrite Hf).
  split; [done|].
  assert (Er : scfg_run stack (Conn s [hdr_bytes (Hdr SCM_MAGIC SCFG_COMMIT 0)] [] 1 "/") =
    Done (tt, Conn s [] [hdr_bytes (Hdr SCM_MAGIC SCFG_OK 0)] 0 "/")).
  { unfold scfg_run, modS, getS, liftO, mbind, M_bind. cbn [set_console c_in].
    rewrite socket_read_bare;
      [|unfold hdr_ok, word; vm_compute; intuition congruence|done|done].
    cbv [scfg_dispatch SCFG_COMMIT_handler on_sys mbind M_bind]. cbn.
    rewrite E. cbn. by destruct s. }
  unfold scfgmgr_cmd, scfgmgr_connect. apply runs_bind, runs_bind.
  eapply runs_lift; [done|]. apply runs_bind, runs_get, runs_bind.
  eapply runs_lift; [exact Er|]. apply runs_bind, runs_put, runs_bind.
  eapply runs_lift.
  { apply (socket_read_bare true (Hdr SCM_MAGIC SCFG_OK 0) []); [|done|done].
    unfold hdr_ok, word; vm_compute; intuition congruence. }
  apply runs_ret, runs_ret. done.
Qed.

Example failed_commit_reported_ok_witness :
  let s := Sys ∅ None [] in
  @nvram_commit ideal_dev 0 s = Done (NVRAM_FLASH_ERR, s) ∧
  runs (@scfgmgr_cmd sample_heap ideal_dev sample_shell 0 SCFG_COMMIT) s
    (λ r s', r = (0, None) ∧ s' = s).
Proof.
  exact (@failed_commit_reported_ok sample_heap ideal_dev sample_shell 0 (Sys ∅ None []) eq_refl).
Defined.
