(* ===== verification/CfgStore.v ===== *)
(** * What the configuration functions use of the store

    [libapcfg] reads names with [nvram_safe_get]/[nvram_get], writes them with
    [scfgmgr_set], and raises apply flags with [apl_set_flag].  [CfgStore] is
    that interface, [CfgStoreLaws] what it promises in terms of an abstract
    configuration (what every name reads as, and the flags raised so far), and
    the rest of the file the C idioms the configuration functions are made of,
    with their effect on the abstract configuration. *)

From S2P Require Import Prelude CLib NvramSpec.

(** ** The abstract configuration *)

(** What every name reads as ([None]: it is stored nowhere), and the flags
    raised since the last apply; [None] when flags are ignored because applying
    is closed. *)
Record cfg : Type := Cfg {
  val : cstr → option cstr;
  raised : option (list Z);
}.

Definition safe (a : cfg) (k : cstr) : cstr := default [] (val a k).

Definition put (k d : cstr) (a : cfg) : cfg :=
  Cfg (λ k', if decide (k' = k) then Some d else val a k') (raised a).

Definition raise (id : Z) (a : cfg) : cfg :=
  Cfg (val a) ((λ l, l ++ [id]) <$> raised a).

Lemma safe_put_eq k d a : safe (put k d a) k = d.
Proof. unfold safe, put. simpl. by rewrite decide_True. Qed.

Lemma safe_put_ne k k' d a : k' ≠ k → safe (put k d a) k' = safe a k'.
Proof. intros. unfold safe, put. simpl. by rewrite decide_False. Qed.

Lemma safe_raise id a k : safe (raise id a) k = safe a k.
Proof. done. Qed.

(** ** The interface *)

Class CfgStore (S : Type) : Type := {
  nvram_safe_get : cstr → M S cstr;
  nvram_get : cstr → M S (option cstr);
  scfgmgr_set : cstr → cstr → M S Z;
  apl_set_flag : Z → M S unit;
  system : cstr → M S unit;
  (** the contents of a file, [None] when it cannot be opened *)
  fopen_read : cstr → M S (option bytes);
}.

(** The apply flags that have a name in the log. *)
Definition APL_NAMED : Z := 33.

(** The longest pair the client of the service can build, and the names the
    functions use. *)
Definition pair_fits (k d : cstr) : Prop := zlen k + 1 + zlen d < 4500.
Definition key_ok (k : cstr) : Prop := k ≠ [] ∧ good_name k.
#[global] Instance key_ok_dec k : Decision (key_ok k).
Proof. unfold key_ok, good_name. apply _. Defined.

Class CfgStoreLaws (S : Type) `{CfgStore S} : Type := {
  (** the state of the machine represents an abstract configuration *)
  rep : S → cfg → Prop;
  rep_nul_free s a k : rep s a → nul_free (safe a k);
  safe_get_runs s a k :
    rep s a → key_ok k →
    runs (nvram_safe_get k) s (λ r s', r = safe a k ∧ rep s' a);
  get_runs s a k :
    rep s a → key_ok k →
    runs (nvram_get k) s (λ r s', r = val a k ∧ rep s' a);
  set_runs s a k d :
    rep s a → key_ok k → nul_free d → pair_fits k d →
    runs (scfgmgr_set k d) s (λ _ s', rep s' (put k d a));
  flag_runs s a id :
    rep s a → 0 <= id < APL_NAMED →
    runs (apl_set_flag id) s (λ _ s', rep s' (raise id a));
  system_runs s a cmd : rep s a → runs (system cmd) s (λ _ s', rep s' a);
  fopen_runs s a path : rep s a → runs (fopen_read path) s (λ _ s', rep s' a);
}.

(** ** C idioms *)

Definition A_OK : Z := 0.
Definition A_ERROR : Z := -1.
Definition A_EINVAL : Z := 1.
Definition A_NO_MEMORY : Z := 2.
Definition A_ENOENT : Z := 3.
Definition ENABLE : cstr := "1".
Definition DISABLE : cstr := "0".

Section idioms.
Context {S : Type} {store : CfgStore S}.

(** [sprintf(string, "%d", v)] with [string] of [n] bytes. *)
Definition sprintf_d (n : nat) (v : Z) : M S cstr :=
  if decide (length (dec v) < n)%nat then mret (dec v) else faultM.

(** [strcpy(value, p)] with [value] of [n] bytes. *)
Definition strcpy_buf (n : nat) (p : cstr) : M S cstr :=
  if decide (length p < n)%nat then mret p else faultM.

(** [p = nvram_safe_get(key); strcpy(value, p); NVRAM_FREE(p); return value;] *)
Definition get_str (n : nat) (key : cstr) : M S cstr :=
  p ← nvram_safe_get key; strcpy_buf n p.

(** [value = (strcmp(p,ENABLE) == 0)?1:0;] *)
Definition get_bool (key : cstr) : M S Z :=
  p ← nvram_safe_get key; mret (boolZ (bool_decide (p = ENABLE))).

(** [value = atoi(p);] *)
Definition get_int (key : cstr) : M S Z :=
  p ← nvram_safe_get key; mret (atoi p).

(** The same through a local buffer. *)
Definition get_int_buf (n : nat) (key : cstr) : M S Z :=
  value ← get_str n key; mret (atoi value).

Definition enable (v : Z) : cstr := if v =? 1 then ENABLE else DISABLE.

(** [if (b) body;] *)
Definition when (b : bool) (body : M S unit) : M S unit := if b then body else mret tt.

(** A value stored in a [char], which is signed on this target. *)
Definition schar (v : Z) : Z := (v + 128) mod 256 - 128.

(** [return A_ERROR] unless the check passes. *)
Definition guarded (bad : bool) (body : M S Z) : M S Z :=
  if bad then mret A_ERROR else body.

Definition set (key d : cstr) : M S unit := _ ← scfgmgr_set key d; mret tt.
End idioms.

(** [strcmp(p, q) != 0] *)
Definition differ (p q : cstr) : bool := bool_decide (p ≠ q).
Definition Zdiffer (x y : Z) : bool := negb (x =? y).

(** ** Names and codes of enumerations *)

Definition name_of (tbl : list (Z * cstr)) (dflt : cstr) (v : Z) : cstr :=
  match find (λ e, e.1 =? v) tbl with Some e => e.2 | None => dflt end.
Definition code_of (tbl : list (Z * cstr)) (dflt : Z) (p : cstr) : Z :=
  match find (λ e, bool_decide (p = e.2)) tbl with Some e => e.1 | None => dflt end.

(** ** Reading text files *)

(** [fgets(buf, n, fp)]: the line without what follows a zero byte, and the
    rest of the file; [None] at the end. *)
Fixpoint fgets_go (n : nat) (data : bytes) : bytes * bytes :=
  match n, data with
  | O, _ | _, [] => ([], data)
  | S n', c :: d =>
      if decide (c = "010"%char) then ([c], d)
      else let '(l, r) := fgets_go n' d in (c :: l, r)
  end.

(** A whole line that fits is read up to and with its newline. *)
Lemma fgets_go_line n l d :
  "010"%char ∉ l → (length l < n)%nat → fgets_go n (l ++ "010"%char :: d) = (l ++ ["010"%char], d).
Proof.
  revert n. induction l as [|c l IH]; intros [|n] Hl Hn; cbn [length] in Hn; try lia.
  - cbn. by rewrite decide_True.
  - cbn [app fgets_go]. apply not_elem_of_cons in Hl as [Hc Hl].
    rewrite decide_False by done. rewrite IH by (done || lia). done.
Qed.

Definition cut_nul (s : bytes) : cstr := (span_until [NUL] s).1.
Definition fgets (n : nat) (data : bytes) : option (cstr * bytes) :=
  match data with
  | [] => None
  | _ => let '(l, r) := fgets_go (n - 1) data in Some (cut_nul l, r)
  end.

Lemma fgets_go_split n data : (fgets_go n data).1 ++ (fgets_go n data).2 = data.
Proof.
  revert data. induction n as [|n IH]; intros data; [done|]. destruct data as [|c data]; [done|].
  cbn [fgets_go]. destruct (decide _); [done|]. specialize (IH data).
  destruct (fgets_go n data) as [l r]. cbn [fst snd app] in *. by rewrite IH.
Qed.

(** A line that was read leaves less. *)
Lemma fgets_leaves_less n data l r : (1 < n)%nat → fgets n data = Some (l, r) → (length r < length data)%nat.
Proof.
  unfold fgets. intros Hn. destruct data as [|c data]; [done|].
  pose proof (fgets_go_split (n - 1) (c :: data)) as Hs.
  destruct (fgets_go (n - 1) (c :: data)) as [l0 r0] eqn:E. cbn [fst snd] in Hs. intros [= <- <-].
  destruct n as [|[|n]]; [lia..|]. cbn [Nat.sub fgets_go] in E.
  assert (l0 ≠ []).
  { destruct (decide (c = "010"%char)); [by injection E as <- <-|].
    destruct (fgets_go _ data) as [l1 r1]. by injection E as <- <-. }
  rewrite <- Hs, length_app. destruct l0; [done|]. cbn [length]. lia.
Qed.
