(* ===== verification/ApCfgSys.v ===== *)
(** * System-wide configuration parameters (libapcfg/apcfg.c)

    The getters and setters of the parameters that belong to the whole device,
    over the interface [CfgStore].  A getter that copies into a static buffer
    has the size of the buffer; a setter that prints into a local one faults
    when the text does not fit. *)

From S2P Require Import Prelude CLib Inet Utility NvramSpec CfgStore.

(** ** Apply flags (apply.h) *)

Definition APL_ROOT : Z := 0.
Definition APL_REBOOT : Z := 1.
Definition APL_SYSNAME : Z := 2.
Definition APL_LOGIN : Z := 3.
Definition APL_TELNET : Z := 4.
Definition APL_SSH : Z := 5.
Definition APL_HTTPD : Z := 6.
Definition APL_VLAN : Z := 7.
Definition APL_STP : Z := 8.
Definition APL_LLTD : Z := 9.
Definition APL_IPv4 : Z := 10.
Definition APL_IPv6 : Z := 11.
Definition APL_ETHSUP : Z := 12.
Definition APL_BALANCE : Z := 13.
Definition APL_WLAN0 : Z := 14.
Definition APL_WLAN0_VAP0 : Z := 15.
Definition APL_WLAN0_VAP1 : Z := 16.
Definition APL_WLAN0_VAP2 : Z := 17.
Definition APL_WLAN0_VAP3 : Z := 18.
Definition APL_WLAN1 : Z := 19.
Definition APL_WLAN1_VAP0 : Z := 20.
Definition APL_WLAN1_VAP1 : Z := 21.
Definition APL_WLAN1_VAP2 : Z := 22.
Definition APL_WLAN1_VAP3 : Z := 23.
Definition APL_NTP : Z := 24.
Definition APL_SNMP : Z := 25.
Definition APL_LOG : Z := 26.
Definition APL_FTP : Z := 27.
Definition APL_ETH_DATARATE : Z := 28.
Definition APL_FORCE100M : Z := 29.
Definition APL_HTTPREDIRECT : Z := 30.
Definition APL_ROGUEAP : Z := 31.
Definition APL_BONJOUR : Z := 32.
Definition APL_AUTOREBOOT : Z := 33.

(** ** Limits (apcfg.h) *)

Definition CFG_MAX_DOMAINNMLEN : Z := 64.
Definition CFG_MAX_FTP_LOGINNAME : Z := 16.
Definition CFG_MAX_FTP_PASSWORD : Z := 16.
Definition CFG_MAX_PASSWORD : Z := 63.
Definition CFG_MAX_REBOOT_TIME : Z := 720.
Definition CFG_MAX_USERNAME : Z := 63.
Definition CFG_MIN_REBOOT_TIME : Z := 1.
Definition CFG_TIME_ZONE_LEN : Z := 12.
Definition MAX_ALERT_INTERVAL : Z := 600.
Definition MAX_ALERT_QLEN : Z := 500.
Definition MAX_CERT_CONTENT : Z := 8192.
Definition MAX_CERT_TIME : Z := 32.
Definition MAX_DESC : Z := 39.
Definition MAX_DOT1XSUPP_NAME : Z := 63.
Definition MAX_DOT1XSUPP_PASSWD : Z := 63.
Definition MAX_FTP_SERVER : Z := 32.
Definition MAX_LEGALAPLIST : Z := 417.
Definition MAX_MAIL_SERVER : Z := 64.
Definition MAX_NAME_SERVER : Z := 32.
Definition MAX_NTP_SERVER : Z := 32.
Definition MAX_SMTP_SERVER : Z := 64.
Definition MAX_SNMPV3_AUTHKEY : Z := 63.
Definition MAX_SNMPV3_PRIVKEY : Z := 32.
Definition MAX_SNMPV3_USERNAME : Z := 63.
Definition MAX_SNMP_COMMUNITY : Z := 32.
Definition MAX_SNMP_CONTACT : Z := 32.
Definition MAX_SNMP_DEVNAME : Z := 32.
Definition MAX_SNMP_LOCATION : Z := 32.
Definition MAX_SYSLOG_SERVER : Z := 32.
Definition MAX_SYSNAME : Z := 39.
Definition MAX_TELNET_TIMEOUT : Z := 600.
Definition MAX_WINS_SERVER : Z := 32.
Definition MIN_ALERT_INTERVAL : Z := 1.
Definition MIN_ALERT_QLEN : Z := 1.
Definition MIN_SNMPV3_AUTHKEY : Z := 8.
Definition MIN_SNMPV3_PRIVKEY : Z := 8.
Definition MIN_TELENT_TIMEOUT : Z := 1.
Definition SNMP_AUTH_MD5 : Z := 1.
Definition SNMP_AUTH_NONE : Z := 0.
Definition SNMP_PRIV_DES : Z := 1.
Definition SNMP_PRIV_NONE : Z := 0.
Definition VLAN_TAG_MAX : Z := 4094.
Definition VLAN_TAG_MIN : Z := 1.
Definition APCFG_AUTH_NONE : Z := 0.
Definition INET6_ADDRSTRLEN : Z := 46.

(** [%2d] of [sscanf] on a string. *)
Definition scan_2d (s : cstr) : option (Z * cstr) :=
  match skip_space s with
  | c :: r =>
      if decide (c = "-"%char ∨ c = "+"%char) then
        match r with
        | d :: r' => if isdigit d then Some ((if decide (c = "-"%char) then -1 else 1) * (code d - 48), r')
                     else None
        | [] => None
        end
      else if isdigit c then
        match r with
        | d :: r' => if isdigit d then Some (10 * (code c - 48) + (code d - 48), r')
                     else Some (code c - 48, r)
        | [] => Some (code c - 48, r)
        end
      else None
  | [] => None
  end.

Section ApCfgSys.
Context {S : Type} {store : CfgStore S}.

(** ** Getters *)

Definition apCfgSysNameGet : M S cstr :=
  get_str (Z.to_nat (MAX_SYSNAME + 1)) "sys_name".

Definition apCfgSysLangGet : M S cstr :=
  get_str (Z.to_nat (MAX_DESC + 1)) "sys_lang".

Definition apCfgDescGet : M S cstr :=
  get_str (Z.to_nat (MAX_DESC + 1)) "sys_desc".

Definition apCfgLoginGet : M S cstr :=
  get_str (Z.to_nat (CFG_MAX_USERNAME + 1)) "login_username".

Definition apCfgPasswordGet : M S cstr :=
  get_str (Z.to_nat (CFG_MAX_PASSWORD + 1)) "login_password".

Definition apCfgVlanListGet : M S cstr :=
  get_str 65 "vlan_list".

Definition apCfgipv6modeGet : M S Z :=
  get_bool "lan_ipv6".

Definition apCfgDhcpEnableGet : M S Z :=
  get_bool "lan_dhcpc".

Definition apCfgDhcp6EnableGet : M S Z :=
  get_bool "lan_dhcp6c".

Definition apCfgRadvdEnableGet : M S Z :=
  get_bool "lan_radvd".

Definition apCfgDhcpServerEnableGet : M S Z :=
  get_bool "lan_dhcps".

Definition apCfgIpv6AddrGet : M S cstr :=
  get_str (Z.to_nat (INET6_ADDRSTRLEN + 1)) "lan_ipaddrv6".

Definition apCfgGatewayv6AddrGet : M S cstr :=
  get_str (Z.to_nat (INET6_ADDRSTRLEN + 1)) "lan_gatewayv6".

Definition apCfgNameSrv61Get : M S cstr :=
  get_str (Z.to_nat (INET6_ADDRSTRLEN + 1)) "lan_dnsv61".

Definition apCfgNameSrv62Get : M S cstr :=
  get_str (Z.to_nat (INET6_ADDRSTRLEN + 1)) "lan_dnsv62".

Definition apCfgIpAddrGet : M S Z :=
  p ← nvram_safe_get "lan_ipaddr"; mret (sint32 (inet_addr p)).

Definition apCfgIpMaskGet : M S Z :=
  p ← nvram_safe_get "lan_netmask"; mret (sint32 (inet_addr p)).

Definition apCfgGatewayAddrGet : M S Z :=
  p ← nvram_safe_get "lan_gateway"; mret (sint32 (inet_addr p)).

Definition apCfgNameSrvGet : M S cstr :=
  get_str (Z.to_nat (MAX_NAME_SERVER + 1)) "lan_dns1".

Definition apCfgNameSrv2Get : M S cstr :=
  get_str (Z.to_nat (MAX_NAME_SERVER + 1)) "lan_dns2".

Definition apCfgDhcpServerStartGet : M S cstr :=
  get_str 33 "lan_dhcps_start".

Definition apCfgDhcpServerEndGet : M S cstr :=
  get_str 33 "lan_dhcps_end".

Definition apCfgNameDomainGet : M S cstr :=
  get_str (Z.to_nat (CFG_MAX_DOMAINNMLEN + 1)) "sys_domain_suffix".

Definition apCfgCountryCodeGet : M S Z :=
  get_int "sys_domain".

Definition apCfgSecMaskGet : M S Z :=
  get_int "secret_mask".

Definition apCfgWinsServerGet : M S cstr :=
  get_str (Z.to_nat (MAX_WINS_SERVER + 1)) "wins_server".

Definition apCfgTimeModeGet : M S Z :=
  get_bool "tod_enable".

Definition apCfgTimeGet : M S Z := mret 0.

Definition apCfgTimeMonGet : M S Z :=
  get_int "tod_mon".

Definition apCfgTimeDayGet : M S Z :=
  get_int "tod_day".

Definition apCfgTimeYearGet : M S Z :=
  get_int "tod_year".

Definition apCfgTimeHourGet : M S Z :=
  get_int "tod_hour".

Definition apCfgTimeMinGet : M S Z :=
  get_int "tod_min".

Definition apCfgTimeSecGet : M S Z :=
  get_int "tod_sec".

Definition apCfgNtpModeGet : M S Z :=
  get_int "ntp_mode".

Definition apCfgNtpServerGet : M S cstr :=
  get_str (Z.to_nat (MAX_NTP_SERVER + 1)) "ntp_server".

Definition apCfgTimezoneOffsetGet : M S cstr :=
  get_str (Z.to_nat (CFG_TIME_ZONE_LEN + 1)) "timezone_diff".

Definition apCfgDaylightSavingGet : M S Z :=
  get_bool "timezone_daylightsaving".

Definition apCfgFtpServerGet : M S cstr :=
  get_str (Z.to_nat (MAX_FTP_SERVER + 1)) "ftp_server".

Definition apCfgFtpPathGet : M S cstr :=
  get_str 129 "ftp_path".

Definition apCfgFtpLoginGet : M S cstr :=
  get_str (Z.to_nat (CFG_MAX_FTP_LOGINNAME + 1)) "ftp_login_name".

Definition apCfgFtpPasswdGet : M S cstr :=
  get_str (Z.to_nat (CFG_MAX_FTP_PASSWORD + 1)) "ftp_password".

Definition apCfglltdGet : M S Z :=
  get_bool "lltd".

Definition apCfgStpGet : M S Z :=
  get_bool "stp".

Definition apCfgBonjourGet : M S Z :=
  get_bool "bonjour_enable".

Definition apCfgForce100mGet : M S Z :=
  get_bool "lan_force100m".

Definition apCfgAutonegoGet : M S Z :=
  p ← nvram_safe_get "lan_autonego"; mret (if atoi p =? 1 then 1 else 0).

Definition apCfgPortspeedGet : M S Z :=
  p ← nvram_safe_get "lan_portspeed_define";
  mret (if atoi p =? 1 then 1 else if atoi p =? 2 then 2 else 0).

Definition apCfgDuplexmodeGet : M S Z :=
  p ← nvram_safe_get "lan_duplexmode"; mret (if atoi p =? 1 then 1 else 0).

Definition apCfgRedirectModeGet : M S Z :=
  get_bool "rediret_mode".

Definition apCfgRedirectUrlGet : M S cstr :=
  get_str 129 "rediret_url".

Definition scApCfgRogueDetectGet : M S Z :=
  get_bool "rogue_mode".

Definition scApCfgRogueDetectIntGet : M S Z :=
  v ← get_int "rogue_interval"; mret (schar v).

Definition scApCfgRogueApTypeGet : M S Z :=
  v ← get_int "rogue_type"; mret (schar v).

Definition scApCfgRogueSendLogGet : M S Z :=
  v ← get_int "rogue_sendLog"; mret (schar v).

Definition scApCfgLegalApListGet : M S cstr :=
  get_str (Z.to_nat (MAX_LEGALAPLIST + 1)) "legal_ap_list".

Definition apCfgNativeVlanIdGet : M S Z :=
  get_int "vlan_default".

Definition apCfgNativeVlanTagGet : M S Z :=
  get_bool "vlan_default_tag".

Definition apCfgWdsVlanTagGet : M S Z :=
  get_bool "vlan_wds_tag".

Definition apCfgManagementVlanIdGet : M S Z :=
  get_int "vlan_management".

Definition apCfgsysLogEnabledGet : M S Z :=
  get_bool "syslog_mode".

Definition apCfgsysLogBroadcastGet : M S Z :=
  get_bool "syslog_broadcast".

Definition apCfgsysLogSeverityGet : M S Z :=
  v ← get_int "syslog_severity"; mret (wrap32 v).

Definition apCfgsysLogServerGet : M S cstr :=
  get_str (Z.to_nat (MAX_SYSLOG_SERVER + 1)) "syslog_server".

Definition apCfgsysLogServerPortGet : M S Z :=
  v ← get_int "syslog_port"; mret (v mod 2 ^ 16).

Definition apCfgDeauthGet : M S Z :=
  get_bool "log_login_fail".

Definition apCfgAuthLoginGet : M S Z :=
  get_bool "log_login_success".

Definition apCfgChangeSysFucGet : M S Z :=
  get_bool "log_system_errors".

Definition apCfgChangeCfgGet : M S Z :=
  get_bool "log_conf_change".

Definition apCfgemailAlertsEnabledGet : M S Z :=
  get_bool "email_alert".

Definition apCfgemailAlertsQlenGet : M S Z :=
  get_int "email_queue_length".

Definition scApCfgemailAlertsIntervalGet : M S Z :=
  get_int "email_send_period".

Definition apCfgsmtpMailServerGet : M S cstr :=
  get_str (Z.to_nat (MAX_SMTP_SERVER + 1)) "email_alert_server".

Definition apCfgemailAddrForLogGet : M S cstr :=
  get_str (Z.to_nat (MAX_MAIL_SERVER + 1)) "email_addr".

Definition apCfgemailAddrReturnGet : M S cstr :=
  get_str (Z.to_nat (MAX_MAIL_SERVER + 1)) "emailAddrReturn".

Definition scApCfgDot1xSuppEnableGet : M S Z :=
  get_bool "eth_supp_mode".

Definition scApCfgDot1xSuppMacEnableGet : M S Z :=
  get_bool "eth_supp_mac".

Definition scApCfgDot1xSuppUsernameGet : M S cstr :=
  get_str (Z.to_nat (MAX_DOT1XSUPP_NAME + 1)) "eth_supp_user".

Definition scApCfgDot1xSuppPasswordGet : M S cstr :=
  get_str (Z.to_nat (MAX_DOT1XSUPP_PASSWD + 1)) "eth_supp_pwd".

Definition apCfgHttpModeGet : M S Z :=
  get_bool "http_mode".

Definition apCfgAutohttpsModeGet : M S Z :=
  get_bool "autohttps".

Definition apCfgHttpPortGet : M S Z :=
  v ← get_int "http_port"; mret (v mod 2 ^ 16).

Definition apCfgHttpsModeGet : M S Z :=
  get_bool "https_mode".

Definition apCfgHttpsPortGet : M S Z :=
  v ← get_int "https_port"; mret (v mod 2 ^ 16).

Definition apCfgWlanAccessGet : M S Z :=
  get_bool "wlan_manage".

Definition apCfgSSHGet : M S Z :=
  get_bool "SSH".

Definition apCfgTelnetModeGet : M S Z :=
  get_bool "telnet_mode".

Definition apCfgTelnetTimeoutGet : M S Z :=
  v ← get_int "telnet_timeout"; mret (wrap32 v).

Definition apCfgSnmpModeGet : M S Z :=
  get_bool "snmp_mode".

Definition apCfgSnmpContactGet : M S cstr :=
  get_str (Z.to_nat (MAX_SNMP_CONTACT + 1)) "snmp_contact".

Definition apCfgSnmpDviceNameGet : M S cstr :=
  get_str (Z.to_nat (MAX_SNMP_DEVNAME + 1)) "snmp_device".

Definition apCfgSnmpLocationGet : M S cstr :=
  get_str (Z.to_nat (MAX_SNMP_LOCATION + 1)) "snmp_location".

Definition apCfgSnmpTrapCommunityGet : M S cstr :=
  get_str (Z.to_nat (MAX_SNMP_COMMUNITY + 1)) "snmp_trap_community".

Definition apCfgSnmpReadCommGet : M S cstr :=
  get_str (Z.to_nat (MAX_SNMP_COMMUNITY + 1)) "snmp_community_get".

Definition apCfgSnmpWriteCommGet : M S cstr :=
  get_str (Z.to_nat (MAX_SNMP_COMMUNITY + 1)) "snmp_community_set".

Definition apCfgSnmpUserNameGet : M S cstr :=
  get_str (Z.to_nat (MAX_SNMPV3_USERNAME + 1)) "snmp_user".

Definition apCfgSnmpAuthProtocolGet : M S Z :=
  p ← nvram_safe_get "snmp_auth_protocol";
  mret (code_of [(APCFG_AUTH_NONE, "NONE" : cstr); (SNMP_AUTH_MD5, "HMAC-MD5" : cstr)] SNMP_AUTH_NONE p).

Definition apCfgSnmpAuthKeyGet : M S cstr :=
  get_str 32 "snmp_auth_key".

Definition apCfgSnmpPrivProtocolGet : M S Z :=
  p ← nvram_safe_get "snmp_priv_protocol";
  mret (code_of [(SNMP_PRIV_NONE, "NONE" : cstr); (SNMP_PRIV_DES, "CBC-DES" : cstr)] SNMP_PRIV_NONE p).

Definition apCfgSnmpPrivKeyGet : M S cstr :=
  get_str 32 "snmp_priv_key".

Definition apCfgSnmpAnyManagerGet : M S Z :=
  get_bool "snmp_trusted_any".

Definition apCfgSnmpManagerIpGet : M S Z :=
  p ← nvram_safe_get "snmp_trusted_host_start"; mret (sint32 (inet_addr p)).

Definition apCfgSnmpManagerIpEndGet : M S Z :=
  p ← nvram_safe_get "snmp_trusted_host_end"; mret (sint32 (inet_addr p)).

Definition apCfgSnmpTrapVersionGet : M S Z :=
  v ← get_int "snmp_trap_version"; mret (wrap32 v).

Definition apCfgSnmpTrapRecvIpGet : M S Z :=
  p ← nvram_safe_get "snmp_trap_dest"; mret (sint32 (inet_addr p)).

Definition apCfgVlanModeGet : M S Z :=
  get_bool "vlan_mode".

Definition apCfgWscConfiguredGet : M S Z :=
  get_int "wifi_wsc_configured".

Definition apCfgwdsVlanListGet : M S cstr := get_str 21 "wds_vlan_list".

Definition apCfgMultiEnhanceGet : M S Z :=
  p ← nvram_get "multicast_enbance";
  mret (match p with Some p => atoi p | None => 0 end).

Definition apCfgEthDataRateGet : M S Z :=
  p ← nvram_get "eth_data_rate";
  match p with
  | None => faultM
  | Some p => mret (code_of [(0, "auto" : cstr); (10, "10Mbps" : cstr); (100, "100Mbps" : cstr);
                             (1000, "1000Mbps" : cstr)] 0 p)
  end.

Definition apCfgCertGet : M S cstr :=
  get_str (Z.to_nat (MAX_CERT_CONTENT + 1)) "cert_content".

Definition apCfgCertTimeGet : M S cstr :=
  get_str (Z.to_nat (MAX_CERT_TIME + 1)) "cert_time".

Definition apCfgAutoRebootModeGet : M S Z :=
  p ← nvram_safe_get "auto_reboot";
  mret (if zlen p =? 0 then 1 else boolZ (bool_decide (p = ENABLE))).

Definition apCfgAutoRebootIntervalGet : M S Z :=
  get_int "auto_reboot_interval".

Definition apCfgAutoRebootTimeGet : M S (Z * Z) :=
  p ← nvram_safe_get "auto_reboot_time";
  mret (if zlen p =? 0 then (0, 0)
        else match scan_2d p with
             | None => (0, 0)
             | Some (hour, rest) =>
                 match rest with
                 | ":"%char :: rest' => (hour, match scan_2d rest' with Some (m, _) => m | None => 0 end)
                 | _ => (hour, 0)
                 end
             end).

(** ** Setters *)

Definition apCfgWscConfiguredSet (v : Z) : M S Z :=
  guarded (negb (v =? 1) && negb (v =? 0)) (
  p ← nvram_safe_get "restore_defaults";
  guarded (starts "1" p) (
  cur ← apCfgWscConfiguredGet;
  if Zdiffer v cur then
    _ ← scfgmgr_set "wifi_wsc_configured" (if v =? 0 then "0" else "1");
    mret A_OK
  else mret A_OK)).

Definition apCfgSysNameSet (p : cstr) : M S Z :=
  guarded ((zlen p <? 1) || (MAX_SYSNAME <? zlen p)) (
  cur ← apCfgSysNameGet;
  if differ p cur then
    _ ← scfgmgr_set "sys_name" p;
    _ ← apl_set_flag APL_SYSNAME;
    _ ← apl_set_flag APL_BONJOUR;
    mret A_OK
  else mret A_OK).

Definition apCfgSysLangSet (p : cstr) : M S Z :=
  guarded ((zlen p <? 0) || (MAX_DESC <? zlen p)) (
  cur ← apCfgSysLangGet;
  if differ p cur then
    _ ← scfgmgr_set "sys_lang" p;
    mret A_OK
  else mret A_OK).

Definition apCfgDescSet (p : cstr) : M S Z :=
  guarded ((zlen p <? 0) || (MAX_DESC <? zlen p)) (
  cur ← apCfgDescGet;
  if differ p cur then
    _ ← scfgmgr_set "sys_desc" p;
    mret A_OK
  else mret A_OK).

Definition apCfgLoginSet (p : cstr) : M S Z :=
  guarded ((zlen p <? 1) || (CFG_MAX_USERNAME <? zlen p)) (
  cur ← apCfgLoginGet;
  if differ p cur then
    _ ← scfgmgr_set "login_username" p;
    _ ← apl_set_flag APL_LOGIN;
    mret A_OK
  else mret A_OK).

Definition apCfgPasswordSet (p : cstr) : M S Z :=
  guarded ((zlen p <? 4) || (CFG_MAX_PASSWORD <? zlen p)) (
  cur ← apCfgPasswordGet;
  if differ p cur then
    _ ← scfgmgr_set "login_password" p;
    _ ← apl_set_flag APL_LOGIN;
    mret A_OK
  else mret A_OK).

Definition apCfgVlanListSet (p : cstr) : M S Z :=
  cur ← apCfgVlanListGet;
  if differ p cur then
    _ ← scfgmgr_set "vlan_list" p;
    _ ← apl_set_flag APL_VLAN;
    mret A_OK
  else mret A_OK.

Definition apCfgipv6modeSet (v : Z) : M S Z :=
  cur ← apCfgipv6modeGet;
  if Zdiffer v cur then
    _ ← scfgmgr_set "lan_ipv6" (enable v);
    _ ← (if v =? 0 then apl_set_flag APL_REBOOT else apl_set_flag APL_IPv6);
    mret A_OK
  else mret A_OK.

Definition apCfgDhcpEnableSet (v : Z) : M S Z :=
  cur ← apCfgDhcpEnableGet;
  if Zdiffer v cur then
    _ ← scfgmgr_set "lan_dhcpc" (enable v);
    _ ← apl_set_flag APL_IPv4;
    mret A_OK
  else mret A_OK.

Definition apCfgDhcp6EnableSet (v : Z) : M S Z :=
  cur ← apCfgDhcp6EnableGet;
  if Zdiffer v cur then
    _ ← scfgmgr_set "lan_dhcp6c" (enable v);
    _ ← apl_set_flag APL_IPv6;
    mret A_OK
  else mret A_OK.

Definition apCfgRadvdEnableSet (v : Z) : M S Z :=
  cur ← apCfgRadvdEnableGet;
  if Zdiffer v cur then
    _ ← scfgmgr_set "lan_radvd" (enable v);
    _ ← apl_set_flag APL_IPv6;
    mret A_OK
  else mret A_OK.

Definition apCfgDhcpServerEnableSet (v : Z) : M S Z :=
  cur ← apCfgDhcpServerEnableGet;
  if Zdiffer v cur then
    _ ← scfgmgr_set "lan_dhcps" (enable v);
    _ ← apl_set_flag APL_IPv4;
    mret A_OK
  else mret A_OK.

Definition apCfgIpv6AddrSet (addr : cstr) : M S Z :=
  guarded (negb (scValidIPv6 addr true)) (
  cur ← apCfgIpv6AddrGet;
  if differ addr cur then
    _ ← scfgmgr_set "lan_ipaddrv6" addr;
    _ ← apl_set_flag APL_IPv6;
    mret A_OK
  else mret A_OK).

Definition apCfgGatewayv6AddrSet (gw : cstr) : M S Z :=
  bad ← (if zlen gw =? 0 then mret false
         else ok ← liftO (scValidGWv6 gw); mret (negb ok));
  guarded bad (
  cur ← apCfgGatewayv6AddrGet;
  if differ gw cur then
    _ ← scfgmgr_set "lan_gatewayv6" gw;
    _ ← apl_set_flag APL_IPv6;
    mret A_OK
  else mret A_OK).

Definition apCfgNameSrv61Set (dns : cstr) : M S Z :=
  guarded (negb (zlen dns =? 0) && negb (scValidIPv6 dns false)) (
  cur ← apCfgNameSrv61Get;
  if differ dns cur then
    _ ← scfgmgr_set "lan_dnsv61" dns;
    _ ← apl_set_flag APL_IPv6;
    mret A_OK
  else mret A_OK).

Definition apCfgNameSrv62Set (dns : cstr) : M S Z :=
  guarded (negb (zlen dns =? 0) && negb (scValidIPv6 dns false)) (
  cur ← apCfgNameSrv62Get;
  if differ dns cur then
    _ ← scfgmgr_set "lan_dnsv62" dns;
    _ ← apl_set_flag APL_IPv6;
    mret A_OK
  else mret A_OK).

Definition apCfgIpAddrSet (v : Z) : M S Z :=
  cur ← apCfgIpAddrGet;
  if Zdiffer v cur then
    _ ← scfgmgr_set "lan_ipaddr" (inet_ntoa v);
    _ ← apl_set_flag APL_IPv4;
    _ ← apl_set_flag APL_BONJOUR;
    mret A_OK
  else mret A_OK.

Definition apCfgIpMaskSet (v : Z) : M S Z :=
  cur ← apCfgIpMaskGet;
  if Zdiffer v cur then
    _ ← scfgmgr_set "lan_netmask" (inet_ntoa v);
    _ ← apl_set_flag APL_IPv4;
    mret A_OK
  else mret A_OK.

Definition apCfgGatewayAddrSet (v : Z) : M S Z :=
  cur ← apCfgGatewayAddrGet;
  if Zdiffer v cur then
    _ ← scfgmgr_set "lan_gateway" (inet_ntoa v);
    _ ← apl_set_flag APL_IPv4;
    mret A_OK
  else mret A_OK.

Definition apCfgNameSrvSet (p : cstr) : M S Z :=
  guarded ((zlen p <? 0) || (MAX_NAME_SERVER <? zlen p)) (
  cur ← apCfgNameSrvGet;
  if differ p cur then
    _ ← scfgmgr_set "lan_dns1" p;
    _ ← apl_set_flag APL_IPv4;
    mret A_OK
  else mret A_OK).

Definition apCfgNameSrv2Set (p : cstr) : M S Z :=
  guarded ((zlen p <? 0) || (MAX_NAME_SERVER <? zlen p)) (
  cur ← apCfgNameSrv2Get;
  if differ p cur then
    _ ← scfgmgr_set "lan_dns2" p;
    _ ← apl_set_flag APL_IPv4;
    mret A_OK
  else mret A_OK).

Definition apCfgDhcpServerStartSet (p : cstr) : M S Z :=
  cur ← apCfgDhcpServerStartGet;
  if differ p cur then
    _ ← scfgmgr_set "lan_dhcps_start" p;
    _ ← apl_set_flag APL_IPv4;
    mret A_OK
  else mret A_OK.

Definition apCfgDhcpServerEndSet (p : cstr) : M S Z :=
  cur ← apCfgDhcpServerEndGet;
  if differ p cur then
    _ ← scfgmgr_set "lan_dhcps_end" p;
    _ ← apl_set_flag APL_IPv4;
    mret A_OK
  else mret A_OK.

Definition apCfgNameDomainSet (p : cstr) : M S Z :=
  guarded ((zlen p <=? 0) || (CFG_MAX_DOMAINNMLEN <? zlen p)) (
  _ ← scfgmgr_set "sys_domain_suffix" p;
  mret A_OK).

Definition apCfgSecMaskSet (v : Z) : M S Z :=
  cur ← apCfgSecMaskGet;
  if Zdiffer v cur then
    string ← sprintf_d 10 v;
    _ ← scfgmgr_set "secret_mask" string;
    mret A_OK
  else mret A_OK.

Definition apCfgWinsServerSet (p : cstr) : M S Z :=
  guarded ((zlen p <? 0) || (MAX_WINS_SERVER <? zlen p)) (
  cur ← apCfgWinsServerGet;
  if differ p cur then
    _ ← scfgmgr_set "wins_server" p;
    mret A_OK
  else mret A_OK).

Definition apCfgTimeModeSet (v : Z) : M S Z :=
  cur ← apCfgTimeModeGet;
  if Zdiffer v cur then
    string ← sprintf_d 10 v;
    _ ← scfgmgr_set "tod_enable" string;
    _ ← apl_set_flag APL_NTP;
    mret A_OK
  else mret A_OK.

Definition apCfgTimeSet (v : Z) : M S Z :=
  cur ← apCfgTimeGet;
  if Zdiffer v cur then _ ← sprintf_d 10 v; mret A_OK else mret A_OK.

Definition apCfgTimeMonSet (v : Z) : M S Z :=
  cur ← apCfgTimeMonGet;
  if Zdiffer v cur then
    string ← sprintf_d 10 v;
    _ ← scfgmgr_set "tod_mon" string;
    _ ← apl_set_flag APL_NTP;
    mret A_OK
  else mret A_OK.

Definition apCfgTimeDaySet (v : Z) : M S Z :=
  cur ← apCfgTimeDayGet;
  if Zdiffer v cur then
    string ← sprintf_d 10 v;
    _ ← scfgmgr_set "tod_day" string;
    _ ← apl_set_flag APL_NTP;
    mret A_OK
  else mret A_OK.

Definition apCfgTimeYearSet (v : Z) : M S Z :=
  cur ← apCfgTimeYearGet;
  if Zdiffer v cur then
    string ← sprintf_d 10 v;
    _ ← scfgmgr_set "tod_year" string;
    _ ← apl_set_flag APL_NTP;
    mret A_OK
  else mret A_OK.

Definition apCfgTimeHourSet (v : Z) : M S Z :=
  cur ← apCfgTimeHourGet;
  if Zdiffer v cur then
    string ← sprintf_d 10 v;
    _ ← scfgmgr_set "tod_hour" string;
    _ ← apl_set_flag APL_NTP;
    mret A_OK
  else mret A_OK.

Definition apCfgTimeMinSet (v : Z) : M S Z :=
  cur ← apCfgTimeMinGet;
  if Zdiffer v cur then
    string ← sprintf_d 10 v;
    _ ← scfgmgr_set "tod_min" string;
    _ ← apl_set_flag APL_NTP;
    mret A_OK
  else mret A_OK.

Definition apCfgTimeSecSet (v : Z) : M S Z :=
  cur ← apCfgTimeSecGet;
  if Zdiffer v cur then
    string ← sprintf_d 10 v;
    _ ← scfgmgr_set "tod_sec" string;
    _ ← apl_set_flag APL_NTP;
    mret A_OK
  else mret A_OK.

Definition apCfgNtpModeSet (v : Z) : M S Z :=
  cur ← apCfgNtpModeGet;
  if Zdiffer v cur then
    string ← sprintf_d 10 v;
    _ ← scfgmgr_set "ntp_mode" string;
    _ ← apl_set_flag APL_NTP;
    mret A_OK
  else mret A_OK.

Definition apCfgNtpServerSet (p : cstr) : M S Z :=
  guarded ((zlen p <? 0) || (MAX_NTP_SERVER <? zlen p)) (
  cur ← apCfgNtpServerGet;
  if differ p cur then
    _ ← scfgmgr_set "ntp_server" p;
    _ ← apl_set_flag APL_NTP;
    mret A_OK
  else mret A_OK).

Definition apCfgTimezoneOffsetSet (p : cstr) : M S Z :=
  guarded ((zlen p <? 0) || (CFG_TIME_ZONE_LEN <? zlen p)) (
  cur ← apCfgTimezoneOffsetGet;
  if differ p cur then
    _ ← scfgmgr_set "timezone_diff" p;
    _ ← apl_set_flag APL_NTP;
    mret A_OK
  else mret A_OK).

Definition apCfgDaylightSavingSet (v : Z) : M S Z :=
  cur ← apCfgDaylightSavingGet;
  if Zdiffer v cur then
    _ ← scfgmgr_set "timezone_daylightsaving" (enable v);
    _ ← apl_set_flag APL_NTP;
    mret A_OK
  else mret A_OK.

Definition apCfgFtpServerSet (p : cstr) : M S Z :=
  guarded ((zlen p <? 0) || (MAX_FTP_SERVER <? zlen p)) (
  cur ← apCfgFtpServerGet;
  if differ p cur then
    _ ← scfgmgr_set "ftp_server" p;
    _ ← apl_set_flag APL_FTP;
    mret A_OK
  else mret A_OK).

Definition apCfgFtpPathSet (p : cstr) : M S Z :=
  cur ← apCfgFtpPathGet;
  if differ p cur then
    _ ← scfgmgr_set "ftp_path" p;
    _ ← apl_set_flag APL_FTP;
    mret A_OK
  else mret A_OK.

Definition apCfgFtpLoginSet (p : cstr) : M S Z :=
  guarded ((CFG_MAX_FTP_LOGINNAME <? zlen p)) (
  cur ← apCfgFtpLoginGet;
  if differ p cur then
    _ ← scfgmgr_set "ftp_login_name" p;
    _ ← apl_set_flag APL_FTP;
    mret A_OK
  else mret A_OK).

Definition apCfgFtpPasswdSet (p : cstr) : M S Z :=
  guarded ((CFG_MAX_FTP_PASSWORD <? zlen p)) (
  cur ← apCfgFtpPasswdGet;
  if differ p cur then
    _ ← scfgmgr_set "ftp_password" p;
    _ ← apl_set_flag APL_FTP;
    mret A_OK
  else mret A_OK).

Definition apCfglltdSet (v : Z) : M S Z :=
  cur ← apCfglltdGet;
  if Zdiffer v cur then
    _ ← scfgmgr_set "lltd" (enable v);
    _ ← apl_set_flag APL_LLTD;
    mret A_OK
  else mret A_OK.

Definition apCfgStpSet (v : Z) : M S Z :=
  cur ← apCfgStpGet;
  if Zdiffer v cur then
    _ ← scfgmgr_set "stp" (enable v);
    _ ← apl_set_flag APL_STP;
    mret A_OK
  else mret A_OK.

Definition apCfgBonjourSet (v : Z) : M S Z :=
  cur ← apCfgBonjourGet;
  if Zdiffer v cur then
    _ ← scfgmgr_set "bonjour_enable" (enable v);
    _ ← apl_set_flag APL_BONJOUR;
    mret A_OK
  else mret A_OK.

Definition apCfgForce100mSet (v : Z) : M S Z :=
  cur ← apCfgForce100mGet;
  _ ← (if Zdiffer v cur then set "lan_force100m" (enable v) else mret tt);
  _ ← apl_set_flag APL_FORCE100M;
  mret A_OK.

Definition apCfgAutonegoSet (v : Z) : M S Z :=
  cur ← apCfgAutonegoGet;
  if Zdiffer v cur then
    _ ← (if v =? 0 then scfgmgr_set "lan_autonego" "0" else scfgmgr_set "lan_autonego" "1");
    _ ← apl_set_flag APL_FORCE100M;
    mret A_OK
  else mret A_OK.

Definition apCfgPortspeedSet (v : Z) : M S Z :=
  cur ← apCfgPortspeedGet;
  if Zdiffer v cur then
    _ ← (if v =? 0 then
           _ ← scfgmgr_set "lan_portspeed_define" "0"; scfgmgr_set "eth_data_rate" "10Mbps"
         else if v =? 1 then
           _ ← scfgmgr_set "lan_portspeed_define" "1"; scfgmgr_set "eth_data_rate" "100Mbps"
         else
           _ ← scfgmgr_set "eth_data_rate" "1000Mbps"; scfgmgr_set "lan_portspeed_define" "2");
    _ ← apl_set_flag APL_FORCE100M;
    mret A_OK
  else mret A_OK.

Definition apCfgDuplexmodeSet (v : Z) : M S Z :=
  cur ← apCfgDuplexmodeGet;
  if Zdiffer v cur then
    _ ← (if v =? 0 then set "lan_duplexmode" "0"
         else if v =? 1 then set "lan_duplexmode" "1" else mret tt);
    _ ← apl_set_flag APL_FORCE100M;
    mret A_OK
  else mret A_OK.

Definition apCfgRedirectModeSet (v : Z) : M S Z :=
  cur ← apCfgRedirectModeGet;
  if Zdiffer v cur then
    _ ← scfgmgr_set "rediret_mode" (enable v);
    _ ← apl_set_flag APL_HTTPREDIRECT;
    mret A_OK
  else mret A_OK.

Definition apCfgRedirectUrlSet (url : cstr) : M S Z :=
  guarded ((128 <? zlen url)) (
  cur ← apCfgRedirectUrlGet;
  if differ url cur then
    _ ← scfgmgr_set "rediret_url" url;
    _ ← apl_set_flag APL_HTTPREDIRECT;
    mret A_OK
  else mret A_OK).

Definition apCfgFactoryRestore : M S Z :=
  _ ← scfgmgr_set "restore_defaults" "1"; mret A_OK.

Definition scApCfgRogueDetectSet (v : Z) : M S Z :=
  cur ← scApCfgRogueDetectGet;
  if Zdiffer v cur then
    _ ← scfgmgr_set "rogue_mode" (enable v);
    _ ← apl_set_flag APL_ROGUEAP;
    mret A_OK
  else mret A_OK.

Definition scApCfgRogueDetectIntSet (v : Z) : M S Z :=
  if (3 <=? v) && (v <=? 99) then
    cur ← scApCfgRogueDetectIntGet;
    if Zdiffer v cur then
      string ← sprintf_d 10 v;
      _ ← scfgmgr_set "rogue_interval" string;
      _ ← apl_set_flag APL_ROGUEAP;
      mret A_OK
    else mret A_OK
  else mret A_EINVAL.

Definition scApCfgRogueApTypeSet (v : Z) : M S Z :=
  if (0 <=? v) && (v <=? 3) then
    cur ← scApCfgRogueApTypeGet;
    if Zdiffer v cur then
      string ← sprintf_d 10 v;
      _ ← scfgmgr_set "rogue_type" string;
      _ ← apl_set_flag APL_ROGUEAP;
      mret A_OK
    else mret A_OK
  else mret A_EINVAL.

Definition scApCfgRogueSendLogSet (v : Z) : M S Z :=
  if (0 <=? v) && (v <=? 7) then
    cur ← scApCfgRogueSendLogGet;
    if Zdiffer v cur then
      string ← sprintf_d 10 v;
      _ ← scfgmgr_set "rogue_sendLog" string;
      _ ← apl_set_flag APL_ROGUEAP;
      mret A_OK
    else mret A_OK
  else mret A_EINVAL.

Definition scApCfgLegalApListSet (p : cstr) : M S Z :=
  guarded ((zlen p <? 0) || (MAX_LEGALAPLIST <? zlen p)) (
  cur ← scApCfgLegalApListGet;
  if differ p cur then
    _ ← scfgmgr_set "legal_ap_list" p;
    _ ← apl_set_flag APL_ROGUEAP;
    mret A_OK
  else mret A_OK).

Definition apCfgNativeVlanIdSet (v : Z) : M S Z :=
  guarded ((v <? VLAN_TAG_MIN) || (VLAN_TAG_MAX <? v)) (
  cur ← apCfgNativeVlanIdGet;
  if Zdiffer v cur then
    string ← sprintf_d 10 v;
    _ ← scfgmgr_set "vlan_default" string;
    _ ← apl_set_flag APL_VLAN;
    mret A_OK
  else mret A_OK).

Definition apCfgNativeVlanTagSet (v : Z) : M S Z :=
  cur ← apCfgNativeVlanTagGet;
  if Zdiffer v cur then
    _ ← scfgmgr_set "vlan_default_tag" (enable v);
    _ ← apl_set_flag APL_VLAN;
    mret A_OK
  else mret A_OK.

Definition apCfgWdsVlanTagSet (v : Z) : M S Z :=
  cur ← apCfgWdsVlanTagGet;
  if Zdiffer v cur then
    _ ← scfgmgr_set "vlan_wds_tag" (enable v);
    _ ← apl_set_flag APL_VLAN;
    mret A_OK
  else mret A_OK.

Definition apCfgManagementVlanIdSet (v : Z) : M S Z :=
  guarded ((v <? VLAN_TAG_MIN) || (VLAN_TAG_MAX <? v)) (
  cur ← apCfgManagementVlanIdGet;
  if Zdiffer v cur then
    string ← sprintf_d 10 v;
    _ ← scfgmgr_set "vlan_management" string;
    _ ← apl_set_flag APL_VLAN;
    mret A_OK
  else mret A_OK).

Definition apCfgsysLogEnabledSet (v : Z) : M S Z :=
  cur ← apCfgsysLogEnabledGet;
  if Zdiffer v cur then
    _ ← scfgmgr_set "syslog_mode" (enable v);
    _ ← apl_set_flag APL_LOG;
    mret A_OK
  else mret A_OK.

Definition apCfgsysLogBroadcastSet (v : Z) : M S Z :=
  cur ← apCfgsysLogBroadcastGet;
  if Zdiffer v cur then
    _ ← scfgmgr_set "syslog_broadcast" (enable v);
    _ ← apl_set_flag APL_LOG;
    mret A_OK
  else mret A_OK.

Definition apCfgsysLogSeveritySet (v : Z) : M S Z :=
  guarded ((v <? 1) || (6 <? v)) (
  cur ← apCfgsysLogSeverityGet;
  if Zdiffer v cur then
    string ← sprintf_d 2 v;
    _ ← scfgmgr_set "syslog_severity" string;
    _ ← apl_set_flag APL_LOG;
    mret A_OK
  else mret A_OK).

Definition apCfgsysLogServerSet (p : cstr) : M S Z :=
  guarded ((zlen p <? 0) || (MAX_SYSLOG_SERVER <? zlen p)) (
  cur ← apCfgsysLogServerGet;
  if differ p cur then
    _ ← scfgmgr_set "syslog_server" p;
    _ ← apl_set_flag APL_LOG;
    mret A_OK
  else mret A_OK).

Definition apCfgsysLogServerPortSet (v : Z) : M S Z :=
  guarded ((v <? 1) || (65534 <? v)) (
  value ← sprintf_d 6 v;
  _ ← scfgmgr_set "syslog_port" value;
  mret A_OK).

Definition apCfgDeauthSet (v : Z) : M S Z :=
  cur ← apCfgDeauthGet;
  if Zdiffer v cur then
    _ ← scfgmgr_set "log_login_fail" (enable v);
    _ ← apl_set_flag APL_LOG;
    mret A_OK
  else mret A_OK.

Definition apCfgAuthLoginSet (v : Z) : M S Z :=
  cur ← apCfgAuthLoginGet;
  if Zdiffer v cur then
    _ ← scfgmgr_set "log_login_success" (enable v);
    _ ← apl_set_flag APL_LOG;
    mret A_OK
  else mret A_OK.

Definition apCfgChangeSysFucSet (v : Z) : M S Z :=
  cur ← apCfgChangeSysFucGet;
  if Zdiffer v cur then
    _ ← scfgmgr_set "log_system_errors" (enable v);
    _ ← apl_set_flag APL_LOG;
    mret A_OK
  else mret A_OK.

Definition apCfgChangeCfgSet (v : Z) : M S Z :=
  cur ← apCfgChangeCfgGet;
  if Zdiffer v cur then
    _ ← scfgmgr_set "log_conf_change" (enable v);
    _ ← apl_set_flag APL_LOG;
    mret A_OK
  else mret A_OK.

Definition apCfgemailAlertsEnabledSet (v : Z) : M S Z :=
  cur ← apCfgemailAlertsEnabledGet;
  if Zdiffer v cur then
    _ ← scfgmgr_set "email_alert" (enable v);
    _ ← apl_set_flag APL_LOG;
    mret A_OK
  else mret A_OK.

Definition scApCfgemailAlertsQlenSet (v : Z) : M S Z :=
  guarded ((v <? MIN_ALERT_QLEN) || (MAX_ALERT_QLEN <? v)) (
  cur ← apCfgemailAlertsQlenGet;
  if Zdiffer v cur then
    string ← sprintf_d 6 v;
    _ ← scfgmgr_set "email_queue_length" string;
    _ ← apl_set_flag APL_LOG;
    mret A_OK
  else mret A_OK).

Definition scApCfgemailAlertsIntervalSet (v : Z) : M S Z :=
  guarded ((v <? MIN_ALERT_INTERVAL) || (MAX_ALERT_INTERVAL <? v)) (
  cur ← scApCfgemailAlertsIntervalGet;
  if Zdiffer v cur then
    string ← sprintf_d 6 v;
    _ ← scfgmgr_set "email_send_period" string;
    _ ← apl_set_flag APL_LOG;
    mret A_OK
  else mret A_OK).

Definition apCfgsmtpMailServerSet (p : cstr) : M S Z :=
  guarded ((zlen p <? 0) || (MAX_SMTP_SERVER <? zlen p)) (
  cur ← apCfgsmtpMailServerGet;
  if differ p cur then
    _ ← scfgmgr_set "email_alert_server" p;
    _ ← apl_set_flag APL_LOG;
    mret A_OK
  else mret A_OK).

Definition apCfgemailAddrForLogSet (p : cstr) : M S Z :=
  guarded ((zlen p <? 0) || (MAX_MAIL_SERVER <? zlen p)) (
  cur ← apCfgemailAddrForLogGet;
  if differ p cur then
    _ ← scfgmgr_set "email_addr" p;
    _ ← apl_set_flag APL_LOG;
    mret A_OK
  else mret A_OK).

Definition apCfgemailAddrReturnSet (p : cstr) : M S Z :=
  guarded ((zlen p <? 0) || (MAX_MAIL_SERVER <? zlen p)) (
  cur ← apCfgemailAddrReturnGet;
  if differ p cur then
    _ ← scfgmgr_set "emailAddrReturn" p;
    _ ← apl_set_flag APL_LOG;
    mret A_OK
  else mret A_OK).

Definition scApCfgDot1xSuppEnableSet (v : Z) : M S Z :=
  cur ← scApCfgDot1xSuppEnableGet;
  if Zdiffer v cur then
    _ ← scfgmgr_set "eth_supp_mode" (enable v);
    _ ← apl_set_flag APL_ETHSUP;
    mret A_OK
  else mret A_OK.

Definition scApCfgDot1xSuppMacEnableSet (v : Z) : M S Z :=
  cur ← scApCfgDot1xSuppMacEnableGet;
  if Zdiffer v cur then
    _ ← scfgmgr_set "eth_supp_mac" (enable v);
    _ ← apl_set_flag APL_ETHSUP;
    mret A_OK
  else mret A_OK.

Definition scApCfgDot1xSuppUsernameSet (p : cstr) : M S Z :=
  guarded ((zlen p <? 0) || (MAX_DOT1XSUPP_NAME <? zlen p)) (
  cur ← scApCfgDot1xSuppUsernameGet;
  if differ p cur then
    _ ← scfgmgr_set "eth_supp_user" p;
    _ ← apl_set_flag APL_ETHSUP;
    mret A_OK
  else mret A_OK).

Definition scApCfgDot1xSuppPasswordSet (p : cstr) : M S Z :=
  guarded ((zlen p <? 4) || (MAX_DOT1XSUPP_PASSWD <? zlen p)) (
  cur ← scApCfgDot1xSuppPasswordGet;
  if differ p cur then
    _ ← scfgmgr_set "eth_supp_pwd" p;
    _ ← apl_set_flag APL_ETHSUP;
    mret A_OK
  else mret A_OK).

Definition apCfgHttpModeSet (v : Z) : M S Z :=
  cur ← apCfgHttpModeGet;
  if Zdiffer v cur then
    _ ← scfgmgr_set "http_mode" (enable v);
    _ ← apl_set_flag APL_HTTPD;
    mret A_OK
  else mret A_OK.

Definition apCfgAutohttpsModeSet (v : Z) : M S Z :=
  cur ← apCfgAutohttpsModeGet;
  if Zdiffer v cur then
    _ ← scfgmgr_set "autohttps" (enable v);
    _ ← apl_set_flag APL_HTTPD;
    _ ← apl_set_flag APL_BONJOUR;
    mret A_OK
  else mret A_OK.

Definition apCfgHttpPortSet (v : Z) : M S Z :=
  guarded ((v <? 1) || (65534 <? v)) (
  cur ← apCfgHttpPortGet;
  if Zdiffer v cur then
    string ← sprintf_d 6 v;
    _ ← scfgmgr_set "http_port" string;
    _ ← apl_set_flag APL_HTTPD;
    mret A_OK
  else mret A_OK).

Definition apCfgHttpsModeSet (v : Z) : M S Z :=
  cur ← apCfgHttpsModeGet;
  if Zdiffer v cur then
    _ ← scfgmgr_set "https_mode" (enable v);
    _ ← apl_set_flag APL_HTTPD;
    mret A_OK
  else mret A_OK.

Definition apCfgHttpsPortSet (v : Z) : M S Z :=
  guarded ((v <? 1) || (65534 <? v)) (
  cur ← apCfgHttpsPortGet;
  if Zdiffer v cur then
    string ← sprintf_d 6 v;
    _ ← scfgmgr_set "https_port" string;
    _ ← apl_set_flag APL_HTTPD;
    mret A_OK
  else mret A_OK).

Definition apCfgWlanAccessSet (v : Z) : M S Z :=
  cur ← apCfgWlanAccessGet;
  if Zdiffer v cur then
    _ ← scfgmgr_set "wlan_manage" (enable v);
    _ ← apl_set_flag APL_HTTPD;
    mret A_OK
  else mret A_OK.

Definition apCfgSSHSet (v : Z) : M S Z :=
  cur ← apCfgSSHGet;
  if Zdiffer v cur then
    _ ← scfgmgr_set "SSH" (enable v);
    _ ← apl_set_flag APL_SSH;
    _ ← apl_set_flag APL_BONJOUR;
    mret A_OK
  else mret A_OK.

Definition apCfgTelnetModeSet (v : Z) : M S Z :=
  cur ← apCfgTelnetModeGet;
  if Zdiffer v cur then
    _ ← scfgmgr_set "telnet_mode" (enable v);
    _ ← apl_set_flag APL_HTTPD;
    mret A_OK
  else mret A_OK.

Definition apCfgTelnetTimeoutSet (v : Z) : M S Z :=
  guarded ((v <? MIN_TELENT_TIMEOUT) || (MAX_TELNET_TIMEOUT <? v)) (
  value ← sprintf_d 6 v;
  _ ← scfgmgr_set "telnet_timeout" value;
  mret A_OK).

Definition apCfgSnmpModeSet (v : Z) : M S Z :=
  cur ← apCfgSnmpModeGet;
  if Zdiffer v cur then
    _ ← scfgmgr_set "snmp_mode" (enable v);
    _ ← apl_set_flag APL_SNMP;
    mret A_OK
  else mret A_OK.

Definition apCfgSnmpContactSet (p : cstr) : M S Z :=
  guarded ((zlen p <? 1) || (MAX_SNMP_CONTACT <? zlen p)) (
  cur ← apCfgSnmpContactGet;
  if differ p cur then
    _ ← scfgmgr_set "snmp_contact" p;
    _ ← apl_set_flag APL_SNMP;
    mret A_OK
  else mret A_OK).

Definition apCfgSnmpDviceNameSet (p : cstr) : M S Z :=
  guarded ((zlen p <? 1) || (MAX_SNMP_DEVNAME <? zlen p)) (
  cur ← apCfgSnmpDviceNameGet;
  if differ p cur then
    _ ← scfgmgr_set "snmp_device" p;
    _ ← apl_set_flag APL_SNMP;
    mret A_OK
  else mret A_OK).

Definition apCfgSnmpLocationSet (p : cstr) : M S Z :=
  guarded ((zlen p <? 1) || (MAX_SNMP_LOCATION <? zlen p)) (
  cur ← apCfgSnmpLocationGet;
  if differ p cur then
    _ ← scfgmgr_set "snmp_location" p;
    _ ← apl_set_flag APL_SNMP;
    mret A_OK
  else mret A_OK).

Definition apCfgSnmpTrapCommunitySet (p : cstr) : M S Z :=
  guarded ((zlen p <? 1) || (MAX_SNMP_COMMUNITY <? zlen p)) (
  cur ← apCfgSnmpTrapCommunityGet;
  if differ p cur then
    _ ← scfgmgr_set "snmp_trap_community" p;
    _ ← apl_set_flag APL_SNMP;
    mret A_OK
  else mret A_OK).

Definition apCfgSnmpReadCommSet (p : cstr) : M S Z :=
  guarded ((zlen p <? 1) || (MAX_SNMP_COMMUNITY <? zlen p)) (
  cur ← apCfgSnmpReadCommGet;
  if differ p cur then
    _ ← scfgmgr_set "snmp_community_get" p;
    _ ← apl_set_flag APL_SNMP;
    mret A_OK
  else mret A_OK).

Definition apCfgSnmpWriteCommSet (p : cstr) : M S Z :=
  guarded ((zlen p <? 1) || (MAX_SNMP_COMMUNITY <? zlen p)) (
  cur ← apCfgSnmpWriteCommGet;
  if differ p cur then
    _ ← scfgmgr_set "snmp_community_set" p;
    _ ← apl_set_flag APL_SNMP;
    mret A_OK
  else mret A_OK).

Definition apCfgSnmpUserNameSet (p : cstr) : M S Z :=
  guarded ((zlen p <? 0) || (MAX_SNMPV3_USERNAME <? zlen p)) (
  cur ← apCfgSnmpUserNameGet;
  if differ p cur then
    _ ← scfgmgr_set "snmp_user" p;
    _ ← apl_set_flag APL_SNMP;
    mret A_OK
  else mret A_OK).

Definition apCfgSnmpAuthProtocolSet (v : Z) : M S Z :=
  cur ← apCfgSnmpAuthProtocolGet;
  if Zdiffer v cur then
    _ ← scfgmgr_set "snmp_auth_protocol"
          (name_of [(SNMP_AUTH_NONE, "NONE" : cstr); (SNMP_AUTH_MD5, "HMAC-MD5" : cstr)] "NONE" v);
    _ ← apl_set_flag APL_SNMP;
    mret A_OK
  else mret A_OK.

Definition apCfgSnmpAuthKeySet (p : cstr) : M S Z :=
  guarded ((zlen p <? MIN_SNMPV3_AUTHKEY) || (MAX_SNMPV3_AUTHKEY <? zlen p)) (
  cur ← apCfgSnmpAuthKeyGet;
  if differ p cur then
    _ ← scfgmgr_set "snmp_auth_key" p;
    _ ← apl_set_flag APL_SNMP;
    mret A_OK
  else mret A_OK).

Definition apCfgSnmpPrivProtocolSet (v : Z) : M S Z :=
  cur ← apCfgSnmpPrivProtocolGet;
  if Zdiffer v cur then
    _ ← scfgmgr_set "snmp_priv_protocol"
          (name_of [(SNMP_PRIV_NONE, "NONE" : cstr); (SNMP_PRIV_DES, "CBC-DES" : cstr)] "NONE" v);
    _ ← apl_set_flag APL_SNMP;
    mret A_OK
  else mret A_OK.

Definition apCfgSnmpPrivKeySet (p : cstr) : M S Z :=
  guarded ((zlen p <? MIN_SNMPV3_PRIVKEY) || (MAX_SNMPV3_PRIVKEY <? zlen p)) (
  cur ← apCfgSnmpPrivKeyGet;
  if differ p cur then
    _ ← scfgmgr_set "snmp_priv_key" p;
    _ ← apl_set_flag APL_SNMP;
    mret A_OK
  else mret A_OK).

Definition apCfgSnmpAnyManagerSet (v : Z) : M S Z :=
  cur ← apCfgSnmpAnyManagerGet;
  if Zdiffer v cur then
    _ ← scfgmgr_set "snmp_trusted_any" (enable v);
    _ ← apl_set_flag APL_SNMP;
    mret A_OK
  else mret A_OK.

Definition apCfgSnmpManagerIpSet (v : Z) : M S Z :=
  cur ← apCfgSnmpManagerIpGet;
  if Zdiffer v cur then
    _ ← scfgmgr_set "snmp_trusted_host_start" (inet_ntoa v);
    _ ← apl_set_flag APL_SNMP;
    mret A_OK
  else mret A_OK.

Definition apCfgSnmpManagerIpEndSet (v : Z) : M S Z :=
  cur ← apCfgSnmpManagerIpEndGet;
  if Zdiffer v cur then
    _ ← scfgmgr_set "snmp_trusted_host_end" (inet_ntoa v);
    _ ← apl_set_flag APL_SNMP;
    mret A_OK
  else mret A_OK.

Definition apCfgSnmpTrapVersionSet (v : Z) : M S Z :=
  guarded ((v <? 1) || (3 <? v)) (
  cur ← apCfgSnmpTrapVersionGet;
  if Zdiffer v cur then
    value ← sprintf_d 6 v;
    _ ← scfgmgr_set "snmp_trap_version" value;
    _ ← apl_set_flag APL_SNMP;
    mret A_OK
  else mret A_OK).

Definition apCfgSnmpTrapRecvIpSet (v : Z) : M S Z :=
  cur ← apCfgSnmpTrapRecvIpGet;
  if Zdiffer v cur then
    _ ← scfgmgr_set "snmp_trap_dest" (inet_ntoa v);
    _ ← apl_set_flag APL_SNMP;
    mret A_OK
  else mret A_OK.

Definition isInvalidSnmpTrapPort (v : Z) : bool :=
  existsb (Z.eqb v)
    [1; 2; 3; 5; 7; 9; 20; 21; 22; 23; 25; 31; 53; 67; 68; 69; 79; 80; 81; 82; 123; 137; 138; 139;
     161; 168; 169; 443].

Definition apCfgVlanModeSet (v : Z) : M S Z :=
  cur ← apCfgVlanModeGet;
  if Zdiffer v cur then
    _ ← scfgmgr_set "vlan_mode" (enable v);
    _ ← apl_set_flag APL_VLAN;
    mret A_OK
  else mret A_OK.

Definition apCfgwdsVlanListSet (list : cstr) : M S Z :=
  if scValidwdsVlanList list then
    _ ← scfgmgr_set "wds_vlan_list" list;
    _ ← apl_set_flag APL_VLAN;
    mret A_OK
  else mret A_ERROR.

Definition apCfgMultiEnhanceSet (v : Z) : M S Z :=
  cur ← apCfgMultiEnhanceGet;
  if Zdiffer v cur then
    _ ← scfgmgr_set "multicast_enbance" (if v =? 1 then "1" else "0");
    _ ← apl_set_flag APL_WLAN0;
    mret A_OK
  else mret A_OK.

Definition apCfgEthDataRateSet (v : Z) : M S Z :=
  cur ← apCfgEthDataRateGet;
  if Zdiffer v cur then
    _ ← scfgmgr_set "eth_data_rate"
          (if v =? 1000 then "1000Mbps" else if v =? 100 then "100Mbps"
           else if v =? 10 then "10Mbps" else "auto");
    _ ← scfgmgr_set "lan_portspeed_define"
          (if v =? 1000 then "2" else if v =? 100 then "1" else if v =? 10 then "0" else "0");
    _ ← apl_set_flag APL_ETH_DATARATE;
    mret A_OK
  else mret A_OK.

Definition apCfgCertSet (p : cstr) : M S Z :=
  guarded ((zlen p <? 0) || (MAX_CERT_CONTENT <? zlen p)) (
  cur ← apCfgCertGet;
  if differ p cur then
    _ ← scfgmgr_set "cert_content" p;
    _ ← apl_set_flag APL_HTTPD;
    mret A_OK
  else mret A_OK).

Definition apCfgCertTimeSet (p : cstr) : M S Z :=
  guarded ((zlen p <? 0) || (MAX_CERT_TIME <? zlen p)) (
  cur ← apCfgCertTimeGet;
  if differ p cur then
    _ ← scfgmgr_set "cert_time" p;
    mret A_OK
  else mret A_OK).

Definition apCfgAutoRebootModeSet (v : Z) : M S Z :=
  cur ← apCfgAutoRebootModeGet;
  if Zdiffer v cur then
    _ ← scfgmgr_set "auto_reboot" (enable v);
    _ ← apl_set_flag APL_AUTOREBOOT;
    mret A_OK
  else mret A_OK.

Definition scApCfgAutoRebootIntervalSet (v : Z) : M S Z :=
  guarded ((v <? CFG_MIN_REBOOT_TIME) || (CFG_MAX_REBOOT_TIME <? v)) (
  cur ← apCfgAutoRebootIntervalGet;
  if Zdiffer v cur then
    string ← sprintf_d 6 v;
    _ ← scfgmgr_set "auto_reboot_interval" string;
    _ ← apl_set_flag APL_AUTOREBOOT;
    mret A_OK
  else mret A_OK).

Definition scApCfgAutoRebootTimeSet (hour min : Z) : M S Z :=
  guarded ((hour <? 0) || (23 <? hour) || (min <? 0) || (59 <? min)) (
  old ← apCfgAutoRebootTimeGet;
  if Zdiffer hour old.1 || Zdiffer min old.2 then
    _ ← scfgmgr_set "auto_reboot_time" (pad0 2 (dec hour) ++ ":"%char :: pad0 2 (dec min));
    _ ← apl_set_flag APL_AUTOREBOOT;
    mret A_OK
  else mret A_OK).

End ApCfgSys.
