(* ===== verification/ApCfgWlan.v ===== *)
(** * Radio and virtual-AP configuration parameters (libapcfg/apcfg.c)

    The getters and setters of the parameters of a radio ([unit]) and of one of
    its virtual access points ([bss]), over the interface [CfgStore]. *)

From S2P Require Import Prelude CLib Inet Utility NvramSpec CfgStore ApCfgSys.

Definition WLAN_MAX_DEV : Z := 1.
Definition WLAN_MAX_VAP : Z := 4.
Definition APCFG_ACL_ALLOW : Z := 0.
Definition APCFG_ACL_DISABLED : Z := 0.
Definition APCFG_ACL_LOCAL : Z := 1.
Definition APCFG_ACL_PREVENT : Z := 1.
Definition APCFG_ACL_RADIUS : Z := 2.
Definition CFG_MAX_PASSPHRASE : Z := 64.
Definition CFG_MAX_RADIUSNAME : Z := 64.
Definition CFG_MAX_SECRETLEN : Z := 128.
Definition CFG_MAX_SHARED_KEY : Z := 4.
Definition CFG_MIN_SHARED_KEY : Z := 1.
Definition CFG_OP_MODE_AP : Z := 0.
Definition CFG_OP_MODE_AP_PTMP : Z := 6.
Definition CFG_OP_MODE_AP_PTP : Z := 5.
Definition CFG_OP_MODE_MPT : Z := 3.
Definition CFG_OP_MODE_PPT : Z := 2.
Definition CFG_OP_MODE_REPEATER : Z := 4.
Definition CFG_OP_MODE_ROGAP : Z := 9.
Definition CFG_OP_MODE_STA : Z := 1.
Definition CFG_OP_MODE_UC : Z := 7.
Definition CFG_OP_MODE_UR : Z := 8.
Definition CTRY_JAPAN : Z := 392.
Definition CWM_MODE_20M : Z := 0.
Definition CWM_MODE_20M_40M : Z := 1.
Definition CWM_MODE_40M : Z := 2.
Definition INVALID_SHARED_KEY : Z := 5.
Definition MAX_BALANCE : Z := 10000.
Definition MAX_BEACON_PERIOD : Z := 1000.
Definition MAX_FRAG_THRESHOLD : Z := 2346.
Definition MAX_GROUP_KEY_UPDATE_INTERVAL : Z := 36000.
Definition MAX_RTS_THRESHOLD : Z := 2347.
Definition MAX_SSID : Z := 32.
Definition MAX_VAPNAME : Z := 32.
Definition MIN_BALANCE : Z := 0.
Definition MIN_BEACON_PERIOD : Z := 20.
Definition MIN_FRAG_THRESHOLD : Z := 256.
Definition MIN_GROUP_KEY_UPDATE_INTERVAL : Z := 600.
Definition MIN_RTS_THRESHOLD : Z := 1.
Definition MODE_SELECT_11A : Z := 1.
Definition MODE_SELECT_11B : Z := 2.
Definition MODE_SELECT_11BG : Z := 10.
Definition MODE_SELECT_11BGN : Z := 11.
Definition MODE_SELECT_11G : Z := 3.
Definition MODE_SELECT_11N : Z := 9.
Definition MODE_SELECT_11NA : Z := 7.
Definition MODE_SELECT_11NG : Z := 8.
Definition MODE_SELECT_AUTO : Z := 0.
Definition MODE_SELECT_FH : Z := 4.
Definition MODE_SELECT_TURBOA : Z := 5.
Definition MODE_SELECT_TURBOG : Z := 6.
Definition RADIO_24G : Z := 0.
Definition SC_MAX_DTIM_INTERVAL : Z := 255.
Definition SC_MAX_IDLETIMEOUT_INTERVAL : Z := 99.
Definition SC_MIN_DTIM_INTERVAL : Z := 1.
Definition SC_MIN_IDLETIMEOUT_INTERVAL : Z := 0.
Definition SHORTGI_AUTO : Z := 1.
Definition SHORTGI_LONG : Z := 2.
Definition SHORTGI_SHORT : Z := 0.
Definition WPS_PIN_LEN : Z := 8.
Definition APCFG_AUTH_OPEN_SYSTEM : Z := 1.
Definition APCFG_AUTH_SHARED_KEY : Z := 2.
Definition APCFG_AUTH_AUTO : Z := 3.
Definition APCFG_AUTH_WPA : Z := 4.
Definition APCFG_AUTH_WPAPSK : Z := 5.
Definition APCFG_AUTH_WPA2 : Z := 6.
Definition APCFG_AUTH_WPA2PSK : Z := 7.
Definition APCFG_AUTH_WPA_AUTO : Z := 8.
Definition APCFG_AUTH_WPA_AUTO_PSK : Z := 9.
Definition APCFG_AUTH_DOT1X : Z := 10.
Definition WPA_CIPHER_TKIP : Z := 0.
Definition WPA_CIPHER_AES : Z := 1.
Definition WPA_CIPHER_AUTO : Z := 2.

(** [sprintf(name, "wlan%d...", unit)] and [sprintf(name, "wlan%d_ssid%d...", unit, bss)] *)
Definition wlan_key (unit : Z) (suffix : cstr) : cstr := "wlan" ++ dec unit ++ suffix.
Definition vap_key (unit bss : Z) (suffix : cstr) : cstr :=
  "wlan" ++ dec unit ++ "_ssid" ++ dec bss ++ suffix.

(** [APL_WLAN0+unit*(WLAN_MAX_VAP+1)] and [APL_WLAN0_VAP0+bss+unit*(WLAN_MAX_VAP+1)] *)
Definition wlan_flag (unit : Z) : Z := APL_WLAN0 + unit * (WLAN_MAX_VAP + 1).
Definition vap_flag (unit bss : Z) : Z := APL_WLAN0_VAP0 + bss + unit * (WLAN_MAX_VAP + 1).

(** [for(vap=0; vap<WLAN_MAX_VAP; vap++)] *)
Definition vaps : list Z := [0; 1; 2; 3].

Section ApCfgWlan.
Context {S : Type} {store : CfgStore S}.

Fixpoint for_each (l : list Z) (body : Z → M S unit) : M S unit :=
  match l with
  | [] => mret tt
  | x :: l' => _ ← body x; for_each l' body
  end.
(** A call whose result is not used. *)
Definition ign (m : M S Z) : M S unit := _ ← m; mret tt.

(** ** Getters *)

Definition apCfgSsidModeGet (unit bss : Z) : M S Z :=
  get_bool (vap_key unit bss "_broabcast").

Definition apCfgSsidGet (unit bss : Z) : M S cstr :=
  get_str 64 (vap_key unit bss "").

Definition apCfgDevicePinGet (unit bss : Z) : M S cstr :=
  get_str 9 (vap_key unit bss "_pin").

Definition apCfgVapNameGet (unit bss : Z) : M S cstr :=
  get_str (Z.to_nat (MAX_VAPNAME + 1)) ("wlan" ++ dec unit ++ "_vap" ++ dec bss).

Definition apCfgActiveModeGet (unit bss : Z) : M S Z :=
  get_bool (vap_key unit bss "_state").

Definition apCfgCTSModeGet (unit : Z) : M S Z :=
  get_int (wlan_key unit "_cts").

Definition apCfgBeaconIntervalGet (unit : Z) : M S Z :=
  get_int (wlan_key unit "_bcn").

Definition apCfgNumVapsGet (unit : Z) : M S Z :=
  get_int_buf 60 (wlan_key unit "_vaps").

Definition apCfgWlanStateGet (unit : Z) : M S Z :=
  get_bool (wlan_key unit "_state").

Definition op_mode_names : list (Z * cstr) :=
  [(CFG_OP_MODE_AP, "AccessPoint" : cstr); (CFG_OP_MODE_STA, "WirelessClient" : cstr);
   (CFG_OP_MODE_PPT, "WirelessBridge" : cstr); (CFG_OP_MODE_MPT, "MultiPointBridge" : cstr);
   (CFG_OP_MODE_REPEATER, "WirelessRepeater" : cstr); (CFG_OP_MODE_AP_PTP, "AccessPointAndPTP" : cstr);
   (CFG_OP_MODE_AP_PTMP, "AccessPointAndPTMP" : cstr); (CFG_OP_MODE_UC, "UnversalClient" : cstr);
   (CFG_OP_MODE_UR, "UnversalRepeater" : cstr); (CFG_OP_MODE_ROGAP, "WirelessMonitor" : cstr)].

Definition apCfgOpModeGet (unit : Z) : M S Z :=
  p ← nvram_safe_get (wlan_key unit "_op_mode");
  mret (code_of op_mode_names CFG_OP_MODE_AP p).

Definition apCfgAutoChannelGet (unit : Z) : M S Z :=
  get_bool (wlan_key unit "_auto_channel").

Definition apCfgWpsModeGet (unit : Z) : M S Z :=
  get_bool (wlan_key unit "_wps").

Definition apCfgWpsPinERGet (unit : Z) : M S Z :=
  p ← nvram_safe_get (wlan_key unit "_wps_pin_er");
  mret (if zlen p =? 0 then 1 else boolZ (bool_decide (p = ENABLE))).

Definition apCfgRadioChannelGet (unit : Z) : M S Z :=
  get_int_buf 60 (wlan_key unit "_channel").

Definition apCfgChannelOffsetGet (unit : Z) : M S cstr :=
  get_str 32 (wlan_key unit "_channel_offset").

Definition scApCfgAmpduGet (unit : Z) : M S Z :=
  get_bool (wlan_key unit "_ampdu").

Definition scApCfgAmsduGet (unit : Z) : M S Z :=
  get_bool (wlan_key unit "_amsdu").

Definition scApCfgShortGIGet (unit : Z) : M S Z :=
  string ← nvram_safe_get (wlan_key unit "_short_GI");
  mret (code_of [(SHORTGI_LONG, "SHORTGI_LONG" : cstr); (SHORTGI_SHORT, "SHORTGI_SHORT" : cstr)]
          SHORTGI_AUTO string).

Definition scApCfg80211dEnabledGet (unit : Z) : M S Z :=
  get_bool (wlan_key unit "_80211d").

Definition apCfgPriorityGet (unit bss : Z) : M S Z :=
  get_int_buf 60 (vap_key unit bss "_pri").

Definition apCfgWmeGet (unit bss : Z) : M S Z :=
  get_bool (vap_key unit bss "_wmm").

Definition apCfgWmmpsGet (unit bss : Z) : M S Z :=
  get_bool (vap_key unit bss "_wmmps").

Definition apCfgNoAckGet (unit bss : Z) : M S Z :=
  get_bool (vap_key unit bss "_no_ack").

Definition scApCfgIdleTimeoutIntervalGet (unit : Z) : M S Z :=
  get_int_buf 60 (wlan_key unit "_idle_timeout").

Definition scApCfgDtimIntervalGet (unit : Z) : M S Z :=
  get_int_buf 60 (wlan_key unit "_dtim").

Definition apCfgFragThresholdGet (unit : Z) : M S Z :=
  get_int_buf 60 (wlan_key unit "_frag").

Definition apCfgRtsThresholdGet (unit : Z) : M S Z :=
  get_int_buf 60 (wlan_key unit "_rts").

Definition apCfgShortPreambleGet (unit : Z) : M S Z :=
  get_bool (wlan_key unit "_prb_type").

Definition apCfgPowerGet (unit : Z) : M S Z :=
  get_int_buf 60 (wlan_key unit "_transmit_power").

Definition apCfgAntennaGet (unit : Z) : M S Z :=
  get_int_buf 60 (wlan_key unit "_antenna").

Definition apCfgRateGet (unit : Z) : M S cstr :=
  get_str 32 (wlan_key unit "_data_rate").

Definition apCfgBalanceModeGet (unit : Z) : M S Z :=
  get_bool (wlan_key unit "_balance").

Definition apCfgLoadBalanceGet (unit vap : Z) : M S Z :=
  get_int_buf 60 (vap_key unit vap "_loadbalance").

Definition apCfgInterVapForwardingGet (unit : Z) : M S Z :=
  get_bool (wlan_key unit "_isolation").

(** The string copied to the caller's buffer. *)
Definition apCfgRemoteApMacAddrGet (unit : Z) : M S cstr :=
  nvram_safe_get (wlan_key unit "_remote_mac").

(** [memcpy(finalValue, pFullValue, 8*18)] from a string and its terminator. *)
Definition wbr_table (pFullValue : cstr) : M S bytes :=
  if decide (144 <= length (pFullValue ++ [NUL]))%nat then mret (take 144 (pFullValue ++ [NUL]))
  else faultM.

Definition apCfgRemoteWbrMacAddrGet (unit index : Z) : M S cstr :=
  pFullValue ← nvram_safe_get (wlan_key unit "_remote_bridge_mac");
  finalValue ← wbr_table pFullValue;
  if (0 <=? index) && (index <? 8)
  then mret (cut_nul (take 17 (drop (18 * Z.to_nat index) finalValue)))
  else faultM.

(** The string copied to the caller's buffer. *)
Definition apCfgUcrRemoteApMacAddrGet (unit : Z) : M S cstr :=
  nvram_safe_get (wlan_key unit "_remote_mac").

Definition auth_names : list (Z * cstr) :=
  [(APCFG_AUTH_NONE, "NONE" : cstr); (APCFG_AUTH_OPEN_SYSTEM, "OPEN_SYSTEM" : cstr);
   (APCFG_AUTH_SHARED_KEY, "SHARED_KEY" : cstr); (APCFG_AUTH_AUTO, "AUTH_AUTO" : cstr);
   (APCFG_AUTH_WPA, "AUTH_WPA" : cstr); (APCFG_AUTH_WPAPSK, "AUTH_WPAPSK" : cstr);
   (APCFG_AUTH_WPA2, "AUTH_WPA2" : cstr); (APCFG_AUTH_WPA2PSK, "AUTH_WPA2PSK" : cstr);
   (APCFG_AUTH_WPA_AUTO, "WPA_AUTO" : cstr); (APCFG_AUTH_WPA_AUTO_PSK, "WPA_AUTO_PSK" : cstr);
   (APCFG_AUTH_DOT1X, "AUTH_DOT1X" : cstr)].

Definition apCfgAuthTypeGet (unit bss : Z) : M S Z :=
  p ← nvram_safe_get (vap_key unit bss "_auth_mode");
  mret (code_of auth_names APCFG_AUTH_NONE p).

Definition cipher_names : list (Z * cstr) :=
  [(WPA_CIPHER_TKIP, "TKIP" : cstr); (WPA_CIPHER_AES, "AES" : cstr); (WPA_CIPHER_AUTO, "AUTO" : cstr)].

Definition apCfgWPACipherGet (unit bss : Z) : M S Z :=
  p ← nvram_safe_get (vap_key unit bss "_wpa_cipher");
  mret (code_of cipher_names WPA_CIPHER_AUTO p).

Definition apCfgDefKeyGet (unit bss : Z) : M S Z :=
  get_int_buf 60 (vap_key unit bss "_default_key").

Definition apCfgKey1ValGet (unit bss : Z) : M S cstr :=
  get_str 32 (vap_key unit bss "_key1").

Definition apCfgKey2ValGet (unit bss : Z) : M S cstr :=
  get_str 32 (vap_key unit bss "_key2").

Definition apCfgKey3ValGet (unit bss : Z) : M S cstr :=
  get_str 32 (vap_key unit bss "_key3").

Definition apCfgKey4ValGet (unit bss : Z) : M S cstr :=
  get_str 32 (vap_key unit bss "_key4").

Definition apCfgKeyValGet (unit bss keyId : Z) : M S cstr :=
  get_str 32 (vap_key unit bss "_key" ++ dec keyId).

Definition apCfgPassphraseGet (unit bss : Z) : M S cstr :=
  get_str 32 (vap_key unit bss "_passphrase").

Definition apCfgRadiusServerGet (unit bss : Z) : M S cstr :=
  get_str 32 (vap_key unit bss "_radius_server").

Definition apCfgBackupRadiusServerGet (unit bss : Z) : M S cstr :=
  get_str 32 (vap_key unit bss "_backup_radius_server").

Definition apCfgRadiusPortGet (unit bss : Z) : M S Z :=
  get_int_buf 60 (vap_key unit bss "_radius_port").

Definition apCfgBackupRadiusPortGet (unit bss : Z) : M S Z :=
  get_int_buf 60 (vap_key unit bss "_backup_radius_port").

Definition apCfgRadiusSecretGet (unit bss : Z) : M S cstr :=
  get_str 32 (vap_key unit bss "_radius_key").

Definition apCfgBackupRadiusSecretGet (unit bss : Z) : M S cstr :=
  get_str 32 (vap_key unit bss "_backup_radius_key").

Definition apCfgGroupKeyUpdateIntervalGet (unit bss : Z) : M S Z :=
  get_int_buf 60 (vap_key unit bss "_rekey_interval").

Definition apCfgDot1xKeyModeGet (unit bss : Z) : M S Z :=
  get_int_buf 60 (vap_key unit bss "_dot1x_key_mode").

Definition apCfgDot1xKeyLenGet (unit bss : Z) : M S Z :=
  get_int_buf 60 (vap_key unit bss "_dot1x_key_length").

Definition scApCfgGroupKeyUpdateEnabledGet (unit bss : Z) : M S Z :=
  get_bool (vap_key unit bss "_rekey_mode").

Definition scApCfgGroupKeyUpdateTerminatedGet (unit bss : Z) : M S Z :=
  get_int_buf 60 (vap_key unit bss "_rekey_terminated").

Definition scApCfgAcctServerGet (unit bss : Z) : M S cstr :=
  get_str 32 (vap_key unit bss "_acct_server").

Definition scApCfgBackupAcctServerGet (unit bss : Z) : M S cstr :=
  get_str 32 (vap_key unit bss "_backup_acct_server").

Definition scApCfgAcctSecretGet (unit bss : Z) : M S cstr :=
  get_str 128 (vap_key unit bss "_acct_key").

Definition scApCfgBackupAcctSecretGet (unit bss : Z) : M S cstr :=
  get_str 128 (vap_key unit bss "_backup_acct_key").

Definition scApCfgAcctPortGet (unit bss : Z) : M S Z :=
  get_int_buf 60 (vap_key unit bss "_acct_port").

Definition scApCfgBackupAcctPortGet (unit bss : Z) : M S Z :=
  get_int_buf 60 (vap_key unit bss "_backup_acct_port").

Definition apCfgKeyBitLenGet (unit bss : Z) : M S Z :=
  get_int_buf 60 (vap_key unit bss "_key_length").

Definition apCfgKeyEntryMethodGet (unit bss : Z) : M S Z :=
  get_int_buf 60 (vap_key unit bss "_key_method").

Definition apCfgVlanPvidGet (unit bss : Z) : M S Z :=
  get_int_buf 32 (vap_key unit bss "_vid").

Definition apCfgIntraVapForwardingGet (unit bss : Z) : M S Z :=
  get_bool (vap_key unit bss "_isolation").

Definition acl_mode_names : list (Z * cstr) :=
  [(APCFG_ACL_DISABLED, "Disable" : cstr); (APCFG_ACL_LOCAL, "Local" : cstr);
   (APCFG_ACL_RADIUS, "Radius" : cstr)].

Definition apCfgAclModeGet (unit bss : Z) : M S Z :=
  string ← nvram_safe_get (vap_key unit bss "_access_control");
  mret (code_of acl_mode_names APCFG_ACL_DISABLED string).

Definition apCfgAclTypeGet (unit bss : Z) : M S Z :=
  string ← nvram_safe_get (vap_key unit bss "_acl_type");
  mret (if differ string ENABLE then APCFG_ACL_PREVENT else APCFG_ACL_ALLOW).

Definition freq_names : list (Z * cstr) :=
  [(MODE_SELECT_AUTO, "MODE_SELECT_AUTO" : cstr); (MODE_SELECT_11A, "MODE_SELECT_11A" : cstr);
   (MODE_SELECT_11B, "MODE_SELECT_11B" : cstr); (MODE_SELECT_11G, "MODE_SELECT_11G" : cstr);
   (MODE_SELECT_FH, "MODE_SELECT_FH" : cstr); (MODE_SELECT_TURBOA, "MODE_SELECT_TURBOA" : cstr);
   (MODE_SELECT_TURBOG, "MODE_SELECT_TURBOG" : cstr); (MODE_SELECT_11NA, "MODE_SELECT_11NA" : cstr);
   (MODE_SELECT_11NG, "MODE_SELECT_11NG" : cstr); (MODE_SELECT_11N, "MODE_SELECT_11N" : cstr);
   (MODE_SELECT_11BG, "MODE_SELECT_11BG" : cstr); (MODE_SELECT_11BGN, "MODE_SELECT_11BGN" : cstr)].

Definition apCfgFreqSpecGet (unit : Z) : M S Z :=
  p ← nvram_safe_get (wlan_key unit "_mode");
  mret (code_of freq_names (-1) p).

Definition cwm_names : list (Z * cstr) :=
  [(CWM_MODE_20M, "CWM_MODE_20M" : cstr); (CWM_MODE_20M_40M, "CWM_MODE_20M_40M" : cstr);
   (CWM_MODE_40M, "CWM_MODE_40M" : cstr)].

Definition apCfgChannelWidthModeGet (unit : Z) : M S Z :=
  p ← nvram_safe_get (wlan_key unit "_channel_width");
  mret (code_of cwm_names CWM_MODE_20M_40M p).

(** ** Setters *)

Definition apCfgChannelOffsetSet (unit : Z) (p : cstr) : M S Z :=
  guarded (differ "1" p && differ "-1" p) (
  cur ← apCfgChannelOffsetGet unit;
  if differ p cur then
    _ ← scfgmgr_set (wlan_key unit "_channel_offset") p;
    _ ← apl_set_flag (wlan_flag unit);
    _ ← system "echo 1 > /tmp/apl_reload_mod";
    mret A_OK
  else mret A_OK).

Definition apCfgActiveModeSet (unit bss v : Z) : M S Z :=
  guarded ((bss =? 0) && (v =? 0)) (
  op ← apCfgOpModeGet unit;
  guarded (Zdiffer op CFG_OP_MODE_AP && (negb (bss =? 0) && (v =? 1))) (
  cur ← apCfgActiveModeGet unit bss;
  if Zdiffer v cur then
    _ ← scfgmgr_set (vap_key unit bss "_state") (enable v);
    _ ← apl_set_flag (vap_flag unit bss);
    mret A_OK
  else mret A_OK)).

Definition apCfgAuthTypeSet (unit bss v : Z) : M S Z :=
  cur ← apCfgAuthTypeGet unit bss;
  if Zdiffer v cur then
    op ← apCfgOpModeGet unit;
    op2 ← (if op =? CFG_OP_MODE_UC then mret op else apCfgOpModeGet unit);
    guarded (((op =? CFG_OP_MODE_UC) || (op2 =? CFG_OP_MODE_UR)) && (bss =? 0) &&
             ((APCFG_AUTH_AUTO <? v) && Zdiffer v APCFG_AUTH_WPAPSK &&
              Zdiffer v APCFG_AUTH_WPA2PSK && Zdiffer v APCFG_AUTH_WPA_AUTO_PSK)) (
    _ ← scfgmgr_set (vap_key unit bss "_auth_mode") (name_of auth_names "NONE" v);
    _ ← apl_set_flag (vap_flag unit bss);
    _ ← apCfgWscConfiguredSet 1;
    mret A_OK)
  else mret A_OK.

(** The operation mode is read once more for each alternative that fails. *)
Definition apCfgChannelWidthModeSet (unit v : Z) : M S Z :=
  op1 ← apCfgOpModeGet unit;
  op2 ← (if op1 =? CFG_OP_MODE_ROGAP then mret op1 else apCfgOpModeGet unit);
  op3 ← (if (op1 =? CFG_OP_MODE_ROGAP) || (op2 =? CFG_OP_MODE_UC) then mret op2
         else apCfgOpModeGet unit);
  let v := if (op1 =? CFG_OP_MODE_ROGAP) || (op2 =? CFG_OP_MODE_UC) || (op3 =? CFG_OP_MODE_UR)
           then CWM_MODE_20M else v in
  cur ← apCfgChannelWidthModeGet unit;
  if Zdiffer v cur then
    _ ← scfgmgr_set (wlan_key unit "_channel_width") (name_of cwm_names "CWM_MODE_20M_40M" v);
    _ ← apl_set_flag (wlan_flag unit);
    _ ← system "echo 1 > /tmp/apl_reload_mod";
    mret A_OK
  else mret A_OK.

Definition apCfgInterVapForwardingSet (unit v : Z) : M S Z :=
  op ← apCfgOpModeGet unit;
  let v := if op =? CFG_OP_MODE_UR then 0 else v in
  cur ← apCfgInterVapForwardingGet unit;
  if Zdiffer v cur then
    _ ← scfgmgr_set (wlan_key unit "_isolation") (enable v);
    _ ← apl_set_flag (wlan_flag unit);
    mret A_OK
  else mret A_OK.

Definition apCfgSsidModeSet (unit : Z) (bss : Z) (v : Z) : M S Z :=
  cur ← apCfgSsidModeGet unit bss;
  if Zdiffer v cur then
    _ ← scfgmgr_set (vap_key unit bss "_broabcast") (enable v);
    _ ← apl_set_flag (vap_flag unit bss);
    mret A_OK
  else mret A_OK.

Definition apCfgSsidSet (unit : Z) (bss : Z) (p : cstr) : M S Z :=
  guarded ((MAX_SSID <? zlen p)) (
  cur ← apCfgSsidGet unit bss;
  if differ p cur then
    _ ← scfgmgr_set (vap_key unit bss "") p;
    _ ← apl_set_flag (vap_flag unit bss);
    _ ← apCfgWscConfiguredSet 1;
    mret A_OK
  else mret A_OK).

Definition apCfgDevicePinSet (unit : Z) (bss : Z) (p : cstr) : M S Z :=
  guarded (negb (zlen p =? WPS_PIN_LEN)) (
  cur ← apCfgDevicePinGet unit bss;
  if differ p cur then
    _ ← scfgmgr_set (vap_key unit bss "_pin") p;
    _ ← apl_set_flag (wlan_flag unit);
    mret A_OK
  else mret A_OK).

Definition apCfgVapNameSet (unit bss : Z) (p : cstr) : M S Z :=
  guarded (MAX_VAPNAME <? zlen p) (
  _ ← scfgmgr_set ("wlan" ++ dec unit ++ "_vap" ++ dec bss) p;
  mret A_OK).

Definition apCfgCTSModeSet (unit : Z) (v : Z) : M S Z :=
  cur ← apCfgCTSModeGet unit;
  if Zdiffer v cur then
    string ← sprintf_d 10 v;
    _ ← scfgmgr_set (wlan_key unit "_cts") string;
    _ ← apl_set_flag (wlan_flag unit);
    mret A_OK
  else mret A_OK.

Definition apCfgBeaconIntervalSet (unit : Z) (v : Z) : M S Z :=
  guarded ((v <? MIN_BEACON_PERIOD) || (MAX_BEACON_PERIOD <? v)) (
  cur ← apCfgBeaconIntervalGet unit;
  if Zdiffer v cur then
    string ← sprintf_d 10 v;
    _ ← scfgmgr_set (wlan_key unit "_bcn") string;
    _ ← apl_set_flag (wlan_flag unit);
    mret A_OK
  else mret A_OK).

(** [&val] is one character, not a string: the set reads past it. *)
Definition apCfgNumVapsSet (unit v : Z) : M S Z := faultM.

Definition apCfgWlanStateSet (unit : Z) (v : Z) : M S Z :=
  cur ← apCfgWlanStateGet unit;
  if Zdiffer v cur then
    _ ← scfgmgr_set (wlan_key unit "_state") (enable v);
    _ ← apl_set_flag (wlan_flag unit);
    mret A_OK
  else mret A_OK.

Definition apCfgOpModeSet (unit v : Z) : M S Z :=
  cur ← apCfgOpModeGet unit;
  if Zdiffer v cur then
    let string := name_of op_mode_names "AccessPoint" v in
    _ ← when (Zdiffer CFG_OP_MODE_AP v) (
          _ ← for_each [1; 2; 3] (λ vap, ign (apCfgActiveModeSet unit vap 0));
          _ ← when ((v =? CFG_OP_MODE_UC) || (v =? CFG_OP_MODE_UR)) (
                authType ← apCfgAuthTypeGet unit 0;
                when ((APCFG_AUTH_AUTO <? authType) && Zdiffer authType APCFG_AUTH_WPAPSK &&
                      Zdiffer authType APCFG_AUTH_WPA2PSK && Zdiffer authType APCFG_AUTH_WPA_AUTO_PSK)
                  (ign (apCfgAuthTypeSet unit 0 APCFG_AUTH_NONE)));
          _ ← when ((v =? CFG_OP_MODE_ROGAP) || (v =? CFG_OP_MODE_UC) || (v =? CFG_OP_MODE_UR))
                (ign (apCfgChannelWidthModeSet unit 0));
          when (v =? CFG_OP_MODE_UR) (ign (apCfgInterVapForwardingSet unit 0)));
    _ ← scfgmgr_set (wlan_key unit "_op_mode") string;
    _ ← apl_set_flag APL_REBOOT;
    _ ← when (CFG_OP_MODE_AP =? v) (
          for_each [1; 2; 3] (λ vap,
            ssid ← apCfgSsidGet unit vap;
            when (negb (zlen ssid =? 0)) (ign (apCfgActiveModeSet unit vap 1))));
    mret A_OK
  else mret A_OK.

Definition apCfgAutoChannelSet (unit v : Z) : M S Z :=
  cur ← apCfgAutoChannelGet unit;
  if Zdiffer v cur then
    _ ← scfgmgr_set (wlan_key unit "_auto_channel") (enable v);
    _ ← apl_set_flag (wlan_flag unit);
    _ ← system "echo 1 > /tmp/chan_config";
    mret A_OK
  else mret A_OK.

Definition apCfgWpsModeSet (unit : Z) (v : Z) : M S Z :=
  cur ← apCfgWpsModeGet unit;
  if Zdiffer v cur then
    _ ← scfgmgr_set (wlan_key unit "_wps") (enable v);
    _ ← apl_set_flag (wlan_flag unit);
    mret A_OK
  else mret A_OK.

Definition apCfgWpsPinERSet (unit : Z) (v : Z) : M S Z :=
  cur ← apCfgWpsPinERGet unit;
  if Zdiffer v cur then
    _ ← scfgmgr_set (wlan_key unit "_wps_pin_er") (enable v);
    _ ← apl_set_flag (wlan_flag unit);
    mret A_OK
  else mret A_OK.

Definition apCfgRadioChannelSet (unit v : Z) : M S Z :=
  guarded ((v <? 0) || (14 <? v)) (
  cur ← apCfgRadioChannelGet unit;
  if Zdiffer v cur then
    string ← sprintf_d 10 v;
    _ ← scfgmgr_set (wlan_key unit "_channel") string;
    _ ← apl_set_flag (wlan_flag unit);
    _ ← system "echo 1 > /tmp/chan_config";
    _ ← (if 5 <=? v then apCfgChannelOffsetSet unit "-1" else apCfgChannelOffsetSet unit "1");
    mret A_OK
  else mret A_OK).

Definition scApCfgAmpduSet (unit : Z) (v : Z) : M S Z :=
  cur ← scApCfgAmpduGet unit;
  if Zdiffer v cur then
    _ ← scfgmgr_set (wlan_key unit "_ampdu") (enable v);
    _ ← apl_set_flag (wlan_flag unit);
    mret A_OK
  else mret A_OK.

Definition scApCfgAmsduSet (unit : Z) (v : Z) : M S Z :=
  cur ← scApCfgAmsduGet unit;
  if Zdiffer v cur then
    _ ← scfgmgr_set (wlan_key unit "_amsdu") (enable v);
    _ ← apl_set_flag (wlan_flag unit);
    mret A_OK
  else mret A_OK.

Definition scApCfgShortGISet (unit v : Z) : M S Z :=
  cur ← scApCfgShortGIGet unit;
  if Zdiffer v cur then
    _ ← scfgmgr_set (wlan_key unit "_short_GI")
          (name_of [(SHORTGI_SHORT, "SHORTGI_SHORT" : cstr); (SHORTGI_LONG, "SHORTGI_LONG" : cstr)]
             "SHORTGI_AUTO" v);
    _ ← apl_set_flag (wlan_flag unit);
    _ ← system "echo 1 > /tmp/apl_reload_mod";
    mret A_OK
  else mret A_OK.

Definition scApCfg80211dEnabledSet (unit : Z) (v : Z) : M S Z :=
  cur ← scApCfg80211dEnabledGet unit;
  if Zdiffer v cur then
    _ ← scfgmgr_set (wlan_key unit "_80211d") (enable v);
    _ ← apl_set_flag (wlan_flag unit);
    mret A_OK
  else mret A_OK.

Definition apCfgPrioritySet (unit : Z) (bss : Z) (v : Z) : M S Z :=
  cur ← apCfgPriorityGet unit bss;
  if Zdiffer v cur then
    string ← sprintf_d 5 v;
    _ ← scfgmgr_set (vap_key unit bss "_pri") string;
    _ ← apl_set_flag (vap_flag unit bss);
    mret A_OK
  else mret A_OK.

Definition apCfgWmeSet (unit : Z) (bss : Z) (v : Z) : M S Z :=
  cur ← apCfgWmeGet unit bss;
  if Zdiffer v cur then
    _ ← scfgmgr_set (vap_key unit bss "_wmm") (enable v);
    _ ← apl_set_flag (vap_flag unit bss);
    mret A_OK
  else mret A_OK.

Definition apCfgWmmpsSet (unit : Z) (bss : Z) (v : Z) : M S Z :=
  cur ← apCfgWmmpsGet unit bss;
  if Zdiffer v cur then
    _ ← scfgmgr_set (vap_key unit bss "_wmmps") (enable v);
    _ ← apl_set_flag (vap_flag unit bss);
    mret A_OK
  else mret A_OK.

Definition apCfgNoAckSet (unit : Z) (bss : Z) (v : Z) : M S Z :=
  cur ← apCfgNoAckGet unit bss;
  if Zdiffer v cur then
    _ ← scfgmgr_set (vap_key unit bss "_no_ack") (enable v);
    _ ← apl_set_flag (vap_flag unit bss);
    mret A_OK
  else mret A_OK.

Definition scApCfgIdleTimeoutIntervalSet (unit : Z) (v : Z) : M S Z :=
  guarded ((v <? SC_MIN_IDLETIMEOUT_INTERVAL) || (SC_MAX_IDLETIMEOUT_INTERVAL <? v)) (
  cur ← scApCfgIdleTimeoutIntervalGet unit;
  if Zdiffer v cur then
    string ← sprintf_d 10 v;
    _ ← scfgmgr_set (wlan_key unit "_idle_timeout") string;
    _ ← apl_set_flag (wlan_flag unit);
    mret A_OK
  else mret A_OK).

Definition scApCfgDtimIntervalSet (unit : Z) (v : Z) : M S Z :=
  guarded ((v <? SC_MIN_DTIM_INTERVAL) || (SC_MAX_DTIM_INTERVAL <? v)) (
  cur ← scApCfgDtimIntervalGet unit;
  if Zdiffer v cur then
    string ← sprintf_d 10 v;
    _ ← scfgmgr_set (wlan_key unit "_dtim") string;
    _ ← apl_set_flag (wlan_flag unit);
    mret A_OK
  else mret A_OK).

Definition apCfgFragThresholdSet (unit : Z) (v : Z) : M S Z :=
  guarded ((v <? MIN_FRAG_THRESHOLD) || (MAX_FRAG_THRESHOLD <? v)) (
  cur ← apCfgFragThresholdGet unit;
  if Zdiffer v cur then
    string ← sprintf_d 10 v;
    _ ← scfgmgr_set (wlan_key unit "_frag") string;
    _ ← apl_set_flag (wlan_flag unit);
    mret A_OK
  else mret A_OK).

Definition apCfgRtsThresholdSet (unit : Z) (v : Z) : M S Z :=
  guarded ((v <? MIN_RTS_THRESHOLD) || (MAX_RTS_THRESHOLD <? v)) (
  cur ← apCfgRtsThresholdGet unit;
  if Zdiffer v cur then
    string ← sprintf_d 10 v;
    _ ← scfgmgr_set (wlan_key unit "_rts") string;
    _ ← apl_set_flag (wlan_flag unit);
    mret A_OK
  else mret A_OK).

Definition apCfgShortPreambleSet (unit : Z) (v : Z) : M S Z :=
  cur ← apCfgShortPreambleGet unit;
  if Zdiffer v cur then
    _ ← scfgmgr_set (wlan_key unit "_prb_type") (enable v);
    _ ← apl_set_flag (wlan_flag unit);
    mret A_OK
  else mret A_OK.

Definition apCfgPowerSet (unit : Z) (v : Z) : M S Z :=
  cur ← apCfgPowerGet unit;
  if Zdiffer v cur then
    string ← sprintf_d 10 v;
    _ ← scfgmgr_set (wlan_key unit "_transmit_power") string;
    _ ← apl_set_flag (wlan_flag unit);
    mret A_OK
  else mret A_OK.

Definition apCfgAntennaSet (unit v : Z) : M S Z :=
  string ← sprintf_d 10 v;
  _ ← scfgmgr_set (wlan_key unit "_antenna") string;
  mret A_OK.

Definition apCfgRateSet (unit : Z) (p : cstr) : M S Z :=
  cur ← apCfgRateGet unit;
  if differ p cur then
    _ ← scfgmgr_set (wlan_key unit "_data_rate") p;
    _ ← apl_set_flag (wlan_flag unit);
    mret A_OK
  else mret A_OK.

Definition apCfgBalanceModeSet (unit : Z) (v : Z) : M S Z :=
  cur ← apCfgBalanceModeGet unit;
  if Zdiffer v cur then
    _ ← scfgmgr_set (wlan_key unit "_balance") (enable v);
    _ ← apl_set_flag APL_BALANCE;
    mret A_OK
  else mret A_OK.

Definition apCfgLoadBalanceSet (unit : Z) (vap : Z) (v : Z) : M S Z :=
  guarded ((v <? MIN_BALANCE) || (MAX_BALANCE <? v)) (
  cur ← apCfgLoadBalanceGet unit vap;
  if Zdiffer v cur then
    string ← sprintf_d 10 v;
    _ ← scfgmgr_set (vap_key unit vap "_loadbalance") string;
    _ ← apl_set_flag APL_BALANCE;
    mret A_OK
  else mret A_OK).

Definition apCfgRemoteApMacAddrSet (unit : Z) (pRemoteApMacAddr : cstr) : M S Z :=
  p ← apCfgRemoteApMacAddrGet unit;
  tmpMac ← strcpy_buf 18 p;
  if differ pRemoteApMacAddr tmpMac then
    _ ← scfgmgr_set (wlan_key unit "_remote_mac") pRemoteApMacAddr;
    _ ← apl_set_flag (wlan_flag unit);
    mret A_OK
  else mret A_OK.

Definition apCfgRemoteWbrMacAddrSet (unit index : Z) (pMac : cstr) : M S Z :=
  pFullValue ← nvram_safe_get (wlan_key unit "_remote_bridge_mac");
  finalValue ← wbr_table pFullValue;
  if negb ((0 <=? index) && (index <? 8)) || (zlen pMac + 1 <? 17) then faultM
  else
    let i := (18 * Z.to_nat index)%nat in
    let valueToSet := cut_nul (take i finalValue ++ take 17 (pMac ++ [NUL]) ++ ","%char ::
                               drop (i + 18) finalValue) in
    if differ valueToSet pFullValue then
      _ ← scfgmgr_set (wlan_key unit "_remote_bridge_mac") valueToSet;
      _ ← apl_set_flag (wlan_flag unit);
      mret A_OK
    else mret A_OK.

Definition apCfgUcrRemoteApMacAddrSet (unit : Z) (pRemoteApMacAddr : cstr) : M S Z :=
  p ← apCfgUcrRemoteApMacAddrGet unit;
  tmpMac ← strcpy_buf 18 p;
  if differ pRemoteApMacAddr tmpMac then
    _ ← scfgmgr_set (wlan_key unit "_remote_mac") pRemoteApMacAddr;
    _ ← apl_set_flag (wlan_flag unit);
    mret A_OK
  else mret A_OK.

Definition apCfgWPACipherSet (unit bss v : Z) : M S Z :=
  cur ← apCfgWPACipherGet unit bss;
  if Zdiffer v cur then
    _ ← scfgmgr_set (vap_key unit bss "_wpa_cipher") (name_of cipher_names "AUTO" v);
    _ ← apl_set_flag (vap_flag unit bss);
    _ ← apCfgWscConfiguredSet 1;
    mret A_OK
  else mret A_OK.

Definition apCfgDefKeySet (unit bss v : Z) : M S Z :=
  if ((CFG_MIN_SHARED_KEY <=? v) && (v <=? CFG_MAX_SHARED_KEY)) || (v =? INVALID_SHARED_KEY) then
    cur ← apCfgDefKeyGet unit bss;
    if Zdiffer v cur then
      string ← sprintf_d 10 v;
      _ ← scfgmgr_set (vap_key unit bss "_default_key") string;
      _ ← apl_set_flag (vap_flag unit bss);
      _ ← apCfgWscConfiguredSet 1;
      mret A_OK
    else mret A_OK
  else mret A_EINVAL.

Definition bad_key_len (p : cstr) : bool :=
  negb (existsb (Z.eqb (zlen p)) [0; 5; 10; 13; 26; 16; 32]).

Definition apCfgKey1ValSet (unit bss : Z) (p : cstr) : M S Z :=
  guarded (bad_key_len p) (
  _ ← scfgmgr_set (vap_key unit bss "_key1") p;
  _ ← apCfgWscConfiguredSet 1;
  mret A_OK).

Definition apCfgKey2ValSet (unit bss : Z) (p : cstr) : M S Z :=
  guarded (bad_key_len p) (
  _ ← scfgmgr_set (vap_key unit bss "_key2") p;
  _ ← apCfgWscConfiguredSet 1;
  mret A_OK).

Definition apCfgKey3ValSet (unit bss : Z) (p : cstr) : M S Z :=
  guarded (bad_key_len p) (
  _ ← scfgmgr_set (vap_key unit bss "_key3") p;
  _ ← apCfgWscConfiguredSet 1;
  mret A_OK).

Definition apCfgKey4ValSet (unit bss : Z) (p : cstr) : M S Z :=
  guarded (bad_key_len p) (
  _ ← scfgmgr_set (vap_key unit bss "_key4") p;
  _ ← apCfgWscConfiguredSet 1;
  mret A_OK).

Definition apCfgKeyValSet (unit bss keyId : Z) (p : cstr) : M S Z :=
  guarded (bad_key_len p) (
  cur ← apCfgKeyValGet unit bss keyId;
  if differ p cur then
    _ ← for_each vaps (λ i,
          _ ← scfgmgr_set (vap_key unit i "_key" ++ dec keyId) p;
          apl_set_flag (vap_flag unit bss));
    mret A_OK
  else mret A_OK).

Definition apCfgPassphraseSet (unit : Z) (bss : Z) (p : cstr) : M S Z :=
  guarded ((zlen p <? 0) || (CFG_MAX_PASSPHRASE <? zlen p)) (
  cur ← apCfgPassphraseGet unit bss;
  if differ p cur then
    _ ← scfgmgr_set (vap_key unit bss "_passphrase") p;
    _ ← apCfgWscConfiguredSet 1;
    _ ← apl_set_flag (vap_flag unit bss);
    mret A_OK
  else mret A_OK).

Definition apCfgRadiusServerSet (unit bss : Z) (p : cstr) : M S Z :=
  guarded ((CFG_MAX_RADIUSNAME <? zlen p)) (
  cur ← apCfgRadiusServerGet unit bss;
  if differ p cur then
    _ ← for_each vaps (λ vap, set (vap_key unit vap "_radius_server") p);
    _ ← apl_set_flag (vap_flag unit bss);
    _ ← apCfgWscConfiguredSet 1;
    mret A_OK
  else mret A_OK).

Definition apCfgBackupRadiusServerSet (unit bss : Z) (p : cstr) : M S Z :=
  guarded ((CFG_MAX_RADIUSNAME <? zlen p)) (
  cur ← apCfgBackupRadiusServerGet unit bss;
  if differ p cur then
    _ ← for_each vaps (λ vap, set (vap_key unit vap "_backup_radius_server") p);
    _ ← apl_set_flag (vap_flag unit bss);
    _ ← apCfgWscConfiguredSet 1;
    mret A_OK
  else mret A_OK).

Definition apCfgRadiusPortSet (unit bss v : Z) : M S Z :=
  guarded ((v <? 1) || (65534 <? v)) (
  cur ← apCfgRadiusPortGet unit bss;
  if Zdiffer v cur then
    string ← sprintf_d 10 v;
    _ ← for_each vaps (λ vap, set (vap_key unit vap "_radius_port") string);
    _ ← apl_set_flag (vap_flag unit bss);
    _ ← apCfgWscConfiguredSet 1;
    mret A_OK
  else mret A_OK).

Definition apCfgBackupRadiusPortSet (unit bss v : Z) : M S Z :=
  guarded ((v <? 1) || (65534 <? v)) (
  cur ← apCfgBackupRadiusPortGet unit bss;
  if Zdiffer v cur then
    string ← sprintf_d 10 v;
    _ ← for_each vaps (λ vap, set (vap_key unit vap "_backup_radius_port") string);
    _ ← apl_set_flag (vap_flag unit bss);
    _ ← apCfgWscConfiguredSet 1;
    mret A_OK
  else mret A_OK).

Definition apCfgRadiusSecretSet (unit bss : Z) (p : cstr) : M S Z :=
  guarded ((CFG_MAX_SECRETLEN <? zlen p)) (
  cur ← apCfgRadiusSecretGet unit bss;
  if differ p cur then
    _ ← for_each vaps (λ vap, set (vap_key unit vap "_radius_key") p);
    _ ← apl_set_flag (vap_flag unit bss);
    _ ← apCfgWscConfiguredSet 1;
    mret A_OK
  else mret A_OK).

Definition apCfgBackupRadiusSecretSet (unit bss : Z) (p : cstr) : M S Z :=
  guarded ((CFG_MAX_SECRETLEN <? zlen p)) (
  cur ← apCfgBackupRadiusSecretGet unit bss;
  if differ p cur then
    _ ← for_each vaps (λ vap, set (vap_key unit vap "_backup_radius_key") p);
    _ ← apl_set_flag (vap_flag unit bss);
    _ ← apCfgWscConfiguredSet 1;
    mret A_OK
  else mret A_OK).

Definition apCfgGroupKeyUpdateIntervalSet (unit : Z) (bss : Z) (v : Z) : M S Z :=
  guarded ((v <? MIN_GROUP_KEY_UPDATE_INTERVAL) || (MAX_GROUP_KEY_UPDATE_INTERVAL <? v)) (
  cur ← apCfgGroupKeyUpdateIntervalGet unit bss;
  if Zdiffer v cur then
    string ← sprintf_d 10 v;
    _ ← scfgmgr_set (vap_key unit bss "_rekey_interval") string;
    _ ← apl_set_flag (vap_flag unit bss);
    _ ← apCfgWscConfiguredSet 1;
    mret A_OK
  else mret A_OK).

(** [&val] is one character, not a string: the set reads past it. *)
Definition apCfgDot1xKeyModeSet (unit bss v : Z) : M S Z :=
  guarded ((v <? 1) || (3 <? v)) (
  cur ← apCfgDot1xKeyModeGet unit bss;
  if Zdiffer v cur then faultM else mret A_OK).

Definition apCfgDot1xKeyLenSet (unit : Z) (bss : Z) (v : Z) : M S Z :=
  guarded (negb (v =? 5) && negb (v =? 13) && negb (v =? 16)) (
  cur ← apCfgDot1xKeyLenGet unit bss;
  if Zdiffer v cur then
    string ← sprintf_d 10 v;
    _ ← scfgmgr_set (vap_key unit bss "_dot1x_key_length") string;
    _ ← apl_set_flag (vap_flag unit bss);
    _ ← apCfgWscConfiguredSet 1;
    mret A_OK
  else mret A_OK).

Definition scApCfgGroupKeyUpdateEnabledSet (unit : Z) (bss : Z) (v : Z) : M S Z :=
  cur ← scApCfgGroupKeyUpdateEnabledGet unit bss;
  if Zdiffer v cur then
    _ ← scfgmgr_set (vap_key unit bss "_rekey_mode") (enable v);
    _ ← apl_set_flag (vap_flag unit bss);
    _ ← apCfgWscConfiguredSet 1;
    mret A_OK
  else mret A_OK.

Definition scApCfgGroupKeyUpdateTerminatedSet (unit bss v : Z) : M S Z :=
  cur ← scApCfgGroupKeyUpdateTerminatedGet unit bss;
  if Zdiffer v cur then faultM else mret A_OK.

Definition scApCfgAcctServerSet (unit bss : Z) (p : cstr) : M S Z :=
  guarded ((zlen p <? 1) || (CFG_MAX_SECRETLEN <? zlen p)) (
  cur ← scApCfgAcctServerGet unit bss;
  if differ p cur then
    _ ← for_each vaps (λ vap, set (vap_key unit bss "_acct_server") p);
    _ ← apl_set_flag (vap_flag unit bss);
    _ ← apCfgWscConfiguredSet 1;
    mret A_OK
  else mret A_OK).

Definition scApCfgBackupAcctServerSet (unit bss : Z) (p : cstr) : M S Z :=
  guarded ((zlen p <? 1) || (CFG_MAX_SECRETLEN <? zlen p)) (
  cur ← scApCfgBackupAcctServerGet unit bss;
  if differ p cur then
    _ ← for_each vaps (λ vap, set (vap_key unit bss "_backup_acct_server") p);
    _ ← apl_set_flag (vap_flag unit bss);
    _ ← apCfgWscConfiguredSet 1;
    mret A_OK
  else mret A_OK).

Definition scApCfgAcctSecretSet (unit bss : Z) (p : cstr) : M S Z :=
  guarded ((CFG_MAX_SECRETLEN <? zlen p)) (
  cur ← scApCfgAcctSecretGet unit bss;
  if differ p cur then
    _ ← for_each vaps (λ vap, set (vap_key unit vap "_acct_key") p);
    _ ← apl_set_flag (vap_flag unit bss);
    _ ← apCfgWscConfiguredSet 1;
    mret A_OK
  else mret A_OK).

Definition scApCfgBackupAcctSecretSet (unit bss : Z) (p : cstr) : M S Z :=
  guarded ((CFG_MAX_SECRETLEN <? zlen p)) (
  cur ← scApCfgBackupAcctSecretGet unit bss;
  if differ p cur then
    _ ← for_each vaps (λ vap, set (vap_key unit vap "_backup_acct_key") p);
    _ ← apl_set_flag (vap_flag unit bss);
    _ ← apCfgWscConfiguredSet 1;
    mret A_OK
  else mret A_OK).

Definition scApCfgAcctPortSet (unit bss v : Z) : M S Z :=
  guarded ((v <? 1) || (65534 <? v)) (
  cur ← scApCfgAcctPortGet unit bss;
  if Zdiffer v cur then
    string ← sprintf_d 10 v;
    _ ← for_each vaps (λ vap, set (vap_key unit vap "_acct_port") string);
    _ ← apl_set_flag (vap_flag unit bss);
    _ ← apCfgWscConfiguredSet 1;
    mret A_OK
  else mret A_OK).

Definition scApCfgBackupAcctPortSet (unit bss v : Z) : M S Z :=
  guarded ((v <? 1) || (65534 <? v)) (
  cur ← scApCfgBackupAcctPortGet unit bss;
  if Zdiffer v cur then
    string ← sprintf_d 10 v;
    _ ← for_each vaps (λ vap, set (vap_key unit vap "_backup_acct_port") string);
    _ ← apl_set_flag (vap_flag unit bss);
    _ ← apCfgWscConfiguredSet 1;
    mret A_OK
  else mret A_OK).

Definition apCfgKeyBitLenSet (unit bss v : Z) : M S Z :=
  guarded (negb (v =? 40) && negb (v =? 104) && negb (v =? 128)) (
  cur ← apCfgKeyBitLenGet unit bss;
  if Zdiffer v cur then
    _ ← for_each vaps (λ i,
          string ← sprintf_d 10 v;
          _ ← scfgmgr_set (vap_key unit i "_key_length") string;
          apl_set_flag (vap_flag unit bss));
    _ ← apCfgWscConfiguredSet 1;
    mret A_OK
  else mret A_OK).

Definition apCfgKeyEntryMethodSet (unit bss v : Z) : M S Z :=
  cur ← apCfgKeyEntryMethodGet unit bss;
  if Zdiffer v cur then
    _ ← for_each vaps (λ i,
          string ← sprintf_d 10 v;
          _ ← scfgmgr_set (vap_key unit i "_key_method") string;
          apl_set_flag (vap_flag unit bss));
    _ ← apCfgWscConfiguredSet 1;
    mret A_OK
  else mret A_OK.

Definition apCfgVlanPvidSet (unit : Z) (bss : Z) (v : Z) : M S Z :=
  guarded ((v <? VLAN_TAG_MIN) || (VLAN_TAG_MAX <? v)) (
  cur ← apCfgVlanPvidGet unit bss;
  if Zdiffer v cur then
    string ← sprintf_d 10 v;
    _ ← scfgmgr_set (vap_key unit bss "_vid") string;
    _ ← apl_set_flag APL_VLAN;
    mret A_OK
  else mret A_OK).

Definition apCfgIntraVapForwardingSet (unit : Z) (bss : Z) (v : Z) : M S Z :=
  cur ← apCfgIntraVapForwardingGet unit bss;
  if Zdiffer v cur then
    _ ← scfgmgr_set (vap_key unit bss "_isolation") (enable v);
    _ ← apl_set_flag (vap_flag unit bss);
    mret A_OK
  else mret A_OK.

Definition apCfgAclModeSet (unit bss v : Z) : M S Z :=
  cur ← apCfgAclModeGet unit bss;
  if Zdiffer v cur then
    _ ← scfgmgr_set (vap_key unit bss "_access_control") (name_of acl_mode_names "Disable" v);
    _ ← apl_set_flag (vap_flag unit bss);
    mret A_OK
  else mret A_OK.

Definition apCfgAclTypeSet (unit bss v : Z) : M S Z :=
  cur ← apCfgAclTypeGet unit bss;
  if Zdiffer v cur then
    _ ← scfgmgr_set (vap_key unit bss "_acl_type") (if v =? APCFG_ACL_ALLOW then ENABLE else DISABLE);
    _ ← apl_set_flag (vap_flag unit bss);
    mret A_OK
  else mret A_OK.

Definition apCfgFreqSpecSet (unit v : Z) : M S Z :=
  cur ← apCfgFreqSpecGet unit;
  if Zdiffer v cur then
    _ ← scfgmgr_set (wlan_key unit "_mode") (name_of freq_names "MODE_SELECT_AUTO" v);
    _ ← apl_set_flag (wlan_flag unit);
    _ ← system "echo 1 > /tmp/apl_reload_mod";
    mret A_OK
  else mret A_OK.

(** The lines of [/tmp/country_list] (libutility/utility.c). *)
Fixpoint country_lines (fuel : nat) (data : bytes) (countryCode : Z) : bool :=
  match fuel with
  | O => false
  | Datatypes.S fuel' =>
      match fgets 128 data with
      | None => false
      | Some (buffer, rest) =>
          let '(_, saved) := strtok ["-"%char] buffer in
          match (strtok ["-"%char] saved).1 with
          | Some p => if atoi p =? countryCode then true else country_lines fuel' rest countryCode
          | None => country_lines fuel' rest countryCode
          end
      end
  end.

Definition check_country_domain (countryCode : Z) : M S bool :=
  fp ← fopen_read "/tmp/country_list";
  mret (match fp with
        | None => false
        | Some data => country_lines (length data) data countryCode
        end).

Definition apCfgCountryCodeSet (v : Z) : M S Z :=
  ok ← check_country_domain v;
  guarded (negb ok) (
  cur ← apCfgCountryCodeGet;
  if Zdiffer v cur then
    string ← sprintf_d 10 v;
    _ ← scfgmgr_set "sys_domain" string;
    _ ← apl_set_flag APL_REBOOT;
    _ ← when (CTRY_JAPAN =? v) (ign (apCfgChannelWidthModeSet RADIO_24G CWM_MODE_20M));
    mret A_OK
  else mret A_OK).

End ApCfgWlan.
