(* ===== verification/CfgRefine.v ===== *)
(** * Refinement of the abstract configuration

    [refines m P f]: from a machine that represents a configuration satisfying
    [P], the program [m] ends without a fault in the result and the
    configuration that the abstract operation [f] gives.  The specification of
    a parameter is a record (its name, the values it accepts, how they are
    written and read, and what a change does); the abstract setter and getter
    are computed from it. *)

From S2P Require Import Prelude CLib Inet Utility NvramSpec CfgStore ApCfgSys ApCfgWlan.

Section refine.
Context {S : Type} {store : CfgStore S} {laws : CfgStoreLaws S}.

Definition refines {A} (m : M S A) (P : cfg → Prop) (f : cfg → A * cfg) : Prop :=
  ∀ s a, rep s a → P a → runs m s (λ r s', r = (f a).1 ∧ rep s' (f a).2).

Lemma refines_ret {A} (x : A) P : refines (mret x) P (λ a, (x, a)).
Proof. intros s a Hr _. by apply runs_ret. Qed.

Lemma refines_bind {A B} (m : M S A) (k : A → M S B) P f g :
  refines m P f → (∀ a, P a → refines (k (f a).1) (λ a', a' = (f a).2) g) →
  refines (m ≫= k) P (λ a, g (f a).2).
Proof.
  intros Hm Hk s a Hr HP. apply runs_bind. use_runs (Hm s a Hr HP).
  intros r s' [-> Hr']. by apply (Hk a HP s' (f a).2).
Qed.

Lemma refines_runs {A} (m : M S A) (P : cfg → Prop) f s a (Q : A → S → Prop) :
  refines m P f → rep s a → P a →
  (∀ s', rep s' (f a).2 → Q (f a).1 s') → runs m s Q.
Proof.
  intros Hm Hr HP HQ. use_runs (Hm s a Hr HP). intros r s' [-> Hr']. by apply HQ.
Qed.

(** ** Integer parameters *)

Record iparam : Type := IParam {
  i_key : cstr;                   (** the name it is stored under *)
  i_ok : Z → bool;                (** the values the setter accepts *)
  i_err : Z;                      (** its answer to the others *)
  i_dom : Z → bool;               (** the values of the C type that fit the local text buffer *)
  i_enc : Z → cstr;               (** the text stored *)
  i_dec : cstr → Z;               (** how the getter reads it *)
  i_fx : Z → cfg → cfg;           (** what follows a change: flags and other names *)
  i_cap : option nat;             (** the size of the getter's buffer, if it has one *)
}.

Definition fits (cap : option nat) (k : cstr) (a : cfg) : Prop :=
  match cap with Some n => (length (safe a k) < n)%nat | None => True end.

Definition abs_get (p : iparam) (a : cfg) : Z * cfg := (i_dec p (safe a (i_key p)), a).

Definition abs_set (p : iparam) (x : Z) (a : cfg) : Z * cfg :=
  if i_ok p x then
    (A_OK, if x =? i_dec p (safe a (i_key p)) then a
           else i_fx p x (put (i_key p) (i_enc p x) a))
  else (i_err p, a).

Definition int_refines (e : (Z → M S Z) * M S Z * iparam) : Prop :=
  let '(set, get, p) := e in
  refines get (fits (i_cap p) (i_key p)) (abs_get p) ∧
  ∀ x, i_dom p x = true → refines (set x) (fits (i_cap p) (i_key p)) (abs_set p x).

(** ** String parameters *)

Record sparam : Type := SParam {
  s_key : cstr;
  s_ok : cstr → bool;
  s_fx : cfg → cfg;
  s_cap : nat;                    (** the size of the getter's static buffer *)
}.

Definition abs_sget (p : sparam) (a : cfg) : cstr * cfg := (safe a (s_key p), a).

Definition abs_sset (p : sparam) (x : cstr) (a : cfg) : Z * cfg :=
  if s_ok p x then
    (A_OK, if decide (x = safe a (s_key p)) then a
           else s_fx p (put (s_key p) x a))
  else (A_ERROR, a).

Definition str_refines (e : (cstr → M S Z) * M S cstr * sparam) : Prop :=
  let '(set, get, p) := e in
  refines get (fits (Some (s_cap p)) (s_key p)) (abs_sget p) ∧
  ∀ x, nul_free x → (s_ok p x = true → pair_fits (s_key p) x) →
    refines (set x) (fits (Some (s_cap p)) (s_key p)) (abs_sset p x).

(** ** Steps *)

Lemma run_safe_get s a k (Q : cstr → S → Prop) :
  rep s a → key_ok k → (∀ s', rep s' a → Q (safe a k) s') → runs (nvram_safe_get k) s Q.
Proof. intros Hr Hk HQ. use_runs (safe_get_runs s a k Hr Hk). intros ? ? [-> ?]. auto. Qed.

Lemma run_get s a k (Q : option cstr → S → Prop) :
  rep s a → key_ok k → (∀ s', rep s' a → Q (val a k) s') → runs (nvram_get k) s Q.
Proof. intros Hr Hk HQ. use_runs (get_runs s a k Hr Hk). intros ? ? [-> ?]. auto. Qed.

Lemma run_set s a k d (Q : Z → S → Prop) :
  rep s a → key_ok k → nul_free d → pair_fits k d →
  (∀ r s', rep s' (put k d a) → Q r s') → runs (scfgmgr_set k d) s Q.
Proof. intros Hr Hk Hd Hp HQ. use_runs (set_runs s a k d Hr Hk Hd Hp). auto. Qed.

Lemma run_flag s a id (Q : unit → S → Prop) :
  rep s a → 0 <= id < APL_NAMED →
  (∀ r s', rep s' (raise id a) → Q r s') → runs (apl_set_flag id) s Q.
Proof. intros Hr Hi HQ. use_runs (flag_runs s a id Hr Hi). auto. Qed.

Lemma run_system s a cmd (Q : unit → S → Prop) :
  rep s a → (∀ r s', rep s' a → Q r s') → runs (system cmd) s Q.
Proof. intros Hr HQ. use_runs (system_runs s a cmd Hr). auto. Qed.

Lemma run_strcpy s n p (Q : cstr → S → Prop) :
  (length p < n)%nat → Q p s → runs (strcpy_buf n p) s Q.
Proof. intros Hl HQ. unfold strcpy_buf. by rewrite decide_True. Qed.

Lemma run_sprintf_d s n v (Q : cstr → S → Prop) :
  (length (dec v) < n)%nat → Q (dec v) s → runs (sprintf_d n v) s Q.
Proof. intros Hl HQ. unfold sprintf_d. by rewrite decide_True. Qed.

(** ** Keys *)

Definition suffix_ok (s : cstr) : Prop := good_name s.
#[global] Instance suffix_ok_dec s : Decision (suffix_ok s).
Proof. unfold suffix_ok, good_name. apply _. Defined.

Lemma good_name_app s t : good_name s → good_name t → good_name (s ++ t).
Proof.
  unfold good_name. rewrite nul_free_app, not_elem_of_app. naive_solver.
Qed.

Lemma good_name_dec z : good_name (dec z).
Proof. split; [apply dec_nul_free|apply dec_no_eq]. Qed.

Lemma key_ok_wlan unit suf : good_name suf → key_ok (wlan_key unit suf).
Proof.
  intros Hs. split; [done|]. unfold wlan_key.
  repeat apply good_name_app; auto using good_name_dec.
  split; apply (bool_decide_unpack _); vm_compute; exact I.
Qed.

Lemma key_ok_vap unit bss suf : good_name suf → key_ok (vap_key unit bss suf).
Proof.
  intros Hs. split; [done|]. unfold vap_key.
  repeat apply good_name_app; auto using good_name_dec.
  all: split; apply (bool_decide_unpack _); vm_compute; exact I.
Qed.

Lemma key_length unit bss suf :
  - 2 ^ 31 <= unit < 2 ^ 31 → - 2 ^ 31 <= bss < 2 ^ 31 →
  zlen (vap_key unit bss suf) <= 31 + zlen suf /\ zlen (wlan_key unit suf) <= 15 + zlen suf.
Proof.
  intros Hu Hb. unfold vap_key, wlan_key.
  pose proof (dec_length unit Hu). pose proof (dec_length bss Hb).
  rewrite !length_app. simpl length. lia.
Qed.

End refine.

#[export] Hint Resolve dec_nul_free : wap.

(** Decides a closed proposition. *)
Ltac closed := apply (bool_decide_unpack _); vm_compute; exact I.

Ltac cfg_key :=
  lazymatch goal with
  | |- key_ok (wlan_key _ _) => apply key_ok_wlan; split; closed
  | |- key_ok (vap_key _ _ _) => apply key_ok_vap; split; closed
  | |- _ => closed
  end.

Ltac flag_range :=
  unfold vap_flag, wlan_flag, APL_NAMED; cbv delta -[Z.add Z.mul Z.le Z.lt]; cbv beta;
  lia.

Lemma enable_nul_free v : nul_free (enable v).
Proof. unfold enable. case_match; closed. Qed.
Lemma enable_length v : length (enable v) = 1%nat.
Proof. unfold enable. by case_match. Qed.
Lemma inet_ntoa_nul_free v : nul_free (inet_ntoa v).
Proof. intros Hc%inet_ntoa_chars. by destruct Hc as [Hc|[Hc|Hc]]. Qed.
#[export] Hint Resolve enable_nul_free inet_ntoa_nul_free : wap.

(** Pairs that fit the client's buffer. *)
Definition short_key (k : cstr) : Prop := zlen k <= 100.

Lemma short_wlan unit suf : 0 <= unit < 4 → zlen suf <= 40 → short_key (wlan_key unit suf).
Proof.
  intros Hu Hs. pose proof (key_length unit 0 suf ltac:(lia) ltac:(lia)). unfold short_key. lia.
Qed.
Lemma short_vap unit bss suf :
  0 <= unit < 4 → 0 <= bss < 4 → zlen suf <= 40 → short_key (vap_key unit bss suf).
Proof.
  intros Hu Hb Hs. pose proof (key_length unit bss suf ltac:(lia) ltac:(lia)). unfold short_key. lia.
Qed.

Lemma pf_short k d : short_key k → (length d < 100)%nat → pair_fits k d.
Proof. unfold short_key, pair_fits. lia. Qed.

Ltac key_short :=
  lazymatch goal with
  | |- short_key (wlan_key _ _) => apply short_wlan; [lia | vm_compute; discriminate]
  | |- short_key (vap_key _ _ _) => apply short_vap; [lia | lia | vm_compute; discriminate]
  | |- _ => vm_compute; discriminate
  end.
Ltac cfg_fits :=
  first [ assumption
        | apply pf_short;
          [ key_short
          | first [ rewrite enable_length; lia
                  | eapply Nat.le_lt_trans; [apply inet_ntoa_length | lia]
                  | lia
                  | vm_compute; lia ] ] ].
Ltac cfg_nul := first [ assumption | solve [auto with wap] | closed ].

(** One step of a configuration function. *)
Ltac cfg_step :=
  lazymatch goal with
  | |- runs (mbind _ _) _ _ => apply runs_bind
  | |- runs (mret _) _ _ => apply runs_ret
  | |- runs (nvram_safe_get _) _ _ => eapply run_safe_get; [eassumption|cfg_key|intros ? ?]
  | |- runs (nvram_get _) _ _ => eapply run_get; [eassumption|cfg_key|intros ? ?]
  | |- runs (scfgmgr_set _ _) _ _ =>
      eapply run_set; [eassumption|cfg_key|cfg_nul|cfg_fits|intros ? ? ?]
  | |- runs (apl_set_flag _) _ _ => eapply run_flag; [eassumption|flag_range|intros ? ? ?]
  | |- runs (system _) _ _ => eapply run_system; [eassumption|intros ? ? ?]
  | |- runs (strcpy_buf _ _) _ _ => apply run_strcpy; [first [assumption | lia]|]
  | |- runs (sprintf_d _ _) _ _ => apply run_sprintf_d; [first [assumption | lia]|]
  end; cbv beta.

(** Readers of texts. *)
Definition dec_bool (p : cstr) : Z := boolZ (bool_decide (p = ENABLE)).
Definition always (_ : Z) : bool := true.
Definition text_fits (n : nat) (v : Z) : bool := (length (dec v) <? n)%nat.
Definition int_range (v : Z) : bool := (- 2 ^ 31 <=? v) && (v <? 2 ^ 31).
Definition dec_ip (p : cstr) : Z := sint32 (inet_addr p).

(** Enumerations. *)
Definition plain_names (tbl : list (Z * cstr)) (dflt : cstr) : bool :=
  forallb (λ s, bool_decide ("="%char ∉ s ∧ nul_free s ∧ (length s < 100)%nat)) (dflt :: tbl.*2).

Lemma name_of_plain tbl dflt v :
  plain_names tbl dflt = true →
  "="%char ∉ name_of tbl dflt v ∧ nul_free (name_of tbl dflt v) ∧
  (length (name_of tbl dflt v) < 100)%nat.
Proof.
  unfold plain_names, name_of. rewrite forallb_forall. intros Ht.
  apply (bool_decide_unpack _). apply Is_true_eq_left, Ht.
  destruct (find _ tbl) as [[z n]|] eqn:E; [|by left].
  right. apply find_some in E as [Hin _]. cbn. apply list_elem_of_In, list_elem_of_fmap.
  exists (z, n). split; [done|]. by apply list_elem_of_In.
Qed.

Section texts.
Context {S : Type} {store : CfgStore S} {laws : CfgStoreLaws S}.

(** What [apCfgWscConfiguredSet(1)] does to the configuration. *)
Definition wsc_fx (a : cfg) : cfg :=
  if starts "1" (safe a "restore_defaults") then a
  else if 1 =? atoi (safe a "wifi_wsc_configured") then a
  else put "wifi_wsc_configured" "1" a.

Lemma run_wsc s a (Q : Z → S → Prop) :
  rep s a → (∀ r s', rep s' (wsc_fx a) → Q r s') → runs (apCfgWscConfiguredSet 1) s Q.
Proof.
  intros Hr HQ. unfold apCfgWscConfiguredSet, apCfgWscConfiguredGet, get_int.
  cbn [Z.eqb Pos.eqb negb andb guarded]. cfg_step. cfg_step.
  unfold wsc_fx in HQ. destruct (starts _ _); cbn [guarded].
  { cfg_step. eauto. }
  repeat cfg_step. unfold Zdiffer. destruct (1 =? _); cbn [negb].
  { repeat cfg_step. eauto. }
  repeat cfg_step. eapply HQ. eassumption.
Qed.
End texts.

Ltac head t := lazymatch t with ?f _ => head f | _ => t end.
Ltac unfold_head t := let h := head t in unfold h.

Ltac cfg_step' :=
  lazymatch goal with
  | |- runs (apCfgWscConfiguredSet 1) _ _ => eapply run_wsc; [eassumption|intros ? ? ?]; cbv beta
  | |- runs (scfgmgr_set _ (name_of _ _ _)) _ _ =>
      eapply run_set;
        [ eassumption | cfg_key | apply name_of_plain; vm_compute; reflexivity
        | apply pf_short; [key_short | apply name_of_plain; vm_compute; reflexivity]
        | intros ? ? ?]; cbv beta
  | _ => cfg_step
  end.

(** A getter. *)
Ltac refine_get :=
  intros s a Hr HP; cbn [i_cap i_key s_cap s_key fits] in HP;
  unfold get_int, get_bool, get_int_buf, get_str;
  repeat cfg_step;
  (split; [reflexivity | assumption]).

(** The configuration reached is the one specified. *)
Ltac same_cfg :=
  lazymatch goal with
  | Hr : rep ?s _ |- rep ?s _ =>
      exact Hr
  end.

Ltac refine_int :=
  lazymatch goal with
  | |- int_refines (?set, ?get, ?p) =>
      let Hg := fresh "Hg" in
      assert (Hg : refines get (fits (i_cap p) (i_key p)) (abs_get p));
      [ unfold_head get; refine_get | ];
      split; [exact Hg|];
      let x := fresh "x" in let Hd := fresh "Hd" in let Hr := fresh "Hr" in let HP := fresh "HP" in
      intros x Hd ?s ?a Hr HP;
      cbn [i_dom] in Hd;
      try (unfold text_fits in Hd; apply Nat.ltb_lt in Hd);
      lazymatch goal with |- runs (?prog) _ _ => unfold_head prog end;
      unfold abs_set; cbn [i_ok i_key i_err i_dom i_enc i_dec i_fx];
      unfold guarded, always;
      try (lazymatch goal with |- runs (if ?b then mret _ else _) _ _ => destruct b; cbn [negb] end;
           [cfg_step; split; [reflexivity|assumption]|]);
      try (lazymatch goal with |- runs (if ?b then _ else mret A_EINVAL) _ _ => destruct b; cbn [negb] end;
           [|cfg_step; split; [reflexivity|assumption]]);
      cfg_step;
      eapply (refines_runs _ _ _ _ _ _ Hg Hr HP); intros ?s' ?Hr'; clear Hr;
      cbn [abs_get fst snd i_dec i_key] in *;
      unfold Zdiffer; lazymatch goal with |- context [x =? ?y] => destruct (x =? y); cbn [negb] end;
      [cfg_step; split; [reflexivity|assumption]|];
      repeat cfg_step';
      try (lazymatch goal with |- runs (if ?b then _ else _) _ _ => destruct b end; repeat cfg_step');
      (split; [reflexivity|]; same_cfg)
  end.

Ltac refine_str :=
  lazymatch goal with
  | |- str_refines (?set, ?get, ?p) =>
      let Hg := fresh "Hg" in
      assert (Hg : refines get (fits (Some (s_cap p)) (s_key p)) (abs_sget p));
      [ unfold_head get; refine_get | ];
      split; [exact Hg|];
      let x := fresh "x" in let Hn := fresh "Hn" in let Hf := fresh "Hf" in
      let Hr := fresh "Hr" in let HP := fresh "HP" in
      intros x Hn Hf ?s ?a Hr HP; cbn [s_ok s_key] in Hf;
      lazymatch goal with |- runs (?prog) _ _ => unfold_head prog end;
      unfold abs_sset; cbn [s_ok s_key s_fx];
      unfold guarded, always;
      try (lazymatch goal with |- runs (if ?b then mret _ else _) _ _ => destruct b; cbn [negb] in * end;
           [cfg_step; split; [reflexivity|assumption]|]);
      specialize (Hf eq_refl);
      cfg_step;
      eapply (refines_runs _ _ _ _ _ _ Hg Hr HP); intros ?s' ?Hr'; clear Hr;
      cbn [abs_sget fst snd s_key] in *;
      unfold differ;
      lazymatch goal with |- context [bool_decide (x ≠ ?y)] =>
        destruct (decide (x = y)) as [Heq|Hne];
        [rewrite (bool_decide_false (x ≠ y)) by (intros Hc; apply Hc, Heq)
        |rewrite (bool_decide_true (x ≠ y)) by exact Hne] end;
      [cfg_step; split; [reflexivity|assumption]|];
      repeat cfg_step'; split; [reflexivity|]; assumption
  end.
