(* ===== verification/ApCfgSpec.v ===== *)
(** * The parameters and their specifications

    One entry for each parameter whose setter only compares, stores and raises
    flags: the setter, the getter, and what they must do (see [iparam] and
    [sparam]).  The lists are of the whole device, of a radio and of a virtual
    access point; every entry is proved to refine its specification. *)

From S2P Require Import Prelude CLib Inet Utility NvramSpec CfgStore ApCfgSys ApCfgWlan CfgRefine.

Section spec.
Context {S : Type} {store : CfgStore S} {laws : CfgStoreLaws S}.

Definition sys_ints : list ((Z → M S Z) * M S Z * iparam) :=
  [ (apCfgDhcpEnableSet, apCfgDhcpEnableGet,
    IParam "lan_dhcpc" always A_ERROR always enable dec_bool (λ _ a, (raise APL_IPv4 a)) None);
    (apCfgDhcp6EnableSet, apCfgDhcp6EnableGet,
    IParam "lan_dhcp6c" always A_ERROR always enable dec_bool (λ _ a, (raise APL_IPv6 a)) None);
    (apCfgRadvdEnableSet, apCfgRadvdEnableGet,
    IParam "lan_radvd" always A_ERROR always enable dec_bool (λ _ a, (raise APL_IPv6 a)) None);
    (apCfgDhcpServerEnableSet, apCfgDhcpServerEnableGet,
    IParam "lan_dhcps" always A_ERROR always enable dec_bool (λ _ a, (raise APL_IPv4 a)) None);
    (apCfgIpAddrSet, apCfgIpAddrGet,
    IParam "lan_ipaddr" always A_ERROR int_range inet_ntoa dec_ip (λ _ a, (raise APL_BONJOUR (raise APL_IPv4 a))) None);
    (apCfgIpMaskSet, apCfgIpMaskGet,
    IParam "lan_netmask" always A_ERROR int_range inet_ntoa dec_ip (λ _ a, (raise APL_IPv4 a)) None);
    (apCfgGatewayAddrSet, apCfgGatewayAddrGet,
    IParam "lan_gateway" always A_ERROR int_range inet_ntoa dec_ip (λ _ a, (raise APL_IPv4 a)) None);
    (apCfgSecMaskSet, apCfgSecMaskGet,
    IParam "secret_mask" always A_ERROR (text_fits 10) dec atoi (λ _ a, a) None);
    (apCfgTimeMonSet, apCfgTimeMonGet,
    IParam "tod_mon" always A_ERROR (text_fits 10) dec atoi (λ _ a, (raise APL_NTP a)) None);
    (apCfgTimeDaySet, apCfgTimeDayGet,
    IParam "tod_day" always A_ERROR (text_fits 10) dec atoi (λ _ a, (raise APL_NTP a)) None);
    (apCfgTimeYearSet, apCfgTimeYearGet,
    IParam "tod_year" always A_ERROR (text_fits 10) dec atoi (λ _ a, (raise APL_NTP a)) None);
    (apCfgTimeHourSet, apCfgTimeHourGet,
    IParam "tod_hour" always A_ERROR (text_fits 10) dec atoi (λ _ a, (raise APL_NTP a)) None);
    (apCfgTimeMinSet, apCfgTimeMinGet,
    IParam "tod_min" always A_ERROR (text_fits 10) dec atoi (λ _ a, (raise APL_NTP a)) None);
    (apCfgTimeSecSet, apCfgTimeSecGet,
    IParam "tod_sec" always A_ERROR (text_fits 10) dec atoi (λ _ a, (raise APL_NTP a)) None);
    (apCfgNtpModeSet, apCfgNtpModeGet,
    IParam "ntp_mode" always A_ERROR (text_fits 10) dec atoi (λ _ a, (raise APL_NTP a)) None);
    (apCfgDaylightSavingSet, apCfgDaylightSavingGet,
    IParam "timezone_daylightsaving" always A_ERROR always enable dec_bool (λ _ a, (raise APL_NTP a)) None);
    (apCfglltdSet, apCfglltdGet,
    IParam "lltd" always A_ERROR always enable dec_bool (λ _ a, (raise APL_LLTD a)) None);
    (apCfgStpSet, apCfgStpGet,
    IParam "stp" always A_ERROR always enable dec_bool (λ _ a, (raise APL_STP a)) None);
    (apCfgBonjourSet, apCfgBonjourGet,
    IParam "bonjour_enable" always A_ERROR always enable dec_bool (λ _ a, (raise APL_BONJOUR a)) None);
    (apCfgRedirectModeSet, apCfgRedirectModeGet,
    IParam "rediret_mode" always A_ERROR always enable dec_bool (λ _ a, (raise APL_HTTPREDIRECT a)) None);
    (scApCfgRogueDetectSet, scApCfgRogueDetectGet,
    IParam "rogue_mode" always A_ERROR always enable dec_bool (λ _ a, (raise APL_ROGUEAP a)) None);
    (apCfgNativeVlanIdSet, apCfgNativeVlanIdGet,
    IParam "vlan_default" (λ v, negb ((v <? VLAN_TAG_MIN) || (VLAN_TAG_MAX <? v))) A_ERROR (text_fits 10) dec atoi (λ _ a, (raise APL_VLAN a)) None);
    (apCfgNativeVlanTagSet, apCfgNativeVlanTagGet,
    IParam "vlan_default_tag" always A_ERROR always enable dec_bool (λ _ a, (raise APL_VLAN a)) None);
    (apCfgWdsVlanTagSet, apCfgWdsVlanTagGet,
    IParam "vlan_wds_tag" always A_ERROR always enable dec_bool (λ _ a, (raise APL_VLAN a)) None);
    (apCfgManagementVlanIdSet, apCfgManagementVlanIdGet,
    IParam "vlan_management" (λ v, negb ((v <? VLAN_TAG_MIN) || (VLAN_TAG_MAX <? v))) A_ERROR (text_fits 10) dec atoi (λ _ a, (raise APL_VLAN a)) None);
    (apCfgsysLogEnabledSet, apCfgsysLogEnabledGet,
    IParam "syslog_mode" always A_ERROR always enable dec_bool (λ _ a, (raise APL_LOG a)) None);
    (apCfgsysLogBroadcastSet, apCfgsysLogBroadcastGet,
    IParam "syslog_broadcast" always A_ERROR always enable dec_bool (λ _ a, (raise APL_LOG a)) None);
    (apCfgsysLogSeveritySet, apCfgsysLogSeverityGet,
    IParam "syslog_severity" (λ v, negb ((v <? 1) || (6 <? v))) A_ERROR (text_fits 2) dec (λ p, wrap32 (atoi p)) (λ _ a, (raise APL_LOG a)) None);
    (apCfgDeauthSet, apCfgDeauthGet,
    IParam "log_login_fail" always A_ERROR always enable dec_bool (λ _ a, (raise APL_LOG a)) None);
    (apCfgAuthLoginSet, apCfgAuthLoginGet,
    IParam "log_login_success" always A_ERROR always enable dec_bool (λ _ a, (raise APL_LOG a)) None);
    (apCfgChangeSysFucSet, apCfgChangeSysFucGet,
    IParam "log_system_errors" always A_ERROR always enable dec_bool (λ _ a, (raise APL_LOG a)) None);
    (apCfgChangeCfgSet, apCfgChangeCfgGet,
    IParam "log_conf_change" always A_ERROR always enable dec_bool (λ _ a, (raise APL_LOG a)) None);
    (apCfgemailAlertsEnabledSet, apCfgemailAlertsEnabledGet,
    IParam "email_alert" always A_ERROR always enable dec_bool (λ _ a, (raise APL_LOG a)) None);
    (scApCfgemailAlertsQlenSet, apCfgemailAlertsQlenGet,
    IParam "email_queue_length" (λ v, negb ((v <? MIN_ALERT_QLEN) || (MAX_ALERT_QLEN <? v))) A_ERROR (text_fits 6) dec atoi (λ _ a, (raise APL_LOG a)) None);
    (scApCfgemailAlertsIntervalSet, scApCfgemailAlertsIntervalGet,
    IParam "email_send_period" (λ v, negb ((v <? MIN_ALERT_INTERVAL) || (MAX_ALERT_INTERVAL <? v))) A_ERROR (text_fits 6) dec atoi (λ _ a, (raise APL_LOG a)) None);
    (scApCfgDot1xSuppEnableSet, scApCfgDot1xSuppEnableGet,
    IParam "eth_supp_mode" always A_ERROR always enable dec_bool (λ _ a, (raise APL_ETHSUP a)) None);
    (scApCfgDot1xSuppMacEnableSet, scApCfgDot1xSuppMacEnableGet,
    IParam "eth_supp_mac" always A_ERROR always enable dec_bool (λ _ a, (raise APL_ETHSUP a)) None);
    (apCfgHttpModeSet, apCfgHttpModeGet,
    IParam "http_mode" always A_ERROR always enable dec_bool (λ _ a, (raise APL_HTTPD a)) None);
    (apCfgAutohttpsModeSet, apCfgAutohttpsModeGet,
    IParam "autohttps" always A_ERROR always enable dec_bool (λ _ a, (raise APL_BONJOUR (raise APL_HTTPD a))) None);
    (apCfgHttpPortSet, apCfgHttpPortGet,
    IParam "http_port" (λ v, negb ((v <? 1) || (65534 <? v))) A_ERROR (text_fits 6) dec (λ p, atoi p mod 2 ^ 16) (λ _ a, (raise APL_HTTPD a)) None);
    (apCfgHttpsModeSet, apCfgHttpsModeGet,
    IParam "https_mode" always A_ERROR always enable dec_bool (λ _ a, (raise APL_HTTPD a)) None);
    (apCfgHttpsPortSet, apCfgHttpsPortGet,
    IParam "https_port" (λ v, negb ((v <? 1) || (65534 <? v))) A_ERROR (text_fits 6) dec (λ p, atoi p mod 2 ^ 16) (λ _ a, (raise APL_HTTPD a)) None);
    (apCfgWlanAccessSet, apCfgWlanAccessGet,
    IParam "wlan_manage" always A_ERROR always enable dec_bool (λ _ a, (raise APL_HTTPD a)) None);
    (apCfgSSHSet, apCfgSSHGet,
    IParam "SSH" always A_ERROR always enable dec_bool (λ _ a, (raise APL_BONJOUR (raise APL_SSH a))) None);
    (apCfgTelnetModeSet, apCfgTelnetModeGet,
    IParam "telnet_mode" always A_ERROR always enable dec_bool (λ _ a, (raise APL_HTTPD a)) None);
    (apCfgSnmpModeSet, apCfgSnmpModeGet,
    IParam "snmp_mode" always A_ERROR always enable dec_bool (λ _ a, (raise APL_SNMP a)) None);
    (apCfgSnmpAnyManagerSet, apCfgSnmpAnyManagerGet,
    IParam "snmp_trusted_any" always A_ERROR always enable dec_bool (λ _ a, (raise APL_SNMP a)) None);
    (apCfgSnmpManagerIpSet, apCfgSnmpManagerIpGet,
    IParam "snmp_trusted_host_start" always A_ERROR int_range inet_ntoa dec_ip (λ _ a, (raise APL_SNMP a)) None);
    (apCfgSnmpManagerIpEndSet, apCfgSnmpManagerIpEndGet,
    IParam "snmp_trusted_host_end" always A_ERROR int_range inet_ntoa dec_ip (λ _ a, (raise APL_SNMP a)) None);
    (apCfgSnmpTrapRecvIpSet, apCfgSnmpTrapRecvIpGet,
    IParam "snmp_trap_dest" always A_ERROR int_range inet_ntoa dec_ip (λ _ a, (raise APL_SNMP a)) None);
    (apCfgVlanModeSet, apCfgVlanModeGet,
    IParam "vlan_mode" always A_ERROR always enable dec_bool (λ _ a, (raise APL_VLAN a)) None);
    (apCfgipv6modeSet, apCfgipv6modeGet,
    IParam "lan_ipv6" always A_ERROR always enable dec_bool (λ v a, if v =? 0 then raise APL_REBOOT a else raise APL_IPv6 a) None);
    (apCfgSnmpAuthProtocolSet, apCfgSnmpAuthProtocolGet,
    IParam "snmp_auth_protocol" always A_ERROR always (name_of [(SNMP_AUTH_NONE, "NONE" : cstr); (SNMP_AUTH_MD5, "HMAC-MD5" : cstr)] "NONE") (code_of [(APCFG_AUTH_NONE, "NONE" : cstr); (SNMP_AUTH_MD5, "HMAC-MD5" : cstr)] SNMP_AUTH_NONE) (λ _ a, (raise APL_SNMP a)) None);
    (apCfgSnmpPrivProtocolSet, apCfgSnmpPrivProtocolGet,
    IParam "snmp_priv_protocol" always A_ERROR always (name_of [(SNMP_PRIV_NONE, "NONE" : cstr); (SNMP_PRIV_DES, "CBC-DES" : cstr)] "NONE") (code_of [(SNMP_PRIV_NONE, "NONE" : cstr); (SNMP_PRIV_DES, "CBC-DES" : cstr)] SNMP_PRIV_NONE) (λ _ a, (raise APL_SNMP a)) None);
    (apCfgSnmpTrapVersionSet, apCfgSnmpTrapVersionGet,
    IParam "snmp_trap_version" (λ v, negb ((v <? 1) || (3 <? v))) A_ERROR (text_fits 6) dec (λ p, wrap32 (atoi p)) (λ _ a, (raise APL_SNMP a)) None);
    (scApCfgRogueDetectIntSet, scApCfgRogueDetectIntGet,
    IParam "rogue_interval" (λ v, (3 <=? v) && (v <=? 99)) A_EINVAL (text_fits 10) dec (λ p, schar (atoi p)) (λ _ a, (raise APL_ROGUEAP a)) None);
    (scApCfgRogueApTypeSet, scApCfgRogueApTypeGet,
    IParam "rogue_type" (λ v, (0 <=? v) && (v <=? 3)) A_EINVAL (text_fits 10) dec (λ p, schar (atoi p)) (λ _ a, (raise APL_ROGUEAP a)) None);
    (scApCfgRogueSendLogSet, scApCfgRogueSendLogGet,
    IParam "rogue_sendLog" (λ v, (0 <=? v) && (v <=? 7)) A_EINVAL (text_fits 10) dec (λ p, schar (atoi p)) (λ _ a, (raise APL_ROGUEAP a)) None) ].

Definition sys_strs : list ((cstr → M S Z) * M S cstr * sparam) :=
  [ (apCfgSysNameSet, apCfgSysNameGet,
    SParam "sys_name" (λ p, negb ((zlen p <? 1) || (MAX_SYSNAME <? zlen p))) (λ a, (raise APL_BONJOUR (raise APL_SYSNAME a))) (Z.to_nat (MAX_SYSNAME + 1)));
    (apCfgSysLangSet, apCfgSysLangGet,
    SParam "sys_lang" (λ p, negb ((zlen p <? 0) || (MAX_DESC <? zlen p))) (λ a, a) (Z.to_nat (MAX_DESC + 1)));
    (apCfgDescSet, apCfgDescGet,
    SParam "sys_desc" (λ p, negb ((zlen p <? 0) || (MAX_DESC <? zlen p))) (λ a, a) (Z.to_nat (MAX_DESC + 1)));
    (apCfgLoginSet, apCfgLoginGet,
    SParam "login_username" (λ p, negb ((zlen p <? 1) || (CFG_MAX_USERNAME <? zlen p))) (λ a, (raise APL_LOGIN a)) (Z.to_nat (CFG_MAX_USERNAME + 1)));
    (apCfgPasswordSet, apCfgPasswordGet,
    SParam "login_password" (λ p, negb ((zlen p <? 4) || (CFG_MAX_PASSWORD <? zlen p))) (λ a, (raise APL_LOGIN a)) (Z.to_nat (CFG_MAX_PASSWORD + 1)));
    (apCfgIpv6AddrSet, apCfgIpv6AddrGet,
    SParam "lan_ipaddrv6" (λ p, negb (negb (scValidIPv6 p true))) (λ a, (raise APL_IPv6 a)) (Z.to_nat (INET6_ADDRSTRLEN + 1)));
    (apCfgNameSrvSet, apCfgNameSrvGet,
    SParam "lan_dns1" (λ p, negb ((zlen p <? 0) || (MAX_NAME_SERVER <? zlen p))) (λ a, (raise APL_IPv4 a)) (Z.to_nat (MAX_NAME_SERVER + 1)));
    (apCfgNameSrv2Set, apCfgNameSrv2Get,
    SParam "lan_dns2" (λ p, negb ((zlen p <? 0) || (MAX_NAME_SERVER <? zlen p))) (λ a, (raise APL_IPv4 a)) (Z.to_nat (MAX_NAME_SERVER + 1)));
    (apCfgDhcpServerStartSet, apCfgDhcpServerStartGet,
    SParam "lan_dhcps_start" (λ _, true) (λ a, (raise APL_IPv4 a)) 33);
    (apCfgDhcpServerEndSet, apCfgDhcpServerEndGet,
    SParam "lan_dhcps_end" (λ _, true) (λ a, (raise APL_IPv4 a)) 33);
    (apCfgWinsServerSet, apCfgWinsServerGet,
    SParam "wins_server" (λ p, negb ((zlen p <? 0) || (MAX_WINS_SERVER <? zlen p))) (λ a, a) (Z.to_nat (MAX_WINS_SERVER + 1)));
    (apCfgNtpServerSet, apCfgNtpServerGet,
    SParam "ntp_server" (λ p, negb ((zlen p <? 0) || (MAX_NTP_SERVER <? zlen p))) (λ a, (raise APL_NTP a)) (Z.to_nat (MAX_NTP_SERVER + 1)));
    (apCfgTimezoneOffsetSet, apCfgTimezoneOffsetGet,
    SParam "timezone_diff" (λ p, negb ((zlen p <? 0) || (CFG_TIME_ZONE_LEN <? zlen p))) (λ a, (raise APL_NTP a)) (Z.to_nat (CFG_TIME_ZONE_LEN + 1)));
    (apCfgFtpServerSet, apCfgFtpServerGet,
    SParam "ftp_server" (λ p, negb ((zlen p <? 0) || (MAX_FTP_SERVER <? zlen p))) (λ a, (raise APL_FTP a)) (Z.to_nat (MAX_FTP_SERVER + 1)));
    (apCfgFtpPathSet, apCfgFtpPathGet,
    SParam "ftp_path" (λ _, true) (λ a, (raise APL_FTP a)) 129);
    (apCfgFtpLoginSet, apCfgFtpLoginGet,
    SParam "ftp_login_name" (λ p, negb ((CFG_MAX_FTP_LOGINNAME <? zlen p))) (λ a, (raise APL_FTP a)) (Z.to_nat (CFG_MAX_FTP_LOGINNAME + 1)));
    (apCfgFtpPasswdSet, apCfgFtpPasswdGet,
    SParam "ftp_password" (λ p, negb ((CFG_MAX_FTP_PASSWORD <? zlen p))) (λ a, (raise APL_FTP a)) (Z.to_nat (CFG_MAX_FTP_PASSWORD + 1)));
    (apCfgRedirectUrlSet, apCfgRedirectUrlGet,
    SParam "rediret_url" (λ p, negb ((128 <? zlen p))) (λ a, (raise APL_HTTPREDIRECT a)) 129);
    (scApCfgLegalApListSet, scApCfgLegalApListGet,
    SParam "legal_ap_list" (λ p, negb ((zlen p <? 0) || (MAX_LEGALAPLIST <? zlen p))) (λ a, (raise APL_ROGUEAP a)) (Z.to_nat (MAX_LEGALAPLIST + 1)));
    (apCfgsysLogServerSet, apCfgsysLogServerGet,
    SParam "syslog_server" (λ p, negb ((zlen p <? 0) || (MAX_SYSLOG_SERVER <? zlen p))) (λ a, (raise APL_LOG a)) (Z.to_nat (MAX_SYSLOG_SERVER + 1)));
    (apCfgsmtpMailServerSet, apCfgsmtpMailServerGet,
    SParam "email_alert_server" (λ p, negb ((zlen p <? 0) || (MAX_SMTP_SERVER <? zlen p))) (λ a, (raise APL_LOG a)) (Z.to_nat (MAX_SMTP_SERVER + 1)));
    (apCfgemailAddrForLogSet, apCfgemailAddrForLogGet,
    SParam "email_addr" (λ p, negb ((zlen p <? 0) || (MAX_MAIL_SERVER <? zlen p))) (λ a, (raise APL_LOG a)) (Z.to_nat (MAX_MAIL_SERVER + 1)));
    (apCfgemailAddrReturnSet, apCfgemailAddrReturnGet,
    SParam "emailAddrReturn" (λ p, negb ((zlen p <? 0) || (MAX_MAIL_SERVER <? zlen p))) (λ a, (raise APL_LOG a)) (Z.to_nat (MAX_MAIL_SERVER + 1)));
    (scApCfgDot1xSuppUsernameSet, scApCfgDot1xSuppUsernameGet,
    SParam "eth_supp_user" (λ p, negb ((zlen p <? 0) || (MAX_DOT1XSUPP_NAME <? zlen p))) (λ a, (raise APL_ETHSUP a)) (Z.to_nat (MAX_DOT1XSUPP_NAME + 1)));
    (scApCfgDot1xSuppPasswordSet, scApCfgDot1xSuppPasswordGet,
    SParam "eth_supp_pwd" (λ p, negb ((zlen p <? 4) || (MAX_DOT1XSUPP_PASSWD <? zlen p))) (λ a, (raise APL_ETHSUP a)) (Z.to_nat (MAX_DOT1XSUPP_PASSWD + 1)));
    (apCfgSnmpContactSet, apCfgSnmpContactGet,
    SParam "snmp_contact" (λ p, negb ((zlen p <? 1) || (MAX_SNMP_CONTACT <? zlen p))) (λ a, (raise APL_SNMP a)) (Z.to_nat (MAX_SNMP_CONTACT + 1)));
    (apCfgSnmpDviceNameSet, apCfgSnmpDviceNameGet,
    SParam "snmp_device" (λ p, negb ((zlen p <? 1) || (MAX_SNMP_DEVNAME <? zlen p))) (λ a, (raise APL_SNMP a)) (Z.to_nat (MAX_SNMP_DEVNAME + 1)));
    (apCfgSnmpLocationSet, apCfgSnmpLocationGet,
    SParam "snmp_location" (λ p, negb ((zlen p <? 1) || (MAX_SNMP_LOCATION <? zlen p))) (λ a, (raise APL_SNMP a)) (Z.to_nat (MAX_SNMP_LOCATION + 1)));
    (apCfgSnmpTrapCommunitySet, apCfgSnmpTrapCommunityGet,
    SParam "snmp_trap_community" (λ p, negb ((zlen p <? 1) || (MAX_SNMP_COMMUNITY <? zlen p))) (λ a, (raise APL_SNMP a)) (Z.to_nat (MAX_SNMP_COMMUNITY + 1)));
    (apCfgSnmpReadCommSet, apCfgSnmpReadCommGet,
    SParam "snmp_community_get" (λ p, negb ((zlen p <? 1) || (MAX_SNMP_COMMUNITY <? zlen p))) (λ a, (raise APL_SNMP a)) (Z.to_nat (MAX_SNMP_COMMUNITY + 1)));
    (apCfgSnmpWriteCommSet, apCfgSnmpWriteCommGet,
    SParam "snmp_community_set" (λ p, negb ((zlen p <? 1) || (MAX_SNMP_COMMUNITY <? zlen p))) (λ a, (raise APL_SNMP a)) (Z.to_nat (MAX_SNMP_COMMUNITY + 1)));
    (apCfgSnmpUserNameSet, apCfgSnmpUserNameGet,
    SParam "snmp_user" (λ p, negb ((zlen p <? 0) || (MAX_SNMPV3_USERNAME <? zlen p))) (λ a, (raise APL_SNMP a)) (Z.to_nat (MAX_SNMPV3_USERNAME + 1)));
    (apCfgSnmpAuthKeySet, apCfgSnmpAuthKeyGet,
    SParam "snmp_auth_key" (λ p, negb ((zlen p <? MIN_SNMPV3_AUTHKEY) || (MAX_SNMPV3_AUTHKEY <? zlen p))) (λ a, (raise APL_SNMP a)) 32);
    (apCfgSnmpPrivKeySet, apCfgSnmpPrivKeyGet,
    SParam "snmp_priv_key" (λ p, negb ((zlen p <? MIN_SNMPV3_PRIVKEY) || (MAX_SNMPV3_PRIVKEY <? zlen p))) (λ a, (raise APL_SNMP a)) 32);
    (apCfgCertSet, apCfgCertGet,
    SParam "cert_content" (λ p, negb ((zlen p <? 0) || (MAX_CERT_CONTENT <? zlen p))) (λ a, (raise APL_HTTPD a)) (Z.to_nat (MAX_CERT_CONTENT + 1)));
    (apCfgCertTimeSet, apCfgCertTimeGet,
    SParam "cert_time" (λ p, negb ((zlen p <? 0) || (MAX_CERT_TIME <? zlen p))) (λ a, a) (Z.to_nat (MAX_CERT_TIME + 1))) ].

Definition radio_ints (unit : Z) : list ((Z → M S Z) * M S Z * iparam) :=
  [ (apCfgCTSModeSet unit, apCfgCTSModeGet unit,
    IParam (wlan_key unit "_cts") always A_ERROR (text_fits 10) dec atoi (λ _ a, (raise (wlan_flag unit) a)) None);
    (apCfgBeaconIntervalSet unit, apCfgBeaconIntervalGet unit,
    IParam (wlan_key unit "_bcn") (λ v, negb ((v <? MIN_BEACON_PERIOD) || (MAX_BEACON_PERIOD <? v))) A_ERROR (text_fits 10) dec atoi (λ _ a, (raise (wlan_flag unit) a)) None);
    (apCfgWlanStateSet unit, apCfgWlanStateGet unit,
    IParam (wlan_key unit "_state") always A_ERROR always enable dec_bool (λ _ a, (raise (wlan_flag unit) a)) None);
    (apCfgWpsModeSet unit, apCfgWpsModeGet unit,
    IParam (wlan_key unit "_wps") always A_ERROR always enable dec_bool (λ _ a, (raise (wlan_flag unit) a)) None);
    (apCfgWpsPinERSet unit, apCfgWpsPinERGet unit,
    IParam (wlan_key unit "_wps_pin_er") always A_ERROR always enable (λ p, if zlen p =? 0 then 1 else dec_bool p) (λ _ a, (raise (wlan_flag unit) a)) None);
    (scApCfgAmpduSet unit, scApCfgAmpduGet unit,
    IParam (wlan_key unit "_ampdu") always A_ERROR always enable dec_bool (λ _ a, (raise (wlan_flag unit) a)) None);
    (scApCfgAmsduSet unit, scApCfgAmsduGet unit,
    IParam (wlan_key unit "_amsdu") always A_ERROR always enable dec_bool (λ _ a, (raise (wlan_flag unit) a)) None);
    (scApCfg80211dEnabledSet unit, scApCfg80211dEnabledGet unit,
    IParam (wlan_key unit "_80211d") always A_ERROR always enable dec_bool (λ _ a, (raise (wlan_flag unit) a)) None);
    (scApCfgIdleTimeoutIntervalSet unit, scApCfgIdleTimeoutIntervalGet unit,
    IParam (wlan_key unit "_idle_timeout") (λ v, negb ((v <? SC_MIN_IDLETIMEOUT_INTERVAL) || (SC_MAX_IDLETIMEOUT_INTERVAL <? v))) A_ERROR (text_fits 10) dec atoi (λ _ a, (raise (wlan_flag unit) a)) (Some 60%nat));
    (scApCfgDtimIntervalSet unit, scApCfgDtimIntervalGet unit,
    IParam (wlan_key unit "_dtim") (λ v, negb ((v <? SC_MIN_DTIM_INTERVAL) || (SC_MAX_DTIM_INTERVAL <? v))) A_ERROR (text_fits 10) dec atoi (λ _ a, (raise (wlan_flag unit) a)) (Some 60%nat));
    (apCfgFragThresholdSet unit, apCfgFragThresholdGet unit,
    IParam (wlan_key unit "_frag") (λ v, negb ((v <? MIN_FRAG_THRESHOLD) || (MAX_FRAG_THRESHOLD <? v))) A_ERROR (text_fits 10) dec atoi (λ _ a, (raise (wlan_flag unit) a)) (Some 60%nat));
    (apCfgRtsThresholdSet unit, apCfgRtsThresholdGet unit,
    IParam (wlan_key unit "_rts") (λ v, negb ((v <? MIN_RTS_THRESHOLD) || (MAX_RTS_THRESHOLD <? v))) A_ERROR (text_fits 10) dec atoi (λ _ a, (raise (wlan_flag unit) a)) (Some 60%nat));
    (apCfgShortPreambleSet unit, apCfgShortPreambleGet unit,
    IParam (wlan_key unit "_prb_type") always A_ERROR always enable dec_bool (λ _ a, (raise (wlan_flag unit) a)) None);
    (apCfgPowerSet unit, apCfgPowerGet unit,
    IParam (wlan_key unit "_transmit_power") always A_ERROR (text_fits 10) dec atoi (λ _ a, (raise (wlan_flag unit) a)) (Some 60%nat));
    (apCfgBalanceModeSet unit, apCfgBalanceModeGet unit,
    IParam (wlan_key unit "_balance") always A_ERROR always enable dec_bool (λ _ a, (raise APL_BALANCE a)) None);
    (apCfgAutoChannelSet unit, apCfgAutoChannelGet unit,
    IParam (wlan_key unit "_auto_channel") always A_ERROR always enable dec_bool (λ _ a, (raise (wlan_flag unit) a)) None);
    (scApCfgShortGISet unit, scApCfgShortGIGet unit,
    IParam (wlan_key unit "_short_GI") always A_ERROR always (name_of [(SHORTGI_SHORT, "SHORTGI_SHORT" : cstr); (SHORTGI_LONG, "SHORTGI_LONG" : cstr)] "SHORTGI_AUTO") (code_of [(SHORTGI_LONG, "SHORTGI_LONG" : cstr); (SHORTGI_SHORT, "SHORTGI_SHORT" : cstr)] SHORTGI_AUTO) (λ _ a, (raise (wlan_flag unit) a)) None);
    (apCfgFreqSpecSet unit, apCfgFreqSpecGet unit,
    IParam (wlan_key unit "_mode") always A_ERROR always (name_of freq_names "MODE_SELECT_AUTO") (code_of freq_names (-1)) (λ _ a, (raise (wlan_flag unit) a)) None) ].

Definition radio_strs (unit : Z) : list ((cstr → M S Z) * M S cstr * sparam) :=
  [ (apCfgRateSet unit, apCfgRateGet unit,
    SParam (wlan_key unit "_data_rate") (λ _, true) (λ a, (raise (wlan_flag unit) a)) 32) ].

Definition vap_ints (unit bss : Z) : list ((Z → M S Z) * M S Z * iparam) :=
  [ (apCfgSsidModeSet unit bss, apCfgSsidModeGet unit bss,
    IParam (vap_key unit bss "_broabcast") always A_ERROR always enable dec_bool (λ _ a, (raise (vap_flag unit bss) a)) None);
    (apCfgPrioritySet unit bss, apCfgPriorityGet unit bss,
    IParam (vap_key unit bss "_pri") always A_ERROR (text_fits 5) dec atoi (λ _ a, (raise (vap_flag unit bss) a)) (Some 60%nat));
    (apCfgWmeSet unit bss, apCfgWmeGet unit bss,
    IParam (vap_key unit bss "_wmm") always A_ERROR always enable dec_bool (λ _ a, (raise (vap_flag unit bss) a)) None);
    (apCfgWmmpsSet unit bss, apCfgWmmpsGet unit bss,
    IParam (vap_key unit bss "_wmmps") always A_ERROR always enable dec_bool (λ _ a, (raise (vap_flag unit bss) a)) None);
    (apCfgNoAckSet unit bss, apCfgNoAckGet unit bss,
    IParam (vap_key unit bss "_no_ack") always A_ERROR always enable dec_bool (λ _ a, (raise (vap_flag unit bss) a)) None);
    (apCfgLoadBalanceSet unit bss, apCfgLoadBalanceGet unit bss,
    IParam (vap_key unit bss "_loadbalance") (λ v, negb ((v <? MIN_BALANCE) || (MAX_BALANCE <? v))) A_ERROR (text_fits 10) dec atoi (λ _ a, (raise APL_BALANCE a)) (Some 60%nat));
    (apCfgGroupKeyUpdateIntervalSet unit bss, apCfgGroupKeyUpdateIntervalGet unit bss,
    IParam (vap_key unit bss "_rekey_interval") (λ v, negb ((v <? MIN_GROUP_KEY_UPDATE_INTERVAL) || (MAX_GROUP_KEY_UPDATE_INTERVAL <? v))) A_ERROR (text_fits 10) dec atoi (λ _ a, (wsc_fx (raise (vap_flag unit bss) a))) (Some 60%nat));
    (apCfgDot1xKeyLenSet unit bss, apCfgDot1xKeyLenGet unit bss,
    IParam (vap_key unit bss "_dot1x_key_length") (λ v, negb (negb (v =? 5) && negb (v =? 13) && negb (v =? 16))) A_ERROR (text_fits 10) dec atoi (λ _ a, (wsc_fx (raise (vap_flag unit bss) a))) (Some 60%nat));
    (scApCfgGroupKeyUpdateEnabledSet unit bss, scApCfgGroupKeyUpdateEnabledGet unit bss,
    IParam (vap_key unit bss "_rekey_mode") always A_ERROR always enable dec_bool (λ _ a, (wsc_fx (raise (vap_flag unit bss) a))) None);
    (apCfgVlanPvidSet unit bss, apCfgVlanPvidGet unit bss,
    IParam (vap_key unit bss "_vid") (λ v, negb ((v <? VLAN_TAG_MIN) || (VLAN_TAG_MAX <? v))) A_ERROR (text_fits 10) dec atoi (λ _ a, (raise APL_VLAN a)) (Some 32%nat));
    (apCfgIntraVapForwardingSet unit bss, apCfgIntraVapForwardingGet unit bss,
    IParam (vap_key unit bss "_isolation") always A_ERROR always enable dec_bool (λ _ a, (raise (vap_flag unit bss) a)) None);
    (apCfgDefKeySet unit bss, apCfgDefKeyGet unit bss,
    IParam (vap_key unit bss "_default_key") (λ v, ((CFG_MIN_SHARED_KEY <=? v) && (v <=? CFG_MAX_SHARED_KEY)) || (v =? INVALID_SHARED_KEY)) A_EINVAL (text_fits 10) dec atoi (λ _ a, (wsc_fx (raise (vap_flag unit bss) a))) (Some 60%nat));
    (apCfgWPACipherSet unit bss, apCfgWPACipherGet unit bss,
    IParam (vap_key unit bss "_wpa_cipher") always A_ERROR always (name_of cipher_names "AUTO") (code_of cipher_names WPA_CIPHER_AUTO) (λ _ a, (wsc_fx (raise (vap_flag unit bss) a))) None);
    (apCfgAclModeSet unit bss, apCfgAclModeGet unit bss,
    IParam (vap_key unit bss "_access_control") always A_ERROR always (name_of acl_mode_names "Disable") (code_of acl_mode_names APCFG_ACL_DISABLED) (λ _ a, (raise (vap_flag unit bss) a)) None) ].

Definition vap_strs (unit bss : Z) : list ((cstr → M S Z) * M S cstr * sparam) :=
  [ (apCfgSsidSet unit bss, apCfgSsidGet unit bss,
    SParam (vap_key unit bss "") (λ p, negb ((MAX_SSID <? zlen p))) (λ a, (wsc_fx (raise (vap_flag unit bss) a))) 64);
    (apCfgDevicePinSet unit bss, apCfgDevicePinGet unit bss,
    SParam (vap_key unit bss "_pin") (λ p, negb (negb (zlen p =? WPS_PIN_LEN))) (λ a, (raise (wlan_flag unit) a)) 9);
    (apCfgPassphraseSet unit bss, apCfgPassphraseGet unit bss,
    SParam (vap_key unit bss "_passphrase") (λ p, negb ((zlen p <? 0) || (CFG_MAX_PASSPHRASE <? zlen p))) (λ a, (raise (vap_flag unit bss) (wsc_fx a))) 32) ].

(** ** Every entry is refined *)

Ltac each_param tac :=
  lazymatch goal with
  | |- Forall _ [] => apply List.Forall_nil
  | |- Forall _ (_ :: _) => apply List.Forall_cons; [tac () | each_param tac]
  end.

Lemma sys_ints_ok : Forall int_refines sys_ints.
Proof. unfold sys_ints. each_param ltac:(fun _ => refine_int). Qed.

Lemma sys_strs_ok : Forall str_refines sys_strs.
Proof. unfold sys_strs. each_param ltac:(fun _ => refine_str). Qed.

Lemma radio_ints_ok unit : 0 <= unit < 2 → Forall int_refines (radio_ints unit).
Proof. intros Hu. unfold radio_ints. each_param ltac:(fun _ => refine_int). Qed.

Lemma radio_strs_ok unit : 0 <= unit < 2 → Forall str_refines (radio_strs unit).
Proof. intros Hu. unfold radio_strs. each_param ltac:(fun _ => refine_str). Qed.

Lemma vap_ints_ok unit bss : 0 <= unit < 2 → 0 <= bss < 4 → Forall int_refines (vap_ints unit bss).
Proof. intros Hu Hb. unfold vap_ints. each_param ltac:(fun _ => refine_int). Qed.

Lemma vap_strs_ok unit bss : 0 <= unit < 2 → 0 <= bss < 4 → Forall str_refines (vap_strs unit bss).
Proof. intros Hu Hb. unfold vap_strs. each_param ltac:(fun _ => refine_str). Qed.
End spec.
