(* ===== verification/AplFlag.v ===== *)
(** * The apply flags (libapcfg/apply.c, first part)

    [apl_set_flag] appends the number of the changed item to [/tmp/apl_flag];
    the readers below scan that file.  While the apply process parses the file,
    [apl_set_flag] waits in a loop, which never ends in a single process. *)

From S2P Require Import Prelude CLib FileSys CfgStore ApCfgSys.

Definition APL_CLOSED : cstr := "/tmp/apl_closed".
Definition APL_FLAG : cstr := "/tmp/apl_flag".
Definition APL_RUNNING : cstr := "/tmp/apl_running".
Definition APL_PARSING : cstr := "/tmp/apl_parsing".
Definition APPLY_DBG : cstr := "/var/log/apply_dbg".

Definition nl : ascii := "010"%char.

Definition idString : list cstr :=
  ["APL_ROOT" : cstr; "APL_REBOOT" : cstr; "APL_SYSNAME" : cstr; "APL_LOGIN" : cstr;
   "APL_TELNET" : cstr; "APL_SSH" : cstr; "APL_HTTPD" : cstr; "APL_VLAN" : cstr;
   "APL_STP" : cstr; "APL_LLTD" : cstr; "APL_IPv4" : cstr; "APL_IPv6" : cstr;
   "APL_ETHSUP" : cstr; "APL_BALANCE" : cstr; "APL_WLAN0" : cstr; "APL_WLAN0_VAP0" : cstr;
   "APL_WLAN0_VAP1" : cstr; "APL_WLAN0_VAP2" : cstr; "APL_WLAN0_VAP3" : cstr;
   "APL_WLAN1" : cstr; "APL_WLAN1_VAP0" : cstr; "APL_WLAN1_VAP1" : cstr;
   "APL_WLAN1_VAP2" : cstr; "APL_WLAN1_VAP3" : cstr; "APL_NTP" : cstr; "APL_SNMP" : cstr;
   "APL_LOG" : cstr; "APL_FTP" : cstr; "APL_ETH_DATARATE" : cstr; "APL_FORCE100M" : cstr;
   "APL_HTTPREDIRECT" : cstr; "APL_ROGUEAP" : cstr; "APL_BONJOUR" : cstr].

(** [idString[id]] *)
Definition id_string (id : Z) : M sys cstr :=
  if id <? 0 then faultM
  else match idString !! Z.to_nat id with Some s => mret s | None => faultM end.

(** [applyLog("<%s,%d>: ...", __FUNCTION__, __LINE__, ...)] *)
Definition applyLog (fn : cstr) (line : Z) (text : cstr) : M sys unit :=
  append_file APPLY_DBG ("<" ++ fn ++ "," ++ dec line ++ ">: " ++ text ++ [nl]).

Definition flag_line (id : Z) : cstr := dec id ++ [nl].

Definition apl_set_flag (id : Z) : M sys unit :=
  closed ← access APL_CLOSED;
  if (closed : bool) then mret tt
  else
    parsing ← access APL_PARSING;
    if (parsing : bool) then stuckM
    else
      s ← id_string id;
      _ ← applyLog "apl_set_flag" 893 ("change item " ++ s);
      append_file APL_FLAG (flag_line id).

(** [SYSTEM] (libutility): the command is formatted into 1024 bytes. *)
Definition SYSTEM (cmd : cstr) : M sys unit := FileSys.system (take 1023 cmd).

(** [SYSTEM("echo 1 > %s", path)]; what the shell makes of it matters here: the
    marker file exists from then on. *)
Definition touch_by_shell (path : cstr) : M sys unit :=
  _ ← SYSTEM ("echo 1 > " ++ path); write_file path ("1" ++ [nl]).

Definition apl_close (close : Z) : M sys Z :=
  _ ← (if negb (close =? 0) then touch_by_shell APL_CLOSED else unlink APL_CLOSED);
  mret 0.

(** [while(!feof(fp)) { memset(buffer,0,8); fgets(buffer,8,fp); id = atoi(buffer); ... }]:
    the numbers read, in order.  The round that meets the end of the file is the
    last; when the file ends with a whole line that round finds the buffer
    zeroed.  Each round but the last consumes a byte. *)
Fixpoint flag_ids (fuel : nat) (data : bytes) : list Z :=
  match fuel with
  | O => []
  | S fuel' =>
      let '(l, rest) := fgets_go 7 data in
      let eof := (length l <? 7)%nat && negb (bool_decide (last l = Some nl)) in
      atoi (cut_nul l) :: (if eof then [] else flag_ids fuel' rest)
  end.
Definition parse_flags (data : bytes) : list Z := flag_ids (S (length data)) data.

(** The three readers; each opens the file only when it exists. *)
Definition apcfgReboot : M sys Z :=
  f ← read_file APL_FLAG;
  mret (match f with
        | None => 0
        | Some data => boolZ (existsb (Z.eqb APL_REBOOT) (parse_flags data))
        end).

Definition apcfgisIphander : M sys Z :=
  f ← read_file APL_FLAG;
  mret (match f with
        | None => 0
        | Some data => boolZ (existsb (λ id, (id =? APL_IPv4) || (id =? APL_IPv6)) (parse_flags data))
        end).

Definition APPLY_NORMAL : Z := 15.
Definition apcfgHaveChanged : M sys Z :=
  f ← read_file APL_FLAG;
  mret (match f with None => 0 | Some _ => APPLY_NORMAL end).
