(* ===== verification/CfgImpl.v ===== *)
(** * The configuration store implements the interface

    [nvram_safe_get], [nvram_get] (libnv), [scfgmgr_set] (libscfg) and
    [apl_set_flag] (libapcfg/apply.c) on the machine of [FileSys] satisfy the
    laws of [CfgStore]: a machine represents a configuration when its shadow
    and defaults files read as the configuration says and the flag file lists
    the flags raised. *)

From S2P Require Import Prelude CLib FileSys Nvram NvramSpec NvramCorrect Scfg ScfgCorrect CfgStore ApCfgSys AplFlag.

Section impl.
Context {heap : Heap} {dev : FlashDev} {shell : Shell}.

(** [stack] is the word of the stack a commit stores; a set never commits. *)
Definition sys_store (stack : Z) : CfgStore sys := {|
  CfgStore.nvram_safe_get := Nvram.nvram_safe_get;
  CfgStore.nvram_get := Nvram.nvram_get;
  CfgStore.scfgmgr_set := Scfg.scfgmgr_set stack;
  CfgStore.apl_set_flag := AplFlag.apl_set_flag;
  CfgStore.system := FileSys.system;
  CfgStore.fopen_read := FileSys.read_file;
|}.

Definition apcfg_submit (stack : Z) : M sys unit := _ ← nvram_commit stack; mret tt.

(** ** The machine represents a configuration *)

Definition flags_rep (s : sys) (fl : option (list Z)) : Prop :=
  match fl with
  | None => is_Some (files s !! APL_CLOSED)
  | Some l =>
      files s !! APL_CLOSED = None ∧ files s !! APL_PARSING = None ∧
      default [] (files s !! APL_FLAG) = concat (map flag_line l)
  end.

Definition sys_rep (s : sys) (a : cfg) : Prop :=
  ∃ es ds, nv_rep s es ds ∧ (∀ k, val a k = view es ds k) ∧ flags_rep s (raised a).

Lemma flags_rep_files s s' fl :
  (∀ p, p ≠ NVRAM_TMP_PATH → files s' !! p = files s !! p) → flags_rep s fl → flags_rep s' fl.
Proof.
  intros Hp. unfold flags_rep. rewrite !Hp by done. done.
Qed.

Lemma sys_safe_get_runs s a k :
  sys_rep s a → key_ok k →
  runs (Nvram.nvram_safe_get k) s (λ r s', r = safe a k ∧ sys_rep s' a).
Proof.
  intros (es & ds & Hr & Hv & Hf) [_ Hk].
  use_runs (nvram_safe_get_runs s es ds k Hr Hk).
  intros r s' (-> & (_ & _ & Hp) & es' & Hr' & Hv'). split; [unfold safe; by rewrite Hv|].
  exists es', ds. split; [done|]. split; [intros k'; by rewrite Hv'|]. by eapply flags_rep_files.
Qed.

Lemma sys_get_runs s a k :
  sys_rep s a → key_ok k →
  runs (Nvram.nvram_get k) s (λ r s', r = val a k ∧ sys_rep s' a).
Proof.
  intros (es & ds & Hr & Hv & Hf) [_ Hk].
  use_runs (nvram_get_runs s es ds k Hr Hk).
  intros r s' (-> & (_ & _ & Hp) & es' & Hr' & Hv'). split; [by rewrite Hv|].
  exists es', ds. split; [done|]. split; [intros k'; by rewrite Hv'|]. by eapply flags_rep_files.
Qed.

Lemma sys_set_runs stack s a k d :
  (∀ n, 0 < n <= 4500 → alloc_ok n = true) →
  sys_rep s a → key_ok k → nul_free d → pair_fits k d →
  runs (Scfg.scfgmgr_set stack k d) s (λ _ s', sys_rep s' (put k d a)).
Proof.
  intros Ha (es & ds & Hr & Hv & Hf) [Hne Hk] Hd Hp.
  use_runs (scfgmgr_set_runs stack s es ds k d Hr Hne Hk Hd Hp Ha).
  intros r s' (_ & (_ & _ & Hfiles) & Hr').
  exists (set_kv k d es), ds. split; [done|]. split.
  - intros k'. destruct Hk as [_ Hk]. rewrite view_set_kv by done. cbn [put val].
    destruct (decide (k' = k)); [done|apply Hv].
  - by eapply flags_rep_files.
Qed.

Lemma sys_flag_runs s a id :
  sys_rep s a → 0 <= id < APL_NAMED →
  runs (AplFlag.apl_set_flag id) s (λ _ s', sys_rep s' (raise id a)).
Proof.
  intros (es & ds & Hr & Hv & Hf) Hid. unfold AplFlag.apl_set_flag, access.
  unfold raise, sys_rep. cbn [val raised].
  apply runs_bind, runs_bind, runs_get, runs_ret.
  unfold flags_rep in *. destruct (raised a) as [l|]; cbn [fmap option_fmap option_map].
  2: { rewrite bool_decide_true by done. apply runs_ret. by exists es, ds. }
  destruct Hf as (Hc & Hp & Hl).
  rewrite bool_decide_false by (rewrite Hc; by intros [? ?]).
  apply runs_bind, runs_bind, runs_get, runs_ret.
  rewrite bool_decide_false by (rewrite Hp; by intros [? ?]).
  unfold id_string. destruct (Z.ltb_spec id 0); [lia|].
  assert (is_Some (idString !! Z.to_nat id)) as [nm Hnm].
  { apply lookup_lt_is_Some. unfold APL_NAMED in Hid. simpl. lia. }
  rewrite Hnm. apply runs_bind, runs_ret. unfold applyLog, append_file.
  apply runs_bind, runs_mod, runs_mod.
  assert (Hother : ∀ p, p ≠ APL_FLAG → p ≠ APPLY_DBG → ∀ x y (f : gmap cstr bytes),
    <[APL_FLAG := x]> (<[APPLY_DBG := y]> f) !! p = f !! p).
  { intros p H1 H2 x y f. by rewrite !lookup_insert_ne by done. }
  exists es, ds. split; [|split; [done|]].
  - destruct Hr as [H1 H2 H3]. split; cbn [files set_files].
    + by rewrite Hother.
    + done.
    + by rewrite Hother.
  - cbn [files set_files]. rewrite !Hother by done. split; [done|]. split; [done|].
    rewrite lookup_insert_eq, lookup_insert_ne by done. cbn [from_option].
    rewrite Hl, map_app, concat_app. simpl. by rewrite app_nil_r.
Qed.

Lemma sys_rep_files s s' a : files s' = files s → sys_rep s a → sys_rep s' a.
Proof.
  intros E (es & ds & Hr & Hv & Hf). exists es, ds.
  split; [by eapply nv_rep_files|]. split; [done|].
  eapply flags_rep_files; [|done]. intros p _. by rewrite E.
Qed.

Definition sys_laws (stack : Z) (Ha : ∀ n, 0 < n <= 4500 → alloc_ok n = true) :
  CfgStoreLaws sys (H := sys_store stack).
Proof.
  refine {| rep := sys_rep |}.
  - intros s a k (es & ds & Hr & Hv & _). unfold safe. rewrite Hv.
    destruct (view es ds k) eqn:E; [exact (view_nul_free s es ds k _ Hr E)|apply nul_free_nil].
  - apply sys_safe_get_runs.
  - apply sys_get_runs.
  - intros s a k d. by apply sys_set_runs.
  - apply sys_flag_runs.
  - intros s a cmd Hr. apply runs_mod. by apply (sys_rep_files s).
  - intros s a path Hr. apply runs_bind, runs_get, runs_ret. done.
Defined.
End impl.
