(* ===== verification/ApCfgLists.v ===== *)
(** * List-valued parameters (libapcfg/apcfg.c)

    The VLAN list, the list of legal access points and the access-control
    lists.  These functions edit the text of a list in local and static
    buffers, whose sizes and aliasing are modelled: the getter of the VLAN list
    returns a pointer into a static buffer that the next call overwrites. *)

From S2P Require Import Prelude CLib Utility NvramSpec CfgStore ApCfgSys ApCfgWlan.

(** ** Text helpers *)

(** All tokens of a string. *)
Fixpoint tokens (fuel : nat) (ds : list ascii) (s : cstr) : list cstr :=
  match fuel with
  | O => []
  | S fuel' =>
      match strtok ds s with
      | (None, _) => []
      | (Some t, saved) => t :: tokens fuel' ds saved
      end
  end.
Definition strtok_all (ds : list ascii) (s : cstr) : list cstr := tokens (S (length s)) ds s.

(** [strstr(s, p)] as an offset. *)
Fixpoint strstr (p s : cstr) : option nat :=
  if bool_decide (take (length p) s = p) then Some O
  else match s with
       | [] => None
       | _ :: s' => S <$> strstr p s'
       end.

(** The part of a string behind the first [c]; [None] when there is none. *)
Fixpoint after_chr (c : ascii) (s : cstr) : option cstr :=
  match s with
  | [] => None
  | d :: s' => if decide (d = c) then Some s' else after_chr c s'
  end.

(** [memcmp(s, t, n) == 0] on two strings; bytes behind both terminators are
    not theirs to read. *)
Fixpoint memcmp_eq (n : nat) (s t : cstr) : outcome bool :=
  match n with
  | O => Done true
  | S n' =>
      match s, t with
      | [], [] => if decide (n' = O) then Done true else Fault
      | a :: s', b :: t' => if decide (a = b) then memcmp_eq n' s' t' else Done false
      | _, _ => Done false
      end
  end.

Section lists.
Context {S : Type} {store : CfgStore S}.

(** [sprintf] of a text into a buffer of [n] bytes. *)
Definition sprintf_buf (n : nat) (t : cstr) : M S cstr := strcpy_buf n t.

(** ** The VLAN list *)

(** [apCfgVlanListSet(p)] with [p] pointing [off] characters into the static
    buffer of the getter, which the call overwrites with the stored list before
    it compares. *)
Definition vlan_list_set_static (off : nat) : M S Z :=
  cur ← apCfgVlanListGet;
  let p := drop off cur in
  if differ p cur then
    _ ← scfgmgr_set "vlan_list" p;
    _ ← apl_set_flag APL_VLAN;
    mret A_OK
  else mret A_OK.

Definition apCfgVlanListAdd (v : Z) : M S Z :=
  guarded ((v <? VLAN_TAG_MIN) || (VLAN_TAG_MAX <? v)) (
  vlanList ← apCfgVlanListGet;
  if existsb (λ pValue, v =? atoi pValue) (strtok_all [","%char] vlanList) then mret A_ERROR
  else
    list ← apCfgVlanListGet;
    vlan ← sprintf_buf 8 (list ++ dec v ++ ","%char :: []);
    _ ← apCfgVlanListSet vlan;
    mret A_OK).

(** The [while] loop at [p]; the result is the offset handed to
    [apCfgVlanListSet]. *)
Fixpoint vlan_del_loop (fuel : nat) (vlan p : cstr) (first : bool) : outcome nat :=
  match fuel with
  | O => Stuck
  | Datatypes.S fuel' =>
      match p with
      | [] => Done O
      | _ =>
          if starts vlan p then Done (if first then length vlan else O)
          else match after_chr ","%char p with
               | None => Fault
               | Some p' => vlan_del_loop fuel' vlan p' false
               end
      end
  end.

Definition apCfgVlanListDel (v : Z) : M S Z :=
  vlan ← sprintf_buf 5 (dec v ++ [","%char]);
  vlanList ← apCfgVlanListGet;
  off ← liftO (vlan_del_loop (Datatypes.S (length vlanList)) vlan vlanList true);
  _ ← vlan_list_set_static off;
  mret A_OK.

Definition apCfgVlanListClear : M S Z := _ ← scfgmgr_set "vlan_list" []; mret A_OK.

(** The text of the sorted identifiers, equal neighbours once. *)
Fixpoint vlan_text (prev : option Z) (vlanList : list Z) : cstr :=
  match vlanList with
  | [] => []
  | x :: rest =>
      (if bool_decide (prev = Some x) then [] else dec x ++ [","%char]) ++ vlan_text (Some x) rest
  end.

Fixpoint map_each {A} (l : list Z) (f : Z → M S A) : M S (list A) :=
  match l with
  | [] => mret []
  | x :: l' => y ← f x; ys ← map_each l' f; mret (y :: ys)
  end.

Definition apCfgVlanListApply (unit : Z) : M S Z :=
  native ← apCfgNativeVlanIdGet;
  management ← apCfgManagementVlanIdGet;
  pvids ← map_each vaps (λ vap, apCfgVlanPvidGet unit vap);
  let vlanList := scCompositor 6 (native :: management :: pvids) 0 5 in
  vlanStr ← sprintf_buf 60 (vlan_text None vlanList);
  _ ← apCfgVlanListSet vlanStr;
  mret A_OK.

(** ** Legal access points *)

Definition scApCfgLegalApListAdd (pAddr : cstr) : M S Z :=
  pList ← scApCfgLegalApListGet;
  match strstr pAddr pList with
  | Some _ => mret A_ERROR
  | None =>
      newList ← sprintf_buf (Z.to_nat MAX_LEGALAPLIST) (pList ++ pAddr ++ [","%char]);
      if zlen newList <? MAX_LEGALAPLIST then
        _ ← scApCfgLegalApListSet newList; mret A_OK
      else mret A_ERROR
  end.

Definition scApCfgLegalApListDel (pAddr : cstr) : M S Z :=
  pList ← scApCfgLegalApListGet;
  match strstr pAddr pList with
  | None => mret A_ERROR
  | Some off =>
      newList ← (if (off + 13 <? length pList)%nat then
                   match after_chr ","%char (drop off pList) with
                   | None => faultM
                   | Some rest => mret (take off pList ++ rest)
                   end
                 else mret (take off pList));
      _ ← scApCfgLegalApListSet newList;
      mret A_OK
  end.

Definition scApCfgLegalApListClear : M S Z :=
  _ ← scfgmgr_set "legal_ap_list" [];
  _ ← apl_set_flag APL_ROGUEAP;
  mret A_OK.

(** ** Access-control lists *)

Definition CFG_MAX_ACL : Z := 256.
Definition CFG_MAX_ACL_LINKSYS : nat := 20.
(** [sizeof(CFG_ACL_ENTRY)] on the 32-bit target. *)
Definition ACL_ENTRY_SIZE : nat := 40.

Definition acl_key (unit bss : Z) : cstr := vap_key unit bss "_acl_list".

(** [sprintf(unitValue, "%s,%s,%d", pMacAddr, pName, used)] *)
Definition acl_unit (mac name : cstr) (used : Z) : cstr :=
  mac ++ ","%char :: name ++ ","%char :: dec used.

(** The loop of [apCfgAclAdd] at [pUnit]: the text in front of the entry found
    and from its separator on, or the number of entries when it is not found. *)
Inductive acl_search : Type :=
  | AclAt (before from_sep : cstr)
  | AclCount (count : nat).

(** The string from the first [c] on. *)
Fixpoint from_chr (c : ascii) (s : cstr) : option cstr :=
  match s with
  | [] => None
  | d :: s' => if decide (d = c) then Some s else from_chr c s'
  end.

Fixpoint acl_find (fuel : nat) (mac full pUnit : cstr) (count : nat) : outcome acl_search :=
  match fuel with
  | O => Stuck
  | Datatypes.S fuel' =>
      match pUnit with
      | [] => Done (AclCount count)
      | _ =>
          eq ← memcmp_eq 17 pUnit mac;
          match from_chr ";"%char pUnit with
          | None => Fault
          | Some pUnitEnd =>
              if (eq : bool) then Done (AclAt (take (length full - length pUnit) full) pUnitEnd)
              else acl_find fuel' mac full (tail pUnitEnd) (Datatypes.S count)
          end
      end
  end.

Definition apCfgAclAdd (unit bss : Z) (pMacAddr pName : cstr) (used : Z) : M S Z :=
  zero ← liftO (memcmp_eq 17 pMacAddr "00:00:00:00:00:00");
  if (zero : bool) then mret A_ERROR
  else
    pFullValue ← nvram_safe_get (acl_key unit bss);
    let mac := scToUppers pMacAddr in
    r ← liftO (acl_find (Datatypes.S (length pFullValue)) mac pFullValue pFullValue 0);
    match r with
    | AclAt before from_sep =>
        unitValue ← sprintf_buf ACL_ENTRY_SIZE (acl_unit mac pName used);
        finalValue ← sprintf_buf (Z.to_nat CFG_MAX_ACL * ACL_ENTRY_SIZE)%nat (before ++ unitValue ++ from_sep);
        _ ← scfgmgr_set (acl_key unit bss) finalValue;
        _ ← apl_set_flag (vap_flag unit bss);
        mret A_OK
    | AclCount count =>
        if (CFG_MAX_ACL_LINKSYS <=? count)%nat then mret A_NO_MEMORY
        else
          unitValue ← sprintf_buf ACL_ENTRY_SIZE (acl_unit mac pName used);
          finalValue ← sprintf_buf (Z.to_nat CFG_MAX_ACL * ACL_ENTRY_SIZE)%nat
                         (pFullValue ++ unitValue ++ [";"%char]);
          _ ← scfgmgr_set (acl_key unit bss) finalValue;
          _ ← apl_set_flag (vap_flag unit bss);
          mret A_OK
    end.

(** The loop of [apCfgAclDel]: the list without the entry. *)
Fixpoint acl_del_find (fuel : nat) (mac full pUnit : cstr) : outcome (option cstr) :=
  match fuel with
  | O => Stuck
  | Datatypes.S fuel' =>
      match pUnit with
      | [] => Done None
      | _ =>
          match from_chr ";"%char pUnit with
          | None => Done None
          | Some pUnitEnd =>
              eq ← memcmp_eq 17 pUnit mac;
              if (eq : bool) then
                Done (Some (take (length full - length pUnit) full ++ tail pUnitEnd))
              else acl_del_find fuel' mac full (tail pUnitEnd)
          end
      end
  end.

Definition apCfgAclDel (unit bss : Z) (pMac : cstr) : M S Z :=
  pFullValue ← nvram_safe_get (acl_key unit bss);
  r ← liftO (acl_del_find (Datatypes.S (length pFullValue)) (scToUppers pMac) pFullValue pFullValue);
  match r with
  | Some t =>
      finalValue ← sprintf_buf (Z.to_nat CFG_MAX_ACL * ACL_ENTRY_SIZE)%nat t;
      _ ← scfgmgr_set (acl_key unit bss) finalValue;
      _ ← apl_set_flag (vap_flag unit bss);
      mret A_OK
  | None => mret A_ENOENT
  end.

Definition apCfgAclClear (unit bss : Z) : M S () :=
  _ ← scfgmgr_set (acl_key unit bss) [];
  _ ← apl_set_flag (vap_flag unit bss);
  mret tt.

(** One entry of the linked list [scAclBufGet] builds. *)
Record scAclBuf_s : Type := ScAclBuf { acl_name : cstr; acl_mac : cstr; acl_used : Z }.

(** One round of the loop at [pUnit]: the entry and the next [pUnit]. *)
Definition acl_entry (pUnit : cstr) : outcome (scAclBuf_s * cstr) :=
  if decide (length pUnit < 18)%nat then Fault
  else
    let mac := take 17 pUnit in
    let '(name, rest) := span_until [","%char] (drop 18 pUnit) in
    match rest with
    | [] => Fault
    | _ :: pUnit2 =>
        if decide (16 < length name)%nat then Fault
        else match pUnit2 with
             | c :: pUnit3 =>
                 match pUnit3 with
                 | _ :: next => Done (ScAclBuf name mac (boolZ (bool_decide (c = "1"%char))), next)
                 | [] => Fault
                 end
             | [] => Fault
             end
    end.

Fixpoint acl_entries (fuel : nat) (pUnit : cstr) : outcome (list scAclBuf_s) :=
  match fuel with
  | O => Stuck
  | Datatypes.S fuel' =>
      match pUnit with
      | [] => Done []
      | _ =>
          r ← acl_entry pUnit;
          let '(e, next) := (r : scAclBuf_s * cstr) in
          es ← acl_entries fuel' next;
          Done (e :: es)
      end
  end.

(** [scAclBufUsed] is the flag of the list: the result, the new flag and the
    entries handed out. *)
Definition scAclBufGet (scAclBufUsed : bool) (unit bss : Z) : M S (bool * bool * list scAclBuf_s) :=
  if 1 <? unit then mret (false, scAclBufUsed, [])
  else if (unit <? 0) || (WLAN_MAX_DEV <=? unit) || (bss <? 0) || (WLAN_MAX_VAP <=? bss) then faultM
  else if scAclBufUsed then mret (false, scAclBufUsed, [])
  else
    pFullValue ← nvram_safe_get (acl_key unit bss);
    es ← liftO (acl_entries (Datatypes.S (length pFullValue)) pFullValue);
    mret (true, true, es).

(** The flag afterwards. *)
Definition scAclBufFree (scAclBufUsed : bool) : bool := false.
End lists.
