(* ===== verification/Session.v ===== *)
(** * Sessions of configuration calls

    The parameters of [ApCfgSpec] in one table, a session as a list of calls on
    them, the abstract session computed from the specifications, and the facts
    about the table that make a session safe: which setters keep their getter's
    buffer large enough, that no two parameters share a name, and what a change
    touches besides its own name. *)

From S2P Require Import Prelude CLib Inet Utility NvramSpec CfgStore ApCfgSys ApCfgWlan CfgRefine ApCfgSpec.

Section table.
Context {S : Type} {store : CfgStore S}.

Definition int_params : list ((Z → M S Z) * M S Z * iparam) :=
  sys_ints ++ radio_ints 0 ++ concat (map (vap_ints 0) vaps).
Definition str_params : list ((cstr → M S Z) * M S cstr * sparam) :=
  sys_strs ++ radio_strs 0 ++ concat (map (vap_strs 0) vaps).
End table.

(** The specifications do not depend on the machine. *)
Definition no_store : CfgStore unit := {|
  nvram_safe_get := λ _, faultM; nvram_get := λ _, faultM; scfgmgr_set := λ _ _, faultM;
  apl_set_flag := λ _, faultM; system := λ _, faultM; fopen_read := λ _, faultM |}.
Definition int_specs : list iparam := (int_params (store := no_store)).*2.
Definition str_specs : list sparam := (str_params (store := no_store)).*2.

Lemma int_specs_eq {S} {store : CfgStore S} : (int_params (store := store)).*2 = int_specs.
Proof. reflexivity. Qed.
Lemma str_specs_eq {S} {store : CfgStore S} : (str_params (store := store)).*2 = str_specs.
Proof. reflexivity. Qed.

Definition keys : list cstr := map i_key int_specs ++ map s_key str_specs.

(** The names read through a buffer of fixed size, with the size. *)
Definition caps : list (cstr * nat) :=
  omap (λ p, n ← i_cap p; Some (i_key p, n)) int_specs ++ map (λ p, (s_key p, s_cap p)) str_specs.

(** The names whose setter accepts texts that the buffer of the getter (or of
    the client of the service) cannot hold. *)
Definition unchecked : list cstr :=
  ["lan_dhcps_start" : cstr; "lan_dhcps_end" : cstr; "ftp_path" : cstr; "snmp_auth_key" : cstr;
   "snmp_priv_key" : cstr; "cert_content" : cstr; wlan_key 0 "_data_rate"] ++
  map (λ vap, vap_key 0 vap "_passphrase") vaps.

(** ** Calls *)

Inductive call : Type :=
  | GetInt (i : nat)
  | SetInt (i : nat) (v : Z)
  | GetStr (i : nat)
  | SetStr (i : nat) (p : cstr).

Inductive answer : Type :=
  | AnsInt (v : Z)
  | AnsStr (p : cstr).

Section exec.
Context {S : Type} {store : CfgStore S}.

Definition exec (c : call) : M S answer :=
  match c with
  | GetInt i => match int_params !! i with
                | Some e => v ← e.1.2; mret (AnsInt v) | None => faultM end
  | SetInt i v => match int_params !! i with
                  | Some e => r ← e.1.1 v; mret (AnsInt r) | None => faultM end
  | GetStr i => match str_params !! i with
                | Some e => p ← e.1.2; mret (AnsStr p) | None => faultM end
  | SetStr i p => match str_params !! i with
                  | Some e => r ← e.1.1 p; mret (AnsInt r) | None => faultM end
  end.

Fixpoint session (cs : list call) : M S (list answer) :=
  match cs with
  | [] => mret []
  | c :: cs' => r ← exec c; rs ← session cs'; mret (r :: rs)
  end.
End exec.

Definition map_ans {A} (f : A → answer) (r : A * cfg) : answer * cfg := (f r.1, r.2).

(** What a call answers and does, from the specifications alone. *)
Definition abs_exec (c : call) (a : cfg) : answer * cfg :=
  match c with
  | GetInt i => match int_specs !! i with
                | Some p => map_ans AnsInt (abs_get p a) | None => (AnsInt 0, a) end
  | SetInt i v => match int_specs !! i with
                  | Some p => map_ans AnsInt (abs_set p v a) | None => (AnsInt 0, a) end
  | GetStr i => match str_specs !! i with
                | Some p => map_ans AnsStr (abs_sget p a) | None => (AnsInt 0, a) end
  | SetStr i t => match str_specs !! i with
                  | Some p => map_ans AnsInt (abs_sset p t a)
                  | None => (AnsInt 0, a) end
  end.

Fixpoint abs_session (cs : list call) (a : cfg) : list answer * cfg :=
  match cs with
  | [] => ([], a)
  | c :: cs' => let '(r, a1) := abs_exec c a in
                let '(rs, a2) := abs_session cs' a1 in (r :: rs, a2)
  end.

(** The arguments C can pass: an [int] whose text fits the setter's local
    buffer, a string; for the unchecked parameters the string must also fit the
    getter. *)
Definition call_ok (c : call) : Prop :=
  match c with
  | GetInt i => is_Some (int_specs !! i)
  | SetInt i v => ∃ p, int_specs !! i = Some p ∧ i_dom p v = true
  | GetStr i => is_Some (str_specs !! i)
  | SetStr i t => nul_free t ∧ ∃ p, str_specs !! i = Some p ∧
      (s_key p ∈ unchecked → (length t < s_cap p)%nat ∧ pair_fits (s_key p) t)
  end.

#[global] Instance pair_fits_dec k d : Decision (pair_fits k d).
Proof. unfold pair_fits. apply _. Defined.

Lemma found_dec {A} (mx : option A) (P : A → Prop) :
  (∀ x, Decision (P x)) → Decision (∃ x, mx = Some x ∧ P x).
Proof.
  intros HP. destruct mx as [x|].
  - destruct (decide (P x)) as [H|H]; [left; by exists x|].
    right. by intros (y & [= <-] & Hy).
  - right. by intros (y & Hy & _).
Defined.

#[global] Instance call_ok_dec c : Decision (call_ok c).
Proof.
  destruct c; unfold call_ok; [apply _|apply found_dec, _|apply _|].
  apply and_dec; [apply _|apply found_dec, _].
Defined.

(** Every value that is read through a buffer fits it. *)
Definition sound (a : cfg) : Prop := Forall (λ e, (length (safe a e.1) < e.2)%nat) caps.

(** ** Facts about the table *)

Lemma keys_distinct : NoDup keys.
Proof. closed. Qed.

(** The name a table entry writes besides its own. *)
Definition WSC_KEY : cstr := "wifi_wsc_configured".

Lemma wsc_fx_safe a k : k ≠ WSC_KEY → safe (wsc_fx a) k = safe a k.
Proof.
  intros Hk. unfold wsc_fx. repeat case_match; try done. by rewrite safe_put_ne.
Qed.

Lemma wsc_not_key : WSC_KEY ∉ keys.
Proof. closed. Qed.

Definition fx_local (f : cfg → cfg) : Prop := ∀ a k, k ≠ WSC_KEY → safe (f a) k = safe a k.

Ltac each_spec tac :=
  lazymatch goal with
  | |- Forall _ [] => apply List.Forall_nil
  | |- Forall _ (_ :: _) => apply List.Forall_cons; [tac () | each_spec tac]
  end.
Ltac open_specs :=
  unfold int_specs, str_specs, int_params, str_params, sys_ints, radio_ints, vap_ints,
    sys_strs, radio_strs, vap_strs, vaps;
  cbn [map concat app fmap list_fmap snd fst].

Lemma int_fx_local : Forall (λ p, ∀ v, fx_local (i_fx p v)) int_specs.
Proof.
  open_specs.
  each_spec ltac:(fun _ => intros v a k Hk; cbn [i_fx]; rewrite ?safe_raise; try case_match;
                           rewrite ?safe_raise, ?wsc_fx_safe by exact Hk; reflexivity).
Qed.

Lemma str_fx_local : Forall (λ p, fx_local (s_fx p)) str_specs.
Proof.
  open_specs.
  each_spec ltac:(fun _ => intros a k Hk; cbn [s_fx]; rewrite ?safe_raise;
                           rewrite ?wsc_fx_safe by exact Hk; reflexivity).
Qed.

(** Integers print short enough for every buffer they are read through. *)
Lemma int_text_fits :
  Forall (λ p, ∀ n v, i_cap p = Some n → i_dom p v = true → (length (i_enc p v) < n)%nat) int_specs.
Proof.
  open_specs.
  each_spec ltac:(fun _ => intros n v Hn Hd; cbn in Hn; try discriminate Hn;
                           injection Hn as <-; cbn [i_dom i_enc] in *;
                           unfold text_fits in Hd; apply Nat.ltb_lt in Hd; lia).
Qed.

(** A setter that is not listed checks what the getter needs. *)
Definition strict (p : sparam) : Prop :=
  ∀ t, s_ok p t = true → (length t < s_cap p)%nat ∧ pair_fits (s_key p) t.

Lemma scValidIPv6_length t flag :
  scValidIPv6 t flag = true → zlen t <= (if flag then 46 else 40).
Proof.
  unfold scValidIPv6. destruct (Z.ltb_spec (if flag then 46 else 40) (zlen t)); [done|lia].
Qed.

Lemma strict_le p m :
  (∀ t, s_ok p t = true → zlen t <= m) →
  (m <? Z.of_nat (s_cap p)) && (zlen (s_key p) + 1 + m <? 4500) = true → strict p.
Proof. intros Hm Hb t Ht. specialize (Hm t Ht). unfold pair_fits. lia. Qed.

Lemma str_strict : Forall (λ p, s_key p ∈ unchecked ∨ strict p) str_specs.
Proof.
  open_specs.
  each_spec ltac:(fun _ => first
    [ left; closed
    | right; eapply strict_le;
      [ intros t Ht; cbn [s_ok] in Ht; rewrite ?negb_involutive in Ht;
        first [ exact (scValidIPv6_length t true Ht)
              | apply Z.eqb_eq in Ht; exact (Z.eq_le_incl _ _ Ht)
              | rewrite negb_true_iff, ?orb_false_iff, ?Z.ltb_ge in Ht;
                first [exact Ht | exact (proj2 Ht)] ]
      | vm_compute; reflexivity ] ]).
Qed.

Lemma caps_int :
  Forall (λ p, Forall (λ e : cstr * nat, e.1 = i_key p → i_cap p = Some e.2) caps) int_specs.
Proof. closed. Qed.

Lemma caps_str :
  Forall (λ p, Forall (λ e : cstr * nat, e.1 = s_key p → s_cap p = e.2) caps) str_specs.
Proof. closed. Qed.

Lemma caps_keys : Forall (λ e : cstr * nat, e.1 ∈ keys) caps.
Proof. closed. Qed.

Lemma sound_cap a k n : sound a → (k, n) ∈ caps → (length (safe a k) < n)%nat.
Proof. unfold sound. rewrite Forall_forall. intros H Hin. exact (H (k, n) Hin). Qed.

Lemma sound_fits_int a p : p ∈ int_specs → sound a → fits (i_cap p) (i_key p) a.
Proof.
  intros Hp Ha. unfold fits. destruct (i_cap p) as [n|] eqn:E; [|done].
  apply (sound_cap a); [done|]. unfold caps. apply elem_of_app. left.
  apply list_elem_of_omap. exists p. split; [done|]. by rewrite E.
Qed.

Lemma sound_fits_str a p : p ∈ str_specs → sound a → fits (Some (s_cap p)) (s_key p) a.
Proof.
  intros Hp Ha. apply (sound_cap a); [done|]. unfold caps. apply elem_of_app. right.
  apply list_elem_of_fmap. by exists p.
Qed.

(** Writing one name keeps the values short if the new text fits its own
    buffer. *)
Lemma sound_put a k d f :
  (∀ n, (k, n) ∈ caps → (length d < n)%nat) → fx_local f → sound a → sound (f (put k d a)).
Proof.
  intros Hd Hf Ha. unfold sound. rewrite Forall_forall. intros [k' n] Hin. cbn [fst snd].
  rewrite Hf.
  2: { intros ->. apply wsc_not_key. pose proof caps_keys as Hk. rewrite Forall_forall in Hk.
       exact (Hk _ Hin). }
  destruct (decide (k' = k)) as [->|Hne]; [rewrite safe_put_eq; auto|].
  rewrite safe_put_ne by done. by apply (sound_cap a).
Qed.

Section proofs.
Context {S : Type} {store : CfgStore S} {laws : CfgStoreLaws S}.

Lemma int_params_ok : Forall int_refines int_params.
Proof.
  unfold int_params, vaps. cbn [map concat].
  repeat rewrite Forall_app. split_and!;
    first [apply sys_ints_ok | apply radio_ints_ok; lia | apply vap_ints_ok; lia | apply List.Forall_nil].
Qed.

Lemma str_params_ok : Forall str_refines str_params.
Proof.
  unfold str_params, vaps. cbn [map concat].
  repeat rewrite Forall_app. split_and!;
    first [apply sys_strs_ok | apply radio_strs_ok; lia | apply vap_strs_ok; lia | apply List.Forall_nil].
Qed.

(** Entries of the tables and their specifications. *)
Lemma int_entry i p :
  int_specs !! i = Some p → ∃ set get, int_params !! i = Some (set, get, p) ∧ int_refines (set, get, p).
Proof.
  rewrite <- (int_specs_eq (store := store)), list_lookup_fmap_Some.
  intros ([[set get] q] & -> & Hi). exists set, get. split; [exact Hi|].
  pose proof int_params_ok as H. rewrite Forall_lookup in H. exact (H i _ Hi).
Qed.

Lemma str_entry i p :
  str_specs !! i = Some p → ∃ set get, str_params !! i = Some (set, get, p) ∧ str_refines (set, get, p).
Proof.
  rewrite <- (str_specs_eq (store := store)), list_lookup_fmap_Some.
  intros ([[set get] q] & -> & Hi). exists set, get. split; [exact Hi|].
  pose proof str_params_ok as H. rewrite Forall_lookup in H. exact (H i _ Hi).
Qed.

Lemma refines_map_ans {A} (m : M S A) P f (g : A → answer) :
  refines m P f → refines (r ← m; mret (g r)) P (λ a, map_ans g (f a)).
Proof.
  intros Hm s a Hr HP. apply runs_bind. use_runs (Hm s a Hr HP). intros r s' [-> ?].
  by apply runs_ret.
Qed.

Lemma refines_weaken {A} (m : M S A) (P Q : cfg → Prop) f :
  refines m P f → (∀ a, Q a → P a) → refines m Q f.
Proof. intros Hm HPQ s a Hr HQ. by apply Hm, HPQ. Qed.

Lemma exec_refines c : call_ok c → refines (exec c) sound (abs_exec c).
Proof.
  destruct c as [i|i v|i|i t]; cbn [call_ok exec]; unfold abs_exec.
  - intros [p Hi]. destruct (int_entry i p Hi) as (set & get & -> & Hg & _). rewrite Hi.
    apply refines_map_ans. eapply refines_weaken; [exact Hg|].
    intros a. apply sound_fits_int. by eapply list_elem_of_lookup_2.
  - intros (p & Hi & Hd). destruct (int_entry i p Hi) as (set & get & -> & _ & Hs). rewrite Hi.
    apply refines_map_ans. eapply refines_weaken; [exact (Hs v Hd)|].
    intros a. apply sound_fits_int. by eapply list_elem_of_lookup_2.
  - intros [p Hi]. destruct (str_entry i p Hi) as (set & get & -> & Hg & _). rewrite Hi.
    apply refines_map_ans. eapply refines_weaken; [exact Hg|].
    intros a. apply sound_fits_str. by eapply list_elem_of_lookup_2.
  - intros (Hn & p & Hi & Hu). destruct (str_entry i p Hi) as (set & get & -> & _ & Hs). rewrite Hi.
    apply (refines_map_ans _ _ (abs_sset p t) AnsInt). eapply refines_weaken.
    + apply Hs; [done|]. intros Hok. pose proof str_strict as H. rewrite Forall_lookup in H.
      destruct (H i p Hi) as [Hun|Hst]; [by apply Hu|by apply Hst].
    + intros a. apply sound_fits_str. by eapply list_elem_of_lookup_2.
Qed.

Lemma abs_exec_sound c a : call_ok c → sound a → sound (abs_exec c a).2.
Proof.
  destruct c as [i|i v|i|i t]; cbn [call_ok abs_exec].
  - intros [p ->] Ha. exact Ha.
  - intros (p & Hi & Hd) Ha. rewrite Hi. unfold map_ans, abs_set. cbn [snd fst].
    destruct (i_ok p v); [|done]. cbn [snd]. destruct (v =? _); [done|].
    assert (Hp : p ∈ int_specs) by (by eapply list_elem_of_lookup_2).
    apply sound_put; [|pose proof int_fx_local as H; rewrite Forall_forall in H; by apply H|done].
    intros n Hin. pose proof caps_int as Hc. rewrite Forall_forall in Hc.
    specialize (Hc p Hp). rewrite Forall_forall in Hc. specialize (Hc _ Hin eq_refl).
    pose proof int_text_fits as H. rewrite Forall_forall in H. by apply (H p Hp).
  - intros [p ->] Ha. exact Ha.
  - intros (_ & p & Hi & Hu) Ha. rewrite Hi. unfold map_ans, abs_sset. cbn [snd fst].
    destruct (s_ok p t) eqn:Hok; [|done]. cbn [snd]. destruct (decide _); [done|].
    assert (Hp : p ∈ str_specs) by (by eapply list_elem_of_lookup_2).
    apply sound_put; [|pose proof str_fx_local as H; rewrite Forall_forall in H; by apply H|done].
    intros ? Hin. pose proof caps_str as Hc. rewrite Forall_forall in Hc.
    specialize (Hc p Hp). rewrite Forall_forall in Hc. specialize (Hc _ Hin eq_refl).
    cbn [snd] in Hc. subst.
    pose proof str_strict as Hs. rewrite Forall_lookup in Hs.
    destruct (Hs i p Hi) as [Hun|Hst]; [destruct (Hu Hun); lia|destruct (Hst t Hok); lia].
Qed.

Lemma session_runs cs s a :
  Forall call_ok cs → sound a → rep s a →
  runs (session cs) s (λ rs s', rs = (abs_session cs a).1 ∧
    rep s' (abs_session cs a).2 ∧ sound (abs_session cs a).2).
Proof.
  revert s a. induction cs as [|c cs IH]; intros s a Hcs Ha Hr; cbn [session abs_session].
  { by apply runs_ret. }
  apply List.Forall_cons_iff in Hcs as [Hc Hcs].
  apply runs_bind. use_runs (exec_refines c Hc s a Hr Ha). intros r s1 [-> Hr1].
  pose proof (abs_exec_sound c a Hc Ha) as Ha1.
  destruct (abs_exec c a) as [r a1]. cbn [fst snd] in *.
  apply runs_bind. use_runs (IH s1 a1 Hcs Ha1 Hr1). intros rs s2 (-> & Hr2 & Ha2).
  destruct (abs_session cs a1) as [rs a2]. cbn [fst snd] in *. by apply runs_ret.
Qed.
End proofs.

(** ** What a value written reads as *)

(** A value the getter can return, when the setter accepts it, reads back as
    itself. *)
Definition reads_back (p : iparam) : Prop :=
  ∀ t, i_ok p (i_dec p t) = true → i_dom p (i_dec p t) = true →
    i_dec p (i_enc p (i_dec p t)) = i_dec p t.

Lemma dec_bool_enable x : x = 0 ∨ x = 1 → dec_bool (enable x) = x.
Proof. by intros [-> | ->]. Qed.

Lemma dec_bool_range t : dec_bool t = 0 ∨ dec_bool t = 1.
Proof. unfold dec_bool, boolZ. case_match; auto. Qed.

Lemma code_name_of names dnames codes dcode :
  forallb (λ x, code_of codes dcode (name_of names dnames x) =? x) (dcode :: codes.*1) = true →
  ∀ t, code_of codes dcode (name_of names dnames (code_of codes dcode t)) = code_of codes dcode t.
Proof.
  rewrite forallb_forall. intros H t. apply Z.eqb_eq, H. unfold code_of.
  destruct (find _ codes) as [[z n]|] eqn:E; [|by left]. right.
  apply find_some in E as [Hin _]. apply list_elem_of_In, list_elem_of_fmap.
  exists (z, n). split; [done|]. by apply list_elem_of_In.
Qed.

Lemma narrow_reads_back f t hi :
  (∀ v, 0 <= v <= hi → f v = v) → 0 <= f (atoi t) <= hi → hi < 2 ^ 31 →
  f (atoi (dec (f (atoi t)))) = f (atoi t).
Proof. intros Hf Ht Hh. rewrite atoi_dec by lia. by apply Hf. Qed.

Ltac narrow :=
  unfold schar, wrap32, VLAN_TAG_MIN, VLAN_TAG_MAX, MIN_ALERT_QLEN, MAX_ALERT_QLEN,
    MIN_ALERT_INTERVAL, MAX_ALERT_INTERVAL in *;
  intros; Z.to_euclidean_division_equations; lia.

(** The mode of the radio is the exception: its getter answers -1 to an unknown
    name, which the setter writes as the automatic mode. *)
Lemma int_reads_back : Forall (λ p, i_key p = wlan_key 0 "_mode" ∨ reads_back p) int_specs.
Proof.
  open_specs.
  each_spec ltac:(fun _ => first
    [ left; closed
    | right; intros t; cbn [i_ok i_dom i_dec i_enc]; intros Hok Hd;
      first
      [ apply dec_bool_enable, dec_bool_range
      | destruct (zlen t =? 0); [reflexivity|]; destruct (dec_bool_range t) as [-> | ->]; reflexivity
      | apply atoi_dec, atoi_range
      | apply inet_addr_ntoa_int, sint32_range
      | apply code_name_of; vm_compute; reflexivity
      | apply (narrow_reads_back schar t 100); [narrow|narrow|lia]
      | apply (narrow_reads_back wrap32 t 100); [narrow|narrow|lia]
      | apply (narrow_reads_back (λ z, z mod 2 ^ 16) t 65534); [narrow|narrow|lia] ] ]).
Qed.

(** ** What a change announces *)

(** The names whose change raises no flag. *)
Definition silent : list cstr :=
  ["secret_mask" : cstr; "sys_lang" : cstr; "sys_desc" : cstr; "wins_server" : cstr; "cert_time" : cstr].

(** [f] adds at least one named flag. *)
Definition announces (f : cfg → cfg) : Prop :=
  ∀ a l, raised a = Some l → ∃ ids, ids ≠ [] ∧ Forall (λ id, 0 <= id < APL_NAMED) ids ∧
    raised (f a) = Some (l ++ ids).

Lemma announces_raise id : 0 <= id < APL_NAMED → announces (raise id).
Proof. intros Hid a l Ha. exists [id]. unfold raise. cbn [raised]. rewrite Ha. auto. Qed.

Lemma announces_then f g : announces f → (∀ a, raised (g a) = raised a) → announces (λ a, g (f a)).
Proof. intros Hf Hg a l Ha. destruct (Hf a l Ha) as (ids & H). exists ids. by rewrite Hg. Qed.

Lemma announces_before f g : announces f → (∀ a, raised (g a) = raised a) → announces (λ a, f (g a)).
Proof. intros Hf Hg a l Ha. apply Hf. by rewrite Hg. Qed.

Lemma announces_both f g : announces f → announces g → announces (λ a, g (f a)).
Proof.
  intros Hf Hg a l Ha. destruct (Hf a l Ha) as (i & Hi & Fi & E).
  destruct (Hg _ _ E) as (j & Hj & Fj & E'). exists (i ++ j). split_and!.
  - by destruct i.
  - by apply Forall_app.
  - by rewrite E', app_assoc.
Qed.

Lemma wsc_raised a : raised (wsc_fx a) = raised a.
Proof. unfold wsc_fx. by repeat case_match. Qed.

Ltac announce :=
  lazymatch goal with
  | |- announces (λ a, if ?b then raise ?i a else raise ?j a) =>
      destruct b; [apply (announces_raise i) | apply (announces_raise j)]; flag_range
  | |- announces (λ a, wsc_fx (@?f a)) => apply (announces_then f wsc_fx); [announce | apply wsc_raised]
  | |- announces (λ a, raise ?i a) => apply (announces_raise i); flag_range
  | |- announces (λ a, raise ?i (wsc_fx a)) =>
      apply (announces_before (raise i) wsc_fx); [apply announces_raise; flag_range | apply wsc_raised]
  | |- announces (λ a, raise ?i (@?f a)) =>
      apply (announces_both f (raise i)); [announce | apply announces_raise; flag_range]
  end.

Lemma int_announces : Forall (λ p, i_key p ∈ silent ∨ ∀ v, announces (i_fx p v)) int_specs.
Proof.
  open_specs.
  each_spec ltac:(fun _ => first [left; closed | right; intros v; cbn [i_fx]; announce]).
Qed.

Lemma str_announces : Forall (λ p, s_key p ∈ silent ∨ announces (s_fx p)) str_specs.
Proof.
  open_specs.
  each_spec ltac:(fun _ => first [left; closed | right; cbn [s_fx]; announce]).
Qed.

(** ** Which name a call is about *)

Definition entry_of (c : call) : bool * nat :=
  match c with
  | GetInt i | SetInt i _ => (false, i)
  | GetStr i | SetStr i _ => (true, i)
  end.
Definition key_at (e : bool * nat) : option cstr :=
  if e.1 then s_key <$> str_specs !! e.2 else i_key <$> int_specs !! e.2.
Definition is_get (c : call) : bool :=
  match c with GetInt _ | GetStr _ => true | _ => false end.

Lemma key_at_keys e k : key_at e = Some k →
  keys !! (if e.1 then length int_specs + e.2 else e.2)%nat = Some k.
Proof.
  destruct e as [b i]. unfold key_at, keys. cbn [fst snd].
  destruct b; intros (p & Hp & ->)%fmap_Some.
  - rewrite lookup_app_r by (rewrite length_map; lia).
    rewrite length_map, Nat.add_comm, Nat.add_sub. by rewrite list_lookup_fmap, Hp.
  - rewrite lookup_app_l by (rewrite length_map; by eapply lookup_lt_Some).
    by rewrite list_lookup_fmap, Hp.
Qed.

Lemma key_at_inj e1 e2 k : key_at e1 = Some k → key_at e2 = Some k → e1 = e2.
Proof.
  intros H1 H2. pose proof (key_at_keys _ _ H1) as K1. pose proof (key_at_keys _ _ H2) as K2.
  pose proof (NoDup_lookup _ _ _ _ keys_distinct K1 K2) as E.
  destruct e1 as [[] i], e2 as [[] j]; cbn [fst snd] in *.
  - f_equal; lia.
  - unfold key_at in H2. cbn [fst snd] in H2. apply fmap_Some in H2 as (p & Hp%lookup_lt_Some & _). lia.
  - unfold key_at in H1. cbn [fst snd] in H1. apply fmap_Some in H1 as (p & Hp%lookup_lt_Some & _). lia.
  - by subst.
Qed.

Lemma key_at_in e k : key_at e = Some k → k ∈ keys.
Proof. intros H%key_at_keys. by eapply list_elem_of_lookup_2. Qed.

Lemma call_ok_key c : call_ok c → is_Some (key_at (entry_of c)).
Proof.
  unfold key_at. destruct c as [i|i v|i|i t]; cbn [call_ok entry_of fst snd].
  - intros [p ->]. by eexists.
  - intros (p & -> & _). by eexists.
  - intros [p ->]. by eexists.
  - intros (_ & p & -> & _). by eexists.
Qed.

(** A call leaves every other name of the table alone. *)
Lemma abs_exec_frame c a k k' :
  key_at (entry_of c) = Some k → k' ≠ k → k' ≠ WSC_KEY →
  safe (abs_exec c a).2 k' = safe a k'.
Proof.
  unfold key_at. destruct c as [i|i v|i|i t]; cbn [entry_of fst snd abs_exec];
    intros (p & Hi & ->)%fmap_Some Hk Hw; rewrite Hi; unfold map_ans; cbn [snd]; [done| |done|].
  - unfold abs_set. destruct (i_ok p v); [|done]. cbn [snd]. destruct (v =? _); [done|].
    pose proof int_fx_local as H. rewrite Forall_lookup in H. rewrite (H i p Hi v) by done.
    by apply safe_put_ne.
  - unfold abs_sset. destruct (s_ok p t); [|done]. cbn [snd]. destruct (decide _); [done|].
    pose proof str_fx_local as H. rewrite Forall_lookup in H. rewrite (H i p Hi) by done.
    by apply safe_put_ne.
Qed.

(** What a getter answers depends on its own name only. *)
Lemma abs_exec_get g a a' k :
  is_get g = true → key_at (entry_of g) = Some k → safe a k = safe a' k →
  (abs_exec g a).1 = (abs_exec g a').1.
Proof.
  unfold key_at. destruct g as [i|i v|i|i t]; try done; intros _; cbn [entry_of fst snd abs_exec];
    intros (p & Hi & ->)%fmap_Some Hs; rewrite Hi; unfold map_ans, abs_get, abs_sget; cbn [fst].
  - by rewrite Hs.
  - by rewrite Hs.
Qed.

Lemma raised_put k d a : raised (put k d a) = raised a.
Proof. done. Qed.

(** A call that changes anything raises a flag, unless its name is silent. *)
Lemma abs_exec_announces c a l k :
  key_at (entry_of c) = Some k → k ∉ silent → raised a = Some l →
  (abs_exec c a).2 = a ∨
  ∃ ids, ids ≠ [] ∧ Forall (λ id, 0 <= id < APL_NAMED) ids ∧
    raised (abs_exec c a).2 = Some (l ++ ids).
Proof.
  unfold key_at. destruct c as [i|i v|i|i t]; cbn [entry_of fst snd abs_exec];
    intros (p & Hi & ->)%fmap_Some Hk Ha; rewrite Hi; unfold map_ans; cbn [snd];
    [by left| |by left|].
  - unfold abs_set. destruct (i_ok p v); [|by left]. cbn [snd]. destruct (v =? _); [by left|right].
    pose proof int_announces as H. rewrite Forall_lookup in H.
    destruct (H i p Hi) as [|Hf]; [done|]. by apply Hf.
  - unfold abs_sset. destruct (s_ok p t); [|by left]. cbn [snd]. destruct (decide _); [by left|right].
    pose proof str_announces as H. rewrite Forall_lookup in H.
    destruct (H i p Hi) as [|Hf]; [done|]. by apply Hf.
Qed.
