(* ===== verification/CfgOverflow.v ===== *)
(** * Texts the setters accept and the getters cannot hold

    Several setters check a limit that is larger than the static buffer of the
    getter, or check nothing.  The getter copies the stored text into its buffer
    without looking at its length, and every later call of the setter itself
    begins with that getter. *)

From S2P Require Import Prelude CLib Inet Utility NvramSpec CfgStore ApCfgSys ApCfgWlan CfgRefine ApCfgSpec Session.

(** One character repeated. *)
Definition letters (n : nat) : cstr := replicate n "a"%char.

Section overflow.
Context {S : Type} {store : CfgStore S}.

(** The setter, the getter, the name, and a text. *)
Definition loose_params : list ((cstr → M S Z) * M S cstr * cstr * cstr) :=
  [ (apCfgPassphraseSet 0 0, apCfgPassphraseGet 0 0, vap_key 0 0 "_passphrase", letters 63);
    (apCfgRadiusServerSet 0 0, apCfgRadiusServerGet 0 0, vap_key 0 0 "_radius_server", letters 64);
    (apCfgBackupRadiusServerSet 0 0, apCfgBackupRadiusServerGet 0 0,
     vap_key 0 0 "_backup_radius_server", letters 64);
    (apCfgRadiusSecretSet 0 0, apCfgRadiusSecretGet 0 0, vap_key 0 0 "_radius_key", letters 128);
    (apCfgBackupRadiusSecretSet 0 0, apCfgBackupRadiusSecretGet 0 0,
     vap_key 0 0 "_backup_radius_key", letters 128);
    (scApCfgAcctServerSet 0 0, scApCfgAcctServerGet 0 0, vap_key 0 0 "_acct_server", letters 128);
    (scApCfgBackupAcctServerSet 0 0, scApCfgBackupAcctServerGet 0 0,
     vap_key 0 0 "_backup_acct_server", letters 128);
    (scApCfgAcctSecretSet 0 0, scApCfgAcctSecretGet 0 0, vap_key 0 0 "_acct_key", letters 128);
    (scApCfgBackupAcctSecretSet 0 0, scApCfgBackupAcctSecretGet 0 0,
     vap_key 0 0 "_backup_acct_key", letters 128);
    (apCfgKeyValSet 0 0 1, apCfgKeyValGet 0 0 1, vap_key 0 0 "_key" ++ dec 1, letters 32);
    (apCfgSnmpAuthKeySet, apCfgSnmpAuthKeyGet, "snmp_auth_key" : cstr, letters 63);
    (apCfgSnmpPrivKeySet, apCfgSnmpPrivKeyGet, "snmp_priv_key" : cstr, letters 32);
    (apCfgDhcpServerStartSet, apCfgDhcpServerStartGet, "lan_dhcps_start" : cstr, letters 33);
    (apCfgDhcpServerEndSet, apCfgDhcpServerEndGet, "lan_dhcps_end" : cstr, letters 33);
    (apCfgFtpPathSet, apCfgFtpPathGet, "ftp_path" : cstr, letters 129);
    (apCfgRateSet 0, apCfgRateGet 0, wlan_key 0 "_data_rate", letters 32) ].

(** The text is accepted and stored; the getter then leaves its buffer, and so
    does every further call of the setter that passes its check. *)
Definition overflows `{!CfgStoreLaws S} (e : (cstr → M S Z) * M S cstr * cstr * cstr) : Prop :=
  let '(set, get, key, t) := e in
  ∀ s a, rep s a → (length (safe a key) < 32)%nat →
    runs (set t) s (λ r s', r = A_OK ∧ get s' = Fault ∧ set t s' = Fault).

Context {laws : CfgStoreLaws S}.

Lemma bind_fault {A B} (m : M S A) (k : A → M S B) s : m s = Fault → (m ≫= k) s = Fault.
Proof. unfold mbind, M_bind. by intros ->. Qed.

Lemma get_str_fault n key s a :
  rep s a → key_ok key → (n <= length (safe a key))%nat → get_str n key s = Fault.
Proof.
  intros Hr Hk Hn. pose proof (safe_get_runs s a key Hr Hk) as H.
  unfold get_str, mbind, M_bind. unfold runs in H.
  destruct (nvram_safe_get key s) as [[r s']| |]; [|done|done]. destruct H as [-> _].
  unfold strcpy_buf. by rewrite decide_False by lia.
Qed.

Lemma differ_short (t cur : cstr) n :
  (length cur < n)%nat → (n <= length t)%nat → differ t cur = true.
Proof. intros Hc Ht. unfold differ. apply bool_decide_true. intros ->. lia. Qed.

(** The shape shared by the setters. *)
Lemma overflow_by set get key t n body :
  get = get_str n key → set t = (cur ← get; body cur) → key_ok key →
  (n <= length t)%nat → (32 <= n)%nat →
  (∀ s a, rep s a → (length (safe a key) < n)%nat →
    runs (body (safe a key)) s (λ r s', r = A_OK ∧ ∃ a', rep s' a' ∧ safe a' key = t)) →
  overflows (set, get, key, t).
Proof.
  intros Hg Hs Hk Hn H32 Hb s a Hr Hl. rewrite Hs, Hg. unfold get_str at 1.
  apply runs_bind, runs_bind. eapply run_safe_get; [done|done|]. intros s1 Hr1.
  apply run_strcpy; [lia|]. use_runs (Hb s1 a Hr1 ltac:(lia)).
  intros r s2 (-> & a2 & Hr2 & Ha2). split; [done|].
  assert (Hf : get_str n key s2 = Fault)
    by (eapply get_str_fault; [exact Hr2|done|by rewrite Ha2]).
  split; [done|]. by apply bind_fault.
Qed.
End overflow.

Lemma letters_nul_free n : nul_free (letters n).
Proof. intros Hin%elem_of_replicate. by destruct Hin. Qed.
#[export] Hint Resolve letters_nul_free : wap.

Ltac over_key := first [cfg_key | closed].
Ltac over_fits := apply (bool_decide_unpack _); vm_compute; exact I.

Ltac over_step :=
  lazymatch goal with
  | |- runs (apCfgWscConfiguredSet 1) _ _ => eapply run_wsc; [eassumption|intros ? ? ?]; cbv beta
  | |- runs (for_each _ _) _ _ => cbn [for_each vaps]; unfold set
  | |- runs (scfgmgr_set _ _) _ _ =>
      eapply run_set; [eassumption|closed|apply letters_nul_free|over_fits|intros ? ? ?]; cbv beta
  | |- runs (nvram_safe_get _) _ _ => eapply run_safe_get; [eassumption|closed|intros ? ?]; cbv beta
  | |- runs (get_str _ _) _ _ => unfold get_str
  | _ => cfg_step
  end.

(** What a name reads as behind the writes of a setter. *)
Ltac over_safe :=
  repeat first
    [ rewrite safe_raise
    | rewrite safe_put_eq
    | rewrite wsc_fx_safe by closed
    | rewrite safe_put_ne by closed ].

Ltac overflow_entry :=
  eapply overflow_by;
  [ reflexivity | reflexivity | closed | vm_compute; lia | vm_compute; lia
  | intros s a Hr Hl; cbv beta; rewrite (differ_short _ _ _ Hl) by (vm_compute; lia);
    repeat over_step;
    (split; [reflexivity | eexists; split; [eassumption | over_safe; reflexivity]]) ].

Lemma loose_overflow {S} {store : CfgStore S} {laws : CfgStoreLaws S} : Forall overflows loose_params.
Proof. unfold loose_params. each_spec ltac:(fun _ => overflow_entry). Qed.
