(* ===== verification/CfgTheorems.v ===== *)
(** * The theorems about the configuration parameters *)

From S2P Require Import Prelude CLib Inet Utility FileSys Nvram NvramSpec NvramCorrect Scfg Sample CfgStore ApCfgSys ApCfgWlan CfgRefine ApCfgSpec AplFlag CfgImpl Session CfgOverflow.

(** ** The sample machine as a configuration *)

Definition sample_cfg : cfg := Cfg (view sample_es sample_ds) (Some []).

Definition sample_store : CfgStore sys :=
  sys_store (heap := sample_heap) (dev := ideal_dev) (shell := sample_shell) 7.
Definition sample_laws : CfgStoreLaws sys (H := sample_store) :=
  sys_laws (heap := sample_heap) (dev := ideal_dev) (shell := sample_shell) 7 sample_heap_ok.

Lemma sample_cfg_rep : sys_rep sample sample_cfg.
Proof.
  exists sample_es, sample_ds. split; [apply sample_rep|]. split; [done|].
  split_and!; vm_compute; done.
Defined.

Lemma sample_cfg_sound : sound sample_cfg.
Proof. closed. Defined.

(** A machine that boots with these entries stored and these defaults. *)
Definition boot (es ds : list cstr) : sys :=
  Sys (<[NVRAM_TMP_PATH := enc es]> (<[NVRAM_DEFAULT := enc ds]> ∅)) (Some sample_flash) [].
Definition boot_cfg (es ds : list cstr) : cfg := Cfg (view es ds) (Some []).

Lemma boot_rep es ds :
  Forall entry_ok es → uniq es → Forall entry_ok ds → sys_rep (boot es ds) (boot_cfg es ds).
Proof.
  intros He Hu Hd. exists es, ds. split; [|split; [done|split_and!; vm_compute; done]].
  split; unfold boot; cbn [files].
  - exists (enc es). split; [by rewrite lookup_insert_eq|]. by apply image_enc.
  - done.
  - rewrite lookup_insert_ne by done. rewrite lookup_insert_eq. by apply image_enc.
Qed.

Section theorems.
Context {S : Type} {store : CfgStore S} {laws : CfgStoreLaws S}.

(** C1: a session of configuration calls does what the parameters' specifications
    say.  Whatever getters and setters of the parameter tables ([int_specs],
    [str_specs]) are called, in any order, with an [int] whose text fits the
    setter's local buffer or a text, from a configuration whose stored values fit
    the buffers of their getters ([sound]): no buffer is left, every answer is
    the specified one (errors included), the configuration reached is the
    specified one, and every stored value still fits the buffer of its getter.
    For the parameters of [unchecked], whose setters do not check the length,
    the caller must bound the text by the getter's buffer and the request. *)
Theorem session_refines_spec cs s a :
  Forall call_ok cs → sound a → rep s a →
  runs (session cs) s (λ rs s', rs = (abs_session cs a).1 ∧
    rep s' (abs_session cs a).2 ∧ sound (abs_session cs a).2).
Proof. apply session_runs. Qed.

(** C17: what is set is what is read.  For a parameter of the integer table, a
    value that fits the setter's local buffer, that the setter accepts and that
    its getter can answer at all ([v = i_dec p t] for some stored text [t]: 0 or
    1 for a switch, so not the 5 that [apCfgTelnetModeSet] accepts too, an
    address, a number, the code of a name) reads back as itself, from any
    configuration whose values fit their getters.  The exception is the radio
    mode, whose getter answers -1 to a name it does not know. *)
Theorem set_then_get_int i p v t s a :
  int_specs !! i = Some p → i_key p ≠ wlan_key 0 "_mode" →
  v = i_dec p t → i_dom p v = true → i_ok p v = true → sound a → rep s a →
  runs (session [SetInt i v; GetInt i]) s (λ rs _, rs = [AnsInt A_OK; AnsInt v]).
Proof.
  intros Hi Hm Hv Hd Hok Ha Hr.
  assert (Hcs : Forall call_ok [SetInt i v; GetInt i])
    by (repeat apply List.Forall_cons; [by exists p|by exists p|apply List.Forall_nil]).
  use_runs (session_runs [SetInt i v; GetInt i] s a Hcs Ha Hr).
  intros rs s' [-> _]. cbn [abs_session abs_exec]. rewrite !Hi.
  unfold map_ans, abs_get, abs_set. cbn [fst snd]. rewrite Hok. cbn [fst snd]. do 3 f_equal.
  destruct (Z.eqb_spec v (i_dec p (safe a (i_key p)))) as [E|_]; [by rewrite E|].
  assert (Hk : i_key p ≠ WSC_KEY).
  { intros E. apply wsc_not_key. rewrite <- E. apply (key_at_in (false, i)).
    unfold key_at. cbn [fst snd]. by rewrite Hi. }
  pose proof int_fx_local as H. rewrite Forall_lookup in H. rewrite (H i p Hi v) by done.
  rewrite safe_put_eq.
  pose proof int_reads_back as Hb. rewrite Forall_lookup in Hb.
  destruct (Hb i p Hi) as [|Hb']; [done|]. rewrite Hv in Hd, Hok |- *. by apply Hb'.
Qed.

(** C18: the same for texts.  A text that the setter of a parameter of the text
    table accepts is read back as itself, whatever characters it holds (an
    equals sign included), from any configuration whose values fit their
    getters; for a parameter whose setter does not check the length
    ([unchecked]) the text must fit the getter's buffer and the request. *)
Theorem set_then_get_str i p t s a :
  str_specs !! i = Some p → s_ok p t = true → nul_free t →
  (s_key p ∈ unchecked → (length t < s_cap p)%nat ∧ pair_fits (s_key p) t) → sound a → rep s a →
  runs (session [SetStr i t; GetStr i]) s (λ rs _, rs = [AnsInt A_OK; AnsStr t]).
Proof.
  intros Hi Hok Hn Hu Ha Hr.
  assert (Hcs : Forall call_ok [SetStr i t; GetStr i])
    by (repeat apply List.Forall_cons; [split; [done|by exists p]|by exists p|apply List.Forall_nil]).
  use_runs (session_runs [SetStr i t; GetStr i] s a Hcs Ha Hr).
  intros rs s' [-> _]. cbn [abs_session abs_exec]. rewrite !Hi.
  unfold map_ans, abs_sget, abs_sset. cbn [fst snd]. rewrite Hok. cbn [fst snd].
  assert (Hk : s_key p ≠ WSC_KEY).
  { intros E. apply wsc_not_key. rewrite <- E. apply (key_at_in (true, i)).
    unfold key_at. cbn [fst snd]. by rewrite Hi. }
  pose proof str_fx_local as H. rewrite Forall_lookup in H.
  destruct (decide (t = safe a (s_key p))) as [<-|_]; [done|].
  rewrite (H i p Hi) by done. by rewrite safe_put_eq.
Qed.

(** The parameters are independent.  No two of them share a stored name, so a
    getter called after any call on another parameter answers what it would have
    answered before. *)
Theorem parameters_independent c g s a :
  call_ok c → call_ok g → is_get g = true → entry_of c ≠ entry_of g → sound a → rep s a →
  runs (session [c; g]) s (λ rs _, rs !! 1%nat = Some (abs_exec g a).1) ∧
  runs (session [g]) s (λ rs _, rs !! 0%nat = Some (abs_exec g a).1).
Proof.
  intros Hc Hg Hget Hne Ha Hr. split.
  - use_runs (session_runs [c; g] s a ltac:(by repeat apply List.Forall_cons) Ha Hr).
    intros rs s' [-> _]. cbn [abs_session].
    destruct (abs_exec c a) as [r a1] eqn:E1. destruct (abs_exec g a1) as [r2 a2] eqn:E2.
    cbn [fst lookup list_lookup]. f_equal.
    change r2 with (r2, a2).1. rewrite <- E2. change a1 with (r, a1).2. rewrite <- E1.
    destruct (call_ok_key c Hc) as [k Hk]. destruct (call_ok_key g Hg) as [k' Hk'].
    apply (abs_exec_get g _ _ k' Hget Hk').
    apply (abs_exec_frame c a k k' Hk).
    + intros ->. by apply Hne, (key_at_inj _ _ k).
    + intros ->. by eapply wsc_not_key, key_at_in.
  - use_runs (session_runs [g] s a ltac:(by repeat apply List.Forall_cons) Ha Hr).
    intros rs s' [-> _]. cbn [abs_session]. by destruct (abs_exec g a).
Qed.

(** C19: a change does not go unannounced.  A call on a parameter outside [silent]
    either leaves the whole configuration as it was or raises at least one apply
    flag, and every flag raised has an entry in the table of flag names. *)
Theorem change_is_announced c k s a l :
  call_ok c → key_at (entry_of c) = Some k → k ∉ silent → raised a = Some l → sound a → rep s a →
  runs (exec c) s (λ _ s', ∃ a', rep s' a' ∧
    (a' = a ∨ ∃ ids, ids ≠ [] ∧ Forall (λ id, 0 <= id < APL_NAMED) ids ∧
                    raised a' = Some (l ++ ids))).
Proof.
  intros Hc Hk Hs Hl Ha Hr. use_runs (exec_refines c Hc s a Hr Ha).
  intros r s' [_ Hr']. exists (abs_exec c a).2. split; [done|].
  by apply (abs_exec_announces c a l k).
Qed.

(** C35: sixteen setters accept a text that their getter cannot hold.  For each
    setter and text of [loose_params] (the WPA passphrase of 63 characters among
    them), on a configuration whose value is short, the setter reports success,
    and both the getter and any further call of the setter with the text leave
    the getter's buffer. *)
Theorem loose_setters_overflow : Forall overflows loose_params.
Proof. apply loose_overflow. Qed.
End theorems.

(** ** Witnesses *)

#[local] Existing Instances sample_store sample_laws.

Definition sample_session : list call :=
  [SetStr 0 "office"; SetInt 4 (-1062731530); GetInt 4; SetInt 21 5000; GetInt 21;
   SetStr 4 "pass=word"; GetStr 4].

Lemma sample_session_ok : Forall call_ok sample_session.
Proof. closed. Qed.

Example session_refines_spec_witness :
  runs (session sample_session) sample (λ rs s',
    rs = (abs_session sample_session sample_cfg).1 ∧
    rep s' (abs_session sample_session sample_cfg).2 ∧
    sound (abs_session sample_session sample_cfg).2).
Proof.
  exact (session_refines_spec sample_session sample sample_cfg
           sample_session_ok sample_cfg_sound sample_cfg_rep).
Defined.

Definition ip_param : iparam :=
  IParam "lan_ipaddr" always A_ERROR int_range inet_ntoa dec_ip
    (λ _ a, raise APL_BONJOUR (raise APL_IPv4 a)) None.

Example set_then_get_int_witness :
  runs (session [SetInt 4 (-1062731530); GetInt 4]) sample
    (λ rs _, rs = [AnsInt A_OK; AnsInt (-1062731530)]).
Proof.
  refine (set_then_get_int 4 ip_param (-1062731530) "192.168.0.246" sample sample_cfg
            _ _ _ _ _ sample_cfg_sound sample_cfg_rep).
  - reflexivity.
  - closed.
  - vm_compute. reflexivity.
  - vm_compute. reflexivity.
  - reflexivity.
Defined.

Definition password_param : sparam :=
  SParam "login_password" (λ p, negb ((zlen p <? 4) || (CFG_MAX_PASSWORD <? zlen p)))
    (λ a, raise APL_LOGIN a) (Z.to_nat (CFG_MAX_PASSWORD + 1)).

(** A password with an equals sign. *)
Example set_then_get_str_witness :
  runs (session [SetStr 4 "pass=word"; GetStr 4]) sample (λ rs _,
    rs = [AnsInt A_OK; AnsStr "pass=word"]).
Proof.
  refine (set_then_get_str 4 password_param "pass=word" sample sample_cfg
            _ _ _ _ sample_cfg_sound sample_cfg_rep).
  - reflexivity.
  - reflexivity.
  - closed.
  - intros Hc. exfalso. revert Hc. closed.
Defined.

Example parameters_independent_witness :
  runs (session [SetInt 4 (-1062731530); GetStr 0]) sample
    (λ rs _, rs !! 1%nat = Some (abs_exec (GetStr 0) sample_cfg).1) ∧
  runs (session [GetStr 0]) sample
    (λ rs _, rs !! 0%nat = Some (abs_exec (GetStr 0) sample_cfg).1).
Proof.
  refine (parameters_independent (SetInt 4 (-1062731530)) (GetStr 0) sample sample_cfg
            _ _ _ _ sample_cfg_sound sample_cfg_rep); closed.
Defined.

Example change_is_announced_witness :
  runs (exec (SetStr 0 "office")) sample (λ _ s', ∃ a', rep s' a' ∧
    (a' = sample_cfg ∨ ∃ ids, ids ≠ [] ∧ Forall (λ id, 0 <= id < APL_NAMED) ids ∧
                    raised a' = Some ([] ++ ids))).
Proof.
  refine (change_is_announced (SetStr 0 "office") "sys_name" sample sample_cfg []
            _ _ _ _ sample_cfg_sound sample_cfg_rep); closed.
Defined.

Example loose_setters_overflow_witness : Forall overflows (loose_params (store := sample_store)).
Proof. exact loose_setters_overflow. Defined.
