(* ===== verification/CfgMode.v ===== *)
(** * The operation mode and what it rules out

    The mode of a radio restricts its virtual access points, its security and
    its channel width.  The restrictions are kept by five setters of
    libapcfg/apcfg.c together; the invariant is proved for any sequence of them. *)

From S2P Require Import Prelude CLib Inet Utility NvramSpec CfgStore ApCfgSys ApCfgWlan CfgRefine ApCfgSpec Session.

(** ** What a configuration says about radio 0 *)

Definition op_mode (a : cfg) : Z := code_of op_mode_names CFG_OP_MODE_AP (safe a (wlan_key 0 "_op_mode")).
Definition active (a : cfg) (bss : Z) : Z := dec_bool (safe a (vap_key 0 bss "_state")).
Definition auth_type (a : cfg) (bss : Z) : Z :=
  code_of auth_names APCFG_AUTH_NONE (safe a (vap_key 0 bss "_auth_mode")).
Definition width (a : cfg) : Z := code_of cwm_names CWM_MODE_20M_40M (safe a (wlan_key 0 "_channel_width")).
Definition isolation (a : cfg) : Z := dec_bool (safe a (wlan_key 0 "_isolation")).
Definition ssids_fit (a : cfg) : Prop := Forall (λ bss, (length (safe a (vap_key 0 bss "")) < 64)%nat) vaps.

(** Security that needs an authentication server. *)
Definition enterprise (v : Z) : bool :=
  (APCFG_AUTH_AUTO <? v) && Zdiffer v APCFG_AUTH_WPAPSK &&
  Zdiffer v APCFG_AUTH_WPA2PSK && Zdiffer v APCFG_AUTH_WPA_AUTO_PSK.

Definition client_mode (m : Z) : bool := (m =? CFG_OP_MODE_UC) || (m =? CFG_OP_MODE_UR).

Record mode_ok (a : cfg) : Prop := ModeOk {
  mo_vaps : op_mode a ≠ CFG_OP_MODE_AP → Forall (λ bss, active a bss = 0) [1; 2; 3];
  mo_auth : client_mode (op_mode a) = true → enterprise (auth_type a 0) = false;
  mo_width : op_mode a = CFG_OP_MODE_ROGAP ∨ client_mode (op_mode a) = true → width a = CWM_MODE_20M;
  mo_isolation : op_mode a = CFG_OP_MODE_UR → isolation a = 0;
}.

(** The two configurations differ only in these names. *)
Definition only (ks : list cstr) (a a' : cfg) : Prop := ∀ k, k ∉ ks → safe a' k = safe a k.

Lemma only_refl ks a : only ks a a.
Proof. by intros k. Qed.
Lemma only_trans ks ls a b c : only ks a b → only ls b c → only (ks ++ ls) a c.
Proof.
  intros H1 H2 k Hk. apply not_elem_of_app in Hk as [Hk Hl]. by rewrite H2, H1.
Qed.
Lemma only_weaken ks ls a b : ks ⊆ ls → only ks a b → only ls a b.
Proof. intros Hs H k Hk. apply H. set_solver. Qed.

(** The setters as calls. *)
Inductive mode_call : Type :=
  | OpModeSet (v : Z)
  | ActiveModeSet (bss v : Z)
  | AuthTypeSet (bss v : Z)
  | ChannelWidthModeSet (v : Z)
  | InterVapForwardingSet (v : Z).

Definition mode_call_ok (c : mode_call) : Prop :=
  match c with ActiveModeSet bss _ | AuthTypeSet bss _ => bss ∈ vaps | _ => True end.
#[global] Instance mode_call_ok_dec c : Decision (mode_call_ok c).
Proof. destruct c; unfold mode_call_ok; apply _. Defined.

Section mode.
Context {S : Type} {store : CfgStore S}.

Definition mode_exec (c : mode_call) : M S Z :=
  match c with
  | OpModeSet v => apCfgOpModeSet 0 v
  | ActiveModeSet bss v => apCfgActiveModeSet 0 bss v
  | AuthTypeSet bss v => apCfgAuthTypeSet 0 bss v
  | ChannelWidthModeSet v => apCfgChannelWidthModeSet 0 v
  | InterVapForwardingSet v => apCfgInterVapForwardingSet 0 v
  end.

Fixpoint mode_session (cs : list mode_call) : M S (list Z) :=
  match cs with
  | [] => mret []
  | c :: cs' => r ← mode_exec c; rs ← mode_session cs'; mret (r :: rs)
  end.

Context {laws : CfgStoreLaws S}.

(** ** The effect of each setter *)

Lemma code_of_name_of tbl dflt dname v :
  code_of tbl dflt (name_of tbl dname v) = code_of tbl dflt dname ∨
  ∃ n, (v, n) ∈ tbl ∧ code_of tbl dflt (name_of tbl dname v) = code_of tbl dflt n.
Proof.
  unfold name_of. destruct (find _ tbl) as [[z n]|] eqn:E; [|by left].
  right. apply find_some in E as [Hin Hz]. cbn in Hz. apply Z.eqb_eq in Hz as ->.
  exists n. split; [by apply list_elem_of_In|done].
Qed.

Lemma run_op_mode s a (Q : Z → S → Prop) :
  rep s a → (∀ s', rep s' a → Q (op_mode a) s') → runs (apCfgOpModeGet 0) s Q.
Proof. intros Hr HQ. unfold apCfgOpModeGet. repeat cfg_step. by apply HQ. Qed.

Definition active_refused (a : cfg) (bss v : Z) : bool :=
  ((bss =? 0) && (v =? 0)) ||
  (Zdiffer (op_mode a) CFG_OP_MODE_AP && (negb (bss =? 0) && (v =? 1))).

Lemma active_runs s a bss v :
  rep s a → bss ∈ vaps →
  runs (apCfgActiveModeSet 0 bss v) s (λ _ s', ∃ a', rep s' a' ∧
    only [vap_key 0 bss "_state"] a a' ∧
    active a' bss = if active_refused a bss v then active a bss else boolZ (v =? 1)).
Proof.
  intros Hr Hb. unfold apCfgActiveModeSet, active_refused, guarded.
  destruct ((bss =? 0) && (v =? 0)).
  { cfg_step. exists a. by split_and!; [|apply only_refl|]. }
  cfg_step. eapply run_op_mode; [eassumption|]. intros s1 Hr1. cbn [orb].
  destruct (Zdiffer _ _ && _).
  { cfg_step. exists a. by split_and!; [|apply only_refl|]. }
  unfold apCfgActiveModeGet, get_bool. repeat cfg_step. unfold Zdiffer.
  fold (dec_bool (safe a (vap_key 0 bss "_state"))). fold (active a bss).
  destruct (Z.eqb_spec v (active a bss)) as [E|_]; cbn [negb].
  { cfg_step. exists a. split_and!; [done|apply only_refl|].
    rewrite E. unfold active. by destruct (dec_bool_range (safe a (vap_key 0 bss "_state"))) as [-> | ->]. }
  assert (Hu : 0 <= bss < 4) by (unfold vaps in Hb; set_solver by lia).
  repeat cfg_step. eexists. split_and!; [eassumption| |].
  - intros k Hk. rewrite safe_raise, safe_put_ne; [done|]. by intros ->; apply Hk; left.
  - unfold active. rewrite safe_raise, safe_put_eq. unfold enable. by destruct (v =? 1).
Qed.

Lemma auth_runs s a bss v :
  rep s a → bss ∈ vaps →
  runs (apCfgAuthTypeSet 0 bss v) s (λ _ s', ∃ a', rep s' a' ∧
    only [vap_key 0 bss "_auth_mode"; WSC_KEY] a a' ∧
    (bss = 0 →
     client_mode (op_mode a) = true ∧ enterprise (auth_type a 0) = false ∨ v = APCFG_AUTH_NONE →
     enterprise (auth_type a' 0) = false)).
Proof.
  intros Hr Hb. assert (Hu : 0 <= bss < 4) by (unfold vaps in Hb; set_solver by lia).
  unfold apCfgAuthTypeSet, apCfgAuthTypeGet. repeat cfg_step.
  fold (auth_type a bss). unfold Zdiffer at 1.
  destruct (Z.eqb_spec v (auth_type a bss)) as [->|_]; cbn [negb].
  { cfg_step. exists a. split_and!; [done|apply only_refl|]. intros -> [[_ ?]| ->]; done. }
  cfg_step. eapply run_op_mode; [eassumption|]. intros s1 Hr1.
  set (Q := λ (_ : Z) s', _).
  assert (Hop2 : ∀ k : Z → M S Z, (∀ s', rep s' a → runs (k (op_mode a)) s' Q) →
    runs ((if op_mode a =? CFG_OP_MODE_UC then mret (op_mode a) else apCfgOpModeGet 0) ≫= k) s1 Q).
  { intros k Hk. cfg_step. destruct (op_mode a =? CFG_OP_MODE_UC); [cfg_step; auto|].
    eapply run_op_mode; [eassumption|]. auto. }
  apply Hop2. intros s2 Hr2. clear Hop2. unfold guarded.
  fold (client_mode (op_mode a)). fold (enterprise v).
  destruct (client_mode (op_mode a) && (bss =? 0) && enterprise v) eqn:Eg.
  { cfg_step. exists a. split_and!; [done|apply only_refl|]. intros -> [[_ He] | ->]; [done|].
    by rewrite andb_false_r in Eg. }
  repeat cfg_step'. eexists. split_and!; [eassumption| |].
  - intros k Hk. rewrite wsc_fx_safe by (intros ->; apply Hk; right; left).
    rewrite safe_raise, safe_put_ne; [done|]. by intros ->; apply Hk; left.
  - intros -> Hc.
    assert (Ev : enterprise v = false)
      by (destruct Hc as [[Hc _] | ->]; [by rewrite Hc in Eg|done]).
    unfold auth_type. rewrite wsc_fx_safe by closed.
    rewrite safe_raise, safe_put_eq.
    destruct (code_of_name_of auth_names APCFG_AUTH_NONE "NONE" v) as [->|(n & Hn & ->)]; [done|].
    assert (Hall : Forall (λ e, code_of auth_names APCFG_AUTH_NONE e.2 = e.1) auth_names) by closed.
    rewrite Forall_forall in Hall. pose proof (Hall _ Hn) as E. cbn [fst snd] in E. by rewrite E.
Qed.

Definition forced_20M (m : Z) : bool :=
  (m =? CFG_OP_MODE_ROGAP) || (m =? CFG_OP_MODE_UC) || (m =? CFG_OP_MODE_UR).

Lemma width_runs s a v :
  rep s a →
  runs (apCfgChannelWidthModeSet 0 v) s (λ _ s', ∃ a', rep s' a' ∧
    only [wlan_key 0 "_channel_width"] a a' ∧
    (forced_20M (op_mode a) = true ∨ v = CWM_MODE_20M → width a' = CWM_MODE_20M)).
Proof.
  intros Hr. unfold apCfgChannelWidthModeSet.
  set (Q := λ (_ : Z) s', _).
  assert (Hop : ∀ (b : bool) s1 (k : Z → M S Z), rep s1 a →
    (∀ s', rep s' a → runs (k (op_mode a)) s' Q) →
    runs ((if b then mret (op_mode a) else apCfgOpModeGet 0) ≫= k) s1 Q).
  { intros b s1 k Hr1 Hk. cfg_step. destruct b; [cfg_step; auto|].
    eapply run_op_mode; [eassumption|]. auto. }
  cfg_step. eapply run_op_mode; [eassumption|]. intros s1 Hr1.
  apply Hop; [done|]. intros s2 Hr2. apply Hop; [done|]. intros s3 Hr3.
  cbv zeta. fold (forced_20M (op_mode a)).
  set (v' := if forced_20M (op_mode a) then CWM_MODE_20M else v).
  assert (Hv : forced_20M (op_mode a) = true ∨ v = CWM_MODE_20M → v' = CWM_MODE_20M).
  { unfold v'. intros [-> | ->]; [done|]. by destruct (forced_20M _). }
  clearbody v'. unfold apCfgChannelWidthModeGet. repeat cfg_step. fold (width a). unfold Zdiffer.
  destruct (Z.eqb_spec v' (width a)) as [E|_]; cbn [negb].
  { cfg_step. exists a. split_and!; [done|apply only_refl|]. intros Hf. by rewrite <- E, Hv. }
  repeat cfg_step'. eexists. split_and!; [eassumption| |].
  - intros k Hk. rewrite safe_raise, safe_put_ne; [done|]. by intros ->; apply Hk; left.
  - intros Hf. rewrite (Hv Hf). unfold width.
    rewrite safe_raise, safe_put_eq. done.
Qed.

Lemma isolation_runs s a v :
  rep s a →
  runs (apCfgInterVapForwardingSet 0 v) s (λ _ s', ∃ a', rep s' a' ∧
    only [wlan_key 0 "_isolation"] a a' ∧
    (op_mode a = CFG_OP_MODE_UR ∨ v = 0 → isolation a' = 0)).
Proof.
  intros Hr. unfold apCfgInterVapForwardingSet.
  cfg_step. eapply run_op_mode; [eassumption|]. intros s1 Hr1. cbv zeta.
  set (v' := if op_mode a =? CFG_OP_MODE_UR then 0 else v).
  assert (Hv : op_mode a = CFG_OP_MODE_UR ∨ v = 0 → v' = 0).
  { unfold v'. intros [-> | ->]; [done|]. by destruct (op_mode a =? _). }
  clearbody v'. unfold apCfgInterVapForwardingGet, get_bool. repeat cfg_step.
  fold (dec_bool (safe a (wlan_key 0 "_isolation"))). fold (isolation a). unfold Zdiffer.
  destruct (Z.eqb_spec v' (isolation a)) as [E|_]; cbn [negb].
  { cfg_step. exists a. split_and!; [done|apply only_refl|]. intros Hf. by rewrite <- E, Hv. }
  repeat cfg_step'. eexists. split_and!; [eassumption| |].
  - intros k Hk. rewrite safe_raise, safe_put_ne; [done|]. by intros ->; apply Hk; left.
  - intros Hf. rewrite (Hv Hf). unfold isolation. by rewrite safe_raise, safe_put_eq.
Qed.

(** ** The invariant *)

Lemma op_mode_only ks a a' : only ks a a' → wlan_key 0 "_op_mode" ∉ ks → op_mode a' = op_mode a.
Proof. intros H Hk. unfold op_mode. by rewrite H. Qed.
Lemma active_only ks a a' bss : only ks a a' → vap_key 0 bss "_state" ∉ ks → active a' bss = active a bss.
Proof. intros H Hk. unfold active. by rewrite H. Qed.
Lemma auth_only ks a a' bss :
  only ks a a' → vap_key 0 bss "_auth_mode" ∉ ks → auth_type a' bss = auth_type a bss.
Proof. intros H Hk. unfold auth_type. by rewrite H. Qed.
Lemma width_only ks a a' : only ks a a' → wlan_key 0 "_channel_width" ∉ ks → width a' = width a.
Proof. intros H Hk. unfold width. by rewrite H. Qed.
Lemma isolation_only ks a a' :
  only ks a a' → wlan_key 0 "_isolation" ∉ ks → isolation a' = isolation a.
Proof. intros H Hk. unfold isolation. by rewrite H. Qed.
Lemma ssids_only ks a a' :
  only ks a a' → Forall (λ bss, vap_key 0 bss "" ∉ ks) vaps → ssids_fit a → ssids_fit a'.
Proof.
  intros H Hk Ha. unfold ssids_fit. rewrite Forall_forall in *. intros bss Hb. rewrite H by auto.
  unfold ssids_fit in Ha. rewrite Forall_forall in Ha. auto.
Qed.

Lemma vaps_cases (P : Z → Prop) : P 0 → P 1 → P 2 → P 3 → ∀ bss, bss ∈ vaps → P bss.
Proof. intros H0 H1 H2 H3 bss Hb. unfold vaps in Hb. set_solver. Qed.

Lemma Forall_123 (P : Z → Prop) : Forall P [1; 2; 3] ↔ P 1 ∧ P 2 ∧ P 3.
Proof. rewrite !List.Forall_cons_iff. naive_solver. Qed.

(** Writes the facts about [a'] in terms of [a] where the names differ. *)
Ltac frame_only H :=
  rewrite ?(op_mode_only _ _ _ H) in * by closed;
  rewrite ?(width_only _ _ _ H) in * by closed;
  rewrite ?(isolation_only _ _ _ H) in * by closed.

Lemma active_keeps a a' bss v :
  bss ∈ vaps → only [vap_key 0 bss "_state"] a a' →
  active a' bss = (if active_refused a bss v then active a bss else boolZ (v =? 1)) →
  mode_ok a → mode_ok a'.
Proof.
  intros Hb Ho Ha [M1 M2 M3 M4].
  assert (E : op_mode a' = op_mode a ∧ width a' = width a ∧ isolation a' = isolation a ∧
              auth_type a' 0 = auth_type a 0).
  { revert Hb Ho. clear. revert bss.
    apply (vaps_cases (λ bss, only [vap_key 0 bss "_state"] a a' → _)); intros Ho;
      (split_and!; [eapply op_mode_only|eapply width_only|eapply isolation_only|eapply auth_only];
       [exact Ho|closed|exact Ho|closed|exact Ho|closed|exact Ho|closed]). }
  destruct E as (E1 & E2 & E3 & E4).
  split; rewrite ?E1, ?E2, ?E3, ?E4; try done.
  intros Hop. specialize (M1 Hop). rewrite Forall_forall in M1 |- *. intros b Hin.
  destruct (decide (b = bss)) as [->|Hne].
  - rewrite Ha. unfold active_refused, Zdiffer.
    rewrite (proj2 (Z.eqb_neq bss 0)) by set_solver by lia. cbn [andb orb negb].
    destruct (Z.eqb_spec (op_mode a) CFG_OP_MODE_AP) as [|_]; [done|]. cbn [negb andb].
    destruct (v =? 1); [by apply M1|done].
  - rewrite (active_only _ _ _ b Ho); [by apply M1|].
    intros Hk%list_elem_of_singleton. unfold vap_key in Hk. apply Hne.
    apply app_inv_head, app_inv_head, app_inv_head in Hk. apply app_inv_tail in Hk.
    apply dec_inj in Hk; unfold vaps in Hb; set_solver by lia.
Qed.

Lemma auth_keeps a a' bss :
  bss ∈ vaps → only [vap_key 0 bss "_auth_mode"; WSC_KEY] a a' →
  (bss = 0 → client_mode (op_mode a) = true ∧ enterprise (auth_type a 0) = false →
   enterprise (auth_type a' 0) = false) →
  mode_ok a → mode_ok a'.
Proof.
  intros Hb Ho Ha [M1 M2 M3 M4].
  assert (E : op_mode a' = op_mode a ∧ width a' = width a ∧ isolation a' = isolation a ∧
              active a' 1 = active a 1 ∧ active a' 2 = active a 2 ∧ active a' 3 = active a 3 ∧
              (bss ≠ 0 → auth_type a' 0 = auth_type a 0)).
  { revert Hb Ho. clear. revert bss.
    apply (vaps_cases (λ bss, only [vap_key 0 bss "_auth_mode"; WSC_KEY] a a' → _)); intros Ho;
      (split_and!;
       [ eapply op_mode_only; [exact Ho|closed] | eapply width_only; [exact Ho|closed]
       | eapply isolation_only; [exact Ho|closed] | eapply active_only; [exact Ho|closed]
       | eapply active_only; [exact Ho|closed] | eapply active_only; [exact Ho|closed]
       | intros Hz; first [by destruct Hz | eapply auth_only; [exact Ho|closed]] ]). }
  destruct E as (E1 & E2 & E3 & E4 & E5 & E6 & E7).
  split; rewrite ?E1, ?E2, ?E3; try done.
  - intros Hop. specialize (M1 Hop). rewrite Forall_123 in *. by rewrite E4, E5, E6.
  - intros Hc. destruct (decide (bss = 0)) as [Hz|Hz]; [by apply Ha, conj; auto|by rewrite E7; auto].
Qed.

Lemma width_keeps a a' :
  only [wlan_key 0 "_channel_width"] a a' →
  (forced_20M (op_mode a) = true → width a' = CWM_MODE_20M) → mode_ok a → mode_ok a'.
Proof.
  intros Ho Ha [M1 M2 M3 M4].
  assert (E1 : op_mode a' = op_mode a) by (eapply op_mode_only; [exact Ho|closed]).
  split; rewrite E1.
  - intros Hop. specialize (M1 Hop). rewrite Forall_123 in *.
    by rewrite !(active_only _ _ _ _ Ho) by closed.
  - by rewrite (auth_only _ _ _ _ Ho) by closed.
  - intros Hop. apply Ha. unfold forced_20M. unfold client_mode in Hop.
    destruct Hop as [-> | Hop]; [done|]. by rewrite <- orb_assoc, Hop, orb_true_r.
  - by rewrite (isolation_only _ _ _ Ho) by closed.
Qed.

Lemma isolation_keeps a a' :
  only [wlan_key 0 "_isolation"] a a' →
  (op_mode a = CFG_OP_MODE_UR → isolation a' = 0) → mode_ok a → mode_ok a'.
Proof.
  intros Ho Ha [M1 M2 M3 M4].
  assert (E1 : op_mode a' = op_mode a) by (eapply op_mode_only; [exact Ho|closed]).
  split; rewrite E1.
  - intros Hop. specialize (M1 Hop). rewrite Forall_123 in *.
    by rewrite !(active_only _ _ _ _ Ho) by closed.
  - by rewrite (auth_only _ _ _ _ Ho) by closed.
  - by rewrite (width_only _ _ _ Ho) by closed.
  - exact Ha.
Qed.

(** A change of mode establishes the invariant, whatever held before. *)
Lemma op_mode_name v : code_of op_mode_names CFG_OP_MODE_AP (name_of op_mode_names "AccessPoint" v) = v ∨
  code_of op_mode_names CFG_OP_MODE_AP (name_of op_mode_names "AccessPoint" v) = CFG_OP_MODE_AP.
Proof.
  destruct (code_of_name_of op_mode_names CFG_OP_MODE_AP "AccessPoint" v) as [->|(n & Hn & ->)].
  { by right. }
  assert (Hall : Forall (λ e, code_of op_mode_names CFG_OP_MODE_AP e.2 = e.1) op_mode_names) by closed.
  rewrite Forall_forall in Hall. left. exact (Hall _ Hn).
Qed.

Lemma put_mode a v :
  let a' := raise APL_REBOOT (put (wlan_key 0 "_op_mode") (name_of op_mode_names "AccessPoint" v) a) in
  only [wlan_key 0 "_op_mode"] a a' ∧ (op_mode a' = v ∨ op_mode a' = CFG_OP_MODE_AP).
Proof.
  intros a'. split.
  - intros k Hk. unfold a'. rewrite safe_raise, safe_put_ne; [done|].
    by intros ->; apply Hk; left.
  - unfold op_mode, a'. rewrite safe_raise, safe_put_eq. apply op_mode_name.
Qed.

(** What the loop that switches the other access points off leaves. *)
Definition quiet (a : cfg) : Prop := Forall (λ bss, active a bss = 0) [1; 2; 3].

Lemma switch_off_runs s a :
  rep s a → ssids_fit a →
  runs (for_each [1; 2; 3] (λ vap, ign (apCfgActiveModeSet 0 vap 0))) s
    (λ _ s', ∃ a', rep s' a' ∧ ssids_fit a' ∧ quiet a').
Proof.
  intros Hr Hs. cbn [for_each]. unfold ign.
  repeat cfg_step. use_runs (active_runs s a 1 0 Hr ltac:(closed)).
  intros _ s1 (a1 & Hr1 & Ho1 & Ha1). repeat cfg_step.
  use_runs (active_runs s1 a1 2 0 Hr1 ltac:(closed)).
  intros _ s2 (a2 & Hr2 & Ho2 & Ha2). repeat cfg_step.
  use_runs (active_runs s2 a2 3 0 Hr2 ltac:(closed)).
  intros _ s3 (a3 & Hr3 & Ho3 & Ha3). repeat cfg_step.
  exists a3. split; [done|].
  assert (Hrefuse : ∀ a bss, bss ≠ 0 → active_refused a bss 0 = false).
  { intros b bss Hb. unfold active_refused. rewrite (proj2 (Z.eqb_neq bss 0) Hb).
    cbn [andb orb negb Z.eqb]. apply andb_false_r. }
  rewrite Hrefuse in Ha1, Ha2, Ha3 by done. cbn [Z.eqb boolZ] in *.
  split.
  - eapply (ssids_only _ _ _ Ho3); [closed|]. eapply (ssids_only _ _ _ Ho2); [closed|].
    by eapply (ssids_only _ _ _ Ho1); [closed|].
  - unfold quiet. rewrite Forall_123.
    rewrite (active_only _ _ _ 1 Ho3), (active_only _ _ _ 1 Ho2), (active_only _ _ _ 2 Ho3) by closed.
    done.
Qed.

Lemma run_when (b : bool) (body : M S ()) s (Q : S → Prop) :
  (b = true → runs body s (λ _, Q)) → (b = false → Q s) → runs (when b body) s (λ _, Q).
Proof. intros H1 H2. unfold when. destruct b; [auto|]. apply runs_ret. auto. Qed.

Lemma quiet_only ks a a' :
  only ks a a' → Forall (λ bss, vap_key 0 bss "_state" ∉ ks) [1; 2; 3] → quiet a → quiet a'.
Proof.
  intros H Hk Hq. unfold quiet in *. rewrite Forall_123 in *. destruct Hk as (K1 & K2 & K3).
  by rewrite !(active_only _ _ _ _ H) by done.
Qed.

Lemma quiet_auth_runs s a v :
  rep s a → ssids_fit a → quiet a →
  runs (when (client_mode v) (
          authType ← apCfgAuthTypeGet 0 0;
          when (enterprise authType) (ign (apCfgAuthTypeSet 0 0 APCFG_AUTH_NONE)))) s
    (λ _ s', ∃ a', rep s' a' ∧ ssids_fit a' ∧ quiet a' ∧
      (client_mode v = true → enterprise (auth_type a' 0) = false)).
Proof.
  intros Hr Hs Hq.
  apply run_when; intros Hc; [|exists a; split_and!; [done..|by rewrite Hc]].
  unfold apCfgAuthTypeGet. repeat cfg_step. fold (auth_type a 0).
  apply run_when; intros He; [|exists a; split_and!; [done..|done]].
  unfold ign. cfg_step.
  use_runs (auth_runs s' a 0 APCFG_AUTH_NONE ltac:(eassumption) ltac:(closed)).
  intros _ s1 (a1 & Hr1 & Ho & Ha). cfg_step. exists a1. split_and!; [done| | |intros _; auto].
  - by eapply (ssids_only _ _ _ Ho); [closed|].
  - by eapply (quiet_only _ _ _ Ho); [closed|].
Qed.

Lemma restrict_runs s a v :
  rep s a → ssids_fit a → quiet a →
  runs (_ ← when (client_mode v) (
               authType ← apCfgAuthTypeGet 0 0;
               when (enterprise authType) (ign (apCfgAuthTypeSet 0 0 APCFG_AUTH_NONE)));
        _ ← when (forced_20M v) (ign (apCfgChannelWidthModeSet 0 0));
        when (v =? CFG_OP_MODE_UR) (ign (apCfgInterVapForwardingSet 0 0))) s
    (λ _ s', ∃ a', rep s' a' ∧ ssids_fit a' ∧ quiet a' ∧
      (client_mode v = true → enterprise (auth_type a' 0) = false) ∧
      (forced_20M v = true → width a' = CWM_MODE_20M) ∧
      (v = CFG_OP_MODE_UR → isolation a' = 0)).
Proof.
  intros Hr Hs Hq. apply runs_bind. use_runs (quiet_auth_runs s a v Hr Hs Hq).
  intros _ s1 (a1 & Hr1 & Hs1 & Hq1 & H1). apply runs_bind.
  eapply (runs_mono _ _ (λ _ s', ∃ a', rep s' a' ∧ ssids_fit a' ∧ quiet a' ∧
    (client_mode v = true → enterprise (auth_type a' 0) = false) ∧
    (forced_20M v = true → width a' = CWM_MODE_20M))).
  { apply run_when; intros Hf.
    - unfold ign. cfg_step. use_runs (width_runs s1 a1 0 Hr1). intros _ s2 (a2 & Hr2 & Ho & Hw).
      cfg_step. exists a2. split_and!; [done| | | |intros _; auto].
      + by eapply (ssids_only _ _ _ Ho); [closed|].
      + by eapply (quiet_only _ _ _ Ho); [closed|].
      + by rewrite (auth_only _ _ _ _ Ho) by closed.
    - exists a1. split_and!; [done..|by rewrite Hf]. }
  intros _ s2 (a2 & Hr2 & Hs2 & Hq2 & H2 & H3).
  apply run_when; intros Hf.
  - unfold ign. cfg_step. use_runs (isolation_runs s2 a2 0 Hr2). intros _ s3 (a3 & Hr3 & Ho & Hw).
    cfg_step. exists a3. split_and!; [done| | | | |intros _; auto].
    + by eapply (ssids_only _ _ _ Ho); [closed|].
    + by eapply (quiet_only _ _ _ Ho); [closed|].
    + by rewrite (auth_only _ _ _ _ Ho) by closed.
    + by rewrite (width_only _ _ _ Ho) by closed.
  - exists a2. split_and!; [done..|]. apply Z.eqb_neq in Hf. done.
Qed.

(** Switching the named access points on again, in AP mode. *)
Lemma switch_on_runs l s a :
  l ⊆ vaps → 0 ∉ l → rep s a → ssids_fit a → op_mode a = CFG_OP_MODE_AP →
  runs (for_each l (λ vap, ssid ← apCfgSsidGet 0 vap;
          when (negb (zlen ssid =? 0)) (ign (apCfgActiveModeSet 0 vap 1)))) s
    (λ _ s', ∃ a', rep s' a' ∧ ssids_fit a' ∧ op_mode a' = CFG_OP_MODE_AP).
Proof.
  revert s a. induction l as [|bss l IH]; intros s a Hl H0 Hr Hs Hop; cbn [for_each].
  { apply runs_ret. eauto. }
  assert (Hb : bss ∈ vaps) by set_solver.
  assert (Hu : 0 <= bss < 4) by (unfold vaps in Hb; set_solver by lia).
  unfold apCfgSsidGet, get_str. repeat cfg_step.
  pose proof Hs as Hs'. unfold ssids_fit in Hs'. rewrite Forall_forall in Hs'.
  specialize (Hs' bss Hb). cbv beta in Hs'. repeat cfg_step.
  eapply (runs_mono _ _ (λ _ s', ∃ a', rep s' a' ∧ ssids_fit a' ∧ op_mode a' = CFG_OP_MODE_AP)).
  - apply run_when; intros _; [|eauto].
    unfold ign. cfg_step. use_runs (active_runs s' a bss 1 ltac:(eassumption) Hb).
    intros _ s1 (a1 & Hr1 & Ho & _). cfg_step. exists a1.
    split_and!; [done| |rewrite <- Hop]; revert Hb Ho; clear -Hs; revert bss.
    + apply (vaps_cases (λ bss, only [vap_key 0 bss "_state"] a a1 → _)); intros Ho;
        (eapply (ssids_only _ _ _ Ho); [closed|done]).
    + apply (vaps_cases (λ bss, only [vap_key 0 bss "_state"] a a1 → _)); intros Ho;
        (eapply op_mode_only; [exact Ho|closed]).
  - intros _ s1 (a1 & Hr1 & Hs1 & Hop1). apply (IH s1 a1); set_solver.
Qed.

Lemma op_mode_runs s a v :
  rep s a → ssids_fit a →
  runs (apCfgOpModeSet 0 v) s (λ _ s', ∃ a', rep s' a' ∧ ssids_fit a' ∧ (a' = a ∨ mode_ok a')).
Proof.
  intros Hr Hs. unfold apCfgOpModeSet. cfg_step.
  eapply run_op_mode; [eassumption|]. intros s1 Hr1. unfold Zdiffer at 1.
  destruct (v =? op_mode a); cbn [negb]; [cfg_step; exists a; auto|].
  cbv zeta. apply runs_bind.
  eapply (runs_mono _ _ (λ _ s', ∃ a', rep s' a' ∧ ssids_fit a' ∧ (v = CFG_OP_MODE_AP ∨
    (quiet a' ∧ (client_mode v = true → enterprise (auth_type a' 0) = false) ∧
     (forced_20M v = true → width a' = CWM_MODE_20M) ∧ (v = CFG_OP_MODE_UR → isolation a' = 0))))).
  { apply run_when; unfold Zdiffer; intros Hv.
    - apply runs_bind. use_runs (switch_off_runs s1 a Hr1 Hs). intros _ s2 (a2 & Hr2 & Hs2 & Hq).
      use_runs (restrict_runs s2 a2 v Hr2 Hs2 Hq). intros _ s3 (a3 & Hr3 & Hs3 & H). eauto 8.
    - exists a. split_and!; [done..|]. left. lia. }
  intros _ s2 (a2 & Hr2 & Hs2 & Hcase). repeat cfg_step'.
  destruct (put_mode a2 v) as [Ho Hop].
  set (a3 := raise APL_REBOOT _) in *.
  assert (Hs3 : ssids_fit a3) by (eapply (ssids_only _ _ _ Ho); [closed|done]).
  eapply (runs_mono _ _ (λ _ s', ∃ a', rep s' a' ∧ ssids_fit a' ∧ mode_ok a')).
  2: { intros _ s4 (a4 & Hr4 & Hs4 & Hm). cfg_step. eauto. }
  apply run_when; intros Hv.
  - assert (op_mode a3 = CFG_OP_MODE_AP) by (destruct Hop; lia).
    eapply runs_mono; [apply (switch_on_runs [1; 2; 3] _ a3); [set_solver|closed|eassumption|done|done]|].
    intros _ s4 (a4 & Hr4 & Hs4 & Hop4). exists a4. split_and!; [done..|].
    split; rewrite Hop4; [done|done|by intros []|done].
  - apply Z.eqb_neq in Hv. destruct Hcase as [|(Hq & H1 & H2 & H3)]; [by destruct Hv|].
    exists a3. split_and!; [eassumption|done|]. destruct Hop as [Hop|Hop].
    2: { split; rewrite Hop; [done|done|by intros []|done]. }
    split; rewrite Hop.
    + intros _. by eapply (quiet_only _ _ _ Ho); [closed|].
    + by rewrite (auth_only _ _ _ _ Ho) by closed.
    + rewrite (width_only _ _ _ Ho) by closed. intros Hw. apply H2. unfold forced_20M.
      unfold client_mode in Hw. destruct Hw as [-> | Hw]; [done|].
      by rewrite <- orb_assoc, Hw, orb_true_r.
    + by rewrite (isolation_only _ _ _ Ho) by closed.
Qed.

(** ** Sequences *)

Lemma mode_exec_runs c s a :
  mode_call_ok c → rep s a → ssids_fit a → mode_ok a →
  runs (mode_exec c) s (λ _ s', ∃ a', rep s' a' ∧ ssids_fit a' ∧ mode_ok a').
Proof.
  intros Hc Hr Hs Hm. destruct c as [v|bss v|bss v|v|v]; cbn [mode_exec].
  - use_runs (op_mode_runs s a v Hr Hs). intros _ s1 (a1 & Hr1 & Hs1 & [-> | Hm1]); eauto.
  - use_runs (active_runs s a bss v Hr Hc). intros _ s1 (a1 & Hr1 & Ho & Ha). exists a1.
    split_and!; [done| |by eapply active_keeps].
    revert Hc Ho; clear -Hs; revert bss; unfold mode_call_ok.
    apply (vaps_cases (λ bss, only [vap_key 0 bss "_state"] a a1 → _)); intros Ho;
      (eapply (ssids_only _ _ _ Ho); [closed|done]).
  - use_runs (auth_runs s a bss v Hr Hc). intros _ s1 (a1 & Hr1 & Ho & Ha). exists a1.
    split_and!; [done| |eapply auth_keeps; eauto].
    revert Hc Ho; clear -Hs; revert bss; unfold mode_call_ok.
    apply (vaps_cases (λ bss, only [vap_key 0 bss "_auth_mode"; WSC_KEY] a a1 → _)); intros Ho;
      (eapply (ssids_only _ _ _ Ho); [closed|done]).
  - use_runs (width_runs s a v Hr). intros _ s1 (a1 & Hr1 & Ho & Ha). exists a1.
    split_and!; [done|by eapply (ssids_only _ _ _ Ho); [closed|]|eapply width_keeps; eauto].
  - use_runs (isolation_runs s a v Hr). intros _ s1 (a1 & Hr1 & Ho & Ha). exists a1.
    split_and!; [done|by eapply (ssids_only _ _ _ Ho); [closed|]|eapply isolation_keeps; eauto].
Qed.

Lemma mode_session_runs cs s a :
  Forall mode_call_ok cs → rep s a → ssids_fit a → mode_ok a →
  runs (mode_session cs) s (λ _ s', ∃ a', rep s' a' ∧ ssids_fit a' ∧ mode_ok a').
Proof.
  revert s a. induction cs as [|c cs IH]; intros s a Hcs Hr Hs Hm; cbn [mode_session].
  { apply runs_ret. eauto. }
  apply List.Forall_cons_iff in Hcs as [Hc Hcs]. apply runs_bind.
  use_runs (mode_exec_runs c s a Hc Hr Hs Hm). intros r s1 (a1 & Hr1 & Hs1 & Hm1).
  apply runs_bind. use_runs (IH s1 a1 Hcs Hr1 Hs1 Hm1). intros rs s2 H2. by apply runs_ret.
Qed.
End mode.
