(* ===== verification/FlagTheorems.v ===== *)
(** * The theorems about operation modes and apply flags *)

From S2P Require Import Prelude CLib Inet Utility FileSys Nvram NvramSpec NvramCorrect Scfg Sample CfgStore ApCfgSys ApCfgWlan CfgRefine ApCfgSpec AplFlag CfgImpl Session CfgOverflow CfgTheorems CfgMode.

(** ** Operation modes *)

Section mode.
Context {S : Type} {store : CfgStore S} {laws : CfgStoreLaws S}.

(** C20: what a mode rules out stays ruled out.  Under any sequence of the setters
    of the operation mode, the access points' states, the security, the channel
    width and the isolation, with any arguments, the radio outside AP mode keeps
    its other access points off, a client mode keeps enterprise security off
    access point 0 and the channel at 20 MHz, monitor mode the channel at 20 MHz,
    and the universal repeater the isolation off. *)
Theorem mode_restrictions_kept cs s a :
  Forall mode_call_ok cs → rep s a → ssids_fit a → mode_ok a →
  runs (mode_session cs) s (λ _ s', ∃ a', rep s' a' ∧ ssids_fit a' ∧ mode_ok a').
Proof. apply mode_session_runs. Qed.
End mode.

#[local] Existing Instances sample_store sample_laws.

Lemma sample_mode_ok : mode_ok sample_cfg ∧ ssids_fit sample_cfg.
Proof. split; [split; vm_compute; intuition congruence|closed]. Qed.

Example mode_restrictions_kept_witness :
  runs (mode_session [ActiveModeSet 1 1; AuthTypeSet 0 APCFG_AUTH_WPA; OpModeSet CFG_OP_MODE_UC;
                      ActiveModeSet 2 1; ChannelWidthModeSet 2]) sample
    (λ _ s', ∃ a', rep s' a' ∧ ssids_fit a' ∧ mode_ok a').
Proof.
  refine (mode_restrictions_kept _ sample sample_cfg _ sample_cfg_rep
            (proj2 sample_mode_ok) (proj1 sample_mode_ok)). closed.
Defined.

(** ** Apply flags *)

Section flags.
Context {heap : Heap} {dev : FlashDev} {shell : Shell}.

(** The numbers in the file are those raised, and one zero for the round that
    meets its end. *)
Definition named (id : Z) : Prop := 0 <= id < APL_NAMED.

Lemma flag_line_facts id : named id →
  nl ∉ dec id ∧ (length (dec id) < 7)%nat ∧ atoi (cut_nul (dec id ++ [nl])) = id.
Proof.
  intros Hid.
  assert (H : Forall (λ id, nl ∉ dec id ∧ (length (dec id) < 7)%nat ∧
    atoi (cut_nul (dec id ++ [nl])) = id) (map Z.of_nat (seq 0 33))) by closed.
  rewrite Forall_forall in H. apply H. apply list_elem_of_In, in_map_iff.
  exists (Z.to_nat id). unfold named, APL_NAMED in Hid. split; [lia|]. apply in_seq. lia.
Qed.

Lemma flag_ids_lines l fuel :
  Forall named l → (length l < fuel)%nat → flag_ids fuel (concat (map flag_line l)) = l ++ [0].
Proof.
  revert fuel. induction l as [|id l IH]; intros [|fuel] Hl Hf; cbn [length] in Hf; try lia; [done|].
  apply List.Forall_cons_iff in Hl as [Hid Hl]. destruct (flag_line_facts id Hid) as (Hn & H7 & Hid').
  cbn [map concat flag_ids]. unfold flag_line at 1. rewrite <- app_assoc. cbn [app].
  rewrite (fgets_go_line 7 (dec id) _ Hn H7 : fgets_go 7 (dec id ++ nl :: _) = (dec id ++ [nl], _)).
  rewrite last_snoc, Hid'. rewrite bool_decide_true by done.
  cbn [negb]. rewrite andb_false_r. rewrite IH by (done || lia). done.
Qed.

Lemma parse_flags_lines l : Forall named l → parse_flags (concat (map flag_line l)) = l ++ [0].
Proof.
  intros Hl. apply flag_ids_lines; [done|].
  assert (H : ∀ l, (length l <= length (concat (map flag_line l)))%nat).
  { clear. induction l as [|id l IH]; [done|]. cbn [map concat length]. unfold flag_line at 1.
    rewrite !length_app. cbn [length]. lia. }
  specialize (H l). lia.
Qed.

Lemma reader_runs s a l f (check : list Z → Z) :
  sys_rep s a → raised a = Some l → Forall named l → check [0] = 0 → check (l ++ [0]) = f →
  runs (f ← read_file APL_FLAG;
        mret (match f with None => 0 | Some data => check (parse_flags data) end)) s
    (λ r s', r = f ∧ s' = s).
Proof.
  intros (es & ds & _ & _ & Hf) Hl Hn H0 <-. rewrite Hl in Hf. destruct Hf as (_ & _ & Hd).
  unfold read_file. apply runs_bind, runs_bind, runs_get, runs_ret, runs_ret. split; [|done].
  destruct (files s !! APL_FLAG) as [data|]; unfold default, from_option, id in Hd.
  - rewrite Hd. by rewrite parse_flags_lines.
  - destruct l as [|id l]; [done|]. exfalso. cbn [map concat] in Hd. unfold flag_line in Hd.
    by destruct (dec id).
Qed.

Lemma existsb_raised (p : Z → bool) l : p 0 = false → existsb p (l ++ [0]) = existsb p l.
Proof. intros H0. rewrite existsb_app. cbn. by rewrite H0, orb_false_r. Qed.

(** The flags raised are the flags found.  On a machine with the flags [l]
    raised, [apcfgReboot] answers whether a reboot is among them and
    [apcfgisIphander] whether an address change is, and neither changes
    anything. *)
Theorem flag_readers_exact s a l :
  sys_rep s a → raised a = Some l → Forall named l →
  runs apcfgReboot s (λ r s', r = boolZ (bool_decide (APL_REBOOT ∈ l)) ∧ s' = s) ∧
  runs apcfgisIphander s
    (λ r s', r = boolZ (bool_decide (APL_IPv4 ∈ l ∨ APL_IPv6 ∈ l)) ∧ s' = s).
Proof.
  intros Hr Hl Hn. split.
  - apply (reader_runs s a l _ (λ ids, boolZ (existsb (Z.eqb APL_REBOOT) ids)) Hr Hl Hn); [done|].
    rewrite existsb_raised by done. f_equal. apply eq_true_iff_eq.
    rewrite existsb_exists, bool_decide_eq_true. split.
    + intros (x & Hx & E%Z.eqb_eq). subst. by apply list_elem_of_In.
    + intros Hin. exists APL_REBOOT. split; [by apply list_elem_of_In|done].
  - apply (reader_runs s a l _
      (λ ids, boolZ (existsb (λ id, (id =? APL_IPv4) || (id =? APL_IPv6)) ids)) Hr Hl Hn); [done|].
    rewrite existsb_raised by done. f_equal. apply eq_true_iff_eq.
    rewrite existsb_exists, bool_decide_eq_true. split.
    + intros (x & Hx & [E%Z.eqb_eq|E%Z.eqb_eq]%orb_true_iff); subst; apply list_elem_of_In in Hx; auto.
    + intros [Hin|Hin]; apply list_elem_of_In in Hin; eexists; (split; [exact Hin|done]).
Qed.

(** The flag without a name. *)
Lemma flag_33_faults s l : flags_rep s (Some l) → AplFlag.apl_set_flag APL_AUTOREBOOT s = Fault.
Proof.
  intros (Hc & Hp & _).
  assert (Hno : ∀ p, files s !! p = None → access p s = Done (false, s)).
  { intros p Hf. unfold access, getS, mbind, M_bind, mret, M_ret. rewrite Hf.
    by rewrite bool_decide_false by (by intros [? ?]). }
  unfold AplFlag.apl_set_flag. unfold mbind, M_bind.
  rewrite (Hno _ Hc). cbv beta iota. by rewrite (Hno _ Hp).
Qed.

Lemma bind_faults {A B} (m : M sys A) (k : A → M sys B) s (Q : A → sys → Prop) :
  runs m s Q → (∀ r s', Q r s' → k r s' = Fault) → (m ≫= k) s = Fault.
Proof.
  unfold runs, mbind, M_bind. destruct (m s) as [[r s']| |]; [|done|done]. intros HQ Hk. by apply Hk.
Qed.

Definition flagged (l : list Z) (s : sys) : Prop := ∃ a, sys_rep s a ∧ raised a = Some l.

(** A stored change followed by the raising of the flag. *)
Lemma set_then_flag_33 stack l s k d (rest : M sys Z) :
  (∀ n, 0 < n <= 4500 → alloc_ok n = true) →
  flagged l s → key_ok k → nul_free d → pair_fits k d →
  (_ ← Scfg.scfgmgr_set stack k d; _ ← AplFlag.apl_set_flag APL_AUTOREBOOT; rest) s = Fault.
Proof.
  intros Ha (a & Hr & Hl) Hk Hd Hp.
  eapply bind_faults; [by apply (sys_set_runs stack s a k d)|]. cbv beta.
  intros _ s' (es & ds & _ & _ & Hf). rewrite raised_put, Hl in Hf.
  unfold mbind, M_bind. by rewrite (flag_33_faults s' l).
Qed.

Lemma pad0_nul_free n z : nul_free (pad0 n (dec z)).
Proof.
  unfold pad0. apply nul_free_app. split; [|apply dec_nul_free].
  intros Hin%elem_of_replicate. by destruct Hin.
Qed.

Lemma pad0_length n z : - 2 ^ 31 <= z < 2 ^ 31 → (length (pad0 n (dec z)) <= n + 11)%nat.
Proof.
  intros Hz. pose proof (dec_length z Hz). unfold pad0. rewrite length_app, length_replicate. lia.
Qed.

(** The getters of the automatic reboot leave the configuration as it is. *)
Lemma autoreboot_get_runs {A} (get : M sys A) s a l x :
  (∀ s a, sys_rep s a → runs get s (λ _ s', sys_rep s' a)) →
  sys_rep s a → raised a = Some l → runs get s (λ r _, r ≠ x) →
  ∀ (k : A → M sys Z), (∀ r s', r ≠ x → flagged l s' → k r s' = Fault) → (get ≫= k) s = Fault.
Proof.
  intros Hg Hr Hl Hx k Hk. eapply (bind_faults _ _ _ (λ r s', r ≠ x ∧ flagged l s')).
  - specialize (Hg s a Hr). unfold runs in *. destruct (get s) as [[r s']| |]; [|done|done].
    split; [done|]. by exists a.
  - intros r s' [? ?]. by apply Hk.
Qed.

(** the settings of the automatic reboot cannot be changed.  Their flag has no
    entry in the table of flag names, which [apl_set_flag] indexes for its log:
    once a new value of any of the three has been stored, the table is left. *)
Theorem autoreboot_setters_fault stack s a l v iv hour min :
  let store := sys_store stack in
  (∀ n, 0 < n <= 4500 → alloc_ok n = true) → sys_rep s a → raised a = Some l →
  (runs apCfgAutoRebootModeGet s (λ r _, r ≠ v) → apCfgAutoRebootModeSet v s = Fault) ∧
  (runs apCfgAutoRebootIntervalGet s (λ r _, r ≠ iv) →
   CFG_MIN_REBOOT_TIME <= iv <= CFG_MAX_REBOOT_TIME → scApCfgAutoRebootIntervalSet iv s = Fault) ∧
  (runs apCfgAutoRebootTimeGet s (λ r _, r ≠ (hour, min)) →
   0 <= hour <= 23 → 0 <= min <= 59 → scApCfgAutoRebootTimeSet hour min s = Fault).
Proof.
  intros store Ha Hr Hl.
  assert (Hget : ∀ {A} (f : cstr → A) k, key_ok k → ∀ s a, sys_rep s a →
    runs (p ← CfgStore.nvram_safe_get k; mret (f p)) s (λ _ s', sys_rep s' a)).
  { intros A f k Hk s0 a0 Hr0. apply runs_bind. use_runs (sys_safe_get_runs s0 a0 k Hr0 Hk).
    intros ? ? [_ ?]. by apply runs_ret. }
  split_and!.
  - intros Hx. unfold apCfgAutoRebootModeSet.
    apply (autoreboot_get_runs apCfgAutoRebootModeGet s a l v); [|done..|].
    { apply Hget. closed. }
    intros r s' Hne Hf. unfold Zdiffer. rewrite (proj2 (Z.eqb_neq v r)) by done. cbn [negb].
    apply (set_then_flag_33 stack l); [done|done|closed|apply enable_nul_free|].
    unfold pair_fits. rewrite enable_length. vm_compute. done.
  - intros Hx Hiv. unfold scApCfgAutoRebootIntervalSet, guarded.
    rewrite (proj2 (Z.ltb_ge _ _)), (proj2 (Z.ltb_ge CFG_MAX_REBOOT_TIME _)) by lia. cbn [orb].
    apply (autoreboot_get_runs apCfgAutoRebootIntervalGet s a l iv); [|done..|].
    { apply Hget. closed. }
    intros r s' Hne Hf. unfold Zdiffer. rewrite (proj2 (Z.eqb_neq iv r)) by done. cbn [negb].
    unfold sprintf_d. destruct (decide (length (dec iv) < 6)%nat) as [H6|]; [|done].
    apply (set_then_flag_33 stack l); [done|done|closed|apply dec_nul_free|].
    unfold pair_fits. change (zlen _) with 20 at 1. lia.
  - intros Hx Hh Hm. unfold scApCfgAutoRebootTimeSet, guarded.
    repeat (rewrite (proj2 (Z.ltb_ge _ _)) by lia). cbn [orb].
    apply (autoreboot_get_runs apCfgAutoRebootTimeGet s a l (hour, min)); [|done..|].
    { apply Hget. closed. }
    intros [h m] s' Hne Hf. cbn [fst snd]. unfold Zdiffer.
    assert (negb (hour =? h) || negb (min =? m) = true) as ->.
    { destruct (Z.eqb_spec hour h), (Z.eqb_spec min m); subst; done. }
    apply (set_then_flag_33 stack l); [done|done|closed| |].
    + rewrite nul_free_app, nul_free_cons. split_and!; [apply pad0_nul_free|done|apply pad0_nul_free].
    + unfold pair_fits. rewrite length_app. cbn [length].
      assert (zlen ("auto_reboot_time" : cstr) = 16) as -> by reflexivity.
      pose proof (pad0_length 2 hour ltac:(lia)). pose proof (pad0_length 2 min ltac:(lia)). lia.
Qed.
End flags.

Example flag_readers_exact_witness :
  runs apcfgReboot sample (λ r s', r = boolZ (bool_decide (APL_REBOOT ∈ [])) ∧ s' = sample) ∧
  runs apcfgisIphander sample
    (λ r s', r = boolZ (bool_decide (APL_IPv4 ∈ [] ∨ APL_IPv6 ∈ [])) ∧ s' = sample).
Proof.
  apply (flag_readers_exact sample sample_cfg []);
    [apply sample_cfg_rep|reflexivity|apply List.Forall_nil].
Defined.

Example autoreboot_setters_fault_witness :
  apCfgAutoRebootModeSet 0 sample = Fault ∧ scApCfgAutoRebootIntervalSet 7 sample = Fault ∧
  scApCfgAutoRebootTimeSet 3 30 sample = Fault.
Proof.
  destruct (@autoreboot_setters_fault sample_heap ideal_dev sample_shell 7 sample sample_cfg []
              0 7 3 30 sample_heap_ok sample_cfg_rep eq_refl) as (H1 & H2 & H3).
  split_and!; [apply H1|apply H2|apply H3].
  all: try (vm_compute; congruence).
  all: vm_compute; intuition congruence.
Defined.
