(* ===== verification/UtilityCorrect.v ===== *)
(** * Lemmas about the utility library

    The sort of arrays; the validators and converters. *)

From Stdlib Require Import Sorted.
From S2P Require Import Prelude CLib Inet Utility ApCfgLists.

(** * The sort of the utility library is a sort

    [scCompositor] exchanges elements in place, quicksort with the middle
    element as pivot.  On a segment inside the array it leaves a permutation,
    ordered on the segment and untouched outside it. *)

Section sort.
Implicit Types v : list Z.

Lemma insert_swap v i x y : v !! i = Some x → x :: <[i:=y]> v ≡ₚ y :: v.
Proof.
  revert i. induction v as [|z v IH]; intros [|i] Hi; simplify_eq/=.
  - apply Permutation_swap.
  - rewrite Permutation_swap, IH by done. apply Permutation_swap.
Qed.

Lemma nth_insert v i k x :
  (i < length v)%nat → nth k (<[i:=x]> v) 0 = if decide (k = i) then x else nth k v 0.
Proof.
  intros Hi. rewrite !nth_lookup. destruct (decide (k = i)) as [->|Hne].
  - by rewrite list_lookup_insert_eq.
  - by rewrite list_lookup_insert_ne.
Qed.

Lemma sc_swap_length v i j : length (sc_swap v i j) = length v.
Proof. unfold sc_swap. by rewrite !length_insert. Qed.

Lemma sc_swap_perm v i j :
  (i < length v)%nat → (j < length v)%nat → sc_swap v i j ≡ₚ v.
Proof.
  intros Hi Hj. unfold sc_swap.
  destruct (lookup_lt_is_Some_2 v i Hi) as [x Hx]. destruct (lookup_lt_is_Some_2 v j Hj) as [y Hy].
  rewrite !nth_lookup, Hx, Hy. cbn [default from_option id].
  apply (Permutation_cons_inv (a := y)). etransitivity; [apply insert_swap|].
  - destruct (decide (i = j)) as [->|Hne]; [by rewrite list_lookup_insert_eq|].
    by rewrite list_lookup_insert_ne.
  - by apply insert_swap.
Qed.

Lemma sc_swap_nth v i j k :
  (i < length v)%nat → (j < length v)%nat →
  nth k (sc_swap v i j) 0 =
    if decide (k = j) then nth i v 0 else if decide (k = i) then nth j v 0 else nth k v 0.
Proof.
  intros Hi Hj. unfold sc_swap. rewrite nth_insert by (by rewrite length_insert).
  destruct (decide (k = j)); [done|]. by rewrite nth_insert.
Qed.

(** ** The partition *)

(** Before the round at [i]: the pivot at [left], smaller elements up to
    [last], the others up to [i]. *)
Record parted (v : list Z) (left last i : nat) : Prop := Parted {
  pt_left : (left <= last < i)%nat;
  pt_small k : (left < k <= last)%nat → nth k v 0 < nth left v 0;
  pt_large k : (last < k < i)%nat → nth left v 0 <= nth k v 0;
}.

(** [w] is [v] with elements of the segment exchanged. *)
Record within (l r : nat) (v w : list Z) : Prop := Within {
  wi_perm : w ≡ₚ v;
  wi_out k : (k < l ∨ r < k)%nat → nth k w 0 = nth k v 0;
  wi_all (P : Z → Prop) : (∀ k, (l <= k <= r)%nat → P (nth k v 0)) → ∀ k, (l <= k <= r)%nat → P (nth k w 0);
}.

Lemma within_refl l r v : within l r v v.
Proof. split; auto. Qed.

Lemma within_length l r v w : within l r v w → length w = length v.
Proof. intros H. by rewrite (wi_perm _ _ _ _ H). Qed.

Lemma within_trans l r u v w : within l r u v → within l r v w → within l r u w.
Proof.
  intros [P1 O1 A1] [P2 O2 A2]. split.
  - by rewrite P2.
  - intros k Hk. by rewrite O2, O1.
  - intros P HP. by apply A2, A1.
Qed.

Lemma within_wider l r l' r' v w :
  (l' <= l)%nat → (r <= r')%nat → within l r v w → within l' r' v w.
Proof.
  intros Hl Hr [P1 O1 A1]. split; [done|intros k Hk; apply O1; lia|].
  intros P HP k Hk. destruct (decide (l <= k <= r)%nat) as [Hin|Hout].
  - apply (A1 P); [|done]. intros j Hj. apply HP. lia.
  - rewrite O1 by lia. by apply HP.
Qed.

Lemma within_swap l r v i j :
  (l <= i <= r)%nat → (l <= j <= r)%nat → (r < length v)%nat → within l r v (sc_swap v i j).
Proof.
  intros Hi Hj Hr. split.
  - apply sc_swap_perm; lia.
  - intros k Hk. rewrite sc_swap_nth by lia.
    destruct (decide (k = j)); [lia|]. by destruct (decide (k = i)); [lia|].
  - intros P HP k Hk. rewrite sc_swap_nth by lia.
    destruct (decide (k = j)); [by apply HP|]. destruct (decide (k = i)); by apply HP.
Qed.

Lemma partition_loop_ok n v left last i :
  parted v left last i → (i + n <= length v)%nat →
  let '(w, last') := partition_loop n v left last i in
  parted w left last' (i + n) ∧ nth left w 0 = nth left v 0 ∧
  within (S left) (i + n - 1) v w.
Proof.
  revert v last i. induction n as [|n IH]; intros v last i Hp Hn; cbn [partition_loop].
  { rewrite Nat.add_0_r. split_and!; [done|done|apply within_refl]. }
  destruct Hp as [Hl Hs Hg]. destruct (Z.ltb_spec (nth i v 0) (nth left v 0)) as [Hlt|Hge].
  - assert (Hp' : parted (sc_swap v (S last) i) left (S last) (S i)).
    { assert (Hw : ∀ k, nth k (sc_swap v (S last) i) 0 = if decide (k = i) then nth (S last) v 0
                else if decide (k = S last) then nth i v 0 else nth k v 0)
        by (intros k; apply sc_swap_nth; lia).
      split; [lia| |]; intros k Hk; rewrite !Hw.
      - rewrite (decide_False (P := left = i)), (decide_False (P := left = S last)) by lia.
        destruct (decide (k = i)) as [->|]; [by replace (S last) with i by lia|].
        destruct (decide (k = S last)); [done|]. apply Hs. lia.
      - rewrite (decide_False (P := left = i)), (decide_False (P := left = S last)) by lia.
        destruct (decide (k = i)) as [->|]; [apply Hg; lia|].
        rewrite decide_False by lia. apply Hg. lia. }
    specialize (IH _ _ _ Hp'). rewrite sc_swap_length in IH. specialize (IH ltac:(lia)).
    destruct (partition_loop n _ left (S last) (S i)) as [w last'].
    replace (S i + n)%nat with (i + S n)%nat in IH by lia.
    destruct IH as (Hp2 & Hpv & Hw). split; [done|]. split.
    + rewrite Hpv, sc_swap_nth by lia. by rewrite !decide_False by lia.
    + eapply within_trans; [|exact Hw]. apply within_swap; lia.
  - assert (Hp' : parted v left last (S i)).
    { split; [lia|done|]. intros k Hk. destruct (decide (k = i)) as [->|]; [done|]. apply Hg. lia. }
    specialize (IH v last (S i) Hp' ltac:(lia)).
    destruct (partition_loop n v left last (S i)) as [w last'].
    by replace (S i + n)%nat with (i + S n)%nat in IH by lia.
Qed.

(** ** The sort *)

Definition ordered (l r : nat) (v : list Z) : Prop :=
  ∀ i j, (l <= i <= j)%nat → (j <= r)%nat → nth i v 0 <= nth j v 0.

(** The two sorted sides of the pivot. *)
Lemma ordered_join l r last (v : list Z) p :
  (∀ k, (l <= k < last)%nat → nth k v 0 <= p) → nth last v 0 = p →
  (∀ k, (last < k <= r)%nat → p <= nth k v 0) →
  ordered l (last - 1) v ∨ (last <= l)%nat → ordered (S last) r v ∨ (r <= last)%nat → ordered l r v.
Proof.
  intros Hs Hp Hg Ho1 Ho2 i j Hij Hj.
  destruct (lt_eq_lt_dec i last) as [[Hi| ->]|Hi]; destruct (lt_eq_lt_dec j last) as [[Hj'| ->]|Hj'];
    try lia.
  - destruct Ho1 as [Ho1|]; [apply Ho1; lia|lia].
  - rewrite Hp. apply Hs. lia.
  - transitivity p; [apply Hs; lia|apply Hg; lia].
  - rewrite Hp. apply Hg. lia.
  - destruct Ho2 as [Ho2|]; [apply Ho2; lia|lia].
Qed.

Definition sorts (fuel : nat) : Prop := ∀ v (l : nat) right,
  right < zlen v → right - Z.of_nat l < Z.of_nat fuel →
  let w := scCompositor fuel v (Z.of_nat l) right in
  (right <= Z.of_nat l → w = v) ∧ within l (Z.to_nat right) v w ∧ ordered l (Z.to_nat right) w.

(** The array after the pivot is in place. *)
Lemma pivot_placed v (l r : nat) (m : nat) :
  (l <= m <= r)%nat → (r < length v)%nat →
  let '(v2, last_) := partition_loop (r - l) (sc_swap v l m) l l (S l) in
  let v3 := sc_swap v2 l last_ in
  (l <= last_ <= r)%nat ∧ within l r v v3 ∧ length v3 = length v ∧
  (∀ k, (l <= k < last_)%nat → nth k v3 0 <= nth last_ v3 0) ∧
  (∀ k, (last_ < k <= r)%nat → nth last_ v3 0 <= nth k v3 0).
Proof.
  intros Hm Hr. set (v1 := sc_swap v l m).
  assert (H1 : within l r v v1) by (apply within_swap; lia).
  pose proof (within_length _ _ _ _ H1) as L1.
  assert (Hp : parted v1 l l (S l)) by (split; [lia|intros; lia|intros; lia]).
  pose proof (partition_loop_ok (r - l) v1 l l (S l) Hp ltac:(lia)) as H2.
  destruct (partition_loop (r - l) v1 l l (S l)) as [v2 last_].
  replace (S l + (r - l))%nat with (S r) in H2 by lia.
  destruct H2 as ([Hl Hs Hg] & Hpv & H2). pose proof (within_length _ _ _ _ H2) as L2.
  split; [lia|]. split; [|split; [rewrite sc_swap_length; lia|]].
  - eapply within_trans; [exact H1|]. eapply within_trans.
    + apply (within_wider (S l) (S r - 1)); [lia|lia|exact H2].
    + apply within_swap; lia.
  - assert (Hw : ∀ k, nth k (sc_swap v2 l last_) 0 = if decide (k = last_) then nth l v2 0
                else if decide (k = l) then nth last_ v2 0 else nth k v2 0)
      by (intros k; apply sc_swap_nth; lia).
    split; intros k Hk; rewrite !Hw, (decide_True (P := last_ = last_)) by done.
    + rewrite decide_False by lia. destruct (decide (k = l)) as [->|].
      * destruct (decide (l = last_)); [lia|]. specialize (Hs last_ ltac:(lia)). lia.
      * specialize (Hs k ltac:(lia)). lia.
    + rewrite !decide_False by lia. apply Hg. lia.
Qed.

Lemma sorts_step fuel : sorts fuel → sorts (S fuel).
Proof.
  intros IH v l right Hr Hf. cbn [scCompositor]. destruct (Z.leb_spec right (Z.of_nat l)) as [Hle|Hgt].
  { split; [done|]. split; [apply within_refl|]. intros i j Hij Hj.
    assert (i = j) as -> by lia. lia. }
  set (r := Z.to_nat right). assert (Er : right = Z.of_nat r) by lia.
  rewrite Nat2Z.id. replace (Z.to_nat (right - Z.of_nat l)) with (r - l)%nat by lia.
  set (m := Z.to_nat ((Z.of_nat l + right) / 2)).
  assert (Hm : (l <= m <= r)%nat).
  { unfold m. rewrite Er. split.
    - apply Nat2Z.inj_le. rewrite Z2Nat.id by (apply Z.div_pos; lia). apply Z.div_le_lower_bound; lia.
    - apply Nat2Z.inj_le. rewrite Z2Nat.id by (apply Z.div_pos; lia). apply Z.div_le_upper_bound; lia. }
  pose proof (pivot_placed v l r m Hm ltac:(lia)) as H.
  destruct (partition_loop (r - l) _ l l (S l)) as [v2 last_]. cbv zeta in H |- *.
  set (v3 := sc_swap v2 l last_) in *. destruct H as (Hl & H3 & L3 & Hs & Hg).
  destruct (IH v3 l (Z.of_nat last_ - 1) ltac:(lia) ltac:(lia)) as (E4 & H4 & O4).
  set (v4 := scCompositor fuel v3 (Z.of_nat l) (Z.of_nat last_ - 1)) in *.
  pose proof (within_length _ _ _ _ H4) as L4.
  destruct (IH v4 (S last_) right ltac:(lia) ltac:(lia)) as (E5 & H5 & O5).
  replace (Z.of_nat last_ + 1) with (Z.of_nat (S last_)) by lia.
  set (v5 := scCompositor fuel v4 (Z.of_nat (S last_)) right) in *.
  replace (Z.to_nat (Z.of_nat last_ - 1)) with (last_ - 1)%nat in * by lia.
  assert (N4 : ∀ k, (last_ <= k)%nat → nth k v4 0 = nth k v3 0).
  { intros k Hk. destruct (decide (last_ <= l)%nat); [by rewrite E4 by lia|].
    apply (wi_out _ _ _ _ H4). lia. }
  assert (N5 : ∀ k, (k <= last_)%nat → nth k v5 0 = nth k v4 0)
    by (intros k Hk; apply (wi_out _ _ _ _ H5); lia).
  assert (S4 : ∀ k, (l <= k < last_)%nat → nth k v4 0 <= nth last_ v3 0).
  { intros k Hk. apply (wi_all _ _ _ _ H4 (λ x, x <= nth last_ v3 0)); [|lia].
    intros j Hj. apply Hs. lia. }
  assert (G5 : ∀ k, (last_ < k <= r)%nat → nth last_ v3 0 <= nth k v5 0).
  { intros k Hk. apply (wi_all _ _ _ _ H5 (λ x, nth last_ v3 0 <= x)); [|lia].
    intros j Hj. rewrite N4 by lia. apply Hg. lia. }
  split; [lia|]. split.
  - eapply within_trans; [exact H3|]. eapply within_trans.
    + destruct (decide (last_ <= l)%nat); [rewrite E4 by lia; apply within_refl|].
      apply (within_wider l (last_ - 1)); [lia|lia|exact H4].
    + apply (within_wider (S last_) r); [lia|lia|exact H5].
  - apply (ordered_join l r last_ v5 (nth last_ v3 0)).
    + intros k Hk. rewrite N5 by lia. by apply S4.
    + by rewrite N5, N4 by lia.
    + exact G5.
    + left. intros i j Hij Hj. destruct (decide (last_ = 0%nat)).
      * by assert (i = j) as -> by lia.
      * rewrite !N5 by lia. by apply O4.
    + left. exact O5.
Qed.

Lemma scCompositor_sorts fuel : sorts fuel.
Proof.
  induction fuel as [|fuel IH]; [|by apply sorts_step].
  intros v l right Hr Hf. cbn [scCompositor]. split; [done|]. split; [apply within_refl|].
  intros i j Hij Hj. assert (i = j) as -> by lia. lia.
Qed.

(** The whole array. *)
Lemma scCompositor_all fuel v :
  (0 < length v <= fuel)%nat →
  let w := scCompositor fuel v 0 (zlen v - 1) in w ≡ₚ v ∧ ordered 0%nat (length v - 1) w.
Proof.
  intros Hv w. destruct (scCompositor_sorts fuel v 0%nat (zlen v - 1)) as (_ & H & O); [lia|lia|].
  replace (Z.to_nat (zlen v - 1)) with (length v - 1)%nat in * by lia.
  split; [apply H|apply O].
Qed.

Lemma ordered_Sorted v : ordered 0%nat (length v - 1) v → Sorted Z.le v.
Proof.
  induction v as [|x [|y v] IH]; intros H; [done|by repeat constructor|]. constructor.
  - apply IH. intros i j Hij Hj. apply (H (S i) (S j)); [lia|cbn [length] in *; lia].
  - constructor. exact (H 0%nat 1%nat ltac:(lia) ltac:(cbn [length]; lia)).
Qed.

End sort.

(** * Lemmas about the utility functions *)

(** ** The address counter *)

(** The number a string of bytes denotes, the first byte on top. *)
Definition be_value (m : bytes) : Z := fold_left (λ v c, v * 256 + code c) m 0.
Fixpoint le_value (m : bytes) : Z :=
  match m with [] => 0 | c :: m' => code c + 256 * le_value m' end.

Lemma be_value_app m n v0 :
  fold_left (λ v c, v * 256 + code c) (m ++ n) v0 =
  fold_left (λ v c, v * 256 + code c) n (fold_left (λ v c, v * 256 + code c) m v0).
Proof. apply fold_left_app. Qed.

Lemma be_le m : be_value m = le_value (rev m).
Proof.
  unfold be_value. rewrite <- (rev_involutive m) at 1. generalize (rev m). clear m.
  induction l as [|c l IH]; [done|]. cbn [rev]. rewrite be_value_app, IH.
  cbn [fold_left le_value]. lia.
Qed.

Lemma le_value_range m : 0 <= le_value m < 256 ^ zlen m.
Proof.
  induction m as [|c m IH]; [done|]. cbn [le_value length]. pose proof (code_range c).
  rewrite Nat2Z.inj_succ, Z.pow_succ_r by lia. lia.
Qed.

Lemma mac_carry_length m : length (mac_carry m) = length m.
Proof.
  induction m as [|c m IH]; [done|]. cbn [mac_carry]. case_match; cbn [length]; by rewrite ?IH.
Qed.

Lemma mac_carry_value m : le_value (mac_carry m) = (le_value m + 1) mod 256 ^ zlen m.
Proof.
  induction m as [|c m IH]; [done|]. cbn [mac_carry le_value length].
  pose proof (code_range c). pose proof (le_value_range m).
  rewrite code_chr, Nat2Z.inj_succ, Z.pow_succ_r by lia.
  destruct (Z.eqb_spec ((code c + 1) mod 256) 0) as [E|E]; cbn [le_value]; rewrite code_chr.
  - rewrite IH. assert (code c = 255) as -> by (Z.to_euclidean_division_equations; lia).
    replace (255 + 256 * le_value m + 1) with (256 * (le_value m + 1)) by lia.
    rewrite Z.mul_mod_distr_l by lia. change ((255 + 1) mod 256) with 0. lia.
  - rewrite (Z.mod_small (code c + 1)) by (Z.to_euclidean_division_equations; lia).
    rewrite Z.mod_small; [lia|]. assert (code c < 255) by (Z.to_euclidean_division_equations; lia).
    lia.
Qed.

(** ** Hexadecimal text *)

(** A fact about every byte, by evaluation. *)
Lemma all_bytes (P : ascii → bool) :
  forallb P (map (λ n, chr (Z.of_nat n)) (seq 0 256)) = true → ∀ c, P c = true.
Proof.
  rewrite forallb_forall. intros H c. apply H. apply in_map_iff. exists (Z.to_nat (code c)).
  pose proof (code_range c). split; [by rewrite Z2Nat.id, chr_code by lia|]. apply in_seq. lia.
Qed.

Definition hex2_check (c : ascii) : bool :=
  match hex2 c with
  | [a; b] =>
      match hexval a, hexval b with
      | Some h, Some l =>
          negb (bool_decide (a = NUL)) && negb (bool_decide (a = " "%char)) &&
          negb (bool_decide (b = NUL)) && negb (bool_decide (b = " "%char)) &&
          (sint32 (sint32 (0 * 16 + h) * 16 + l) =? code c)
      | _, _ => false
      end
  | _ => false
  end.

Lemma hex2_checked c : hex2_check c = true.
Proof. apply all_bytes. vm_compute. reflexivity. Qed.

Lemma hex2_length c : length (hex2 c) = 2%nat.
Proof.
  pose proof (hex2_checked c) as H. unfold hex2_check in H.
  by destruct (hex2 c) as [|? [|? []]].
Qed.

(** Two digits are read back, whatever follows. *)
Lemma scHex2Char_hex2 c t : scHex2Char (hex2 c ++ t) 2 0 = Done (Some (code c)).
Proof.
  pose proof (hex2_checked c) as H. unfold hex2_check in H.
  destruct (hex2 c) as [|a [|b []]]; [done..| |done]. cbn [app scHex2Char].
  destruct (hexval a) as [h|]; [|done]. destruct (hexval b) as [l|]; [|done].
  apply andb_true_iff in H as [H He%Z.eqb_eq].
  repeat (apply andb_true_iff in H as [H ?%negb_true_iff%bool_decide_eq_false]).
  apply negb_true_iff, bool_decide_eq_false in H.
  rewrite !decide_False by done. rewrite He. by destruct t.
Qed.

Lemma put_str_take buf p s :
  (p <= length buf)%nat → take (p + length s) (put_str buf p s) = take p buf ++ s.
Proof.
  intros Hp. unfold put_str. rewrite app_assoc.
  rewrite take_app_length'; [done|]. rewrite length_app, length_take. lia.
Qed.

Lemma put_str_length buf p s : (p <= length buf)%nat → (p + length s <= length (put_str buf p s))%nat.
Proof. intros Hp. unfold put_str. rewrite !length_app, length_take. cbn [length]. lia. Qed.

Definition hex_text (sep : cstr) (cs : bytes) : cstr := concat (map (λ c, hex2 c ++ sep) cs).

Lemma hex_text_length sep cs : length (hex_text sep cs) = (length cs * (2 + length sep))%nat.
Proof.
  induction cs as [|c cs IH]; [done|]. unfold hex_text in *. cbn [map concat length].
  rewrite !length_app, IH, hex2_length. lia.
Qed.

Lemma hex_loop_none cs p cnt buf :
  (p <= length buf)%nat →
  let '(p', cnt', buf') := chars2hexs_loop cs None p cnt buf in
  p' = (p + 2 * length cs)%nat ∧ cnt' = cnt + 2 * zlen cs ∧
  take p' buf' = take p buf ++ hex_text [] cs ∧ (p' <= length buf')%nat.
Proof.
  revert p cnt buf. induction cs as [|c cs IH]; intros p cnt buf Hp; cbn [chars2hexs_loop].
  { cbn [length hex_text map concat]. rewrite app_nil_r, Nat.mul_0_r, Nat.add_0_r. split_and!; [done|lia|done|done]. }
  pose proof (put_str_length buf p (hex2 c) Hp) as Hl. rewrite hex2_length in Hl.
  specialize (IH (p + 2)%nat (cnt + 2) (put_str buf p (hex2 c)) Hl).
  destruct (chars2hexs_loop cs None _ _ _) as [[p' cnt'] buf'].
  destruct IH as (-> & -> & Ht & Hl'). split_and!; [cbn [length]; lia|cbn [length]; lia| |done].
  rewrite Ht. replace (p + 2)%nat with (p + length (hex2 c))%nat by (rewrite hex2_length; lia).
  rewrite put_str_take by done. unfold hex_text. cbn [map concat].
  by rewrite app_nil_r, <- app_assoc.
Qed.

Lemma hex_loop_some sep cs p cnt buf :
  length sep = 1%nat → (p <= length buf)%nat →
  let '(p', cnt', buf') := chars2hexs_loop cs (Some sep) p cnt buf in
  p' = (p + 3 * length cs)%nat ∧ cnt' = cnt + 3 * zlen cs ∧
  take p' buf' = take p buf ++ hex_text sep cs ∧ (p' <= length buf')%nat.
Proof.
  intros Hs. revert p cnt buf. induction cs as [|c cs IH]; intros p cnt buf Hp; cbn [chars2hexs_loop].
  { cbn [length hex_text map concat]. rewrite app_nil_r, Nat.mul_0_r, Nat.add_0_r. split_and!; [done|lia|done|done]. }
  assert (L : length (hex2 c ++ sep) = 3%nat) by (rewrite length_app, hex2_length, Hs; done).
  pose proof (put_str_length buf p (hex2 c ++ sep) Hp) as Hl. rewrite L in Hl.
  rewrite L.
  specialize (IH (p + 3)%nat (cnt + Z.of_nat 3) (put_str buf p (hex2 c ++ sep)) Hl).
  destruct (chars2hexs_loop cs (Some sep) _ _ _) as [[p' cnt'] buf'].
  destruct IH as (-> & -> & Ht & Hl'). split_and!; [cbn [length]; lia|cbn [length]; lia| |done].
  rewrite Ht. replace (p + 3)%nat with (p + length (hex2 c ++ sep))%nat by (rewrite L; lia).
  rewrite put_str_take by done. unfold hex_text. cbn [map concat]. by rewrite <- !app_assoc.
Qed.

(** The text without its last separator. *)
Lemma scChars2Hexs_none cs : scChars2Hexs cs None = Done (2 * zlen cs, hex_text [] cs).
Proof.
  unfold scChars2Hexs. pose proof (hex_loop_none cs 0 0 [] ltac:(done)) as H.
  destruct (chars2hexs_loop cs None 0 0 []) as [[p cnt] buf]. destruct H as (_ & -> & -> & _). done.
Qed.

Lemma scChars2Hexs_some sep cs :
  length sep = 1%nat → cs ≠ [] →
  scChars2Hexs cs (Some sep) = Done (3 * zlen cs - 1, take (3 * length cs - 1) (hex_text sep cs)).
Proof.
  intros Hs Hcs. unfold scChars2Hexs. pose proof (hex_loop_some sep cs 0 0 [] Hs ltac:(done)) as H.
  destruct (chars2hexs_loop cs (Some sep) 0 0 []) as [[p cnt] buf].
  destruct H as (Hp & -> & Ht & _). cbn [take app] in Ht. rewrite Nat.add_0_l in Hp.
  destruct p as [|p']. { destruct cs; [done|]. cbn [length] in Hp. lia. }
  f_equal. f_equal. rewrite <- Ht, take_take. f_equal. lia.
Qed.

Lemma scHexs2Chars_text sep cs t o :
  (length sep <= 1)%nat →
  scHexs2Chars (hex_text sep cs ++ t) (length cs) (bool_decide (length sep = 1%nat)) o = Done cs.
Proof.
  intros Hs. revert o. induction cs as [|c cs IH]; intros o; cbn [scHexs2Chars length]; [done|].
  unfold hex_text. cbn [map concat]. rewrite <- !app_assoc, scHex2Char_hex2.
  cbn [mbind outcome_bind].
  replace (drop _ _) with (hex_text sep cs ++ t).
  - rewrite IH. cbn. by rewrite chr_code.
  - fold (hex_text sep cs). pose proof (hex2_length c). destruct (bool_decide_reflect (length sep = 1%nat)).
    + rewrite app_assoc, drop_app_length'; [done|]. rewrite length_app. lia.
    + destruct sep as [|? []]; [|done|cbn in *; lia]. rewrite drop_app_length'; done.
Qed.

(** The last separator is not needed. *)
Lemma scHexs2Chars_cut sep cs o :
  length sep = 1%nat → cs ≠ [] →
  scHexs2Chars (take (3 * length cs - 1) (hex_text sep cs)) (length cs) true o = Done cs.
Proof.
  intros Hs. revert o. induction cs as [|c cs IH]; intros o Hcs; [done|].
  pose proof (hex2_length c) as L2. unfold hex_text. cbn [map concat length scHexs2Chars].
  fold (hex_text sep cs). rewrite <- app_assoc.
  replace (3 * S (length cs) - 1)%nat with (length (hex2 c) + 3 * length cs)%nat by lia.
  rewrite take_app_add' by done. rewrite scHex2Char_hex2. cbn [mbind outcome_bind].
  destruct cs as [|c' cs]; [cbn; by rewrite chr_code|].
  replace (drop 3 _) with (take (3 * length (c' :: cs) - 1) (hex_text sep (c' :: cs))).
  - rewrite IH by done. cbn. by rewrite chr_code.
  - replace (drop 3) with (@drop ascii (length (hex2 c) + 1)) by (by rewrite L2).
    rewrite drop_app_add' by done.
    replace (take (3 * length (c' :: cs))) with (@take ascii (length sep + (3 * length (c' :: cs) - 1)))
      by (f_equal; cbn [length]; lia).
    change (concat (map (λ c0, hex2 c0 ++ sep) (c' :: cs))) with (hex_text sep (c' :: cs)).
    rewrite take_app_add' by done. by rewrite <- Hs, drop_app_length.
Qed.

(** ** Text for pages *)

Lemma sgml_char_split ro c d x y :
  sgml_char ro c ++ x = sgml_char ro d ++ y → c = d ∧ x = y.
Proof.
  unfold sgml_char. destruct ro;
    repeat (match goal with |- context [decide ?P] => destruct (decide P) end);
    cbn [app list_ascii_of_string]; intros E; by simplify_eq.
Qed.

Lemma sgml_char_nonempty ro c x : sgml_char ro c ++ x ≠ [].
Proof. unfold sgml_char. by repeat case_match. Qed.

(** The characters a page gives a meaning to. *)
Definition markup (c : ascii) : bool :=
  bool_decide (c = "<"%char) || bool_decide (c = ">"%char) || bool_decide (c = dquote) ||
  bool_decide (c = "'"%char) || bool_decide (c = "("%char) || bool_decide (c = ")"%char) ||
  bool_decide (c = " "%char).

Lemma sgml_char_safe ro c : forallb (λ d, negb (markup d)) (sgml_char ro c) = true.
Proof. revert c. apply (all_bytes (λ c, forallb _ (sgml_char ro c))). by destruct ro; vm_compute. Qed.

(** ** Octets *)

Lemma scan_octet b d t :
  0 <= b < 256 → d = "."%char ∨ d = NUL → scan_d (dec b ++ d :: t) = Done (Some (b, d :: t)).
Proof.
  intros Hb.
  assert (H : Forall (λ b, ∀ t, scan_d (dec b ++ "."%char :: t) = Done (Some (b, "."%char :: t)) ∧
    scan_d (dec b ++ NUL :: t) = Done (Some (b, NUL :: t))) (map Z.of_nat (seq 0 256))).
  { cbn [map seq]. repeat (apply List.Forall_cons; [intros ?; split; vm_compute; reflexivity|]).
    apply List.Forall_nil. }
  rewrite Forall_forall in H. specialize (H b). destruct (H ltac:(apply list_elem_of_In, in_map_iff;
    exists (Z.to_nat b); split; [lia|apply in_seq; lia]) t) as [H1 H2].
  by intros [-> | ->].
Qed.

Lemma scIpSeparateTo4_octets z :
  scIpSeparateTo4 z = Done (Some (octet z 0, octet z 1, octet z 2, octet z 3)).
Proof.
  pose proof (octet_range z) as H. unfold scIpSeparateTo4, inet_ntoa.
  rewrite <- !app_assoc. cbn [app]. rewrite <- !app_assoc. cbn [app]. rewrite <- !app_assoc.
  rewrite scan_octet by auto. cbn [mbind outcome_bind scan_lit]. rewrite decide_True by done.
  cbn [app]. rewrite scan_octet by auto. cbn [mbind outcome_bind scan_lit]. rewrite decide_True by done.
  rewrite scan_octet by auto. cbn [mbind outcome_bind scan_lit]. rewrite decide_True by done.
  rewrite scan_octet by auto. done.
Qed.

(** ** Masks *)

(** The octets accepted at a position. *)
Definition mask_octet (i : nat) (m : Z) : bool :=
  existsb (Z.eqb m)
    (nth i [[192; 224; 240; 248; 252; 254; 255]; [128; 192; 224; 240; 248; 252; 254; 255];
            [128; 192; 224; 240; 248; 252; 254; 255]; [0; 128; 192; 224; 240; 248; 252; 254]] []).

(** Octets accepted up to some position, zeros from there on. *)
Fixpoint mask_shape (i : nat) (l : list Z) : bool :=
  match l with
  | [] => true
  | m :: l' => if mask_octet i m then mask_shape (S i) l' else forallb (Z.eqb 0) l
  end.

Lemma mask_found_octet i m : (i < 4)%nat → 0 <= m < 256 → mask_found i m = mask_octet i m.
Proof.
  intros Hi Hm.
  assert (H : forallb (λ i, forallb (λ n, let m := Z.of_nat n in
    eqb (mask_found i m) (mask_octet i m)) (seq 0 256)) (seq 0 4) = true) by (vm_compute; reflexivity).
  rewrite forallb_forall in H. specialize (H i ltac:(apply in_seq; lia)). cbv beta in H.
  rewrite forallb_forall in H. specialize (H (Z.to_nat m) ltac:(apply in_seq; lia)). cbv zeta in H.
  rewrite Z2Nat.id in H by lia. by apply eqb_prop.
Qed.

Lemma mask_loop_shape i l :
  (i + length l <= 4)%nat → Forall (λ m, 0 <= m < 256) l →
  mask_shape i l = match mask_loop i l with None => true | Some (b, _) => b end.
Proof.
  revert i. induction l as [|m l IH]; intros i Hi Hl; [done|]. cbn [mask_shape mask_loop].
  apply List.Forall_cons_iff in Hl as [Hm Hl]. cbn [length] in Hi.
  rewrite mask_found_octet by (done || lia). destruct (mask_octet i m).
  - rewrite IH by (done || lia). by destruct (mask_loop (S i) l) as [[]|].
  - generalize (m :: l). intros k. induction k as [|x k IHk]; [done|]. cbn [forallb].
    by rewrite Z.eqb_sym, IHk.
Qed.

(** ** VLAN lists *)

Lemma wds_tokens_ok fuel s value :
  (length value <= 4)%nat →
  wds_tokens fuel s value = true ↔
    let vs := map atoi (tokens fuel [","%char] s) in
    Forall (λ v, 1 <= v <= 4094) vs ∧ NoDup vs ∧ (∀ v, v ∈ vs → v ∉ value) ∧
    (length value + length vs <= 4)%nat.
Proof.
  revert s value. induction fuel as [|fuel IH]; intros s value Hl; cbn [wds_tokens tokens].
  { cbn. split; [|done]. intros _. split_and!; [apply List.Forall_nil|apply NoDup_nil_2|set_solver|lia]. }
  destruct (strtok [","%char] s) as [[pa|] s'].
  2: { cbn. split; [|done]. intros _. split_and!; [apply List.Forall_nil|apply NoDup_nil_2|set_solver|lia]. }
  cbn [map]. cbv zeta. rewrite List.Forall_cons_iff, NoDup_cons. cbn [length].
  set (v := atoi pa). set (vs := map atoi (tokens fuel [","%char] s')) in *.
  assert (Hex : existsb (Z.eqb v) value = true ↔ v ∈ value).
  { rewrite existsb_exists. split.
    - intros (x & Hx & He). apply Z.eqb_eq in He as <-. by apply list_elem_of_In.
    - intros Hin. exists v. split; [by apply list_elem_of_In|by apply Z.eqb_eq]. }
  destruct (Z.ltb_spec v 1); [split; [done|lia]|]. cbn [orb].
  destruct (Z.ltb_spec 4094 v); [split; [done|lia]|].
  destruct (existsb (Z.eqb v) value) eqn:Ee.
  { split; [done|]. intros (_ & _ & Hv & _). destruct (Hv v); [left|by apply Hex]. }
  destruct (Nat.ltb_spec 3 (length value)); [split; [done|lia]|].
  rewrite IH by (rewrite length_app; cbn [length]; lia). cbv zeta. fold vs. rewrite length_app. cbn [length].
  assert (Hv : v ∉ value) by (by intros Hin%Hex).
  split.
  - intros (A1 & A2 & A3 & A4). split_and!; [lia|lia|done| |done| |lia].
    + intros Hin. apply (A3 v Hin). set_solver.
    + intros x [-> |Hx]%elem_of_cons; [done|]. specialize (A3 x Hx). set_solver.
  - intros ((_ & A1) & (A2 & A3) & A4 & A5). split_and!; [done|done| |lia].
    intros x Hx Hin. apply elem_of_app in Hin as [Hin|Hin%list_elem_of_singleton]; [|by subst].
    eapply A4; [|exact Hin]. by right.
Qed.
