(* ===== verification/UtilityTheorems.v ===== *)
(** * The theorems about the utility library *)

From Stdlib Require Import Sorted.
From S2P Require Import Prelude CLib Inet Utility ApCfgLists UtilityCorrect.

Ltac decided := apply (bool_decide_unpack _); vm_compute; exact I.

(** C34: [scCompositor] sorts.  Called on a whole array (bounds 0 and length - 1)
    it leaves a permutation of the elements in ascending order, in at most as
    many nested calls as there are elements. *)
Theorem compositor_sorts_array fuel v :
  (0 < length v <= fuel)%nat →
  Sorted Z.le (scCompositor fuel v 0 (zlen v - 1)) ∧ scCompositor fuel v 0 (zlen v - 1) ≡ₚ v.
Proof.
  intros Hv. destruct (scCompositor_all fuel v Hv) as [Hp Ho]. split; [|done].
  apply ordered_Sorted. by rewrite (Permutation_length Hp).
Qed.

Example compositor_sorts_array_witness :
  Sorted Z.le (scCompositor 6 [7; 100; 7; 1; 4094; 2] 0 5) ∧
  scCompositor 6 [7; 100; 7; 1; 4094; 2] 0 5 ≡ₚ [7; 100; 7; 1; 4094; 2].
Proof. apply (compositor_sorts_array 6 [7; 100; 7; 1; 4094; 2]). cbn [length]. lia. Defined.

(** [mac_plus_one] adds one.  The bytes, read as a number with the first byte
    on top, are incremented with the carry through all of them, wrapping at
    2^48 for a MAC address. *)
Theorem mac_plus_one_adds_one mac :
  length (mac_plus_one mac) = length mac ∧
  be_value (mac_plus_one mac) = (be_value mac + 1) mod 256 ^ zlen mac.
Proof.
  unfold mac_plus_one. split; [by rewrite length_rev, mac_carry_length, length_rev|].
  by rewrite !be_le, rev_involutive, mac_carry_value, length_rev.
Qed.

(** Bytes survive the text form.  [scHexs2Chars] reads back what
    [scChars2Hexs] printed, with a one-character separator or without, without
    reading past the text, and the count returned is the length of the text. *)
Theorem hexs_roundtrip cs sep o :
  cs ≠ [] → match sep with Some s => length s = 1%nat | None => True end →
  ∃ t, scChars2Hexs cs sep = Done (zlen t, t) ∧
    scHexs2Chars t (length cs) (bool_decide (is_Some sep)) o = Done cs.
Proof.
  intros Hcs. destruct sep as [s|]; intros Hs.
  - rewrite (scChars2Hexs_some s) by done. eexists. split.
    + repeat f_equal. rewrite length_take, hex_text_length, Hs. destruct cs; [done|]. cbn [length]. lia.
    + rewrite bool_decide_true by eauto. by apply scHexs2Chars_cut.
  - rewrite scChars2Hexs_none. eexists. split.
    + repeat f_equal. rewrite hex_text_length. cbn [length]. lia.
    + rewrite bool_decide_false by (by intros [? ?]).
      pose proof (scHexs2Chars_text [] cs [] o ltac:(cbn; lia)) as H. by rewrite app_nil_r in H.
Qed.

Example hexs_roundtrip_witness :
  ∃ t, scChars2Hexs ["010"%char; "255"%char; "000"%char] (Some (":" : cstr)) = Done (zlen t, t) ∧
    scHexs2Chars t 3 (bool_decide (is_Some (Some (":" : cstr)))) None =
      Done ["010"%char; "255"%char; "000"%char].
Proof. by apply (hexs_roundtrip ["010"%char; "255"%char; "000"%char] (Some (":" : cstr)) None). Defined.

(** A string encoded for a page cannot open a tag, end an attribute or call
    a function: no angle bracket, quote, parenthesis or space is left; and no
    two strings have the same encoding. *)
Theorem sgml_encode_safe readOnly s :
  (∀ c, c ∈ sgml_encode s readOnly → markup c = false) ∧
  (∀ t, sgml_encode s readOnly = sgml_encode t readOnly → s = t).
Proof.
  unfold sgml_encode. split.
  - induction s as [|c s IH]; cbn [map concat]; [by intros c ?%not_elem_of_nil|].
    intros d [Hd|Hd]%elem_of_app; [|by apply IH].
    pose proof (sgml_char_safe readOnly c) as H. rewrite forallb_forall in H.
    apply negb_true_iff, H. by apply list_elem_of_In.
  - induction s as [|c s IH]; intros [|d t]; cbn [map concat]; intros E; [done| | |].
    + symmetry in E. by apply sgml_char_nonempty in E.
    + by apply sgml_char_nonempty in E.
    + apply sgml_char_split in E as [-> E]. f_equal. by apply IH.
Qed.

(** What [scValidIpMask] accepts, exactly: octets of the contiguous kind up
    to some position and zeros from there on.  So every mask of 2 to 31 bits is
    accepted, but each octet is looked at on its own, and 255.128.255.0, which is
    no mask, is accepted as well. *)
Theorem scValidIpMask_exact :
  (∀ z, ∃ o, scValidIpMask z =
     Done (mask_shape 0 [octet z 0; octet z 1; octet z 2; octet z 3], o)) ∧
  (∀ n, 2 <= n <= 31 → ∃ o, scValidIpMask (2 ^ 32 - 2 ^ (32 - n)) = Done (true, o)) ∧
  scValidIpMask 0xff80ff00 = Done (true, Some 0xff80ff00).
Proof.
  assert (H : ∀ z, ∃ o, scValidIpMask z =
     Done (mask_shape 0 [octet z 0; octet z 1; octet z 2; octet z 3], o)).
  { intros z. unfold scValidIpMask. rewrite scIpSeparateTo4_octets. cbn [mbind outcome_bind].
    rewrite mask_loop_shape; [|done|repeat constructor; apply octet_range].
    destruct (mask_loop 0 _) as [[b l]|]; eauto. }
  split; [done|]. split; [|vm_compute; reflexivity].
  intros n Hn. destruct (H (2 ^ 32 - 2 ^ (32 - n))) as [o ->]. exists o. do 2 f_equal.
  assert (Hall : forallb (λ n, let z := 2 ^ 32 - 2 ^ (32 - Z.of_nat n) in
      mask_shape 0 [octet z 0; octet z 1; octet z 2; octet z 3]) (seq 2 30) = true)
    by (vm_compute; reflexivity).
  rewrite forallb_forall in Hall. specialize (Hall (Z.to_nat n) ltac:(apply in_seq; lia)).
  cbv zeta in Hall. by rewrite Z2Nat.id in Hall by lia.
Qed.

(** An address is valid exactly when its first octet is in 1-223 and not 127
    and its last octet in 1-254; the check always ends with an answer. *)
Theorem scValidIpAddress_exact z :
  scValidIpAddress z = Done (bool_decide
    (1 <= octet z 0 <= 223 ∧ octet z 0 ≠ 127 ∧ 1 <= octet z 3 <= 254)).
Proof.
  unfold scValidIpAddress. rewrite scIpSeparateTo4_octets. cbn [mbind outcome_bind]. f_equal.
  pose proof (octet_range z 1). pose proof (octet_range z 2).
  repeat match goal with |- context [?x <? ?y] => destruct (Z.ltb_spec x y); cbn [orb] end;
    repeat match goal with |- context [?x =? ?y] => destruct (Z.eqb_spec x y); cbn [orb] end;
    symmetry; first [apply bool_decide_eq_true_2; lia | apply bool_decide_eq_false_2; lia].
Qed.

(** What [scValidwdsVlanList] accepts, exactly: fewer than 21 characters,
    digits with single commas between them, and at most four identifiers, each
    in 1-4094, no two equal. *)
Theorem scValidwdsVlanList_exact s :
  scValidwdsVlanList s = true ↔
    zlen s < 21 ∧ wds_chars 1 s = true ∧
    let vs := map atoi (strtok_all [","%char] s) in
    Forall (λ v, 1 <= v <= 4094) vs ∧ NoDup vs ∧ (length vs <= 4)%nat.
Proof.
  unfold scValidwdsVlanList. destruct (Z.ltb_spec (zlen s) 21); cbn [negb]; [|split; [done|lia]].
  destruct (wds_chars 1 s); cbn [negb]; [|split; [done|naive_solver]].
  assert (E : match s with [] => true | _ => wds_tokens (S (length s)) s [] end =
              wds_tokens (S (length s)) s []) by (by destruct s).
  rewrite E, wds_tokens_ok by (cbn; lia). cbv zeta. unfold strtok_all. cbn [length].
  split; [intros (H1 & H2 & _ & H4); split_and!; [done|done|done|done|lia]|].
  intros (_ & _ & H1 & H2 & H3). split_and!; [done|done|set_solver|lia].
Qed.

(** [scValidGWv6] needs a prefix.  On a valid address without a slash it
    passes the null result of its second [strtok] to [atoi]. *)
Theorem scValidGWv6_needs_prefix s :
  "/"%char ∉ s → (0 < length s < 46)%nat → ch s 0 ≠ ":"%char → last s ≠ Some ":"%char →
  scValidIPv6 s false = true → scValidGWv6 s = Fault.
Proof.
  intros Hs Hl H0 Hz Hv. unfold scValidGWv6. rewrite decide_False by lia.
  assert (E : strtok ["/"%char] s = (Some s, [])).
  { unfold strtok. destruct s as [|c s]; [cbn in Hl; lia|].
    rewrite skip_while_id by set_solver. by rewrite span_until_free by set_solver. }
  rewrite E. cbv iota. rewrite (bool_decide_false (ch s 0 = ":"%char)) by done.
  destruct (last s) as [c|] eqn:El; [|by apply last_None in El; subst].
  cbn [mbind outcome_bind]. rewrite (bool_decide_false (c = ":"%char)) by naive_solver. cbn [negb].
  cbn [mbind outcome_bind]. by rewrite Hv.
Qed.

Example scValidGWv6_needs_prefix_witness : scValidGWv6 "fe80::1" = Fault.
Proof.
  apply scValidGWv6_needs_prefix;
    [decided|cbn [length list_ascii_of_string]; lia|discriminate|discriminate|vm_compute; reflexivity].
Defined.
