(* ===== verification/ListCorrect.v ===== *)
(** * Lemmas about the list-valued parameters

    The VLAN list and the access-control lists. *)

From Stdlib Require Import Sorted.
From S2P Require Import Prelude CLib Inet Utility NvramSpec CfgStore ApCfgSys ApCfgWlan CfgRefine ApCfgLists UtilityCorrect.

(** * Lemmas about the VLAN list *)

(** The text of a list of identifiers, as the functions write it. *)
Definition vlist (l : list Z) : cstr := concat (map (λ v, dec v ++ [","%char]) l).
Definition vlan_id (v : Z) : Prop := VLAN_TAG_MIN <= v <= VLAN_TAG_MAX.

Lemma dec_comma_free v : ","%char ∉ dec v.
Proof. intros Hc%dec_chars. by destruct Hc. Qed.

Lemma dec_cons v : ∃ c r, dec v = c :: r ∧ c ≠ ","%char.
Proof.
  assert (Hne : dec v ≠ []).
  { unfold dec. case_match; [done|].
    destruct (dec_go_head (Z.to_nat (Z.log2 v)) v []) as (c & r & -> & _); [lia|done]. }
  destruct (dec v) as [|c r] eqn:E; [done|]. exists c, r. split; [done|].
  intros ->. apply (dec_comma_free v). rewrite E. left.
Qed.

Lemma comma_split (p q x y : cstr) :
  ","%char ∉ p → ","%char ∉ q → p ++ ","%char :: x = q ++ ","%char :: y → p = q ∧ x = y.
Proof.
  revert q. induction p as [|c p IH]; intros [|d q] Hp Hq E; simplify_eq/=; [done| | |].
  - set_solver.
  - set_solver.
  - destruct (IH q) as [-> ->]; [set_solver|set_solver|done|done].
Qed.

Lemma vlist_app l m : vlist (l ++ m) = vlist l ++ vlist m.
Proof. unfold vlist. by rewrite map_app, concat_app. Qed.

Lemma vlist_snoc l v : vlist (l ++ [v]) = vlist l ++ dec v ++ [","%char].
Proof. rewrite vlist_app. unfold vlist at 2. cbn [map concat]. by rewrite app_nil_r. Qed.

Lemma vlist_cons v l : vlist (v :: l) = dec v ++ ","%char :: vlist l.
Proof. unfold vlist. cbn [map concat]. by rewrite <- app_assoc. Qed.

Lemma vlist_chars l c : c ∈ vlist l → isdigit c = true ∨ c = "-"%char ∨ c = ","%char.
Proof.
  induction l as [|v l IH]; [by intros ?%not_elem_of_nil|]. rewrite vlist_cons.
  intros [Hc%dec_chars|[-> |Hc]%elem_of_cons]%elem_of_app; [naive_solver|auto|auto].
Qed.

Lemma vlist_plain l : nul_free (vlist l).
Proof. intros Hc%vlist_chars; destruct Hc as [Hc|[Hc|Hc]]; discriminate Hc. Qed.

Lemma vlist_length l : (length l <= length (vlist l))%nat.
Proof.
  induction l as [|v l IH]; [done|]. rewrite vlist_cons, length_app. cbn [length]. lia.
Qed.

(** ** Reading it *)

Lemma tokens_vlist fuel l : (length l < fuel)%nat → tokens fuel [","%char] (vlist l) = map dec l.
Proof.
  revert l. induction fuel as [|fuel IH]; intros [|v l] Hf; cbn [length] in Hf; [lia|lia|done|].
  cbn [tokens map]. rewrite vlist_cons.
  destruct (dec_cons v) as (c & r & E & Hc). unfold strtok.
  replace (skip_while [","%char] (dec v ++ ","%char :: vlist l)) with (dec v ++ ","%char :: vlist l)
    by (rewrite E; symmetry; apply skip_while_id; set_solver).
  rewrite E. cbn [app]. change (c :: r ++ ","%char :: vlist l) with ((c :: r) ++ ","%char :: vlist l).
  rewrite <- E. rewrite span_until_app; [|intros d Hd; apply list_elem_of_singleton in Hd as ->; apply dec_comma_free|left].
  cbn [tail]. f_equal. apply IH. lia.
Qed.

Lemma strtok_all_vlist l : strtok_all [","%char] (vlist l) = map dec l.
Proof. apply tokens_vlist. pose proof (vlist_length l). lia. Qed.

Lemma existsb_vlist v l :
  Forall vlan_id l → existsb (λ p, v =? atoi p) (strtok_all [","%char] (vlist l)) = bool_decide (v ∈ l).
Proof.
  intros Hl. rewrite strtok_all_vlist. induction Hl as [|x l Hx Hl IH]; [done|].
  cbn [map existsb]. rewrite IH. unfold vlan_id, VLAN_TAG_MIN, VLAN_TAG_MAX in Hx.
  rewrite atoi_dec by lia. destruct (Z.eqb_spec v x) as [->|Hne]; cbn [orb].
  - by rewrite bool_decide_true by left.
  - apply bool_decide_ext. rewrite elem_of_cons. naive_solver.
Qed.

(** ** Deleting from it *)

Lemma starts_vlist v x l :
  - 2 ^ 31 <= v < 2 ^ 31 → - 2 ^ 31 <= x < 2 ^ 31 →
  starts (dec v ++ [","%char]) (vlist (x :: l)) = (v =? x).
Proof.
  intros Hv Hx. unfold starts. rewrite vlist_cons. destruct (Z.eqb_spec v x) as [->|Hne].
  - apply bool_decide_true. change (","%char :: vlist l) with ([","%char] ++ vlist l).
    rewrite app_assoc. by rewrite take_app_length.
  - apply bool_decide_false. intros E. apply Hne.
    apply dec_inj; [done|done|].
    pose proof (take_drop (length (dec v ++ [","%char])) (dec x ++ ","%char :: vlist l)) as T.
    rewrite E, <- app_assoc in T. cbn [app] in T. apply comma_split in T as [? _]; auto using dec_comma_free.
Qed.

Lemma after_comma v l : after_chr ","%char (dec v ++ ","%char :: vlist l) = Some (vlist l).
Proof.
  generalize (dec_comma_free v). generalize (dec v). intros p. induction p as [|c p IH]; intros Hp.
  - cbn. by rewrite decide_True.
  - cbn [app after_chr]. rewrite decide_False by set_solver. apply IH. set_solver.
Qed.

(** Past the first entry the position found is not what is handed on. *)
Lemma del_loop_later fuel v l :
  - 2 ^ 31 <= v < 2 ^ 31 → Forall vlan_id l → (length l < fuel)%nat →
  vlan_del_loop fuel (dec v ++ [","%char]) (vlist l) false = Done O.
Proof.
  intros Hv Hl. revert fuel. induction Hl as [|x l Hx Hl IH]; intros [|fuel] Hf; cbn [length] in Hf; [lia|done|lia|].
  destruct (dec_cons x) as (c & r & E & Hc). cbn [vlan_del_loop].
  rewrite starts_vlist by (unfold vlan_id, VLAN_TAG_MIN, VLAN_TAG_MAX in Hx; lia).
  rewrite vlist_cons, after_comma. rewrite E. cbn [app]. destruct (v =? x); [done|]. apply IH. lia.
Qed.

Lemma del_loop_first fuel v x l :
  - 2 ^ 31 <= v < 2 ^ 31 → Forall vlan_id (x :: l) → (length l < fuel)%nat →
  vlan_del_loop (S fuel) (dec v ++ [","%char]) (vlist (x :: l)) true =
    Done (if v =? x then length (dec v ++ [","%char]) else O).
Proof.
  intros Hv Hl Hf. apply List.Forall_cons_iff in Hl as [Hx Hl].
  destruct (dec_cons x) as (c & r & E & Hc). cbn [vlan_del_loop].
  rewrite starts_vlist by (unfold vlan_id, VLAN_TAG_MIN, VLAN_TAG_MAX in Hx; lia).
  rewrite vlist_cons, after_comma. rewrite E. cbn [app]. destruct (v =? x); [done|].
  by apply del_loop_later.
Qed.

(** Up to three digits and a comma fit the five bytes of the local buffer. *)
Lemma vlan_del_fits v : vlan_id v → (length (dec v ++ [","%char]) <? 5)%nat = (v <? 1000).
Proof.
  unfold vlan_id, VLAN_TAG_MIN, VLAN_TAG_MAX. intros Hv.
  assert (E : forallb (λ n, let v := Z.of_nat n in
    eqb (length (dec v ++ [","%char]) <? 5)%nat (v <? 1000)) (seq 1 4094) = true)
    by (vm_compute; reflexivity).
  rewrite forallb_forall in E. specialize (E (Z.to_nat v) ltac:(apply in_seq; lia)).
  cbv zeta in E. rewrite Z2Nat.id in E by lia. by apply eqb_prop.
Qed.

(** ** Writing it *)

(** Sorted identifiers with equal neighbours once. *)
Fixpoint dedup (prev : option Z) (l : list Z) : list Z :=
  match l with
  | [] => []
  | x :: l' => (if bool_decide (prev = Some x) then [] else [x]) ++ dedup (Some x) l'
  end.

Lemma vlan_text_vlist prev l : vlan_text prev l = vlist (dedup prev l).
Proof.
  revert prev. induction l as [|x l IH]; intros prev; [done|]. cbn [vlan_text dedup].
  rewrite vlist_app, IH. case_match; [done|]. rewrite vlist_cons. done.
Qed.

Lemma dedup_sub prev l x : x ∈ dedup prev l → x ∈ l.
Proof.
  revert prev. induction l as [|y l IH]; intros prev; [done|]. cbn [dedup].
  intros [Hx|Hx]%elem_of_app; [|right; by eapply IH].
  case_match; [by apply not_elem_of_nil in Hx|]. apply list_elem_of_singleton in Hx as ->. left.
Qed.

Lemma dedup_all prev l x : x ∈ l → x ∈ dedup prev l ∨ prev = Some x.
Proof.
  revert prev. induction l as [|y l IH]; intros prev; [by intros ?%not_elem_of_nil|]. cbn [dedup].
  intros [->|Hx]%elem_of_cons.
  - case_bool_decide; [by right|left; left].
  - destruct (IH (Some y) Hx) as [H|[= ->]]; [left; apply elem_of_app; by right|].
    case_bool_decide; [by right|left; left].
Qed.

Lemma dedup_sorted prev l :
  StronglySorted Z.le l → Forall (λ x, ∀ p, prev = Some p → p <= x) l →
  StronglySorted Z.lt (dedup prev l) ∧ Forall (λ x, ∀ p, prev = Some p → p < x) (dedup prev l).
Proof.
  revert prev. induction l as [|y l IH]; intros prev Hs Hp; cbn [dedup].
  { split; [constructor|apply List.Forall_nil]. }
  apply StronglySorted_inv in Hs as [Hs Hy]. apply List.Forall_cons_iff in Hp as [Hpy Hp].
  destruct (IH (Some y) Hs) as [Hd Hf].
  { rewrite Forall_forall in *. intros x Hx p [= <-]. by apply Hy. }
  case_bool_decide as Hd'; cbn [app].
  - split; [done|]. rewrite Forall_forall in *. intros x Hx p Hpx.
    rewrite Hd' in Hpx. injection Hpx as ->. by apply (Hf x Hx p).
  - split.
    + constructor; [done|]. rewrite Forall_forall in *. intros x Hx. by apply (Hf x Hx y).
    + apply List.Forall_cons; [intros p Hpx; specialize (Hpy p Hpx); destruct (decide (p = y)); [by subst|lia]|].
      rewrite Forall_forall in *. intros x Hx p Hpx. specialize (Hf x Hx y eq_refl).
      specialize (Hpy p Hpx). lia.
Qed.

Lemma dedup_text_length l : Forall vlan_id l → (length (vlist (dedup None l)) <= 5 * length l)%nat.
Proof.
  generalize (@None Z). induction l as [|x l IH]; intros prev Hl; [done|].
  apply List.Forall_cons_iff in Hl as [Hx Hl]. cbn [dedup]. rewrite vlist_app, length_app.
  specialize (IH (Some x) Hl). cbn [length].
  assert (length (dec x) <= 4)%nat.
  { unfold vlan_id, VLAN_TAG_MIN, VLAN_TAG_MAX in Hx. unfold dec. rewrite (proj2 (Z.ltb_ge _ _)) by lia.
    pose proof (dec_go_length (S (Z.to_nat (Z.log2 x))) x [] 4) as Hd. cbn [length] in Hd. lia. }
  case_match; [cbn [vlist map concat length]; lia|].
  unfold vlist. cbn [map concat]. rewrite app_nil_r, length_app. cbn [length]. fold (vlist (dedup (Some x) l)). lia.
Qed.

(** * Lemmas about the access-control lists

    The stored text of a list of entries, the search loops on it, and the
    abstract list operations they implement. *)

(** ** The text of a list *)

(** The characters the text gives a meaning to. *)
Definition acl_plain (s : cstr) : Prop :=
  ";"%char ∉ s ∧ ","%char ∉ s ∧ nul_free s.
#[global] Instance acl_plain_dec s : Decision (acl_plain s).
Proof. unfold acl_plain. apply _. Defined.

Record acl_ok (e : scAclBuf_s) : Prop := AclOk {
  ao_mac : length (acl_mac e) = 17%nat ∧ acl_plain (acl_mac e);
  ao_name : (length (acl_name e) <= 19)%nat ∧ acl_plain (acl_name e);
  ao_used : acl_used e = 0 ∨ acl_used e = 1;
}.
#[global] Instance acl_ok_dec e : Decision (acl_ok e).
Proof.
  destruct (decide ((length (acl_mac e) = 17%nat ∧ acl_plain (acl_mac e)) ∧
    ((length (acl_name e) <= 19)%nat ∧ acl_plain (acl_name e)) ∧
    (acl_used e = 0 ∨ acl_used e = 1))) as [H|H].
  - left. by destruct H as (? & ? & ?).
  - right. intros [? ? ?]. by apply H.
Defined.

Definition entry_text (e : scAclBuf_s) : cstr := acl_unit (acl_mac e) (acl_name e) (acl_used e).
Definition acl_text (es : list scAclBuf_s) : cstr := concat (map (λ e, entry_text e ++ [";"%char]) es).

Lemma acl_text_cons e es : acl_text (e :: es) = entry_text e ++ ";"%char :: acl_text es.
Proof. unfold acl_text. cbn [map concat]. by rewrite <- app_assoc. Qed.
Lemma acl_text_app es fs : acl_text (es ++ fs) = acl_text es ++ acl_text fs.
Proof. unfold acl_text. by rewrite map_app, concat_app. Qed.

Lemma used_digit u : u = 0 ∨ u = 1 → dec u = [if u =? 1 then "1"%char else "0"%char].
Proof. by intros [-> | ->]. Qed.

Lemma entry_text_length e : acl_ok e → length (entry_text e) = (20 + length (acl_name e))%nat.
Proof.
  intros [[Hm _] [Hn _] Hu]. unfold entry_text, acl_unit.
  rewrite length_app. cbn [length]. rewrite length_app. cbn [length].
  rewrite (used_digit _ Hu). cbn [length]. lia.
Qed.

Lemma entry_text_chars e c : acl_ok e → c ∈ entry_text e → c ≠ ";"%char ∧ c ≠ NUL.
Proof.
  intros [[_ (M1 & _ & M4)] [_ (N1 & _ & N4)] Hu]. unfold entry_text, acl_unit.
  rewrite (used_digit _ Hu). unfold nul_free in *.
  intros [Hc|[-> |[Hc|[-> |Hc]%elem_of_cons]%elem_of_app]%elem_of_cons]%elem_of_app.
  - split_and!; by intros ->.
  - done.
  - split_and!; by intros ->.
  - done.
  - apply list_elem_of_singleton in Hc as ->. by destruct (acl_used e =? 1).
Qed.

Lemma acl_text_plain es : Forall acl_ok es → nul_free (acl_text es).
Proof.
  intros Hes. induction Hes as [|e es He Hes IH]; [by intros ?%not_elem_of_nil|].
  rewrite acl_text_cons. intros [Hc|[Hc|Hc]%elem_of_cons]%elem_of_app; [|done|auto].
  by apply (entry_text_chars e _ He) in Hc as [_ ?].
Qed.

Lemma acl_text_bounds es :
  Forall acl_ok es → (21 * length es <= length (acl_text es) <= 40 * length es)%nat.
Proof.
  intros Hes. induction Hes as [|e es He Hes IH]; [cbn; lia|].
  rewrite acl_text_cons, length_app, entry_text_length by done. cbn [length].
  destruct He as [_ [Hn _] _]. lia.
Qed.

Lemma entry_text_nonempty e es : acl_ok e → acl_text (e :: es) ≠ [].
Proof.
  intros He. rewrite acl_text_cons. pose proof (entry_text_length e He).
  by destruct (entry_text e) as [|c r]; [cbn in *; lia|].
Qed.

(** ** The search loops *)

Lemma from_chr_app c s t : c ∉ s → from_chr c (s ++ c :: t) = Some (c :: t).
Proof.
  induction s as [|d s IH]; intros Hc; cbn [app from_chr].
  - by rewrite decide_True.
  - rewrite decide_False by set_solver. apply IH. set_solver.
Qed.

Lemma memcmp_eq_front n p x y :
  length p = n → (n <= length y)%nat → memcmp_eq n (p ++ x) y = Done (bool_decide (take n y = p)).
Proof.
  revert p y. induction n as [|n IH]; intros p y Hp Hy.
  { destruct p; [|done]. done. }
  destruct p as [|c p]; [done|]. destruct y as [|d y]; [cbn in Hy; lia|].
  cbn [app memcmp_eq take]. cbn [length] in *. destruct (decide (c = d)) as [->|Hne].
  - rewrite IH by lia. f_equal. apply bool_decide_ext. split; congruence.
  - f_equal. symmetry. apply bool_decide_false. congruence.
Qed.

Lemma entry_compare e es mac :
  acl_ok e → length mac = 17%nat →
  memcmp_eq 17 (acl_text (e :: es)) mac = Done (bool_decide (acl_mac e = mac)).
Proof.
  intros [[Hm _] _ _] Hl. rewrite acl_text_cons. unfold entry_text, acl_unit. rewrite <- app_assoc.
  rewrite memcmp_eq_front by lia. rewrite firstn_all2 by lia. f_equal. apply bool_decide_ext. split; congruence.
Qed.

Lemma entry_separator e es :
  acl_ok e → from_chr ";"%char (acl_text (e :: es)) = Some (";"%char :: acl_text es).
Proof.
  intros He. rewrite acl_text_cons. apply from_chr_app. intros Hc.
  by apply (entry_text_chars e _ He) in Hc as [? _].
Qed.

(** The entries in front of the first with this address, and those behind. *)
Fixpoint acl_split (mac : cstr) (es : list scAclBuf_s) : option (list scAclBuf_s * list scAclBuf_s) :=
  match es with
  | [] => None
  | e :: es' =>
      if decide (acl_mac e = mac) then Some ([], es')
      else match acl_split mac es' with
           | Some (b, r) => Some (e :: b, r)
           | None => None
           end
  end.

Lemma acl_split_spec mac es b r :
  acl_split mac es = Some (b, r) → ∃ e, es = b ++ e :: r ∧ acl_mac e = mac ∧ Forall (λ e, acl_mac e ≠ mac) b.
Proof.
  revert b. induction es as [|e es IH]; intros b Hs; [done|]. cbn [acl_split] in Hs.
  destruct (decide (acl_mac e = mac)); [simplify_eq; exists e; split_and!; [done|done|apply List.Forall_nil]|].
  destruct (acl_split mac es) as [[b' r']|]; [|done]. simplify_eq.
  destruct (IH b' eq_refl) as (e' & -> & Hm & Hb). exists e'. split_and!; [done|done|by apply List.Forall_cons].
Qed.

Lemma acl_split_none mac es : acl_split mac es = None → Forall (λ e, acl_mac e ≠ mac) es.
Proof.
  induction es as [|e es IH]; intros Hs; [apply List.Forall_nil|]. cbn [acl_split] in Hs.
  destruct (decide (acl_mac e = mac)); [done|].
  destruct (acl_split mac es) as [[b' r']|]; [done|]. apply List.Forall_cons; auto.
Qed.

Lemma take_front (p x : cstr) : take (length (p ++ x) - length x) (p ++ x) = p.
Proof. rewrite length_app. replace (_ - _)%nat with (length p) by lia. by rewrite take_app_length. Qed.

(** One round of each loop. *)
Lemma acl_find_step fuel mac full p count : p ≠ [] →
  acl_find (S fuel) mac full p count =
    (eq ← memcmp_eq 17 p mac;
     match from_chr ";"%char p with
     | None => Fault
     | Some q => if (eq : bool) then Done (AclAt (take (length full - length p) full) q)
                 else acl_find fuel mac full (tail q) (S count)
     end).
Proof. by destruct p. Qed.

Lemma acl_del_step fuel mac full p : p ≠ [] →
  acl_del_find (S fuel) mac full p =
    match from_chr ";"%char p with
    | None => Done None
    | Some q => eq ← memcmp_eq 17 p mac;
                if (eq : bool) then Done (Some (take (length full - length p) full ++ tail q))
                else acl_del_find fuel mac full (tail q)
    end.
Proof. by destruct p. Qed.

Lemma acl_entries_step fuel p : p ≠ [] →
  acl_entries (S fuel) p =
    (r ← acl_entry p; let '(e, next) := (r : scAclBuf_s * cstr) in
     es ← acl_entries fuel next; Done (e :: es)).
Proof. by destruct p. Qed.

Lemma acl_find_ok fuel mac pre es count :
  Forall acl_ok es → length mac = 17%nat → (length es < fuel)%nat →
  acl_find fuel mac (acl_text pre ++ acl_text es) (acl_text es) count =
    Done (match acl_split mac es with
          | Some (b, r) => AclAt (acl_text (pre ++ b)) (";"%char :: acl_text r)
          | None => AclCount (count + length es)
          end).
Proof.
  intros Hes Hm. revert pre fuel count. induction Hes as [|e es He Hes IH]; intros pre [|fuel] count Hf;
    cbn [length] in Hf; [lia| |lia|].
  { cbn. by rewrite Nat.add_0_r. }
  rewrite acl_find_step by (by apply entry_text_nonempty).
  rewrite entry_compare, entry_separator by done. cbn [mbind outcome_bind acl_split].
  destruct (decide (acl_mac e = mac)) as [Heq|Hne].
  - rewrite bool_decide_true by done. rewrite take_front. by rewrite app_nil_r.
  - rewrite bool_decide_false by done. cbn [tail].
    replace (acl_text pre ++ acl_text (e :: es)) with (acl_text (pre ++ [e]) ++ acl_text es).
    2: { rewrite acl_text_app, <- app_assoc. f_equal. unfold acl_text at 1. cbn [map concat].
         rewrite app_nil_r. by rewrite acl_text_cons, <- app_assoc. }
    rewrite IH by lia. f_equal. destruct (acl_split mac es) as [[b r']|].
    + by rewrite <- app_assoc.
    + f_equal. cbn [length]. lia.
Qed.

Lemma acl_del_find_ok fuel mac pre es :
  Forall acl_ok es → length mac = 17%nat → (length es < fuel)%nat →
  acl_del_find fuel mac (acl_text pre ++ acl_text es) (acl_text es) =
    Done (match acl_split mac es with
          | Some (b, r) => Some (acl_text (pre ++ b ++ r))
          | None => None
          end).
Proof.
  intros Hes Hm. revert pre fuel. induction Hes as [|e es He Hes IH]; intros pre [|fuel] Hf;
    cbn [length] in Hf; [lia|done|lia|].
  rewrite acl_del_step by (by apply entry_text_nonempty).
  rewrite entry_compare, entry_separator by done. cbn [mbind outcome_bind acl_split].
  destruct (decide (acl_mac e = mac)) as [Heq|Hne].
  - rewrite bool_decide_true by done. rewrite take_front. cbn [tail app]. by rewrite acl_text_app.
  - rewrite bool_decide_false by done. cbn [tail].
    replace (acl_text pre ++ acl_text (e :: es)) with (acl_text (pre ++ [e]) ++ acl_text es).
    2: { rewrite acl_text_app, <- app_assoc. f_equal. unfold acl_text at 1. cbn [map concat].
         rewrite app_nil_r. by rewrite acl_text_cons, <- app_assoc. }
    rewrite IH by lia. f_equal. destruct (acl_split mac es) as [[b r']|]; [|done].
    by rewrite <- app_assoc.
Qed.

(** ** Reading the entries *)

Lemma acl_entry_ok e es :
  acl_ok e → (length (acl_name e) <= 16)%nat → acl_entry (acl_text (e :: es)) = Done (e, acl_text es).
Proof.
  intros He Hn16. pose proof He as [[Hm _] [_ (_ & Nc & _)] Hu].
  unfold acl_entry. rewrite acl_text_cons.
  pose proof (entry_text_length e He) as Hl.
  rewrite decide_False by (rewrite length_app; lia). unfold entry_text, acl_unit.
  rewrite <- app_assoc. cbn [app]. rewrite (used_digit _ Hu).
  rewrite take_app_length' by done.
  replace 18%nat with (length (acl_mac e) + 1)%nat by lia. rewrite drop_app_add'  by done.
  cbn [drop]. rewrite drop_0, <- app_assoc. cbn [app].
  rewrite span_until_app; [|intros d Hd; by apply list_elem_of_singleton in Hd as ->|left].
  rewrite decide_False by lia. destruct e as [n m u]. cbn in *. by destruct Hu as [-> | ->].
Qed.

Lemma acl_entry_long e es :
  acl_ok e → (16 < length (acl_name e))%nat → acl_entry (acl_text (e :: es)) = Fault.
Proof.
  intros He Hn16. pose proof He as [[Hm _] [_ (_ & Nc & _)] Hu].
  unfold acl_entry. rewrite acl_text_cons.
  pose proof (entry_text_length e He) as Hl.
  rewrite decide_False by (rewrite length_app; lia). unfold entry_text, acl_unit.
  rewrite <- app_assoc. cbn [app]. rewrite (used_digit _ Hu).
  rewrite take_app_length' by done.
  replace 18%nat with (length (acl_mac e) + 1)%nat by lia. rewrite drop_app_add'  by done.
  cbn [drop]. rewrite drop_0, <- app_assoc. cbn [app].
  rewrite span_until_app; [|intros d Hd; by apply list_elem_of_singleton in Hd as ->|left].
  by rewrite decide_True by lia.
Qed.

Lemma acl_entries_ok fuel es :
  Forall acl_ok es → (length es < fuel)%nat →
  acl_entries fuel (acl_text es) =
    if forallb (λ e, bool_decide (length (acl_name e) <= 16)%nat) es then Done es else Fault.
Proof.
  intros Hes. revert fuel. induction Hes as [|e es He Hes IH]; intros [|fuel] Hf;
    cbn [length] in Hf; [lia|done|lia|].
  rewrite acl_entries_step by (by apply entry_text_nonempty). cbn [forallb]. case_bool_decide as Hn; cbn [andb].
  - rewrite acl_entry_ok by done. cbn [mbind outcome_bind]. rewrite IH by lia.
    by destruct (forallb _ es).
  - rewrite acl_entry_long by (done || lia). done.
Qed.
