(* ===== verification/ListTheorems.v ===== *)
(** * The theorems about list-valued parameters *)

From Stdlib Require Import Sorted.
From S2P Require Import Prelude CLib Inet Utility FileSys Nvram NvramSpec NvramCorrect Scfg Sample CfgStore ApCfgSys ApCfgWlan CfgRefine ApCfgSpec AplFlag CfgImpl Session CfgOverflow CfgTheorems ApCfgLists UtilityCorrect ListCorrect.

(** ** The VLAN list *)

Section vlan.
Context {S : Type} {store : CfgStore S} {laws : CfgStoreLaws S}.

Lemma run_vlan_get s a (Q : cstr → S → Prop) :
  rep s a → (length (safe a "vlan_list") < 65)%nat →
  (∀ s', rep s' a → Q (safe a "vlan_list") s') → runs apCfgVlanListGet s Q.
Proof. intros Hr Hl HQ. unfold apCfgVlanListGet, get_str. repeat cfg_step. by apply HQ. Qed.

Lemma run_vlan_set s a p :
  rep s a → (length (safe a "vlan_list") < 65)%nat → nul_free p → (length p < 100)%nat →
  runs (apCfgVlanListSet p) s (λ r s', r = A_OK ∧ ∃ a', rep s' a' ∧ safe a' "vlan_list" = p).
Proof.
  intros Hr Hl Hn Hp. unfold apCfgVlanListSet. cfg_step. eapply run_vlan_get; [done|done|].
  intros s1 Hr1. unfold differ. destruct (decide (p = safe a "vlan_list")) as [Hd|Hd].
  2: rewrite bool_decide_true by done. 1: rewrite bool_decide_false by naive_solver.
  2: { repeat cfg_step. split; [done|]. eexists. split; [eassumption|].
    by rewrite safe_raise, safe_put_eq. }
  cfg_step. split; [done|]. by exists a.
Qed.

Lemma sprintf_fault n (t : cstr) {A} (k : cstr → M S A) s :
  (n <= length t)%nat → (sprintf_buf n t ≫= k) s = Fault.
Proof. intros Hn. unfold sprintf_buf, strcpy_buf. by rewrite decide_False by lia. Qed.

Lemma run_fault {A B} (m : M S A) (k : A → M S B) s (Q : A → S → Prop) :
  runs m s Q → (∀ r s', Q r s' → k r s' = Fault) → (m ≫= k) s = Fault.
Proof.
  unfold runs, mbind, M_bind. destruct (m s) as [[r s']| |]; [|done|done]. intros HQ Hk. by apply Hk.
Qed.

(** Adding to the VLAN list.  An identifier out of range or already in the
    list is refused and nothing changes.  Otherwise it is appended when the new
    text has at most seven characters; a longer text leaves the local buffer,
    whose size is the number of entries a list may have. *)
Theorem vlan_list_add_exact s a l v :
  rep s a → safe a "vlan_list" = vlist l → Forall vlan_id l → (length (vlist l) < 65)%nat →
  (¬ vlan_id v ∨ v ∈ l → runs (apCfgVlanListAdd v) s (λ r s', r = A_ERROR ∧ rep s' a)) ∧
  (vlan_id v → v ∉ l → (length (vlist (l ++ [v])) < 8)%nat →
     runs (apCfgVlanListAdd v) s (λ r s', r = A_OK ∧
       ∃ a', rep s' a' ∧ safe a' "vlan_list" = vlist (l ++ [v]))) ∧
  (vlan_id v → v ∉ l → (8 <= length (vlist (l ++ [v])))%nat → apCfgVlanListAdd v s = Fault).
Proof.
  intros Hr Hs Hl H65. rewrite <- Hs in H65.
  assert (Hguard : vlan_id v → (v <? VLAN_TAG_MIN) || (VLAN_TAG_MAX <? v) = false)
    by (unfold vlan_id; lia).
  unfold apCfgVlanListAdd, guarded. split_and!.
  - intros Hv. destruct ((v <? VLAN_TAG_MIN) || (VLAN_TAG_MAX <? v)) eqn:Eg; [by cfg_step|].
    cfg_step. eapply run_vlan_get; [done|done|]. intros s1 Hr1. rewrite Hs, existsb_vlist by done.
    rewrite bool_decide_true; [by cfg_step|]. destruct Hv as [Hv|]; [|done].
    exfalso. apply Hv. unfold vlan_id. lia.
  - intros Hv Hin H8. rewrite Hguard by done. cfg_step. eapply run_vlan_get; [done|done|]. intros s1 Hr1.
    rewrite Hs at 1. rewrite existsb_vlist, bool_decide_false by done. cfg_step.
    eapply run_vlan_get; [done|done|]. intros s2 Hr2. rewrite Hs. rewrite vlist_snoc in *.
    unfold sprintf_buf. repeat cfg_step. rewrite <- vlist_snoc in *.
    use_runs (run_vlan_set s2 a (vlist (l ++ [v])) Hr2 H65); [apply vlist_plain|lia|].
    intros r s3 [_ H3]. by cfg_step.
  - intros Hv Hin H8. rewrite Hguard by done.
    eapply (run_fault _ _ _ (λ r s', r = vlist l ∧ rep s' a)).
    { eapply run_vlan_get; [done|done|]. by rewrite Hs. }
    intros r s1 [-> Hr1]. rewrite existsb_vlist, bool_decide_false by done.
    eapply (run_fault _ _ _ (λ r s', r = vlist l)).
    { eapply run_vlan_get; [done|done|]. by rewrite Hs. }
    intros r s2 ->. apply sprintf_fault. by rewrite <- vlist_snoc.
Qed.

(** Deleting from the VLAN list.  The head of the list is removed.  Any other
    identifier of up to three digits is reported deleted but stays, because the
    text edited and the text it is compared with are the same static buffer; and
    an identifier of four digits does not fit the local buffer. *)
Theorem vlan_list_del_exact s a x l v :
  rep s a → safe a "vlan_list" = vlist (x :: l) → Forall vlan_id (x :: l) →
  (length (vlist (x :: l)) < 65)%nat → vlan_id v →
  (v < 1000 → v = x → runs (apCfgVlanListDel v) s (λ r s', r = A_OK ∧
     ∃ a', rep s' a' ∧ safe a' "vlan_list" = vlist l)) ∧
  (v < 1000 → v ≠ x → runs (apCfgVlanListDel v) s (λ r s', r = A_OK ∧ rep s' a)) ∧
  (1000 <= v → apCfgVlanListDel v s = Fault).
Proof.
  intros Hr Hs Hl H65 Hv. rewrite <- Hs in H65.
  pose proof (vlan_del_fits v Hv) as Hlen.
  assert (Hrun : v < 1000 → runs (apCfgVlanListDel v) s (λ r s', r = A_OK ∧
    if v =? x then ∃ a', rep s' a' ∧ safe a' "vlan_list" = vlist l else rep s' a)).
  { intros H1000. unfold apCfgVlanListDel, sprintf_buf. cfg_step.
    apply run_strcpy; [apply Nat.ltb_lt; rewrite Hlen; lia|]. cfg_step. eapply run_vlan_get; [done|done|]. intros s1 Hr1.
    rewrite Hs. cfg_step. eapply runs_lift.
    { apply del_loop_first; [unfold vlan_id, VLAN_TAG_MIN, VLAN_TAG_MAX in Hv; lia|done|].
      pose proof (vlist_length (x :: l)). cbn [length] in *. lia. }
    unfold vlan_list_set_static. repeat cfg_step. eapply run_vlan_get; [done|done|]. intros s2 Hr2.
    rewrite Hs. destruct (Z.eqb_spec v x) as [->|Hne].
    - rewrite vlist_cons. change (","%char :: vlist l) with ([","%char] ++ vlist l).
      rewrite app_assoc, drop_app_length. unfold differ. rewrite bool_decide_true.
      + pose proof (vlist_plain l) as Hn.
        assert (length (vlist l) < 100)%nat by (rewrite Hs, vlist_cons, length_app in H65; cbn [length] in H65; lia).
        repeat cfg_step. split; [done|]. eexists. split; [eassumption|].
        by rewrite safe_raise, safe_put_eq.
      + intros E. apply (f_equal length) in E. rewrite !length_app in E. cbn [length] in E. lia.
    - rewrite drop_0. unfold differ. rewrite bool_decide_false by (by intros []). repeat cfg_step. done. }
  split_and!.
  - intros H1000 ->. use_runs (Hrun H1000). intros r s'. by rewrite Z.eqb_refl.
  - intros H1000 Hne. use_runs (Hrun H1000). intros r s'. by rewrite (proj2 (Z.eqb_neq v x) Hne).
  - intros H1000. unfold apCfgVlanListDel. apply sprintf_fault, Nat.ltb_ge. rewrite Hlen. lia.
Qed.

(** The identifiers the list is built from. *)
Definition vlan_sources (a : cfg) : list Z :=
  atoi (safe a "vlan_default") :: atoi (safe a "vlan_management") ::
  map (λ vap, atoi (safe a (vap_key 0 vap "_vid"))) vaps.

Definition vids_fit (a : cfg) : Prop := Forall (λ vap, (length (safe a (vap_key 0 vap "_vid")) < 32)%nat) vaps.

Lemma run_pvids s a l :
  l ⊆ vaps → vids_fit a → rep s a →
  runs (map_each l (λ vap, apCfgVlanPvidGet 0 vap)) s
    (λ r s', r = map (λ vap, atoi (safe a (vap_key 0 vap "_vid"))) l ∧ rep s' a).
Proof.
  revert s. induction l as [|vap l IH]; intros s Hl Hf Hr; cbn [map_each map]; [by cfg_step|].
  assert (Hu : vap ∈ vaps) by set_solver.
  pose proof Hf as Hf'. unfold vids_fit in Hf'. rewrite Forall_forall in Hf'. specialize (Hf' vap Hu). cbv beta in Hf'.
  unfold apCfgVlanPvidGet, get_int_buf, get_str. repeat cfg_step.
  use_runs (IH _ ltac:(set_solver) Hf ltac:(eassumption)). intros r s1 [-> Hr1]. by cfg_step.
Qed.

(** the VLAN list that is applied.  From identifiers in range,
    [apCfgVlanListApply] stores the text of a strictly ascending list that holds
    exactly the native, the management and the access points' identifiers. *)
Theorem vlan_list_apply_sorted s a :
  rep s a → vids_fit a → (length (safe a "vlan_list") < 65)%nat → Forall vlan_id (vlan_sources a) →
  runs (apCfgVlanListApply 0) s (λ r s', r = A_OK ∧ ∃ a' l,
    rep s' a' ∧ safe a' "vlan_list" = vlist l ∧ StronglySorted Z.lt l ∧
    ∀ v, v ∈ l ↔ v ∈ vlan_sources a).
Proof.
  intros Hr Hf H65 Hids. unfold apCfgVlanListApply, apCfgNativeVlanIdGet, apCfgManagementVlanIdGet, get_int.
  repeat cfg_step. use_runs (run_pvids _ a vaps ltac:(done) Hf ltac:(eassumption)).
  intros pvids s1 [-> Hr1]. cbv zeta. fold (vlan_sources a).
  destruct (scCompositor_all 6 (vlan_sources a)) as [Hp Ho]; [unfold vlan_sources; cbn; lia|].
  change (zlen (vlan_sources a) - 1) with 5 in Hp, Ho.
  set (w := scCompositor 6 (vlan_sources a) 0 5) in *.
  rewrite <- (Permutation_length Hp) in Ho. apply ordered_Sorted in Ho.
  apply Sorted_StronglySorted in Ho; [|intros ? ? ? ? ?; lia].
  assert (Hw : Forall vlan_id w) by (by rewrite Hp).
  rewrite vlan_text_vlist. pose proof (dedup_text_length w Hw) as Hlen.
  rewrite (Permutation_length Hp) in Hlen. change (length (vlan_sources a)) with 6%nat in Hlen.
  unfold sprintf_buf. repeat cfg_step.
  use_runs (run_vlan_set s1 a (vlist (dedup None w)) Hr1 H65); [apply vlist_plain|lia|].
  intros r s2 [-> (a' & Hr2 & Ha')]. cfg_step. split; [done|]. exists a', (dedup None w).
  split_and!; [done|done| |].
  - apply (dedup_sorted None w Ho). apply Forall_forall. by intros ? _ ?.
  - intros v. rewrite <- Hp. split; [apply dedup_sub|].
    intros Hv. by destruct (dedup_all None w v Hv).
Qed.
End vlan.

(** ** Access-control lists *)

Section acl.
Context {S : Type} {store : CfgStore S} {laws : CfgStoreLaws S}.

Definition ZERO_MAC : cstr := "00:00:00:00:00:00".

(** The list with an entry put in the place of the one with its address, or at
    the end. *)
Definition acl_upsert (e : scAclBuf_s) (es : list scAclBuf_s) : list scAclBuf_s :=
  match acl_split (acl_mac e) es with Some (b, r) => b ++ e :: r | None => es ++ [e] end.

Definition acl_full (e : scAclBuf_s) (es : list scAclBuf_s) : bool :=
  match acl_split (acl_mac e) es with Some _ => false | None => (CFG_MAX_ACL_LINKSYS <=? length es)%nat end.

Lemma acl_upsert_ok e es : acl_ok e → Forall acl_ok es → Forall acl_ok (acl_upsert e es).
Proof.
  intros He Hes. unfold acl_upsert. destruct (acl_split _ es) as [[b r]|] eqn:E.
  - apply acl_split_spec in E as (x & -> & _). apply Forall_app in Hes as [Hb Hr].
    apply List.Forall_cons_iff in Hr as [_ Hr]. apply Forall_app; auto.
  - apply Forall_app; auto.
Qed.

Lemma acl_upsert_length e es : (length (acl_upsert e es) <= Datatypes.S (length es))%nat.
Proof.
  unfold acl_upsert. destruct (acl_split _ es) as [[b r]|] eqn:E.
  - apply acl_split_spec in E as (x & -> & _). rewrite !length_app. cbn [length]. lia.
  - rewrite length_app. cbn [length]. lia.
Qed.

Lemma zero_compare mac :
  length mac = 17%nat → memcmp_eq 17 mac ZERO_MAC = Done (bool_decide (mac = ZERO_MAC)).
Proof.
  intros Hm. rewrite <- (app_nil_r mac) at 1. rewrite memcmp_eq_front by (done || (cbn; lia)).
  f_equal. apply bool_decide_ext. change (take 17 ZERO_MAC) with ZERO_MAC. split; congruence.
Qed.

Lemma acl_key_facts unit bss :
  0 <= unit < 2 → 0 <= bss < 4 → key_ok (acl_key unit bss) ∧ zlen (acl_key unit bss) <= 100.
Proof.
  intros Hu Hb. unfold acl_key. split; [cfg_key|]. apply (short_vap unit bss "_acl_list"); [lia|lia|done].
Qed.

(** The common end of the two branches of [apCfgAclAdd]. *)
Lemma acl_store_runs s a unit bss es :
  0 <= unit < 2 → 0 <= bss < 4 → rep s a → Forall acl_ok es → (length es <= 21)%nat →
  runs (finalValue ← sprintf_buf (Z.to_nat CFG_MAX_ACL * ACL_ENTRY_SIZE)%nat (acl_text es);
        _ ← scfgmgr_set (acl_key unit bss) finalValue;
        _ ← CfgStore.apl_set_flag (vap_flag unit bss);
        mret A_OK) s
    (λ r s', r = A_OK ∧ ∃ a', rep s' a' ∧ safe a' (acl_key unit bss) = acl_text es).
Proof.
  intros Hu Hb Hr Hes Hl. pose proof (acl_text_bounds es Hes) as Hlen.
  destruct (acl_key_facts unit bss Hu Hb) as [Hk Hs].
  pose proof (acl_text_plain es Hes) as Hn.
  unfold sprintf_buf. apply runs_bind, run_strcpy.
  { apply Nat.lt_le_trans with 1000%nat; [lia|]. apply Nat.leb_le. vm_compute. reflexivity. }
  apply runs_bind. eapply run_set; [done|done|done|unfold pair_fits; lia|]. intros r1 s1 Hr1.
  repeat cfg_step. split; [done|]. eexists. split; [eassumption|].
  by rewrite safe_raise, safe_put_eq.
Qed.

(** C27: adding to an access-control list.  For a name of at most 19 characters the
    stored list becomes the abstract list with the entry in the place of the one
    with the same address (compared in upper case), or at its end; a twenty-first
    address is refused, as is the zero address, and nothing changes; a longer
    name leaves the buffer of one entry. *)
Theorem acl_add_refines unit bss s a es mac name used :
  0 <= unit < 2 → 0 <= bss < 4 → rep s a → safe a (acl_key unit bss) = acl_text es →
  Forall acl_ok es → (length es <= 20)%nat → length mac = 17%nat → acl_plain (scToUppers mac) →
  used = 0 ∨ used = 1 → acl_plain name →
  let e := ScAclBuf name (scToUppers mac) used in
  (mac = ZERO_MAC → runs (apCfgAclAdd unit bss mac name used) s (λ r s', r = A_ERROR ∧ s' = s)) ∧
  (mac ≠ ZERO_MAC → acl_full e es = true →
    runs (apCfgAclAdd unit bss mac name used) s (λ r s', r = A_NO_MEMORY ∧ rep s' a)) ∧
  (mac ≠ ZERO_MAC → acl_full e es = false → (length name <= 19)%nat →
    runs (apCfgAclAdd unit bss mac name used) s (λ r s', r = A_OK ∧
      ∃ a', rep s' a' ∧ safe a' (acl_key unit bss) = acl_text (acl_upsert e es) ∧
        Forall acl_ok (acl_upsert e es) ∧ (length (acl_upsert e es) <= 20)%nat)) ∧
  (mac ≠ ZERO_MAC → acl_full e es = false → (20 <= length name)%nat →
    apCfgAclAdd unit bss mac name used s = Fault).
Proof.
  intros Hu Hb Hr Hs Hes H20 Hm Hmp Hused Hnp e.
  assert (Hm' : length (acl_mac e) = 17%nat) by (cbn; unfold scToUppers; by rewrite length_map).
  destruct (acl_key_facts unit bss Hu Hb) as [Hk _].
  assert (Hfind : acl_find (Datatypes.S (length (acl_text es))) (scToUppers mac) (acl_text es) (acl_text es) 0 =
    Done (match acl_split (acl_mac e) es with
          | Some (b, r) => AclAt (acl_text b) (";"%char :: acl_text r)
          | None => AclCount (length es) end)).
  { pose proof (acl_text_bounds es Hes).
    apply (acl_find_ok (Datatypes.S (length (acl_text es))) (acl_mac e) [] es 0 Hes Hm'). lia. }
  assert (Hbuf : (length (acl_unit (scToUppers mac) name used) < ACL_ENTRY_SIZE)%nat ↔ (length name <= 19)%nat).
  { unfold acl_unit, ACL_ENTRY_SIZE. rewrite length_app. cbn [length]. rewrite length_app. cbn [length].
    rewrite (used_digit used Hused). cbn [length]. cbn in Hm'. lia. }
  unfold apCfgAclAdd. fold ZERO_MAC.
  split_and!.
  - intros ->. apply runs_bind. eapply runs_lift; [by apply zero_compare|]. by apply runs_ret.
  - intros Hz Hf. apply runs_bind. eapply runs_lift; [by apply zero_compare|].
    rewrite bool_decide_false by done. apply runs_bind. eapply run_safe_get; [done|done|].
    intros s1 Hr1. rewrite Hs. cbv zeta. apply runs_bind. eapply runs_lift; [exact Hfind|].
    unfold acl_full in Hf. destruct (acl_split (acl_mac e) es) as [[b r]|]; [done|].
    rewrite Hf. by apply runs_ret.
  - intros Hz Hf Hn. assert (He : acl_ok e) by (by split).
    pose proof (acl_upsert_ok e es He Hes) as Hok.
    assert (Hlen : (length (acl_upsert e es) <= 20)%nat).
    { unfold acl_upsert, acl_full in *. destruct (acl_split (acl_mac e) es) as [[b r]|] eqn:E.
      - apply acl_split_spec in E as (x & -> & _). rewrite length_app in *. cbn [length] in *. lia.
      - apply Nat.leb_gt in Hf. unfold CFG_MAX_ACL_LINKSYS in Hf. rewrite length_app. cbn [length]. lia. }
    apply runs_bind. eapply runs_lift; [by apply zero_compare|].
    rewrite bool_decide_false by done. apply runs_bind. eapply run_safe_get; [done|done|].
    intros s1 Hr1. rewrite Hs. cbv zeta. apply runs_bind. eapply runs_lift; [exact Hfind|].
    pose proof (acl_store_runs s1 a unit bss (acl_upsert e es) Hu Hb Hr1 Hok ltac:(lia)) as Hst.
    unfold acl_full, acl_upsert in *. destruct (acl_split (acl_mac e) es) as [[b r]|].
    + apply runs_bind, run_strcpy; [by apply Hbuf|].
      assert (acl_text b ++ acl_unit (scToUppers mac) name used ++ ";"%char :: acl_text r =
              acl_text (b ++ e :: r)) as -> by (by rewrite acl_text_app, acl_text_cons).
      use_runs Hst. intros r1 s2 (-> & a' & ? & ?). eauto 8.
    + rewrite Hf. apply runs_bind, run_strcpy; [by apply Hbuf|].
      assert (acl_text es ++ acl_unit (scToUppers mac) name used ++ [";"%char] =
              acl_text (es ++ [e])) as -> by (by rewrite acl_text_app, acl_text_cons).
      use_runs Hst. intros r1 s2 (-> & a' & ? & ?). eauto 8.
  - intros Hz Hf Hn. eapply (run_fault _ _ _ (λ r s', r = false ∧ s' = s)).
    { eapply runs_lift; [by apply zero_compare|]. by rewrite bool_decide_false. }
    intros ? ? [-> ->]. eapply (run_fault _ _ _ (λ r s', r = acl_text es)).
    { eapply run_safe_get; [done|done|]. by rewrite Hs. }
    intros ? s1 ->. cbv zeta. unfold liftO. unfold mbind at 1, M_bind at 1. rewrite Hfind.
    unfold acl_full in Hf.
    destruct (acl_split (acl_mac e) es) as [[b r]|]; [|rewrite Hf]; apply sprintf_fault; lia.
Qed.

(** deleting from an access-control list.  The first entry with the address is
    removed and the others keep their order; an address that is not in the list
    is reported as such and nothing changes. *)
Theorem acl_del_refines unit bss s a es mac :
  0 <= unit < 2 → 0 <= bss < 4 → rep s a → safe a (acl_key unit bss) = acl_text es →
  Forall acl_ok es → (length es <= 20)%nat → length mac = 17%nat →
  runs (apCfgAclDel unit bss mac) s (λ r s',
    match acl_split (scToUppers mac) es with
    | Some (b, c) => r = A_OK ∧ ∃ a', rep s' a' ∧ safe a' (acl_key unit bss) = acl_text (b ++ c)
    | None => r = A_ENOENT ∧ rep s' a
    end).
Proof.
  intros Hu Hb Hr Hs Hes H20 Hm.
  assert (Hm' : length (scToUppers mac) = 17%nat) by (unfold scToUppers; by rewrite length_map).
  destruct (acl_key_facts unit bss Hu Hb) as [Hk _].
  unfold apCfgAclDel. apply runs_bind. eapply run_safe_get; [done|done|]. intros s1 Hr1. rewrite Hs.
  apply runs_bind. eapply runs_lift.
  { pose proof (acl_text_bounds es Hes).
    apply (acl_del_find_ok _ (scToUppers mac) [] es Hes Hm'). lia. }
  destruct (acl_split (scToUppers mac) es) as [[b c]|] eqn:E; [|by apply runs_ret].
  apply acl_split_spec in E as (x & -> & _). apply Forall_app in Hes as [Hb' Hc].
  apply List.Forall_cons_iff in Hc as [_ Hc]. rewrite length_app in H20. cbn [length] in H20.
  cbn [app]. apply (acl_store_runs s1 a unit bss (b ++ c) Hu Hb Hr1).
  - by apply Forall_app.
  - rewrite length_app. lia.
Qed.

(** Reading an access-control list.  The entries handed out are those of the
    list, unless one of them has a name of 17 to 19 characters, which
    [apCfgAclAdd] stores and which leaves the name buffer of the entry; a list
    already handed out is not handed out again. *)
Theorem acl_read_exact bss s a es :
  0 <= bss < 4 → rep s a → safe a (acl_key 0 bss) = acl_text es → Forall acl_ok es →
  (Forall (λ e, (length (acl_name e) <= 16)%nat) es →
    runs (scAclBufGet false 0 bss) s (λ r s', r = (true, true, es) ∧ rep s' a)) ∧
  (Exists (λ e, (16 < length (acl_name e))%nat) es → scAclBufGet false 0 bss s = Fault) ∧
  runs (scAclBufGet true 0 bss) s (λ r s', r = (false, true, []) ∧ s' = s).
Proof.
  intros Hb Hr Hs Hes. destruct (acl_key_facts 0 bss ltac:(lia) Hb) as [Hk _].
  assert (Hparse : acl_entries (Datatypes.S (length (acl_text es))) (acl_text es) =
    if forallb (λ e, bool_decide (length (acl_name e) <= 16)%nat) es then Done es else Fault).
  { pose proof (acl_text_bounds es Hes). apply acl_entries_ok; [done|lia]. }
  unfold scAclBufGet. change (1 <? 0) with false. cbv iota.
  assert ((0 <? 0) || (WLAN_MAX_DEV <=? 0) || (bss <? 0) || (WLAN_MAX_VAP <=? bss) = false) as ->
    by (unfold WLAN_MAX_DEV, WLAN_MAX_VAP; lia).
  split_and!.
  - intros H16. apply runs_bind. eapply run_safe_get; [done|done|]. intros s1 Hr1. rewrite Hs.
    apply runs_bind. eapply runs_lift.
    { rewrite Hparse. replace (forallb _ es) with true; [done|]. symmetry. apply forallb_forall.
      intros e He. apply bool_decide_eq_true. rewrite Forall_forall in H16. by apply H16, list_elem_of_In. }
    by apply runs_ret.
  - intros H16. eapply (run_fault _ _ _ (λ r s', r = acl_text es)).
    { eapply run_safe_get; [done|done|]. by rewrite Hs. }
    intros ? s1 ->. unfold liftO, mbind, M_bind. rewrite Hparse.
    replace (forallb _ es) with false; [done|]. symmetry.
    apply not_true_iff_false. rewrite forallb_forall. intros H. apply Exists_exists in H16 as (e & He & Hl).
    specialize (H e ltac:(by apply list_elem_of_In)). apply bool_decide_eq_true in H. lia.
  - by apply runs_ret.
Qed.
End acl.

(** ** Witnesses *)

#[local] Existing Instances sample_store sample_laws.

Definition vlan_es : list cstr :=
  ["vlan_list=5,10,20," : cstr; "vlan_default=10" : cstr; "vlan_management=5" : cstr;
   "wlan0_ssid0_vid=20" : cstr; "wlan0_ssid1_vid=5" : cstr; "wlan0_ssid2_vid=4094" : cstr;
   "wlan0_ssid3_vid=10" : cstr].
Definition vlan_machine : sys := boot vlan_es sample_ds.
Definition vlan_cfg : cfg := boot_cfg vlan_es sample_ds.

Lemma vlan_machine_rep : sys_rep vlan_machine vlan_cfg.
Proof. apply boot_rep; [closed|unfold uniq; closed|closed]. Qed.

Example vlan_list_add_exact_witness :
  (¬ vlan_id 1 ∨ (1 : Z) ∈ [] → runs (apCfgVlanListAdd 1) sample (λ r s', r = A_ERROR ∧ rep s' sample_cfg)) ∧
  (vlan_id 1 → (1 : Z) ∉ [] → (length (vlist ([] ++ [1 : Z])) < 8)%nat →
     runs (apCfgVlanListAdd 1) sample (λ r s', r = A_OK ∧
       ∃ a', rep s' a' ∧ safe a' "vlan_list" = vlist ([] ++ [1 : Z]))) ∧
  (vlan_id 1 → (1 : Z) ∉ [] → (8 <= length (vlist ([] ++ [1 : Z])))%nat → apCfgVlanListAdd 1 sample = Fault).
Proof.
  refine (vlan_list_add_exact sample sample_cfg [] 1 sample_cfg_rep _ _ _);
    [vm_compute; reflexivity|apply List.Forall_nil|vm_compute; lia].
Defined.

(** 10 is in the list, is reported deleted, and stays; 1000 leaves the buffer. *)
Example vlan_list_del_exact_witness :
  runs (apCfgVlanListDel 10) vlan_machine (λ r s', r = A_OK ∧ rep s' vlan_cfg) ∧
  safe vlan_cfg "vlan_list" = "5,10,20,".
Proof.
  split; [|vm_compute; reflexivity].
  refine (proj1 (proj2 (vlan_list_del_exact vlan_machine vlan_cfg 5 [10; 20] 10
            vlan_machine_rep _ _ _ _)) _ _);
    first [vm_compute; reflexivity | vm_compute; lia | closed | done].
Defined.

Example vlan_list_apply_sorted_witness :
  runs (apCfgVlanListApply 0) vlan_machine (λ r s', r = A_OK ∧ ∃ a' l,
    rep s' a' ∧ safe a' "vlan_list" = vlist l ∧ StronglySorted Z.lt l ∧
    ∀ v, v ∈ l ↔ v ∈ vlan_sources vlan_cfg).
Proof.
  refine (vlan_list_apply_sorted vlan_machine vlan_cfg vlan_machine_rep _ _ _);
    [closed|vm_compute; lia|].
  unfold vlan_sources. repeat apply List.Forall_cons; try apply List.Forall_nil;
    vm_compute; split; discriminate.
Defined.

Definition acl_es : list cstr :=
  ["wlan0_ssid0_acl_list=AA:BB:CC:DD:EE:FF,phone,1;00:11:22:33:44:55,a name of 19 charac,0;" : cstr].
Definition acl_machine : sys := boot acl_es sample_ds.
Definition acl_cfg : cfg := boot_cfg acl_es sample_ds.
Definition acl_sample : list scAclBuf_s :=
  [ScAclBuf "phone" "AA:BB:CC:DD:EE:FF" 1; ScAclBuf "a name of 19 charac" "00:11:22:33:44:55" 0].

Lemma acl_machine_rep : sys_rep acl_machine acl_cfg.
Proof. apply boot_rep; [closed|unfold uniq; closed|closed]. Qed.

Example acl_add_refines_witness :
  runs (apCfgAclAdd 0 0 "aa:bb:cc:dd:ee:ff" "tablet" 0) acl_machine (λ r s', r = A_OK ∧
    ∃ a', rep s' a' ∧ safe a' (acl_key 0 0) =
        acl_text (acl_upsert (ScAclBuf "tablet" (scToUppers "aa:bb:cc:dd:ee:ff") 0) acl_sample) ∧
      Forall acl_ok (acl_upsert (ScAclBuf "tablet" (scToUppers "aa:bb:cc:dd:ee:ff") 0) acl_sample) ∧
      (length (acl_upsert (ScAclBuf "tablet" (scToUppers "aa:bb:cc:dd:ee:ff") 0) acl_sample) <= 20)%nat).
Proof.
  refine (proj1 (proj2 (proj2 (acl_add_refines 0 0 acl_machine acl_cfg acl_sample
    "aa:bb:cc:dd:ee:ff" "tablet" 0 _ _ acl_machine_rep _ _ _ _ _ _ _))) _ _ _);
    first [lia | closed | vm_compute; reflexivity | vm_compute; lia | by left | discriminate].
Defined.

Example acl_del_refines_witness :
  runs (apCfgAclDel 0 0 "00:11:22:33:44:55") acl_machine (λ r s',
    match acl_split (scToUppers "00:11:22:33:44:55") acl_sample with
    | Some (b, c) => r = A_OK ∧ ∃ a', rep s' a' ∧ safe a' (acl_key 0 0) = acl_text (b ++ c)
    | None => r = A_ENOENT ∧ rep s' acl_cfg
    end).
Proof.
  refine (acl_del_refines 0 0 acl_machine acl_cfg acl_sample _ _ _ acl_machine_rep _ _ _ _);
    first [lia | closed | vm_compute; reflexivity | vm_compute; lia].
Defined.

(** The second entry of the sample was stored by [apCfgAclAdd] and cannot be read. *)
Example acl_read_exact_witness : scAclBufGet false 0 0 acl_machine = Fault.
Proof.
  refine (proj1 (proj2 (acl_read_exact 0 acl_machine acl_cfg acl_sample _ acl_machine_rep _ _)) _);
    first [lia | closed | vm_compute; reflexivity].
Defined.
