(* ===== verification/Apply.v ===== *)
(** * Applying the configuration (libapcfg/apply.c)

    The table of items with their handlers, the walk over the tree they form,
    and [apl_do_apply], which reads the flags raised, walks the tree and so runs
    the handlers.  The routines of wifiuti.c that the wireless handlers call are
    the interface [Wifi].  The table's flags and [mdns_stopped] are static
    variables of the process, kept in [apl] beside the machine. *)

From S2P Require Import Prelude CLib Utility FileSys CfgStore ApCfgSys ApCfgWlan AplFlag.

(** ** Commands *)

Definition APPLYRUN : cstr → M sys unit := SYSTEM.

(** What the handlers use of wifiuti.c; a script file is named by its path. *)
Class Wifi : Type := {
  wlanStop : Z → Z → M sys unit;               (** unit, unload_module *)
  wlanStart : Z → M sys unit;
  wlanBasicApply : cstr → Z → Z → Z → Z → M sys unit;
  wlanAdvanceApply : cstr → Z → Z → Z → M sys unit;
  wlanAclApply : cstr → Z → Z → M sys unit;
  wlanWdsApply : cstr → Z → Z → M sys unit;
  wlanSecurityApply : cstr → Z → Z → M sys unit;
  wlanNoApSecurityApply : cstr → Z → Z → M sys unit;
  wlanBridgeApply : cstr → Z → Z → Z → M sys unit;
  wlanCreatWscConfig : Z → Z → M sys unit;
}.

(** [ATH_SCRIPT_ADD]: a line behind what the file holds. *)
Definition ATH_SCRIPT_ADD (scriptFile line : cstr) : M sys unit :=
  append_file scriptFile (line ++ [nl]).
Definition ATH_SCRIPT_RUN (scriptFile : cstr) : M sys unit := FileSys.system scriptFile.
Definition ATH_SCRIPT_DEL (scriptFile : cstr) : M sys unit := unlink scriptFile.

(** [printf("%d", ...)] of the small numbers in interface names. *)
Definition ath (unit vap : Z) : cstr := "ath" ++ dec unit ++ dec vap.

Section handlers.
Context {store : CfgStore sys} {wifi : Wifi}.

Definition debug (fn : cstr) (line : Z) : M sys unit := applyLog fn line [].

Definition reboot_handler (unit vap : Z) : M sys Z :=
  _ ← debug "reboot_handler" 248; _ ← APPLYRUN "reboot"; mret 0.
Definition sysname_handler (unit vap : Z) : M sys Z := _ ← APPLYRUN "rc syslogd restart"; mret 0.
Definition telnet_handler (unit vap : Z) : M sys Z := _ ← APPLYRUN "rc telnetd restart"; mret 0.
Definition ssh_handler (unit vap : Z) : M sys Z := _ ← APPLYRUN "rc sshd restart"; mret 0.
Definition httpd_handler (unit vap : Z) : M sys Z := _ ← APPLYRUN "rc httpd restart"; mret 0.

Definition login_handler (unit vap : Z) : M sys Z :=
  _ ← debug "login_handler" 273;
  _ ← httpd_handler unit vap; _ ← telnet_handler unit vap; _ ← ssh_handler unit vap; mret 0.

Definition stp_handler (unit vap : Z) : M sys Z :=
  _ ← debug "stp_handler" 348; _ ← APPLYRUN "rc stp restart"; mret 0.
Definition lltd_handler (unit vap : Z) : M sys Z :=
  _ ← debug "lltd_handler" 360; _ ← APPLYRUN "rc lld2 restart"; mret 0.
Definition ipv4_handler (unit vap : Z) : M sys Z :=
  _ ← debug "ipv4_handler" 373;
  _ ← APPLYRUN "rc ip restart"; _ ← APPLYRUN "rc wins restart";
  _ ← APPLYRUN "rc wscupnp restart&"; _ ← APPLYRUN "rc httpredirect restart"; mret 0.
Definition ipv6_handler (unit vap : Z) : M sys Z :=
  _ ← debug "ipv6_handler" 388; _ ← APPLYRUN "rc ipv6 restart"; _ ← httpd_handler (-1) (-1); mret 0.
Definition ethsup_handler (unit vap : Z) : M sys Z :=
  _ ← debug "ethsup_handler" 401; _ ← APPLYRUN "rc lanDot1xSupp restart"; mret 0.

Definition wlan_handler (unit vap : Z) : M sys Z :=
  if (unit =? -1) || (WLAN_MAX_DEV <=? unit) then mret 1
  else
    reload ← access "/tmp/apl_reload_mod";
    _ ← (if (reload : bool) then _ ← wlanStop unit 1; unlink "/tmp/apl_reload_mod"
         else wlanStop unit 0);
    _ ← wlanStart unit;
    mret 0.

Definition balance_handler (unit vap : Z) : M sys Z := _ ← APPLYRUN "rc balance restart"; mret 0.
Definition bonjour_handler (unit vap : Z) : M sys Z := _ ← APPLYRUN "rc mdns restart"; mret 0.
Definition redirect_handler (unit vap : Z) : M sys Z := _ ← APPLYRUN "rc httpredirect restart"; mret 0.
Definition rogueap_handler (unit vap : Z) : M sys Z := _ ← APPLYRUN "rc rogueap restart"; mret 0.
Definition autoreboot_handler (unit vap : Z) : M sys Z := _ ← APPLYRUN "rc autoreboot restart"; mret 0.

Definition vlan_handler (unit vap : Z) : M sys Z :=
  v6 ← apCfgipv6modeGet;
  if v6 =? 1 then _ ← FileSys.system "/bin/sleep 3 && /sbin/reboot&"; mret 0
  else
    let unit := 0 in
    _ ← wlanStop unit 0;
    _ ← APPLYRUN "rc ip stop"; _ ← APPLYRUN "rc ipv6 stop";
    _ ← APPLYRUN "rc bridge restart"; _ ← APPLYRUN "rc lan restart";
    _ ← wlan_handler unit (-1); _ ← stp_handler (-1) (-1); _ ← ipv4_handler (-1) (-1);
    _ ← ipv6_handler (-1) (-1); _ ← lltd_handler (-1) (-1); _ ← ethsup_handler (-1) (-1);
    mret 0.

Definition ntp_handler (unit vap : Z) : M sys Z :=
  _ ← debug "ntp_handler" 661; _ ← APPLYRUN "rc ntp restart"; mret 0.
Definition snmp_handler (unit vap : Z) : M sys Z :=
  _ ← debug "snmp_handler" 673; _ ← APPLYRUN "rc snmp restart"; mret 0.
Definition log_handler (unit vap : Z) : M sys Z :=
  _ ← debug "log_handler" 685; _ ← APPLYRUN "rc syslogd restart"; mret 0.
Definition ftp_handler (unit vap : Z) : M sys Z :=
  _ ← debug "ftp_handler" 697; _ ← APPLYRUN "rc ftp restart"; mret 0.

Definition eth_datarate_handler (unit vap : Z) : M sys Z :=
  datarate ← apCfgEthDataRateGet;
  force100m ← apCfgForce100mGet;
  auto_nego ← apCfgAutonegoGet;
  duplex_mode ← apCfgDuplexmodeGet;
  if negb (force100m =? 0) then _ ← APPLYRUN "echo 1 1 1 > /proc/ethernet_status_cfb"; mret 0
  else
    _ ← (if negb (datarate =? 0) && (auto_nego =? 0) then
           APPLYRUN ("echo 1 " ++ dec (if datarate =? 10 then 0 else if datarate =? 100 then 1 else 2) ++
                     " " ++ dec duplex_mode ++ " > /proc/ethernet_status_cfb")
         else APPLYRUN "echo 0 0 0 > /proc/ethernet_status_cfb");
    _ ← when (datarate =? 1000) (
          _ ← FileSys.system "ifconfig eth0 down"; FileSys.system "ifconfig eth0 up");
    mret 0.

Definition force100m_handler (unit vap : Z) : M sys Z :=
  force100m ← apCfgForce100mGet;
  port_speed ← apCfgPortspeedGet;
  auto_nego ← apCfgAutonegoGet;
  duplex_mode ← apCfgDuplexmodeGet;
  _ ← (if negb (force100m =? 0) then APPLYRUN "echo 1 1 1 > /proc/ethernet_status_cfb"
       else if auto_nego =? 0 then
         APPLYRUN ("echo 1 " ++ dec port_speed ++ " " ++ dec duplex_mode ++ " > /proc/ethernet_status_cfb")
       else ign (eth_datarate_handler 0 0));
  mret 0.

(** ** The script of an access point *)

(** C's [||] and [&&] on tests that call a getter. *)
Definition orM (a b : M sys bool) : M sys bool := x ← a; if (x : bool) then mret true else b.
Definition andM (a b : M sys bool) : M sys bool := x ← a; if (x : bool) then b else mret false.

Definition mode_is (unit m : Z) : M sys bool := op ← apCfgOpModeGet unit; mret (op =? m).
Definition mode_not (unit m : Z) : M sys bool := op ← apCfgOpModeGet unit; mret (Zdiffer op m).

(** [apmode], [wds] and [sta] of the mode, read once for each test made. *)
Definition vap_modes (unit : Z) : M sys (bool * bool * bool) :=
  apmode ← andM (mode_not unit CFG_OP_MODE_PPT)
             (andM (mode_not unit CFG_OP_MODE_MPT) (mode_not unit CFG_OP_MODE_UC));
  wds ← orM (mode_is unit CFG_OP_MODE_PPT) (orM (mode_is unit CFG_OP_MODE_MPT)
          (orM (mode_is unit CFG_OP_MODE_AP_PTP) (mode_is unit CFG_OP_MODE_AP_PTMP)));
  sta ← orM (mode_is unit CFG_OP_MODE_UC) (mode_is unit CFG_OP_MODE_UR);
  mret (apmode, wds, sta).

(** Taking down what is there, and making the access point. *)
Definition vap_remake (script : cstr) (unit vap : Z) (apmode sta : bool) : M sys () :=
  let stop_sta := ATH_SCRIPT_ADD script ("/etc/ath/ath_VAP_stop " ++ ath unit WLAN_MAX_VAP ++ " destroy") in
  if apmode then
    _ ← ATH_SCRIPT_ADD script ("/etc/ath/ath_VAP_stop " ++ ath unit vap ++ " destroy");
    _ ← ATH_SCRIPT_ADD script ("/etc/ath/ath_VAP_make " ++ ath unit vap ++ " ap");
    when sta stop_sta
  else if sta then stop_sta
  else ATH_SCRIPT_ADD script ("/etc/ath/ath_VAP_stop " ++ ath unit vap ++ " destroy").

(** Universal client or repeater: the station interface. *)
Definition vap_station (script : cstr) (unit : Z) : M sys () :=
  let sta_vap := WLAN_MAX_VAP in
  _ ← ATH_SCRIPT_ADD script "echo 1 > /proc/us_cfb";
  _ ← ATH_SCRIPT_ADD script ("/etc/ath/ath_VAP_make " ++ ath unit sta_vap ++ " sta");
  _ ← wlanBasicApply script unit sta_vap 1 1;
  _ ← wlanAdvanceApply script unit sta_vap 1;
  _ ← wlanNoApSecurityApply script unit sta_vap;
  _ ← ATH_SCRIPT_ADD script "sleep 2";
  _ ← wlanBridgeApply script unit sta_vap 0;
  ATH_SCRIPT_ADD script "/usr/sbin/rc wpasupplicant restart&".

(** Pure bridging. *)
Definition vap_bridge (script : cstr) (unit vap : Z) : M sys () :=
  _ ← ATH_SCRIPT_ADD script "echo 1 > /proc/wds_cfb";
  _ ← ATH_SCRIPT_ADD script ("/etc/ath/ath_VAP_make " ++ ath unit vap ++ " wds");
  _ ← wlanBasicApply script unit vap 1 0;
  _ ← wlanAdvanceApply script unit vap 1;
  _ ← wlanWdsApply script unit vap;
  _ ← wlanNoApSecurityApply script unit vap;
  _ ← ATH_SCRIPT_ADD script "sleep 2";
  _ ← wlanBridgeApply script unit vap 1;
  ATH_SCRIPT_ADD script "/usr/sbin/rc wdspsk start&".

(** An access point, with bridging on the first one. *)
Definition vap_ap (script : cstr) (unit vap : Z) (wds : bool) : M sys () :=
  let wds := if negb (vap =? 0) then false else wds in
  _ ← when wds (ATH_SCRIPT_ADD script "echo 1 > /proc/wds_cfb");
  _ ← wlanBasicApply script unit vap 0 0;
  _ ← wlanAdvanceApply script unit vap 0;
  _ ← wlanAclApply script unit vap;
  _ ← when wds (wlanWdsApply script unit vap);
  _ ← wlanSecurityApply script unit vap;
  _ ← wlanBridgeApply script unit vap (if wds then 2 else 0);
  when (vap =? 0) (
    _ ← wlanCreatWscConfig unit vap;
    _ ← ATH_SCRIPT_ADD script "/usr/sbin/rc wscupnp restart&";
    when wds (ATH_SCRIPT_ADD script "/usr/sbin/rc wdspsk start&")).

Definition vap_handler (unit vap : Z) : M sys Z :=
  if (unit =? -1) || (WLAN_MAX_DEV <=? unit) || (vap =? -1) || (WLAN_MAX_VAP <=? vap) then mret 1
  else
    let script := "/tmp/vap_handler_" ++ dec unit ++ dec vap in
    busy ← access script;
    if (busy : bool) then mret 0
    else
      _ ← debug "vap_handler" 489;
      _ ← ATH_SCRIPT_ADD script ("#!/bin/sh" ++ [nl]);
      _ ← ATH_SCRIPT_ADD script ("/etc/ath/ath_VAP_down " ++ dec unit);
      off ← orM (v ← apCfgWlanStateGet unit; mret (v =? 0)) (v ← apCfgActiveModeGet unit vap; mret (v =? 0));
      _ ← (if (off : bool) then
             ATH_SCRIPT_ADD script ("/etc/ath/ath_VAP_stop " ++ ath unit vap ++ " destroy")
           else
             ok ← mode_not unit CFG_OP_MODE_ROGAP;
             when ok (
               modes ← vap_modes unit;
               let '(apmode, wds, sta) := (modes : bool * bool * bool) in
               _ ← vap_remake script unit vap apmode sta;
               _ ← when ((vap =? 0) && sta) (vap_station script unit);
               _ ← when ((vap =? 0) && wds && negb apmode) (vap_bridge script unit vap);
               when apmode (vap_ap script unit vap wds)));
      _ ← ATH_SCRIPT_ADD script ("/etc/ath/ath_VAP_up " ++ dec unit);
      _ ← ATH_SCRIPT_RUN script;
      _ ← ATH_SCRIPT_DEL script;
      mret 0.

(** ** The tree *)

Record APPLY_TABLE_S : Type := Item {
  at_id : Z;
  at_handler : option (Z → Z → M sys Z);
  at_unit : Z;
  at_vap : Z;
  at_parent : option Z;
  at_child : option Z;
  at_rbrother : option Z;
}.

Definition applyTable : list APPLY_TABLE_S :=
  [ Item APL_ROOT None (-1) (-1) None (Some APL_REBOOT) None;
    Item APL_REBOOT (Some reboot_handler) (-1) (-1) (Some APL_ROOT) (Some APL_SYSNAME) None;
    Item APL_SYSNAME (Some sysname_handler) (-1) (-1) (Some APL_REBOOT) None (Some APL_LOGIN);
    Item APL_LOGIN (Some login_handler) (-1) (-1) (Some APL_REBOOT) (Some APL_TELNET) (Some APL_VLAN);
    Item APL_TELNET (Some telnet_handler) (-1) (-1) (Some APL_LOGIN) None (Some APL_SSH);
    Item APL_SSH (Some ssh_handler) (-1) (-1) (Some APL_LOGIN) None (Some APL_HTTPD);
    Item APL_HTTPD (Some httpd_handler) (-1) (-1) (Some APL_LOGIN) None None;
    Item APL_VLAN (Some vlan_handler) (-1) (-1) (Some APL_REBOOT) (Some APL_STP) (Some APL_NTP);
    Item APL_STP (Some stp_handler) (-1) (-1) (Some APL_VLAN) None (Some APL_LLTD);
    Item APL_LLTD (Some lltd_handler) (-1) (-1) (Some APL_VLAN) None (Some APL_IPv4);
    Item APL_IPv4 (Some ipv4_handler) (-1) (-1) (Some APL_VLAN) None (Some APL_IPv6);
    Item APL_IPv6 (Some ipv6_handler) (-1) (-1) (Some APL_VLAN) None (Some APL_ETHSUP);
    Item APL_ETHSUP (Some ethsup_handler) (-1) (-1) (Some APL_VLAN) None (Some APL_BALANCE);
    Item APL_BALANCE (Some balance_handler) 0 (-1) (Some APL_VLAN) None (Some APL_WLAN0);
    Item APL_WLAN0 (Some wlan_handler) 0 (-1) (Some APL_VLAN) (Some APL_WLAN0_VAP0) (Some APL_WLAN1);
    Item APL_WLAN0_VAP0 (Some vap_handler) 0 0 (Some APL_WLAN0) None (Some APL_WLAN0_VAP1);
    Item APL_WLAN0_VAP1 (Some vap_handler) 0 1 (Some APL_WLAN0) None (Some APL_WLAN0_VAP2);
    Item APL_WLAN0_VAP2 (Some vap_handler) 0 2 (Some APL_WLAN0) None (Some APL_WLAN0_VAP3);
    Item APL_WLAN0_VAP3 (Some vap_handler) 0 3 (Some APL_WLAN0) None None;
    Item APL_WLAN1 (Some wlan_handler) 1 (-1) (Some APL_VLAN) (Some APL_WLAN1_VAP0) None;
    Item APL_WLAN1_VAP0 (Some vap_handler) 1 0 (Some APL_WLAN1) None (Some APL_WLAN1_VAP1);
    Item APL_WLAN1_VAP1 (Some vap_handler) 1 1 (Some APL_WLAN1) None (Some APL_WLAN1_VAP2);
    Item APL_WLAN1_VAP2 (Some vap_handler) 1 2 (Some APL_WLAN1) None (Some APL_WLAN1_VAP3);
    Item APL_WLAN1_VAP3 (Some vap_handler) 1 3 (Some APL_WLAN1) None None;
    Item APL_NTP (Some ntp_handler) (-1) (-1) (Some APL_REBOOT) None (Some APL_SNMP);
    Item APL_SNMP (Some snmp_handler) (-1) (-1) (Some APL_REBOOT) None (Some APL_LOG);
    Item APL_LOG (Some log_handler) (-1) (-1) (Some APL_REBOOT) None (Some APL_FTP);
    Item APL_FTP (Some ftp_handler) (-1) (-1) (Some APL_REBOOT) None (Some APL_ETH_DATARATE);
    Item APL_ETH_DATARATE (Some eth_datarate_handler) (-1) (-1) (Some APL_REBOOT) None (Some APL_FORCE100M);
    Item APL_FORCE100M (Some force100m_handler) (-1) (-1) (Some APL_REBOOT) None (Some APL_HTTPREDIRECT);
    Item APL_HTTPREDIRECT (Some redirect_handler) (-1) (-1) (Some APL_REBOOT) None (Some APL_ROGUEAP);
    Item APL_ROGUEAP (Some rogueap_handler) (-1) (-1) (Some APL_REBOOT) None (Some APL_BONJOUR);
    Item APL_BONJOUR (Some bonjour_handler) (-1) (-1) (Some APL_REBOOT) None (Some APL_AUTOREBOOT);
    Item APL_AUTOREBOOT (Some autoreboot_handler) (-1) (-1) (Some APL_REBOOT) None None ].
End handlers.

(** The machine and the static variables of the process. *)
Record apl : Type := Apl {
  a_sys : sys;
  a_flag : list bool;        (** [applyTable[i].flag] *)
  mdns_stopped : bool;
}.

Definition on_machine {A} (m : M sys A) : M apl A := λ p,
  match m (a_sys p) with
  | Done (r, s) => Done (r, Apl s (a_flag p) (mdns_stopped p))
  | Fault => Fault
  | Stuck => Stuck
  end.

Section walk.
Context {store : CfgStore sys}.
Variable table : list APPLY_TABLE_S.

Definition table_at {A} (l : list A) (index : Z) : M apl A :=
  if index <? 0 then faultM
  else match l !! Z.to_nat index with Some e => mret e | None => faultM end.

Definition flag_at (index : Z) : M apl bool := p ← getS; table_at (a_flag p) index.

(** The extra step in front of each level of the tree. *)
Definition stop_bonjour : M apl unit :=
  p ← getS;
  if mdns_stopped p then mret tt
  else
    b ← flag_at APL_BONJOUR;
    need ← (if (b : bool) then mret true
            else dhcp ← on_machine apCfgDhcpEnableGet;
                 if dhcp =? 0 then mret false else flag_at APL_IPv4);
    if (need : bool) then
      _ ← on_machine (applyLog "apl_handleApplyTree" 773 "make sure bonjour is stopped.");
      _ ← on_machine (SYSTEM "rc mdns stop");
      modS (λ p, Apl (a_sys p) (a_flag p) true)
    else mret tt.

Definition apply_end (ret : Z) : M apl unit :=
  on_machine (append_file APPLY_DBG ("<apl_handleApplyTree,815>:" ++ dec ret ++ " apply end" ++ [nl])).

(** The handler of a flagged item: its result. *)
Definition run_item (index ret : Z) (e : APPLY_TABLE_S) : M apl Z :=
  _ ← on_machine (s ← id_string index;
                  applyLog "apl_handleApplyTree" 784 ("apply item " ++ s ++ ", flag=" ++ dec 1));
  match at_handler e with
  | None => mret ret
  | Some h => on_machine (h (at_unit e) (at_vap e))
  end.

(** The [do]-[while] loop from an item on; the call on a child is one level
    deeper.  Every step goes to a larger index, so the size of the table is
    enough fuel. *)
Fixpoint tree_loop (fuel : nat) (index ret : Z) : M apl Z :=
  match fuel with
  | O => stuckM
  | S fuel' =>
      e ← table_at table index;
      let next ret := match at_rbrother e with
                      | None => _ ← apply_end ret; mret ret
                      | Some b => tree_loop fuel' b ret
                      end in
      flag ← flag_at index;
      if (flag : bool) then
        r ← run_item index ret e;
        if negb (r =? 0) && bool_decide (is_Some (at_handler e)) then
          _ ← on_machine (applyLog "apl_handleApplyTree" 792 "apply error"); mret r
        else next r
      else
        match at_child e with
        | None => next ret
        | Some c => _ ← stop_bonjour; r ← tree_loop fuel' c 0; next r
        end
  end.

Definition apl_handleApplyTree (id : Z) : M apl Z :=
  _ ← stop_bonjour; tree_loop (S (length table)) id 0.
End walk.

(** ** Applying *)

Definition set_flag_at (index : Z) (b : bool) : M apl unit :=
  p ← getS;
  if (index <? 0) || (zlen (a_flag p) <=? index) then faultM
  else putS (Apl (a_sys p) (<[Z.to_nat index := b]> (a_flag p)) (mdns_stopped p)).

(** The loop over the lines of the flag file. *)
Fixpoint mark_items (ids : list Z) : M apl unit :=
  match ids with
  | [] => mret tt
  | id :: ids' =>
      _ ← when (0 <? id) (
            _ ← set_flag_at id true;
            on_machine (s ← id_string id; applyLog "apl_do_apply" 850 ("set item " ++ s)));
      mark_items ids'
  end.

Section do_apply.
Context {store : CfgStore sys} {wifi : Wifi}.

Definition apl_do_apply : M apl Z :=
  have ← on_machine (access APL_FLAG);
  run ← (if (have : bool) then on_machine (access APL_RUNNING) else mret true);
  if (run : bool) then mret 0
  else
    _ ← on_machine (touch_by_shell APL_PARSING);
    _ ← on_machine (touch_by_shell APL_RUNNING);
    fp ← on_machine (read_file APL_FLAG);
    match fp with
    | None => _ ← on_machine (unlink APL_PARSING); _ ← on_machine (unlink APL_RUNNING); mret 0
    | Some data =>
        _ ← mark_items (parse_flags data);
        _ ← on_machine (unlink APL_FLAG);
        _ ← on_machine (unlink APL_PARSING);
        _ ← apl_handleApplyTree applyTable APL_ROOT;
        _ ← on_machine (append_file APPLY_DBG ("<apl_do_apply,863>:apl_handleApplyTree" ++ [nl]));
        _ ← on_machine (unlink APL_RUNNING);
        mret 0
    end.

Definition apl_clear_flag : M apl unit :=
  modS (λ p, Apl (a_sys p) (map (λ _, false) (a_flag p)) (mdns_stopped p)).
End do_apply.

(** The static variables at the start of a process. *)
Definition fresh (s : sys) : apl := Apl s (replicate 34 false) false.
