(* ===== verification/ApplyCorrect.v ===== *)
(** * Lemmas about the walk over the apply tree *)

From S2P Require Import Prelude CLib Utility FileSys Nvram NvramSpec NvramCorrect Scfg CfgStore ApCfgSys ApCfgWlan CfgRefine AplFlag CfgImpl Apply.

(** ** Programs of the apply process *)

Lemma runs_machine {A} (m : M sys A) p (Q : A → apl → Prop) :
  runs m (a_sys p) (λ r s, Q r (Apl s (a_flag p) (mdns_stopped p))) → runs (on_machine m) p Q.
Proof. unfold runs, on_machine. by destruct (m (a_sys p)) as [[r s]| |]. Qed.

Definition flagged (p : apl) (i : Z) : bool := nth (Z.to_nat i) (a_flag p) false.

Lemma run_flag_at p i (Q : bool → apl → Prop) :
  0 <= i < zlen (a_flag p) → Q (flagged p i) p → runs (flag_at i) p Q.
Proof.
  intros Hi HQ. unfold flag_at, table_at. apply runs_bind, runs_get.
  rewrite (proj2 (Z.ltb_ge i 0)) by lia. unfold flagged in HQ. rewrite nth_lookup in HQ.
  destruct (lookup_lt_is_Some_2 (a_flag p) (Z.to_nat i) ltac:(lia)) as [b Hb].
  rewrite Hb in *. by apply runs_ret.
Qed.

Lemma run_table_at {A} (l : list A) i e p (Q : A → apl → Prop) :
  0 <= i → l !! Z.to_nat i = Some e → Q e p → runs (table_at l i) p Q.
Proof.
  intros Hi He HQ. unfold table_at. rewrite (proj2 (Z.ltb_ge i 0)) by lia. rewrite He. by apply runs_ret.
Qed.

(** ** The walk, in general *)

Section walk.
Context {store : CfgStore sys}.
Variable table : list APPLY_TABLE_S.

(** Children and brothers come later in the table. *)
Definition later (i : Z) (o : option Z) : Prop :=
  match o with Some j => i < j < zlen table | None => True end.
Definition forward : Prop := ∀ i e,
  table !! Z.to_nat i = Some e → 0 <= i → later i (at_child e) ∧ later i (at_rbrother e).

(** What holds of the machine throughout: [I] survives logging, commands and the
    reading of the address mode. *)
Variable I : sys → Prop.
Variable dhcp : Z.
Hypothesis I_log : ∀ s data, I s → I (set_files (<[APPLY_DBG := default [] (files s !! APPLY_DBG) ++ data]> (files s)) s).
Hypothesis I_cmd : ∀ s c, I s → I (add_cmd c s).
Hypothesis I_dhcp : ∀ s, I s → runs apCfgDhcpEnableGet s (λ r s', r = dhcp ∧ I s' ∧ cmds s' = cmds s).

Definition inv (fl : list bool) (stop : bool) (p : apl) : Prop :=
  I (a_sys p) ∧ a_flag p = fl ∧ mdns_stopped p = stop.

Lemma run_log_line data p fl stop (Q : unit → apl → Prop) :
  inv fl stop p →
  (∀ p', inv fl stop p' → cmds (a_sys p') = cmds (a_sys p) → Q tt p') →
  runs (on_machine (append_file APPLY_DBG data)) p Q.
Proof.
  intros (Hi & Hf & Hs) HQ. apply runs_machine, runs_mod. apply HQ; [|done].
  split_and!; [by apply I_log|done|done].
Qed.

Lemma run_log fn line text p fl stop (Q : unit → apl → Prop) :
  inv fl stop p →
  (∀ p', inv fl stop p' → cmds (a_sys p') = cmds (a_sys p) → Q tt p') →
  runs (on_machine (applyLog fn line text)) p Q.
Proof. apply run_log_line. Qed.

Definition needs_stop (fl : list bool) : bool :=
  nth 32 fl false || (negb (dhcp =? 0) && nth 10 fl false).
Definition mdns_stop : cstr := "rc mdns stop".

(** The first level stops the service if need be; the deeper ones find it done. *)
Lemma stop_bonjour_runs fl stop p :
  length fl = 34%nat → inv fl stop p →
  runs stop_bonjour p (λ _ p', inv fl (stop || needs_stop fl) p' ∧
    cmds (a_sys p') = cmds (a_sys p) ++ (if negb stop && needs_stop fl then [mdns_stop] else [])).
Proof.
  intros Hl Hp. pose proof Hp as (Hi & Hf & Hs). unfold stop_bonjour. apply runs_bind, runs_get. rewrite Hs.
  destruct stop; cbn [negb andb orb].
  { apply runs_ret. by rewrite app_nil_r. }
  apply runs_bind, run_flag_at; [rewrite Hf, Hl; done|].
  assert (Hdo : ∀ p', inv fl false p' → cmds (a_sys p') = cmds (a_sys p) →
    runs (_ ← on_machine (applyLog "apl_handleApplyTree" 773 "make sure bonjour is stopped.");
          _ ← on_machine (SYSTEM "rc mdns stop");
          modS (λ p, Apl (a_sys p) (a_flag p) true)) p'
      (λ _ p', inv fl true p' ∧ cmds (a_sys p') = cmds (a_sys p) ++ [mdns_stop])).
  { intros p' Hp' Hc. apply runs_bind. eapply run_log; [done|]. intros p1 (H1 & H2 & H3) Hc1.
    apply runs_bind, runs_machine, runs_mod, runs_mod. cbn [a_sys a_flag mdns_stopped].
    split; [split_and!; [by apply I_cmd|done|done]|]. cbn [cmds add_cmd]. by rewrite Hc1, Hc. }
  unfold needs_stop. unfold flagged at 1. rewrite Hf. change (Z.to_nat APL_BONJOUR) with 32%nat.
  destruct (nth 32 fl false); cbn [orb].
  { apply runs_bind, runs_ret. by apply Hdo. }
  apply runs_bind, runs_bind, runs_machine. use_runs (I_dhcp _ Hi). intros r s' (-> & Hi' & Hc').
  destruct (dhcp =? 0); cbn [negb andb].
  { apply runs_ret, runs_ret. by rewrite app_nil_r. }
  apply run_flag_at; [cbn [a_flag]; rewrite Hf, Hl; done|]. unfold flagged. cbn [a_flag]. rewrite Hf.
  change (Z.to_nat APL_IPv4) with 10%nat. destruct (nth 10 fl false).
  - by apply Hdo.
  - apply runs_ret. by rewrite app_nil_r.
Qed.

(** The items whose handler the walk calls, in order. *)
Fixpoint visits (fl : list bool) (fuel : nat) (i : Z) : list Z :=
  match fuel with
  | O => []
  | S fuel' =>
      match table !! Z.to_nat i with
      | None => []
      | Some e =>
          (if nth (Z.to_nat i) fl false then [i]
           else match at_child e with Some c => visits fl fuel' c | None => [] end) ++
          match at_rbrother e with Some b => visits fl fuel' b | None => [] end
      end
  end.

(** The item has a named handler, which runs, answers 0, keeps the invariant and
    adds commands that are right for the item. *)
Variable fl : list bool.
Variable out : Z → list cstr → Prop.
Definition handled (i : Z) : Prop := ∀ e s,
  table !! Z.to_nat i = Some e → I s →
  i < APL_NAMED ∧ ∃ h, at_handler e = Some h ∧
    runs (h (at_unit e) (at_vap e)) s (λ r s', r = 0 ∧ I s' ∧
      ∃ ls, out i ls ∧ cmds s' = cmds s ++ ls).

(** The commands of some items, one list for each, were run in order. *)
Definition did (ids : list Z) (s s' : sys) : Prop :=
  ∃ lss, Forall2 out ids lss ∧ cmds s' = cmds s ++ concat lss.

Lemma did_nil s s' : cmds s' = cmds s → did [] s s'.
Proof. intros H. exists []. split; [constructor|]. by rewrite H, app_nil_r. Qed.

Lemma did_one i ls s s' : out i ls → cmds s' = cmds s ++ ls → did [i] s s'.
Proof.
  intros Ho H. exists [ls]. split; [by repeat constructor|]. cbn [concat]. by rewrite app_nil_r.
Qed.

Lemma did_app ids js s1 s2 s3 : did ids s1 s2 → did js s2 s3 → did (ids ++ js) s1 s3.
Proof.
  intros (l1 & H1 & E1) (l2 & H2 & E2). exists (l1 ++ l2). split; [by apply Forall2_app|].
  by rewrite E2, E1, concat_app, app_assoc.
Qed.

Lemma run_item_runs i e p stop :
  handled i → 0 <= i → table !! Z.to_nat i = Some e → inv fl stop p →
  runs (run_item i 0 e) p (λ r p', r = 0 ∧ inv fl stop p' ∧ did [i] (a_sys p) (a_sys p')).
Proof.
  intros Hh Hi He (HI & HF & HS). unfold run_item.
  destruct (Hh e (a_sys p) He HI) as (Hn & _).
  apply runs_bind, runs_machine. unfold id_string. rewrite (proj2 (Z.ltb_ge i 0)) by lia.
  destruct (lookup_lt_is_Some_2 idString (Z.to_nat i)) as [nm Hnm].
  { unfold APL_NAMED in Hn. change (length idString) with 33%nat. lia. }
  rewrite Hnm. apply runs_bind, runs_ret. unfold applyLog, append_file. apply runs_mod.
  set (s1 := set_files _ _). assert (HI1 : I s1) by (by apply I_log).
  destruct (Hh e s1 He HI1) as (_ & h & -> & Hrun).
  apply runs_machine. cbn [a_sys a_flag mdns_stopped]. use_runs Hrun. intros r s' (-> & HI' & ls & Ho & Hc).
  split; [done|]. split; [by split_and!|]. cbn [a_sys]. by apply (did_one i ls).
Qed.

(** The walk below the first level, with the service already seen to. *)
Lemma tree_loop_runs fuel i p stop :
  Forall handled (visits fl fuel i) → forward → length fl = 34%nat → length table = 34%nat →
  0 <= i < 34 → 34 - i < Z.of_nat fuel → stop || negb (needs_stop fl) = true → inv fl stop p →
  runs (tree_loop table fuel i 0) p (λ r p', r = 0 ∧ inv fl stop p' ∧
    did (visits fl fuel i) (a_sys p) (a_sys p')).
Proof.
  intros Hh Hfw Hl Ht. revert i p Hh. induction fuel as [|fuel IH]; intros i p Hh Hi Hfuel Hstop Hp; [lia|].
  cbn [tree_loop visits] in *.
  destruct (lookup_lt_is_Some_2 table (Z.to_nat i) ltac:(lia)) as [e He].
  destruct (Hfw i e He ltac:(lia)) as [Hc Hb]. unfold later in Hc, Hb. rewrite Ht in Hc, Hb.
  apply runs_bind. eapply run_table_at; [lia|exact He|]. rewrite He in *.
  cbv zeta. apply Forall_app in Hh as [Hi1 Hh].
  assert (Hnext : ∀ p', inv fl stop p' → runs
    (match at_rbrother e with Some b => tree_loop table fuel b 0 | None => _ ← apply_end 0; mret 0 end) p'
    (λ r p'', r = 0 ∧ inv fl stop p'' ∧
    did match at_rbrother e with Some b => visits fl fuel b | None => [] end (a_sys p') (a_sys p''))).
  { intros p' Hp'. destruct (at_rbrother e) as [b|].
    - by apply IH; [|lia|lia|..].
    - apply runs_bind. unfold apply_end. eapply run_log_line; [done|]. intros p1 Hp1 Hc1.
      apply runs_ret. split; [done|]. split; [done|]. by apply did_nil. }
  apply runs_bind. pose proof Hp as (HI & HF & HS).
  apply run_flag_at; [rewrite HF, Hl; lia|]. unfold flagged. rewrite HF.
  destruct (nth (Z.to_nat i) fl false) eqn:Ef.
  - apply runs_bind. use_runs (run_item_runs i e p stop (Forall_inv Hi1) ltac:(lia) He Hp).
    intros r p1 (-> & Hp1 & Hc1). cbn [Z.eqb negb andb]. use_runs (Hnext p1 Hp1).
    intros r p2 (-> & Hp2 & Hc2). split; [done|]. split; [done|]. by eapply did_app.
  - destruct (at_child e) as [c|].
    + apply runs_bind. use_runs (stop_bonjour_runs fl stop p Hl Hp). intros _ p1 (Hp1 & Hc1).
      assert (stop || needs_stop fl = stop) as E by (by destruct stop, (needs_stop fl)).
      assert (negb stop && needs_stop fl = false) as E' by (by destruct stop, (needs_stop fl)).
      rewrite E in Hp1. rewrite E', app_nil_r in Hc1.
      apply runs_bind. use_runs (IH c p1 Hi1 ltac:(lia) ltac:(lia) Hstop Hp1).
      intros r p2 (-> & Hp2 & Hc2). use_runs (Hnext p2 Hp2). intros r p3 (-> & Hp3 & Hc3).
      split; [done|]. split; [done|]. eapply did_app; [|done].
      apply (did_app [] _ _ (a_sys p1)); [by apply did_nil|done].
    + cbn [app]. by apply Hnext.
Qed.

Lemma handleApplyTree_runs p :
  Forall handled (visits fl 35 APL_ROOT) → forward → length fl = 34%nat → length table = 34%nat → inv fl false p →
  runs (apl_handleApplyTree table APL_ROOT) p (λ r p', r = 0 ∧ I (a_sys p') ∧ a_flag p' = fl ∧
    ∃ lss, Forall2 out (visits fl 35 APL_ROOT) lss ∧
    cmds (a_sys p') = cmds (a_sys p) ++ (if needs_stop fl then [mdns_stop] else []) ++ concat lss).
Proof.
  intros Hh Hfw Hl Ht Hp. unfold apl_handleApplyTree. apply runs_bind.
  use_runs (stop_bonjour_runs fl false p Hl Hp). intros _ p1 (Hp1 & Hc1). cbn [orb negb andb] in *.
  rewrite Ht. use_runs (tree_loop_runs 35 APL_ROOT p1 (needs_stop fl) Hh Hfw Hl Ht); [done|done| |done|].
  - by destruct (needs_stop fl).
  - intros r p2 (-> & (H1 & H2 & _) & lss & Hlss & Hc2). split_and!; [done|done|done|].
    exists lss. split; [done|]. by rewrite Hc2, Hc1, <- app_assoc.
Qed.
End walk.

(** ** The table of the firmware *)

Section firmware.
Context {store : CfgStore sys} {wifi : Wifi}.

Lemma applyTable_forward : forward applyTable.
Proof.
  intros i e He Hi.
  assert (H : Forall (λ ie : nat * APPLY_TABLE_S,
    later applyTable (Z.of_nat ie.1) (at_child ie.2) ∧ later applyTable (Z.of_nat ie.1) (at_rbrother ie.2))
    (zip (seq 0 34) applyTable)).
  { cbn [zip zip_with seq applyTable]. repeat apply List.Forall_cons; try apply List.Forall_nil.
    all: cbn [fst snd at_child at_rbrother later]; change (zlen applyTable) with 34;
      unfold APL_ROOT, APL_REBOOT, APL_SYSNAME, APL_LOGIN, APL_TELNET, APL_SSH, APL_HTTPD, APL_VLAN,
        APL_STP, APL_LLTD, APL_IPv4, APL_IPv6, APL_ETHSUP, APL_BALANCE, APL_WLAN0, APL_WLAN0_VAP0,
        APL_WLAN0_VAP1, APL_WLAN0_VAP2, APL_WLAN0_VAP3, APL_WLAN1, APL_WLAN1_VAP0, APL_WLAN1_VAP1,
        APL_WLAN1_VAP2, APL_WLAN1_VAP3, APL_NTP, APL_SNMP, APL_LOG, APL_FTP, APL_ETH_DATARATE,
        APL_FORCE100M, APL_HTTPREDIRECT, APL_ROGUEAP, APL_BONJOUR, APL_AUTOREBOOT; lia. }
  rewrite Forall_lookup in H. pose proof (lookup_lt_Some _ _ _ He) as Hlt.
  change (length applyTable) with 34%nat in Hlt.
  specialize (H (Z.to_nat i) (Z.to_nat i, e)). cbn [fst snd] in H. rewrite Z2Nat.id in H by done.
  apply H. apply lookup_zip_with_Some. exists (Z.to_nat i), e. split; [done|]. split; [|done].
  by apply lookup_seq.
Qed.

(** The items above an item. *)
Fixpoint ancestors_go (fuel : nat) (i : Z) : list Z :=
  match fuel with
  | O => []
  | S fuel' =>
      match applyTable !! Z.to_nat i with
      | Some e => match at_parent e with Some p => p :: ancestors_go fuel' p | None => [] end
      | None => []
      end
  end.
Definition ancestors (i : Z) : list Z := ancestors_go 5 i.

(** The items to apply when those of [l] have changed: those with no changed item
    above them. *)
Definition due (changed : Z → bool) : list Z :=
  List.filter (λ i, changed i && negb (existsb changed (ancestors i))) (map Z.of_nat (seq 0 34)).

Lemma filter_concat {A} (p : A → bool) l : List.filter p l = concat (map (λ x, if p x then [x] else []) l).
Proof. induction l as [|x l IH]; [done|]. cbn. rewrite IH. by destruct (p x). Qed.

Lemma visits_due fl :
  length fl = 34%nat → visits applyTable fl 35 APL_ROOT = due (λ i, nth (Z.to_nat i) fl false).
Proof.
  intros Hl. do 34 (destruct fl as [|? fl]; [discriminate Hl|]). destruct fl; [|discriminate Hl].
  clear Hl. unfold due. rewrite filter_concat.
  destruct b, b0, b2, b6, b13, b18; cbv -[app andb]; rewrite ?andb_true_r, ?andb_false_r;
    repeat (progress (cbn [app]; rewrite ?app_nil_r, <- ?app_assoc)); reflexivity.
Qed.

(** The commands of the handlers that neither touch the radio nor read the
    configuration. *)
Definition plain_items : list (Z * list cstr) :=
  [ (APL_REBOOT, ["reboot" : cstr]); (APL_SYSNAME, ["rc syslogd restart" : cstr]);
    (APL_LOGIN, ["rc httpd restart" : cstr; "rc telnetd restart" : cstr; "rc sshd restart" : cstr]);
    (APL_TELNET, ["rc telnetd restart" : cstr]); (APL_SSH, ["rc sshd restart" : cstr]);
    (APL_HTTPD, ["rc httpd restart" : cstr]); (APL_STP, ["rc stp restart" : cstr]);
    (APL_LLTD, ["rc lld2 restart" : cstr]);
    (APL_IPv4, ["rc ip restart" : cstr; "rc wins restart" : cstr; "rc wscupnp restart&" : cstr;
                "rc httpredirect restart" : cstr]);
    (APL_IPv6, ["rc ipv6 restart" : cstr; "rc httpd restart" : cstr]);
    (APL_ETHSUP, ["rc lanDot1xSupp restart" : cstr]); (APL_BALANCE, ["rc balance restart" : cstr]);
    (APL_NTP, ["rc ntp restart" : cstr]); (APL_SNMP, ["rc snmp restart" : cstr]);
    (APL_LOG, ["rc syslogd restart" : cstr]); (APL_FTP, ["rc ftp restart" : cstr]);
    (APL_HTTPREDIRECT, ["rc httpredirect restart" : cstr]); (APL_ROGUEAP, ["rc rogueap restart" : cstr]);
    (APL_BONJOUR, ["rc mdns restart" : cstr]) ].

Definition item_cmds (i : Z) : list cstr :=
  match find (λ e, e.1 =? i) plain_items with Some e => e.2 | None => [] end.
Definition plain_item (i : Z) : bool := existsb (λ e, e.1 =? i) plain_items.

(** A handler that only logs and runs commands. *)
Definition emits (h : M sys Z) (out : list cstr) : Prop := ∀ s,
  runs h s (λ r s', r = 0 ∧ cmds s' = cmds s ++ out ∧ flash s' = flash s ∧
    ∀ p, p ≠ APPLY_DBG → files s' !! p = files s !! p).

Lemma emits_ret : emits (mret 0) [].
Proof. intros s. apply runs_ret. by rewrite app_nil_r. Qed.

Lemma emits_cmd c k out :
  (length c < 1023)%nat → emits k out → emits (_ ← APPLYRUN c; k) (c :: out).
Proof.
  intros Hc Hk s. apply runs_bind. unfold APPLYRUN, SYSTEM. rewrite firstn_all2 by lia. apply runs_mod.
  use_runs (Hk (add_cmd c s)). intros r s' (-> & Hcm & Hf & Hp). split_and!; [done| |done|done].
  rewrite Hcm. cbn [cmds add_cmd]. by rewrite <- app_assoc.
Qed.

Lemma emits_debug fn line k out : emits k out → emits (_ ← debug fn line; k) out.
Proof.
  intros Hk s. apply runs_bind. unfold debug, applyLog, append_file. apply runs_mod.
  set (s1 := set_files _ _). use_runs (Hk s1).
  intros r s' (-> & Hcm & Hf & Hp). split_and!; [done|done|done|].
  intros p Hne. rewrite Hp by done. unfold s1. cbn [files set_files]. by rewrite lookup_insert_ne.
Qed.

Lemma emits_then h k o1 o2 : emits h o1 → emits k o2 → emits (_ ← h; k) (o1 ++ o2).
Proof.
  intros Hh Hk s. apply runs_bind. use_runs (Hh s). intros r s1 (_ & Hc1 & Hf1 & Hp1).
  use_runs (Hk s1). intros r2 s2 (-> & Hc2 & Hf2 & Hp2). split_and!; [done| |congruence|].
  - by rewrite Hc2, Hc1, app_assoc.
  - intros p Hne. by rewrite Hp2, Hp1.
Qed.

Ltac emit :=
  lazymatch goal with
  | |- emits (mret 0) _ => apply emits_ret
  | |- emits (_ ← debug _ _; _) _ => apply emits_debug; emit
  | |- emits (_ ← APPLYRUN _; _) _ => apply emits_cmd; [vm_compute; lia | emit]
  end.

Lemma httpd_emits u v : emits (httpd_handler u v) ["rc httpd restart" : cstr].
Proof. unfold httpd_handler. emit. Qed.
Lemma telnet_emits u v : emits (telnet_handler u v) ["rc telnetd restart" : cstr].
Proof. unfold telnet_handler. emit. Qed.
Lemma ssh_emits u v : emits (ssh_handler u v) ["rc sshd restart" : cstr].
Proof. unfold ssh_handler. emit. Qed.

Lemma login_emits u v : emits (login_handler u v)
  ["rc httpd restart" : cstr; "rc telnetd restart" : cstr; "rc sshd restart" : cstr].
Proof.
  unfold login_handler. apply emits_debug.
  apply (emits_then _ _ ["rc httpd restart" : cstr]); [apply httpd_emits|].
  apply (emits_then _ _ ["rc telnetd restart" : cstr]); [apply telnet_emits|].
  apply (emits_then _ _ ["rc sshd restart" : cstr] []); [apply ssh_emits|apply emits_ret].
Qed.

Lemma ipv6_emits u v : emits (ipv6_handler u v) ["rc ipv6 restart" : cstr; "rc httpd restart" : cstr].
Proof.
  unfold ipv6_handler. apply emits_debug, emits_cmd; [vm_compute; lia|].
  apply (emits_then _ _ ["rc httpd restart" : cstr] []); [apply httpd_emits|apply emits_ret].
Qed.

Definition item_emits (i : Z) : Prop :=
  plain_item i = true → ∃ e h, applyTable !! Z.to_nat i = Some e ∧ at_handler e = Some h ∧
    emits (h (at_unit e) (at_vap e)) (item_cmds i).

Lemma items_emit i : item_emits i.
Proof.
  intros Hi. unfold plain_item in Hi. apply existsb_exists in Hi as (x & Hx & E%Z.eqb_eq). subst i.
  unfold plain_items in Hx. cbn [In] in Hx.
  repeat (destruct Hx as [<- | Hx];
    [ eexists _, _; split; [reflexivity|]; split; [reflexivity|];
      first [ apply login_emits | apply ipv6_emits
            | lazymatch goal with |- emits ?h _ => let x := head h in unfold x end; emit ] |]).
  done.
Qed.

Lemma plain_range i : plain_item i = true → 0 < i < APL_NAMED.
Proof.
  intros (x & Hx & E%Z.eqb_eq)%existsb_exists. subst i.
  assert (H : Forall (λ e : Z * list cstr, 0 < e.1 < APL_NAMED) plain_items) by closed.
  rewrite Forall_forall in H. apply H. by apply list_elem_of_In.
Qed.
End firmware.
