(* ===== verification/WifiScript.v ===== *)
(** * The wireless scripts (libapcfg/wifiuti.c)

    The functions that turn the configuration of a radio and of its virtual
    access points into lines of a shell script.  A script is named by its path;
    adding to the script NULL does nothing, since [fopen] fails.  The arguments
    of a line are evaluated in order; the getters they call have no effect. *)

From S2P Require Import Prelude CLib Utility FileSys CfgStore ApCfgSys ApCfgWlan ApCfgLists AplFlag Apply.

Definition HOSTAP_CFG : cstr := "/var/hostap.cfg".
Definition ATH_UP_PRE : Z := 0.
Definition ATH_UP_MAKE : Z := 1.
Definition ATH_UP_STA : Z := 2.
Definition ATH_UP_AP : Z := 3.
Definition ATH_UP_SUF : Z := 4.
Definition ATH_UP_LAST : Z := 5.
Definition ATH_UP_MAX : Z := 6.
Definition ATH_UP (unit step : Z) : cstr := "/tmp/wlan" ++ dec unit ++ "_up" ++ dec step.
Definition ATH_DOWN (unit : Z) : cstr := "/tmp/wlan" ++ dec unit ++ "_down".
Definition ATH_DELIF : cstr := "/tmp/wlan_delif".
Definition KEY_ENTRY_METHOD_HEX : Z := 0.
Definition DOT1X_MODE_STATIC : Z := 1.
Definition DOT1X_MODE_DYNAMIC : Z := 2.

(** [ATH_SCRIPT_ADD(scriptFile, ...)] of a script that may be NULL. *)
Definition SCRIPT_ADD (scriptFile : option cstr) (line : cstr) : M sys unit :=
  match scriptFile with Some f => ATH_SCRIPT_ADD f line | None => mret tt end.

(** The end of most lines. *)
Definition quietly : cstr := " > /dev/null 2>&1".

(** A line with a number read from the configuration: [pre%dpost]. *)
Definition ADD_d (scriptFile : option cstr) (pre : cstr) (get : M sys Z) (post : cstr) : M sys unit :=
  v ← get; SCRIPT_ADD scriptFile (pre ++ dec v ++ post).
Definition ADD_s (scriptFile : option cstr) (pre : cstr) (get : M sys cstr) (post : cstr) : M sys unit :=
  v ← get; SCRIPT_ADD scriptFile (pre ++ v ++ post).

(** [get ? a : b] *)
Definition flag_of (get : M sys Z) (a b : Z) : M sys Z := v ← get; mret (if v =? 0 then b else a).

(** [get1 == m1 || get2 == m2] on a getter. *)
Definition one_of (get : M sys Z) (ms : list Z) : M sys bool :=
  orM (v ← get; mret (v =? nth 0 ms 0)) (v ← get; mret (v =? nth 1 ms 0)).

(** [for (i = from; i < to; i++)] over a body that does not leave the loop. *)
Fixpoint for_seq (l : list Z) (body : Z → M sys unit) : M sys unit :=
  match l with [] => mret tt | i :: l' => _ ← body i; for_seq l' body end.

Section scripts.
Context {store : CfgStore sys}.

(** ** The radio *)

Definition wlanBasicApply (scriptfile : option cstr) (unit bss all sta : Z) : M sys () :=
  wirelessMode ← apCfgFreqSpecGet unit;
  let vap := if bss =? WLAN_MAX_VAP then 0 else bss in
  let vapStr := ath unit bss in
  let add := SCRIPT_ADD scriptfile in
  let iwpriv x := add ("iwpriv " ++ vapStr ++ x ++ quietly) in
  let wifi x := add ("/usr/sbin/iwpriv wifi" ++ dec unit ++ x) in
  let pure x m := iwpriv (x ++ dec (if wirelessMode =? m then 1 else 0)) in
  _ ← iwpriv " bgscan 0"; _ ← iwpriv " doth 0"; _ ← iwpriv " ff 0";
  _ ← (if (vap =? 0) || negb (all =? 0) then
    _ ← add ("/sbin/ifconfig " ++ vapStr ++ " txqueuelen " ++ dec 1000);
    gi ← scApCfgShortGIGet unit;
    _ ← add ("/usr/sbin/iwpriv " ++ vapStr ++ " shortgi " ++ dec (if gi =? SHORTGI_LONG then 0 else 1) ++ quietly);
    _ ← add ("/usr/sbin/iwconfig " ++ vapStr ++ " channel 0");
    _ ← (if wirelessMode =? MODE_SELECT_11B then iwpriv " mode 11B"
         else if (wirelessMode =? MODE_SELECT_11G) || (wirelessMode =? MODE_SELECT_11BG) then
           _ ← iwpriv " mode 11G"; pure " pureg " MODE_SELECT_11G
         else
           w ← apCfgChannelWidthModeGet unit;
           _ ← (if w =? 0 then
                  _ ← iwpriv " mode 11NGHT20";
                  add ("/usr/sbin/iwpriv " ++ vapStr ++ " cwmmode 0")
                else
                  _ ← ADD_s scriptfile ("iwpriv " ++ vapStr ++ " extoffset ") (apCfgChannelOffsetGet unit) quietly;
                  off ← apCfgChannelOffsetGet unit;
                  _ ← (if bool_decide (off = ("1" : cstr)) then iwpriv " mode 11NGHT40PLUS"
                       else iwpriv " mode 11NGHT40MINUS");
                  ADD_d scriptfile ("/usr/sbin/iwpriv " ++ vapStr ++ " cwmmode ") (apCfgChannelWidthModeGet unit) []);
           _ ← add ("iwpriv wifi" ++ dec unit ++ " ForBiasAuto 1");
           _ ← pure " puren " MODE_SELECT_11N;
           iwpriv " pureg 0");
    _ ← wifi " HALDbg 0";
    _ ← ADD_d scriptfile ("/usr/sbin/iwpriv wifi" ++ dec unit ++ " AMPDU ") (scApCfgAmpduGet unit) [];
    _ ← wifi " AMPDUFrames 32"; _ ← wifi " AMPDULim 50000"; _ ← wifi " ANIEna 0";
    _ ← wifi " txchainmask 7"; _ ← wifi " rxchainmask 7";
    add "echo 1 > /proc/sys/dev/ath/htdupieenable"
  else
    _ ← pure " pureg " MODE_SELECT_11G; pure " puren " MODE_SELECT_11N);
  if negb (sta =? 0) then
    when (sta =? 1) (
      _ ← add ("/usr/sbin/iwconfig " ++ vapStr ++ " mode managed");
      p ← apCfgUcrRemoteApMacAddrGet RADIO_24G;
      ucr_tmp ← strcpy_buf 20 p;
      when (differ ucr_tmp "00:00:00:00:00:00") (add ("/usr/sbin/iwconfig " ++ vapStr ++ " ap " ++ ucr_tmp)))
  else
    fp ← read_file "/tmp/chan_curr";
    match fp ≫= fgets 129 with
    | Some (buffer, _) => add ("/usr/sbin/iwconfig " ++ vapStr ++ " channel " ++ buffer)
    | None => mret tt
    end.

(** How many access points share the beacons.  The interval below is multiplied
    with it in an [int], which wraps. *)
Fixpoint count_vaps (unit : Z) (rest : list Z) (vap_num : Z) : M sys Z :=
  match rest with
  | [] => mret vap_num
  | i :: rest' => v ← apCfgActiveModeGet unit i; count_vaps unit rest' (if v =? 0 then vap_num else vap_num + 1)
  end.

Definition wlanAdvanceApply (scriptfile : option cstr) (unit bss all : Z) : M sys () :=
  let vap := if bss =? WLAN_MAX_VAP then 0 else bss in
  let vapStr := ath unit bss in
  let priv x get := ADD_d scriptfile ("iwpriv " ++ vapStr ++ x) get quietly in
  let of_vap := if negb (all =? 0) then 0 else vap in
  _ ← priv " wmm " (flag_of (apCfgWmeGet unit of_vap) 1 0);
  _ ← priv " uapsd " (flag_of (apCfgWmmpsGet unit of_vap) 1 0);
  _ ← when ((vap =? 0) || negb (all =? 0)) (
    _ ← priv " countryie " (flag_of (scApCfg80211dEnabledGet unit) 1 0);
    vap_num ← count_vaps unit [1; 2; 3] 1;
    _ ← priv " bintval " (v ← apCfgBeaconIntervalGet unit; mret (sint32 (vap_num * v)));
    _ ← priv " dtim_period " (scApCfgDtimIntervalGet unit);
    m ← apCfgMultiEnhanceGet;
    when (m =? 1) (SCRIPT_ADD scriptfile ("iwpriv " ++ vapStr ++ " mcastenhance 2" ++ quietly)));
  _ ← ADD_d scriptfile ("iwconfig " ++ vapStr ++ " rts ") (apCfgRtsThresholdGet unit) quietly;
  _ ← ADD_d scriptfile ("iwconfig " ++ vapStr ++ " frag ") (apCfgFragThresholdGet unit) quietly;
  priv " protmode " (apCfgCTSModeGet unit).

(** ** Access control *)

(** [while (!scAclBufGet(unit, vap, &pScAcl));]: the flag of the list is down
    between calls, so the first call succeeds or none does. *)
Definition acl_wait (unit vap : Z) : M sys (list scAclBuf_s) :=
  r ← scAclBufGet false unit vap;
  let '(ok, _, es) := (r : bool * bool * list scAclBuf_s) in
  if (ok : bool) then mret es else stuckM.

(** The lines of the entries in use. *)
Fixpoint add_macs (scriptfile : option cstr) (vapStr : cstr) (es : list scAclBuf_s) : M sys () :=
  match es with
  | [] => mret tt
  | e :: es' =>
      _ ← when (negb (acl_used e =? 0))
            (SCRIPT_ADD scriptfile ("iwpriv " ++ vapStr ++ " addmac " ++ acl_mac e ++ " " ++ quietly));
      add_macs scriptfile vapStr es'
  end.

Definition wlanAclApply (scriptfile : option cstr) (unit vap : Z) : M sys () :=
  let vapStr := ath unit vap in
  let maccmd x := SCRIPT_ADD scriptfile ("iwpriv " ++ vapStr ++ " maccmd " ++ x ++ " " ++ quietly) in
  mode ← apCfgAclModeGet unit vap;
  if mode =? APCFG_ACL_LOCAL then
    _ ← maccmd "3";
    type ← apCfgAclTypeGet unit vap;
    _ ← (if type =? 0 then maccmd "1" else maccmd "2");
    _ ← maccmd "6";
    es ← acl_wait unit vap;
    add_macs scriptfile vapStr es
  else
    _ ← maccmd "3"; _ ← maccmd "0";
    mode ← apCfgAclModeGet unit vap;
    if mode =? APCFG_ACL_RADIUS then maccmd "5" else maccmd "6".

(** ** Bridging *)

(** The lines of the remote bridges. *)
Definition wds_add (scriptfile : option cstr) (vapStr remoteMac : cstr) : M sys () :=
  SCRIPT_ADD scriptfile ("iwpriv " ++ vapStr ++ " wds_add " ++ remoteMac ++ quietly).

Definition wlanWdsApply (scriptfile : option cstr) (unit vap_id : Z) : M sys () :=
  let vapStr := ath unit vap_id in
  let iwpriv x := SCRIPT_ADD scriptfile ("iwpriv " ++ vapStr ++ x ++ quietly) in
  let op := apCfgOpModeGet unit in
  _ ← iwpriv " wdstype 0"; _ ← iwpriv " wds_del FF:FF:FF:FF:FF:FF";
  pure_wds ← one_of op [CFG_OP_MODE_PPT; CFG_OP_MODE_MPT];
  _ ← (if (pure_wds : bool) then iwpriv " wdstype 1"
       else
         ap_wds ← one_of op [CFG_OP_MODE_AP_PTP; CFG_OP_MODE_AP_PTMP];
         when ap_wds (iwpriv " wdstype 2"));
  ptp ← one_of op [CFG_OP_MODE_PPT; CFG_OP_MODE_AP_PTP];
  _ ← (if (ptp : bool) then
         p ← apCfgRemoteApMacAddrGet unit;
         remoteMac ← strcpy_buf 18 p;
         wds_add scriptfile vapStr remoteMac
       else
         for_seq [0; 1; 2; 3; 4; 5; 6; 7] (λ i,
           remoteMac ← apCfgRemoteWbrMacAddrGet unit i;
           when (differ remoteMac "00:00:00:00:00:00") (wds_add scriptfile vapStr remoteMac)));
  iwpriv " wds 1".

(** The priority maps of a VLAN interface. *)
Definition set_maps (scriptfile : option cstr) (vapStr : cstr) (vid : M sys Z) : M sys () :=
  for_seq [0; 1; 2; 3; 4; 5; 6; 7] (λ pri,
    _ ← ADD_d scriptfile ("vconfig set_ingress_map " ++ vapStr ++ ".") vid (" " ++ dec pri ++ " " ++ dec pri);
    ADD_d scriptfile ("vconfig set_egress_map " ++ vapStr ++ ".") vid (" " ++ dec pri ++ " " ++ dec pri)).

(** A line with one number in two places. *)
Definition ADD_dd (scriptfile : option cstr) (pre : cstr) (get : M sys Z) (mid : cstr) (post : cstr) : M sys () :=
  v ← get; w ← get; SCRIPT_ADD scriptfile (pre ++ dec v ++ mid ++ dec w ++ post).

(** From the interface of a VLAN being up to the isolation of its bridge. *)
Definition join_bridge (scriptfile : option cstr) (vapStr : cstr) (vid : M sys Z) : M sys () :=
  let delif := " >> " ++ ATH_DELIF ++ "." ++ vapStr in
  _ ← ADD_d scriptfile ("ifconfig " ++ vapStr ++ ".") vid " up";
  _ ← ADD_dd scriptfile "brctl addif br" vid (" " ++ vapStr ++ ".") [];
  _ ← ADD_dd scriptfile "echo brctl delif br" vid (" " ++ vapStr ++ ".") delif;
  _ ← ADD_d scriptfile ("echo vconfig rem " ++ vapStr ++ ".") vid delif;
  _ ← ADD_dd scriptfile "brctl setpathcost br" vid (" " ++ vapStr ++ ".") (" " ++ dec 50 ++ quietly);
  _ ← ADD_dd scriptfile "brctl setportprio br" vid (" " ++ vapStr ++ ".") (" " ++ dec 100 ++ quietly);
  isolation ← apCfgInterVapForwardingGet RADIO_24G;
  ADD_d scriptfile "brctl intervf br" vid (if isolation =? 0 then " disable" else " enable").

(** The loop over the VLANs of the file; each round reads a line. *)
Fixpoint wds_vlans (fuel : nat) (scriptfile : option cstr) (vapStr : cstr) (pvid : M sys Z) (wds : Z) (fp : bytes)
    : M sys () :=
  match fuel with
  | O => stuckM
  | S fuel' =>
      match fgets 64 fp with
      | None => mret tt
      | Some (line, fp') =>
          let vlanId := atoi line in
          native ← (if wds =? 2 then v ← pvid; mret (v =? vlanId) else mret false);
          if (native : bool) then wds_vlans fuel' scriptfile vapStr pvid wds fp'
          else
            _ ← SCRIPT_ADD scriptfile ("vconfig add " ++ vapStr ++ " " ++ dec vlanId);
            _ ← set_maps scriptfile vapStr (mret vlanId);
            _ ← join_bridge scriptfile vapStr (mret vlanId);
            wds_vlans fuel' scriptfile vapStr pvid wds fp'
      end
  end.

(** [sscanf(line, "%d %*d", &vlanId)] with [vlanId] 0 before. *)
Definition scan_vlan (line : cstr) : Z :=
  match skip_space line with
  | c :: _ => if isdigit c || bool_decide (c = "-"%char) || bool_decide (c = "+"%char) then atoi line else 0
  | [] => 0
  end.

Definition wlanBridgeApply (scriptfile : option cstr) (unit bss wds : Z) : M sys () :=
  let vap := if bss =? WLAN_MAX_VAP then 0 else bss in
  let vapStr := ath unit bss in
  let add := SCRIPT_ADD scriptfile in
  let pvid := apCfgVlanPvidGet unit vap in
  fp ← read_file "/tmp/vlan.conf";
  match fp with
  | Some fp =>
      _ ← when (negb (wds =? 0)) (
        match fgets 64 fp with
        | None => faultM
        | Some (line, fp) =>
            tag ← apCfgWdsVlanTagGet;
            v ← pvid;
            _ ← add ("echo 1 " ++ dec (scan_vlan line) ++ " " ++ dec tag ++ " " ++ dec v ++ " > /proc/wds_vlan_cfb");
            let fp := match fgets 64 fp with Some (_, fp) => fp | None => fp end in
            tag ← apCfgWdsVlanTagGet;
            when (negb (tag =? 0)) (wds_vlans (S (length fp)) scriptfile vapStr pvid wds fp)
        end);
      own ← (if (wds =? 0) || (wds =? 2) then mret true
             else tag ← apCfgWdsVlanTagGet; mret (tag =? 0));
      when own (
        _ ← ADD_d scriptfile ("vconfig add " ++ vapStr ++ " ") pvid [];
        _ ← ADD_d scriptfile ("iwpriv " ++ vapStr ++ " priority ") (apCfgPriorityGet unit vap) [];
        _ ← set_maps scriptfile vapStr pvid;
        join_bridge scriptfile vapStr pvid)
  | None =>
      _ ← add ("brctl addif br0 " ++ vapStr ++ quietly);
      _ ← add ("echo brctl delif br0 " ++ vapStr ++ " >> " ++ ATH_DELIF ++ "." ++ vapStr);
      _ ← add ("brctl setpathcost br0 " ++ vapStr ++ " " ++ dec 50 ++ quietly);
      _ ← add ("brctl setportprio br0 " ++ vapStr ++ " " ++ dec 100 ++ quietly);
      isolation ← apCfgInterVapForwardingGet RADIO_24G;
      add ("brctl intervf br0 " ++ (if isolation =? 0 then "disable" else "enable"))
  end.

End scripts.
