(* ===== verification/WifiSecurity.v ===== *)
(** * Security of an access point (libapcfg/wifiuti.c)

    The script lines that set the SSID, the keys and the authenticator of an
    access point, the configuration file of [hostapd] and its topology file, and
    the file that the WPS program reads. *)

From S2P Require Import Prelude CLib Inet Utility FileSys CfgStore ApCfgSys ApCfgWlan ApCfgLists AplFlag Apply WifiScript.

(** ** The firmware version (libutility/utility.c) *)

(** A byte of the buffer that [fgets] filled with [line]. *)
Definition line_byte (line : cstr) (i : nat) : outcome ascii :=
  match (line ++ [NUL]) !! i with Some c => Done c | None => Fault end.

(** [ext], 32 bytes of zeroes into which the file is read, without a newline at
    its end: with nothing read, the byte in front of the array is looked at. *)
Definition version_ext (fp : option bytes) : outcome cstr :=
  let ext := cut_nul (take 31 (default [] fp)) in
  match rev ext with
  | [] => Fault
  | c :: r => Done (if decide (c = nl) then rev r else ext)
  end.

(** What is written to [buffer] of [n] bytes; [None]: nothing is.  The
    [sprintf]s that print the buffer into itself append to it. *)
Definition getVersion (n : nat) : M sys (option cstr) :=
  fp ← read_file "/etc/fwversion";
  match fp with
  | None => mret None
  | Some data =>
      match fgets 16 data with
      | None => faultM
      | Some (buf, _) =>
          extra ← read_file "/etc/extra_version";
          ext ← liftO (version_ext extra);
          b0 ← liftO (line_byte buf 0); b1 ← liftO (line_byte buf 1); b2 ← liftO (line_byte buf 2);
          let buffer := cut_nul [b0; "."%char; b1] in
          buffer ← (if decide (b2 = "0"%char)
                    then b3 ← liftO (line_byte buf 3); mret (cut_nul (buffer ++ ["."; b3]%char))
                    else mret (buffer ++ "."%char :: cut_nul (drop 2 (take 4 buf))));
          let buffer := match ext with [] => buffer | _ => buffer ++ "."%char :: ext end in
          r ← strcpy_buf n buffer; mret (Some r)
      end
  end.

Section security.
Context {store : CfgStore sys}.

(** ** Lines shared by the functions *)

(** [key "[%d]"] *)
Definition key_arg (d : Z) : cstr := " key " ++ dquote :: "[" ++ dec d ++ "]" ++ [dquote].
Definition authmode_of (authType : Z) : Z := if authType =? APCFG_AUTH_AUTO then 4 else authType.

(** The SSID, quoted for the shell into [vapSsid]. *)
Definition essid_lines (scriptfile : option cstr) (unit vap : Z) (vapStr : cstr) : M sys () :=
  ssid ← apCfgSsidGet unit vap;
  vapSsid ← strcpy_buf 65 (scConversionSSID ssid);
  _ ← SCRIPT_ADD scriptfile ("iwconfig " ++ vapStr ++ " essid " ++ dquote :: vapSsid ++ dquote :: quietly);
  ADD_d scriptfile ("iwpriv " ++ vapStr ++ " hide_ssid ") (apCfgSsidModeGet unit vap) quietly.

Definition open_lines (scriptfile : option cstr) (vapStr : cstr) : M sys () :=
  _ ← SCRIPT_ADD scriptfile ("/usr/sbin/iwconfig " ++ vapStr ++ " key off");
  _ ← SCRIPT_ADD scriptfile ("iwpriv " ++ vapStr ++ " authmode " ++ dec 1 ++ quietly);
  SCRIPT_ADD scriptfile ("iwpriv " ++ vapStr ++ " privacy 0" ++ quietly).

Definition wep_key (unit vap : Z) : M sys cstr := d ← apCfgDefKeyGet unit vap; apCfgKeyValGet unit vap d.

(** The key, as text ([s:]) or in hexadecimal. *)
Definition wep_key_lines (scriptfile : option cstr) (unit vap : Z) (vapStr pre : cstr) : M sys () :=
  d ← apCfgDefKeyGet unit vap;
  k ← wep_key unit vap;
  _ ← SCRIPT_ADD scriptfile ("iwconfig " ++ vapStr ++ key_arg d ++ " " ++ pre ++ k ++ quietly);
  d ← apCfgDefKeyGet unit vap;
  SCRIPT_ADD scriptfile ("iwconfig " ++ vapStr ++ key_arg d ++ quietly).

(** [log]: whether an empty key is reported to the system log, with the SSID. *)
Definition wep_lines (scriptfile : option cstr) (unit vap : Z) (vapStr : cstr) (authType : Z) (log : bool)
    : M sys () :=
  _ ← SCRIPT_ADD scriptfile ("iwpriv " ++ vapStr ++ " authmode " ++ dec (authmode_of authType) ++ quietly);
  _ ← SCRIPT_ADD scriptfile ("iwpriv " ++ vapStr ++ " privacy 1" ++ quietly);
  method ← apCfgKeyEntryMethodGet unit vap;
  _ ← when log (k ← wep_key unit vap;
                when (zlen k =? 0) (_ ← apCfgSsidGet unit vap; mret tt));
  wep_key_lines scriptfile unit vap vapStr (if method =? KEY_ENTRY_METHOD_HEX then [] else "s:").

(** ** Universal client and bridges: the first access point's security *)

Definition wlanNoApSecurityApply (scriptfile : option cstr) (unit vap_id : Z) : M sys () :=
  let vap := 0 in
  let vapStr := ath unit vap_id in
  _ ← essid_lines scriptfile unit vap vapStr;
  authType ← apCfgAuthTypeGet unit vap;
  _ ← (if (authType =? APCFG_AUTH_OPEN_SYSTEM) || (authType =? APCFG_AUTH_SHARED_KEY) || (authType =? APCFG_AUTH_AUTO)
       then wep_lines scriptfile unit vap vapStr authType true
       else open_lines scriptfile vapStr);
  SCRIPT_ADD scriptfile ("ifconfig " ++ vapStr ++ " up" ++ quietly).

(** ** The files of hostapd *)

(** [fprintf(f, "...\n", ...)] *)
Definition fprint (f line : cstr) : M sys () := append_file f (line ++ [nl]).
Definition texts (ls : list string) : list cstr := map list_ascii_of_string ls.
Fixpoint fprints (f : cstr) (ls : list cstr) : M sys () :=
  match ls with [] => mret tt | l :: ls' => _ ← fprint f l; fprints f ls' end.
Definition fprint_d (f pre : cstr) (get : M sys Z) : M sys () := v ← get; fprint f (pre ++ dec v).
Definition fprint_s (f pre : cstr) (get : M sys cstr) : M sys () := v ← get; fprint f (pre ++ v).

Definition topology_name (vapStr : cstr) : cstr := "/var/topology.conf." ++ vapStr.
Definition hostap_name (vapStr : cstr) : cstr := HOSTAP_CFG ++ "." ++ vapStr.

(** [%d] behind [br], the VLAN's when there are VLANs. *)
Definition fprint_br (f pre : cstr) (vid : M sys Z) : M sys () :=
  vlan ← apCfgVlanModeGet;
  if vlan =? 0 then fprint f (pre ++ "br0") else fprint_d f (pre ++ "br") vid.

Definition tab : ascii := "009"%char.

Definition write_topology (unit vap : Z) (vapStr : cstr) : M sys () :=
  let topo_file := topology_name vapStr in
  _ ← write_file topo_file [];
  _ ← fprints topo_file (texts ["bridge none"; "{"; "}"]);
  _ ← fprint_br topo_file "bridge " (apCfgVlanPvidGet unit vap);
  _ ← fprint topo_file "{";
  _ ← fprint topo_file ("    interface " ++ vapStr);
  _ ← fprints topo_file (texts ["    interface eth0"; "}"; "radio wifi0"; "{"; "    ap "]);
  _ ← fprint topo_file ([tab; tab; tab; tab] ++ "{");
  _ ← fprint topo_file "        config /etc/wpa2/80211g.ap_radio";
  _ ← fprint topo_file ("        bss " ++ vapStr);
  _ ← fprint topo_file "        {";
  _ ← fprint topo_file ("        config /var/hostap.cfg." ++ vapStr);
  fprints topo_file (texts ["        }"; "            #couldbe# sta ath1"; "        {";
     "        config /etc/wpa2/config1.sta"; "        }"; "}"]).

(** Logging, the control socket and the management bridge. *)
Definition conf_common (f vapStr : cstr) : M sys () :=
  _ ← fprints f (texts ["logger_syslog=0"; "logger_syslog_level=4"; "logger_stdout=0"; "logger_stdout_level=4"; "debug=0"]);
  _ ← fprint f ("ctrl_interface=/var/run/hostapd." ++ vapStr);
  _ ← fprint f "ctrl_interface_group=0";
  fprint_br f "iapp_interface=" apCfgManagementVlanIdGet.

(** [needRadius], [wpaMode] and [psk] *)
Definition wpa_modes (authType : Z) : bool * Z * bool :=
  if authType =? APCFG_AUTH_WPA then (true, 1, false)
  else if authType =? APCFG_AUTH_WPAPSK then (false, 1, true)
  else if authType =? APCFG_AUTH_WPA2 then (true, 2, false)
  else if authType =? APCFG_AUTH_WPA2PSK then (false, 2, true)
  else if authType =? APCFG_AUTH_WPA_AUTO then (true, 3, false)
  else if authType =? APCFG_AUTH_WPA_AUTO_PSK then (false, 3, true)
  else if authType =? APCFG_AUTH_DOT1X then (true, -1, false)
  else (false, -1, false).

Definition conf_psk (f : cstr) (unit vap : Z) : M sys () :=
  p ← apCfgPassphraseGet unit vap;
  _ ← when (zlen p =? 0) (_ ← apCfgSsidGet unit vap; mret tt);
  p ← apCfgPassphraseGet unit vap;
  _ ← (if zlen p <? 64 then fprint_s f "wpa_passphrase=" (apCfgPassphraseGet unit vap)
       else fprint_s f "wpa_psk=" (apCfgPassphraseGet unit vap));
  fprint f "wpa_key_mgmt=WPA-PSK".

Definition conf_wpa (f : cstr) (unit vap wpaMode : Z) (psk : bool) : M sys () :=
  _ ← fprint f ("wpa=" ++ dec wpaMode);
  _ ← (if psk then conf_psk f unit vap else fprint f "wpa_key_mgmt=WPA-EAP");
  c ← apCfgWPACipherGet unit vap;
  _ ← (if c =? WPA_CIPHER_TKIP then fprint f "wpa_pairwise=TKIP"
       else c ← apCfgWPACipherGet unit vap;
            if c =? WPA_CIPHER_AES then fprint f "wpa_pairwise=CCMP"
            else fprint f "wpa_pairwise=TKIP CCMP");
  rekey ← scApCfgGroupKeyUpdateEnabledGet unit vap;
  _ ← (if rekey =? 0 then fprint f "wpa_group_rekey=0"
       else fprint_d f "wpa_group_rekey=" (apCfgGroupKeyUpdateIntervalGet unit vap));
  _ ← fprint_d f "wpa_strict_rekey=" (flag_of (scApCfgGroupKeyUpdateTerminatedGet unit vap) 1 0);
  _ ← fprint f "wpa_gmk_rekey=0";
  when (1 <? wpaMode) (
    _ ← fprint f "rsn_preauth=1";
    fprint_br f "rsn_preauth_interfaces=" apCfgManagementVlanIdGet).

(** A server, unless its address is empty or zero. *)
Definition conf_server (f kind addr : cstr) (server : M sys cstr) (port : M sys Z) (secret : M sys cstr) : M sys () :=
  when (negb (zlen addr =? 0) && differ addr "0.0.0.0") (
    _ ← fprint_s f (kind ++ "_server_addr=") server;
    _ ← fprint_d f (kind ++ "_server_port=") port;
    fprint_s f (kind ++ "_server_shared_secret=") secret).

Definition conf_radius (f : cstr) (unit vap : Z) (first : list cstr) : M sys () :=
  pRadiusServer ← apCfgRadiusServerGet unit vap;
  pAccServer ← scApCfgAcctServerGet unit vap;
  pSecRadiusServer ← apCfgBackupRadiusServerGet unit vap;
  pAccRadiusServer ← scApCfgBackupAcctServerGet unit vap;
  _ ← fprints f first;
  ipAddr ← apCfgIpAddrGet;
  _ ← fprint f ("own_ip_addr=" ++ inet_ntoa ipAddr);
  _ ← conf_server f "auth" pRadiusServer
        (apCfgRadiusServerGet unit vap) (apCfgRadiusPortGet unit vap) (apCfgRadiusSecretGet unit vap);
  _ ← conf_server f "acct" pAccServer
        (scApCfgAcctServerGet unit vap) (scApCfgAcctPortGet unit vap) (scApCfgAcctSecretGet unit vap);
  _ ← conf_server f "auth" pSecRadiusServer
        (apCfgBackupRadiusServerGet unit vap) (apCfgBackupRadiusPortGet unit vap) (apCfgBackupRadiusSecretGet unit vap);
  conf_server f "acct" pAccRadiusServer
        (scApCfgBackupAcctServerGet unit vap) (scApCfgBackupAcctPortGet unit vap) (scApCfgBackupAcctSecretGet unit vap).

(** 802.1X without WPA: the WEP keys. *)
Definition conf_dot1x (scriptfile : option cstr) (f : cstr) (unit vap : Z) (vapStr : cstr) : M sys () :=
  mode ← apCfgDot1xKeyModeGet unit vap;
  if mode =? DOT1X_MODE_DYNAMIC then
    _ ← fprint_d f "wep_key_len_unicast=" (apCfgDot1xKeyLenGet unit vap);
    _ ← fprint_d f "wep_key_len_broadcast=" (apCfgDot1xKeyLenGet unit vap);
    fprint f "wep_rekey_period=0"
  else
    mode ← apCfgDot1xKeyModeGet unit vap;
    when (mode =? DOT1X_MODE_STATIC) (
      _ ← wep_key_lines scriptfile unit vap vapStr [];
      fprints f (texts ["wep_key_len_unicast=0"; "wep_key_len_broadcast=0"; "wep_rekey_period=0"])).

Definition conf_no_radius : list cstr :=
  texts ["eapol_version=2"; "eapol_key_index_workaround=0"; "eap_server=1"; "eap_user_file=/etc/wpa2/hostapd.eap_user"].

Definition conf_no_wps : list cstr := texts ["wps_disable=1"; "wps_upnp_disable=1"].

(** What WPS announces, behind whether it is on. *)
Definition conf_wps (f : cstr) (unit vap : Z) (wps_model_number : option cstr) : M sys () :=
  _ ← fprints f (texts ["wps_version=0x10"; "wps_auth_type_flags=0x0023"; "wps_encr_type_flags=0x000f";
                 "wps_conn_type_flags=0x01"]);
  er ← apCfgWpsPinERGet unit;
  _ ← fprint f (if er =? 0 then "wps_config_methods=0x0082" else "wps_config_methods=0x0086");
  configured ← apCfgWscConfiguredGet;
  _ ← fprint f (if configured =? 0 then "wps_configured=0" else "wps_configured=1");
  _ ← fprints f (texts ["wps_rf_bands=0x03"; "wps_manufacturer=Cisco Small Business"; "wps_model_name=WAP4410N"]);
  _ ← match wps_model_number with
      | Some v => fprint f ("wps_model_number=" ++ v)
      | None => faultM
      end;
  _ ← fprints f (texts ["wps_serial_number=123456789012"; "wps_friendly_name=Wireless-N Access Point with PoE";
                 "wps_manufacturer_url=http://www.cisco.com/en/US/products/ps10047/index.html";
                 "wps_model_description=Wireless-N Access Point with PoE"]);
  ip ← nvram_safe_get "lan_ipaddr";
  _ ← fprint f ("wps_model_url=http://" ++ ip ++ "/index.htm");
  _ ← fprint f "wps_upc_string=upc string here";
  _ ← fprint_s f "wps_default_pin=" (apCfgDevicePinGet unit vap);
  fprints f (texts ["wps_dev_category=6"; "wps_dev_sub_category=1"; "wps_dev_oui=0050f204"; "wps_dev_name=WAP4410N";
             "wps_os_version=0x00000001"; "wps_atheros_extension=1"]).

(** The file with WPA or 802.1X. *)
Definition write_hostapd (scriptfile : option cstr) (unit vap : Z) (vapStr : cstr) (authType : Z)
    (wps_model_number : option cstr) : M sys () :=
  let f := hostap_name vapStr in
  _ ← write_file f [];
  _ ← fprint_s f "ssid=" (apCfgSsidGet unit vap);
  _ ← conf_common f vapStr;
  let '(needRadius, wpaMode, psk) := wpa_modes authType in
  _ ← when (negb (wpaMode =? -1)) (conf_wpa f unit vap wpaMode psk);
  acl ← apCfgAclModeGet unit vap;
  _ ← when (acl =? APCFG_ACL_RADIUS) (fprint f "macaddr_acl=2");
  let needRadius := needRadius || (acl =? APCFG_ACL_RADIUS) in
  _ ← (if (needRadius : bool) then
         _ ← conf_radius f unit vap [];
         _ ← fprint f "ieee8021x=1";
         _ ← when (wpaMode =? -1) (conf_dot1x scriptfile f unit vap vapStr);
         fprint f "eap_reauth_period=0"
       else fprints f conf_no_radius);
  if (unit =? 0) && (vap =? 0) && negb needRadius then
    wps ← apCfgWpsModeGet unit;
    _ ← fprints f (if wps =? 0 then conf_no_wps else (texts ["wps_disable=0"; "wps_upnp_disable=0"]));
    conf_wps f unit vap wps_model_number
  else fprints f conf_no_wps.

(** The file without WPA, for WPS or for access control by RADIUS. *)
Definition write_hostapd_open (unit vap : Z) (vapStr : cstr) (authType : Z)
    (wps_model_number : option cstr) : M sys () :=
  let f := hostap_name vapStr in
  _ ← write_file f [];
  _ ← conf_common f vapStr;
  _ ← fprint_s f "ssid=" (apCfgSsidGet unit vap);
  acl ← apCfgAclModeGet unit vap;
  _ ← when (acl =? APCFG_ACL_RADIUS) (conf_radius f unit vap (texts ["macaddr_acl=2"]));
  _ ← fprint f (if authType =? APCFG_AUTH_OPEN_SYSTEM then "auth_algs=1"
                else if authType =? APCFG_AUTH_SHARED_KEY then "auth_algs=2"
                else if authType =? APCFG_AUTH_AUTO then "auth_algs=3" else "auth_algs=1");
  _ ← fprint f "wpa=0";
  acl ← apCfgAclModeGet unit vap;
  _ ← (if acl =? APCFG_ACL_RADIUS then fprint f "ieee8021x=1" else fprints f conf_no_radius);
  if (unit =? 0) && (vap =? 0) then
    off ← orM (acl ← apCfgAclModeGet unit vap; mret (acl =? APCFG_ACL_RADIUS))
              (wps ← apCfgWpsModeGet unit; mret (wps =? 0));
    if (off : bool) then fprints f conf_no_wps
    else
      _ ← fprints f (texts ["wps_disable=0"; "wps_upnp_disable=0"]);
      conf_wps f unit vap wps_model_number
  else fprints f conf_no_wps.

(** Restarting the authenticator. *)
Definition hostapd_lines (scriptfile : option cstr) (unit vap : Z) (vapStr : cstr) : M sys () :=
  let add := SCRIPT_ADD scriptfile in
  let args := topology_name vapStr ++ " -B -P /var/run/hostapd_pid." ++ vapStr ++ " &" in
  _ ← (if (unit =? 0) && (vap =? 0) then
         _ ← add "/usr/bin/killall hostapd"; _ ← add "sleep 2";
         add ("/sbin/hostapd " ++ args)
       else
         _ ← add ("/usr/bin/killall hostapd." ++ vapStr); _ ← add "sleep 2";
         _ ← add ("/bin/ln -sf /sbin/hostapd /tmp/hostapd." ++ vapStr);
         add ("/tmp/hostapd." ++ vapStr ++ " " ++ args));
  add "sleep 1".

Definition wlanSecurityApply (scriptfile : option cstr) (unit vap : Z) : M sys () :=
  wps_model_number ← getVersion 32;
  let vapStr := ath unit vap in
  authType ← apCfgAuthTypeGet unit vap;
  _ ← essid_lines scriptfile unit vap vapStr;
  _ ← ADD_d scriptfile ("iwpriv " ++ vapStr ++ " ap_bridge ") (flag_of (apCfgIntraVapForwardingGet unit vap) 0 1) quietly;
  let wep := (authType =? APCFG_AUTH_OPEN_SYSTEM) || (authType =? APCFG_AUTH_SHARED_KEY) || (authType =? APCFG_AUTH_AUTO) in
  let wpa := (APCFG_AUTH_WPA <=? authType) && (authType <=? APCFG_AUTH_DOT1X) in
  _ ← (if wep then wep_lines scriptfile unit vap vapStr authType true
       else if wpa then
         _ ← write_topology unit vap vapStr;
         _ ← write_hostapd scriptfile unit vap vapStr authType wps_model_number;
         hostapd_lines scriptfile unit vap vapStr
       else open_lines scriptfile vapStr);
  radius_acl ← (if authType <=? APCFG_AUTH_AUTO then
                  if vap =? 0 then mret true else m ← apCfgAclModeGet unit vap; mret (m =? APCFG_ACL_RADIUS)
                else mret false);
  _ ← when radius_acl (
        _ ← write_topology unit vap vapStr;
        _ ← write_hostapd_open unit vap vapStr authType wps_model_number;
        _ ← hostapd_lines scriptfile unit vap vapStr;
        when (Zdiffer authType APCFG_AUTH_NONE) (wep_lines scriptfile unit vap vapStr authType false));
  SCRIPT_ADD scriptfile ("ifconfig " ++ vapStr ++ " up" ++ quietly).

(** ** WPS *)

Definition WSC_AUTHTYPE_OPEN : Z := 1.
Definition WSC_AUTHTYPE_WPAPSK : Z := 2.
Definition WSC_AUTHTYPE_SHARED : Z := 4.
Definition WSC_AUTHTYPE_WPA : Z := 8.
Definition WSC_AUTHTYPE_WPA2 : Z := 16.
Definition WSC_AUTHTYPE_WPA2PSK : Z := 32.
Definition WSC_AUTHTYPE_1X : Z := 64.
Definition WSC_ENCRTYPE_NONE : Z := 1.
Definition WSC_ENCRTYPE_WEP : Z := 2.
Definition WSC_ENCRTYPE_TKIP : Z := 4.
Definition WSC_ENCRTYPE_AES : Z := 8.

Record userconfig : Type := UserConfig {
  uc_ssid : cstr;          (** 33 bytes *)
  authtype : Z;
  encrytype : Z;
  keyindex : Z;
  networkkey : cstr;       (** 128 bytes *)
}.

(** A text in an array of zeroes. *)
Definition zero_pad (n : nat) (s : cstr) : bytes := s ++ replicate (n - length s) NUL.

(** The structure, byte by byte. *)
Definition uconfig_bytes (u : userconfig) : bytes :=
  zero_pad 33 (uc_ssid u) ++ [chr (authtype u); chr (encrytype u); chr (keyindex u)] ++ zero_pad 128 (networkkey u).

(** The encryption that goes with WPA. *)
Definition wsc_cipher (unit vap : Z) : M sys Z :=
  c ← apCfgWPACipherGet unit vap;
  if c =? WPA_CIPHER_AES then mret WSC_ENCRTYPE_AES
  else _ ← apCfgWPACipherGet unit vap; mret WSC_ENCRTYPE_TKIP.

Definition wsc_fields (unit vap authType : Z) (ssid : cstr) : M sys userconfig :=
  if (authType =? APCFG_AUTH_OPEN_SYSTEM) || (authType =? APCFG_AUTH_SHARED_KEY) || (authType =? APCFG_AUTH_AUTO) then
    let auth := if authType =? APCFG_AUTH_OPEN_SYSTEM then WSC_AUTHTYPE_OPEN
                else if authType =? APCFG_AUTH_SHARED_KEY then WSC_AUTHTYPE_SHARED
                else Z.lor WSC_AUTHTYPE_SHARED WSC_AUTHTYPE_OPEN in
    d ← apCfgDefKeyGet unit vap;
    k ← wep_key unit vap;
    k ← strcpy_buf 128 k;
    mret (UserConfig ssid auth WSC_ENCRTYPE_WEP d k)
  else if (authType =? APCFG_AUTH_WPAPSK) || (authType =? APCFG_AUTH_WPA2PSK) || (authType =? APCFG_AUTH_WPA_AUTO_PSK) then
    let auth := if authType =? APCFG_AUTH_WPAPSK then WSC_AUTHTYPE_WPAPSK
                else if authType =? APCFG_AUTH_WPA2PSK then WSC_AUTHTYPE_WPA2PSK else WSC_AUTHTYPE_WPAPSK in
    e ← wsc_cipher unit vap;
    p ← apCfgPassphraseGet unit vap;
    p ← strcpy_buf 128 p;
    mret (UserConfig ssid auth e 1 p)
  else if (APCFG_AUTH_WPA <=? authType) && (authType <=? APCFG_AUTH_DOT1X) then
    let auth := if authType =? APCFG_AUTH_WPA then WSC_AUTHTYPE_WPA
                else if authType =? APCFG_AUTH_WPA2 then WSC_AUTHTYPE_WPA2
                else if authType =? APCFG_AUTH_WPA_AUTO then WSC_AUTHTYPE_WPA else WSC_AUTHTYPE_1X in
    e ← wsc_cipher unit vap;
    mret (UserConfig ssid auth e 1 [])
  else mret (UserConfig ssid WSC_AUTHTYPE_OPEN WSC_ENCRTYPE_NONE 1 []).

Definition wlanCreatWscConfig (unit vap : Z) : M sys () :=
  p ← apCfgSsidGet unit vap;
  ssid ← strcpy_buf 33 p;
  authType ← apCfgAuthTypeGet unit vap;
  u ← wsc_fields unit vap authType ssid;
  write_file ("/tmp/wscdata_" ++ dec unit ++ dec vap ++ ".bin") (uconfig_bytes u).

End security.
