(* ===== verification/WifiStart.v ===== *)
(** * Starting and stopping the radio (libapcfg/wifiuti.c)

    Loading the module, finding a channel, making the access points of the
    operation mode, and taking them down.  The scripts are run in between, and
    some of what they leave is read back; what the shell makes of a command, and
    what the kernel answers, is [Board]. *)

From S2P Require Import Prelude CLib Utility FileSys CfgStore ApCfgSys ApCfgWlan ApCfgLists AplFlag Apply WifiScript WifiSecurity.

Class Board : Type := {
  (** the machine when a shell command has ended *)
  shell_effect : cstr → sys → sys;
  (** [ioctl(SIOCGIFHWADDR)] of an interface: six bytes *)
  if_hwaddr : cstr → option bytes;
  (** the bytes behind [vapStr] on the stack of [wlanStart] that nothing else uses *)
  vapStr_slack : nat;
}.

Definition VAP_STR_LEN : nat := 5.
Definition CTRY_DEFAULT : Z := 0.

Section start.
Context {store : CfgStore sys} {board : Board}.

Definition run_shell (cmd : cstr) : M sys () := _ ← FileSys.system cmd; modS (shell_effect cmd).

(** [while((fp=fopen(path,"r"))==NULL);] *)
Definition fopen_wait (path : cstr) : M sys bytes :=
  fp ← read_file path;
  match fp with Some data => mret data | None => stuckM end.

(** A loop over the lines of a file, each cut to its first [5] characters. *)
Fixpoint each_line (fuel : nat) (data : bytes) (body : cstr → M sys ()) : M sys () :=
  match fuel with
  | O => stuckM
  | S fuel' =>
      match fgets 64 data with
      | None => mret tt
      | Some (line, rest) => _ ← body (take 5 line); each_line fuel' rest body
      end
  end.

(** ** Taking down *)

(** The script that takes an interface out of its bridges, if there is one. *)
Definition delif_lines (scriptfile : option cstr) (vapStr : cstr) : M sys () :=
  let fileName := ATH_DELIF ++ "." ++ vapStr in
  have ← access fileName;
  when have (
    _ ← SCRIPT_ADD scriptfile ("chmod +x " ++ fileName);
    _ ← SCRIPT_ADD scriptfile fileName;
    _ ← SCRIPT_ADD scriptfile ("rm -f " ++ fileName);
    SCRIPT_ADD scriptfile "sleep 1").

Definition kill_wscupnpd (scriptfile : option cstr) : M sys () :=
  _ ← SCRIPT_ADD scriptfile ("/usr/bin/killall wscupnpd" ++ quietly);
  SCRIPT_ADD scriptfile ("/usr/bin/killall -9 wscupnpd" ++ quietly).

Definition wlanKillVap (scriptfile : option cstr) (unit vap : Z) : M sys () :=
  let vapStr := ath unit vap in
  _ ← delif_lines scriptfile vapStr;
  _ ← SCRIPT_ADD scriptfile ("ifconfig " ++ vapStr ++ " down" ++ quietly);
  _ ← SCRIPT_ADD scriptfile "sleep 1";
  _ ← SCRIPT_ADD scriptfile ("wlanconfig " ++ vapStr ++ " destroy" ++ quietly);
  _ ← SCRIPT_ADD scriptfile "sleep 3";
  let hostPidFileName := "/tmp/hostapd" ++ vapStr in
  _ ← run_shell ("ps | grep " ++ hostap_name vapStr ++ " | cut -b 1-5 > " ++ hostPidFileName);
  data ← fopen_wait hostPidFileName;
  _ ← each_line (S (length data)) data (λ line, SCRIPT_ADD scriptfile ("kill -9 " ++ line ++ quietly));
  _ ← unlink hostPidFileName;
  when (vap =? 0) (kill_wscupnpd scriptfile).

Definition vaplist : cstr := "iwconfig | grep ath | cut -b 1-5 > ".

Definition wlanKillAllVap (scriptfile : option cstr) : M sys () :=
  let add x := SCRIPT_ADD scriptfile (x ++ quietly) in
  _ ← run_shell (vaplist ++ "/tmp/vaplist.tmp");
  data ← fopen_wait "/tmp/vaplist.tmp";
  _ ← each_line (S (length data)) data (λ line,
        _ ← delif_lines scriptfile line;
        _ ← add ("ifconfig " ++ line ++ " down");
        _ ← SCRIPT_ADD scriptfile "sleep 2";
        add ("wlanconfig " ++ line ++ " destroy"));
  _ ← unlink "/tmp/vaplist.tmp";
  _ ← add "killall hostapd"; _ ← add "killall hostapd.ath01";
  _ ← add "killall hostapd.ath02"; _ ← add "killall hostapd.ath03";
  _ ← add "killall -9 hostapd"; _ ← add "killall -9 hostapd.ath01";
  _ ← add "killall -9 hostapd.ath02"; _ ← add "killall -9 hostapd.ath03";
  kill_wscupnpd scriptfile.

(** [line[4] - '0'] *)
Definition line_vap (line : cstr) : M sys Z :=
  match (line ++ [NUL]) !! 4%nat with Some c => mret (code c - 48) | None => faultM end.

Definition wlanAclListApply (scriptfile : option cstr) : M sys () :=
  let unit := RADIO_24G in
  mode ← apCfgAclModeGet unit 0;
  if Zdiffer mode APCFG_ACL_LOCAL then mret tt
  else
    _ ← run_shell (vaplist ++ "/tmp/vaplistx.tmp");
    data ← fopen_wait "/tmp/vaplistx.tmp";
    _ ← each_line (S (length data)) data (λ line,
          let maccmd x := SCRIPT_ADD scriptfile ("iwpriv " ++ line ++ " maccmd " ++ x ++ " " ++ quietly) in
          _ ← maccmd "3"; _ ← maccmd "1"; _ ← maccmd "6";
          vap ← line_vap line;
          es ← acl_wait unit vap;
          add_macs scriptfile line es);
    unlink "/tmp/vaplistx.tmp".

(** ** The channel *)

(** The current channel and the last one listed. *)
Fixpoint scan_channels (fuel : nat) (data : bytes) (maxChan : Z) : outcome (Z * Z) :=
  match fuel with
  | O => Stuck
  | S fuel' =>
      match fgets 32 data with
      | None => Done (0, maxChan)
      | Some (line, rest) =>
          if bool_decide (line = "available frequencies :" ++ [nl]) then scan_channels fuel' rest maxChan
          else if bool_decide (line = "current:" ++ [nl]) then
            let line := match fgets 32 rest with Some (l, _) => l | None => line end in
            Done (atoi line, maxChan)
          else scan_channels fuel' rest (atoi line)
      end
  end.

(** [apCfgChannelOffsetGet(unit)] compared. *)
Definition offset_is (unit : Z) (s : cstr) : M sys bool :=
  off ← apCfgChannelOffsetGet unit; mret (bool_decide (off = s)).

Definition wlanCorrectChannelApply (unit : Z) : M sys () :=
  w ← apCfgChannelWidthModeGet unit;
  if w =? 0 then mret tt
  else
    lst ← access "/tmp/chan_list";
    curr ← (if (lst : bool) then access "/tmp/chan_curr" else mret false);
    if negb curr then mret tt
    else
      data ← fopen_wait "/tmp/chan_list";
      r ← liftO (scan_channels (S (length data)) data 0);
      let '(curChan, maxChan) := (r : Z * Z) in
      auto ← apCfgAutoChannelGet unit;
      wrong ← (if auto =? 0 then c ← apCfgRadioChannelGet unit; mret (Zdiffer c curChan) else mret false);
      _ ← when wrong (
            _ ← run_shell "scapply close";
            _ ← apCfgRadioChannelSet unit curChan;
            run_shell "scapply open");
      w ← apCfgChannelWidthModeGet unit;
      if w =? 0 then mret tt
      else
        _ ← run_shell "scapply close";
        low ← (if curChan - 1 <? 4 then offset_is unit "-1" else mret false);
        _ ← when low (_ ← apCfgChannelOffsetSet unit "1"; mret tt);
        high ← (if maxChan - curChan <? 4 then offset_is unit "1" else mret false);
        _ ← when high (_ ← apCfgChannelOffsetSet unit "-1"; mret tt);
        run_shell "scapply open".

(** ** The module *)

(** The interface whose address [getMgtBrInfo] (libutility) asks for. *)
Definition mgt_if : M sys cstr :=
  fp ← read_file "/tmp/vlan.conf";
  match fp with
  | None => mret ("br0" : cstr)
  | Some data =>
      match fgets 64 data with
      | None => faultM
      | Some (l1, rest) =>
          let line := match fgets 64 rest with Some (l2, _) => l2 | None => l1 end in
          mret ("br" ++ dec (atoi line))
      end
  end.

(** [if_info.mac], "%02hhX:..." of the address; not written when there is none. *)
Definition getMgtBrInfo_mac : M sys cstr :=
  name ← mgt_if;
  match if_hwaddr name with
  | Some hw => r ← liftO (macAddrToString hw (Some (":" : cstr))); let '(_, s) := (r : Z * cstr) in mret s
  | None => faultM
  end.

Definition wlanModuleLoad (scriptfile : option cstr) (unit : Z) : M sys Z :=
  let add := SCRIPT_ADD scriptfile in
  c ← apCfgCountryCodeGet;
  let countryid := wrap32 c in
  let countryid := if 1000 <? countryid then countryid - 1000 else countryid in
  _ ← (if countryid =? 392 then add "/etc/ath/ath_MOD_load_JP" else add "/etc/ath/ath_MOD_load");
  _ ← when (Zdiffer countryid CTRY_DEFAULT)
        (add ("iwpriv wifi" ++ dec unit ++ " setCountryID " ++ dec (sint32 countryid)));
  mac ← getMgtBrInfo_mac;
  macStr ← liftO (scMacStr17ToStr12 mac);
  _ ← run_shell (take 1023 ("echo " ++ macStr ++ " > /tmp/wsc_mac"));
  hw ← liftO (scHexs2Chars mac 6 true None);
  r ← liftO (macAddrToString (mac_plus_one hw) None);
  let '(_, mac) := (r : Z * cstr) in
  _ ← add ("/sbin/ifconfig wifi0 hw ether " ++ mac);
  _ ← add ("/sbin/ifconfig wifi0 txqueuelen " ++ dec 1000);
  _ ← add "/usr/sbin/rc balance restart&";
  mret 0.

(** ** Starting *)

(** [sprintf(vapStr, ...)] in [wlanStart]: five bytes. *)
Definition vap_str (s : cstr) : M sys cstr := strcpy_buf (VAP_STR_LEN + vapStr_slack) s.

(** A script is run, or added to another one. *)
Definition run_or_add (scriptfile : option cstr) (script : cstr) : M sys () :=
  match scriptfile with
  | None => _ ← ATH_SCRIPT_RUN script; modS (shell_effect script)
  | Some f => _ ← ATH_SCRIPT_ADD f ("chmod 777 " ++ script); ATH_SCRIPT_ADD f script
  end.

Definition make_line (script : option cstr) (unit : Z) (vapStr mode : cstr) : M sys () :=
  SCRIPT_ADD script ("wlanconfig " ++ vapStr ++ " create wlandev wifi" ++ dec unit ++ " wlanmode " ++ mode ++ quietly).

(** The interface on which the channel is found, made and destroyed again. *)
Definition channel_vap (PRE : option cstr) (unit : Z) : M sys () :=
  let add := SCRIPT_ADD PRE in
  wirelessMode ← apCfgFreqSpecGet unit;
  _ ← run_shell "rm -f /tmp/chan_config";
  vapStr ← vap_str "ath09";
  let iwpriv x := add ("iwpriv " ++ vapStr ++ x ++ quietly) in
  let flag m := dec (if wirelessMode =? m then 1 else 0) in
  wds ← one_of (apCfgOpModeGet unit) [CFG_OP_MODE_PPT; CFG_OP_MODE_MPT];
  _ ← make_line PRE unit vapStr (if (wds : bool) then "ap nosbeacon" else "ap");
  _ ← add ("/usr/sbin/iwconfig " ++ vapStr ++ " channel 0");
  _ ← (if wirelessMode =? MODE_SELECT_11B then iwpriv " mode 11b"
       else if (wirelessMode =? MODE_SELECT_11G) || (wirelessMode =? MODE_SELECT_11BG) then
         _ ← iwpriv " mode 11g"; iwpriv (" pureg " ++ flag MODE_SELECT_11G)
       else
         w ← apCfgChannelWidthModeGet unit;
         _ ← (if w =? 0 then
                _ ← iwpriv " mode 11NGHT20"; add ("/usr/sbin/iwpriv " ++ vapStr ++ " cwmmode 0")
              else
                auto ← apCfgAutoChannelGet unit;
                _ ← (if auto =? 0 then
                       _ ← ADD_s PRE ("iwpriv " ++ vapStr ++ " extoffset ") (apCfgChannelOffsetGet unit) quietly;
                       plus ← offset_is unit "1";
                       if (plus : bool) then iwpriv " mode 11NGHT40PLUS" else iwpriv " mode 11NGHT40MINUS"
                     else iwpriv " mode 11NGHT40");
                ADD_d PRE ("/usr/sbin/iwpriv " ++ vapStr ++ " cwmmode ") (apCfgChannelWidthModeGet unit) []);
         _ ← add ("iwpriv wifi" ++ dec unit ++ " ForBiasAuto 1");
         _ ← iwpriv (" puren " ++ flag MODE_SELECT_11N);
         iwpriv " pureg 0");
  _ ← add ("iwconfig " ++ vapStr ++ " essid " ++ dquote :: "........" ++ dquote :: quietly);
  _ ← iwpriv " hide_ssid 1";
  auto ← apCfgAutoChannelGet unit;
  _ ← when (auto =? 0) (
        _ ← add ("/usr/sbin/iwconfig " ++ vapStr ++ " channel 6");
        ADD_d PRE ("/usr/sbin/iwconfig " ++ vapStr ++ " channel ") (apCfgRadioChannelGet unit) []);
  _ ← add ("ifconfig " ++ vapStr ++ " up" ++ quietly);
  _ ← ADD_d PRE "sleep " (flag_of (apCfgAutoChannelGet unit) 6 2) [];
  _ ← add ("/usr/sbin/iwconfig " ++ vapStr ++ " getCurrentChannel > /tmp/chan_list");
  _ ← add ("/usr/sbin/iwconfig " ++ vapStr ++ " getChannel > /tmp/chan_curr");
  _ ← add ("/usr/sbin/iwconfig " ++ vapStr ++ " getCurrTxPower > /tmp/maxpwr_curr");
  _ ← add ("ifconfig " ++ vapStr ++ " down" ++ quietly);
  _ ← add "sleep 1";
  add ("wlanconfig " ++ vapStr ++ " destroy" ++ quietly).

Section scripts.
Variable up : Z → option cstr.
Variable unit : Z.

Definition start_rogueap : M sys () :=
  vapStr ← vap_str "ath00";
  let make x := SCRIPT_ADD (up ATH_UP_MAKE) (x ++ quietly) in
  _ ← make_line (up ATH_UP_MAKE) unit vapStr "sta nosbeacon";
  _ ← make ("iwpriv " ++ vapStr ++ " bgscan 0");
  _ ← make ("iwpriv " ++ vapStr ++ " doth 0");
  _ ← make ("iwpriv " ++ vapStr ++ " ff 0");
  _ ← make ("iwconfig " ++ vapStr ++ " essid " ++ dquote :: ".......  ........  ......" ++ [dquote]);
  _ ← make ("ifconfig " ++ vapStr ++ " up");
  SCRIPT_ADD (up ATH_UP_LAST) "/usr/sbin/rc rogueap start&".

Definition start_wsc (vap : Z) : M sys () :=
  _ ← wlanCreatWscConfig unit vap;
  SCRIPT_ADD (up ATH_UP_LAST) "/usr/sbin/rc wscupnp restart&".

Definition start_ap (vap : Z) : M sys () :=
  active ← apCfgActiveModeGet unit vap;
  when (negb (active =? 0)) (
    vapStr ← vap_str (ath unit vap);
    _ ← make_line (up ATH_UP_MAKE) unit vapStr "ap";
    op ← apCfgOpModeGet unit;
    _ ← wlanBasicApply (up ATH_UP_MAKE) unit vap 0 (if op =? CFG_OP_MODE_UR then 2 else 0);
    _ ← wlanAdvanceApply (up ATH_UP_MAKE) unit vap 0;
    _ ← wlanAclApply (up ATH_UP_MAKE) unit vap;
    _ ← wlanBridgeApply (up ATH_UP_SUF) unit vap 0;
    _ ← wlanSecurityApply (up ATH_UP_AP) unit vap;
    when (vap =? 0) (start_wsc vap)).

(** An access point that also bridges. *)
Definition start_ap_wds : M sys () :=
  let vap := 0 in
  vapStr ← vap_str (ath unit vap);
  _ ← SCRIPT_ADD (up ATH_UP_MAKE) "echo 1 > /proc/wds_cfb";
  _ ← make_line (up ATH_UP_MAKE) unit vapStr "ap";
  _ ← wlanBasicApply (up ATH_UP_MAKE) unit vap 0 0;
  _ ← wlanAdvanceApply (up ATH_UP_MAKE) unit vap 0;
  _ ← wlanAclApply (up ATH_UP_MAKE) unit vap;
  _ ← wlanBridgeApply (up ATH_UP_SUF) unit vap 2;
  _ ← wlanWdsApply (up ATH_UP_AP) unit vap;
  _ ← wlanSecurityApply (up ATH_UP_AP) unit vap;
  _ ← start_wsc vap;
  SCRIPT_ADD (up ATH_UP_LAST) "/usr/sbin/rc wdspsk start&".

Definition start_wds : M sys () :=
  let vap := 0 in
  vapStr ← vap_str (ath unit vap);
  _ ← SCRIPT_ADD (up ATH_UP_MAKE) "echo 1 > /proc/wds_cfb";
  _ ← make_line (up ATH_UP_MAKE) unit vapStr "ap nosbeacon";
  _ ← wlanBasicApply (up ATH_UP_MAKE) unit vap 1 0;
  _ ← wlanAdvanceApply (up ATH_UP_MAKE) unit vap 1;
  _ ← wlanBridgeApply (up ATH_UP_SUF) unit vap 1;
  _ ← wlanWdsApply (up ATH_UP_AP) unit vap;
  _ ← wlanNoApSecurityApply (up ATH_UP_AP) unit vap;
  _ ← SCRIPT_ADD (up ATH_UP_AP) "sleep 2";
  SCRIPT_ADD (up ATH_UP_LAST) "/usr/sbin/rc wdspsk start&".

Definition start_sta : M sys () :=
  let vap := WLAN_MAX_VAP in
  vapStr ← vap_str (ath unit WLAN_MAX_VAP);
  _ ← SCRIPT_ADD (up ATH_UP_MAKE) "echo 1 > /proc/us_cfb";
  _ ← make_line (up ATH_UP_MAKE) unit vapStr "sta nosbeacon";
  _ ← wlanBasicApply (up ATH_UP_MAKE) unit vap 1 1;
  _ ← wlanAdvanceApply (up ATH_UP_MAKE) unit vap 1;
  _ ← wlanBridgeApply (up ATH_UP_SUF) unit vap 0;
  _ ← wlanNoApSecurityApply (up ATH_UP_STA) unit vap;
  _ ← SCRIPT_ADD (up ATH_UP_STA) "sleep 2";
  SCRIPT_ADD (up ATH_UP_LAST) "/usr/sbin/rc wpasupplicant start&".

(** The modes of a radio that is on. *)
Definition start_modes : M sys () :=
  let op := apCfgOpModeGet unit in
  ap ← one_of op [CFG_OP_MODE_AP; CFG_OP_MODE_UR];
  _ ← when ap (for_seq [0; 1; 2; 3] start_ap);
  ap_wds ← one_of op [CFG_OP_MODE_AP_PTP; CFG_OP_MODE_AP_PTMP];
  _ ← when ap_wds start_ap_wds;
  wds ← one_of op [CFG_OP_MODE_PPT; CFG_OP_MODE_MPT];
  _ ← when wds start_wds;
  sta ← one_of op [CFG_OP_MODE_UC; CFG_OP_MODE_UR];
  _ ← when sta start_sta;
  SCRIPT_ADD (up ATH_UP_LAST) "/usr/sbin/snmptrap -t 3".
End scripts.

Definition wlanStart (scriptfile : option cstr) (unit : Z) : M sys Z :=
  let WLAN_UP := ATH_UP unit in
  let up step := Some (WLAN_UP step) in
  _ ← for_seq [0; 1; 2; 3; 4; 5] (λ step,
        _ ← ATH_SCRIPT_DEL (WLAN_UP step);
        ATH_SCRIPT_ADD (WLAN_UP step) ("#!/bin/sh" ++ [nl]));
  _ ← ATH_SCRIPT_ADD (WLAN_UP ATH_UP_LAST) "sleep 1";
  _ ← wlanModuleLoad (up ATH_UP_PRE) unit;
  config ← access "/tmp/chan_config";
  channel ← (if (config : bool) then mret true else have ← access "/tmp/chan_list"; mret (negb have));
  _ ← when channel (channel_vap (up ATH_UP_PRE) unit);
  _ ← run_or_add scriptfile (WLAN_UP ATH_UP_PRE);
  _ ← wlanCorrectChannelApply unit;
  op ← apCfgOpModeGet unit;
  _ ← (if op =? CFG_OP_MODE_ROGAP then start_rogueap up unit
       else
         on ← apCfgWlanStateGet unit;
         when (on =? 1) (start_modes up unit));
  _ ← for_seq [1; 2; 3; 4; 5] (λ step, run_or_add scriptfile (WLAN_UP step));
  mret 0.

Definition wlanStop (scriptfile : option cstr) (unit unload_module : Z) : M sys Z :=
  let WLAN_DOWN := ATH_DOWN unit in
  _ ← ATH_SCRIPT_DEL WLAN_DOWN;
  _ ← ATH_SCRIPT_ADD WLAN_DOWN ("#!/bin/sh" ++ [nl]);
  _ ← ATH_SCRIPT_ADD WLAN_DOWN ("/etc/ath/ath_WLAN_stop " ++ dec unit ++ " " ++
        (if unload_module =? 0 then [] else "unload"));
  _ ← ATH_SCRIPT_ADD WLAN_DOWN "/usr/sbin/snmptrap -t 2";
  _ ← ATH_SCRIPT_ADD WLAN_DOWN "/usr/bin/killall -9 hostapd";
  _ ← SCRIPT_ADD scriptfile ("killall -9 hostapd.ath01" ++ quietly);
  _ ← SCRIPT_ADD scriptfile ("killall -9 hostapd.ath02" ++ quietly);
  _ ← SCRIPT_ADD scriptfile ("killall -9 hostapd.ath03" ++ quietly);
  _ ← run_or_add scriptfile WLAN_DOWN;
  mret 0.

(** What the apply process calls; it starts and stops the radio at once. *)
#[export] Instance wifiuti : Wifi := {|
  Apply.wlanStop unit unload := _ ← wlanStop None unit unload; mret tt;
  Apply.wlanStart unit := _ ← wlanStart None unit; mret tt;
  Apply.wlanBasicApply script := wlanBasicApply (Some script);
  Apply.wlanAdvanceApply script := wlanAdvanceApply (Some script);
  Apply.wlanAclApply script := wlanAclApply (Some script);
  Apply.wlanWdsApply script := wlanWdsApply (Some script);
  Apply.wlanSecurityApply script := wlanSecurityApply (Some script);
  Apply.wlanNoApSecurityApply script := wlanNoApSecurityApply (Some script);
  Apply.wlanBridgeApply script := wlanBridgeApply (Some script);
  Apply.wlanCreatWscConfig := wlanCreatWscConfig;
|}.
End start.
