(* ===== verification/WifiCorrect.v ===== *)
(** * A logic for the wireless scripts

    [reads m v]: a getter answers [v] and at most copies defaults to the shadow
    file.  [says m Q]: a step of a script's making ends without a fault, keeps
    the configuration and what is read besides, and adds to the script [f] some
    lines that satisfy [Q] with the result; of the other files only those in
    [ps] change.  [tame] is [says] without a condition on the lines. *)

From S2P Require Import Prelude CLib Utility FileSys Nvram NvramSpec NvramCorrect Scfg ScfgCorrect CfgStore ApCfgSys ApCfgWlan ApCfgLists CfgRefine AplFlag CfgImpl Apply WifiScript WifiSecurity WifiStart.

(** The text of some lines. *)
Definition text (ls : list cstr) : bytes := concat (map (λ l, l ++ [nl]) ls).

Lemma text_app l1 l2 : text (l1 ++ l2) = text l1 ++ text l2.
Proof. unfold text. by rewrite map_app, concat_app. Qed.

(** What the scripts read beside the configuration, and where the configuration is. *)
Definition inputs : list cstr := ["/tmp/chan_curr" : cstr; "/tmp/vlan.conf" : cstr; "/etc/fwversion" : cstr; "/etc/extra_version" : cstr].
Definition stores : list cstr := [NVRAM_TMP_PATH; NVRAM_DEFAULT; APL_CLOSED; APL_PARSING; APL_FLAG].

Lemma sys_rep_frame s s' a :
  (∀ p, p ∈ stores → files s' !! p = files s !! p) → sys_rep s a → sys_rep s' a.
Proof.
  intros Hp (es & ds & [H1 H2 H3] & Hv & Hf).
  assert (Hs : ∀ p, bool_decide (p ∈ stores) = true → files s' !! p = files s !! p)
    by (intros p ?%bool_decide_eq_true; by apply Hp).
  exists es, ds. split; [|split; [done|]].
  - split; [by rewrite Hs|done|by rewrite Hs].
  - unfold flags_rep in *. rewrite !Hs by done. done.
Qed.

Section says.
Context {heap : Heap} {dev : FlashDev} {shell : Shell}.
Variable stack : Z.
#[local] Hint Extern 0 (CfgStore sys) => exact (sys_store stack) : typeclass_instances.
Variable a : cfg.

(** ** Getters *)

Definition reads {A} (m : M sys A) (v : A) : Prop :=
  ∀ s, sys_rep s a → runs m s (λ r s', r = v ∧ sys_rep s' a ∧ nv_frame s s').

Lemma nv_frame_trans s1 s2 s3 : nv_frame s1 s2 → nv_frame s2 s3 → nv_frame s1 s3.
Proof.
  intros (F1 & C1 & P1) (F2 & C2 & P2). split; [congruence|]. split; [congruence|].
  intros p Hp. by rewrite P2, P1.
Qed.

Lemma reads_ret {A} (x : A) : reads (mret x) x.
Proof. intros s Hs. apply runs_ret. split; [done|]. split; [done|]. apply nv_frame_refl. Qed.

Lemma reads_bind {A B} (m : M sys A) (k : A → M sys B) v w : reads m v → reads (k v) w → reads (m ≫= k) w.
Proof.
  intros Hm Hk s Hs. apply runs_bind. use_runs (Hm s Hs). intros r s' (-> & Hs' & Hf).
  use_runs (Hk s' Hs'). intros r s2 (-> & Hs2 & Hf2). split; [done|]. split; [done|]. by eapply nv_frame_trans.
Qed.

Lemma reads_eq {A} (m : M sys A) v v' : reads m v → v = v' → reads m v'.
Proof. by intros H <-. Qed.

Lemma reads_safe k : key_ok k → reads (nvram_safe_get k) (safe a k).
Proof.
  intros Hk s Hs. pose proof (sys_safe_get_runs s a k Hs Hk) as H1.
  destruct Hs as (es & ds & Hr & _). destruct Hk as [_ Hk].
  pose proof (nvram_safe_get_runs s es ds k Hr Hk) as H2. cbn [CfgStore.nvram_safe_get sys_store].
  unfold runs in *. destruct (Nvram.nvram_safe_get k s) as [[r s']| |]; [|done|done].
  destruct H1 as [-> H1], H2 as (_ & Hf & _). done.
Qed.

Lemma reads_get k : key_ok k → reads (nvram_get k) (val a k).
Proof.
  intros Hk s Hs. pose proof (sys_get_runs s a k Hs Hk) as H1.
  destruct Hs as (es & ds & Hr & _). destruct Hk as [_ Hk].
  pose proof (nvram_get_runs s es ds k Hr Hk) as H2. cbn [CfgStore.nvram_get sys_store].
  unfold runs in *. destruct (Nvram.nvram_get k s) as [[r s']| |]; [|done|done].
  destruct H1 as [-> H1], H2 as (_ & Hf & _). done.
Qed.

Lemma reads_strcpy n p : (length p < n)%nat → reads (strcpy_buf n p) p.
Proof. intros H. unfold strcpy_buf. rewrite decide_True by done. apply reads_ret. Qed.

Lemma reads_str n k : key_ok k → (length (safe a k) < n)%nat → reads (get_str n k) (safe a k).
Proof. intros Hk Hn. eapply reads_bind; [by apply reads_safe|by apply reads_strcpy]. Qed.

Lemma reads_int_buf n k : key_ok k → (length (safe a k) < n)%nat → reads (get_int_buf n k) (atoi (safe a k)).
Proof. intros Hk Hn. eapply reads_bind; [by apply reads_str|apply reads_ret]. Qed.

Lemma reads_int k : key_ok k → reads (get_int k) (atoi (safe a k)).
Proof. intros Hk. eapply reads_bind; [by apply reads_safe|apply reads_ret]. Qed.

Lemma reads_bool k : key_ok k → reads (get_bool k) (dec_bool (safe a k)).
Proof. intros Hk. eapply reads_bind; [by apply reads_safe|apply reads_ret]. Qed.

Lemma reads_code k tbl d : key_ok k → reads (p ← nvram_safe_get k; mret (code_of tbl d p)) (code_of tbl d (safe a k)).
Proof. intros Hk. eapply reads_bind; [by apply reads_safe|apply reads_ret]. Qed.

(** ** Adding lines *)

Variable f : cstr.
Variable ps : list cstr.
Variable inp : cstr → option bytes.

Definition kept (p : cstr) : Prop := p ∉ stores ∧ p ∉ inputs.
Hypothesis f_kept : kept f.
Hypothesis ps_kept : Forall (λ p, kept p ∧ p ≠ f) ps.

Definition holds (s : sys) : Prop := sys_rep s a ∧ ∀ p, p ∈ inputs → files s !! p = inp p.

Definition adds (ls : list cstr) (s s' : sys) : Prop :=
  flash s' = flash s ∧ cmds s' = cmds s ∧
  default [] (files s' !! f) = default [] (files s !! f) ++ text ls ∧
  ∀ p, p ≠ f → p ∉ ps → p ≠ NVRAM_TMP_PATH → files s' !! p = files s !! p.

Lemma adds_refl s : adds [] s s.
Proof. split_and!; [done|done|by rewrite app_nil_r|done]. Qed.

Lemma adds_trans l1 l2 s1 s2 s3 : adds l1 s1 s2 → adds l2 s2 s3 → adds (l1 ++ l2) s1 s3.
Proof.
  intros (F1 & C1 & T1 & P1) (F2 & C2 & T2 & P2). split_and!; [congruence|congruence| |].
  - by rewrite T2, T1, text_app, app_assoc.
  - intros p H1 H2 H3. by rewrite P2, P1.
Qed.

Lemma adds_frame s s' : nv_frame s s' → adds [] s s'.
Proof.
  intros (F & C & P). split_and!; [done|done| |].
  - rewrite app_nil_r, P; [done|]. intros E. destruct f_kept as [H _]. apply H. rewrite E. left.
  - intros p _ _ Hp. by apply P.
Qed.

Lemma holds_frame s s' : nv_frame s s' → sys_rep s' a → holds s → holds s'.
Proof.
  intros (_ & _ & P) Hr [_ Hi]. split; [done|]. intros p Hp. rewrite P; [by apply Hi|].
  intros ->. by apply (bool_decide_eq_true (NVRAM_TMP_PATH ∈ inputs)) in Hp.
Qed.

Definition says {A} (m : M sys A) (Q : A → list cstr → Prop) : Prop :=
  ∀ s, holds s → runs m s (λ r s', holds s' ∧ ∃ ls, Q r ls ∧ adds ls s s').
Definition tame {A} (m : M sys A) : Prop := says m (λ _ _, True).

Lemma says_mono {A} (m : M sys A) (Q Q' : A → list cstr → Prop) :
  says m Q → (∀ r ls, Q r ls → Q' r ls) → says m Q'.
Proof. intros H HQ s Hs. use_runs (H s Hs). intros r s' (? & ls & ? & ?). eauto 6. Qed.

Lemma says_ret {A} (x : A) (Q : A → list cstr → Prop) : Q x [] → says (mret x) Q.
Proof. intros HQ s Hs. apply runs_ret. split; [done|]. exists []. split; [done|]. apply adds_refl. Qed.

Lemma says_bind {A B} (m : M sys A) (k : A → M sys B) P Q :
  says m P → (∀ r l1, P r l1 → says (k r) (λ w l2, Q w (l1 ++ l2))) → says (m ≫= k) Q.
Proof.
  intros Hm Hk s Hs. apply runs_bind. use_runs (Hm s Hs). intros r s1 (Hs1 & l1 & HP & Ha1).
  use_runs (Hk r l1 HP s1 Hs1). intros w s2 (Hs2 & l2 & HQ & Ha2). split; [done|].
  exists (l1 ++ l2). split; [done|]. by eapply adds_trans.
Qed.

Lemma says_reads {A} (m : M sys A) v (Q : A → list cstr → Prop) : reads m v → Q v [] → says m Q.
Proof.
  intros Hm HQ s Hs. use_runs (Hm s (proj1 Hs)). intros r s' (-> & Hr & Hf).
  split; [by apply (holds_frame s)|]. exists []. split; [done|]. by apply adds_frame.
Qed.

(** A getter in front. *)
Lemma says_read {A B} (m : M sys A) v (k : A → M sys B) Q : reads m v → says (k v) Q → says (m ≫= k) Q.
Proof.
  intros Hm Hk. eapply says_bind with (P := λ r l, r = v ∧ l = []); [by apply says_reads with v|].
  intros r l [-> ->]. exact Hk.
Qed.

Lemma holds_set p x s : kept p → holds s → holds (set_files (<[p := x]> (files s)) s).
Proof.
  intros [H1 H2] [Hr Hi]. split.
  - apply (sys_rep_frame s); [|done]. intros q Hq. cbn [files set_files].
    apply lookup_insert_ne. intros <-. done.
  - intros q Hq. cbn [files set_files]. rewrite lookup_insert_ne; [by apply Hi|]. intros <-. done.
Qed.

Lemma says_append line (Q : () → list cstr → Prop) : Q tt [line] → says (ATH_SCRIPT_ADD f line) Q.
Proof.
  intros HQ s Hs. apply runs_mod. split; [by apply holds_set|]. exists [line]. split; [done|].
  split_and!; [done|done| |].
  - cbn [files set_files]. rewrite lookup_insert_eq. cbn. unfold text. cbn. by rewrite app_nil_r.
  - intros p Hp _ _. cbn [files set_files]. by rewrite lookup_insert_ne.
Qed.

Lemma says_add line (Q : () → list cstr → Prop) : Q tt [line] → says (SCRIPT_ADD (Some f) line) Q.
Proof. apply says_append. Qed.

(** A write to one of the other files. *)
Lemma says_set p (g : sys → bytes) (Q : () → list cstr → Prop) :
  p ∈ ps → Q tt [] → says (modS (λ s, set_files (<[p := g s]> (files s)) s)) Q.
Proof.
  intros Hp HQ s Hs. rewrite Forall_forall in ps_kept. destruct (ps_kept p Hp) as [Hk Hne].
  apply runs_mod. split; [by apply holds_set|]. exists []. split; [done|]. split_and!; [done|done| |].
  - cbn [files set_files]. rewrite lookup_insert_ne by done. by rewrite app_nil_r.
  - intros q _ Hq _. cbn [files set_files]. rewrite lookup_insert_ne; [done|]. by intros <-.
Qed.

Lemma says_read_file {B} p (k : option bytes → M sys B) Q :
  p ∈ inputs → says (k (inp p)) Q → says (fp ← read_file p; k fp) Q.
Proof.
  intros Hp Hk s Hs. apply runs_bind, runs_bind, runs_get, runs_ret. rewrite (proj2 Hs p Hp). by apply Hk.
Qed.

Lemma says_lift {A B} (o : outcome A) v (k : A → M sys B) Q : o = Done v → says (k v) Q → says (r ← liftO o; k r) Q.
Proof. intros E Hk s Hs. apply runs_bind. eapply runs_lift; [exact E|]. by apply Hk. Qed.

(** ** Without the lines *)

Lemma tame_ret {A} (x : A) : tame (mret x).
Proof. by apply says_ret. Qed.
Lemma tame_bind {A B} (m : M sys A) (k : A → M sys B) : tame m → (∀ r, tame (k r)) → tame (m ≫= k).
Proof. intros Hm Hk. eapply says_bind; [exact Hm|]. intros r l _. apply Hk. Qed.
Lemma tame_read {A B} (m : M sys A) v (k : A → M sys B) : reads m v → tame (k v) → tame (m ≫= k).
Proof. apply says_read. Qed.
Lemma tame_read_file {B} p (k : option bytes → M sys B) :
  p ∈ inputs → tame (k (inp p)) → tame (fp ← read_file p; k fp).
Proof. apply says_read_file. Qed.
Lemma tame_reads {A} (m : M sys A) v : reads m v → tame m.
Proof. intros H. by apply says_reads with v. Qed.
Lemma tame_add line : tame (SCRIPT_ADD (Some f) line).
Proof. by apply says_add. Qed.
Lemma tame_append line : tame (ATH_SCRIPT_ADD f line).
Proof. by apply says_append. Qed.
Lemma tame_set p (g : sys → bytes) : p ∈ ps → tame (modS (λ s, set_files (<[p := g s]> (files s)) s)).
Proof. intros Hp. by apply says_set. Qed.
Lemma tame_when b (m : M sys ()) : (b = true → tame m) → tame (when b m).
Proof. intros H. unfold when. destruct b; [by apply H|apply tame_ret]. Qed.
Lemma tame_if {A} (b : bool) (m1 m2 : M sys A) :
  (b = true → tame m1) → (b = false → tame m2) → tame (if b then m1 else m2).
Proof. destruct b; auto. Qed.
Lemma tame_for l (body : Z → M sys ()) : (∀ i, i ∈ l → tame (body i)) → tame (for_seq l body).
Proof.
  induction l as [|i l IH]; intros H; [apply tame_ret|]. cbn [for_seq].
  apply tame_bind; [apply H; left|]. intros _. apply IH. intros j Hj. apply H. by right.
Qed.
Lemma tame_append_file p x : p ∈ ps → tame (append_file p x).
Proof. apply (tame_set p (λ s, default [] (files s !! p) ++ x)). Qed.
Lemma tame_write_file p x : p ∈ ps → tame (write_file p x).
Proof. apply (tame_set p (λ _, x)). Qed.
Lemma tame_fprints p ls : p ∈ ps → tame (fprints p ls).
Proof.
  intros Hp. induction ls as [|l ls IH]; [apply tame_ret|]. cbn [fprints].
  apply tame_bind; [by apply tame_append_file|]. by intros _.
Qed.
(** ** The radio's functions *)

(** The sizes of the buffers that the parameters are copied into. *)
Definition vap_fields : list (cstr * nat) :=
  [("" : cstr, 33%nat); ("_default_key" : cstr, 60%nat); ("_key_method" : cstr, 60%nat); ("_vid" : cstr, 32%nat);
   ("_pri" : cstr, 60%nat); ("_passphrase" : cstr, 32%nat); ("_radius_server" : cstr, 32%nat);
   ("_radius_port" : cstr, 60%nat); ("_radius_key" : cstr, 32%nat); ("_backup_radius_server" : cstr, 32%nat);
   ("_backup_radius_port" : cstr, 60%nat); ("_backup_radius_key" : cstr, 32%nat); ("_acct_server" : cstr, 32%nat);
   ("_acct_port" : cstr, 60%nat); ("_acct_key" : cstr, 128%nat); ("_backup_acct_server" : cstr, 32%nat);
   ("_backup_acct_port" : cstr, 60%nat); ("_backup_acct_key" : cstr, 128%nat); ("_rekey_interval" : cstr, 60%nat);
   ("_rekey_terminated" : cstr, 60%nat); ("_dot1x_key_mode" : cstr, 60%nat); ("_dot1x_key_length" : cstr, 60%nat);
   ("_pin" : cstr, 9%nat)].
Definition wlan_fields : list (cstr * nat) :=
  [("_channel_offset" : cstr, 32%nat); ("_dtim" : cstr, 60%nat); ("_rts" : cstr, 60%nat); ("_frag" : cstr, 60%nat);
   ("_remote_mac" : cstr, 18%nat); ("_channel" : cstr, 60%nat)].

Definition vap_fits (vap : Z) : Prop :=
  Forall (λ e, (length (safe a (vap_key 0 vap e.1)) < e.2)%nat) vap_fields ∧
  (length (safe a (vap_key 0 vap "_key" ++ dec (atoi (safe a (vap_key 0 vap "_default_key"))))) < 32)%nat.
Definition wlan_fits : Prop :=
  Forall (λ e, (length (safe a (wlan_key 0 e.1)) < e.2)%nat) wlan_fields.

Lemma vap_fit vap suf n : vap_fits vap → (suf, n) ∈ vap_fields → (length (safe a (vap_key 0 vap suf)) < n)%nat.
Proof. intros [H _] Hin. rewrite Forall_forall in H. exact (H (suf, n) Hin). Qed.
Lemma wlan_fit suf n : wlan_fits → (suf, n) ∈ wlan_fields → (length (safe a (wlan_key 0 suf)) < n)%nat.
Proof. intros H Hin. unfold wlan_fits in H. rewrite Forall_forall in H. exact (H (suf, n) Hin). Qed.

Lemma key_ok_wep vap d : key_ok (vap_key 0 vap "_key" ++ dec d).
Proof.
  destruct (key_ok_vap 0 vap "_key") as [H1 H2]; [split; closed|]. split; [by destruct (vap_key 0 vap "_key")|].
  apply good_name_app; [done|apply good_name_dec].
Qed.

Lemma reads_orM x y b c : reads x b → reads y c → reads (orM x y) (b || c).
Proof. intros Hx Hy. eapply reads_bind; [exact Hx|]. destruct b; [apply reads_ret|exact Hy]. Qed.

Hypothesis Hwlan : wlan_fits.

Ltac fit :=
  first [ assumption
        | apply vap_fit; [assumption|closed]
        | apply wlan_fit; [assumption|closed]
        | eapply Nat.lt_le_trans; [apply vap_fit; [assumption|apply list_elem_of_here]|lia]
        | eapply Nat.lt_le_trans; [apply wlan_fit; [assumption|closed]|lia] ].

Ltac rd :=
  cbv beta zeta;
  lazymatch goal with
  | |- reads (mret _) _ => apply reads_ret
  | |- reads (CfgStore.nvram_safe_get _) _ => apply reads_safe; cfg_key
  | |- reads (CfgStore.nvram_get _) _ => apply reads_get; cfg_key
  | |- reads (get_bool _) _ => apply reads_bool; cfg_key
  | |- reads (get_int _) _ => apply reads_int; cfg_key
  | |- reads (get_int_buf _ _) _ => apply reads_int_buf; [cfg_key|fit]
  | |- reads (get_str _ _) _ => apply reads_str; [cfg_key|fit]
  | |- reads (strcpy_buf _ _) _ => apply reads_strcpy; fit
  | |- reads (orM _ _) _ => eapply reads_orM; rd
  | |- reads (mbind _ _) _ => eapply reads_bind; rd
  | |- reads ?m _ => unfold_head m; rd
  end.

Ltac tm :=
  cbv beta zeta;
  lazymatch goal with
  | |- tame (mret _) => apply tame_ret
  | |- tame (SCRIPT_ADD _ _) => apply tame_add
  | |- tame (ATH_SCRIPT_ADD _ _) => apply tame_append
  | |- tame (when _ _) => apply tame_when; intros; tm
  | |- tame (for_seq _ _) => apply tame_for; intros; tm
  | |- tame (if _ then _ else _) => apply tame_if; intros; tm
  | |- tame (mbind _ _) => first [eapply tame_read; [solve [rd]|] | apply tame_bind; [|intros]]; tm
  | |- tame ?m => unfold_head m; tm
  end.

Lemma tame_advance bss all : tame (wlanAdvanceApply (Some f) 0 bss all).
Proof. tm. Qed.

(** The channel file is read when the interface is not a station. *)
Lemma tame_basic bss all sta : tame (wlanBasicApply (Some f) 0 bss all sta).
Proof.
  assert (Hch : tame (fp ← read_file "/tmp/chan_curr";
    match fp ≫= fgets 129 with
    | Some (buffer, _) => SCRIPT_ADD (Some f) ("/usr/sbin/iwconfig " ++ ath 0 bss ++ " channel " ++ buffer)
    | None => mret tt
    end)).
  { apply tame_read_file; [closed|]. destruct (inp _ ≫= fgets 129) as [[b r]|]; tm. }
  unfold wlanBasicApply. eapply tame_read; [rd|]. cbv zeta.
  apply tame_bind; [tm|]. intros _. apply tame_bind; [tm|]. intros _. apply tame_bind; [tm|]. intros _.
  apply tame_bind; [tm|]. intros _. apply tame_if; intros _; [|exact Hch].
  apply tame_when. intros _. apply tame_bind; [tm|]. intros _.
  eapply tame_read; [rd|]. eapply tame_read; [|tm].
  apply reads_strcpy, Nat.lt_le_trans with 18%nat; [|lia]. apply wlan_fit; [done|closed].
Qed.

(** ** Access points *)

Lemma tame_macs vapStr es : tame (add_macs (Some f) vapStr es).
Proof. induction es as [|e es IH]; [apply tame_ret|]. cbn [add_macs]. apply tame_bind; [tm|]. by intros _. Qed.

(** The stored list of addresses can be read. *)
Definition acl_readable (vap : Z) : Prop :=
  ∃ es, acl_entries (Datatypes.S (length (safe a (acl_key 0 vap)))) (safe a (acl_key 0 vap)) = Done es.

Lemma reads_acl vap es :
  0 <= vap < 4 →
  acl_entries (Datatypes.S (length (safe a (acl_key 0 vap)))) (safe a (acl_key 0 vap)) = Done es →
  reads (acl_wait 0 vap) es.
Proof.
  intros Hv He. unfold acl_wait, scAclBufGet.
  assert ((vap <? 0) || (WLAN_MAX_VAP <=? vap) = false) as Hr
    by (apply orb_false_iff; split; [apply Z.ltb_ge|apply Z.leb_gt]; unfold WLAN_MAX_VAP; lia).
  cbn [Z.ltb Z.compare Z.leb WLAN_MAX_DEV orb]. rewrite Hr.
  eapply reads_bind; [eapply reads_bind; [apply reads_safe, key_ok_vap; split; closed|]|].
  - intros s Hs. apply runs_bind. eapply runs_lift; [exact He|]. apply reads_ret. exact Hs.
  - apply reads_ret.
Qed.

Lemma tame_acl vap : 0 <= vap < 4 → acl_readable vap → tame (wlanAclApply (Some f) 0 vap).
Proof.
  intros Hv [es He]. unfold wlanAclApply. eapply tame_read; [rd|]. cbv zeta.
  apply tame_if; intros _; [|tm]. apply tame_bind; [tm|]. intros _.
  eapply tame_read; [rd|]. apply tame_bind; [tm|]. intros _. apply tame_bind; [tm|]. intros _.
  eapply tame_read; [by apply reads_acl|]. apply tame_macs.
Qed.

(** The table of remote bridges has its eight entries. *)
Definition wbr_whole : Prop := (143 <= length (safe a (wlan_key 0 "_remote_bridge_mac")))%nat.

Lemma tame_wds vap : wbr_whole → tame (wlanWdsApply (Some f) 0 vap).
Proof.
  intros Hw. unfold wlanWdsApply. cbv zeta. apply tame_bind; [tm|]. intros _. apply tame_bind; [tm|]. intros _.
  eapply tame_read; [rd|]. apply tame_bind; [tm|]. intros _. eapply tame_read; [rd|].
  apply tame_bind; [|intros _; tm]. apply tame_if; intros _; [tm|]. apply tame_for. intros i Hi.
  assert (Hr : (0 <=? i) && (i <? 8) = true).
  { repeat (apply elem_of_cons in Hi as [->|Hi]; [done|]). by apply not_elem_of_nil in Hi. }
  eapply tame_read; [|tm]. unfold apCfgRemoteWbrMacAddrGet. eapply reads_bind; [rd|]. eapply reads_bind.
  - unfold wbr_table. rewrite decide_True; [apply reads_ret|].
    rewrite length_app. cbn [length]. unfold wbr_whole in Hw. lia.
  - rewrite Hr. apply reads_ret.
Qed.

Lemma tame_maps vapStr vid v : reads vid v → tame (set_maps (Some f) vapStr vid).
Proof.
  intros Hv. unfold set_maps. apply tame_for. intros i _. unfold ADD_d.
  apply tame_bind; [eapply tame_read; [exact Hv|tm]|]. intros _. eapply tame_read; [exact Hv|tm].
Qed.

Lemma tame_dd pre vid v mid post : reads vid v → tame (ADD_dd (Some f) pre vid mid post).
Proof. intros Hv. unfold ADD_dd. do 2 (eapply tame_read; [exact Hv|]). tm. Qed.
Lemma tame_d pre vid v post : reads vid v → tame (ADD_d (Some f) pre vid post).
Proof. intros Hv. unfold ADD_d. eapply tame_read; [exact Hv|]. tm. Qed.

Lemma tame_join vapStr vid v : reads vid v → tame (join_bridge (Some f) vapStr vid).
Proof.
  intros Hv. unfold join_bridge. cbv zeta.
  apply tame_bind; [by eapply tame_d|]. intros _. apply tame_bind; [by eapply tame_dd|]. intros _.
  apply tame_bind; [by eapply tame_dd|]. intros _. apply tame_bind; [by eapply tame_d|]. intros _.
  apply tame_bind; [by eapply tame_dd|]. intros _. apply tame_bind; [by eapply tame_dd|]. intros _.
  eapply tame_read; [rd|]. by eapply tame_d.
Qed.

Lemma fgets_go_length n data : (length (fgets_go n data).2 <= length data)%nat.
Proof.
  revert n. induction data as [|c data IH]; intros [|n]; cbn [fgets_go]; try (cbn; lia).
  case_decide; [cbn; lia|]. specialize (IH n). destruct (fgets_go n data) as [l r]. cbn in *. lia.
Qed.

Lemma fgets_shorter n data line rest : (1 < n)%nat → fgets n data = Some (line, rest) → (length rest < length data)%nat.
Proof.
  intros Hn. unfold fgets. destruct data as [|c data]; [done|].
  destruct n as [|[|n]]; try lia. cbn [Nat.sub fgets_go]. case_decide; [by intros [= _ <-]; cbn; lia|].
  pose proof (fgets_go_length n data) as Hl. destruct (fgets_go n data) as [l r]. cbn [snd] in Hl.
  intros [= _ <-]. cbn. lia.
Qed.

Lemma tame_vlans vapStr pvid v wds fuel fp :
  reads pvid v → (length fp < fuel)%nat → tame (wds_vlans fuel (Some f) vapStr pvid wds fp).
Proof.
  intros Hv. revert fp. induction fuel as [|fuel IH]; intros fp Hf; [lia|]. cbn [wds_vlans].
  destruct (fgets 64 fp) as [[line fp']|] eqn:E; [|tm].
  apply fgets_shorter in E; [|lia].
  apply tame_bind; [apply tame_if; intros _; [eapply tame_read; [exact Hv|tm]|tm]|].
  intros native. apply tame_if; intros _; [apply IH; lia|].
  apply tame_bind; [tm|]. intros _. apply tame_bind; [eapply tame_maps, reads_ret|]. intros _.
  apply tame_bind; [eapply tame_join, reads_ret|]. intros _. apply IH. lia.
Qed.

(** The file of VLANs, when there is one, is not empty. *)
Definition vlan_ok : Prop := inp "/tmp/vlan.conf" ≠ Some [].

Definition shared_vap (bss : Z) : Z := if bss =? WLAN_MAX_VAP then 0 else bss.

Lemma reads_pvid vap : vap_fits vap → reads (apCfgVlanPvidGet 0 vap) (atoi (safe a (vap_key 0 vap "_vid"))).
Proof. intros Hv. rd. Qed.

Lemma tame_bridge bss wds : vlan_ok → vap_fits (shared_vap bss) → tame (wlanBridgeApply (Some f) 0 bss wds).
Proof.
  intros Hvl Hv. unfold wlanBridgeApply. cbv zeta. fold (shared_vap bss). pose proof (reads_pvid _ Hv) as Hp.
  apply tame_read_file; [closed|]. unfold vlan_ok in Hvl. destruct (inp "/tmp/vlan.conf") as [fp|]; [|tm].
  apply tame_bind.
  - apply tame_when. intros _. destruct (fgets 64 fp) as [[line fp1]|] eqn:E.
    2: { destruct fp as [|c fp]; [done|]. unfold fgets in E. by destruct (fgets_go (64 - 1) (c :: fp)). }
    eapply tame_read; [rd|]. eapply tame_read; [exact Hp|]. apply tame_bind; [tm|]. intros _.
    eapply tame_read; [rd|]. apply tame_when. intros _. eapply tame_vlans; [exact Hp|lia].
  - intros _. apply tame_bind; [tm|]. intros own. apply tame_when. intros _.
    apply tame_bind; [by eapply tame_d|]. intros _. apply tame_bind; [eapply tame_d; rd|]. intros _.
    apply tame_bind; [by eapply tame_maps|]. intros _. by eapply tame_join.
Qed.

(** ** Security *)

Lemma reads_wep vap : vap_fits vap →
  reads (wep_key 0 vap) (safe a (vap_key 0 vap "_key" ++ dec (atoi (safe a (vap_key 0 vap "_default_key"))))).
Proof.
  intros Hv. unfold wep_key. eapply reads_bind; [rd|]. apply reads_str; [apply key_ok_wep|]. apply Hv.
Qed.

Lemma ssid_length s : (length (scConversionSSID s) <= 2 * length s)%nat.
Proof.
  induction s as [|c s IH]; [done|]. unfold scConversionSSID in *. cbn [map concat length].
  rewrite length_app. assert (length (ssid_char c) <= 2)%nat by (unfold ssid_char; case_decide; cbn; lia). lia.
Qed.

Lemma reads_ssid vap : vap_fits vap → reads (apCfgSsidGet 0 vap) (safe a (vap_key 0 vap "")).
Proof.
  intros Hv. apply reads_str; [apply key_ok_vap; split; closed|].
  apply Nat.lt_le_trans with 33%nat; [|lia]. apply vap_fit; [done|closed].
Qed.

Lemma tame_essid vap vapStr : vap_fits vap → tame (essid_lines (Some f) 0 vap vapStr).
Proof.
  intros Hv. unfold essid_lines. eapply tame_read; [by apply reads_ssid|].
  eapply tame_read; [apply reads_strcpy|tm].
  pose proof (ssid_length (safe a (vap_key 0 vap ""))).
  pose proof (vap_fit vap "" 33 Hv ltac:(closed)). lia.
Qed.

Lemma tame_wep_key vap vapStr pre : vap_fits vap → tame (wep_key_lines (Some f) 0 vap vapStr pre).
Proof.
  intros Hv. unfold wep_key_lines. eapply tame_read; [rd|]. eapply tame_read; [by apply reads_wep|]. tm.
Qed.

Lemma tame_wep vap vapStr auth log : vap_fits vap → tame (wep_lines (Some f) 0 vap vapStr auth log).
Proof.
  intros Hv. unfold wep_lines. apply tame_bind; [tm|]. intros _. apply tame_bind; [tm|]. intros _.
  eapply tame_read; [rd|]. apply tame_bind; [|intros _; by apply tame_wep_key].
  apply tame_when. intros _. eapply tame_read; [by apply reads_wep|]. apply tame_when. intros _.
  eapply tame_read; [by apply reads_ssid|]. tm.
Qed.

Lemma tame_noap vap : vap_fits 0 → tame (wlanNoApSecurityApply (Some f) 0 vap).
Proof.
  intros Hv. unfold wlanNoApSecurityApply. cbv zeta. apply tame_bind; [by apply tame_essid|]. intros _.
  eapply tame_read; [rd|]. apply tame_bind; [|intros _; tm].
  apply tame_if; intros _; [by apply tame_wep|tm].
Qed.

Lemma tame_fprint p x : p ∈ ps → tame (fprint p x).
Proof. apply tame_append_file. Qed.

Ltac rs :=
  lazymatch goal with
  | |- reads (apCfgSsidGet _ _) _ => apply reads_ssid; assumption
  | _ => rd
  end.

Ltac tf :=
  lazymatch goal with
  | |- tame (fprints _ _) => by apply tame_fprints
  | |- tame (fprint _ _) => by apply tame_fprint
  | |- tame (write_file _ _) => by apply tame_write_file
  | |- tame (fprint_d _ _ _) => unfold fprint_d; tf
  | |- tame (fprint_s _ _ _) => unfold fprint_s; tf
  | |- tame (fprint_br _ _ _) => unfold fprint_br; tf
  | |- tame (mret _) => apply tame_ret
  | |- tame (when _ _) => apply tame_when; intros _; tf
  | |- tame (if _ then _ else _) => apply tame_if; intros _; tf
  | |- tame (mbind _ _) => first [eapply tame_read; [solve [rs]|] | apply tame_bind; [|intros _]]; tf
  end.

Lemma tame_topology vap vapStr :
  vap_fits vap → topology_name vapStr ∈ ps → tame (write_topology 0 vap vapStr).
Proof. intros Hv Hp. unfold write_topology. cbv zeta. tf. Qed.

Lemma tame_common p vapStr : p ∈ ps → tame (conf_common p vapStr).
Proof. intros Hp. unfold conf_common. tf. Qed.

Lemma tame_wpa p vap mode psk : vap_fits vap → p ∈ ps → tame (conf_wpa p 0 vap mode psk).
Proof. intros Hv Hp. unfold conf_wpa, conf_psk, flag_of. tf. Qed.

Lemma tame_server p kind addr x vx y vy z vz :
  p ∈ ps → reads x vx → reads y vy → reads z vz → tame (conf_server p kind addr x y z).
Proof.
  intros Hp Hx Hy Hz. unfold conf_server, fprint_s, fprint_d. apply tame_when. intros _.
  apply tame_bind; [eapply tame_read; [exact Hx|tf]|]. intros _.
  apply tame_bind; [eapply tame_read; [exact Hy|tf]|]. intros _. eapply tame_read; [exact Hz|tf].
Qed.

Lemma tame_radius p vap first : vap_fits vap → p ∈ ps → tame (conf_radius p 0 vap first).
Proof.
  intros Hv Hp. unfold conf_radius. do 4 (eapply tame_read; [rd|]). apply tame_bind; [tf|]. intros _.
  eapply tame_read; [rd|]. apply tame_bind; [tf|]. intros _.
  do 3 (apply tame_bind; [eapply tame_server; [done|rd|rd|rd]|]; intros _).
  eapply tame_server; [done|rd|rd|rd].
Qed.

Lemma tame_dot1x p vap vapStr : vap_fits vap → p ∈ ps → tame (conf_dot1x (Some f) p 0 vap vapStr).
Proof.
  intros Hv Hp. unfold conf_dot1x. eapply tame_read; [rd|]. apply tame_if; intros _; [tf|].
  eapply tame_read; [rd|]. apply tame_when. intros _. apply tame_bind; [by apply tame_wep_key|]. intros _. tf.
Qed.

Lemma tame_wps p vap v : vap_fits vap → p ∈ ps → tame (conf_wps p 0 vap (Some v)).
Proof. intros Hv Hp. unfold conf_wps. tf. Qed.

Lemma tame_hostapd vap vapStr auth v :
  vap_fits vap → hostap_name vapStr ∈ ps → tame (write_hostapd (Some f) 0 vap vapStr auth (Some v)).
Proof.
  intros Hv Hp. unfold write_hostapd. cbv zeta. apply tame_bind; [tf|]. intros _. apply tame_bind; [tf|]. intros _.
  apply tame_bind; [by apply tame_common|]. intros _. destruct (wpa_modes auth) as [[need mode] psk].
  apply tame_bind; [apply tame_when; intros _; by apply tame_wpa|]. intros _.
  eapply tame_read; [rd|]. apply tame_bind; [tf|]. intros _. apply tame_bind.
  - apply tame_if; intros _; [|tf]. apply tame_bind; [by apply tame_radius|]. intros _.
    apply tame_bind; [tf|]. intros _. apply tame_bind; [|intros _; tf].
    apply tame_when. intros _. by apply tame_dot1x.
  - intros _. apply tame_if; intros _; [|tf]. eapply tame_read; [rd|]. apply tame_bind; [tf|]. intros _. by apply tame_wps.
Qed.

Lemma tame_hostapd_open vap vapStr auth v :
  vap_fits vap → hostap_name vapStr ∈ ps → tame (write_hostapd_open 0 vap vapStr auth (Some v)).
Proof.
  intros Hv Hp. unfold write_hostapd_open. cbv zeta. apply tame_bind; [tf|]. intros _.
  apply tame_bind; [by apply tame_common|]. intros _. apply tame_bind; [tf|]. intros _.
  eapply tame_read; [rd|]. apply tame_bind; [apply tame_when; intros _; by apply tame_radius|]. intros _.
  apply tame_bind; [tf|]. intros _. apply tame_bind; [tf|]. intros _. eapply tame_read; [rd|].
  apply tame_bind; [tf|]. intros _. apply tame_if; intros _; [|tf]. eapply tame_read; [rd|].
  apply tame_if; intros _; [tf|]. apply tame_bind; [tf|]. intros _. by apply tame_wps.
Qed.

(** The firmware's version files: four characters and a newline; a short line. *)
Definition version_ok : Prop :=
  ∃ b r x, inp "/etc/fwversion" = Some (b ++ nl :: r) ∧ length b = 4%nat ∧ nul_free b ∧ nl ∉ b ∧
    inp "/etc/extra_version" = Some x ∧ (1 <= length (cut_nul (take 31 x)) <= 20)%nat ∧
    nl ∉ removelast (cut_nul (take 31 x)).

Lemma cut_nul_free b : nul_free b → cut_nul b = b.
Proof.
  unfold cut_nul, nul_free. induction b as [|c b IH]; [done|]. intros H. apply not_elem_of_cons in H as [Hc Hb].
  cbn [span_until]. rewrite decide_False by (intros ->%list_elem_of_singleton; done).
  specialize (IH Hb). destruct (span_until [NUL] b). cbn in *. by rewrite IH.
Qed.

Lemma cut_nul_length l : (length (cut_nul l) <= length l)%nat.
Proof. unfold cut_nul. pose proof (span_until_length [NUL] l) as H. destruct (span_until [NUL] l). cbn in *. lia. Qed.

Lemma cut_nul_in c l : c ∈ cut_nul l → c ∈ l.
Proof.
  unfold cut_nul. induction l as [|d l IH]; [done|]. cbn [span_until]. case_decide; [by intros ?%not_elem_of_nil|].
  destruct (span_until [NUL] l) as [x y]. cbn [fst] in *. rewrite !elem_of_cons. tauto.
Qed.

Lemma version_ext_ok x :
  (1 <= length (cut_nul (take 31 x)) <= 20)%nat → nl ∉ removelast (cut_nul (take 31 x)) →
  ∃ e, version_ext (Some x) = Done e ∧ (length e <= 20)%nat ∧ nl ∉ e.
Proof.
  unfold version_ext. cbn [default from_option id]. set (e := cut_nul (take 31 x)). intros He Hn.
  destruct (rev e) as [|c r] eqn:E.
  { apply (f_equal (@length ascii)) in E. rewrite List.length_rev in E. cbn in E. lia. }
  pose proof (f_equal (@length ascii) E) as Hl. rewrite List.length_rev in Hl. cbn [length] in Hl.
  assert (Her : e = rev r ++ [c]) by (rewrite <- (rev_involutive e), E; done).
  rewrite Her, removelast_last in Hn.
  case_decide as Hc; eexists; (split; [reflexivity|]); (split; [rewrite ?List.length_rev; lia|]); [done|].
  rewrite Her, elem_of_app, list_elem_of_singleton. naive_solver.
Qed.

Lemma says_getVersion : version_ok → says (getVersion 32) (λ v l, (∃ w, v = Some w ∧ nl ∉ w) ∧ l = []).
Proof.
  clear ps_kept Hwlan.
  intros (b & r & x & Hfw & Hb & Hn & Hnl & Hx & Hxl & Hxn).
  destruct b as [|b0 [|b1 [|b2 [|b3 [|? b]]]]]; try discriminate Hb.
  destruct (version_ext_ok x Hxl Hxn) as (e & He & Hel & Hen).
  assert (Hget : fgets 16 ([b0; b1; b2; b3] ++ nl :: r) = Some ([b0; b1; b2; b3] ++ [nl], r)).
  { unfold fgets. rewrite (fgets_go_line 15 [b0; b1; b2; b3] r Hnl ltac:(cbn; lia)
      : fgets_go (16 - 1) ([b0; b1; b2; b3] ++ nl :: r) = _). cbn [app].
    rewrite cut_nul_free; [done|]. change [b0; b1; b2; b3; "010"%char] with ([b0; b1; b2; b3] ++ ["010"%char]).
    rewrite nul_free_app. split; [done|closed]. }
  unfold getVersion. apply says_read_file; [closed|]. rewrite Hfw, Hget. apply says_read_file; [closed|].
  rewrite Hx. eapply says_lift; [exact He|]. do 3 (eapply says_lift; [reflexivity|]). cbv zeta.
  set (b4 := cut_nul [b0; "."%char; b1]).
  assert (Hlen : (length b4 <= 3)%nat) by apply cut_nul_length.
  assert (Hcut : ∀ l, (length (cut_nul l) <= length l)%nat) by apply cut_nul_length.
  assert (Hbs : ∀ l : cstr, (∀ c, c ∈ l → c ∈ [b0; b1; b2; b3] ∨ c = "."%char) → nl ∉ l).
  { intros l Hl Hc. apply Hl in Hc as [Hc|Hc]; [by apply Hnl|done]. }
  assert (H4 : ∀ c, c ∈ b4 → c ∈ [b0; b1; b2; b3] ∨ c = "."%char).
  { intros c Hc%cut_nul_in. set_solver. }
  eapply says_bind with (P := λ x l, (length x <= 9)%nat ∧ nl ∉ x ∧ l = []).
  - destruct (decide (b2 = "0"%char)).
    + eapply says_lift; [reflexivity|]. apply says_ret. split_and!; [|apply Hbs|done].
      * etransitivity; [apply Hcut|]. rewrite length_app. cbn. lia.
      * intros c Hc%cut_nul_in. set_solver.
    + apply says_ret. split_and!; [|apply Hbs; intros c; rewrite elem_of_app, elem_of_cons;
        intros [Hc|[->|Hc%cut_nul_in]]; [by apply H4|by right|cbn in Hc; set_solver]|done].
      rewrite length_app. cbn [length]. pose proof (Hcut (drop 2 (take 4 ([b0; b1; b2; b3] ++ [nl])))) as H.
      cbn in H |- *. lia.
  - intros x' l (Hx' & Hxn' & ->). eapply says_read; [apply reads_strcpy|apply says_ret; split; [eexists; split; [reflexivity|]|done]].
    + destruct e; [lia|]. rewrite length_app. cbn [length] in *. lia.
    + destruct e as [|c e]; [done|]. rewrite elem_of_app, elem_of_cons. intros [?|[?|?]]; done.
Qed.

Lemma says_version {B} (k : option cstr → M sys B) Q :
  version_ok → (∀ v, nl ∉ v → says (k (Some v)) Q) → says (v ← getVersion 32; k v) Q.
Proof. intros Hv Hk. eapply says_bind; [by apply says_getVersion|]. intros v l [(w & -> & Hw) ->]. by apply Hk. Qed.

Lemma tame_hostapd_lines vap vapStr : tame (hostapd_lines (Some f) 0 vap vapStr).
Proof. tm. Qed.

Lemma tame_security vap :
  version_ok → vap_fits vap → topology_name (ath 0 vap) ∈ ps → hostap_name (ath 0 vap) ∈ ps →
  tame (wlanSecurityApply (Some f) 0 vap).
Proof.
  intros Hver Hv Ht Hh. unfold wlanSecurityApply. apply says_version; [done|]. intros v _. cbv zeta.
  eapply tame_read; [rd|]. apply tame_bind; [by apply tame_essid|]. intros _. apply tame_bind; [tm|]. intros _.
  apply tame_bind.
  { apply tame_if; intros _; [by apply tame_wep|]. apply tame_if; intros _; [|tm].
    apply tame_bind; [by apply tame_topology|]. intros _. apply tame_bind; [by apply tame_hostapd|]. intros _.
    apply tame_hostapd_lines. }
  intros _. apply tame_bind; [tm|]. intros racl. apply tame_bind; [|intros _; tm].
  apply tame_when. intros _. apply tame_bind; [by apply tame_topology|]. intros _.
  apply tame_bind; [by apply tame_hostapd_open|]. intros _. apply tame_bind; [apply tame_hostapd_lines|]. intros _.
  apply tame_when. intros _. by apply tame_wep.
Qed.

Definition wsc_name (vap : Z) : cstr := "/tmp/wscdata_" ++ dec 0 ++ dec vap ++ ".bin".

Lemma tame_wsc vap : vap_fits vap → wsc_name vap ∈ ps → tame (wlanCreatWscConfig 0 vap).
Proof.
  intros Hv Hp. unfold wlanCreatWscConfig. eapply tame_read; [by apply reads_ssid|].
  eapply tame_read; [apply reads_strcpy, vap_fit; [done|closed]|]. eapply tame_read; [rd|].
  apply tame_bind; [|intros u; by apply tame_write_file]. unfold wsc_fields, wsc_cipher.
  pose proof (proj2 Hv) as Hk.
  apply tame_if; intros _; [|apply tame_if; intros _; [|apply tame_if; intros _; [|tm]]].
  - eapply tame_read; [rd|]. eapply tame_read; [by apply reads_wep|].
    eapply tame_read; [apply reads_strcpy; eapply Nat.lt_le_trans; [apply Hk|lia]|]. tm.
  - apply tame_bind; [tm|]. intros e. eapply tame_read; [rd|].
    eapply tame_read; [apply reads_strcpy|tm].
    apply Nat.lt_le_trans with 32%nat; [apply vap_fit; [exact Hv|closed]|lia].
  - apply tame_bind; [tm|]. intros e. tm.
Qed.

(** ** The script of the handler *)

Record vap_ready (vap : Z) : Prop := VapReady {
  ready_vap : 0 <= vap < 4;
  ready_fits : vap_fits vap;
  ready_fits0 : vap_fits 0;
  ready_acl : acl_readable vap;
  ready_wbr : wbr_whole;
  ready_vlan : vlan_ok;
  ready_version : version_ok;
  ready_topology : topology_name (ath 0 vap) ∈ ps;
  ready_hostap : hostap_name (ath 0 vap) ∈ ps;
  ready_wsc : wsc_name vap ∈ ps;
}.

Context {board : Board}.

Lemma tame_station : vap_fits 0 → vlan_ok → tame (vap_station f 0).
Proof.
  intros Hv Hvl. unfold vap_station. cbv zeta.
  apply tame_bind; [tm|]. intros _. apply tame_bind; [tm|]. intros _.
  apply tame_bind; [by apply tame_basic|]. intros _. apply tame_bind; [apply tame_advance|]. intros _.
  apply tame_bind; [by apply tame_noap|]. intros _. apply tame_bind; [tm|]. intros _.
  apply tame_bind; [by apply tame_bridge|]. intros _. tm.
Qed.

Lemma tame_vap_bridge vap : vap_ready vap → vap = 0 → tame (vap_bridge f 0 vap).
Proof.
  intros [] ->. unfold vap_bridge.
  apply tame_bind; [tm|]. intros _. apply tame_bind; [tm|]. intros _.
  apply tame_bind; [by apply tame_basic|]. intros _. apply tame_bind; [apply tame_advance|]. intros _.
  apply tame_bind; [by apply tame_wds|]. intros _. apply tame_bind; [by apply tame_noap|]. intros _.
  apply tame_bind; [tm|]. intros _. apply tame_bind; [by apply tame_bridge|]. intros _. tm.
Qed.

Lemma shared_same vap : 0 <= vap < 4 → shared_vap vap = vap.
Proof. intros H. unfold shared_vap, WLAN_MAX_VAP. by rewrite (proj2 (Z.eqb_neq vap 4)) by lia. Qed.

Lemma tame_vap_ap vap wds : vap_ready vap → tame (vap_ap f 0 vap wds).
Proof.
  intros []. unfold vap_ap. cbv zeta.
  apply tame_bind; [tm|]. intros _. apply tame_bind; [by apply tame_basic|]. intros _.
  apply tame_bind; [apply tame_advance|]. intros _. apply tame_bind; [by apply tame_acl|]. intros _.
  apply tame_bind; [apply tame_when; intros _; by apply tame_wds|]. intros _.
  apply tame_bind; [by apply tame_security|]. intros _.
  apply tame_bind; [apply tame_bridge; [done|by rewrite shared_same]|]. intros _.
  apply tame_when. intros _. apply tame_bind; [by apply tame_wsc|]. intros _. tm.
Qed.

(** What stands between the first lines and the last one, for an access point that is
    off or not. *)
Lemma tame_vap_script vap off : vap_ready vap →
  tame (if (off : bool) then ATH_SCRIPT_ADD f ("/etc/ath/ath_VAP_stop " ++ ath 0 vap ++ " destroy")
        else
          ok ← mode_not 0 CFG_OP_MODE_ROGAP;
          when ok (
            modes ← vap_modes 0;
            let '(apmode, wds, sta) := (modes : bool * bool * bool) in
            _ ← vap_remake f 0 vap apmode sta;
            _ ← when ((vap =? 0) && sta) (vap_station f 0);
            _ ← when ((vap =? 0) && wds && negb apmode) (vap_bridge f 0 vap);
            when apmode (vap_ap f 0 vap wds))).
Proof.
  intros Hr. apply tame_if; intros _; [tm|].
  eapply tame_read; [rd|]. apply tame_when. intros _.
  apply tame_bind; [tm|]. intros [[apmode wds] sta].
  apply tame_bind; [tm|]. intros _.
  apply tame_bind; [apply tame_when; intros _; apply tame_station; apply Hr|]. intros _.
  apply tame_bind; [apply tame_when; intros [[Hz _]%andb_true_iff _]%andb_true_iff; apply tame_vap_bridge; [done|lia]|].
  intros _. apply tame_when. intros _. by apply tame_vap_ap.
Qed.

Lemma tame_off vap : tame (orM (v ← apCfgWlanStateGet 0; mret (v =? 0)) (v ← apCfgActiveModeGet 0 vap; mret (v =? 0))).
Proof. eapply tame_reads. rd. Qed.

(** A tame step in a run from [s0]. *)
Lemma runs_tame {A B} (m : M sys A) (k : A → M sys B) s0 s Q :
  tame m → holds s ∧ (∃ ls, adds ls s0 s) →
  (∀ r s', holds s' ∧ (∃ ls, adds ls s0 s') → runs (k r) s' Q) → runs (m ≫= k) s Q.
Proof.
  intros Hm [Hs [l1 H1]] Hk. apply runs_bind. use_runs (Hm s Hs). intros r s' (Hs' & l2 & _ & H2).
  apply Hk. split; [done|]. exists (l1 ++ l2). by eapply adds_trans.
Qed.
End says.

(** The answer of a getter, outside the section: its buffer is large enough by what is
    known of the configuration. *)
Ltac reads_fit :=
  first [ apply vap_fit; [assumption|closed] | apply wlan_fit; [assumption|closed] | assumption ].
Ltac reads_getter :=
  cbv beta zeta;
  lazymatch goal with
  | |- reads _ (mret _) _ => apply reads_ret
  | |- reads _ (CfgStore.nvram_safe_get _) _ => apply reads_safe; cfg_key
  | |- reads _ (CfgStore.nvram_get _) _ => apply reads_get; cfg_key
  | |- reads _ (get_bool _) _ => apply reads_bool; cfg_key
  | |- reads _ (get_int _) _ => apply reads_int; cfg_key
  | |- reads _ (get_int_buf _ _) _ => apply reads_int_buf; [cfg_key|reads_fit]
  | |- reads _ (apCfgSsidGet _ _) _ => apply reads_ssid; assumption
  | |- reads _ (get_str _ _) _ => apply reads_str; [cfg_key|reads_fit]
  | |- reads _ (mbind _ _) _ => eapply reads_bind; reads_getter
  | |- reads _ ?m _ => unfold_head m; reads_getter
  end.
