(* ===== verification/WifiConf.v ===== *)
(** * What the files of hostapd say

    The settings of the configuration file of hostapd that decide who may join:
    the SSID, WPA, the key management, the passphrase and 802.1X.  [sets m X]:
    the lines that [m] adds to the file hold exactly the settings [X], in order. *)

From S2P Require Import Prelude CLib Inet Utility FileSys Nvram NvramSpec NvramCorrect Scfg CfgStore ApCfgSys ApCfgWlan ApCfgLists CfgRefine AplFlag CfgImpl Apply WifiScript WifiSecurity WifiStart WifiCorrect.

(** ** Settings *)

Definition join_keys : list cstr :=
  ["ssid" : cstr; "wpa" : cstr; "wpa_key_mgmt" : cstr; "wpa_passphrase" : cstr; "wpa_psk" : cstr;
   "wpa_pairwise" : cstr; "ieee8021x" : cstr].

Definition setting (l : cstr) : option (cstr * cstr) :=
  let '(k, r) := span_until ["="%char] l in
  if bool_decide (k ∈ join_keys) then Some (k, tail r) else None.
Definition settings (ls : list cstr) : list (cstr * cstr) := omap setting ls.

Lemma settings_app l1 l2 : settings (l1 ++ l2) = settings l1 ++ settings l2.
Proof. apply omap_app. Qed.

(** Lines are whole: none holds a newline. *)
Definition clean (l : cstr) : Prop := nl ∉ l.
#[global] Instance clean_dec l : Decision (clean l).
Proof. unfold clean. apply _. Defined.

Lemma clean_app x y : clean x → clean y → clean (x ++ y).
Proof. unfold clean. rewrite elem_of_app. tauto. Qed.

Lemma clean_dec_text v : clean (dec v).
Proof. intros [H|H]%dec_chars; discriminate H. Qed.

Lemma clean_ath vap : clean (ath 0 vap).
Proof. apply clean_app; [closed|]. apply clean_app; apply clean_dec_text. Qed.

Lemma clean_inet v : clean (inet_ntoa v).
Proof.
  unfold inet_ntoa. repeat (apply clean_app; [apply clean_dec_text|]; apply (clean_app [_]); [closed|]).
  apply clean_dec_text.
Qed.

(** Lines made of constant text, numbers and values that are known to be clean. *)
Ltac clean_line :=
  lazymatch goal with
  | |- clean (_ ++ _) => apply clean_app; clean_line
  | |- clean (dec _) => apply clean_dec_text
  | |- clean (ath 0 _) => apply clean_ath
  | |- clean (inet_ntoa _) => apply clean_inet
  | |- clean (if _ then _ else _) => case_match; clean_line
  | |- clean _ => first [assumption | match goal with H : ∀ k, clean _ |- _ => apply H end | closed]
  end.
#[global] Hint Extern 0 (clean _) => clean_line : core.
#[global] Hint Extern 0 (Forall clean _) => (repeat (apply List.Forall_cons; [clean_line|]); apply List.Forall_nil) : core.

Section sets.
Context {heap : Heap} {dev : FlashDev} {shell : Shell}.
Variable stack : Z.
#[local] Hint Extern 0 (CfgStore sys) => exact (sys_store stack) : typeclass_instances.
Variables (a : cfg) (f : cstr) (ps : list cstr) (inp : cstr → option bytes) (script : cstr).
Hypothesis f_kept : kept f.
Hypothesis ps_kept : Forall (λ p, kept p ∧ p ≠ f) ps.
Hypothesis script_in : script ∈ ps.

Definition sets {A} (m : M sys A) (X : list (cstr * cstr)) : Prop :=
  says a f ps inp m (λ _ ls, settings ls = X ∧ Forall clean ls).

Lemma sets_ret {A} (x : A) : sets (mret x) [].
Proof. by apply says_ret. Qed.
Lemma sets_bind {A B} (m : M sys A) (k : A → M sys B) X Y Z :
  sets m X → (∀ r, sets (k r) Y) → Z = X ++ Y → sets (m ≫= k) Z.
Proof.
  intros Hm Hk ->. eapply says_bind; [exact Hm|]. intros r l1 H1.
  eapply says_mono; [apply Hk|]. intros w l2 H2. cbv beta in *. destruct H1 as [H1 C1], H2 as [H2 C2].
  rewrite settings_app, H1, H2. split; [done|by apply Forall_app].
Qed.
Lemma sets_bind0 {A B} (m : M sys A) (k : A → M sys B) Y :
  sets m [] → (∀ r, sets (k r) Y) → sets (m ≫= k) Y.
Proof. intros Hm Hk. by eapply sets_bind. Qed.
Lemma sets_read {A B} (m : M sys A) v (k : A → M sys B) X : reads a m v → sets (k v) X → sets (m ≫= k) X.
Proof. by apply says_read. Qed.
Lemma sets_fprint l X : settings [l] = X → clean l → sets (fprint f l) X.
Proof. intros H Hc. apply (says_append a f ps inp f_kept l). split; [done|by repeat constructor]. Qed.
Lemma sets_fprints ls X : settings ls = X → Forall clean ls → sets (fprints f ls) X.
Proof.
  revert X. induction ls as [|l ls IH]; intros X <- Hc; [apply sets_ret|]. cbn [fprints].
  apply List.Forall_cons_iff in Hc as [Hl Hc].
  apply (sets_bind _ _ (settings [l]) (settings ls)); [by apply sets_fprint|intros _; by apply IH|].
  by rewrite <- settings_app.
Qed.
Lemma sets_script l : sets (SCRIPT_ADD (Some script) l) [].
Proof. by apply (says_set a f ps inp ps_kept script (λ s, default [] (files s !! script) ++ (l ++ [nl]))). Qed.
Lemma sets_append_other p x : p ∈ ps → sets (append_file p x) [].
Proof. intros Hp. by apply (says_set a f ps inp ps_kept p (λ s, default [] (files s !! p) ++ x)). Qed.
Lemma sets_write_other p x : p ∈ ps → sets (write_file p x) [].
Proof. intros Hp. by apply (says_set a f ps inp ps_kept p (λ _, x)). Qed.
Lemma sets_when b (m : M sys ()) X : (b = true → sets m X) → sets (when b m) (if b then X else []).
Proof. intros H. unfold when. destruct b; [by apply H|apply sets_ret]. Qed.
Lemma sets_when0 b (m : M sys ()) : sets m [] → sets (when b m) [].
Proof. intros H. unfold when. destruct b; [done|apply sets_ret]. Qed.
Lemma sets_if {A} (b : bool) (m1 m2 : M sys A) X :
  (b = true → sets m1 X) → (b = false → sets m2 X) → sets (if b then m1 else m2) X.
Proof. destruct b; auto. Qed.
Lemma sets_eq {A} (m : M sys A) X Y : sets m X → X = Y → sets m Y.
Proof. by intros H <-. Qed.

Lemma sets_fprint_d pre m v X : reads a m v → settings [pre ++ dec v] = X → clean pre → sets (fprint_d f pre m) X.
Proof. intros Hm HX Hp. eapply sets_read; [exact Hm|]. by apply sets_fprint. Qed.
Lemma sets_fprint_s pre m v X :
  reads a m v → settings [pre ++ v] = X → clean pre → clean v → sets (fprint_s f pre m) X.
Proof. intros Hm HX Hp Hv. eapply sets_read; [exact Hm|]. by apply sets_fprint. Qed.

(** ** The parts of the file *)

Hypothesis Hclean : ∀ k, clean (safe a k).

Hypothesis Hwlan : wlan_fits a.
Variable vap : Z.
Hypothesis Hfit : vap_fits a vap.

Lemma sets_br pre m v : reads a m v → setting (pre ++ "br0") = None → setting (pre ++ "br" ++ dec v) = None →
  clean pre → sets (fprint_br f pre m) [].
Proof.
  intros Hm H0 Hv Hp. unfold fprint_br. eapply sets_read; [apply reads_bool; cfg_key|].
  apply sets_if; intros _; [apply sets_fprint; [unfold settings; cbn [omap list_omap]; by rewrite H0|auto]|].
  eapply sets_fprint_d; [exact Hm| |auto]. unfold settings. cbn [omap list_omap]. by rewrite <- app_assoc, Hv.
Qed.

Lemma sets_common vapStr : clean vapStr → sets (conf_common f vapStr) [].
Proof.
  intros Hs. unfold conf_common. apply sets_bind0; [by apply sets_fprints|]. intros _.
  apply sets_bind0; [by apply sets_fprint|]. intros _. apply sets_bind0; [by apply sets_fprint|]. intros _.
  eapply sets_br; [apply reads_int; cfg_key|done|done|auto].
Qed.

(** A step that only adds to the script. *)
Lemma tame_sets {A} (m : M sys A) ps' :
  tame a script ps' inp m → f ∉ ps' → (∀ p, p ∈ ps' → p ∈ ps) → sets m [].
Proof.
  intros Hm Hf Hin s Hs. use_runs (Hm s Hs). intros r s' (Hs' & ls & _ & Hfl & Hc & _ & Hfr).
  rewrite Forall_forall in ps_kept. destruct (ps_kept script script_in) as [_ Hne].
  split; [done|]. exists []. split; [done|]. split_and!; [done|done| |].
  - rewrite Hfr; [by rewrite app_nil_r|done|done|]. intros E. destruct f_kept as [H _]. apply H. rewrite E. left.
  - intros p H1 H2 H3. apply Hfr; [by intros ->|intros Hp; by apply H2, Hin|done].
Qed.

(** The keys of WPA, and what else it says. *)
Definition psk_settings (psk : bool) : list (cstr * cstr) :=
  if psk then [("wpa_passphrase" : cstr, safe a (vap_key 0 vap "_passphrase")); ("wpa_key_mgmt" : cstr, "WPA-PSK" : cstr)]
  else [("wpa_key_mgmt" : cstr, "WPA-EAP" : cstr)].
Definition wpa_settings (wpaMode : Z) (psk : bool) : list (cstr * cstr) :=
  let c := code_of cipher_names WPA_CIPHER_AUTO (safe a (vap_key 0 vap "_wpa_cipher")) in
  [("wpa" : cstr, dec wpaMode)] ++
  psk_settings psk ++
  [("wpa_pairwise" : cstr,
    if c =? WPA_CIPHER_TKIP then "TKIP" : cstr else if c =? WPA_CIPHER_AES then "CCMP" : cstr else "TKIP CCMP" : cstr)].

Lemma sets_psk : sets (conf_psk f 0 vap) (psk_settings true).
Proof.
  unfold conf_psk. eapply sets_read; [reads_getter|]. apply sets_bind0.
  { apply sets_when0. eapply sets_read; [reads_getter|]. apply sets_ret. }
  intros _. eapply sets_read; [reads_getter|].
  pose proof (vap_fit a vap "_passphrase" 32 Hfit ltac:(closed)) as Hl.
  rewrite (proj2 (Z.ltb_lt _ 64)) by lia. eapply sets_bind; [|intros _; by apply sets_fprint|].
  - eapply sets_fprint_s; [reads_getter|reflexivity|auto..].
  - reflexivity.
Qed.

Lemma sets_wpa wpaMode psk : sets (conf_wpa f 0 vap wpaMode psk) (wpa_settings wpaMode psk).
Proof.
  unfold conf_wpa, wpa_settings. cbv zeta. set (c := code_of _ _ _).
  eapply sets_bind; [by apply sets_fprint| |reflexivity]. intros _.
  eapply (sets_bind _ _ (psk_settings psk)); [destruct psk; [apply sets_psk|by apply sets_fprint]| |reflexivity].
  intros _.
  eapply sets_read; [reads_getter|]. fold c.
  eapply (sets_bind _ _ [_] []); [| |by rewrite app_nil_r].
  { destruct (c =? WPA_CIPHER_TKIP); [by apply sets_fprint|]. eapply sets_read; [reads_getter|]. fold c.
    destruct (c =? WPA_CIPHER_AES); by apply sets_fprint. }
  intros _. eapply sets_read; [reads_getter|]. apply sets_bind0.
  { apply sets_if; intros _; [by apply sets_fprint|]. eapply sets_fprint_d; [reads_getter|reflexivity|auto..]. }
  intros _. apply sets_bind0; [eapply sets_fprint_d; [reads_getter|reflexivity|auto..]|]. intros _.
  apply sets_bind0; [by apply sets_fprint|]. intros _. apply sets_when0.
  apply sets_bind0; [by apply sets_fprint|]. intros _. eapply sets_br; [reads_getter|done|done|auto].
Qed.

Lemma sets_server kind addr x vx y vy z vz :
  reads a x vx → reads a y vy → reads a z vz → clean vx → clean vz → kind = ("auth" : cstr) ∨ kind = ("acct" : cstr) →
  sets (conf_server f kind addr x y z) [].
Proof.
  intros Hx Hy Hz Cx Cz Hk. unfold conf_server. apply sets_when0.
  apply sets_bind0; [eapply sets_fprint_s; [exact Hx|by destruct Hk as [-> | ->]..]|]. intros _.
  apply sets_bind0; [eapply sets_fprint_d; [exact Hy|by destruct Hk as [-> | ->]..]|]. intros _.
  eapply sets_fprint_s; [exact Hz|by destruct Hk as [-> | ->]..].
Qed.

Lemma sets_radius first : settings first = [] → Forall clean first → sets (conf_radius f 0 vap first) [].
Proof.
  intros Hfirst Cfirst. unfold conf_radius. do 4 (eapply sets_read; [reads_getter|]).
  apply sets_bind0; [by apply sets_fprints|]. intros _. eapply sets_read; [reads_getter|].
  apply sets_bind0; [by apply sets_fprint|]. intros _.
  do 3 (apply sets_bind0; [eapply sets_server; [reads_getter|reads_getter|reads_getter|auto..]|]; intros _).
  eapply sets_server; [reads_getter|reads_getter|reads_getter|auto..].
Qed.

Lemma sets_wps v : clean v → sets (conf_wps f 0 vap (Some v)) [].
Proof.
  intros Hver. unfold conf_wps. apply sets_bind0; [by apply sets_fprints|]. intros _.
  eapply sets_read; [reads_getter|]. apply sets_bind0; [case_match; by apply sets_fprint|]. intros _.
  eapply sets_read; [reads_getter|]. apply sets_bind0; [case_match; by apply sets_fprint|]. intros _.
  apply sets_bind0; [by apply sets_fprints|]. intros _. apply sets_bind0; [by apply sets_fprint|]. intros _.
  apply sets_bind0; [by apply sets_fprints|]. intros _. eapply sets_read; [reads_getter|].
  apply sets_bind0; [by apply sets_fprint|]. intros _. apply sets_bind0; [by apply sets_fprint|]. intros _.
  apply sets_bind0; [eapply sets_fprint_s; [reads_getter|reflexivity|auto..]|]. intros _. by apply sets_fprints.
Qed.

Lemma no_other (p : cstr) : p ∉ ([] : list cstr).
Proof. apply not_elem_of_nil. Qed.

Lemma script_kept : kept script.
Proof. rewrite Forall_forall in ps_kept. by apply ps_kept. Qed.

Lemma sets_dot1x vapStr : sets (conf_dot1x (Some script) f 0 vap vapStr) [].
Proof.
  unfold conf_dot1x. eapply sets_read; [reads_getter|]. apply sets_if; intros _.
  - apply sets_bind0; [eapply sets_fprint_d; [reads_getter|reflexivity|auto..]|]. intros _.
    apply sets_bind0; [eapply sets_fprint_d; [reads_getter|reflexivity|auto..]|]. intros _. by apply sets_fprint.
  - eapply sets_read; [reads_getter|]. apply sets_when0. apply sets_bind0; [|intros _; by apply sets_fprints].
    apply (tame_sets _ []); [|apply no_other|by intros p ?%not_elem_of_nil].
    apply (tame_wep_key stack); [apply script_kept|done].
Qed.

(** ** The files *)

Definition ssid_setting : cstr * cstr := ("ssid" : cstr, safe a (vap_key 0 vap "")).
Definition radius_acl : bool := code_of acl_mode_names APCFG_ACL_DISABLED (safe a (vap_key 0 vap "_access_control")) =? APCFG_ACL_RADIUS.
Definition dot1x_setting (b : bool) : list (cstr * cstr) := if b then [("ieee8021x" : cstr, "1" : cstr)] else [].

(** What the file with WPA or 802.1X says behind its first, emptying write. *)
Lemma sets_hostapd vapStr auth v : clean vapStr → clean v →
  sets (_ ← fprint_s f "ssid=" (apCfgSsidGet 0 vap);
        _ ← conf_common f vapStr;
        let '(needRadius, wpaMode, psk) := wpa_modes auth in
        _ ← when (negb (wpaMode =? -1)) (conf_wpa f 0 vap wpaMode psk);
        acl ← apCfgAclModeGet 0 vap;
        _ ← when (acl =? APCFG_ACL_RADIUS) (fprint f "macaddr_acl=2");
        let needRadius := needRadius || (acl =? APCFG_ACL_RADIUS) in
        _ ← (if (needRadius : bool) then
               _ ← conf_radius f 0 vap [];
               _ ← fprint f "ieee8021x=1";
               _ ← when (wpaMode =? -1) (conf_dot1x (Some script) f 0 vap vapStr);
               fprint f "eap_reauth_period=0"
             else fprints f conf_no_radius);
        if (0 =? 0) && (vap =? 0) && negb needRadius then
          wps ← apCfgWpsModeGet 0;
          _ ← fprints f (if wps =? 0 then conf_no_wps else texts ["wps_disable=0"; "wps_upnp_disable=0"]);
          conf_wps f 0 vap (Some v)
        else fprints f conf_no_wps)
    (let '(needRadius, wpaMode, psk) := wpa_modes auth in
     [ssid_setting] ++ (if negb (wpaMode =? -1) then wpa_settings wpaMode psk else []) ++
     dot1x_setting (needRadius || radius_acl)).
Proof.
  intros Hs Hver. destruct (wpa_modes auth) as [[need mode] psk].
  eapply sets_bind; [eapply sets_fprint_s; [reads_getter|reflexivity|auto..]| |reflexivity]. intros _.
  apply sets_bind0; [by apply sets_common|]. intros _.
  eapply sets_bind; [apply sets_when; intros _; apply sets_wpa| |reflexivity]. intros _.
  eapply sets_read; [reads_getter|]. fold radius_acl. cbv zeta.
  apply sets_bind0; [apply sets_when0; by apply sets_fprint|]. intros _.
  eapply (sets_bind _ _ (dot1x_setting (need || radius_acl)) []); [| |by rewrite app_nil_r].
  - destruct (need || radius_acl); [|by apply sets_fprints].
    apply sets_bind0; [by apply sets_radius|]. intros _.
    eapply sets_bind; [by apply sets_fprint| |reflexivity]. intros _.
    apply sets_bind0; [apply sets_when0, sets_dot1x|]. intros _. by apply sets_fprint.
  - intros _. apply sets_if; intros _; [|by apply sets_fprints]. eapply sets_read; [reads_getter|].
    apply sets_bind0; [case_match; by apply sets_fprints|]. intros _. by apply sets_wps.
Qed.

(** The same for the file without WPA. *)
Lemma sets_open vapStr auth v : clean vapStr → clean v →
  sets (_ ← conf_common f vapStr;
        _ ← fprint_s f "ssid=" (apCfgSsidGet 0 vap);
        acl ← apCfgAclModeGet 0 vap;
        _ ← when (acl =? APCFG_ACL_RADIUS) (conf_radius f 0 vap (texts ["macaddr_acl=2"]));
        _ ← fprint f (if auth =? APCFG_AUTH_OPEN_SYSTEM then "auth_algs=1"
                      else if auth =? APCFG_AUTH_SHARED_KEY then "auth_algs=2"
                      else if auth =? APCFG_AUTH_AUTO then "auth_algs=3" else "auth_algs=1");
        _ ← fprint f "wpa=0";
        acl ← apCfgAclModeGet 0 vap;
        _ ← (if acl =? APCFG_ACL_RADIUS then fprint f "ieee8021x=1" else fprints f conf_no_radius);
        if (0 =? 0) && (vap =? 0) then
          off ← orM (acl ← apCfgAclModeGet 0 vap; mret (acl =? APCFG_ACL_RADIUS))
                    (wps ← apCfgWpsModeGet 0; mret (wps =? 0));
          if (off : bool) then fprints f conf_no_wps
          else
            _ ← fprints f (texts ["wps_disable=0"; "wps_upnp_disable=0"]);
            conf_wps f 0 vap (Some v)
        else fprints f conf_no_wps)
    ([ssid_setting] ++ [("wpa" : cstr, "0" : cstr)] ++ dot1x_setting radius_acl).
Proof.
  intros Hs Hver. apply sets_bind0; [by apply sets_common|]. intros _.
  eapply sets_bind; [eapply sets_fprint_s; [reads_getter|reflexivity|auto..]| |reflexivity]. intros _.
  eapply sets_read; [reads_getter|]. apply sets_bind0; [by apply sets_when0, sets_radius|]. intros _.
  apply sets_bind0; [apply sets_fprint; by repeat case_match|]. intros _.
  eapply sets_bind; [by apply sets_fprint| |reflexivity]. intros _.
  eapply sets_read; [reads_getter|]. fold radius_acl.
  eapply (sets_bind _ _ (dot1x_setting radius_acl) []); [| |by rewrite app_nil_r].
  { destruct radius_acl; [by apply sets_fprint|by apply sets_fprints]. }
  intros _. apply sets_if; intros _; [|by apply sets_fprints].
  eapply sets_read; [eapply reads_orM; reads_getter|]. apply sets_if; intros _; [by apply sets_fprints|].
  apply sets_bind0; [by apply sets_fprints|]. intros _. by apply sets_wps.
Qed.

(** The file holds whole lines with the settings [X]. *)
Definition said (X : list (cstr * cstr)) (s : sys) : Prop :=
  holds a inp s ∧ ∃ ls, files s !! f = Some (text ls) ∧ settings ls = X ∧ Forall clean ls.

Lemma text_nonempty ls : ls ≠ [] → text ls ≠ [].
Proof. destruct ls as [|l ls]; [done|]. intros _. unfold text. cbn. by destruct l. Qed.

(** Emptied and written again. *)
Lemma said_written {A} (m : M sys A) X s :
  sets m X → X ≠ [] → holds a inp s → runs (_ ← write_file f []; m) s (λ _ s', said X s').
Proof.
  intros Hm HX Hs. apply runs_bind, runs_mod. use_runs (Hm (set_files (<[f:=[]]> (files s)) s)); [by apply holds_set|].
  intros r s' (Hs' & ls & [Hls Hc] & _ & _ & Ht & _). split; [done|]. exists ls. split; [|done].
  cbn [files set_files] in Ht. rewrite lookup_insert_eq in Ht. cbn [default from_option id app] in Ht.
  destruct (files s' !! f) as [x|]; [cbn in Ht; by rewrite Ht|]. cbn in Ht. symmetry in Ht.
  exfalso. apply (text_nonempty ls); [|done]. intros ->. by apply HX.
Qed.

(** Nothing more is said. *)
Lemma said_kept {A} (m : M sys A) X s : X ≠ [] → sets m [] → said X s → runs m s (λ _ s', said X s').
Proof.
  intros HX Hm (Hs & ls & Hf & Hls & Hc). use_runs (Hm s Hs). intros r s' (Hs' & l2 & [H2 C2] & _ & _ & Ht & _).
  split; [done|]. exists (ls ++ l2). split; [|split; [by rewrite settings_app, H2, app_nil_r|by apply Forall_app]].
  rewrite Hf in Ht. cbn [default from_option id] in Ht. rewrite <- text_app in Ht.
  destruct (files s' !! f) as [x|]; cbn in Ht; [by rewrite Ht|]. symmetry in Ht.
  exfalso. apply (text_nonempty (ls ++ l2)); [|done]. intros [-> _]%app_nil. by apply HX.
Qed.

Lemma said_bind {A B} (m : M sys A) (k : A → M sys B) X s :
  X ≠ [] → runs m s (λ _ s', said X s') → (∀ r, sets (k r) []) → runs (m ≫= k) s (λ _ s', said X s').
Proof. intros HX Hm Hk. apply runs_bind. use_runs Hm. intros r s' Hs'. by apply said_kept. Qed.

Lemma sets_runs {A B} (m : M sys A) (k : A → M sys B) X s Q :
  sets m X → holds a inp s → (∀ r s', holds a inp s' → runs (k r) s' Q) → runs (m ≫= k) s Q.
Proof. intros Hm Hs Hk. apply runs_bind. use_runs (Hm s Hs). intros r s' [Hs' _]. by apply Hk. Qed.

(** ** Setting up the security of an access point *)

Hypothesis f_name : f = hostap_name (ath 0 vap).
Hypothesis topology_in : topology_name (ath 0 vap) ∈ ps.
Hypothesis topology_ne : topology_name (ath 0 vap) ≠ script.
Hypothesis Hversion : version_ok inp.

Lemma sets_tame {A} (m : M sys A) : tame a script [topology_name (ath 0 vap)] inp m → sets m [].
Proof.
  intros Hm. apply (tame_sets m [topology_name (ath 0 vap)] Hm).
  - intros E%list_elem_of_singleton. rewrite f_name in E. done.
  - by intros p ->%list_elem_of_singleton.
Qed.

Lemma topology_others : Forall (λ p, kept p ∧ p ≠ script) [topology_name (ath 0 vap)].
Proof.
  apply List.Forall_cons; [|apply List.Forall_nil]. split; [|done].
  rewrite Forall_forall in ps_kept. by apply ps_kept.
Qed.

Lemma sets_topology : sets (write_topology 0 vap (ath 0 vap)) [].
Proof. apply sets_tame. apply (tame_topology stack); [apply script_kept|apply topology_others|done|left]. Qed.
Lemma sets_hostapd_lines : sets (hostapd_lines (Some script) 0 vap (ath 0 vap)) [].
Proof. apply sets_tame. apply tame_hostapd_lines. apply script_kept. Qed.
Lemma sets_wep auth log : sets (wep_lines (Some script) 0 vap (ath 0 vap) auth log) [].
Proof. apply sets_tame. apply (tame_wep stack); [apply script_kept|done]. Qed.
Lemma sets_essid : sets (essid_lines (Some script) 0 vap (ath 0 vap)) [].
Proof. apply sets_tame. apply (tame_essid stack); [apply script_kept|done]. Qed.


Definition auth_type : Z := code_of auth_names APCFG_AUTH_NONE (safe a (vap_key 0 vap "_auth_mode")).

(** The access points whose authenticator is hostapd. *)
Definition with_hostapd : bool := (APCFG_AUTH_WPA <=? auth_type) || (vap =? 0) || radius_acl.

Definition join_settings : list (cstr * cstr) :=
  if auth_type <=? APCFG_AUTH_AUTO
  then [ssid_setting] ++ [("wpa" : cstr, "0" : cstr)] ++ dot1x_setting radius_acl
  else
    let '(needRadius, wpaMode, psk) := wpa_modes auth_type in
    [ssid_setting] ++ (if negb (wpaMode =? -1) then wpa_settings wpaMode psk else []) ++
    dot1x_setting (needRadius || radius_acl).

Lemma join_nonempty : join_settings ≠ [].
Proof. unfold join_settings. destruct (_ <=? _); [done|]. by destruct (wpa_modes auth_type) as [[? ?] ?]. Qed.

Lemma auth_range : 0 <= auth_type <= 10.
Proof.
  unfold auth_type, code_of. destruct (find _ auth_names) as [e|] eqn:E; [|by split].
  apply find_some in E as [Hin _]. revert e Hin.
  assert (H : Forall (λ e : Z * cstr, 0 <= e.1 <= 10) auth_names) by closed.
  rewrite List.Forall_forall in H. exact H.
Qed.

Lemma hostapd_said v s :
  clean v → holds a inp s → (auth_type <=? APCFG_AUTH_AUTO) = false →
  runs (write_hostapd (Some script) 0 vap (ath 0 vap) auth_type (Some v)) s (λ _ s', said join_settings s').
Proof.
  intros Hver Hs Hauth. unfold write_hostapd. cbv zeta. rewrite <- f_name.
  apply said_written; [|apply join_nonempty|done]. unfold join_settings. rewrite Hauth. apply sets_hostapd; auto.
Qed.

Lemma open_said v s :
  clean v → holds a inp s → (auth_type <=? APCFG_AUTH_AUTO) = true →
  runs (write_hostapd_open 0 vap (ath 0 vap) auth_type (Some v)) s (λ _ s', said join_settings s').
Proof.
  intros Hver Hs Hauth. unfold write_hostapd_open. cbv zeta. rewrite <- f_name.
  apply said_written; [|apply join_nonempty|done]. unfold join_settings. rewrite Hauth. apply sets_open; auto.
Qed.

Lemma said_read {A B} (m : M sys A) v (k : A → M sys B) s Q :
  reads a m v → holds a inp s → (∀ s', holds a inp s' → runs (k v) s' Q) → runs (m ≫= k) s Q.
Proof.
  intros Hm Hs Hk. apply runs_bind. use_runs (Hm s (proj1 Hs)). intros r s' (-> & Hr & Hf).
  by apply Hk, (holds_frame a inp s).
Qed.

(** With WPA or 802.1X the file is written first, else it may be written second. *)
Lemma wpa_branch v s :
  clean v → holds a inp s → (auth_type <=? APCFG_AUTH_AUTO) = false →
  runs (_ ← write_topology 0 vap (ath 0 vap);
        _ ← write_hostapd (Some script) 0 vap (ath 0 vap) auth_type (Some v);
        hostapd_lines (Some script) 0 vap (ath 0 vap)) s (λ _ s', said join_settings s').
Proof.
  intros Hver Hs Ha. eapply sets_runs; [apply sets_topology|done|]. intros _ s1 H1.
  apply said_bind; [apply join_nonempty|by apply hostapd_said|]. intros _. apply sets_hostapd_lines.
Qed.

Lemma open_branch v s :
  clean v → holds a inp s → (auth_type <=? APCFG_AUTH_AUTO) = true →
  runs (_ ← write_topology 0 vap (ath 0 vap);
        _ ← write_hostapd_open 0 vap (ath 0 vap) auth_type (Some v);
        _ ← hostapd_lines (Some script) 0 vap (ath 0 vap);
        when (Zdiffer auth_type APCFG_AUTH_NONE) (wep_lines (Some script) 0 vap (ath 0 vap) auth_type false)) s
    (λ _ s', said join_settings s').
Proof.
  intros Hver Hs Ha. eapply sets_runs; [apply sets_topology|done|]. intros _ s1 H1.
  apply said_bind; [apply join_nonempty|by apply open_said|]. intros _.
  apply sets_bind0; [apply sets_hostapd_lines|]. intros _. apply sets_when0, sets_wep.
Qed.

Lemma security_said s :
  holds a inp s → with_hostapd = true →
  runs (wlanSecurityApply (Some script) 0 vap) s (λ _ s', said join_settings s').
Proof.
  intros Hs Hw. unfold wlanSecurityApply. pose proof auth_range as Hrange. pose proof join_nonempty as HX.
  apply runs_bind. use_runs (says_getVersion a f ps inp f_kept Hversion s Hs). intros r s1 (Hs1 & _ & [(v & -> & Hv) _] & _).
  cbv zeta. eapply said_read; [reads_getter|exact Hs1|]. intros s2 H2. fold auth_type.
  eapply sets_runs; [apply sets_essid|exact H2|]. intros _ s3 H3.
  eapply sets_runs; [unfold ADD_d; eapply sets_read; [reads_getter|apply sets_script]|exact H3|]. intros _ s4 H4.
  destruct (auth_type <=? APCFG_AUTH_AUTO) eqn:Ha.
  - eapply sets_runs; [|exact H4|].
    { apply sets_if; intros _; [apply sets_wep|]. apply sets_if; [|intros _].
      - intros [Hx _]%andb_true_iff. unfold APCFG_AUTH_AUTO, APCFG_AUTH_WPA in *. lia.
      - unfold open_lines. do 2 (apply sets_bind0; [apply sets_script|intros _]). apply sets_script. }
    intros _ s5 H5. eapply said_read with (v := true); [|exact H5|].
    { destruct (vap =? 0) eqn:H0; [apply reads_ret|]. eapply reads_eq; [reads_getter|].
      unfold with_hostapd, APCFG_AUTH_WPA, APCFG_AUTH_AUTO in *. rewrite H0 in Hw.
      rewrite (proj2 (Z.leb_gt 4 auth_type)) in Hw by lia. exact Hw. }
    intros s6 H6. apply said_bind; [done|by apply open_branch|]. intros _. apply sets_script.
  - rewrite (proj2 (Z.eqb_neq _ _)), (proj2 (Z.eqb_neq _ _)), (proj2 (Z.eqb_neq _ _)), (proj2 (Z.leb_le _ _)),
      (proj2 (Z.leb_le _ _))
      by (unfold APCFG_AUTH_AUTO, APCFG_AUTH_SHARED_KEY, APCFG_AUTH_OPEN_SYSTEM, APCFG_AUTH_WPA, APCFG_AUTH_DOT1X in *; lia).
    cbn [orb andb]. apply said_bind; [done|by apply wpa_branch|]. intros _.
    eapply sets_read; [apply reads_ret|]. apply sets_bind0; [apply sets_ret|]. intros _. apply sets_script.
Qed.

End sets.
