(* ===== verification/WifiStartCorrect.v ===== *)
(** * Lemmas about starting and stopping the radio

    [calm m cs]: on a machine that represents the configuration, with what the
    scripts read in place, [m] ends without a fault, leaves such a machine, and
    runs exactly the commands [cs]. *)

From S2P Require Import Prelude CLib Utility UtilityCorrect FileSys Nvram NvramSpec NvramCorrect Scfg CfgStore ApCfgSys ApCfgWlan ApCfgLists CfgRefine AplFlag CfgImpl Apply WifiScript WifiSecurity WifiStart WifiCorrect.

(** The scripts of a start, and the other files written. *)
Definition up_scripts : list cstr := map (ATH_UP 0) [0; 1; 2; 3; 4; 5].
Definition vap_outputs : list cstr :=
  concat (map (λ vap, [hostap_name (ath 0 vap); topology_name (ath 0 vap); wsc_name vap]) [0; 1; 2; 3]).

#[global] Instance kept_decision p : Decision (kept p).
Proof. unfold kept. apply _. Defined.

Lemma scripts_kept : Forall (λ f, kept f ∧ Forall (λ p, kept p ∧ p ≠ f) vap_outputs) (ATH_DOWN 0 :: up_scripts).
Proof. closed. Qed.

(** What commands other than those for closing and opening leave alone. *)
Definition untouched : list cstr := stores ++ ["/tmp/vlan.conf" : cstr; "/etc/fwversion" : cstr; "/etc/extra_version" : cstr].
Definition harmless {board : Board} : Prop :=
  ∀ cmd s, cmd ≠ ("scapply close" : cstr) → cmd ≠ ("scapply open" : cstr) →
    cmds (shell_effect cmd s) = cmds s ∧
    ∀ p, p ∈ untouched → files (shell_effect cmd s) !! p = files s !! p.

Section start.
Context {heap : Heap} {dev : FlashDev} {shell : Shell} {board : Board}.
Variable stack : Z.
#[local] Hint Extern 0 (CfgStore sys) => exact (sys_store stack) : typeclass_instances.
Variable a : cfg.
(** The file of VLANs. *)
Variable vlan : option bytes.
Hypothesis Hshell : harmless.

Definition ok (s : sys) : Prop :=
  sys_rep s a ∧ files s !! ("/tmp/vlan.conf" : cstr) = vlan ∧ version_ok (λ p, files s !! p).

Lemma ok_frame s s' :
  (∀ p, p ∈ untouched → files s' !! p = files s !! p) → ok s → ok s'.
Proof.
  intros Hp (Hr & Hvl & Hver). unfold untouched in Hp. split; [|split].
  - apply (sys_rep_frame s); [|done]. intros p Hin. apply Hp, elem_of_app. by left.
  - rewrite Hp; [done|]. apply elem_of_app. right. closed.
  - unfold version_ok in *. rewrite !Hp; [done|apply elem_of_app; right; closed..].
Qed.

Definition calm {A} (m : M sys A) (cs : list cstr) : Prop :=
  ∀ s, ok s → runs m s (λ _ s', ok s' ∧ cmds s' = cmds s ++ cs).

Lemma calm_ret {A} (x : A) : calm (mret x) [].
Proof. intros s Hs. apply runs_ret. by rewrite app_nil_r. Qed.
Lemma calm_bind {A B} (m : M sys A) (k : A → M sys B) c1 c2 cs :
  calm m c1 → (∀ r, calm (k r) c2) → cs = c1 ++ c2 → calm (m ≫= k) cs.
Proof.
  intros Hm Hk -> s Hs. apply runs_bind. use_runs (Hm s Hs). intros r s1 [H1 E1].
  use_runs (Hk r s1 H1). intros w s2 [H2 E2]. split; [done|]. by rewrite E2, E1, app_assoc.
Qed.
Lemma calm_bind0 {A B} (m : M sys A) (k : A → M sys B) cs :
  calm m [] → (∀ r, calm (k r) cs) → calm (m ≫= k) cs.
Proof. intros Hm Hk. by eapply calm_bind. Qed.
Lemma calm_read {A B} (m : M sys A) v (k : A → M sys B) cs : reads a m v → calm (k v) cs → calm (m ≫= k) cs.
Proof.
  intros Hm Hk s Hs. apply runs_bind. use_runs (Hm s (proj1 Hs)). intros r s' (-> & Hr & _ & Hc & Hf).
  assert (Hok : ok s').
  { destruct Hs as (_ & Hvl & Hver). split; [done|]. split.
    - by rewrite Hf.
    - unfold version_ok in *. by rewrite !Hf. }
  use_runs (Hk s' Hok). intros w s2 [H2 E2]. by rewrite E2, Hc.
Qed.
Lemma calm_when b (m : M sys ()) : (b = true → calm m []) → calm (when b m) [].
Proof. unfold when. destruct b; [auto|]. intros _. apply calm_ret. Qed.
Lemma calm_if {A} (b : bool) (m1 m2 : M sys A) cs :
  (b = true → calm m1 cs) → (b = false → calm m2 cs) → calm (if b then m1 else m2) cs.
Proof. destruct b; auto. Qed.
Lemma calm_for l (body : Z → M sys ()) c : (∀ i, i ∈ l → calm (body i) (c i)) → calm (for_seq l body) (concat (map c l)).
Proof.
  induction l as [|i l IH]; intros H; [apply calm_ret|]. cbn [for_seq map concat].
  eapply calm_bind; [apply H; left| |reflexivity]. intros _. apply IH. intros j Hj. apply H. by right.
Qed.
Lemma calm_for0 l (body : Z → M sys ()) : (∀ i, i ∈ l → calm (body i) []) → calm (for_seq l body) [].
Proof.
  intros H. pose proof (calm_for l body (λ _, []) H) as Hc.
  assert (concat (map (λ _ : Z, [] : list cstr) l) = []) as E by (clear; by induction l). by rewrite E in Hc.
Qed.

(** A step of a script's making. *)
Lemma calm_tame {A} f (m : M sys A) :
  f ∈ ATH_DOWN 0 :: up_scripts →
  (∀ inp, kept f → Forall (λ p, kept p ∧ p ≠ f) vap_outputs → inp ("/tmp/vlan.conf" : cstr) = vlan → version_ok inp →
     tame a f vap_outputs inp m) → calm m [].
Proof.
  intros Hf Hm s (Hr & Hvl & Hver). pose proof scripts_kept as Hall. rewrite Forall_forall in Hall.
  destruct (Hall f Hf) as [Hk Hps].
  use_runs (Hm (λ p, files s !! p) Hk Hps Hvl Hver s (conj Hr (λ _ _, eq_refl))).
  intros r s' ([Hr' Hi] & ls & _ & _ & Hc & _). split; [|by rewrite app_nil_r].
  split; [done|]. unfold version_ok in *. rewrite !Hi by closed. done.
Qed.

Lemma up_in step : step ∈ [0; 1; 2; 3; 4; 5] → ATH_UP 0 step ∈ ATH_DOWN 0 :: up_scripts.
Proof. intros H. right. by apply list_elem_of_fmap_2. Qed.

Lemma calm_line f line : f ∈ ATH_DOWN 0 :: up_scripts → calm (SCRIPT_ADD (Some f) line) [].
Proof. intros Hf. apply (calm_tame f); [done|]. intros inp Hk _ _ _. by apply tame_add. Qed.

Lemma calm_null line : calm (SCRIPT_ADD None line) [].
Proof. apply calm_ret. Qed.

Lemma calm_shell cmd : cmd ≠ ("scapply close" : cstr) → cmd ≠ ("scapply open" : cstr) → calm (run_shell cmd) [cmd].
Proof.
  intros H1 H2 s Hs. apply runs_bind, runs_mod, runs_mod. destruct (Hshell cmd (add_cmd cmd s) H1 H2) as [Hc Hf].
  split; [|by rewrite Hc]. apply (ok_frame s); [|done]. intros p Hp. by rewrite Hf.
Qed.

Lemma calm_unlink p : p ∉ untouched → calm (unlink p) [].
Proof.
  intros Hp s Hs. apply runs_mod. split; [|by rewrite app_nil_r]. apply (ok_frame s); [|done].
  intros q Hq. cbn [files set_files]. apply lookup_delete_ne. by intros <-.
Qed.

Lemma calm_access p : calm (access p) [].
Proof. intros s Hs. apply runs_bind, runs_get, runs_ret. by rewrite app_nil_r. Qed.

Lemma calm_lift {A B} (o : outcome A) v (k : A → M sys B) cs : o = Done v → calm (k v) cs → calm (r ← liftO o; k r) cs.
Proof. intros E Hk s Hs. apply runs_bind. eapply runs_lift; [exact E|]. by apply Hk. Qed.

Lemma calm_picks {A B} (m : M sys A) (k : A → M sys B) cs s :
  calm m [] → (∀ r, calm (k r) (cs r)) → ok s →
  runs (m ≫= k) s (λ _ s', ok s' ∧ ∃ r, cmds s' = cmds s ++ cs r).
Proof.
  intros Hm Hk Hs. apply runs_bind. use_runs (Hm s Hs). intros r s1 [H1 E1].
  use_runs (Hk r s1 H1). intros w s2 [H2 E2]. split; [done|]. exists r. by rewrite E2, E1, app_nil_r.
Qed.

Lemma calm_file {B} (k : option bytes → M sys B) cs :
  calm (k vlan) cs → calm (fp ← read_file "/tmp/vlan.conf"; k fp) cs.
Proof.
  intros Hk s Hs. apply runs_bind, runs_bind, runs_get, runs_ret. rewrite (proj1 (proj2 Hs)). by apply Hk.
Qed.

Lemma calm_run f : f ∈ ATH_DOWN 0 :: up_scripts → calm (run_or_add None f) [f].
Proof.
  intros Hf. apply calm_shell; intros E; rewrite E in Hf; by apply (bool_decide_eq_true (_ ∈ ATH_DOWN 0 :: up_scripts)) in Hf.
Qed.

(** ** Loading the module *)

(** The bridge whose address the radio takes. *)
Definition mgt_name : cstr :=
  match vlan with
  | None => "br0"
  | Some data =>
      match fgets 64 data with
      | None => []
      | Some (l1, rest) => "br" ++ dec (atoi (match fgets 64 rest with Some (l2, _) => l2 | None => l1 end))
      end
  end.

Hypothesis Hvlan : vlan ≠ Some [].
Variable hw : bytes.
Hypothesis Hhw : if_hwaddr mgt_name = Some hw.
Hypothesis Hlen : length hw = 6%nat.

Lemma fgets_some n data : (1 < n)%nat → data ≠ [] → ∃ l r, fgets n data = Some (l, r).
Proof.
  intros Hn Hd. unfold fgets. destruct data as [|c data]; [done|].
  destruct (fgets_go (n - 1) (c :: data)) as [l r]. by eexists _, _.
Qed.

Definition mac17 : cstr := take 17 (hex_text ":" hw).
Definition mac12 : cstr := hex_text [] hw.

Lemma mac17_length : length mac17 = 17%nat.
Proof. unfold mac17. rewrite length_take, hex_text_length, Hlen. done. Qed.

Lemma mgt_if_runs s : ok s → runs mgt_if s (λ r s', r = mgt_name ∧ s' = s).
Proof.
  intros (_ & Hv & _). unfold mgt_if, mgt_name. apply runs_bind, runs_bind, runs_get, runs_ret. rewrite Hv.
  pose proof Hvlan as Hne. destruct vlan as [data|]; [|by apply runs_ret].
  destruct (fgets_some 64 data) as (l & r & ->); [lia|by intros ->|]. by apply runs_ret.
Qed.

Lemma mac_text : macAddrToString hw (Some (":" : cstr)) = Done (17, mac17).
Proof.
  unfold macAddrToString. rewrite take_ge by lia.
  assert (hw ≠ []) by (intros E; pose proof Hlen as L; by rewrite E in L).
  rewrite scChars2Hexs_some by done. unfold zlen, mac17. by rewrite Hlen.
Qed.

Lemma calm_mgt {B} (k : cstr → M sys B) cs : calm (k mac17) cs → calm (getMgtBrInfo_mac ≫= k) cs.
Proof.
  intros Hk s Hs. apply runs_bind, runs_bind. use_runs (mgt_if_runs s Hs). intros r s' [-> ->].
  rewrite Hhw. apply runs_bind. eapply runs_lift; [exact mac_text|]. apply runs_ret. by apply Hk.
Qed.

Lemma mac12_text : scMacStr17ToStr12 mac17 = Done mac12.
Proof.
  unfold mac17, mac12. pose proof Hlen as L.
  destruct hw as [|b0 [|b1 [|b2 [|b3 [|b4 [|b5 [|? ?]]]]]]]; try discriminate L.
  assert (H2 : ∀ b, ∃ x y, hex2 b = [x; y]).
  { intros b. pose proof (hex2_length b) as Hb. destruct (hex2 b) as [|? [|? [|? ?]]]; try discriminate Hb. eauto. }
  destruct (H2 b0) as (? & ? & E0), (H2 b1) as (? & ? & E1), (H2 b2) as (? & ? & E2),
    (H2 b3) as (? & ? & E3), (H2 b4) as (? & ? & E4), (H2 b5) as (? & ? & E5).
  unfold hex_text. cbn [map concat]. by rewrite E0, E1, E2, E3, E4, E5.
Qed.

Lemma mac17_chars : scHexs2Chars mac17 6 true None = Done hw.
Proof.
  assert (hw ≠ []) as Hne by (intros E; pose proof Hlen as L; by rewrite E in L).
  pose proof (scHexs2Chars_cut ":" hw None eq_refl Hne) as H. rewrite Hlen in H. exact H.
Qed.

(** The command that leaves the address for WPS. *)
Definition echo_mac : cstr := "echo " ++ mac12 ++ " > /tmp/wsc_mac".

Lemma echo_whole : take 1023 echo_mac = echo_mac.
Proof.
  apply take_ge. unfold echo_mac, mac12. rewrite !length_app, hex_text_length, Hlen. cbn. lia.
Qed.

Lemma calm_module f : f ∈ ATH_DOWN 0 :: up_scripts → calm (wlanModuleLoad (Some f) 0) [echo_mac].
Proof.
  intros Hf. assert (Hadd : ∀ l, calm (SCRIPT_ADD (Some f) l) []) by (intros l; by apply calm_line).
  unfold wlanModuleLoad. cbv zeta. eapply calm_read; [reads_getter|].
  apply calm_bind0; [apply calm_if; intros _; apply Hadd|]. intros _.
  apply calm_bind0; [apply calm_when; intros _; apply Hadd|]. intros _.
  apply calm_mgt. eapply calm_lift; [exact mac12_text|].
  change (take 1023 _) with (take 1023 echo_mac). rewrite echo_whole.
  eapply calm_bind; [by apply calm_shell| |reflexivity]. intros _.
  eapply calm_lift; [exact mac17_chars|].
  eapply calm_lift; [unfold macAddrToString; apply scChars2Hexs_none|]. cbv iota beta.
  do 3 (apply calm_bind0; [apply Hadd|]; intros _). apply calm_ret.
Qed.

(** ** The modes *)

Hypothesis Hwlan : wlan_fits a.
Hypothesis Hvaps : ∀ vap, 0 <= vap < 4 → vap_fits a vap ∧ acl_readable a vap.
Hypothesis Hwbr : wbr_whole a.
(** [vapStr] and the byte behind it. *)
Hypothesis Hslack : (1 <= vapStr_slack)%nat.

Lemma calm_vap_str {B} (x : cstr) (k : cstr → M sys B) cs :
  (length x <= 5)%nat → calm (k x) cs → calm (vap_str x ≫= k) cs.
Proof.
  intros Hx. apply calm_read. unfold vap_str. apply reads_strcpy. unfold VAP_STR_LEN. lia.
Qed.

Lemma ath_length vap : 0 <= vap <= 4 → (length (ath 0 vap) <= 5)%nat.
Proof.
  intros Hv. assert (Hin : vap ∈ [0; 1; 2; 3; 4]) by (rewrite !elem_of_cons; lia).
  assert (H : Forall (λ vap, (length (ath 0 vap) <= 5)%nat) [0; 1; 2; 3; 4]) by closed.
  rewrite Forall_forall in H. by apply H.
Qed.

Lemma vap_output vap p : 0 <= vap < 4 → p ∈ [hostap_name (ath 0 vap); topology_name (ath 0 vap); wsc_name vap] → p ∈ vap_outputs.
Proof.
  intros Hv Hp. unfold vap_outputs. apply list_elem_of_In, in_concat.
  exists [hostap_name (ath 0 vap); topology_name (ath 0 vap); wsc_name vap].
  split; [|by apply list_elem_of_In].
  apply (in_map (λ vap, [hostap_name (ath 0 vap); topology_name (ath 0 vap); wsc_name vap])). cbn. lia.
Qed.

(** The functions of the scripts, on any script and access point. *)
Section one.
Variable f : cstr.
Hypothesis Hf : f ∈ ATH_DOWN 0 :: up_scripts.

Lemma vlan_is_ok inp : inp ("/tmp/vlan.conf" : cstr) = vlan → vlan_ok inp.
Proof. intros E. unfold vlan_ok. by rewrite E. Qed.

Ltac script lem := apply (calm_tame f _ Hf); intros inp Hk Hps Hi Hver; apply lem.

Lemma calm_basic bss all sta : calm (wlanBasicApply (Some f) 0 bss all sta) [].
Proof. by script (tame_basic stack). Qed.
Lemma calm_advance bss all : calm (wlanAdvanceApply (Some f) 0 bss all) [].
Proof. by script (tame_advance stack). Qed.
Lemma calm_acl vap : 0 <= vap < 4 → calm (wlanAclApply (Some f) 0 vap) [].
Proof. intros Hv. script (tame_acl stack); [done..|by apply Hvaps]. Qed.
Lemma calm_wds vap : calm (wlanWdsApply (Some f) 0 vap) [].
Proof. by script (tame_wds stack). Qed.
Lemma calm_bridge bss wds : 0 <= bss <= 4 → calm (wlanBridgeApply (Some f) 0 bss wds) [].
Proof.
  intros Hb. script (tame_bridge stack); [done|by apply vlan_is_ok|].
  apply Hvaps. unfold shared_vap, WLAN_MAX_VAP. destruct (bss =? 4) eqn:E; lia.
Qed.
Lemma calm_noap vap : calm (wlanNoApSecurityApply (Some f) 0 vap) [].
Proof. script (tame_noap stack); [done|by apply Hvaps]. Qed.
Lemma calm_security vap : 0 <= vap < 4 → calm (wlanSecurityApply (Some f) 0 vap) [].
Proof.
  intros Hv. script (tame_security stack); try done; [by apply Hvaps|..]; apply (vap_output vap); set_solver.
Qed.
Lemma calm_wsc vap : 0 <= vap < 4 → calm (wlanCreatWscConfig 0 vap) [].
Proof. intros Hv. script (tame_wsc stack); try done; [by apply Hvaps|apply (vap_output vap); set_solver]. Qed.
End one.

#[local] Notation up := (λ step, Some (ATH_UP 0 step)).

Lemma calm_up step line : step ∈ [0; 1; 2; 3; 4; 5] → calm (SCRIPT_ADD (Some (ATH_UP 0 step)) line) [].
Proof. intros H. by apply calm_line, up_in. Qed.

Ltac step_in := apply up_in; closed.
Ltac cm :=
  cbv beta zeta;
  lazymatch goal with
  | |- calm (mret _) _ => apply calm_ret
  | |- calm (SCRIPT_ADD (Some _) _) _ => apply calm_line; step_in
  | |- calm (wlanBasicApply _ _ _ _ _) _ => apply calm_basic; step_in
  | |- calm (wlanAdvanceApply _ _ _ _) _ => apply calm_advance; step_in
  | |- calm (wlanAclApply _ _ _) _ => apply calm_acl; [step_in|lia]
  | |- calm (wlanWdsApply _ _ _) _ => apply calm_wds; step_in
  | |- calm (wlanBridgeApply _ _ _ _) _ => apply calm_bridge; [step_in|unfold WLAN_MAX_VAP; lia]
  | |- calm (wlanNoApSecurityApply _ _ _) _ => apply calm_noap; step_in
  | |- calm (wlanSecurityApply _ _ _) _ => apply calm_security; [step_in|lia]
  | |- calm (wlanCreatWscConfig _ _) _ => apply (calm_wsc (ATH_UP 0 5)); [step_in|lia]
  | |- calm (when _ _) _ => apply calm_when; intros; cm
  | |- calm (if _ then _ else _) _ => apply calm_if; intros; cm
  | |- calm (vap_str _ ≫= _) _ => apply calm_vap_str; [apply ath_length; unfold WLAN_MAX_VAP; lia|cm]
  | |- calm (mbind _ _) _ => first [eapply calm_read; [solve [reads_getter]|] | apply calm_bind0; [|intros]]; cm
  | |- calm ?m _ => unfold_head m; cm
  end.

Lemma calm_rogueap : calm (start_rogueap up 0) [].
Proof. unfold start_rogueap. apply calm_vap_str; [done|]. cm. Qed.

Lemma calm_ap vap : 0 <= vap < 4 → calm (start_ap up 0 vap) [].
Proof. intros Hv. unfold start_ap. cm. Qed.

Lemma calm_ap_wds : calm (start_ap_wds up 0) [].
Proof. unfold start_ap_wds, start_wsc. cm. Qed.
Lemma calm_wds_only : calm (start_wds up 0) [].
Proof. unfold start_wds. cm. Qed.
Lemma calm_sta : calm (start_sta up 0) [].
Proof. unfold start_sta. cm. Qed.

Lemma reads_one_of m v ms : reads a m v → reads a (one_of m ms) ((v =? nth 0 ms 0) || (v =? nth 1 ms 0)).
Proof.
  intros Hm. unfold one_of. apply reads_orM; (eapply reads_bind; [exact Hm|apply reads_ret]).
Qed.

Lemma calm_modes : calm (start_modes up 0) [].
Proof.
  unfold start_modes. cbv zeta.
  eapply calm_read; [apply reads_one_of; reads_getter|]. apply calm_bind0.
  { apply calm_when. intros _. apply calm_for0. intros i Hi. apply calm_ap.
    rewrite !elem_of_cons, elem_of_nil in Hi. lia. }
  intros _. eapply calm_read; [apply reads_one_of; reads_getter|].
  apply calm_bind0; [apply calm_when; intros _; apply calm_ap_wds|]. intros _.
  eapply calm_read; [apply reads_one_of; reads_getter|].
  apply calm_bind0; [apply calm_when; intros _; apply calm_wds_only|]. intros _.
  eapply calm_read; [apply reads_one_of; reads_getter|].
  apply calm_bind0; [apply calm_when; intros _; apply calm_sta|]. intros _. cm.
Qed.

(** ** The channel *)

Definition rm_config : cstr := "rm -f /tmp/chan_config".

Lemma calm_channel f : f ∈ ATH_DOWN 0 :: up_scripts → calm (channel_vap (Some f) 0) [rm_config].
Proof.
  intros Hf. assert (Hadd : ∀ l, calm (SCRIPT_ADD (Some f) l) []) by (intros l; by apply calm_line).
  assert (Hnum : ∀ pre m v post, reads a m v → calm (ADD_d (Some f) pre m post) []).
  { intros pre m v post Hm. eapply calm_read; [exact Hm|]. apply Hadd. }
  unfold channel_vap. cbv zeta. eapply calm_read; [reads_getter|].
  eapply calm_bind; [by apply calm_shell| |reflexivity]. intros _.
  apply calm_vap_str; [done|]. eapply calm_read; [apply reads_one_of; reads_getter|].
  apply calm_bind0; [apply Hadd|]. intros _. apply calm_bind0; [apply Hadd|]. intros _.
  apply calm_bind0.
  { apply calm_if; intros _; [apply Hadd|]. apply calm_if; intros _.
    { apply calm_bind0; [apply Hadd|]. intros _. apply Hadd. }
    eapply calm_read; [reads_getter|]. apply calm_bind0.
    { apply calm_if; intros _; [apply calm_bind0; [apply Hadd|]; intros _; apply Hadd|].
      eapply calm_read; [reads_getter|]. apply calm_bind0.
      { apply calm_if; intros _; [|apply Hadd].
        apply calm_bind0; [eapply calm_read; [reads_getter|]; apply Hadd|]. intros _.
        eapply calm_read; [eapply reads_bind; [reads_getter|apply reads_ret]|]. apply calm_if; intros _; apply Hadd. }
      intros _. eapply Hnum. reads_getter. }
    intros _. do 2 (apply calm_bind0; [apply Hadd|]; intros _). apply Hadd. }
  intros _. do 2 (apply calm_bind0; [apply Hadd|]; intros _).
  eapply calm_read; [reads_getter|]. apply calm_bind0.
  { apply calm_when. intros _. apply calm_bind0; [apply Hadd|]. intros _. eapply Hnum. reads_getter. }
  intros _. apply calm_bind0; [apply Hadd|]. intros _. apply calm_bind0; [eapply Hnum; reads_getter|]. intros _.
  do 5 (apply calm_bind0; [apply Hadd|]; intros _). apply Hadd.
Qed.

(** At 20 MHz the channel needs no correction. *)
Hypothesis Hwidth : code_of cwm_names CWM_MODE_20M_40M (safe a (wlan_key 0 "_channel_width")) = 0.

Lemma calm_correct : calm (wlanCorrectChannelApply 0) [].
Proof.
  unfold wlanCorrectChannelApply. eapply calm_read; [reads_getter|]. rewrite Hwidth. apply calm_ret.
Qed.

(** ** The start and the stop *)

Lemma calm_append f line : f ∈ ATH_DOWN 0 :: up_scripts → calm (ATH_SCRIPT_ADD f line) [].
Proof. apply calm_line. Qed.

Lemma scripts_apart f : f ∈ ATH_DOWN 0 :: up_scripts → f ∉ untouched.
Proof.
  assert (H : Forall (λ f, f ∉ untouched) (ATH_DOWN 0 :: up_scripts)) by closed.
  rewrite Forall_forall in H. apply H.
Qed.

(** A script made anew. *)
Lemma calm_new f line : f ∈ ATH_DOWN 0 :: up_scripts → calm (_ ← ATH_SCRIPT_DEL f; ATH_SCRIPT_ADD f line) [].
Proof.
  intros Hf. apply calm_bind0; [by apply calm_unlink, scripts_apart|]. intros _. by apply calm_append.
Qed.

Definition gives {A} (m : M sys A) (v : A) : Prop := ∀ s r s', m s = Done (r, s') → r = v.
Lemma gives_ret {A} (v : A) : gives (mret v) v.
Proof. by intros s r s' [= <- _]. Qed.
Lemma gives_bind {A B} (m : M sys A) (k : A → M sys B) v : (∀ x, gives (k x) v) → gives (m ≫= k) v.
Proof.
  intros Hk s r s'. unfold mbind, M_bind. destruct (m s) as [[x s1]| |]; try discriminate. apply Hk.
Qed.
Lemma runs_gives {A} (m : M sys A) v s (Q : sys → Prop) :
  gives m v → runs m s (λ _ s', Q s') → runs m s (λ r s', r = v ∧ Q s').
Proof. intros Hv. unfold runs. destruct (m s) as [[r s']| |] eqn:E; try done. split; [by eapply Hv|done]. Qed.

Definition start_cmds (channel : bool) : list cstr :=
  echo_mac :: (if channel then [rm_config] else []) ++ up_scripts.

Lemma start_runs s : ok s →
  runs (wlanStart None 0) s (λ r s', r = 0 ∧ ok s' ∧ ∃ channel, cmds s' = cmds s ++ start_cmds channel).
Proof.
  intros Hs. apply runs_gives; [unfold wlanStart; cbv zeta; repeat (apply gives_bind; intros ?); apply gives_ret|].
  unfold wlanStart. cbv zeta. apply runs_bind.
  assert (Hnew : calm (for_seq [0; 1; 2; 3; 4; 5] (λ step, _ ← ATH_SCRIPT_DEL (ATH_UP 0 step);
    ATH_SCRIPT_ADD (ATH_UP 0 step) ("#!/bin/sh" ++ [nl]))) []).
  { apply calm_for0. intros i Hi. by apply calm_new, up_in. }
  use_runs (Hnew s Hs). intros _ s1 [H1 E1]. rewrite app_nil_r in E1. rewrite <- E1. clear E1 Hs s.
  apply runs_bind. use_runs (calm_append (ATH_UP 0 ATH_UP_LAST) "sleep 1" ltac:(step_in) s1 H1).
  intros _ s2 [H2 E2]. rewrite app_nil_r in E2. rewrite <- E2. clear E2 H1 s1.
  apply runs_bind. use_runs (calm_module (ATH_UP 0 ATH_UP_PRE) ltac:(step_in) s2 H2).
  intros _ s3 [H3 E3]. apply runs_bind. use_runs (calm_access "/tmp/chan_config" s3 H3). intros config s4 [H4 E4].
  rewrite app_nil_r in E4.
  eapply runs_mono.
  { eapply (calm_picks _ _ (λ channel : bool, (if channel then [rm_config] else []) ++ up_scripts)); [| |exact H4].
    - apply calm_if; intros _; [apply calm_ret|]. apply calm_bind0; [apply calm_access|]. intros ?. apply calm_ret.
    - intros channel. eapply calm_bind; [| |reflexivity].
      { destruct channel; [|apply calm_ret]. unfold when. apply calm_channel. step_in. }
      intros _. eapply (calm_bind _ _ [_]); [apply calm_run; step_in| |reflexivity]. intros _.
      apply calm_bind0; [apply calm_correct|]. intros _. eapply calm_read; [reads_getter|].
      apply calm_bind0.
      { apply calm_if; intros _; [apply calm_rogueap|]. eapply calm_read; [reads_getter|].
        apply calm_when. intros _. apply calm_modes. }
      intros _. eapply calm_bind; [|intros _; apply calm_ret|symmetry; apply app_nil_r].
      apply (calm_for [1; 2; 3; 4; 5] _ (λ step, [ATH_UP 0 step])). intros i Hi. apply calm_run, up_in.
      apply elem_of_cons. by right. }
  intros _ s5 [H5 [channel E5]]. split; [done|]. exists channel. by rewrite E5, E4, E3, <- app_assoc.
Qed.

Lemma stop_runs u s : ok s →
  runs (wlanStop None 0 u) s (λ r s', r = 0 ∧ ok s' ∧ cmds s' = cmds s ++ [ATH_DOWN 0]).
Proof.
  intros Hs. apply runs_gives; [unfold wlanStop; cbv zeta; repeat (apply gives_bind; intros ?); apply gives_ret|].
  assert (Hd : ATH_DOWN 0 ∈ ATH_DOWN 0 :: up_scripts) by left.
  assert (Hadd : ∀ l, calm (ATH_SCRIPT_ADD (ATH_DOWN 0) l) []) by (intros l; by apply calm_append).
  assert (Hm : calm (wlanStop None 0 u) [ATH_DOWN 0]); [|exact (Hm s Hs)].
  unfold wlanStop. cbv zeta. apply calm_bind0; [by apply calm_unlink, scripts_apart|]. intros _.
  do 4 (apply calm_bind0; [apply Hadd|]; intros _). do 3 (apply calm_bind0; [apply calm_null|]; intros _).
  eapply calm_bind; [by apply calm_run|intros _; apply calm_ret|done].
Qed.

(** ** Without the byte behind [vapStr] *)

Definition faults {A} (m : M sys A) : Prop := ∀ s, ok s → m s = Fault.

Lemma faults_here {A B} (m : M sys A) (k : A → M sys B) : faults m → faults (m ≫= k).
Proof. intros Hm s Hs. unfold mbind, M_bind. by rewrite Hm. Qed.
Lemma faults_bind {A B} (m : M sys A) (k : A → M sys B) cs : calm m cs → (∀ r, faults (k r)) → faults (m ≫= k).
Proof.
  intros Hm Hk s Hs. pose proof (Hm s Hs) as H. unfold runs in H. unfold mbind, M_bind.
  destruct (m s) as [[r s']| |]; [|done|done]. destruct H as [H _]. by apply Hk.
Qed.
Lemma faults_read {A B} (m : M sys A) v (k : A → M sys B) : reads a m v → faults (k v) → faults (m ≫= k).
Proof.
  intros Hm Hk s Hs. pose proof (Hm s (proj1 Hs)) as H. unfold runs in H. unfold mbind, M_bind.
  destruct (m s) as [[r s']| |]; [|done|done]. destruct H as (-> & Hr & _ & _ & Hf). apply Hk.
  destruct Hs as (_ & Hv & Hver). split; [done|]. unfold version_ok in *. by rewrite !Hf.
Qed.

Lemma faults_vap_str {B} x (k : cstr → M sys B) : vapStr_slack = 0%nat → length x = 5%nat → faults (vap_str x ≫= k).
Proof.
  clear Hslack. intros Hz Hx. apply faults_here. intros s _. unfold vap_str, strcpy_buf, VAP_STR_LEN.
  by rewrite Hz, Hx, decide_False by lia.
Qed.

(** The first access point in use overruns it, and so does the interface that finds the channel. *)
Lemma start_faults :
  vapStr_slack = 0%nat →
  code_of op_mode_names CFG_OP_MODE_AP (safe a (wlan_key 0 "_op_mode")) ∈ [CFG_OP_MODE_AP; CFG_OP_MODE_UR] →
  dec_bool (safe a (wlan_key 0 "_state")) = 1 → dec_bool (safe a (vap_key 0 0 "_state")) ≠ 0 →
  faults (wlanStart None 0).
Proof.
  clear Hslack. intros Hz Hop Hon Hvap. set (op := code_of _ _ _) in Hop. unfold wlanStart. cbv zeta.
  eapply faults_bind; [apply calm_for0; intros i Hi; by apply calm_new, up_in|]. intros _.
  eapply faults_bind; [apply calm_append; step_in|]. intros _.
  eapply faults_bind; [apply calm_module; step_in|]. intros _.
  eapply faults_bind; [apply calm_access|]. intros config.
  eapply faults_bind; [apply calm_if; intros _; [apply calm_ret|apply calm_bind0; [apply calm_access|intros; apply calm_ret]]|].
  intros [|].
  { apply faults_here. unfold when, channel_vap. cbv zeta. eapply faults_read; [reads_getter|].
    eapply faults_bind; [by apply calm_shell|]. intros _. by apply faults_vap_str. }
  eapply faults_bind; [apply calm_ret|]. intros _. eapply faults_bind; [apply calm_run; step_in|]. intros _.
  eapply faults_bind; [apply calm_correct|]. intros _. eapply faults_read; [reads_getter|]. fold op.
  apply faults_here. replace (op =? CFG_OP_MODE_ROGAP) with false.
  2: { repeat (apply elem_of_cons in Hop as [->|Hop]; [done|]). by apply not_elem_of_nil in Hop. }
  eapply faults_read; [reads_getter|]. rewrite Hon. cbn [Z.eqb Pos.eqb]. unfold when, start_modes. cbv zeta.
  eapply faults_read; [apply reads_one_of; reads_getter|]. fold op. apply faults_here.
  replace (_ || _) with true.
  2: { repeat (apply elem_of_cons in Hop as [->|Hop]; [done|]). by apply not_elem_of_nil in Hop. }
  cbn [for_seq]. apply faults_here. unfold start_ap. eapply faults_read; [reads_getter|].
  rewrite (proj2 (Z.eqb_neq _ _) Hvap). cbn [negb when]. by apply faults_vap_str.
Qed.
End start.
