(* ===== verification/WifiTheorems.v ===== *)
(** * The theorems about the wireless scripts *)

From S2P Require Import Prelude CLib Utility FileSys Nvram NvramSpec NvramCorrect Scfg Sample CfgStore ApCfgSys ApCfgWlan ApCfgLists CfgRefine AplFlag CfgImpl Session CfgOverflow CfgTheorems Apply WifiScript WifiSecurity WifiStart WifiCorrect WifiConf WifiStartCorrect.

(** The files that the handler of an access point may leave changed. *)
Definition vap_files (vap : Z) : list cstr :=
  [APPLY_DBG; hostap_name (ath 0 vap); topology_name (ath 0 vap); wsc_name vap].
Definition vap_script (vap : Z) : cstr := "/tmp/vap_handler_" ++ dec 0 ++ dec vap.

Lemma vap_paths vap : 0 <= vap < 4 →
  kept (vap_script vap) ∧ Forall (λ p, kept p ∧ p ≠ vap_script vap) (vap_files vap).
Proof.
  intros Hv. assert (Hin : vap ∈ [0; 1; 2; 3]).
  { rewrite !elem_of_cons. lia. }
  revert vap Hv Hin. assert (H : Forall (λ vap, kept (vap_script vap) ∧
    Forall (λ p, kept p ∧ p ≠ vap_script vap) (vap_files vap)) [0; 1; 2; 3]) by closed.
  rewrite Forall_forall in H. intros vap _ Hin. by apply H.
Qed.

Section handler.
Context {heap : Heap} {dev : FlashDev} {shell : Shell} {board : Board}.
Variable stack : Z.
#[local] Hint Extern 0 (CfgStore sys) => exact (sys_store stack) : typeclass_instances.

(** The values that the radio's getters copy fit their buffers, the lists can be
    read, and the files that are read are there. *)
Record radio_ready (a : cfg) (vap : Z) (inp : cstr → option bytes) : Prop := RadioReady {
  rr_radio : wlan_fits a;
  rr_vap : vap_fits a vap;
  rr_vap0 : vap_fits a 0;
  rr_acl : acl_readable a vap;
  rr_wbr : wbr_whole a;
  rr_vlan : vlan_ok inp;
  rr_version : version_ok inp;
}.

(** What the handler of an access point does. *)
Lemma vap_handler_ends s a vap :
  0 <= vap < 4 → sys_rep s a → radio_ready a vap (λ p, files s !! p) → files s !! vap_script vap = None →
  runs (vap_handler (wifi := wifiuti) 0 vap) s (λ r s',
    r = 0 ∧ sys_rep s' a ∧ flash s' = flash s ∧ cmds s' = cmds s ++ [vap_script vap] ∧
    files s' !! vap_script vap = None ∧
    ∀ p, p ∉ vap_files vap → p ≠ NVRAM_TMP_PATH → files s' !! p = files s !! p).
Proof.
  intros Hvap Hrep [Hw Hv Hv0 Hacl Hwbr Hvl Hver] Hnone.
  destruct (vap_paths vap Hvap) as [Hk Hps].
  set (f := vap_script vap) in *. set (inp := λ p, files s !! p) in *.
  assert (Hready : vap_ready a (vap_files vap) inp vap).
  { split; try done; unfold vap_files; rewrite !elem_of_cons; naive_solver. }
  assert (Hguard : (0 =? -1) || (WLAN_MAX_DEV <=? 0) || (vap =? -1) || (WLAN_MAX_VAP <=? vap) = false).
  { unfold WLAN_MAX_DEV, WLAN_MAX_VAP. repeat (apply orb_false_iff; split); lia. }
  unfold vap_handler. rewrite Hguard. cbv zeta. fold (vap_script vap). fold f.
  apply runs_bind, runs_bind, runs_get, runs_ret. rewrite Hnone. cbn [bool_decide decide is_Some_dec].
  assert (Hdebug : tame a f (vap_files vap) inp (debug "vap_handler" 489)).
  { apply tame_append_file; [done|]. left. }
  assert (Hline : ∀ l, tame a f (vap_files vap) inp (ATH_SCRIPT_ADD f l)) by (intros l; by apply tame_append).
  apply (runs_tame a f (vap_files vap) inp _ _ s); [exact Hdebug| |].
  { split; [by split|]. exists []. apply adds_refl. }
  intros _ s1 H1. eapply runs_tame; [apply Hline|exact H1|]. intros _ s2 H2.
  eapply runs_tame; [apply Hline|exact H2|]. intros _ s3 H3.
  eapply runs_tame; [apply (tame_off stack); done|exact H3|]. intros off s4 H4.
  eapply runs_tame; [apply (tame_vap_script stack); done|exact H4|]. intros _ s5 H5.
  eapply runs_tame; [apply Hline|exact H5|]. intros _ s6 ([Hrep6 _] & ls & Hflash & Hcmds & _ & Hfiles).
  apply runs_bind, runs_mod, runs_bind, runs_mod, runs_ret.
  split; [done|]. split.
  { apply (sys_rep_frame s6); [|done]. intros p Hp. cbn [files set_files add_cmd].
    apply lookup_delete_ne. intros <-. by destruct Hk. }
  cbn [flash cmds files set_files add_cmd]. split; [done|]. split; [by rewrite Hcmds|].
  split; [apply lookup_delete_eq|]. intros p Hp Hn.
  destruct (decide (p = f)) as [->|Hne]; [by rewrite lookup_delete_eq|].
  rewrite lookup_delete_ne by done. by apply Hfiles.
Qed.

(** C13: applying an access point works with the code of wifiuti.c behind it.  On
    a machine whose values fit the buffers they are copied to, [vap_handler]
    for an access point whose script is not being made ends with 0, runs its script and nothing else,
    and removes it; the configuration is what it was, and no file changed but the log, the files of
    the authenticator and of WPS, and the shadow file that defaults are copied to. *)
Theorem vap_handler_runs s a vap :
  0 <= vap < 4 → sys_rep s a → radio_ready a vap (λ p, files s !! p) → files s !! vap_script vap = None →
  runs (vap_handler (wifi := wifiuti) 0 vap) s (λ r s',
    r = 0 ∧ sys_rep s' a ∧ flash s' = flash s ∧ cmds s' = cmds s ++ [vap_script vap] ∧
    files s' !! vap_script vap = None ∧
    ∀ p, p ∉ vap_files vap → p ≠ NVRAM_TMP_PATH → files s' !! p = files s !! p).
Proof. apply vap_handler_ends. Qed.

(** What a start of the radio needs besides a sound configuration: values that fit
    their buffers, a channel of 20 MHz, the files that are read, and an address. *)
Record start_ready (a : cfg) (s : sys) (hw : bytes) : Prop := StartReady {
  sr_radio : wlan_fits a;
  sr_vaps : ∀ vap, 0 <= vap < 4 → vap_fits a vap ∧ acl_readable a vap;
  sr_wbr : wbr_whole a;
  sr_width : code_of cwm_names CWM_MODE_20M_40M (safe a (wlan_key 0 "_channel_width")) = 0;
  sr_vlan : files s !! ("/tmp/vlan.conf" : cstr) ≠ Some [];
  sr_version : version_ok (λ p, files s !! p);
  sr_hw : if_hwaddr (mgt_name (files s !! ("/tmp/vlan.conf" : cstr))) = Some hw;
  sr_six : length hw = 6%nat;
}.

(** Taking the radio down. *)
Lemma stop_calm a vlan u : harmless → calm a vlan (_ ← wlanStop None 0 u; mret tt) [ATH_DOWN 0].
Proof.
  intros Hsh s0 H0. apply runs_bind. use_runs (stop_runs a vlan Hsh u s0 H0). intros r s1 (_ & H1 & E1).
  apply runs_ret. by split.
Qed.

(** What the handler of the radio does, on any machine that has the configuration
    and the files that the start was made ready for. *)
Lemma wlan_handler_ends s0 s a hw vap :
  harmless → (1 <= vapStr_slack)%nat → start_ready a s0 hw → ok a (files s0 !! ("/tmp/vlan.conf" : cstr)) s →
  runs (wlan_handler (wifi := wifiuti) 0 vap) s (λ r s',
    r = 0 ∧ ok a (files s0 !! ("/tmp/vlan.conf" : cstr)) s' ∧
    ∃ channel, cmds s' = cmds s ++ ATH_DOWN 0 :: start_cmds hw channel).
Proof.
  intros Hsh Hsl [Hw Hv Hwbr Hwd Hvl _ Hhw Hlen] Hs.
  set (vlan := files s0 !! ("/tmp/vlan.conf" : cstr)) in *.
  unfold wlan_handler. cbn [Z.eqb orb]. change ((0 =? -1) || (WLAN_MAX_DEV <=? 0)) with false. cbv iota.
  assert (Hstop : ∀ u, calm a vlan (_ ← wlanStop None 0 u; mret tt) [ATH_DOWN 0])
    by (intros u; by apply stop_calm).
  apply runs_bind. use_runs (calm_access a vlan "/tmp/apl_reload_mod" s Hs). intros reload s1 [H1 E1].
  rewrite app_nil_r in E1.
  assert (Hdown : calm a vlan (if reload : bool then _ ← (_ ← wlanStop None 0 1; mret tt); unlink "/tmp/apl_reload_mod"
    else _ ← wlanStop None 0 0; mret tt) [ATH_DOWN 0]).
  { apply calm_if; intros _; [|apply Hstop].
    eapply calm_bind; [apply Hstop|intros _; apply calm_unlink; closed|done]. }
  apply runs_bind. use_runs (Hdown s1 H1). intros _ s2 [H2 E2].
  apply runs_bind, runs_bind.
  use_runs (start_runs stack a vlan Hsh Hvl hw Hhw Hlen Hw Hv Hwbr Hsl Hwd s2 H2).
  intros r s3 (_ & H3 & channel & E3). do 2 apply runs_ret. split; [done|]. split; [done|].
  exists channel. by rewrite E3, E2, E1, <- app_assoc.
Qed.

(** C14: the radio is restarted in every operation mode, at a channel width of 20 MHz
    (the width is 20/40 MHz when nothing is stored; [sr_width] asks for 20).  Provided at least one byte that is not
    used lies behind the five bytes of [vapStr] on the stack of [wlanStart] (with none the
    start leaves the array in the modes named by C32), the commands the shell runs leave the
    files of the configuration, of the VLANs and of the version alone ([harmless]), the stored
    values fit the buffers of their getters, the access lists can be read, and the files
    with the version are there ([start_ready]), [wlan_handler] takes the radio down and
    brings it up: it ends with 0, the configuration is what it was, and the commands run are
    the script of the stop, the one that leaves the address for WPS, the removal of the
    channel request if there was one or no channels were known, and the six scripts of the
    start in order. *)
Theorem wlan_handler_runs s a hw vap :
  harmless → (1 <= vapStr_slack)%nat → sys_rep s a → start_ready a s hw →
  runs (wlan_handler (wifi := wifiuti) 0 vap) s (λ r s',
    r = 0 ∧ sys_rep s' a ∧
    ∃ channel, cmds s' = cmds s ++ ATH_DOWN 0 :: start_cmds hw channel).
Proof.
  intros Hsh Hsl Hrep Hst.
  use_runs (wlan_handler_ends s s a hw vap Hsh Hsl Hst (conj Hrep (conj eq_refl (sr_version _ _ _ Hst)))).
  intros r s' (-> & [H _] & Hc). split; [done|]. by split.
Qed.

(** C32: the stack of [wlanStart] is overrun in the mode the product is sold in.  The name
    of an interface has five characters, and [vapStr] has room for four and the zero byte.
    Where nothing unused lies behind it, [wlanStart] faults on every machine whose radio is on,
    as an access point or a repeater, with its first access point in use. *)
Theorem start_overruns_vapStr s a hw :
  harmless → vapStr_slack = 0%nat → sys_rep s a → start_ready a s hw →
  code_of op_mode_names CFG_OP_MODE_AP (safe a (wlan_key 0 "_op_mode")) ∈ [CFG_OP_MODE_AP; CFG_OP_MODE_UR] →
  dec_bool (safe a (wlan_key 0 "_state")) = 1 → dec_bool (safe a (vap_key 0 0 "_state")) ≠ 0 →
  wlanStart None 0 s = Fault.
Proof.
  intros Hsh Hz Hrep [Hw Hv Hwbr Hwd Hvl Hver Hhw Hlen] Hop Hon Hvap.
  apply (start_faults stack a (files s !! ("/tmp/vlan.conf" : cstr)) Hsh Hvl hw Hhw Hlen Hwd Hz Hop Hon Hvap).
  split; [done|]. by split.
Qed.

(** ** Who may join *)

(** What the stored authentication says of WPA: the versions that hostapd is to speak, and
    whether a key shared in advance is enough. *)
Definition wpa_table : list (cstr * (cstr * bool)) :=
  [("AUTH_WPA" : cstr, ("1" : cstr, false)); ("AUTH_WPAPSK" : cstr, ("1" : cstr, true));
   ("AUTH_WPA2" : cstr, ("2" : cstr, false)); ("AUTH_WPA2PSK" : cstr, ("2" : cstr, true));
   ("WPA_AUTO" : cstr, ("3" : cstr, false)); ("WPA_AUTO_PSK" : cstr, ("3" : cstr, true))].

Definition who_joins (a : cfg) (vap : Z) : list (cstr * cstr) :=
  let value suf := safe a (vap_key 0 vap suf) in
  let auth := value "_auth_mode" in
  let radius := bool_decide (value "_access_control" = ("Radius" : cstr)) in
  let dot1x (b : bool) := if b then [("ieee8021x" : cstr, "1" : cstr)] else [] in
  ("ssid" : cstr, value "") ::
  match find (λ e, bool_decide (auth = e.1)) wpa_table with
  | Some (_, (version, psk)) =>
      ("wpa" : cstr, version) ::
      (if (psk : bool) then [("wpa_passphrase" : cstr, value "_passphrase"); ("wpa_key_mgmt" : cstr, "WPA-PSK" : cstr)]
       else [("wpa_key_mgmt" : cstr, "WPA-EAP" : cstr)]) ++
      ("wpa_pairwise" : cstr,
        if bool_decide (value "_wpa_cipher" = ("TKIP" : cstr)) then "TKIP" : cstr
        else if bool_decide (value "_wpa_cipher" = ("AES" : cstr)) then "CCMP" : cstr else "TKIP CCMP" : cstr) ::
      dot1x (negb psk || radius)
  | None =>
      if bool_decide (auth = ("AUTH_DOT1X" : cstr)) then dot1x true else ("wpa" : cstr, "0" : cstr) :: dot1x radius
  end.

Lemma radius_acl_name a vap : radius_acl a vap = bool_decide (safe a (vap_key 0 vap "_access_control") = ("Radius" : cstr)).
Proof.
  unfold radius_acl, code_of. generalize (safe a (vap_key 0 vap "_access_control")). intros t. cbn [find acl_mode_names snd].
  repeat (case_bool_decide; subst; try done).
Qed.

Lemma cipher_text a vap (x y z : cstr) :
  (if code_of cipher_names WPA_CIPHER_AUTO (safe a (vap_key 0 vap "_wpa_cipher")) =? WPA_CIPHER_TKIP then x
   else if code_of cipher_names WPA_CIPHER_AUTO (safe a (vap_key 0 vap "_wpa_cipher")) =? WPA_CIPHER_AES then y else z) =
  (if bool_decide (safe a (vap_key 0 vap "_wpa_cipher") = ("TKIP" : cstr)) then x
   else if bool_decide (safe a (vap_key 0 vap "_wpa_cipher") = ("AES" : cstr)) then y else z).
Proof.
  unfold code_of. generalize (safe a (vap_key 0 vap "_wpa_cipher")). intros t. cbn [find cipher_names snd].
  repeat (case_bool_decide; subst; try done).
Qed.

Lemma join_settings_table a vap : join_settings a vap = who_joins a vap.
Proof.
  unfold join_settings, who_joins, wpa_settings, ssid_setting, psk_settings, dot1x_setting, auth_type.
  rewrite <- radius_acl_name. cbv zeta. rewrite !cipher_text. generalize (radius_acl a vap). intros radius.
  unfold code_of. generalize (safe a (vap_key 0 vap "_auth_mode")). intros t.
  cbn [find auth_names wpa_table fst snd].
  repeat (case_bool_decide; subst; try done).
Qed.

(** The lines of a file. *)
Fixpoint lines (t : bytes) : list cstr :=
  match t with
  | [] => []
  | c :: t' =>
      if decide (c = nl) then [] :: lines t'
      else match lines t' with [] => [[c]] | l :: ls => (c :: l) :: ls end
  end.

Lemma lines_line l t : clean l → lines (l ++ nl :: t) = l :: lines t.
Proof.
  induction l as [|c l IH]; intros Hc; cbn [app lines]; [by rewrite decide_True|].
  apply not_elem_of_cons in Hc as [Hc Hl]. rewrite decide_False by (by intros ->). by rewrite IH.
Qed.

Lemma lines_text ls : Forall clean ls → lines (text ls) = ls.
Proof.
  induction 1 as [|l ls Hl _ IH]; [done|]. unfold text in *. cbn [map concat].
  rewrite <- app_assoc. cbn [app]. by rewrite lines_line, IH.
Qed.

(** An access point has an authenticator if it is the first, or uses WPA or 802.1X, or asks
    a RADIUS server for the list of stations. *)
Definition authenticated (a : cfg) (vap : Z) : bool :=
  let auth := safe a (vap_key 0 vap "_auth_mode") in
  (vap =? 0) || existsb (λ e, bool_decide (auth = e.1)) wpa_table || bool_decide (auth = ("AUTH_DOT1X" : cstr)) ||
  bool_decide (safe a (vap_key 0 vap "_access_control") = ("Radius" : cstr)).

Lemma authenticated_with a vap : authenticated a vap = true → with_hostapd a vap = true.
Proof.
  unfold authenticated, with_hostapd, auth_type. rewrite <- radius_acl_name. cbv zeta.
  generalize (radius_acl a vap). intros radius. unfold code_of. generalize (safe a (vap_key 0 vap "_auth_mode")). intros t.
  destruct (vap =? 0), radius; rewrite ?orb_true_r; try done. rewrite !orb_false_r. cbn [orb existsb wpa_table find auth_names fst snd].
  repeat (case_bool_decide; subst; try done).
Qed.

(** The scripts that set an access point up. *)
Definition security_scripts (vap : Z) : list cstr := [vap_script vap; ATH_UP 0 ATH_UP_AP].

Lemma security_paths vap script : 0 <= vap < 4 → script ∈ security_scripts vap →
  let ps := [script; topology_name (ath 0 vap)] in
  kept (hostap_name (ath 0 vap)) ∧ Forall (λ p, kept p ∧ p ≠ hostap_name (ath 0 vap)) ps ∧
  topology_name (ath 0 vap) ≠ script.
Proof.
  intros Hv. assert (Hin : vap ∈ [0; 1; 2; 3]) by (rewrite !elem_of_cons; lia).
  assert (H : Forall (λ vap, Forall (λ script,
    kept (hostap_name (ath 0 vap)) ∧
    Forall (λ p, kept p ∧ p ≠ hostap_name (ath 0 vap)) [script; topology_name (ath 0 vap)] ∧
    topology_name (ath 0 vap) ≠ script) (security_scripts vap)) [0; 1; 2; 3]) by closed.
  rewrite Forall_forall in H. specialize (H vap Hin). rewrite Forall_forall in H. exact (H script).
Qed.

(** C15: hostapd is told who may join.  For an access point that is authenticated, on a
    machine whose values fit their buffers and hold no newline, [wlanSecurityApply] leaves a
    configuration file whose lines about the SSID, WPA, the keys and 802.1X are, in order,
    those that the stored parameters stand for, whatever the file held before. *)
Theorem hostapd_told_who_joins s a vap script :
  0 <= vap < 4 → script ∈ security_scripts vap → sys_rep s a → wlan_fits a → vap_fits a vap →
  (∀ k, clean (safe a k)) → version_ok (λ p, files s !! p) → authenticated a vap = true →
  runs (wlanSecurityApply (Some script) 0 vap) s (λ _ s',
    sys_rep s' a ∧ ∃ t, files s' !! hostap_name (ath 0 vap) = Some t ∧ settings (lines t) = who_joins a vap).
Proof.
  intros Hv Hin Hrep Hw Hf Hc Hver Ha. destruct (security_paths vap script Hv Hin) as (H1 & H2 & H3).
  eapply runs_mono.
  { apply (security_said stack a (hostap_name (ath 0 vap)) [script; topology_name (ath 0 vap)] (λ p, files s !! p) script);
      try done; [left|right; left|by apply authenticated_with]. }
  cbv beta. intros _ s' ([Hrep' _] & ls & Ht & Hls & Hcl). split; [done|]. exists (text ls).
  split; [done|]. by rewrite lines_text, Hls, join_settings_table.
Qed.

(** ** The SSID on a command line *)

(** What may follow a dollar sign that stands for an expansion. *)
Definition expands (c : ascii) : bool :=
  ((65 <=? code c) && (code c <=? 90)) || ((97 <=? code c) && (code c <=? 122)) || isdigit c || bool_decide (c ∈ ["_"; "@"; "*"; "#"; "?"; "-"; "$"; "!"; "("; "{"]%char).

Definition lit (x : ascii) (r : option (cstr * cstr)) : option (cstr * cstr) :=
  match r with Some (w, rest) => Some (x :: w, rest) | None => None end.

(** Text between double quotes, as the shell's standard has it, from behind the first
    quote: the text and what follows the second quote, or [None] where a variable or a command
    is to be expanded, or the quote is missing. *)
Fixpoint dquoted (t : cstr) : option (cstr * cstr) :=
  match t with
  | [] => None
  | c :: t' =>
      if decide (c = dquote) then Some ([], t')
      else if decide (c = "`"%char) then None
      else if decide (c = "\"%char) then
        match t' with
        | [] => None
        | d :: t'' =>
            if decide (d ∈ ["$"; "`"; dquote; "\"]%char) then lit d (dquoted t'')
            else if decide (d = nl) then dquoted t'' else lit c (dquoted t')
        end
      else if bool_decide (c = "$"%char) && match t' with d :: _ => expands d | [] => false end then None
      else lit c (dquoted t')
  end.

(** A dollar sign in front of something that it expands. *)
Fixpoint has_expansion (t : cstr) : bool :=
  match t with
  | c :: (d :: _) as t' => (bool_decide (c = "$"%char) && expands d) || has_expansion t'
  | _ => false
  end.

Lemma has_expansion_cons c t :
  has_expansion (c :: t) = (bool_decide (c = "$"%char) && match t with d :: _ => expands d | [] => false end) || has_expansion t.
Proof. destruct t as [|d t]; [by rewrite andb_false_r|done]. Qed.

(** What follows a dollar sign is what followed it before the conversion, unless that is
    a character that expands nothing. *)
Lemma expands_after t rest :
  match scConversionSSID t ++ dquote :: rest with d :: _ => expands d | [] => false end =
  match t with d :: _ => expands d | [] => false end.
Proof.
  destruct t as [|d t]; [done|]. unfold scConversionSSID. cbn [map concat]. unfold ssid_char.
  case_decide as H; [|done]. by destruct H as [-> | [-> | ->]].
Qed.

Lemma dquoted_ssid t rest :
  dquoted (scConversionSSID t ++ dquote :: rest) = if has_expansion t then None else Some (t, rest).
Proof.
  induction t as [|c t IH]; [done|]. rewrite has_expansion_cons.
  assert (Hgo : scConversionSSID (c :: t) ++ dquote :: rest = ssid_char c ++ (scConversionSSID t ++ dquote :: rest))
    by (unfold scConversionSSID; cbn [map concat]; by rewrite <- app_assoc).
  rewrite Hgo. pose proof (expands_after t rest) as Hx. set (u := scConversionSSID t ++ dquote :: rest) in *.
  unfold ssid_char. case_decide as H.
  - assert (Hc : c ≠ "$"%char) by (by destruct H as [-> | [-> | ->]]).
    rewrite bool_decide_eq_false_2 by done. cbn [andb orb app dquoted].
    rewrite (decide_False (P := "\"%char = dquote)) by done. rewrite (decide_False (P := "\"%char = "`"%char)) by done.
    rewrite (decide_True (P := "\"%char = "\"%char)) by done.
    rewrite (decide_True (P := _ ∈ _)) by (rewrite !elem_of_cons; naive_solver).
    rewrite IH. by destruct (has_expansion t).
  - cbn [app dquoted]. rewrite (decide_False (P := c = dquote)), (decide_False (P := c = "`"%char)),
      (decide_False (P := c = "\"%char)) by tauto. rewrite Hx.
    destruct (decide (c = "$"%char)) as [->|Hc].
    + rewrite (bool_decide_eq_true_2 ("$"%char = _)) by done. cbn [andb].
      destruct (match t with [] => _ | _ => _ end); [done|]. cbn [orb]. rewrite IH. by destruct (has_expansion t).
    + rewrite bool_decide_eq_false_2 by done. cbn [andb orb]. rewrite IH. by destruct (has_expansion t).
Qed.

(** C31: the SSID reaches iwconfig if the shell expands nothing in it.  Setting the
    name of an access point adds two lines to the script, the first of which gives the SSID
    between double quotes; read as the shell reads it, the word is the stored SSID and the
    redirection follows, for every SSID that fits the buffer, whatever quotes, backquotes and
    backslashes it holds, except that a dollar sign in front of a name, a digit or a parenthesis is
    expanded: an SSID can run a command. *)
Theorem ssid_reaches_iwconfig s a vap f :
  sys_rep s a → vap_fits a vap → kept f →
  runs (essid_lines (Some f) 0 vap (ath 0 vap)) s (λ _ s',
    sys_rep s' a ∧ cmds s' = cmds s ∧
    ∃ q l2, default [] (files s' !! f) =
        default [] (files s !! f) ++ text [("iwconfig " ++ ath 0 vap ++ " essid ") ++ dquote :: q; l2] ∧
      dquoted q = if has_expansion (safe a (vap_key 0 vap "")) then None
                  else Some (safe a (vap_key 0 vap ""), quietly)).
Proof.
  intros Hrep Hv Hk. set (ssid := safe a (vap_key 0 vap "")).
  set (q := scConversionSSID ssid ++ dquote :: quietly).
  assert (Hsay : says a f [] (λ p, files s !! p) (essid_lines (Some f) 0 vap (ath 0 vap))
    (λ _ ls, ∃ l2, ls = [("iwconfig " ++ ath 0 vap ++ " essid ") ++ dquote :: q; l2])).
  { unfold essid_lines. eapply says_read; [done|by apply (reads_ssid stack)|]. fold ssid.
    eapply says_read; [done|apply reads_strcpy|].
    - pose proof (ssid_length ssid). pose proof (vap_fit a vap "" 33 Hv ltac:(closed)) as H33. fold ssid in H33. lia.
    - eapply says_bind; [apply says_add with (Q := λ _ ls, ls = [("iwconfig " ++ ath 0 vap ++ " essid ") ++ dquote :: q]); [done|]|].
      + unfold q. by rewrite <- !app_assoc.
      + intros _ l1 ->. eapply says_read; [done|reads_getter|]. apply says_add; [done|]. by eexists. }
  use_runs (Hsay s (conj Hrep (λ _ _, eq_refl))). intros _ s' ([Hr _] & ls & [l2 ->] & _ & Hc & Ht & _).
  split; [done|]. split; [done|]. exists q, l2. split; [done|]. apply dquoted_ssid.
Qed.
End handler.

(** ** A machine to run them on *)

#[local] Existing Instances sample_heap ideal_dev sample_shell.

(** A board whose commands and scripts do nothing that is looked at, with [n] spare bytes. *)
Definition bench (n : nat) : Board := {|
  WifiStart.shell_effect := λ _ s, s;
  if_hwaddr := λ _, Some (map chr [0; 37; 156; 1; 2; 255]);
  vapStr_slack := n;
|}.

Definition radio_es : list cstr :=
  ["wlan0_state=1" : cstr; "wlan0_op_mode=AccessPoint" : cstr; "wlan0_channel_width=CWM_MODE_20M" : cstr;
   "wlan0_remote_bridge_mac=" ++ concat (replicate 8 ("00:25:9C:01:02:03," : cstr));
   "wlan0_ssid0=caf`e" : cstr; "wlan0_ssid0_state=1" : cstr; "wlan0_ssid0_auth_mode=AUTH_WPA2PSK" : cstr;
   "wlan0_ssid0_wpa_cipher=AES" : cstr; "wlan0_ssid0_passphrase=correct horse" : cstr].

Definition radio : sys :=
  set_files (<[("/etc/fwversion" : cstr) := ("2074" : cstr) ++ [nl]]> (<[("/etc/extra_version" : cstr) := ("4" : cstr) ++ [nl]]>
    (files (boot radio_es [])))) (boot radio_es []).
Definition radio_cfg : cfg := boot_cfg radio_es [].

Lemma radio_rep : sys_rep radio radio_cfg.
Proof.
  apply (sys_rep_frame (boot radio_es [])).
  - intros p Hp. unfold radio. cbn [files set_files].
    rewrite !lookup_insert_ne; [done|..]; intros <-; by apply (bool_decide_eq_true (_ ∈ stores)) in Hp.
  - apply boot_rep; closed.
Defined.

Lemma radio_version : version_ok (λ p, files radio !! p).
Proof.
  exists ("2074" : cstr), [], (("4" : cstr) ++ [nl]). split_and!; [vm_compute; reflexivity|done|closed|closed|vm_compute; reflexivity|closed..].
Defined.

Lemma radio_vap vap : 0 <= vap < 4 → vap_fits radio_cfg vap ∧ acl_readable radio_cfg vap.
Proof.
  intros Hv. assert (Hin : vap ∈ [0; 1; 2; 3]) by (rewrite !elem_of_cons; lia).
  assert (H : Forall (λ vap, vap_fits radio_cfg vap ∧ safe radio_cfg (acl_key 0 vap) = []) [0; 1; 2; 3]) by closed.
  rewrite Forall_forall in H. destruct (H vap Hin) as [H1 H2]. split; [done|]. exists []. by rewrite H2.
Defined.

Lemma radio_clean k : clean (safe radio_cfg k).
Proof.
  assert (H : map_Forall (λ _ v, clean v) (abs radio_es)) by closed.
  unfold safe, radio_cfg, boot_cfg, view. cbn [val].
  destruct (abs radio_es !! k) as [v|] eqn:E; [by apply (H k)|].
  change (abs [] !! k) with ((∅ : gmap cstr cstr) !! k). rewrite lookup_empty. closed.
Defined.

Lemma radio_ready_vap vap : 0 <= vap < 4 → radio_ready radio_cfg vap (λ p, files radio !! p).
Proof.
  intros Hv. destruct (radio_vap vap Hv), (radio_vap 0 ltac:(lia)).
  split; [closed|done|done|done|closed|closed|apply radio_version].
Defined.

Lemma radio_starts : start_ready (board := bench 0) radio_cfg radio (map chr [0; 37; 156; 1; 2; 255]).
Proof. split; [closed|exact radio_vap|closed|closed|closed|apply radio_version|done|done]. Defined.

Lemma bench_harmless n : harmless (board := bench n).
Proof. done. Defined.

Example vap_handler_runs_witness :
  runs (vap_handler (store := sample_store) (wifi := wifiuti (store := sample_store) (board := bench 0)) 0 1) radio
    (λ r s', r = 0 ∧ sys_rep s' radio_cfg ∧ cmds s' = [vap_script 1]).
Proof.
  eapply runs_mono;
    [refine (vap_handler_runs (board := bench 0) 7 radio radio_cfg 1 _ radio_rep (radio_ready_vap 1 _) _)|].
  - lia.
  - lia.
  - closed.
  - cbv beta. intros r s' (-> & H & _ & Hc & _). split; [done|]. by split.
Defined.

Example wlan_handler_runs_witness :
  runs (wlan_handler (wifi := wifiuti (store := sample_store) (board := bench 1)) 0 (-1)) radio
    (λ r s', r = 0 ∧ sys_rep s' radio_cfg ∧
      take 2 (cmds s') = ["/tmp/wlan0_down" : cstr; "echo 00259C0102FF > /tmp/wsc_mac" : cstr]).
Proof.
  eapply runs_mono;
    [refine (wlan_handler_runs (board := bench 1) 7 radio radio_cfg (map chr [0; 37; 156; 1; 2; 255]) (-1)
               (bench_harmless 1) _ radio_rep _)|].
  - done.
  - destruct radio_starts. by split.
  - cbv beta. intros r s' (-> & H & channel & ->). split; [done|]. split; [done|]. vm_compute. reflexivity.
Defined.

Example start_overruns_vapStr_witness :
  wlanStart (store := sample_store) (board := bench 0) None 0 radio = Fault.
Proof.
  refine (start_overruns_vapStr (board := bench 0) 7 radio radio_cfg _ (bench_harmless 0) eq_refl radio_rep radio_starts _ _ _).
  - closed.
  - vm_compute. reflexivity.
  - vm_compute. discriminate.
Defined.

Example hostapd_told_who_joins_witness :
  runs (wlanSecurityApply (store := sample_store) (Some (vap_script 0)) 0 0) radio (λ _ s',
    ∃ t, files s' !! hostap_name (ath 0 0) = Some t ∧
      settings (lines t) = [("ssid" : cstr, "caf`e" : cstr); ("wpa" : cstr, "2" : cstr);
        ("wpa_passphrase" : cstr, "correct horse" : cstr); ("wpa_key_mgmt" : cstr, "WPA-PSK" : cstr);
        ("wpa_pairwise" : cstr, "CCMP" : cstr)]).
Proof.
  eapply runs_mono;
    [refine (hostapd_told_who_joins 7 radio radio_cfg 0 (vap_script 0) _ _ radio_rep _ _ radio_clean radio_version _)|].
  - lia.
  - left.
  - closed.
  - apply radio_vap. lia.
  - vm_compute. reflexivity.
  - cbv beta. intros _ s' (_ & t & Ht & E). exists t. split; [done|]. rewrite E. vm_compute. reflexivity.
Defined.

Example ssid_reaches_iwconfig_witness :
  runs (essid_lines (store := sample_store) (Some (vap_script 0)) 0 0 (ath 0 0)) radio (λ _ s',
    ∃ q l2, files s' !! vap_script 0 = Some (text [("iwconfig ath00 essid " : cstr) ++ dquote :: q; l2]) ∧
      dquoted q = Some ("caf`e" : cstr, quietly)).
Proof.
  eapply runs_mono;
    [refine (ssid_reaches_iwconfig 7 radio radio_cfg 0 (vap_script 0) radio_rep _ _)|].
  - apply radio_vap. lia.
  - closed.
  - cbv beta. intros _ s' (_ & _ & q & l2 & Ht & E). exists q, l2. rewrite E.
    change (files radio !! vap_script 0) with (@None bytes) in Ht. cbn [default from_option id app] in Ht.
    split; [|vm_compute; reflexivity]. destruct (files s' !! vap_script 0) as [x|]; cbn in Ht; [f_equal; exact Ht|discriminate Ht].
Defined.
