(* ===== verification/ApplyTheorems.v ===== *)
(** * The theorems about applying the configuration

    How the lines of the flag file mark items; the walk for any invariant that
    logging, commands and copied defaults keep ([steady]); then, with the code of
    wifiuti.c behind the handlers, what an item needs ([item_ready]), the
    commands that are right for it ([item_runs]), and the run of
    [apl_do_apply]. *)

From S2P Require Import Prelude CLib Utility FileSys Nvram NvramSpec NvramCorrect Scfg Sample CfgStore ApCfgSys ApCfgWlan CfgRefine AplFlag CfgImpl Session CfgOverflow CfgTheorems CfgMode FlagTheorems Apply ApplyCorrect WifiScript WifiSecurity WifiStart WifiCorrect WifiStartCorrect WifiTheorems.

Section apply.
Context {heap : Heap} {dev : FlashDev} {shell : Shell} {wifi : Wifi}.
Variable stack : Z.
#[local] Hint Extern 0 (CfgStore sys) => exact (sys_store stack) : typeclass_instances.

(** The machines differ only in these files. *)
Definition same_but (ps : list cstr) (s s' : sys) : Prop :=
  flash s' = flash s ∧ ∀ p, p ∉ ps → files s' !! p = files s !! p.

Lemma same_but_refl ps s : same_but ps s s.
Proof. by split. Qed.
Lemma same_but_trans ps s1 s2 s3 : same_but ps s1 s2 → same_but ps s2 s3 → same_but ps s1 s3.
Proof. intros [F1 P1] [F2 P2]. split; [congruence|]. intros p Hp. by rewrite P2, P1. Qed.

(** Logging and commands do not change the configuration a machine represents. *)
Lemma sys_rep_same s s' a : same_but [APPLY_DBG] s s' → sys_rep s a → sys_rep s' a.
Proof.
  intros [_ Hp] (es & ds & Hn & Hv & Hf).
  assert (Hq : ∀ p, p ≠ APPLY_DBG → files s' !! p = files s !! p).
  { intros p Hne. apply Hp. by intros ->%list_elem_of_singleton. }
  exists es, ds. split; [|split; [done|]].
  - destruct Hn as [H1 H2 H3]. split; [by rewrite Hq|done|by rewrite Hq].
  - unfold flags_rep in *. rewrite !Hq by done. done.
Qed.

Lemma same_but_log s x :
  same_but [APPLY_DBG] s (set_files (<[APPLY_DBG := x]> (files s)) s).
Proof.
  split; [done|]. intros p Hp. cbn [files set_files]. rewrite lookup_insert_ne; [done|].
  intros <-. apply Hp. left.
Qed.

(** ** Marking the items *)

Definition marks (fl : list bool) (ids : list Z) : list bool :=
  fold_left (λ f id, if 0 <? id then <[Z.to_nat id := true]> f else f) ids fl.

Lemma marks_length fl ids : length (marks fl ids) = length fl.
Proof.
  revert fl. induction ids as [|id ids IH]; intros fl; [done|]. cbn [marks fold_left].
  unfold marks in IH. rewrite IH. case_match; [by rewrite length_insert|done].
Qed.

Lemma marks_nth fl ids i :
  Forall (λ id, 0 <= id < zlen fl) ids → 0 <= i →
  nth (Z.to_nat i) (marks fl ids) false = nth (Z.to_nat i) fl false || ((0 <? i) && bool_decide (i ∈ ids)).
Proof.
  intros Hids Hi. revert fl Hids. induction ids as [|id ids IH]; intros fl Hids; cbn [marks fold_left].
  { by rewrite andb_false_r, orb_false_r. }
  apply List.Forall_cons_iff in Hids as [Hid Hids]. fold (marks (if 0 <? id then <[Z.to_nat id:=true]> fl else fl) ids).
  assert (E : bool_decide (i ∈ id :: ids) = (i =? id) || bool_decide (i ∈ ids)).
  { destruct (Z.eqb_spec i id) as [->|Hne]; cbn [orb].
    - apply bool_decide_true. left.
    - apply bool_decide_ext. rewrite elem_of_cons. naive_solver. }
  rewrite E. destruct (Z.ltb_spec 0 id) as [Hpos|Hz].
  - rewrite IH by (by rewrite length_insert). rewrite !nth_lookup.
    destruct (Z.eqb_spec i id) as [->|Hne].
    + rewrite list_lookup_insert_eq by lia. rewrite (proj2 (Z.ltb_lt 0 id)) by lia. cbn. by rewrite orb_true_r.
    + rewrite list_lookup_insert_ne by lia. done.
  - rewrite IH by done. destruct (Z.eqb_spec i id) as [->|Hne]; [|done].
    rewrite (proj2 (Z.ltb_ge 0 id)) by lia. done.
Qed.

Lemma mark_items_runs ids p :
  Forall named ids → length (a_flag p) = 34%nat →
  runs (mark_items ids) p (λ _ p', a_flag p' = marks (a_flag p) ids ∧ mdns_stopped p' = mdns_stopped p ∧
    cmds (a_sys p') = cmds (a_sys p) ∧ same_but [APPLY_DBG] (a_sys p) (a_sys p')).
Proof.
  intros Hids. revert p. induction Hids as [|id ids Hid Hids IH]; intros p Hl; cbn [mark_items].
  { apply runs_ret. split_and!; [done|done|done|apply same_but_refl]. }
  cbn [marks fold_left]. apply runs_bind. unfold when, named, APL_NAMED in *.
  destruct (Z.ltb_spec 0 id) as [Hpos|Hz]; [|apply runs_ret; by apply IH].
  apply runs_bind. unfold set_flag_at. apply runs_bind, runs_get.
  rewrite (proj2 (Z.ltb_ge id 0)), (proj2 (Z.leb_gt _ id)) by lia. cbn [orb]. apply runs_put.
  apply runs_machine. unfold id_string. rewrite (proj2 (Z.ltb_ge id 0)) by lia.
  destruct (lookup_lt_is_Some_2 idString (Z.to_nat id)) as [nm Hnm].
  { change (length idString) with 33%nat. lia. }
  rewrite Hnm. apply runs_bind, runs_ret. unfold applyLog, append_file. apply runs_mod.
  set (p1 := Apl _ _ _). use_runs (IH p1); [unfold p1; cbn [a_flag]; by rewrite length_insert|].
  intros _ p2 (H1 & H2 & H3 & H4). split_and!; [done|done|done|].
  eapply same_but_trans; [|exact H4]. apply same_but_log.
Qed.
(** ** The items to apply *)

Lemma ancestors_range :
  Forall (λ i, 0 <= i ∧ Forall (λ j, 0 <= j < i) (ancestors i)) (map Z.of_nat (seq 0 34)).
Proof. closed. Qed.

Lemma existsb_ext_in {A} (f g : A → bool) l : (∀ x, x ∈ l → f x = g x) → existsb f l = existsb g l.
Proof.
  induction l as [|x l IH]; intros H; [done|]. cbn [existsb].
  rewrite (H x) by left. rewrite IH; [done|]. intros y Hy. apply H. by right.
Qed.

Lemma due_ext f g : (∀ i, 0 <= i → f i = g i) → due f = due g.
Proof.
  intros H. unfold due. apply filter_ext_in. intros i Hi%list_elem_of_In.
  pose proof ancestors_range as Ha. rewrite Forall_forall in Ha. destruct (Ha i Hi) as [H0 Hj].
  rewrite Forall_forall in Hj. rewrite H by done. f_equal. f_equal.
  apply existsb_ext_in. intros j Hin. apply H. apply Hj in Hin. lia.
Qed.

(** The flags set from the lines of the flag file. *)
Definition flags_of (l : list Z) : list bool := marks (replicate 34 false) (l ++ [0]).

Lemma nth_unflagged n k : nth k (replicate n false) false = false.
Proof. revert k. induction n as [|n IH]; intros [|k]; [done|done|done|apply IH]. Qed.

Lemma flags_of_length l : length (flags_of l) = 34%nat.
Proof. unfold flags_of. by rewrite marks_length. Qed.

Lemma named_end l : Forall (λ i, 0 < i < APL_NAMED) l → Forall named (l ++ [0]).
Proof.
  intros Hl. apply Forall_app_2; [|by repeat constructor].
  eapply Forall_impl; [exact Hl|]. unfold named. intros i. cbv beta. lia.
Qed.

Lemma flags_of_nth l i :
  Forall (λ i, 0 < i < APL_NAMED) l → 0 <= i → nth (Z.to_nat i) (flags_of l) false = bool_decide (i ∈ l).
Proof.
  intros Hl Hi. unfold flags_of. rewrite marks_nth; [|..|done].
  2: { eapply Forall_impl; [exact (named_end l Hl)|]. unfold named, APL_NAMED. intros j Hj.
       change (zlen (replicate 34 false)) with 34. lia. }
  replace (nth (Z.to_nat i) (replicate 34 false) false) with false
    by (symmetry; apply nth_unflagged).
  cbn [orb]. apply eq_true_iff_eq. rewrite andb_true_iff, Z.ltb_lt, !bool_decide_eq_true, elem_of_app.
  split.
  - intros [Hp [Hin|?%list_elem_of_singleton]]; [done|lia].
  - intros Hin. split; [|by left]. rewrite Forall_forall in Hl. specialize (Hl i Hin). cbv beta in Hl. lia.
Qed.

Lemma flags_of_due l : Forall (λ i, 0 < i < APL_NAMED) l →
  due (λ i, nth (Z.to_nat i) (flags_of l) false) = due (λ i, bool_decide (i ∈ l)).
Proof. intros Hl. apply due_ext. intros i Hi. by apply flags_of_nth. Qed.

(** ** What the walk keeps *)

(** An invariant of the process: the machine represents the configuration, and
    neither the log, nor a command, nor the copy of a default changes that. *)
Record steady (a : cfg) (I : sys → Prop) : Prop := Steady {
  st_rep s : I s → sys_rep s a;
  st_log s x : I s → I (set_files (<[APPLY_DBG := x]> (files s)) s);
  st_cmd s c : I s → I (add_cmd c s);
  st_shadow s s' : I s → nv_frame s s' → sys_rep s' a → I s';
}.

Lemma dhcp_runs a I s :
  steady a I → I s →
  runs apCfgDhcpEnableGet s (λ r s', r = dec_bool (safe a "lan_dhcpc") ∧ I s' ∧ cmds s' = cmds s).
Proof.
  intros HI Hs. assert (Hd : reads a apCfgDhcpEnableGet (dec_bool (safe a "lan_dhcpc"))) by reads_getter.
  use_runs (Hd s (st_rep _ _ HI _ Hs)). intros r s' (-> & Hr & Hf). split; [done|].
  split; [by apply (st_shadow _ _ HI s)|]. apply Hf.
Qed.

(** The walk over the table of the firmware. *)
Lemma walk_runs a I out p :
  steady a I → Forall (handled applyTable I out) (due (flagged p)) → length (a_flag p) = 34%nat →
  I (a_sys p) → mdns_stopped p = false →
  runs (apl_handleApplyTree applyTable APL_ROOT) p (λ r p', r = 0 ∧ I (a_sys p') ∧ a_flag p' = a_flag p ∧
    ∃ lss, Forall2 out (due (flagged p)) lss ∧
    cmds (a_sys p') = cmds (a_sys p) ++
      (if needs_stop (dec_bool (safe a "lan_dhcpc")) (a_flag p) then [mdns_stop] else []) ++ concat lss).
Proof.
  intros HI Hh Hl Hr Hs. unfold flagged in *. rewrite <- visits_due in * by done.
  exact (handleApplyTree_runs applyTable I (dec_bool (safe a "lan_dhcpc"))
    (λ s data, st_log _ _ HI s _) (st_cmd _ _ HI) (λ s, dhcp_runs a I s HI)
    (a_flag p) out p Hh applyTable_forward Hl eq_refl (conj Hr (conj eq_refl Hs))).
Qed.

(** ** Every flagged item is served *)

(** The ancestors of an ancestor follow it in the list. *)
Lemma ancestors_suffix :
  Forall (λ i, ∀ k j, ancestors i !! k = Some j → j ∈ map Z.of_nat (seq 0 34) ∧ ancestors j = drop (S k) (ancestors i))
    (map Z.of_nat (seq 0 34)).
Proof.
  assert (H : Forall (λ i, Forall (λ kj : nat * Z, kj.2 ∈ map Z.of_nat (seq 0 34) ∧
      ancestors kj.2 = drop (S kj.1) (ancestors i)) (imap pair (ancestors i))) (map Z.of_nat (seq 0 34)))
    by closed.
  eapply Forall_impl; [exact H|]. intros i Hi k j Hk. rewrite Forall_lookup in Hi.
  apply (Hi k (k, j)). by rewrite list_lookup_imap, Hk.
Qed.

(** The last changed item of a list has no changed item behind it. *)
Lemma last_changed (f : Z → bool) l :
  existsb f l = true → ∃ k j, l !! k = Some j ∧ f j = true ∧ existsb f (drop (S k) l) = false.
Proof.
  induction l as [|x l IH]; intros H; [done|]. cbn [existsb] in H.
  destruct (existsb f l) eqn:E.
  - destruct (IH eq_refl) as (k & j & Hk & Hf & Hd). by exists (S k), j.
  - exists 0%nat, x. rewrite orb_false_r in H. by split_and!.
Qed.

Lemma due_spec f i : i ∈ due f ↔ 0 <= i < 34 ∧ f i = true ∧ existsb f (ancestors i) = false.
Proof.
  unfold due. rewrite list_elem_of_In, filter_In, in_map_iff, andb_true_iff, negb_true_iff.
  split.
  - intros [(n & <- & Hn%in_seq) [H1 H2]]. split_and!; [lia|lia|done|done].
  - intros (Hi & H1 & H2). split; [|done]. exists (Z.to_nat i). rewrite in_seq. lia.
Qed.

Lemma due_covers f i : 0 <= i < 34 → f i = true → i ∈ due f ∨ ∃ j, j ∈ ancestors i ∧ j ∈ due f.
Proof.
  intros Hi Hf. destruct (existsb f (ancestors i)) eqn:E; [right|left; by apply due_spec].
  destruct (last_changed f _ E) as (k & j & Hk & Hj & Hd).
  pose proof ancestors_suffix as Ha. rewrite Forall_forall in Ha.
  destruct (Ha i) with k j as [Hin Hs]; [|done|].
  { apply list_elem_of_In, in_map_iff. exists (Z.to_nat i). rewrite in_seq. lia. }
  exists j. split; [by eapply list_elem_of_lookup_2|]. apply due_spec. rewrite Hs. split_and!; [..|done|done].
  all: apply list_elem_of_In, in_map_iff in Hin as (n & <- & Hn%in_seq); lia.
Qed.

Lemma due_nodup f : NoDup (due f).
Proof. apply NoDup_ListNoDup, List.NoDup_filter, NoDup_ListNoDup. closed. Qed.

(** C12: the tree is served top down, each item at most once.  Let the handlers of the
    items due (flagged, with no flagged item above) each have a name in the log and, from every
    machine that satisfies some invariant, end with 0, keep the invariant and run commands that
    are right for the item ([handled]; [out] relates an item to such commands); and let the
    invariant imply the configuration and survive the log, commands and copies of defaults
    ([steady]).  Then the walk over the table comes to an end with every flagged item served: its
    own handler ran, or that of an item above it; no handler runs twice, none of an item that is
    not flagged or that is below a flagged one, the commands run are those of the items served,
    in order, behind at most one stop of the Bonjour service.  The handlers of the first radio
    and its access points with the code of wifiuti.c are among those the hypothesis holds for. *)
Theorem walk_serves_every_flag a I out p :
  steady a I → Forall (handled applyTable I out) (due (flagged p)) → length (a_flag p) = 34%nat →
  I (a_sys p) → mdns_stopped p = false →
  runs (apl_handleApplyTree applyTable APL_ROOT) p (λ r p', r = 0 ∧ I (a_sys p') ∧ a_flag p' = a_flag p ∧
    ∃ served stop lss, Forall2 out served lss ∧
    cmds (a_sys p') = cmds (a_sys p) ++ stop ++ concat lss ∧
    (stop = [] ∨ stop = [mdns_stop]) ∧ NoDup served ∧
    ∀ i, 0 <= i < 34 →
      (i ∈ served → flagged p i = true ∧ ∀ j, j ∈ ancestors i → flagged p j = false) ∧
      (flagged p i = true → i ∈ served ∨ ∃ j, j ∈ ancestors i ∧ j ∈ served)).
Proof.
  intros HI Hh Hl Hr Hs. use_runs (walk_runs a I out p HI Hh Hl Hr Hs).
  intros r p' (-> & H1 & H2 & lss & Hlss & H3). split; [done|]. split; [done|]. split; [done|].
  exists (due (flagged p)), (if needs_stop (dec_bool (safe a "lan_dhcpc")) (a_flag p) then [mdns_stop] else []), lss.
  split; [done|]. split; [done|]. split; [case_match; [by right|by left]|].
  split; [apply due_nodup|]. intros i Hi. split; [|by apply due_covers].
  intros (_ & Hf & Ha)%due_spec. split; [done|]. intros j Hj.
  destruct (flagged p j) eqn:E; [|done]. rewrite <- Ha. symmetry. apply existsb_exists.
  exists j. split; [by apply list_elem_of_In|done].
Qed.
End apply.


(** ** Applying with the code of wifiuti.c *)

Definition vap_items : list (Z * Z) :=
  [(APL_WLAN0_VAP0, 0); (APL_WLAN0_VAP1, 1); (APL_WLAN0_VAP2, 2); (APL_WLAN0_VAP3, 3)].
Definition vap_of (i : Z) : option Z := snd <$> find (λ e, e.1 =? i) vap_items.

Lemma vap_of_Some i vap : vap_of i = Some vap → 0 <= vap < 4 ∧ i = APL_WLAN0_VAP0 + vap.
Proof.
  unfold vap_of. intros H. apply fmap_Some in H as ([j v] & Hf & ->). apply find_some in Hf as [Hin E%Z.eqb_eq].
  cbn [fst snd] in *. subst j. unfold vap_items in Hin. cbn [In] in Hin.
  repeat (destruct Hin as [[= <- <-] | Hin]; [unfold APL_WLAN0_VAP0, APL_WLAN0_VAP1, APL_WLAN0_VAP2, APL_WLAN0_VAP3; lia|]).
  done.
Qed.

(** The line that sets the port up: fixed or not, speed and duplex mode. *)
Definition PORT (l : cstr) : cstr := "echo " ++ l ++ " > /proc/ethernet_status_cfb".
Definition port_rates : list (cstr * cstr) := [("10Mbps" : cstr, "0" : cstr); ("100Mbps" : cstr, "1" : cstr); ("1000Mbps" : cstr, "2" : cstr)].
Definition port_fixed (a : cfg) : bool := negb (atoi (safe a "lan_autonego") =? 1).
Definition port_duplex (a : cfg) : cstr := if atoi (safe a "lan_duplexmode") =? 1 then "1" else "0".
Definition port_speed (a : cfg) : cstr :=
  let v := atoi (safe a "lan_portspeed_define") in if v =? 1 then "1" else if v =? 2 then "2" else "0".

Definition datarate_cmds (a : cfg) : list cstr :=
  let rate := default [] (val a "eth_data_rate") in
  if decide (safe a "lan_force100m" = ENABLE) then [PORT "1 1 1"]
  else PORT (match find (λ e, bool_decide (rate = e.1)) port_rates with
             | Some (_, n) => if port_fixed a then "1 " ++ n ++ " " ++ port_duplex a else "0 0 0"
             | None => "0 0 0"
             end) ::
       (if decide (rate = ("1000Mbps" : cstr)) then ["ifconfig eth0 down" : cstr; "ifconfig eth0 up" : cstr] else []).

Definition force100m_cmds (a : cfg) : list cstr :=
  if decide (safe a "lan_force100m" = ENABLE) then [PORT "1 1 1"]
  else if port_fixed a then [PORT ("1 " ++ port_speed a ++ " " ++ port_duplex a)]
  else datarate_cmds a.

Section radio.
Context {heap : Heap} {dev : FlashDev} {shell : Shell} {board : Board}.
Variable stack : Z.
#[local] Hint Extern 0 (CfgStore sys) => exact (sys_store stack) : typeclass_instances.
#[local] Hint Extern 0 (Wifi) => exact (wifiuti (board := board)) : typeclass_instances.

Section items.
Variable a : cfg.
Variable s0 : sys.
Variable hw : bytes.

(** What an item needs of the machine it is applied on. *)
Definition can_restart : Prop := harmless ∧ (1 <= vapStr_slack)%nat ∧ start_ready a s0 hw.
Definition item_ready (i : Z) : Prop :=
  match vap_of i with
  | Some vap => radio_ready a vap (λ p, files s0 !! p) ∧ files s0 !! vap_script vap = None
  | None =>
      if i =? APL_WLAN0 then can_restart
      else if i =? APL_VLAN then safe a "lan_ipv6" = ENABLE ∨ can_restart
      else if (i =? APL_ETH_DATARATE) || (i =? APL_FORCE100M) then is_Some (val a "eth_data_rate")
      else plain_item i = true
  end.

(** The commands that are right for an item. *)
Definition restarts (ls : list cstr) : Prop := ∃ channel, ls = ATH_DOWN 0 :: start_cmds hw channel.
Definition item_runs (i : Z) (ls : list cstr) : Prop :=
  match vap_of i with
  | Some vap => ls = [vap_script vap]
  | None =>
      if i =? APL_WLAN0 then restarts ls
      else if i =? APL_VLAN then
        if decide (safe a "lan_ipv6" = ENABLE) then ls = ["/bin/sleep 3 && /sbin/reboot&" : cstr]
        else ∃ up, restarts up ∧
          ls = ATH_DOWN 0 :: ["rc ip stop" : cstr; "rc ipv6 stop" : cstr; "rc bridge restart" : cstr; "rc lan restart" : cstr] ++
               up ++ concat (map item_cmds [APL_STP; APL_IPv4; APL_IPv6; APL_LLTD; APL_ETHSUP])
      else if i =? APL_ETH_DATARATE then ls = datarate_cmds a
      else if i =? APL_FORCE100M then ls = force100m_cmds a
      else ls = item_cmds i
  end.

(** The machine while the items are applied: [vaps] are the access points that
    are applied by themselves. *)
Variable vaps : list Z.
Definition at_rest (s : sys) : Prop :=
  sys_rep s a ∧ files s !! ("/tmp/vlan.conf" : cstr) = files s0 !! ("/tmp/vlan.conf" : cstr) ∧
  (version_ok (λ p, files s0 !! p) → version_ok (λ p, files s !! p)) ∧
  ∀ vap, vap ∈ vaps → 0 <= vap < 4 → files s !! vap_script vap = None.

Lemma at_rest_frame s s' :
  (∀ p, p ∈ ("/tmp/vlan.conf" : cstr) :: ("/etc/fwversion" : cstr) :: ("/etc/extra_version" : cstr) :: map vap_script [0; 1; 2; 3] →
     files s' !! p = files s !! p) → sys_rep s' a → at_rest s → at_rest s'.
Proof.
  intros Hp Hr (_ & Hvl & Hver & Hvap). split; [done|]. split; [|split].
  - rewrite Hp by left. done.
  - intros Hv. specialize (Hver Hv). unfold version_ok in *. rewrite !Hp; [done|right; right; left|right; left].
  - intros vap Hin Hv. rewrite Hp; [by apply Hvap|]. do 3 right. apply list_elem_of_fmap. exists vap.
    split; [done|]. rewrite !elem_of_cons. lia.
Qed.

Lemma at_rest_steady : steady a at_rest.
Proof.
  split.
  - by intros s [H _].
  - intros s x Hs. apply (at_rest_frame s); [|by eapply sys_rep_same; [apply same_but_log|apply Hs]|done].
    intros p Hp. cbn [files set_files]. apply lookup_insert_ne. intros <-.
    by apply (bool_decide_eq_true (_ ∈ _)) in Hp.
  - intros s c Hs. apply (at_rest_frame s); [done| |done]. by apply (sys_rep_files s); [|apply Hs].
  - intros s s' Hs (_ & _ & Hf) Hr. apply (at_rest_frame s); [|done|done].
    intros p Hp. apply Hf. intros ->. by apply (bool_decide_eq_true (_ ∈ _)) in Hp.
Qed.

Lemma at_rest_ok s :
  version_ok (λ p, files s0 !! p) → at_rest s → ok a (files s0 !! ("/tmp/vlan.conf" : cstr)) s.
Proof. intros Hv (H1 & H2 & H3 & _). split; [done|]. split; [done|]. by apply H3. Qed.

Lemma ok_at_rest s : vaps = [] → ok a (files s0 !! ("/tmp/vlan.conf" : cstr)) s → at_rest s.
Proof.
  intros Hnone (H1 & H2 & H3). split; [done|]. split; [done|]. split; [done|].
  intros vap Hin. rewrite Hnone in Hin. by apply not_elem_of_nil in Hin.
Qed.

(** ** Handlers that do not touch the radio *)

Definition serves (h : M sys Z) (out : list cstr) : Prop := ∀ s,
  at_rest s → runs h s (λ r s', r = 0 ∧ at_rest s' ∧ cmds s' = cmds s ++ out).

Lemma serves_emits h out : emits h out → serves h out.
Proof.
  intros He s Hs. use_runs (He s). intros r s' (-> & Hc & Hf & Hp). split; [done|]. split; [|done].
  apply (at_rest_frame s); [|eapply sys_rep_same; [|apply Hs]|done].
  - intros p Hin. apply Hp. intros ->. by apply (bool_decide_eq_true (_ ∈ _)) in Hin.
  - split; [done|]. intros p Hne. apply Hp. intros ->. apply Hne. left.
Qed.

Lemma serves_read {A} (m : M sys A) v k out : reads a m v → serves (k v) out → serves (m ≫= k) out.
Proof.
  intros Hm Hk s Hs. apply runs_bind. use_runs (Hm s (st_rep _ _ at_rest_steady _ Hs)).
  intros r s' (-> & Hr & Hf). use_runs (Hk s' (st_shadow _ _ at_rest_steady s s' Hs Hf Hr)).
  intros r s2 (-> & Hs2 & Hc). split_and!; [done|done|]. rewrite Hc. by destruct Hf as (_ & -> & _).
Qed.

Lemma emits_system c k out : emits k out → emits (_ ← FileSys.system c; k) (c :: out).
Proof.
  intros Hk s. apply runs_bind, runs_mod. use_runs (Hk (add_cmd c s)).
  intros r s' (-> & Hcm & Hf & Hp). split_and!; [done| |done|done].
  rewrite Hcm. cbn [cmds add_cmd]. by rewrite <- app_assoc.
Qed.

Lemma emits_skip k out : emits k out → emits (_ ← (mret tt : M sys unit); k) out.
Proof. intros Hk s. apply runs_bind, runs_ret, Hk. Qed.

Lemma emits_nest (m1 m2 : M sys unit) k out :
  emits (_ ← m1; _ ← m2; k) out → emits (_ ← (_ ← m1; m2); k) out.
Proof.
  intros H s. specialize (H s). unfold runs, mbind, M_bind in *. by destruct (m1 s) as [[? ?]| |].
Qed.

Ltac emit :=
  lazymatch goal with
  | |- emits (mret 0) _ => apply emits_ret
  | |- emits (mbind _ (APPLYRUN _)) _ => apply emits_cmd; [vm_compute; lia|emit]
  | |- emits (mbind _ (FileSys.system _)) _ => apply emits_system; emit
  | |- emits (mbind _ (mret tt)) _ => apply emits_skip; emit
  | |- emits (mbind _ (mbind _ _)) _ => apply emits_nest; emit
  end.

Lemma emits_eq h out out' : emits h out → out = out' → emits h out'.
Proof. by intros H <-. Qed.

(** Once the values are known. *)
Ltac emit_case :=
  unfold when; cbn [fst snd Z.eqb Pos.eqb negb andb];
  rewrite ?decide_True by reflexivity; rewrite ?decide_False by assumption;
  eapply emits_eq; [emit|vm_compute; reflexivity].

Definition rate_codes : list (Z * cstr) :=
  [(0, "auto" : cstr); (10, "10Mbps" : cstr); (100, "100Mbps" : cstr); (1000, "1000Mbps" : cstr)].

Lemma reads_rate : is_Some (val a "eth_data_rate") →
  reads a apCfgEthDataRateGet (code_of rate_codes 0 (default [] (val a "eth_data_rate"))).
Proof.
  intros [p Hp]. unfold apCfgEthDataRateGet. eapply reads_bind; [apply reads_get; cfg_key|].
  rewrite Hp. apply reads_ret.
Qed.

Lemma dec_bool_if t : dec_bool t = if decide (t = ENABLE) then 1 else 0.
Proof. unfold dec_bool. by repeat case_decide; rewrite ?bool_decide_true, ?bool_decide_false by done. Qed.

Lemma datarate_serves u v : is_Some (val a "eth_data_rate") → serves (eth_datarate_handler u v) (datarate_cmds a).
Proof.
  intros Hrate. unfold eth_datarate_handler, datarate_cmds, port_fixed, port_duplex. cbv zeta.
  eapply serves_read; [by apply reads_rate|]. do 3 (eapply serves_read; [reads_getter|]).
  generalize (default [] (val a "eth_data_rate")). intros rate. rewrite dec_bool_if.
  apply serves_emits. destruct (decide (_ = ENABLE)); cbn [Z.eqb negb]; [emit|].
  unfold code_of. cbn [find rate_codes port_rates fst snd].
  destruct (atoi (safe a "lan_autonego") =? 1), (atoi (safe a "lan_duplexmode") =? 1).
  all: repeat (case_bool_decide; [subst|]); try discriminate; emit_case.
Qed.

Lemma force100m_serves u v : is_Some (val a "eth_data_rate") → serves (force100m_handler u v) (force100m_cmds a).
Proof.
  intros Hrate. unfold force100m_handler, force100m_cmds, port_fixed, port_duplex, port_speed. cbv zeta.
  do 4 (eapply serves_read; [reads_getter|]). rewrite dec_bool_if.
  destruct (decide (_ = ENABLE)); cbn [Z.eqb negb]; [apply serves_emits; emit|].
  destruct (atoi (safe a "lan_autonego") =? 1); cbn [negb Z.eqb].
  - intros s Hs. unfold ign. apply runs_bind, runs_bind. use_runs (datarate_serves 0 0 Hrate s Hs).
    intros r s' (_ & H & Hc). by do 2 apply runs_ret.
  - apply serves_emits.
    destruct (atoi (safe a "lan_portspeed_define") =? 1), (atoi (safe a "lan_portspeed_define") =? 2),
      (atoi (safe a "lan_duplexmode") =? 1); emit_case.
Qed.

(** ** Access points and the radio *)

Lemma vap_files_apart vap p :
  0 <= vap < 4 →
  p ∈ ("/tmp/vlan.conf" : cstr) :: ("/etc/fwversion" : cstr) :: ("/etc/extra_version" : cstr) :: map vap_script [0; 1; 2; 3] →
  p ∉ vap_files vap ∧ p ≠ NVRAM_TMP_PATH.
Proof.
  intros Hv Hp. assert (Hin : vap ∈ [0; 1; 2; 3]) by (rewrite !elem_of_cons; lia).
  assert (H : Forall (λ vap, Forall (λ p, p ∉ vap_files vap ∧ p ≠ NVRAM_TMP_PATH)
    (("/tmp/vlan.conf" : cstr) :: ("/etc/fwversion" : cstr) :: ("/etc/extra_version" : cstr) :: map vap_script [0; 1; 2; 3]))
    [0; 1; 2; 3]) by closed.
  rewrite Forall_forall in H. specialize (H vap Hin). rewrite Forall_forall in H. by apply H.
Qed.

Lemma vap_serves vap :
  0 <= vap < 4 → vap ∈ vaps → radio_ready a vap (λ p, files s0 !! p) → serves (vap_handler 0 vap) [vap_script vap].
Proof.
  intros Hv Hin [H1 H2 H3 H4 H5 Hvl Hver] s Hs. pose proof Hs as (Hr & Hf & Hfv & Hnone).
  assert (Hready : radio_ready a vap (λ p, files s !! p)).
  { split; try done; [|by apply Hfv]. unfold vlan_ok in *. by rewrite Hf. }
  use_runs (vap_handler_ends stack s a vap Hv Hr Hready (Hnone vap Hin Hv)).
  intros r s' (-> & Hr' & _ & Hc & Hgone & Hp). split; [done|]. split; [|done].
  apply (at_rest_frame s); [|done|done]. intros p Hpin.
  destruct (vap_files_apart vap p Hv Hpin). by apply Hp.
Qed.

Lemma wlan_restarts s vap :
  can_restart → ok a (files s0 !! ("/tmp/vlan.conf" : cstr)) s →
  runs (wlan_handler 0 vap) s (λ r s', r = 0 ∧ ok a (files s0 !! ("/tmp/vlan.conf" : cstr)) s' ∧
    ∃ ls, restarts ls ∧ cmds s' = cmds s ++ ls).
Proof.
  intros (Hsh & Hsl & Hst) Hs. use_runs (wlan_handler_ends stack s0 s a hw vap Hsh Hsl Hst Hs).
  intros r s' (-> & H & channel & Hc). split; [done|]. split; [done|].
  exists (ATH_DOWN 0 :: start_cmds hw channel). split; [by exists channel|done].
Qed.

(** Steps that keep what the radio needs. *)
Lemma emits_ok h out s :
  emits h out → ok a (files s0 !! ("/tmp/vlan.conf" : cstr)) s →
  runs h s (λ r s', r = 0 ∧ ok a (files s0 !! ("/tmp/vlan.conf" : cstr)) s' ∧ cmds s' = cmds s ++ out).
Proof.
  intros He Hs. use_runs (He s). intros r s' (-> & Hc & Hf & Hp). split; [done|]. split; [|done].
  apply (ok_frame a _ s); [|done]. intros p Hin. apply Hp. intros ->. by apply (bool_decide_eq_true (_ ∈ _)) in Hin.
Qed.

Lemma item_emits_at i e h :
  applyTable !! Z.to_nat i = Some e → at_handler e = Some h → plain_item i = true →
  emits (h (at_unit e) (at_vap e)) (item_cmds i).
Proof.
  intros He Hh Hi. destruct (items_emit i Hi) as (e' & h' & He' & Hh' & H).
  rewrite He in He'. injection He' as <-. rewrite Hh in Hh'. by injection Hh' as <-.
Qed.

(** What the VLAN handler does behind the radio. *)
Lemma vlan_tail_emits :
  emits (_ ← stp_handler (-1) (-1); _ ← ipv4_handler (-1) (-1); _ ← ipv6_handler (-1) (-1);
         _ ← lltd_handler (-1) (-1); _ ← ethsup_handler (-1) (-1); mret 0)
    (concat (map item_cmds [APL_STP; APL_IPv4; APL_IPv6; APL_LLTD; APL_ETHSUP])).
Proof.
  cbn [map concat].
  apply emits_then; [exact (item_emits_at APL_STP _ _ eq_refl eq_refl eq_refl)|].
  apply emits_then; [exact (item_emits_at APL_IPv4 _ _ eq_refl eq_refl eq_refl)|].
  apply emits_then; [exact (item_emits_at APL_IPv6 _ _ eq_refl eq_refl eq_refl)|].
  apply emits_then; [exact (item_emits_at APL_LLTD _ _ eq_refl eq_refl eq_refl)|].
  apply emits_then; [exact (item_emits_at APL_ETHSUP _ _ eq_refl eq_refl eq_refl)|].
  apply emits_ret.
Qed.

Lemma vlan_runs s :
  safe a "lan_ipv6" = ENABLE ∨ can_restart → vaps = [] → at_rest s →
  runs (vlan_handler (-1) (-1)) s (λ r s', r = 0 ∧ at_rest s' ∧
    ∃ ls, item_runs APL_VLAN ls ∧ cmds s' = cmds s ++ ls).
Proof.
  intros Hr Hnone Hs. unfold vlan_handler. apply runs_bind.
  assert (Hv6 : reads a apCfgipv6modeGet (dec_bool (safe a "lan_ipv6"))) by reads_getter.
  use_runs (Hv6 s (proj1 Hs)). intros v6 s1 (-> & Hr1 & Hf1).
  pose proof (st_shadow _ _ at_rest_steady s s1 Hs Hf1 Hr1) as Hs1. destruct Hf1 as (_ & <- & _). clear Hs Hr1.
  rewrite dec_bool_if. change (item_runs APL_VLAN) with (λ ls,
    if decide (safe a "lan_ipv6" = ENABLE) then ls = ["/bin/sleep 3 && /sbin/reboot&" : cstr]
    else ∃ up, restarts up ∧
      ls = ATH_DOWN 0 :: ["rc ip stop" : cstr; "rc ipv6 stop" : cstr; "rc bridge restart" : cstr; "rc lan restart" : cstr] ++
           up ++ concat (map item_cmds [APL_STP; APL_IPv4; APL_IPv6; APL_LLTD; APL_ETHSUP])). cbv beta.
  destruct (decide (_ = ENABLE)) as [Hon|Hoff]; cbn [Z.eqb Pos.eqb].
  { apply runs_bind, runs_mod, runs_ret. split; [done|].
    split; [by apply (st_cmd _ _ at_rest_steady)|]. by eexists. }
  destruct Hr as [Hr|Hcan]; [done|]. pose proof Hcan as (Hsh & _ & Hst).
  pose proof (at_rest_ok s1 (sr_version _ _ _ Hst) Hs1) as Hok1. cbv zeta.
  apply runs_bind. use_runs (stop_calm (board := board) a (files s0 !! ("/tmp/vlan.conf" : cstr)) 0 Hsh s1 Hok1). intros _ s2 [Hok2 E2].
  assert (Hstep : ∀ c (k : M sys Z) s Q, (length c < 1023)%nat → ok a (files s0 !! ("/tmp/vlan.conf" : cstr)) s →
    (∀ s', ok a (files s0 !! ("/tmp/vlan.conf" : cstr)) s' → cmds s' = cmds s ++ [c] → runs k s' Q) →
    runs (_ ← APPLYRUN c; k) s Q).
  { intros c k s' Q Hl Hok HQ. apply runs_bind. unfold APPLYRUN, SYSTEM. rewrite firstn_all2 by lia. apply runs_mod.
    apply HQ; [|done]. by apply (ok_frame a _ s'). }
  do 4 (eapply Hstep; [vm_compute; lia|eassumption|intros ? ? ?]).
  apply runs_bind. eapply runs_mono; [apply wlan_restarts; eassumption|]. cbv beta.
  intros r s7 (_ & Hok7 & up & Hup & E7).
  eapply runs_mono; [apply (emits_ok _ _ s7 vlan_tail_emits Hok7)|]. cbv beta.
  intros r' s8 (-> & Hok8 & E8). split; [done|]. split; [by apply ok_at_rest|]. eexists. split; [by exists up|].
  rewrite E8, E7. repeat match goal with H : cmds _ = cmds _ ++ _ |- _ => rewrite H; clear H end.
  by rewrite <- !app_assoc.
Qed.

(** ** Every item that is ready is served *)

Ltac at_item := cbn [at_handler at_unit at_vap]; eexists; split; [reflexivity|].

(** Which items the table of the firmware has there. *)
Lemma vap_item_at vap e :
  0 <= vap < 4 → applyTable !! Z.to_nat (APL_WLAN0_VAP0 + vap) = Some e →
  at_handler e = Some vap_handler ∧ at_unit e = 0 ∧ at_vap e = vap.
Proof.
  intros Hv. assert (Hin : vap = 0 ∨ vap = 1 ∨ vap = 2 ∨ vap = 3) by lia.
  destruct Hin as [-> | [-> | [-> | ->]]]; by intros [= <-].
Qed.

Lemma item_handled i :
  item_ready i → (∀ vap, vap_of i = Some vap → vap ∈ vaps) → (i = APL_WLAN0 ∨ i = APL_VLAN → vaps = []) →
  handled applyTable at_rest item_runs i.
Proof.
  intros Hr Hvaps Hnone e s He Hs. unfold item_ready in Hr.
  assert (Hserves : ∀ h ls, i < APL_NAMED → at_handler e = Some h → serves (h (at_unit e) (at_vap e)) ls → item_runs i ls →
    i < APL_NAMED ∧ ∃ h, at_handler e = Some h ∧ runs (h (at_unit e) (at_vap e)) s (λ r s', r = 0 ∧ at_rest s' ∧
      ∃ ls, item_runs i ls ∧ cmds s' = cmds s ++ ls)).
  { intros h ls Hi Hh Hserve Hls. split; [done|]. exists h. split; [done|]. use_runs (Hserve s Hs).
    intros r s' (-> & H & Hc). split; [done|]. split; [done|]. by exists ls. }
  unfold item_runs in Hserves. destruct (vap_of i) as [vap|] eqn:Ev.
  { destruct Hr as [Hready _]. destruct (vap_of_Some i vap Ev) as [Hv ->].
    destruct (vap_item_at vap e Hv He) as (Hh & Hu & Hb). unfold item_runs. rewrite Ev.
    apply (Hserves vap_handler [vap_script vap]); [unfold APL_WLAN0_VAP0, APL_NAMED; lia|done| |done].
    rewrite Hu, Hb. apply vap_serves; [done|by apply Hvaps|done]. }
  destruct (Z.eqb_spec i APL_WLAN0) as [->|H1].
  { clear Hserves. injection He as <-. split; [done|]. at_item. pose proof Hr as (_ & _ & Hst).
    use_runs (wlan_restarts s (-1) Hr (at_rest_ok s (sr_version _ _ _ Hst) Hs)).
    intros r s' (-> & Hok & ls & Hls & Hc). split; [done|].
    split; [apply ok_at_rest; [by apply Hnone; left|done]|]. by exists ls. }
  destruct (Z.eqb_spec i APL_VLAN) as [->|H2].
  { clear Hserves. injection He as <-. split; [done|]. at_item.
    apply (vlan_runs s Hr); [by apply Hnone; right|done]. }
  unfold item_runs. rewrite Ev, (proj2 (Z.eqb_neq _ _) H1), (proj2 (Z.eqb_neq _ _) H2).
  destruct (Z.eqb_spec i APL_ETH_DATARATE) as [->|H3].
  { injection He as <-. apply (Hserves eth_datarate_handler (datarate_cmds a)); [done|done| |done].
    by apply datarate_serves. }
  destruct (Z.eqb_spec i APL_FORCE100M) as [->|H4].
  { injection He as <-. apply (Hserves force100m_handler (force100m_cmds a)); [done|done| |done].
    by apply force100m_serves. }
  destruct (items_emit i Hr) as (e' & h & He' & Hh & Hem). rewrite He in He'. injection He' as <-.
  apply (Hserves h (item_cmds i)); [by apply plain_range in Hr; lia|done|by apply serves_emits|done].
Qed.

Lemma items_handled ids :
  Forall item_ready ids → Forall (λ vap, vap ∈ vaps) (omap vap_of ids) →
  Forall (λ i, (i = APL_WLAN0 ∨ i = APL_VLAN) → vaps = []) ids → Forall (handled applyTable at_rest item_runs) ids.
Proof.
  rewrite !Forall_forall. intros Hr Hv Hn i Hi. apply item_handled; [by apply Hr| |by apply Hn].
  intros vap Ev. apply Hv, list_elem_of_omap. by exists i.
Qed.
End items.

(** Only one of a radio and its access points is due. *)
Lemma radio_alone f i : i = APL_WLAN0 ∨ i = APL_VLAN → i ∈ due f → omap vap_of (due f) = [].
Proof.
  intros Hi (_ & Hf & _)%due_spec. destruct (omap vap_of (due f)) as [|vap vs] eqn:E; [done|exfalso].
  assert (Hin : vap ∈ omap vap_of (due f)) by (rewrite E; left).
  apply list_elem_of_omap in Hin as (j & (_ & _ & Ha)%due_spec & Hj).
  destruct (vap_of_Some j vap Hj) as [Hv ->].
  assert (Hanc : i ∈ ancestors (APL_WLAN0_VAP0 + vap)).
  { assert (Hin : vap = 0 ∨ vap = 1 ∨ vap = 2 ∨ vap = 3) by lia.
    destruct Hin as [-> | [-> | [-> | ->]]], Hi as [-> | ->]; closed. }
  assert (Hex : existsb f (ancestors (APL_WLAN0_VAP0 + vap)) = true); [|congruence].
  apply existsb_exists. exists i. split; [by apply list_elem_of_In|done].
Qed.

Definition applied (a : cfg) : cfg := Cfg (val a) (Some []).

Lemma applied_ready a s0 hw i : item_ready a s0 hw i → item_ready (applied a) s0 hw i.
Proof.
  unfold item_ready, can_restart. destruct (vap_of i) as [vap|].
  - intros [[H1 H2 H3 H4 H5 H6 H7] H]. split; [|done]. by split.
  - destruct (i =? APL_WLAN0); [|destruct (i =? APL_VLAN); [|done]].
    + intros (? & ? & [H1 H2 H3 H4 H5 H6 H7 H8]). split_and!; [done..|]. by split.
    + intros [H|(? & ? & [H1 H2 H3 H4 H5 H6 H7 H8])]; [by left|right]. split_and!; [done..|]. by split.
Qed.

(** The walk over the items, each of them ready. *)
Lemma walk_ready s a l hw p :
  Forall (λ i, 0 < i < APL_NAMED) l → Forall (item_ready a s hw) (due (λ i, bool_decide (i ∈ l))) →
  a_flag p = flags_of l → mdns_stopped p = false → sys_rep (a_sys p) (applied a) →
  (∀ q, q ∉ [APPLY_DBG; APL_RUNNING; APL_PARSING; APL_FLAG] → files (a_sys p) !! q = files s !! q) →
  runs (apl_handleApplyTree applyTable APL_ROOT) p (λ r p', r = 0 ∧ sys_rep (a_sys p') (applied a) ∧
    ∃ lss, Forall2 (item_runs a hw) (due (λ i, bool_decide (i ∈ l))) lss ∧
    cmds (a_sys p') = cmds (a_sys p) ++
      (if needs_stop (dec_bool (safe a "lan_dhcpc")) (flags_of l) then [mdns_stop] else []) ++ concat lss).
Proof.
  intros Hl Hready Hf Hs Hr Hp. set (items := due (λ i, bool_decide (i ∈ l))) in *.
  assert (Hdue : due (flagged p) = items).
  { unfold flagged. rewrite Hf. exact (flags_of_due stack l Hl). }
  set (vaps := omap vap_of items). rewrite Forall_forall in Hready.
  assert (Hrest : at_rest (applied a) s vaps (a_sys p)).
  { assert (Hfix : ∀ q, bool_decide (q ∉ [APPLY_DBG; APL_RUNNING; APL_PARSING; APL_FLAG]) = true → files (a_sys p) !! q = files s !! q)
      by (intros q ?%bool_decide_eq_true; by apply Hp).
    split; [done|]. split; [by apply Hfix|]. split; [by unfold version_ok; rewrite !Hfix|].
    intros vap (j & Hj & Ev)%list_elem_of_omap Hv. pose proof (Hready j Hj) as Hi.
    unfold item_ready in Hi. rewrite Ev in Hi. destruct Hi as [_ <-]. apply Hp.
    assert (Hin : vap ∈ [0; 1; 2; 3]) by (rewrite !elem_of_cons; lia).
    revert Hin. generalize vap. apply Forall_forall. closed. }
  assert (Hh : Forall (handled applyTable (at_rest (applied a) s vaps) (item_runs (applied a) hw)) (due (flagged p))).
  { rewrite Hdue. apply items_handled; apply Forall_forall; [|done|].
    - intros i Hi. by apply applied_ready, Hready.
    - intros i Hi Hc. by apply (radio_alone _ i). }
  use_runs (walk_runs stack (applied a) _ _ p (at_rest_steady (applied a) s vaps) Hh
    ltac:(rewrite Hf; apply flags_of_length) Hrest Hs).
  intros r p' (-> & [H1 _] & _ & lss & Hlss & Hc). split; [done|]. split; [done|]. exists lss.
  rewrite Hdue in Hlss. rewrite Hf in Hc. by split.
Qed.

(** ** The run *)

Lemma sys_rep_unlinked s a p :
  p ∉ [NVRAM_TMP_PATH; NVRAM_DEFAULT; APL_CLOSED; APL_PARSING; APL_FLAG] → sys_rep s a →
  sys_rep (set_files (delete p (files s)) s) a.
Proof.
  intros Hp. apply sys_rep_frame. intros q Hq. cbn [files set_files]. apply lookup_delete_ne. by intros ->.
Qed.

Lemma touch_runs path p (Q : unit → apl → Prop) :
  (length path < 500)%nat →
  Q tt (Apl (set_files (<[path := "1" ++ [nl]]> (files (a_sys p)))
               (add_cmd ("echo 1 > " ++ path) (a_sys p))) (a_flag p) (mdns_stopped p)) →
  runs (on_machine (touch_by_shell path)) p Q.
Proof.
  intros Hl HQ. apply runs_machine. unfold touch_by_shell, SYSTEM.
  rewrite firstn_all2 by (rewrite length_app; simpl length; lia).
  apply runs_bind, runs_mod, runs_mod. exact HQ.
Qed.

Lemma access_runs path p (Q : bool → apl → Prop) :
  Q (bool_decide (is_Some (files (a_sys p) !! path))) p → runs (on_machine (access path)) p Q.
Proof. intros HQ. apply runs_machine, runs_bind, runs_get, runs_ret. by destruct p. Qed.

Lemma read_runs path p (Q : option bytes → apl → Prop) :
  Q (files (a_sys p) !! path) p → runs (on_machine (read_file path)) p Q.
Proof. intros HQ. apply runs_machine, runs_bind, runs_get, runs_ret. by destruct p. Qed.

Definition starting : list cstr := ["echo 1 > /tmp/apl_parsing" : cstr; "echo 1 > /tmp/apl_running" : cstr].

(** Marking the items of the flag file and removing it. *)
Lemma prepared_runs s a l p (k : M apl Z) (Q : Z → apl → Prop) :
  sys_rep s a → raised a = Some l → Forall (λ i, 0 < i < APL_NAMED) l → a_flag p = replicate 34 false →
  mdns_stopped p = false →
  files (a_sys p) = <[APL_RUNNING := "1" ++ [nl]]> (<[APL_PARSING := "1" ++ [nl]]> (files s)) →
  (∀ p', a_flag p' = flags_of l → mdns_stopped p' = false → sys_rep (a_sys p') (applied a) →
    (∀ q, q ∉ [APPLY_DBG; APL_RUNNING; APL_PARSING; APL_FLAG] → files (a_sys p') !! q = files s !! q) →
    cmds (a_sys p') = cmds (a_sys p) → runs k p' Q) →
  runs (_ ← mark_items (l ++ [0]); _ ← on_machine (unlink APL_FLAG);
        _ ← on_machine (unlink APL_PARSING); k) p Q.
Proof.
  intros (es & ds & Hn & Hv & Hf) Hra Hl Hfl Hs Hfiles HQ. rewrite Hra in Hf. destruct Hf as (Hc & _ & _).
  apply runs_bind. use_runs (mark_items_runs (l ++ [0]) p (named_end l Hl)
    ltac:(by rewrite Hfl, length_replicate)).
  intros _ p1 (H1 & H2 & H3 & [_ H4]). apply runs_bind, runs_machine, runs_mod, runs_bind, runs_machine, runs_mod.
  assert (Hq : ∀ q, q ∉ [APPLY_DBG; APL_RUNNING; APL_PARSING; APL_FLAG] →
    delete APL_PARSING (delete APL_FLAG (files (a_sys p1))) !! q = files s !! q).
  { intros q Hq. rewrite !not_elem_of_cons in Hq. destruct Hq as (Q1 & Q2 & Q3 & Q4 & _).
    rewrite !lookup_delete_ne by done.
    rewrite H4 by (by intros ?%list_elem_of_singleton). rewrite Hfiles.
    by rewrite !lookup_insert_ne. }
  apply HQ; [exact (eq_trans H1 (f_equal (λ f, marks f (l ++ [0])) Hfl))|exact (eq_trans H2 Hs)| |exact Hq|exact H3].
  exists es, ds. split; [|split; [done|]].
  - destruct Hn as [Ha Hb Hd]. split; [|done|]; cbn [files set_files a_sys]; by rewrite Hq by closed.
  - cbn [applied raised flags_rep files set_files a_sys]. split_and!.
    + by rewrite Hq by closed.
    + by rewrite lookup_delete_eq.
    + rewrite lookup_delete_ne by done. by rewrite lookup_delete_eq.
Qed.

(** C11: applying does what the raised flags ask for, once each, and nothing more.
    The items due are those flagged with no flagged item above them in the tree.  Suppose every
    item due is ready: one of the nineteen whose handlers only restart services ([plain_items]);
    the data rate or the 100M mode of the port, with a data rate stored (there is a fault
    without); an access point of the first radio, with the values its script needs and
    no script of its own lying about; the first radio, or the VLANs, with what a restart of the
    radio needs (a width of 20 MHz, a spare byte behind [vapStr], a harmless shell; for the VLANs
    alternatively IPv6 on, when the board reboots).  The second radio, which the board does not have and
    whose handlers report an error, and the reboot timer, whose index has no name in the log, are
    left out.  Then a fresh process of [apl_do_apply] stops the
    Bonjour service first if its item is flagged or an address obtained by DHCP is about to
    change, then runs the commands of the handlers of the items due, computed from the
    configuration, in the order of the table; afterwards no flag is raised, the stored
    configuration is as before and the next run can start. *)
Theorem apply_runs_due s a l hw :
  sys_rep s a → raised a = Some l → l ≠ [] → Forall (λ i, 0 < i < APL_NAMED) l →
  Forall (item_ready a s hw) (due (λ i, bool_decide (i ∈ l))) → files s !! APL_RUNNING = None →
  runs apl_do_apply (fresh s) (λ r p, r = 0 ∧ sys_rep (a_sys p) (Cfg (val a) (Some [])) ∧
    files (a_sys p) !! APL_RUNNING = None ∧
    ∃ lss, Forall2 (item_runs a hw) (due (λ i, bool_decide (i ∈ l))) lss ∧
    cmds (a_sys p) = cmds s ++ starting ++
      (if bool_decide (APL_BONJOUR ∈ l) ||
          (negb (dec_bool (safe a "lan_dhcpc") =? 0) && bool_decide (APL_IPv4 ∈ l))
       then [mdns_stop] else []) ++ concat lss).
Proof.
  intros Hr Hra Hne Hl Hready Hrun. pose proof Hr as (_ & _ & _ & _ & Hflags).
  rewrite Hra in Hflags. destruct Hflags as (_ & _ & Hdata).
  assert (Hfile : files s !! APL_FLAG = Some (concat (map flag_line l))).
  { destruct (files s !! APL_FLAG) as [d|]; unfold default, from_option, id in Hdata; [by rewrite Hdata|].
    exfalso. destruct l as [|i l']; [done|]. cbn [map concat] in Hdata. unfold flag_line in Hdata.
    by destruct (dec i). }
  unfold apl_do_apply. apply runs_bind, access_runs. cbn [fresh a_sys].
  rewrite bool_decide_true by (by rewrite Hfile). apply runs_bind, access_runs. cbn [fresh a_sys].
  rewrite bool_decide_false by (rewrite Hrun; by intros [? ?]).
  apply runs_bind, touch_runs; [vm_compute; lia|]. apply runs_bind, touch_runs; [vm_compute; lia|].
  cbn [a_flag mdns_stopped a_sys].
  set (p0 := Apl _ _ _). apply runs_bind, read_runs.
  assert (files (a_sys p0) !! APL_FLAG = Some (concat (map flag_line l))) as ->
    by (unfold p0; cbn [a_sys files set_files]; by rewrite !lookup_insert_ne).
  rewrite parse_flags_lines by (pose proof (named_end l Hl) as Hn; by apply Forall_app in Hn as [? _]).
  apply (prepared_runs s a l); [done|done|done|done|done|done|]. intros p1 Hf1 Hs1 Hr1 Hp1 Hc1.
  apply runs_bind. use_runs (walk_ready s a l hw p1 Hl Hready Hf1 Hs1 Hr1 Hp1).
  intros r p2 (_ & Hr2 & lss & Hlss & Hc2).
  apply runs_bind, runs_machine, runs_mod, runs_bind, runs_machine, runs_mod, runs_ret.
  cbn [a_sys]. split; [done|]. split; [|split].
  - apply sys_rep_unlinked; [closed|]. eapply sys_rep_same; [apply same_but_log|exact Hr2].
  - cbn [files set_files]. by rewrite lookup_delete_eq.
  - exists lss. split; [done|]. cbn [cmds set_files]. rewrite Hc2, Hc1. unfold needs_stop.
    change 32%nat with (Z.to_nat APL_BONJOUR). change 10%nat with (Z.to_nat APL_IPv4).
    rewrite !flags_of_nth by done. unfold p0. cbn [a_sys cmds set_files add_cmd].
    rewrite <- !(app_assoc (cmds s)).
    match goal with |- _ ++ _ ++ ?rest = _ => apply (f_equal (λ x, cmds s ++ x ++ rest)) end.
    reflexivity.
Qed.
End radio.

(** ** A witness *)

#[local] Existing Instances sample_heap ideal_dev sample_shell.

(** The machine of the wireless scripts, on which a login, the time server, the telnet
    service and the second access point were changed. *)
Definition changed_items : list Z := [APL_LOGIN; APL_NTP; APL_TELNET; APL_WLAN0_VAP1].
Definition changed_machine : sys :=
  set_files (<[APL_FLAG := concat (map flag_line changed_items)]> (files radio)) radio.
Definition changed_cfg : cfg := Cfg (val radio_cfg) (Some changed_items).

Lemma changed_rep : sys_rep changed_machine changed_cfg.
Proof.
  destruct radio_rep as (es & ds & [H1 H2 H3] & Hv & Hc & Hp & _). exists es, ds.
  split; [|split; [done|]].
  - by split.
  - split_and!; [exact Hc|exact Hp|vm_compute; reflexivity].
Defined.

Lemma changed_ready vap : 0 <= vap < 4 → radio_ready changed_cfg vap (λ p, files changed_machine !! p).
Proof. intros Hv. destruct (radio_ready_vap vap Hv) as [H1 H2 H3 H4 H5 H6 H7]. by split. Defined.

Lemma changed_due :
  due (store := sample_store) (wifi := wifiuti (store := sample_store) (board := bench 0))
    (λ i, bool_decide (i ∈ changed_items)) = [APL_LOGIN; APL_WLAN0_VAP1; APL_NTP].
Proof. vm_compute. reflexivity. Qed.

Lemma changed_items_ready :
  Forall (item_ready (board := bench 0) changed_cfg changed_machine []) [APL_LOGIN; APL_WLAN0_VAP1; APL_NTP].
Proof.
  apply List.Forall_cons; [reflexivity|]. apply List.Forall_cons; [|apply List.Forall_cons; [reflexivity|apply List.Forall_nil]].
  split; [by apply changed_ready|reflexivity].
Qed.

(** The telnet service is under the login: it is restarted with it, once. *)
Example apply_runs_due_witness :
  runs (apl_do_apply (store := sample_store) (wifi := wifiuti (store := sample_store) (board := bench 0))) (fresh changed_machine) (λ r p,
    r = 0 ∧ files (a_sys p) !! APL_RUNNING = None ∧
    cmds (a_sys p) = ["echo 1 > /tmp/apl_parsing" : cstr; "echo 1 > /tmp/apl_running" : cstr;
      "rc httpd restart" : cstr; "rc telnetd restart" : cstr; "rc sshd restart" : cstr;
      "/tmp/vap_handler_01" : cstr; "rc ntp restart" : cstr]).
Proof.
  eapply runs_mono;
    [refine (apply_runs_due (board := bench 0) 7 changed_machine changed_cfg changed_items [] changed_rep eq_refl _ _ _ eq_refl)|].
  - done.
  - closed.
  - exact (eq_ind_r (Forall _) changed_items_ready changed_due).
  - cbv beta. intros r p (-> & _ & Hrun & lss & Hlss & ->). split; [done|]. split; [done|].
    pose proof (eq_ind _ (λ l, Forall2 _ l lss) Hlss _ changed_due) as H. clear Hlss.
    apply Forall2_cons_inv_l in H as (l1 & t1 & E1 & Hlss & ->).
    apply Forall2_cons_inv_l in Hlss as (l2 & t2 & E2 & Hlss & ->).
    apply Forall2_cons_inv_l in Hlss as (l3 & t3 & E3 & ->%Forall2_nil_inv_l & ->).
    cbv in E1, E2, E3. subst. reflexivity.
Defined.

(** The same machine with its flags read, and one on which the whole radio was changed. *)
Definition vap_process : apl := Apl radio (flags_of changed_items) false.
Definition radio_items : list Z := [APL_NTP; APL_WLAN0_VAP1; APL_WLAN0].
Definition radio_process : apl := Apl radio (flags_of radio_items) false.
Definition radio_hw : bytes := map chr [0; 37; 156; 1; 2; 255].

Lemma radio_at_rest vaps :
  Forall (λ vap, files radio !! vap_script vap = None) vaps → at_rest radio_cfg radio vaps radio.
Proof.
  intros H. split; [exact radio_rep|]. split; [done|]. split; [done|].
  intros vap Hin _. rewrite Forall_forall in H. by apply H.
Qed.

Lemma vap_process_ready :
  Forall (item_ready (board := bench 0) radio_cfg radio radio_hw) [APL_LOGIN; APL_WLAN0_VAP1; APL_NTP].
Proof.
  apply List.Forall_cons; [reflexivity|]. apply List.Forall_cons; [|apply List.Forall_cons; [reflexivity|apply List.Forall_nil]].
  split; [by apply radio_ready_vap|reflexivity].
Qed.

Lemma radio_process_ready :
  Forall (item_ready (board := bench 1) radio_cfg radio radio_hw) [APL_WLAN0; APL_NTP].
Proof.
  apply List.Forall_cons; [|apply List.Forall_cons; [reflexivity|apply List.Forall_nil]].
  split; [apply bench_harmless|]. split; [apply Nat.le_refl|].
  destruct radio_starts as [H1 H2 H3 H4 H5 H6 H7 H8]. exact (StartReady (board := bench 1) radio_cfg radio radio_hw H1 H2 H3 H4 H5 H6 H7 H8).
Qed.

Lemma vap_process_handled :
  Forall (handled (applyTable (store := sample_store) (wifi := wifiuti (store := sample_store) (board := bench 0)))
            (at_rest radio_cfg radio [1]) (item_runs radio_cfg radio_hw)) [APL_LOGIN; APL_WLAN0_VAP1; APL_NTP].
Proof.
  refine (items_handled (board := bench 0) 7 radio_cfg radio radio_hw [1] _ vap_process_ready _ _); closed.
Qed.

Lemma radio_process_handled :
  Forall (handled (applyTable (store := sample_store) (wifi := wifiuti (store := sample_store) (board := bench 1)))
            (at_rest radio_cfg radio []) (item_runs radio_cfg radio_hw)) [APL_WLAN0; APL_NTP].
Proof.
  refine (items_handled (board := bench 1) 7 radio_cfg radio radio_hw [] _ radio_process_ready _ _); closed.
Qed.

Lemma vap_process_due :
  due (store := sample_store) (wifi := wifiuti (store := sample_store) (board := bench 0)) (flagged vap_process) =
    [APL_LOGIN; APL_WLAN0_VAP1; APL_NTP].
Proof. vm_compute. reflexivity. Qed.

Lemma radio_process_due :
  due (store := sample_store) (wifi := wifiuti (store := sample_store) (board := bench 1)) (flagged radio_process) =
    [APL_WLAN0; APL_NTP].
Proof. vm_compute. reflexivity. Qed.

Example walk_serves_every_flag_witness :
  runs (apl_handleApplyTree (store := sample_store)
      (applyTable (store := sample_store) (wifi := wifiuti (store := sample_store) (board := bench 0))) APL_ROOT) vap_process
    (λ r p', r = 0 ∧ sys_rep (a_sys p') radio_cfg) ∧
  runs (apl_handleApplyTree (store := sample_store)
      (applyTable (store := sample_store) (wifi := wifiuti (store := sample_store) (board := bench 1))) APL_ROOT) radio_process
    (λ r p', r = 0 ∧ sys_rep (a_sys p') radio_cfg).
Proof.
  split.
  - eapply runs_mono.
    + refine (walk_serves_every_flag (wifi := wifiuti (store := sample_store) (board := bench 0)) 7 radio_cfg
        (at_rest radio_cfg radio [1]) (item_runs radio_cfg radio_hw) vap_process
        (at_rest_steady radio_cfg radio [1]) (eq_ind_r (Forall _) vap_process_handled vap_process_due) eq_refl _ eq_refl).
      apply radio_at_rest. closed.
    + cbv beta. by intros r p (-> & [H _] & _).
  - eapply runs_mono.
    + refine (walk_serves_every_flag (wifi := wifiuti (store := sample_store) (board := bench 1)) 7 radio_cfg
        (at_rest radio_cfg radio []) (item_runs radio_cfg radio_hw) radio_process
        (at_rest_steady radio_cfg radio []) (eq_ind_r (Forall _) radio_process_handled radio_process_due) eq_refl _ eq_refl).
      apply radio_at_rest. closed.
    + cbv beta. by intros r p (-> & [H _] & _).
Defined.
