(* ===== verification/EditVars.v ===== *)
(** * The page variables (libeditapcfg/editapcfg.c)

    The text form of the configuration goes through some two hundred global
    variables, one for each attribute of the file.  Their memory is a map from
    objects to bytes: an object is named by its variable and its row (0 for a
    variable that is not an array of arrays), and its bytes are as many as the
    declaration says, so a store that leaves the object is a [Fault].
    [unsigned char] is one byte, [unsigned short int] two, big-endian. *)

From S2P Require Import Prelude CLib FileSys CfgStore ApCfgSys ApCfgWlan ApCfgLists.

(** ** Sizes (editapcfg.h, apcfg.h) *)

Definition SSID_LEN : nat := 32.
Definition SECRET_LEN : nat := 128.
(** [MAX_KEY_LEN_BYTES*2] *)
Definition KEY_LEN : nat := 32.
Definition AC_NO : nat := Z.to_nat CFG_MAX_ACL.
Definition CFG_MAX_IPADDR : nat := 20.
Definition MAC_CFG_URL_LENGTH : nat := 256.

(** ** The variables *)

Abbreviation cell := (cstr * nat)%type.

(** A variable: its name, its rows, the bytes of a row. *)
Record decl : Type := Decl { d_name : cstr; d_rows : nat; d_size : nat }.

Definition size_of (n : Z) : nat := Z.to_nat n.
Definition bytes_of (names : list cstr) : list decl := map (λ n, Decl n 1 1) names.
Definition words_of (names : list cstr) : list decl := map (λ n, Decl n 1 2) names.

Definition decls_title : list decl :=
  [Decl "APmac" 1 6; Decl "APpin" 1 9; Decl "APchecksum" 1 9].

Definition decls_basic : list decl :=
  [Decl "APName" 1 (size_of MAX_SYSNAME + 1); Decl "APDesc" 1 (size_of MAX_DESC + 1); Decl "APLang" 1 4;
   Decl "IPAddress4" 1 4; Decl "subnet4" 1 4; Decl "gateway4" 1 4;
   Decl "dnsServer1" 1 (CFG_MAX_IPADDR + 1); Decl "dnsServer2" 1 (CFG_MAX_IPADDR + 1);
   Decl "IPAddress6" 1 45; Decl "gateway6" 1 45; Decl "IPv6dnsServer1" 1 45; Decl "IPv6dnsServer2" 1 45] ++
  bytes_of ["dhcpF" : cstr; "dhcp6F" : cstr; "IPv6" : cstr; "prefixlen" : cstr].

Definition decls_time : list decl :=
  [Decl "date_p" 1 15; Decl "time_p" 1 10; Decl "timeZone" 1 (size_of CFG_TIME_ZONE_LEN + 1);
   Decl "ntpServer" 1 (CFG_MAX_IPADDR + 1)] ++
  bytes_of ["timesetting" : cstr; "daylightSaving" : cstr; "usDefntp" : cstr].

Definition decls_setup : list decl :=
  bytes_of ["htBonjour" : cstr; "htForce100m" : cstr; "htAutoNegotiation" : cstr; "htPortSpeed" : cstr;
            "htDuplexMode" : cstr; "htEthDataRate" : cstr; "htRedirect" : cstr; "ethDot1xAuth" : cstr;
            "authViaMac" : cstr] ++
  [Decl "htRedirectUrl" 1 (MAC_CFG_URL_LENGTH + 1);
   Decl "authName" 1 (size_of MAX_DOT1XSUPP_NAME + 1);
   Decl "authPasswd" 1 (size_of MAX_DOT1XSUPP_PASSWD + 1)].

Definition VAPS : nat := size_of WLAN_MAX_VAP.
Definition vap_bytes (names : list cstr) : list decl := map (λ n, Decl n VAPS 1) names.

Definition decls_wireless : list decl :=
  bytes_of ["wlsMode" : cstr; "channel" : cstr; "vapIsolated" : cstr] ++
  vap_bytes ["ssidBroadcast" : cstr; "secSystem" : cstr; "wlsSeparation" : cstr; "authType" : cstr;
             "encrypt" : cstr; "keyNo" : cstr; "aclFlag" : cstr; "aclType" : cstr] ++
  [Decl "ssid" VAPS (SSID_LEN + 1);
   Decl "authSIP1" 1 4; Decl "authSPort1" 1 2; Decl "authSSecret1" 1 (SECRET_LEN + 1);
   Decl "authSIP2" 1 4; Decl "authSPort2" 1 2; Decl "authSSecret2" 1 (SECRET_LEN + 1);
   Decl "key1" VAPS (KEY_LEN + 1); Decl "key2" VAPS (KEY_LEN + 1);
   Decl "key3" VAPS (KEY_LEN + 1); Decl "key4" VAPS (KEY_LEN + 1);
   Decl "preShared" VAPS (size_of CFG_MAX_PASSPHRASE + 1); Decl "keyrenew" VAPS 2;
   (* the row of [aclMac[i][j]] is [20 * i + j] *)
   Decl "aclMac" (VAPS * CFG_MAX_ACL_LINKSYS) 6].

Definition decls_vlan : list decl :=
  bytes_of ["vlan" : cstr; "vlanTag" : cstr; "wdsTag" : cstr] ++
  words_of ["nativeVid" : cstr; "manageVid" : cstr] ++
  [Decl "wdsVlanList" 1 21; Decl "vapVlan" 4 2; Decl "vapPri" 4 1; Decl "vapWmm" 4 1].

Definition decls_advanced : list decl :=
  bytes_of ["worldwide" : cstr; "channelBand" : cstr; "guardInter" : cstr; "ctsProtect" : cstr;
            "dtimInter" : cstr; "loadBalance" : cstr] ++
  words_of ["countryCode" : cstr; "beaconInterval" : cstr; "rtsThreshold" : cstr; "fragLength" : cstr] ++
  [Decl "vapBalance" VAPS 2].

(** [rogueApMacList] is a structure: the number of entries, the number written
    or read so far, and the entries. *)
Definition decls_mode : list decl :=
  bytes_of ["opMode" : cstr; "wdsRepeater" : cstr; "ucrRepeater" : cstr; "noSecurity" : cstr;
            "illegalAp" : cstr] ++
  [Decl "pxpMac" 4 6; Decl "perfssid" 1 (SSID_LEN + 1);
   Decl "rogueApMacList.no" 1 2; Decl "rogueApMacList.outNo" 1 2; Decl "rogueApMacList.mac" AC_NO 18].

Definition decls_management : list decl :=
  bytes_of ["secShow" : cstr; "httpsEnable" : cstr; "webAccess" : cstr; "secureSh" : cstr; "snmp" : cstr;
            "snmpTrust" : cstr; "trapRange" : cstr] ++
  [Decl "loginName" 1 (size_of CFG_MAX_USERNAME + 1); Decl "loginPasswd" 1 (size_of CFG_MAX_PASSWORD + 1);
   Decl "trapStartIp" 1 4; Decl "trapServerIp" 1 4] ++
  map (λ n, Decl n 1 (size_of MAX_SNMP_COMMUNITY + 1))
    ["contact" : cstr; "snmplocal" : cstr; "snmpdevice" : cstr; "getCom" : cstr; "setCom" : cstr;
     "trapCom" : cstr].

Definition decls_log : list decl :=
  bytes_of ["mailAlert" : cstr; "syslogF" : cstr; "unAthLogin" : cstr; "AthLogin" : cstr;
            "sysError" : cstr; "cfgChange" : cstr] ++
  words_of ["logLength" : cstr; "logTime" : cstr] ++
  [Decl "smtpServ" 1 (size_of MAX_SMTP_SERVER + 1); Decl "mailAddr" 1 (size_of MAX_MAIL_SERVER + 1);
   Decl "logIPAddr" 1 4].

Definition decls : list decl :=
  decls_title ++ decls_basic ++ decls_time ++ decls_setup ++ decls_wireless ++ decls_vlan ++
  decls_advanced ++ decls_mode ++ decls_management ++ decls_log.

(** The objects with their sizes. *)
Definition cells : list (cell * nat) :=
  concat (map (λ d, map (λ i, ((d_name d, i), d_size d)) (seq 0 (d_rows d))) decls).
Definition layout : gmap cell nat := list_to_map cells.

(** Static storage starts as zeroes, but for two initialised variables. *)
Definition vars_start : gmap cell bytes :=
  <[("dhcpF" : cstr, O) := [chr 1]]> (<[("dhcp6F" : cstr, O) := [chr 1]]>
    ((λ n, replicate n NUL) <$> layout)).

(** ** The state and its accesses *)

Record edit : Type := Edit { vars : gmap cell bytes; machine : sys }.

Definition set_vars (m : gmap cell bytes) (s : edit) : edit := Edit m (machine s).

(** A call of the configuration library or of the system. *)
Definition onM {A} (m : M sys A) : M edit A := λ s,
  match m (machine s) with
  | Done (a, t) => Done (a, Edit (vars s) t)
  | Fault => Fault
  | Stuck => Stuck
  end.

Definition obj (v : cell) : M edit bytes :=
  s ← getS; match vars s !! v with Some b => mret b | None => faultM end.

(** Bytes [d] written at offset [off] of a buffer. *)
Definition splice (off : nat) (d b : bytes) : bytes := take off b ++ d ++ drop (off + length d) b.

(** [memcpy(var + off, d, n)], and what is made of it. *)
Definition poke (v : cell) (off : nat) (d : bytes) : M edit unit :=
  b ← obj v;
  if decide (off + length d <= length b)%nat
  then modS (λ s, set_vars (<[v := splice off d b]> (vars s)) s)
  else faultM.

Definition memset_var (v : cell) (c : ascii) (n : nat) : M edit unit := poke v 0 (replicate n c).
Definition strcpy_var (v : cell) (p : cstr) : M edit unit := poke v 0 (p ++ [NUL]).
(** [*(unsigned char * )var = z] and [*(unsigned short int * )var = z] *)
Definition set_byte (v : cell) (z : Z) : M edit unit := poke v 0 [chr z].
Definition set_word (v : cell) (z : Z) : M edit unit := poke v 0 [chr (z / 256); chr z].

(** [memcpy(buf, var, n)] *)
Definition peek (v : cell) (n : nat) : M edit bytes :=
  b ← obj v; if decide (n <= length b)%nat then mret (take n b) else faultM.
Definition get_byte (v : cell) : M edit Z :=
  b ← peek v 1; mret (code (nth 0 b NUL)).
Definition get_word (v : cell) : M edit Z :=
  b ← peek v 2; mret (256 * code (nth 0 b NUL) + code (nth 1 b NUL)).
(** The string in a variable. *)
Definition get_text (v : cell) : M edit cstr := b ← obj v; liftO (rd_str b).

(** A variable by its name, and a row of one. *)
Definition g (name : cstr) : cell := (name, O).
Definition at_row (name : cstr) (i : Z) : cell := (name, Z.to_nat i).
