(* ===== verification/EditAssign.v ===== *)
(** * The values of an attribute (libeditapcfg/editapcfg.c)

    The [Assign...] functions check the text of a value and store it in the
    page variable; a value that does not pass the check is ignored.  The value
    comes from a line of the file, so it has no more than 126 characters, and
    often the variable has room for less.  The default country of the board
    ([sc_get_default_country] of libutility) is here too. *)

From S2P Require Import Prelude CLib FileSys Inet Utility CfgStore ApCfgSys ApCfgWlan ApCfgLists EditVars.

(** ** Numbers in a range *)

(** One digit, as an [unsigned char]. *)
Definition assign_digit (lo hi : Z) (var : cell) (value : cstr) : M edit unit :=
  let t := (code (ch value 0) - 48) mod 256 in
  when ((lo <=? t) && (t <=? hi)) (set_byte var t).

(** [atoi] of the value, the first character possibly checked to be a digit. *)
Definition assign_number (digit_first : bool) (lo hi : Z) (set : cell → Z → M edit unit)
    (var : cell) (value : cstr) : M edit unit :=
  if digit_first && negb (isdigit (ch value 0)) then mret tt
  else let t := atoi value in when ((lo <=? t) && (t <=? hi)) (set var t).

Definition Assign01 := assign_digit 0 1.
Definition Assign0To2 := assign_digit 0 2.
Definition Assign0To3 := assign_digit 0 3.
Definition Assign0To4 := assign_digit 0 4.
Definition Assign1To3 := assign_digit 1 3.
Definition Assign1To4 := assign_digit 1 4.
Definition Assign0To7 := assign_digit 0 7.
Definition Assign0To8 := assign_digit 0 8.

Definition Assign1To6 := assign_number true 1 6 set_word.
Definition Assign0To14 := assign_number true 0 14 set_byte.
Definition Assign0To64 := assign_number true 0 64 set_byte.
Definition Assign0To99 := assign_number true 0 99 set_word.
Definition Assign3To99 (var : cell) (value : cstr) : M edit unit :=
  if (code (ch value 0) <? 51) || (57 <? code (ch value 0)) then mret tt
  else let t := atoi value in when ((3 <=? t) && (t <=? 99)) (set_word var t).
Definition Assign1To254 := assign_number false 1 254 set_byte.
(** There is no lower bound, and a side effect on another variable. *)
Definition Assign0To255 (var : cell) (value : cstr) : M edit unit :=
  let t := atoi value in
  _ ← when (t <=? 255) (set_word var t);
  set_word (g "rogueApMacList.outNo") 0.
Definition Assign1To255 := assign_number false 1 255 set_byte.
Definition Assign1To500 := assign_number false 1 500 set_word.
Definition Assign10To600 := assign_number false 10 600 set_word.
Definition Assign60To600 := assign_number false 60 600 set_word.
Definition Assign20To1000 := assign_number false 20 1000 set_word.
Definition Assign0To2347 := assign_number true 0 2347 set_word.
Definition Assign256To2346 := assign_number true 256 2346 set_word.
Definition Assign1To4094 := assign_number true 1 4094 set_word.
Definition AssignPrefix := assign_number true 0 128 set_byte.
Definition AssignByte := assign_number true 0 255 set_byte.
Definition AssignWord := assign_number true 0 65535 set_word.
Definition AssignPort := assign_number true 1 65534 set_word.

Definition AssignTrapPort := assign_number true 1 65534
  (λ var t, if isInvalidSnmpTrapPort t then mret tt else set_word var t).

Definition AssignDateRate (var : cell) (value : cstr) : M edit unit :=
  if negb (isdigit (ch value 0)) then mret tt
  else let t := atoi value in
    when (existsb (Z.eqb t) [0; 1; 2; 5; 6; 9; 11; 12; 18; 24; 36; 48; 54]) (set_byte var t).

(** The codes of the file become those of the library. *)
Definition key_len_code (t : Z) : Z :=
  if t =? 1 then WPA_CIPHER_TKIP
  else if t =? 2 then WPA_CIPHER_AES
  else if t =? 3 then WPA_CIPHER_AUTO
  else if t =? 64 then 40
  else if t =? 128 then 104
  else 40.
Definition AssignKeyLen (var : cell) (value : cstr) : M edit unit := set_byte var (key_len_code (atoi value)).

(** ** Addresses *)

(** [sscanf(value, "%d.%d.%d.%d", ...)] when it gives 4, as [unsigned int]s. *)
Definition scan_quad (value : cstr) : outcome (option (Z * Z * Z * Z)) :=
  a ← scan_d (value ++ [NUL]);
  match a with
  | Some (i0, "."%char :: r0) =>
      b ← scan_d r0;
      match b with
      | Some (i1, "."%char :: r1) =>
          c ← scan_d r1;
          match c with
          | Some (i2, "."%char :: r2) =>
              d ← scan_d r2;
              match d with
              | Some (i3, _) => Done (Some (wrap32 i0, wrap32 i1, wrap32 i2, wrap32 i3))
              | None => Done None
              end
          | _ => Done None
          end
      | _ => Done None
      end
  | _ => Done None
  end.

Definition set_quad (var : cell) (q : Z * Z * Z * Z) : M edit unit :=
  let '(i0, i1, i2, i3) := q in poke var 0 [chr i0; chr i1; chr i2; chr i3].

Definition ip_ok (q : Z * Z * Z * Z) : bool :=
  let '(i0, i1, i2, i3) := q in
  negb ((i0 <? 1) || (254 <? i0) || (255 <? i1) || (255 <? i2) || (i3 <? 1) || (254 <? i3)).

Definition AssignIP (var : cell) (value : cstr) : M edit unit :=
  l ← liftO (scan_quad value);
  match l with
  | Some q => when (ip_ok q) (set_quad var q)
  | None => mret tt
  end.

Definition mask_octets : list Z := [0; 128; 192; 224; 240; 248; 252; 254].
Definition is_in (l : list Z) (i : Z) : bool := existsb (Z.eqb i) l.

Definition mask_ok (q : Z * Z * Z * Z) : bool :=
  let '(i0, i1, i2, i3) := q in
  if negb (i0 =? 255) then
    negb (negb (i1 =? 0) || negb (i2 =? 0) || negb (i3 =? 0)) && is_in [192; 224; 240; 248; 252; 254] i0
  else if negb (i1 =? 255) then negb (negb (i2 =? 0) || negb (i3 =? 0)) && is_in mask_octets i1
  else if negb (i2 =? 255) then (i3 =? 0) && is_in mask_octets i2
  else is_in [0; 128; 192; 224; 240; 248; 252] i3.

Definition AssignMask (var : cell) (value : cstr) : M edit unit :=
  l ← liftO (scan_quad value);
  match l with
  | Some q => when (mask_ok q) (set_quad var q)
  | None => mret tt
  end.

Definition AssignIPv6 (var : cell) (value : cstr) : M edit unit :=
  when (scValidIPv6 value false) (strcpy_var var value).

Definition AssignGWv6 (var : cell) (value : cstr) : M edit unit :=
  ok ← liftO (scValidGWv6 value); when ok (strcpy_var var value).

(** ** Hexadecimal text *)

Definition IsStarStr (buff : cstr) (length : nat) : bool :=
  forallb (λ c, bool_decide (c = "*"%char)) (take length buff).

Definition is_hex (c : ascii) : bool := bool_decide (is_Some (hexval c)).

(** The loop at index [i]; the fuel is the number of characters. *)
Fixpoint hex_str_loop (fuel : nat) (str : cstr) (l : nat) (flag : bool) (i : nat) : bool :=
  match fuel with
  | O => true
  | S fuel' =>
      if decide (l <= i)%nat then true
      else if is_hex (ch str i) then
        if decide (l <= S i)%nat then true
        else if is_hex (ch str (S i)) then
          hex_str_loop fuel' str l flag (i + 2 + (if flag then 1 else 0))
        else false
      else if bool_decide (i = (l + 1) / 2)%nat && flag then starts "**:**:**" (drop i str)
      else starts "******" (drop i str)
  end.
Definition IsHexStr (str : cstr) (l : nat) (flag : bool) : bool := hex_str_loop l str l flag 0.

Definition hex_nibble (c : ascii) : Z :=
  let c1 := (code c - 48) mod 256 in if 10 <? c1 then Z.land c1 0x0F + 9 else c1.
(** Bytes from pairs of characters, [step] apart. *)
Fixpoint hexcpy (n : nat) (value : cstr) (step : nat) : bytes :=
  match n with
  | O => []
  | S n' => chr (Z.lor (hex_nibble (ch value 0) * 16) (hex_nibble (ch value 1))) :: hexcpy n' (drop step value) step
  end.

Definition AssignKey (var : cell) (value : cstr) : M edit unit :=
  match value with
  | [] => memset_var var NUL (KEY_LEN + 1)
  | _ =>
      if Nat.odd (length value) then mret tt
      else
        let l := Nat.min (length value) KEY_LEN in
        if negb (bool_decide (l = 10%nat)) && negb (bool_decide (l = 26%nat)) then mret tt
        else if negb (IsHexStr value l false) then mret tt
        else
          _ ← memset_var var NUL (l + 1);
          if IsStarStr value l then mret tt else poke var 0 (take l value)
  end.

Definition AssignMac (var : cell) (value : cstr) : M edit unit :=
  match value with
  | [] => memset_var var NUL 6
  | _ =>
      let l := length value in
      if negb (bool_decide (l = 12%nat)) && negb (bool_decide (l = 17%nat)) then mret tt
      else
        let flag := bool_decide (l = 17%nat) in
        if negb (IsHexStr value l flag) then mret tt
        else poke var 0 (hexcpy 6 value (if flag then 3 else 2))
  end.

(** ** The list of legal access points *)

Definition rogue_mac (i : Z) : cell := at_row "rogueApMacList.mac" i.

(** [n] entries from index [i] on. *)
Fixpoint mac_in (d : bytes) (n : nat) (i : Z) : M edit bool :=
  match n with
  | O => mret false
  | S n' => m ← peek (rogue_mac i) 17;
            if decide (m = take 17 d) then mret true else mac_in d n' (i + 1)
  end.
Definition IsInScMacList (d : bytes) : M edit bool :=
  n ← get_word (g "rogueApMacList.outNo"); mac_in d (Z.to_nat n) 0.

Definition AssignScMacList (var : cell) (value : cstr) : M edit unit :=
  let l := length value in
  no ← get_word (g "rogueApMacList.no");
  outNo ← get_word (g "rogueApMacList.outNo");
  if no <=? outNo then mret tt
  else if negb (bool_decide (l = 12%nat)) && negb (bool_decide (l = 17%nat)) then mret tt
  else if negb (IsHexStr value l (bool_decide (l = 17%nat))) then mret tt
  else
    mac ← (if decide (l = 12%nat) then liftO (scMacStr12ToStr17 value ":") else mret value);
    dup ← IsInScMacList mac;
    if (dup : bool) then set_word (g "rogueApMacList.no") (no - 1)
    else
      _ ← set_word (g "rogueApMacList.outNo") (outNo + 1);
      poke (rogue_mac outNo) 0 (take 17 mac).

(** ** Texts *)

(** [memset(var, 0, l+1)], then [max] characters and a terminator when the text
    has more than [lim], otherwise all of it. *)
Definition assign_text (lim max : nat) (var : cell) (value : cstr) : M edit unit :=
  let l := length value in
  _ ← memset_var var NUL (l + 1);
  if (lim <? l)%nat then
    _ ← poke var 0 (take max value); poke var max [NUL]
  else strcpy_var var value.

Definition AssignStr15 := assign_text 15 15.
Definition AssignStr32 := assign_text 32 32.
Definition AssignStr40 := assign_text 39 40.
Definition AssignStr64 := assign_text 63 64.
Definition AssignServerStr := assign_text CFG_MAX_IPADDR CFG_MAX_IPADDR.

Definition AssignPassword (var : cell) (value : cstr) : M edit unit :=
  let l := length value in
  if (l <? 4)%nat then mret tt
  else
    _ ← memset_var var NUL (l + 1);
    if IsStarStr value l then mret tt
    else if (63 <? l)%nat then _ ← poke var 0 (take 64 value); poke var 64 [NUL]
    else strcpy_var var value.

Definition AssignSecret128 (var : cell) (value : cstr) : M edit unit :=
  let l := length value in
  _ ← memset_var var NUL (l + 1);
  if IsStarStr value l then mret tt
  else if (SECRET_LEN <? l)%nat then _ ← poke var 0 (take SECRET_LEN value); poke var SECRET_LEN [NUL]
  else strcpy_var var value.

Definition AssignPreSharedKey (var : cell) (value : cstr) : M edit unit :=
  let l := length value in
  if (l <? 8)%nat || (63 <? l)%nat then mret tt
  else
    _ ← memset_var var NUL (l + 1);
    if IsStarStr value l then mret tt
    else if (63 <? l)%nat then _ ← poke var 0 (take 63 value); poke var 63 [NUL]
    else strcpy_var var value.

(** [strncpy] fills up with zeroes. *)
Definition AssignSSID (var : cell) (value : cstr) : M edit unit :=
  if (SSID_LEN <? length value)%nat then mret tt
  else poke var 0 (value ++ replicate (SSID_LEN - length value) NUL).

Definition AssignMail (var : cell) (value : cstr) : M edit unit :=
  if (64 <? length value)%nat then mret tt
  else when (scValidEmailAddr value (zlen value)) (strcpy_var var value).

(** The value is changed to lower case in place. *)
Definition AssignURL (var : cell) (value : cstr) : M edit unit :=
  let value := scToLows value in
  ok ← liftO (scValidUrl value); when ok (strcpy_var var value).

Definition Assignwdsvlist (var : cell) (value : cstr) : M edit unit :=
  when (scValidwdsVlanList value) (strcpy_var var value).

Definition AssignSMTPServer (var : cell) (value : cstr) : M edit unit :=
  if (length value <? 65)%nat then
    ok ← liftO (scValidUrl value);
    when (ok && negb (starts_nocase "http://" value) && negb (starts_nocase "https://" value))
      (strcpy_var var value)
  else mret tt.

(** ** Times *)

(** [sscanf(value, "%d%d:%d", &i, &h, &m)]: what is assigned; the variables
    that are not keep what was on the stack. *)
Definition scan_zone (value : cstr) : outcome (option Z * option Z * option Z) :=
  a ← scan_d (value ++ [NUL]);
  match a with
  | None => Done (None, None, None)
  | Some (i, r0) =>
      b ← scan_d r0;
      match b with
      | Some (h, ":"%char :: r1) =>
          c ← scan_d r1;
          Done (Some i, Some h, match c with Some (m, _) => Some m | None => None end)
      | Some (h, _) => Done (Some i, Some h, None)
      | None => Done (Some i, None, None)
      end
  end.

(** A variable read; it must have been assigned. *)
Definition assigned (v : option Z) : M edit Z := match v with Some z => mret z | None => faultM end.

Definition AssignTimeZone (var : cell) (value : cstr) : M edit unit :=
  if (size_of CFG_TIME_ZONE_LEN <? length value)%nat then mret tt
  else
    r ← liftO (scan_zone value);
    let '(i, h, m) := (r : option Z * option Z * option Z) in
    i ← assigned i;
    if (i <? 1) || (75 <? i) then mret tt
    else
      h ← assigned h;
      if (h <? -12) || (13 <? h) then mret tt
      else
        m ← assigned m;
        if negb (m =? 0) && negb (m =? 30) && negb (m =? 45) then mret tt
        else if (m =? 45) && negb (h =? 5) then mret tt
        else if (m =? 30) && (negb (h =? 3) || negb (h =? 4) || negb (h =? 5) || negb (h =? 9)) then mret tt
        else strcpy_var var value.

(** [atoi(p)] with [p] from [strtok]. *)
Definition atoi_tok (p : option cstr) : M edit Z :=
  match p with Some t => mret (atoi t) | None => faultM end.

Definition AssignDate (var : cell) (value : cstr) : M edit unit :=
  buff ← liftO (if decide (length value < 15)%nat then Done value else Fault);
  let '(p, buff) := strtok ["/"%char] buff in
  match p with
  | None => faultM
  | Some t =>
      if negb (isdigit (ch t 0)) then mret tt
      else
        let t := atoi t in
        if (t <? 1970) && (2100 <? t) then mret tt
        else
          let '(p, buff) := strtok ["/"%char] buff in
          t ← atoi_tok p;
          if (t <? 0) && (12 <? t) then mret tt
          else
            let '(p, _) := strtok ["/"%char] buff in
            t ← atoi_tok p;
            if (t <? 0) && (31 <? t) then mret tt else strcpy_var var value
  end.

Definition AssignTime (var : cell) (value : cstr) : M edit unit :=
  let '(p, buff) := strtok [":"%char] value in
  match p with
  | None => faultM
  | Some hour =>
      if negb (isdigit (ch hour 0)) then mret tt
      else
        let t := atoi hour in
        if (t <? 0) && (59 <? t) then mret tt
        else
          _ ← strcpy_var var hour;
          let '(p, buff) := strtok [":"%char] buff in
          t ← atoi_tok p;
          if (t <? 0) && (59 <? t) then mret tt
          else
            _ ← poke var (length hour) (default [] p ++ [NUL]);
            let '(p, _) := strtok [":"%char] buff in
            t ← atoi_tok p;
            if (t <? 0) && (59 <? t) then mret tt else strcpy_var var value
  end.

(** ** Percentages

    The value is read with [%f] into a [float].  A number of the text is a
    rational; a [float] is a mantissa and an exponent of two. *)

Inductive scanned : Type :=
  | ScanNum (neg : bool) (n d : Z)
  | ScanInf (neg : bool)
  | ScanNan.

Fixpoint span_while (p : ascii → bool) (s : cstr) : cstr * cstr :=
  match s with
  | c :: s' => if p c then let '(a, b) := span_while p s' in (c :: a, b) else ([], s)
  | [] => ([], [])
  end.

Definition digits_in (base : Z) (s : cstr) : Z :=
  fold_left (λ v c, base * v + default 0 (hexval c)) s 0.

(** An exponent behind its letter: a sign and at least one digit. *)
Definition scan_exp (s : cstr) : option Z :=
  let '(neg, s) := match s with
                   | "-"%char :: r => (true, r) | "+"%char :: r => (false, r) | r => (false, r)
                   end in
  let '(ds, _) := span_while isdigit s in
  match ds with
  | [] => None
  | _ => let e := digits_in 10 ds in Some (if (neg : bool) then - e else e)
  end.

(** Digits with a point in a base, an exponent of [ebase] behind one of [es];
    a digit behind the point counts [pbase]. *)
Definition scan_digits_f (base ebase pbase : Z) (es : list ascii) (neg : bool) (s : cstr) : option scanned :=
  let p := if base =? 16 then is_hex else isdigit in
  let '(a, r) := span_while p s in
  let '(b, r) := match r with "."%char :: r' => span_while p r' | _ => ([], r) end in
  match a ++ b with
  | [] => None
  | ds =>
      e ← match r with
          | c :: r' => if bool_decide (c ∈ es) then scan_exp r' else Some 0
          | [] => Some 0
          end;
      let n := digits_in base ds in
      let d := pbase ^ zlen b in
      Some (if 0 <=? e then ScanNum neg (n * ebase ^ e) d else ScanNum neg n (d * ebase ^ (- e)))
  end.

Definition scan_f (s : cstr) : option scanned :=
  let s := skip_space s in
  let '(neg, s) := match s with
                   | "-"%char :: r => (true, r) | "+"%char :: r => (false, r) | r => (false, r)
                   end in
  if starts_nocase "inf" s then Some (ScanInf neg)
  else if starts_nocase "nan" s then Some ScanNan
  else if starts_nocase "0x" s then scan_digits_f 16 2 16 ["p"; "P"]%char neg (drop 2 s)
  else scan_digits_f 10 10 10 ["e"; "E"]%char neg s.

(** The quotient rounded to the nearest integer, to an even one between two. *)
Definition div_even (n d : Z) : Z :=
  let q := n / d in
  let r := n mod d in
  if 2 * r <? d then q else if d <? 2 * r then q + 1 else if Z.even q then q else q + 1.

(** [n / d / 2 ^ e] as a fraction. *)
Definition scaled (n d e : Z) : Z * Z := if 0 <=? e then (n, d * 2 ^ e) else (n * 2 ^ (- e), d).

(** The [float] nearest to [n / d]: 24 bits of mantissa, the least exponent -149. *)
Definition round32 (n d : Z) : Z * Z :=
  if n =? 0 then (0, 0)
  else
    let k := Z.log2 n - Z.log2 d in
    let '(a, b) := scaled n d k in
    let e := Z.max (-149) (if b <=? a then k - 23 else k - 24) in
    let '(a, b) := scaled n d e in
    (div_even a b, e).

(** A [float] as a fraction, and the conversion to an integer. *)
Definition float_frac (f : Z * Z) : Z * Z := scaled f.1 1 (- f.2).
Definition float_trunc (f : Z * Z) : Z := let '(n, d) := float_frac f in n / d.

(** [temp = t * 100] for the [float] nearest to a fraction that is in the range;
    [None]: the value is ignored. *)
Definition percent (neg : bool) (n d : Z) : option Z :=
  let t := round32 n d in
  let '(tn, td) := float_frac t in
  if (neg && negb (tn =? 0)) || (100 * td <? tn) then None
  else let '(pn, pd) := float_frac (t.1 * 100, t.2) in Some (float_trunc (round32 pn pd)).

Definition AssignPercent (var : cell) (value : cstr) : M edit unit :=
  match scan_f value with
  | None | Some ScanNan => faultM
  | Some (ScanInf _) => mret tt
  | Some (ScanNum neg n d) =>
      match percent neg n d with
      | Some temp => set_word var temp
      | None => mret tt
      end
  end.

(** ** Countries *)

Definition CTRY_AUSTRALIA : Z := 36.
Definition CTRY_BRAZIL : Z := 76.
Definition CTRY_CHINA : Z := 156.
Definition CTRY_GERMANY : Z := 276.
Definition CTRY_KOREA_ROC : Z := 410.
Definition CTRY_MEXICO : Z := 484.
Definition CTRY_UNITED_STATES : Z := 840.

Definition SKU_US : Z := 0x10.
Definition SKU_AU : Z := 0x35.
Definition SKU_JP : Z := 0x40.
Definition SKU_LA : Z := 0x50.
Definition SKU_BR : Z := 0x51.
Definition SKU_CN : Z := 0x70.
Definition SKU_KR : Z := 0x75.
Definition SKU_G5 : Z := 0x80.

Definition sku_country (domain : Z) : Z :=
  if domain =? SKU_US then CTRY_UNITED_STATES
  else if domain =? SKU_AU then CTRY_AUSTRALIA
  else if domain =? SKU_BR then CTRY_BRAZIL
  else if domain =? SKU_CN then CTRY_CHINA
  else if domain =? SKU_G5 then CTRY_GERMANY
  else if domain =? SKU_LA then CTRY_MEXICO
  else if domain =? SKU_JP then CTRY_JAPAN
  else if domain =? SKU_KR then CTRY_KOREA_ROC
  else CTRY_UNITED_STATES.

(** [sscanf(line, "%x", &domain)]; [None] leaves [domain] alone. *)
Definition scan_x (s : cstr) : option Z :=
  let s := skip_space s in
  let '(neg, s) := match s with
                   | "-"%char :: r => (true, r) | "+"%char :: r => (false, r) | r => (false, r)
                   end in
  let s := if starts_nocase "0x" s && is_hex (ch s 2) then drop 2 s else s in
  let '(ds, _) := span_while is_hex s in
  match ds with
  | [] => None
  | _ => let v := Z.min (digits_in 16 ds) (2 ^ 32 - 1) in Some (if (neg : bool) then wrap32 (- v) else v)
  end.

(** The country of the board's hardware (libutility/utility.c). *)
Definition sc_get_default_country : M sys Z :=
  fp ← read_file "/tmp/hw_info/domain";
  match fp with
  | None => mret (sku_country 0)
  | Some data =>
      match fgets 64 data with
      | None => faultM
      | Some (line, _) => mret (sku_country (default 0 (scan_x line)))
      end
  end.

(** The boards whose country cannot be chosen. *)
Definition fixed_country (de_country : Z) : bool :=
  is_in [CTRY_UNITED_STATES; CTRY_AUSTRALIA; CTRY_BRAZIL; CTRY_CHINA; CTRY_GERMANY; CTRY_MEXICO; CTRY_KOREA_ROC]
    de_country.

(** The lines of [/tmp/country_list]: a name, a dash and a code, of which two
    characters are compared. *)
Fixpoint country_listed (fuel : nat) (data : bytes) (value : cstr) : outcome bool :=
  match fuel with
  | O => Stuck
  | S fuel' =>
      match fgets 63 data with
      | None => Done false
      | Some (buff, rest) =>
          match (strtok ["-"%char] (strtok ["-"%char] buff).2).1 with
          | Some p => eq ← memcmp_eq 2 value p; if (eq : bool) then Done true else country_listed fuel' rest value
          | None => country_listed fuel' rest value
          end
      end
  end.

Definition AssignCountry (var : cell) (value : cstr) : M edit unit :=
  if negb (isdigit (ch value 0)) then mret tt
  else
    de_country ← onM sc_get_default_country;
    if fixed_country de_country then set_word var de_country
    else
      fp ← onM (read_file "/tmp/country_list");
      ret ← match fp with
            | Some data => liftO (country_listed (S (length data)) data value)
            | None => mret false
            end;
      set_word var (if (ret : bool) then atoi value else de_country).
