(* ===== verification/EditOutput.v ===== *)
(** * The text of an attribute (libeditapcfg/editapcfg.c)

    The [Output...] functions write the text of a page variable.  The source
    hands on a pointer behind what has been written; here [buff] is what has
    been written so far, and the result is that with the text behind it. *)

From S2P Require Import Prelude CLib FileSys Utility CfgStore EditVars EditAssign.

Definition OutputIP (var : cell) (buff : bytes) : M edit bytes :=
  a ← peek var 4;
  let b := map code a in
  if existsb (λ z, negb (z =? 0)) b then
    match map dec b with
    | [b0; b1; b2; b3] => mret (buff ++ b0 ++ "."%char :: b1 ++ "."%char :: b2 ++ "."%char :: b3)
    | _ => faultM
    end
  else mret buff.

Definition OutputIPv6 (var : cell) (buff : bytes) : M edit bytes := mret buff.
Definition OutputGWv6 (var : cell) (buff : bytes) : M edit bytes := mret buff.

Definition OutputByte (var : cell) (buff : bytes) : M edit bytes :=
  a ← get_byte var; mret (buff ++ dec a).

Definition OutputWord (var : cell) (buff : bytes) : M edit bytes :=
  a ← get_word var; mret (buff ++ dec a).

(** "%02X" of the bytes with colons between them. *)
Fixpoint colons (l : list cstr) : cstr :=
  match l with
  | [] => []
  | [s] => s
  | s :: l' => s ++ ":"%char :: colons l'
  end.
Definition mac_text (a : bytes) : cstr := colons (map (λ c, pad0 2 (hex true (code c))) a).

Definition OutputMac (var : cell) (buff : bytes) : M edit bytes :=
  a ← peek var 6;
  mret (if existsb (λ c, negb (code c =? 0)) a then buff ++ mac_text a else buff).

Definition OutputStr (var : cell) (buff : bytes) : M edit bytes :=
  p ← get_text var; mret (buff ++ p).

(** The variable itself is overwritten when secrets are not shown. *)
Definition OutputPass (var : cell) (buff : bytes) : M edit bytes :=
  secShow ← get_byte (g "secShow");
  _ ← (if secShow =? 0 then mret tt
       else p ← get_text var; memset_var var "*" (length p));
  OutputStr var buff.

Definition OutputDR (var : cell) (buff : bytes) : M edit bytes :=
  a ← get_byte var;
  mret (buff ++ if a =? 5 then dec a ++ ".5" else dec a).

(** [sprintf(buff, "%.2f %%", a/100.0)] *)
Definition percent_text (a : Z) : cstr := dec (a / 100) ++ "."%char :: pad0 2 (dec (a mod 100)) ++ " %".

Definition OutputPercent (var : cell) (buff : bytes) : M edit bytes :=
  a ← get_word var;
  mret (if a =? 0 then buff else buff ++ percent_text a).

(** [for(l=2;(c=*(buff-l));l++) if(c=='\n') ...]: what has been written, the
    last byte first, from the byte at distance [l]; the distance found. *)
Fixpoint newline_back (l : nat) (before : bytes) : outcome nat :=
  match before with
  | [] => Fault
  | c :: before' =>
      if decide (c = NUL) then Fault
      else if decide (c = "010"%char) then Done l
      else newline_back (S l) before'
  end.

(** The [while(1)] loop; the entries number [AC_NO]. *)
Fixpoint mac_list_loop (fuel : nat) (temp : bytes) (buff : bytes) : M edit bytes :=
  match fuel with
  | O => stuckM
  | S fuel' =>
      outNo ← get_word (g "rogueApMacList.outNo");
      mac ← peek (rogue_mac outNo) 17;
      let buff := buff ++ mac in
      _ ← set_word (g "rogueApMacList.outNo") (outNo + 1);
      no ← get_word (g "rogueApMacList.no");
      outNo ← get_word (g "rogueApMacList.outNo");
      if no =? outNo then mret buff else mac_list_loop fuel' temp (buff ++ temp)
  end.

(** The entries after the first come on lines of their own, which begin with
    what stands between the last newline and the first entry. *)
Definition OutputScMacList (var : cell) (buff : bytes) : M edit bytes :=
  no ← get_word (g "rogueApMacList.no");
  if no =? 0 then mret buff
  else
    l ← liftO (newline_back 2 (drop 1 (rev buff)));
    if decide (80 < l + 1)%nat then faultM
    else if decide (length buff < l + 1)%nat then faultM
    else mac_list_loop (AC_NO + 1) (drop (length buff - (l + 1)) buff) buff.

(** ** Lines *)

Definition CR : ascii := "013"%char.
Definition LF : ascii := "010"%char.

Definition OutputGroup (group : cstr) (buff : bytes) : bytes :=
  buff ++ [CR; LF; "["%char] ++ group ++ ["]"%char; CR; LF].

Definition OutputAttr (attr : cstr) (buff : bytes) : bytes :=
  buff ++ attr ++ (if decide (ch attr 0 = ";"%char) then [] else ["="%char]).

Definition OutputComment (comment : cstr) (buff : bytes) : bytes :=
  buff ++ (if decide (comment = []) then [] else " "%char :: comment) ++ [CR; LF].

(** The apostrophe of the comments is the two bytes A1 AF. *)
Definition apostrophe : cstr := [chr 0xA1; chr 0xAF].

Definition read_only (country : cstr) : cstr := ";" ++ country ++ ". It" ++ apostrophe ++ "s read only".
Definition country_comments : list cstr :=
  [read_only "840: United States"; read_only "36: Australia"; read_only "76: Brazil"; read_only "156: China";
   (";1702: Asia, 208: Denmark, 1276: Europe, 246: Finland, 250: France, 276: Germany," : cstr) ++ [CR; LF] ++
   ("         372: Ireland, 380: Italy, 392: Japan, 528: Netherlands, 554: New Zealand, 578: Norway, " : cstr) ++
   [CR; LF] ++ ("         724: Spain, 752: Sweden, 756: Switzerland, 826: United Kingdom" : cstr);
   (";484: Mexico, 630: Puerto Rico, 1076: South America" : cstr);
   read_only "410: South Korea"].

Definition country_line (country : Z) : nat :=
  if country =? CTRY_UNITED_STATES then 0
  else if country =? CTRY_AUSTRALIA then 1
  else if country =? CTRY_BRAZIL then 2
  else if country =? CTRY_CHINA then 3
  else if country =? CTRY_GERMANY then 4
  else if country =? CTRY_MEXICO then 5
  else if country =? CTRY_KOREA_ROC then 6
  else 0.

Definition OutputCountryComment (buff : bytes) : M edit bytes :=
  country ← onM sc_get_default_country;
  mret (OutputComment (nth (country_line country) country_comments []) buff).
