(* ===== verification/EditTable.v ===== *)
(** * The attributes of the file (libeditapcfg/editapcfg.c)

    The tables of the source: the groups of the file, and for each attribute of
    a group its variable, the functions that read and write it, and the comment
    behind it.  A pointer to a function is a constructor named after it. *)

From S2P Require Import Prelude CLib Utility CfgStore EditVars EditAssign EditOutput.

(** ** Function pointers *)

Inductive assign_fn : Type :=
  | pAssignStr40 | pAssign01 | pAssignIP | pAssignMask | pAssignStr15 | pAssignIPv6
  | pAssignPrefix | pAssignGWv6 | pAssignDate | pAssignTime | pAssignTimeZone | pAssignServerStr
  | pAssign0To2 | pAssignURL | pAssignStr64 | pAssignPassword | pAssign0To7 | pAssign0To14
  | pAssignSSID | pAssignPort | pAssignSecret128 | pAssign0To8 | pAssignKeyLen | pAssign1To4
  | pAssignKey | pAssignPreSharedKey | pAssignWord | pAssignMac | pAssign1To4094
  | pAssignwdsvlist | pAssignCountry | pAssign20To1000 | pAssign1To255 | pAssign0To2347
  | pAssign256To2346 | pAssignPercent | pAssign0To4 | pAssign0To255 | pAssignScMacList
  | pAssignStr32 | pAssign1To254 | pAssignSMTPServer | pAssignMail | pAssign1To500
  | pAssign60To600.
#[global] Instance assign_fn_eq : EqDecision assign_fn.
Proof. solve_decision. Defined.

Inductive output_fn : Type :=
  | pOutputStr | pOutputByte | pOutputIP | pOutputWord | pOutputPass | pOutputMac
  | pOutputPercent | pOutputScMacList.
#[global] Instance output_fn_eq : EqDecision output_fn.
Proof. solve_decision. Defined.

(** What a pointer points to. *)
Definition assign_of (f : assign_fn) : cell → cstr → M edit unit :=
  match f with
  | pAssignStr40 => AssignStr40
  | pAssign01 => Assign01
  | pAssignIP => AssignIP
  | pAssignMask => AssignMask
  | pAssignStr15 => AssignStr15
  | pAssignIPv6 => AssignIPv6
  | pAssignPrefix => AssignPrefix
  | pAssignGWv6 => AssignGWv6
  | pAssignDate => AssignDate
  | pAssignTime => AssignTime
  | pAssignTimeZone => AssignTimeZone
  | pAssignServerStr => AssignServerStr
  | pAssign0To2 => Assign0To2
  | pAssignURL => AssignURL
  | pAssignStr64 => AssignStr64
  | pAssignPassword => AssignPassword
  | pAssign0To7 => Assign0To7
  | pAssign0To14 => Assign0To14
  | pAssignSSID => AssignSSID
  | pAssignPort => AssignPort
  | pAssignSecret128 => AssignSecret128
  | pAssign0To8 => Assign0To8
  | pAssignKeyLen => AssignKeyLen
  | pAssign1To4 => Assign1To4
  | pAssignKey => AssignKey
  | pAssignPreSharedKey => AssignPreSharedKey
  | pAssignWord => AssignWord
  | pAssignMac => AssignMac
  | pAssign1To4094 => Assign1To4094
  | pAssignwdsvlist => Assignwdsvlist
  | pAssignCountry => AssignCountry
  | pAssign20To1000 => Assign20To1000
  | pAssign1To255 => Assign1To255
  | pAssign0To2347 => Assign0To2347
  | pAssign256To2346 => Assign256To2346
  | pAssignPercent => AssignPercent
  | pAssign0To4 => Assign0To4
  | pAssign0To255 => Assign0To255
  | pAssignScMacList => AssignScMacList
  | pAssignStr32 => AssignStr32
  | pAssign1To254 => Assign1To254
  | pAssignSMTPServer => AssignSMTPServer
  | pAssignMail => AssignMail
  | pAssign1To500 => Assign1To500
  | pAssign60To600 => Assign60To600
  end.

Definition output_of (f : output_fn) : cell → bytes → M edit bytes :=
  match f with
  | pOutputStr => OutputStr
  | pOutputByte => OutputByte
  | pOutputIP => OutputIP
  | pOutputWord => OutputWord
  | pOutputPass => OutputPass
  | pOutputMac => OutputMac
  | pOutputPercent => OutputPercent
  | pOutputScMacList => OutputScMacList
  end.

(** The functions that are called with an empty value too. *)
Definition nvAssignFuncTbl : list assign_fn := [pAssignKey; pAssignMac; pAssignSSID].
Definition isNvAssignFunc (f : assign_fn) : bool := bool_decide (f ∈ nvAssignFuncTbl).

(** ** Records of the tables *)

Record attr_s : Type := Attr {
  attr : cstr;
  var : cell;
  assignfunc : option assign_fn;
  outputfunc : option output_fn;
  comment : cstr;
  attr_type : Z;
}.

Record CFG_s : Type := Group { group : cstr; attrs : list attr_s; group_type : Z }.

Definition CFG_TYPE_ALL : Z := 0xFF.

(** ** Time zones *)

Definition zones : list (cstr * cstr) :=
  [("001-12:00" : cstr, "(GMT-12:00) International Date Line West" : cstr);
   ("002-11:00" : cstr, "(GMT-11:00) Midway Island, Samoa" : cstr);
   ("003-10:00" : cstr, "(GMT-10:00) Hawaii" : cstr);
   ("004-09:00" : cstr, "(GMT-09:00) Alaska" : cstr);
   ("005-08:00" : cstr, "(GMT-08:00) Pacific Time (US & Canada); Tijuana" : cstr);
   ("006-07:00" : cstr, "(GMT-07:00) Arizona" : cstr);
   ("007-07:00" : cstr, "(GMT-07:00) Chihuahua, La Paz, Mazatlan" : cstr);
   ("008-07:00" : cstr, "(GMT-07:00) Mountain Time (US & Canada)" : cstr);
   ("009-06:00" : cstr, "(GMT-06:00) Central America" : cstr);
   ("010-06:00" : cstr, "(GMT-06:00) Central Time (US & Canada)" : cstr);
   ("011-06:00" : cstr, "(GMT-06:00) Guadalajara, Mexico City, Monterrey" : cstr);
   ("012-06:00" : cstr, "(GMT-06:00) Saskatchewan" : cstr);
   ("013-05:00" : cstr, "(GMT-05:00) Bogota, Lima, Quito" : cstr);
   ("014-05:00" : cstr, "(GMT-05:00) Eastern Time (US & Canada)" : cstr);
   ("015-05:00" : cstr, "(GMT-05:00) Indiana (East)" : cstr);
   ("016-04:00" : cstr, "(GMT-04:00) Atlantic Time (Canada)" : cstr);
   ("017-04:00" : cstr, "(GMT-04:00) Caracas, La Paz" : cstr);
   ("018-04:00" : cstr, "(GMT-04:00) Santiago" : cstr);
   ("019-03:00" : cstr, "(GMT-03:00) Newfoundland" : cstr);
   ("020-03:00" : cstr, "(GMT-03:00) Brasilia" : cstr);
   ("021-03:00" : cstr, "(GMT-03:00) Buenos Aires, Georgetown" : cstr);
   ("022-03:00" : cstr, "(GMT-03:00) Greenland" : cstr);
   ("023-02:00" : cstr, "(GMT-02:00) Mid-Atlantic" : cstr);
   ("024-01:00" : cstr, "(GMT-01:00) Azores" : cstr);
   ("025-01:00" : cstr, "(GMT-01:00) Cape Verde Is." : cstr);
   ("026+00:00" : cstr, "(GMT) Casablanca, Monrovia" : cstr);
   ("027+00:00" : cstr, "(GMT) Greenwich Mean Time : Dublin, Edinburgh, Lisbon, London" : cstr);
   ("028+01:00" : cstr, "(GMT+01:00) Amsterdam, Berlin, Bern, Rome, Stockholm, Vienna" : cstr);
   ("029+01:00" : cstr, "(GMT+01:00) Belgrade, Bratislava, Budapest, Ljubljana, Prague" : cstr);
   ("030+01:00" : cstr, "(GMT+01:00) Brussels, Copenhagen, Madrid, Paris" : cstr);
   ("031+01:00" : cstr, "(GMT+01:00) Sarajevo, Skopje, Warsaw, Zagreb" : cstr);
   ("032+01:00" : cstr, "(GMT+01:00) West Central Africa" : cstr);
   ("033+02:00" : cstr, "(GMT+02:00) Athens, Beirut, Istanbul, Minsk" : cstr);
   ("034+02:00" : cstr, "(GMT+02:00) Bucharest" : cstr);
   ("035+02:00" : cstr, "(GMT+02:00) Cairo" : cstr);
   ("036+02:00" : cstr, "(GMT+02:00) Harare, Pretoria" : cstr);
   ("037+02:00" : cstr, "(GMT+02:00) Helsinki, Kyiv, Riga, Sofia, Tallinn, Vilnius" : cstr);
   ("038+02:00" : cstr, "(GMT+02:00) Jerusalem" : cstr);
   ("039+03:00" : cstr, "(GMT+03:00) Baghdad" : cstr);
   ("040+03:00" : cstr, "(GMT+03:00) Kuwait, Riyadh" : cstr);
   ("041+03:00" : cstr, "(GMT+03:00) Moscow, St. Petersburg, Volgograd" : cstr);
   ("042+03:00" : cstr, "(GMT+03:00) Nairobi" : cstr);
   ("043+03:30" : cstr, "(GMT+03:30) Tehran" : cstr);
   ("044+04:00" : cstr, "(GMT+04:00) Abu Dhabi, Muscat" : cstr);
   ("045+04:00" : cstr, "(GMT+04:00) Baku, Tbilisi, Yerevan" : cstr);
   ("046+04:30" : cstr, "(GMT+04:30) Kabul" : cstr);
   ("047+05:00" : cstr, "(GMT+05:00) Ekaterinburg" : cstr);
   ("048+05:00" : cstr, "(GMT+05:00) Islamabad, Karachi, Tashkent" : cstr);
   ("049+05:30" : cstr, "(GMT+05:30) Chennai, Kolkata, Mumbai, New Delhi" : cstr);
   ("050+05:45" : cstr, "(GMT+05:45) Kathmandu" : cstr);
   ("051+06:00" : cstr, "(GMT+06:00) Almaty, Novosibirsk" : cstr);
   ("052+06:00" : cstr, "(GMT+06:00) Astana, Dhaka" : cstr);
   ("053+06:00" : cstr, "(GMT+06:00) Sri Jayawardenepura" : cstr);
   ("054+06:00" : cstr, "(GMT+06:00) Rangoon" : cstr);
   ("055+07:00" : cstr, "(GMT+07:00) Bangkok, Hanoi, Jakarta" : cstr);
   ("056+07:00" : cstr, "(GMT+07:00) Krasnoyarsk" : cstr);
   ("057+08:00" : cstr, "(GMT+08:00) China, Hong Kong, Australia Western" : cstr);
   ("058+08:00" : cstr, "(GMT+08:00) Irkutsk, Ulaan Bataar" : cstr);
   ("059+08:00" : cstr, "(GMT+08:00) Kuala Lumpur, Singapore" : cstr);
   ("060+08:00" : cstr, "(GMT+08:00) Perth" : cstr);
   ("061+08:00" : cstr, "(GMT+08:00) Taipei" : cstr);
   ("062+09:00" : cstr, "(GMT+09:00) Osaka, Sapporo, Tokyo" : cstr);
   ("063+09:00" : cstr, "(GMT+09:00) Seoul" : cstr);
   ("064+09:00" : cstr, "(GMT+09:00) Yakutsk" : cstr);
   ("065+09:30" : cstr, "(GMT+09:30) Adelaide" : cstr);
   ("066+09:30" : cstr, "(GMT+09:30) Darwin" : cstr);
   ("067+10:00" : cstr, "(GMT+10:00) Brisbane" : cstr);
   ("068+10:00" : cstr, "(GMT+10:00) Canberra, Melbourne, Sydney" : cstr);
   ("069+10:00" : cstr, "(GMT+10:00) Guam, Port Moresby" : cstr);
   ("070+10:00" : cstr, "(GMT+10:00) Hobart" : cstr);
   ("071+10:00" : cstr, "(GMT+10:00) Vladivostok" : cstr);
   ("072+11:00" : cstr, "(GMT+11:00) Magadan, Solomon Ls., New Caledonia" : cstr);
   ("073+12:00" : cstr, "(GMT+12:00) Auckland, Wellington" : cstr);
   ("074+12:00" : cstr, "(GMT+12:00) Fiji, Kamchatka, Marshall ls." : cstr);
   ("075+13:00" : cstr, "(GMT+13:00) Nuku`alofa" : cstr)].

Definition zone_line (z : cstr * cstr) : cstr := ";"%char :: z.1 ++ ": " ++ dquote :: z.2 ++ [dquote].
Fixpoint joined (sep : cstr) (l : list cstr) : cstr :=
  match l with
  | [] => []
  | [s] => s
  | s :: l' => s ++ sep ++ joined sep l'
  end.
Definition timeZoneStr : cstr := [CR; LF] ++ joined [CR; LF] (map zone_line zones).

(** ** Attributes *)

Definition security_comment : cstr :=
  (";1: WEP, 2: WPA-Personal, 3: WPA2-Personal, 4: WPA2-Personal Mixed, 5: WPA-Enterprise," : cstr) ++ [CR; LF] ++
  ("    6: WPA2-Enterprise, 7: WPA2-Enterprise Mixed, 8:RADIUS, 0: Disabled" : cstr).

Definition Basic : list attr_s :=
  [Attr "Host_Name" (g "APName") (Some pAssignStr40) (Some pOutputStr) [] CFG_TYPE_ALL;
   Attr "Device_Name" (g "APDesc") (Some pAssignStr40) (Some pOutputStr) [] CFG_TYPE_ALL;
   Attr "Language" (g "APLang") (Some pAssignStr40) (Some pOutputStr) [] CFG_TYPE_ALL;
   Attr "IP_settings" (g "dhcpF") (Some pAssign01) (Some pOutputByte) ";0:static; 1:automatic" CFG_TYPE_ALL;
   Attr "Ipv4_address" (g "IPAddress4") (Some pAssignIP) (Some pOutputIP) [] CFG_TYPE_ALL;
   Attr "Ipv4_subnet_mask" (g "subnet4") (Some pAssignMask) (Some pOutputIP) [] CFG_TYPE_ALL;
   Attr "IPv4_default_gateway" (g "gateway4") (Some pAssignIP) (Some pOutputIP) [] CFG_TYPE_ALL;
   Attr "IPv4_Primary_DNS" (g "dnsServer1") (Some pAssignStr15) (Some pOutputStr) [] CFG_TYPE_ALL;
   Attr "IPv4_Secondary_DNS" (g "dnsServer2") (Some pAssignStr15) (Some pOutputStr) [] CFG_TYPE_ALL;
   Attr "IPv6" (g "IPv6") (Some pAssign01) (Some pOutputByte) ";0:disabled; 1:enabled" CFG_TYPE_ALL;
   Attr "IPv6_settings" (g "dhcp6F") (Some pAssign01) (Some pOutputByte) ";0:static; 1:automatic" CFG_TYPE_ALL;
   Attr "Ipv6_address" (g "IPAddress6") (Some pAssignIPv6) (Some pOutputStr) [] CFG_TYPE_ALL;
   Attr "Ipv6_prefix_length" (g "prefixlen") (Some pAssignPrefix) (Some pOutputByte) [] CFG_TYPE_ALL;
   Attr "IPv6_default_gateway" (g "gateway6") (Some pAssignGWv6) (Some pOutputStr) [] CFG_TYPE_ALL;
   Attr "IPv6_Primary_DNS" (g "IPv6dnsServer1") (Some pAssignIPv6) (Some pOutputStr) [] CFG_TYPE_ALL;
   Attr "IPv6_Secondary_DNS" (g "IPv6dnsServer2") (Some pAssignIPv6) (Some pOutputStr) [] CFG_TYPE_ALL].

Definition Time_attrs : list attr_s :=
  [Attr "Time_setting" (g "timesetting") (Some pAssign01) (Some pOutputByte) ";0: manually, 1:automatically" CFG_TYPE_ALL;
   Attr "Date" (g "date_p") (Some pAssignDate) (Some pOutputStr) ";yyyy/mm/dd" CFG_TYPE_ALL;
   Attr "Time" (g "time_p") (Some pAssignTime) (Some pOutputStr) ";hh:mm:ss" CFG_TYPE_ALL;
   Attr "Time_zone" (g "timeZone") (Some pAssignTimeZone) (Some pOutputStr) timeZoneStr CFG_TYPE_ALL;
   Attr "daylight_saving" (g "daylightSaving") (Some pAssign01) (Some pOutputByte) ";0:disabled, 1:enabled" CFG_TYPE_ALL;
   Attr "User_Defined_NTP" (g "usDefntp") (Some pAssign01) (Some pOutputByte) ";0:disabled, 1:enabled" CFG_TYPE_ALL;
   Attr "User_NTP" (g "ntpServer") (Some pAssignServerStr) (Some pOutputStr) [] CFG_TYPE_ALL].

Definition Setup_adv : list attr_s :=
  [Attr "Force_Fast_Ethernet" (g "htForce100m") (Some pAssign01) (Some pOutputByte) ";0:disabled, 1:enabled" CFG_TYPE_ALL;
   Attr "Ethernet_Auto_Negotiation" (g "htAutoNegotiation") (Some pAssign01) (Some pOutputByte) ";0:disabled, 1:enabled" CFG_TYPE_ALL;
   Attr "Administrative_Port_Speed" (g "htPortSpeed") (Some pAssign0To2) (Some pOutputByte) ";0:10M, 1:100M, 2:1000M" CFG_TYPE_ALL;
   Attr "Administrative_Duplex_Mode" (g "htDuplexMode") (Some pAssign01) (Some pOutputByte) ";0:Half Duplex, 1:Full Duplex" CFG_TYPE_ALL;
   Attr "Bonjour" (g "htBonjour") (Some pAssign01) (Some pOutputByte) ";0:disabled, 1:enabled" CFG_TYPE_ALL;
   Attr "HTTP_Redirect" (g "htRedirect") (Some pAssign01) (Some pOutputByte) ";0:disabled, 1:enabled" CFG_TYPE_ALL;
   Attr "HTTP_Redirect_URL" (g "htRedirectUrl") (Some pAssignURL) (Some pOutputStr) [] CFG_TYPE_ALL;
   Attr "802.1x_supplicant" (g "ethDot1xAuth") (Some pAssign01) (Some pOutputByte) ";0:disabled, 1:enabled" CFG_TYPE_ALL;
   Attr "Via_mac_authentication" (g "authViaMac") (Some pAssign01) (Some pOutputByte) ";0:disabled, 1:enabled" CFG_TYPE_ALL;
   Attr "Username" (g "authName") (Some pAssignStr64) (Some pOutputStr) [] CFG_TYPE_ALL;
   Attr "Password" (g "authPasswd") (Some pAssignPassword) (Some pOutputStr) [] CFG_TYPE_ALL].

Definition Wlan_Basic : list attr_s :=
  [Attr "Network_mode" (g "wlsMode") (Some pAssign0To7) (Some pOutputByte) ";0:Disable; 1: b only; 2: g only; 3: n only; 4: B/G mixed; 7:B/G/N mixed" CFG_TYPE_ALL;
   Attr "Channel" (g "channel") (Some pAssign0To14) (Some pOutputByte) "; 0..14; 0: auto channel" CFG_TYPE_ALL;
   Attr "SSID1" (at_row "ssid" 0) (Some pAssignSSID) (Some pOutputStr) [] CFG_TYPE_ALL;
   Attr "SSID1_broadcast" (at_row "ssidBroadcast" 0) (Some pAssign01) (Some pOutputByte) ";0:disabled, 1:enabled" CFG_TYPE_ALL;
   Attr "SSID2" (at_row "ssid" 1) (Some pAssignSSID) (Some pOutputStr) [] CFG_TYPE_ALL;
   Attr "SSID2_broadcast" (at_row "ssidBroadcast" 1) (Some pAssign01) (Some pOutputByte) ";0:disabled, 1:enabled" CFG_TYPE_ALL;
   Attr "SSID3" (at_row "ssid" 2) (Some pAssignSSID) (Some pOutputStr) [] CFG_TYPE_ALL;
   Attr "SSID3_broadcast" (at_row "ssidBroadcast" 2) (Some pAssign01) (Some pOutputByte) ";0:disabled, 1:enabled" CFG_TYPE_ALL;
   Attr "SSID4" (at_row "ssid" 3) (Some pAssignSSID) (Some pOutputStr) [] CFG_TYPE_ALL;
   Attr "SSID4_broadcast" (at_row "ssidBroadcast" 3) (Some pAssign01) (Some pOutputByte) ";0:disabled, 1:enabled" CFG_TYPE_ALL].

Definition Radius_Server : list attr_s :=
  [Attr "Primary_radius_server" (g "authSIP1") (Some pAssignIP) (Some pOutputIP) [] CFG_TYPE_ALL;
   Attr "Primary_port_no" (g "authSPort1") (Some pAssignPort) (Some pOutputWord) [] CFG_TYPE_ALL;
   Attr "Primary_shared_secret" (g "authSSecret1") (Some pAssignSecret128) (Some pOutputPass) [] CFG_TYPE_ALL;
   Attr "Secondary_radius_server" (g "authSIP2") (Some pAssignIP) (Some pOutputIP) [] CFG_TYPE_ALL;
   Attr "Secondary_port_no" (g "authSPort2") (Some pAssignPort) (Some pOutputWord) [] CFG_TYPE_ALL;
   Attr "Secondary_shared_secret" (g "authSSecret2") (Some pAssignSecret128) (Some pOutputPass) [] CFG_TYPE_ALL].

Definition Wlan_sec_1 : list attr_s :=
  [Attr ";for SSID1" (g []) None None [] CFG_TYPE_ALL;
   Attr "ssid" (at_row "ssid" 0) None (Some pOutputStr) [] CFG_TYPE_ALL;
   Attr "isolation_between_SSID" (g "vapIsolated") (Some pAssign01) (Some pOutputByte) ";0:disabled, 1:enabled" CFG_TYPE_ALL;
   Attr "security_mode" (at_row "secSystem" 0) (Some pAssign0To8) (Some pOutputByte) security_comment CFG_TYPE_ALL;
   Attr "isolation_within_SSID" (at_row "wlsSeparation" 0) (Some pAssign01) (Some pOutputByte) ";0:disabled, 1:enabled" CFG_TYPE_ALL;
   Attr "authentication_type" (at_row "authType" 0) (Some pAssign0To2) (Some pOutputByte) ";0:open system; 1:shared key" CFG_TYPE_ALL;
   Attr "encryption" (at_row "encrypt" 0) (Some pAssignKeyLen) (Some pOutputByte) ";64: 64 bit WEP, 128:128 bit WEP, 1: TKP, 2: AES, 3: AES+TKIP" CFG_TYPE_ALL;
   Attr "Default_Tx_key" (at_row "keyNo" 0) (Some pAssign1To4) (Some pOutputByte) "; 1..4" CFG_TYPE_ALL;
   Attr "key1" (at_row "key1" 0) (Some pAssignKey) (Some pOutputPass) ";in Hex" CFG_TYPE_ALL;
   Attr "key2" (at_row "key2" 0) (Some pAssignKey) (Some pOutputPass) ";in Hex" CFG_TYPE_ALL;
   Attr "key3" (at_row "key3" 0) (Some pAssignKey) (Some pOutputPass) ";in Hex" CFG_TYPE_ALL;
   Attr "key4" (at_row "key4" 0) (Some pAssignKey) (Some pOutputPass) ";in Hex" CFG_TYPE_ALL;
   Attr "PSK_key" (at_row "preShared" 0) (Some pAssignPreSharedKey) (Some pOutputPass) ";in ASCII; The length of the key is from 8 to 64" CFG_TYPE_ALL;
   Attr "Key_renew" (at_row "keyrenew" 0) (Some pAssignWord) (Some pOutputWord) ";in seconds" CFG_TYPE_ALL].

Definition Wlan_sec_2 : list attr_s :=
  [Attr ";for SSID2" (g []) None None [] CFG_TYPE_ALL;
   Attr "ssid" (at_row "ssid" 1) None (Some pOutputStr) [] CFG_TYPE_ALL;
   Attr "isolation_between_SSID" (g "vapIsolated") (Some pAssign01) (Some pOutputByte) ";0:disabled, 1:enabled" CFG_TYPE_ALL;
   Attr "security_mode" (at_row "secSystem" 1) (Some pAssign0To8) (Some pOutputByte) security_comment CFG_TYPE_ALL;
   Attr "isolation_within_SSID" (at_row "wlsSeparation" 1) (Some pAssign01) (Some pOutputByte) ";0:disabled, 1:enabled" CFG_TYPE_ALL;
   Attr "authentication_type" (at_row "authType" 1) (Some pAssign0To2) (Some pOutputByte) ";0:open system; 1:shared key" CFG_TYPE_ALL;
   Attr "encryption" (at_row "encrypt" 1) (Some pAssignKeyLen) (Some pOutputByte) ";64: 64 bit WEP, 128:128 bit WEP, 1: TKP, 2: AES, 3: AES+TKIP" CFG_TYPE_ALL;
   Attr "Default_Tx_key" (at_row "keyNo" 1) (Some pAssign1To4) (Some pOutputByte) "; 1..4" CFG_TYPE_ALL;
   Attr "key1" (at_row "key1" 1) (Some pAssignKey) (Some pOutputPass) ";in Hex" CFG_TYPE_ALL;
   Attr "key2" (at_row "key2" 1) (Some pAssignKey) (Some pOutputPass) ";in Hex" CFG_TYPE_ALL;
   Attr "key3" (at_row "key3" 1) (Some pAssignKey) (Some pOutputPass) ";in Hex" CFG_TYPE_ALL;
   Attr "key4" (at_row "key4" 1) (Some pAssignKey) (Some pOutputPass) ";in Hex" CFG_TYPE_ALL;
   Attr "PSK_key" (at_row "preShared" 1) (Some pAssignPreSharedKey) (Some pOutputPass) ";in ASCII; The length of the key is from 8 to 63" CFG_TYPE_ALL;
   Attr "Key_renew" (at_row "keyrenew" 1) (Some pAssignWord) (Some pOutputWord) ";in seconds" CFG_TYPE_ALL].

Definition Wlan_sec_3 : list attr_s :=
  [Attr ";for SSID3" (g []) None None [] CFG_TYPE_ALL;
   Attr "ssid" (at_row "ssid" 2) None (Some pOutputStr) [] CFG_TYPE_ALL;
   Attr "isolation_between_SSID" (g "vapIsolated") (Some pAssign01) (Some pOutputByte) ";0:disabled, 1:enabled" CFG_TYPE_ALL;
   Attr "security_mode" (at_row "secSystem" 2) (Some pAssign0To8) (Some pOutputByte) security_comment CFG_TYPE_ALL;
   Attr "isolation_within_SSID" (at_row "wlsSeparation" 2) (Some pAssign01) (Some pOutputByte) ";0:disabled, 1:enabled" CFG_TYPE_ALL;
   Attr "authentication_type" (at_row "authType" 2) (Some pAssign0To2) (Some pOutputByte) ";0:open system; 1:shared key" CFG_TYPE_ALL;
   Attr "encryption" (at_row "encrypt" 2) (Some pAssignKeyLen) (Some pOutputByte) ";64: 64 bit WEP, 128:128 bit WEP, 1: TKP, 2: AES, 3: AES+TKIP" CFG_TYPE_ALL;
   Attr "Default_Tx_key" (at_row "keyNo" 2) (Some pAssign1To4) (Some pOutputByte) "; 1..4" CFG_TYPE_ALL;
   Attr "key1" (at_row "key1" 2) (Some pAssignKey) (Some pOutputPass) ";in Hex" CFG_TYPE_ALL;
   Attr "key2" (at_row "key2" 2) (Some pAssignKey) (Some pOutputPass) ";in Hex" CFG_TYPE_ALL;
   Attr "key3" (at_row "key3" 2) (Some pAssignKey) (Some pOutputPass) ";in Hex" CFG_TYPE_ALL;
   Attr "key4" (at_row "key4" 2) (Some pAssignKey) (Some pOutputPass) ";in Hex" CFG_TYPE_ALL;
   Attr "PSK_key" (at_row "preShared" 2) (Some pAssignPreSharedKey) (Some pOutputPass) ";in ASCII; The length of the key is from 8 to 63" CFG_TYPE_ALL;
   Attr "Key_renew" (at_row "keyrenew" 2) (Some pAssignWord) (Some pOutputWord) ";in seconds" CFG_TYPE_ALL].

Definition Wlan_sec_4 : list attr_s :=
  [Attr ";for SSID4" (g []) None None [] CFG_TYPE_ALL;
   Attr "ssid" (at_row "ssid" 3) None (Some pOutputStr) [] CFG_TYPE_ALL;
   Attr "isolation_between_SSID" (g "vapIsolated") (Some pAssign01) (Some pOutputByte) ";0:disabled, 1:enabled" CFG_TYPE_ALL;
   Attr "security_mode" (at_row "secSystem" 3) (Some pAssign0To8) (Some pOutputByte) security_comment CFG_TYPE_ALL;
   Attr "isolation_within_SSID" (at_row "wlsSeparation" 3) (Some pAssign01) (Some pOutputByte) ";0:disabled, 1:enabled" CFG_TYPE_ALL;
   Attr "authentication_type" (at_row "authType" 3) (Some pAssign0To2) (Some pOutputByte) ";0:open system; 1:shared key" CFG_TYPE_ALL;
   Attr "encryption" (at_row "encrypt" 3) (Some pAssignKeyLen) (Some pOutputByte) ";64: 64 bit WEP, 128:128 bit WEP, 1: TKP, 2: AES, 3: AES+TKIP" CFG_TYPE_ALL;
   Attr "Default_Tx_key" (at_row "keyNo" 3) (Some pAssign1To4) (Some pOutputByte) "; 1..4" CFG_TYPE_ALL;
   Attr "key1" (at_row "key1" 3) (Some pAssignKey) (Some pOutputPass) ";in Hex" CFG_TYPE_ALL;
   Attr "key2" (at_row "key2" 3) (Some pAssignKey) (Some pOutputPass) ";in Hex" CFG_TYPE_ALL;
   Attr "key3" (at_row "key3" 3) (Some pAssignKey) (Some pOutputPass) ";in Hex" CFG_TYPE_ALL;
   Attr "key4" (at_row "key4" 3) (Some pAssignKey) (Some pOutputPass) ";in Hex" CFG_TYPE_ALL;
   Attr "PSK_key" (at_row "preShared" 3) (Some pAssignPreSharedKey) (Some pOutputPass) ";in ASCII; The length of the key is from 8 to 63" CFG_TYPE_ALL;
   Attr "Key_renew" (at_row "keyrenew" 3) (Some pAssignWord) (Some pOutputWord) ";in seconds" CFG_TYPE_ALL].

Definition Wlan_Conn_Control_1 : list attr_s :=
  [Attr ";for SSID1" (g []) None None [] CFG_TYPE_ALL;
   Attr "Connection_Control" (at_row "aclFlag" 0) (Some pAssign0To2) (Some pOutputByte) ";0: disabled, 1:local, 2: Radius" CFG_TYPE_ALL;
   Attr "Control_type" (at_row "aclType" 0) (Some pAssign01) (Some pOutputByte) ";0: allowed the following local mac, 1: prevent the following local mac" CFG_TYPE_ALL;
   Attr "Mac_01" (at_row "aclMac" 0) (Some pAssignMac) (Some pOutputMac) [] CFG_TYPE_ALL;
   Attr "Mac_02" (at_row "aclMac" 1) (Some pAssignMac) (Some pOutputMac) [] CFG_TYPE_ALL;
   Attr "Mac_03" (at_row "aclMac" 2) (Some pAssignMac) (Some pOutputMac) [] CFG_TYPE_ALL;
   Attr "Mac_04" (at_row "aclMac" 3) (Some pAssignMac) (Some pOutputMac) [] CFG_TYPE_ALL;
   Attr "Mac_05" (at_row "aclMac" 4) (Some pAssignMac) (Some pOutputMac) [] CFG_TYPE_ALL;
   Attr "Mac_06" (at_row "aclMac" 5) (Some pAssignMac) (Some pOutputMac) [] CFG_TYPE_ALL;
   Attr "Mac_07" (at_row "aclMac" 6) (Some pAssignMac) (Some pOutputMac) [] CFG_TYPE_ALL;
   Attr "Mac_08" (at_row "aclMac" 7) (Some pAssignMac) (Some pOutputMac) [] CFG_TYPE_ALL;
   Attr "Mac_09" (at_row "aclMac" 8) (Some pAssignMac) (Some pOutputMac) [] CFG_TYPE_ALL;
   Attr "Mac_10" (at_row "aclMac" 9) (Some pAssignMac) (Some pOutputMac) [] CFG_TYPE_ALL;
   Attr "Mac_11" (at_row "aclMac" 10) (Some pAssignMac) (Some pOutputMac) [] CFG_TYPE_ALL;
   Attr "Mac_12" (at_row "aclMac" 11) (Some pAssignMac) (Some pOutputMac) [] CFG_TYPE_ALL;
   Attr "Mac_13" (at_row "aclMac" 12) (Some pAssignMac) (Some pOutputMac) [] CFG_TYPE_ALL;
   Attr "Mac_14" (at_row "aclMac" 13) (Some pAssignMac) (Some pOutputMac) [] CFG_TYPE_ALL;
   Attr "Mac_15" (at_row "aclMac" 14) (Some pAssignMac) (Some pOutputMac) [] CFG_TYPE_ALL;
   Attr "Mac_16" (at_row "aclMac" 15) (Some pAssignMac) (Some pOutputMac) [] CFG_TYPE_ALL;
   Attr "Mac_17" (at_row "aclMac" 16) (Some pAssignMac) (Some pOutputMac) [] CFG_TYPE_ALL;
   Attr "Mac_18" (at_row "aclMac" 17) (Some pAssignMac) (Some pOutputMac) [] CFG_TYPE_ALL;
   Attr "Mac_19" (at_row "aclMac" 18) (Some pAssignMac) (Some pOutputMac) [] CFG_TYPE_ALL;
   Attr "Mac_20" (at_row "aclMac" 19) (Some pAssignMac) (Some pOutputMac) [] CFG_TYPE_ALL].

Definition Wlan_Conn_Control_2 : list attr_s :=
  [Attr ";for SSID2" (g []) None None [] CFG_TYPE_ALL;
   Attr "Connection_Control" (at_row "aclFlag" 1) (Some pAssign0To2) (Some pOutputByte) ";0: disabled, 1:local, 2: Radius" CFG_TYPE_ALL;
   Attr "Control_type" (at_row "aclType" 1) (Some pAssign01) (Some pOutputByte) ";0: allowed the following local mac, 1: prevent the following local mac" CFG_TYPE_ALL;
   Attr "Mac_01" (at_row "aclMac" 20) (Some pAssignMac) (Some pOutputMac) [] CFG_TYPE_ALL;
   Attr "Mac_02" (at_row "aclMac" 21) (Some pAssignMac) (Some pOutputMac) [] CFG_TYPE_ALL;
   Attr "Mac_03" (at_row "aclMac" 22) (Some pAssignMac) (Some pOutputMac) [] CFG_TYPE_ALL;
   Attr "Mac_04" (at_row "aclMac" 23) (Some pAssignMac) (Some pOutputMac) [] CFG_TYPE_ALL;
   Attr "Mac_05" (at_row "aclMac" 24) (Some pAssignMac) (Some pOutputMac) [] CFG_TYPE_ALL;
   Attr "Mac_06" (at_row "aclMac" 25) (Some pAssignMac) (Some pOutputMac) [] CFG_TYPE_ALL;
   Attr "Mac_07" (at_row "aclMac" 26) (Some pAssignMac) (Some pOutputMac) [] CFG_TYPE_ALL;
   Attr "Mac_08" (at_row "aclMac" 27) (Some pAssignMac) (Some pOutputMac) [] CFG_TYPE_ALL;
   Attr "Mac_09" (at_row "aclMac" 28) (Some pAssignMac) (Some pOutputMac) [] CFG_TYPE_ALL;
   Attr "Mac_10" (at_row "aclMac" 29) (Some pAssignMac) (Some pOutputMac) [] CFG_TYPE_ALL;
   Attr "Mac_11" (at_row "aclMac" 30) (Some pAssignMac) (Some pOutputMac) [] CFG_TYPE_ALL;
   Attr "Mac_12" (at_row "aclMac" 31) (Some pAssignMac) (Some pOutputMac) [] CFG_TYPE_ALL;
   Attr "Mac_13" (at_row "aclMac" 32) (Some pAssignMac) (Some pOutputMac) [] CFG_TYPE_ALL;
   Attr "Mac_14" (at_row "aclMac" 33) (Some pAssignMac) (Some pOutputMac) [] CFG_TYPE_ALL;
   Attr "Mac_15" (at_row "aclMac" 34) (Some pAssignMac) (Some pOutputMac) [] CFG_TYPE_ALL;
   Attr "Mac_16" (at_row "aclMac" 35) (Some pAssignMac) (Some pOutputMac) [] CFG_TYPE_ALL;
   Attr "Mac_17" (at_row "aclMac" 36) (Some pAssignMac) (Some pOutputMac) [] CFG_TYPE_ALL;
   Attr "Mac_18" (at_row "aclMac" 37) (Some pAssignMac) (Some pOutputMac) [] CFG_TYPE_ALL;
   Attr "Mac_19" (at_row "aclMac" 38) (Some pAssignMac) (Some pOutputMac) [] CFG_TYPE_ALL;
   Attr "Mac_20" (at_row "aclMac" 39) (Some pAssignMac) (Some pOutputMac) [] CFG_TYPE_ALL].

Definition Wlan_Conn_Control_3 : list attr_s :=
  [Attr ";for SSID3" (g []) None None [] CFG_TYPE_ALL;
   Attr "Connection_Control" (at_row "aclFlag" 2) (Some pAssign0To2) (Some pOutputByte) ";0: disabled, 1:local, 2: Radius" CFG_TYPE_ALL;
   Attr "Control_type" (at_row "aclType" 2) (Some pAssign01) (Some pOutputByte) ";0: allowed the following local mac, 1: prevent the following local mac" CFG_TYPE_ALL;
   Attr "Mac_01" (at_row "aclMac" 40) (Some pAssignMac) (Some pOutputMac) [] CFG_TYPE_ALL;
   Attr "Mac_02" (at_row "aclMac" 41) (Some pAssignMac) (Some pOutputMac) [] CFG_TYPE_ALL;
   Attr "Mac_03" (at_row "aclMac" 42) (Some pAssignMac) (Some pOutputMac) [] CFG_TYPE_ALL;
   Attr "Mac_04" (at_row "aclMac" 43) (Some pAssignMac) (Some pOutputMac) [] CFG_TYPE_ALL;
   Attr "Mac_05" (at_row "aclMac" 44) (Some pAssignMac) (Some pOutputMac) [] CFG_TYPE_ALL;
   Attr "Mac_06" (at_row "aclMac" 45) (Some pAssignMac) (Some pOutputMac) [] CFG_TYPE_ALL;
   Attr "Mac_07" (at_row "aclMac" 46) (Some pAssignMac) (Some pOutputMac) [] CFG_TYPE_ALL;
   Attr "Mac_08" (at_row "aclMac" 47) (Some pAssignMac) (Some pOutputMac) [] CFG_TYPE_ALL;
   Attr "Mac_09" (at_row "aclMac" 48) (Some pAssignMac) (Some pOutputMac) [] CFG_TYPE_ALL;
   Attr "Mac_10" (at_row "aclMac" 49) (Some pAssignMac) (Some pOutputMac) [] CFG_TYPE_ALL;
   Attr "Mac_11" (at_row "aclMac" 50) (Some pAssignMac) (Some pOutputMac) [] CFG_TYPE_ALL;
   Attr "Mac_12" (at_row "aclMac" 51) (Some pAssignMac) (Some pOutputMac) [] CFG_TYPE_ALL;
   Attr "Mac_13" (at_row "aclMac" 52) (Some pAssignMac) (Some pOutputMac) [] CFG_TYPE_ALL;
   Attr "Mac_14" (at_row "aclMac" 53) (Some pAssignMac) (Some pOutputMac) [] CFG_TYPE_ALL;
   Attr "Mac_15" (at_row "aclMac" 54) (Some pAssignMac) (Some pOutputMac) [] CFG_TYPE_ALL;
   Attr "Mac_16" (at_row "aclMac" 55) (Some pAssignMac) (Some pOutputMac) [] CFG_TYPE_ALL;
   Attr "Mac_17" (at_row "aclMac" 56) (Some pAssignMac) (Some pOutputMac) [] CFG_TYPE_ALL;
   Attr "Mac_18" (at_row "aclMac" 57) (Some pAssignMac) (Some pOutputMac) [] CFG_TYPE_ALL;
   Attr "Mac_19" (at_row "aclMac" 58) (Some pAssignMac) (Some pOutputMac) [] CFG_TYPE_ALL;
   Attr "Mac_20" (at_row "aclMac" 59) (Some pAssignMac) (Some pOutputMac) [] CFG_TYPE_ALL].

Definition Wlan_Conn_Control_4 : list attr_s :=
  [Attr ";for SSID4" (g []) None None [] CFG_TYPE_ALL;
   Attr "Connection_Control" (at_row "aclFlag" 3) (Some pAssign0To2) (Some pOutputByte) ";0: disabled, 1:local, 2: Radius" CFG_TYPE_ALL;
   Attr "Control_type" (at_row "aclType" 3) (Some pAssign01) (Some pOutputByte) ";0: allowed the following local mac, 1: prevent the following local mac" CFG_TYPE_ALL;
   Attr "Mac_01" (at_row "aclMac" 60) (Some pAssignMac) (Some pOutputMac) [] CFG_TYPE_ALL;
   Attr "Mac_02" (at_row "aclMac" 61) (Some pAssignMac) (Some pOutputMac) [] CFG_TYPE_ALL;
   Attr "Mac_03" (at_row "aclMac" 62) (Some pAssignMac) (Some pOutputMac) [] CFG_TYPE_ALL;
   Attr "Mac_04" (at_row "aclMac" 63) (Some pAssignMac) (Some pOutputMac) [] CFG_TYPE_ALL;
   Attr "Mac_05" (at_row "aclMac" 64) (Some pAssignMac) (Some pOutputMac) [] CFG_TYPE_ALL;
   Attr "Mac_06" (at_row "aclMac" 65) (Some pAssignMac) (Some pOutputMac) [] CFG_TYPE_ALL;
   Attr "Mac_07" (at_row "aclMac" 66) (Some pAssignMac) (Some pOutputMac) [] CFG_TYPE_ALL;
   Attr "Mac_08" (at_row "aclMac" 67) (Some pAssignMac) (Some pOutputMac) [] CFG_TYPE_ALL;
   Attr "Mac_09" (at_row "aclMac" 68) (Some pAssignMac) (Some pOutputMac) [] CFG_TYPE_ALL;
   Attr "Mac_10" (at_row "aclMac" 69) (Some pAssignMac) (Some pOutputMac) [] CFG_TYPE_ALL;
   Attr "Mac_11" (at_row "aclMac" 70) (Some pAssignMac) (Some pOutputMac) [] CFG_TYPE_ALL;
   Attr "Mac_12" (at_row "aclMac" 71) (Some pAssignMac) (Some pOutputMac) [] CFG_TYPE_ALL;
   Attr "Mac_13" (at_row "aclMac" 72) (Some pAssignMac) (Some pOutputMac) [] CFG_TYPE_ALL;
   Attr "Mac_14" (at_row "aclMac" 73) (Some pAssignMac) (Some pOutputMac) [] CFG_TYPE_ALL;
   Attr "Mac_15" (at_row "aclMac" 74) (Some pAssignMac) (Some pOutputMac) [] CFG_TYPE_ALL;
   Attr "Mac_16" (at_row "aclMac" 75) (Some pAssignMac) (Some pOutputMac) [] CFG_TYPE_ALL;
   Attr "Mac_17" (at_row "aclMac" 76) (Some pAssignMac) (Some pOutputMac) [] CFG_TYPE_ALL;
   Attr "Mac_18" (at_row "aclMac" 77) (Some pAssignMac) (Some pOutputMac) [] CFG_TYPE_ALL;
   Attr "Mac_19" (at_row "aclMac" 78) (Some pAssignMac) (Some pOutputMac) [] CFG_TYPE_ALL;
   Attr "Mac_20" (at_row "aclMac" 79) (Some pAssignMac) (Some pOutputMac) [] CFG_TYPE_ALL].

Definition VLAN_QoS : list attr_s :=
  [Attr "VLAN" (g "vlan") (Some pAssign01) (Some pOutputByte) ";0: disabled, 1:enabled" CFG_TYPE_ALL;
   Attr "Default_VLAN_ID" (g "nativeVid") (Some pAssign1To4094) (Some pOutputWord) ";1..4094" CFG_TYPE_ALL;
   Attr "VLAN_Tag" (g "vlanTag") (Some pAssign0To2) (Some pOutputByte) ";0:untagged, 1: tagged" CFG_TYPE_ALL;
   Attr "AP_Management_VLAN" (g "manageVid") (Some pAssign1To4094) (Some pOutputWord) ";1..4094" CFG_TYPE_ALL;
   Attr "VLAN_tag_over_WDS" (g "wdsTag") (Some pAssign0To2) (Some pOutputByte) ";0: disabled, 1:enabled" CFG_TYPE_ALL;
   Attr "WDS_VLAN_List" (g "wdsVlanList") (Some pAssignwdsvlist) (Some pOutputStr) ((";a,b,...," : cstr) ++ [dquote] ++ ("a" : cstr) ++ [dquote] ++ (" is a VLAN ID. Different IDs divided by " : cstr) ++ [dquote] ++ ("," : cstr) ++ [dquote] ++ (". 4 VLAN IDs should be set at most" : cstr)) CFG_TYPE_ALL;
   Attr "VLAN_ID_4_SSID1" (at_row "vapVlan" 0) (Some pAssign1To4094) (Some pOutputWord) ";1..4094" CFG_TYPE_ALL;
   Attr "Priority_4_SSID1" (at_row "vapPri" 0) (Some pAssign0To7) (Some pOutputByte) ";0..7" CFG_TYPE_ALL;
   Attr "WMM_4_SSID1" (at_row "vapWmm" 0) (Some pAssign0To2) (Some pOutputByte) ";0: disabled, 1:enabled" CFG_TYPE_ALL;
   Attr "VLAN_ID_4_SSID2" (at_row "vapVlan" 1) (Some pAssign1To4094) (Some pOutputWord) ";1..4094" CFG_TYPE_ALL;
   Attr "Priority_4_SSID2" (at_row "vapPri" 1) (Some pAssign0To7) (Some pOutputByte) ";0..7" CFG_TYPE_ALL;
   Attr "WMM_4_SSID2" (at_row "vapWmm" 1) (Some pAssign0To2) (Some pOutputByte) ";0: disabled, 1:enabled" CFG_TYPE_ALL;
   Attr "VLAN_ID_4_SSID3" (at_row "vapVlan" 2) (Some pAssign1To4094) (Some pOutputWord) ";1..4094" CFG_TYPE_ALL;
   Attr "Priority_4_SSID3" (at_row "vapPri" 2) (Some pAssign0To7) (Some pOutputByte) ";0..7" CFG_TYPE_ALL;
   Attr "WMM_4_SSID3" (at_row "vapWmm" 2) (Some pAssign0To2) (Some pOutputByte) ";0: disabled, 1:enabled" CFG_TYPE_ALL;
   Attr "VLAN_ID_4_SSID4" (at_row "vapVlan" 3) (Some pAssign1To4094) (Some pOutputWord) ";1..4094" CFG_TYPE_ALL;
   Attr "Priority_4_SSID4" (at_row "vapPri" 3) (Some pAssign0To7) (Some pOutputByte) ";0..7" CFG_TYPE_ALL;
   Attr "WMM_4_SSID4" (at_row "vapWmm" 3) (Some pAssign0To2) (Some pOutputByte) ";0: disabled, 1:enabled" CFG_TYPE_ALL].

Definition Wlan_Adv : list attr_s :=
  [Attr "802.11d" (g "worldwide") (Some pAssign01) (Some pOutputByte) ";0: disabled, 1:enabled" CFG_TYPE_ALL;
   Attr "Country_Region" (g "countryCode") (Some pAssignCountry) (Some pOutputWord) [] CFG_TYPE_ALL;
   Attr "Channel_bandwidth" (g "channelBand") (Some pAssign0To2) (Some pOutputByte) ";0: auto, 1: 20MHz, 2: 40MHz" CFG_TYPE_ALL;
   Attr "Guard_Interval" (g "guardInter") (Some pAssign0To2) (Some pOutputByte) ";0: auto, 1: 400ns, 2: 800ns" CFG_TYPE_ALL;
   Attr "CTS_Protection_Mode" (g "ctsProtect") (Some pAssign01) (Some pOutputByte) ";0: disable, 1: auto" CFG_TYPE_ALL;
   Attr "beacon_interval" (g "beaconInterval") (Some pAssign20To1000) (Some pOutputWord) ";20..1000" CFG_TYPE_ALL;
   Attr "DTIM_interval" (g "dtimInter") (Some pAssign1To255) (Some pOutputByte) ";1..255" CFG_TYPE_ALL;
   Attr "rts_threshold" (g "rtsThreshold") (Some pAssign0To2347) (Some pOutputWord) ";1..2347" CFG_TYPE_ALL;
   Attr "fragmentation_threshold" (g "fragLength") (Some pAssign256To2346) (Some pOutputWord) ";256..2346" CFG_TYPE_ALL;
   Attr "Load_balance" (g "loadBalance") (Some pAssign01) (Some pOutputByte) ";0: disabled, 1:enabled" CFG_TYPE_ALL;
   Attr "Load_threshold_4_SSD1" (at_row "vapBalance" 0) (Some pAssignPercent) (Some pOutputPercent) [] CFG_TYPE_ALL;
   Attr "Load_threshold_4_SSD2" (at_row "vapBalance" 1) (Some pAssignPercent) (Some pOutputPercent) [] CFG_TYPE_ALL;
   Attr "Load_threshold_4_SSD3" (at_row "vapBalance" 2) (Some pAssignPercent) (Some pOutputPercent) [] CFG_TYPE_ALL;
   Attr "Load_threshold_4_SSD4" (at_row "vapBalance" 3) (Some pAssignPercent) (Some pOutputPercent) [] CFG_TYPE_ALL].

Definition AP_Mode : list attr_s :=
  [Attr "AP_mode" (g "opMode") (Some pAssign0To4) (Some pOutputByte) ";0: Access Point, 1: WDS repeater, 2: WDS bridge, 3: Universal bridge, 4: Monitor" CFG_TYPE_ALL;
   Attr "MAC1" (at_row "pxpMac" 0) (Some pAssignMac) (Some pOutputMac) [] CFG_TYPE_ALL;
   Attr "MAC2" (at_row "pxpMac" 1) (Some pAssignMac) (Some pOutputMac) [] CFG_TYPE_ALL;
   Attr "MAC3" (at_row "pxpMac" 2) (Some pAssignMac) (Some pOutputMac) [] CFG_TYPE_ALL;
   Attr "MAC4" (at_row "pxpMac" 3) (Some pAssignMac) (Some pOutputMac) [] CFG_TYPE_ALL;
   Attr "Allow_WDS_repeater" (g "wdsRepeater") (Some pAssign01) (Some pOutputByte) ";0:disabled, 1: enabled" CFG_TYPE_ALL;
   Attr "Universal_repeater" (g "ucrRepeater") (Some pAssign01) (Some pOutputByte) ";0:disabled, 1: enabled" CFG_TYPE_ALL;
   Attr "Preferred_SSID" (g "perfssid") (Some pAssignSSID) (Some pOutputStr) ";for universal bridge" CFG_TYPE_ALL;
   Attr "No_Security" (g "noSecurity") (Some pAssign01) (Some pOutputByte) ((";1: view it as a rogue AP. 0: don" : cstr) ++ apostrophe ++ ("t" : cstr)) CFG_TYPE_ALL;
   Attr "No_in_Legal_AP_List" (g "illegalAp") (Some pAssign01) (Some pOutputByte) ((";1: view it as a rogue AP. 0: don" : cstr) ++ apostrophe ++ ("t" : cstr)) CFG_TYPE_ALL;
   Attr "Legal_AP_List_entry_no" (g "rogueApMacList.no") (Some pAssign0To255) (Some pOutputWord) ";0..255" CFG_TYPE_ALL;
   Attr "Legal_AP" (g "rogueApMacList") (Some pAssignScMacList) (Some pOutputScMacList) [] CFG_TYPE_ALL].

Definition Management : list attr_s :=
  [Attr "secret_shown" (g "secShow") (Some pAssign01) (Some pOutputByte) ";0: show clear text, 1: just show ********" CFG_TYPE_ALL;
   Attr "username" (g "loginName") (Some pAssignStr64) (Some pOutputStr) [] CFG_TYPE_ALL;
   Attr "AP_password" (g "loginPasswd") (Some pAssignPassword) (Some pOutputPass) [] CFG_TYPE_ALL;
   Attr "HTTPS_Access" (g "httpsEnable") (Some pAssign01) (Some pOutputByte) ";0:disabled, 1: enabled" CFG_TYPE_ALL;
   Attr "Wireless_Web_Access" (g "webAccess") (Some pAssign01) (Some pOutputByte) ";0:disabled, 1: enabled" CFG_TYPE_ALL;
   Attr "Secure_Shell" (g "secureSh") (Some pAssign01) (Some pOutputByte) ";0:disabled, 1: enabled" CFG_TYPE_ALL;
   Attr "SNMP" (g "snmp") (Some pAssign01) (Some pOutputByte) ";0:disabled, 1: enabled" CFG_TYPE_ALL;
   Attr "Contact" (g "contact") (Some pAssignStr32) (Some pOutputStr) [] CFG_TYPE_ALL;
   Attr "Device_Name" (g "snmpdevice") (Some pAssignStr32) (Some pOutputStr) [] CFG_TYPE_ALL;
   Attr "Location" (g "snmplocal") (Some pAssignStr32) (Some pOutputStr) [] CFG_TYPE_ALL;
   Attr "Get_Community" (g "getCom") (Some pAssignStr32) (Some pOutputStr) [] CFG_TYPE_ALL;
   Attr "Set_Community" (g "setCom") (Some pAssignStr32) (Some pOutputStr) [] CFG_TYPE_ALL;
   Attr "Trap_Community" (g "trapCom") (Some pAssignStr32) (Some pOutputStr) [] CFG_TYPE_ALL;
   Attr "SNMP_Trusted_Any_Host" (g "snmpTrust") (Some pAssign01) (Some pOutputByte) ";0:disabled, 1: enabled" CFG_TYPE_ALL;
   Attr "SNMP_Trusted_Host_start_IP" (g "trapStartIp") (Some pAssignIP) (Some pOutputIP) [] CFG_TYPE_ALL;
   Attr "SNMP_Trusted_Host_range" (g "trapRange") (Some pAssign1To254) (Some pOutputByte) ";0..255" CFG_TYPE_ALL;
   Attr "Trap_Destination" (g "trapServerIp") (Some pAssignIP) (Some pOutputIP) [] CFG_TYPE_ALL].

Definition Log_attrs : list attr_s :=
  [Attr "E-mail_alert" (g "mailAlert") (Some pAssign01) (Some pOutputByte) ";0:disabled, 1: enabled" CFG_TYPE_ALL;
   Attr "SMTP_server" (g "smtpServ") (Some pAssignSMTPServer) (Some pOutputStr) [] CFG_TYPE_ALL;
   Attr "Email_address_for_logs" (g "mailAddr") (Some pAssignMail) (Some pOutputStr) [] CFG_TYPE_ALL;
   Attr "Log_queue_length" (g "logLength") (Some pAssign1To500) (Some pOutputWord) [] CFG_TYPE_ALL;
   Attr "Log_time_threshold" (g "logTime") (Some pAssign60To600) (Some pOutputWord) [] CFG_TYPE_ALL;
   Attr "Syslog" (g "syslogF") (Some pAssign01) (Some pOutputByte) ";0:disabled, 1: enabled" CFG_TYPE_ALL;
   Attr "Syslog_server_IP" (g "logIPAddr") (Some pAssignIP) (Some pOutputIP) [] CFG_TYPE_ALL;
   Attr "Unathorized_login_attempt" (g "unAthLogin") (Some pAssign01) (Some pOutputByte) ";0:no log, 1: log" CFG_TYPE_ALL;
   Attr "Authorized_Login" (g "AthLogin") (Some pAssign01) (Some pOutputByte) ";0:no log, 1: log" CFG_TYPE_ALL;
   Attr "System_error_message" (g "sysError") (Some pAssign01) (Some pOutputByte) ";0:no log, 1: log" CFG_TYPE_ALL;
   Attr "Configuration_changes" (g "cfgChange") (Some pAssign01) (Some pOutputByte) ";0:no log, 1: log" CFG_TYPE_ALL].

(** The entry 0 stands for no group. *)
Definition CFGData : list CFG_s :=
  [Group [] [] 0;
   Group "BASIC" Basic CFG_TYPE_ALL;
   Group "Time" Time_attrs CFG_TYPE_ALL;
   Group "Setup_advanced" Setup_adv CFG_TYPE_ALL;
   Group "Wireless_Basic" Wlan_Basic CFG_TYPE_ALL;
   Group "Radius_Server" Radius_Server CFG_TYPE_ALL;
   Group "Wireless_security_1" Wlan_sec_1 CFG_TYPE_ALL;
   Group "Wireless_security_2" Wlan_sec_2 CFG_TYPE_ALL;
   Group "Wireless_security_3" Wlan_sec_3 CFG_TYPE_ALL;
   Group "Wireless_security_4" Wlan_sec_4 CFG_TYPE_ALL;
   Group "Wireless_Connection_Control_1" Wlan_Conn_Control_1 CFG_TYPE_ALL;
   Group "Wireless_Connection_Control_2" Wlan_Conn_Control_2 CFG_TYPE_ALL;
   Group "Wireless_Connection_Control_3" Wlan_Conn_Control_3 CFG_TYPE_ALL;
   Group "Wireless_Connection_Control_4" Wlan_Conn_Control_4 CFG_TYPE_ALL;
   Group "VLAN_QoS" VLAN_QoS CFG_TYPE_ALL;
   Group "Wireless_Advanced" Wlan_Adv CFG_TYPE_ALL;
   Group "AP_Mode" AP_Mode CFG_TYPE_ALL;
   Group "Management" Management CFG_TYPE_ALL;
   Group "Log" Log_attrs CFG_TYPE_ALL].
