(* ===== verification/EditParse.v ===== *)
(** * Reading and writing the configuration file (libeditapcfg/editapcfg.c)

    An open file is what is left to read and the end-of-file flag of [stdio];
    the lines of the file are read into buffers of 130 bytes. *)

From S2P Require Import Prelude CLib FileSys Utility CfgStore EditVars EditAssign EditOutput EditTable.

(** ** Files *)

Record FILE : Type := File { rest : bytes; feof : bool }.

(** [buffer[0]='\0'; fgets(buffer, n, fp)]: the string in the buffer.  The
    flag rises when the end stops the reading. *)
Definition fgets_line (n : nat) (fp : FILE) : cstr * FILE :=
  let '(l, r) := fgets_go (n - 1) (rest fp) in
  let complete := bool_decide (last l = Some LF) || bool_decide (length l = n - 1)%nat in
  (cut_nul l, File r (negb complete)).

(** ** Groups *)

(** The text between the first bracket and the next closing one. *)
Fixpoint between (s : cstr) : option cstr :=
  match s with
  | [] => None
  | c :: s' => if decide (c = "]"%char) then Some [] else cons c <$> between s'
  end.
Fixpoint bracketed (s : cstr) : option cstr :=
  match s with
  | [] => None
  | c :: s' => if decide (c = "["%char) then between s' else bracketed s'
  end.

(** The next non-empty bracketed text of a line; empty at the end. *)
Fixpoint GetaGroup (fuel : nat) (fp : FILE) : outcome (cstr * FILE) :=
  match fuel with
  | O => Stuck
  | S fuel' =>
      if feof fp then Done ([], fp)
      else
        let '(buffer, fp') := fgets_line 129 fp in
        match bracketed buffer with
        | Some (c :: group) => Done (c :: group, fp')
        | _ => GetaGroup fuel' fp'
        end
  end.

Fixpoint match_group (i : nat) (l : list CFG_s) (name : cstr) : nat :=
  match l with
  | [] => O
  | d :: l' => if decide (group d = name) then i else match_group (S i) l' name
  end.
(** 0: there is none. *)
Definition matchGroup (name : cstr) : nat := match_group 1 (tail CFGData) name.

(** ** Attributes *)

(** The index of the first equality sign, 0 when a blank comes first. *)
Fixpoint find_eq (i : nat) (buff : cstr) : nat :=
  match buff with
  | [] => O
  | c :: buff' =>
      if decide (c = " "%char) then O
      else if decide (c = "="%char) then i else find_eq (S i) buff'
  end.
Definition findEQ (buff : cstr) : nat := find_eq 0 buff.

(** The attributes whose value may hold any character but a carriage return. *)
Definition ssid_names : list cstr := ["SSID1" : cstr; "SSID2" : cstr; "SSID3" : cstr; "SSID4" : cstr].

(** [buffer[i] > ' ' && buffer[i] < 0x7F] for a signed [char]. *)
Definition printable (c : ascii) : bool := (32 <? schar (code c)) && (schar (code c) <? 0x7F).

(** The value behind the equality sign.  (The source tests [attribute[5]] for
    an equality sign, which no attribute holds.) *)
Fixpoint attr_value (attribute : cstr) (s : cstr) : cstr :=
  match s with
  | [] => []
  | c :: s' =>
      if printable c then c :: attr_value attribute s'
      else if bool_decide (c = " "%char) && starts "SSID" attribute && bool_decide (ch attribute 5 = "="%char)
      then c :: attr_value attribute s'
      else if bool_decide (attribute ∈ ssid_names) then
        if decide (c = CR) then [] else c :: attr_value attribute s'
      else []
  end.

(** The attribute and its value; [None] at the end of the file, and at a line
    that begins a group, which is left in the file. *)
Fixpoint GetaAttr (fuel : nat) (fp : FILE) : outcome (option (cstr * cstr) * FILE) :=
  match fuel with
  | O => Stuck
  | S fuel' =>
      if feof fp then Done (None, fp)
      else
        let '(buffer, fp') := fgets_line 129 fp in
        match buffer with
        | "["%char :: _ => Done (None, File (rest fp) false)
        | [] | " "%char :: _ => GetaAttr fuel' fp'
        | _ =>
            match findEQ buffer with
            | O => GetaAttr fuel' fp'
            | j => let attribute := take j buffer in
                   Done (Some (attribute, attr_value attribute (drop (S j) buffer)), fp')
            end
        end
  end.

Fixpoint match_attr (i : nat) (l : list attr_s) (name : cstr) : nat :=
  match l with
  | [] => O
  | a :: l' => if decide (attr a = name) then S i else match_attr (S i) l' name
  end.
Definition attrs_of (id : nat) : list attr_s := match CFGData !! id with Some d => attrs d | None => [] end.
(** The number of the attribute in its group, from 1; 0 when there is none. *)
Definition matchAttr (name : cstr) (id : nat) : nat := match_attr 0 (attrs_of id) name.

(** ** The file *)

(** One attribute: the variable assigned, and whether it was. *)
Definition assign_attr (groupID : nat) (type : Z) (name value : cstr) : M edit bool :=
  match matchAttr name groupID with
  | O => mret false
  | S i =>
      match attrs_of groupID !! i with
      | None => faultM
      | Some p =>
          if Z.land (attr_type p) type =? 0 then mret false
          else match assignfunc p with
               | None => mret false
               | Some f =>
                   if negb (bool_decide (value = [])) || isNvAssignFunc f then
                     _ ← assign_of f (var p) value; mret true
                   else mret false
               end
      end
  end.

(** The attributes up to the next group: whether one of them was assigned. *)
Fixpoint ParseNAssignValue (fuel : nat) (groupID : nat) (type : Z) (goodAttr : bool) (fp : FILE)
    : M edit (Z * FILE) :=
  match fuel with
  | O => stuckM
  | S fuel' =>
      if feof fp then mret (boolZ goodAttr, fp)
      else
        r ← liftO (GetaAttr (S (S (length (rest fp)))) fp);
        match (r : option (cstr * cstr) * FILE) with
        | (None, fp') => mret (boolZ goodAttr, fp')
        | (Some (name, value), fp') =>
            good ← assign_attr groupID type name value;
            ParseNAssignValue fuel' groupID type (goodAttr || good) fp'
        end
  end.

(** The loop of [parseCFG] over the groups: how many had an attribute assigned. *)
Fixpoint parse_groups (fuel : nat) (type : Z) (goodGroup : Z) (fp : FILE) : M edit Z :=
  match fuel with
  | O => stuckM
  | S fuel' =>
      if feof fp then mret goodGroup
      else
        r ← liftO (GetaGroup (S (S (length (rest fp)))) fp);
        let '(name, fp') := (r : cstr * FILE) in
        match matchGroup name with
        | O => parse_groups fuel' type goodGroup fp'
        | groupID =>
            if Z.land (match CFGData !! groupID with Some d => group_type d | None => 0 end) type =? 0
            then parse_groups fuel' type goodGroup fp'
            else
              r ← ParseNAssignValue (S (S (length (rest fp')))) groupID type false fp';
              let '(good, fp'') := (r : Z * FILE) in
              parse_groups fuel' type (goodGroup + good) fp''
        end
  end.

(** What [parseCFG] does with the contents of the file. *)
Definition parse_file (type : Z) (data : bytes) : M edit Z :=
  parse_groups (S (S (length data))) type 0 (File data false).

(** The largest channel of [/tmp/chan_list]. *)
Fixpoint max_channel (fuel : nat) (data : bytes) (maxChannel : Z) : outcome Z :=
  match fuel with
  | O => Stuck
  | S fuel' =>
      match fgets 31 data with
      | None => Done maxChannel
      | Some (buff, rest) =>
          if decide (buff = ("current:" : cstr) ++ [LF]) then Done maxChannel
          else max_channel fuel' rest (atoi buff)
      end
  end.

Definition AP_OPMODE : Z := 0.
Definition correctVariables : M edit unit :=
  fp ← onM (read_file "/tmp/chan_list");
  maxChannel ← match fp with
               | Some data => liftO (max_channel (S (length data)) data 0)
               | None => mret 0
               end;
  channel ← get_byte (g "channel");
  _ ← when (maxChannel <? channel) (set_byte (g "channel") 0);
  opMode ← get_byte (g "opMode");
  if negb (opMode =? AP_OPMODE) then
    channel ← get_byte (g "channel");
    when (channel =? 0) (set_byte (g "channel") maxChannel)
  else mret tt.

(** ** Writing *)

Definition CFGTitle : cstr := ";WAP4410N Configuration File - Version: ".

(** [version] is what [getVersion] puts into [temp]. *)
Definition OutputTitle (version : cstr) : M edit bytes :=
  mac ← peek (g "APmac") 6;
  pin ← get_text (g "APpin");
  mret (CFGTitle ++ version ++ [LF] ++ ";MAC address: " ++ mac_text mac ++ [LF] ++
        ";WPS PIN: " ++ pin ++ [LF] ++ ";The checksum: 00000000" ++ [LF]).

(** One attribute with its comment. *)
Definition output_attr (p : attr_s) (buff : bytes) : M edit bytes :=
  let buff := OutputAttr (attr p) buff in
  buff ← match outputfunc p with
         | Some f => output_of f (var p) buff
         | None => mret buff
         end;
  if starts "Country_Region" (attr p) then OutputCountryComment buff
  else mret (OutputComment (comment p) buff).

Fixpoint output_attrs (type : Z) (l : list attr_s) (buff : bytes) : M edit bytes :=
  match l with
  | [] => mret buff
  | p :: l' =>
      if Z.land (attr_type p) type =? 0 then output_attrs type l' buff
      else buff ← output_attr p buff; output_attrs type l' buff
  end.

Fixpoint output_groups (type : Z) (l : list CFG_s) (buff : bytes) : M edit bytes :=
  match l with
  | [] => mret buff
  | d :: l' =>
      if Z.land (group_type d) type =? 0 then output_groups type l' buff
      else buff ← output_attrs type (attrs d) (OutputGroup (group d) buff); output_groups type l' buff
  end.

(** The sum of the characters up to the terminator, as an [unsigned long]. *)
Definition checksum (text : bytes) : Z := wrap32 (fold_left (λ s c, s + code c) (cut_nul text) 0).

(** [sprintf(APchecksum, "%-8lu", chSumDate); APchecksum[8] = '\n';] *)
Definition pad_right (n : nat) (s : cstr) : cstr := s ++ replicate (n - length s) " "%char.
Definition checksum_text (sum : Z) : M edit bytes :=
  _ ← strcpy_var (g "APchecksum") (pad_right 8 (dec sum));
  _ ← poke (g "APchecksum") 8 [LF];
  peek (g "APchecksum") 9.

(** The text, from a title; the sum replaces the last nine bytes of the title. *)
Definition output_file (type : Z) (version : cstr) : M edit bytes :=
  title ← OutputTitle version;
  text ← output_groups type (tail CFGData) title;
  let body := drop (length title) text in
  sum ← checksum_text (checksum body);
  mret (take (length title - 9) title ++ sum ++ body).
