(* ===== verification/EditApCfg.v ===== *)
(** * From the configuration to the page variables and back (libeditapcfg/editapcfg.c)

    [outputCFGGet] fills the page variables from the configuration,
    [parseCFGSet] stores them in it; [OutputCFG] and [parseCFG] are the entry
    points of the library.  What they use of [utility.c] and [lca_conv.c] is
    here too. *)

From S2P Require Import Prelude CLib FileSys Inet Utility CfgStore ApCfgSys ApCfgWlan ApCfgLists WifiScript WifiSecurity WifiStart EditVars EditAssign EditOutput EditTable EditParse.

(** ** What the libraries of the system answer *)

Record tm : Type := Tm {
  tm_sec : Z; tm_min : Z; tm_hour : Z; tm_mday : Z; tm_mon : Z; tm_year : Z; tm_wday : Z;
}.

Class Host : Type := {
  (** [localtime] of the current time *)
  now : tm;
  (** [inet_ntop] of what [inet_pton] makes of the text of an IPv6 address *)
  v6_text : cstr → cstr;
  (** [iconv] to and from a character set; [None] is -1 *)
  libiconv : cstr → cstr → cstr → option cstr;
}.

(** Statements one after another. *)
Fixpoint steps (l : list (M edit unit)) : M edit unit :=
  match l with [] => mret tt | m :: l' => _ ← m; steps l' end.

Definition unit0 : Z := RADIO_24G.

Section config.
Context {store : CfgStore sys} {board : Board} {host : Host}.

(** ** Values from the configuration *)

Definition byte_from (v : cell) (get : M sys Z) : M edit unit := x ← onM get; set_byte v x.
Definition word_from (v : cell) (get : M sys Z) : M edit unit := x ← onM get; set_word v x.
Definition text_from (v : cell) (get : M sys cstr) : M edit unit := p ← onM get; strcpy_var v p.
(** [ipAddress = get(); memcpy(var, &ipAddress, 4);] *)
Definition ip_from (v : cell) (get : M sys Z) : M edit unit := x ← onM get; poke v 0 (be32 (wrap32 x)).
(** [!x] *)
Definition negate (get : M sys Z) : M sys Z := x ← get; mret (boolZ (x =? 0)).

(** [(get() == a) ? x : (get() == b) ? y : ...] *)
Fixpoint select (get : M sys Z) (tbl : list (Z * Z)) (dflt : Z) : M sys Z :=
  match tbl with
  | [] => mret dflt
  | (k, r) :: tbl' => v ← get; if v =? k then mret r else select get tbl' dflt
  end.

(** ** Addresses and times (libutility/utility.c) *)

(** [getIP6dhcpInfo]: the address and the gateway, [None] when they stay empty. *)
Definition getIP6dhcpInfo : M sys (option (cstr * cstr)) :=
  fp ← read_file "/tmp/dhcp6c.lease";
  match fp with
  | None => mret None
  | Some data =>
      match fgets 32 data with
      | None => faultM
      | Some (buff, _) =>
          if starts "1" buff then
            a ← apCfgIpv6AddrGet; ipaddr ← strcpy_buf (Z.to_nat INET6_ADDRSTRLEN) a;
            b ← apCfgGatewayv6AddrGet; gw ← strcpy_buf (Z.to_nat INET6_ADDRSTRLEN) b;
            mret (Some (ipaddr, gw))
          else mret None
      end
  end.

(** [sscanf(buff, "Ip=%s", addr)] with [addr] zeroed before. *)
Definition scan_after (key : cstr) (buff : cstr) : cstr :=
  if starts key buff then (span_while (λ c, negb (c_isspace c)) (skip_space (drop (length key) buff))).1 else [].

(** The address behind a key with its prefix length; empty when there is none. *)
Definition radvd_addr (key buff : cstr) : M sys cstr :=
  addr ← strcpy_buf (Z.to_nat INET6_ADDRSTRLEN) (scan_after key buff);
  match addr with
  | [] => mret []
  | _ =>
      let '(tok, saved) := strtok ["/"%char] addr in
      match (strtok ["/"%char] saved).1 with
      | None => faultM
      | Some p => strcpy_buf (Z.to_nat INET6_ADDRSTRLEN) (v6_text (default addr tok) ++ "/"%char :: dec (atoi p))
      end
  end.

(** The lines of the file into one buffer, which keeps its text at the end. *)
Definition next_line (n : nat) (buff : option cstr) (data : bytes) : option cstr * bytes :=
  match fgets n data with Some (l, r) => (Some l, r) | None => (buff, data) end.

Definition getIP6RadvdInfo : M sys (cstr * cstr) :=
  fp ← read_file "/proc/ipv6_info_cfb";
  match fp with
  | None => mret ([], [])
  | Some data =>
      let '(buff, data) := next_line 64 None data in
      let '(buff, data) := next_line 64 buff data in
      match buff with
      | None => faultM
      | Some line =>
          if negb (starts "Radvd=1" line) then mret ([], [])
          else
            let '(buff, data) := next_line 64 buff data in
            ipaddr ← radvd_addr "Ip=" (default [] buff);
            let '(buff, _) := next_line 64 buff data in
            gw ← radvd_addr "Route=" (default [] buff);
            mret (ipaddr, gw)
      end
  end.

(** [getMgtBrv6Info] for the states 1 and 2: the address and the gateway. *)
Definition getMgtBrv6Info (status : Z) : M sys (cstr * cstr) :=
  _ ← mgt_if;
  dhcp ← (if status =? 1 then apCfgDhcp6EnableGet else mret 0);
  if negb (dhcp =? 0) then r ← getIP6dhcpInfo; mret (default ([], []) r)
  else
    radvd ← (if status =? 2 then apCfgRadvdEnableGet else mret 0);
    if negb (radvd =? 0) then getIP6RadvdInfo else mret ([], []).

Definition weekdays : list cstr :=
  ["Sun" : cstr; "Mon" : cstr; "Tue" : cstr; "Wed" : cstr; "Thu" : cstr; "Fri" : cstr; "Sta" : cstr].
Definition two (z : Z) : cstr := pad0 2 (dec z).

(** [getTimeofDay(tpbuff, TIME_FORMAT_NORMAL)] *)
Definition getTimeofDay : M sys cstr :=
  let add_year := if tm_year now =? 108 then 1903 else 1900 in
  p ← apCfgTimezoneOffsetGet;
  timezone ← strcpy_buf 20 p;
  let wday := if (0 <=? tm_wday now) && (tm_wday now <? 7) then nth (Z.to_nat (tm_wday now)) weekdays [] else [] in
  let text := dec (tm_year now + add_year) ++ "/"%char :: two (tm_mon now + 1) ++ "/"%char :: two (tm_mday now) ++
              " "%char :: wday ++ " "%char :: two (tm_hour now) ++ ":"%char :: two (tm_min now) ++
              ":"%char :: two (tm_sec now) in
  mode ← apCfgTimeModeGet;
  if mode =? 0 then
    if decide (length timezone < 3)%nat then faultM
    else mret (text ++ " (" ++ drop 3 timezone ++ ")")
  else mret text.

(** ** Character sets (lca_conv.c) *)

Definition convTable : list (Z * cstr) :=
  [(840, "CP1252" : cstr); (36, "CP1252" : cstr); (76, "CP1252" : cstr); (156, "CP936" : cstr);
   (410, "CP949" : cstr); (1702, "CP1252" : cstr); (208, "CP1252" : cstr); (1276, "CP1252" : cstr);
   (246, "CP1252" : cstr); (250, "CP1252" : cstr); (276, "CP1252" : cstr); (372, "CP1252" : cstr);
   (380, "CP1252" : cstr); (392, "CP932" : cstr); (528, "CP1252" : cstr); (554, "CP1252" : cstr);
   (578, "CP1252" : cstr); (724, "CP1252" : cstr); (752, "CP1252" : cstr); (756, "CP1252" : cstr);
   (826, "CP1252" : cstr); (484, "CP1252" : cstr); (630, "CP1252" : cstr); (1076, "CP1252" : cstr)].

(** [do_convert(LAN2UTF, ...)] when [to_utf], else [do_convert(UTF2LAN, ...)]. *)
Definition do_convert (to_utf : bool) (inbuf : cstr) : M sys (option cstr) :=
  CountryCode ← apCfgCountryCodeGet;
  match find (λ e, CountryCode =? e.1) convTable with
  | None => mret None
  | Some (_, charset) =>
      mret (if to_utf then libiconv "UTF-8" charset inbuf else libiconv charset "UTF-8" inbuf)
  end.

(** ** [outputCFGGet] *)

(** [pt = strtok(s, separ); if(pt != NULL) strcpy(IPAddress6, pt); ...]; a
    buffer nothing was written to cannot be read. *)
Definition split_v6 (ipv6Buf : option cstr) : M edit unit :=
  match ipv6Buf with
  | None => faultM
  | Some s =>
      let '(pt, saved) := strtok ["/"%char] s in
      _ ← match pt with Some t => strcpy_var (g "IPAddress6") t | None => mret tt end;
      match (strtok ["/"%char] saved).1 with
      | Some t => set_byte (g "prefixlen") (atoi t)
      | None => mret tt
      end
  end.

Definition get_ipv6 : M edit unit :=
  v6 ← get_byte (g "IPv6");
  if v6 =? 0 then mret tt
  else
    dhcp6 ← onM apCfgDhcp6EnableGet;
    ipv6Buf ← (if negb (dhcp6 =? 0) then
                 r ← onM (getMgtBrv6Info 1);
                 r ← (if bool_decide (r.1 = []) then onM (getMgtBrv6Info 2) else mret r);
                 let '(ipaddr, gw) := (r : cstr * cstr) in
                 ipv6Buf ← (if bool_decide (ipaddr = []) then mret None
                            else p ← onM (strcpy_buf 45 ipaddr); mret (Some p));
                 _ ← (if bool_decide (gw = []) then mret tt else strcpy_var (g "gateway6") gw);
                 mret ipv6Buf
               else
                 a ← onM apCfgIpv6AddrGet; p ← onM (strcpy_buf 45 a);
                 _ ← text_from (g "gateway6") apCfgGatewayv6AddrGet;
                 mret (Some p));
    _ ← text_from (g "IPv6dnsServer1") apCfgNameSrv61Get;
    _ ← text_from (g "IPv6dnsServer2") apCfgNameSrv62Get;
    split_v6 ipv6Buf.

(** The bytes of a hardware address into a variable. *)
Definition hw_var (v : cell) (text : cstr) : M edit unit :=
  b ← liftO (scHexs2Chars (text ++ [NUL]) 6 true None); poke v 0 b.

Definition get_basic : M edit unit := steps
  [byte_from (g "secShow") apCfgSecMaskGet;
   (mac ← onM getMgtBrInfo_mac; hw_var (g "APmac") mac);
   text_from (g "APpin") (apCfgDevicePinGet unit0 0);
   text_from (g "APName") apCfgSysNameGet;
   text_from (g "APDesc") apCfgDescGet;
   text_from (g "APLang") apCfgSysLangGet;
   byte_from (g "dhcpF") apCfgDhcpEnableGet;
   byte_from (g "dhcp6F") apCfgDhcp6EnableGet;
   ip_from (g "IPAddress4") apCfgIpAddrGet;
   ip_from (g "subnet4") apCfgIpMaskGet;
   ip_from (g "gateway4") apCfgGatewayAddrGet;
   text_from (g "dnsServer1") apCfgNameSrvGet;
   text_from (g "dnsServer2") apCfgNameSrv2Get;
   byte_from (g "IPv6") apCfgipv6modeGet;
   get_ipv6].

Definition get_clock : M edit unit :=
  t ← onM getTimeofDay;
  tpbuff ← onM (strcpy_buf 128 t);
  let '(date, saved) := strtok [" "%char] tpbuff in
  _ ← match date with Some d => strcpy_var (g "date_p") d | None => faultM end;
  let '(_, saved) := strtok [" "%char] saved in
  match (strtok [" "%char] saved).1 with
  | Some d => strcpy_var (g "time_p") d
  | None => faultM
  end.

Definition get_time : M edit unit := steps
  [byte_from (g "timesetting") (negate apCfgTimeModeGet);
   get_clock;
   text_from (g "timeZone") apCfgTimezoneOffsetGet;
   byte_from (g "usDefntp") apCfgNtpModeGet;
   byte_from (g "daylightSaving") apCfgDaylightSavingGet;
   text_from (g "ntpServer") apCfgNtpServerGet].

(** [if(v) ...] for a variable. *)
Definition if_set (v : cell) (m : M edit unit) : M edit unit :=
  b ← get_byte v; if b =? 0 then mret tt else m.

Definition get_setup : M edit unit := steps
  [byte_from (g "htBonjour") apCfgBonjourGet;
   byte_from (g "htForce100m") apCfgForce100mGet;
   byte_from (g "htAutoNegotiation") apCfgAutonegoGet;
   byte_from (g "htPortSpeed") apCfgPortspeedGet;
   byte_from (g "htDuplexMode") apCfgDuplexmodeGet;
   byte_from (g "htRedirect") apCfgRedirectModeGet;
   if_set (g "htRedirect") (text_from (g "htRedirectUrl") apCfgRedirectUrlGet);
   byte_from (g "ethDot1xAuth") scApCfgDot1xSuppEnableGet;
   if_set (g "ethDot1xAuth") (steps
     [byte_from (g "authViaMac") scApCfgDot1xSuppMacEnableGet;
      text_from (g "authName") scApCfgDot1xSuppUsernameGet;
      text_from (g "authPasswd") scApCfgDot1xSuppPasswordGet])].

Definition mode_code : M sys Z :=
  state ← apCfgWlanStateGet unit0;
  if state =? 0 then mret 0
  else select (apCfgFreqSpecGet unit0)
         [(MODE_SELECT_11B, 1); (MODE_SELECT_11G, 2); (MODE_SELECT_11N, 3); (MODE_SELECT_11BG, 4)] 7.

Definition get_radio : M edit unit := steps
  [byte_from (g "wlsMode") mode_code;
   (auto ← onM (apCfgAutoChannelGet unit0);
    if negb (auto =? 0) then set_byte (g "channel") 0
    else byte_from (g "channel") (apCfgRadioChannelGet unit0));
   byte_from (g "vapIsolated") (apCfgInterVapForwardingGet unit0)].

(** [sprintf(keyN[vap], "%s", ...)] *)
Definition key_var (n : Z) (vap : Z) : cell := at_row ("key" ++ dec n) vap.
Definition each_key (f : Z → M edit unit) : M edit unit := steps (map f [1; 2; 3; 4]).

Definition sec_codes : list (Z * Z) :=
  [(APCFG_AUTH_NONE, 0); (APCFG_AUTH_WPAPSK, 2); (APCFG_AUTH_WPA2PSK, 3); (APCFG_AUTH_WPA_AUTO_PSK, 4);
   (APCFG_AUTH_WPA, 5); (APCFG_AUTH_WPA2, 6); (APCFG_AUTH_WPA_AUTO, 7); (APCFG_AUTH_DOT1X, 8)].

Definition get_security (vap : Z) : M edit unit := steps
  [byte_from (at_row "wlsSeparation" vap) (apCfgIntraVapForwardingGet unit0 vap);
   byte_from (at_row "secSystem" vap) (select (apCfgAuthTypeGet unit0 vap) sec_codes 1);
   byte_from (at_row "authType" vap)
     (select (apCfgAuthTypeGet unit0 vap) [(APCFG_AUTH_AUTO, 0); (APCFG_AUTH_SHARED_KEY, 2)] 1);
   (sec ← get_byte (at_row "secSystem" vap);
    byte_from (at_row "encrypt" vap)
      (if sec =? 1 then select (apCfgKeyBitLenGet unit0 vap) [(40, 64)] 128
       else select (apCfgWPACipherGet unit0 vap) [(WPA_CIPHER_TKIP, 1); (WPA_CIPHER_AES, 2)] 3));
   byte_from (at_row "keyNo" vap) (k ← apCfgDefKeyGet unit0 vap; mret (k - 1 + 1));
   each_key (λ n, memset_var (key_var n vap) NUL (KEY_LEN + 1));
   memset_var (at_row "preShared" vap) NUL (size_of CFG_MAX_PASSPHRASE + 1);
   each_key (λ n, text_from (key_var n vap) (apCfgKeyValGet unit0 vap n));
   text_from (at_row "preShared" vap) (apCfgPassphraseGet unit0 vap);
   word_from (at_row "keyrenew" vap) (apCfgGroupKeyUpdateIntervalGet unit0 vap)].

(** [aclMac[vap][count]] *)
Definition acl_var (vap : Z) (count : nat) : cell :=
  ("aclMac" : cstr, (Z.to_nat vap * CFG_MAX_ACL_LINKSYS + count)%nat).
Fixpoint get_macs (vap : Z) (count : nat) (es : list scAclBuf_s) : M edit unit :=
  match es with
  | [] => mret tt
  | e :: es' => _ ← hw_var (acl_var vap count) (acl_mac e); get_macs vap (S count) es'
  end.

Definition get_acl (vap : Z) : M edit unit := steps
  [byte_from (at_row "aclFlag" vap) (apCfgAclModeGet unit0 vap);
   byte_from (at_row "aclType" vap) (apCfgAclTypeGet unit0 vap);
   (es ← onM (acl_wait unit0 vap); get_macs vap 0 (take CFG_MAX_ACL_LINKSYS es))].

Definition get_vap (vap : Z) : M edit unit :=
  active ← onM (apCfgActiveModeGet unit0 vap);
  if active =? 0 then mret tt
  else steps
    [text_from (at_row "ssid" vap) (apCfgSsidGet unit0 vap);
     byte_from (at_row "ssidBroadcast" vap) (negate (apCfgSsidModeGet unit0 vap));
     get_security vap;
     get_acl vap;
     (vlan ← onM apCfgVlanModeGet;
      if vlan =? 0 then mret tt
      else steps [word_from (at_row "vapVlan" vap) (apCfgVlanPvidGet unit0 vap);
                  byte_from (at_row "vapPri" vap) (apCfgPriorityGet unit0 vap)]);
     byte_from (at_row "vapWmm" vap) (apCfgWmeGet unit0 vap);
     (balance ← onM (apCfgBalanceModeGet unit0);
      if balance =? 0 then mret tt
      else word_from (at_row "vapBalance" vap) (apCfgLoadBalanceGet unit0 vap))].

(** [acpcfg_edit_setip]: dots become terminators; the four texts are read at the
    positions behind them, in a buffer of 20 bytes. *)
Fixpoint split_at (d : ascii) (s : cstr) : list cstr :=
  match s with
  | [] => [[]]
  | c :: s' =>
      if decide (c = d) then [] :: split_at d s'
      else match split_at d s' with a :: l => (c :: a) :: l | [] => [[c]] end
  end.
Definition acpcfg_edit_setip (v : cell) (ipStr : cstr) : M edit unit :=
  ipstrtemp ← onM (strcpy_buf 20 ipStr);
  match split_at "." ipstrtemp with
  | a :: b :: c :: d :: _ => poke v 0 [chr (atoi a); chr (atoi b); chr (atoi c); chr (atoi d)]
  | _ => faultM
  end.

Definition get_radius : M edit unit := steps
  [(s ← onM (apCfgRadiusServerGet unit0 0); acpcfg_edit_setip (g "authSIP1") s);
   word_from (g "authSPort1") (apCfgRadiusPortGet unit0 0);
   text_from (g "authSSecret1") (apCfgRadiusSecretGet unit0 0);
   (s ← onM (apCfgBackupRadiusServerGet unit0 0); acpcfg_edit_setip (g "authSIP2") s);
   word_from (g "authSPort2") (apCfgBackupRadiusPortGet unit0 0);
   text_from (g "authSSecret2") (apCfgBackupRadiusSecretGet unit0 0)].

Definition get_vlan : M edit unit := steps
  [byte_from (g "vlan") apCfgVlanModeGet;
   if_set (g "vlan") (steps
     [word_from (g "nativeVid") apCfgNativeVlanIdGet;
      word_from (g "manageVid") apCfgManagementVlanIdGet;
      byte_from (g "vlanTag") apCfgNativeVlanTagGet;
      byte_from (g "wdsTag") apCfgWdsVlanTagGet;
      text_from (g "wdsVlanList") apCfgwdsVlanListGet])].

Definition get_advanced : M edit unit := steps
  [byte_from (g "worldwide") (scApCfg80211dEnabledGet unit0);
   word_from (g "countryCode") apCfgCountryCodeGet;
   byte_from (g "channelBand")
     (select (apCfgChannelWidthModeGet unit0) [(CWM_MODE_20M, 1); (CWM_MODE_40M, 2)] 0);
   byte_from (g "guardInter") (select (scApCfgShortGIGet unit0) [(SHORTGI_SHORT, 1); (SHORTGI_LONG, 2)] 0);
   byte_from (g "ctsProtect") (apCfgCTSModeGet unit0);
   word_from (g "beaconInterval") (apCfgBeaconIntervalGet unit0);
   byte_from (g "dtimInter") (scApCfgDtimIntervalGet unit0);
   word_from (g "rtsThreshold") (apCfgRtsThresholdGet unit0);
   word_from (g "fragLength") (apCfgFragThresholdGet unit0);
   byte_from (g "loadBalance") (apCfgBalanceModeGet unit0)].

(** [if(strcmp("00:00:00:00:00:00", remotemac) != 0) scHexs2Chars(...)] *)
Definition zero_mac_text : cstr := "00:00:00:00:00:00".
Definition remote_var (v : cell) (get : M sys cstr) : M edit unit :=
  p ← onM get; remotemac ← onM (strcpy_buf 20 p);
  if differ zero_mac_text remotemac then hw_var v remotemac else mret tt.

(** The SSID as UTF-8, itself when it cannot be converted. *)
Definition perf_ssid : M edit unit :=
  pSrc ← onM (apCfgSsidGet unit0 0);
  ret ← onM (do_convert true pSrc);
  pDest ← match ret with
          | Some converted_text => onM (strcpy_buf 128 converted_text)
          | None => mret pSrc
          end;
  strcpy_var (g "perfssid") pDest.

Definition get_remote : M edit unit :=
  wdsRepeater ← get_byte (g "wdsRepeater");
  opMode ← get_byte (g "opMode");
  if negb (wdsRepeater =? 0) || (opMode =? 2) then
    steps (map (λ i, _ ← memset_var (at_row "pxpMac" i) NUL 6;
                     remote_var (at_row "pxpMac" i) (apCfgRemoteWbrMacAddrGet unit0 i)) [0; 1; 2; 3])
  else if opMode =? 1 then remote_var (g "pxpMac") (apCfgRemoteApMacAddrGet unit0)
  else if opMode =? 3 then
    _ ← perf_ssid; remote_var (g "pxpMac") (apCfgUcrRemoteApMacAddrGet unit0)
  else mret tt.

(** The tokens of the list from the entry [count] on. *)
Fixpoint get_legal (toks : list cstr) (count : Z) : M edit unit :=
  match toks with
  | [] => mret tt
  | t :: toks' =>
      no ← get_word (g "rogueApMacList.no");
      _ ← set_word (g "rogueApMacList.no") (no + 1);
      m ← liftO (scMacStr12ToStr17 t ":");
      _ ← strcpy_var (rogue_mac count) m;
      get_legal toks' (count + 1)
  end.

Definition get_mode : M edit unit := steps
  [byte_from (g "opMode")
     (select (apCfgOpModeGet unit0)
        [(CFG_OP_MODE_AP_PTP, 1); (CFG_OP_MODE_MPT, 2); (CFG_OP_MODE_UC, 3); (CFG_OP_MODE_UR, 3);
         (CFG_OP_MODE_ROGAP, 4)] 0);
   byte_from (g "wdsRepeater") (select (apCfgOpModeGet unit0) [(CFG_OP_MODE_AP_PTMP, 1)] 0);
   byte_from (g "ucrRepeater") (select (apCfgOpModeGet unit0) [(CFG_OP_MODE_UR, 1)] 0);
   get_remote;
   (flag ← onM scApCfgRogueApTypeGet;
    _ ← set_byte (g "noSecurity") (Z.land 1 (schar flag));
    set_byte (g "illegalAp") (if Z.land 2 (schar flag) =? 0 then 0 else 1));
   (opMode ← get_byte (g "opMode");
    if opMode =? 4 then
      pList ← onM scApCfgLegalApListGet;
      _ ← set_word (g "rogueApMacList.outNo") 0;
      _ ← set_word (g "rogueApMacList.no") 0;
      get_legal (strtok_all [","%char] pList) 0
    else mret tt)].

(** The last byte of the address at the end of the range. *)
Definition trap_range : M edit unit :=
  ip ← onM apCfgSnmpManagerIpEndGet;
  poke (g "trapRange") 0 (drop 3 (be32 (wrap32 ip))).

Definition get_management : M edit unit := steps
  [text_from (g "loginName") apCfgLoginGet;
   text_from (g "loginPasswd") apCfgPasswordGet;
   byte_from (g "httpsEnable") apCfgHttpsModeGet;
   byte_from (g "webAccess") apCfgWlanAccessGet;
   byte_from (g "secureSh") apCfgSSHGet;
   byte_from (g "snmp") apCfgSnmpModeGet;
   if_set (g "snmp") (steps
     [text_from (g "contact") apCfgSnmpContactGet;
      text_from (g "snmplocal") apCfgSnmpLocationGet;
      text_from (g "snmpdevice") apCfgDescGet;
      text_from (g "getCom") apCfgSnmpReadCommGet;
      text_from (g "setCom") apCfgSnmpWriteCommGet;
      text_from (g "trapCom") apCfgSnmpTrapCommunityGet;
      byte_from (g "snmpTrust") apCfgSnmpAnyManagerGet;
      ip_from (g "trapStartIp") apCfgSnmpManagerIpGet;
      trap_range;
      ip_from (g "trapServerIp") apCfgSnmpTrapRecvIpGet])].

Definition get_log : M edit unit := steps
  [byte_from (g "mailAlert") apCfgemailAlertsEnabledGet;
   if_set (g "mailAlert") (steps
     [text_from (g "smtpServ") apCfgsmtpMailServerGet;
      text_from (g "mailAddr") apCfgemailAddrForLogGet;
      word_from (g "logLength") apCfgemailAlertsQlenGet;
      word_from (g "logTime") scApCfgemailAlertsIntervalGet]);
   byte_from (g "syslogF") apCfgsysLogEnabledGet;
   ip_from (g "logIPAddr") (p ← apCfgsysLogServerGet; mret (inet_addr p));
   byte_from (g "unAthLogin") apCfgDeauthGet;
   byte_from (g "AthLogin") apCfgAuthLoginGet;
   byte_from (g "sysError") apCfgChangeSysFucGet;
   byte_from (g "cfgChange") apCfgChangeCfgGet].

Definition outputCFGGet : M edit unit := steps
  [get_basic; get_time; get_setup; get_radio;
   steps (map get_vap vaps);
   get_radius; get_vlan; get_advanced; get_mode; get_management; get_log].

(** ** [parseCFGSet] *)

Definition byte_to (set : Z → M sys Z) (v : cell) : M edit unit := x ← get_byte v; _ ← onM (set x); mret tt.
Definition word_to (set : Z → M sys Z) (v : cell) : M edit unit := x ← get_word v; _ ← onM (set x); mret tt.
Definition text_to (set : cstr → M sys Z) (v : cell) : M edit unit := p ← get_text v; _ ← onM (set p); mret tt.
(** [if(strlen(var)) set(var);] *)
Definition text_to_if (set : cstr → M sys Z) (v : cell) : M edit unit :=
  p ← get_text v; if bool_decide (p = []) then mret tt else _ ← onM (set p); mret tt.
Definition just (m : M sys Z) : M edit unit := _ ← onM m; mret tt.
(** [memcpy(&ipAddress, var, 4)] *)
Definition get_ip (v : cell) : M edit Z := b ← peek v 4; liftO (word_at b 0).
Definition ip_to (set : Z → M sys Z) (v : cell) : M edit unit :=
  ip ← get_ip v; _ ← onM (set (sint32 ip)); mret tt.
Definition ip_to_if (set : Z → M sys Z) (v : cell) : M edit unit :=
  ip ← get_ip v; if ip =? 0 then mret tt else _ ← onM (set (sint32 ip)); mret tt.

(** [if(apCfgIpv6AddrSet(ipv6Buf)!=0)]; the three conditions inside come to the
    same. *)
Definition set_v6 : M edit unit :=
  addr ← get_text (g "IPAddress6");
  prefix ← get_byte (g "prefixlen");
  ipv6Buf ← onM (strcpy_buf 45 (addr ++ "/"%char :: dec prefix));
  r ← onM (apCfgIpv6AddrSet ipv6Buf);
  if r =? 0 then mret tt
  else
    p ← onM apCfgIpv6AddrGet;
    if bool_decide (p = []) then just (apCfgipv6modeSet 0) else mret tt.

Definition set_basic : M edit unit := steps
  [(p ← get_text (g "APName");
    if bool_decide (p = []) then mret tt
    else ok ← liftO (scValidHostName p (zlen p));
         if (ok : bool) then just (apCfgSysNameSet p) else mret tt);
   text_to_if apCfgDescSet (g "APDesc");
   text_to_if apCfgSysLangSet (g "APLang");
   byte_to apCfgDhcpEnableSet (g "dhcpF");
   byte_to apCfgDhcp6EnableSet (g "dhcp6F");
   ip_to_if apCfgIpAddrSet (g "IPAddress4");
   ip_to_if apCfgIpMaskSet (g "subnet4");
   ip_to apCfgGatewayAddrSet (g "gateway4");
   text_to apCfgNameSrvSet (g "dnsServer1");
   text_to apCfgNameSrv2Set (g "dnsServer2");
   byte_to apCfgipv6modeSet (g "IPv6");
   set_v6;
   text_to apCfgGatewayv6AddrSet (g "gateway6");
   text_to apCfgNameSrv61Set (g "IPv6dnsServer1");
   text_to apCfgNameSrv62Set (g "IPv6dnsServer2")].

(** Three numbers of a text; the text is not used again before it is written. *)
Definition three_numbers (v : cell) (d : ascii) (f1 f2 f3 : Z → M sys Z) : M edit unit :=
  p ← get_text v;
  let '(a, saved) := strtok [d] p in
  x ← atoi_tok a; _ ← onM (f1 x);
  let '(b, saved) := strtok [d] saved in
  y ← atoi_tok b; _ ← onM (f2 y);
  let '(c, _) := strtok [d] saved in
  z ← atoi_tok c; _ ← onM (f3 z);
  mret tt.

Definition set_time : M edit unit := steps
  [byte_to (λ t, apCfgTimeModeSet (boolZ (t =? 0))) (g "timesetting");
   (t ← get_byte (g "timesetting");
    if negb (t =? 0) then mret tt
    else steps
      [three_numbers (g "date_p") "/" apCfgTimeYearSet apCfgTimeMonSet apCfgTimeDaySet;
       three_numbers (g "time_p") ":" apCfgTimeHourSet apCfgTimeMinSet apCfgTimeSecSet]);
   text_to apCfgTimezoneOffsetSet (g "timeZone");
   byte_to apCfgNtpModeSet (g "usDefntp");
   text_to apCfgNtpServerSet (g "ntpServer");
   byte_to apCfgDaylightSavingSet (g "daylightSaving")].

Definition set_setup : M edit unit := steps
  [byte_to apCfgBonjourSet (g "htBonjour");
   byte_to apCfgForce100mSet (g "htForce100m");
   byte_to apCfgAutonegoSet (g "htAutoNegotiation");
   byte_to apCfgPortspeedSet (g "htPortSpeed");
   byte_to apCfgDuplexmodeSet (g "htDuplexMode");
   byte_to apCfgRedirectModeSet (g "htRedirect");
   text_to apCfgRedirectUrlSet (g "htRedirectUrl");
   byte_to scApCfgDot1xSuppEnableSet (g "ethDot1xAuth");
   byte_to scApCfgDot1xSuppMacEnableSet (g "authViaMac");
   text_to_if scApCfgDot1xSuppUsernameSet (g "authName");
   text_to_if scApCfgDot1xSuppPasswordSet (g "authPasswd")].

Definition set_vlan : M edit unit := steps
  [byte_to apCfgVlanModeSet (g "vlan");
   just apCfgVlanListClear;
   if_set (g "vlan") (steps
     [word_to apCfgNativeVlanIdSet (g "nativeVid");
      word_to apCfgManagementVlanIdSet (g "manageVid");
      byte_to apCfgNativeVlanTagSet (g "vlanTag");
      byte_to apCfgWdsVlanTagSet (g "wdsTag");
      text_to apCfgwdsVlanListSet (g "wdsVlanList")])].

(** [switch(wlsMode)]; the default falls through to the case 0. *)
Definition set_wls_mode (wlsMode : Z) : M edit unit :=
  let freq := apCfgFreqSpecSet unit0 in
  if wlsMode =? 0 then just (apCfgWlanStateSet unit0 0)
  else if wlsMode =? 1 then just (freq MODE_SELECT_11B)
  else if wlsMode =? 2 then just (freq MODE_SELECT_11G)
  else if wlsMode =? 3 then just (freq MODE_SELECT_11N)
  else if wlsMode =? 4 then just (freq MODE_SELECT_11BG)
  else if wlsMode =? 7 then just (freq MODE_SELECT_11BGN)
  else _ ← just (freq MODE_SELECT_11BGN); just (apCfgWlanStateSet unit0 0).

Definition set_radio : M edit unit := steps
  [if_set (g "wlsMode") (just (apCfgWlanStateSet unit0 1));
   (m ← get_byte (g "wlsMode"); set_wls_mode m);
   byte_to (λ c, apCfgAutoChannelSet unit0 (boolZ (c =? 0))) (g "channel");
   if_set (g "channel") (byte_to (apCfgRadioChannelSet unit0) (g "channel"));
   byte_to (apCfgInterVapForwardingSet unit0) (g "vapIsolated")].

Definition set_op_mode : M edit unit :=
  opMode ← get_byte (g "opMode");
  wdsRepeater ← get_byte (g "wdsRepeater");
  ucrRepeater ← get_byte (g "ucrRepeater");
  let op := λ m, just (apCfgOpModeSet unit0 m) in
  if opMode =? 1 then op CFG_OP_MODE_AP_PTP
  else if opMode =? 2 then op CFG_OP_MODE_MPT
  else if opMode =? 3 then op (if negb (ucrRepeater =? 0) then CFG_OP_MODE_UR else CFG_OP_MODE_UC)
  else if opMode =? 4 then
    _ ← op CFG_OP_MODE_ROGAP;
    a ← get_byte (g "noSecurity"); b ← get_byte (g "illegalAp");
    just (scApCfgRogueApTypeSet (schar (Z.lor a (Z.shiftl b 1))))
  else op (if negb (wdsRepeater =? 0) then CFG_OP_MODE_AP_PTMP else CFG_OP_MODE_AP).

(** ** Defaults of an access point (libutility/utility.c) *)

Definition SC_DEFAULT_KEY_BITLEN : Z := 40.
Definition DEFAULT_GROUP_KEY_UPDATE_INTERVAL : Z := 3600.

(** [return A_OK] from the loop when an access point uses WEP. *)
Fixpoint any_wep (unit : Z) (l : list Z) : M sys bool :=
  match l with
  | [] => mret false
  | i :: l' =>
      a ← apCfgAuthTypeGet unit i;
      if a =? APCFG_AUTH_OPEN_SYSTEM then mret true
      else b ← apCfgAuthTypeGet unit i;
           if b =? APCFG_AUTH_SHARED_KEY then mret true else any_wep unit l'
  end.

Definition scSetDefaultSecurity (unit bss : Z) : M sys Z :=
  _ ← apCfgIntraVapForwardingSet unit bss 1;
  _ ← apCfgAuthTypeSet unit bss APCFG_AUTH_NONE;
  _ ← apCfgDefKeySet unit bss 0;
  _ ← apCfgWPACipherSet unit bss WPA_CIPHER_AUTO;
  _ ← apCfgPassphraseSet unit bss [];
  _ ← apCfgGroupKeyUpdateIntervalSet unit bss DEFAULT_GROUP_KEY_UPDATE_INTERVAL;
  wep ← any_wep unit vaps;
  if (wep : bool) then mret A_OK
  else
    _ ← apCfgKeyBitLenSet unit bss SC_DEFAULT_KEY_BITLEN;
    _ ← apCfgKeyValSet unit bss 1 [];
    _ ← apCfgKeyValSet unit bss 2 [];
    _ ← apCfgKeyValSet unit bss 3 [];
    _ ← apCfgKeyValSet unit bss 4 [];
    mret A_OK.

Definition scSetDefaultVap (unit bss : Z) : M sys Z :=
  _ ← apCfgActiveModeSet unit bss 0;
  _ ← apCfgSsidSet unit bss [];
  _ ← apCfgSsidModeSet unit bss 0;
  _ ← scSetDefaultSecurity unit bss;
  _ ← apCfgAclModeSet unit bss 0;
  _ ← apCfgAclTypeSet unit bss 0;
  _ ← apCfgAclClear unit bss;
  _ ← apCfgVlanPvidSet unit bss VLAN_TAG_MIN;
  _ ← apCfgWmeSet unit bss 1;
  _ ← apCfgWmmpsSet unit bss 1;
  _ ← apCfgPrioritySet unit bss 0;
  _ ← apCfgLoadBalanceSet unit bss 0;
  mret A_OK.

(** ** [parseCFGSet], continued *)

Definition set_psk (vap : Z) : M edit unit :=
  _ ← text_to_if (apCfgPassphraseSet unit0 vap) (at_row "preShared" vap);
  word_to (apCfgGroupKeyUpdateIntervalSet unit0 vap) (at_row "keyrenew" vap).
Definition set_rekey (vap : Z) : M edit unit :=
  word_to (apCfgGroupKeyUpdateIntervalSet unit0 vap) (at_row "keyrenew" vap).

(** [if(strlen(keyN[vap]) && (strlen(keyN[vap]) == len*2)) ...] *)
Definition set_key (vap len n : Z) : M edit unit :=
  p ← get_text (key_var n vap);
  if bool_decide (p = []) || negb (zlen p =? len * 2) then mret tt
  else just (apCfgKeyValSet unit0 vap n p).

Definition set_wep (vap : Z) : M edit unit :=
  encrypt ← get_byte (at_row "encrypt" vap);
  let len := encrypt / 8 in
  _ ← just (apCfgKeyBitLenSet unit0 vap encrypt);
  auth ← get_byte (at_row "authType" vap);
  _ ← just (apCfgAuthTypeSet unit0 vap
              (if auth =? 0 then APCFG_AUTH_AUTO
               else if auth =? 2 then APCFG_AUTH_SHARED_KEY else APCFG_AUTH_OPEN_SYSTEM));
  _ ← byte_to (λ k, apCfgDefKeySet unit0 vap (k + 1 - 1)) (at_row "keyNo" vap);
  each_key (set_key vap len).

(** [switch(secSystem[vap])] *)
Definition set_security (vap : Z) : M edit unit :=
  sec ← get_byte (at_row "secSystem" vap);
  let auth := λ a, just (apCfgAuthTypeSet unit0 vap a) in
  let cipher := λ c, just (apCfgWPACipherSet unit0 vap c) in
  let chosen := byte_to (apCfgWPACipherSet unit0 vap) (at_row "encrypt" vap) in
  if sec =? 0 then auth APCFG_AUTH_NONE
  else if sec =? 1 then set_wep vap
  else if sec =? 2 then steps [auth APCFG_AUTH_WPAPSK; chosen; set_psk vap]
  else if sec =? 3 then steps [auth APCFG_AUTH_WPA2PSK; cipher WPA_CIPHER_AES; set_psk vap]
  else if sec =? 4 then steps [auth APCFG_AUTH_WPA_AUTO_PSK; cipher WPA_CIPHER_AUTO; set_psk vap]
  else if sec =? 5 then steps [auth APCFG_AUTH_WPA; chosen; set_rekey vap]
  else if sec =? 6 then steps [auth APCFG_AUTH_WPA2; cipher WPA_CIPHER_AES; set_rekey vap]
  else if sec =? 7 then steps [auth APCFG_AUTH_WPA_AUTO; cipher WPA_CIPHER_AUTO; set_rekey vap]
  else if sec =? 8 then auth APCFG_AUTH_DOT1X
  else mret tt.

Definition is_zero (m : bytes) : bool := forallb (λ c, code c =? 0) m.
(** [macAddrToString(mac, macAddrStr, ":")] *)
Definition mac_string (m : bytes) : M edit cstr :=
  r ← liftO (macAddrToString m (Some (":" : cstr))); mret (r : Z * cstr).2.

Definition set_acl (vap : Z) : M edit unit := steps
  [byte_to (apCfgAclModeSet unit0 vap) (at_row "aclFlag" vap);
   byte_to (apCfgAclTypeSet unit0 vap) (at_row "aclType" vap);
   onM (apCfgAclClear unit0 vap);
   steps (map (λ i, m ← peek (acl_var vap i) 6;
                    if is_zero m then mret tt
                    else macAddrStr ← mac_string m; just (apCfgAclAdd unit0 vap macAddrStr "unknown" 1))
            (seq 0 CFG_MAX_ACL_LINKSYS))].

Definition set_vap (vap : Z) : M edit unit :=
  p ← get_text (at_row "ssid" vap);
  if bool_decide (p = []) then just (scSetDefaultVap unit0 vap)
  else steps
    [just (apCfgActiveModeSet unit0 vap 1);
     text_to (apCfgSsidSet unit0 vap) (at_row "ssid" vap);
     byte_to (λ b, apCfgSsidModeSet unit0 vap (boolZ (b =? 0))) (at_row "ssidBroadcast" vap);
     byte_to (apCfgIntraVapForwardingSet unit0 vap) (at_row "wlsSeparation" vap);
     set_security vap;
     set_acl vap;
     word_to (apCfgVlanPvidSet unit0 vap) (at_row "vapVlan" vap);
     byte_to (apCfgWmeSet unit0 vap) (at_row "vapWmm" vap);
     byte_to (apCfgPrioritySet unit0 vap) (at_row "vapPri" vap);
     word_to (apCfgLoadBalanceSet unit0 vap) (at_row "vapBalance" vap)].

(** "%u.%u.%u.%u" of four bytes *)
Definition quad_text (b : bytes) : cstr := joined ["."%char] (map (λ c, dec (code c)) b).
Definition quad_to (set : cstr → M sys Z) (v : cell) : M edit unit :=
  b ← peek v 4; just (set (quad_text b)).

Definition set_radius : M edit unit := steps
  [quad_to (apCfgRadiusServerSet unit0 0) (g "authSIP1");
   word_to (apCfgRadiusPortSet unit0 0) (g "authSPort1");
   text_to_if (apCfgRadiusSecretSet unit0 0) (g "authSSecret1");
   quad_to (apCfgBackupRadiusServerSet unit0 0) (g "authSIP2");
   word_to (apCfgBackupRadiusPortSet unit0 0) (g "authSPort2");
   text_to_if (apCfgBackupRadiusSecretSet unit0 0) (g "authSSecret2")].

Definition set_advanced : M edit unit := steps
  [byte_to (scApCfg80211dEnabledSet unit0) (g "worldwide");
   word_to apCfgCountryCodeSet (g "countryCode");
   byte_to (λ b, apCfgChannelWidthModeSet unit0 (if b =? CWM_MODE_40M then b else boolZ (b =? 0))) (g "channelBand");
   byte_to (λ b, scApCfgShortGISet unit0 (if b =? SHORTGI_LONG then b else boolZ (b =? 0))) (g "guardInter");
   byte_to (apCfgCTSModeSet unit0) (g "ctsProtect");
   word_to (apCfgBeaconIntervalSet unit0) (g "beaconInterval");
   byte_to (scApCfgDtimIntervalSet unit0) (g "dtimInter");
   word_to (apCfgRtsThresholdSet unit0) (g "rtsThreshold");
   word_to (apCfgFragThresholdSet unit0) (g "fragLength");
   byte_to (apCfgBalanceModeSet unit0) (g "loadBalance")].

Definition remote_text (v : cell) : M edit cstr :=
  m ← peek v 6; if is_zero m then mret zero_mac_text else mac_string m.

Definition set_remote : M edit unit :=
  opMode ← get_byte (g "opMode");
  if (opMode =? 1) || (opMode =? 3) then
    macAddrStr ← remote_text (g "pxpMac");
    _ ← just (apCfgRemoteApMacAddrSet unit0 macAddrStr);
    if opMode =? 3 then text_to (apCfgSsidSet unit0 0) (g "perfssid") else mret tt
  else if (opMode =? 0) || (opMode =? 2) then
    steps (map (λ i, macAddrStr ← remote_text (at_row "pxpMac" i);
                     just (apCfgRemoteWbrMacAddrSet unit0 i macAddrStr)) [0; 1; 2; 3])
  else mret tt.

(** [n] entries of [rogueApMacList] from index [i] on. *)
Fixpoint set_legal (n : nat) (i : Z) : M edit unit :=
  match n with
  | O => mret tt
  | S n' =>
      m ← peek (rogue_mac i) 17;
      _ ← (if is_zero m then mret tt
           else s ← liftO (scMacStr17ToStr12 m); just (scApCfgLegalApListAdd (cut_nul s)));
      set_legal n' (i + 1)
  end.
Definition set_rogue : M edit unit :=
  _ ← just scApCfgLegalApListClear;
  no ← get_word (g "rogueApMacList.no");
  set_legal (Z.to_nat no) 0.

(** The end of the range: the start with another last byte. *)
Definition set_trap_end : M edit unit :=
  start ← peek (g "trapStartIp") 3;
  range ← peek (g "trapRange") 1;
  ip ← liftO (word_at (start ++ range) 0);
  m ← onM apCfgSnmpManagerIpGet;
  if negb (ip =? 0) && (wrap32 m <=? ip) then just (apCfgSnmpManagerIpEndSet (sint32 ip))
  else m ← onM apCfgSnmpManagerIpGet; just (apCfgSnmpManagerIpEndSet m).

Definition set_management : M edit unit := steps
  [byte_to apCfgSecMaskSet (g "secShow");
   text_to apCfgLoginSet (g "loginName");
   text_to_if apCfgPasswordSet (g "loginPasswd");
   byte_to apCfgAutohttpsModeSet (g "httpsEnable");
   byte_to apCfgHttpsModeSet (g "httpsEnable");
   byte_to apCfgWlanAccessSet (g "webAccess");
   byte_to apCfgSSHSet (g "secureSh");
   byte_to apCfgSnmpModeSet (g "snmp");
   if_set (g "snmp") (steps
     [text_to apCfgSnmpContactSet (g "contact");
      text_to apCfgSnmpLocationSet (g "snmplocal");
      text_to apCfgDescSet (g "snmpdevice");
      text_to apCfgSnmpReadCommSet (g "getCom");
      text_to apCfgSnmpWriteCommSet (g "setCom");
      text_to apCfgSnmpTrapCommunitySet (g "trapCom");
      byte_to apCfgSnmpAnyManagerSet (g "snmpTrust");
      ip_to_if apCfgSnmpManagerIpSet (g "trapStartIp");
      set_trap_end;
      ip_to_if apCfgSnmpTrapRecvIpSet (g "trapServerIp")])].

Definition set_log : M edit unit := steps
  [byte_to apCfgemailAlertsEnabledSet (g "mailAlert");
   if_set (g "mailAlert") (steps
     [text_to apCfgsmtpMailServerSet (g "smtpServ");
      text_to apCfgemailAddrForLogSet (g "mailAddr");
      word_to scApCfgemailAlertsQlenSet (g "logLength");
      word_to scApCfgemailAlertsIntervalSet (g "logTime")]);
   byte_to apCfgsysLogEnabledSet (g "syslogF");
   quad_to apCfgsysLogServerSet (g "logIPAddr");
   byte_to apCfgDeauthSet (g "unAthLogin");
   byte_to apCfgAuthLoginSet (g "AthLogin");
   byte_to apCfgChangeSysFucSet (g "sysError");
   byte_to apCfgChangeCfgSet (g "cfgChange")].

Definition parseCFGSet : M edit unit := steps
  [set_basic; set_time; set_setup; set_vlan; set_radio; set_op_mode;
   steps (map set_vap vaps);
   just (apCfgVlanListApply unit0);
   set_radius; set_advanced; set_remote; set_rogue; set_management; set_log].

(** ** The entry points *)

Definition OutputCFG (type : Z) : M edit bytes :=
  _ ← outputCFGGet;
  version ← onM (getVersion 20);
  match version with
  | Some v => output_file type v
  | None => faultM
  end.

(** The number of groups with an attribute assigned; 0 when the file cannot be
    opened. *)
Definition parseCFG (cfgfp : cstr) (type : Z) (setup : bool) : M edit Z :=
  fp ← onM (read_file cfgfp);
  match fp with
  | None => mret 0
  | Some data =>
      _ ← outputCFGGet;
      goodGroup ← parse_file type data;
      _ ← correctVariables;
      _ ← (if negb (goodGroup =? 0) && setup then parseCFGSet else mret tt);
      mret goodGroup
  end.
End config.
