(* ===== verification/EditLines.v ===== *)
(** * Lines of the configuration file

    What the scanners of [EditParse] do with a file that is a sequence of
    lines: a line that fits the buffer is read whole; a line without an
    attribute is skipped; an attribute is read with its value. *)

From S2P Require Import Prelude CLib FileSys Utility CfgStore EditVars EditAssign EditOutput EditTable EditParse.

(** The longest line, with its newline, that the buffer holds. *)
Definition LINE : nat := 128.

Definition is_line (l : bytes) : Prop :=
  (length l <= LINE)%nat ∧ nul_free l ∧ ∃ l0, l = l0 ++ [LF] ∧ LF ∉ l0.

Lemma line_nonempty l : is_line l → (0 < length l)%nat.
Proof. intros (_ & _ & l0 & -> & _). rewrite length_app. cbn. lia. Qed.

Lemma cut_nul_id s : nul_free s → cut_nul s = s.
Proof.
  intros H. unfold cut_nul. rewrite span_until_free; [done|].
  intros c Hc%list_elem_of_singleton. by subst.
Qed.

Lemma fgets_line_line l r : is_line l → fgets_line 129 (File (l ++ r) false) = (l, File r false).
Proof.
  intros (Hlen & Hn & l0 & -> & Hl). unfold fgets_line. cbn [rest].
  change (129 - 1)%nat with LINE. rewrite length_app in Hlen. cbn [length] in Hlen.
  rewrite <- app_assoc. cbn [app]. rewrite fgets_go_line by (done || lia).
  rewrite last_snoc, bool_decide_eq_true_2 by done. by rewrite cut_nul_id.
Qed.

Lemma fgets_line_end : fgets_line 129 (File [] false) = ([], File [] true).
Proof. reflexivity. Qed.

(** ** Skipping *)

(** A line that holds no attribute, nor begins a group. *)
Definition noise (l : bytes) : bool :=
  negb (starts "[" l) && (starts " " l || bool_decide (findEQ l = 0)%nat).

Definition noise_line (l : bytes) : Prop := is_line l ∧ noise l = true.

Lemma GetaAttr_noise n l r :
  noise_line l → GetaAttr (S n) (File (l ++ r) false) = GetaAttr n (File r false).
Proof.
  intros [Hl Hn]. cbn [GetaAttr]. cbn [feof]. rewrite fgets_line_line by done.
  pose proof (line_nonempty l Hl) as Hne. destruct l as [|c l]; [cbn in Hne; lia|].
  unfold noise in Hn. apply andb_true_iff in Hn as [Hb Hn].
  destruct (decide (c = " "%char)) as [->|Hsp]; [done|].
  assert (Hf : findEQ (c :: l) = 0%nat).
  { unfold starts in Hn. cbn [take length] in Hn.
    rewrite bool_decide_eq_false_2 in Hn by (by intros [= ->]). cbn [orb] in Hn.
    by apply bool_decide_eq_true in Hn. }
  rewrite Hf.
  assert (Hc : c ≠ "["%char).
  { intros ->. unfold starts in Hb. cbn in Hb. done. }
  clear -Hc Hsp. by destruct c as [[] [] [] [] [] [] [] []].
Qed.

Lemma GetaAttr_noises n ls r :
  Forall noise_line ls →
  GetaAttr (length ls + n) (File (concat ls ++ r) false) = GetaAttr n (File r false).
Proof.
  induction ls as [|l ls IH]; intros H; [done|].
  apply List.Forall_cons_iff in H as [Hl H]. cbn [concat length Nat.add].
  rewrite <- app_assoc. rewrite GetaAttr_noise by done. by apply IH.
Qed.

(** ** Attributes *)

(** The names of attributes: no blank, no equality sign, no bracket in front. *)
Definition name_ok (name : cstr) : bool :=
  match name with
  | [] => false
  | c :: _ => negb (bool_decide (c = "["%char)) &&
              forallb (λ c, negb (bool_decide (c = " "%char)) && negb (bool_decide (c = "="%char))) name
  end.

Lemma find_eq_name i name s :
  forallb (λ c, negb (bool_decide (c = " "%char)) && negb (bool_decide (c = "="%char))) name = true →
  find_eq i (name ++ "="%char :: s) = (i + length name)%nat.
Proof.
  revert i. induction name as [|c name IH]; intros i H; cbn [app find_eq length].
  - rewrite decide_False, decide_True by done. lia.
  - cbn [forallb] in H. apply andb_true_iff in H as [H1 H2].
    apply andb_true_iff in H1 as [Ha%negb_true_iff%bool_decide_eq_false Hb%negb_true_iff%bool_decide_eq_false].
    rewrite !decide_False by done. rewrite IH by done. lia.
Qed.

Lemma GetaAttr_hit n name v r :
  name_ok name = true → is_line (name ++ "="%char :: v) →
  GetaAttr (S n) (File ((name ++ "="%char :: v) ++ r) false) =
    Done (Some (name, attr_value name v), File r false).
Proof.
  intros Hname Hl. cbn [GetaAttr]. cbn [feof]. rewrite fgets_line_line by done.
  destruct name as [|c name]; [done|]. cbn [name_ok] in Hname.
  apply andb_true_iff in Hname as [Hb%negb_true_iff%bool_decide_eq_false Hname].
  pose proof (find_eq_name 0 (c :: name) v Hname) as Hf. cbn [Nat.add] in Hf.
  assert (Hsp : c ≠ " "%char).
  { cbn [forallb] in Hname. apply andb_true_iff in Hname as [Hname _].
    by apply andb_true_iff in Hname as [Hname%negb_true_iff%bool_decide_eq_false _]. }
  unfold findEQ. rewrite Hf. cbn [app length].
  assert (Ht : take (S (length name)) (c :: name ++ "="%char :: v) = c :: name).
  { change (c :: name ++ "="%char :: v) with ((c :: name) ++ "="%char :: v).
    change (S (length name)) with (length (c :: name)). by rewrite take_app_length. }
  assert (Hd : drop (S (S (length name))) (c :: name ++ "="%char :: v) = v).
  { change (c :: name ++ "="%char :: v) with ((c :: name) ++ ["="%char] ++ v). rewrite app_assoc.
    replace (S (S (length name))) with (length ((c :: name) ++ ["="%char]))
      by (rewrite length_app; cbn [length]; lia).
    apply drop_app_length. }
  rewrite Ht, Hd. clear -Hb Hsp. by destruct c as [[] [] [] [] [] [] [] []].
Qed.

Lemma GetaAttr_group n l r :
  is_line ("["%char :: l) →
  GetaAttr (S n) (File (("["%char :: l) ++ r) false) = Done (None, File (("["%char :: l) ++ r) false).
Proof. intros Hl. cbn [GetaAttr]. cbn [feof]. by rewrite fgets_line_line by done. Qed.

Lemma GetaAttr_end n : GetaAttr (S (S n)) (File [] false) = Done (None, File [] true).
Proof. reflexivity. Qed.

(** ** Groups *)

Definition no_group (l : bytes) : Prop :=
  is_line l ∧ match bracketed l with None | Some [] => True | _ => False end.

Lemma GetaGroup_skip n l r :
  no_group l → GetaGroup (S n) (File (l ++ r) false) = GetaGroup n (File r false).
Proof.
  intros [Hl Hb]. cbn [GetaGroup]. cbn [feof]. rewrite fgets_line_line by done.
  destruct (bracketed l) as [[|]|]; done.
Qed.

Lemma GetaGroup_skips n ls r :
  Forall no_group ls → GetaGroup (length ls + n) (File (concat ls ++ r) false) = GetaGroup n (File r false).
Proof.
  induction ls as [|l ls IH]; intros H; [done|].
  apply List.Forall_cons_iff in H as [Hl H]. cbn [concat length Nat.add].
  rewrite <- app_assoc. rewrite GetaGroup_skip by done. by apply IH.
Qed.

Definition header (name : cstr) : bytes := ["["%char] ++ name ++ ["]"%char; CR; LF].

Lemma between_name name s : "]"%char ∉ name → between (name ++ "]"%char :: s) = Some name.
Proof.
  induction name as [|c name IH]; intros H; cbn [app between]; [done|].
  apply not_elem_of_cons in H as [Hc H]. by rewrite decide_False, IH.
Qed.

Lemma GetaGroup_header n name r :
  name ≠ [] → "]"%char ∉ name → is_line (header name) →
  GetaGroup (S n) (File (header name ++ r) false) = Done (name, File r false).
Proof.
  intros Hne Hb Hl. cbn [GetaGroup]. cbn [feof]. rewrite fgets_line_line by done.
  unfold header. cbn [app bracketed]. rewrite decide_True by done. rewrite between_name by done.
  by destruct name.
Qed.

Lemma GetaGroup_end n : GetaGroup (S (S n)) (File [] false) = Done ([], File [] true).
Proof. reflexivity. Qed.

Lemma match_group_at k l i d :
  NoDup (map group l) → l !! i = Some d → match_group k l (group d) = (k + i)%nat.
Proof.
  revert k i. induction l as [|e l IH]; intros k [|i] Hn Hi; try done; cbn [map] in Hn;
    apply NoDup_cons in Hn as [Hnotin Hn]; cbn [match_group lookup list_lookup] in *.
  - injection Hi as ->. rewrite decide_True by done. lia.
  - rewrite decide_False.
    + rewrite (IH (S k) i) by done. lia.
    + intros E. apply Hnotin. rewrite E. apply list_elem_of_In, in_map, list_elem_of_In.
      by eapply list_elem_of_lookup_2.
Qed.

Lemma match_attr_at k l i p :
  NoDup (map attr l) → l !! i = Some p → match_attr k l (attr p) = S (k + i).
Proof.
  revert k i. induction l as [|e l IH]; intros k [|i] Hn Hi; try done; cbn [map] in Hn;
    apply NoDup_cons in Hn as [Hnotin Hn]; cbn [match_attr lookup list_lookup] in *.
  - injection Hi as ->. rewrite decide_True by done. f_equal. lia.
  - rewrite decide_False.
    + rewrite (IH (S k) i) by done. f_equal. lia.
    + intros E. apply Hnotin. rewrite E. apply list_elem_of_In, in_map, list_elem_of_In.
      by eapply list_elem_of_lookup_2.
Qed.
