(* ===== verification/EditEffect.v ===== *)
(** * What a value does to its variable

    An [Assign...] function looks at the value and at nothing else, and writes
    to its own variable only: it is a function from the old bytes of the
    variable to the new ones, undefined where the code leaves the variable.
    [effect] is that function; the exceptions are the country, which depends on
    the board, and the two functions of the list of legal access points. *)

From S2P Require Import Prelude CLib FileSys Inet Utility CfgStore ApCfgSys ApCfgWlan ApCfgLists EditVars EditAssign EditOutput EditTable.

Definition eff : Type := bytes → option bytes.

Definition upd (s : edit) (v : cell) (b : bytes) : edit := set_vars (<[v := b]> (vars s)) s.

(** The program [m] does [e] to the variable [v]. *)
Definition acts (v : cell) (m : M edit unit) (e : eff) : Prop :=
  ∀ s o, vars s !! v = Some o →
    m s = match e o with Some i => Done (tt, upd s v i) | None => Fault end.

Definition e_put (off : nat) (d : bytes) : eff := λ o,
  if decide (off + length d <= length o)%nat then Some (splice off d o) else None.
Definition e_seq (e1 e2 : eff) : eff := λ o, e1 o ≫= e2.
Definition e_when (b : bool) (e : eff) : eff := if b then e else Some.
Definition e_lift {A} (x : outcome A) (e : A → eff) : eff := λ o,
  match x with Done a => e a o | _ => None end.

Lemma upd_id s v o : vars s !! v = Some o → upd s v o = s.
Proof. intros H. unfold upd, set_vars. rewrite insert_id by done. by destruct s. Qed.

Lemma upd_upd s v i j : upd (upd s v i) v j = upd s v j.
Proof. unfold upd, set_vars. cbn [vars machine]. by rewrite insert_insert_eq. Qed.

Lemma upd_eq s v i : vars (upd s v i) !! v = Some i.
Proof. apply lookup_insert_eq. Qed.

Lemma acts_ret v : acts v (mret tt) Some.
Proof. intros s o H. by rewrite upd_id. Qed.

Lemma acts_fault v : acts v faultM (λ _, None).
Proof. by intros s o H. Qed.

Lemma acts_poke v off d : acts v (poke v off d) (e_put off d).
Proof.
  intros s o H. unfold poke, obj, mbind, M_bind, getS, e_put. rewrite H.
  cbn [mret M_ret]. by destruct (decide _).
Qed.

Lemma acts_seq v m1 m2 e1 e2 : acts v m1 e1 → acts v m2 e2 → acts v (_ ← m1; m2) (e_seq e1 e2).
Proof.
  intros H1 H2 s o H. unfold mbind, M_bind, e_seq. rewrite (H1 s o H).
  destruct (e1 o) as [i|]; [|done]. cbn [mbind option_bind]. rewrite (H2 (upd s v i) i) by apply upd_eq.
  destruct (e2 i); [by rewrite upd_upd|done].
Qed.

Lemma acts_if v (b : bool) m1 m2 e1 e2 :
  acts v m1 e1 → acts v m2 e2 → acts v (if b then m1 else m2) (if b then e1 else e2).
Proof. by destruct b. Qed.

Lemma acts_when v b m e : acts v m e → acts v (when b m) (e_when b e).
Proof. intros H. destruct b; [done|apply acts_ret]. Qed.

Lemma acts_lift {A} v (x : outcome A) k e :
  x ≠ Stuck → (∀ a, acts v (k a) (e a)) → acts v (liftO x ≫= k) (e_lift x e).
Proof.
  intros Hx Hk s o H. unfold mbind, M_bind, liftO, e_lift. destruct x as [a| |]; [by apply Hk|done|done].
Qed.

(** ** Effects *)

Definition e_byte (z : Z) : eff := e_put 0 [chr z].
Definition e_word (z : Z) : eff := e_put 0 [chr (z / 256); chr z].
Definition e_strcpy (p : cstr) : eff := e_put 0 (p ++ [NUL]).
Definition e_zero (n : nat) : eff := e_put 0 (replicate n NUL).

(** The value of the digit, or of the number, of a text. *)
Definition digit_of (value : cstr) : Z := (code (ch value 0) - 48) mod 256.
Definition within (lo hi t : Z) : bool := (lo <=? t) && (t <=? hi).

Definition e_digit (lo hi : Z) (value : cstr) : eff := e_when (within lo hi (digit_of value)) (e_byte (digit_of value)).
Definition e_number (digit_first : bool) (lo hi : Z) (e : Z → eff) (value : cstr) : eff :=
  if digit_first && negb (isdigit (ch value 0)) then Some
  else e_when (within lo hi (atoi value)) (e (atoi value)).

Definition e_quad (ok : Z * Z * Z * Z → bool) (value : cstr) : eff :=
  e_lift (scan_quad value) (λ l, match l with
    | Some q => e_when (ok q) (let '(i0, i1, i2, i3) := q in e_put 0 [chr i0; chr i1; chr i2; chr i3])
    | None => Some
    end).

Definition e_text (lim max : nat) (value : cstr) : eff :=
  e_seq (e_zero (length value + 1))
    (if (lim <? length value)%nat then e_seq (e_put 0 (take max value)) (e_put max [NUL])
     else e_strcpy value).

(** [memset] and then the text, unless it is made of stars. *)
Definition e_secret (lim max : nat) (value : cstr) : eff :=
  e_seq (e_zero (length value + 1))
    (if IsStarStr value (length value) then Some
     else if (lim <? length value)%nat then e_seq (e_put 0 (take max value)) (e_put max [NUL])
     else e_strcpy value).

Definition e_key (value : cstr) : eff :=
  match value with
  | [] => e_zero (KEY_LEN + 1)
  | _ =>
      if Nat.odd (length value) then Some
      else
        let l := Nat.min (length value) KEY_LEN in
        if negb (bool_decide (l = 10%nat)) && negb (bool_decide (l = 26%nat)) then Some
        else if negb (IsHexStr value l false) then Some
        else e_seq (e_zero (l + 1)) (if IsStarStr value l then Some else e_put 0 (take l value))
  end.

Definition e_mac (value : cstr) : eff :=
  match value with
  | [] => e_zero 6
  | _ =>
      let l := length value in
      if negb (bool_decide (l = 12%nat)) && negb (bool_decide (l = 17%nat)) then Some
      else
        let flag := bool_decide (l = 17%nat) in
        if negb (IsHexStr value l flag) then Some
        else e_put 0 (hexcpy 6 value (if flag then 3 else 2))
  end.

Definition e_ssid (value : cstr) : eff :=
  if (SSID_LEN <? length value)%nat then Some
  else e_put 0 (value ++ replicate (SSID_LEN - length value) NUL).

Definition e_mail (value : cstr) : eff :=
  if (64 <? length value)%nat then Some
  else e_when (scValidEmailAddr value (zlen value)) (e_strcpy value).

Definition e_smtp (value : cstr) : eff :=
  if (length value <? 65)%nat then
    e_lift (scValidUrl value) (λ ok,
      e_when (ok && negb (starts_nocase "http://" value) && negb (starts_nocase "https://" value))
        (e_strcpy value))
  else Some.

Definition e_assigned (v : option Z) (e : Z → eff) : eff := match v with Some z => e z | None => λ _, None end.

Definition e_zone (value : cstr) : eff :=
  if (size_of CFG_TIME_ZONE_LEN <? length value)%nat then Some
  else
    e_lift (scan_zone value) (λ r, let '(i, h, m) := r in
      e_assigned i (λ i, if (i <? 1) || (75 <? i) then Some
      else e_assigned h (λ h, if (h <? -12) || (13 <? h) then Some
      else e_assigned m (λ m,
        if negb (m =? 0) && negb (m =? 30) && negb (m =? 45) then Some
        else if (m =? 45) && negb (h =? 5) then Some
        else if (m =? 30) && (negb (h =? 3) || negb (h =? 4) || negb (h =? 5) || negb (h =? 9)) then Some
        else e_strcpy value)))).

Definition e_tok (p : option cstr) (e : Z → eff) : eff :=
  match p with Some t => e (atoi t) | None => λ _, None end.

Definition e_date (value : cstr) : eff :=
  e_lift (if decide (length value < 15)%nat then Done value else Fault) (λ buff,
    let '(p, buff) := strtok ["/"%char] buff in
    match p with
    | None => λ _, None
    | Some t =>
        if negb (isdigit (ch t 0)) then Some
        else if (atoi t <? 1970) && (2100 <? atoi t) then Some
        else
          let '(p, buff) := strtok ["/"%char] buff in
          e_tok p (λ t, if (t <? 0) && (12 <? t) then Some
          else
            let '(p, _) := strtok ["/"%char] buff in
            e_tok p (λ t, if (t <? 0) && (31 <? t) then Some else e_strcpy value))
    end).

Definition e_time (value : cstr) : eff :=
  let '(p, buff) := strtok [":"%char] value in
  match p with
  | None => λ _, None
  | Some hour =>
      if negb (isdigit (ch hour 0)) then Some
      else if (atoi hour <? 0) && (59 <? atoi hour) then Some
      else e_seq (e_strcpy hour)
        (let '(p, buff) := strtok [":"%char] buff in
         e_tok p (λ t, if (t <? 0) && (59 <? t) then Some
         else e_seq (e_put (length hour) (default [] p ++ [NUL]))
           (let '(p, _) := strtok [":"%char] buff in
            e_tok p (λ t, if (t <? 0) && (59 <? t) then Some else e_strcpy value))))
  end.

Definition e_percent (value : cstr) : eff :=
  match scan_f value with
  | None | Some ScanNan => λ _, None
  | Some (ScanInf _) => Some
  | Some (ScanNum neg n d) =>
      match percent neg n d with
      | Some temp => e_word temp
      | None => Some
      end
  end.

(** The functions that look beyond their value and variable. *)
Definition special (f : assign_fn) : bool :=
  bool_decide (f ∈ [pAssignCountry; pAssign0To255; pAssignScMacList]).

Definition effect (f : assign_fn) (value : cstr) : eff :=
  match f with
  | pAssign01 => e_digit 0 1 value
  | pAssign0To2 => e_digit 0 2 value
  | pAssign0To4 => e_digit 0 4 value
  | pAssign0To7 => e_digit 0 7 value
  | pAssign0To8 => e_digit 0 8 value
  | pAssign1To4 => e_digit 1 4 value
  | pAssign0To14 => e_number true 0 14 e_byte value
  | pAssignPrefix => e_number true 0 128 e_byte value
  | pAssign1To254 => e_number false 1 254 e_byte value
  | pAssign1To255 => e_number false 1 255 e_byte value
  | pAssignPort => e_number true 1 65534 e_word value
  | pAssignWord => e_number true 0 65535 e_word value
  | pAssign1To4094 => e_number true 1 4094 e_word value
  | pAssign20To1000 => e_number false 20 1000 e_word value
  | pAssign0To2347 => e_number true 0 2347 e_word value
  | pAssign256To2346 => e_number true 256 2346 e_word value
  | pAssign1To500 => e_number false 1 500 e_word value
  | pAssign60To600 => e_number false 60 600 e_word value
  | pAssignKeyLen => e_byte (key_len_code (atoi value))
  | pAssignIP => e_quad ip_ok value
  | pAssignMask => e_quad mask_ok value
  | pAssignIPv6 => e_when (scValidIPv6 value false) (e_strcpy value)
  | pAssignGWv6 => e_lift (scValidGWv6 value) (λ ok, e_when ok (e_strcpy value))
  | pAssignStr15 => e_text 15 15 value
  | pAssignStr32 => e_text 32 32 value
  | pAssignStr40 => e_text 39 40 value
  | pAssignStr64 => e_text 63 64 value
  | pAssignServerStr => e_text CFG_MAX_IPADDR CFG_MAX_IPADDR value
  | pAssignPassword => if (length value <? 4)%nat then Some else e_secret 63 64 value
  | pAssignSecret128 => e_secret SECRET_LEN SECRET_LEN value
  | pAssignPreSharedKey =>
      if (length value <? 8)%nat || (63 <? length value)%nat then Some else e_secret 63 63 value
  | pAssignKey => e_key value
  | pAssignMac => e_mac value
  | pAssignSSID => e_ssid value
  | pAssignMail => e_mail value
  | pAssignURL => e_lift (scValidUrl (scToLows value)) (λ ok, e_when ok (e_strcpy (scToLows value)))
  | pAssignwdsvlist => e_when (scValidwdsVlanList value) (e_strcpy value)
  | pAssignSMTPServer => e_smtp value
  | pAssignTimeZone => e_zone value
  | pAssignDate => e_date value
  | pAssignTime => e_time value
  | pAssignPercent => e_percent value
  | pAssignCountry | pAssign0To255 | pAssignScMacList => λ _, None
  end.

(** ** The functions have their effects *)

Ltac act_step :=
  lazymatch goal with
  | |- acts _ (mret tt) _ => apply acts_ret
  | |- acts _ faultM _ => apply acts_fault
  | |- acts _ (poke _ _ _) _ => apply acts_poke
  | |- acts _ (set_byte _ _) _ => apply acts_poke
  | |- acts _ (set_word _ _) _ => apply acts_poke
  | |- acts _ (strcpy_var _ _) _ => apply acts_poke
  | |- acts _ (memset_var _ _ _) _ => apply acts_poke
  | |- acts _ (when _ _) _ => apply acts_when
  | |- acts _ (if _ then _ else _) _ => apply acts_if
  | |- acts _ (mbind _ (liftO _)) _ => apply acts_lift; [|intros ?]
  | |- acts _ (mbind (λ _ : (), _) _) _ => apply acts_seq
  | |- acts _ (match ?x with _ => _ end) _ => destruct x
  end; cbv beta.
Ltac acts := repeat act_step.

Lemma acts_assigned v x k e :
  (∀ z, acts v (k z) (e z)) → acts v (assigned x ≫= k) (e_assigned x e).
Proof. intros H. destruct x; [apply H|apply acts_fault]. Qed.

Lemma acts_tok v x k e : (∀ z, acts v (k z) (e z)) → acts v (atoi_tok x ≫= k) (e_tok x e).
Proof. intros H. destruct x; [apply H|apply acts_fault]. Qed.

(** The scanners end on every text. *)
Lemma scan_digits_ends a m : scan_digits a m ≠ Stuck.
Proof. revert a. induction m as [|c m IH]; intros a; cbn [scan_digits]; [done|]. by destruct (isdigit c). Qed.

Lemma scan_space_ends m : scan_space m ≠ Stuck.
Proof. induction m as [|c m IH]; cbn [scan_space]; [done|]. by destruct (c_isspace c). Qed.

Lemma bind_ends {A B} (x : outcome A) (k : A → outcome B) :
  x ≠ Stuck → (∀ a, k a ≠ Stuck) → (x ≫= k) ≠ Stuck.
Proof. destruct x; intros H Hk; [apply Hk|done|done]. Qed.

Lemma scan_d_ends m : scan_d m ≠ Stuck.
Proof.
  unfold scan_d. apply bind_ends; [apply scan_space_ends|]. intros m1.
  destruct (match m1 with [] => _ | _ :: _ => _ end) as [neg m2]. destruct m2 as [|c m2]; [done|].
  destruct (isdigit c); [|done]. apply bind_ends; [apply scan_digits_ends|]. by intros [? ?].
Qed.

Ltac scans :=
  repeat first
    [ discriminate | apply bind_ends; [apply scan_d_ends|intros ?]
    | lazymatch goal with |- (match ?x with _ => _ end) ≠ Stuck => destruct x; try done end ].

Lemma scan_quad_ends value : scan_quad value ≠ Stuck.
Proof. unfold scan_quad. scans. Qed.

Lemma scan_zone_ends value : scan_zone value ≠ Stuck.
Proof. unfold scan_zone. scans. Qed.

Lemma scValidUrl_ends value : scValidUrl value ≠ Stuck.
Proof. unfold scValidUrl. by destruct (decide _). Qed.

Lemma gw_loop_ends fuel prev p colCo colNo hex :
  (length p < fuel)%nat → gw_loop fuel prev p colCo colNo hex ≠ Stuck.
Proof.
  revert prev p colCo colNo hex. induction fuel as [|fuel IH]; intros prev p colCo colNo hex Hf; [lia|].
  destruct p as [|c p]; [done|]. cbn [length] in Hf. cbn [gw_loop].
  destruct (decide (c = ":"%char)).
  - destruct (starts ":::" (c :: p)); [done|]. destruct (starts "::" (c :: p) && (1 <=? colCo)); [done|].
    set (q := if starts "::" (c :: p) then tail (c :: p) else c :: p).
    assert (Hq : (length (tail q) < fuel)%nat).
    { unfold q. destruct (starts "::" (c :: p)); cbn [tail length]; destruct p; cbn [tail length] in *; lia. }
    destruct (starts "::" (c :: p)); cbv beta iota zeta in *; (apply bind_ends;
      [destruct (decide _); [by destruct prev|done]|intros []; [done|]; destruct (colNo <? 7); [by apply IH|done]]).
  - destruct (scValidHex c); [|done]. destruct (4 <? hex + 1); [done|]. apply IH. lia.
Qed.

Lemma scValidGWv6_ends value : scValidGWv6 value ≠ Stuck.
Proof.
  unfold scValidGWv6. destruct (decide _); [done|].
  destruct (strtok ["/"%char] value) as [tok saved].
  destruct (match tok with Some p => (p, 0) | None => (value, 128) end) as [p prefix].
  apply bind_ends; [by repeat case_match|]. intros lst. apply bind_ends.
  - destruct (negb _); [done|]. apply gw_loop_ends. lia.
  - intros ok. destruct (negb ok); [done|]. destruct (prefix =? 128); [done|].
    by destruct (strtok ["/"%char] saved).1.
Qed.

Lemma acts_number v d lo hi set e value :
  (∀ t, acts v (set v t) (e t)) → acts v (assign_number d lo hi set v value) (e_number d lo hi e value).
Proof. intros H. unfold assign_number, e_number. acts. apply H. Qed.

Lemma acts_zone v value : acts v (AssignTimeZone v value) (e_zone value).
Proof.
  unfold AssignTimeZone, e_zone. apply acts_if; [apply acts_ret|].
  apply acts_lift; [apply scan_zone_ends|]. intros [[i h] m].
  apply acts_assigned. intros zi. apply acts_if; [apply acts_ret|].
  apply acts_assigned. intros zh. apply acts_if; [apply acts_ret|].
  apply acts_assigned. intros zm. acts.
Qed.

Lemma acts_date v value : acts v (AssignDate v value) (e_date value).
Proof.
  unfold AssignDate, e_date. apply acts_lift; [by destruct (decide _)|]. intros buff.
  destruct (strtok ["/"%char] buff) as [[t|] b1]; [|apply acts_fault].
  apply acts_if; [apply acts_ret|]. apply acts_if; [apply acts_ret|].
  destruct (strtok ["/"%char] b1) as [t2 b2]. apply acts_tok. intros z2.
  apply acts_if; [apply acts_ret|]. destruct (strtok ["/"%char] b2) as [t3 b3].
  apply acts_tok. intros z3. acts.
Qed.

Lemma acts_time v value : acts v (AssignTime v value) (e_time value).
Proof.
  unfold AssignTime, e_time. destruct (strtok [":"%char] value) as [[t|] b1]; [|apply acts_fault].
  apply acts_if; [apply acts_ret|]. apply acts_if; [apply acts_ret|].
  apply acts_seq; [apply acts_poke|].
  destruct (strtok [":"%char] b1) as [t2 b2]. apply acts_tok. intros z2.
  apply acts_if; [apply acts_ret|]. apply acts_seq; [apply acts_poke|].
  destruct (strtok [":"%char] b2) as [t3 b3]. apply acts_tok. intros z3. acts.
Qed.

Lemma acts_percent v value : acts v (AssignPercent v value) (e_percent value).
Proof.
  unfold AssignPercent, e_percent. destruct (scan_f value) as [[neg n d|neg|]|]; acts.
Qed.

Lemma acts_text v lim max value : acts v (assign_text lim max v value) (e_text lim max value).
Proof. unfold assign_text, e_text. acts. Qed.

Lemma acts_quad v ok value :
  acts v (l ← liftO (scan_quad value);
          match l with Some q => when (ok q) (set_quad v q) | None => mret tt end) (e_quad ok value).
Proof.
  unfold e_quad. apply acts_lift; [apply scan_quad_ends|]. intros [[[[i0 i1] i2] i3]|]; [apply acts_when, acts_poke|apply acts_ret].
Qed.

(** An assignment is what [effect] says. *)
Lemma assign_effect f v value : special f = false → acts v (assign_of f v value) (effect f value).
Proof.
  intros Hf. destruct f; try done; cbn [assign_of effect];
    lazymatch goal with
    | |- acts _ (AssignTimeZone _ _) _ => apply acts_zone
    | |- acts _ (AssignDate _ _) _ => apply acts_date
    | |- acts _ (AssignTime _ _) _ => apply acts_time
    | |- acts _ (AssignPercent _ _) _ => apply acts_percent
    | |- acts _ (AssignIP _ _) _ => apply acts_quad
    | |- acts _ (AssignMask _ _) _ => apply acts_quad
    | |- acts _ _ (e_text _ _ _) => apply acts_text
    | |- acts _ _ (e_number _ _ _ _ _) => apply acts_number; intros t; apply acts_poke
    | |- acts _ _ (e_digit _ _ _) => apply acts_when, acts_poke
    | |- acts _ _ (e_key _) => unfold AssignKey, e_key; destruct value; acts
    | |- acts _ _ (e_mac _) => unfold AssignMac, e_mac; destruct value; acts
    | |- acts _ (AssignKeyLen _ _) _ => apply acts_poke
    | |- acts _ (AssignGWv6 _ _) _ => apply acts_lift; [apply scValidGWv6_ends|intros ok; acts]
    | |- acts _ (AssignURL _ _) _ => apply acts_lift; [apply scValidUrl_ends|intros ok; acts]
    | |- acts _ _ (e_smtp _) => apply acts_if; [apply acts_lift; [apply scValidUrl_ends|intros ok; acts]|acts]
    | |- acts _ (AssignSSID _ _) _ => unfold AssignSSID, e_ssid; acts
    | |- acts _ (AssignMail _ _) _ => unfold AssignMail, e_mail; acts
    | |- acts _ (AssignIPv6 _ _) _ => apply acts_when, acts_poke
    | |- acts _ (Assignwdsvlist _ _) _ => apply acts_when, acts_poke
    | |- acts _ (AssignPassword _ _) _ => unfold AssignPassword, e_secret; acts
    | |- acts _ (AssignSecret128 _ _) _ => unfold AssignSecret128, e_secret; acts
    | |- acts _ (AssignPreSharedKey _ _) _ => unfold AssignPreSharedKey, e_secret; acts
    end.
Qed.
