(* ===== verification/EditSafe.v ===== *)
(** * What a file can do to the page variables

    Whatever the file holds, importing it ends; it either leaves a variable (a
    fault) or leaves each variable as it was or with a value of the type that
    its attribute has. *)

From S2P Require Import Prelude CLib FileSys Inet Utility CfgStore ApCfgSys ApCfgWlan ApCfgLists EditVars EditAssign EditOutput EditTable EditParse EditEffect.

(** ** Bytes as values *)

Definition byte_in (b : bytes) : Z := code (nth 0 b NUL).
Definition word_in (b : bytes) : Z := 256 * code (nth 0 b NUL) + code (nth 1 b NUL).
Definition quad_in (b : bytes) : Z * Z * Z * Z :=
  (code (nth 0 b NUL), code (nth 1 b NUL), code (nth 2 b NUL), code (nth 3 b NUL)).
Definition ends_in (b : bytes) : bool := bool_decide (NUL ∈ b).

Lemma byte_in_chr z : 0 <= z < 256 → byte_in [chr z] = z.
Proof. intros. unfold byte_in. cbn [nth]. rewrite code_chr, Z.mod_small; lia. Qed.

Lemma word_in_chr z : 0 <= z < 65536 → word_in [chr (z / 256); chr z] = z.
Proof.
  intros. unfold word_in. cbn [nth]. rewrite !code_chr.
  rewrite (Z.mod_small (z / 256)) by (split; [apply Z.div_pos|apply Z.div_lt_upper_bound]; lia).
  pose proof (Z.div_mod z 256). lia.
Qed.

(** ** The types of the attributes *)

(** The values that an attribute can be given. *)
Definition in_type (f : assign_fn) (b : bytes) : bool :=
  match f with
  | pAssign01 => within 0 1 (byte_in b)
  | pAssign0To2 => within 0 2 (byte_in b)
  | pAssign0To4 => within 0 4 (byte_in b)
  | pAssign0To7 => within 0 7 (byte_in b)
  | pAssign0To8 => within 0 8 (byte_in b)
  | pAssign1To4 => within 1 4 (byte_in b)
  | pAssign0To14 => within 0 14 (byte_in b)
  | pAssignPrefix => within 0 128 (byte_in b)
  | pAssign1To254 => within 1 254 (byte_in b)
  | pAssign1To255 => within 1 255 (byte_in b)
  | pAssignKeyLen => is_in [WPA_CIPHER_TKIP; WPA_CIPHER_AES; WPA_CIPHER_AUTO; 40; 104] (byte_in b)
  | pAssignPort => within 1 65534 (word_in b)
  | pAssignWord => within 0 65535 (word_in b)
  | pAssign1To4094 => within 1 4094 (word_in b)
  | pAssign20To1000 => within 20 1000 (word_in b)
  | pAssign0To2347 => within 0 2347 (word_in b)
  | pAssign256To2346 => within 256 2346 (word_in b)
  | pAssign1To500 => within 1 500 (word_in b)
  | pAssign60To600 => within 60 600 (word_in b)
  | pAssignPercent => within 0 10000 (word_in b)
  | pAssignIP => ip_ok (quad_in b)
  | pAssignMask => mask_ok (quad_in b)
  | pAssignSSID => bool_decide (nth SSID_LEN b NUL = NUL)
  | pAssignMac | pAssignCountry | pAssign0To255 | pAssignScMacList => true
  | _ => ends_in b
  end.

(** The size of the variable of an attribute. *)
Definition size_ok (f : assign_fn) (n : nat) : bool :=
  match f with
  | pAssign01 | pAssign0To2 | pAssign0To4 | pAssign0To7 | pAssign0To8 | pAssign1To4 | pAssign0To14
  | pAssignPrefix | pAssign1To254 | pAssign1To255 | pAssignKeyLen => bool_decide (n = 1%nat)
  | pAssignPort | pAssignWord | pAssign1To4094 | pAssign20To1000 | pAssign0To2347 | pAssign256To2346
  | pAssign1To500 | pAssign60To600 | pAssignPercent | pAssignCountry | pAssign0To255 => bool_decide (n = 2%nat)
  | pAssignIP | pAssignMask => bool_decide (n = 4%nat)
  | pAssignMac => bool_decide (n = 6%nat)
  | pAssignSSID => bool_decide (n = SSID_LEN + 1)%nat
  | pAssignKey => bool_decide (n = KEY_LEN + 1)%nat
  | _ => true
  end.

Section effects.
Implicit Types (o i d : bytes).

Lemma splice_keeps_length off d o : (off + length d <= length o)%nat → length (splice off d o) = length o.
Proof. intros H. unfold splice. rewrite !length_app, length_take, length_drop. lia. Qed.

Lemma splice_whole d o : length d = length o → splice 0 d o = d.
Proof. intros H. unfold splice. cbn [take app Nat.add]. rewrite H, drop_all. apply app_nil_r. Qed.

Lemma e_put_inv off d o i : e_put off d o = Some i → (off + length d <= length o)%nat ∧ i = splice off d o.
Proof. unfold e_put. destruct (decide _); [|done]. by intros [= <-]. Qed.

Lemma e_put_length off d o i : e_put off d o = Some i → length i = length o.
Proof. intros [H ->]%e_put_inv. by apply splice_keeps_length. Qed.

(** An effect that keeps the length, and leaves a value or what was there. *)
Definition gives (Q : bytes → Prop) (e : eff) : Prop :=
  ∀ o i, e o = Some i → length i = length o ∧ (i = o ∨ Q i).

Lemma gives_id Q : gives Q Some.
Proof. intros o i [= <-]. auto. Qed.

Lemma gives_none Q : gives Q (λ _, None).
Proof. by intros o i. Qed.

Lemma gives_when Q b e : (b = true → gives Q e) → gives Q (e_when b e).
Proof. intros H. destruct b; [by apply H|apply gives_id]. Qed.

Lemma gives_if Q (b : bool) e1 e2 : (b = true → gives Q e1) → (b = false → gives Q e2) → gives Q (if b then e1 else e2).
Proof. destruct b; auto. Qed.

Lemma gives_lift {A} Q (x : outcome A) e : (∀ a, x = Done a → gives Q (e a)) → gives Q (e_lift x e).
Proof. intros H o i. unfold e_lift. destruct x as [a| |]; [|done|done]. by apply H. Qed.

Lemma gives_assigned Q x e : (∀ z, gives Q (e z)) → gives Q (e_assigned x e).
Proof. intros H. destruct x; [apply H|apply gives_none]. Qed.

Lemma gives_tok Q x e : (∀ z, gives Q (e z)) → gives Q (e_tok x e).
Proof. intros H. destruct x; [apply H|apply gives_none]. Qed.

(** Once a value is there, one stays. *)
Lemma gives_seq Q e1 e2 :
  (∀ o i, e1 o = Some i → length i = length o ∧ Q i) → gives Q e2 → gives Q (e_seq e1 e2).
Proof.
  intros H1 H2 o i. unfold e_seq. destruct (e1 o) as [j|] eqn:E; [|done]. cbn [mbind option_bind].
  destruct (H1 o j E) as [Hl Hq]. intros Hi. destruct (H2 j i Hi) as [Hl' [->|Hq']]; rewrite <- Hl; auto.
Qed.

(** Texts: a terminator among the bytes written. *)
Definition terminated (b : bytes) : Prop := NUL ∈ b.

Lemma put_terminated off d o i : NUL ∈ d → e_put off d o = Some i → length i = length o ∧ terminated i.
Proof.
  intros Hd E. split; [by eapply e_put_length|]. apply e_put_inv in E as [_ ->].
  unfold terminated, splice. rewrite !elem_of_app. auto.
Qed.

Lemma NUL_snoc p : NUL ∈ p ++ [NUL].
Proof. rewrite elem_of_app, list_elem_of_singleton. by right. Qed.

Lemma NUL_replicate n : NUL ∈ replicate (n + 1) NUL.
Proof. rewrite Nat.add_1_r. apply list_elem_of_here. Qed.

Lemma gives_put off d : NUL ∈ d → gives terminated (e_put off d).
Proof. intros Hd o i E. destruct (put_terminated off d o i Hd E). auto. Qed.

Lemma gives_strcpy p : gives terminated (e_strcpy p).
Proof. apply gives_put, NUL_snoc. Qed.

Lemma gives_two max d : gives terminated (e_seq (e_put 0 d) (e_put max [NUL])).
Proof.
  intros o i. unfold e_seq. destruct (e_put 0 d o) as [j|] eqn:E; [|done]. cbn [mbind option_bind]. intros Hi.
  apply e_put_length in E. destruct (put_terminated _ _ _ _ (list_elem_of_here _ _) Hi) as [Hl Ht].
  rewrite <- E. auto.
Qed.

Lemma gives_zeroed n e : gives terminated e → gives terminated (e_seq (e_zero (n + 1)) e).
Proof. intros H. apply gives_seq; [|done]. intros o i. apply put_terminated, NUL_replicate. Qed.

(** Exactly the bytes of the variable. *)
Lemma put_whole d o i : length o = length d → e_put 0 d o = Some i → i = d.
Proof. intros H [_ ->]%e_put_inv. by apply splice_whole. Qed.
End effects.

(** ** Percentages stay in their range *)

Lemma div_even_bounds a b m : 0 < b → 0 <= a <= m * b → 0 <= div_even a b <= m.
Proof.
  intros Hb Ha. unfold div_even.
  pose proof (Z.div_pos a b ltac:(lia) Hb). pose proof (Z.mod_pos_bound a b Hb).
  pose proof (Z.div_mod a b ltac:(lia)).
  assert (a / b <= m) by (apply Z.div_le_upper_bound; lia).
  assert (a mod b > 0 → a / b + 1 <= m) by (intros ?; nia).
  destruct (Z.ltb_spec (2 * (a mod b)) b), (Z.ltb_spec b (2 * (a mod b))), (Z.even (a / b)); lia.
Qed.

Lemma scaled_neg n d e : e < 0 → scaled n d e = (n * 2 ^ (- e), d).
Proof. intros H. unfold scaled. by rewrite (proj2 (Z.leb_gt 0 e) H). Qed.
Lemma scaled_nonneg n d e : 0 <= e → scaled n d e = (n, d * 2 ^ e).
Proof. intros H. unfold scaled. by rewrite (proj2 (Z.leb_le 0 e) H). Qed.

Lemma scaled_pos n d e : 0 <= n → 0 < d → 0 <= (scaled n d e).1 ∧ 0 < (scaled n d e).2.
Proof.
  intros Hn Hd. unfold scaled. destruct (Z.leb_spec 0 e); cbn [fst snd].
  - pose proof (Z.pow_pos_nonneg 2 e). nia.
  - pose proof (Z.pow_pos_nonneg 2 (- e)). nia.
Qed.

Lemma round32_nonneg n d : 0 <= n → 0 < d → 0 <= (round32 n d).1.
Proof.
  intros Hn Hd. unfold round32. destruct (n =? 0); [done|].
  pose proof (scaled_pos n d (Z.log2 n - Z.log2 d) Hn Hd) as _.
  destruct (scaled n d (Z.log2 n - Z.log2 d)) as [a b].
  set (e := Z.max (-149) _). pose proof (scaled_pos n d e Hn Hd) as [Ha Hb].
  destruct (scaled n d e) as [a' b']; cbn [fst snd] in *.
  apply (div_even_bounds a' b' (a' / b' + 1) Hb). split; [done|].
  pose proof (Z.div_mod a' b' ltac:(lia)). pose proof (Z.mod_pos_bound a' b' Hb). nia.
Qed.

(** Rounding does not pass an integer below 2 ^ 14. *)
Lemma round32_below n d m :
  0 <= n → 0 < d → 0 <= m < 2 ^ 14 → n <= m * d → 0 <= float_trunc (round32 n d) <= m.
Proof.
  intros Hn Hd Hm Hle. unfold round32. destruct (Z.eqb_spec n 0) as [->|Hn0].
  { change (float_trunc (0, 0)) with 0. lia. }
  assert (Hk : Z.log2 n - Z.log2 d <= 14).
  { assert (Hl : Z.log2 n <= Z.log2 (d * 2 ^ 14)).
    { apply Z.log2_le_mono. change (2 ^ 14) with 16384 in *. nia. }
    rewrite Z.log2_mul_pow2 in Hl by lia. lia. }
  destruct (scaled n d (Z.log2 n - Z.log2 d)) as [a b].
  set (e := Z.max (-149) (if b <=? a then Z.log2 n - Z.log2 d - 23 else Z.log2 n - Z.log2 d - 24)).
  assert (He : e < 0) by (unfold e; destruct (b <=? a); lia).
  rewrite (scaled_neg n d e He).
  set (p := 2 ^ (- e)). assert (Hp : 0 < p) by (apply Z.pow_pos_nonneg; lia).
  pose proof (div_even_bounds (n * p) d (m * p) Hd ltac:(nia)) as [Hq1 Hq2].
  unfold float_trunc, float_frac. cbn [fst snd]. rewrite scaled_nonneg by lia. rewrite Z.mul_1_l. fold p.
  split; [apply Z.div_pos; lia|]. apply Z.div_le_upper_bound; lia.
Qed.

Lemma percent_range neg n d temp : 0 <= n → 0 < d → percent neg n d = Some temp → 0 <= temp <= 10000.
Proof.
  intros Hn Hd. unfold percent. pose proof (round32_nonneg n d Hn Hd) as Hm.
  destruct (round32 n d) as [m e]. cbn [fst snd] in *. unfold float_frac. cbn [fst snd].
  destruct (Z.leb_spec 0 (- e)) as [He|He].
  - rewrite !scaled_nonneg by done. rewrite !Z.mul_1_l.
    pose proof (Z.pow_pos_nonneg 2 (- e) ltac:(lia) ltac:(lia)).
    destruct (_ || _) eqn:E; [done|]. apply orb_false_iff in E as [_ E%Z.ltb_ge].
    intros [= <-]. apply round32_below; lia.
  - rewrite !scaled_neg by done.
    pose proof (Z.pow_pos_nonneg 2 (- (- e)) ltac:(lia) ltac:(lia)).
    destruct (_ || _) eqn:E; [done|]. apply orb_false_iff in E as [_ E%Z.ltb_ge].
    intros [= <-]. apply round32_below; nia.
Qed.

Lemma hexval_nonneg c : 0 <= default 0 (hexval c).
Proof. by_all_bytes c. Qed.

Lemma digits_in_nonneg base s : 0 <= base → 0 <= digits_in base s.
Proof.
  intros Hb. unfold digits_in. assert (H : ∀ v, 0 <= v → 0 <= fold_left (λ v c, base * v + default 0 (hexval c)) s v).
  { induction s as [|c s IH]; intros v Hv; [done|]. cbn [fold_left]. apply IH.
    pose proof (hexval_nonneg c). nia. }
  by apply H.
Qed.

Lemma scan_digits_f_pos base ebase pbase es neg s neg' n d :
  0 <= base → 0 < ebase → 0 < pbase →
  scan_digits_f base ebase pbase es neg s = Some (ScanNum neg' n d) → 0 <= n ∧ 0 < d.
Proof.
  intros Hb He Hp. unfold scan_digits_f.
  destruct (span_while _ s) as [a r]. destruct (match r with "."%char :: r' => _ | _ => _ end) as [b r'].
  destruct (a ++ b) as [|c ds]; [done|].
  destruct (match r' with [] => _ | _ :: _ => _ end) as [e|]; [|done]. cbn [mbind option_bind].
  pose proof (digits_in_nonneg base (c :: ds) Hb).
  assert (0 < pbase ^ zlen b) by (apply Z.pow_pos_nonneg; lia).
  destruct (Z.leb_spec 0 e).
  - intros [= _ <- <-]. assert (0 < ebase ^ e) by (apply Z.pow_pos_nonneg; lia). nia.
  - intros [= _ <- <-]. assert (0 < ebase ^ (- e)) by (apply Z.pow_pos_nonneg; lia). nia.
Qed.

Lemma scan_f_pos s neg n d : scan_f s = Some (ScanNum neg n d) → 0 <= n ∧ 0 < d.
Proof.
  unfold scan_f. destruct (match skip_space s with [] => _ | _ :: _ => _ end) as [ng t].
  destruct (starts_nocase "inf" t); [done|]. destruct (starts_nocase "nan" t); [done|].
  destruct (starts_nocase "0x" t); intros H; eapply scan_digits_f_pos in H; done.
Qed.

(** ** Every effect gives a value of its type *)

(** For a variable of [n] bytes. *)
Definition gives_at (n : nat) (Q : bytes → Prop) (e : eff) : Prop :=
  ∀ o i, length o = n → e o = Some i → length i = length o ∧ (i = o ∨ Q i).

Lemma gives_at_put n Q d : length d = n → Q d → gives_at n Q (e_put 0 d).
Proof. intros Hd HQ o i Ho E. apply put_whole in E as ->; [|lia]. split; [lia|auto]. Qed.

Lemma gives_any n Q e : gives Q e → gives_at n Q e.
Proof. intros H o i _. apply H. Qed.

Lemma gives_at_when n Q b e : (b = true → gives_at n Q e) → gives_at n Q (e_when b e).
Proof. intros H. destruct b; [by apply H|apply gives_any, gives_id]. Qed.

Lemma within_range lo hi t : within lo hi t = true ↔ lo <= t <= hi.
Proof. unfold within. lia. Qed.

Lemma digit_typed lo hi value :
  0 <= lo → gives_at 1 (λ b, within lo hi (byte_in b) = true) (e_digit lo hi value).
Proof.
  intros Hlo. apply gives_at_when. intros H. apply gives_at_put; [done|].
  rewrite byte_in_chr; [done|]. unfold digit_of. apply Z.mod_pos_bound. lia.
Qed.

Lemma byte_typed d lo hi value :
  0 <= lo → hi < 256 → gives_at 1 (λ b, within lo hi (byte_in b) = true) (e_number d lo hi e_byte value).
Proof.
  intros Hlo Hhi. unfold e_number. destruct (d && _); [apply gives_any, gives_id|].
  apply gives_at_when. intros H. apply gives_at_put; [done|]. apply within_range in H.
  rewrite byte_in_chr by lia. by apply within_range.
Qed.

Lemma word_typed d lo hi value :
  0 <= lo → hi < 65536 → gives_at 2 (λ b, within lo hi (word_in b) = true) (e_number d lo hi e_word value).
Proof.
  intros Hlo Hhi. unfold e_number. destruct (d && _); [apply gives_any, gives_id|].
  apply gives_at_when. intros H. apply gives_at_put; [done|]. apply within_range in H.
  rewrite word_in_chr by lia. by apply within_range.
Qed.

Lemma is_in_spec l i : is_in l i = true ↔ i ∈ l.
Proof.
  unfold is_in. rewrite existsb_exists. setoid_rewrite Z.eqb_eq. rewrite list_elem_of_In. naive_solver.
Qed.

Lemma mask_ok_range q : mask_ok q = true →
  let '(i0, i1, i2, i3) := q in 0 <= i0 < 256 ∧ 0 <= i1 < 256 ∧ 0 <= i2 < 256 ∧ 0 <= i3 < 256.
Proof.
  destruct q as [[[i0 i1] i2] i3]. unfold mask_ok, mask_octets, is_in. cbn [existsb].
  destruct (Z.eqb_spec i0 255), (Z.eqb_spec i1 255), (Z.eqb_spec i2 255); cbn [negb]; lia.
Qed.

Lemma quad_typed ok value :
  (∀ q, ok q = true → let '(i0, i1, i2, i3) := q in 0 <= i0 → 0 <= i1 → 0 <= i2 → 0 <= i3 →
     i0 < 256 ∧ i1 < 256 ∧ i2 < 256 ∧ i3 < 256) →
  gives_at 4 (λ b, ok (quad_in b) = true) (e_quad ok value).
Proof.
  intros Hok o i Ho. unfold e_quad, e_lift. destruct (scan_quad value) as [[q|]| |] eqn:E; [|intros [= <-]; auto|done|done].
  assert (Hq : let '(i0, i1, i2, i3) := q in 0 <= i0 ∧ 0 <= i1 ∧ 0 <= i2 ∧ 0 <= i3).
  { unfold scan_quad, mbind, outcome_bind in E. repeat case_match; simplify_eq.
    pose proof (wrap32_range). naive_solver. }
  destruct (ok q) eqn:Hk; [|intros [= <-]; auto]. specialize (Hok q Hk).
  destruct q as [[[i0 i1] i2] i3]. destruct Hok as (? & ? & ? & ?); [naive_solver..|]. destruct Hq as (? & ? & ? & ?).
  cbn [e_when]. intros Hput.
  refine (gives_at_put 4 (λ b, ok (quad_in b) = true) _ _ _ o i Ho Hput); [done|].
  unfold quad_in. cbn [nth]. rewrite !code_chr, !Z.mod_small by lia. done.
Qed.

Lemma ip_ok_range q : ip_ok q = true → let '(i0, i1, i2, i3) := q in i0 < 256 ∧ i1 < 256 ∧ i2 < 256 ∧ i3 < 256.
Proof. destruct q as [[[i0 i1] i2] i3]. unfold ip_ok. lia. Qed.

Lemma zone_typed value : gives terminated (e_zone value).
Proof.
  unfold e_zone. apply gives_if; intros _; [apply gives_id|]. apply gives_lift. intros [[i h] m] _.
  apply gives_assigned. intros zi. apply gives_if; intros _; [apply gives_id|].
  apply gives_assigned. intros zh. apply gives_if; intros _; [apply gives_id|].
  apply gives_assigned. intros zm. repeat (apply gives_if; intros _; [apply gives_id|]). apply gives_strcpy.
Qed.

Lemma date_typed value : gives terminated (e_date value).
Proof.
  unfold e_date. apply gives_lift. intros buff _. destruct (strtok ["/"%char] buff) as [[t|] b1]; [|apply gives_none].
  do 2 (apply gives_if; intros _; [apply gives_id|]). destruct (strtok ["/"%char] b1) as [t2 b2].
  apply gives_tok. intros z2. apply gives_if; intros _; [apply gives_id|].
  destruct (strtok ["/"%char] b2) as [t3 b3]. apply gives_tok. intros z3.
  apply gives_if; intros _; [apply gives_id|apply gives_strcpy].
Qed.

Lemma strcpy_terminated p o i : e_strcpy p o = Some i → length i = length o ∧ terminated i.
Proof. apply put_terminated, NUL_snoc. Qed.

Lemma time_typed value : gives terminated (e_time value).
Proof.
  unfold e_time. destruct (strtok [":"%char] value) as [[t|] b1]; [|apply gives_none].
  do 2 (apply gives_if; intros _; [apply gives_id|]). apply gives_seq; [apply strcpy_terminated|].
  destruct (strtok [":"%char] b1) as [t2 b2]. apply gives_tok. intros z2.
  apply gives_if; intros _; [apply gives_id|]. apply gives_seq; [intros o i; apply put_terminated, NUL_snoc|].
  destruct (strtok [":"%char] b2) as [t3 b3]. apply gives_tok. intros z3.
  apply gives_if; intros _; [apply gives_id|apply gives_strcpy].
Qed.

Lemma text_typed lim max value : gives terminated (e_text lim max value).
Proof. apply gives_zeroed. apply gives_if; intros _; [apply gives_two|apply gives_strcpy]. Qed.

Lemma secret_typed lim max value : gives terminated (e_secret lim max value).
Proof.
  apply gives_zeroed. do 2 (apply gives_if; intros _; [first [apply gives_id|apply gives_two]|]).
  apply gives_strcpy.
Qed.

(** A key of ten or twenty-six characters leaves a terminator. *)
Lemma key_typed value : gives_at (KEY_LEN + 1) terminated (e_key value).
Proof.
  unfold e_key. destruct value as [|c value]; [apply gives_any, gives_put, NUL_replicate|].
  destruct (Nat.odd _); [apply gives_any, gives_id|]. cbv zeta.
  set (l := Nat.min _ _). destruct (negb _ && _); [apply gives_any, gives_id|].
  destruct (negb _); [apply gives_any, gives_id|]. destruct (IsStarStr _ _).
  { apply gives_any, gives_zeroed, gives_id. }
  intros o i Ho. unfold e_seq. destruct (e_zero (l + 1) o) as [j|] eqn:E; [|done]. cbn [mbind option_bind].
  intros Hi. pose proof (e_put_length _ _ _ _ E) as Hj. pose proof (e_put_length _ _ _ _ Hi) as Hi'.
  split; [congruence|]. right. apply e_put_inv in E as [Hle ->], Hi as [Hle' ->].
  rewrite length_replicate in Hle.
  assert (Hl : length (take l (c :: value)) = l) by (apply length_take_le; unfold l; lia).
  unfold terminated, splice. rewrite Hl, !take_0. cbn [app Nat.add]. rewrite Nat.add_1_r, length_replicate.
  rewrite replicate_S_end, <- app_assoc, drop_app_ge, length_replicate, Nat.sub_diag by (rewrite length_replicate; lia).
  rewrite elem_of_app. right. apply list_elem_of_here.
Qed.

Lemma mac_typed value : gives_at 6 (λ _, True) (e_mac value).
Proof.
  unfold e_mac. destruct value as [|c value]; [by apply gives_at_put|].
  cbv zeta. destruct (negb _ && _); [apply gives_any, gives_id|].
  destruct (negb _); [apply gives_any, gives_id|]. by apply gives_at_put.
Qed.

Lemma percent_typed value : gives_at 2 (λ b, within 0 10000 (word_in b) = true) (e_percent value).
Proof.
  unfold e_percent. destruct (scan_f value) as [[neg n d|neg|]|] eqn:E;
    [|apply gives_any, gives_id|apply gives_any, gives_none..].
  destruct (percent neg n d) as [temp|] eqn:Ep; [|apply gives_any, gives_id].
  apply scan_f_pos in E as [Hn Hd]. apply percent_range in Ep; [|done..].
  apply gives_at_put; [done|]. rewrite word_in_chr by lia. by apply within_range.
Qed.

Lemma key_len_typed value :
  gives_at 1 (λ b, is_in [WPA_CIPHER_TKIP; WPA_CIPHER_AES; WPA_CIPHER_AUTO; 40; 104] (byte_in b) = true)
    (e_byte (key_len_code (atoi value))).
Proof.
  apply gives_at_put; [done|]. unfold key_len_code. repeat case_match; reflexivity.
Qed.

(** Thirty-two bytes are written; the terminator behind them stays. *)
Lemma ssid_typed value o i :
  length o = (SSID_LEN + 1)%nat → nth SSID_LEN o NUL = NUL → e_ssid value o = Some i →
  length i = length o ∧ nth SSID_LEN i NUL = NUL.
Proof.
  intros Ho Hn. unfold e_ssid. destruct (Nat.ltb_spec SSID_LEN (length value)); [by intros [= <-]|].
  intros Hi. split; [by eapply e_put_length|]. apply e_put_inv in Hi as [_ ->].
  assert (Hl : length (value ++ replicate (SSID_LEN - length value) NUL) = SSID_LEN).
  { rewrite length_app, length_replicate. lia. }
  unfold splice. rewrite take_0, Hl. cbn [app]. rewrite nth_lookup, lookup_app_r by lia.
  by rewrite Hl, Nat.sub_diag, lookup_drop, Nat.add_0_r, <- nth_lookup.
Qed.

Lemma ends_in_spec b : ends_in b = true ↔ terminated b.
Proof. unfold ends_in, terminated. apply bool_decide_eq_true. Qed.

Lemma effect_typed f value o i :
  special f = false → size_ok f (length o) = true → (f = pAssignSSID → in_type f o = true) →
  effect f value o = Some i → length i = length o ∧ (i = o ∨ in_type f i = true).
Proof.
  intros Hf Hs Hssid E.
  assert (Htext : ∀ e, gives terminated e → e o = Some i → length i = length o ∧ (i = o ∨ ends_in i = true)).
  { intros e He Hi. destruct (He o i Hi) as [Hl [->|Ht]]; split; auto. right. by apply ends_in_spec. }
  destruct f; try done; cbn [size_ok in_type effect] in *; try (apply bool_decide_eq_true in Hs);
    lazymatch type of E with
    | e_digit _ _ _ _ = _ => eapply digit_typed; [|done|exact E]; lia
    | e_number _ _ _ e_byte _ _ = _ => eapply byte_typed; [..|done|exact E]; lia
    | e_number _ _ _ e_word _ _ = _ => eapply word_typed; [..|done|exact E]; lia
    | e_byte _ _ = _ => by apply (key_len_typed value o)
    | e_percent _ _ = _ => by apply (percent_typed value o)
    | e_quad ip_ok _ _ = _ =>
        apply (quad_typed ip_ok value); [|done..]; intros q Hq; apply ip_ok_range in Hq; destruct q as [[[? ?] ?] ?]; cbv beta iota in *; intros; lia
    | e_quad mask_ok _ _ = _ =>
        apply (quad_typed mask_ok value); [|done..]; intros q Hq; apply mask_ok_range in Hq; destruct q as [[[? ?] ?] ?]; cbv beta iota in *; intros; lia
    | e_mac _ _ = _ => destruct (mac_typed value o i Hs E); auto
    | e_ssid _ _ = _ =>
        destruct (ssid_typed value o i Hs (proj1 (bool_decide_eq_true _) (Hssid eq_refl)) E);
        split; [done|right; by apply bool_decide_eq_true]
    | e_key _ _ = _ =>
        destruct (key_typed value o i Hs E) as [? [?|?]]; split; auto; right; by apply ends_in_spec
    | _ => idtac
    end.
  all: eapply Htext; [|exact E].
  all: first [apply zone_typed | apply date_typed | apply time_typed | apply text_typed | apply secret_typed
             | apply gives_when; intros _; apply gives_strcpy
             | apply gives_lift; intros ok _; apply gives_when; intros _; apply gives_strcpy
             | unfold e_mail, e_smtp; repeat first
                 [ apply gives_if; intros _ | apply gives_id | apply gives_strcpy | apply secret_typed
                 | apply gives_when; intros _ | apply gives_lift; intros ok _ ] ].
Qed.
