(* ===== verification/EditImport.v ===== *)
(** * Importing any file

    The scanners end on every file, and the assignments keep the invariant of
    the page variables: sizes as declared, every attribute as it was or with a
    value of its type, the machine as it was. *)

From S2P Require Import Prelude CLib FileSys Inet Utility CfgStore ApCfgSys ApCfgWlan ApCfgLists EditVars EditAssign EditOutput EditTable EditParse EditEffect EditSafe.

(** ** Programs that end or fault *)

Definition survives {A} (P : edit → Prop) (m : M edit A) (Q : A → Prop) : Prop := ∀ s, P s →
  match m s with Done (a, s') => P s' ∧ Q a | Fault => True | Stuck => False end.

Section survives.
Context (P : edit → Prop).

Lemma survives_ret {A} (a : A) (Q : A → Prop) : Q a → survives P (mret a) Q.
Proof. intros H s Hs. by split. Qed.

Lemma survives_fault {A} (Q : A → Prop) : survives P faultM Q.
Proof. by intros s Hs. Qed.

Lemma survives_bind {A B} (m : M edit A) (k : A → M edit B) (Q : A → Prop) (R : B → Prop) :
  survives P m Q → (∀ a, Q a → survives P (k a) R) → survives P (m ≫= k) R.
Proof.
  intros Hm Hk s Hs. unfold mbind, M_bind. specialize (Hm s Hs).
  destruct (m s) as [[a s']| |]; [|done|done]. destruct Hm as [Hs' Ha]. by apply Hk.
Qed.

Lemma survives_lift {A} (x : outcome A) (Q : A → Prop) :
  x ≠ Stuck → (∀ a, x = Done a → Q a) → survives P (liftO x) Q.
Proof. intros Hx HQ s Hs. unfold liftO. destruct x as [a| |]; [split; [done|by apply HQ]|done|done]. Qed.

Lemma survives_done {A B} (x : outcome A) a (k : A → M edit B) (R : B → Prop) :
  x = Done a → survives P (k a) R → survives P (liftO x ≫= k) R.
Proof. by intros ->. Qed.

Lemma survives_if {A} (b : bool) (m1 m2 : M edit A) Q :
  (b = true → survives P m1 Q) → (b = false → survives P m2 Q) → survives P (if b then m1 else m2) Q.
Proof. destruct b; auto. Qed.

Lemma survives_mono {A} (m : M edit A) (Q R : A → Prop) :
  survives P m Q → (∀ a, Q a → R a) → survives P m R.
Proof.
  intros H HR s Hs. specialize (H s Hs). destruct (m s) as [[a s']| |]; [|done|done].
  destruct H; auto.
Qed.
End survives.

(** ** The scanners make progress *)

(** What is left of a file: nothing after its end. *)
Definition left (fp : FILE) : nat := if feof fp then 0 else S (length (rest fp)).

Lemma fgets_line_left fp : feof fp = false → (left (fgets_line 129 fp).2 < left fp)%nat.
Proof.
  intros He. unfold fgets_line, left. rewrite He.
  pose proof (fgets_go_split (129 - 1) (rest fp)) as Hs.
  destruct (fgets_go (129 - 1) (rest fp)) as [l r]. cbn [fst snd feof rest] in *.
  rewrite <- Hs, length_app. destruct l as [|c l].
  - rewrite !bool_decide_eq_false_2 by done. cbn. lia.
  - cbn [length]. case_match; lia.
Qed.

Lemma GetaGroup_left n fp :
  (left fp < n)%nat → ∃ g fp', GetaGroup n fp = Done (g, fp') ∧
    (left fp' <= left fp)%nat ∧ (feof fp = false → (left fp' < left fp)%nat).
Proof.
  revert fp. induction n as [|n IH]; intros fp Hn; [lia|]. cbn [GetaGroup].
  destruct (feof fp) eqn:He; [by exists [], fp|].
  pose proof (fgets_line_left fp He) as Hl. destruct (fgets_line 129 fp) as [buffer fp'].
  cbn [snd] in Hl. destruct (IH fp' ltac:(lia)) as (g & fp2 & E & Hle & _).
  destruct (bracketed buffer) as [[|c group]|].
  - exists g, fp2. split; [done|]. split; intros; lia.
  - exists (c :: group), fp'. split; [done|]. split; intros; lia.
  - exists g, fp2. split; [done|]. split; intros; lia.
Qed.

Lemma GetaAttr_left n fp :
  (left fp < n)%nat → ∃ r fp', GetaAttr n fp = Done (r, fp') ∧
    (left fp' <= left fp)%nat ∧ (feof fp = false → r ≠ None → (left fp' < left fp)%nat).
Proof.
  revert fp. induction n as [|n IH]; intros fp Hn; [lia|]. cbn [GetaAttr].
  destruct (feof fp) eqn:He; [by exists None, fp|].
  pose proof (fgets_line_left fp He) as Hl. destruct (fgets_line 129 fp) as [buffer fp'].
  cbn [snd] in Hl. destruct (IH fp' ltac:(lia)) as (r & fp2 & E & Hle & _).
  assert (Hskip : ∃ r0 fp0, GetaAttr n fp' = Done (r0, fp0) ∧ (left fp0 <= left fp)%nat ∧
    (false = false → r0 ≠ None → (left fp0 < left fp)%nat)).
  { exists r, fp2. split; [done|]. split; intros; lia. }
  assert (Hstop : ∃ (r0 : option (cstr * cstr)) fp0, Done (@None (cstr * cstr), File (rest fp) false) = Done (r0, fp0) ∧
    (left fp0 <= left fp)%nat ∧ (false = false → r0 ≠ None → (left fp0 < left fp)%nat)).
  { exists None, (File (rest fp) false). split; [done|]. unfold left. rewrite He. cbn [feof rest]. split; [lia|done]. }
  assert (Hhit : ∃ (r0 : option (cstr * cstr)) fp0,
    match findEQ buffer with
    | O => GetaAttr n fp'
    | j => Done (Some (take j buffer, attr_value (take j buffer) (drop (S j) buffer)), fp')
    end = Done (r0, fp0) ∧ (left fp0 <= left fp)%nat ∧ (false = false → r0 ≠ None → (left fp0 < left fp)%nat)).
  { destruct (findEQ buffer) as [|j]; [done|]. eexists _, fp'. split; [done|]. split; intros; lia. }
  destruct buffer as [|[[] [] [] [] [] [] [] []] buffer]; first [exact Hskip|exact Hstop|exact Hhit].
Qed.

(** ** The attributes *)

Definition attributes : list attr_s := concat (map attrs CFGData).

(** No attribute of a variable with this name restricts its values. *)
Definition untyped_name (name : cstr) : bool :=
  forallb (λ p, negb (bool_decide ((var p).1 = name)) ||
    match assignfunc p with
    | Some f => bool_decide (f ∈ [pAssignCountry; pAssign0To255; pAssignScMacList])
    | None => true
    end) attributes.

Definition attr_sized (p : attr_s) : bool :=
  match assignfunc p with
  | Some f => special f || match layout !! var p with Some n => size_ok f n | None => false end
  | None => true
  end.

(** Attributes of one variable have the same function. *)
Definition agree (p q : attr_s) : bool :=
  match assignfunc p, assignfunc q with
  | Some f, Some g => negb (bool_decide (var p = var q)) || bool_decide (f = g)
  | _, _ => true
  end.

Lemma attrs_sized : forallb attr_sized attributes = true.
Proof. vm_compute. reflexivity. Qed.

Lemma attrs_agree : forallb (λ p, forallb (agree p) attributes) attributes = true.
Proof. vm_compute. reflexivity. Qed.

Lemma special_untyped :
  forallb (λ p, match assignfunc p with Some f => negb (special f) || untyped_name (var p).1 | None => true end)
    attributes = true.
Proof. vm_compute. reflexivity. Qed.

Lemma no_untyped : untyped_name "rogueApMacList.no" = true.
Proof. vm_compute. reflexivity. Qed.
Lemma outNo_untyped : untyped_name "rogueApMacList.outNo" = true.
Proof. vm_compute. reflexivity. Qed.
Lemma mac_untyped : untyped_name "rogueApMacList.mac" = true.
Proof. vm_compute. reflexivity. Qed.

Lemma forallb_in {A} (P : A → bool) l x : forallb P l = true → x ∈ l → P x = true.
Proof. rewrite forallb_forall. intros H Hx. apply H. by apply list_elem_of_In. Qed.

(** The variables as they are declared. *)
Definition laid (m : gmap cell bytes) : Prop :=
  ∀ c n, layout !! c = Some n → ∃ b, m !! c = Some b ∧ length b = n.

(** The SSIDs end inside their variables. *)
Definition ssids_end (m : gmap cell bytes) : Prop :=
  ∀ p b, p ∈ attributes → assignfunc p = Some pAssignSSID → m !! var p = Some b → nth SSID_LEN b NUL = NUL.

(** Both hold of variables that can be looked at. *)
Lemma laid_of m :
  forallb (λ e, bool_decide (length <$> m !! e.1 = Some e.2)) cells = true → laid m.
Proof.
  intros H c n Hc. apply elem_of_list_to_map_2 in Hc. pose proof (forallb_in _ _ _ H Hc) as Hb.
  apply bool_decide_eq_true in Hb. cbn [fst snd] in Hb. destruct (m !! c) as [b|]; [|done].
  exists b. split; [done|]. by injection Hb.
Qed.

Lemma ssids_of m :
  forallb (λ p, match assignfunc p, m !! var p with
                | Some pAssignSSID, Some b => bool_decide (nth SSID_LEN b NUL = NUL)
                | _, _ => true
                end) attributes = true → ssids_end m.
Proof.
  intros H p b Hp Hf Hb. pose proof (forallb_in _ _ _ H Hp) as E. cbv beta in E. rewrite Hf, Hb in E.
  by apply bool_decide_eq_true in E.
Qed.

(** The variable of an attribute, with a size that its function counts on. *)
Lemma attr_laid p f :
  p ∈ attributes → assignfunc p = Some f → special f = false →
  ∃ n, layout !! var p = Some n ∧ size_ok f n = true.
Proof.
  intros Hp Hf Es. pose proof (forallb_in _ _ p attrs_sized Hp) as H. unfold attr_sized in H.
  rewrite Hf, Es in H. cbn [orb] in H. destruct (layout !! var p) as [n|]; [by exists n|done].
Qed.

Lemma special_typed f b : special f = true → in_type f b = true.
Proof. by destruct f. Qed.

Section import.
Context (v0 : gmap cell bytes) (t0 : sys).
Hypothesis Hlaid : laid v0.
Hypothesis Hssids : ssids_end v0.

(** The machine is as it was; a variable has its size, and holds what it held or
    a value of the type of its attribute. *)
Record holds (s : edit) : Prop := Holds {
  h_machine : machine s = t0;
  h_size : ∀ c b0, v0 !! c = Some b0 → ∃ b, vars s !! c = Some b ∧ length b = length b0;
  h_type : ∀ p f b0 b, p ∈ attributes → assignfunc p = Some f → v0 !! var p = Some b0 →
    vars s !! var p = Some b → b = b0 ∨ in_type f b = true;
}.

Lemma holds_start : holds (Edit v0 t0).
Proof.
  split; [done|intros c b0 H; by exists b0|]. cbn [vars]. intros p f b0 b _ _ H0 H. left. congruence.
Qed.

Lemma holds_upd s c o i :
  holds s → vars s !! c = Some o → length i = length o →
  (∀ p f b0, p ∈ attributes → assignfunc p = Some f → var p = c → v0 !! c = Some b0 →
     i = b0 ∨ in_type f i = true) →
  holds (upd s c i).
Proof.
  intros [Hm Hs Ht] Ho Hl Hi. split; cbn [upd set_vars vars machine]; [done|..].
  - intros c' b0 H0. destruct (Hs c' b0 H0) as (b & Hb & Hlen).
    destruct (decide (c' = c)) as [->|Hne].
    + exists i. rewrite lookup_insert_eq. split; [done|]. congruence.
    + exists b. by rewrite lookup_insert_ne.
  - intros p f b0 b Hp Hf H0. destruct (decide (var p = c)) as [E|Hne].
    + rewrite E, lookup_insert_eq. intros [= <-]. rewrite E in H0. by eapply Hi.
    + rewrite lookup_insert_ne by done. by apply Ht.
Qed.

(** Writing where no attribute restricts the values. *)
Lemma survives_poke c off d : untyped_name c.1 = true → survives holds (poke c off d) (λ _, True).
Proof.
  intros Hc s Hs. unfold poke, obj, mbind, M_bind, getS. cbn [mret M_ret].
  destruct (vars s !! c) as [o|] eqn:Ho; [|done]. cbn [mret M_ret].
  destruct (decide _) as [Hfit|]; [|done]. unfold modS. split; [|done].
  eapply (holds_upd s c o); [done..|by apply splice_keeps_length|].
  intros p f b0 Hp Hf E _. right. pose proof (forallb_in _ _ p Hc Hp) as H. cbv beta in H.
  rewrite E, bool_decide_eq_true_2 in H by done. cbn [negb orb] in H. rewrite Hf in H.
  apply bool_decide_eq_true in H. rewrite !elem_of_cons in H.
  destruct H as [->|[->|[->|H%not_elem_of_nil]]]; done.
Qed.

Lemma survives_read {A} (m : M edit A) :
  (∀ s, match m s with Done (_, s') => s' = s | Fault => True | Stuck => False end) →
  survives holds m (λ _, True).
Proof.
  intros H s Hs. specialize (H s). destruct (m s) as [[a s']| |]; [|done|done]. by subst.
Qed.

Lemma survives_peek c n : survives holds (peek c n) (λ _, True).
Proof.
  apply survives_read. intros s. unfold peek, obj, mbind, M_bind, getS. cbn [mret M_ret].
  destruct (vars s !! c); [|done]. cbn [mret M_ret]. by destruct (decide _).
Qed.

Lemma survives_word c : survives holds (get_word c) (λ _, True).
Proof. eapply survives_bind; [apply survives_peek|]. intros b _. by apply survives_ret. Qed.

Lemma survives_onM {A} (m : M sys A) :
  (∀ t, match m t with Done (_, t') => t' = t | Fault => True | Stuck => False end) →
  survives holds (onM m) (λ _, True).
Proof.
  intros H. apply survives_read. intros s. unfold onM. specialize (H (machine s)).
  destruct (m (machine s)) as [[a t']| |]; [|done|done]. subst. by destruct s.
Qed.

Lemma survives_skip {A} (m : M edit A) (Q : A → Prop) : survives holds m Q → survives holds m (λ _, True).
Proof. intros H. by eapply survives_mono. Qed.

Lemma survives_mac_in d n i : survives holds (mac_in d n i) (λ _, True).
Proof.
  revert i. induction n as [|n IH]; intros i; [by apply survives_ret|]. cbn [mac_in].
  eapply survives_bind; [apply survives_peek|]. intros m _. destruct (decide _); [by apply survives_ret|apply IH].
Qed.

Lemma survives_legal_at c value : survives holds (AssignScMacList c value) (λ _, True).
Proof.
  unfold AssignScMacList. do 2 (eapply survives_bind; [apply survives_word|intros ? _]).
  apply survives_if; intros _; [by apply survives_ret|].
  apply survives_if; intros _; [by apply survives_ret|].
  apply survives_if; intros _; [by apply survives_ret|].
  eapply survives_bind with (Q := λ _, True).
  { destruct (decide _); [|by apply survives_ret]. apply survives_lift; [|done].
    unfold scMacStr12ToStr17. by destruct (decide _). }
  intros mac _. eapply survives_bind with (Q := λ _, True).
  { eapply survives_bind; [apply survives_word|]. intros n _. apply survives_mac_in. }
  intros [] _; [apply survives_poke, no_untyped|].
  eapply survives_bind; [apply survives_poke, outNo_untyped|]. intros _ _. apply survives_poke, mac_untyped.
Qed.

Lemma memcmp_eq_ends n s t : memcmp_eq n s t ≠ Stuck.
Proof.
  revert s t. induction n as [|n IH]; intros s t; [done|]. cbn [memcmp_eq].
  destruct s as [|c s], t as [|d t]; [by destruct (decide _)|done..|].
  destruct (decide (c = d)) as [E|E]; [apply IH|done].
Qed.

Lemma country_listed_ends fuel data value : (length data < fuel)%nat → country_listed fuel data value ≠ Stuck.
Proof.
  revert data. induction fuel as [|fuel IH]; intros data Hf; [lia|]. cbn [country_listed].
  destruct (fgets 63 data) as [[l r]|] eqn:E; [|done]. apply fgets_leaves_less in E; [|lia].
  destruct (strtok _ _).1 as [p|]; [|apply IH; lia].
  apply bind_ends; [apply memcmp_eq_ends|]. intros []; [done|apply IH; lia].
Qed.

Lemma survives_country c value : untyped_name c.1 = true → survives holds (AssignCountry c value) (λ _, True).
Proof.
  intros Hc. unfold AssignCountry. apply survives_if; intros _; [by apply survives_ret|].
  eapply survives_bind with (Q := λ _, True).
  { apply survives_onM. intros t. unfold sc_get_default_country, read_file, mbind, M_bind, getS. cbn [mret M_ret].
    destruct (files t !! _) as [data|]; cbn [mret M_ret]; [|done]. by destruct (fgets 64 data) as [[? ?]|]. }
  intros de _. apply survives_if; intros _; [by apply survives_poke|].
  eapply survives_bind with (Q := λ _, True).
  { by apply survives_onM. }
  intros fp _. eapply survives_bind with (Q := λ _, True); [|intros ret _; by apply survives_poke].
  destruct fp as [data|]; [|by apply survives_ret]. apply survives_lift; [|done].
  apply country_listed_ends. lia.
Qed.

(** ** The whole file *)

Lemma survives_assign p f value :
  p ∈ attributes → assignfunc p = Some f → survives holds (assign_of f (var p) value) (λ _, True).
Proof.
  intros Hp Hf. pose proof (forallb_in _ _ p special_untyped Hp) as Hsp. cbv beta in Hsp.
  rewrite Hf in Hsp. destruct (special f) eqn:Es; cbn [negb orb] in *.
  - unfold special in Es. apply bool_decide_eq_true in Es. rewrite !elem_of_cons in Es.
    destruct Es as [->|[->|[->|H%not_elem_of_nil]]]; [..|done]; cbn [assign_of].
    + by apply survives_country.
    + unfold Assign0To255. eapply survives_bind with (Q := λ _, True); [|intros _ _; apply survives_poke, outNo_untyped].
      cbv zeta. unfold when. apply survives_if; intros _; [by apply survives_poke|by apply survives_ret].
    + apply survives_legal_at.
  - destruct (attr_laid p f Hp Hf Es) as (n & El & Hsz). intros s Hs.
    destruct (Hlaid (var p) n El) as (b0 & Hb0 & Hn). destruct Hs as [Hm Hsize Ht].
    destruct (Hsize _ _ Hb0) as (o & Ho & Hlo).
    rewrite (assign_effect f (var p) value Es s o Ho).
    destruct (effect f value o) as [i|] eqn:Ei; [|done]. split; [|done].
    destruct (effect_typed f value o i Es) as [Hl Hi].
    { congruence. }
    { intros ->. destruct (Ht p _ b0 o Hp Hf Hb0 Ho) as [->|Hin]; [|done].
      cbn [in_type]. apply bool_decide_eq_true. by eapply Hssids. }
    { exact Ei. }
    apply (holds_upd s (var p) o); [by split|done..|].
    intros q h c0 Hq Hh Ev Hc0. pose proof (forallb_in _ _ p attrs_agree Hp) as Ha. cbv beta in Ha.
    pose proof (forallb_in _ _ q Ha Hq) as Hag. unfold agree in Hag. rewrite Hf, Hh in Hag.
    rewrite bool_decide_eq_true_2 in Hag by done. cbn [negb orb] in Hag. apply bool_decide_eq_true in Hag. subst h.
    destruct Hi as [->|Hi]; [|by right].
    by apply (Ht p f c0 o).
Qed.

Lemma attrs_of_in k i p : attrs_of k !! i = Some p → p ∈ attributes.
Proof.
  unfold attrs_of, attributes. destruct (CFGData !! k) as [d|] eqn:E; [|done]. intros H.
  rewrite list_elem_of_In, in_concat. exists (attrs d). split.
  - apply in_map, list_elem_of_In. by eapply list_elem_of_lookup_2.
  - apply list_elem_of_In. by eapply list_elem_of_lookup_2.
Qed.

Lemma match_attr_lookup k l name j :
  match_attr k l name = S j → ∃ p, (k <= j)%nat ∧ l !! (j - k)%nat = Some p ∧ attr p = name.
Proof.
  revert k. induction l as [|a l IH]; intros k H; [done|]. cbn [match_attr] in H.
  destruct (decide (attr a = name)).
  - injection H as <-. exists a. rewrite Nat.sub_diag. done.
  - destruct (IH _ H) as (p & Hk & Hl & Hn). exists p. split; [lia|]. split; [|done].
    replace (j - k)%nat with (S (j - S k))%nat by lia. done.
Qed.

Lemma survives_attr id type name value : survives holds (assign_attr id type name value) (λ _, True).
Proof.
  unfold assign_attr. destruct (matchAttr name id) as [|i] eqn:E; [by apply survives_ret|].
  destruct (attrs_of id !! i) as [p|] eqn:Ep; [|apply survives_fault].
  apply survives_if; intros _; [by apply survives_ret|].
  destruct (assignfunc p) as [f|] eqn:Ef; [|by apply survives_ret].
  apply survives_if; intros _; [|by apply survives_ret].
  eapply survives_bind; [apply survives_assign; [by eapply attrs_of_in|done]|]. intros _ _. by apply survives_ret.
Qed.

Lemma survives_values n id type good fp :
  (left fp < n)%nat →
  survives holds (ParseNAssignValue n id type good fp)
    (λ r, (left r.2 <= left fp)%nat ∧ 0 <= r.1 <= 1).
Proof.
  revert good fp. induction n as [|n IH]; intros good fp Hn; [lia|]. cbn [ParseNAssignValue].
  destruct (feof fp) eqn:He; [apply survives_ret; split; [done|by destruct good]|].
  destruct (GetaAttr_left (S (S (length (rest fp)))) fp) as (r & fp' & E & Hle & Hlt).
  { unfold left. rewrite He. lia. }
  eapply survives_done; [exact E|]. destruct r as [[name value]|].
  - eapply survives_bind; [apply survives_attr|]. intros g _.
    eapply survives_mono; [apply IH; specialize (Hlt He ltac:(done)); lia|].
    intros [z fp2] [H1 H2]. split; [|done]. cbn [snd] in *. lia.
  - apply survives_ret. split; [done|by destruct good].
Qed.

Lemma survives_groups n type good fp :
  (left fp < n)%nat → survives holds (parse_groups n type good fp) (λ _, True).
Proof.
  revert good fp. induction n as [|n IH]; intros good fp Hn; [lia|]. cbn [parse_groups].
  destruct (feof fp) eqn:He; [by apply survives_ret|].
  destruct (GetaGroup_left (S (S (length (rest fp)))) fp) as (gr & fp' & E & Hle & Hlt).
  { unfold left. rewrite He. lia. }
  specialize (Hlt He). eapply survives_done; [exact E|].
  cbv beta iota. destruct (matchGroup gr) as [|id]; [apply IH; lia|].
  apply survives_if; intros _; [apply IH; lia|].
  eapply survives_bind; [apply survives_values|].
  { unfold left. case_match; lia. }
  intros [z fp2] [H1 _]. apply IH. cbn [snd] in H1. lia.
Qed.

(** Importing any file ends, in a fault or with the variables well typed. *)
Lemma survives_file type data : survives holds (parse_file type data) (λ _, True).
Proof. apply survives_groups. unfold left. cbn [feof rest]. lia. Qed.
End import.
