(* ===== verification/EditRead.v ===== *)
(** * Values printed and read back

    What an output function prints of a variable, and what the assignment of
    the same attribute makes of the text: numbers, addresses and hardware
    addresses come back as they were; a text comes back when its function
    accepts it. *)

From S2P Require Import Prelude CLib FileSys Inet Utility CfgStore ApCfgSys ApCfgWlan ApCfgLists EditVars EditAssign EditOutput EditTable EditParse EditEffect EditSafe.

(** ** Effects write at fixed places *)

(** On variables of one size an effect fails always or never, and writes the
    same bytes to the same places. *)
Definition uniform (e : eff) : Prop := ∀ n,
  (∀ o, length o = n → e o = None) ∨
  ∃ w : nat → option ascii, ∀ o, length o = n →
    ∃ i, e o = Some i ∧ length i = n ∧ ∀ k, (k < n)%nat → i !! k = match w k with Some c => Some c | None => o !! k end.

Lemma uniform_id : uniform Some.
Proof. intros n. right. exists (λ _, None). intros o Ho. by exists o. Qed.

Lemma uniform_none : uniform (λ _, None).
Proof. intros n. by left. Qed.

Lemma uniform_put off d : uniform (e_put off d).
Proof.
  intros n. destruct (decide (off + length d <= n)%nat) as [Hle|Hle].
  - right. exists (λ k, if decide (off <= k < off + length d)%nat then d !! (k - off)%nat else None).
    intros o Ho. unfold e_put. rewrite decide_True by lia. eexists. split; [done|].
    split; [rewrite splice_keeps_length; lia|]. intros k Hk. unfold splice.
    destruct (decide (off <= k < off + length d)%nat) as [Hin|Hout].
    + rewrite lookup_app_r, length_take, lookup_app_l by (rewrite ?length_take; lia).
      rewrite Nat.min_l by lia. destruct (d !! (k - off)%nat) eqn:E; [done|].
      apply lookup_ge_None in E. lia.
    + destruct (decide (k < off)%nat).
      * rewrite lookup_app_l by (rewrite length_take; lia). by rewrite lookup_take_lt.
      * rewrite lookup_app_r, length_take, lookup_app_r by (rewrite ?length_take; lia).
        rewrite Nat.min_l by lia. rewrite lookup_drop. f_equal. lia.
  - left. intros o Ho. unfold e_put. by rewrite decide_False by lia.
Qed.

Lemma uniform_seq e1 e2 : uniform e1 → uniform e2 → uniform (e_seq e1 e2).
Proof.
  intros H1 H2 n. destruct (H1 n) as [F1|[w1 W1]].
  { left. intros o Ho. unfold e_seq. by rewrite F1. }
  destruct (H2 n) as [F2|[w2 W2]].
  - left. intros o Ho. unfold e_seq. destruct (W1 o Ho) as (i & -> & Hi & _). cbn [mbind option_bind]. by apply F2.
  - right. exists (λ k, match w2 k with Some c => Some c | None => w1 k end). intros o Ho. unfold e_seq.
    destruct (W1 o Ho) as (i & -> & Hi & L1). cbn [mbind option_bind].
    destruct (W2 i Hi) as (j & -> & Hj & L2). exists j. split; [done|]. split; [done|].
    intros k Hk. rewrite L2 by done. destruct (w2 k); [done|]. by apply L1.
Qed.

Lemma uniform_if (b : bool) e1 e2 : uniform e1 → uniform e2 → uniform (if b then e1 else e2).
Proof. by destruct b. Qed.
Lemma uniform_when b e : uniform e → uniform (e_when b e).
Proof. intros H. destruct b; [done|apply uniform_id]. Qed.
Lemma uniform_lift {A} (x : outcome A) e : (∀ a, uniform (e a)) → uniform (e_lift x e).
Proof. intros H. unfold e_lift. destruct x; [apply H|apply uniform_none..]. Qed.
Lemma uniform_assigned x e : (∀ z, uniform (e z)) → uniform (e_assigned x e).
Proof. intros H. destruct x; [apply H|apply uniform_none]. Qed.
Lemma uniform_tok x e : (∀ z, uniform (e z)) → uniform (e_tok x e).
Proof. intros H. destruct x; [apply H|apply uniform_none]. Qed.

Ltac uniform_step :=
  lazymatch goal with
  | |- uniform Some => apply uniform_id
  | |- uniform (λ _, None) => apply uniform_none
  | |- uniform (e_put _ _) => apply uniform_put
  | |- uniform (e_byte _) => apply uniform_put
  | |- uniform (e_word _) => apply uniform_put
  | |- uniform (e_zero _) => apply uniform_put
  | |- uniform (e_strcpy _) => apply uniform_put
  | |- uniform (e_seq _ _) => apply uniform_seq
  | |- uniform (e_when _ _) => apply uniform_when
  | |- uniform (e_lift _ _) => apply uniform_lift; intros ?
  | |- uniform (e_assigned _ _) => apply uniform_assigned; intros ?
  | |- uniform (e_tok _ _) => apply uniform_tok; intros ?
  | |- uniform (if ?b then _ else _) => first [apply uniform_if|destruct b]
  | |- uniform (match ?x with _ => _ end) => destruct x
  | |- uniform (e_digit _ _ _) => unfold e_digit
  | |- uniform (e_number _ _ _ _ _) => unfold e_number
  | |- uniform (e_quad _ _) => unfold e_quad
  | |- uniform (e_text _ _ _) => unfold e_text
  | |- uniform (e_secret _ _ _) => unfold e_secret
  | |- uniform (e_key _) => unfold e_key
  | |- uniform (e_mac _) => unfold e_mac
  | |- uniform (e_ssid _) => unfold e_ssid
  | |- uniform (e_mail _) => unfold e_mail
  | |- uniform (e_smtp _) => unfold e_smtp
  | |- uniform (e_zone _) => unfold e_zone
  | |- uniform (e_date _) => unfold e_date
  | |- uniform (e_time _) => unfold e_time
  | |- uniform (e_percent _) => unfold e_percent
  end; cbv beta zeta.

Lemma effect_uniform f value : uniform (effect f value).
Proof. destruct f; cbn [effect]; repeat uniform_step. Qed.

Lemma effect_length f value o i : effect f value o = Some i → length i = length o.
Proof.
  intros E. destruct (effect_uniform f value (length o)) as [F|[w W]]; [by rewrite F in E|].
  destruct (W o eq_refl) as (j & Ej & Hj & _). congruence.
Qed.

(** Two variables that come out alike at a place where they were different had
    it written, and so has every variable of that size. *)
Lemma uniform_written e o1 o2 i1 i2 o :
  uniform e → length o1 = length o → length o2 = length o → e o1 = Some i1 → e o2 = Some i2 →
  ∃ i, e o = Some i ∧ length i = length o ∧
    ∀ k, (k < length o)%nat → i1 !! k = i2 !! k → o1 !! k ≠ o2 !! k ∨ o !! k = o1 !! k → i !! k = i1 !! k.
Proof.
  intros He H1 H2 E1 E2. destruct (He (length o)) as [F|[w W]]; [by rewrite (F o1) in E1|].
  destruct (W o1 H1) as (j1 & Ej1 & _ & L1), (W o2 H2) as (j2 & Ej2 & _ & L2), (W o eq_refl) as (i & Ei & Hi & L).
  exists i. split; [done|]. split; [done|]. intros k Hk E Hk'.
  assert (j1 = i1) as -> by congruence. assert (j2 = i2) as -> by congruence.
  rewrite L by done. rewrite L1 in E |- * by done. rewrite L2 in E by done. destruct (w k); [done|].
  destruct Hk' as [?|?]; [done|congruence].
Qed.

(** ** What is printed *)

Definition word_of (z : Z) : bytes := [chr (z / 256); chr z].

(** The text of a value, as far as a scanner reads it again: a percentage ends
    in a blank and a sign. *)
Definition shown (g : output_fn) (b : bytes) : option cstr :=
  match g with
  | pOutputStr | pOutputPass => match rd_str b with Done t => Some t | _ => None end
  | pOutputByte => Some (dec (byte_in b))
  | pOutputWord => Some (dec (word_in b))
  | pOutputIP =>
      let q := map code (take 4 b) in
      Some (if existsb (λ z, negb (z =? 0)) q then joined ["."%char] (map dec q) else [])
  | pOutputMac =>
      let a := take 6 b in
      Some (if existsb (λ c, negb (code c =? 0)) a then mac_text a else [])
  | pOutputPercent =>
      let z := word_in b in
      Some (if z =? 0 then [] else dec (z / 100) ++ "."%char :: pad0 2 (dec (z mod 100)))
  | pOutputScMacList => Some []
  end.

(** ** What is read *)

Definition textual (f : assign_fn) : bool :=
  match f with
  | pAssignIPv6 | pAssignGWv6 | pAssignStr15 | pAssignStr32 | pAssignStr40 | pAssignStr64
  | pAssignServerStr | pAssignPassword | pAssignSecret128 | pAssignPreSharedKey | pAssignKey
  | pAssignSSID | pAssignMail | pAssignURL | pAssignwdsvlist | pAssignSMTPServer | pAssignTimeZone
  | pAssignDate | pAssignTime => true
  | _ => false
  end.

(** The printer of an attribute with this reader. *)
Definition prints_for (f : assign_fn) (g : output_fn) : bool :=
  match g with
  | pOutputStr | pOutputPass => textual f
  | pOutputByte => negb (textual f) && size_ok f 1
  | pOutputWord => negb (textual f) && size_ok f 2 && negb (bool_decide (f = pAssignPercent))
  | pOutputIP => bool_decide (f ∈ [pAssignIP; pAssignMask])
  | pOutputMac => bool_decide (f = pAssignMac)
  | pOutputPercent => bool_decide (f = pAssignPercent)
  | pOutputScMacList => bool_decide (f = pAssignScMacList)
  end.

(** The text [t] is accepted: it is found in a variable of zeroes and in one of
    ones.  The last byte of an SSID is a terminator that is never written. *)
Definition ones (f : assign_fn) (n : nat) : bytes :=
  match f with pAssignSSID => replicate SSID_LEN "255"%char ++ [NUL] | _ => replicate n "255"%char end.
Definition accepts (f : assign_fn) (t : cstr) (n : nat) : bool :=
  match effect f t (replicate n NUL), effect f t (ones f n) with
  | Some i, Some j =>
      bool_decide (take (length t + 1) i = t ++ [NUL]) && bool_decide (take (length t + 1) j = t ++ [NUL])
  | _, _ => false
  end.

(** The values that are read back. *)
Definition reads_back (f : assign_fn) (b : bytes) (t : cstr) : bool :=
  if textual f then accepts f t (length b)
  else match f with pAssignKeyLen => true | _ => in_type f b end.

Definition percent_read (z : Z) : Z := default 0 (percent false z 100).

(** What stands in the variable then. *)
Definition expected (f : assign_fn) (b : bytes) (t : cstr) : bytes :=
  if textual f then t ++ [NUL]
  else match f with
       | pAssignKeyLen => [chr (key_len_code (byte_in b))]
       | pAssignPercent => word_of (percent_read (word_in b))
       | _ => b
       end.

(** ** Numbers *)

Lemma dec_nonneg_shape z : 0 <= z → ∃ c s, dec z = c :: s ∧ isdigit c = true.
Proof.
  intros Hz. unfold dec. rewrite (proj2 (Z.ltb_ge _ _)) by done. by apply dec_go_head.
Qed.

Lemma put_all o d : length o = length d → e_put 0 d o = Some d.
Proof. intros H. unfold e_put. rewrite decide_True by lia. by rewrite splice_whole. Qed.

Lemma digit_read lo hi z : within lo hi z = true → 0 <= lo → hi < 10 → e_digit lo hi (dec z) = e_byte z.
Proof.
  intros Hw Hlo Hhi. unfold e_digit. apply within_range in Hw as Hr.
  assert (E : digit_of (dec z) = z).
  { assert (z = 0 ∨ z = 1 ∨ z = 2 ∨ z = 3 ∨ z = 4 ∨ z = 5 ∨ z = 6 ∨ z = 7 ∨ z = 8 ∨ z = 9) as Hz by lia.
    by repeat destruct Hz as [->|Hz]; subst. }
  by rewrite E, Hw.
Qed.

Lemma number_read d lo hi e z :
  within lo hi z = true → 0 <= lo → hi < 2 ^ 31 → e_number d lo hi e (dec z) = e z.
Proof.
  intros Hw Hlo Hhi. apply within_range in Hw as Hr. unfold e_number.
  destruct (dec_nonneg_shape z) as (c & s & E & Hc); [lia|].
  rewrite (atoi_dec z), Hw by lia. rewrite E. cbn [ch nth]. by rewrite Hc, andb_false_r.
Qed.

Lemma byte_range b : 0 <= byte_in b < 256.
Proof. apply code_range. Qed.
Lemma word_range b : 0 <= word_in b < 65536.
Proof. unfold word_in. pose proof (code_range (nth 0 b NUL)). pose proof (code_range (nth 1 b NUL)). lia. Qed.

Lemma chr_byte_in b : length b = 1%nat → [chr (byte_in b)] = b.
Proof. destruct b as [|c [|]]; try done. intros _. unfold byte_in. cbn [nth]. by rewrite chr_code. Qed.

Lemma chr_mod z : chr (z mod 256) = chr z.
Proof. apply (inj code). rewrite !code_chr. apply Z.mod_mod. lia. Qed.

Lemma word_of_in b : length b = 2%nat → word_of (word_in b) = b.
Proof.
  destruct b as [|c [|d [|]]]; try done. intros _. unfold word_of, word_in. cbn [nth].
  pose proof (code_range c). pose proof (code_range d).
  replace ((256 * code c + code d) / 256) with (code c) by (Z.to_euclidean_division_equations; lia).
  rewrite <- (chr_mod (256 * code c + code d)).
  replace ((256 * code c + code d) mod 256) with (code d) by (Z.to_euclidean_division_equations; lia).
  by rewrite !chr_code.
Qed.

(** A value of one byte, printed and read. *)
Lemma byte_read f b o :
  textual f = false → special f = false → size_ok f 1 = true → length b = 1%nat → length o = 1%nat → reads_back f b [] = true →
  effect f (dec (byte_in b)) o = Some (expected f b []).
Proof.
  intros Ht Hs Hf Hb Ho Hr. pose proof (byte_range b).
  destruct f; try done; unfold reads_back in Hr; cbn [textual in_type effect expected] in *;
    first [ rewrite digit_read by (done || lia) | rewrite number_read by (done || lia) | rewrite atoi_dec by lia ];
    unfold e_byte; rewrite put_all by done; by rewrite ?chr_byte_in.
Qed.

(** A value of two bytes. *)
Lemma word_read f b o :
  textual f = false → special f = false → f ≠ pAssignPercent → size_ok f 2 = true → length b = 2%nat → length o = 2%nat →
  reads_back f b [] = true → effect f (dec (word_in b)) o = Some (expected f b []).
Proof.
  intros Ht Hs Hp Hf Hb Ho Hr. pose proof (word_range b).
  destruct f; try done; unfold reads_back in Hr; cbn [textual in_type effect expected] in *;
    rewrite number_read by (done || lia); unfold e_word;
    change [chr (word_in b / 256); chr (word_in b)] with (word_of (word_in b)); rewrite word_of_in by done; apply put_all; congruence.
Qed.

(** ** Addresses *)

Lemma scan_digits_all a s c r :
  forallb isdigit s = true → isdigit c = false → scan_digits a (s ++ c :: r) = Done (digits_val a s, c :: r).
Proof.
  revert a. induction s as [|d s IH]; intros a Hs Hc; cbn [app scan_digits digits_val].
  - by rewrite Hc.
  - cbn [forallb] in Hs. apply andb_true_iff in Hs as [Hd Hs]. rewrite Hd. by apply IH.
Qed.

Lemma scan_d_dec z c r : 0 <= z < 2 ^ 31 → isdigit c = false → scan_d (dec z ++ c :: r) = Done (Some (z, c :: r)).
Proof.
  intros Hz Hc. pose proof (atoi_dec z ltac:(lia)) as Ha.
  assert (Hall : forallb isdigit (dec z) = true).
  { rewrite forallb_forall. intros d Hd%list_elem_of_In. by apply (dec_nonneg_digits z); [lia|]. }
  destruct (dec_nonneg_shape z) as (d & s & E & Hd); [lia|]. rewrite E in *.
  rewrite atoi_digit_head in Ha by done. unfold scan_d. cbn [app scan_space].
  assert (c_isspace d = false ∧ d ≠ "-"%char ∧ d ≠ "+"%char) as (Hs & Hm & Hp).
  { split_and!; [by destruct d as [[] [] [] [] [] [] [] []]| |]; intros ->; done. }
  rewrite Hs. cbn [mbind outcome_bind].
  replace (match d with "-"%char => (true, s ++ c :: r) | "+"%char => (false, s ++ c :: r) | _ => (false, d :: s ++ c :: r) end)
    with (false, d :: s ++ c :: r) by (destruct d as [[] [] [] [] [] [] [] []]; done).
  rewrite Hd. change (d :: s ++ c :: r) with ((d :: s) ++ c :: r).
  rewrite scan_digits_all by done. cbn [mbind outcome_bind]. by rewrite Ha.
Qed.

(** ** Addresses and hardware addresses *)

Lemma quad_read c0 c1 c2 c3 :
  scan_quad (joined ["."%char] (map dec (map code [c0; c1; c2; c3]))) =
    Done (Some (code c0, code c1, code c2, code c3)).
Proof.
  assert (H : ∀ c x r, isdigit x = false → scan_d (dec (code c) ++ x :: r) = Done (Some (code c, x :: r))).
  { intros c x r Hx. apply scan_d_dec; [|done]. pose proof (code_range c). lia. }
  unfold scan_quad. cbn [map joined]. rewrite <- ?app_assoc. cbn [app].
  rewrite H by done. cbn [mbind outcome_bind]. rewrite <- ?app_assoc. cbn [app].
  rewrite H by done. cbn [mbind outcome_bind]. rewrite <- ?app_assoc. cbn [app].
  rewrite H by done. cbn [mbind outcome_bind]. rewrite H by done. cbn [mbind outcome_bind].
  unfold wrap32. rewrite !Z.mod_small; [done|..];
    lazymatch goal with |- 0 <= code ?c < _ => pose proof (code_range c); lia end.
Qed.

Lemma quad_back ok b o :
  length b = 4%nat → length o = 4%nat → ok (quad_in b) = true →
  e_quad ok (joined ["."%char] (map dec (map code b))) o = Some b.
Proof.
  destruct b as [|c0 [|c1 [|c2 [|c3 [|]]]]]; try done. intros _ Ho Hok.
  unfold e_quad. rewrite quad_read. cbn [e_lift]. unfold quad_in in Hok. cbn [nth] in Hok. rewrite Hok.
  cbn [e_when]. rewrite !chr_code. by apply put_all.
Qed.

Lemma two_hex c : ∃ h l, pad0 2 (hex true (code c)) = [h; l] ∧ is_hex h = true ∧ is_hex l = true ∧
  chr (Z.lor (hex_nibble h * 16) (hex_nibble l)) = c.
Proof.
  assert (H : match pad0 2 (hex true (code c)) with
              | [h; l] => is_hex h && is_hex l && bool_decide (chr (Z.lor (hex_nibble h * 16) (hex_nibble l)) = c)
              | _ => false
              end = true) by (by_all_bytes c).
  destruct (pad0 2 (hex true (code c))) as [|h [|l [|]]]; try done. exists h, l.
  apply andb_true_iff in H as [[? ?]%andb_true_iff ?%bool_decide_eq_true]. done.
Qed.

Lemma mac_back b : length b = 6%nat → length (mac_text b) = 17%nat ∧ IsHexStr (mac_text b) 17 true = true ∧
  hexcpy 6 (mac_text b) 3 = b.
Proof.
  destruct b as [|c1 [|c2 [|c3 [|c4 [|c5 [|c6 [|]]]]]]]; try done. intros _.
  unfold mac_text. cbn [map].
  destruct (two_hex c1) as (h1 & l1 & -> & H1 & L1 & E1), (two_hex c2) as (h2 & l2 & -> & H2 & L2 & E2),
    (two_hex c3) as (h3 & l3 & -> & H3 & L3 & E3), (two_hex c4) as (h4 & l4 & -> & H4 & L4 & E4),
    (two_hex c5) as (h5 & l5 & -> & H5 & L5 & E5), (two_hex c6) as (h6 & l6 & -> & H6 & L6 & E6).
  cbn [colons app]. split; [done|]. split.
  - unfold IsHexStr. do 6 (cbn [hex_str_loop]; rewrite decide_False by lia; cbn [ch nth Nat.add];
      rewrite ?H1, ?H2, ?H3, ?H4, ?H5, ?H6; rewrite decide_False by lia; cbn [ch nth Nat.add];
      rewrite ?L1, ?L2, ?L3, ?L4, ?L5, ?L6). reflexivity.
  - cbn [hexcpy drop ch nth]. by rewrite E1, E2, E3, E4, E5, E6.
Qed.

(** The characters of a hardware address. *)
Lemma mac_chars (P : ascii → bool) b :
  P ":"%char = true → (∀ c, is_hex c = true → P c = true) → forallb P (mac_text b) = true.
Proof.
  intros Hc Hh. unfold mac_text. induction b as [|x b IH]; [done|]. cbn [map].
  destruct (two_hex x) as (h & l & -> & Hx & Hl & _).
  assert (E : ∀ r, forallb P r = true → forallb P ([h; l] ++ r) = true).
  { intros r Hr. cbn [app forallb]. by rewrite !Hh. }
  destruct b as [|y b]; [by apply E|]. cbn [map colons] in *. apply E. cbn [forallb]. by rewrite Hc.
Qed.

Lemma zeroes b : existsb (λ c, negb (code c =? 0)) b = false → b = replicate (length b) NUL.
Proof.
  induction b as [|c b IH]; [done|]. cbn [existsb length replicate].
  intros [Hc%negb_false_iff%Z.eqb_eq Hb]%orb_false_iff. f_equal; [|by apply IH].
  by apply (inj code).
Qed.

Lemma mac_read b o :
  length b = 6%nat → length o = 6%nat →
  e_mac (if existsb (λ c, negb (code c =? 0)) b then mac_text b else []) o = Some b.
Proof.
  intros Hb Ho. destruct (existsb _ b) eqn:E.
  - destruct (mac_back b Hb) as (Hl & Hh & Hc). unfold e_mac.
    destruct (mac_text b) as [|c s]; [done|]. cbv zeta. rewrite Hl.
    change (bool_decide (17%nat = 12%nat)) with false. change (bool_decide (17%nat = 17%nat)) with true. cbn [negb andb]. rewrite Hh. cbn [negb andb].
    rewrite Hc. apply put_all. congruence.
  - apply zeroes in E. unfold e_mac, e_zero. rewrite Hb in E. rewrite <- E. apply put_all. congruence.
Qed.

(** ** Percentages *)

(** A percentage is read as the number of its hundredths, which is multiplied
    and rounded again: the least digit may get lost. *)
Definition percent_step (z : Z) : bool :=
  match scan_f (dec (z / 100) ++ "."%char :: pad0 2 (dec (z mod 100))), percent false z 100 with
  | Some (ScanNum false n d), Some r => (n =? z) && (d =? 100) && ((r =? z) || (r =? z - 1))
  | _, _ => false
  end.

Lemma percent_steps : forallb percent_step (map Z.of_nat (seq 1 (Z.to_nat 10000))) = true.
Proof. vm_cast_no_check (eq_refl true). Qed.

Lemma percent_at z : 1 <= z <= 10000 →
  scan_f (dec (z / 100) ++ "."%char :: pad0 2 (dec (z mod 100))) = Some (ScanNum false z 100) ∧
  percent false z 100 = Some (percent_read z) ∧ (percent_read z = z ∨ percent_read z = z - 1).
Proof.
  intros Hz. assert (H : percent_step z = true).
  { apply (proj1 (forallb_forall _ _) percent_steps). apply in_map_iff. exists (Z.to_nat z).
    split; [lia|]. apply in_seq. lia. }
  unfold percent_step in H. unfold percent_read.
  destruct (scan_f _) as [[[] n d| |]|]; try done. destruct (percent false z 100) as [r|]; [|done].
  cbn. destruct (Z.eqb_spec n z) as [->|]; [|done]. destruct (Z.eqb_spec d 100) as [->|]; [|done]. cbn [andb] in H.
  split_and!; [done|done|]. lia.
Qed.

Lemma percent_back z o : 1 <= z <= 10000 → length o = 2%nat →
  e_percent (dec (z / 100) ++ "."%char :: pad0 2 (dec (z mod 100))) o = Some (word_of (percent_read z)).
Proof.
  intros Hz Ho. destruct (percent_at z Hz) as (Hs & Hp & _). unfold e_percent. rewrite Hs, Hp. by apply put_all.
Qed.

(** ** Texts *)

Lemma take_eq {A} (i e : list A) : (∀ k, (k < length e)%nat → i !! k = e !! k) → take (length e) i = e.
Proof.
  intros H. apply list_eq. intros k. destruct (decide (k < length e)%nat) as [Hk|Hk].
  - rewrite lookup_take_lt by done. by apply H.
  - rewrite !lookup_ge_None_2; [done|lia|rewrite length_take; lia].
Qed.

Lemma length_ones f n : size_ok f n = true → length (ones f n) = n.
Proof.
  destruct f; intros H; unfold ones; rewrite ?length_app, ?length_replicate; try done.
  by apply bool_decide_eq_true in H as ->.
Qed.

Lemma text_read f t (b o : bytes) :
  textual f = true → size_ok f (length b) = true → length o = length b →
  (f = pAssignSSID → nth SSID_LEN o NUL = NUL) → accepts f t (length b) = true →
  ∃ i, effect f t o = Some i ∧ take (length (t ++ [NUL])) i = t ++ [NUL].
Proof.
  intros Ht Hs Ho Hssid Ha. unfold accepts in Ha.
  destruct (effect f t (replicate (length b) NUL)) as [i1|] eqn:E1; [|done].
  destruct (effect f t (ones f (length b))) as [i2|] eqn:E2; [|done].
  apply andb_true_iff in Ha as [T1%bool_decide_eq_true T2%bool_decide_eq_true].
  pose proof (length_ones f (length b) Hs) as Hones.
  destruct (uniform_written (effect f t) (replicate (length b) NUL) (ones f (length b)) i1 i2 o (effect_uniform f t)) as (i & Ei & Hi & Hk);
    [rewrite length_replicate; lia|lia|done|done|].
  assert (Hle : (length t + 1 <= length o)%nat).
  { apply (f_equal length) in T1. rewrite length_take, length_app in T1. cbn [length] in T1.
    pose proof (effect_length f t _ _ E1) as Hl. rewrite length_replicate in Hl. lia. }
  exists i. split; [done|]. apply take_eq. rewrite length_app. cbn [length]. intros k Hlt.
  rewrite <- T1, lookup_take_lt by lia. apply Hk; [lia| |].
  - rewrite <- (lookup_take_lt i1 (length t + 1)), <- (lookup_take_lt i2 (length t + 1)) by lia. congruence.
  - rewrite lookup_replicate_2 by lia. destruct f; try (left; unfold ones; rewrite lookup_replicate_2 by lia; done); try done.
    apply bool_decide_eq_true in Hs. unfold ones. destruct (decide (k < SSID_LEN)%nat).
    + left. rewrite lookup_app_l, lookup_replicate_2 by (rewrite ?length_replicate; lia). done.
    + right. assert (k = SSID_LEN) as -> by lia. specialize (Hssid eq_refl).
      rewrite nth_lookup in Hssid. destruct (o !! SSID_LEN) eqn:Eo; [cbn in Hssid; by subst|].
      apply lookup_ge_None in Eo. lia.
Qed.

(** ** Every attribute *)

Lemma size_unique f n m :
  textual f = false → special f = false → size_ok f n = true → size_ok f m = true → n = m.
Proof. intros Ht Hs Hn Hm. destruct f; try done; apply bool_decide_eq_true in Hn, Hm; congruence. Qed.

Lemma expected_plain f b t : textual f = false → expected f b t = expected f b [].
Proof. intros H. unfold expected. by rewrite H. Qed.

Lemma exactly f b t o :
  textual f = false → effect f t o = Some (expected f b []) →
  ∃ i, effect f t o = Some i ∧ take (length (expected f b t)) i = expected f b t.
Proof. intros Ht E. rewrite (expected_plain f b t Ht). exists (expected f b []). by rewrite firstn_all. Qed.

(** A value that is printed and passes the check of its function comes back. *)
Lemma value_read f g (b o : bytes) t :
  special f = false → prints_for f g = true → shown g b = Some t → size_ok f (length b) = true →
  length o = length b → (f = pAssignSSID → nth SSID_LEN o NUL = NUL) → reads_back f b t = true →
  (t = [] → isNvAssignFunc f = true) →
  ∃ i, effect f t o = Some i ∧ take (length (expected f b t)) i = expected f b t.
Proof.
  intros Hsp Hg Hsh Hs Ho Hssid Hr Hne. destruct (textual f) eqn:Ht.
  { unfold reads_back in Hr. rewrite Ht in Hr. unfold expected. rewrite Ht. by apply (text_read f t b o). }
  assert (Hr0 : reads_back f b [] = true) by (unfold reads_back in *; by rewrite Ht in *).
  assert (Hplain : effect f t o = Some (expected f b []) → ∃ i, effect f t o = Some i ∧ take (length (expected f b t)) i = expected f b t)
    by (by apply exactly).
  destruct g; cbn [prints_for shown] in *; try (by rewrite Ht in Hg); [..|by destruct f].
  - apply andb_true_iff in Hg as [_ Hg]. apply Hplain. injection Hsh as <-.
    assert (length b = 1%nat) by (by eapply size_unique). apply byte_read; (done || congruence).
  - apply Hplain. apply bool_decide_eq_true in Hg. rewrite !elem_of_cons in Hg.
    destruct Hg as [->|[->|?%not_elem_of_nil]]; [..|done]; cbn [size_ok] in Hs; apply bool_decide_eq_true in Hs;
      rewrite firstn_all2 in Hsh by lia;
      (destruct (existsb _ _); [|injection Hsh as <-; by specialize (Hne eq_refl)]);
      injection Hsh as <-; cbn [effect]; apply quad_back; (done || congruence).
  - apply andb_true_iff in Hg as [[_ Hg]%andb_true_iff Hp%negb_true_iff%bool_decide_eq_false]. apply Hplain.
    injection Hsh as <-. assert (length b = 2%nat) by (by eapply size_unique). apply word_read; (done || congruence).
  - apply bool_decide_eq_true in Hg as ->. apply Hplain. cbn [size_ok] in Hs. apply bool_decide_eq_true in Hs.
    rewrite firstn_all2 in Hsh by lia. injection Hsh as <-. cbn [effect]. rewrite mac_read by congruence. done.
  - apply bool_decide_eq_true in Hg as ->. apply Hplain. cbn [size_ok] in Hs. apply bool_decide_eq_true in Hs.
    injection Hsh as <-. unfold reads_back in Hr0. cbn [textual in_type] in Hr0. apply within_range in Hr0.
    destruct (Z.eqb_spec (word_in b) 0) as [E|E]; [by specialize (Hne eq_refl)|].
    cbn [effect]. rewrite percent_back by (lia || congruence). done.
Qed.
