(* ===== verification/EditWrite.v ===== *)
(** * The file that is written

    A configuration file is a title, and for each group an empty line, its
    header and its attributes; an attribute is one line with its value, and
    more lines when its comment has them.  The scanners skip everything but the
    headers and the values. *)

From S2P Require Import Prelude CLib FileSys Inet Utility CfgStore ApCfgSys ApCfgWlan ApCfgLists EditVars EditAssign EditOutput EditTable EditParse EditLines EditEffect EditSafe EditImport EditRead.

(** ** Lines *)

Fixpoint lines_of (s : bytes) : list bytes :=
  match s with
  | [] => []
  | c :: s' =>
      if decide (c = LF) then [c] :: lines_of s'
      else match lines_of s' with l :: ls => (c :: l) :: ls | [] => [[c]] end
  end.

Lemma lines_of_concat s : concat (lines_of s) = s.
Proof.
  induction s as [|c s IH]; [done|]. cbn [lines_of]. destruct (decide (c = LF)) as [->|Hc].
  - cbn [concat app]. by rewrite IH.
  - destruct (lines_of s) as [|l ls]; cbn [concat app] in *; by rewrite IH.
Qed.

(** A line, but for its length. *)
Definition ends_line (l : bytes) : bool :=
  bool_decide (nul_free l) && bool_decide (last l = Some LF) && bool_decide (LF ∉ removelast l).
Definition short (l : bytes) : bool := (length l <=? LINE)%nat.

Lemma ends_line_spec l : ends_line l = true → nul_free l ∧ ∃ l0, l = l0 ++ [LF] ∧ LF ∉ l0.
Proof.
  intros [[Hn%bool_decide_eq_true Hl%bool_decide_eq_true]%andb_true_iff Hr%bool_decide_eq_true]%andb_true_iff.
  split; [done|]. apply last_Some in Hl as [l0 ->]. rewrite removelast_last in Hr. by exists l0.
Qed.

Lemma is_line_spec l : short l = true → ends_line l = true → is_line l.
Proof. intros Hs%Nat.leb_le He. apply ends_line_spec in He as [Hn H]. done. Qed.

Definition noise_lineb (l : bytes) : bool := short l && ends_line l && noise l.
Lemma noise_lineb_spec l : noise_lineb l = true → noise_line l.
Proof. intros [[Hs He]%andb_true_iff Hn]%andb_true_iff. split; [by apply is_line_spec|done]. Qed.

(** Text in front of a line makes a longer one. *)
Lemma ends_line_app s l : nul_free s → LF ∉ s → ends_line l = true → ends_line (s ++ l) = true.
Proof.
  intros Hn Hl [[Hn'%bool_decide_eq_true Hlast%bool_decide_eq_true]%andb_true_iff Hr%bool_decide_eq_true]%andb_true_iff.
  assert (l ≠ []) by (by intros ->). unfold ends_line.
  rewrite !bool_decide_eq_true_2; [done| |..].
  - rewrite removelast_app by done. by rewrite not_elem_of_app.
  - by rewrite last_app, Hlast.
  - by apply nul_free_app.
Qed.

(** ** The text of an attribute *)

Definition text_of (m : gmap cell bytes) (p : attr_s) : option cstr :=
  match outputfunc p with
  | None | Some pOutputScMacList => Some []
  | Some g => m !! var p ≫= shown g
  end.

(** What a percentage prints behind its number. *)
Definition trail (p : attr_s) (t : cstr) : cstr :=
  match outputfunc p with
  | Some pOutputPercent => if decide (t = []) then [] else " %"
  | _ => []
  end.
Definition mark (p : attr_s) : cstr := if decide (ch (attr p) 0 = ";"%char) then [] else ["="%char].

(** [cc] is the comment on the country. *)
Definition remark (cc : cstr) (p : attr_s) : bytes :=
  OutputComment (if starts "Country_Region" (attr p) then cc else comment p) [].
Definition attr_text (cc : cstr) (p : attr_s) (t : cstr) : bytes :=
  attr p ++ mark p ++ t ++ trail p t ++ remark cc p.

Definition head_of (s : bytes) : bytes := hd [] (lines_of s).
Definition rest_of (s : bytes) : list bytes := tl (lines_of s).

Definition is_ssid (p : attr_s) : bool := bool_decide (attr p ∈ ssid_names).

(** The comment of an attribute, behind [tr]: its first line ends the line of
    the value, its other lines hold nothing. *)
Definition remark_ok (cc tr : cstr) (p : attr_s) : bool :=
  let r := tr ++ remark cc p in
  ends_line (head_of r) && forallb noise_lineb (rest_of r) &&
  match head_of r with c :: _ => bool_decide (c = " "%char) || bool_decide (c = CR) | [] => false end &&
  (if is_ssid p then bool_decide (r = [CR; LF]) else true).

(** A comment among the attributes, or an attribute. *)
Definition is_remark (p : attr_s) : bool := bool_decide (ch (attr p) 0 = ";"%char).
Definition shape_ok (cc : cstr) (p : attr_s) : bool :=
  remark_ok cc [] p && bool_decide (nul_free (attr p)) && bool_decide (LF ∉ attr p) &&
  (if is_remark p then
     match assignfunc p, outputfunc p with None, None => noise_lineb (attr p ++ head_of (remark cc p)) | _, _ => false end
   else name_ok (attr p)) &&
  match outputfunc p with Some pOutputPercent => remark_ok cc " %" p | _ => true end.

Lemma shapes_ok : forallb (λ cc, forallb (shape_ok cc) attributes) country_comments = true.
Proof. vm_compute. reflexivity. Qed.

(** What is asked of the text of a value. *)
Definition text_ok (cc : cstr) (p : attr_s) (t : cstr) : bool :=
  short (attr p ++ mark p ++ t ++ head_of (trail p t ++ remark cc p)) &&
  (if is_remark p then true
   else match assignfunc p with
        | None => forallb (λ c, negb (bool_decide (c = NUL)) && negb (bool_decide (c = LF))) t
        | Some _ =>
            if is_ssid p then forallb (λ c, negb (bool_decide (c = NUL)) && negb (bool_decide (c = LF)) && negb (bool_decide (c = CR))) t
            else forallb printable t
        end).

(** ** Reading the lines of an attribute *)

Lemma nul_free_forallb (P : ascii → bool) t :
  (∀ c, P c = true → c ≠ NUL ∧ c ≠ LF) → forallb P t = true → nul_free t ∧ LF ∉ t.
Proof.
  intros H. rewrite forallb_forall. intros Ht. unfold nul_free.
  split; intros Hc%list_elem_of_In%Ht; by destruct (H _ Hc).
Qed.

Lemma printable_spec c : printable c = true → c ≠ NUL ∧ c ≠ LF ∧ c ≠ CR ∧ c ≠ " "%char.
Proof. intros H. split_and!; intros ->; by vm_compute in H. Qed.

Lemma head_rest s : head_of s ++ concat (rest_of s) = s.
Proof. unfold head_of, rest_of. rewrite <- (lines_of_concat s) at 3. by destruct (lines_of s). Qed.

(** The value ends where the comment begins. *)
Lemma attr_value_plain name t c r :
  bool_decide (name ∈ ssid_names) = false → ch name 5 ≠ "="%char → forallb printable t = true →
  c = " "%char ∨ c = CR → attr_value name (t ++ c :: r) = t.
Proof.
  intros Hs H5 Ht Hc. assert (Hnp : printable c = false) by (by destruct Hc as [->| ->]).
  induction t as [|d t IH]; cbn [app attr_value].
  - rewrite Hnp, Hs, (bool_decide_eq_false_2 (ch name 5 = _)) by done. by rewrite andb_false_r.
  - cbn [forallb] in Ht. apply andb_true_iff in Ht as [Hd Ht]. rewrite Hd. by rewrite IH.
Qed.

Lemma attr_value_ssid name t r :
  bool_decide (name ∈ ssid_names) = true → CR ∉ t → attr_value name (t ++ CR :: r) = t.
Proof.
  intros Hs Ht. assert (H5 : ch name 5 ≠ "="%char).
  { apply bool_decide_eq_true in Hs. unfold ssid_names in Hs. rewrite !elem_of_cons in Hs.
    destruct Hs as [->|[->|[->|[->|Hs%not_elem_of_nil]]]]; done. }
  induction t as [|c t IH]; cbn [app attr_value].
  - change (printable CR) with false. rewrite Hs, (bool_decide_eq_false_2 (ch name 5 = _)) by done.
    rewrite andb_false_r. by rewrite decide_True.
  - apply not_elem_of_cons in Ht as [Hc Ht]. rewrite IH, Hs, decide_False by done.
    by repeat case_match.
Qed.

Lemma name_fifth name : name_ok name = true → ch name 5 ≠ "="%char.
Proof.
  intros H E. unfold ch in E. destruct name as [|c name]; [done|]. cbn [name_ok] in H.
  apply andb_true_iff in H as [_ H]. rewrite forallb_forall in H.
  assert (Hin : "="%char ∈ c :: name).
  { rewrite <- E. apply list_elem_of_In, nth_In. destruct (decide (5 < length (c :: name))%nat); [done|].
    by rewrite nth_overflow in E by lia. }
  apply list_elem_of_In in Hin. specialize (H _ Hin). cbv beta in H.
  rewrite (bool_decide_eq_true_2 ("="%char = "="%char)) in H by done. by rewrite andb_false_r in H.
Qed.

Section attribute.
Context (cc : cstr) (p : attr_s) (t : cstr).
Hypothesis Hshape : shape_ok cc p = true.
Hypothesis Htext : text_ok cc p t = true.

Let r : bytes := trail p t ++ remark cc p.

Lemma remark_trail : remark_ok cc (trail p t) p = true.
Proof.
  unfold shape_ok in Hshape. repeat rewrite andb_true_iff in Hshape. destruct Hshape as [[[[H _] _] _] Ho].
  unfold trail. destruct (outputfunc p) as [[]|]; try done. by destruct (decide (t = [])).
Qed.

Lemma head_facts :
  ends_line (head_of r) = true ∧ Forall noise_line (rest_of r) ∧
  (∃ c r', head_of r = c :: r' ∧ (c = " "%char ∨ c = CR)) ∧ (is_ssid p = true → head_of r = [CR; LF]).
Proof.
  pose proof remark_trail as H. unfold remark_ok in H. fold r in H. repeat rewrite andb_true_iff in H.
  destruct H as [[[He Hn] Hc] Hs]. split_and!; [done| | |].
  - rewrite List.Forall_forall. intros l Hl. apply noise_lineb_spec. by apply (proj1 (forallb_forall _ _) Hn).
  - destruct (head_of r) as [|c r']; [done|]. exists c, r'. split; [done|].
    apply orb_true_iff in Hc as [?%bool_decide_eq_true|?%bool_decide_eq_true]; auto.
  - intros E. rewrite E in Hs. apply bool_decide_eq_true in Hs. by rewrite Hs.
Qed.

Lemma text_split : attr_text cc p t = (attr p ++ mark p ++ t ++ head_of r) ++ concat (rest_of r).
Proof. unfold attr_text. rewrite <- !app_assoc, head_rest. done. Qed.

Lemma is_remark_text : is_remark p = true → outputfunc p = None ∧ assignfunc p = None.
Proof.
  intros Hr. unfold shape_ok in Hshape. repeat rewrite andb_true_iff in Hshape. destruct Hshape as [[_ H] _].
  rewrite Hr in H. by destruct (assignfunc p), (outputfunc p).
Qed.

(** A comment among the attributes is skipped. *)
Lemma remark_lines : is_remark p = true → t = [] →
  Forall noise_line ((attr p ++ mark p ++ t ++ head_of r) :: rest_of r).
Proof.
  intros Hr Ht. destruct (is_remark_text Hr) as [Ho Ha]. destruct head_facts as (_ & Hn & _ & _).
  constructor; [|done]. apply noise_lineb_spec. unfold shape_ok in Hshape. repeat rewrite andb_true_iff in Hshape.
  destruct Hshape as [[_ H] _]. rewrite Hr, Ha, Ho in H.
  assert (mark p = []) as ->.
  { unfold mark. unfold is_remark in Hr. apply bool_decide_eq_true in Hr. by rewrite decide_True. }
  subst r. rewrite Ht. unfold trail. by rewrite Ho.
Qed.

Lemma text_facts : is_remark p = false →
  name_ok (attr p) = true ∧ mark p = ["="%char] ∧ nul_free t ∧ LF ∉ t ∧
  (assignfunc p ≠ None → if is_ssid p then CR ∉ t else forallb printable t = true).
Proof.
  intros Hr. unfold shape_ok, text_ok in *. repeat rewrite andb_true_iff in Hshape.
  apply andb_true_iff in Htext as [_ Ht]. destruct Hshape as [[_ Hn] _]. rewrite Hr in Hn, Ht. split; [done|]. split.
  { unfold mark. unfold is_remark in Hr. apply bool_decide_eq_false in Hr. by rewrite decide_False. }
  assert (H : nul_free t ∧ LF ∉ t).
  { destruct (assignfunc p); [destruct (is_ssid p)|]; (eapply nul_free_forallb; [|exact Ht]); intros c Hc.
    - repeat rewrite andb_true_iff in Hc. destruct Hc as [[?%negb_true_iff%bool_decide_eq_false ?%negb_true_iff%bool_decide_eq_false] _]. done.
    - apply printable_spec in Hc as (? & ? & _). done.
    - apply andb_true_iff in Hc as [?%negb_true_iff%bool_decide_eq_false ?%negb_true_iff%bool_decide_eq_false]. done. }
  destruct H as [? ?]. split; [done|]. split; [done|]. intros Ha. destruct (assignfunc p); [|done].
  destruct (is_ssid p); [|done]. intros Hc%list_elem_of_In. apply (proj1 (forallb_forall _ _) Ht) in Hc.
  by rewrite (bool_decide_eq_true_2 (CR = CR)), andb_false_r in Hc.
Qed.

Lemma first_line : is_remark p = false → is_line (attr p ++ "="%char :: t ++ head_of r).
Proof.
  intros Hr. destruct (text_facts Hr) as (_ & Hm & Hn & Hl & _). destruct head_facts as (He & _).
  pose proof Hshape as Hs. unfold shape_ok in Hs. repeat rewrite andb_true_iff in Hs.
  destruct Hs as [[[[_ Hna%bool_decide_eq_true] Hla%bool_decide_eq_true] _] _].
  pose proof Htext as H. unfold text_ok in H. apply andb_true_iff in H as [H _]. fold r in H. rewrite Hm in H.
  apply is_line_spec; [done|]. apply ends_line_app; [done..|].
  change ("="%char :: t ++ head_of r) with (("="%char :: t) ++ head_of r). apply ends_line_app; [| |done].
  - by apply nul_free_cons.
  - by apply not_elem_of_cons.
Qed.

(** The next attribute, behind lines that hold nothing. *)
Lemma scan_attr n ns rem :
  is_remark p = false → Forall noise_line ns →
  ∃ t', GetaAttr (length ns + S n) (File (concat ns ++ attr_text cc p t ++ rem) false) =
      Done (Some (attr p, t'), File (concat (rest_of r) ++ rem) false) ∧
    (assignfunc p ≠ None → t' = t).
Proof.
  intros Hr Hns. destruct (text_facts Hr) as (Hname & Hm & _ & _ & Hval).
  destruct head_facts as (_ & _ & (c & r' & Hh & Hc) & Hssid).
  rewrite GetaAttr_noises by done. rewrite text_split, Hm, <- app_assoc. cbn [app].
  rewrite GetaAttr_hit by (done || by apply first_line).
  eexists. split; [done|]. intros Ha. specialize (Hval Ha). unfold is_ssid in *.
  destruct (bool_decide (attr p ∈ ssid_names)) eqn:Es.
  - rewrite Hssid by done. by apply attr_value_ssid.
  - rewrite Hh. apply attr_value_plain; [done|by apply name_fifth|done..].
Qed.
End attribute.

(** ** Writing *)

(** Every printer finds its variable large enough. *)
Definition print_size (g : output_fn) : nat :=
  match g with
  | pOutputByte => 1
  | pOutputWord | pOutputPercent => 2
  | pOutputIP => 4
  | pOutputMac => 6
  | pOutputStr | pOutputPass | pOutputScMacList => 0
  end.
Definition print_ok (p : attr_s) : bool :=
  match outputfunc p with
  | None | Some pOutputScMacList => true
  | Some g => match layout !! var p with Some n => (print_size g <=? n)%nat | None => false end
  end.
Lemma prints_ok : forallb print_ok attributes = true.
Proof. vm_compute. reflexivity. Qed.

Lemma peek_runs s v n b : vars s !! v = Some b → (n <= length b)%nat → peek v n s = Done (take n b, s).
Proof.
  intros Hb Hn. unfold peek, obj, mbind, M_bind, getS. cbn [mret M_ret]. rewrite Hb. cbn [mret M_ret].
  by rewrite decide_True.
Qed.

Lemma byte_runs s v b : vars s !! v = Some b → (1 <= length b)%nat → get_byte v s = Done (byte_in b, s).
Proof.
  intros Hb Hn. unfold get_byte, mbind, M_bind. rewrite (peek_runs s v 1 b) by done. by destruct b.
Qed.

Lemma word_runs s v b : vars s !! v = Some b → (2 <= length b)%nat → get_word v s = Done (word_in b, s).
Proof.
  intros Hb Hn. unfold get_word, mbind, M_bind. rewrite (peek_runs s v 2 b) by done.
  destruct b as [|? [|]]; [cbn in Hn; lia..|done].
Qed.

Lemma text_runs s v b t : vars s !! v = Some b → rd_str b = Done t → get_text v s = Done (t, s).
Proof.
  intros Hb Ht. unfold get_text, obj, mbind, M_bind, getS. cbn [mret M_ret]. rewrite Hb. cbn [mret M_ret].
  unfold liftO. by rewrite Ht.
Qed.

#[local] Opaque layout CFGData.

Section write.
Context (s : edit) (country : Z).
Hypothesis Hlaid : laid (vars s).
Hypothesis Hshow : vars s !! g "secShow" = Some [NUL].
Hypothesis Hlegal : vars s !! g "rogueApMacList.no" = Some [NUL; NUL].
Hypothesis Hcountry : sc_get_default_country (machine s) = Done (country, machine s).

Let cc : cstr := nth (country_line country) country_comments [].

Lemma output_runs p f t buff :
  p ∈ attributes → outputfunc p = Some f → text_of (vars s) p = Some t →
  output_of f (var p) buff s = Done (buff ++ t ++ trail p t, s).
Proof.
  intros Hp Hf Ht. pose proof (forallb_in _ _ p prints_ok Hp) as Hsz. unfold print_ok in Hsz.
  unfold text_of, trail in *. rewrite Hf in *. destruct (decide (f = pOutputScMacList)) as [->|Hne].
  { injection Ht as <-. cbn [output_of]. unfold OutputScMacList, mbind, M_bind.
    rewrite (word_runs s _ [NUL; NUL] Hlegal) by (cbn; lia). change (word_in [NUL; NUL] =? 0) with true. cbv iota. by rewrite !app_nil_r. }
  assert (Hsz' : match layout !! var p with Some n => (print_size f <=? n)%nat | None => false end = true)
    by (destruct f; [exact Hsz..|by destruct Hne]).
  destruct (layout !! var p) as [n|] eqn:El; [|done]. apply Nat.leb_le in Hsz'.
  destruct (Hlaid _ _ El) as (b & Hb & Hn). rewrite Hb in Ht.
  assert (Ht' : shown f b = Some t) by (destruct f; [exact Ht..|by destruct Hne]). clear Ht Hsz El.
  destruct f; cbn [shown print_size output_of] in *; [..|by destruct Hne].
  - destruct (rd_str b) as [t'| |] eqn:Er; [|discriminate..]. injection Ht' as ->. unfold OutputStr, mbind, M_bind.
    rewrite (text_runs s _ b t Hb Er). by rewrite app_nil_r.
  - injection Ht' as <-. unfold OutputByte, mbind, M_bind. rewrite (byte_runs s _ b Hb) by lia. by rewrite app_nil_r.
  - injection Ht' as <-. unfold OutputIP, mbind, M_bind. rewrite (peek_runs s _ 4 b Hb) by lia.
    cbv beta. rewrite app_nil_r. destruct (existsb _ _); [|by rewrite app_nil_r].
    destruct b as [|b0 [|b1 [|b2 [|b3 b]]]]; cbn [length] in *; try lia. reflexivity.
  - injection Ht' as <-. unfold OutputWord, mbind, M_bind. rewrite (word_runs s _ b Hb) by lia. by rewrite app_nil_r.
  - destruct (rd_str b) as [t'| |] eqn:Er; [|discriminate..]. injection Ht' as ->. unfold OutputPass, mbind, M_bind.
    rewrite (byte_runs s _ [NUL] Hshow) by (cbn; lia). change (byte_in [NUL] =? 0) with true. cbv iota beta.
    cbn [mret M_ret]. unfold OutputStr, mbind, M_bind. rewrite (text_runs s _ b t Hb Er). by rewrite app_nil_r.
  - injection Ht' as <-. unfold OutputMac, mbind, M_bind. rewrite (peek_runs s _ 6 b Hb) by lia.
    cbv beta. rewrite app_nil_r. destruct (existsb _ _); by rewrite ?app_nil_r.
  - injection Ht' as <-. unfold OutputPercent, mbind, M_bind. rewrite (word_runs s _ b Hb) by lia.
    cbv beta. destruct (Z.eqb_spec (word_in b) 0); [by rewrite !app_nil_r|].
    rewrite decide_False by (by destruct (dec _)). unfold percent_text. cbn [mret M_ret].
    by rewrite <- ?app_assoc.
Qed.

Lemma attr_runs p t buff :
  p ∈ attributes → text_of (vars s) p = Some t → output_attr p buff s = Done (buff ++ attr_text cc p t, s).
Proof.
  intros Hp Ht. unfold output_attr, mbind, M_bind.
  assert (E : (match outputfunc p with
               | Some f => output_of f (var p) (OutputAttr (attr p) buff)
               | None => mret (OutputAttr (attr p) buff)
               end) s = Done (OutputAttr (attr p) buff ++ t ++ trail p t, s)).
  { destruct (outputfunc p) as [f|] eqn:Hf; [by apply output_runs|].
    unfold text_of, trail in *. rewrite Hf in *. injection Ht as <-. by rewrite !app_nil_r. }
  rewrite E. unfold attr_text, remark, OutputAttr, mark.
  destruct (starts "Country_Region" (attr p)).
  - unfold OutputCountryComment, onM, mbind, M_bind. rewrite Hcountry. cbn [mret M_ret]. destruct s as [vs ms].
    unfold OutputComment. by rewrite <- !app_assoc.
  - cbn [mret M_ret]. unfold OutputComment. by rewrite <- !app_assoc.
Qed.

Definition texts_of (ps : list attr_s) : bytes :=
  concat (map (λ p, attr_text cc p (default [] (text_of (vars s) p))) ps).
Definition group_text (d : CFG_s) : bytes := [CR; LF] ++ header (group d) ++ texts_of (attrs d).

Context (type : Z).
Hypothesis Htype : Z.land CFG_TYPE_ALL type ≠ 0.
Hypothesis Hall : ∀ p, p ∈ attributes → is_Some (text_of (vars s) p).

Lemma attrs_run ps buff :
  (∀ p, p ∈ ps → p ∈ attributes ∧ attr_type p = CFG_TYPE_ALL) →
  output_attrs type ps buff s = Done (buff ++ texts_of ps, s).
Proof.
  revert buff. induction ps as [|p ps IH]; intros buff Hps; cbn [output_attrs].
  - unfold texts_of. cbn. by rewrite app_nil_r.
  - destruct (Hps p) as [Hp Hty]; [apply list_elem_of_here|]. rewrite Hty, (proj2 (Z.eqb_neq _ _)) by done.
    destruct (Hall p Hp) as [t Ht]. unfold mbind, M_bind. rewrite (attr_runs p t) by done.
    rewrite IH by (intros q Hq; apply Hps; by apply list_elem_of_further).
    unfold texts_of. cbn [map concat]. rewrite Ht. by rewrite <- app_assoc.
Qed.

Lemma groups_run l buff :
  (∀ d p, d ∈ l → p ∈ attrs d → p ∈ attributes ∧ attr_type p = CFG_TYPE_ALL) →
  (∀ d, d ∈ l → group_type d = CFG_TYPE_ALL) →
  output_groups type l buff s = Done (buff ++ concat (map group_text l), s).
Proof.
  revert buff. induction l as [|d l IH]; intros buff Hp Hd; cbn [output_groups].
  - cbn. by rewrite app_nil_r.
  - rewrite (Hd d), (proj2 (Z.eqb_neq _ _)) by (done || apply list_elem_of_here). unfold mbind, M_bind.
    rewrite attrs_run by (intros p; apply Hp, list_elem_of_here).
    rewrite IH by (intros; first [eapply Hp|eapply Hd]; try apply list_elem_of_further; eassumption).
    cbn [map concat]. unfold group_text, OutputGroup, header. by rewrite <- !app_assoc.
Qed.
End write.

(** ** The whole file *)

(** The three lines of the title, and the line of the checksum. *)
Definition title_lines (version : cstr) (mac : bytes) (pin sum : cstr) : list bytes :=
  [CFGTitle ++ version ++ [LF]; (";MAC address: " : cstr) ++ mac_text mac ++ [LF];
   (";WPS PIN: " : cstr) ++ pin ++ [LF]; (";The checksum: " : cstr) ++ sum ++ [LF]].

Definition types_ok : bool :=
  forallb (λ d, bool_decide (group_type d = CFG_TYPE_ALL) &&
                forallb (λ p, bool_decide (attr_type p = CFG_TYPE_ALL)) (attrs d)) (tail CFGData).
Lemma all_types : types_ok = true.
Proof. vm_compute. reflexivity. Qed.

Lemma in_group d p : d ∈ CFGData → p ∈ attrs d → p ∈ attributes.
Proof.
  intros Hd Hp. unfold attributes. apply list_elem_of_In, in_concat. exists (attrs d).
  split; [by apply in_map, list_elem_of_In|by apply list_elem_of_In].
Qed.

Lemma in_tail {A} (l : list A) x : x ∈ tail l → x ∈ l.
Proof. destruct l; [done|]. intros H. by apply list_elem_of_further. Qed.

Lemma group_types d : d ∈ tail CFGData →
  group_type d = CFG_TYPE_ALL ∧ ∀ p, p ∈ attrs d → attr_type p = CFG_TYPE_ALL.
Proof.
  intros Hd. pose proof (forallb_in _ _ d all_types Hd) as H. cbv beta in H.
  apply andb_true_iff in H as [Ht%bool_decide_eq_true Hp]. split; [done|].
  intros p Hin. by apply (forallb_in _ _ p Hp), bool_decide_eq_true in Hin.
Qed.

Lemma bind_done {S A B} (m : M S A) (k : A → M S B) s r :
  (m ≫= k) s = Done r → ∃ a s', m s = Done (a, s') ∧ k a s' = Done r.
Proof. unfold mbind, M_bind. destruct (m s) as [[a s']| |]; [|done|done]. intros H. by exists a, s'. Qed.

Lemma ret_done {S A} (a b : A) (s s' : S) : mret (M := M S) a s = Done (b, s') → b = a ∧ s' = s.
Proof. by intros [= <- <-]. Qed.

Lemma poke_inv v off d s s' :
  poke v off d s = Done (tt, s') → ∃ b, vars s !! v = Some b ∧ (off + length d <= length b)%nat ∧ s' = upd s v (splice off d b).
Proof.
  unfold poke, obj, mbind, M_bind, getS. cbn [mret M_ret]. destruct (vars s !! v) as [b|]; [|done].
  cbn [mret M_ret]. destruct (decide _); [|done]. intros [= <-]. by exists b.
Qed.

Lemma peek_inv v n s d s' :
  peek v n s = Done (d, s') → s' = s ∧ ∃ b, vars s !! v = Some b ∧ (n <= length b)%nat ∧ d = take n b.
Proof.
  unfold peek, obj, mbind, M_bind, getS. cbn [mret M_ret]. destruct (vars s !! v) as [b|]; [|done].
  cbn [mret M_ret]. destruct (decide _); [|done]. intros [= <- <-]. split; [done|]. by exists b.
Qed.

(** The nine bytes of the checksum. *)
Lemma checksum_inv sum s d s' :
  laid (vars s) → checksum_text sum s = Done (d, s') →
  d = pad_right 8 (dec sum) ++ [LF] ∧ length d = 9%nat ∧
  vars s' = <[g "APchecksum" := d]> (vars s) ∧ machine s' = machine s.
Proof.
  intros Hl. assert (El : layout !! g "APchecksum" = Some 9%nat) by (vm_compute; reflexivity).
  destruct (Hl _ _ El) as (b0 & Hb0 & Hn0). clear El Hl. unfold checksum_text.
  intros ([] & s2 & H1 & H)%bind_done. apply bind_done in H as ([] & s3 & H2 & H3).
  apply poke_inv in H1 as (b & Hb & Hle & ->). apply poke_inv in H2 as (b' & Hb' & Hle' & ->).
  apply peek_inv in H3 as (-> & b'' & Hb'' & Hle'' & ->).
  rewrite Hb in Hb0. injection Hb0 as ->. rewrite upd_eq in Hb'. injection Hb' as <-.
  rewrite upd_upd, upd_eq in Hb''. injection Hb'' as <-.
  rewrite length_app in Hle. cbn [length] in Hle.
  assert (Hp : length (pad_right 8 (dec sum)) = 8%nat).
  { unfold pad_right in *. rewrite length_app, length_replicate in *. lia. }
  assert (E : splice 8 [LF] (splice 0 (pad_right 8 (dec sum) ++ [NUL]) b0) = pad_right 8 (dec sum) ++ [LF]).
  { rewrite splice_whole by (rewrite length_app; cbn; lia). unfold splice.
    rewrite take_app_le, firstn_all2 by lia. rewrite drop_ge; [done|]. rewrite length_app. cbn. lia. }
  rewrite E. rewrite firstn_all2 by (rewrite length_app; cbn; lia).
  split; [done|]. split; [rewrite length_app; cbn; lia|]. by rewrite upd_upd.
Qed.

Lemma checksum_runs sum s : laid (vars s) → (length (dec sum) <= 8)%nat →
  ∃ d s', checksum_text sum s = Done (d, s').
Proof.
  intros Hl Hs. assert (El : layout !! g "APchecksum" = Some 9%nat) by (vm_compute; reflexivity).
  destruct (Hl _ _ El) as (b & Hb & Hn). clear El Hl. unfold checksum_text, strcpy_var.
  assert (Hp : length (pad_right 8 (dec sum)) = 8%nat).
  { unfold pad_right. rewrite length_app, length_replicate. lia. }
  unfold mbind at 1, M_bind at 1. rewrite (acts_poke _ _ _ _ _ Hb). unfold e_put.
  rewrite decide_True by (rewrite length_app; cbn; lia). rewrite splice_whole by (rewrite length_app; cbn; lia).
  set (x := pad_right 8 (dec sum) ++ [NUL]).
  assert (Hx : length x = 9%nat) by (unfold x; rewrite length_app; cbn; lia).
  unfold mbind at 1, M_bind at 1. rewrite (acts_poke _ 8 [LF] _ x (upd_eq _ _ _)). unfold e_put.
  rewrite decide_True by (cbn; lia).
  erewrite peek_runs; [|apply upd_eq|rewrite splice_keeps_length; cbn; lia]. by eexists _, _.
Qed.

(** A line without a bracket begins no group. *)
Lemma bracketed_none l : "["%char ∉ l → bracketed l = None.
Proof.
  induction l as [|c l IH]; [done|]. intros [Hc Hl]%not_elem_of_cons. cbn [bracketed].
  rewrite decide_False by congruence. by apply IH.
Qed.

Definition plain_line (l : bytes) : bool := short l && ends_line l && bool_decide ("["%char ∉ l).
Lemma plain_no_group l : plain_line l = true → no_group l.
Proof.
  intros [[Hs He]%andb_true_iff Hb%bool_decide_eq_true]%andb_true_iff.
  split; [by apply is_line_spec|]. by rewrite bracketed_none.
Qed.

(** A plain line of known ends around a text of known characters. *)
Lemma plain_around (a t : cstr) :
  (length a + length t < LINE)%nat → forallb (λ c, printable c || bool_decide (c = " "%char)) (a ++ t) = true →
  "["%char ∉ a ++ t → plain_line (a ++ t ++ [LF]) = true.
Proof.
  intros Hlen Hc Hb. rewrite app_assoc. unfold plain_line. apply andb_true_iff. split; [apply andb_true_iff; split|].
  - unfold short. apply Nat.leb_le. rewrite !length_app. cbn [length]. lia.
  - apply ends_line_app; [..|done]; intros H%list_elem_of_In; apply (proj1 (forallb_forall _ _) Hc) in H; done.
  - apply bool_decide_eq_true. rewrite not_elem_of_app. split; [done|].
    intros H%list_elem_of_singleton. done.
Qed.

Lemma mac_plain a : length a = 6%nat → plain_line ((";MAC address: " : cstr) ++ mac_text a ++ [LF]) = true.
Proof.
  intros Ha. destruct (mac_back a Ha) as (Hl & _). apply plain_around.
  - rewrite Hl. unfold LINE. cbn. lia.
  - rewrite forallb_app. apply andb_true_iff. split; [reflexivity|]. apply mac_chars; [done|]. intros c. by_all_bytes c.
  - rewrite not_elem_of_app. split; [by apply (bool_decide_unpack _)|].
    intros H%list_elem_of_In. pose proof (mac_chars (λ c, negb (bool_decide (c = "["%char))) a) as Hm.
    eapply forallb_forall in Hm; [|done| |exact H]; [done|]. intros c. by_all_bytes c.
Qed.

(** The checksum takes the place of the last nine bytes of the title. *)
Lemma title_checked (version mac pin sum : cstr) (body : bytes) :
  let title := CFGTitle ++ version ++ [LF] ++ ";MAC address: " ++ mac_text mac ++ [LF] ++
               ";WPS PIN: " ++ pin ++ [LF] ++ ";The checksum: 00000000" ++ [LF] in
  take (length title - 9) title ++ (sum ++ [LF]) ++ body =
    concat (title_lines version mac pin sum) ++ body.
Proof.
  intros title.
  assert (E : title = concat [CFGTitle ++ version ++ [LF]; (";MAC address: " : cstr) ++ mac_text mac ++ [LF];
                              (";WPS PIN: " : cstr) ++ pin ++ [LF]; (";The checksum: " : cstr)] ++
                      (("00000000" : cstr) ++ [LF])).
  { unfold title. cbn [concat]. by rewrite <- !app_assoc. }
  rewrite E, length_app. change (length (("00000000" : cstr) ++ [LF])) with 9%nat.
  rewrite Nat.add_sub, take_app_length. unfold title_lines. cbn [concat]. by rewrite <- !app_assoc.
Qed.

Section file.
Context (s : edit) (country : Z) (type : Z).
Hypothesis Hlaid : laid (vars s).
Hypothesis Hshow : vars s !! g "secShow" = Some [NUL].
Hypothesis Hlegal : vars s !! g "rogueApMacList.no" = Some [NUL; NUL].
Hypothesis Hcountry : sc_get_default_country (machine s) = Done (country, machine s).
Hypothesis Htype : Z.land CFG_TYPE_ALL type ≠ 0.
Hypothesis Hall : ∀ p, p ∈ attributes → is_Some (text_of (vars s) p).

(** What is written: four lines, and the groups. *)
Lemma file_written version text s1 :
  output_file type version s = Done (text, s1) →
  ∃ mac pin sum,
    text = concat (title_lines version mac pin sum) ++ concat (map (group_text s country) (tail CFGData)) ∧
    length mac = 6%nat ∧ get_text (g "APpin") s = Done (pin, s) ∧ length sum = 8%nat ∧
    (∀ c, c ∈ sum → isdigit c = true ∨ c = "-"%char ∨ c = " "%char) ∧
    machine s1 = machine s ∧ (∀ v, v ≠ g "APchecksum" → vars s1 !! v = vars s !! v).
Proof.
  unfold output_file. intros (title & s2 & Ht & H)%bind_done.
  unfold OutputTitle in Ht. apply bind_done in Ht as (mac & s3 & Hm & Ht).
  apply peek_inv in Hm as (-> & bm & _ & Hlm & Hmac). apply bind_done in Ht as (pin & s4 & Hp & Ht).
  assert (s4 = s) as ->.
  { unfold get_text, obj, liftO in Hp. apply bind_done in Hp as (b & s5 & Hb & Hp).
    unfold mbind, M_bind, getS in Hb. cbn [mret M_ret] in Hb. destruct (vars s !! g "APpin"); [|done].
    injection Hb as -> ->. by destruct (rd_str b); simplify_eq. }
  apply ret_done in Ht as [Et ->]. apply bind_done in H as (text' & s6 & Hg & H).
  rewrite (groups_run s country Hlaid Hshow Hlegal Hcountry type Htype Hall) in Hg.
  2:{ intros d p Hd Hpd. split; [eapply in_group; [apply in_tail, Hd|done]|]. by apply (group_types d Hd). }
  2:{ intros d Hd. by apply group_types. }
  injection Hg as <- <-. cbv zeta in H. rewrite drop_app_length in H.
  set (body := concat (map _ _)) in *.
  apply bind_done in H as (d & s7 & Hc & H). injection H as <- <-.
  apply (checksum_inv _ s d s7 Hlaid) in Hc as (-> & Hd & Hv & Hms).
  exists mac, pin, (pad_right 8 (dec (checksum body))). split.
  { pose proof (title_checked version mac pin (pad_right 8 (dec (checksum body))) body) as T.
    cbv zeta in T. rewrite <- Et in T. exact T. }
  rewrite length_app in Hd. cbn [length] in Hd. split_and!; [subst mac; rewrite length_take; lia|done|lia| |done|].
  - intros c. unfold pad_right. rewrite elem_of_app. intros [Hc|Hc].
    + apply dec_chars in Hc. naive_solver.
    + apply elem_of_replicate in Hc as [-> _]. auto.
  - intros v Hv'. rewrite Hv. by rewrite lookup_insert_ne.
Qed.
End file.

(** ** Writing succeeds *)

(** The text of an attribute is a line and the rest of its comment. *)
Lemma attr_text_short cc p t : text_ok cc p t = true → (length (attr_text cc p t) <= 130 + length (remark cc p))%nat.
Proof.
  intros [Hs _]%andb_true_iff. unfold short in Hs. apply Nat.leb_le in Hs.
  rewrite (text_split cc p t), length_app. pose proof (f_equal length (head_rest (trail p t ++ remark cc p))) as E.
  rewrite !length_app in E. unfold LINE in Hs.
  assert (length (trail p t) <= 2)%nat; [|lia].
  unfold trail. destruct (outputfunc p) as [[]|]; cbn [length]; try lia. destruct (decide (t = [])); cbn; lia.
Qed.

(** At most so many bytes. *)
Definition room (cc : cstr) : Z :=
  foldr (λ d n, zlen (group d) + 7 + foldr (λ p n, 130 + zlen (remark cc p) + n) 0 (attrs d) + n) 0 (tail CFGData).
Lemma room_enough : forallb (λ cc, 255 * room cc <? 10 ^ 8) country_comments = true.
Proof. vm_compute. reflexivity. Qed.

Lemma sum_bound l n : fold_left (λ s c, s + code c) l n <= n + 255 * zlen l ∧ n <= fold_left (λ s c, s + code c) l n.
Proof.
  revert n. induction l as [|c l IH]; intros n; cbn [fold_left length]; [lia|].
  pose proof (code_range c). specialize (IH (n + code c)). lia.
Qed.

Lemma checksum_short text : 255 * zlen text < 10 ^ 8 → (length (dec (checksum text)) <= 8)%nat.
Proof.
  intros H. assert (0 <= checksum text < 10 ^ 8) as Hc.
  { unfold checksum, wrap32. pose proof (sum_bound (cut_nul text) 0) as Hs. pose proof (span_until_length [NUL] text : (length (cut_nul text) <= length text)%nat).
    rewrite Z.mod_small; lia. }
  pose proof (dec_go_length (S (Z.to_nat (Z.log2 (checksum text)))) (checksum text) [] 8) as Hl.
  unfold dec. rewrite (proj2 (Z.ltb_ge _ _)) by lia. cbn [length] in Hl. rewrite Nat.add_0_r in Hl. change (Z.of_nat 8) with 8 in Hl. apply Hl; lia.
Qed.

Lemma comment_of_country country : nth (country_line country) country_comments [] ∈ country_comments.
Proof.
  apply list_elem_of_In, nth_In. unfold country_line.
  repeat (destruct (_ =? _); [cbn [length country_comments]; lia|]). cbn [length country_comments]; lia.
Qed.

Section succeeds.
Context (s : edit) (country : Z) (type : Z).
Hypothesis Hlaid : laid (vars s).
Hypothesis Hshow : vars s !! g "secShow" = Some [NUL].
Hypothesis Hlegal : vars s !! g "rogueApMacList.no" = Some [NUL; NUL].
Hypothesis Hcountry : sc_get_default_country (machine s) = Done (country, machine s).
Hypothesis Htype : Z.land CFG_TYPE_ALL type ≠ 0.
Let cc : cstr := nth (country_line country) country_comments [].
Hypothesis Htexts : ∀ p, p ∈ attributes → ∃ t, text_of (vars s) p = Some t ∧ text_ok cc p t = true.

Lemma texts_bound ps : (∀ p, p ∈ ps → p ∈ attributes) →
  zlen (texts_of s country ps) <= foldr (λ p n, 130 + zlen (remark cc p) + n) 0 ps.
Proof.
  induction ps as [|p ps IH]; intros Hps; [done|]. unfold texts_of in *. cbn [map concat foldr]. rewrite length_app.
  destruct (Htexts p) as (t & -> & Ht); [apply Hps, list_elem_of_here|]. change (default [] (Some t)) with t.
  apply attr_text_short in Ht. fold cc. specialize (IH (λ q Hq, Hps q (list_elem_of_further q p ps Hq))). fold cc in IH. lia.
Qed.

Lemma body_bound l : (∀ d, d ∈ l → d ∈ CFGData) →
  zlen (concat (map (group_text s country) l)) <=
    foldr (λ d n, zlen (group d) + 7 + foldr (λ p n, 130 + zlen (remark cc p) + n) 0 (attrs d) + n) 0 l.
Proof.
  induction l as [|d l IH]; intros Hl; [done|]. cbn [map concat foldr]. unfold group_text at 1, header.
  rewrite !length_app. cbn [length].
  pose proof (texts_bound (attrs d) (λ p Hp, in_group d p (Hl d (list_elem_of_here d l)) Hp)) as Ht.
  specialize (IH (λ e He, Hl e (list_elem_of_further e d l He))). lia.
Qed.

Lemma file_writes version pin : get_text (g "APpin") s = Done (pin, s) →
  ∃ text s1, output_file type version s = Done (text, s1).
Proof.
  intros Hpin. assert (El : layout !! g "APmac" = Some 6%nat) by (vm_compute; reflexivity).
  destruct (Hlaid _ _ El) as (mac & Hmac & Hn). clear El.
  unfold output_file, OutputTitle, mbind, M_bind. rewrite (peek_runs s _ 6 mac Hmac) by lia. rewrite Hpin.
  cbn [mret M_ret].
  rewrite (groups_run s country Hlaid Hshow Hlegal Hcountry type Htype).
  2:{ intros p Hp. destruct (Htexts p Hp) as (t & Ht & _). by exists t. }
  2:{ intros d p Hd Hpd. split; [eapply in_group; [apply in_tail, Hd|done]|]. by apply (group_types d Hd). }
  2:{ intros d Hd. by apply group_types. }
  rewrite drop_app_length. pose proof (body_bound (tail CFGData) (in_tail CFGData)) as Hb.
  pose proof (forallb_in _ _ _ room_enough (comment_of_country country)) as Hr. cbv beta in Hr. apply Z.ltb_lt in Hr.
  unfold room in Hr. fold cc in Hr. set (body := concat (map _ _)) in *.
  assert (Hs : (length (dec (checksum body)) <= 8)%nat) by (apply checksum_short; lia).
  destruct (checksum_runs (checksum body) s Hlaid Hs) as (d & s' & ->). by eexists _, _.
Qed.
End succeeds.
