(* ===== verification/EditRound.v ===== *)
(** * A file that was written is read back

    The scanners go through the groups and attributes of a written file in
    order; each value that passes its check is assigned, and stays as it is
    until the end. *)

From S2P Require Import Prelude CLib FileSys Inet Utility CfgStore ApCfgSys ApCfgWlan ApCfgLists EditVars EditAssign EditOutput EditTable EditParse EditLines EditEffect EditSafe EditImport EditRead EditWrite.

#[local] Opaque layout CFGData.

(** ** The tables *)

(** Attributes of one variable print alike; the counter of legal access points
    is no attribute; the three special functions have their variables. *)
Definition prints_alike (p q : attr_s) : bool :=
  match assignfunc p, assignfunc q with
  | Some _, Some _ => negb (bool_decide (var p = var q)) || bool_decide (outputfunc p = outputfunc q)
  | _, _ => true
  end.
Definition attr_ok (p : attr_s) : bool :=
  negb (bool_decide (var p = g "rogueApMacList.outNo")) &&
  match assignfunc p, outputfunc p with
  | Some pAssignCountry, Some pOutputWord => bool_decide (var p = g "countryCode")
  | Some pAssign0To255, Some pOutputWord => bool_decide (var p = g "rogueApMacList.no")
  | Some pAssignScMacList, o => bool_decide (o = Some pOutputScMacList)
  | Some f, Some o => negb (special f) && prints_for f o
  | Some _, None => false
  | None, _ => true
  end.

Lemma all_alike : forallb (λ p, forallb (prints_alike p) attributes) attributes = true.
Proof. vm_compute. reflexivity. Qed.
Lemma attrs_all_ok : forallb attr_ok attributes = true.
Proof. vm_compute. reflexivity. Qed.

(** No group has two attributes of one name, nor the file two groups; every
    group has a number. *)
Definition group_ok (d : CFG_s) : bool :=
  bool_decide (NoDup (map attr (attrs d))) && bool_decide (group d ≠ []) && bool_decide ("]"%char ∉ group d) &&
  short (header (group d)) && ends_line (header (group d)) &&
  existsb (λ p, match assignfunc p, outputfunc p with
                | Some f, Some pOutputByte | Some f, Some pOutputWord => negb (bool_decide (f = pAssignScMacList))
                | _, _ => false
                end) (attrs d).
Lemma groups_ok : forallb group_ok (tail CFGData) = true.
Proof. vm_compute. reflexivity. Qed.
Lemma groups_distinct : bool_decide (NoDup (map group (tail CFGData))) = true.
Proof. vm_compute. reflexivity. Qed.

(** ** What is asked, and what comes back *)

(** The value of an attribute: nothing is assigned when it is empty and its
    function is not called then; otherwise it must pass its check. *)
Definition skipped (f : assign_fn) (t : cstr) : bool := bool_decide (t = []) && negb (isNvAssignFunc f).
Definition value_ok (m : gmap cell bytes) (p : attr_s) (t : cstr) : bool :=
  match assignfunc p with
  | None => true
  | Some f => skipped f t || special f || reads_back f (default [] (m !! var p)) t
  end.

(** The variables [m] can be written and read again: secrets are shown, there
    are no legal access points, and every attribute has a text that fits its
    line and passes its check. *)
Definition exportable (cc : cstr) (m : gmap cell bytes) : bool :=
  bool_decide (m !! g "secShow" = Some [NUL]) &&
  bool_decide (m !! g "rogueApMacList.no" = Some [NUL; NUL]) &&
  forallb (λ p, match text_of m p with Some t => text_ok cc p t && value_ok m p t | None => false end) attributes.

(** What is in the variable after the import, for the country [c] of the board
    that imports. *)
Definition restored (m : gmap cell bytes) (c : Z) (p : attr_s) : option bytes :=
  match assignfunc p, text_of m p with
  | Some f, Some t =>
      if skipped f t then None
      else Some (match f with
                 | pAssignCountry => word_of c
                 | pAssign0To255 => [NUL; NUL]
                 | _ => expected f (default [] (m !! var p)) t
                 end)
  | _, _ => None
  end.

Section round.
Context (m : gmap cell bytes) (cc : cstr) (v0 : gmap cell bytes) (t0 : sys) (c : Z) (type : Z).
Hypothesis Hm : laid m.
Hypothesis Hexp : exportable cc m = true.
Hypothesis Hcc : cc ∈ country_comments.
Hypothesis Hlaid : laid v0.
Hypothesis Hssids : ssids_end v0.
Hypothesis Hcountry : sc_get_default_country t0 = Done (c, t0).
Hypothesis Hfixed : fixed_country c = true.
Hypothesis Htype : Z.land CFG_TYPE_ALL type ≠ 0.

Notation holds := (holds v0 t0).

(** The value of the attribute is in place. *)
Definition got (s : edit) (p : attr_s) : Prop :=
  ∀ w, restored m c p = Some w → ∃ i, vars s !! var p = Some i ∧ take (length w) i = w.

Lemma text_exported p : p ∈ attributes →
  ∃ t, text_of m p = Some t ∧ text_ok cc p t = true ∧ value_ok m p t = true.
Proof.
  intros Hp. unfold exportable in Hexp. apply andb_true_iff in Hexp as [_ H].
  apply (forallb_in _ _ p H) in Hp. destruct (text_of m p) as [t|]; [|done].
  apply andb_true_iff in Hp as [? ?]. by exists t.
Qed.

(** A value of the file is assigned. *)
Definition sets_var (p : attr_s) (w : bytes) (mm : M edit unit) : Prop := ∀ s, holds s →
  ∃ s' i, mm s = Done (tt, s') ∧ vars s' !! var p = Some i ∧ take (length w) i = w ∧
    ∀ v, v ≠ var p → v ≠ g "rogueApMacList.outNo" → vars s' !! v = vars s !! v.

Lemma sized s v n : holds s → layout !! v = Some n → ∃ b, vars s !! v = Some b ∧ length b = n.
Proof.
  intros Hs El. destruct (Hlaid v n El) as (b0 & Hb0 & Hn). destruct (h_size _ _ _ Hs v b0 Hb0) as (b & Hb & Hl).
  exists b. split; [done|]. congruence.
Qed.

Lemma poke_whole s v d b : vars s !! v = Some b → length b = length d → poke v 0 d s = Done (tt, upd s v d).
Proof.
  intros Hb Hl. rewrite (acts_poke v 0 d s b Hb). unfold e_put. rewrite decide_True by lia. by rewrite splice_whole.
Qed.

Lemma sets_country p t :
  var p = g "countryCode" → isdigit (ch t 0) = true → sets_var p (word_of c) (AssignCountry (var p) t).
Proof.
  intros Hv Hd s Hs. assert (El : layout !! g "countryCode" = Some 2%nat) by (vm_compute; reflexivity).
  destruct (sized s _ _ Hs El) as (b & Hb & Hl). clear El. rewrite Hv. unfold AssignCountry. rewrite Hd. cbn [negb].
  unfold onM, mbind, M_bind. rewrite (h_machine _ _ _ Hs), Hcountry, Hfixed.
  unfold set_word. change [chr (c / 256); chr c] with (word_of c).
  erewrite poke_whole; [|exact Hb|done]. eexists _, _. split; [done|].
  split; [apply lookup_insert_eq|]. split; [apply firstn_all|].
  intros v Hne _. cbn. by rewrite lookup_insert_ne.
Qed.

Lemma sets_count p : var p = g "rogueApMacList.no" → sets_var p [NUL; NUL] (Assign0To255 (var p) "0").
Proof.
  intros Hv s Hs. assert (El : layout !! g "rogueApMacList.no" = Some 2%nat) by (vm_compute; reflexivity).
  assert (El' : layout !! g "rogueApMacList.outNo" = Some 2%nat) by (vm_compute; reflexivity).
  destruct (sized s _ _ Hs El) as (b & Hb & Hl), (sized s _ _ Hs El') as (b' & Hb' & Hl'). clear El El'.
  rewrite Hv. unfold Assign0To255. change (atoi "0") with 0. change (0 <=? 255) with true. cbn [when].
  unfold set_word, mbind, M_bind. change [chr (0 / 256); chr 0] with [NUL; NUL].
  erewrite (poke_whole s); [|exact Hb|done].
  erewrite poke_whole; [|cbn; rewrite lookup_insert_ne by done; exact Hb'|done].
  eexists _, _. split; [done|]. split; [cbn; rewrite lookup_insert_ne by done; apply lookup_insert_eq|].
  split; [done|]. intros v H1 H2. cbn. by rewrite !lookup_insert_ne.
Qed.

Lemma sets_plain p f g t :
  p ∈ attributes → assignfunc p = Some f → outputfunc p = Some g → special f = false → prints_for f g = true →
  text_of m p = Some t → skipped f t = false → reads_back f (default [] (m !! var p)) t = true →
  sets_var p (expected f (default [] (m !! var p)) t) (assign_of f (var p) t).
Proof.
  intros Hp Hf Hg Hsp Hpr Ht Hsk Hr s Hs. destruct (attr_laid p f Hp Hf Hsp) as (n & El & Hsz).
  destruct (Hm _ _ El) as (b & Hb & Hn), (sized s _ _ Hs El) as (o & Ho & Hlo), (Hlaid _ _ El) as (b0 & Hb0 & _).
  clear El.
  unfold text_of in Ht. rewrite Hg, Hb in Ht. rewrite Hb in Hr |- *. cbn [default from_option] in *.
  assert (Hsh : shown g b = Some t) by (destruct g; try exact Ht; by destruct f).
  destruct (value_read f g b o t Hsp Hpr Hsh) as (i & Ei & Hi).
  - congruence.
  - congruence.
  - intros ->. destruct (h_type _ _ _ Hs p _ b0 o Hp Hf Hb0 Ho) as [->|Hin]; [by eapply Hssids|].
    by apply bool_decide_eq_true in Hin.
  - done.
  - intros ->. unfold skipped in Hsk. rewrite bool_decide_eq_true_2 in Hsk by done. by apply negb_false_iff in Hsk.
  - rewrite (assign_effect f (var p) t Hsp s o Ho), Ei. eexists _, i. split; [done|].
    split; [apply upd_eq|]. split; [done|]. intros v Hne _. cbn. by rewrite lookup_insert_ne.
Qed.

(** The step of an attribute whose value is not skipped. *)
Lemma sets_attr p f t :
  p ∈ attributes → assignfunc p = Some f → text_of m p = Some t → skipped f t = false → value_ok m p t = true →
  ∃ w, restored m c p = Some w ∧ sets_var p w (assign_of f (var p) t).
Proof.
  intros Hp Hf Ht Hsk Hv. unfold restored. rewrite Hf, Ht, Hsk. eexists. split; [done|].
  pose proof (forallb_in _ _ p attrs_all_ok Hp) as Hok. unfold attr_ok in Hok. apply andb_true_iff in Hok as [_ Hok].
  rewrite Hf in Hok. unfold value_ok in Hv. rewrite Hf, Hsk in Hv. cbn [orb] in Hv.
  destruct (special f) eqn:Hsp.
  - destruct f; try done; destruct (outputfunc p) as [g|] eqn:Hg; try done; [destruct g; try done..|].
    + apply bool_decide_eq_true in Hok. apply sets_country; [done|].
      unfold text_of in Ht. rewrite Hg, Hok in Ht. destruct (m !! g "countryCode") as [b|]; [|done].
      injection Ht as <-. pose proof (word_range b). destruct (dec_nonneg_shape (word_in b)) as (d & r & -> & Hd); [lia|]. done.
    + apply bool_decide_eq_true in Hok. unfold exportable in Hexp. apply andb_true_iff in Hexp as [H _].
      apply andb_true_iff in H as [_ H%bool_decide_eq_true]. unfold text_of in Ht. rewrite Hg, Hok, H in Ht.
      injection Ht as <-. by apply sets_count.
    + apply bool_decide_eq_true in Hok. injection Hok as ->. unfold text_of in Ht. rewrite Hg in Ht.
      injection Ht as <-. done.
  - assert (Hok' : match outputfunc p with Some o => prints_for f o = true | None => False end).
    { destruct f, (outputfunc p) as [o|]; try done; by apply andb_true_iff in Hok as [_ ?]. }
    destruct (outputfunc p) as [g|] eqn:Hg; [|done].
    pose proof (sets_plain p f g t Hp Hf Hg Hsp Hok' Ht Hsk Hv) as H. by destruct f.
Qed.

Definition is_assigned (p : attr_s) : bool := match restored m c p with Some _ => true | None => false end.

(** An attribute in place stays there. *)
Lemma got_kept p q w s s' i :
  p ∈ attributes → q ∈ attributes → restored m c p = Some w → got s q →
  vars s' !! var p = Some i → take (length w) i = w →
  (∀ v, v ≠ var p → v ≠ g "rogueApMacList.outNo" → vars s' !! v = vars s !! v) → got s' q.
Proof.
  intros Hp Hq Hw Hg Hi Ht Hother w' Hw'. destruct (decide (var q = var p)) as [E|Hne].
  - assert (w' = w) as ->; [|exists i; by rewrite E].
    unfold restored in Hw, Hw'. destruct (assignfunc p) as [f|] eqn:Hf; [|done].
    destruct (assignfunc q) as [f'|] eqn:Hf'; [|done].
    pose proof (forallb_in _ _ p all_alike Hp) as Ha. cbv beta in Ha. pose proof (forallb_in _ _ q Ha Hq) as Hal.
    pose proof (forallb_in _ _ p attrs_agree Hp) as Hb. cbv beta in Hb. pose proof (forallb_in _ _ q Hb Hq) as Hag.
    unfold prints_alike in Hal. unfold agree in Hag. rewrite Hf, Hf', E in Hal, Hag.
    rewrite (bool_decide_eq_true_2 (var p = var p)) in Hal, Hag by done. cbn [negb orb] in Hal, Hag.
    apply bool_decide_eq_true in Hal, Hag. subst f'.
    assert (text_of m q = text_of m p) as Et by (unfold text_of; by rewrite <- Hal, E).
    rewrite Et, E in Hw'. congruence.
  - destruct (Hg w' Hw') as (j & Hj & Hjt). exists j. split; [|done]. rewrite Hother; [done|congruence|].
    intros E. pose proof (forallb_in _ _ q attrs_all_ok Hq) as Hok. unfold attr_ok in Hok.
    rewrite bool_decide_eq_true_2 in Hok by done. done.
Qed.

(** One attribute of the file. *)
Lemma attr_step id d p t t' seen s :
  CFGData !! id = Some d → p ∈ attrs d → NoDup (map attr (attrs d)) → attr_type p = CFG_TYPE_ALL →
  text_of m p = Some t → value_ok m p t = true → (assignfunc p ≠ None → t' = t) →
  holds s → (∀ q, q ∈ seen → q ∈ attributes ∧ got s q) →
  ∃ s', assign_attr id type (attr p) t' s = Done (is_assigned p, s') ∧
    holds s' ∧ (∀ q, q ∈ p :: seen → q ∈ attributes ∧ got s' q).
Proof.
  intros Hid Hin Hnd Hty Ht Hv Ht' Hs Hseen.
  assert (Hp : p ∈ attributes) by (eapply in_group; [by eapply list_elem_of_lookup_2|done]).
  apply list_elem_of_lookup_1 in Hin as [i Hi].
  pose proof (survives_attr v0 t0 Hlaid Hssids id type (attr p) t' s Hs) as Hsurv. revert Hsurv.
  unfold assign_attr, matchAttr, attrs_of. rewrite Hid, (match_attr_at 0 _ i p Hnd Hi). cbn [Nat.add].
  rewrite Hi, Hty, (proj2 (Z.eqb_neq _ _)) by done.
  assert (Hnone : restored m c p = None → ∀ s0, s0 = s → ∃ s', Done (false, s0) = Done (is_assigned p, s') ∧ holds s' ∧
      (∀ q, q ∈ p :: seen → q ∈ attributes ∧ got s' q)).
  { intros E s0 ->. exists s. unfold is_assigned. rewrite E. split; [done|]. split; [done|].
    intros q [->|Hq]%elem_of_cons; [|by apply Hseen]. split; [done|]. intros w. by rewrite E. }
  destruct (assignfunc p) as [f|] eqn:Hf; [|intros _; apply Hnone; [by unfold restored; rewrite Hf|done]].
  rewrite Ht' by done. assert (Esk : negb (bool_decide (t = [])) || isNvAssignFunc f = negb (skipped f t)).
  { unfold skipped. by destruct (bool_decide _), (isNvAssignFunc f). }
  rewrite Esk. destruct (skipped f t) eqn:Hsk; cbn [negb].
  { intros _. apply Hnone; [|done]. unfold restored. by rewrite Hf, Ht, Hsk. }
  destruct (sets_attr p f t Hp Hf Ht Hsk Hv) as (w & Hw & Hset). destruct (Hset s Hs) as (s' & j & E & Hj & Hjt & Hother).
  unfold mbind, M_bind. rewrite E. cbn [mret M_ret]. intros [Hs' _]. exists s'. unfold is_assigned. rewrite Hw.
  split; [done|]. split; [done|]. intros q [->|Hq]%elem_of_cons.
  - split; [done|]. intros w'. rewrite Hw. intros [= <-]. by exists j.
  - destruct (Hseen q Hq) as [Hqa Hqg]. split; [done|]. by eapply (got_kept p q w s s' j).
Qed.

(** ** The attributes of a group *)

Definition texts (ps : list attr_s) : bytes := concat (map (λ p, attr_text cc p (default [] (text_of m p))) ps).

(** What stands behind the attributes of a group: the end of the file, or an
    empty line and the next header. *)
Definition next_group (rem : bytes) : Prop :=
  rem = [] ∨ ∃ d r, rem = [CR; LF] ++ header (group d) ++ r ∧ d ∈ tail CFGData.
Definition after (rem : bytes) : FILE := match rem with [] => File [] true | _ => File (drop 2 rem) false end.

Lemma group_facts d : d ∈ tail CFGData →
  NoDup (map attr (attrs d)) ∧ group d ≠ [] ∧ "]"%char ∉ group d ∧ is_line (header (group d)) ∧
  existsb (λ p, match assignfunc p, outputfunc p with
                | Some f, Some pOutputByte | Some f, Some pOutputWord => negb (bool_decide (f = pAssignScMacList))
                | _, _ => false
                end) (attrs d) = true.
Proof.
  intros Hd. pose proof (forallb_in _ _ d groups_ok Hd) as H. unfold group_ok in H.
  repeat rewrite andb_true_iff in H.
  destruct H as [[[[[? %bool_decide_eq_true ?%bool_decide_eq_true] ?%bool_decide_eq_true] ?] ?] ?].
  split_and!; try done. by apply is_line_spec.
Qed.

Lemma concat_length (ls : list bytes) : Forall noise_line ls → (length ls <= length (concat ls))%nat.
Proof.
  induction ls as [|l ls IH]; intros H; [done|]. apply List.Forall_cons_iff in H as [[Hl _] H].
  apply line_nonempty in Hl. cbn [concat length]. rewrite length_app. specialize (IH H). lia.
Qed.

Lemma noise_crlf : noise_line [CR; LF].
Proof. apply noise_lineb_spec. vm_compute. reflexivity. Qed.

(** No more attributes. *)
Lemma values_end fuel id good ns rem s :
  Forall noise_line ns → next_group rem → (0 < fuel)%nat →
  ParseNAssignValue fuel id type good (File (concat ns ++ rem) false) s = Done ((boolZ good, after rem), s).
Proof.
  intros Hns Hrem Hf. destruct fuel as [|fuel]; [lia|]. cbn [ParseNAssignValue feof rest].
  pose proof (concat_length ns Hns) as Hl. unfold mbind, M_bind, liftO.
  destruct Hrem as [->|(d & r & -> & Hd)].
  - rewrite app_nil_r. replace (S (S (length (concat ns)))) with (length ns + S (S (length (concat ns) - length ns)))%nat by lia.
    rewrite <- (app_nil_r (concat ns)), GetaAttr_noises by done. by rewrite GetaAttr_end.
  - destruct (group_facts d Hd) as (_ & _ & _ & Hline & _).
    assert (E : concat ns ++ [CR; LF] ++ header (group d) ++ r = concat (ns ++ [[CR; LF]]) ++ header (group d) ++ r).
    { rewrite concat_app. cbn [concat]. by rewrite <- !app_assoc. }
    assert (Hns' : Forall noise_line (ns ++ [[CR; LF]])) by (apply Forall_app; split; [done|by repeat constructor; apply noise_crlf]).
    rewrite E. replace (S (S (length (concat (ns ++ [[CR; LF]]) ++ header (group d) ++ r))))
      with (length (ns ++ [[CR; LF]]) + S (length (concat (ns ++ [[CR; LF]]) ++ header (group d) ++ r) + 1 - length (ns ++ [[CR; LF]])))%nat.
    2:{ pose proof (concat_length _ Hns') as Hl'. rewrite !length_app in *. lia. }
    rewrite GetaAttr_noises by done. unfold header in *. cbn [app] in Hline.
    by rewrite (GetaAttr_group _ (group d ++ ["]"%char; CR; LF]) r Hline).
Qed.
Lemma shape_at p : p ∈ attributes → shape_ok cc p = true.
Proof. intros Hp. pose proof (forallb_in _ _ cc shapes_ok Hcc) as H. by apply (forallb_in _ _ p H). Qed.

Lemma seen_order (p q : attr_s) ps seen : q ∈ (p :: ps) ++ seen → q ∈ ps ++ p :: seen.
Proof.
  rewrite !elem_of_app, !elem_of_cons. intros [[?|?]|?]; auto.
Qed.

(** Lines are not empty, nor are the texts of attributes. *)
Lemma lines_fit (ls : list bytes) : Forall no_group ls → (length ls <= length (concat ls))%nat.
Proof.
  induction ls as [|l ls IH]; intros H; [done|]. apply List.Forall_cons_iff in H as [[Hl _] H].
  apply line_nonempty in Hl. cbn [concat length]. rewrite length_app. specialize (IH H). lia.
Qed.

Lemma texts_long ps : (length ps <= length (texts ps))%nat.
Proof.
  induction ps as [|p ps IH]; [done|]. unfold texts in *. cbn [map concat length]. rewrite length_app.
  assert (1 <= length (attr_text cc p (default [] (text_of m p))))%nat; [|lia].
  unfold attr_text, remark, OutputComment. rewrite !length_app. cbn [length]. lia.
Qed.

(** The attributes of a group. *)
Lemma values_read id d ps fuel ns good seen s rem :
  CFGData !! id = Some d → d ∈ tail CFGData → (∀ p, p ∈ ps → p ∈ attrs d) →
  Forall noise_line ns → next_group rem → (length ps < fuel)%nat →
  holds s → (∀ q, q ∈ seen → q ∈ attributes ∧ got s q) →
  ∃ s', ParseNAssignValue fuel id type good (File (concat ns ++ texts ps ++ rem) false) s =
      Done ((boolZ (good || existsb is_assigned ps), after rem), s') ∧
    holds s' ∧ (∀ q, q ∈ ps ++ seen → q ∈ attributes ∧ got s' q).
Proof.
  intros Hid Hd. destruct (group_facts d Hd) as (Hnd & _). destruct (group_types d Hd) as [_ Hty].
  revert fuel ns good seen s. induction ps as [|p ps IH]; intros fuel ns good seen s Hps Hns Hrem Hf Hs Hseen.
  - exists s. cbn [existsb]. rewrite orb_false_r. split; [by apply values_end|done].
  - assert (Hpd : p ∈ attrs d) by apply Hps, list_elem_of_here.
    assert (Hp : p ∈ attributes) by (eapply in_group; [by apply in_tail|done]).
    destruct (text_exported p Hp) as (t & Ht & Htok & Hv). pose proof (shape_at p Hp) as Hsh.
    assert (Hps' : ∀ q, q ∈ ps → q ∈ attrs d) by (intros q Hq; apply Hps; by apply list_elem_of_further).
    unfold texts. cbn [map concat]. rewrite Ht. change (default [] (Some t)) with t. fold (texts ps).
    rewrite <- app_assoc.
    destruct (is_remark p) eqn:Hr.
    + destruct (is_remark_text cc p Hsh Hr) as [Ho Ha]. unfold text_of in Ht. rewrite Ho in Ht. injection Ht as <-.
      pose proof (remark_lines cc p [] Hsh Hr eq_refl) as Hlines. rewrite (text_split cc p []).
      assert (Hnone : restored m c p = None) by (unfold restored; by rewrite Ha).
      destruct (IH fuel (ns ++ (attr p ++ mark p ++ [] ++ head_of (trail p [] ++ remark cc p)) :: rest_of (trail p [] ++ remark cc p))
                  good (p :: seen) s) as (s' & E & Hs' & Hgot); try done.
      * by apply Forall_app.
      * cbn [length] in Hf. lia.
      * intros q [->|Hq]%elem_of_cons; [|by apply Hseen]. split; [done|]. intros w. by rewrite Hnone.
      * exists s'. rewrite concat_app in E. cbn [concat app] in E. cbn [app].
        rewrite <- ?app_assoc in E. rewrite <- ?app_assoc. rewrite E.
        cbn [existsb]. assert (is_assigned p = false) as -> by (unfold is_assigned; by rewrite Hnone). cbn [orb].
        split; [done|]. split; [done|]. intros q Hq. apply Hgot. by apply seen_order.
    + destruct fuel as [|fuel]; [cbn in Hf; lia|]. cbn [ParseNAssignValue feof rest].
      set (data := concat ns ++ attr_text cc p t ++ texts ps ++ rem).
      assert (Hfuel : S (S (length data)) = (length ns + S (S (length data) - length ns))%nat).
      { pose proof (concat_length ns Hns). unfold data. rewrite length_app. lia. }
      destruct (scan_attr cc p t Hsh Htok (S (length data) - length ns) ns (texts ps ++ rem) Hr Hns) as (t' & Eg & Ht').
      rewrite Hfuel. fold data in Eg. unfold mbind at 1, M_bind at 1, liftO. rewrite Eg.
      destruct (attr_step id d p t t' seen s Hid Hpd Hnd (Hty p Hpd) Ht Hv Ht' Hs Hseen) as (s1 & E1 & Hs1 & Hg1).
      unfold mbind at 1, M_bind at 1. rewrite E1.
      destruct (head_facts cc p t Hsh) as (_ & Hrest & _).
      destruct (IH fuel (rest_of (trail p t ++ remark cc p)) (good || is_assigned p) (p :: seen) s1) as (s' & E & Hs' & Hgot); try done.
      * cbn [length] in Hf. lia.
      * exists s'. rewrite E. cbn [existsb]. rewrite orb_assoc. split; [done|]. split; [done|].
        intros q Hq. apply Hgot. by apply seen_order.
Qed.
(** A number of each group is always assigned. *)
Lemma group_assigned d : d ∈ tail CFGData → existsb is_assigned (attrs d) = true.
Proof.
  intros Hd. destruct (group_facts d Hd) as (_ & _ & _ & _ & H). apply existsb_exists in H as (p & Hin & H).
  apply existsb_exists. exists p. split; [done|]. apply list_elem_of_In in Hin.
  assert (Hp : p ∈ attributes) by (eapply in_group; [by apply in_tail|done]).
  destruct (text_exported p Hp) as (t & Ht & _). unfold is_assigned, restored.
  destruct (assignfunc p) as [f|]; [|done]. rewrite Ht.
  assert (Hne : t ≠ []).
  { assert (Hdec : ∀ z, 0 <= z → dec z ≠ []).
    { intros z Hz. by destruct (dec_nonneg_shape z Hz) as (? & ? & -> & _). }
    unfold text_of in Ht. destruct (outputfunc p) as [[]|]; try done;
      (destruct (m !! var p) as [b|]; [|done]); injection Ht as <-; apply Hdec;
      [pose proof (byte_range b)|pose proof (word_range b)]; lia. }
  unfold skipped. by rewrite bool_decide_eq_false_2.
Qed.

(** ** The groups of the file *)

Definition groups_text (l : list CFG_s) : bytes :=
  concat (map (λ d, [CR; LF] ++ header (group d) ++ texts (attrs d)) l).
(** What is left to read before the groups [l]: behind the lines [pre], or at
    the end. *)
Definition at_groups (pre : list bytes) (l : list CFG_s) : FILE :=
  match l with
  | [] => File [] true
  | d :: l' => File (concat pre ++ header (group d) ++ texts (attrs d) ++ groups_text l') false
  end.

Lemma next_groups l : (∀ d, d ∈ l → d ∈ tail CFGData) → next_group (groups_text l) ∧ after (groups_text l) = at_groups [] l.
Proof.
  intros Hl. destruct l as [|d l]; [by split; [left|]|].
  assert (E : groups_text (d :: l) = [CR; LF] ++ header (group d) ++ texts (attrs d) ++ groups_text l).
  { unfold groups_text. cbn [map concat]. by rewrite <- !app_assoc. }
  rewrite E. split; [|done]. right.
  exists d, (texts (attrs d) ++ groups_text l). split; [done|apply Hl, list_elem_of_here].
Qed.

Lemma groups_read l0 l fuel pre good seen s :
  tail CFGData = l0 ++ l → Forall no_group pre → (length l < fuel)%nat →
  holds s → (∀ q, q ∈ seen → q ∈ attributes ∧ got s q) →
  ∃ s', parse_groups fuel type good (at_groups pre l) s = Done (good + zlen l, s') ∧
    holds s' ∧ (∀ q, q ∈ concat (map attrs l) ++ seen → q ∈ attributes ∧ got s' q).
Proof.
  revert l0 fuel pre good seen s. induction l as [|d l IH]; intros l0 fuel pre good seen s Hl Hpre Hf Hs Hseen.
  { destruct fuel as [|fuel]; [cbn in Hf; lia|]. exists s. cbn [parse_groups at_groups feof length].
    rewrite Z.add_0_r. done. }
  assert (Hin : ∀ e, e ∈ d :: l → e ∈ tail CFGData) by (intros e He; rewrite Hl, elem_of_app; by right).
  assert (Hd : d ∈ tail CFGData) by apply Hin, list_elem_of_here.
  destruct (group_facts d Hd) as (_ & Hne & Hbr & Hline & _).
  destruct fuel as [|fuel]; [cbn in Hf; lia|]. cbn [parse_groups at_groups feof rest].
  set (data := concat pre ++ header (group d) ++ texts (attrs d) ++ groups_text l).
  assert (Hfuel : S (S (length data)) = (length pre + S (S (length data) - length pre))%nat).
  { pose proof (lines_fit pre Hpre). unfold data. rewrite length_app. lia. }
  rewrite Hfuel. unfold data at 2, mbind at 1, M_bind at 1, liftO.
  rewrite GetaGroup_skips, GetaGroup_header by done.
  assert (Hgid : matchGroup (group d) = S (length l0)).
  { unfold matchGroup. rewrite (match_group_at 1 _ (length l0) d); [done| |].
    - exact (proj1 (bool_decide_eq_true _) groups_distinct).
    - by rewrite Hl, list_lookup_middle. }
  assert (Hid : CFGData !! S (length l0) = Some d).
  { rewrite <- lookup_tail, Hl. by rewrite list_lookup_middle. }
  rewrite Hgid, Hid. destruct (group_types d Hd) as [Hty _]. rewrite Hty, (proj2 (Z.eqb_neq _ _)) by done.
  destruct (next_groups l) as [Hnext Hafter]; [intros e He; apply Hin; by apply list_elem_of_further|].
  destruct (values_read (S (length l0)) d (attrs d) (S (S (length (texts (attrs d) ++ groups_text l)))) [] false seen s
              (groups_text l) Hid Hd) as (s1 & E & Hs1 & Hg1); try done.
  { pose proof (texts_long (attrs d)). rewrite length_app. lia. }
  cbn [concat app] in E. unfold mbind at 1, M_bind at 1. cbn [rest]. rewrite E, group_assigned, Hafter by done. cbn [orb boolZ].
  destruct (IH (l0 ++ [d]) fuel [] (good + 1) (attrs d ++ seen) s1) as (s' & E' & Hs' & Hg'); try done.
  { by rewrite <- app_assoc. }
  { cbn [length] in Hf. lia. }
  exists s'. rewrite E'. split; [do 2 f_equal; cbn [length]; lia|]. split; [done|].
  intros q Hq. apply Hg'. cbn [map concat] in Hq. rewrite !elem_of_app in *. tauto.
Qed.

Lemma some_groups : tail CFGData ≠ [].
Proof. intros E. assert (H : length (tail CFGData) = 0%nat) by (by rewrite E). vm_compute in H. done. Qed.
Lemma all_in_tail p : p ∈ attributes → p ∈ concat (map attrs (tail CFGData)).
Proof. assert (E : attributes = concat (map attrs (tail CFGData))) by (vm_compute; reflexivity). by rewrite E. Qed.

Lemma groups_long l : (length l <= length (groups_text l))%nat.
Proof.
  induction l as [|d l IH]; [done|]. unfold groups_text in *. cbn [map concat length]. rewrite !length_app.
  cbn [length]. lia.
Qed.

(** A file whose lines before the groups begin no group. *)
Lemma file_read pre :
  Forall no_group pre →
  ∃ s', parse_file type (concat pre ++ groups_text (tail CFGData)) (Edit v0 t0) = Done (zlen (tail CFGData), s') ∧
    holds s' ∧ (∀ p, p ∈ attributes → got s' p).
Proof.
  intros Hpre. assert (Hcrlf : no_group [CR; LF]) by (apply plain_no_group; vm_compute; reflexivity).
  assert (Hg : ∃ d l, tail CFGData = d :: l) by (pose proof some_groups as H; destruct (tail CFGData); [done|eauto]).
  destruct (groups_read [] (tail CFGData) (S (S (length (concat pre ++ groups_text (tail CFGData))))) (pre ++ [[CR; LF]])
              0 [] (Edit v0 t0)) as (s' & E & Hs' & Hgot); try done.
  - apply Forall_app. split; [done|]. constructor; [done|constructor].
  - pose proof (groups_long (tail CFGData)). rewrite length_app. lia.
  - apply holds_start.
  - intros q Hq%elem_of_nil. done.
  - exists s'. rewrite Z.add_0_l in E. split; [|split; [done|]].
    + unfold parse_file. destruct Hg as (d & l & El). rewrite El in E |- *. clear El. cbn [at_groups] in E. rewrite concat_app in E.
      cbn [concat] in E. rewrite <- !app_assoc in E. unfold groups_text in *. cbn [map concat] in *.
      rewrite <- !app_assoc. rewrite <- !app_assoc in E. exact E.
    + intros p Hp. apply Hgot. rewrite app_nil_r. by apply all_in_tail.
Qed.

(** What prints the same again. *)
Definition reprints (p : attr_s) : bool :=
  match assignfunc p with
  | None | Some pAssignKeyLen | Some pAssignPercent | Some pAssignCountry => false
  | Some _ => true
  end.

(** A value in place, and its text. *)
Lemma shown_again f o b i t :
  special f = false → prints_for f o = true → shown o b = Some t → f ≠ pAssignKeyLen → f ≠ pAssignPercent →
  length i = length b → take (length (expected f b t)) i = expected f b t → shown o i = Some t.
Proof.
  intros Hsp Hpr Hsh Hk Hpc Hl Hi. destruct (textual f) eqn:Htx.
  - assert (Hstr : shown o b = match rd_str b with Done t => Some t | _ => None end ∧
                   shown o i = match rd_str i with Done t => Some t | _ => None end).
    { destruct o; try done; by destruct f. }
    destruct Hstr as [Eb ->]. rewrite Eb in Hsh. destruct (rd_str b) as [t'| |] eqn:Er; try done.
    apply (inj Some) in Hsh. subst t'. apply rd_str_inv in Er as [Hn _].
    unfold expected in Hi. rewrite Htx in Hi. rewrite <- (take_drop (length (t ++ [NUL])) i), Hi, <- app_assoc.
    cbn [app]. by rewrite rd_str_app.
  - assert (Ew : expected f b t = b) by (unfold expected; rewrite Htx; by destruct f).
    rewrite Ew in Hi. rewrite <- Hl, firstn_all in Hi. by subst i.
Qed.

Lemma got_text s p : holds s → p ∈ attributes → reprints p = true → is_assigned p = true → got s p →
  text_of (vars s) p = text_of m p.
Proof.
  intros Hs Hp Hr Ha Hg. unfold is_assigned in Ha. destruct (restored m c p) as [w|] eqn:Hw; [|done].
  destruct (Hg w Hw) as (i & Hi & Hiw). pose proof (forallb_in _ _ p attrs_all_ok Hp) as Hok.
  destruct (text_exported p Hp) as (t & Ht & _). unfold restored in Hw. rewrite Ht in Hw.
  unfold reprints in Hr. unfold attr_ok in Hok. apply andb_true_iff in Hok as [_ Hok].
  destruct (assignfunc p) as [f|] eqn:Hf; [|done]. destruct (skipped f t); [done|]. apply (inj Some) in Hw.
  destruct (special f) eqn:Hsp.
  - destruct f; try done; destruct (outputfunc p) as [o|] eqn:Ho; try done; [destruct o; try done|].
    + apply bool_decide_eq_true in Hok. subst w. rewrite Ht. unfold text_of in Ht |- *. rewrite Ho, Hi in *.
      unfold exportable in Hexp. apply andb_true_iff in Hexp as [H _].
      apply andb_true_iff in H as [_ H%bool_decide_eq_true]. rewrite Hok, H in Ht. rewrite <- Ht.
      destruct i as [|x [|y i]]; try done. by injection Hiw as -> ->.
    + apply bool_decide_eq_true in Hok. unfold text_of. rewrite Ho. by injection Hok as ->.
  - destruct (attr_laid p f Hp Hf Hsp) as (n & El & _). destruct (Hm _ _ El) as (b & Hb & Hn).
    destruct (sized s _ _ Hs El) as (i' & Hi' & Hni). clear El. rewrite Hi in Hi'. apply (inj Some) in Hi'. subst i'.
    assert (Ho : ∃ o, outputfunc p = Some o ∧ prints_for f o = true).
    { destruct f, (outputfunc p) as [o|]; try done; apply andb_true_iff in Hok as [_ ?]; by exists o. }
    destruct Ho as (o & Ho & Hpr). rewrite Ht. unfold text_of in Ht |- *. rewrite Ho, Hi in *. rewrite Hb in *.
    cbn [default from_option] in Hw. change (Some b ≫= shown o) with (shown o b) in Ht.
    change (Some i ≫= shown o) with (shown o i).
    assert (Ew : w = expected f b t) by (subst w; destruct f; try done; by rewrite Hsp in *).
    subst w. rewrite Ew in Hiw.
    assert (Ht' : shown o b = Some t) by (destruct o; try exact Ht; by destruct f).
    assert (shown o i = Some t) as E; [|by destruct o; try exact E; destruct f].
    eapply shown_again; try done; [by intros ->|by intros ->|congruence].
Qed.
End round.

(** ** The title *)

(** The version and the pin leave their lines lines. *)
Definition title_plain (version : cstr) (m : gmap cell bytes) : bool :=
  plain_line (CFGTitle ++ version ++ [LF]) &&
  match m !! g "APpin" with
  | Some b => match rd_str b with Done pin => plain_line ((";WPS PIN: " : cstr) ++ pin ++ [LF]) | _ => false end
  | None => false
  end.

Lemma title_no_group version mac pin sum :
  plain_line (CFGTitle ++ version ++ [LF]) = true → length mac = 6%nat →
  plain_line ((";WPS PIN: " : cstr) ++ pin ++ [LF]) = true → length sum = 8%nat →
  (∀ c, c ∈ sum → isdigit c = true ∨ c = "-"%char ∨ c = " "%char) →
  Forall no_group (title_lines version mac pin sum).
Proof.
  intros Hv Hm Hp Hl Hs. unfold title_lines.
  repeat (apply List.Forall_cons; [apply plain_no_group|]); [done|by apply mac_plain|done| |constructor].
  apply plain_around.
  - rewrite Hl. unfold LINE. cbn. lia.
  - rewrite forallb_app. apply andb_true_iff. split; [reflexivity|]. apply forallb_forall. intros c Hc%list_elem_of_In.
    destruct (Hs c Hc) as [Hd|[->| ->]]; [|done..]. revert Hd. by_all_bytes c.
  - rewrite not_elem_of_app. split; [by apply (bool_decide_unpack _)|]. intros Hc.
    by destruct (Hs _ Hc) as [?|[?|?]].
Qed.
