(* ===== verification/EditTheorems.v ===== *)
(** * The theorems about the configuration file (libeditapcfg) *)

From S2P Require Import Prelude CLib FileSys Inet Utility CfgStore ApCfgSys ApCfgWlan ApCfgLists EditVars EditAssign EditOutput EditTable EditParse EditLines EditEffect EditSafe EditImport EditRead EditWrite EditRound.

#[local] Opaque layout CFGData.

(** ** Importing any file *)

(** C38: whatever bytes the file holds, importing it ends; it leaves a variable
    (a fault) or the machine is as it was, every variable has its declared size,
    and every attribute has the value it had or one of its type: a number in the
    range of its function, an address that passes its check, a terminated text. *)
Theorem import_keeps_types v t type data :
  laid v → ssids_end v →
  match parse_file type data (Edit v t) with
  | Done (_, s) =>
      machine s = t ∧ laid (vars s) ∧
      ∀ p f b, p ∈ attributes → assignfunc p = Some f → vars s !! var p = Some b →
        v !! var p = Some b ∨ in_type f b = true
  | Fault => True
  | Stuck => False
  end.
Proof.
  intros Hl Hs. pose proof (survives_file v t Hl Hs type data (Edit v t) (holds_start v t)) as H.
  destruct (parse_file type data (Edit v t)) as [[n s]| |]; [|done|done].
  destruct H as [[Hm Hsize Ht] _]. split; [done|]. split.
  - intros c n0 Hc. destruct (Hl c n0 Hc) as (b0 & Hb0 & Hlen).
    destruct (Hsize c b0 Hb0) as (b & Hb & Hbl). exists b. split; [done|congruence].
  - intros p f b Hp Hf Hb. destruct (special f) eqn:Es; [right; by apply special_typed|].
    destruct (attr_laid p f Hp Hf Es) as (n0 & Hn0 & _). destruct (Hl _ n0 Hn0) as (b0 & Hb0 & _).
    destruct (Ht p f b0 b Hp Hf Hb0 Hb) as [->|?]; auto.
Qed.

(** The variables as they start. *)
Lemma start_laid : laid vars_start.
Proof.
  apply laid_of. vm_compute. reflexivity.
Qed.
Lemma start_ssids : ssids_end vars_start.
Proof. apply ssids_of. vm_compute. reflexivity. Qed.

Definition no_machine : sys := Sys ∅ None [].
Definition small_file : bytes :=
  ("[BASIC]" : cstr) ++ [CR; LF] ++ ("IP_settings=0 ;0:static; 1:automatic" : cstr) ++ [CR; LF] ++
  ("Ipv4_address=10.0.0.256" : cstr) ++ [CR; LF].

Lemma import_keeps_types_witness :
  match parse_file CFG_TYPE_ALL small_file (Edit vars_start no_machine) with
  | Done (_, s) =>
      machine s = no_machine ∧ laid (vars s) ∧
      ∀ p f b, p ∈ attributes → assignfunc p = Some f → vars s !! var p = Some b →
        vars_start !! var p = Some b ∨ in_type f b = true
  | Fault => True
  | Stuck => False
  end.
Proof. exact (import_keeps_types vars_start no_machine CFG_TYPE_ALL small_file start_laid start_ssids). Defined.

(** ** Writing and reading *)

(** C21: what is exported can be imported again.  Let the variables be exportable:
    secrets are shown ([secShow] is 0; otherwise stars are written, which the import does not take back), there
    are no legal access points, and every attribute has a text that fits its line and passes its check;
    and let the lines of the title be plain ([title_plain]).  Then exporting succeeds, and importing the
    file, on a board whose country is fixed and with any earlier values, assigns all
    eighteen groups and leaves the machine alone.  In every variable of an attribute stands
    what was exported: texts, numbers and addresses as they were, the country of the importing
    board, the code of a key length, and a percentage up to one hundredth; exported again, an
    attribute other than these three has the same text. *)
Theorem written_file_read version m t ce v0 t0 c type :
  laid m → sc_get_default_country t = Done (ce, t) →
  exportable (nth (country_line ce) country_comments []) m = true → title_plain version m = true →
  laid v0 → ssids_end v0 → sc_get_default_country t0 = Done (c, t0) → fixed_country c = true →
  Z.land CFG_TYPE_ALL type ≠ 0 →
  ∃ text s1 s2,
    output_file type version (Edit m t) = Done (text, s1) ∧
    parse_file type text (Edit v0 t0) = Done (18, s2) ∧ machine s2 = t0 ∧
    ∀ p, p ∈ attributes →
      (∀ w, restored m c p = Some w → ∃ i, vars s2 !! var p = Some i ∧ take (length w) i = w) ∧
      (reprints p = true → is_assigned m c p = true → text_of (vars s2) p = text_of m p).
Proof.
  intros Hm Hce Hexp Htitle Hv0 Hs0 Hc Hfix Hty. set (cc := nth (country_line ce) country_comments []) in *.
  assert (Htexts : ∀ p, p ∈ attributes → ∃ t, text_of m p = Some t ∧ text_ok cc p t = true).
  { intros p Hp. destruct (text_exported m cc Hexp p Hp) as (x & ? & ? & _). by exists x. }
  pose proof Hexp as [[Hshow%bool_decide_eq_true Hno%bool_decide_eq_true]%andb_true_iff _]%andb_true_iff.
  apply andb_true_iff in Htitle as [Hver Hpin]. destruct (m !! g "APpin") as [b|] eqn:Hb; [|done].
  destruct (rd_str b) as [pin| |] eqn:Hr; try done.
  pose proof (text_runs (Edit m t) (g "APpin") b pin Hb Hr) as Hget.
  destruct (file_writes (Edit m t) ce type Hm Hshow Hno Hce Hty Htexts version pin Hget) as (text & s1 & Hout).
  destruct (file_written (Edit m t) ce type Hm Hshow Hno Hce Hty) with version text s1 as (mac & pin' & sum & Et & Hmac & Hget' & Hsum & Hchars & _); [|done|].
  { intros p Hp. destruct (Htexts p Hp) as (x & Hx & _). by exists x. }
  assert (pin' = pin) as -> by congruence.
  destruct (file_read m cc v0 t0 c type Hm Hexp (comment_of_country ce) Hv0 Hs0 Hc Hfix Hty (title_lines version mac pin sum))
    as (s2 & Hpar & Hh & Hgot).
  { by apply title_no_group. }
  exists text, s1, s2. split; [done|]. split; [rewrite Et; exact Hpar|]. split; [apply Hh|].
  intros p Hp. split; [by apply Hgot|]. intros Hre Has. eapply got_text; try done. by apply Hgot.
Qed.

(** Variables with a name, addresses, keys and the numbers that may not be 0. *)
Definition put_var (m : gmap cell bytes) (e : cell * bytes) : gmap cell bytes :=
  match m !! e.1 with Some b => <[e.1 := splice 0 e.2 b]> m | None => m end.
Definition words_at (name : cstr) (n : nat) (z : Z) : list (cell * bytes) :=
  map (λ i, ((name, i), word_of z)) (seq 0 n).
Definition office_values : list (cell * bytes) :=
  words_at "authSPort1" 1 1812 ++ words_at "authSPort2" 1 1812 ++
  map (λ i, (("keyNo" : cstr, i), [chr 1])) (seq 0 4) ++
  words_at "nativeVid" 1 1 ++ words_at "manageVid" 1 1 ++ words_at "vapVlan" 4 1 ++
  words_at "beaconInterval" 1 100 ++ [(g "dtimInter", [chr 1])] ++ words_at "fragLength" 1 2346 ++
  [(g "trapRange", [chr 254])] ++ words_at "logLength" 1 400 ++ words_at "logTime" 1 600 ++
  [(g "APName", "wap4410" : cstr); (g "IPAddress4", map chr [192; 168; 1; 245]); (g "countryCode", word_of 840); (g "APpin", "12345670" : cstr); (("ssid" : cstr, 0%nat), "second floor" : cstr);
   (("ssid" : cstr, 1%nat), ";guests" : cstr)].
Definition office : gmap cell bytes := fold_left put_var office_values vars_start.

Lemma office_laid : laid office.
Proof. apply laid_of. vm_compute. reflexivity. Qed.

(** A board of the United States, and one of Germany. *)
Definition german_board : sys := Sys {[ ("/tmp/hw_info/domain" : cstr) := ("0x80" : cstr) ++ [LF] ]} None [].

Lemma written_file_read_witness : ∃ text s1 s2,
  output_file CFG_TYPE_ALL "2.0.7.4" (Edit office no_machine) = Done (text, s1) ∧
  parse_file CFG_TYPE_ALL text (Edit vars_start german_board) = Done (18, s2) ∧ machine s2 = german_board ∧
  ∀ p, p ∈ attributes →
    (∀ w, restored office 276 p = Some w → ∃ i, vars s2 !! var p = Some i ∧ take (length w) i = w) ∧
    (reprints p = true → is_assigned office 276 p = true → text_of (vars s2) p = text_of office p).
Proof.
  apply (written_file_read "2.0.7.4" office no_machine 840 vars_start german_board 276 CFG_TYPE_ALL office_laid).
  - vm_compute. reflexivity.
  - vm_compute. reflexivity.
  - vm_compute. reflexivity.
  - exact start_laid.
  - exact start_ssids.
  - vm_compute. reflexivity.
  - vm_compute. reflexivity.
  - vm_compute. discriminate.
Defined.

(** ** Time zones *)

Definition half_hour (zone : cstr) : bool := bool_decide (drop 6 zone = (":30" : cstr)).

(** How a listed zone is taken. *)
Definition zone_taken (zone : cstr) : bool :=
  (length zone <=? size_of CFG_TIME_ZONE_LEN)%nat &&
  match scan_zone zone with
  | Done (Some i, Some h, Some m) =>
      negb ((i <? 1) || (75 <? i)) && negb ((h <? -12) || (13 <? h)) &&
      if half_hour zone then m =? 30 else (m =? 0) || (m =? 45) && (h =? 5)
  | _ => false
  end.
Lemma zones_taken : forallb (λ z, zone_taken z.1) zones = true.
Proof. vm_compute. reflexivity. Qed.

Lemma zone_effect zone o : zone_taken zone = true →
  e_zone zone o = if half_hour zone then Some o else e_strcpy zone o.
Proof.
  unfold zone_taken, e_zone. intros [Hl%Nat.leb_le H]%andb_true_iff. rewrite (proj2 (Nat.ltb_ge _ _)) by done.
  destruct (scan_zone zone) as [[[[i|] [h|]] [m|]]| |]; try done. cbn [e_lift e_assigned].
  apply andb_true_iff in H as [[Hi%negb_true_iff Hh%negb_true_iff]%andb_true_iff Hm]. rewrite Hi, Hh.
  destruct (half_hour zone).
  - apply Z.eqb_eq in Hm as ->. cbn. destruct (Z.eqb_spec h 3) as [->|]; done.
  - apply orb_true_iff in Hm as [->%Z.eqb_eq|[->%Z.eqb_eq ->%Z.eqb_eq]%andb_true_iff]; done.
Qed.

(** of the 75 zones that the file itself lists, the five whose minutes are 30
    are refused, that is the variable keeps the zone it had; each of the other
    seventy is stored. *)
Theorem listed_zones_assigned zone name v s b :
  (zone, name) ∈ zones → vars s !! v = Some b → length b = S (size_of CFG_TIME_ZONE_LEN) →
  AssignTimeZone v zone s =
    Done (tt, if half_hour zone then s else upd s v (zone ++ [NUL] ++ drop (length zone + 1) b)).
Proof.
  intros Hz Hb Hl. pose proof (forallb_in _ _ _ zones_taken Hz) as Ht. cbn [fst] in Ht.
  rewrite (acts_zone v zone s b Hb), (zone_effect zone b Ht). destruct (half_hour zone).
  - by rewrite upd_id.
  - apply andb_true_iff in Ht as [Hn%Nat.leb_le _]. unfold e_strcpy, e_put.
    rewrite decide_True by (rewrite length_app; cbn [length]; lia). unfold splice.
    rewrite length_app. cbn [take app length Nat.add]. by rewrite <- app_assoc.
Qed.

Lemma refused_zones : map fst (List.filter (λ z, half_hour z.1) zones) =
  ["043+03:30" : cstr; "046+04:30" : cstr; "049+05:30" : cstr; "065+09:30" : cstr; "066+09:30" : cstr].
Proof. vm_compute. reflexivity. Qed.

(** The zone of Chennai is not taken. *)
Lemma listed_zones_assigned_witness :
  AssignTimeZone (g "timeZone") "049+05:30" (Edit office no_machine) = Done (tt, Edit office no_machine).
Proof.
  exact (listed_zones_assigned "049+05:30" "(GMT+05:30) Chennai, Kolkata, Mumbai, New Delhi" (g "timeZone") (Edit office no_machine)
           (replicate (S (size_of CFG_TIME_ZONE_LEN)) NUL) ltac:(apply (bool_decide_unpack _); vm_compute; exact I)
           ltac:(vm_compute; reflexivity) ltac:(vm_compute; reflexivity)).
Defined.
