(* ===== verification/Cli.v ===== *)
(** * The command line: state, helpers, and what the handlers share
    (busybox/shell/linksysCli.c) *)

From S2P Require Import Prelude CLib Inet Utility FileSys CfgStore AplFlag EditAssign EditParse EditApCfg.

(** * The command line: state and helpers (busybox/shell/linksysCli.c)

    The telnet console is a command of the shell: the words of a line are
    tokens of a ring, a parser resolves them along tables of commands, and
    the handler of a command takes the remaining tokens.  This file has the
    state, the tokens and what the handlers share. *)

(** ** The state *)

(** The tables, by name with a T; what they hold is in [CliTable]. *)
Inductive tbl : Type :=
  | TconfigCmdTbl | TacllocalmodeCmdTbl | TaclCmdTbl | TactiveModeCmdTbl | TdhcpCmdTbl
  | Tdhcpv6CmdTbl | Tdot1xSuppCmdTbl | Tdot1xSuppTypeCmdTbl | TvlanModeCmdTbl
  | TwirelessModeCmdTbl | TopModeCmdTbl | TradiusSrvCliCmdGetTbl | TradiusSrvCliCmdSetTbl
  | TradiusPortCliCmdGetTbl | TradiusPortCliCmdSetTbl | TradiusSecretCliCmdGetTbl
  | TradiusSecretCliCmdSetTbl | TremotePtmpMacListCmdTbl | TsepCmdTbl | Tdot11nGuardIntervalCmdTbl
  | Tdot11nRadioBandCmdTbl | TskuCmdTbl | Tdot11dModeCmdTbl | TwmeCmdTbl | TwmmpsCmdTbl
  | ToutPowerCmdTbl | TshortPreambleCmdTbl | TinterVapForwardingCmdTbl | TssidModeCmdTbl
  | TlltdModeCmdTbl | TauthCmdTbl | TencryCmdTbl | TsecCmdTbl | TethAutoNegoCmdTbl
  | TethDuplexModeCmdTbl | TethDataRateCmdTbl | TcountryCodeCmdTbl | ThttpCmdTbl | ThttpsCmdTbl
  | TmultienhanceCmdTbl | TemailalertCmdTbl | TloginsuccessCmdTbl | TloginfailCmdTbl
  | TsyserrorCmdTbl | TconfchangeCmdTbl | TbonjourmodeCmdTbl | TwpsmodeCmdTbl | TwpsPinERCmdTbl
  | TautoRebootCmdTbl | Tforce100mmodeCmdTbl | ThttpredirectmodeCmdTbl | Tipv6modeCmdTbl
  | TtimemodeCmdTbl | TntpmodeCmdTbl | TwlanaccessmodeCmdTbl | TsshmodeCmdTbl
  | TctsprotectmodeCmdTbl | TloadbalancemodeCmdTbl | TvlantagmodeCmdTbl | TvlanWDStagmodeCmdTbl
  | TtimesetCmdTbl | TtimezoneCmdTbl | TdaylightModeCmdTbl | TsnmpModeCmdTbl | TsnmpManageCmdTbl
  | TsnmpTrapModeCmdTbl | TsyslogCmdTbl | TroguetypeCmdTbl | TroguelegalCmdTbl | TgetCmdTbl
  | TsetCmdTbl | TcmdTbl.

Definition MAX_TOKEN : nat := 50.
Definition CLI_INBUF : nat := 512.

Definition CLI_PARSE_OK : Z := 0.
Definition CLI_PARSE_ERROR : Z := -1.
Definition CLI_PARSE_NO_TBL : Z := 1.
Definition CLI_PARSE_NO_VALUE : Z := 2.
Definition CLI_PARSE_TOO_FEW : Z := 3.
Definition CLI_PARSE_UNKNOWN : Z := 5.
Definition CLI_PARSE_INVALID_PARAMETER : Z := 7.

(** [struct cli_s] with the variables around it.  [ParseTbl] are the tables
    entered so far, the last first; [CurTbl] is [pCurTokenTbl], the commands
    of its table from it on; [screen] is what was printed; [machine] is what
    the functions of the libraries work on. *)
Record cli : Type := Cli {
  ParseTbl : list tbl;
  unit_ : Z;
  vap_ : Z;
  token : list (option cstr);
  tokenIdx : nat;
  tokenLvl : Z;
  ibuf : cstr;
  CurTbl : list cstr;
  screen : bytes;
  exited : bool;
  machine : sys;
}.

Definition set_ParseTbl (x : list tbl) (s : cli) : cli :=
  Cli x (unit_ s) (vap_ s) (token s) (tokenIdx s) (tokenLvl s) (ibuf s) (CurTbl s) (screen s) (exited s) (machine s).
Definition set_cli_vap (x : Z) (s : cli) : cli :=
  Cli (ParseTbl s) (unit_ s) x (token s) (tokenIdx s) (tokenLvl s) (ibuf s) (CurTbl s) (screen s) (exited s) (machine s).
Definition set_token (x : list (option cstr)) (s : cli) : cli :=
  Cli (ParseTbl s) (unit_ s) (vap_ s) x (tokenIdx s) (tokenLvl s) (ibuf s) (CurTbl s) (screen s) (exited s) (machine s).
Definition set_tokenIdx (x : nat) (s : cli) : cli :=
  Cli (ParseTbl s) (unit_ s) (vap_ s) (token s) x (tokenLvl s) (ibuf s) (CurTbl s) (screen s) (exited s) (machine s).
Definition set_tokenLvl (x : Z) (s : cli) : cli :=
  Cli (ParseTbl s) (unit_ s) (vap_ s) (token s) (tokenIdx s) x (ibuf s) (CurTbl s) (screen s) (exited s) (machine s).
Definition set_ibuf (x : cstr) (s : cli) : cli :=
  Cli (ParseTbl s) (unit_ s) (vap_ s) (token s) (tokenIdx s) (tokenLvl s) x (CurTbl s) (screen s) (exited s) (machine s).
Definition set_CurTbl (x : list cstr) (s : cli) : cli :=
  Cli (ParseTbl s) (unit_ s) (vap_ s) (token s) (tokenIdx s) (tokenLvl s) (ibuf s) x (screen s) (exited s) (machine s).
Definition print (x : bytes) (s : cli) : cli :=
  Cli (ParseTbl s) (unit_ s) (vap_ s) (token s) (tokenIdx s) (tokenLvl s) (ibuf s) (CurTbl s) (screen s ++ x) (exited s) (machine s).
Definition set_exited (s : cli) : cli :=
  Cli (ParseTbl s) (unit_ s) (vap_ s) (token s) (tokenIdx s) (tokenLvl s) (ibuf s) (CurTbl s) (screen s) true (machine s).
Definition set_machine (x : sys) (s : cli) : cli :=
  Cli (ParseTbl s) (unit_ s) (vap_ s) (token s) (tokenIdx s) (tokenLvl s) (ibuf s) (CurTbl s) (screen s) (exited s) x.

(** A function of the libraries. *)
Definition on {A} (m : M sys A) : M cli A := λ s,
  match m (machine s) with
  | Done (a, t) => Done (a, set_machine t s)
  | Fault => Fault
  | Stuck => Stuck
  end.
(** Its result is not looked at. *)
Definition call {A} (m : M sys A) : M cli () := _ ← on m; mret tt.

(** The handlers take the unit and the access point from the state. *)
Definition on_vap {A} (f : Z → Z → M cli A) : M cli A := s ← getS; f (unit_ s) (vap_ s).
Definition ok : M cli Z := mret CLI_PARSE_OK.
Definition error : M cli Z := mret CLI_PARSE_ERROR.

(** ** Printing *)

Definition tab : ascii := "009"%char.

Definition printf (f : cstr) (args : list cstr) : M cli () := modS (print (format f args)).

Definition pAbleStr : list cstr := ["disabled" : cstr; "enabled" : cstr].
Definition disabled : cstr := "disabled".
Definition enabled : cstr := "enabled".

(** An element of an array of texts. *)
Definition at_index (l : list cstr) (i : Z) : M cli cstr :=
  if i <? 0 then faultM else match l !! Z.to_nat i with Some t => mret t | None => faultM end.

(** What is printed of the answer of a function. *)
Definition able (m : M sys Z) : M cli cstr := i ← on m; at_index pAbleStr i.
Definition number (m : M sys Z) : M cli cstr := v ← on m; mret (dec v).
Definition text (m : M sys cstr) : M cli cstr := on m.

(** [printf(f, x); return CLI_PARSE_OK;] and the same with an error. *)
Definition says (f : cstr) (x : M cli cstr) : M cli Z := t ← x; _ ← printf f [t]; ok.
Definition fails (f : cstr) : M cli Z := _ ← printf f []; error.

(** ** Tokens *)

Definition sccli_tokenInit : M cli () :=
  modS (λ s, set_ParseTbl [] (set_tokenLvl 0 (set_tokenIdx 0 (set_token (replicate MAX_TOKEN None) s)))).

Definition sccli_tokenCount : M cli Z := s ← getS; mret (zlen (omap id (token s))).

(** The places of the ring, the current one first. *)
Definition ring (idx : nat) : list nat := map (λ i, (idx + i) mod MAX_TOKEN)%nat (seq 0 MAX_TOKEN).
Definition first_token (s : cli) : option (nat * cstr) :=
  head (omap (λ i, match token s !! i with Some (Some p) => Some (i, p) | _ => None end) (ring (tokenIdx s))).

Definition sccli_tokenPop : M cli (option cstr) :=
  s ← getS;
  match first_token s with
  | None => mret None
  | Some (i, p) => _ ← modS (set_token (<[i := None]> (token s))); mret (Some p)
  end.

Definition sccli_tokenPush (p : cstr) : M cli () :=
  modS (λ s, set_tokenIdx ((tokenIdx s + 1) mod MAX_TOKEN)%nat (set_token (<[tokenIdx s := Some p]> (token s)) s)).

(** Into [ibuf], in lower case. *)
Definition sccli_tokenPopWoCase : M cli bool :=
  p ← sccli_tokenPop;
  match p with
  | None => mret false
  | Some p => if decide (length p < CLI_INBUF)%nat then _ ← modS (set_ibuf (map tolower p)); mret true else faultM
  end.

(** [*sccli_tokenPop(pCli)] where a token is known to be there. *)
Definition pop : M cli cstr := p ← sccli_tokenPop; match p with Some p => mret p | None => faultM end.

Definition deeper : M cli () := modS (λ s, set_tokenLvl (tokenLvl s + 1) s).

Fixpoint pass_digits (s : cstr) : cstr :=
  match s with
  | c :: s' => if isdigit c then pass_digits s' else s
  | [] => []
  end.

(** [strtoul(p, &pEnd, 10)]: the value and the rest, all of [p] when there is no
    digit. *)
Definition strtoul (p : cstr) : Z * cstr :=
  let '(neg, s) := match skip_space p with
                   | "-"%char :: r => (true, r) | "+"%char :: r => (false, r) | r => (false, r)
                   end in
  match s with
  | c :: _ =>
      if isdigit c then
        let v := digits_val 0 s in
        let u := if 2 ^ 32 <=? v then 2 ^ 32 - 1 else if (neg : bool) then wrap32 (- v) else v in
        (u, pass_digits s)
      else (0, p)
  | [] => (0, p)
  end.

(** [None] is CLI_PARSE_ERROR; base 10. *)
Definition sccli_tokenPopNum : M cli (option Z) :=
  _ ← deeper;
  p ← sccli_tokenPop;
  match p with
  | None => mret None
  | Some p =>
      let '(v, pEnd) := strtoul p in
      if bool_decide (pEnd = p) || negb (bool_decide (pEnd = [])) then
        _ ← printf "Invalid input\n" []; mret None
      else mret (Some (sint32 v))
  end.

(** The four parts of an address: [None] is the -1 of the loop; [q] starts
    behind the end of the part before. *)
Fixpoint addr_parts (n : nat) (q : cstr) : bool :=
  match n with
  | O => true
  | S n' =>
      let '(v, pEnd) := strtoul q in
      match pEnd with
      | [] => bool_decide (n' = 0%nat)
      | _ :: q' =>
          if (256 <=? sint32 v) || ((sint32 v =? 0) && bool_decide (pEnd = q)) then false
          else addr_parts n' q'
      end
  end.
Definition sccli_tokenGetNetAddrHandler : M cli (option Z) :=
  _ ← deeper;
  p ← sccli_tokenPop;
  match p with
  | None => _ ← printf "No value specified\n" []; mret None
  | Some p =>
      if negb (addr_parts 4 p) then mret None
      else if inet_addr p =? INADDR_NONE then mret None
      else mret (Some (inet_addr p))
  end.

(** [while (sccli_tokenCount(pCli)) { if (buf[0] != '\0') strcat(buf, " ");
    strcat(buf, sccli_tokenPop(pCli)); }], [buf] of CLI_INBUF bytes. *)
Fixpoint join_tokens (fuel : nat) (buf : cstr) : M cli cstr :=
  match fuel with
  | O => stuckM
  | S fuel' =>
      n ← sccli_tokenCount;
      if n =? 0 then mret buf
      else
        p ← pop;
        let buf := match buf with [] => p | _ => buf ++ " "%char :: p end in
        if decide (length buf < CLI_INBUF)%nat then join_tokens fuel' buf else faultM
  end.
Definition rest_of_line : M cli cstr := join_tokens (S MAX_TOKEN) [].

(** * The command line: what the handlers share (busybox/shell/linksysCli.c)

    The shapes that many handlers have in common, and the functions of
    [libutility] that only the console uses. *)

(** What the console takes from the system: the commit of the configuration
    ([apcfg_submit]), [localtime], and what [/dev/urandom] gives for a read of
    so many bytes, [None] when it cannot be opened. *)
Class Console : Type := {
  apcfg_submit : M sys ();
  localtime : Z → tm;
  urandom : nat → option bytes;
}.

(** ** Shapes of handlers *)

(** [if (sccli_tokenPopNum(...) != CLI_PARSE_ERROR) if (sccli_tokenCount(pCli)
    == 0) ...]; [other] when it is not so. *)
Definition with_num (k : Z → M cli Z) (other : M cli Z) : M cli Z :=
  v ← sccli_tokenPopNum;
  match v with
  | None => other
  | Some v => n ← sccli_tokenCount; if n =? 0 then k v else other
  end.
(** The same with an address. *)
Definition with_addr (k : Z → M cli Z) (other : M cli Z) : M cli Z :=
  a ← sccli_tokenGetNetAddrHandler;
  match a with
  | None => other
  | Some iaddr => n ← sccli_tokenCount; if n =? 0 then k iaddr else other
  end.
(** [switch (sccli_tokenCount(pCli)) { case 0: return CLI_PARSE_NO_VALUE; case 1:
    ... } return CLI_PARSE_ERROR;] *)
Definition one_value (k : M cli Z) : M cli Z :=
  n ← sccli_tokenCount;
  if n =? 0 then mret CLI_PARSE_NO_VALUE else if n =? 1 then k else error.
Definition one_token (k : cstr → M cli Z) : M cli Z := one_value (pStr ← pop; k pStr).

(** The text that stands next to an answer. *)
Definition choose (m : M sys Z) (l : list (Z * cstr)) (other : cstr) : M cli cstr :=
  v ← on m; mret (match find (λ e, e.1 =? v) l with Some e => e.2 | None => other end).

Fixpoint each {A} (l : list A) (f : A → M cli ()) : M cli () :=
  match l with
  | [] => mret tt
  | x :: l' => _ ← f x; each l' f
  end.

(** An address of 12 digits, or of 17 characters with something between the
    digits; [None]: neither. *)
Definition mac_token (pStr : cstr) : M cli (option cstr) :=
  if (length pStr =? 17)%nat then s ← liftO (scMacStr17ToStr12 pStr); mret (Some (cut_nul s))
  else if (length pStr =? 12)%nat then mret (Some pStr)
  else mret None.

(** [%0<width>d] *)
Definition padz (width : nat) (v : Z) : cstr :=
  if v <? 0 then "-"%char :: pad0 (width - 1) (dec (- v)) else pad0 width (dec v).
(** [%-<width>s] and [%2d] *)
Definition left_pad (width : nat) (t : cstr) : cstr := t ++ replicate (width - length t) " "%char.
Definition wide2 (v : Z) : cstr := replicate (2 - length (dec v)) " "%char ++ dec v.

(** [do fp = fopen(path, "r"); while (fp == NULL);] *)
Definition wait_for (path : cstr) : M cli bytes :=
  fp ← on (read_file path);
  match fp with Some data => mret data | None => stuckM end.

(** [sscanf(pStr, "%d:%d", &hour, &min)] from zeroes. *)
Definition hour_minute (pStr : cstr) : outcome (Z * Z) :=
  r ← scan_d (pStr ++ [NUL]);
  match r with
  | None => Done (0, 0)
  | Some (hour, rest) =>
      match rest with
      | ":"%char :: rest' =>
          r ← scan_d rest';
          Done (hour, match r with Some (min, _) => min | None => 0 end)
      | _ => Done (hour, 0)
      end
  end.

(** ** libutility/utility.c *)

(** [fwrite(buf,1024,1,fp)] *)
Definition COMMAND (text : cstr) : M sys () :=
  let buf := take 1023 text in
  write_file "/tmp/cmd_agent" (buf ++ replicate (1024 - length buf) NUL).

Section utility.
Context {console : Console}.

(** [fscanf(fUptime,"%s ",uptime)] into 20 bytes. *)
Definition getUpTime : M sys cstr :=
  fUptime ← read_file "/proc/uptime";
  match fUptime with
  | None => faultM
  | Some data =>
      let '(uptime, _) := span_until (filter c_isspace (map chr (seqZ 0 256))) (skip_space data) in
      match uptime with
      | [] => faultM
      | _ =>
          if decide (length uptime < 20)%nat then
            let sec := atoi (cut_nul uptime) in
            let days := Z.quot sec (60 * 60 * 24) in
            let ltm := localtime sec in
            mret ((if 0 <? days then "Day " ++ dec days ++ ", " else []) ++
                  wide2 (tm_hour ltm) ++ ":"%char :: padz 2 (tm_min ltm) ++ ":"%char :: padz 2 (tm_sec ltm))
          else faultM
      end
  end.
End utility.

(** [sscanf(line, "%x", &v)] with [v] zero before. *)
Definition hex_word (line : cstr) : Z :=
  let s := skip_space line in
  let '(neg, s) := match s with
                   | "-"%char :: r => (true, r) | "+"%char :: r => (false, r) | r => (false, r)
                   end in
  let s := if starts_nocase "0x" s then drop 2 s else s in
  let fix go (acc : Z) (s : cstr) : Z :=
    match s with
    | c :: s' => match hexval c with Some v => go (16 * acc + v) s' | None => acc end
    | [] => acc
    end in
  let v := Z.min (go 0 s) (2 ^ 32 - 1) in
  if (neg : bool) then wrap32 (- v) else v.
Definition hex_file (path : cstr) : M sys Z :=
  fp ← read_file path;
  mret (match fp with
        | Some data => hex_word (match fgets 16 data with Some (line, _) => line | None => [] end)
        | None => 0
        end).

Definition getPid : M sys cstr :=
  domain ← hex_file "/tmp/hw_info/domain";
  mret ("WAP4410N-" ++ (if domain =? SKU_US then "A" else "E")).
Definition getHwVersion : M sys cstr :=
  buffer ← getPid;
  hwv ← hex_file "/tmp/hw_info/hwv";
  mret (buffer ++ (if hwv =? 0x13 then " V02" else " V01")).
