(* ===== verification/CliSystem.v ===== *)
(** * Handlers of the command line: the system (busybox/shell/linksysCli.c)

    The handlers from the domain of the radio to the clock, the country and the
    version of the firmware. *)

From S2P Require Import Prelude CLib FileSys Inet Utility CfgStore ApCfgSys ApCfgWlan ApCfgLists AplFlag WifiScript WifiSecurity EditParse EditAssign EditApCfg Cli.

Section handlers.
Context {store : CfgStore sys} {host : Host} {console : Console}.

Definition BOOT_MTD_DEV : cstr := "/dev/mtdblock0".
Definition DOMAIN_OFFSET : nat := Z.to_nat (0x00040000 - 0x80).
(** The result; a device that ends before the place is not written. *)
Definition ModifySKUInFlash (domain : Z) : M sys Z :=
  fd ← read_file BOOT_MTD_DEV;
  match fd with
  | None => mret (-1)
  | Some m =>
      if (length m <? DOMAIN_OFFSET)%nat then mret (-1)
      else _ ← write_file BOOT_MTD_DEV (<[DOMAIN_OFFSET := chr domain]> m); mret 0
  end.
(** The byte read; [None] is -1, with [domain] as it was. *)
Definition GetSKUFromFlash : M sys (option Z) :=
  fd ← read_file BOOT_MTD_DEV;
  match fd with
  | None => mret None
  | Some m => mret (code <$> m !! DOMAIN_OFFSET)
  end.
Definition change_sku (sku : Z) (name : cstr) : M cli Z :=
  ret ← on (ModifySKUInFlash sku);
  if negb (ret =? 0) then _ ← printf "Fail change SKU to %s.\n" [name]; ok
  else
    _ ← printf "SKU is changed to %s.\n" [name];
    _ ← printf "Please reboot the device to take effect.\n" []; ok.
Definition changeSKUToUS : M cli Z := change_sku SKU_US "SKU_US".
Definition changeSKUToAU : M cli Z := change_sku SKU_AU "SKU_AU".
Definition changeSKUToJP : M cli Z := change_sku SKU_JP "SKU_JP".
Definition changeSKUToLA : M cli Z := change_sku SKU_LA "SKU_LA".
Definition changeSKUToBR : M cli Z := change_sku SKU_BR "SKU_BR".
Definition changeSKUToCN : M cli Z := change_sku SKU_CN "SKU_CN".
Definition changeSKUToKR : M cli Z := change_sku SKU_KR "SKU_KR".
Definition changeSKUToG5 : M cli Z := change_sku SKU_G5 "SKU_G5".
Definition sku_names : list (Z * cstr) :=
  [(SKU_US, "US" : cstr); (SKU_KR, "KR" : cstr); (SKU_CN, "CN" : cstr); (SKU_BR, "BR" : cstr);
   (SKU_LA, "LA" : cstr); (SKU_JP, "JP" : cstr); (SKU_AU, "AU" : cstr); (SKU_G5, "G5" : cstr)].
Definition skuCliCmdGet : M cli Z :=
  domain ← on GetSKUFromFlash;
  match find (λ e, e.1 =? default SKU_US domain) sku_names with
  | Some (_, name) => says "Current SKU: %s\n" (mret name)
  | None => ok
  end.
Definition applyCmdHandler : M cli Z := _ ← call (COMMAND "sleep 1; scapply action"); ok.
(** [exit(1)] *)
Definition sccli_exitCmdHandler : M cli Z := _ ← modS set_exited; ok.
Definition configCliCmdVap : M cli Z := with_num (λ v,
  on_vap (λ unit vap,
    mode ← on (apCfgOpModeGet RADIO_24G);
    _ ← (if mode =? CFG_OP_MODE_AP then
           if (v <? 0) || (WLAN_MAX_VAP <=? v) then printf "Invalid wlan bss number %d\n" [dec v]
           else modS (set_cli_vap v)
         else printf "In WDS mode, only vap 0 could be configed.\n" []);
    s ← getS;
    _ ← printf "Current virtual AP: %d\n" [dec (vap_ s)]; ok)) error.
Definition dot11nGuardIntervalCliCmdGet : M cli Z := on_vap (λ unit vap,
  says "11n Guard Interval: %s\n"
    (choose (scApCfgShortGIGet unit) [(1, "Auto" : cstr); (0, "Short" : cstr)] "Long")).
Definition dot11nGuardIntervalCmdAuto : M cli Z := on_vap (λ unit vap,
  _ ← call (scApCfgShortGISet unit 1);
  says "11n Guard Interval: %s\n" (mret ("Auto" : cstr))).
Definition dot11nGuardIntervalCmdShort : M cli Z := on_vap (λ unit vap,
  _ ← call (scApCfgShortGISet unit 0);
  says "11n Guard Interval: %s\n" (mret ("Short" : cstr))).
Definition dot11nGuardIntervalCmdLong : M cli Z := on_vap (λ unit vap,
  _ ← call (scApCfgShortGISet unit 2);
  says "11n Guard Interval: %s\n" (mret ("Long" : cstr))).
Definition dot11nRadioBandCliCmdGet : M cli Z := on_vap (λ unit vap,
  says "11n Channel Bandwidth: %s\n"
    (choose (apCfgChannelWidthModeGet unit)
       [(0, "Standard-20MHz Channel" : cstr); (1, "Auto-20/40MHz Channel" : cstr)] "Wide-40MHz Channel")).
Definition dot11nRadioBandCmdStandard : M cli Z := on_vap (λ unit vap,
  _ ← call (apCfgChannelWidthModeSet unit 0);
  says "11n Channel Bandwidth: %s\n" (mret ("Standard-20MHz Channel" : cstr))).
Definition wide_mode (width : Z) (name : cstr) : M cli Z := on_vap (λ unit vap,
  mode ← on (apCfgOpModeGet unit);
  if (mode =? CFG_OP_MODE_ROGAP) || (mode =? CFG_OP_MODE_UC) || (mode =? CFG_OP_MODE_UR) then
    _ ← printf "On %qWireless Client/Repeater%q Mode, %q%s%q is not support!\n" [name]; error
  else
    _ ← call (apCfgChannelWidthModeSet unit width);
    says "11n Channel Bandwidth: %s\n" (mret name)).
Definition dot11nRadioBandCmdAuto : M cli Z := wide_mode 1 "Auto-20/40MHz Channel".
Definition dot11nRadioBandCmdWide : M cli Z := wide_mode 2 "Wide-40MHz Channel".
Definition dot11dModeCliCmdGet : M cli Z := on_vap (λ unit vap,
  says "802.11d Mode: %s\n" (able (scApCfg80211dEnabledGet unit))).
Definition dot11dModeCmdEnable : M cli Z := on_vap (λ unit vap,
  _ ← call (scApCfg80211dEnabledSet unit 1);
  says "802.11d Mode: %s\n" (able (scApCfg80211dEnabledGet unit))).
Definition dot11dModeCmdDisable : M cli Z := on_vap (λ unit vap,
  _ ← call (scApCfg80211dEnabledSet unit 0);
  says "802.11d Mode: %s\n" (able (scApCfg80211dEnabledGet unit))).
Definition dtimModeCliCmdGet : M cli Z := on_vap (λ unit vap,
  says "DTIM Interval: %d\n" (number (scApCfgDtimIntervalGet unit))).
Definition dtimModeCliCmdSet : M cli Z := on_vap (λ unit vap,
  v ← sccli_tokenPopNum;
  match v with
  | None => ok
  | Some v =>
      n ← sccli_tokenCount;
      let shown := says "DTIM Interval: %d\n" (number (scApCfgDtimIntervalGet unit)) in
      if n =? 0 then
        if (v <? 1) || (255 <? v) then fails "Invalid DTIM Interval Range: 1 ~ 255\n"
        else
          rc ← on (scApCfgDtimIntervalSet unit v);
          if negb (rc =? A_OK) then _ ← printf "Invalid DTIM Interval: %d\n" [dec v]; error else shown
      else shown
  end).
Definition aclCliCmdGet : M cli Z := on_vap (λ unit vap,
  mode ← on (apCfgAclModeGet unit 0);
  _ ← printf "Access Control: %s\n"
        [if mode =? APCFG_ACL_DISABLED then "Disabled" : cstr else if mode =? APCFG_ACL_LOCAL then "Local" : cstr else "Radius"];
  if mode =? APCFG_ACL_LOCAL then
    _ ← printf "     Trusted Stations List: " [];
    r ← on (scAclBufGet false unit vap);
    let '(got, _, es) := (r : bool * bool * list scAclBuf_s) in
    if negb (got : bool) then stuckM
    else
      match es with
      | [] => _ ← printf "None\n" []; ok
      | _ =>
          _ ← printf "\n\t===MAC Address===\n" [];
          _ ← each es (λ e, printf "\t%s\n" [acl_mac e]); ok
      end
  else ok).
Definition aclCliCmdDisable : M cli Z := on_vap (λ unit vap,
  _ ← call (apCfgAclModeSet unit 0 APCFG_ACL_DISABLED);
  says "Access Control: %s\n" (mret ("Disabled" : cstr))).
Definition aclCliCmdLocal : M cli Z := on_vap (λ unit vap,
  _ ← call (apCfgAclModeSet unit 0 APCFG_ACL_LOCAL);
  says "Access Control: %s\n" (mret ("Local" : cstr))).
Definition aclCliCmdRadius : M cli Z := on_vap (λ unit vap,
  _ ← call (apCfgAclModeSet unit 0 APCFG_ACL_RADIUS);
  says "Access Control: %s\n" (mret ("Radius" : cstr))).
Definition aclCliCmdAdd : M cli Z := on_vap (λ unit vap,
  n ← sccli_tokenCount;
  if n =? 1 then
    pStr ← pop;
    m ← mac_token pStr;
    match m with
    | None => fails "Invalid Input\n"
    | Some macStr12 =>
        hex ← liftO (scValidHexs macStr12 12);
        if negb hex then fails "Invalid Input\n"
        else
          macStr17 ← liftO (scMacStr12ToStr17 macStr12 ":"%char);
          rc ← on (apCfgAclAdd unit 0 macStr17 "Unknown" 1);
          if rc =? A_OK then says "%s had added to trusted list.\n" (mret macStr17)
          else fails "The ACL MAC List had Full.\nYou must remove some MAC before add it.\n"
    end
  else fails "set acl add %qMAC Address%q \n").
Definition aclCliCmdDel : M cli Z := on_vap (λ unit vap,
  n ← sccli_tokenCount;
  if n =? 1 then
    pStr ← pop;
    m ← mac_token pStr;
    match m with
    | None => fails "Invalid Input\n"
    | Some macStr12 =>
        hex ← liftO (scValidHexs macStr12 12);
        if negb hex then fails "Invalid Input\n"
        else
          macStr17 ← liftO (scMacStr12ToStr17 macStr12 ":"%char);
          rc ← on (apCfgAclDel unit 0 macStr17);
          if rc =? A_OK then says "%s had deleted from trusted list.\n" (mret macStr17)
          else if rc =? A_ENOENT then _ ← printf "%s is not in trusted list.\n" [macStr17]; error
          else fails "set acl del %qMAC Address%q\n"
    end
  else fails "set acl del %qMAC Address%q\n").
Definition activeModeCliCmdGet : M cli Z := on_vap (λ unit vap,
  says "VAP Active (up) Mode: %s\n" (able (apCfgActiveModeGet unit vap))).
Definition activeModeCliCmdDisable : M cli Z := on_vap (λ unit vap,
  if vap =? 0 then _ ← printf "VAP 0 could not be disabled\n" []; ok
  else
    _ ← call (apCfgActiveModeSet unit vap 0);
    _ ← call (scSetDefaultVap unit vap);
    says "VAP Active Mode: %s\n" (mret disabled)).
Definition activeModeCliCmdEnable : M cli Z := on_vap (λ unit vap,
  _ ← call (apCfgActiveModeSet unit vap 1);
  says "VAP Active Mode: %s\n" (mret enabled)).
Definition agingCliCmdGet : M cli Z := on_vap (λ unit vap,
  says "Idle Timeout Interval: %d Minutes\n" (number (scApCfgIdleTimeoutIntervalGet unit))).
Definition agingCliCmdSet : M cli Z := on_vap (λ unit vap, with_num (λ v,
  _ ← (if (v <? SC_MIN_IDLETIMEOUT_INTERVAL) || (SC_MAX_IDLETIMEOUT_INTERVAL <? v) then
         printf "Idle timeout interval is invalid. Valid range is %d ~ %d\n"
           [dec SC_MIN_IDLETIMEOUT_INTERVAL; dec SC_MAX_IDLETIMEOUT_INTERVAL]
       else call (scApCfgIdleTimeoutIntervalSet unit v));
  says "Idle Timeout Interval: %d Minutes\n" (number (scApCfgIdleTimeoutIntervalGet unit))) error).
Definition cliGetAutoNego : M cli Z := v ← on apCfgAutonegoGet; mret (if v =? 1 then 1 else 0).
Definition cliGetEthDataRate : M cli Z :=
  v ← on apCfgEthDataRateGet;
  mret (if v =? 1000 then 1 else if v =? 100 then 2 else if v =? 10 then 3 else 0).
Definition cliSetEthDataRate (index : Z) : M cli () :=
  call (apCfgEthDataRateSet (if index =? 1 then 1000 else if index =? 2 then 100 else if index =? 3 then 10 else 0)).
Definition cliGetWirelessSecurity (unit pro : Z) : M cli Z :=
  v ← on (apCfgAuthTypeGet unit pro);
  mret (if v =? APCFG_AUTH_NONE then 0 else if v =? APCFG_AUTH_WPAPSK then 2
        else if v =? APCFG_AUTH_WPA2PSK then 3 else if v =? APCFG_AUTH_WPA_AUTO_PSK then 4
        else if v =? APCFG_AUTH_WPA then 5 else if v =? APCFG_AUTH_WPA2 then 6
        else if v =? APCFG_AUTH_WPA_AUTO then 7 else if v =? APCFG_AUTH_DOT1X then 8 else 1).
Definition cliSetWirelessSecurity (unit vap index : Z) : M cli () :=
  let auth := λ a, call (apCfgAuthTypeSet unit vap a) in
  let cipher := λ c, call (apCfgWPACipherSet unit vap c) in
  if index =? 0 then auth APCFG_AUTH_NONE
  else if index =? 1 then auth APCFG_AUTH_OPEN_SYSTEM
  else if index =? 2 then auth APCFG_AUTH_WPAPSK
  else if index =? 3 then _ ← auth APCFG_AUTH_WPA2PSK; cipher WPA_CIPHER_AES
  else if index =? 4 then _ ← auth APCFG_AUTH_WPA_AUTO_PSK; cipher WPA_CIPHER_AUTO
  else if index =? 5 then auth APCFG_AUTH_WPA
  else if index =? 6 then _ ← auth APCFG_AUTH_WPA2; cipher WPA_CIPHER_AES
  else if index =? 7 then _ ← auth APCFG_AUTH_WPA_AUTO; cipher WPA_CIPHER_AUTO
  else if index =? 8 then auth (Z.lor APCFG_AUTH_DOT1X DOT1X_MODE_DYNAMIC)
  else mret tt.
Definition cliGetWEPAuth (unit pro : Z) : M cli Z :=
  v ← on (apCfgAuthTypeGet unit pro);
  mret (if v =? APCFG_AUTH_SHARED_KEY then 2 else if v =? APCFG_AUTH_OPEN_SYSTEM then 1
        else if v =? APCFG_AUTH_AUTO then 0 else 1).
Definition cliSetWEPAuth (unit pro index : Z) : M cli () :=
  if index =? 0 then call (apCfgAuthTypeSet unit pro APCFG_AUTH_AUTO)
  else if index =? 1 then call (apCfgAuthTypeSet unit pro APCFG_AUTH_OPEN_SYSTEM)
  else if index =? 2 then call (apCfgAuthTypeSet unit pro APCFG_AUTH_SHARED_KEY)
  else mret tt.
(** [versionStr] is not initialised. *)
Definition fwversionCmdGet : M cli Z :=
  v ← on (getVersion 30);
  match v with Some v => says "Software Version: %s\n" (mret v) | None => faultM end.
Definition todCliCmdGet : M cli Z := says "System Time: %s\n" (text getTimeofDay).
(** The next number of a date or a time. *)
Definition next_number (separ : ascii) (saved : cstr) : M cli (Z * cstr) :=
  let '(value, saved) := strtok [separ] saved in
  match value with Some t => mret (atoi t, saved) | None => faultM end.
(** Three numbers, each stored before the next is looked at. *)
Definition date_numbers (separ : ascii) (buf : cstr) (set1 set2 set3 : Z → M sys Z) (shown : M cli Z) : M cli Z :=
  r1 ← next_number separ buf; let '(v1, saved) := (r1 : Z * cstr) in
  rc ← on (set1 v1);
  if negb (rc =? A_OK) then error
  else
    r2 ← next_number separ saved; let '(v2, saved) := (r2 : Z * cstr) in
    rc ← on (set2 v2);
    if negb (rc =? A_OK) then error
    else
      r3 ← next_number separ saved;
      rc ← on (set3 (r3 : Z * cstr).1);
      if negb (rc =? A_OK) then error else shown.
Definition manual_time (body : cstr → M cli Z) (usage1 usage2 : cstr) : M cli Z :=
  n ← sccli_tokenCount;
  if negb (n =? 1) then _ ← printf usage1 []; _ ← printf usage2 []; error
  else
    mode ← on apCfgTimeModeGet;
    if negb (mode =? 1) then
      _ ← printf "Time Mode: Automatically\n" [];
      fails "Please set Time mode to Manually First.\n"
    else
      pToken ← pop;
      date ← on (strcpy_buf 32 pToken);
      body date.
Definition todCliCmdSet : M cli Z :=
  manual_time (λ date, date_numbers "/"%char date apCfgTimeYearSet apCfgTimeMonSet apCfgTimeDaySet
    (y ← on apCfgTimeYearGet; m ← on apCfgTimeMonGet; d ← on apCfgTimeDayGet;
     _ ← printf "Date Set:%04d/%02d/%02d\n" [padz 4 y; padz 2 m; padz 2 d]; ok))
    "USEAGE for Date:\n" "\tForamt : xxxx/xx/xx(year/month/day)\n".
Definition tocCliCmdSet : M cli Z :=
  manual_time (λ iclock, date_numbers ":"%char iclock apCfgTimeHourSet apCfgTimeMinSet apCfgTimeSecSet
    (h ← on apCfgTimeHourGet; m ← on apCfgTimeMinGet; s ← on apCfgTimeSecGet;
     _ ← printf "Time Set: %02d:%02d:%02d\n" [padz 2 h; padz 2 m; padz 2 s]; ok))
    "USEAGE for Time:\n" "\tForamt : xx:xx:xx(hour:minute:second)\n".
Definition uptimeCliCmdGet : M cli Z := says "AP Uptime: %s\n" (text getUpTime).
End handlers.
