(* ===== verification/CliServices.v ===== *)
(** * Handlers of the command line: addresses and services (busybox/shell/linksysCli.c)

    The handlers from the addresses of the device to mail, names and the reboot
    of every day. *)

From S2P Require Import Prelude CLib FileSys Inet Utility CfgStore ApCfgSys ApCfgWlan ApCfgLists AplFlag WifiSecurity EditParse EditAssign EditApCfg Cli CliSystem.

Section handlers.
Context {store : CfgStore sys} {host : Host} {console : Console}.

(** [while(!feof(fp))]: the name behind which the code of the country stands. *)
Fixpoint country_named (fuel : nat) (fp : FILE) : M cli (option cstr) :=
  match fuel with
  | O => stuckM
  | S fuel' =>
      if feof fp then mret None
      else
        let '(buffer, fp) := fgets_line 63 fp in
        let '(pCountry, saved) := strtok ["-"%char] buffer in
        match (strtok ["-"%char] saved).1 with
        | None => faultM
        | Some pCode =>
            code ← on apCfgCountryCodeGet;
            if atoi pCode =? code then
              match pCountry with Some p => mret (Some p) | None => faultM end
            else country_named fuel' fp
        end
  end.
Definition countryCodeCliCmdGet : M cli Z :=
  data ← wait_for "/tmp/country_list";
  r ← country_named (S (S (length data))) (File data false);
  match r with
  | Some pCountry => says "Country/Domain: %s\n" (mret pCountry)
  | None => _ ← printf "Country/Domain: Error\n" []; ok
  end.
(** The first blank is closed up; the last character stays where it was. *)
Fixpoint close_blank (buffer : cstr) : cstr :=
  match buffer with
  | [] => []
  | c :: b => if decide (c = " "%char) then b ++ match last b with Some l => [l] | None => [c] end
              else c :: close_blank b
  end.
(** The code behind the name of the country. *)
Fixpoint country_coded (fuel : nat) (data : bytes) (name : cstr) : M cli (option cstr) :=
  match fuel with
  | O => stuckM
  | S fuel' =>
      match fgets 63 data with
      | None => mret None
      | Some (buffer, data) =>
          let '(pCountry, saved) := strtok ["-"%char] (close_blank buffer) in
          match pCountry with
          | None => faultM
          | Some p =>
              if bool_decide (take (length name) p = name) then
                match (strtok ["-"%char] saved).1 with Some pCode => mret (Some pCode) | None => faultM end
              else country_coded fuel' data name
          end
      end
  end.
(** [strncasecmp(pToken, pCmd, strlen(pCmd)) == 0] *)
Definition begins_with (pToken pCmd : cstr) : bool :=
  bool_decide (map tolower (take (length pCmd) pToken) = map tolower pCmd).
Definition countryCodeCliCmdSet : M cli Z :=
  data ← wait_for "/tmp/country_list";
  n ← sccli_tokenCount;
  s ← getS;
  if negb (n =? 0) then fails "Invalid Country/Region.\n"
  else
    match find (begins_with (ibuf s)) (CurTbl s) with
    | None => fails "Invalid Country/Region.\n"
    | Some pCmd =>
        r ← country_coded (S (length data)) data pCmd;
        match r with
        | None => fails "Invalid Country/Region. The Country isn't in current Domain.\n"
        | Some pCode =>
            _ ← call (apCfgCountryCodeSet (atoi pCode));
            says "Country/Region: %s\n" (mret pCmd)
        end
    end.
Definition dhcpModeCliCmdGet : M cli Z :=
  says "DHCPv4 Mode: %s\n"
    (c ← on apCfgDhcpEnableGet;
     if negb (c =? 0) then mret ("Client" : cstr)
     else s ← on apCfgDhcpServerEnableGet; mret (if negb (s =? 0) then "Server" : cstr else "Disabled")).
Definition dhcpv6ModeCliCmdGet : M cli Z :=
  says "DHCPv6 Mode: %s\n"
    (c ← on apCfgDhcp6EnableGet; mret (if negb (c =? 0) then "Client" : cstr else "Disabled")).
Definition dhcpCliCmdDisable : M cli Z :=
  _ ← call (apCfgDhcpEnableSet 0);
  _ ← call (apCfgDhcpServerEnableSet 0);
  says "DHCPv4 Mode: %s\n" (mret disabled).
Definition dhcpv6CliCmdDisable : M cli Z :=
  _ ← call (apCfgDhcp6EnableSet 0);
  says "DHCPv6 Mode: %s\n" (mret disabled).
Definition dhcpCliCmdClient : M cli Z :=
  _ ← call (apCfgDhcpEnableSet 1);
  _ ← call (apCfgDhcpServerEnableSet 0);
  says "DHCPv4 Mode: %s\n" (mret ("Client" : cstr)).
Definition dhcpv6CliCmdClient : M cli Z :=
  _ ← call (apCfgDhcp6EnableSet 1);
  says "DHCPv6 Mode: %s\n" (mret ("Client" : cstr)).
(** The text of an address. *)
Definition netstr (m : M sys Z) : M cli cstr := v ← on m; mret (inet_ntoa v).
Definition ipAddrCliCmdGet : M cli Z := says "IP Address: %s\n" (netstr apCfgIpAddrGet).
Definition ipAddrCliCmdSet : M cli Z :=
  let bad := fails "Invalid IP Address\n" in
  with_addr (λ iaddr,
    let netstr := inet_ntoa iaddr in
    let bad' := _ ← printf "Invalid IP Address %s\n" [netstr]; bad in
    if iaddr =? 0 then bad'
    else
      valid ← liftO (scValidIpAddress iaddr);
      if (valid : bool) then
        _ ← call (apCfgIpAddrSet (sint32 iaddr));
        _ ← printf "IP Address: %s\n" [netstr];
        mask ← on apCfgIpMaskGet; gw ← on apCfgGatewayAddrGet;
        _ ← (if scValidIpMaskGateWay iaddr (wrap32 mask) (wrap32 gw) then mret tt
             else printf "Warning: Gateway in different subnet. Please check the Gateway IP and Subnet Mask. \n" []);
        ok
      else bad') bad.
Definition ipMaskCliCmdGet : M cli Z := says "IP Subnet Mask: %s\n" (netstr apCfgIpMaskGet).
Definition ipMaskCliCmdSet : M cli Z :=
  let bad := fails "Invalid IP Subnet Mask\n" in
  with_addr (λ ipmask,
    valid ← liftO (scValidIpMask ipmask);
    if negb (valid : bool * option Z).1 then bad
    else
      ip ← on apCfgIpAddrGet; gw ← on apCfgGatewayAddrGet;
      if scValidIpMaskGateWay (wrap32 ip) ipmask (wrap32 gw) then
        _ ← call (apCfgIpMaskSet (sint32 ipmask));
        says "IP Subnet Mask: %s\n" (mret (inet_ntoa ipmask))
      else bad) bad.
Definition gatewayCliCmdGet : M cli Z := says "Gateway IP Address: %s\n" (netstr apCfgGatewayAddrGet).
Definition gatewayCliCmdSet : M cli Z :=
  let bad := fails "Invalid Gateway IP Address\n" in
  with_addr (λ iaddr,
    valid ← liftO (scValidIpAddress iaddr);
    if negb (valid : bool) then bad
    else
      ip ← on apCfgIpAddrGet; mask ← on apCfgIpMaskGet;
      if scValidIpMaskGateWay (wrap32 ip) (wrap32 mask) iaddr then
        _ ← call (apCfgGatewayAddrSet (sint32 iaddr));
        says "Gateway IP Address: %s\n" (mret (if iaddr =? 0 then [] else inet_ntoa iaddr))
      else bad) bad.
Definition nameSrvCliCmdGet : M cli Z :=
  says "DNS Server IP Address: %s\n" (text apCfgNameSrvGet).
(** A name server: an address, or nothing for 0.0.0.0. *)
Definition name_server (set : cstr → M sys Z) : M cli Z :=
  n ← sccli_tokenCount;
  if n =? 0 then mret CLI_PARSE_NO_VALUE
  else if n =? 1 then
    with_addr (λ iaddr,
      let netstr := if iaddr =? 0 then [] else inet_ntoa iaddr in
      rc ← on (set netstr);
      if negb (rc =? A_OK) then fails "Name server address too long.\n"
      else says "Name Server IP Address: %s\n" (mret netstr))
      (fails "Invalid Name Server IP Address\n")
  else error.
Definition nameSrvCliCmdSet : M cli Z := name_server apCfgNameSrvSet.
Definition ntpServerCliCmdGet : M cli Z :=
  says "SNTP/NTP Server IP Address: %s\n" (text apCfgNtpServerGet).
Definition ntpServerCliCmdSet : M cli Z :=
  a ← sccli_tokenGetNetAddrHandler;
  match a with
  | None => fails "Invalid IP Address\n"
  | Some iaddr =>
      n ← sccli_tokenCount;
      if negb (n =? 0) then error
      else if iaddr =? 0 then _ ← printf "Invalid IP Address %s\n" [inet_ntoa iaddr]; error
      else
        _ ← call (apCfgNtpServerSet (inet_ntoa iaddr));
        says "SNTP/NTP Server IP Address: %s\n" (text apCfgNtpServerGet)
  end.
Definition opModeCliCmdUc : M cli Z := on_vap (λ unit vap,
  _ ← call (apCfgOpModeSet unit CFG_OP_MODE_UC);
  says "Operating as %s\n" (mret ("Bridge(Unversal Client)" : cstr))).
Definition opModeCliCmdUr : M cli Z := on_vap (λ unit vap,
  _ ← call (apCfgOpModeSet unit CFG_OP_MODE_UR);
  says "Operating as %s\n" (mret ("Bridge(UnversalRepeater)" : cstr))).
Definition opModeCliCmdRogueAp : M cli Z := on_vap (λ unit vap,
  _ ← call (apCfgOpModeSet unit CFG_OP_MODE_ROGAP);
  says "Operating as %s\n" (mret ("Wireless Monitor" : cstr))).
(** The SSID as it is shown: in UTF-8 when it can be converted. *)
Definition ssid_shown (get : M sys cstr) : M cli cstr :=
  pSrc ← on get;
  ret ← on (do_convert true pSrc);
  mret (match ret with
        | Some converted_text => if (length converted_text <? 128)%nat then converted_text else pSrc
        | None => pSrc
        end).
Definition remotessidCliCmdGet : M cli Z := on_vap (λ unit vap,
  says "Remote SSID: %s\n" (ssid_shown (apCfgSsidGet unit 0))).
(** The tokens with blanks between them: [None] when they are too long. *)
Fixpoint ssid_tokens (fuel : nat) (ssidLen : Z) (buf : cstr) : M cli (option (Z * cstr)) :=
  match fuel with
  | O => stuckM
  | S fuel' =>
      n ← sccli_tokenCount;
      if n =? 0 then mret (Some (ssidLen, buf))
      else
        p ← pop;
        let ssidLen := ssidLen + zlen p + 1 in
        if MAX_SSID + 1 <? ssidLen then mret None
        else ssid_tokens fuel' ssidLen (match buf with [] => p | _ => buf ++ " "%char :: p end)
  end.
(** [strncpy(buf, converted_text, MAX_SSID)]: a text of 32 bytes and more is not
    terminated; what is behind was only written when [buf] was as long. *)
Definition strncpy_over (buf text : cstr) : outcome cstr :=
  let n := Z.to_nat MAX_SSID in
  if (length text <? n)%nat then Done text
  else if (n <=? length buf)%nat then Done (take n text ++ drop n buf) else Fault.
Definition ssid_entered (buf : cstr) : M cli cstr :=
  ret ← on (do_convert false buf);
  match ret with
  | Some converted_text =>
      if (length converted_text <? 128)%nat then liftO (strncpy_over buf converted_text) else mret buf
  | None => mret buf
  end.
Definition remotessidCliCmdSet : M cli Z := on_vap (λ unit vap,
  n ← sccli_tokenCount;
  if n =? 0 then mret CLI_PARSE_NO_VALUE
  else
    r ← ssid_tokens (S MAX_TOKEN) 0 [];
    match r with
    | None => fails "SSID string is too long\n"
    | Some (_, buf) =>
        buf ← ssid_entered buf;
        result ← on (apCfgSsidSet unit 0 buf);
        if negb (result =? A_OK) then fails "SSID is invalid.\n"
        else says "Remote SSID: %s\n" (ssid_shown (apCfgSsidGet unit 0))
    end).
(** The address of the remote access point, through a buffer of 18 bytes. *)
Definition remote_mac (unit : Z) : M cli cstr := p ← on (apCfgRemoteApMacAddrGet unit); on (strcpy_buf 18 p).
Definition remoteUcrMacAddrCliCmdGet : M cli Z := on_vap (λ unit vap,
  says "Remote AP MAC Address: %s\n" (remote_mac unit)).
(** The second digit of the address of one station is even. *)
Definition unicast_digit (macStr12 : cstr) : bool :=
  bool_decide (ch macStr12 1 ∈ ["2"; "4"; "6"; "8"; "0"]%char).
Definition remoteUcrMacAddrCliCmdSet : M cli Z := on_vap (λ unit vap,
  let bad := fails "Invalid Input\n" in
  n ← sccli_tokenCount;
  if negb (n =? 1) then bad
  else
    pStr ← pop;
    mode ← on (apCfgOpModeGet unit);
    if negb (mode =? CFG_OP_MODE_UC) && negb (mode =? CFG_OP_MODE_UR) then fails "Operation mode must be UC/UR.\n"
    else
      m ← mac_token pStr;
      match m with
      | None => bad
      | Some macStr12 =>
          hex ← liftO (scValidHexs macStr12 12);
          if negb hex then bad
          else if negb (unicast_digit macStr12) then bad
          else
            macStr17 ← liftO (scMacStr12ToStr17 macStr12 ":"%char);
            rc ← on (apCfgRemoteApMacAddrSet unit macStr17);
            if rc =? A_OK then says "Remote AP MAC Address: %s\n" (mret macStr17) else bad
      end).
Definition snmpContactCliCmdGet : M cli Z :=
  says "SNMP Contact: %s\n" (text apCfgSnmpContactGet).
(** One token for a setter that may refuse it. *)
Definition set_text (set : cstr → M sys Z) (shown : M cli Z) (refused : cstr) : M cli Z :=
  one_token (λ pStr, rc ← on (set pStr); if rc =? A_OK then shown else fails refused).
Definition snmpContactCliCmdSet : M cli Z :=
  set_text apCfgSnmpContactSet (says "SNMP Contact: %s\n" (text apCfgSnmpContactGet)) "SNMP Contact is too long\n".
Definition snmpDeviceNameCliCmdGet : M cli Z :=
  says "SNMP Device Name: %s\n" (text apCfgDescGet).
Definition snmpDeviceNameCliCmdSet : M cli Z :=
  set_text apCfgDescSet (says "SNMP Device Name: %s\n" (text apCfgDescGet)) "SNMP Device Name is too long\n".
Definition AutoRebootCliCmdGet : M cli Z := says "Daily Reboot: %s\n" (able apCfgAutoRebootModeGet).
Definition reboot_time : M cli Z :=
  t ← on apCfgAutoRebootTimeGet;
  _ ← printf "Time of Daily Reboot: %02d:%02d\n" [padz 2 (t : Z * Z).1; padz 2 (t : Z * Z).2]; ok.
Definition AutoRebootStartTimeCliCmdGet : M cli Z := reboot_time.
Definition AutoRebootStartTimeCliCmdSet : M cli Z :=
  let bad := fails "Bad format, correct format is 'Hour:Minute'. Hour: 0-23, Minute: 0-59.\n" in
  one_token (λ pStr,
    if negb (bool_decide (":"%char ∈ pStr)) then bad
    else if negb (forallb (λ c, isdigit c || bool_decide (c = ":"%char)) pStr) then bad
    else
      hm ← liftO (hour_minute pStr);
      rc ← on (scApCfgAutoRebootTimeSet (hm : Z * Z).1 (hm : Z * Z).2);
      if rc =? A_OK then reboot_time else bad).
Definition snmpLocationCliCmdGet : M cli Z :=
  says "SNMP Location: %s\n" (text apCfgSnmpLocationGet).
Definition snmpLocationCliCmdSet : M cli Z :=
  set_text apCfgSnmpLocationSet (says "SNMP Location: %s\n" (text apCfgSnmpLocationGet)) "SNMP Location is too long\n".
Definition snmpTrapComCliCmdGet : M cli Z :=
  says "SNMP Trap Community: %s\n" (text apCfgSnmpTrapCommunityGet).
Definition snmpTrapComCliCmdSet : M cli Z :=
  set_text apCfgSnmpTrapCommunitySet (says "SNMP Trap Community: %s\n" (text apCfgSnmpTrapCommunityGet))
    "SNMP Trap Community is too long\n".
Definition emailAlertCliCmdGet : M cli Z :=
  says "Email Alert: %s\n" (able apCfgemailAlertsEnabledGet).
Definition emailAlertCliCmdDisable : M cli Z :=
  _ ← call (apCfgemailAlertsEnabledSet 0);
  says "Email Alert: %s\n" (mret disabled).
Definition emailAlertCliCmdEnable : M cli Z :=
  _ ← call (apCfgemailAlertsEnabledSet 1);
  says "Email Alert: %s\n" (mret enabled).
Definition emailServerCliCmdGet : M cli Z :=
  says "SMTP Server: %s\n" (text apCfgsmtpMailServerGet).
(** Each token is a server; the last one that is set stays. *)
Fixpoint mail_servers (fuel : nat) : M cli Z :=
  match fuel with
  | O => stuckM
  | S fuel' =>
      n ← sccli_tokenCount;
      if n =? 0 then ok
      else
        pStr ← pop;
        if 64 <? zlen pStr then fails "SMTP Server string is too long\n"
        else
          url ← liftO (scValidUrl pStr);
          if (url : bool) && negb (starts_nocase "http://" pStr) && negb (starts_nocase "https://" pStr) then
            _ ← call (apCfgsmtpMailServerSet pStr);
            t ← text apCfgsmtpMailServerGet;
            _ ← printf "SMTP Server: %s\n" [t];
            mail_servers fuel'
          else fails "SMTP Server is invalid\n"
  end.
Definition emailServerCliCmdSet : M cli Z :=
  n ← sccli_tokenCount;
  if n =? 0 then mret CLI_PARSE_NO_VALUE else mail_servers (S MAX_TOKEN).
Definition emailAddressCliCmdGet : M cli Z :=
  says "E-Mail Address for Logs: %s\n" (text apCfgemailAddrForLogGet).
(** The last token; its length counts with the tokens before it. *)
Fixpoint mail_address (fuel : nat) (mailaddrLen : Z) (buff : cstr) : M cli (option cstr) :=
  match fuel with
  | O => stuckM
  | S fuel' =>
      n ← sccli_tokenCount;
      if n =? 0 then mret (Some buff)
      else
        pStr ← pop;
        let mailaddrLen := mailaddrLen + zlen pStr + 1 in
        if 65 <? mailaddrLen then _ ← printf "Email Address string is too long\n" []; mret None
        else if scValidEmailAddr pStr (mailaddrLen - 1) then mail_address fuel' mailaddrLen pStr
        else _ ← printf "Email Address string is Invalid.\n" []; mret None
  end.
Definition emailAddressCliCmdSet : M cli Z :=
  n ← sccli_tokenCount;
  if n =? 0 then mret CLI_PARSE_NO_VALUE
  else
    r ← mail_address (S MAX_TOKEN) 0 [];
    match r with
    | None => error
    | Some buff =>
        result ← on (apCfgemailAddrForLogSet buff);
        if negb (result =? A_OK) then fails "Email Address is invalid.\n"
        else says "Email Address: %s\n" (text apCfgemailAddrForLogGet)
    end.
Definition emailQueueLengthCliCmdGet : M cli Z :=
  says "Log Queue Length: %d\n" (number apCfgemailAlertsQlenGet).
Definition emailQueueLengthCliCmdSet : M cli Z := with_num (λ v,
  _ ← (if (v <? 1) || (500 <? v) then
         printf "Log Queue Length is invalid. Valid range is %d ~ %d\n" [dec 1; dec 500]
       else call (scApCfgemailAlertsQlenSet v));
  says "Log Queue Length: %d\n" (number apCfgemailAlertsQlenGet)) error.
Definition emailSendPeriodCliCmdGet : M cli Z :=
  says "Log Time Threshold: %d\n" (number scApCfgemailAlertsIntervalGet).
Definition emailSendPeriodCliCmdSet : M cli Z := with_num (λ v,
  _ ← (if (v <? 60) || (600 <? v) then
         printf "Log Time Threshold is invalid. Valid range is %d ~ %d\n" [dec 60; dec 600]
       else call (scApCfgemailAlertsIntervalSet v));
  says "Log Time Threshold: %d\n" (number scApCfgemailAlertsIntervalGet)) error.
Definition loginSuccessCliCmdGet : M cli Z :=
  says "Authorized Login: %s\n" (able apCfgAuthLoginGet).
Definition loginSuccessCliCmdDisable : M cli Z :=
  _ ← call (apCfgAuthLoginSet 0);
  says "Authorized Login: %s\n" (mret disabled).
Definition loginSuccessCliCmdEnable : M cli Z :=
  _ ← call (apCfgAuthLoginSet 1);
  says "Authorized Login: %s\n" (mret enabled).
Definition loginFailCliCmdGet : M cli Z :=
  says "Unauthorized Login Attempt: %s\n" (able apCfgDeauthGet).
Definition loginFailCliCmdDisable : M cli Z :=
  _ ← call (apCfgDeauthSet 0);
  says "Unauthorized Login Attempt: %s\n" (mret disabled).
Definition loginFailCliCmdEnable : M cli Z :=
  _ ← call (apCfgDeauthSet 1);
  says "Unauthorized Login Attempt: %s\n" (mret enabled).
Definition sysErrorCliCmdGet : M cli Z :=
  says "System Error Messages: %s\n" (able apCfgChangeSysFucGet).
Definition sysErrorCliCmdDisable : M cli Z :=
  _ ← call (apCfgChangeSysFucSet 0);
  says "System Error Messages: %s\n" (mret disabled).
Definition sysErrorCliCmdEnable : M cli Z :=
  _ ← call (apCfgChangeSysFucSet 1);
  says "System Error Messages: %s\n" (mret enabled).
Definition confChangeCliCmdGet : M cli Z :=
  says "Configuration Changes: %s\n" (able apCfgChangeCfgGet).
Definition confChangeCliCmdDisable : M cli Z :=
  _ ← call (apCfgChangeCfgSet 0);
  says "Configuration Changes: %s\n" (mret disabled).
Definition confChangeCliCmdEnable : M cli Z :=
  _ ← call (apCfgChangeCfgSet 1);
  says "Configuration Changes: %s\n" (mret enabled).
Definition hostnameCliCmdGet : M cli Z :=
  says "Host Name: %s\n" (text apCfgSysNameGet).
Definition hostnameCliCmdSet : M cli Z :=
  n ← sccli_tokenCount;
  if n =? 0 then mret CLI_PARSE_NO_VALUE
  else
    buf ← rest_of_line;
    valid ← liftO (scValidHostName buf (zlen buf));
    if negb (valid : bool) then
      fails "Access Point Host Name is invalid. Host Name is:\n 1) contains only letters, digits and hyphens.\n 2) can't begin or end with a hyphen.\n 3) doesn't allow all digits string.\n"
    else
      rc ← on (apCfgSysNameSet buf);
      _ ← (if rc =? A_OK then mret tt else printf "host name too long!\n" []);
      says "Host Name: %s\n" (text apCfgSysNameGet).
Definition WpsPinCliCmdGet : M cli Z :=
  says "WPS PIN: %s\n" (text (apCfgDevicePinGet 0 0)).
Definition ValidateChecksum (PIN : Z) : bool :=
  let accum := 3 * ((PIN / 10000000) mod 10) + 1 * ((PIN / 1000000) mod 10) + 3 * ((PIN / 100000) mod 10) +
               1 * ((PIN / 10000) mod 10) + 3 * ((PIN / 1000) mod 10) + 1 * ((PIN / 100) mod 10) +
               3 * ((PIN / 10) mod 10) + 1 * ((PIN / 1) mod 10) in
  accum mod 10 =? 0.
(** [atol] reads on behind the eighth digit. *)
Definition IsValidWpsPin (wps_pin : cstr) : bool :=
  let eight := take (Z.to_nat WPS_PIN_LEN) wps_pin in
  if bool_decide (length eight = Z.to_nat WPS_PIN_LEN) && forallb isdigit eight
  then ValidateChecksum (wrap32 (atoi wps_pin)) else false.
Definition WpsPinCliCmdSet : M cli Z :=
  n ← sccli_tokenCount;
  if n =? 0 then mret CLI_PARSE_NO_VALUE
  else
    buf ← rest_of_line;
    if negb (IsValidWpsPin buf) then fails "Invalid PIN Code\n"
    else
      rc ← on (apCfgDevicePinSet 0 0 buf);
      _ ← (if rc =? A_OK then mret tt else printf "Invalid PIN Code\n" []);
      says "WPS PIN: %s\n" (text (apCfgDevicePinGet 0 0)).
Definition devicenameCliCmdGet : M cli Z :=
  says "Device Name: %s\n" (text apCfgDescGet).
Definition devicenameCliCmdSet : M cli Z :=
  n ← sccli_tokenCount;
  if n =? 0 then mret CLI_PARSE_NO_VALUE
  else
    buf ← rest_of_line;
    valid ← liftO (scValidNetbiosName buf (zlen buf));
    if negb (valid : bool) then
      fails "Access Point Device Name is invalid. Do not use punctuation or special characters.\n"
    else
      rc ← on (apCfgDescSet buf);
      _ ← (if rc =? A_OK then mret tt else printf "device name too long!\n" []);
      says "Device Name: %s\n" (text apCfgDescGet).
Definition nameSrv2CliCmdGet : M cli Z :=
  says "Secondary DNS Server IP Address: %s\n" (text apCfgNameSrv2Get).
Definition nameSrv2CliCmdSet : M cli Z := name_server apCfgNameSrv2Set.
Definition ipv6ModeCliCmdGet : M cli Z :=
  says "IPv6: %s\n" (able apCfgipv6modeGet).
Definition ipv6ModeCliCmdDisable : M cli Z :=
  _ ← call (apCfgipv6modeSet 0);
  says "IPv6: %s\n" (mret disabled).
(** [string = strchr(addr, '/'), string + 1] *)
Fixpoint behind_slash (s : cstr) : option cstr :=
  match s with
  | [] => None
  | c :: s' => if decide (c = "/"%char) then Some s' else behind_slash s'
  end.
Definition ipv6ModeCliCmdEnable : M cli Z :=
  addr ← on apCfgIpv6AddrGet;
  if bool_decide (addr = []) then fails "Invalid Ipv6 address,Address can not be blank\n"
  else
    match behind_slash addr with
    | None | Some [] => fails "Invalid Ipv6 Prefix Length\n"
    | Some _ =>
        _ ← call (apCfgipv6modeSet 1);
        says "IPv6: %s\n" (mret enabled)
    end.
(** What stands in [iface_status], and with router advertisements a second one. *)
Definition v6_shown (title : cstr) (fixed : M sys cstr) (field : cstr * cstr → cstr) : M cli Z :=
  mode ← on apCfgipv6modeGet;
  if mode =? 0 then _ ← printf "IPv6 Disable.\n" []; ok
  else
    _ ← printf title [];
    dhcp ← on apCfgDhcp6EnableGet;
    _ ← (if dhcp =? 0 then t ← on fixed; printf "%s" [t]
         else if dhcp =? 1 then
           i1 ← on (getMgtBrv6Info 1);
           let first := field i1 in
           _ ← (match first with [] => mret tt | _ => printf "%s" [first] end);
           radvd ← on apCfgRadvdEnableGet;
           if radvd =? 1 then
             i2 ← on (getMgtBrv6Info 2);
             let second := field i2 in
             match second, first with
             | [], _ => mret tt
             | _, [] => printf "%s" [second]
             | _, _ => printf "\t\t\t %s" [second]
             end
           else mret tt
         else mret tt);
    _ ← printf "\n" []; ok.
Definition ipv6AddrCliCmdGet : M cli Z := v6_shown "IPv6 Address: " apCfgIpv6AddrGet fst.
End handlers.
