(* ===== verification/CliNetwork.v ===== *)
(** * Handlers of the command line: the network and the access points (busybox/shell/linksysCli.c)

    The handlers from version 6 of the protocol to the virtual LANs and the mode
    of operation. *)

From S2P Require Import Prelude CLib FileSys Inet Utility CfgStore ApCfgSys ApCfgWlan ApCfgLists AplFlag WifiSecurity EditParse EditAssign EditApCfg Cli CliSystem CliServices.

Section handlers.
Context {store : CfgStore sys} {host : Host} {console : Console}.

(** The first token; the others are not looked at. *)
Definition v6_entered (valid : cstr → outcome bool) (set : cstr → M sys Z) (shown : M cli Z) (refused : cstr) : M cli Z :=
  n ← sccli_tokenCount;
  if n =? 0 then mret CLI_PARSE_NO_VALUE
  else
    str ← pop;
    v ← liftO (valid str);
    if negb (v : bool) then fails refused
    else
      rc ← on (set str);
      if negb (rc =? A_OK) then fails refused else shown.
Definition ipv6AddrCliCmdSet : M cli Z :=
  v6_entered (λ s, Done (scValidIPv6 s true)) apCfgIpv6AddrSet
    (says "IPv6 Address: %s\n" (text apCfgIpv6AddrGet)) "Input Ipv6 Address is wrong!\n".
Definition ipv6dns1CliCmdGet : M cli Z :=
  says "IPv6 Primary DNS: %s\n" (text apCfgNameSrv61Get).
Definition ipv6dns1CliCmdSet : M cli Z :=
  v6_entered (λ s, Done (scValidIPv6 s false)) apCfgNameSrv61Set
    (says "IPv6 Primary DNS: %s\n" (text apCfgNameSrv61Get)) "Input Primary DNS is wrong!\n".
Definition ipv6dns2CliCmdGet : M cli Z :=
  says "IPv6 Secondary DNS: %s\n" (text apCfgNameSrv62Get).
Definition ipv6dns2CliCmdSet : M cli Z :=
  v6_entered (λ s, Done (scValidIPv6 s false)) apCfgNameSrv62Set
    (says "IPv6 Secondary DNS: %s\n" (text apCfgNameSrv62Get)) "Input Secondary DNS is wrong!\n".
Definition ipv6gatewayCliCmdGet : M cli Z := v6_shown "IPv6 Default Gateway: " apCfgGatewayv6AddrGet snd.
Definition ipv6gatewayCliCmdSet : M cli Z :=
  v6_entered scValidGWv6 apCfgGatewayv6AddrSet
    (says "IPv6 Default Gateway: %s\n" (text apCfgGatewayv6AddrGet)) "Input Default Gateway is wrong!\n".
Definition timeModeCliCmdGet : M cli Z :=
  says "Time Mode: %s\n" (m ← on apCfgTimeModeGet; mret (if m =? 0 then "Automatically" : cstr else "Manually")).
Definition timeModeCliCmdDisable : M cli Z :=
  _ ← call (apCfgTimeModeSet 0);
  _ ← printf "Time Mode: Automatically\n" [];
  ok.
Definition timeModeCliCmdEnable : M cli Z :=
  _ ← call (apCfgTimeModeSet 1);
  _ ← printf "Time Mode: Manually\n" [];
  ok.
Definition ntpModeCliCmdGet : M cli Z :=
  says "NTP Mode: %s\n" (able apCfgNtpModeGet).
Definition ntpModeCliCmdDisable : M cli Z :=
  _ ← call (apCfgNtpModeSet 0);
  says "NTP Mode: %s\n" (mret disabled).
Definition ntpModeCliCmdEnable : M cli Z :=
  _ ← call (apCfgNtpModeSet 1);
  says "NTP Mode: %s\n" (mret enabled).
Definition BonjourModeCliCmdGet : M cli Z :=
  says "Bonjour Mode: %s\n" (able apCfgBonjourGet).
Definition BonjourModeCliCmdDisable : M cli Z :=
  _ ← call (apCfgBonjourSet 0);
  says "Bonjour Mode: %s\n" (mret disabled).
Definition BonjourModeCliCmdEnable : M cli Z :=
  _ ← call (apCfgBonjourSet 1);
  says "Bonjour Mode: %s\n" (mret enabled).
Definition WpsModeCliCmdGet : M cli Z :=
  says "WPS Mode: %s\n" (able (apCfgWpsModeGet 0)).
Definition WpsModeCliCmdDisable : M cli Z :=
  _ ← call (apCfgWpsModeSet 0 0);
  says "WPS Mode: %s\n" (mret disabled).
Definition WpsModeCliCmdEnable : M cli Z :=
  _ ← call (apCfgWpsModeSet 0 1);
  says "WPS Mode: %s\n" (mret enabled).
Definition WpsPinERCliCmdGet : M cli Z :=
  says "WPS PIN External Registrar: %s\n" (able (apCfgWpsPinERGet 0)).
Definition WpsPinERCliCmdDisable : M cli Z :=
  _ ← call (apCfgWpsPinERSet 0 0);
  says "WPS PIN External Registrar: %s\n" (mret disabled).
Definition WpsPinERCliCmdEnable : M cli Z :=
  _ ← call (apCfgWpsPinERSet 0 1);
  says "WPS PIN External Registrar: %s\n" (mret enabled).
Definition AutoRebootCliCmdDisable : M cli Z :=
  _ ← call (apCfgAutoRebootModeSet 0);
  says "Daily Reboot: %s\n" (mret disabled).
Definition AutoRebootCliCmdEnable : M cli Z :=
  _ ← call (apCfgAutoRebootModeSet 1);
  says "Daily Reboot: %s\n" (mret enabled).
Definition force100mModeCliCmdGet : M cli Z :=
  says "Force LAN Port Speed to 100M: %s\n" (able apCfgForce100mGet).
Definition force100mModeCliCmdDisable : M cli Z :=
  _ ← call (apCfgForce100mSet 0);
  says "Force LAN Port Speed to 100M: %s\n" (mret disabled).
Definition force100mModeCliCmdEnable : M cli Z :=
  _ ← call (apCfgForce100mSet 1);
  says "Force LAN Port Speed to 100M: %s\n" (mret enabled).
Definition httpRDModeCliCmdGet : M cli Z :=
  says "HTTP Redirect Mode: %s\n" (able apCfgRedirectModeGet).
Definition httpRDModeCliCmdDisable : M cli Z :=
  _ ← call (apCfgRedirectModeSet 0);
  says "HTTP Redirect Mode: %s\n" (mret disabled).
Definition httpRDModeCliCmdEnable : M cli Z :=
  _ ← call (apCfgRedirectModeSet 1);
  says "HTTP Redirect Mode: %s\n" (mret enabled).
Definition httpURLCliCmdGet : M cli Z :=
  says "HTTP Redirect URL: %s\n" (text apCfgRedirectUrlGet).
Definition httpURLCliCmdSet : M cli Z :=
  n ← sccli_tokenCount;
  if n =? 0 then mret CLI_PARSE_NO_VALUE
  else
    pStr ← pop;
    buf ← on (strcpy_buf 128 pStr);
    if starts "https" pStr then fails "https can not support by http Redirect.\n"
    else
      url ← liftO (scValidUrl pStr);
      if negb (url : bool) then fails "HTTP Redirect URL is invalid.\n"
      else
        result ← on (apCfgRedirectUrlSet buf);
        if negb (result =? A_OK) then fails "HTTP Redirect URL is invalid.\n"
        else says "HTTP Redirect URL: %s\n" (text apCfgRedirectUrlGet).
Definition wlanAccessModeCliCmdGet : M cli Z :=
  says "Wireless Web Access Mode: %s\n" (able apCfgWlanAccessGet).
Definition wlanAccessModeCliCmdDisable : M cli Z :=
  _ ← call (apCfgWlanAccessSet 0);
  says "Wireless Web Access: %s\n" (mret disabled).
Definition wlanAccessModeCliCmdEnable : M cli Z :=
  _ ← call (apCfgWlanAccessSet 1);
  says "Wireless Web Access: %s\n" (mret enabled).
Definition sshModeCliCmdGet : M cli Z :=
  says "SSH Mode: %s\n" (able apCfgSSHGet).
Definition sshModeCliCmdDisable : M cli Z :=
  _ ← call (apCfgSSHSet 0);
  says "SSH: %s\n" (mret disabled).
Definition sshModeCliCmdEnable : M cli Z :=
  _ ← call (apCfgSSHSet 1);
  says "SSH: %s\n" (mret enabled).
Definition aclLocalModeCliCmdGet : M cli Z := on_vap (λ unit vap,
  says "Access Control Local Mode: %s\n" (choose (apCfgAclTypeGet unit vap) [(0, "Allow" : cstr)] "Prevent")).
Definition aclLocalModeCliCmdAllow : M cli Z := on_vap (λ unit vap,
  _ ← call (apCfgAclTypeSet unit vap 0);
  _ ← printf "Access Control Local Mode: Allow\n" [];
  ok).
Definition aclLocalModeCliCmdPrevent : M cli Z := on_vap (λ unit vap,
  _ ← call (apCfgAclTypeSet unit vap 1);
  _ ← printf "Access Control Local Mode: Prevent\n" [];
  ok).
Definition ctsProtectModeCliCmdGet : M cli Z := on_vap (λ unit vap,
  says "CTS Protection Mode: %s\n" (able (apCfgCTSModeGet unit))).
Definition ctsProtectModeCliCmdDisable : M cli Z := on_vap (λ unit vap,
  _ ← call (apCfgCTSModeSet unit 0);
  says "CTS Protection: %s\n" (mret disabled)).
Definition ctsProtectModeCliCmdAuto : M cli Z := on_vap (λ unit vap,
  _ ← call (apCfgCTSModeSet unit 1);
  _ ← printf "CTS Protection: Auto\n" [];
  ok).
Definition loadBalanceModeCliCmdGet : M cli Z := on_vap (λ unit vap,
  says "Load Balancing Mode: %s\n" (able (apCfgBalanceModeGet unit))).
Definition loadBalanceModeCliCmdDisable : M cli Z := on_vap (λ unit vap,
  _ ← call (apCfgBalanceModeSet unit 0);
  says "Load Balancing: %s\n" (mret disabled)).
Definition loadBalanceModeCliCmdEnable : M cli Z := on_vap (λ unit vap,
  _ ← call (apCfgBalanceModeSet unit 1);
  says "Load Balancing: %s\n" (mret enabled)).
(** [%.2f] of a number of hundredths. *)
Definition hundredths (v : Z) : cstr :=
  (if v <? 0 then ["-"%char] else []) ++ dec (Z.abs v / 100) ++ "."%char :: pad0 2 (dec (Z.abs v mod 100)).
Definition loadBalanceSSIDCliCmdGet : M cli Z := on_vap (λ unit vap,
  Balance ← on (apCfgLoadBalanceGet unit vap);
  _ ← printf "Load Balancing SSID %d: %.2f%%\n" [dec vap; hundredths Balance]; ok).
(** [(int)atof(value)]: the part before the point. *)
Definition atof_int (value : cstr) : option Z :=
  match scan_f value with
  | None => Some 0
  | Some (ScanNum neg n d) =>
      let t := (n / d) in
      let v := if (neg : bool) then - t else t in
      if (- 2 ^ 31 <=? v) && (v <? 2 ^ 31) then Some v else None
  | Some _ => None
  end.
Definition loadBalanceSSIDCliCmdSet : M cli Z := on_vap (λ unit vap,
  n ← sccli_tokenCount;
  if n =? 1 then
    value ← pop;
    match atof_int value with
    | None => faultM
    | Some i =>
        let v := sint32 (i * 100) in
        if (v <? 0) || (10000 <? v) then fails "Load Balancing 0%% ~ 100%%\n"
        else
          _ ← call (apCfgLoadBalanceSet unit vap v);
          b ← on (apCfgLoadBalanceGet unit vap);
          _ ← printf "Set Load Balancing SSID %d: %.2f%%: \n" [dec vap; hundredths b]; ok
    end
  else fails "Invalid Input\n").
Definition magvlanCliCmdGet : M cli Z :=
  says "AP Management VLAN: %d\n" (number apCfgManagementVlanIdGet).
(** A VLAN identifier, and the list of those in use. *)
Definition vlan_entered (range : cstr) (set : Z → M sys Z) (shown : M cli Z) : M cli Z := on_vap (λ unit vap,
  with_num (λ v,
    if (v <? VLAN_TAG_MIN) || (VLAN_TAG_MAX <? v) then _ ← printf range [dec VLAN_TAG_MIN; dec VLAN_TAG_MAX]; error
    else
      _ ← call (set v);
      _ ← call (apCfgVlanListApply unit);
      shown) (fails "Invalid Vlan\n")).
Definition magvlanCliCmdSet : M cli Z :=
  vlan_entered "range of AP Management VLAN %d ~ %d\n" apCfgManagementVlanIdSet
    (says "Set AP Management VLAN: %d\n" (number apCfgManagementVlanIdGet)).
Definition defaultvlanCliCmdGet : M cli Z :=
  says "Default VLAN: %d\n" (number apCfgNativeVlanIdGet).
Definition defaultvlanCliCmdSet : M cli Z :=
  vlan_entered "range of Default VLAN %d ~ %d\n" apCfgNativeVlanIdSet
    (says "Set Default VLAN: %d\n" (number apCfgNativeVlanIdGet)).
Definition vlanTagModeCliCmdGet : M cli Z :=
  says "Vlan Tag Mode: %s\n" (choose apCfgNativeVlanTagGet [(0, "Untagged" : cstr)] "Tagged").
Definition vlanTagModeCliCmdDisable : M cli Z :=
  _ ← call (apCfgNativeVlanTagSet 0);
  _ ← printf "Vlan Tag: Untagged\n" [];
  ok.
Definition vlanTagModeCliCmdEnable : M cli Z :=
  _ ← call (apCfgNativeVlanTagSet 1);
  _ ← printf "Vlan Tag: Tagged\n" [];
  ok.
Definition vlanWDSTagModeCliCmdGet : M cli Z :=
  says "VLAN Tag over WDS Mode: %s\n" (able apCfgWdsVlanTagGet).
Definition vlanWDSTagModeCliCmdDisable : M cli Z :=
  _ ← call (apCfgWdsVlanTagSet 0);
  says "VLAN Tag over WDS: %s\n" (mret disabled).
Definition vlanWDSTagModeCliCmdEnable : M cli Z :=
  _ ← call (apCfgWdsVlanTagSet 1);
  says "VLAN Tag over WDS: %s\n" (mret enabled).
Definition priorityCliCmdGet : M cli Z := on_vap (λ unit vap,
  says "Priority: %d\n" (number (apCfgPriorityGet unit vap))).
Definition priorityCliCmdSet : M cli Z := on_vap (λ unit vap, with_num (λ v,
  if (v <? 0) || (7 <? v) then fails "range of Priority 0 ~ 7\n"
  else
    _ ← call (apCfgPrioritySet unit vap v);
    says "Set Priority: %d\n" (number (apCfgPriorityGet unit vap))) (fails "Invalid Priority\n")).
Definition dot1xSuppCliCmdGet : M cli Z :=
  says "802.1x MD5 Supplicant: %s\n" (able scApCfgDot1xSuppEnableGet).
Definition dot1xSuppCliCmdDisable : M cli Z :=
  _ ← call (scApCfgDot1xSuppEnableSet 0);
  says "802.1x MD5 Supplicant: %s\n" (able scApCfgDot1xSuppEnableGet).
Definition dot1xSuppCliCmdEnable : M cli Z :=
  _ ← call (scApCfgDot1xSuppEnableSet 1);
  says "802.1x MD5 Supplicant: %s\n" (able scApCfgDot1xSuppEnableGet).
Definition dot1xSuppTypeCliCmdGet : M cli Z :=
  says "802.1x MD5 Supplicant Type: %s\n" (choose scApCfgDot1xSuppMacEnableGet [(0, "user" : cstr)] "mac").
Definition dot1xSuppTypeCliCmdUser : M cli Z :=
  _ ← call (scApCfgDot1xSuppMacEnableSet 0);
  _ ← printf "802.1x MD5 Supplicant Type: user\n" [];
  ok.
Definition dot1xSuppTypeCliCmdMac : M cli Z :=
  _ ← call (scApCfgDot1xSuppMacEnableSet 1);
  _ ← printf "802.1x MD5 Supplicant Type: mac\n" [];
  ok.
Definition dot1xSuppUserCliCmdGet : M cli Z :=
  says "802.1x Supplicant MD5 Name: %s\n" (text scApCfgDot1xSuppUsernameGet).
(** One token for a setter; a refusal is told, and the answer is OK all the same. *)
Definition tell_text (set : cstr → M sys Z) (refused : cstr) (shown : M cli Z) (pStr : cstr) : M cli Z :=
  rc ← on (set pStr);
  _ ← (if rc =? A_OK then mret tt else printf refused []);
  shown.
Definition dot1xSuppUserCliCmdSet : M cli Z :=
  one_token (tell_text scApCfgDot1xSuppUsernameSet "802.1x Supplicant MD5 Name is too long\n"
    (says "802.1x Supplicant MD5 Name: %s\n" (text scApCfgDot1xSuppUsernameGet))).
Definition dot1xSuppPassCliCmdGet : M cli Z :=
  says "802.1x Supplicant MD5 Password: %s\n" (text scApCfgDot1xSuppPasswordGet).
Definition dot1xSuppPassCliCmdSet : M cli Z :=
  let shown := says "802.1x Supplicant MD5 Password: %s\n" (text scApCfgDot1xSuppPasswordGet) in
  n ← sccli_tokenCount;
  if n =? 0 then _ ← call (scApCfgDot1xSuppPasswordSet []); shown
  else one_token (tell_text scApCfgDot1xSuppPasswordSet "802.1x Supplicant MD5 Password is too long\n" shown).
Definition vlanModeCliCmdGet : M cli Z :=
  says "VLAN Operational State: %s\n" (able apCfgVlanModeGet).
Definition vlanModeCliCmdDisable : M cli Z :=
  _ ← call (apCfgVlanModeSet 0);
  says "VLAN Operational State: %s\n" (mret disabled).
Definition vlanModeCliCmdEnable : M cli Z :=
  _ ← call (apCfgVlanModeSet 1);
  says "VLAN Operational State: %s\n" (mret enabled).
Definition nativeVlanIdCliCmdGet : M cli Z :=
  says "Native VLAN ID: %d\n" (number apCfgManagementVlanIdGet).
Definition nativeVlanIdCliCmdSet : M cli Z := with_num (λ v,
  rc ← on (apCfgManagementVlanIdSet v);
  _ ← (if rc =? A_OK then mret tt else printf "Unable to set the VLAN ID.\n" []);
  says "Native VLAN ID: %d\n" (number apCfgManagementVlanIdGet)) error.
Definition wdsVlanListCliCmdGet : M cli Z :=
  says "WDS VLAN List: %s\n" (text apCfgwdsVlanListGet).
Definition wdsVlanListCliCmdSet : M cli Z :=
  n ← sccli_tokenCount;
  if n =? 0 then
    _ ← call (apCfgwdsVlanListSet []);
    _ ← printf "Cleanup WDS VLAN List!\n" []; ok
  else
    wdsvlanlist ← pop;
    if negb (zlen wdsvlanlist <? 21) then error
    else if negb (scValidwdsVlanList wdsvlanlist) then fails "Invalid WDS VLAN List! \n"
    else
      rc ← on (apCfgwdsVlanListSet wdsvlanlist);
      if rc =? A_OK then says "Set WDS VLAN List: %s\n" (mret wdsvlanlist)
      else _ ← printf "Error happened when setting WDS VLAN List!\n" []; ok.
Definition vlanPvidCliCmdGet : M cli Z := on_vap (λ unit vap,
  says "VLAN ID: %d\n" (number (apCfgVlanPvidGet unit vap))).
Definition vlanPvidCliCmdSet : M cli Z := on_vap (λ unit vap, with_num (λ v,
  if (v <? VLAN_TAG_MIN) || (VLAN_TAG_MAX <? v) then
    _ ← printf "range of vap VLAN %d ~ %d\n" [dec VLAN_TAG_MIN; dec VLAN_TAG_MAX]; error
  else
    rc ← on (apCfgVlanPvidSet unit vap v);
    if negb (rc =? A_OK) then fails "Unable to set the VLAN Id.\n"
    else
      _ ← call (apCfgVlanListApply unit);
      says "VLAN Id: %d\n" (number (apCfgVlanPvidGet unit vap))) error).
Definition wirelessModeCliCmdGet : M cli Z := on_vap (λ unit vap,
  says "Wireless Mode: %s\n"
    (state ← on (apCfgWlanStateGet unit);
     if state =? 0 then mret ("Disabled" : cstr)
     else choose (apCfgFreqSpecGet unit)
            [(MODE_SELECT_11G, "11ng" : cstr); (MODE_SELECT_11B, "11b" : cstr); (MODE_SELECT_11BG, "11bg" : cstr);
             (MODE_SELECT_11N, "11n" : cstr)] "11nbg")).
Definition wirelessModeCliCmdDisable : M cli Z := on_vap (λ unit vap,
  _ ← call (apCfgWlanStateSet unit 0);
  says "Wireless Mode: %s\n" (mret ("Disabled" : cstr))).
Definition wirelessModeCliCmd11bgn : M cli Z := on_vap (λ unit vap,
  _ ← call (apCfgWlanStateSet unit 1);
  _ ← call (apCfgFreqSpecSet unit MODE_SELECT_11NG);
  says "Wireless Mode: %s\n" (mret ("11nbg" : cstr))).
Definition wirelessModeCliCmd11n : M cli Z := on_vap (λ unit vap,
  _ ← call (apCfgWlanStateSet unit 1);
  _ ← call (apCfgFreqSpecSet unit MODE_SELECT_11N);
  says "Wireless Mode: %s\n" (mret ("11n" : cstr))).
Definition wirelessModeCliCmd11b : M cli Z := on_vap (λ unit vap,
  _ ← call (apCfgWlanStateSet unit 1);
  _ ← call (apCfgFreqSpecSet unit MODE_SELECT_11B);
  says "Wireless Mode: %s\n" (mret ("11b" : cstr))).
Definition wirelessModeCliCmd11g : M cli Z := on_vap (λ unit vap,
  _ ← call (apCfgWlanStateSet unit 1);
  _ ← call (apCfgFreqSpecSet unit MODE_SELECT_11G);
  says "Wireless Mode: %s\n" (mret ("11g" : cstr))).
Definition wirelessModeCliCmd11bg : M cli Z := on_vap (λ unit vap,
  _ ← call (apCfgWlanStateSet unit 1);
  _ ← call (apCfgFreqSpecSet unit MODE_SELECT_11BG);
  says "Wireless Mode: %s\n" (mret ("11bg" : cstr))).
Definition opModeCliCmdGet : M cli Z := on_vap (λ unit vap,
  says "Operation Mode: %s\n"
    (choose (apCfgOpModeGet unit)
       [(CFG_OP_MODE_AP, "Access Point" : cstr); (CFG_OP_MODE_PPT, "Bridge(Point-to-Point)" : cstr);
        (CFG_OP_MODE_MPT, "Wireless WDS Bridge." : cstr); (CFG_OP_MODE_AP_PTP, "Wireless WDS Repeater." : cstr);
        (CFG_OP_MODE_AP_PTMP, "Wireless signal repeater." : cstr); (CFG_OP_MODE_UC, "Bridge(Unversal Client)" : cstr);
        (CFG_OP_MODE_UR, "Bridge(Unversal Repeater)" : cstr)] "Rogue AP")).
Definition opModeCliCmdAp : M cli Z := on_vap (λ unit vap,
  _ ← call (apCfgOpModeSet unit CFG_OP_MODE_AP);
  says "Operating as %s\n" (mret ("Access Point" : cstr))).
Definition opModeCliCmdMpt : M cli Z := on_vap (λ unit vap,
  _ ← call (apCfgOpModeSet unit CFG_OP_MODE_MPT);
  says "Operating as %s\n" (mret ("Wireless WDS Bridge." : cstr))).
Definition opModeCliCmdApPtp : M cli Z := on_vap (λ unit vap,
  _ ← call (apCfgOpModeSet unit CFG_OP_MODE_AP_PTP);
  says "Operating as %s\n" (mret ("Wireless WDS Repeater." : cstr))).
Definition opModeCliCmdApPtmp : M cli Z := on_vap (λ unit vap,
  _ ← call (apCfgOpModeSet unit CFG_OP_MODE_AP_PTMP);
  says "Operating as %s\n" (mret ("Wireless signal repeater." : cstr))).
Definition remotePtpMacAddrCliCmdGet : M cli Z := on_vap (λ unit vap,
  mode ← on (apCfgOpModeGet unit);
  if negb (mode =? CFG_OP_MODE_AP_PTP) then fails "Operation mode must WDS repeater.\n"
  else says "Remote AP MAC Address: %s\n" (remote_mac unit)).
(** The address of one station, for the setter of a remote access point. *)
Definition set_station (pStr : cstr) (set : cstr → M sys Z) (title : cstr) (bad refused : M cli Z) : M cli Z :=
  m ← mac_token pStr;
  match m with
  | None => bad
  | Some macStr12 =>
      if negb (unicast_digit macStr12) then bad
      else
        hex ← liftO (scValidHexs macStr12 12);
        if negb hex then bad
        else
          macStr17 ← liftO (scMacStr12ToStr17 macStr12 ":"%char);
          rc ← on (set macStr17);
          if rc =? A_OK then says title (mret macStr17) else refused
  end.
Definition remotePtpMacAddrCliCmdSet : M cli Z := on_vap (λ unit vap,
  let bad := fails "Invalid Input\n" in
  mode ← on (apCfgOpModeGet unit);
  if negb (mode =? CFG_OP_MODE_AP_PTP) then fails "Operation mode must WDS repeater.\n"
  else
    n ← sccli_tokenCount;
    if n =? 1 then
      pStr ← pop;
      set_station pStr (apCfgRemoteApMacAddrSet unit) "Remote AP MAC Address: %s\n" bad bad
    else bad).
(** How many addresses the mode has. *)
Definition remote_count (unit : Z) : M cli Z :=
  mode ← on (apCfgOpModeGet unit);
  mret (if mode =? CFG_OP_MODE_MPT then 4 else if mode =? CFG_OP_MODE_AP_PTMP then 3 else 0).
Definition remotePtmpMacListCliCmdGet : M cli Z := on_vap (λ unit vap,
  maxMAC ← remote_count unit;
  if maxMAC =? 0 then fails "Operation Mode must be Bridge mode or Wireless signal repeater..\n"
  else
    _ ← printf "Bridge's Remote Mac Address List: \n" [];
    _ ← each (seqZ 0 maxMAC) (λ i,
          macStr17 ← on (apCfgRemoteWbrMacAddrGet unit i);
          printf "\t%d\t%s\n" [dec (i + 1); macStr17]);
    ok).
(** The commands from the current one on; [strcmp] with the token.  The answer
    is that of the first one that gives an answer. *)
Fixpoint ptmp_commands (unit : Z) (cmds : list cstr) (pToken : cstr) : M cli Z :=
  match cmds with
  | [] => fails "Invalid Remote Mac Address\n"
  | pCmd :: cmds' =>
      if bool_decide (pToken = pCmd) then
        maxMAC ← remote_count unit;
        let index := atoi pToken - 1 in
        if (index <? 0) && (maxMAC <=? index) then error
        else
          pStr ← pop;
          set_station pStr (apCfgRemoteWbrMacAddrSet unit index) "Remote MAC Address: %s\n"
            (fails "Invalid Input\n") (ptmp_commands unit cmds' pToken)
      else ptmp_commands unit cmds' pToken
  end.
Definition remotePtmpMacListCliCmdSet : M cli Z := on_vap (λ unit vap,
  n ← sccli_tokenCount;
  if n =? 1 then s ← getS; ptmp_commands unit (CurTbl s) (ibuf s)
  else fails "Invalid Remote Mac Address\n").
End handlers.
