(* ===== verification/CliRadio.v ===== *)
(** * Handlers of the command line: the radio (busybox/shell/linksysCli.c)

    The handlers of the channel and the radio, of the transfer and the reset of
    the configuration, of the generated secrets and the SSID. *)

From S2P Require Import Prelude CLib FileSys Inet Utility CfgStore ApCfgSys ApCfgWlan ApCfgLists AplFlag WifiSecurity EditParse EditAssign EditApCfg Cli CliSystem CliServices CliNetwork.

Section handlers.
Context {store : CfgStore sys} {host : Host} {console : Console}.

(** [while(!feof(fp)) { buffer[0]='\0'; fgets(buffer,31,fp); }] *)
Fixpoint last_line (fuel : nat) (buffer : cstr) (fp : FILE) : outcome cstr :=
  match fuel with
  | O => Stuck
  | S fuel' =>
      if feof fp then Done buffer
      else let '(buffer, fp) := fgets_line 31 fp in last_line fuel' buffer fp
  end.
Definition chanCliCmdGet : M cli Z := on_vap (λ unit vap,
  auto ← on (apCfgAutoChannelGet unit);
  if auto =? 1 then
    data ← wait_for "/tmp/chan_curr";
    buffer ← liftO (last_line (S (S (length data))) [] (File data false));
    if atoi buffer =? 0 then _ ← printf "Channel: (Automatic)\n" []; ok
    else _ ← printf "Channel: %d (Automatic)\n" [dec (atoi buffer)]; ok
  else says "Channel: %d\n" (number (apCfgRadioChannelGet unit))).
(** The number on the line before "current:". *)
Fixpoint channel_limit (fuel : nat) (Max_channel : Z) (fp : FILE) : outcome Z :=
  match fuel with
  | O => Stuck
  | S fuel' =>
      if feof fp then Done Max_channel
      else
        let '(buffer, fp) := fgets_line 31 fp in
        if bool_decide (buffer = ("current:" : cstr) ++ [nl]) then Done Max_channel
        else channel_limit fuel' (atoi buffer) fp
  end.
Definition chanCliCmdSet : M cli Z := on_vap (λ unit vap,
  data ← wait_for "/tmp/chan_list";
  Max_channel ← liftO (channel_limit (S (S (length data))) 0 (File data false));
  let bad := _ ← printf "The valid channel: 0~%d (0 means Automatic)\n" [dec Max_channel]; error in
  with_num (λ v,
    if (v <? 0) || (Max_channel <? v) then bad
    else
      rc ← (if negb (v =? 0) then _ ← on (apCfgAutoChannelSet unit 0); on (apCfgRadioChannelSet unit v)
            else on (apCfgAutoChannelSet unit 1));
      _ ← (if negb (rc =? A_OK) then printf "Invalid Channel: %d\n" [dec v] else mret tt);
      if v =? 0 then _ ← printf "Channel: (Automatic)\n" []; ok
      else says "Channel: %d\n" (number (apCfgRadioChannelGet unit))) bad).
Definition sepCliCmdGet : M cli Z := on_vap (λ unit vap,
  says "Wireless Isolation(within SSID): %s\n" (able (apCfgIntraVapForwardingGet unit vap))).
Definition sepCliCmdEnable : M cli Z := on_vap (λ unit vap,
  _ ← call (apCfgIntraVapForwardingSet unit vap 1);
  says "Wireless Isolation(within SSID): %s\n" (mret enabled)).
Definition sepCliCmdDisable : M cli Z := on_vap (λ unit vap,
  _ ← call (apCfgIntraVapForwardingSet unit vap 0);
  says "Wireless Isolation(within SSID): %s\n" (mret disabled)).
Definition wmeCliCmdGet : M cli Z := on_vap (λ unit vap,
  says "WMM Mode: %s\n" (able (apCfgWmeGet unit vap))).
Definition wmeCliCmdDisable : M cli Z := on_vap (λ unit vap,
  _ ← call (apCfgWmeSet unit vap 0);
  says "WMM: %s\n" (mret disabled)).
Definition wmeCliCmdEnable : M cli Z := on_vap (λ unit vap,
  _ ← call (apCfgWmeSet unit vap 1);
  says "WMM: %s\n" (mret enabled)).
Definition wmmpsCliCmdGet : M cli Z := on_vap (λ unit vap,
  says "WMM PowerSaving Mode: %s\n" (able (apCfgWmmpsGet unit vap))).
Definition PowerPerc : list Z := [100; 79; 63; 50; 40; 32; 25; 20; 16; 13; 10; 8; 6; 5; 4; 3; 3; 2; 2; 1; 1].
Definition outPowerCliCmdGet : M cli Z :=
  index ← on (apCfgPowerGet 0);
  let index := if (index <? 0) || (20 <? index) then 0 else index in
  says "Out Power: %d%%\n" (mret (dec (nth (Z.to_nat index) PowerPerc 0))).
Definition wmmpsCliCmdDisable : M cli Z := on_vap (λ unit vap,
  _ ← call (apCfgWmmpsSet unit vap 0);
  says "WMM PowerSaving: %s\n" (mret disabled)).
Definition wmmpsCliCmdEnable : M cli Z := on_vap (λ unit vap,
  _ ← call (apCfgWmmpsSet unit vap 1);
  says "WMM PowerSaving: %s\n" (mret enabled)).
Definition tftp_usage : M cli Z :=
  _ ← printf "USEAGE For TFTP \n" [];
  _ ← printf "\tUpgrade Firmware:       TFTP [serverip/name] [filename]\n" [];
  fails "\tUpload/Download Config: TFTP [serverip/name] [filename] [up/down]\n".
Definition tftpCmdHandler : M cli Z :=
  n ← sccli_tokenCount;
  if n <? 2 then tftp_usage
  else
    hostname ← pop;
    filename ← pop;
    if 32 <? zlen hostname then fails "serverip/name string is too long.\n"
    else if 32 <? zlen filename then fails "filename string is too long.\n"
    else
      n ← sccli_tokenCount;
      if n =? 1 then
        action ← pop;
        if bool_decide (action = ("up" : cstr)) || bool_decide (action = ("down" : cstr)) then
          _ ← call (SYSTEM ("tftp_cmd " ++ hostname ++ " " ++ filename ++ " " ++ action)); ok
        else error
      else if n =? 0 then _ ← call (SYSTEM ("tftp_cmd " ++ hostname ++ " " ++ filename)); ok
      else tftp_usage.
Definition factoryCmdHandler : M cli Z :=
  _ ← call apCfgFactoryRestore;
  _ ← call apcfg_submit;
  _ ← call (COMMAND "reboot&");
  ok.
(** The digits of [buffer] with the eighth that makes the checksum; [None] is
    -1, with [pinValue] as it was. *)
Definition generate_pin : M cli (option cstr) :=
  match urandom 7 with
  | None => mret None
  | Some data =>
      match map (λ c, code c mod 10) data with
      | [b0; b1; b2; b3; b4; b5; b6] =>
          let accum := 3 * (b0 mod 10) + 1 * (b1 mod 10) + 3 * (b2 mod 10) + 1 * (b3 mod 10) +
                       3 * (b4 mod 10) + 1 * (b5 mod 10) + 3 * (b6 mod 10) in
          let accum := accum mod 10 in
          let accum := (10 - accum) mod 10 in
          mret (Some (concat (map dec [b0; b1; b2; b3; b4; b5; b6; accum])))
      | _ => faultM
      end
  end.
Definition genWpsPinCmdHandler : M cli Z :=
  pin ← generate_pin;
  _ ← printf "PIN Code: %s\n" [default [] pin];
  _ ← printf "You may use 'set wps_pin' to assign it into device.\n" [];
  ok.
(** [None] is -1: [ran_num] stays as it was. *)
Definition get_random_num (num : nat) (char_len : Z) : M cli (option (list Z)) :=
  match urandom num with
  | None => mret None
  | Some buffer =>
      if (length buffer =? num)%nat then mret (Some (map (λ c, code c mod (char_len - 1)) buffer)) else faultM
  end.
Definition char_list : cstr := "`1234567890-=~!@#$%^&*()_+qwertyuiop[]{}|asdfghjkl;':zxcvbnm,./<>?".
Definition hex_digit (v : Z) : ascii := if v <? 10 then chr (48 + v) else chr (65 + v - 10).
Definition genWpaPskCmdHandler : M cli Z :=
  v ← sccli_tokenPopNum;
  match v with
  | None => _ ← printf "Usage: gen_wpa_psk <key length>.\n" []; ok
  | Some v =>
      if (v <? 8) || (64 <? v) then _ ← printf "Invalid PSK length, valid rang is from 8 to 64.\n" []; ok
      else
        let hex := v =? 64 in
        let num := Z.to_nat (if hex then 32 else v) in
        ran ← get_random_num num (zlen char_list);
        let chars := map (λ i, nth (Z.to_nat i) char_list NUL) (default (replicate num 0) ran) in
        let psk_str := if hex then concat (map (λ c, [hex_digit (code c / 16); hex_digit (code c mod 16)]) chars)
                       else chars in
        _ ← printf "New PSK: %s\n" [psk_str];
        _ ← printf "You may use 'set psk' to assign it into VAPs.\n" [];
        ok
  end.
Definition fragCliCmdGet : M cli Z := on_vap (λ unit vap,
  says "Fragmentation Length: %d\n" (number (apCfgFragThresholdGet unit))).
Definition fragCliCmdSet : M cli Z := on_vap (λ unit vap, with_num (λ v,
  rc ← on (apCfgFragThresholdSet unit v);
  _ ← (if negb (rc =? A_OK) then
         printf "Invalid Fragmentation Threshold: %d (must be between %d and %d)\n"
           [dec v; dec MIN_FRAG_THRESHOLD; dec MAX_FRAG_THRESHOLD]
       else mret tt);
  t ← number (apCfgFragThresholdGet unit);
  _ ← printf "Fragmentation Length: %d\n" [t];
  error) error).
Definition beaconCliCmdGet : M cli Z := on_vap (λ unit vap,
  says "Beacon Interval: %d\n" (number (apCfgBeaconIntervalGet unit))).
Definition beaconCliCmdSet : M cli Z := on_vap (λ unit vap, with_num (λ v,
  rc ← on (apCfgBeaconIntervalSet unit v);
  _ ← (if negb (rc =? A_OK) then printf "Invalid Beacon Interval: %d\n" [dec v] else mret tt);
  says "Beacon Interval: %d\n" (number (apCfgBeaconIntervalGet unit))) error).
Definition rtsCliCmdGet : M cli Z := on_vap (λ unit vap,
  says "RTS Threshold: %d\n" (number (apCfgRtsThresholdGet unit))).
(** [v] is printed without a value when no number was read. *)
Definition rtsCliCmdSet : M cli Z := on_vap (λ unit vap,
  v ← sccli_tokenPopNum;
  match v with
  | None => faultM
  | Some v =>
      let bad := _ ← printf "Invalid RTS Threshold %d\n" [dec v]; error in
      n ← sccli_tokenCount;
      if n =? 0 then
        rc ← on (apCfgRtsThresholdSet unit v);
        if rc =? A_OK then says "RTS Threshold: %d\n" (number (apCfgRtsThresholdGet unit)) else bad
      else bad
  end).
Definition shortPreambleCliCmdGet : M cli Z := on_vap (λ unit vap,
  says "Short Preamble: %s\n" (able (apCfgShortPreambleGet unit))).
Definition shortPreambleCliCmdEnable : M cli Z := on_vap (λ unit vap,
  _ ← call (apCfgShortPreambleSet unit 1);
  says "Short Preamble: %s\n" (mret enabled)).
Definition shortPreambleCliCmdDisable : M cli Z := on_vap (λ unit vap,
  _ ← call (apCfgShortPreambleSet unit 0);
  says "Short Preamble: %s\n" (mret disabled)).
Definition interVapForwardingCliCmdGet : M cli Z := on_vap (λ unit vap,
  says "Wireless Isolation (between SSID): %s\n" (able (apCfgInterVapForwardingGet unit))).
Definition interVapForwardingCliCmdDisable : M cli Z := on_vap (λ unit vap,
  _ ← call (apCfgInterVapForwardingSet unit 0);
  says "Wireless Isolation (between SSID): %s\n" (mret disabled)).
Definition interVapForwardingCliCmdEnable : M cli Z := on_vap (λ unit vap,
  _ ← call (apCfgInterVapForwardingSet unit 1);
  says "Wireless Isolation (between SSID): %s\n" (mret enabled)).
Definition outPowerCliCmd5 : M cli Z :=
  _ ← call (apCfgPowerSet 0 13);
  ok.
Definition outPowerCliCmd6 : M cli Z :=
  _ ← call (apCfgPowerSet 0 12);
  ok.
Definition outPowerCliCmd8 : M cli Z :=
  _ ← call (apCfgPowerSet 0 11);
  ok.
Definition outPowerCliCmd10 : M cli Z :=
  _ ← call (apCfgPowerSet 0 10);
  ok.
Definition outPowerCliCmd13 : M cli Z :=
  _ ← call (apCfgPowerSet 0 9);
  ok.
Definition outPowerCliCmd16 : M cli Z :=
  _ ← call (apCfgPowerSet 0 8);
  ok.
Definition outPowerCliCmd20 : M cli Z :=
  _ ← call (apCfgPowerSet 0 7);
  ok.
Definition outPowerCliCmd25 : M cli Z :=
  _ ← call (apCfgPowerSet 0 6);
  ok.
Definition outPowerCliCmd32 : M cli Z :=
  _ ← call (apCfgPowerSet 0 5);
  ok.
Definition outPowerCliCmd40 : M cli Z :=
  _ ← call (apCfgPowerSet 0 4);
  ok.
Definition outPowerCliCmd50 : M cli Z :=
  _ ← call (apCfgPowerSet 0 3);
  ok.
Definition outPowerCliCmd63 : M cli Z :=
  _ ← call (apCfgPowerSet 0 2);
  ok.
Definition outPowerCliCmd79 : M cli Z :=
  _ ← call (apCfgPowerSet 0 1);
  ok.
Definition outPowerCliCmd100 : M cli Z :=
  _ ← call (apCfgPowerSet 0 0);
  ok.
Definition ssidCliCmdGet : M cli Z := on_vap (λ unit vap, says "SSID: %s\n" (ssid_shown (apCfgSsidGet unit vap))).
Definition ssidCliCmdSet : M cli Z := on_vap (λ unit vap,
  n ← sccli_tokenCount;
  if n =? 0 then mret CLI_PARSE_NO_VALUE
  else
    r ← ssid_tokens (S MAX_TOKEN) 0 [];
    match r with
    | None => fails "SSID string is too long\n"
    | Some (ssidLen, buf) =>
        buf ← ssid_entered buf;
        result ← on (apCfgSsidSet unit vap buf);
        if negb (result =? A_OK) then fails "SSID is invalid.\n"
        else if ssidLen =? 0 then _ ← activeModeCliCmdDisable; ok
        else
          _ ← call (apCfgActiveModeSet unit vap 1);
          _ ← call (apCfgSsidModeSet unit vap 0);
          says "SSID: %s\n" (ssid_shown (apCfgSsidGet unit vap))
    end).
Definition ssidModeCliCmdGet : M cli Z := on_vap (λ unit vap,
  says "SSID Broadcast Mode: %s\n" (v ← on (apCfgSsidModeGet unit vap); at_index pAbleStr (Z.rem (v + 1) 2))).
Definition ssidModeCliCmdDisable : M cli Z := on_vap (λ unit vap,
  _ ← call (apCfgSsidModeSet unit vap 1);
  says "SSID Broadcast Mode: %s\n" (mret disabled)).
Definition ssidModeCliCmdEnable : M cli Z := on_vap (λ unit vap,
  _ ← call (apCfgSsidModeSet unit vap 0);
  says "SSID Broadcast Mode: %s\n" (mret enabled)).
Definition lltdModeCliCmdGet : M cli Z :=
  says "LLTD Mode: %s\n" (able apCfglltdGet).
Definition lltdModeCliCmdDisable : M cli Z :=
  _ ← call (apCfglltdSet 0);
  says "LLTD Mode: %s\n" (mret disabled).
Definition lltdModeCliCmdEnable : M cli Z :=
  _ ← call (apCfglltdSet 1);
  says "LLTD Mode: %s\n" (mret enabled).
End handlers.
