(* ===== verification/CliSecurity.v ===== *)
(** * Handlers of the command line: Ethernet, security and monitoring (busybox/shell/linksysCli.c)

    The handlers of the Ethernet port, of keys and RADIUS servers, of SNMP, the
    log and the search for rogue access points. *)

From S2P Require Import Prelude CLib FileSys Inet Utility CfgStore ApCfgSys ApCfgWlan ApCfgLists AplFlag WifiSecurity EditParse EditAssign EditApCfg Cli CliSystem CliServices CliNetwork CliRadio.

Section handlers.
Context {store : CfgStore sys} {host : Host} {console : Console}.

Definition pEthAutoNegoStr : list cstr := ["disabled" : cstr; "enabled" : cstr].
Definition ethAutoNego : M cli Z :=
  says "Ethernet Auto Negotiation: %s\n" (index ← cliGetAutoNego; at_index pEthAutoNegoStr index).
Definition pEthDuplexModeStr : list cstr := ["Half Duplex" : cstr; "Full Duplex" : cstr].
Definition ethDuplexModeGet : M cli Z :=
  says "Ethernet Duplex Mode: %s\n" (index ← on apCfgDuplexmodeGet; at_index pEthDuplexModeStr index).
(** The speed is forced to 100M: a warning, and the answer is OK. *)
Definition unless_forced (what : cstr) (k : M cli Z) : M cli Z :=
  forced ← on apCfgForce100mGet;
  if negb (forced =? 0) then
    _ ← printf "Warning: Force LAN Port Speed to 100M is enabled, disable it first to set %s here.\n" [what]; ok
  else k.
Definition auto_nego (v : Z) : M cli Z := unless_forced "Auto Negotiation Mode"
  (_ ← call (apCfgAutonegoSet v); says "Ethernet Auto Negotiation Mode: %s\n" (at_index pEthAutoNegoStr v)).
Definition ethAutoNegoCliCmdEnable : M cli Z := auto_nego 1.
Definition ethAutoNegoCliCmdDisable : M cli Z := auto_nego 0.
Definition duplex_mode (v : Z) : M cli Z :=
  forced ← on apCfgForce100mGet;
  auto ← (if negb (forced =? 0) then mret 1 else on apCfgAutonegoGet);
  if negb (auto =? 0) then
    _ ← printf "Warning: Force LAN Port Speed to 100M is enabled Or Auto Negotiation is ebabled, disable it first to set Duplex Mode here.\n" [];
    ok
  else _ ← call (apCfgDuplexmodeSet v); says "Ethernet Duplex Mode: %s\n" (at_index pEthDuplexModeStr v).
Definition ethDuplexModeCliCmdFull : M cli Z := duplex_mode 1.
Definition ethDuplexModeCliCmdHalf : M cli Z := duplex_mode 0.
Definition pEthDataRateStr : list cstr := ["Auto" : cstr; "1000Mbps" : cstr; "100Mbps" : cstr; "10Mbps" : cstr].
Definition ethDataRateCliCmdGet : M cli Z :=
  says "Ethernet Data Rate: %s\n" (index ← cliGetEthDataRate; at_index pEthDataRateStr index).
Definition data_rate (index : Z) : M cli Z := unless_forced "ethernet data rate"
  (_ ← cliSetEthDataRate index; says "Ethernet Data Rate: %s\n" (at_index pEthDataRateStr index)).
Definition ethDataRateCliCmdAuto : M cli Z := data_rate 0.
Definition ethDataRateCliCmd1000 : M cli Z := data_rate 1.
Definition ethDataRateCliCmd100 : M cli Z := data_rate 2.
Definition ethDataRateCliCmd10 : M cli Z := data_rate 3.
Definition pSecurityStr : list cstr :=
  ["None" : cstr; "WEP" : cstr; "WPA-PSK" : cstr; "WPA2-PSK" : cstr; "WPA-PSK and WPA2-PSK" : cstr;
   "WPA with RADIUS" : cstr; "WPA2 with RADIUS" : cstr; "WPA and WPA2 with RADIUS" : cstr; "802.1x" : cstr].
Definition secCliCmdGet : M cli Z := on_vap (λ unit vap,
  says "Wireless Seucrity Mode: %s\n" (index ← cliGetWirelessSecurity unit vap; at_index pSecurityStr index)).
Definition security_chosen (index : Z) : M cli Z := on_vap (λ unit vap,
  _ ← cliSetWirelessSecurity unit vap index;
  says "Wireless Seucrity Mode: %s\n" (at_index pSecurityStr index)).
Definition secCliCmdNone : M cli Z := security_chosen 0.
Definition secCliCmdWpapsk : M cli Z := security_chosen 2.
Definition secCliCmdWpa2psk : M cli Z := security_chosen 3.
Definition secCliCmdWpapskauto : M cli Z := security_chosen 4.
(** Not for the client and the repeater. *)
Definition set_radius_security (index : Z) : M cli Z := on_vap (λ unit vap,
  mode ← on (apCfgOpModeGet unit);
  if (mode =? CFG_OP_MODE_UC) || (mode =? CFG_OP_MODE_UR) then
    t ← at_index pSecurityStr index;
    _ ← printf "In %qWireless Client/Repeater%q Mode, %s is not support!\n" [t]; error
  else security_chosen index).
Definition secCliCmdWpa : M cli Z := set_radius_security 5.
Definition secCliCmdWpa2 : M cli Z := set_radius_security 6.
Definition secCliCmdWpaauto : M cli Z := set_radius_security 7.
Definition secCliCmdRadius : M cli Z := set_radius_security 8.
Definition pAuthStr : list cstr := ["Automatic" : cstr; "Open System" : cstr; "Shared Key" : cstr].
Definition authCliCmdGet : M cli Z := on_vap (λ unit vap,
  says "Authentication Type: %s\n" (index ← cliGetWEPAuth unit vap; at_index pAuthStr index)).
Definition set_auth (index : Z) : M cli Z := on_vap (λ unit vap,
  _ ← cliSetWEPAuth unit vap index;
  says "Authentication Type: %s\n" (at_index pAuthStr index)).
Definition authCliCmdOpen : M cli Z := set_auth 1.
Definition authCliCmdShared : M cli Z := set_auth 2.
Definition pEncryStr : list cstr := ["TKIP" : cstr; "AES" : cstr; "TKIP or AES" : cstr].
Definition encryptionCliCmdGet : M cli Z := on_vap (λ unit vap,
  says "Encryption Algorithm Type: %s\n" (index ← on (apCfgWPACipherGet unit vap); at_index pEncryStr index)).
Definition set_encryption (cipher : Z) (name : cstr) : M cli Z := on_vap (λ unit vap,
  auth ← on (apCfgAuthTypeGet unit vap);
  if (auth =? APCFG_AUTH_WPAPSK) || (auth =? APCFG_AUTH_WPA) then
    _ ← call (apCfgWPACipherSet unit vap cipher);
    says "Encryption Algorithm Type: %s\n" (mret name)
  else fails "This Authentication Type is not allow change Encryption Algorithm Type\n").
Definition encryCliCmdTkip : M cli Z := set_encryption WPA_CIPHER_TKIP "TKIP".
Definition encryCliCmdAes : M cli Z := set_encryption WPA_CIPHER_AES "AES".
Definition keyLengthCliCmdGet : M cli Z := on_vap (λ unit vap,
  says "WEP Key Length: %d\n" (number (apCfgKeyBitLenGet unit vap))).
Definition keyLengthCliCmdSet : M cli Z := on_vap (λ unit vap,
  let usage := fails "Usage: set keylength 40 | 104\n" in
  with_num (λ v,
    if (v =? 40) || (v =? 104) then
      _ ← call (apCfgDot1xKeyLenSet unit vap v);
      rc ← on (apCfgKeyBitLenSet unit vap v);
      if rc =? A_OK then says "WEP Key Length: %d\n" (number (apCfgKeyBitLenGet unit vap)) else usage
    else usage) usage).
Definition defaultKeyCliCmdGet : M cli Z := on_vap (λ unit vap,
  says "Default Key Index: %d\n" (number (apCfgDefKeyGet unit vap))).
Definition defaultKeyCliCmdSet : M cli Z := on_vap (λ unit vap,
  let usage := fails "Usage: set defaultkey (1-4)\n" in
  with_num (λ v,
    if (0 <? v) && (v <? 5) then
      rc ← on (apCfgDefKeySet unit vap v);
      if rc =? A_OK then says "Default Key Index: %d\n" (number (apCfgDefKeyGet unit vap)) else usage
    else usage) usage).
Definition keyCliCmdGet : M cli Z := on_vap (λ unit vap,
  _ ← printf "=Index= ===Value===\n" [];
  _ ← each [1; 2; 3; 4] (λ i, k ← text (apCfgKeyValGet unit vap i); printf "   %d\t%s\n" [dec i; k]);
  ok).
Definition keyCliCmdSet : M cli Z := on_vap (λ unit vap,
  let usage := fails "Usage: set key index(1-4) value(HEX)\n" in
  n ← sccli_tokenCount;
  if negb (n =? 2) then usage
  else
    v ← sccli_tokenPopNum;
    match v with
    | None => usage
    | Some v =>
        if negb ((0 <? v) && (v <? 5)) then _ ← printf "Invalid key index.\n" []; usage
        else
          pStr ← pop;
          if negb (forallb scValidHex pStr) then fails "value is not HEX\n"
          else if (zlen pStr =? 10) || (zlen pStr =? 26) then
            rc ← on (apCfgKeyValSet unit vap v pStr);
            if rc =? A_OK then
              k ← text (apCfgKeyValGet unit vap v);
              _ ← printf "Key %d: %s\n" [dec v; k]; ok
            else usage
          else _ ← printf "Invalid key length.\n" []; usage
    end).
Definition pskCliCmdGet : M cli Z := on_vap (λ unit vap,
  says "Pre-shared Key: %s\n" (text (apCfgPassphraseGet unit vap))).
Definition MIN_PASSPHRASE_SIZE : Z := 8.
Definition pskCliCmdSet : M cli Z := on_vap (λ unit vap, one_token (λ p,
  let bufLen := zlen p in
  if 512 <? bufLen then fails "Input Phrase is too long\n"
  else if bufLen <? MIN_PASSPHRASE_SIZE then
    fails "Input Phrase is too short, should be minimum of 8 characters long.\n"
  else if CFG_MAX_PASSPHRASE <? bufLen then
    fails "Input Phrase is too long, should be max of 64 characters long.\n"
  else if (bufLen =? CFG_MAX_PASSPHRASE) &&
          negb ((asciiToPassphraseKey p (Z.to_nat CFG_MAX_PASSPHRASE)).1 =? A_OK) then
    fails "A_ERROR: Invalid HEX passphrase\n"
  else
    rc ← on (apCfgPassphraseSet unit vap p);
    _ ← (if rc =? A_OK then mret tt else printf "Pre-shared Key is too long\n" []);
    says "Pre-shared Key: %s\n" (text (apCfgPassphraseGet unit vap)))).
Definition groupKeyUpdateIntervalCliCmdGet : M cli Z := on_vap (λ unit vap,
  says "Group Key Update Interval: %d Seconds\n" (number (apCfgGroupKeyUpdateIntervalGet unit vap))).
Definition groupKeyUpdateIntervalCliCmdSet : M cli Z := on_vap (λ unit vap, with_num (λ v,
  rc ← on (apCfgGroupKeyUpdateIntervalSet unit vap v);
  if negb (rc =? A_OK) then fails "Group Key Update Interval range invalid.\n"
  else says "Group Key Update Interval: %d seconds\n" (number (apCfgGroupKeyUpdateIntervalGet unit vap))) error).
Definition AutoRebootIntervalCliCmdGet : M cli Z :=
  says "Auto Reboot Interval: %d hours\n" (number apCfgAutoRebootIntervalGet).
Definition AutoRebootIntervalCliCmdSet : M cli Z := with_num (λ v,
  rc ← on (scApCfgAutoRebootIntervalSet v);
  if negb (rc =? A_OK) then fails "Auto Reboot Interval is invalid.\n"
  else says "Auto Reboot Interval: %d hours\n" (number apCfgAutoRebootIntervalGet)) error.
Definition radiusSrvCliCmdGetPri : M cli Z := on_vap (λ unit vap,
  says "Primary RADIUS Address: %s\n" (text (apCfgRadiusServerGet unit vap))).
(** The address of a server, for every access point of the unit. *)
Definition radius_server (set : Z → Z → cstr → M sys Z) (get : Z → Z → M sys cstr) (title : cstr) : M cli Z :=
  on_vap (λ unit vap,
    let bad := fails "Invalid RADIUS Server IP Address\n" in
    with_addr (λ iaddr,
      if iaddr =? 0 then bad
      else
        _ ← each (seqZ 0 WLAN_MAX_VAP) (λ i, call (set unit i (inet_ntoa iaddr)));
        says title (text (get unit vap))) bad).
Definition radiusSrvCliCmdSetPri : M cli Z :=
  n ← sccli_tokenCount;
  if n =? 0 then _ ← printf "Input Null.\n" []; mret CLI_PARSE_NO_VALUE
  else if n =? 1 then
    radius_server apCfgRadiusServerSet apCfgRadiusServerGet "RADIUS Server IP Address: %s\n"
  else error.
Definition radiusSrvCliCmdGetBck : M cli Z := on_vap (λ unit vap,
  says "Backup RADIUS Address: %s\n" (text (apCfgBackupRadiusServerGet unit vap))).
Definition radiusSrvCliCmdSetBck : M cli Z := one_value
  (radius_server apCfgBackupRadiusServerSet apCfgBackupRadiusServerGet "Backup RADIUS Server IP Address: %s\n").
Definition radiusPortCliCmdGetPri : M cli Z := on_vap (λ unit vap,
  says "Primary RADIUS Port: %d\n" (number (apCfgRadiusPortGet unit vap))).
(** One token that is a number. *)
Definition one_num (k : Z → M cli Z) : M cli Z := one_value
  (v ← sccli_tokenPopNum; match v with None => error | Some v => k v end).
Definition radiusPortCliCmdSetPri : M cli Z := on_vap (λ unit vap, one_num (λ port,
  if (port <? 1) || (65534 <? port) then fails "Invalid value! it should be 1..65534\n"
  else
    _ ← each (seqZ 0 WLAN_MAX_VAP) (λ i, call (apCfgRadiusPortSet unit i port));
    says "Primary RADIUS Port Number: %d\n" (number (apCfgRadiusPortGet unit vap)))).
Definition radiusPortCliCmdGetBck : M cli Z := on_vap (λ unit vap,
  says "Backup RADIUS Port: %d\n" (number (apCfgBackupRadiusPortGet unit vap))).
Definition radiusPortCliCmdSetBck : M cli Z := on_vap (λ unit vap, one_num (λ port,
  _ ← each (seqZ 0 WLAN_MAX_VAP) (λ i, call (apCfgBackupRadiusPortSet unit i port));
  says "Backup RADIUS Port Number: %d\n" (number (apCfgBackupRadiusPortGet unit vap)))).
Definition radiusSecretCliCmdGetPri : M cli Z := on_vap (λ unit vap,
  says "Primary RADIUS Server secret: %s\n" (text (apCfgRadiusSecretGet unit vap))).
Definition radiusSecretCliCmdSetPri : M cli Z := on_vap (λ unit vap,
  set_text (apCfgRadiusSecretSet unit vap)
    (says "Primary Radius Server secret: %s\n" (text (apCfgRadiusSecretGet unit vap)))
    "Primary Radius Server secret is too long\n").
Definition radiusSecretCliCmdGetBck : M cli Z := on_vap (λ unit vap,
  says "Backup RADIUS Server secret: %s\n" (text (apCfgBackupRadiusSecretGet unit vap))).
Definition radiusSecretCliCmdSetBck : M cli Z := on_vap (λ unit vap,
  set_text (apCfgBackupRadiusSecretSet unit vap)
    (says "Backup Radius Server secret: %s\n" (text (apCfgBackupRadiusSecretGet unit vap)))
    "Backup Radius Server secret is too long\n").
Definition dot1xKeyLifeCliCmdGet : M cli Z := on_vap (λ unit vap,
  says "802.1x Dynamic Key Update Interval: %d Seconds\n" (number (apCfgGroupKeyUpdateIntervalGet unit vap))).
Definition dot1xKeyLifeCliCmdSet : M cli Z := on_vap (λ unit vap, one_num (λ interval,
  rc ← on (apCfgGroupKeyUpdateIntervalSet unit vap interval);
  if negb (rc =? A_OK) then fails "802.1x dynamic Key update interval range invalid\n"
  else says "802.1x Dynamic Key Update Interval: %d Seconds\n" (number (apCfgGroupKeyUpdateIntervalGet unit vap)))).
Definition usernameCliCmdGet : M cli Z :=
  says "Login Username: %s\n" (text apCfgLoginGet).
(** A pair of double quotes is how an empty text is written. *)
Definition CLI_TOKEN_NULL_STRING : cstr := [dquote; dquote].
Definition login_text (set : cstr → M sys Z) (blank refused : cstr) (shown : M cli Z) : M cli Z :=
  one_token (λ p,
    if bool_decide (CLI_TOKEN_NULL_STRING = p) then fails blank else tell_text set refused shown p).
Definition usernameCliCmdSet : M cli Z :=
  login_text apCfgLoginSet "Username can't be blank\n" "Username is too long\n"
    (says "Login Username: %s\n" (text apCfgLoginGet)).
Definition passwordCliCmdGet : M cli Z :=
  says "Login Password: %s\n" (text apCfgPasswordGet).
Definition passwordCliCmdSet : M cli Z :=
  login_text apCfgPasswordSet "Login Password can't be blank\n" "Login Password is too long\n"
    (says "Login Password: %s\n" (text apCfgPasswordGet)).
Definition httpCliCmdGet : M cli Z :=
  says "HTTP: %s\n" (able apCfgHttpModeGet).
Definition httpsCliCmdGet : M cli Z :=
  says "HTTPS: %s\n" (able apCfgAutohttpsModeGet).
Definition menhanceCliCmdGet : M cli Z :=
  says "Multicast Packets Enhancement: %s\n" (able apCfgMultiEnhanceGet).
Definition hwversionCliCmdGet : M cli Z := says "PID VID: %s\n" (text getHwVersion).
Definition httpCliCmdDisable : M cli Z :=
  _ ← call (apCfgHttpModeSet 0);
  says "HTTP: %s\n" (mret disabled).
Definition httpCliCmdEnable : M cli Z :=
  _ ← call (apCfgHttpModeSet 1);
  says "HTTP: %s\n" (mret enabled).
Definition httpsCliCmdDisable : M cli Z :=
  _ ← call (apCfgAutohttpsModeSet 0);
  _ ← call (apCfgHttpsModeSet 0);
  says "HTTPS: %s\n" (mret disabled).
Definition httpsCliCmdEnable : M cli Z :=
  _ ← call (apCfgAutohttpsModeSet 1);
  _ ← call (apCfgHttpsModeSet 1);
  says "HTTPS: %s\n" (mret enabled).
Definition multienhanceDisable : M cli Z :=
  _ ← call (apCfgMultiEnhanceSet 0);
  says "Multicast Packets Enhancement: %s\n" (mret disabled).
Definition multienhanceEnable : M cli Z :=
  _ ← call (apCfgMultiEnhanceSet 1);
  says "Multicast Packets Enhancement: %s\n" (mret enabled).
Definition timezoneCliCmdGet : M cli Z :=
  says "Time Zone: %s\n" (text apCfgTimezoneOffsetGet).
(** The token becomes upper case where it is. *)
Definition timezoneCliCmdSet : M cli Z :=
  s ← getS;
  let pToken := scToUppers (ibuf s) in
  _ ← modS (set_ibuf pToken);
  n ← sccli_tokenCount;
  let bad := fails "Invalid Time Zone\n" in
  if negb (n =? 0) then bad
  else if bool_decide (pToken ∈ CurTbl s) then
    _ ← call (apCfgTimezoneOffsetSet pToken);
    says "Time Zone: %s\n" (text apCfgTimezoneOffsetGet)
  else bad.
Definition daylightModeCliCmdGet : M cli Z :=
  says "Daylight Mode: %s\n" (able apCfgDaylightSavingGet).
Definition daylightCliCmdDisable : M cli Z :=
  _ ← call (apCfgDaylightSavingSet 0);
  says "daylight: %s\n" (mret disabled).
Definition daylightCliCmdEnable : M cli Z :=
  _ ← call (apCfgDaylightSavingSet 1);
  says "daylight: %s\n" (mret enabled).
Definition snmpReadComCliCmdGet : M cli Z :=
  says "SNMP Read Community: %s\n" (text apCfgSnmpReadCommGet).
Definition snmpReadComCliCmdSet : M cli Z :=
  set_text apCfgSnmpReadCommSet (says "SNMP Read Community: %s\n" (text apCfgSnmpReadCommGet))
    "SNMP Read Community is too long\n".
Definition snmpWriteComCliCmdGet : M cli Z :=
  says "SNMP Write Community: %s\n" (text apCfgSnmpWriteCommGet).
Definition snmpWriteComCliCmdSet : M cli Z :=
  set_text apCfgSnmpWriteCommSet (says "SNMP Write Community: %s\n" (text apCfgSnmpWriteCommGet))
    "SNMP Write Community is too long\n".
Definition snmpModeCliCmdGet : M cli Z :=
  says "SNMP Mode: %s\n" (able apCfgSnmpModeGet).
Definition snmpCliCmdEnable : M cli Z :=
  _ ← call (apCfgSnmpModeSet 1);
  says "SNMP: %s\n" (mret enabled).
Definition snmpCliCmdDisable : M cli Z :=
  _ ← call (apCfgSnmpModeSet 0);
  says "SNMP: %s\n" (mret disabled).
(** [inet_ntoa] of what a getter returns as an [int]. *)
Definition snmpManageCliCmdGet : M cli Z :=
  any ← on apCfgSnmpAnyManagerGet;
  if negb (any =? 0) then _ ← printf "SNMP Manager: Any Station\n" []; ok
  else
    from ← on apCfgSnmpManagerIpGet;
    _ ← (if from =? 0 then mret tt else printf "SNMP Manager IP Address from: %s" [inet_ntoa (wrap32 from)]);
    to ← on apCfgSnmpManagerIpEndGet;
    _ ← (if to =? 0 then mret tt else printf " to %s\n" [inet_ntoa (wrap32 to)]);
    ok.
Definition snmpManageCliCmdAny : M cli Z :=
  _ ← call (apCfgSnmpAnyManagerSet 1);
  _ ← printf "SNMP Manager: Any Station\n" [];
  ok.
(** One token that is an address. *)
Definition one_addr (bad : cstr) (k : Z → M cli Z) : M cli Z := one_value
  (a ← sccli_tokenGetNetAddrHandler; match a with None => fails bad | Some iaddr => k iaddr end).
Definition snmpManageCliCmdIpStart : M cli Z := one_addr "Invalid Start IP Address\n" (λ iaddr,
  if iaddr =? 0 then _ ← printf "Invalid Start IP Address %s\n" [inet_ntoa iaddr]; error
  else
    end_ip ← on apCfgSnmpManagerIpEndGet;
    if sint32 iaddr <=? end_ip then
      _ ← call (apCfgSnmpManagerIpSet (sint32 iaddr));
      says "SNMP Manager IP Address Start: %s\n" (mret (inet_ntoa iaddr))
    else fails "Start IP is bigger than End IP\n").
Definition snmpManageCliCmdIpEnd : M cli Z := one_addr "Invalid End IP Address\n" (λ iaddr,
  if iaddr =? 0 then _ ← printf "Invalid End IP Address %s\n" [inet_ntoa iaddr]; error
  else
    start_ip ← on apCfgSnmpManagerIpGet;
    if start_ip <=? sint32 iaddr then
      _ ← call (apCfgSnmpManagerIpEndSet (sint32 iaddr));
      says "SNMP Manager IP Address End: %s\n" (mret (inet_ntoa iaddr))
    else fails "Start IP is bigger than End IP\n").
Definition snmpTrapCliCmdGet : M cli Z :=
  any ← on apCfgSnmpAnyManagerGet;
  if negb (any =? 0) then _ ← printf "SNMP Manager: Any Station\n" []; ok
  else
    ip ← on apCfgSnmpManagerIpGet;
    if negb (ip =? 0) then says "SNMP Manager: %s\n" (mret (inet_ntoa (wrap32 ip)))
    else
      _ ← printf "SNMP Manager: Any Station\n" [];
      _ ← call (apCfgSnmpAnyManagerSet 1); ok.
Definition snmpTrapCliCmdBroadcast : M cli Z :=
  _ ← call (apCfgSnmpTrapRecvIpSet (sint32 (inet_addr "255.255.255.255")));
  _ ← printf "SNMP Trap: broadcast\n" []; ok.
Definition snmpTrapCliCmdUnicast : M cli Z := one_addr "Invalid IP Address\n" (λ iaddr,
  if iaddr =? 0 then _ ← printf "Invalid IP Address %s\n" [inet_ntoa iaddr]; error
  else
    _ ← call (apCfgSnmpTrapRecvIpSet (sint32 iaddr));
    says "SNMP Trap to IP Address: %s\n" (mret (inet_ntoa iaddr))).
Definition syslogCliCmdGet : M cli Z :=
  says "Syslog: %s\n" (able apCfgsysLogEnabledGet).
Definition syslogCliCmdDisable : M cli Z :=
  _ ← call (apCfgsysLogEnabledSet 0);
  says "Syslog: %s\n" (mret disabled).
Definition syslogCliCmdEnable : M cli Z :=
  _ ← call (apCfgsysLogEnabledSet 1);
  _ ← call (apCfgsysLogSeveritySet 6);
  says "Syslog: %s\n" (mret enabled).
Definition syslogSrvCliCmdGet : M cli Z :=
  t ← on apCfgsysLogServerGet;
  match t with
  | [] => _ ← printf "Syslog server: None\n" []; ok
  | _ => says "Syslog Server: %s\n" (text apCfgsysLogServerGet)
  end.
Definition syslogSrvCliCmdSet : M cli Z :=
  set_text apCfgsysLogServerSet (says "Syslog Server Address: %s\n" (text apCfgsysLogServerGet))
    "Invalid Syslog Server Address\n".
Definition roguetypeCmdGet : M cli Z :=
  says "Rogue AP type: %s\n"
    (choose scApCfgRogueApTypeGet
       [(2, "Not in Legal AP List" : cstr); (3, "No Security and Not in Legal AP List" : cstr)] "No Security").
Definition rogue_type (v : Z) (name : cstr) : M cli Z :=
  _ ← call (scApCfgRogueApTypeSet v);
  t ← on scApCfgRogueApTypeGet;
  if t =? v then says "Rogue AP type: %s\n" (mret name)
  else _ ← printf "failed to define Rogue AP type as %s\n" [name]; error.
Definition roguetype1CliCmdEnable : M cli Z := rogue_type 1 "No Security".
Definition roguetype2CliCmdEnable : M cli Z := rogue_type 2 "Not in Legal AP List".
Definition roguetype3CliCmdEnable : M cli Z := rogue_type 3 "No Security and Not in Legal AP List".
Definition roguelegalCmdGet : M cli Z :=
  pList ← on scApCfgLegalApListGet;
  match pList with
  | [] => _ ← printf "Legal AP/OUI List is empty\n" []; ok
  | _ =>
      _ ← printf "Legal AP/OUI List:\n" [];
      match strtok_all [","%char] pList with
      | [] => faultM
      | values => _ ← each values (λ pValue, printf "\t%s\n" [pValue]); ok
      end
  end.
(** An address, or the first half of one filled with stars, with or without
    separators, in upper case: [None] when it is neither. *)
Definition mac_or_oui (pToken : cstr) : M cli (option cstr) :=
  let len := zlen pToken in
  if negb ((len =? 6) || (len =? 8) || (len =? 12) || (len =? 17)) then mret None
  else
    let tokenBuf := if len =? 6 then pToken ++ "******" else if len =? 8 then pToken ++ ":**:**:**" else pToken in
    macOrOui ← (if (len =? 8) || (len =? 17) then liftO (scMacStr17ToStr12 tokenBuf) else mret tokenBuf);
    valid ← liftO (scValidHexs macOrOui (if len <? 10 then 6 else 12));
    mret (if (valid : bool) then Some (scToUppers macOrOui) else None).
Definition legal_list (set : cstr → M sys Z) (refused title : cstr) : M cli Z :=
  n ← sccli_tokenCount;
  if negb (n =? 1) then error
  else
    pToken ← pop;
    m ← mac_or_oui pToken;
    match m with
    | None => fails "Invalid input\n"
    | Some macOrOui =>
        rc ← on (set macOrOui);
        if negb (rc =? A_OK) then fails refused else says title (mret macOrOui)
    end.
Definition roguelegalCmdAdd : M cli Z :=
  legal_list scApCfgLegalApListAdd "Add legal Mac/Oui Failed\n" "Add legal Mac/Oui :%s\n".
Definition roguelegalCmdDel : M cli Z :=
  legal_list scApCfgLegalApListDel "Delete legal Mac/Oui Failed\n" "Delete legal Mac/Oui :\t%s\n".
End handlers.
