(* ===== verification/CliTable.v ===== *)
(** * The tables of commands (busybox/shell/linksysCli.c)

    Every table with its entries in their order.  A handler of the parser is a
    case of its own, because it goes on parsing with the next table. *)

From S2P Require Import Prelude CLib FileSys Utility CfgStore ApCfgSys ApCfgWlan EditApCfg Cli CliSystem CliServices CliNetwork CliRadio CliSecurity.

Definition CLI_SUPERUSER : cstr := "superuser".
Definition CLI_HIDDENCMD : cstr := ".".
Definition txtDisable : cstr := "disable".
Definition txtEnable : cstr := "enable".

Inductive handler : Type :=
  | Generic
  | GenericSet
  | Help
  | Do (m : M cli Z).

(** [struct parse_token_s]; [None] is NULL. *)
Record parse_token_s : Type := Tok {
  pCmd : cstr;
  pHelpText : option cstr;
  fHandler : handler;
  pNxtParseTbl : option tbl;
  pProtected : option cstr;
  opMode : Z;
}.

Section tables.
Context {store : CfgStore sys} {host : Host} {console : Console}.

Definition configCmdTbl : list parse_token_s := [
   Tok ("vap" : cstr) (Some ("Config Virtual AP X" : cstr)) (Do configCliCmdVap) None None 0].
Definition acllocalmodeCmdTbl : list parse_token_s := [
   Tok ("allow" : cstr) (Some ("Allow only following MAC addresses to connect to wireless network" : cstr)) (Do aclLocalModeCliCmdAllow) None None 0;
   Tok ("prevent" : cstr) (Some ("Prevent following MAC addresses from connecting to wireless network" : cstr)) (Do aclLocalModeCliCmdPrevent) None None 0].
Definition aclCmdTbl : list parse_token_s := [
   Tok txtDisable (Some ("Disable Access Control" : cstr)) (Do aclCliCmdDisable) None None 0;
   Tok ("local" : cstr) (Some ("Enable Local Access Control" : cstr)) (Do aclCliCmdLocal) None None 0;
   Tok ("type" : cstr) (Some ("Set Access Control Local Mode" : cstr)) Generic (Some TacllocalmodeCmdTbl) None 0;
   Tok ("radius" : cstr) (Some ("Enable Radius Access Control" : cstr)) (Do aclCliCmdRadius) None None 0;
   Tok ("add" : cstr) (Some ("Add a Trusted MAC Address" : cstr)) (Do aclCliCmdAdd) None None 0;
   Tok ("del" : cstr) (Some ("Delete a Trusted MAC Address" : cstr)) (Do aclCliCmdDel) None None 0].
Definition activeModeCmdTbl : list parse_token_s := [
   Tok txtEnable (Some ("Active Current VAP" : cstr)) (Do activeModeCliCmdEnable) None None 0;
   Tok txtDisable (Some ("Disable Current VAP" : cstr)) (Do activeModeCliCmdDisable) None None 0].
Definition dhcpCmdTbl : list parse_token_s := [
   Tok ("static" : cstr) (Some ("Set DHCPv4 Disable" : cstr)) (Do dhcpCliCmdDisable) None None 0;
   Tok ("automatic" : cstr) (Some ("Set DHCPv4 Client" : cstr)) (Do dhcpCliCmdClient) None None 0].
Definition dhcpv6CmdTbl : list parse_token_s := [
   Tok ("static" : cstr) (Some ("Set DHCPv6 Disable" : cstr)) (Do dhcpv6CliCmdDisable) None None 0;
   Tok ("automatic" : cstr) (Some ("Set DHCPv6 Client" : cstr)) (Do dhcpv6CliCmdClient) None None 0].
Definition dot1xSuppCmdTbl : list parse_token_s := [
   Tok txtDisable (Some ("Disable 802.1x Client on Ethernet" : cstr)) (Do dot1xSuppCliCmdDisable) None None 0;
   Tok txtEnable (Some ("Enable 802.1x Client on Ethernet" : cstr)) (Do dot1xSuppCliCmdEnable) None None 0].
Definition dot1xSuppTypeCmdTbl : list parse_token_s := [
   Tok ("user" : cstr) (Some ("Use Manual Username/Password" : cstr)) (Do dot1xSuppTypeCliCmdUser) None None 0;
   Tok ("mac" : cstr) (Some ("Use MAC Address As Username/Password" : cstr)) (Do dot1xSuppTypeCliCmdMac) None None 0].
Definition vlanModeCmdTbl : list parse_token_s := [
   Tok txtDisable (Some ("Disable VLAN Operation" : cstr)) (Do vlanModeCliCmdDisable) None None 0;
   Tok txtEnable (Some ("Enable VLAN Operation" : cstr)) (Do vlanModeCliCmdEnable) None None 0].
Definition wirelessModeCmdTbl : list parse_token_s := [
   Tok ("disable" : cstr) (Some ("Disable Current Radio" : cstr)) (Do wirelessModeCliCmdDisable) None None 0;
   Tok ("11b" : cstr) (Some ("802.11b only" : cstr)) (Do wirelessModeCliCmd11b) None None 0;
   Tok ("11g" : cstr) (Some ("802.11g only" : cstr)) (Do wirelessModeCliCmd11g) None None 0;
   Tok ("11n" : cstr) (Some ("802.11n only" : cstr)) (Do wirelessModeCliCmd11n) None None 0;
   Tok ("11bg" : cstr) (Some ("802.11b and 802.11g" : cstr)) (Do wirelessModeCliCmd11bg) None None 0;
   Tok ("11bgn" : cstr) (Some ("Mixed 802.11n,802.11b and 802.11g" : cstr)) (Do wirelessModeCliCmd11bgn) None None 0].
Definition opModeCmdTbl : list parse_token_s := [
   Tok ("ap" : cstr) (Some ("Operating as Access Point." : cstr)) (Do opModeCliCmdAp) None None 0;
   Tok ("wdsBridge" : cstr) (Some ("Operating as Wireless WDS Bridge." : cstr)) (Do opModeCliCmdMpt) None None 0;
   Tok ("wdsRepeater" : cstr) (Some ("Operating as Wireless WDS Repeater." : cstr)) (Do opModeCliCmdApPtp) None None 0;
   Tok ("apRepeater" : cstr) (Some ("Operating as Allow wireless signal repeater." : cstr)) (Do opModeCliCmdApPtmp) None None 0;
   Tok ("uc" : cstr) (Some ("Operating as Bridge(Wireless Client)." : cstr)) (Do opModeCliCmdUc) None None 0;
   Tok ("ur" : cstr) (Some ("Operating as Bridge(Wireless Repeater)." : cstr)) (Do opModeCliCmdUr) None None 0;
   Tok ("rogueAp" : cstr) (Some ("Operating as Rogue AP." : cstr)) (Do opModeCliCmdRogueAp) None None 0].
Definition radiusSrvCliCmdGetTbl : list parse_token_s := [
   Tok ("primary" : cstr) (Some ("Display primary RADIUS Server IP Address" : cstr)) (Do radiusSrvCliCmdGetPri) None None 0;
   Tok ("backup" : cstr) (Some ("Display backup RADIUS Server IP Address" : cstr)) (Do radiusSrvCliCmdGetBck) None None 0].
Definition radiusSrvCliCmdSetTbl : list parse_token_s := [
   Tok ("primary" : cstr) (Some ("Set primary RADIUS Server IP Address" : cstr)) (Do radiusSrvCliCmdSetPri) None None 0;
   Tok ("backup" : cstr) (Some ("Set backup RADIUS Server IP Address" : cstr)) (Do radiusSrvCliCmdSetBck) None None 0].
Definition radiusPortCliCmdGetTbl : list parse_token_s := [
   Tok ("primary" : cstr) (Some ("Display primary RADIUS Server Port Number" : cstr)) (Do radiusPortCliCmdGetPri) None None 0;
   Tok ("backup" : cstr) (Some ("Display backup RADIUS Server Port Number" : cstr)) (Do radiusPortCliCmdGetBck) None None 0].
Definition radiusPortCliCmdSetTbl : list parse_token_s := [
   Tok ("primary" : cstr) (Some ("Set primary RADIUS Server Port Number" : cstr)) (Do radiusPortCliCmdSetPri) None None 0;
   Tok ("backup" : cstr) (Some ("Set backup RADIUS Server Port Number" : cstr)) (Do radiusPortCliCmdSetBck) None None 0].
Definition radiusSecretCliCmdGetTbl : list parse_token_s := [
   Tok ("primary" : cstr) (Some ("Display primary RADIUS Server Shared Secret" : cstr)) (Do radiusSecretCliCmdGetPri) None None 0;
   Tok ("backup" : cstr) (Some ("Display backup RADIUS Server Shared Secret" : cstr)) (Do radiusSecretCliCmdGetBck) None None 0].
Definition radiusSecretCliCmdSetTbl : list parse_token_s := [
   Tok ("primary" : cstr) (Some ("Set primary RADIUS Server Shared Secret" : cstr)) (Do radiusSecretCliCmdSetPri) None None 0;
   Tok ("backup" : cstr) (Some ("Set backup RADIUS Server Shared Secret" : cstr)) (Do radiusSecretCliCmdSetBck) None None 0].
Definition remotePtmpMacListCmdTbl : list parse_token_s := [
   Tok ("1" : cstr) (Some ("Remote Mac Address 1" : cstr)) (Do remotePtmpMacListCliCmdSet) None None 0;
   Tok ("2" : cstr) (Some ("Remote Mac Address 2" : cstr)) (Do remotePtmpMacListCliCmdSet) None None 0;
   Tok ("3" : cstr) (Some ("Remote Mac Address 3" : cstr)) (Do remotePtmpMacListCliCmdSet) None None 0;
   Tok ("4" : cstr) (Some ("Remote Mac Address 4" : cstr)) (Do remotePtmpMacListCliCmdSet) None None 0].
Definition sepCmdTbl : list parse_token_s := [
   Tok txtDisable (Some ("Disable Isolation within SSID" : cstr)) (Do sepCliCmdDisable) None None 0;
   Tok txtEnable (Some ("Enable Isolation within SSID" : cstr)) (Do sepCliCmdEnable) None None 0].
Definition dot11nGuardIntervalCmdTbl : list parse_token_s := [
   Tok ("auto" : cstr) (Some ("Set Auto 11n Guard Interval" : cstr)) (Do dot11nGuardIntervalCmdAuto) None None 0;
   Tok ("short" : cstr) (Some ("Set Short 11n Guard Interval" : cstr)) (Do dot11nGuardIntervalCmdShort) None None 0;
   Tok ("long" : cstr) (Some ("Set Long 11n Guard Interval" : cstr)) (Do dot11nGuardIntervalCmdLong) None None 0].
Definition dot11nRadioBandCmdTbl : list parse_token_s := [
   Tok ("standard" : cstr) (Some ("Set Channel Bandwidth to Standard-20MHz Channel" : cstr)) (Do dot11nRadioBandCmdStandard) None None 0;
   Tok ("auto" : cstr) (Some ("Set Channel Bandwidth to Auto-20/40MHz Channel" : cstr)) (Do dot11nRadioBandCmdAuto) None None 0;
   Tok ("wide" : cstr) (Some ("Set Channel Bandwidth to Wide-40MHz Channel" : cstr)) (Do dot11nRadioBandCmdWide) None None 0].
Definition skuCmdTbl : list parse_token_s := [
   Tok ("SKU_US" : cstr) (Some ("Change SKU to US." : cstr)) (Do changeSKUToUS) None None 0;
   Tok ("SKU_AU" : cstr) (Some ("Change SKU to AU." : cstr)) (Do changeSKUToAU) None None 0;
   Tok ("SKU_JP" : cstr) (Some ("Change SKU to JP." : cstr)) (Do changeSKUToJP) None None 0;
   Tok ("SKU_LA" : cstr) (Some ("Change SKU to AU." : cstr)) (Do changeSKUToAU) None None 0;
   Tok ("SKU_BR" : cstr) (Some ("Change SKU to BR." : cstr)) (Do changeSKUToBR) None None 0;
   Tok ("SKU_CN" : cstr) (Some ("Change SKU to CN." : cstr)) (Do changeSKUToCN) None None 0;
   Tok ("SKU_KR" : cstr) (Some ("Change SKU to KR." : cstr)) (Do changeSKUToKR) None None 0;
   Tok ("SKU_G5" : cstr) (Some ("Change SKU to G5." : cstr)) (Do changeSKUToG5) None None 0].
Definition dot11dModeCmdTbl : list parse_token_s := [
   Tok txtDisable (Some ("Disable 802.11d Mode" : cstr)) (Do dot11dModeCmdDisable) None None 0;
   Tok txtEnable (Some ("Enable 802.11d Mode" : cstr)) (Do dot11dModeCmdEnable) None None 0].
Definition wmeCmdTbl : list parse_token_s := [
   Tok txtDisable (Some ("Disable WMM" : cstr)) (Do wmeCliCmdDisable) None None 0;
   Tok txtEnable (Some ("Enable WMM" : cstr)) (Do wmeCliCmdEnable) None None 0].
Definition wmmpsCmdTbl : list parse_token_s := [
   Tok txtDisable (Some ("Disable WMM PowerSaving" : cstr)) (Do wmmpsCliCmdDisable) None None 0;
   Tok txtEnable (Some ("Enable WMM PowerSaving" : cstr)) (Do wmmpsCliCmdEnable) None None 0].
Definition outPowerCmdTbl : list parse_token_s := [
   Tok ("100%" : cstr) (Some ("100% of Maximum Out Power" : cstr)) (Do outPowerCliCmd100) None None 0;
   Tok ("79%" : cstr) (Some ("79% of Maximum Out Power" : cstr)) (Do outPowerCliCmd79) None None 0;
   Tok ("63%" : cstr) (Some ("63% of Maximum Out Power" : cstr)) (Do outPowerCliCmd63) None None 0;
   Tok ("50%" : cstr) (Some ("50% of Maximum Out Power" : cstr)) (Do outPowerCliCmd50) None None 0;
   Tok ("40%" : cstr) (Some ("40% of Maximum Out Power" : cstr)) (Do outPowerCliCmd40) None None 0;
   Tok ("32%" : cstr) (Some ("32% of Maximum Out Power" : cstr)) (Do outPowerCliCmd32) None None 0;
   Tok ("25%" : cstr) (Some ("25% of Maximum Out Power" : cstr)) (Do outPowerCliCmd25) None None 0;
   Tok ("20%" : cstr) (Some ("20% of Maximum Out Power" : cstr)) (Do outPowerCliCmd20) None None 0;
   Tok ("16%" : cstr) (Some ("16% of Maximum Out Power" : cstr)) (Do outPowerCliCmd16) None None 0;
   Tok ("13%" : cstr) (Some ("13% of Maximum Out Power" : cstr)) (Do outPowerCliCmd13) None None 0;
   Tok ("10%" : cstr) (Some ("10% of Maximum Out Power" : cstr)) (Do outPowerCliCmd10) None None 0;
   Tok ("8%" : cstr) (Some ("8% of Maximum Out Power" : cstr)) (Do outPowerCliCmd8) None None 0;
   Tok ("6%" : cstr) (Some ("6% of Maximum Out Power" : cstr)) (Do outPowerCliCmd6) None None 0;
   Tok ("5%" : cstr) (Some ("5% of Maximum Out Power" : cstr)) (Do outPowerCliCmd5) None None 0].
Definition shortPreambleCmdTbl : list parse_token_s := [
   Tok txtDisable (Some ("Disable Short Preamble (Use Only Long)" : cstr)) (Do shortPreambleCliCmdDisable) None None (Z.lor MODE_SELECT_11B MODE_SELECT_11G);
   Tok txtEnable (Some ("Enable Short and Long Preamble" : cstr)) (Do shortPreambleCliCmdEnable) None None (Z.lor MODE_SELECT_11B MODE_SELECT_11G)].
Definition interVapForwardingCmdTbl : list parse_token_s := [
   Tok txtDisable (Some ("Disable Isolate Between SSID" : cstr)) (Do interVapForwardingCliCmdDisable) None None 0;
   Tok txtEnable (Some ("Enable Isolate Between SSID" : cstr)) (Do interVapForwardingCliCmdEnable) None None 0].
Definition ssidModeCmdTbl : list parse_token_s := [
   Tok txtDisable (Some ("Disable SSID Broadcast" : cstr)) (Do ssidModeCliCmdDisable) None None 0;
   Tok txtEnable (Some ("Enable SSID Broadcast" : cstr)) (Do ssidModeCliCmdEnable) None None 0].
Definition lltdModeCmdTbl : list parse_token_s := [
   Tok txtDisable (Some ("Disable LLTD" : cstr)) (Do lltdModeCliCmdDisable) None None 0;
   Tok txtEnable (Some ("Enable LLTD" : cstr)) (Do lltdModeCliCmdEnable) None None 0].
Definition authCmdTbl : list parse_token_s := [
   Tok ("open" : cstr) (Some ("Select Open-System Authentication Type" : cstr)) (Do authCliCmdOpen) None None 0;
   Tok ("shared" : cstr) (Some ("Select Shared-Key Authentication Type" : cstr)) (Do authCliCmdShared) None None 0].
Definition encryCmdTbl : list parse_token_s := [
   Tok ("TKIP" : cstr) (Some ("Select TKIP Encryption Algorithm Type" : cstr)) (Do encryCliCmdTkip) None None 0;
   Tok ("AES" : cstr) (Some ("Select AES Encryption Algorithm Type" : cstr)) (Do encryCliCmdAes) None None 0].
Definition secCmdTbl : list parse_token_s := [
   Tok ("wep" : cstr) (Some ("WEP Mode(Open/Share)" : cstr)) Generic (Some TauthCmdTbl) None 0;
   Tok ("wpapsk" : cstr) (Some ("WPA-Personal Mode" : cstr)) (Do secCliCmdWpapsk) None None 0;
   Tok ("wpa2psk" : cstr) (Some ("WPA2-Personal Mode" : cstr)) (Do secCliCmdWpa2psk) None None 0;
   Tok ("wpa2pskmixed" : cstr) (Some ("WPA/WPA2-Personal Mixed Mode" : cstr)) (Do secCliCmdWpapskauto) None None 0;
   Tok ("wparadius" : cstr) (Some ("WPA-Enterprise Mode" : cstr)) (Do secCliCmdWpa) None None 0;
   Tok ("wpa2radius" : cstr) (Some ("WPA2-Enterprise Mode" : cstr)) (Do secCliCmdWpa2) None None 0;
   Tok ("wpa2radiusmixed" : cstr) (Some ("WPA/WPA2-Enterprise Mixed Mode" : cstr)) (Do secCliCmdWpaauto) None None 0;
   Tok ("radius" : cstr) (Some ("RADIUS Mode" : cstr)) (Do secCliCmdRadius) None None 0;
   Tok ("disable" : cstr) (Some ("None Security Mode" : cstr)) (Do secCliCmdNone) None None 0].
Definition ethAutoNegoCmdTbl : list parse_token_s := [
   Tok ("1" : cstr) (Some ("Auto Negotiation Enable" : cstr)) (Do ethAutoNegoCliCmdEnable) None None 0;
   Tok ("0" : cstr) (Some ("Auto Negotiation Disable" : cstr)) (Do ethAutoNegoCliCmdDisable) None None 0].
Definition ethDuplexModeCmdTbl : list parse_token_s := [
   Tok ("1" : cstr) (Some ("Full Duplex Mode" : cstr)) (Do ethDuplexModeCliCmdFull) None None 0;
   Tok ("0" : cstr) (Some ("Half Duplex Mode" : cstr)) (Do ethDuplexModeCliCmdHalf) None None 0].
Definition ethDataRateCmdTbl : list parse_token_s := [
   Tok ("auto" : cstr) (Some ("Auto detect" : cstr)) (Do ethDataRateCliCmdAuto) None None 0;
   Tok ("1000" : cstr) (Some ("1000Mbps" : cstr)) (Do ethDataRateCliCmd1000) None None 0;
   Tok ("100" : cstr) (Some ("100Mbps" : cstr)) (Do ethDataRateCliCmd100) None None 0;
   Tok ("10" : cstr) (Some ("10Mbps" : cstr)) (Do ethDataRateCliCmd10) None None 0].
Definition countryCodeCmdTbl : list parse_token_s := [
   Tok ("UnitedStates" : cstr) (Some ("Country Code: 840" : cstr)) (Do countryCodeCliCmdSet) None None 0;
   Tok ("Australia" : cstr) (Some ("Country Code: 36" : cstr)) (Do countryCodeCliCmdSet) None None 0;
   Tok ("Brazil" : cstr) (Some ("Country Code: 76" : cstr)) (Do countryCodeCliCmdSet) None None 0;
   Tok ("China" : cstr) (Some ("Country Code: 156" : cstr)) (Do countryCodeCliCmdSet) None None 0;
   Tok ("Asia" : cstr) (Some ("Country Code: 1702" : cstr)) (Do countryCodeCliCmdSet) None None 0;
   Tok ("Denmark" : cstr) (Some ("Country Code: 208" : cstr)) (Do countryCodeCliCmdSet) None None 0;
   Tok ("Europe" : cstr) (Some ("Country Code: 1276" : cstr)) (Do countryCodeCliCmdSet) None None 0;
   Tok ("Finland" : cstr) (Some ("Country Code: 246" : cstr)) (Do countryCodeCliCmdSet) None None 0;
   Tok ("France" : cstr) (Some ("Country Code: 250" : cstr)) (Do countryCodeCliCmdSet) None None 0;
   Tok ("Germany" : cstr) (Some ("Country Code: 276" : cstr)) (Do countryCodeCliCmdSet) None None 0;
   Tok ("ireland" : cstr) (Some ("Country Code: 372" : cstr)) (Do countryCodeCliCmdSet) None None 0;
   Tok ("Italy" : cstr) (Some ("Country Code: 380" : cstr)) (Do countryCodeCliCmdSet) None None 0;
   Tok ("Japan" : cstr) (Some ("Country Code: 392" : cstr)) (Do countryCodeCliCmdSet) None None 0;
   Tok ("Netherlands" : cstr) (Some ("Country Code: 528" : cstr)) (Do countryCodeCliCmdSet) None None 0;
   Tok ("NewZealand" : cstr) (Some ("Country Code: 554" : cstr)) (Do countryCodeCliCmdSet) None None 0;
   Tok ("Norway" : cstr) (Some ("Country Code: 578" : cstr)) (Do countryCodeCliCmdSet) None None 0;
   Tok ("Spain" : cstr) (Some ("Country Code: 724" : cstr)) (Do countryCodeCliCmdSet) None None 0;
   Tok ("Sweden" : cstr) (Some ("Country Code: 752" : cstr)) (Do countryCodeCliCmdSet) None None 0;
   Tok ("Switzerland" : cstr) (Some ("Country Code: 756" : cstr)) (Do countryCodeCliCmdSet) None None 0;
   Tok ("UnitedKingdom" : cstr) (Some ("Country Code: 826" : cstr)) (Do countryCodeCliCmdSet) None None 0;
   Tok ("Mexico" : cstr) (Some ("Country Code: 484" : cstr)) (Do countryCodeCliCmdSet) None None 0;
   Tok ("PuertoRico" : cstr) (Some ("Country Code: 630" : cstr)) (Do countryCodeCliCmdSet) None None 0;
   Tok ("SouthAmerica" : cstr) (Some ("Country Code: 1076" : cstr)) (Do countryCodeCliCmdSet) None None 0].
Definition httpCmdTbl : list parse_token_s := [
   Tok txtDisable (Some ("Disable HTTP" : cstr)) (Do httpCliCmdDisable) None None 0;
   Tok txtEnable (Some ("Enable HTTP" : cstr)) (Do httpCliCmdEnable) None None 0].
Definition httpsCmdTbl : list parse_token_s := [
   Tok txtDisable (Some ("Disable HTTPS" : cstr)) (Do httpsCliCmdDisable) None None 0;
   Tok txtEnable (Some ("Enable HTTPS" : cstr)) (Do httpsCliCmdEnable) None None 0].
Definition multienhanceCmdTbl : list parse_token_s := [
   Tok txtDisable (Some ("Disable Multicast Packets Enhancement" : cstr)) (Do multienhanceDisable) None None 0;
   Tok txtEnable (Some ("Enable Multicast Packets Enhancement" : cstr)) (Do multienhanceEnable) None None 0].
Definition emailalertCmdTbl : list parse_token_s := [
   Tok txtDisable (Some ("Disable Email Alert" : cstr)) (Do emailAlertCliCmdDisable) None None 0;
   Tok txtEnable (Some ("Enable Email Alert" : cstr)) (Do emailAlertCliCmdEnable) None None 0].
Definition loginsuccessCmdTbl : list parse_token_s := [
   Tok txtDisable (Some ("Disable Unauthorized Login Attempt" : cstr)) (Do loginSuccessCliCmdDisable) None None 0;
   Tok txtEnable (Some ("Enable Unauthorized Login Attempt" : cstr)) (Do loginSuccessCliCmdEnable) None None 0].
Definition loginfailCmdTbl : list parse_token_s := [
   Tok txtDisable (Some ("Disable Authorized Login" : cstr)) (Do loginFailCliCmdDisable) None None 0;
   Tok txtEnable (Some ("Enable Authorized Login" : cstr)) (Do loginFailCliCmdEnable) None None 0].
Definition syserrorCmdTbl : list parse_token_s := [
   Tok txtDisable (Some ("Disable System Error Messages" : cstr)) (Do sysErrorCliCmdDisable) None None 0;
   Tok txtEnable (Some ("Enable System Error Messages" : cstr)) (Do sysErrorCliCmdEnable) None None 0].
Definition confchangeCmdTbl : list parse_token_s := [
   Tok txtDisable (Some ("Disable Configuration Changes" : cstr)) (Do confChangeCliCmdDisable) None None 0;
   Tok txtEnable (Some ("Enable Configuration Changes" : cstr)) (Do confChangeCliCmdEnable) None None 0].
Definition bonjourmodeCmdTbl : list parse_token_s := [
   Tok txtDisable (Some ("Disable Bonjour" : cstr)) (Do BonjourModeCliCmdDisable) None None 0;
   Tok txtEnable (Some ("Enable Bonjour" : cstr)) (Do BonjourModeCliCmdEnable) None None 0].
Definition wpsmodeCmdTbl : list parse_token_s := [
   Tok txtDisable (Some ("Disable WPS" : cstr)) (Do WpsModeCliCmdDisable) None None 0;
   Tok txtEnable (Some ("Enable WPS" : cstr)) (Do WpsModeCliCmdEnable) None None 0].
Definition wpsPinERCmdTbl : list parse_token_s := [
   Tok txtDisable (Some ("Disable WPS PIN External Registrar" : cstr)) (Do WpsPinERCliCmdDisable) None None 0;
   Tok txtEnable (Some ("Enable WPS PIN External Registrar" : cstr)) (Do WpsPinERCliCmdEnable) None None 0].
Definition autoRebootCmdTbl : list parse_token_s := [
   Tok txtDisable (Some ("Disable Daily Reboot" : cstr)) (Do AutoRebootCliCmdDisable) None None 0;
   Tok txtEnable (Some ("Enable Daily Reboot" : cstr)) (Do AutoRebootCliCmdEnable) None None 0].
Definition force100mmodeCmdTbl : list parse_token_s := [
   Tok txtDisable (Some ("Disable Force LAN Port Speed to 100M" : cstr)) (Do force100mModeCliCmdDisable) None None 0;
   Tok txtEnable (Some ("Enable Force LAN Port Speed to 100M" : cstr)) (Do force100mModeCliCmdEnable) None None 0].
Definition httpredirectmodeCmdTbl : list parse_token_s := [
   Tok txtDisable (Some ("Disable HTTP Redirct" : cstr)) (Do httpRDModeCliCmdDisable) None None 0;
   Tok txtEnable (Some ("Enable HTTP Redirct" : cstr)) (Do httpRDModeCliCmdEnable) None None 0].
Definition ipv6modeCmdTbl : list parse_token_s := [
   Tok txtDisable (Some ("Disable IPv6" : cstr)) (Do ipv6ModeCliCmdDisable) None None 0;
   Tok txtEnable (Some ("Enable IPv6" : cstr)) (Do ipv6ModeCliCmdEnable) None None 0].
Definition timemodeCmdTbl : list parse_token_s := [
   Tok ("auto" : cstr) (Some ("Disable Manual" : cstr)) (Do timeModeCliCmdDisable) None None 0;
   Tok ("manual" : cstr) (Some ("Enable Manual" : cstr)) (Do timeModeCliCmdEnable) None None 0].
Definition ntpmodeCmdTbl : list parse_token_s := [
   Tok txtDisable (Some ("Disable NTP" : cstr)) (Do ntpModeCliCmdDisable) None None 0;
   Tok txtEnable (Some ("Enable NTP" : cstr)) (Do ntpModeCliCmdEnable) None None 0].
Definition wlanaccessmodeCmdTbl : list parse_token_s := [
   Tok txtDisable (Some ("Disable Wireless Web Access" : cstr)) (Do wlanAccessModeCliCmdDisable) None None 0;
   Tok txtEnable (Some ("Enable Wireless Web Access" : cstr)) (Do wlanAccessModeCliCmdEnable) None None 0].
Definition sshmodeCmdTbl : list parse_token_s := [
   Tok txtDisable (Some ("Disable SSH" : cstr)) (Do sshModeCliCmdDisable) None None 0;
   Tok txtEnable (Some ("Enable SSH" : cstr)) (Do sshModeCliCmdEnable) None None 0].
Definition ctsprotectmodeCmdTbl : list parse_token_s := [
   Tok txtDisable (Some ("Disable CTS Protection" : cstr)) (Do ctsProtectModeCliCmdDisable) None None 0;
   Tok txtEnable (Some ("Auto CTS Protection" : cstr)) (Do ctsProtectModeCliCmdAuto) None None 0].
Definition loadbalancemodeCmdTbl : list parse_token_s := [
   Tok txtDisable (Some ("Disable Load Balance" : cstr)) (Do loadBalanceModeCliCmdDisable) None None 0;
   Tok txtEnable (Some ("Enable Load Balance" : cstr)) (Do loadBalanceModeCliCmdEnable) None None 0].
Definition vlantagmodeCmdTbl : list parse_token_s := [
   Tok ("untagged" : cstr) (Some ("Untagged Vlan Tag" : cstr)) (Do vlanTagModeCliCmdDisable) None None 0;
   Tok ("tagged" : cstr) (Some ("Tagged Vlan Tag" : cstr)) (Do vlanTagModeCliCmdEnable) None None 0].
Definition vlanWDStagmodeCmdTbl : list parse_token_s := [
   Tok txtDisable (Some ("Disable Vlan Tag" : cstr)) (Do vlanWDSTagModeCliCmdDisable) None None 0;
   Tok txtEnable (Some ("Enable Vlan Tag" : cstr)) (Do vlanWDSTagModeCliCmdEnable) None None 0].
Definition timesetCmdTbl : list parse_token_s := [
   Tok ("date" : cstr) (Some ("Set Current System Dtae. Foramt : xxxx/xx/xx(year/month/day)" : cstr)) (Do todCliCmdSet) None None 0;
   Tok ("clock" : cstr) (Some ("Set Current System Time. Foramt : xx:xx:xx(hour:minute:second)" : cstr)) (Do tocCliCmdSet) None None 0].
Definition timezoneCmdTbl : list parse_token_s := [
   Tok ("001-12:00" : cstr) (Some ("(GMT-12:00) International Date Line West" : cstr)) (Do timezoneCliCmdSet) None None 0;
   Tok ("002-11:00" : cstr) (Some ("(GMT-11:00) Midway Island, Samoa" : cstr)) (Do timezoneCliCmdSet) None None 0;
   Tok ("003-10:00" : cstr) (Some ("(GMT-10:00) Hawaii" : cstr)) (Do timezoneCliCmdSet) None None 0;
   Tok ("004-09:00" : cstr) (Some ("(GMT-09:00) Alaska" : cstr)) (Do timezoneCliCmdSet) None None 0;
   Tok ("005-08:00" : cstr) (Some ("(GMT-08:00) Pacific Time (US & Canada); Tijuana" : cstr)) (Do timezoneCliCmdSet) None None 0;
   Tok ("006-07:00" : cstr) (Some ("(GMT-07:00) Arizona" : cstr)) (Do timezoneCliCmdSet) None None 0;
   Tok ("007-07:00" : cstr) (Some ("(GMT-07:00) Chihuahua, La Paz, Mazatlan" : cstr)) (Do timezoneCliCmdSet) None None 0;
   Tok ("008-07:00" : cstr) (Some ("(GMT-06:00) Mountain Time (US & Canada)" : cstr)) (Do timezoneCliCmdSet) None None 0;
   Tok ("009-06:00" : cstr) (Some ("(GMT-06:00) Central America" : cstr)) (Do timezoneCliCmdSet) None None 0;
   Tok ("010-06:00" : cstr) (Some ("(GMT-06:00) Central Time (US & Canada)" : cstr)) (Do timezoneCliCmdSet) None None 0;
   Tok ("011-06:00" : cstr) (Some ("(GMT-06:00) Guadalajara, Mexico City, Monterrey" : cstr)) (Do timezoneCliCmdSet) None None 0;
   Tok ("012-06:00" : cstr) (Some ("(GMT-06:00) Saskatchewan" : cstr)) (Do timezoneCliCmdSet) None None 0;
   Tok ("013-05:00" : cstr) (Some ("(GMT-05:00) Bogota, Lima, Quito" : cstr)) (Do timezoneCliCmdSet) None None 0;
   Tok ("014-05:00" : cstr) (Some ("(GMT-05:00) Eastern Time (US & Canada)" : cstr)) (Do timezoneCliCmdSet) None None 0;
   Tok ("015-05:00" : cstr) (Some ("(GMT-05:00) Indiana (East)" : cstr)) (Do timezoneCliCmdSet) None None 0;
   Tok ("016-04:00" : cstr) (Some ("(GMT-04:00) Atlantic Time (Canada)" : cstr)) (Do timezoneCliCmdSet) None None 0;
   Tok ("017-04:00" : cstr) (Some ("(GMT-04:00) Caracas, La Paz" : cstr)) (Do timezoneCliCmdSet) None None 0;
   Tok ("018-04:00" : cstr) (Some ("(GMT-04:00) Santiago" : cstr)) (Do timezoneCliCmdSet) None None 0;
   Tok ("019-03:00" : cstr) (Some ("(GMT-03:00) Newfoundland" : cstr)) (Do timezoneCliCmdSet) None None 0;
   Tok ("020-03:00" : cstr) (Some ("(GMT-03:00) Brasilia" : cstr)) (Do timezoneCliCmdSet) None None 0;
   Tok ("021-03:00" : cstr) (Some ("(GMT-03:00) Buenos Aires, Georgetown" : cstr)) (Do timezoneCliCmdSet) None None 0;
   Tok ("022-03:00" : cstr) (Some ("(GMT-03:00) Greenland" : cstr)) (Do timezoneCliCmdSet) None None 0;
   Tok ("023-02:00" : cstr) (Some ("(GMT-02:00) Mid-Atlantic" : cstr)) (Do timezoneCliCmdSet) None None 0;
   Tok ("024-01:00" : cstr) (Some ("(GMT-01:00) Azores" : cstr)) (Do timezoneCliCmdSet) None None 0;
   Tok ("025-01:00" : cstr) (Some ("(GMT-01:00) Cape Verde Is." : cstr)) (Do timezoneCliCmdSet) None None 0;
   Tok ("026+00:00" : cstr) (Some ("(GMT) Casablanca, Monrovia" : cstr)) (Do timezoneCliCmdSet) None None 0;
   Tok ("027+00:00" : cstr) (Some ("(GMT) Greenwich Mean Time : Dublin, Edinburgh, Lisbon, London" : cstr)) (Do timezoneCliCmdSet) None None 0;
   Tok ("028+01:00" : cstr) (Some ("(GMT+01:00) Amsterdam, Berlin, Bern, Rome, Stockholm, Vienna" : cstr)) (Do timezoneCliCmdSet) None None 0;
   Tok ("029+01:00" : cstr) (Some ("(GMT+01:00) Belgrade, Bratislava, Budapest, Ljubljana, Prague" : cstr)) (Do timezoneCliCmdSet) None None 0;
   Tok ("030+01:00" : cstr) (Some ("(GMT+01:00) Brussels, Copenhagen, Madrid, Paris" : cstr)) (Do timezoneCliCmdSet) None None 0;
   Tok ("031+01:00" : cstr) (Some ("(GMT+01:00) Sarajevo, Skopje, Warsaw, Zagreb" : cstr)) (Do timezoneCliCmdSet) None None 0;
   Tok ("032+01:00" : cstr) (Some ("(GMT+01:00) West Central Africa" : cstr)) (Do timezoneCliCmdSet) None None 0;
   Tok ("033+02:00" : cstr) (Some ("(GMT+02:00) Athens, Beirut, Istanbul, Minsk" : cstr)) (Do timezoneCliCmdSet) None None 0;
   Tok ("034+02:00" : cstr) (Some ("(GMT+02:00) Bucharest" : cstr)) (Do timezoneCliCmdSet) None None 0;
   Tok ("035+02:00" : cstr) (Some ("(GMT+02:00) Cairo" : cstr)) (Do timezoneCliCmdSet) None None 0;
   Tok ("036+02:00" : cstr) (Some ("(GMT+02:00) Harare, Pretoria" : cstr)) (Do timezoneCliCmdSet) None None 0;
   Tok ("037+02:00" : cstr) (Some ("(GMT+02:00) Helsinki, Kyiv, Riga, Sofia, Tallinn, Vilnius" : cstr)) (Do timezoneCliCmdSet) None None 0;
   Tok ("038+02:00" : cstr) (Some ("(GMT+02:00) Jerusalem" : cstr)) (Do timezoneCliCmdSet) None None 0;
   Tok ("039+03:00" : cstr) (Some ("(GMT+03:00) Baghdad" : cstr)) (Do timezoneCliCmdSet) None None 0;
   Tok ("040+03:00" : cstr) (Some ("(GMT+03:00) Kuwait, Riyadh" : cstr)) (Do timezoneCliCmdSet) None None 0;
   Tok ("041+03:00" : cstr) (Some ("(GMT+03:00) Moscow, St. Petersburg, Volgograd" : cstr)) (Do timezoneCliCmdSet) None None 0;
   Tok ("042+03:00" : cstr) (Some ("(GMT+03:00) Nairobi" : cstr)) (Do timezoneCliCmdSet) None None 0;
   Tok ("043+03:30" : cstr) (Some ("(GMT+03:30) Tehran" : cstr)) (Do timezoneCliCmdSet) None None 0;
   Tok ("044+04:00" : cstr) (Some ("(GMT+03:30) Tehran" : cstr)) (Do timezoneCliCmdSet) None None 0;
   Tok ("045+04:00" : cstr) (Some ("(GMT+04:00) Baku, Tbilisi, Yerevan" : cstr)) (Do timezoneCliCmdSet) None None 0;
   Tok ("046+04:30" : cstr) (Some ("(GMT+04:30) Kabul" : cstr)) (Do timezoneCliCmdSet) None None 0;
   Tok ("047+05:00" : cstr) (Some ("(GMT+05:00) Ekaterinburg" : cstr)) (Do timezoneCliCmdSet) None None 0;
   Tok ("048+05:00" : cstr) (Some ("(GMT+05:00) Islamabad, Karachi, Tashkent" : cstr)) (Do timezoneCliCmdSet) None None 0;
   Tok ("049+05:30" : cstr) (Some ("(GMT+05:30) Chennai, Kolkata, Mumbai, New Delhi" : cstr)) (Do timezoneCliCmdSet) None None 0;
   Tok ("050+05:45" : cstr) (Some ("(GMT+05:45) Kathmandu" : cstr)) (Do timezoneCliCmdSet) None None 0;
   Tok ("051+06:00" : cstr) (Some ("(GMT+06:00) Almaty, Novosibirsk" : cstr)) (Do timezoneCliCmdSet) None None 0;
   Tok ("052+06:00" : cstr) (Some ("(GMT+06:00) Astana, Dhaka" : cstr)) (Do timezoneCliCmdSet) None None 0;
   Tok ("053+06:00" : cstr) (Some ("(GMT+06:00) Sri Jayawardenepura" : cstr)) (Do timezoneCliCmdSet) None None 0;
   Tok ("054+06:00" : cstr) (Some ("(GMT+06:00) Rangoon" : cstr)) (Do timezoneCliCmdSet) None None 0;
   Tok ("055+07:00" : cstr) (Some ("(GMT+07:00) Bangkok, Hanoi, Jakarta" : cstr)) (Do timezoneCliCmdSet) None None 0;
   Tok ("056+07:00" : cstr) (Some ("(GMT+07:00) Krasnoyarsk" : cstr)) (Do timezoneCliCmdSet) None None 0;
   Tok ("057+08:00" : cstr) (Some ("(GMT+08:00) China, Hong Kong, Australia Western" : cstr)) (Do timezoneCliCmdSet) None None 0;
   Tok ("058+08:00" : cstr) (Some ("(GMT+08:00) Irkutsk, Ulaan Bataar" : cstr)) (Do timezoneCliCmdSet) None None 0;
   Tok ("059+08:00" : cstr) (Some ("(GMT+08:00) Kuala Lumpur, Singapore" : cstr)) (Do timezoneCliCmdSet) None None 0;
   Tok ("060+08:00" : cstr) (Some ("(GMT+08:00) Perth" : cstr)) (Do timezoneCliCmdSet) None None 0;
   Tok ("061+08:00" : cstr) (Some ("(GMT+08:00) Taipei" : cstr)) (Do timezoneCliCmdSet) None None 0;
   Tok ("062+09:00" : cstr) (Some ("(GMT+09:00) Osaka, Sapporo, Tokyo" : cstr)) (Do timezoneCliCmdSet) None None 0;
   Tok ("063+09:00" : cstr) (Some ("(GMT+09:00) Seoul" : cstr)) (Do timezoneCliCmdSet) None None 0;
   Tok ("064+09:00" : cstr) (Some ("(GMT+09:00) Yakutsk" : cstr)) (Do timezoneCliCmdSet) None None 0;
   Tok ("065+09:30" : cstr) (Some ("(GMT+09:30) Adelaide" : cstr)) (Do timezoneCliCmdSet) None None 0;
   Tok ("066+09:30" : cstr) (Some ("(GMT+09:30) Darwin" : cstr)) (Do timezoneCliCmdSet) None None 0;
   Tok ("067+10:00" : cstr) (Some ("(GMT+10:00) Brisbane" : cstr)) (Do timezoneCliCmdSet) None None 0;
   Tok ("068+10:00" : cstr) (Some ("(GMT+10:00) Canberra, Melbourne, Sydney" : cstr)) (Do timezoneCliCmdSet) None None 0;
   Tok ("069+10:00" : cstr) (Some ("(GMT+10:00) Guam, Port Moresby" : cstr)) (Do timezoneCliCmdSet) None None 0;
   Tok ("070+10:00" : cstr) (Some ("(GMT+10:00) Hobart" : cstr)) (Do timezoneCliCmdSet) None None 0;
   Tok ("071+10:00" : cstr) (Some ("(GMT+10:00) Vladivostok" : cstr)) (Do timezoneCliCmdSet) None None 0;
   Tok ("072+11:00" : cstr) (Some ("(GMT+11:00) Magadan, Solomon Ls., New Caledonia" : cstr)) (Do timezoneCliCmdSet) None None 0;
   Tok ("073+12:00" : cstr) (Some ("(GMT+12:00) Auckland, Wellington" : cstr)) (Do timezoneCliCmdSet) None None 0;
   Tok ("074+12:00" : cstr) (Some ("(GMT+12:00) Fiji, Kamchatka, Marshall ls." : cstr)) (Do timezoneCliCmdSet) None None 0;
   Tok ("075+13:00" : cstr) (Some ("(GMT+13:00) Nuku alofa" : cstr)) (Do timezoneCliCmdSet) None None 0].
Definition daylightModeCmdTbl : list parse_token_s := [
   Tok txtDisable (Some ("Disable daylight" : cstr)) (Do daylightCliCmdDisable) None None 0;
   Tok txtEnable (Some ("Enable daylight" : cstr)) (Do daylightCliCmdEnable) None None 0].
Definition snmpModeCmdTbl : list parse_token_s := [
   Tok txtDisable (Some ("Disable SNMP" : cstr)) (Do snmpCliCmdDisable) None None 0;
   Tok txtEnable (Some ("Enable SNMP" : cstr)) (Do snmpCliCmdEnable) None None 0].
Definition snmpManageCmdTbl : list parse_token_s := [
   Tok ("any" : cstr) (Some ("Any Station" : cstr)) (Do snmpManageCliCmdAny) None None 0;
   Tok ("ipstart" : cstr) (Some ("from this Station" : cstr)) (Do snmpManageCliCmdIpStart) None None 0;
   Tok ("ipend" : cstr) (Some ("to this Station" : cstr)) (Do snmpManageCliCmdIpEnd) None None 0].
Definition snmpTrapModeCmdTbl : list parse_token_s := [
   Tok ("broadcast" : cstr) (Some ("Broadcast the SNMP Trap" : cstr)) (Do snmpTrapCliCmdBroadcast) None None 0;
   Tok ("unicast" : cstr) (Some ("Unicast the SNMP Trap" : cstr)) (Do snmpTrapCliCmdUnicast) None None 0].
Definition syslogCmdTbl : list parse_token_s := [
   Tok txtDisable (Some ("Disable Syslog" : cstr)) (Do syslogCliCmdDisable) None None 0;
   Tok txtEnable (Some ("Enable Syslog" : cstr)) (Do syslogCliCmdEnable) None None 0].
Definition roguetypeCmdTbl : list parse_token_s := [
   Tok ("inseurity" : cstr) (Some ("Set Rogue AP Type as No Security" : cstr)) (Do roguetype1CliCmdEnable) None None 0;
   Tok ("illegal" : cstr) (Some ("Set Rogue AP Type as Not in Legal AP List" : cstr)) (Do roguetype2CliCmdEnable) None None 0;
   Tok ("both" : cstr) (Some ("Set Rogue AP Type as Both No Security and Not in Legal AP List" : cstr)) (Do roguetype3CliCmdEnable) None None 0].
Definition roguelegalCmdTbl : list parse_token_s := [
   Tok ("add" : cstr) (Some ("Add a AP MAC/OUI into Legal AP List" : cstr)) (Do roguelegalCmdAdd) None None 0;
   Tok ("delete" : cstr) (Some ("Delete a AP MAC/OUI from Legal AP List" : cstr)) (Do roguelegalCmdDel) None None 0].
Definition getCmdTbl : list parse_token_s := [
   Tok ("11nguardinterval" : cstr) (Some ("Set 11n Guard Interval Mode" : cstr)) (Do dot11nGuardIntervalCliCmdGet) None None 0;
   Tok ("11nchanbandwidth" : cstr) (Some ("Set 11n Channel Bandwidth" : cstr)) (Do dot11nRadioBandCliCmdGet) None None 0;
   Tok ("802_11d" : cstr) (Some ("Display 802.11d Mode" : cstr)) (Do dot11dModeCliCmdGet) None None 0;
   Tok ("acl" : cstr) (Some ("Display Access Control Status" : cstr)) (Do aclCliCmdGet) None None 0;
   Tok ("acltype" : cstr) (Some ("Display Access Control Local Mode" : cstr)) (Do aclLocalModeCliCmdGet) None None 0;
   Tok ("active" : cstr) (Some ("Display VAP Active (up) Mode" : cstr)) (Do activeModeCliCmdGet) None None 0;
   Tok ("authentication" : cstr) (Some ("Display Authentication Type of WEP" : cstr)) (Do authCliCmdGet) None None 0;
   Tok ("beaconinterval" : cstr) (Some ("Display Beacon Interval,(Range:20 ~ 1000)" : cstr)) (Do beaconCliCmdGet) None None 0;
   Tok ("channel" : cstr) (Some ("Display Radio Channel" : cstr)) (Do chanCliCmdGet) None None 0;
   Tok ("country" : cstr) (Some ("Display Country/Domain" : cstr)) (Do countryCodeCliCmdGet) None None 0;
   Tok ("ethdatarate" : cstr) (Some ("Display Ethernet Data Rate" : cstr)) (Do ethDataRateCliCmdGet) None None 0;
   Tok ("ethAutoNegotiation" : cstr) (Some ("Display Ethernet Negotiation Mode" : cstr)) (Do ethAutoNego) None None 0;
   Tok ("ethDuplexMode" : cstr) (Some ("Display Ethernet Duplex Mode" : cstr)) (Do ethDuplexModeGet) None None 0;
   Tok ("ctsprotect" : cstr) (Some ("Display CTS Protect Mode" : cstr)) (Do ctsProtectModeCliCmdGet) None None 0;
   Tok ("defaultkey" : cstr) (Some ("Display Default Key Index" : cstr)) (Do defaultKeyCliCmdGet) None None 0;
   Tok ("devicename" : cstr) (Some ("Display Access Point Dvice Name" : cstr)) (Do devicenameCliCmdGet) None None 0;
   Tok ("dhcp" : cstr) (Some ("Display DHCPv4 Mode" : cstr)) (Do dhcpModeCliCmdGet) None None 0;
   Tok ("dhcpv6" : cstr) (Some ("Display DHCPv6 Mode" : cstr)) (Do dhcpv6ModeCliCmdGet) None None 0;
   Tok ("dns2server" : cstr) (Some ("Display IP Address of Secondary DNS Server" : cstr)) (Do nameSrv2CliCmdGet) None None 0;
   Tok ("dnsserver" : cstr) (Some ("Display IP Address of DNS Server" : cstr)) (Do nameSrvCliCmdGet) None None 0;
   Tok ("dot1xdynkeylife" : cstr) (Some ("Display 802.1x Dynamic Key Life Time (in Seconds)" : cstr)) (Do dot1xKeyLifeCliCmdGet) None None 0;
   Tok ("dtiminterval" : cstr) (Some ("Display DTIM interval,(Range:1 ~ 255)" : cstr)) (Do dtimModeCliCmdGet) None None 0;
   Tok ("emailaddress" : cstr) (Some ("Display Email Address for Log" : cstr)) (Do emailAddressCliCmdGet) None None 0;
   Tok ("emailalert" : cstr) (Some ("Display Email Alert Mode" : cstr)) (Do emailAlertCliCmdGet) None None 0;
   Tok ("emailinterval" : cstr) (Some ("Display Email Time Threshold" : cstr)) (Do emailSendPeriodCliCmdGet) None None 0;
   Tok ("emailqueue" : cstr) (Some ("Display Email Queue Length" : cstr)) (Do emailQueueLengthCliCmdGet) None None 0;
   Tok ("emailserver" : cstr) (Some ("Display Email Alert Server" : cstr)) (Do emailServerCliCmdGet) None None 0;
   Tok ("encryption" : cstr) (Some ("WPA encryption Algorithm(TKIP/AES)" : cstr)) (Do encryptionCliCmdGet) None None 0;
   Tok ("fragthreshold" : cstr) (Some ("Display Fragment Threshold,(Default: 2346, Range: 256 ~ 2346)" : cstr)) (Do fragCliCmdGet) None None 0;
   Tok ("fwversion" : cstr) (Some ("Display Firmware Version" : cstr)) (Do fwversionCmdGet) None None 0;
   Tok ("gateway" : cstr) (Some ("Display Gateway IP Address" : cstr)) (Do gatewayCliCmdGet) None None 0;
   Tok ("hostname" : cstr) (Some ("Display Access Point Host Name" : cstr)) (Do hostnameCliCmdGet) None None 0;
   Tok ("bonjour" : cstr) (Some ("Display Bonjour Mode" : cstr)) (Do BonjourModeCliCmdGet) None None 0;
   Tok ("wps" : cstr) (Some ("Display WPS Status" : cstr)) (Do WpsModeCliCmdGet) None None 0;
   Tok ("wps_pin" : cstr) (Some ("Display WPS PIN" : cstr)) (Do WpsPinCliCmdGet) None None 0;
   Tok ("wps_pin_er" : cstr) (Some ("Display WPS PIN External Registrar" : cstr)) (Do WpsPinERCliCmdGet) None None 0;
   Tok ("forcelan100m" : cstr) (Some ("Display Force LAN Port Speed to 100M" : cstr)) (Do force100mModeCliCmdGet) None None 0;
   Tok ("httpredirect" : cstr) (Some ("Display HTTP Redirect Mode" : cstr)) (Do httpRDModeCliCmdGet) None None 0;
   Tok ("httpredirectURL" : cstr) (Some ("Display HTTP Redirect URL" : cstr)) (Do httpURLCliCmdGet) None None 0;
   Tok ("https" : cstr) (Some ("Display HTTPS Mode" : cstr)) (Do httpsCliCmdGet) None None 0;
   Tok ("pidvid" : cstr) (Some ("Display PID VID" : cstr)) (Do hwversionCliCmdGet) None None 0;
   Tok ("ipaddr" : cstr) (Some ("Display IP Address" : cstr)) (Do ipAddrCliCmdGet) None None 0;
   Tok ("ipmask" : cstr) (Some ("Display IP Subnet Mask" : cstr)) (Do ipMaskCliCmdGet) None None 0;
   Tok ("ipv6" : cstr) (Some ("Display IPv6 Mode" : cstr)) (Do ipv6ModeCliCmdGet) None None 0;
   Tok ("ipv6addr" : cstr) (Some ("Display IPv6 Local Address" : cstr)) (Do ipv6AddrCliCmdGet) None None 0;
   Tok ("ipv6dns1" : cstr) (Some ("Display IPv6 Primary DNS Server" : cstr)) (Do ipv6dns1CliCmdGet) None None 0;
   Tok ("ipv6dns2" : cstr) (Some ("Display IPv6 Secondary DNS Server" : cstr)) (Do ipv6dns2CliCmdGet) None None 0;
   Tok ("ipv6gateway" : cstr) (Some ("Display IPv6 Default Gateway" : cstr)) (Do ipv6gatewayCliCmdGet) None None 0;
   Tok ("isolationbetweenssid" : cstr) (Some ("Display Isolate All Virtual APs State" : cstr)) (Do interVapForwardingCliCmdGet) None None 0;
   Tok ("isolationwithinssid" : cstr) (Some ("Display Isolation within VAP" : cstr)) (Do sepCliCmdGet) None None 0;
   Tok ("key" : cstr) (Some ("Display WEP Key Value" : cstr)) (Do keyCliCmdGet) None None 0;
   Tok ("keylength" : cstr) (Some ("Display WEP Key Length" : cstr)) (Do keyLengthCliCmdGet) None None 0;
   Tok ("keyrenew" : cstr) (Some ("Display Group Key Update Interval (in Seconds)" : cstr)) (Do groupKeyUpdateIntervalCliCmdGet) None None 0;
   Tok ("lltd" : cstr) (Some ("Display LLTD Mode" : cstr)) (Do lltdModeCliCmdGet) None None 0;
   Tok ("loadbalance" : cstr) (Some ("Display Load Balance Mode" : cstr)) (Do loadBalanceModeCliCmdGet) None None 0;
   Tok ("loadbalancessid" : cstr) (Some ("Display Load Balance SSID" : cstr)) (Do loadBalanceSSIDCliCmdGet) None None 0;
   Tok ("logconfchange" : cstr) (Some ("Display Log Configuration Changes Mode" : cstr)) (Do confChangeCliCmdGet) None None 0;
   Tok ("logfail" : cstr) (Some ("Display Log Authorized Login Mode" : cstr)) (Do loginFailCliCmdGet) None None 0;
   Tok ("logsuccess" : cstr) (Some ("Display Log Unauthorized Login Attempt Mode" : cstr)) (Do loginSuccessCliCmdGet) None None 0;
   Tok ("logsyserror" : cstr) (Some ("Display Log System Error Messages Mode" : cstr)) (Do sysErrorCliCmdGet) None None 0;
   Tok ("mcastenhance" : cstr) (Some ("Display Multicast Packets Enhancement Mode" : cstr)) (Do menhanceCliCmdGet) None None 0;
   Tok ("md5supplicant" : cstr) (Some ("Display 802.1x MD5 Supplicant Mode" : cstr)) (Do dot1xSuppCliCmdGet) None None 0;
   Tok ("md5suppname" : cstr) (Some ("Display 802.1x Supplicant MD5 Name" : cstr)) (Do dot1xSuppUserCliCmdGet) None None 0;
   Tok ("md5supppassword" : cstr) (Some ("Display 802.1x Supplicant MD5 Password" : cstr)) (Do dot1xSuppPassCliCmdGet) None None 0;
   Tok ("md5supptype" : cstr) (Some ("Display 802.1x MD5 Supplicant Type" : cstr)) (Do dot1xSuppTypeCliCmdGet) None None 0;
   Tok ("nativevlanid" : cstr) (Some ("Display Native VLAN ID" : cstr)) (Do nativeVlanIdCliCmdGet) None None 0;
   Tok ("ntp" : cstr) (Some ("Display NTP Mode" : cstr)) (Do ntpModeCliCmdGet) None None 0;
   Tok ("ntpserver" : cstr) (Some ("Display NTP Server IP Address" : cstr)) (Do ntpServerCliCmdGet) None None 0;
   Tok ("operationmode" : cstr) (Some ("Display Operation Mode" : cstr)) (Do opModeCliCmdGet) None None 0;
   Tok ("password" : cstr) (Some ("Display Login Password" : cstr)) (Do passwordCliCmdGet) None None 0;
   Tok ("priority" : cstr) (Some ("Display Priority" : cstr)) (Do priorityCliCmdGet) None None 0;
   Tok ("psk" : cstr) (Some ("Display Pre-shared Key" : cstr)) (Do pskCliCmdGet) None None 0;
   Tok ("radiusserver" : cstr) (Some ("Display RADIUS Server IP Address" : cstr)) Generic (Some TradiusSrvCliCmdGetTbl) None 0;
   Tok ("radiusport" : cstr) (Some ("Display RADIUS Port Number" : cstr)) Generic (Some TradiusPortCliCmdGetTbl) None 0;
   Tok ("radiussecret" : cstr) (Some ("Display RADIUS Shared Secret" : cstr)) Generic (Some TradiusSecretCliCmdGetTbl) None 0;
   Tok ("bridgemac" : cstr) (Some ("Display WDS Bridge's Remote MAC Address List" : cstr)) (Do remotePtmpMacListCliCmdGet) None None 0;
   Tok ("repeatermac" : cstr) (Some ("Display WDS Repeater's Remote MAC Address" : cstr)) (Do remotePtpMacAddrCliCmdGet) None None 0;
   Tok ("remotessid" : cstr) (Some ("Display UC/UR's Remote SSID" : cstr)) (Do remotessidCliCmdGet) None None 0;
   Tok ("remoteucr" : cstr) (Some ("Display UC/UR's Remote MAC Address" : cstr)) (Do remoteUcrMacAddrCliCmdGet) None None 0;
   Tok ("roguelegal" : cstr) (Some ("Display Legal AP List of Legal AP" : cstr)) (Do roguelegalCmdGet) None None 0;
   Tok ("roguetype" : cstr) (Some ("Display Rogue AP Definition" : cstr)) (Do roguetypeCmdGet) None None 0;
   Tok ("rtsthreshold" : cstr) (Some ("Display RTS Threshold,(Default: 2347, Range: 1 ~ 2347)" : cstr)) (Do rtsCliCmdGet) None None 0;
   Tok ("security" : cstr) (Some ("Display Wireless Security Mode" : cstr)) (Do secCliCmdGet) None None 0;
   Tok ("snmpcontact" : cstr) (Some ("Display SNMP Contact" : cstr)) (Do snmpContactCliCmdGet) None None 0;
   Tok ("snmpdevice" : cstr) (Some ("Display SNMP Devic Name" : cstr)) (Do snmpDeviceNameCliCmdGet) None None 0;
   Tok ("snmplocation" : cstr) (Some ("Display SNMP Location" : cstr)) (Do snmpLocationCliCmdGet) None None 0;
   Tok ("snmpreadcommunity" : cstr) (Some ("Display SNMP Read Community" : cstr)) (Do snmpReadComCliCmdGet) None None 0;
   Tok ("snmptrapcommunity" : cstr) (Some ("Display SNMP Trap Community" : cstr)) (Do snmpTrapComCliCmdGet) None None 0;
   Tok ("snmpwritecommunity" : cstr) (Some ("Display SNMP Write Community" : cstr)) (Do snmpWriteComCliCmdGet) None None 0;
   Tok ("snmpmode" : cstr) (Some ("Display SNMP Mode" : cstr)) (Do snmpModeCliCmdGet) None None 0;
   Tok ("ssh" : cstr) (Some ("Display SSH Mode" : cstr)) (Do sshModeCliCmdGet) None None 0;
   Tok ("ssid" : cstr) (Some ("Display Service Set ID" : cstr)) (Do ssidCliCmdGet) None None 0;
   Tok ("ssidbroadcast" : cstr) (Some ("Display SSID Broadcast Mode" : cstr)) (Do ssidModeCliCmdGet) None None 0;
   Tok ("syslog" : cstr) (Some ("Display Syslog Mode" : cstr)) (Do syslogCliCmdGet) None None 0;
   Tok ("syslogserver" : cstr) (Some ("Display Unicast Syslog Server Address" : cstr)) (Do syslogSrvCliCmdGet) None None 0;
   Tok ("time" : cstr) (Some ("Display Current System Time" : cstr)) (Do todCliCmdGet) None None 0;
   Tok ("timemode" : cstr) (Some ("Display Time Mode" : cstr)) (Do timeModeCliCmdGet) None None 0;
   Tok ("timezone" : cstr) (Some ("Display Time Zone Setting" : cstr)) (Do timezoneCliCmdGet) None None 0;
   Tok ("daylight" : cstr) (Some ("Display Automatically adjust clock for daylight saving changes" : cstr)) (Do daylightModeCliCmdGet) None None 0;
   Tok ("uptime" : cstr) (Some ("Display Access Point Up Time" : cstr)) (Do uptimeCliCmdGet) None None 0;
   Tok ("username" : cstr) (Some ("Display Login User Name" : cstr)) (Do usernameCliCmdGet) None None 0;
   Tok ("vlan" : cstr) (Some ("Display VLAN Operational State" : cstr)) (Do vlanModeCliCmdGet) None None 0;
   Tok ("vlandefault" : cstr) (Some ("Display AP Default VLAN" : cstr)) (Do defaultvlanCliCmdGet) None None 0;
   Tok ("vlanid" : cstr) (Some ("Display the VLAN ID" : cstr)) (Do vlanPvidCliCmdGet) None None 0;
   Tok ("vlanmanagement" : cstr) (Some ("Display AP Management VLAN" : cstr)) (Do magvlanCliCmdGet) None None 0;
   Tok ("vlantag" : cstr) (Some ("Display Vlan Tag Mode" : cstr)) (Do vlanTagModeCliCmdGet) None None 0;
   Tok ("vlantagoverwds" : cstr) (Some ("Display Vlan Tag Over WDS Mode" : cstr)) (Do vlanWDSTagModeCliCmdGet) None None 0;
   Tok ("wlanaccess" : cstr) (Some ("Display Wireless Web Access Mode" : cstr)) (Do wlanAccessModeCliCmdGet) None None 0;
   Tok ("wirelessmode" : cstr) (Some ("Display Wireless LAN Mode" : cstr)) (Do wirelessModeCliCmdGet) None None 0;
   Tok ("wmm" : cstr) (Some ("Display WMM Mode" : cstr)) (Do wmeCliCmdGet) None None 0;
   Tok ("wmmps" : cstr) (Some ("Display WMM PowerSaving Mode" : cstr)) (Do wmmpsCliCmdGet) None None 0].
Definition setCmdTbl : list parse_token_s := [
   Tok ("11nguardinterval" : cstr) (Some ("Set 11n Guard Interval Mode" : cstr)) Generic (Some Tdot11nGuardIntervalCmdTbl) None 0;
   Tok ("11nchanbandwidth" : cstr) (Some ("Set 11n Channel Bandwidth" : cstr)) Generic (Some Tdot11nRadioBandCmdTbl) None 0;
   Tok ("802_11d" : cstr) (Some ("Set 802.11d Mode" : cstr)) Generic (Some Tdot11dModeCmdTbl) None 0;
   Tok ("acl" : cstr) (Some ("Set Access Control" : cstr)) Generic (Some TaclCmdTbl) None 0;
   Tok ("active" : cstr) (Some ("Set Active (up) Mode" : cstr)) Generic (Some TactiveModeCmdTbl) None 0;
   Tok ("authentication" : cstr) (Some ("Set Authentication Type of WEP" : cstr)) Generic (Some TauthCmdTbl) None 0;
   Tok ("beaconinterval" : cstr) (Some ("Set Beacon Interval" : cstr)) (Do beaconCliCmdSet) None None 0;
   Tok ("bridgemac" : cstr) (Some ("Set Bridge's Remote MAC Address List" : cstr)) Generic (Some TremotePtmpMacListCmdTbl) None 0;
   Tok ("channel" : cstr) (Some ("Set Radio Channel" : cstr)) (Do chanCliCmdSet) None None 0;
   Tok ("country" : cstr) (Some ("Set Country/Domain" : cstr)) Generic (Some TcountryCodeCmdTbl) None 0;
   Tok ("ethdatarate" : cstr) (Some ("Set Ethernet Data Rate" : cstr)) Generic (Some TethDataRateCmdTbl) None 0;
   Tok ("ethAutoNegotiation" : cstr) (Some ("Set Ethernet Auto Negotiation Mode" : cstr)) Generic (Some TethAutoNegoCmdTbl) None 0;
   Tok ("ethDuplexMode" : cstr) (Some ("Set Ethernet Duplex Mode" : cstr)) Generic (Some TethDuplexModeCmdTbl) None 0;
   Tok ("ctsprotect" : cstr) (Some ("Set CTS Protect Mode" : cstr)) Generic (Some TctsprotectmodeCmdTbl) None 0;
   Tok ("daylight" : cstr) (Some ("Set Automatically adjust clock for daylight saving changes" : cstr)) Generic (Some TdaylightModeCmdTbl) None 0;
   Tok ("defaultkey" : cstr) (Some ("Set Default Key Index" : cstr)) (Do defaultKeyCliCmdSet) None None 0;
   Tok ("devicename" : cstr) (Some ("Set Access Point Dvice Name" : cstr)) (Do devicenameCliCmdSet) None None 0;
   Tok ("dhcp" : cstr) (Some ("Set DHCPv4 Mode" : cstr)) Generic (Some TdhcpCmdTbl) None 0;
   Tok ("dhcpv6" : cstr) (Some ("Set DHCPv6 Mode" : cstr)) Generic (Some Tdhcpv6CmdTbl) None 0;
   Tok ("dns2server" : cstr) (Some ("Set IP Address of Secondary DNS Server" : cstr)) (Do nameSrv2CliCmdSet) None None 0;
   Tok ("dnsserver" : cstr) (Some ("Set DNS Server IP Address" : cstr)) (Do nameSrvCliCmdSet) None None 0;
   Tok ("dot1xdynkeylife" : cstr) (Some ("Set 802.1x Dynamic Key Life Time (in Seconds)" : cstr)) (Do dot1xKeyLifeCliCmdSet) None None 0;
   Tok ("dtiminterval" : cstr) (Some ("Set DTIM interval,(Range:1 ~ 255)" : cstr)) (Do dtimModeCliCmdSet) None None 0;
   Tok ("emailaddress" : cstr) (Some ("Set Email Address for Log" : cstr)) (Do emailAddressCliCmdSet) None None 0;
   Tok ("emailalert" : cstr) (Some ("Set Email Alert Mode" : cstr)) Generic (Some TemailalertCmdTbl) None 0;
   Tok ("emailinterval" : cstr) (Some ("Set Email Time Threshold" : cstr)) (Do emailSendPeriodCliCmdSet) None None 0;
   Tok ("emailqueue" : cstr) (Some ("Set Email Queue Length" : cstr)) (Do emailQueueLengthCliCmdSet) None None 0;
   Tok ("emailserver" : cstr) (Some ("Set Email Alert Server" : cstr)) (Do emailServerCliCmdSet) None None 0;
   Tok ("encryption" : cstr) (Some ("Set WPA encryption Algorithm(TKIP/AES)" : cstr)) Generic (Some TencryCmdTbl) None 0;
   Tok ("fragthreshold" : cstr) (Some ("Set Fragment Threshold" : cstr)) (Do fragCliCmdSet) None None 0;
   Tok ("gateway" : cstr) (Some ("Set Gateway IP Address" : cstr)) (Do gatewayCliCmdSet) None None 0;
   Tok ("hostname" : cstr) (Some ("Set Access Point Host Name" : cstr)) (Do hostnameCliCmdSet) None None 0;
   Tok ("bonjour" : cstr) (Some ("Set Bonjour Mode" : cstr)) Generic (Some TbonjourmodeCmdTbl) None 0;
   Tok ("wps" : cstr) (Some ("Set WPS Mode" : cstr)) Generic (Some TwpsmodeCmdTbl) None 0;
   Tok ("wps_pin" : cstr) (Some ("Set WPS PIN" : cstr)) (Do WpsPinCliCmdSet) None None 0;
   Tok ("wps_pin_er" : cstr) (Some ("Set WPS PIN External Registrar" : cstr)) Generic (Some TwpsPinERCmdTbl) None 0;
   Tok ("forcelan100m" : cstr) (Some ("Set Force LAN Port Speed to 100M" : cstr)) Generic (Some Tforce100mmodeCmdTbl) None 0;
   Tok ("httpredirect" : cstr) (Some ("Set HTTP Redirect Mode" : cstr)) Generic (Some ThttpredirectmodeCmdTbl) None 0;
   Tok ("httpredirectURL" : cstr) (Some ("Set HTTP Redirect URL" : cstr)) (Do httpURLCliCmdSet) None None 0;
   Tok ("https" : cstr) (Some ("Set HTTPS Enable/Disable" : cstr)) Generic (Some ThttpsCmdTbl) None 0;
   Tok ("ipaddr" : cstr) (Some ("Set IP Address" : cstr)) (Do ipAddrCliCmdSet) None None 0;
   Tok ("ipmask" : cstr) (Some ("Set IP Subnet Mask" : cstr)) (Do ipMaskCliCmdSet) None None 0;
   Tok ("ipv6" : cstr) (Some ("Set IPv6 Mode" : cstr)) Generic (Some Tipv6modeCmdTbl) None 0;
   Tok ("ipv6addr" : cstr) (Some ("Set IPv6 Local Address" : cstr)) (Do ipv6AddrCliCmdSet) None None 0;
   Tok ("ipv6dns1" : cstr) (Some ("Set IPv6 Primary DNS Server" : cstr)) (Do ipv6dns1CliCmdSet) None None 0;
   Tok ("ipv6dns2" : cstr) (Some ("Set IPv6 Secondary DNS Server" : cstr)) (Do ipv6dns2CliCmdSet) None None 0;
   Tok ("ipv6gateway" : cstr) (Some ("Set IPv6 Default Gateway" : cstr)) (Do ipv6gatewayCliCmdSet) None None 0;
   Tok ("isolationbetweenssid" : cstr) (Some ("Set Isolate All Virtual APs State" : cstr)) Generic (Some TinterVapForwardingCmdTbl) None 0;
   Tok ("isolationwithinssid" : cstr) (Some ("Set Isolation within VAP" : cstr)) Generic (Some TsepCmdTbl) None 0;
   Tok ("key" : cstr) (Some ("Set WEP Key Value" : cstr)) (Do keyCliCmdSet) None None 0;
   Tok ("keylength" : cstr) (Some ("Set WEP Key Length" : cstr)) (Do keyLengthCliCmdSet) None None 0;
   Tok ("keyrenew" : cstr) (Some ("Set Group Key Update Interval (in Seconds)" : cstr)) (Do groupKeyUpdateIntervalCliCmdSet) None None 0;
   Tok ("lltd" : cstr) (Some ("Set LLTD Mode" : cstr)) Generic (Some TlltdModeCmdTbl) None 0;
   Tok ("loadbalance" : cstr) (Some ("Set Load Balance Mode" : cstr)) Generic (Some TloadbalancemodeCmdTbl) None 0;
   Tok ("loadbalancessid" : cstr) (Some ("Set Load Balance SSID" : cstr)) (Do loadBalanceSSIDCliCmdSet) None None 0;
   Tok ("logconfchange" : cstr) (Some ("Set Log Configuration Changes Mode" : cstr)) Generic (Some TconfchangeCmdTbl) None 0;
   Tok ("logfail" : cstr) (Some ("Set Log Authorized Login Mode" : cstr)) Generic (Some TloginfailCmdTbl) None 0;
   Tok ("logsuccess" : cstr) (Some ("Set Log Unauthorized Login Attempt Mode" : cstr)) Generic (Some TloginsuccessCmdTbl) None 0;
   Tok ("logsyserror" : cstr) (Some ("Set Log System Error Messages Mode" : cstr)) Generic (Some TsyserrorCmdTbl) None 0;
   Tok ("mcastenhance" : cstr) (Some ("Set Multicast Packets Enhancement Enable/Disable" : cstr)) Generic (Some TmultienhanceCmdTbl) None 0;
   Tok ("md5supplicant" : cstr) (Some ("Set 802.1x MD5 Supplicant Mode" : cstr)) Generic (Some Tdot1xSuppCmdTbl) None 0;
   Tok ("md5suppname" : cstr) (Some ("Set 802.1x Supplicant MD5 Name" : cstr)) (Do dot1xSuppUserCliCmdSet) None None 0;
   Tok ("md5supppassword" : cstr) (Some ("Set 802.1x Supplicant MD5 Password" : cstr)) (Do dot1xSuppPassCliCmdSet) None None 0;
   Tok ("md5supptype" : cstr) (Some ("Set 802.1x MD5 Supplicant Type" : cstr)) Generic (Some Tdot1xSuppTypeCmdTbl) None 0;
   Tok ("nativevlanid" : cstr) (Some ("Set Native VLAN ID" : cstr)) (Do nativeVlanIdCliCmdSet) None None 0;
   Tok ("ntp" : cstr) (Some ("Set NTP Mode" : cstr)) Generic (Some TntpmodeCmdTbl) None 0;
   Tok ("ntpserver" : cstr) (Some ("Set NTP Server IP Address" : cstr)) (Do ntpServerCliCmdSet) None None 0;
   Tok ("operationmode" : cstr) (Some ("Set operation Mode" : cstr)) Generic (Some TopModeCmdTbl) None 0;
   Tok ("password" : cstr) (Some ("Modify Login Password" : cstr)) (Do passwordCliCmdSet) None None 0;
   Tok ("priority" : cstr) (Some ("Set Priority" : cstr)) (Do priorityCliCmdSet) None None 0;
   Tok ("psk" : cstr) (Some (("Modify Pre-shared Key. For example, set psk " : cstr) ++ [dquote] ++ ("12345678" : cstr) ++ [dquote] ++ ("." : cstr))) (Do pskCliCmdSet) None None 0;
   Tok ("radiusserver" : cstr) (Some ("Set RADIUS IP Address" : cstr)) Generic (Some TradiusSrvCliCmdSetTbl) None 0;
   Tok ("radiusport" : cstr) (Some ("Set RADIUS Port Number" : cstr)) Generic (Some TradiusPortCliCmdSetTbl) None 0;
   Tok ("radiussecret" : cstr) (Some ("Set RADIUS Shared Secret" : cstr)) Generic (Some TradiusSecretCliCmdSetTbl) None 0;
   Tok ("remotessid" : cstr) (Some ("Set UC/UR's Remote SSID" : cstr)) (Do remotessidCliCmdSet) None None 0;
   Tok ("remoteucr" : cstr) (Some ("Set UC/UR's Remote MAC Address" : cstr)) (Do remoteUcrMacAddrCliCmdSet) None None 0;
   Tok ("repeatermac" : cstr) (Some ("Set Repeater's MAC Address" : cstr)) (Do remotePtpMacAddrCliCmdSet) None None 0;
   Tok ("roguelegal" : cstr) (Some ("Add/Delete Legal AP MAC/OUI" : cstr)) Generic (Some TroguelegalCmdTbl) None 0;
   Tok ("roguetype" : cstr) (Some ("Set Rogue AP Definition" : cstr)) Generic (Some TroguetypeCmdTbl) None 0;
   Tok ("rtsthreshold" : cstr) (Some ("Set RTS/CTS Threshold" : cstr)) (Do rtsCliCmdSet) None None 0;
   Tok ("security" : cstr) (Some ("Set Wireless Security Mode" : cstr)) Generic (Some TsecCmdTbl) None 0;
   Tok ("shortpreamble" : cstr) (Some ("Set Short Preamble" : cstr)) Generic (Some TshortPreambleCmdTbl) None 0;
   Tok ("snmpcontact" : cstr) (Some ("Set SNMP Contact" : cstr)) (Do snmpContactCliCmdSet) None None 0;
   Tok ("snmpdevice" : cstr) (Some ("Set SNMP Devic Name" : cstr)) (Do snmpDeviceNameCliCmdSet) None None 0;
   Tok ("snmplocation" : cstr) (Some ("Set SNMP Location" : cstr)) (Do snmpLocationCliCmdSet) None None 0;
   Tok ("snmpreadcommunity" : cstr) (Some ("Set SNMP Read Community" : cstr)) (Do snmpReadComCliCmdSet) None None 0;
   Tok ("snmptrapcommunity" : cstr) (Some ("Set SNMP Trap Community" : cstr)) (Do snmpTrapComCliCmdSet) None None 0;
   Tok ("snmpwritecommunity" : cstr) (Some ("Set SNMP Write Community" : cstr)) (Do snmpWriteComCliCmdSet) None None 0;
   Tok ("snmpmode" : cstr) (Some ("Set SNMP Mode" : cstr)) Generic (Some TsnmpModeCmdTbl) None 0;
   Tok ("ssh" : cstr) (Some ("Set SSH Mode" : cstr)) Generic (Some TsshmodeCmdTbl) None 0;
   Tok ("ssid" : cstr) (Some ("Set Service Set ID" : cstr)) (Do ssidCliCmdSet) None None 0;
   Tok ("ssidbroadcast" : cstr) (Some ("Set SSID Broadcast Mode" : cstr)) Generic (Some TssidModeCmdTbl) None 0;
   Tok ("syslog" : cstr) (Some ("Set Syslog Mode" : cstr)) Generic (Some TsyslogCmdTbl) None 0;
   Tok ("syslogserver" : cstr) (Some ("Set Unicast Syslog Server Address" : cstr)) (Do syslogSrvCliCmdSet) None None 0;
   Tok ("time" : cstr) (Some ("Set Current System Time" : cstr)) Generic (Some TtimesetCmdTbl) None 0;
   Tok ("timemode" : cstr) (Some ("Set Time Mode" : cstr)) Generic (Some TtimemodeCmdTbl) None 0;
   Tok ("timezone" : cstr) (Some ("Set Time Zone Setting" : cstr)) Generic (Some TtimezoneCmdTbl) None 0;
   Tok ("username" : cstr) (Some ("Modify Login User Name" : cstr)) (Do usernameCliCmdSet) None None 0;
   Tok ("vlan" : cstr) (Some ("Set VLAN Operational State" : cstr)) Generic (Some TvlanModeCmdTbl) None 0;
   Tok ("vlandefault" : cstr) (Some ("Set AP Native VLAN" : cstr)) (Do defaultvlanCliCmdSet) None None 0;
   Tok ("vlanid" : cstr) (Some ("Set VAP VLAN id" : cstr)) (Do vlanPvidCliCmdSet) None None 0;
   Tok ("vlanmanagement" : cstr) (Some ("Set AP Management VLAN" : cstr)) (Do magvlanCliCmdSet) None None 0;
   Tok ("vlantag" : cstr) (Some ("Set Vlan Tag Mode" : cstr)) Generic (Some TvlantagmodeCmdTbl) None 0;
   Tok ("vlantagoverwds" : cstr) (Some ("Set Vlan Tag Over WDS Mode" : cstr)) Generic (Some TvlanWDStagmodeCmdTbl) None 0;
   Tok ("wlanaccess" : cstr) (Some ("Set Wireless Web Access Mode" : cstr)) Generic (Some TwlanaccessmodeCmdTbl) None 0;
   Tok ("wirelessmode" : cstr) (Some ("Set Wireless LAN Mode" : cstr)) Generic (Some TwirelessModeCmdTbl) None 0;
   Tok ("wmm" : cstr) (Some ("Set WMM Mode" : cstr)) Generic (Some TwmeCmdTbl) None 0;
   Tok ("wmmps" : cstr) (Some ("Set WMM PowerSaving Mode" : cstr)) Generic (Some TwmmpsCmdTbl) None 0].
Definition cmdTbl : list parse_token_s := [
   Tok ("config" : cstr) (Some ("Config WLAN X or Virtual AP X" : cstr)) Generic (Some TconfigCmdTbl) None 0;
   Tok ("?" : cstr) (Some ("Display CLI Command List" : cstr)) Help None (Some CLI_HIDDENCMD) 0;
   Tok ("help" : cstr) (Some ("Display CLI Command List" : cstr)) Help None (Some CLI_HIDDENCMD) 0;
   Tok ("get" : cstr) None Generic (Some TgetCmdTbl) None 0;
   Tok ("set" : cstr) None GenericSet (Some TsetCmdTbl) None 0;
   Tok ("tftp" : cstr) (Some ("Software upgrade/download via TFTP" : cstr)) (Do tftpCmdHandler) None None 0;
   Tok ("factoryrestore" : cstr) (Some ("Restore to Default Factory Settings" : cstr)) (Do factoryCmdHandler) None None 0;
   Tok ("gen_wps_pin" : cstr) (Some ("Generate a new WPS PIN." : cstr)) (Do genWpsPinCmdHandler) None None 0;
   Tok ("gen_wpa_psk" : cstr) (Some ("Generate a new WPA/WPA2 PSK." : cstr)) (Do genWpaPskCmdHandler) None None 0;
   Tok ("apply" : cstr) (Some ("To make the changes take effect" : cstr)) (Do applyCmdHandler) None None 0;
   Tok ("exit" : cstr) (Some ("Quit the Remove Console" : cstr)) (Do sccli_exitCmdHandler) None None 0].

Definition entries (t : tbl) : list parse_token_s :=
  match t with
  | TconfigCmdTbl => configCmdTbl
  | TacllocalmodeCmdTbl => acllocalmodeCmdTbl
  | TaclCmdTbl => aclCmdTbl
  | TactiveModeCmdTbl => activeModeCmdTbl
  | TdhcpCmdTbl => dhcpCmdTbl
  | Tdhcpv6CmdTbl => dhcpv6CmdTbl
  | Tdot1xSuppCmdTbl => dot1xSuppCmdTbl
  | Tdot1xSuppTypeCmdTbl => dot1xSuppTypeCmdTbl
  | TvlanModeCmdTbl => vlanModeCmdTbl
  | TwirelessModeCmdTbl => wirelessModeCmdTbl
  | TopModeCmdTbl => opModeCmdTbl
  | TradiusSrvCliCmdGetTbl => radiusSrvCliCmdGetTbl
  | TradiusSrvCliCmdSetTbl => radiusSrvCliCmdSetTbl
  | TradiusPortCliCmdGetTbl => radiusPortCliCmdGetTbl
  | TradiusPortCliCmdSetTbl => radiusPortCliCmdSetTbl
  | TradiusSecretCliCmdGetTbl => radiusSecretCliCmdGetTbl
  | TradiusSecretCliCmdSetTbl => radiusSecretCliCmdSetTbl
  | TremotePtmpMacListCmdTbl => remotePtmpMacListCmdTbl
  | TsepCmdTbl => sepCmdTbl
  | Tdot11nGuardIntervalCmdTbl => dot11nGuardIntervalCmdTbl
  | Tdot11nRadioBandCmdTbl => dot11nRadioBandCmdTbl
  | TskuCmdTbl => skuCmdTbl
  | Tdot11dModeCmdTbl => dot11dModeCmdTbl
  | TwmeCmdTbl => wmeCmdTbl
  | TwmmpsCmdTbl => wmmpsCmdTbl
  | ToutPowerCmdTbl => outPowerCmdTbl
  | TshortPreambleCmdTbl => shortPreambleCmdTbl
  | TinterVapForwardingCmdTbl => interVapForwardingCmdTbl
  | TssidModeCmdTbl => ssidModeCmdTbl
  | TlltdModeCmdTbl => lltdModeCmdTbl
  | TauthCmdTbl => authCmdTbl
  | TencryCmdTbl => encryCmdTbl
  | TsecCmdTbl => secCmdTbl
  | TethAutoNegoCmdTbl => ethAutoNegoCmdTbl
  | TethDuplexModeCmdTbl => ethDuplexModeCmdTbl
  | TethDataRateCmdTbl => ethDataRateCmdTbl
  | TcountryCodeCmdTbl => countryCodeCmdTbl
  | ThttpCmdTbl => httpCmdTbl
  | ThttpsCmdTbl => httpsCmdTbl
  | TmultienhanceCmdTbl => multienhanceCmdTbl
  | TemailalertCmdTbl => emailalertCmdTbl
  | TloginsuccessCmdTbl => loginsuccessCmdTbl
  | TloginfailCmdTbl => loginfailCmdTbl
  | TsyserrorCmdTbl => syserrorCmdTbl
  | TconfchangeCmdTbl => confchangeCmdTbl
  | TbonjourmodeCmdTbl => bonjourmodeCmdTbl
  | TwpsmodeCmdTbl => wpsmodeCmdTbl
  | TwpsPinERCmdTbl => wpsPinERCmdTbl
  | TautoRebootCmdTbl => autoRebootCmdTbl
  | Tforce100mmodeCmdTbl => force100mmodeCmdTbl
  | ThttpredirectmodeCmdTbl => httpredirectmodeCmdTbl
  | Tipv6modeCmdTbl => ipv6modeCmdTbl
  | TtimemodeCmdTbl => timemodeCmdTbl
  | TntpmodeCmdTbl => ntpmodeCmdTbl
  | TwlanaccessmodeCmdTbl => wlanaccessmodeCmdTbl
  | TsshmodeCmdTbl => sshmodeCmdTbl
  | TctsprotectmodeCmdTbl => ctsprotectmodeCmdTbl
  | TloadbalancemodeCmdTbl => loadbalancemodeCmdTbl
  | TvlantagmodeCmdTbl => vlantagmodeCmdTbl
  | TvlanWDStagmodeCmdTbl => vlanWDStagmodeCmdTbl
  | TtimesetCmdTbl => timesetCmdTbl
  | TtimezoneCmdTbl => timezoneCmdTbl
  | TdaylightModeCmdTbl => daylightModeCmdTbl
  | TsnmpModeCmdTbl => snmpModeCmdTbl
  | TsnmpManageCmdTbl => snmpManageCmdTbl
  | TsnmpTrapModeCmdTbl => snmpTrapModeCmdTbl
  | TsyslogCmdTbl => syslogCmdTbl
  | TroguetypeCmdTbl => roguetypeCmdTbl
  | TroguelegalCmdTbl => roguelegalCmdTbl
  | TgetCmdTbl => getCmdTbl
  | TsetCmdTbl => setCmdTbl
  | TcmdTbl => cmdTbl
  end.
End tables.
