(* ===== verification/CliParser.v ===== *)
(** * The parser of the command line (busybox/shell/linksysCli.c)

    A word of the line is looked up in a table, exactly or by an abbreviation;
    the handler of the entry takes the words behind it, or goes on parsing
    with the next table. *)

From S2P Require Import Prelude CLib FileSys Utility CfgStore ApCfgSys ApCfgWlan AplFlag EditApCfg Cli CliTable.

Section parser.
Context {store : CfgStore sys} {host : Host} {console : Console}.

(** ** Looking up a word *)

Definition securityCheck : bool := true.
Definition sccli_IsSuperUser : bool := true.
Definition sccli_tokenIsValidOpMode (e : parse_token_s) : bool := true.
Definition sccli_tokenIsProtected (e : parse_token_s) : bool := bool_decide (pProtected e = Some CLI_SUPERUSER).
Definition sccli_tokenIsHidden (e : parse_token_s) : bool := bool_decide (pProtected e = Some CLI_HIDDENCMD).

(** [sccli_tokencmp(p1, p2, len) == 0] *)
Definition sccli_tokencmp (p1 p2 : cstr) (len : nat) : bool :=
  bool_decide (map tolower (take len p1) = map tolower (take len p2)).

(** The entries that help and abbreviations know of. *)
Definition visible (e : parse_token_s) : bool :=
  negb (securityCheck && sccli_tokenIsProtected e && negb sccli_IsSuperUser) &&
  negb (sccli_tokenIsHidden e) && sccli_tokenIsValidOpMode e.
(** Whether the handler of an entry may be called. *)
Definition allowed (e : parse_token_s) : bool :=
  negb securityCheck || sccli_IsSuperUser || negb (sccli_tokenIsProtected e).

(** The whole command, in any case. *)
Definition is_exact (p : cstr) (e : parse_token_s) : bool :=
  (length p =? length (pCmd e))%nat && sccli_tokenIsValidOpMode e && sccli_tokencmp p (pCmd e) (length p).

(** [abbrevMatchCnt] of an entry after the rounds from [k] on; behind the end
    of the command no round counts. *)
Fixpoint abbrev (k cnt : nat) (p cmd : cstr) : nat :=
  match p, cmd with
  | a :: p', b :: cmd' => abbrev (S k) (if bool_decide (a = b) && (k =? cnt)%nat then S cnt else cnt) p' cmd'
  | _, _ => cnt
  end.
(** The entries whose first letter is that of the word: what [match] counts. *)
Definition same_start (p : cstr) (e : parse_token_s) : bool :=
  visible e && match p, pCmd e with a :: _, b :: _ => bool_decide (a = b) | _, _ => false end.

(** The entries with their [abbrevMatchCnt], and [match]. *)
Definition counted (p : cstr) (es : list parse_token_s) : nat * list (nat * parse_token_s) :=
  match list_find (is_exact p) es with
  | Some (i, _) => (1%nat, imap (λ j e, (if (j =? i)%nat then length p else O, e)) es)
  | None =>
      (length (filter (same_start p) es),
       map (λ e, (if visible e then abbrev 0 0 p (pCmd e) else O, e)) es)
  end.

(** The conditions on the entry before its handler is called. *)
Definition callable (p : cstr) (e : parse_token_s) : bool :=
  (length p <=? length (pCmd e))%nat && sccli_tokencmp p (pCmd e) (length p) && allowed e.

(** The first entry that satisfies a condition, with the entries from it on. *)
Fixpoint first_from {A} (f : A → bool) (l : list A) : option (A * list A) :=
  match l with
  | [] => None
  | x :: l' => if f x then Some (x, l) else first_from f l'
  end.

(** The entry that is chosen, the entries from it on, and whether several
    entries had the first letter. *)
Definition chosen (p : cstr) (es : list parse_token_s) : option (bool * parse_token_s * list parse_token_s) :=
  let '(matches, l) := counted p es in
  if (matches =? 1)%nat then
    match first_from (λ x, negb (x.1 =? 0)%nat && callable p x.2) l with
    | Some (x, r) => Some (false, x.2, map snd r)
    | None => None
    end
  else if negb (matches =? 0)%nat then
    let cnt := max_list (map fst l) in
    match first_from (λ x, (x.1 =? cnt)%nat) l with
    | Some (x, r) => if callable p x.2 then Some (true, x.2, map snd r) else None
    | None => None
    end
  else None.

(** ** Help *)

(** [sprintf(buf, "%s %s", pTxt, pCmd)] into 132 bytes. *)
Definition help_line (pTxt cmd : cstr) : M cli cstr :=
  let buf := pTxt ++ " "%char :: cmd in
  if decide (length buf < 132)%nat then mret buf else faultM.

(** [bmatch == 0]; without a filter all entries. *)
Definition passes (pFilter : option cstr) (e : parse_token_s) : bool :=
  match pFilter with Some f => starts f (pCmd e) | None => true end.

Fixpoint sccli_helpCmdScan (fuel : nat) (pTbl : option tbl) (pTxt : cstr) (pFilter : option cstr) (verbose : Z) : M cli () :=
  match fuel with
  | O => stuckM
  | S fuel' =>
      match pTbl with
      | None => mret tt
      | Some t => each (entries t) (λ e,
          if negb (visible e) then mret tt
          else
            buf ← help_line pTxt (pCmd e);
            match pNxtParseTbl e with
            | Some n =>
                if negb (verbose =? 0) then
                  _ ← (if (verbose =? 1) && passes pFilter e then sccli_helpCmdScan fuel' (Some n) buf None 0 else mret tt);
                  if 10 <=? verbose then sccli_helpCmdScan fuel' (Some n) buf None verbose else mret tt
                else
                  match pHelpText e with
                  | Some h => if passes pFilter e then printf "%s -- %s\n" [left_pad 35 buf; h] else mret tt
                  | None => mret tt
                  end
            | None =>
                match pHelpText e with
                | Some h => if passes pFilter e then printf "%s -- %s\n" [left_pad 35 buf; h] else mret tt
                | None => mret tt
                end
            end)
      end
  end.
(** The tables are four deep. *)
Definition DEPTH : nat := 4.
Definition helpCmdScan := sccli_helpCmdScan DEPTH.

Definition sccli_helpCmdHandler : M cli Z :=
  _ ← printf "List of Access Point CLI commands:\n" [];
  n ← sccli_tokenCount;
  verbose ← (if negb (n =? 0) then _ ← sccli_tokenPop; mret 10 else mret 1);
  _ ← helpCmdScan (Some TcmdTbl) [] None verbose;
  ok.

(** ** Parsing *)

Section handlers.
Context (tokenParser : tbl → M cli Z).

Definition genericCmdHandler (pTbl : option tbl) : M cli Z :=
  n ← sccli_tokenCount;
  if negb (n =? 0) then match pTbl with Some t => tokenParser t | None => mret CLI_PARSE_NO_TBL end
  else mret CLI_PARSE_NO_VALUE.
Definition genericCliCmdSet (pTbl : option tbl) : M cli Z :=
  return_value ← genericCmdHandler pTbl;
  _ ← (if return_value =? CLI_PARSE_OK then call apcfg_submit else mret tt);
  mret return_value.
Definition run_handler (h : handler) (pTbl : option tbl) : M cli Z :=
  match h with
  | Generic => genericCmdHandler pTbl
  | GenericSet => genericCliCmdSet pTbl
  | Help => sccli_helpCmdHandler
  | Do m => m
  end.
End handlers.

(** [pCli->ParseTbl[pCli->parseTblIdx-1]] *)
Definition last_table : M cli (option tbl) := s ← getS; mret (head (ParseTbl s)).

(** What follows the handler when one entry was found, and when several were. *)
Definition after_one (e : parse_token_s) (rc : Z) : M cli Z :=
  if (rc =? CLI_PARSE_NO_VALUE) || (rc =? CLI_PARSE_UNKNOWN) || (rc =? CLI_PARSE_INVALID_PARAMETER) then
    _ ← (if rc =? CLI_PARSE_INVALID_PARAMETER then t ← last_table; helpCmdScan t [] None 1
         else if rc =? CLI_PARSE_UNKNOWN then
           t ← last_table; s ← getS; helpCmdScan t (pCmd e) (Some (ibuf s)) 1
         else helpCmdScan (pNxtParseTbl e) (pCmd e) None 1);
    mret (if rc =? CLI_PARSE_NO_VALUE then CLI_PARSE_TOO_FEW else CLI_PARSE_ERROR)
  else mret rc.
Definition after_many (e : parse_token_s) (rc : Z) : M cli Z :=
  if rc =? CLI_PARSE_NO_VALUE then
    _ ← helpCmdScan (pNxtParseTbl e) (pCmd e) None 1; mret CLI_PARSE_TOO_FEW
  else mret rc.

(** [while ((p = sccli_tokenPop(pCli)) != NULL) printf(" %s", p);] *)
Fixpoint print_tokens (fuel : nat) : M cli () :=
  match fuel with
  | O => stuckM
  | S fuel' =>
      p ← sccli_tokenPop;
      match p with
      | None => mret tt
      | Some p => _ ← printf " %s" [p]; print_tokens fuel'
      end
  end.

(** The first character of the first table that was entered. *)
Definition is_comment (s : cli) : bool :=
  match ParseTbl s with
  | [t] => match entries t with e :: _ => bool_decide (head (pCmd e) = Some "#"%char) | [] => false end
  | _ => false
  end.

Definition not_found (p : cstr) : M cli Z :=
  s ← getS;
  _ ← printf (if 1 <? tokenLvl s then "Invalid parameter: %s" else "Unknown command: %s") [p];
  _ ← print_tokens (S MAX_TOKEN);
  _ ← printf "\n" [];
  _ ← (if negb (is_comment s) then
         if tokenLvl s <=? 2 then printf "Type %qhelp%q for a list of valid commands.\n" []
         else printf "List of valid parameter(s):\n" []
       else mret tt);
  mret (if tokenLvl s <=? 2 then CLI_PARSE_UNKNOWN else CLI_PARSE_INVALID_PARAMETER).

Fixpoint sccli_tokenParser (fuel : nat) (pTbl : tbl) : M cli Z :=
  match fuel with
  | O => stuckM
  | S fuel' =>
      _ ← deeper;
      s ← getS;
      _ ← (if decide (length (ParseTbl s) < MAX_TOKEN)%nat then modS (set_ParseTbl (pTbl :: ParseTbl s)) else faultM);
      got ← sccli_tokenPopWoCase;
      if negb (got : bool) then ok
      else
        s ← getS;
        match chosen (ibuf s) (entries pTbl) with
        | None => not_found (ibuf s)
        | Some (many, e, from) =>
            _ ← modS (set_CurTbl (map pCmd from));
            rc ← run_handler (sccli_tokenParser fuel') (fHandler e) (pNxtParseTbl e);
            if (many : bool) then after_many e rc else after_one e rc
        end
  end.
Definition tokenParser := sccli_tokenParser DEPTH.

(** ** The line *)

(** The words between the zeroes; [word] is what [pToken] points to. *)
Fixpoint scan_words (word : cstr) (buf : bytes) : list cstr :=
  match buf with
  | [] => []
  | ch :: buf' =>
      if decide (ch = NUL) then
        match word with [] => scan_words [] buf' | _ => word :: scan_words [] buf' end
      else scan_words (word ++ [ch]) buf'
  end.

(** The words of the command, each with a zero behind it, in a buffer of
    CLI_INBUF bytes. *)
Definition sccli_parser (pTbl : tbl) (argv : list cstr) : M cli Z :=
  _ ← sccli_tokenInit;
  let buf := concat (map (λ a, a ++ [NUL]) argv) in
  if decide (length buf <= CLI_INBUF)%nat then
    _ ← each (scan_words [] buf) sccli_tokenPush;
    tokenParser pTbl
  else faultM.

(** The built-in commands of the shell. *)
Definition sercomm_cmd (argv : list cstr) : M cli Z := _ ← sccli_parser TcmdTbl argv; mret 0.

(** [prompt] has 64 bytes. *)
Definition sccli_getPrompt : M cli cstr :=
  s ← getS;
  name ← on apCfgSysNameGet;
  let prompt := "[VAP" ++ dec (vap_ s) ++ " @ " ++ name ++ "]# " in
  if decide (length prompt < 64)%nat then mret prompt else faultM.

(** The state of a console that starts. *)
Definition sccli_Init (m : sys) : cli :=
  Cli [] RADIO_24G 0 (replicate MAX_TOKEN None) 0 0 [] [] [] false m.
End parser.
