(* ===== verification/CliLookup.v ===== *)
(** * Lemmas about the parser and the help of the command line *)

From S2P Require Import Prelude CLib Utility FileSys CfgStore ApCfgWlan EditApCfg Cli CliTable CliParser.

(** * Which command a word is

    The entry that the parser chooses for a word in lower case: the command
    that is the word in any case, or else the first visible command that the
    word begins. *)

(** ** Letters *)

Lemma tolower_twice c : tolower (tolower c) = tolower c.
Proof. by_all_bytes c. Qed.

Lemma tolower_fixed_or_upper c : tolower c = c ∨ isupper c = true.
Proof. unfold tolower. destruct (isupper c); auto. Qed.

Definition in_lower (p : cstr) : Prop := map tolower p = p.

Lemma in_lower_lookup p k c : in_lower p → p !! k = Some c → tolower c = c.
Proof.
  intros Hp Hk. assert (H : map tolower p !! k = Some c) by (by rewrite Hp).
  rewrite list_lookup_fmap, Hk in H. by injection H.
Qed.

(** ** The first entry that satisfies a condition *)

Lemma first_from_spec {A} (f : A → bool) l x r :
  first_from f l = Some (x, r) → ∃ l0, l = l0 ++ r ∧ f x = true ∧ Forall (λ y, f y = false) l0 ∧ head r = Some x.
Proof.
  induction l as [|y l IH]; cbn [first_from]; [done|]. destruct (f y) eqn:E.
  - intros [= <- <-]. exists []. auto.
  - intros H. destruct (IH H) as (l0 & -> & Hx & Hl & Hh). exists (y :: l0). auto.
Qed.

Lemma first_from_none {A} (f : A → bool) l : first_from f l = None ↔ Forall (λ y, f y = false) l.
Proof.
  induction l as [|y l IH]; cbn [first_from]; [by split|]. rewrite Forall_cons.
  destruct (f y) eqn:E; [by split; [|intros []]|]. rewrite IH. tauto.
Qed.

Lemma first_from_ext {A} (f g : A → bool) l :
  Forall (λ x, f x = g x) l → first_from f l = first_from g l.
Proof.
  induction 1 as [|x l H _ IH]; [done|]. cbn [first_from]. rewrite H. by destruct (g x).
Qed.

Lemma first_from_map {A B} (h : A → B) (f : B → bool) l :
  first_from f (map h l) = (λ x, (h x.1, map h x.2)) <$> first_from (λ x, f (h x)) l.
Proof.
  induction l as [|x l IH]; [done|]. cbn [map first_from]. by destruct (f (h x)).
Qed.

(** ** Counting common letters *)

Fixpoint common (p q : cstr) : nat :=
  match p, q with
  | a :: p', b :: q' => if bool_decide (a = b) then S (common p' q') else O
  | _, _ => O
  end.

Lemma abbrev_done k cnt p q : (cnt < k)%nat → abbrev k cnt p q = cnt.
Proof.
  revert k q; induction p as [|a p IH]; intros k [|b q] Hk; cbn [abbrev]; try done.
  replace (k =? cnt)%nat with false by (symmetry; apply Nat.eqb_neq; lia).
  rewrite andb_false_r. apply IH. lia.
Qed.

Lemma abbrev_common k p q : abbrev k k p q = (k + common p q)%nat.
Proof.
  revert k q; induction p as [|a p IH]; intros k [|b q]; cbn [abbrev common]; try lia.
  destruct (bool_decide (a = b)); cbn [andb].
  - rewrite Nat.eqb_refl, IH. lia.
  - rewrite abbrev_done; lia.
Qed.

Lemma common_le p q : (common p q <= length p)%nat.
Proof.
  revert q; induction p as [|a p IH]; intros [|b q]; cbn [common length]; try lia.
  destruct (bool_decide (a = b)); [specialize (IH q)|]; lia.
Qed.

Lemma common_take p q : take (common p q) q = take (common p q) p.
Proof.
  revert q; induction p as [|a p IH]; intros [|b q]; cbn [common]; try done.
  destruct (decide (a = b)) as [->|Hab].
  - rewrite bool_decide_true by done. cbn [take]. by rewrite IH.
  - by rewrite bool_decide_false.
Qed.

Lemma common_max p q k : take k p = take k q → (k <= length p)%nat → (k <= length q)%nat → (k <= common p q)%nat.
Proof.
  revert q k; induction p as [|a p IH]; intros [|b q] [|k] H Hp Hq; cbn [common take length] in *; try lia.
  injection H as -> H. rewrite bool_decide_true by done. apply le_n_S, IH; [done|lia|lia].
Qed.

Lemma common_stop p q a b :
  p !! common p q = Some a → q !! common p q = Some b → a ≠ b.
Proof.
  revert q; induction p as [|x p IH]; intros [|y q]; cbn [common]; try done.
  destruct (decide (x = y)) as [->|Hxy].
  - rewrite bool_decide_true by done. apply IH.
  - rewrite bool_decide_false by done. cbn. by intros [= <-] [= <-].
Qed.

Lemma starts_common p q : starts p q = (common p q =? length p)%nat.
Proof.
  unfold starts. destruct (Nat.eqb_spec (common p q) (length p)) as [E|E].
  - apply bool_decide_true. pose proof (common_take p q) as H. rewrite E in H. rewrite H. by apply firstn_all.
  - apply bool_decide_false. intros H. apply E. pose proof (common_le p q).
    assert (length p <= length q)%nat.
    { rewrite <- H at 1. rewrite length_take. lia. }
    assert (length p <= common p q)%nat; [|lia].
    apply common_max; [|lia|done]. rewrite H. by apply firstn_all.
Qed.

Lemma first_from_intro {A} (f : A → bool) l0 x r :
  f x = true → Forall (λ y, f y = false) l0 → first_from f (l0 ++ x :: r) = Some (x, x :: r).
Proof.
  intros Hx. induction 1 as [|y l Hy _ IH]; cbn [app first_from]; [by rewrite Hx|]. by rewrite Hy.
Qed.

Lemma find_first_from {A} (f : A → bool) l i x :
  list_find f l = Some (i, x) → ∃ l0 r, l = l0 ++ x :: r ∧ length l0 = i ∧ f x = true ∧ Forall (λ y, f y = false) l0.
Proof.
  intros (Hx & Hf & Hn)%list_find_Some. exists (take i l), (drop (S i) l).
  split; [by rewrite take_drop_middle|]. split; [apply length_take_le, Nat.lt_le_incl; by eapply lookup_lt_Some|].
  split; [by apply Is_true_true_1|]. apply Forall_lookup. intros j y Hj.
  apply lookup_take_Some in Hj as [Hj ?]. destruct (f y) eqn:E; [|done].
  destruct (Hn j y Hj ltac:(done)). by rewrite E.
Qed.

Lemma snd_imap {A B} (g : nat → A → B) l : map snd (imap (λ i x, (g i x, x)) l) = l.
Proof.
  revert g; induction l as [|x l IH]; intros g; [done|]. cbn [imap map snd]. f_equal. exact (IH (g ∘ S)).
Qed.

Section lookup.
Context {store : CfgStore sys} {host : Host} {console : Console}.
Implicit Types (e : parse_token_s) (es : list parse_token_s) (p : cstr).

(** ** The rule *)

Definition begins p e : bool := visible e && starts p (pCmd e).
Definition resolve p es : option (parse_token_s * list parse_token_s) :=
  match first_from (is_exact p) es with
  | Some r => Some r
  | None => first_from (begins p) es
  end.

(** ** Tables whose capital letters do no harm *)

Definition first_upper (s : cstr) : option nat := fst <$> list_find (λ c, isupper c) s.

(** What is in front of the first capital letter of a command, unless that is
    nothing, also begins a command before it. *)
Fixpoint cased_from (before es : list parse_token_s) : bool :=
  match es with
  | [] => true
  | e :: es' =>
      (negb (visible e) ||
       match first_upper (pCmd e) with
       | Some (S k) => existsb (begins (take (S k) (pCmd e))) before
       | _ => true
       end) && cased_from (before ++ [e]) es'
  end.
Definition cased es : bool := cased_from [] es.

Lemma cased_from_earlier b l1 e l2 k :
  cased_from b (l1 ++ e :: l2) = true → visible e = true → first_upper (pCmd e) = Some (S k) →
  ∃ e', e' ∈ b ++ l1 ∧ begins (take (S k) (pCmd e)) e' = true.
Proof.
  revert b; induction l1 as [|x l1 IH]; intros b H Hv Hu; cbn [app cased_from] in H; apply andb_prop in H as [H1 H2].
  - rewrite Hv, Hu in H1. cbn [negb orb] in H1. apply existsb_exists in H1 as (e' & He & Hb).
    exists e'. rewrite app_nil_r. split; [by apply list_elem_of_In|done].
  - destruct (IH _ H2 Hv Hu) as (e' & He & Hb). exists e'. split; [|done].
    by rewrite <- app_assoc in He.
Qed.

Lemma cased_earlier l1 e l2 k :
  cased (l1 ++ e :: l2) = true → visible e = true → first_upper (pCmd e) = Some (S k) →
  ∃ e', e' ∈ l1 ∧ begins (take (S k) (pCmd e)) e' = true.
Proof. apply (cased_from_earlier []). Qed.

(** ** Entries and words *)

Lemma allowed_all e : allowed e = true.
Proof. done. Qed.

Lemma tokencmp_refl p n : sccli_tokencmp p p n = true.
Proof. by apply bool_decide_true. Qed.

Lemma starts_callable p e : starts p (pCmd e) = true → callable p e = true.
Proof.
  unfold starts, callable. intros H%bool_decide_eq_true. rewrite allowed_all, andb_true_r.
  apply andb_true_intro; split.
  - apply Nat.leb_le. rewrite <- H. rewrite length_take. lia.
  - unfold sccli_tokencmp. rewrite H, firstn_all. by apply bool_decide_true.
Qed.

Lemma exact_callable p e : is_exact p e = true → callable p e = true.
Proof.
  unfold is_exact, callable. intros [[H1%Nat.eqb_eq _]%andb_prop H2]%andb_prop.
  rewrite H2, allowed_all. rewrite <- H1, Nat.leb_refl. done.
Qed.

(** A word that begins a command only up to the case of the letters: the first
    letter that differs is the first capital letter. *)
Lemma callable_upper p e :
  in_lower p → callable p e = true → starts p (pCmd e) = false →
  first_upper (pCmd e) = Some (common p (pCmd e)).
Proof.
  intros Hp Hc Hs. rewrite starts_common in Hs. apply Nat.eqb_neq in Hs.
  pose proof (common_le p (pCmd e)) as Hle.
  apply andb_prop in Hc as [[Hl Ht]%andb_prop _]. apply Nat.leb_le in Hl.
  unfold sccli_tokencmp in Ht. apply bool_decide_eq_true in Ht. rewrite firstn_all in Ht.
  set (q := pCmd e) in *. set (c := common p q) in *.
  destruct (lookup_lt_is_Some_2 p c ltac:(lia)) as [a Ha].
  destruct (lookup_lt_is_Some_2 q c ltac:(lia)) as [b Hb].
  pose proof (common_stop p q a b Ha Hb) as Hab.
  assert (Hlow : tolower a = tolower b).
  { assert (E : map tolower p !! c = map tolower (take (length p) q) !! c) by by rewrite Ht.
    rewrite !list_lookup_fmap, lookup_take_lt, Ha, Hb in E by lia. by injection E. }
  unfold first_upper. rewrite (proj2 (list_find_Some (λ x, isupper x) q c b)); [done|].
  split; [done|]. split.
  - destruct (tolower_fixed_or_upper b) as [E|E]; [|by rewrite E].
    destruct Hab. rewrite <- E, <- Hlow. symmetry. by eapply in_lower_lookup.
  - intros j y Hy Hj Hup.
    assert (Hpj : p !! j = Some y).
    { pose proof (common_take p q) as E. fold c in E.
      rewrite <- (lookup_take_lt q c j) in Hy by lia. rewrite E in Hy. by apply lookup_take_Some in Hy as []. }
    pose proof (in_lower_lookup p j y Hp Hpj) as E. unfold tolower in E.
    apply Is_true_eq_true in Hup. rewrite Hup in E.
    revert Hup E. clear. by_all_bytes y.
Qed.

(** ** The counts *)

Definition cnt p e : nat := if visible e then common p (pCmd e) else O.

Lemma counted_abbrev p es :
  list_find (is_exact p) es = None →
  counted p es = (length (filter (same_start p) es), map (λ e, (cnt p e, e)) es).
Proof.
  intros H. unfold counted. rewrite H. f_equal. apply map_ext. intros e. unfold cnt.
  destruct (visible e); [by rewrite (abbrev_common 0)|done].
Qed.

Lemma cnt_le p e : (cnt p e <= length p)%nat.
Proof. unfold cnt. destruct (visible e); [apply common_le|lia]. Qed.

Lemma begins_cnt p e : p ≠ [] → begins p e = (cnt p e =? length p)%nat.
Proof.
  intros Hp. unfold begins, cnt. destruct (visible e); cbn [andb].
  - apply starts_common.
  - destruct p; [done|]. symmetry. by apply Nat.eqb_neq.
Qed.

Lemma same_start_cnt p e : same_start p e = negb (cnt p e =? 0)%nat.
Proof.
  unfold same_start, cnt. destruct (visible e); [|done]. cbn [andb].
  destruct p as [|a p], (pCmd e) as [|b q]; cbn [common]; try done. by destruct (bool_decide (a = b)).
Qed.

(** An entry whose count makes it callable though the word does not begin it
    has one before it that counts as much. *)
Lemma earlier_count p l1 e l2 :
  cased (l1 ++ e :: l2) = true → in_lower p → cnt p e ≠ 0%nat → callable p e = true → begins p e = false →
  ∃ e', e' ∈ l1 ∧ (cnt p e <= cnt p e')%nat.
Proof.
  intros Hc Hp Hn Ha Hb. unfold cnt in Hn |- *. destruct (visible e) eqn:Hv; [|done].
  unfold begins in Hb. rewrite Hv in Hb. cbn [andb] in Hb.
  pose proof (callable_upper p e Hp Ha Hb) as Hu. destruct (common p (pCmd e)) as [|k] eqn:Ek; [done|].
  destruct (cased_earlier l1 e l2 k Hc Hv Hu) as (e' & He & [Hv' Hs]%andb_prop).
  exists e'. split; [done|]. rewrite Hv'. rewrite <- Ek, common_take, Ek in Hs.
  unfold starts in Hs. apply bool_decide_eq_true in Hs.
  pose proof (common_le p (pCmd e)) as Hle.
  assert (Hlen : length (take (S k) p) = S k) by (rewrite length_take; lia).
  rewrite Hlen in Hs. apply common_max; [done|lia|].
  apply (f_equal length) in Hs. rewrite Hlen, length_take in Hs. lia.
Qed.

Lemma max_list_elem (l : list nat) x : x ∈ l → (x <= max_list l)%nat.
Proof. apply max_list_elem_of_le. Qed.

(** ** The choice *)

Lemma chosen_exact p es i e :
  p ≠ [] → list_find (is_exact p) es = Some (i, e) →
  (λ x, (x.1.2, x.2)) <$> chosen p es = first_from (is_exact p) es.
Proof.
  intros Hp Hf. destruct (find_first_from _ _ _ _ Hf) as (l0 & r & -> & Hi & He & Hl).
  rewrite (first_from_intro _ l0 e r He Hl). unfold chosen, counted. rewrite Hf. cbn [Nat.eqb].
  rewrite imap_app. cbn [imap]. rewrite Nat.add_0_r, <- Hi, Nat.eqb_refl.
  rewrite first_from_intro.
  - cbn [fmap option_fmap option_map fst snd map]. do 3 f_equal.
    exact (snd_imap (λ j (_ : parse_token_s), if (length l0 + S j =? length l0)%nat then length p else O) r).
  - cbn [fst snd]. rewrite exact_callable by done. by destruct p.
  - apply Forall_lookup. intros j y Hj. rewrite list_lookup_imap in Hj.
    destruct (l0 !! j) as [z|] eqn:Ej; [|done]. injection Hj as <-. cbn [fst snd].
    apply lookup_lt_Some in Ej. replace (j =? length l0)%nat with false; [done|].
    symmetry. apply Nat.eqb_neq. lia.
Qed.

Lemma list_find_first_from {A} (f : A → bool) l : list_find f l = None → first_from f l = None.
Proof.
  intros H. apply first_from_none, Forall_forall. intros x Hx.
  apply (list_find_None f l) in H. rewrite Forall_forall in H. specialize (H x Hx).
  destruct (f x); [by destruct H|done].
Qed.

(** The words behind an entry, from the counted entries. *)
Lemma picked f p es (many : bool) :
  match first_from (λ x : nat * parse_token_s, f x.2) (map (λ e, (cnt p e, e)) es) with
  | Some (x, r) => Some (many, x.2, map snd r)
  | None => None
  end = (λ x, (many, x.1, x.2)) <$> first_from f es.
Proof.
  rewrite first_from_map. cbn [snd]. destruct (first_from f es) as [[e r]|]; [|done].
  cbn [fmap option_fmap option_map fst snd]. do 2 f_equal. rewrite map_map. apply map_id.
Qed.

Lemma one_start p es l1 e l2 e' :
  es = l1 ++ e :: l2 → e' ∈ l1 → same_start p e = true → same_start p e' = true →
  (2 <= length (filter (same_start p) es))%nat.
Proof.
  intros -> Hin He He'. apply list_elem_of_split in Hin as (m1 & m2 & ->).
  rewrite !filter_app, !filter_cons.
  rewrite !decide_True by (by rewrite ?He, ?He'). rewrite !length_app. cbn [length]. rewrite ?length_app. cbn [length]. lia.
Qed.

Lemma chosen_single p es :
  cased es = true → in_lower p → p ≠ [] → length (filter (same_start p) es) = 1%nat →
  Forall (λ e, negb (cnt p e =? 0)%nat && callable p e = begins p e) es.
Proof.
  intros Hc Hp Hn H1. apply Forall_forall. intros e He.
  apply list_elem_of_split in He as (l1 & l2 & Hes).
  destruct (begins p e) eqn:Hb.
  - apply andb_true_intro; split.
    + rewrite begins_cnt in Hb by done. apply Nat.eqb_eq in Hb. rewrite Hb. by destruct p.
    + by apply andb_prop in Hb as [_ Hs%starts_callable].
  - destruct (cnt p e =? 0)%nat eqn:Hz; [done|]. destruct (callable p e) eqn:Ha; [|done].
    apply Nat.eqb_neq in Hz. rewrite Hes in Hc.
    destruct (earlier_count p l1 e l2 Hc Hp Hz Ha Hb) as (e' & He' & Hle).
    assert (2 <= length (filter (same_start p) es))%nat; [|lia].
    apply (one_start p es l1 e l2 e' Hes He').
    + rewrite same_start_cnt. by apply negb_true_iff, Nat.eqb_neq.
    + rewrite same_start_cnt. apply negb_true_iff, Nat.eqb_neq. lia.
Qed.

(** With several entries, the largest count. *)
Definition top p es : nat := max_list (map (cnt p) es).

Lemma top_ge p es e : e ∈ es → (cnt p e <= top p es)%nat.
Proof. intros He. apply max_list_elem, list_elem_of_fmap. eauto. Qed.

Lemma top_le p es : (top p es <= length p)%nat.
Proof.
  unfold top. induction es as [|e es IH]; cbn; [lia|]. pose proof (cnt_le p e). cbn in IH. lia.
Qed.

Lemma top_begins p es e : p ≠ [] → e ∈ es → begins p e = true → top p es = length p.
Proof.
  intros Hn He Hb. rewrite begins_cnt in Hb by done. apply Nat.eqb_eq in Hb.
  pose proof (top_ge p es e He). pose proof (top_le p es). lia.
Qed.

(** No word begins an entry: the first of those with the largest count is not
    callable. *)
Lemma chosen_none p es l0 e r :
  cased es = true → in_lower p → Forall (λ e, begins p e = false) es →
  es = l0 ++ e :: r → (cnt p e = top p es)%nat → top p es ≠ 0%nat →
  Forall (λ y, (cnt p y =? top p es)%nat = false) l0 → callable p e = false.
Proof.
  intros Hc Hp Hb -> He Ht Hl. destruct (callable p e) eqn:Ha; [|done].
  assert (Hbe : begins p e = false).
  { rewrite Forall_forall in Hb. apply Hb. rewrite elem_of_app. right. apply list_elem_of_here. }
  destruct (earlier_count p l0 e r Hc Hp ltac:(lia) Ha Hbe) as (e' & He' & Hle).
  rewrite Forall_forall in Hl. specialize (Hl e' He'). apply Nat.eqb_neq in Hl.
  pose proof (top_ge p (l0 ++ e :: r) e' ltac:(rewrite elem_of_app; by left)). lia.
Qed.

Lemma chosen_several p es :
  cased es = true → in_lower p → p ≠ [] → list_find (is_exact p) es = None →
  (2 <= length (filter (same_start p) es))%nat →
  (λ x, (x.1.2, x.2)) <$> chosen p es = first_from (begins p) es.
Proof.
  intros Hc Hp Hn Hf H2. unfold chosen. rewrite counted_abbrev by done.
  destruct (length (filter (same_start p) es)) as [|[|n]] eqn:En; [lia|lia|]. cbn [Nat.eqb negb].
  assert (Ht : max_list (map fst (map (λ e, (cnt p e, e)) es)) = top p es) by by rewrite map_map.
  cbv zeta. rewrite Ht. clear Ht.
  destruct (first_from (begins p) es) as [[e r]|] eqn:Eb.
  - destruct (first_from_spec _ _ _ _ Eb) as (l0 & El & Hb & Hl & Hh).
    assert (He : e ∈ es).
    { rewrite El, elem_of_app. right. destruct r; [done|]. injection Hh as ->. apply list_elem_of_here. }
    rewrite (top_begins p es e Hn He Hb), first_from_map. cbn [fst].
    rewrite (first_from_ext _ (begins p)) by (apply Forall_true; intros; by rewrite begins_cnt).
    rewrite Eb. cbn [fmap option_fmap option_map fst snd]. apply andb_prop in Hb as [_ Hs].
    rewrite (starts_callable p e Hs). cbn. by rewrite map_map, map_id.
  - rewrite first_from_map. cbn [fst].
    destruct (first_from (λ x, (cnt p x =? top p es)%nat) es) as [[e r]|] eqn:Et; [|done].
    cbn [fmap option_fmap option_map fst snd].
    destruct (first_from_spec _ _ _ _ Et) as (l0 & El & He & Hl & Hh).
    destruct r as [|e' r]; [done|]. injection Hh as ->. apply Nat.eqb_eq in He.
    rewrite (chosen_none p es l0 e r); try done; [by apply first_from_none|].
    assert (Hx : filter (same_start p) es ≠ []) by by destruct (filter _ _).
    destruct (filter (same_start p) es) as [|x xs] eqn:Ex; [done|].
    assert (Hin : x ∈ filter (same_start p) es) by (rewrite Ex; apply list_elem_of_here).
    apply list_elem_of_filter in Hin as [Hs Hin]. rewrite same_start_cnt in Hs.
    pose proof (top_ge p es x Hin). destruct (Nat.eqb_spec (cnt p x) 0); [done|lia].
Qed.

(** The entry that is chosen is the one the rule names. *)
Lemma chosen_resolve p es :
  cased es = true → in_lower p → p ≠ [] → (λ x, (x.1.2, x.2)) <$> chosen p es = resolve p es.
Proof.
  intros Hc Hp Hn. unfold resolve. destruct (list_find (is_exact p) es) as [[i e]|] eqn:Hf.
  - rewrite (chosen_exact p es i e Hn Hf).
    destruct (find_first_from _ _ _ _ Hf) as (l0 & r & -> & _ & He & Hl). by rewrite first_from_intro.
  - rewrite (list_find_first_from _ _ Hf).
    destruct (Nat.lt_trichotomy (length (filter (same_start p) es)) 1) as [H0|[H1|H2]].
    + unfold chosen. rewrite counted_abbrev by done.
      destruct (length (filter (same_start p) es)) eqn:E; [|lia]. cbn [Nat.eqb negb]. symmetry.
      apply first_from_none, Forall_forall. intros e He. rewrite begins_cnt by done.
      apply nil_length_inv in E. assert (Hs : same_start p e = false).
      { destruct (same_start p e) eqn:Hs; [|done].
        assert (Hin : e ∈ filter (same_start p) es) by (apply list_elem_of_filter; by rewrite Hs).
        rewrite E in Hin. by apply not_elem_of_nil in Hin. }
      rewrite same_start_cnt in Hs. apply negb_false_iff, Nat.eqb_eq in Hs. rewrite Hs. by destruct p.
    + pose proof (chosen_single p es Hc Hp Hn H1) as Hall.
      unfold chosen. rewrite counted_abbrev, H1 by done. cbn [Nat.eqb].
      rewrite first_from_map. cbn [fst snd].
      rewrite (first_from_ext _ (begins p)) by done.
      destruct (first_from (begins p) es) as [[e r]|]; [|done].
      cbn. by rewrite map_map, map_id.
    + by apply chosen_several.
Qed.
End lookup.

(** * Help, and how deep parsing goes

    The tables lead to one another in at most four levels; so help ends within
    its buffer, and the fuel of the parser is enough. *)

(** ** The levels of the tables *)

Definition rank (t : tbl) : nat :=
  match t with
  | TcmdTbl => 3
  | TgetCmdTbl | TsetCmdTbl | TconfigCmdTbl => 2
  | TaclCmdTbl | TsecCmdTbl => 1
  | _ => 0
  end.

Section help.
Context {store : CfgStore sys} {host : Host} {console : Console}.

(** The next table is lower, and commands have at most twenty letters. *)
Definition entry_fits (t : tbl) (e : parse_token_s) : bool :=
  (length (pCmd e) <=? 20)%nat &&
  match pNxtParseTbl e with Some n => (rank n <? rank t)%nat | None => true end.

Lemma entries_ok t : forallb (entry_fits t) (entries t) = true.
Proof. by destruct t; vm_compute. Qed.

Lemma entry_short t e : e ∈ entries t → (length (pCmd e) <= 20)%nat.
Proof.
  intros He. pose proof (entries_ok t) as H. rewrite forallb_forall in H.
  specialize (H e (proj1 (list_elem_of_In _ _) He)). apply andb_prop in H as [H _]. by apply Nat.leb_le.
Qed.

Lemma entry_next t e n : e ∈ entries t → pNxtParseTbl e = Some n → (rank n < rank t)%nat.
Proof.
  intros He En. pose proof (entries_ok t) as H. rewrite forallb_forall in H.
  specialize (H e (proj1 (list_elem_of_In _ _) He)). apply andb_prop in H as [_ H]. rewrite En in H.
  by apply Nat.ltb_lt.
Qed.

Lemma rank_le t : (rank t <= 3)%nat.
Proof. destruct t; cbn; lia. Qed.

(** ** Programs that print and do nothing else *)

Definition prints (m : M cli ()) : Prop := ∀ s, ∃ out, m s = Done (tt, print out s).

Lemma print_nil s : print [] s = s.
Proof. destruct s. unfold print. cbn. by rewrite app_nil_r. Qed.

Lemma print_print a b s : print b (print a s) = print (a ++ b) s.
Proof. unfold print. cbn. by rewrite app_assoc. Qed.

Lemma prints_ret : prints (mret tt).
Proof. intros s. exists []. by rewrite print_nil. Qed.

Lemma prints_printf f args : prints (printf f args).
Proof. intros s. by eexists. Qed.

Lemma prints_seq m1 m2 : prints m1 → prints m2 → prints (_ ← m1; m2).
Proof.
  intros H1 H2 s. destruct (H1 s) as [o1 E1]. destruct (H2 (print o1 s)) as [o2 E2].
  exists (o1 ++ o2). unfold mbind, M_bind. by rewrite E1, E2, print_print.
Qed.

Lemma prints_if (b : bool) m1 m2 : (b = true → prints m1) → prints m2 → prints (if b then m1 else m2).
Proof. destruct b; auto. Qed.

Lemma prints_each {A} (l : list A) f : (∀ x, x ∈ l → prints (f x)) → prints (each l f).
Proof.
  induction l as [|x l IH]; intros H; cbn [each]; [apply prints_ret|].
  apply prints_seq; [apply H, list_elem_of_here|]. apply IH. intros y Hy. by apply H, list_elem_of_further.
Qed.

Lemma prints_help (h : option cstr) (b : bool) buf :
  prints (match h with Some h => if b then printf "%s -- %s\n" [left_pad 35 buf; h] else mret tt | None => mret tt end).
Proof.
  destruct h; [|apply prints_ret]. apply prints_if; [intros _; apply prints_printf|apply prints_ret].
Qed.

(** ** Help ends, within its 132 bytes *)

Lemma prints_line pTxt cmd (k : cstr → M cli ()) :
  (length pTxt + length cmd < 131)%nat → prints (k (pTxt ++ " "%char :: cmd)) → prints (help_line pTxt cmd ≫= k).
Proof.
  intros Hl Hk s. destruct (Hk s) as [out E]. exists out. unfold help_line, mbind, M_bind.
  rewrite decide_True by (rewrite length_app; cbn [length]; lia). exact E.
Qed.

Lemma scan_prints fuel t pTxt pFilter verbose :
  (rank t < fuel)%nat → (length pTxt + 21 * (rank t + 1) < 131)%nat →
  prints (sccli_helpCmdScan fuel (Some t) pTxt pFilter verbose).
Proof.
  revert t pTxt pFilter verbose; induction fuel as [|fuel IH]; intros t pTxt pFilter verbose Hf Hl; [lia|].
  cbn [sccli_helpCmdScan]. apply prints_each. intros e He.
  apply prints_if; [intros _; apply prints_ret|].
  pose proof (entry_short t e He). apply prints_line; [lia|].
  destruct (pNxtParseTbl e) as [n|] eqn:En; [|apply prints_help].
  pose proof (entry_next t e n He En).
  assert (Hrec : ∀ f v, prints (sccli_helpCmdScan fuel (Some n) (pTxt ++ " "%char :: pCmd e) f v)).
  { intros f v. apply IH; [lia|]. rewrite length_app. cbn [length]. lia. }
  apply prints_if; [intros _|apply prints_help]. apply prints_seq; apply prints_if; auto using prints_ret.
Qed.

(** The calls of the program: the text in front is nothing or a command. *)
Lemma help_prints t pTxt pFilter verbose :
  (length pTxt <= 20)%nat → prints (helpCmdScan t pTxt pFilter verbose).
Proof.
  intros Hl. destruct t as [t|]; [|apply prints_ret]. pose proof (rank_le t).
  apply scan_prints; unfold DEPTH; lia.
Qed.

(** ** The fuel of the parser *)

Lemma chosen_elem p es many e from : chosen p es = Some (many, e, from) → e ∈ es.
Proof.
  unfold chosen. destruct (counted p es) as [n l] eqn:E.
  assert (Hl : map snd l = es).
  { unfold counted in E. destruct (list_find _ es) as [[i ?]|].
    - injection E as <- <-. exact (snd_imap (λ j (_ : parse_token_s), if (j =? i)%nat then length p else O) es).
    - injection E as <- <-. rewrite map_map. apply map_id. }
  assert (Hin : ∀ f x r, first_from f l = Some (x, r) → x.2 ∈ es).
  { intros f x r H. destruct (first_from_spec _ _ _ _ H) as (l0 & -> & _ & _ & Hh).
    rewrite <- Hl. apply list_elem_of_fmap_2, elem_of_app. right.
    destruct r; [done|]. injection Hh as ->. apply list_elem_of_here. }
  destruct (n =? 1)%nat; [|destruct (negb _); [|done]].
  - destruct (first_from _ l) as [[x r]|] eqn:Ef; [|done]. intros [= <- <- <-]. by eapply Hin.
  - destruct (first_from _ l) as [[x r]|] eqn:Ef; [|done]. destruct (callable p x.2); [|done].
    intros [= <- <- <-]. by eapply Hin.
Qed.

Lemma bind_ext {S A B} (m : M S A) (k k' : A → M S B) s :
  (∀ a s', k a s' = k' a s') → (m ≫= k) s = (m ≫= k') s.
Proof. intros H. unfold mbind, M_bind. by destruct (m s) as [[a s']| |]. Qed.

Lemma bind_ext_l {S A B} (m m' : M S A) (k : A → M S B) s : m s = m' s → (m ≫= k) s = (m' ≫= k) s.
Proof. intros H. unfold mbind, M_bind. by rewrite H. Qed.

Lemma run_handler_ext (f g : tbl → M cli Z) h nx s :
  (∀ n s, nx = Some n → f n s = g n s) → run_handler f h nx s = run_handler g h nx s.
Proof.
  intros H.
  assert (Hg : ∀ s, genericCmdHandler f nx s = genericCmdHandler g nx s).
  { intros s1. unfold genericCmdHandler, mbind, M_bind. destruct (sccli_tokenCount s1) as [[n s2]| |]; [|done|done].
    destruct (negb _); [|done]. destruct nx as [t|]; [by apply H|done]. }
  destruct h; cbn [run_handler]; [apply Hg| |done|done].
  unfold genericCliCmdSet, mbind, M_bind. by rewrite Hg.
Qed.

Lemma parser_fuel f g t s :
  (rank t < f)%nat → (rank t < g)%nat → sccli_tokenParser f t s = sccli_tokenParser g t s.
Proof.
  revert g t s; induction f as [|f IH]; intros [|g] t s Hf Hg; try lia.
  cbn [sccli_tokenParser]. do 4 (apply bind_ext; intros ? ?).
  match goal with |- (if negb ?b then _ else _) _ = _ => destruct b; [|done] end. cbn [negb].
  apply bind_ext; intros s1 s2. destruct (chosen (ibuf s1) (entries t)) as [[[many e] from]|] eqn:E; [|done].
  apply bind_ext; intros ? s3. apply bind_ext_l, run_handler_ext.
  intros n s5 En. pose proof (entry_next t e n (chosen_elem _ _ _ _ _ E) En). apply IH; lia.
Qed.
End help.
