(* ===== verification/CliLine.v ===== *)
(** * The words of a line

    The tokens of the console are a queue of fifty places: what is pushed is
    popped in its order, and a word behind the fiftieth takes the place of the
    oldest. *)

From S2P Require Import Prelude CLib FileSys Utility CfgStore EditApCfg Cli CliTable CliParser CliLookup.

(** ** The queue *)

Definition ring_ok (s : cli) : Prop := length (token s) = MAX_TOKEN ∧ (tokenIdx s < MAX_TOKEN)%nat.

(** The places, the oldest first, and the words in them. *)
Definition slots (s : cli) : list (option cstr) := drop (tokenIdx s) (token s) ++ take (tokenIdx s) (token s).
Definition waiting (s : cli) : list cstr := omap id (slots s).

Lemma ring_lookup idx i : (i < MAX_TOKEN)%nat → ring idx !! i = Some ((idx + i) mod MAX_TOKEN)%nat.
Proof.
  intros Hi. unfold ring. rewrite list_lookup_fmap, lookup_seq_lt by done. cbn [fmap option_fmap option_map].
  done.
Qed.

Lemma ring_mod a : (a < 2 * MAX_TOKEN)%nat → (a mod MAX_TOKEN = if decide (a < MAX_TOKEN) then a else a - MAX_TOKEN)%nat.
Proof.
  intros Ha. destruct (decide _) as [H|H]; [by apply Nat.mod_small|].
  symmetry. apply (Nat.mod_unique _ _ 1); lia.
Qed.

Lemma ring_NoDup idx : (idx < MAX_TOKEN)%nat → NoDup (ring idx).
Proof.
  intros Hi. unfold ring. apply NoDup_fmap_2_strong; [|apply NoDup_seq].
  intros x y Hx%elem_of_seq Hy%elem_of_seq. rewrite !ring_mod by lia.
  destruct (decide _), (decide _); lia.
Qed.

Lemma ring_slots s : ring_ok s → map (λ i, mjoin (token s !! i)) (ring (tokenIdx s)) = slots s.
Proof.
  intros [Hl Hi]. apply list_eq. intros i. rewrite list_lookup_fmap.
  destruct (decide (i < MAX_TOKEN)%nat) as [H|H].
  - rewrite ring_lookup by done. cbn [fmap option_fmap option_map]. rewrite ring_mod by lia. unfold slots.
    destruct (decide _) as [H'|H'].
    + rewrite lookup_app_l by (rewrite length_drop; lia). rewrite lookup_drop.
      destruct (lookup_lt_is_Some_2 (token s) (tokenIdx s + i) ltac:(lia)) as [x ->]. done.
    + rewrite lookup_app_r by (rewrite length_drop; lia). rewrite length_drop, lookup_take_lt by lia.
      replace (i - (length (token s) - tokenIdx s))%nat with (tokenIdx s + i - MAX_TOKEN)%nat by lia.
      destruct (lookup_lt_is_Some_2 (token s) (tokenIdx s + i - MAX_TOKEN) ltac:(lia)) as [x ->]. done.
  - rewrite lookup_ge_None_2; [|unfold ring; rewrite length_map, length_seq; lia].
    rewrite lookup_ge_None_2; [done|]. unfold slots. rewrite length_app, length_drop, length_take. lia.
Qed.

Lemma count_pending s : ring_ok s → sccli_tokenCount s = Done (zlen (waiting s), s).
Proof.
  intros [Hl Hi].
  assert (E : length (omap id (token s)) = length (waiting s)).
  { unfold waiting, slots. rewrite omap_app, length_app, Nat.add_comm, <- length_app, <- omap_app.
    by rewrite take_drop. }
  unfold sccli_tokenCount, zlen, mbind, M_bind, getS, mret, M_ret. by rewrite E.
Qed.

(** Taking the first word out of distinct places. *)
Lemma first_place (tok : list (option cstr)) (r : list nat) :
  NoDup r → Forall (λ i, i < length tok)%nat r →
  match head (omap (λ i, match tok !! i with Some (Some p) => Some (i, p) | _ => None end) r) with
  | None => omap (λ i, mjoin (tok !! i)) r = []
  | Some (i, p) =>
      omap (λ i, mjoin (tok !! i)) r = p :: omap (λ j, mjoin (<[i := None]> tok !! j)) r ∧ (i < length tok)%nat
  end.
Proof.
  induction 1 as [|i r Hi Hr IH]; cbn [omap list_omap head]; [done|].
  intros [Hl Hf]%Forall_cons. specialize (IH Hf).
  destruct (lookup_lt_is_Some_2 tok i Hl) as [[p|] E]; rewrite E; cbn [mjoin option_join].
  - cbn [head]. split; [|done]. f_equal. rewrite list_lookup_insert_eq by done. cbn [mjoin option_join].
    clear IH Hr Hl. induction r as [|j r IHr]; [done|]. cbn [omap list_omap].
    apply not_elem_of_cons in Hi as [Hij Hi]. rewrite list_lookup_insert_ne by done.
    apply Forall_cons in Hf as [_ Hf]. by rewrite IHr.
  - destruct (head _) as [[k p]|]; [|done]. destruct IH as [IH Hk].
    split; [|done]. rewrite IH. destruct (decide (k = i)) as [->|Hki].
    + by rewrite list_lookup_insert_eq by done.
    + by rewrite list_lookup_insert_ne, E by done.
Qed.

Lemma omap_map_id {A B} (f : A → option B) l : omap id (map f l) = omap f l.
Proof. induction l as [|x l IH]; [done|]. cbn. by rewrite <- IH. Qed.

Lemma ring_bounded idx (tok : list (option cstr)) : length tok = MAX_TOKEN → Forall (λ i, i < length tok)%nat (ring idx).
Proof.
  intros Hl. apply Forall_fmap, Forall_forall. intros i _. unfold compose. rewrite Hl. by apply Nat.mod_upper_bound.
Qed.

(** A state that differs in the places only. *)
Definition with_tokens (t : list (option cstr)) (s : cli) : cli := set_token t s.

Lemma pop_spec s :
  ring_ok s →
  match waiting s with
  | [] => sccli_tokenPop s = Done (None, s)
  | p :: ps => ∃ t, sccli_tokenPop s = Done (Some p, set_token t s) ∧
                    ring_ok (set_token t s) ∧ waiting (set_token t s) = ps
  end.
Proof.
  intros [Hl Hi]. pose proof (first_place (token s) (ring (tokenIdx s)) (ring_NoDup _ Hi) (ring_bounded _ _ Hl)) as H.
  assert (Hp : waiting s = omap (λ i, mjoin (token s !! i)) (ring (tokenIdx s))).
  { unfold waiting. rewrite <- ring_slots by done. apply omap_map_id. }
  rewrite Hp. unfold sccli_tokenPop, first_token, mbind, M_bind, getS, mret, M_ret, modS.
  destruct (head _) as [[i p]|].
  - destruct H as [H Hi']. rewrite H. exists (<[i:=None]> (token s)). split; [done|].
    assert (Hok : ring_ok (set_token (<[i:=None]> (token s)) s)) by (split; cbn; [by rewrite length_insert|done]).
    split; [done|]. unfold waiting. rewrite <- ring_slots by done. apply omap_map_id.
  - rewrite H. done.
Qed.

(** All words, as they are popped. *)
Fixpoint pop_all (fuel : nat) : M cli (list cstr) :=
  match fuel with
  | O => stuckM
  | S fuel' =>
      p ← sccli_tokenPop;
      match p with Some p => ps ← pop_all fuel'; mret (p :: ps) | None => mret [] end
  end.

Lemma pop_all_pending fuel s :
  ring_ok s → (length (waiting s) < fuel)%nat → ∃ s', pop_all fuel s = Done (waiting s, s').
Proof.
  revert s; induction fuel as [|fuel IH]; intros s Hs Hf; [lia|].
  pose proof (pop_spec s Hs) as H. cbn [pop_all]. unfold mbind, M_bind.
  destruct (waiting s) as [|p ps] eqn:Ep.
  - rewrite H. by exists s.
  - destruct H as (t & E & Hok & Hp). cbn [length] in Hf. destruct (IH _ Hok) as [s' E']; [rewrite Hp; lia|].
    exists s'. by rewrite E, E', Hp.
Qed.

(** ** Pushing *)

Definition pushed (p : cstr) (s : cli) : cli :=
  set_tokenIdx ((tokenIdx s + 1) mod MAX_TOKEN)%nat (set_token (<[tokenIdx s := Some p]> (token s)) s).

Lemma pushed_slots p s : ring_ok s → ring_ok (pushed p s) ∧ slots (pushed p s) = tail (slots s) ++ [Some p].
Proof.
  intros [Hl Hi]. split.
  { split; [cbn [token pushed set_tokenIdx set_token]; by rewrite length_insert|by apply Nat.mod_upper_bound]. }
  destruct (lookup_lt_is_Some_2 (token s) (tokenIdx s) ltac:(lia)) as [x Hx].
  unfold slots, pushed. cbn [token tokenIdx set_tokenIdx set_token].
  rewrite (drop_S _ _ _ Hx). cbn [app tail].
  rewrite ring_mod by (unfold MAX_TOKEN in *; lia). rewrite Nat.add_1_r. destruct (decide _) as [H|H].
  - rewrite drop_insert_lt by lia. rewrite (take_S_r _ _ (Some p)) by (apply list_lookup_insert_eq; lia).
    rewrite take_insert_ge by lia. by rewrite app_assoc.
  - replace (S (tokenIdx s) - MAX_TOKEN)%nat with 0%nat by lia. rewrite drop_0, take_0, app_nil_r.
    rewrite (drop_ge (token s)) by lia. cbn [app].
    rewrite <- (take_drop (tokenIdx s) (<[tokenIdx s:=Some p]> (token s))), take_insert_ge by lia.
    rewrite (drop_S _ (Some p)) by (apply list_lookup_insert_eq; lia).
    by rewrite drop_ge by (rewrite length_insert; lia).
Qed.

Lemma slots_length s : ring_ok s → length (slots s) = MAX_TOKEN.
Proof. intros [Hl Hi]. unfold slots. rewrite length_app, length_drop, length_take. lia. Qed.

(** What the words leave as it was. *)
Definition same_but_tokens (s s' : cli) : Prop := ∃ i t, s' = set_tokenIdx i (set_token t s).

Lemma push_all ws s :
  ring_ok s →
  ∃ s', each ws sccli_tokenPush s = Done (tt, s') ∧ ring_ok s' ∧ same_but_tokens s s' ∧
        slots s' = drop (length ws) (slots s ++ map Some ws).
Proof.
  revert s; induction ws as [|p ws IH]; intros s Hs; cbn [each map length].
  - exists s. rewrite app_nil_r, drop_0. split; [done|]. split; [done|]. split; [|done].
    exists (tokenIdx s), (token s). by destruct s.
  - destruct (pushed_slots p s Hs) as [Hs1 E1]. destruct (IH _ Hs1) as (s' & E & Hs' & (i & t & ->) & Hsl).
    eexists. split; [exact E|]. split; [done|]. split; [by exists i, t|].
    rewrite Hsl, E1, <- app_assoc. pose proof (slots_length s Hs). destruct (slots s); [done|]. done.
Qed.

Lemma omap_replicate_none {A} n : omap id (replicate n (@None A)) = [].
Proof. induction n; done. Qed.

Lemma omap_some {A} (l : list A) : omap id (map Some l) = l.
Proof. rewrite omap_map_id. induction l as [|x l IH]; [done|]. cbn. by f_equal. Qed.

(** ** The line *)

Lemma scan_word w a b :
  nul_free a →
  scan_words w (a ++ NUL :: b) = match w ++ a with [] => scan_words [] b | x => x :: scan_words [] b end.
Proof.
  revert w; induction a as [|c a IH]; intros w Ha; cbn [app scan_words].
  - rewrite decide_True by done. rewrite app_nil_r. by destruct w.
  - apply nul_free_cons in Ha as [Hc Ha]. rewrite decide_False by done. rewrite IH by done.
    by rewrite <- app_assoc.
Qed.

Definition words (argv : list cstr) : list cstr := filter (λ a, a ≠ []) argv.

Lemma scan_line argv :
  Forall nul_free argv → scan_words [] (concat (map (λ a, a ++ [NUL]) argv)) = words argv.
Proof.
  induction 1 as [|a argv Ha _ IH]; [done|]. cbn [map concat]. rewrite <- app_assoc. cbn [app].
  rewrite scan_word by done. cbn [app]. unfold words. rewrite filter_cons. fold (words argv).
  rewrite <- IH. case_decide as Hd; destruct a as [|c a]; done.
Qed.

Lemma words_all ws : Forall (λ w, w ≠ []) ws → words ws = ws.
Proof.
  induction 1 as [|w ws Hw _ IH]; [done|]. unfold words. rewrite filter_cons, decide_True by done.
  f_equal. exact IH.
Qed.

(** The length of the line in the buffer. *)
Definition line_length (argv : list cstr) : nat := sum_list_with (λ a, S (length a)) argv.

Lemma line_length_concat argv : length (concat (map (λ a, a ++ [NUL]) argv)) = line_length argv.
Proof.
  induction argv as [|a argv IH]; [done|]. cbn [map concat line_length sum_list_with].
  rewrite length_app, IH, length_app. cbn [length]. unfold line_length. lia.
Qed.

Section line.
Context {store : CfgStore sys} {host : Host} {console : Console}.

Lemma init_slots s :
  ∃ s', sccli_tokenInit s = Done (tt, s') ∧ ring_ok s' ∧ slots s' = replicate MAX_TOKEN None ∧
        ParseTbl s' = [] ∧ tokenLvl s' = 0 ∧ machine s' = machine s ∧ screen s' = screen s ∧
        unit_ s' = unit_ s ∧ vap_ s' = vap_ s ∧ exited s' = exited s.
Proof. eexists. split; [done|]. split; [split; [apply length_replicate|cbn; unfold MAX_TOKEN; lia]|]. done. Qed.

(** The state in which parsing starts. *)
Definition starts_with (ws : list cstr) (s s' : cli) : Prop :=
  ring_ok s' ∧ waiting s' = drop (length ws - MAX_TOKEN) ws ∧ ParseTbl s' = [] ∧ tokenLvl s' = 0 ∧
  machine s' = machine s ∧ screen s' = screen s ∧ unit_ s' = unit_ s ∧ vap_ s' = vap_ s ∧ exited s' = exited s.

Lemma parser_starts t argv s :
  Forall nul_free argv → (line_length argv <= CLI_INBUF)%nat →
  ∃ s', starts_with (words argv) s s' ∧ sccli_parser t argv s = tokenParser t s'.
Proof.
  intros Hn Hl. destruct (init_slots s) as (s1 & E1 & Hs1 & Hsl & Hf).
  destruct (push_all (words argv) s1 Hs1) as (s2 & E2 & Hs2 & (i & tk & Hu) & Hq).
  exists s2. split.
  - split; [done|]. split; [|rewrite Hu; exact Hf].
    unfold waiting. rewrite Hq, Hsl, drop_app, length_replicate, drop_replicate, omap_app, omap_replicate_none.
    cbn [app]. rewrite skipn_map. apply omap_some.
  - unfold sccli_parser, mbind, M_bind. rewrite E1. cbv beta iota zeta. rewrite line_length_concat, decide_True by done.
    rewrite scan_line by done. by rewrite E2.
Qed.

Lemma parser_overruns t argv s : (CLI_INBUF < line_length argv)%nat → sccli_parser t argv s = Fault.
Proof.
  intros Hl. unfold sccli_parser, mbind, M_bind. destruct (init_slots s) as (s1 & E1 & _). rewrite E1.
  cbv beta iota zeta. rewrite line_length_concat, decide_False by lia. done.
Qed.
End line.

(** ** A word that is a command *)

Section step.
Context {store : CfgStore sys} {host : Host} {console : Console}.

(** A word taken from the line, in a table. *)
Definition stepped (t : tbl) (ws : list cstr) (s s' : cli) : Prop :=
  ring_ok s' ∧ waiting s' = ws ∧ ParseTbl s' = t :: ParseTbl s ∧
  machine s' = machine s ∧ screen s' = screen s ∧ unit_ s' = unit_ s ∧ vap_ s' = vap_ s.

Lemma pop_wo_case s w ws :
  ring_ok s → waiting s = w :: ws → (length w < CLI_INBUF)%nat →
  ∃ tk, sccli_tokenPopWoCase s = Done (true, set_ibuf (map tolower w) (set_token tk s)) ∧
        ring_ok (set_token tk s) ∧ waiting (set_token tk s) = ws.
Proof.
  intros Hs Hp Hl. pose proof (pop_spec s Hs) as H. rewrite Hp in H. destruct H as (tk & E & Hok & Hpe).
  exists tk. split; [|done]. unfold sccli_tokenPopWoCase, mbind, M_bind. rewrite E. by rewrite decide_True.
Qed.

Lemma chosen_at p es i e :
  p ≠ [] → fst <$> list_find (is_exact p) es = Some i → es !! i = Some e →
  ∃ from, chosen p es = Some (false, e, from).
Proof.
  intros Hp Hf He. destruct (list_find (is_exact p) es) as [[j e']|] eqn:E; [|done]. injection Hf as ->.
  pose proof (chosen_exact p es i e' Hp E) as Hc. pose proof (find_first_from _ _ _ _ E) as (l0 & r & -> & Hi & Hx & Hl).
  rewrite list_lookup_middle in He by done. injection He as ->.
  rewrite (first_from_intro _ l0 e r Hx Hl) in Hc.
  destruct (chosen p (l0 ++ e :: r)) as [[[many e1] from]|] eqn:Ec; [|done]. injection Hc as -> ->.
  exists (e :: r). destruct many; [|done]. exfalso. revert Ec. unfold chosen, counted. rewrite E. cbv beta iota zeta.
  cbn [Nat.eqb]. destruct (first_from _ _) as [[? ?]|]; congruence.
Qed.

Lemma parse_step f t s w ws i e :
  ring_ok s → waiting s = w :: ws → (length (ParseTbl s) < MAX_TOKEN)%nat →
  w ≠ [] → (length w < CLI_INBUF)%nat →
  fst <$> list_find (is_exact (map tolower w)) (entries t) = Some i → entries t !! i = Some e →
  ∃ s', stepped t ws s s' ∧
    sccli_tokenParser (S f) t s =
      (rc ← run_handler (sccli_tokenParser f) (fHandler e) (pNxtParseTbl e); after_one e rc) s'.
Proof.
  intros Hs Hp Ht Hw Hl Hi He.
  destruct (chosen_at (map tolower w) (entries t) i e) as [from Hc]; [by destruct w|done|done|].
  set (s1 := set_ParseTbl (t :: ParseTbl s) (set_tokenLvl (tokenLvl s + 1) s)).
  destruct (pop_wo_case s1 w ws Hs Hp Hl) as (tk & E & Hok & Hpe).
  exists (set_CurTbl (map pCmd from) (set_ibuf (map tolower w) (set_token tk s1))).
  split; [split; [exact Hok|split; [exact Hpe|done]]|].
  cbn [sccli_tokenParser]. unfold mbind at 1 2 3 4 5, M_bind, deeper, modS, getS.
  cbn [ParseTbl set_tokenLvl]. rewrite decide_True by done. fold s1. rewrite E. cbn [negb ibuf set_ibuf].
  rewrite Hc. done.
Qed.
End step.
