(* ===== verification/CliSwitch.v ===== *)
(** * What the [get] lines keep, and the switches of the command line *)

From S2P Require Import Prelude CLib Inet Utility FileSys Nvram NvramSpec NvramCorrect CfgStore ApCfgSys ApCfgWlan CfgRefine ApCfgSpec AplFlag ApCfgLists WifiSecurity EditAssign EditParse EditApCfg Cli CliSystem CliServices CliNetwork CliRadio CliSecurity CliTable CliParser CliLookup CliLine.

(** * What is shown changes nothing

    The handlers of the [get] commands read the configuration and files, and
    print: the machine represents the same configuration afterwards. *)

Section get.
Context {store : CfgStore sys} {laws : CfgStoreLaws sys} {host : Host} {console : Console}.
Context (a : cfg).

(** The machine represents [a]; the console is on an access point. *)
Definition holds (s : sys) : Prop := rep s a.
Definition shows (s : cli) : Prop := rep (machine s) a ∧ unit_ s = 0 ∧ 0 <= vap_ s < WLAN_MAX_VAP.

Lemma keeps_safe_get k : key_ok k → keeps holds (nvram_safe_get k).
Proof. intros Hk. apply keeps_runs. intros s Hs. use_runs (safe_get_runs s a k Hs Hk). by intros ? ? [_ ?]. Qed.

Lemma keeps_nvram_get k : key_ok k → keeps holds (nvram_get k).
Proof. intros Hk. apply keeps_runs. intros s Hs. use_runs (get_runs s a k Hs Hk). by intros ? ? [_ ?]. Qed.

Lemma keeps_read_file path : keeps holds (read_file path).
Proof. intros s x s' Hs [= <- <-]. done. Qed.

Lemma keeps_stuck {S A} (P : S → Prop) : keeps P (stuckM : M S A).
Proof. by intros s x s' Hs. Qed.

Lemma keeps_on {A} (m : M sys A) : keeps holds m → keeps shows (on m).
Proof.
  intros Hm s x s' (Hr & Hu & Hv). unfold on. destruct (m (machine s)) as [[y t]| |] eqn:E; [|done|done].
  intros [= <- <-]. split; [|done]. by eapply Hm.
Qed.

Lemma keeps_on_vap {A} (f : Z → Z → M cli A) :
  (∀ vap, 0 <= vap < WLAN_MAX_VAP → keeps shows (f 0 vap)) → keeps shows (on_vap f).
Proof.
  intros Hf s x s' (Hr & Hu & Hv). unfold on_vap, mbind, M_bind, getS. rewrite Hu. apply Hf; done.
Qed.

Lemma keeps_modS f : (∀ s, machine (f s) = machine s ∧ unit_ (f s) = unit_ s ∧ vap_ (f s) = vap_ s) → keeps shows (modS f).
Proof. intros Hf. apply keeps_mod. intros s Hs. unfold shows. destruct (Hf s) as (-> & -> & ->). done. Qed.

Lemma keeps_each {A} (l : list A) f : (∀ x, keeps shows (f x)) → keeps shows (each l f).
Proof. intros Hf. induction l as [|x l IH]; cbn [each]; [apply keeps_ret|]. by apply keeps_bind. Qed.

Lemma keeps_country fuel fp : keeps holds apCfgCountryCodeGet → keeps shows (country_named fuel fp).
Proof.
  intros Hc. revert fp; induction fuel as [|fuel IH]; intros fp; cbn [country_named]; [apply keeps_stuck|].
  keeps_steps; [by apply keeps_on|apply IH].
Qed.
End get.

Lemma key_ok_numbered k n : key_ok k → key_ok (k ++ dec n).
Proof. intros [Hk Hg]. split; [by destruct k|]. apply good_name_app; [done|apply good_name_dec]. Qed.

Ltac get_key :=
  lazymatch goal with
  | |- key_ok (acl_key _ _) => apply key_ok_vap; split; closed
  | |- key_ok (vap_key _ _ _ ++ dec _) => apply key_ok_numbered, key_ok_vap; split; closed
  | |- key_ok (wlan_key _ _) => apply key_ok_wlan; split; closed
  | |- key_ok (vap_key _ _ _) => apply key_ok_vap; split; closed
  | |- _ => closed
  end.

(** One step through a program that shows something. *)
Ltac get_step :=
  lazymatch goal with
  | |- keeps _ (mret _) => apply keeps_ret
  | |- keeps _ faultM => apply keeps_fault
  | |- keeps _ stuckM => apply keeps_stuck
  | |- keeps _ getS => apply keeps_get
  | |- keeps _ (liftO _) => apply keeps_lift
  | |- keeps _ (modS _) => apply keeps_modS; by intros ?
  | |- keeps _ (mbind _ _) => apply keeps_bind; [|intros ?]
  | |- keeps _ (on_vap _) => apply keeps_on_vap; intros ? ?
  | |- keeps _ (on _) => apply keeps_on
  | |- keeps _ (each _ _) => apply keeps_each; intros ?
  | |- keeps _ (country_named _ _) => apply keeps_country
  | |- keeps _ (nvram_safe_get _) => apply keeps_safe_get; get_key
  | |- keeps _ (nvram_get _) => apply keeps_nvram_get; get_key
  | |- keeps _ (read_file _) => apply keeps_read_file
  | |- keeps _ (match ?x with _ => _ end) => destruct x
  | |- keeps _ (let _ := _ in _) => cbv zeta
  | |- keeps _ ?m => let h := head m in unfold h; cbv beta
  end.
Ltac gets := repeat get_step.

Section table.
Context {store : CfgStore sys} {laws : CfgStoreLaws sys} {host : Host} {console : Console}.
Context (a : cfg).

Definition handler_keeps (e : parse_token_s) : Prop :=
  match fHandler e with Do m => keeps (shows a) m | GenericSet => False | _ => True end.

Ltac table_keeps :=
  repeat apply List.Forall_cons; [..|apply List.Forall_nil]; cbn [handler_keeps fHandler];
  first [exact I | solve [gets]].

Lemma get_keeps_all : Forall handler_keeps (entries TgetCmdTbl).
Proof. cbn [entries]. unfold getCmdTbl. table_keeps. Qed.

Lemma radius_server_keeps_all : Forall handler_keeps (entries TradiusSrvCliCmdGetTbl).
Proof. cbn [entries]. unfold radiusSrvCliCmdGetTbl. table_keeps. Qed.

Lemma radius_port_keeps_all : Forall handler_keeps (entries TradiusPortCliCmdGetTbl).
Proof. cbn [entries]. unfold radiusPortCliCmdGetTbl. table_keeps. Qed.

Lemma radius_secret_keeps_all : Forall handler_keeps (entries TradiusSecretCliCmdGetTbl).
Proof. cbn [entries]. unfold radiusSecretCliCmdGetTbl. table_keeps. Qed.

(** ** Parsing in the tables that show *)

Definition display (t : tbl) : bool :=
  match t with
  | TgetCmdTbl | TradiusSrvCliCmdGetTbl | TradiusPortCliCmdGetTbl | TradiusSecretCliCmdGetTbl => true
  | _ => false
  end.

Definition leads_to_display (e : parse_token_s) : bool :=
  match pNxtParseTbl e with Some n => display n | None => true end.

Lemma display_ok t e :
  display t = true → e ∈ entries t → handler_keeps e ∧ leads_to_display e = true.
Proof.
  intros Ht He. split.
  - destruct t; try done; revert He; apply Forall_forall;
      auto using get_keeps_all, radius_server_keeps_all, radius_port_keeps_all, radius_secret_keeps_all.
  - assert (H : forallb leads_to_display (entries t) = true) by (destruct t; try done; by vm_compute).
    rewrite forallb_forall in H. by apply H, list_elem_of_In.
Qed.

Lemma prints_keeps m : prints m → keeps (shows a) m.
Proof. intros Hm s x s' Hs E. destruct (Hm s) as [out Eo]. rewrite Eo in E. by injection E as <- <-. Qed.

Lemma help_keeps t pTxt pFilter verbose : (length pTxt <= 20)%nat → keeps (shows a) (helpCmdScan t pTxt pFilter verbose).
Proof. intros Hl. by apply prints_keeps, help_prints. Qed.

Lemma print_tokens_keeps fuel : keeps (shows a) (print_tokens fuel).
Proof. induction fuel as [|fuel IH]; cbn [print_tokens]; gets. apply IH. Qed.

Lemma not_found_keeps p : keeps (shows a) (not_found p).
Proof. unfold not_found. do 2 (apply keeps_bind; [gets|intros ?]). apply keeps_bind; [apply print_tokens_keeps|intros ?]. gets. Qed.

Lemma help_handler_keeps : keeps (shows a) sccli_helpCmdHandler.
Proof.
  unfold sccli_helpCmdHandler. do 3 (apply keeps_bind; [gets|intros ?]).
  apply keeps_bind; [by apply help_keeps; cbn; lia|intros ?]. gets.
Qed.

Lemma after_one_keeps t e rc : e ∈ entries t → keeps (shows a) (after_one e rc).
Proof.
  intros He. pose proof (entry_short t e He). unfold after_one.
  destruct (_ || _); [|gets]. apply keeps_bind; [|intros ?; gets].
  destruct (_ =? CLI_PARSE_INVALID_PARAMETER); [|destruct (_ =? CLI_PARSE_UNKNOWN)].
  - apply keeps_bind; [gets|intros ?]. apply help_keeps. cbn. lia.
  - do 2 (apply keeps_bind; [gets|intros ?]). by apply help_keeps.
  - by apply help_keeps.
Qed.

Lemma after_many_keeps t e rc : e ∈ entries t → keeps (shows a) (after_many e rc).
Proof.
  intros He. pose proof (entry_short t e He). unfold after_many.
  destruct (_ =? _); [|gets]. apply keeps_bind; [by apply help_keeps|intros ?; gets].
Qed.

Lemma run_handler_keeps t e f :
  e ∈ entries t → handler_keeps e → (∀ n, pNxtParseTbl e = Some n → keeps (shows a) (f n)) →
  keeps (shows a) (run_handler f (fHandler e) (pNxtParseTbl e)).
Proof.
  intros He Hh Hf. unfold handler_keeps in Hh. destruct (fHandler e) as [| | |m]; cbn [run_handler]; [|done| |done].
  - unfold genericCmdHandler. apply keeps_bind; [gets|intros n]. destruct (negb _); [|gets].
    destruct (pNxtParseTbl e) as [t'|]; [by apply Hf|gets].
  - apply help_handler_keeps.
Qed.

Lemma parser_keeps fuel t : display t = true → keeps (shows a) (sccli_tokenParser fuel t).
Proof.
  revert t; induction fuel as [|fuel IH]; intros t Ht; cbn [sccli_tokenParser]; [apply keeps_stuck|].
  do 4 (apply keeps_bind; [gets|intros ?]).
  match goal with |- keeps _ (if negb ?b then _ else _) => destruct b end; cbn [negb]; [|gets].
  apply keeps_bind; [gets|intros s1].
  destruct (chosen (ibuf s1) (entries t)) as [[[many e] from]|] eqn:E; [|apply not_found_keeps].
  pose proof (chosen_elem _ _ _ _ _ E) as He. destruct (display_ok t e Ht He) as [Hh Hn].
  apply keeps_bind; [gets|intros ?]. apply keeps_bind.
  - apply (run_handler_keeps t); [done|done|]. intros n En. apply IH.
    unfold leads_to_display in Hn. by rewrite En in Hn.
  - intros rc. destruct many; [by eapply after_many_keeps|by eapply after_one_keeps].
Qed.
End table.

(** * Switches on the command line

    Nineteen commands turn a parameter on and off.  Typing one runs the parser,
    the handler and the setter of the parameter, and commits; typing the [get]
    command of the same name shows the stored value.  A session of such lines
    behaves like a board of switches. *)

(** What the console promises of the commit: the machine represents the same
    configuration, and a load of the partition brings it back. *)
Class ConsoleLaws {store : CfgStore sys} {laws : CfgStoreLaws sys} (console : Console) : Prop :=
  submit_runs : ∀ s a, rep s a → runs apcfg_submit s (λ _ s', rep s' a ∧ committed s').

(** A command, the functions behind it, the name its value is stored under,
    the flags a change raises, and what is printed. *)
Record switch {store : CfgStore sys} : Type := Switch {
  sw_name : cstr;
  sw_set : Z → Z → M sys Z;
  sw_get : Z → M sys Z;
  sw_key : Z → cstr;
  sw_fx : Z → cfg → cfg;
  sw_said : cstr;
  sw_shown : cstr;
}.

Arguments Switch {store}.

Section switch.
Context {store : CfgStore sys} {laws : CfgStoreLaws sys} {host : Host} {console : Console} {claws : ConsoleLaws console}.

Definition switches : list switch := [
   Switch "daylight" (λ vap, apCfgDaylightSavingSet) (λ vap, apCfgDaylightSavingGet) (λ vap, "timezone_daylightsaving") (λ vap a, (raise APL_NTP a))
     "daylight: %s\n" "Daylight Mode: %s\n";
   Switch "emailalert" (λ vap, apCfgemailAlertsEnabledSet) (λ vap, apCfgemailAlertsEnabledGet) (λ vap, "email_alert") (λ vap a, (raise APL_LOG a))
     "Email Alert: %s\n" "Email Alert: %s\n";
   Switch "bonjour" (λ vap, apCfgBonjourSet) (λ vap, apCfgBonjourGet) (λ vap, "bonjour_enable") (λ vap a, (raise APL_BONJOUR a))
     "Bonjour Mode: %s\n" "Bonjour Mode: %s\n";
   Switch "wps" (λ vap, apCfgWpsModeSet 0) (λ vap, apCfgWpsModeGet 0) (λ vap, (wlan_key 0 "_wps")) (λ vap a, (raise (wlan_flag 0) a))
     "WPS Mode: %s\n" "WPS Mode: %s\n";
   Switch "httpredirect" (λ vap, apCfgRedirectModeSet) (λ vap, apCfgRedirectModeGet) (λ vap, "rediret_mode") (λ vap a, (raise APL_HTTPREDIRECT a))
     "HTTP Redirect Mode: %s\n" "HTTP Redirect Mode: %s\n";
   Switch "isolationwithinssid" (λ vap, apCfgIntraVapForwardingSet 0 vap) (λ vap, apCfgIntraVapForwardingGet 0 vap) (λ vap, (vap_key 0 vap "_isolation")) (λ vap a, (raise (vap_flag 0 vap) a))
     "Wireless Isolation(within SSID): %s\n" "Wireless Isolation(within SSID): %s\n";
   Switch "lltd" (λ vap, apCfglltdSet) (λ vap, apCfglltdGet) (λ vap, "lltd") (λ vap a, (raise APL_LLTD a))
     "LLTD Mode: %s\n" "LLTD Mode: %s\n";
   Switch "loadbalance" (λ vap, apCfgBalanceModeSet 0) (λ vap, apCfgBalanceModeGet 0) (λ vap, (wlan_key 0 "_balance")) (λ vap a, (raise APL_BALANCE a))
     "Load Balancing: %s\n" "Load Balancing Mode: %s\n";
   Switch "logconfchange" (λ vap, apCfgChangeCfgSet) (λ vap, apCfgChangeCfgGet) (λ vap, "log_conf_change") (λ vap a, (raise APL_LOG a))
     "Configuration Changes: %s\n" "Configuration Changes: %s\n";
   Switch "logfail" (λ vap, apCfgDeauthSet) (λ vap, apCfgDeauthGet) (λ vap, "log_login_fail") (λ vap a, (raise APL_LOG a))
     "Unauthorized Login Attempt: %s\n" "Unauthorized Login Attempt: %s\n";
   Switch "logsuccess" (λ vap, apCfgAuthLoginSet) (λ vap, apCfgAuthLoginGet) (λ vap, "log_login_success") (λ vap a, (raise APL_LOG a))
     "Authorized Login: %s\n" "Authorized Login: %s\n";
   Switch "logsyserror" (λ vap, apCfgChangeSysFucSet) (λ vap, apCfgChangeSysFucGet) (λ vap, "log_system_errors") (λ vap a, (raise APL_LOG a))
     "System Error Messages: %s\n" "System Error Messages: %s\n";
   Switch "snmpmode" (λ vap, apCfgSnmpModeSet) (λ vap, apCfgSnmpModeGet) (λ vap, "snmp_mode") (λ vap a, (raise APL_SNMP a))
     "SNMP: %s\n" "SNMP Mode: %s\n";
   Switch "ssh" (λ vap, apCfgSSHSet) (λ vap, apCfgSSHGet) (λ vap, "SSH") (λ vap a, (raise APL_BONJOUR (raise APL_SSH a)))
     "SSH: %s\n" "SSH Mode: %s\n";
   Switch "vlan" (λ vap, apCfgVlanModeSet) (λ vap, apCfgVlanModeGet) (λ vap, "vlan_mode") (λ vap a, (raise APL_VLAN a))
     "VLAN Operational State: %s\n" "VLAN Operational State: %s\n";
   Switch "vlantagoverwds" (λ vap, apCfgWdsVlanTagSet) (λ vap, apCfgWdsVlanTagGet) (λ vap, "vlan_wds_tag") (λ vap a, (raise APL_VLAN a))
     "VLAN Tag over WDS: %s\n" "VLAN Tag over WDS Mode: %s\n";
   Switch "wlanaccess" (λ vap, apCfgWlanAccessSet) (λ vap, apCfgWlanAccessGet) (λ vap, "wlan_manage") (λ vap a, (raise APL_HTTPD a))
     "Wireless Web Access: %s\n" "Wireless Web Access Mode: %s\n";
   Switch "wmm" (λ vap, apCfgWmeSet 0 vap) (λ vap, apCfgWmeGet 0 vap) (λ vap, (vap_key 0 vap "_wmm")) (λ vap a, (raise (vap_flag 0 vap) a))
     "WMM: %s\n" "WMM Mode: %s\n";
   Switch "wmmps" (λ vap, apCfgWmmpsSet 0 vap) (λ vap, apCfgWmmpsGet 0 vap) (λ vap, (vap_key 0 vap "_wmmps")) (λ vap a, (raise (vap_flag 0 vap) a))
     "WMM PowerSaving: %s\n" "WMM PowerSaving Mode: %s\n"].

(** ** The abstract board *)

Definition able_word_of (v : Z) : cstr := if v =? 1 then enabled else disabled.
Definition verb (on : bool) : cstr := if on then txtEnable else txtDisable.

Definition sw_par (sw : switch) (vap : Z) : iparam :=
  IParam (sw_key sw vap) always A_ERROR always enable dec_bool (λ _, sw_fx sw vap) None.

(** The value, and the configuration after a change. *)
Definition switch_reads (sw : switch) (vap : Z) (a : cfg) : Z := dec_bool (safe a (sw_key sw vap)).
Definition turned (sw : switch) (vap : Z) (on : bool) (a : cfg) : cfg := (abs_set (sw_par sw vap) (boolZ on) a).2.

Inductive line : Type :=
  | Turn (sw : switch) (on : bool)
  | Ask (sw : switch).
Definition line_ok (l : line) : Prop := match l with Turn sw _ | Ask sw => sw ∈ switches end.

(** The words of a line. *)
Definition argv_of (l : line) : list cstr :=
  match l with
  | Turn sw on => ["set" : cstr; sw_name sw; verb on]
  | Ask sw => ["get" : cstr; sw_name sw]
  end.

(** What a line prints and does, on the access point [vap]. *)
Definition abs_line (vap : Z) (l : line) (a : cfg) : bytes * cfg :=
  match l with
  | Turn sw on => (format (sw_said sw) [able_word_of (boolZ on)], turned sw vap on a)
  | Ask sw => (format (sw_shown sw) [able_word_of (switch_reads sw vap a)], a)
  end.
Fixpoint abs_lines (vap : Z) (ls : list line) (a : cfg) : bytes * cfg :=
  match ls with
  | [] => ([], a)
  | l :: ls' => ((abs_line vap l a).1 ++ (abs_lines vap ls' (abs_line vap l a).2).1,
                 (abs_lines vap ls' (abs_line vap l a).2).2)
  end.

(** ** The functions *)

Lemma switch_refines sw vap :
  sw ∈ switches → 0 <= vap < WLAN_MAX_VAP → int_refines (sw_set sw vap, sw_get sw vap, sw_par sw vap).
Proof.
  intros Hin Hv. unfold WLAN_MAX_VAP in Hv. revert sw Hin. apply Forall_forall. unfold switches.
  repeat apply List.Forall_cons; [..|apply List.Forall_nil];
    cbn [sw_set sw_get sw_par sw_key sw_fx]; unfold sw_par; cbn [sw_key sw_fx]; refine_int.
Qed.

(** ** The commands *)

Definition set_handler (sw : switch) (v : Z) : M cli Z := on_vap (λ _ vap,
  _ ← call (sw_set sw vap v); says (sw_said sw) (mret (able_word_of v))).
Definition get_handler (sw : switch) : M cli Z := on_vap (λ _ vap,
  says (sw_shown sw) (able (sw_get sw vap))).

(** A word stands in a table, with its entry. *)
Definition found (t : tbl) (w : cstr) (e : parse_token_s) : Prop :=
  ∃ i, fst <$> list_find (is_exact (map tolower w)) (entries t) = Some i ∧ entries t !! i = Some e.

(** The entry calls a handler. *)
Definition calls (e : parse_token_s) (m : M cli Z) : Prop :=
  ∃ m', fHandler e = Do m' ∧ ∀ s, unit_ s = 0 → m' s = m s.

(** The commands of a switch. *)
Record wired (sw : switch) : Prop := Wired {
  w_set : ∃ e t, found TsetCmdTbl (sw_name sw) e ∧ fHandler e = Generic ∧ pNxtParseTbl e = Some t ∧
            ∀ on, ∃ e', found t (verb on) e' ∧ calls e' (set_handler sw (boolZ on));
  w_get : ∃ e, found TgetCmdTbl (sw_name sw) e ∧ calls e (get_handler sw);
  w_short : sw_name sw ≠ [] ∧ (length (sw_name sw) < 20)%nat ∧ nul_free (sw_name sw);
}.
End switch.

Ltac find_word :=
  lazymatch goal with
  | |- found ?t ?w _ =>
      let i := eval vm_compute in (fst <$> list_find (is_exact (map tolower w)) (entries t)) in
      lazymatch i with Some ?i => exists i; split; [vm_compute; reflexivity|reflexivity] end
  end.
Ltac handler_called :=
  eexists; split; [reflexivity|];
  let s := fresh "s" in let H := fresh "H" in
  intros s H; lazymatch goal with |- ?l _ = _ => unfold_head l end; unfold set_handler, get_handler, on_vap, mbind, M_bind, getS; try rewrite H; reflexivity.
Ltac wire_switch :=
  split;
  [ eexists _, _; split; [find_word|]; split; [reflexivity|]; split; [reflexivity|];
    intros []; eexists; (split; [find_word|handler_called])
  | eexists; split; [find_word|handler_called]
  | split; [done|split; [vm_compute; lia|closed]] ].

Section sessions.
Context {store : CfgStore sys} {laws : CfgStoreLaws sys} {host : Host} {console : Console} {claws : ConsoleLaws console}.

Lemma switches_wired : Forall wired switches.
Proof.
  unfold switches. repeat apply List.Forall_cons; [..|apply List.Forall_nil].
  all: wire_switch.
Qed.

(** ** Handlers *)

Lemma runs_on {A} (m : M sys A) s (Q : A → cli → Prop) :
  runs m (machine s) (λ r t, Q r (set_machine t s)) → runs (on m) s Q.
Proof. unfold runs, on. by destruct (m (machine s)) as [[r t]| |]. Qed.

(** What a line does to the console: the configuration and the text. *)
Definition acted (s : cli) (b : cfg) (out : bytes) (s' : cli) : Prop :=
  shows b s' ∧ vap_ s' = vap_ s ∧ screen s' = screen s ++ out.

Lemma set_handler_runs sw on s a :
  sw ∈ switches → shows a s →
  runs (set_handler sw (boolZ on)) s (λ rc s', rc = CLI_PARSE_OK ∧
    acted s (turned sw (vap_ s) on a) (format (sw_said sw) [able_word_of (boolZ on)]) s').
Proof.
  intros Hin (Hr & Hu & Hv). destruct (switch_refines sw (vap_ s) Hin Hv) as [_ Hs].
  unfold set_handler, on_vap. apply runs_bind, runs_get. unfold call.
  apply runs_bind, runs_bind, runs_on. use_runs (Hs (boolZ on) eq_refl (machine s) a Hr I).
  intros r t [_ Ht]. apply runs_ret. cbv beta. by unfold says, printf, ok; repeat runs_step.
Qed.

Lemma able_word v : at_index pAbleStr (dec_bool v) = (mret (able_word_of (dec_bool v)) : M cli cstr).
Proof. unfold dec_bool. by case_bool_decide. Qed.

Lemma get_handler_runs sw s a :
  sw ∈ switches → shows a s →
  runs (get_handler sw) s (λ rc s', rc = CLI_PARSE_OK ∧
    acted s a (format (sw_shown sw) [able_word_of (switch_reads sw (vap_ s) a)]) s').
Proof.
  intros Hin (Hr & Hu & Hv). destruct (switch_refines sw (vap_ s) Hin Hv) as [Hg _].
  unfold get_handler, on_vap. apply runs_bind, runs_get. unfold says, able.
  apply runs_bind, runs_bind, runs_on. use_runs (Hg (machine s) a Hr I).
  intros r t [-> Ht]. cbn [abs_get fst snd sw_par i_dec i_key]. rewrite able_word. apply runs_ret.
  by unfold printf, ok; repeat runs_step.
Qed.

Lemma called_runs e m s b out :
  calls e m → unit_ s = 0 → runs m s (λ rc s', rc = CLI_PARSE_OK ∧ acted s b out s') →
  ∀ f nx, runs (run_handler f (fHandler e) nx) s (λ rc s', rc = CLI_PARSE_OK ∧ acted s b out s').
Proof. intros (m' & -> & Hm) Hu Hr f nx. cbn [run_handler]. unfold runs. by rewrite Hm. Qed.

(** ** Words *)

Lemma found_elem t w e : found t w e → e ∈ entries t.
Proof. intros (i & _ & He). by eapply list_elem_of_lookup_2. Qed.

Lemma found_step f t s w ws e :
  found t w e → ring_ok s → waiting s = w :: ws → (length (ParseTbl s) < MAX_TOKEN)%nat →
  w ≠ [] → (length w < CLI_INBUF)%nat →
  ∃ s', stepped t ws s s' ∧
    sccli_tokenParser (S f) t s = (rc ← run_handler (sccli_tokenParser f) (fHandler e) (pNxtParseTbl e); after_one e rc) s'.
Proof. intros (i & Hi & He) Hs Hp Ht Hw Hl. by apply (parse_step f t s w ws i e). Qed.

Lemma parse_runs f t s w ws e (Q : cli → Prop) :
  found t w e → ring_ok s → waiting s = w :: ws → (length (ParseTbl s) < MAX_TOKEN)%nat →
  w ≠ [] → (length w < CLI_INBUF)%nat →
  (∀ s', stepped t ws s s' →
    runs (run_handler (sccli_tokenParser f) (fHandler e) (pNxtParseTbl e)) s' (λ rc s'', rc = CLI_PARSE_OK ∧ Q s'')) →
  runs (sccli_tokenParser (S f) t) s (λ rc s'', rc = CLI_PARSE_OK ∧ Q s'').
Proof.
  intros Hf Hs Hp Ht Hw Hl HQ.
  destruct (found_step f t s w ws e Hf Hs Hp Ht Hw Hl) as (s' & Hst & E).
  unfold runs at 1. rewrite E. fold (runs (rc ← run_handler (sccli_tokenParser f) (fHandler e) (pNxtParseTbl e);
    after_one e rc) s' (λ rc s'', rc = CLI_PARSE_OK ∧ Q s'')).
  apply runs_bind. use_runs (HQ s' Hst). intros rc s'' [-> HQ']. by apply runs_ret.
Qed.

(** [genericCmdHandler] with words left. *)
Lemma generic_runs f t s w ws (Q : Z → cli → Prop) :
  ring_ok s → waiting s = w :: ws → runs (f t) s Q → runs (genericCmdHandler f (Some t)) s Q.
Proof.
  intros Hs Hp Hr. unfold genericCmdHandler. apply runs_bind. unfold runs at 1. rewrite (count_pending s Hs), Hp.
  unfold zlen. cbn [length]. destruct (Z.eqb_spec (Z.of_nat (S (length ws))) 0); [lia|done].
Qed.

Lemma found_set : found TcmdTbl "set" (Tok "set" None GenericSet (Some TsetCmdTbl) None 0).
Proof. find_word. Qed.
Lemma found_get : found TcmdTbl "get" (Tok "get" None Generic (Some TgetCmdTbl) None 0).
Proof. find_word. Qed.

(** ** Lines *)

(** The line is in the buffer, its words are waiting. *)
Lemma line_runs t ws s (Q : Z → cli → Prop) :
  Forall nul_free ws → Forall (λ w, w ≠ []) ws → (line_length ws <= CLI_INBUF)%nat → (length ws <= MAX_TOKEN)%nat →
  (∀ s', ring_ok s' → waiting s' = ws → ParseTbl s' = [] → machine s' = machine s → screen s' = screen s →
     unit_ s' = unit_ s → vap_ s' = vap_ s → runs (tokenParser t) s' Q) →
  runs (sccli_parser t ws) s Q.
Proof.
  intros Hn He Hl Hm HQ. destruct (parser_starts t ws s Hn Hl) as (s' & Hst & E).
  unfold runs. rewrite E. destruct Hst as (Hok & Hp & Ht & _ & H1 & H2 & H3 & H4 & _).
  apply HQ; try done. rewrite Hp, words_all by done.
  by replace (length ws - MAX_TOKEN)%nat with 0%nat by lia.
Qed.

Lemma shows_same a s s' :
  machine s' = machine s → unit_ s' = unit_ s → vap_ s' = vap_ s → shows a s → shows a s'.
Proof. intros H1 H2 H3. unfold shows. by rewrite H1, H2, H3. Qed.

Lemma acted_same s s' b out s'' :
  vap_ s = vap_ s' → screen s = screen s' → acted s b out s'' → acted s' b out s''.
Proof. intros H1 H2. unfold acted. by rewrite H1, H2. Qed.

Lemma verb_word on : verb on ≠ [] ∧ (length (verb on) < 20)%nat ∧ nul_free (verb on).
Proof. destruct on; (split; [done|split; [vm_compute; lia|closed]]). Qed.

Lemma wired_of sw : sw ∈ switches → wired sw.
Proof. intros Hin. pose proof switches_wired as H. rewrite Forall_forall in H. by apply H. Qed.

Lemma word_fits n : (n < 20)%nat → (n < CLI_INBUF)%nat.
Proof. unfold CLI_INBUF. lia. Qed.
Lemma tables_fit (l : list tbl) s : ParseTbl s = l → (length l < 10)%nat → (length (ParseTbl s) < MAX_TOKEN)%nat.
Proof. intros ->. unfold MAX_TOKEN. lia. Qed.

(** The last word of a line: it calls a handler that acts. *)
Lemma last_word_runs f t s w e m b out :
  found t w e → calls e m → ring_ok s → waiting s = [w] → (length (ParseTbl s) < MAX_TOKEN)%nat →
  w ≠ [] → (length w < 20)%nat → unit_ s = 0 →
  (∀ s', machine s' = machine s → unit_ s' = unit_ s → vap_ s' = vap_ s →
     runs m s' (λ rc s'', rc = CLI_PARSE_OK ∧ acted s' b out s'')) →
  runs (sccli_tokenParser (S f) t) s (λ rc s'', rc = CLI_PARSE_OK ∧ acted s b out s'').
Proof.
  intros Hf Hc Hok Hp Ht Hw Hl Hu Hr.
  apply (parse_runs _ _ _ _ _ _ _ Hf Hok Hp Ht Hw (word_fits _ Hl)).
  intros s' (_ & _ & _ & H1 & H2 & H3 & H4).
  eapply runs_mono; [apply (called_runs _ _ _ b out Hc); [by rewrite H3|by apply Hr]|].
  intros rc s'' [-> Ha]. split; [done|]. by apply (acted_same s').
Qed.

Lemma get_runs_line sw s a :
  sw ∈ switches → shows a s →
  runs (sccli_parser TcmdTbl ["get" : cstr; sw_name sw]) s (λ rc s', rc = CLI_PARSE_OK ∧
    acted s a (format (sw_shown sw) [able_word_of (switch_reads sw (vap_ s) a)]) s').
Proof.
  intros Hin Hs. destruct (wired_of sw Hin) as [_ (e & Hf & Hc) (Hne & Hlen & Hnul)].
  apply line_runs.
  { repeat apply List.Forall_cons; [closed|done|apply List.Forall_nil]. }
  { repeat apply List.Forall_cons; [done|done|apply List.Forall_nil]. }
  { unfold line_length, CLI_INBUF. cbn. lia. }
  { cbn [length]. unfold MAX_TOKEN. lia. }
  intros s1 Hok Hp Ht Hm Hsc Hu Hv. unfold tokenParser, DEPTH.
  apply (parse_runs _ _ _ _ _ _ _ found_get Hok Hp); [by apply (tables_fit []); [|cbn; lia]|done|apply word_fits; cbn; lia|].
  intros s2 (Hok2 & Hp2 & Ht2 & Hm2 & Hsc2 & Hu2 & Hv2). cbn [fHandler pNxtParseTbl run_handler].
  apply (generic_runs _ _ _ _ _ _ Hok2 Hp2). rewrite Ht in Ht2.
  assert (Hs2 : shows a s2) by (apply (shows_same a s); congruence).
  assert (Hvap : ∀ s3, vap_ s3 = vap_ s2 → vap_ s = vap_ s3) by congruence.
  eapply runs_mono; [eapply (last_word_runs _ _ _ _ _ _ a (format (sw_shown sw) [able_word_of (switch_reads sw (vap_ s) a)])
    Hf Hc Hok2 Hp2); [|done|done|apply Hs2|]|].
  - by apply (tables_fit [TcmdTbl]); [|cbn; lia].
  - intros s3 H1 H2 H3. rewrite (Hvap s3 H3). apply get_handler_runs; [done|]. by apply (shows_same a s2).
  - intros rc s' [-> Ha]. split; [done|]. revert Ha. apply acted_same; congruence.
Qed.

(** A [set] line: what is behind the word, and the commit. *)
Lemma set_line_runs w ws s b out :
  Forall nul_free (w :: ws) → Forall (λ w, w ≠ []) (w :: ws) → (line_length (w :: ws) < 500)%nat → (length ws < 40)%nat →
  (∀ s', ring_ok s' → waiting s' = w :: ws → ParseTbl s' = [TcmdTbl] → machine s' = machine s → unit_ s' = unit_ s →
     vap_ s' = vap_ s →
     runs (sccli_tokenParser 3 TsetCmdTbl) s' (λ rc s'', rc = CLI_PARSE_OK ∧ acted s' b out s'')) →
  runs (sccli_parser TcmdTbl (("set" : cstr) :: w :: ws)) s (λ rc s', rc = CLI_PARSE_OK ∧ acted s b out s' ∧
    committed (machine s')).
Proof.
  intros Hn He Hl Hm Hr. apply line_runs.
  { apply List.Forall_cons; [closed|done]. }
  { apply List.Forall_cons; done. }
  { unfold CLI_INBUF. change (line_length (_ :: w :: ws)) with (4 + line_length (w :: ws))%nat. lia. }
  { cbn [length]. unfold MAX_TOKEN. lia. }
  intros s1 Hok Hp Ht Hma Hsc Hu Hv. unfold tokenParser, DEPTH.
  apply (parse_runs _ _ _ _ _ _ _ found_set Hok Hp); [by apply (tables_fit []); [|cbn; lia]|done|apply word_fits; cbn; lia|].
  intros s2 (Hok2 & Hp2 & Ht2 & Hm2 & Hsc2 & Hu2 & Hv2). cbn [fHandler pNxtParseTbl run_handler]. rewrite Ht in Ht2.
  unfold genericCliCmdSet. apply runs_bind.
  eapply runs_mono; [apply (generic_runs _ _ _ _ _ (λ rc s', rc = CLI_PARSE_OK ∧ acted s b out s') Hok2 Hp2)|].
  - eapply runs_mono; [apply Hr; [done|done|done|congruence..]|].
    intros rc s' [-> Ha]. split; [done|]. revert Ha. apply acted_same; congruence.
  - cbv beta. intros rc s' [-> ((Hrp & Hu' & Hv') & Hva & Hsc')]. cbn [Z.eqb CLI_PARSE_OK].
    unfold call. apply runs_bind, runs_bind, runs_on. use_runs (submit_runs (machine s') _ Hrp).
    intros _ m [Hm' Hcm]. do 2 apply runs_ret. done.
Qed.

Lemma turn_runs_line sw on s a :
  sw ∈ switches → shows a s →
  runs (sccli_parser TcmdTbl ["set" : cstr; sw_name sw; verb on]) s (λ rc s', rc = CLI_PARSE_OK ∧
    acted s (turned sw (vap_ s) on a) (format (sw_said sw) [able_word_of (boolZ on)]) s' ∧ committed (machine s')).
Proof.
  intros Hin Hs. destruct (wired_of sw Hin) as [(e & t & Hf & Hh & Hn & Hon) _ (Hne & Hlen & Hnul)].
  destruct (verb_word on) as (Hvne & Hvlen & Hvnul).
  apply set_line_runs.
  { repeat apply List.Forall_cons; [done|done|apply List.Forall_nil]. }
  { repeat apply List.Forall_cons; [done|done|apply List.Forall_nil]. }
  { unfold line_length. cbn [sum_list_with]. lia. }
  { cbn [length]. lia. }
  intros s2 Hok2 Hp2 Ht2 Hm2 Hu2 Hv2.
  apply (parse_runs _ _ _ _ _ _ _ Hf Hok2 Hp2); [by apply (tables_fit [TcmdTbl]); [|cbn; lia]|done|by apply word_fits|].
  intros s3 (Hok3 & Hp3 & Ht3 & Hm3 & Hsc3 & Hu3 & Hv3). rewrite Hh, Hn. cbn [run_handler]. rewrite Ht2 in Ht3.
  apply (generic_runs _ _ _ _ _ _ Hok3 Hp3). destruct (Hon on) as (e' & Hf' & Hc).
  assert (Hs3 : shows a s3) by (apply (shows_same a s); congruence).
  eapply runs_mono; [apply (last_word_runs _ _ _ _ _ _ (turned sw (vap_ s) on a) (format (sw_said sw) [able_word_of (boolZ on)])
    Hf' Hc Hok3 Hp3); [|done|done|apply Hs3|]|].
  - by apply (tables_fit [TsetCmdTbl; TcmdTbl]); [|cbn; lia].
  - intros s4 H1 H2 H3. replace (vap_ s) with (vap_ s4) by congruence. apply set_handler_runs; [done|]. by apply (shows_same a s3).
  - intros rc s' [-> Ha]. split; [done|]. revert Ha. apply acted_same; congruence.
Qed.

(** ** Sessions *)

Lemma typed_runs l s a :
  line_ok l → shows a s →
  runs (sercomm_cmd (argv_of l)) s (λ _ s', acted s (abs_line (vap_ s) l a).2 (abs_line (vap_ s) l a).1 s' ∧
    (∀ sw on, l = Turn sw on → committed (machine s'))).
Proof.
  intros Hl Hs. unfold sercomm_cmd. apply runs_bind. destruct l as [sw on|sw]; cbn [argv_of abs_line fst snd line_ok] in *.
  - eapply runs_mono; [by apply turn_runs_line|]. intros rc s' (_ & Ha & Hc). by apply runs_ret.
  - eapply runs_mono; [by apply get_runs_line|]. intros rc s' [_ Ha]. by apply runs_ret.
Qed.

Definition typed (l : line) : M cli () := _ ← sercomm_cmd (argv_of l); mret tt.

Lemma switch_session_runs ls s a :
  Forall line_ok ls → shows a s →
  runs (each ls typed) s (λ _ s', acted s (abs_lines (vap_ s) ls a).2 (abs_lines (vap_ s) ls a).1 s' ∧
    (∀ sw on, last ls = Some (Turn sw on) → committed (machine s'))).
Proof.
  intros H; revert s a; induction H as [|l ls Hl _ IH]; intros s a Hs; cbn [each abs_lines].
  - apply runs_ret. split; [|done]. split; [done|]. by rewrite app_nil_r.
  - apply runs_bind. unfold typed at 1. apply runs_bind. use_runs (typed_runs l s a Hl Hs).
    intros _ s1 [(Hs1 & Hv1 & Hsc1) Hc1]. apply runs_ret. destruct ls as [|l2 ls].
    { apply runs_ret. cbn [abs_lines fst snd last]. rewrite app_nil_r. split; [done|].
      intros sw on [= ->]. by eapply Hc1. }
    use_runs (IH s1 _ Hs1). intros _ s2 [(Hs2 & Hv2 & Hsc2) Hc2]. rewrite Hv1 in *.
    cbn [fst snd]. split; [|exact Hc2]. split; [done|]. split; [congruence|].
    by rewrite Hsc2, Hsc1, app_assoc.
Qed.

(** ** The board *)

(** The flags of a change are no values. *)
Lemma fx_safe sw vap b k : sw ∈ switches → safe (sw_fx sw vap b) k = safe b k.
Proof.
  revert sw. apply Forall_forall. unfold switches.
  repeat apply List.Forall_cons; [..|apply List.Forall_nil]; by cbn [sw_fx]; rewrite ?safe_raise.
Qed.

Lemma turned_reads sw vap on b : sw ∈ switches → switch_reads sw vap (turned sw vap on b) = boolZ on.
Proof.
  intros Hin. unfold turned, switch_reads, abs_set. cbn [i_ok sw_par always i_dec i_key i_fx i_enc].
  destruct (Z.eqb_spec (boolZ on) (dec_bool (safe b (sw_key sw vap)))) as [E|_]; cbn [snd]; [done|].
  rewrite fx_safe, safe_put_eq by done. by destruct on.
Qed.

Lemma turned_other sw vap on b k : sw ∈ switches → k ≠ sw_key sw vap → safe (turned sw vap on b) k = safe b k.
Proof.
  intros Hin Hk. unfold turned, abs_set. cbn [i_ok sw_par always i_dec i_key i_fx i_enc].
  destruct (_ =? _); cbn [snd]; [done|]. rewrite fx_safe, safe_put_ne by done. done.
Qed.

Lemma keys_apart vap : 0 <= vap < WLAN_MAX_VAP → NoDup (map (λ sw, sw_key sw vap) switches).
Proof.
  intros Hv. unfold WLAN_MAX_VAP in Hv.
  assert (H : Forall (λ v, NoDup (map (λ sw, sw_key sw v) switches)) [0; 1; 2; 3]).
  { repeat apply List.Forall_cons; [..|apply List.Forall_nil]; closed. }
  rewrite Forall_forall in H. apply H. rewrite !elem_of_cons. lia.
Qed.
End sessions.
