(* ===== verification/CliSecret.v ===== *)
(** * The generated secrets

    The WPS number that the console makes up is one that it accepts when it is
    typed. *)

From S2P Require Import Prelude CLib FileSys Utility NvramSpec NvramCorrect CfgStore ApCfgWlan CfgRefine ApCfgSpec EditApCfg Cli CliServices CliRadio CliTable CliParser CliLookup CliLine CliSwitch.

(** ** Digits *)

Definition is_digit (b : Z) : Prop := 0 <= b < 10.

Lemma dec_digit n : is_digit n → dec n = [digit n].
Proof.
  intros Hn. assert (HF : Forall (λ n, dec n = [digit n]) [0; 1; 2; 3; 4; 5; 6; 7; 8; 9]).
  { repeat apply List.Forall_cons; [..|apply List.Forall_nil]; by vm_compute. }
  rewrite Forall_forall in HF. apply HF. rewrite !elem_of_cons. unfold is_digit in Hn. lia.
Qed.

Lemma dec_digits l : Forall is_digit l → concat (map dec l) = map digit l.
Proof. induction 1 as [|b l Hb _ IH]; [done|]. cbn [map concat]. by rewrite dec_digit, IH. Qed.

(** The number that digits make. *)
Definition horner (l : list Z) : Z := fold_left (λ acc b, 10 * acc + b) l 0.

Lemma digits_val_digits acc l :
  Forall is_digit l → digits_val acc (map digit l) = fold_left (λ acc b, 10 * acc + b) l acc.
Proof.
  intros H; revert acc; induction H as [|b l Hb _ IH]; intros acc; [done|].
  cbn [map digits_val fold_left]. by rewrite isdigit_digit, code_digit, IH.
Qed.

Lemma atoi_digits b l :
  Forall is_digit (b :: l) → 0 <= horner (b :: l) < 2 ^ 31 → atoi (map digit (b :: l)) = horner (b :: l).
Proof.
  intros H Hr. pose proof (Forall_inv H) as Hb. cbn [map]. rewrite atoi_digit_head by (by apply isdigit_digit).
  rewrite <- map_cons, digits_val_digits by done. fold (horner (b :: l)). apply clamp_int_id. lia.
Qed.

(** ** The checksum *)

(** Three times the odd places, from the left, and the even places. *)
Definition pin_sum (l : list Z) : Z :=
  match l with
  | [b0; b1; b2; b3; b4; b5; b6; b7] => 3 * b0 + b1 + 3 * b2 + b3 + 3 * b4 + b5 + 3 * b6 + b7
  | _ => 1
  end.

Lemma div10 q r : 0 <= r < 10 → (10 * q + r) / 10 = q.
Proof. intros Hr. symmetry. by apply (Z.div_unique _ 10 q r); [left|]. Qed.
Lemma mod10 q r : 0 <= r < 10 → (10 * q + r) mod 10 = r.
Proof. intros Hr. symmetry. by apply (Z.mod_unique _ 10 q r); [left|]. Qed.

Lemma checksum_digits b0 b1 b2 b3 b4 b5 b6 b7 :
  Forall is_digit [b0; b1; b2; b3; b4; b5; b6; b7] →
  ValidateChecksum (horner [b0; b1; b2; b3; b4; b5; b6; b7]) =
  (pin_sum [b0; b1; b2; b3; b4; b5; b6; b7] mod 10 =? 0).
Proof.
  rewrite !Forall_cons. unfold is_digit. intros (H0 & H1 & H2 & H3 & H4 & H5 & H6 & H7 & _).
  unfold ValidateChecksum, horner, pin_sum. cbn [fold_left].
  change 10000000 with (10 * (10 * (10 * (10 * (10 * (10 * 10)))))). change 1000000 with (10 * (10 * (10 * (10 * (10 * 10))))).
  change 100000 with (10 * (10 * (10 * (10 * 10)))). change 10000 with (10 * (10 * (10 * 10))).
  change 1000 with (10 * (10 * 10)). change 100 with (10 * 10).
  rewrite <- !Z.div_div by lia. rewrite Z.div_1_r, !div10, !mod10 by lia.
  by rewrite !Z.mul_1_l.
Qed.

(** ** A new number *)

Definition pin_digits (data : bytes) : list Z := map (λ c, code c mod 10) data.
(** The eighth digit. *)
Definition check_digit (l : list Z) : Z := (10 - pin_sum (l ++ [0]) mod 10) mod 10.

Lemma pin_digits_ok data : Forall is_digit (pin_digits data).
Proof. apply Forall_fmap, Forall_forall. intros c _. unfold compose, is_digit. by apply Z.mod_pos_bound. Qed.

Lemma check_digit_ok l : is_digit (check_digit l).
Proof. unfold check_digit, is_digit. by apply Z.mod_pos_bound. Qed.

Lemma check_digit_sum b0 b1 b2 b3 b4 b5 b6 :
  pin_sum [b0; b1; b2; b3; b4; b5; b6; check_digit [b0; b1; b2; b3; b4; b5; b6]] mod 10 = 0.
Proof.
  unfold check_digit. cbn [app pin_sum]. set (x := 3 * b0 + _ + _ + _ + _ + _ + _).
  rewrite Z.add_0_r, Zplus_mod_idemp_r, <- Zplus_mod_idemp_l.
  by replace (x mod 10 + (10 - x mod 10)) with 10 by lia.
Qed.

Lemma pin_valid l c :
  length l = 7%nat → Forall is_digit l → c = check_digit l → IsValidWpsPin (map digit (l ++ [c])) = true.
Proof.
  intros Hl Hd ->. pose proof (check_digit_ok l) as Hc.
  destruct l as [|b0 [|b1 [|b2 [|b3 [|b4 [|b5 [|b6 [|? ?]]]]]]]]; try done. cbn [app].
  set (c := check_digit _) in *.
  assert (Hall : Forall is_digit [b0; b1; b2; b3; b4; b5; b6; c]) by (rewrite !Forall_cons in *; tauto).
  unfold IsValidWpsPin. rewrite take_ge by (rewrite length_map; by vm_compute).
  replace (forallb isdigit _) with true.
  2: { symmetry. apply forallb_forall. intros x (b & <- & Hb)%in_map_iff. apply isdigit_digit.
       rewrite List.Forall_forall in Hall. by apply Hall. }
  rewrite bool_decide_true by (by rewrite length_map). cbn [andb].
  assert (Hr : 0 <= horner [b0; b1; b2; b3; b4; b5; b6; c] < 2 ^ 31).
  { rewrite !Forall_cons in Hall. unfold is_digit in Hall. unfold horner. cbn [fold_left]. lia. }
  rewrite atoi_digits by done. unfold wrap32. rewrite Z.mod_small by lia.
  rewrite checksum_digits by done. apply Z.eqb_eq, check_digit_sum.
Qed.

Section secret.
Context {store : CfgStore sys} {laws : CfgStoreLaws sys} {host : Host} {console : Console} {claws : ConsoleLaws console}.

(** The number made of seven random bytes. *)
Definition new_pin (data : bytes) : cstr := map digit (pin_digits data ++ [check_digit (pin_digits data)]).

Lemma new_pin_valid data : length data = 7%nat → length (new_pin data) = 8%nat ∧ IsValidWpsPin (new_pin data) = true.
Proof.
  intros Hd. split; [unfold new_pin, pin_digits; rewrite length_map, length_app, length_map, Hd; done|].
  apply pin_valid; [unfold pin_digits; by rewrite length_map|apply pin_digits_ok|done].
Qed.

Lemma generate_pin_new data s :
  urandom 7 = Some data → length data = 7%nat → generate_pin s = Done (Some (new_pin data), s).
Proof.
  intros Hu Hl. unfold generate_pin. rewrite Hu. fold (pin_digits data).
  pose proof (pin_digits_ok data) as Hd. assert (Hp : length (pin_digits data) = 7%nat) by (unfold pin_digits; by rewrite length_map).
  pose proof (check_digit_ok (pin_digits data)) as Hc. unfold new_pin.
  destruct (pin_digits data) as [|b0 [|b1 [|b2 [|b3 [|b4 [|b5 [|b6 [|? ?]]]]]]]]; try done.
  rewrite <- dec_digits by (apply Forall_app; by rewrite Forall_singleton).
  unfold mret, M_ret. do 6 f_equal. cbn [app map concat]. unfold check_digit. cbn [app pin_sum].
  rewrite !Forall_cons in Hd. unfold is_digit in Hd.
  rewrite (Z.mod_small b0), (Z.mod_small b1), (Z.mod_small b2), (Z.mod_small b3), (Z.mod_small b4), (Z.mod_small b5),
    (Z.mod_small b6) by lia.
  rewrite !Z.mul_1_l, Z.add_0_r. done.
Qed.

(** ** The lines *)

Definition pin_par : sparam :=
  SParam (vap_key 0 0 "_pin") (λ p, negb (negb (zlen p =? WPS_PIN_LEN))) (λ a, raise (wlan_flag 0) a) 9.
Definition with_pin (pin : cstr) (a : cfg) : cfg := (abs_sset pin_par pin a).2.

Lemma pin_refines : str_refines (apCfgDevicePinSet 0 0, apCfgDevicePinGet 0 0, pin_par).
Proof. pose proof (vap_strs_ok 0 0 ltac:(lia) ltac:(lia)) as H. rewrite Forall_lookup in H. by apply (H 1%nat). Qed.

(** A number has no character that a request cuts. *)
Lemma pin_plain pin :
  IsValidWpsPin pin = true → length pin = 8%nat → Forall (λ c, isdigit c = true) pin.
Proof.
  unfold IsValidWpsPin. intros H Hl. rewrite take_ge in H by (rewrite Hl; by vm_compute).
  destruct (_ && forallb isdigit pin) eqn:E; [|done]. apply andb_prop in E as [_ E].
  by apply List.Forall_forall, forallb_forall.
Qed.

Lemma digits_without c pin : isdigit c = false → Forall (λ c, isdigit c = true) pin → c ∉ pin.
Proof. intros Hc H Hin. rewrite Forall_forall in H. specialize (H c Hin). congruence. Qed.

Lemma with_pin_stored pin a :
  length pin = 8%nat → Forall (λ c, isdigit c = true) pin → safe (with_pin pin a) (s_key pin_par) = pin.
Proof.
  intros Hl Hd. unfold with_pin, abs_sset.
  replace (s_ok pin_par pin) with true by (cbn [s_ok pin_par]; unfold zlen; by rewrite Hl).
  cbn [snd]. destruct (decide _) as [->|_]; [done|].
  cbn [s_fx pin_par]. by rewrite safe_raise, safe_put_eq.
Qed.

(** The one word that is left. *)
Lemma rest_of_one p s (Q : cstr → cli → Prop) :
  ring_ok s → waiting s = [p] → (length p < CLI_INBUF)%nat →
  (∀ t, Q p (set_token t s)) → runs rest_of_line s Q.
Proof.
  intros Hs Hp Hl HQ. unfold rest_of_line.
  assert (E0 : ∃ n, S MAX_TOKEN = S (S n)) by (by exists 49%nat). destruct E0 as [n ->]. cbn [join_tokens].
  pose proof (pop_spec s Hs) as H. rewrite Hp in H. destruct H as (t & E & Hok & Hn).
  apply runs_bind. unfold runs at 1. rewrite (count_pending s Hs), Hp. cbn [zlen length]. 
  change (Z.of_nat 1 =? 0) with false. cbv iota beta. apply runs_bind. unfold pop. apply runs_bind.
  unfold runs at 1. rewrite E. apply runs_ret. cbv beta zeta iota. rewrite decide_True by done.
  apply runs_bind. unfold runs at 1. rewrite (count_pending _ Hok), Hn.
  change (zlen (@nil cstr) =? 0) with true. cbv iota beta. apply runs_ret. apply HQ.
Qed.

Lemma pin_handler_runs pin s a :
  shows a s → fits (Some 9%nat) (s_key pin_par) a → ring_ok s → waiting s = [pin] →
  length pin = 8%nat → IsValidWpsPin pin = true →
  runs WpsPinCliCmdSet s (λ rc s', rc = CLI_PARSE_OK ∧ acted s (with_pin pin a) (format "WPS PIN: %s\n" [pin]) s').
Proof.
  intros (Hr & Hu & Hv) Hf Hs Hp Hl Hd. pose proof (pin_plain pin Hd Hl) as Hdig.
  destruct pin_refines as [Hget Hset]. unfold WpsPinCliCmdSet.
  apply runs_bind. unfold runs at 1. rewrite (count_pending s Hs), Hp. change (zlen [pin] =? 0) with false. cbv iota beta.
  apply runs_bind. apply (rest_of_one pin); [done|done|rewrite Hl; apply (word_fits 8); lia|]. intros t.
  rewrite Hd. cbn [negb]. apply runs_bind, runs_on.
  assert (Hset' : refines (apCfgDevicePinSet 0 0 pin) (fits (Some (s_cap pin_par)) (s_key pin_par)) (abs_sset pin_par pin)).
  { apply Hset; [apply digits_without; [by vm_compute|done]|]. intros _. unfold pair_fits, zlen. rewrite Hl. by vm_compute. }
  use_runs (Hset' (machine (set_token t s)) a Hr Hf). intros rc m [-> Hm].
  assert (E : (abs_sset pin_par pin a).1 = A_OK).
  { unfold abs_sset. cbn [s_ok pin_par]. unfold zlen. by rewrite Hl. }
  rewrite E. fold (with_pin pin a) in Hm. change (A_OK =? A_OK) with true. cbv iota beta.
  apply runs_bind, runs_ret. unfold says, text. apply runs_bind, runs_on.
  assert (Hf' : fits (Some (s_cap pin_par)) (s_key pin_par) (with_pin pin a)).
  { unfold fits. rewrite with_pin_stored by done. rewrite Hl. cbn. lia. }
  use_runs (Hget m (with_pin pin a) Hm Hf'). intros r m' [-> Hm']. cbn [abs_sget fst snd] in *.
  rewrite with_pin_stored by done. unfold printf, ok. by repeat runs_step.
Qed.

Lemma gen_line data s a :
  shows a s → urandom 7 = Some data → length data = 7%nat →
  runs (sccli_parser TcmdTbl ["gen_wps_pin" : cstr]) s (λ rc s', rc = CLI_PARSE_OK ∧
    acted s a (format "PIN Code: %s\n" [new_pin data] ++
               format "You may use 'set wps_pin' to assign it into device.\n" []) s').
Proof.
  intros Hs Hd Hl. apply line_runs.
  { repeat apply List.Forall_cons; [closed|apply List.Forall_nil]. }
  { repeat apply List.Forall_cons; [done|apply List.Forall_nil]. }
  { unfold line_length, CLI_INBUF. cbn. lia. }
  { cbn [length]. unfold MAX_TOKEN. lia. }
  intros s1 Hok Hp Ht Hm Hsc Hu Hv. unfold tokenParser, DEPTH.
  assert (Hs1 : shows a s1) by (by apply (shows_same a s)).
  eapply runs_mono; [apply (last_word_runs _ TcmdTbl s1 ("gen_wps_pin" : cstr) (Tok "gen_wps_pin" (Some ("Generate a new WPS PIN." : cstr)) (Do genWpsPinCmdHandler) None None 0)
    genWpsPinCmdHandler a (format "PIN Code: %s\n" [new_pin data] ++
      format "You may use 'set wps_pin' to assign it into device.\n" []));
    [find_word|by eexists|exact Hok|exact Hp|by apply (tables_fit []); [|cbn; lia]|done|vm_compute; lia|apply Hs1|]|].
  - intros s2 H1 H2 H3. unfold genWpsPinCmdHandler. apply runs_bind. unfold runs at 1.
    rewrite (generate_pin_new data) by done. unfold printf, ok. repeat runs_step. split; [done|].
    split; [by apply (shows_same a s1)|]. split; [done|]. cbn [screen print default]. by rewrite app_assoc.
  - intros rc s' [-> Ha]. split; [done|]. revert Ha. by apply acted_same.
Qed.

Lemma found_wps_pin :
  found TsetCmdTbl "wps_pin" (Tok "wps_pin" (Some ("Set WPS PIN" : cstr)) (Do WpsPinCliCmdSet) None None 0).
Proof. find_word. Qed.

Lemma pin_line pin s a :
  shows a s → fits (Some 9%nat) (s_key pin_par) a → length pin = 8%nat → IsValidWpsPin pin = true →
  runs (sccli_parser TcmdTbl ["set" : cstr; "wps_pin" : cstr; pin]) s (λ rc s', rc = CLI_PARSE_OK ∧
    acted s (with_pin pin a) (format "WPS PIN: %s\n" [pin]) s' ∧ committed (machine s')).
Proof.
  intros Hs Hf Hl Hd.
  assert (Hnul : nul_free pin) by (apply digits_without; [by vm_compute|by apply pin_plain]).
  apply set_line_runs.
  { repeat apply List.Forall_cons; [closed|done|apply List.Forall_nil]. }
  { repeat apply List.Forall_cons; [done|by destruct pin|apply List.Forall_nil]. }
  { change (line_length [("wps_pin" : cstr); pin]) with (8 + (S (length pin) + 0))%nat. lia. }
  { cbn [length]. lia. }
  intros s2 Hok2 Hp2 Ht2 Hm2 Hu2 Hv2.
  apply (parse_runs _ _ _ _ _ _ _ found_wps_pin Hok2 Hp2); [by apply (tables_fit [TcmdTbl]); [|cbn; lia]|done|apply (word_fits 7); lia|].
  intros s3 (Hok3 & Hp3 & Ht3 & Hm3 & Hsc3 & Hu3 & Hv3). cbn [fHandler run_handler].
  eapply runs_mono; [apply (pin_handler_runs pin _ a); [apply (shows_same a s); [congruence..|done]|done..]|].
  intros rc s' [-> Ha]. split; [done|]. revert Ha. by apply acted_same.
Qed.
End secret.
