(* ===== verification/CliTheorems.v ===== *)
(** * The command line: properties

    Which command a word is, which words of a line count, the room that help
    and the tables take, what the [get] commands leave as it was, the switches,
    and the WPS number. *)

From S2P Require Import Prelude CLib FileSys Utility Nvram NvramSpec NvramCorrect Sample CfgStore ApCfgWlan CfgRefine AplFlag CfgImpl CfgTheorems EditApCfg Cli CliServices CliRadio CliTable CliParser CliLookup CliLine CliSwitch CliSecret.

Section theorems.
Context {store : CfgStore sys} {laws : CfgStoreLaws sys} {host : Host} {console : Console} {claws : ConsoleLaws console}.

Lemma tables_cased t : t ≠ TopModeCmdTbl → cased (entries t) = true.
Proof. by destruct t; intros H; vm_compute. Qed.

Lemma lower_in_lower w : in_lower (map tolower w).
Proof. unfold in_lower. rewrite map_map. apply map_ext. intros c. apply tolower_twice. Qed.

(** C22: in every table of the command line but the one of the operation modes, the parser, which
    counts letters in common, takes the first entry with the highest count and compares again
    without regard to case, follows the plain rule for a word put in lower case: the entry that is the word, or else
    the first visible entry that the word begins, and no entry when there is none.  The
    operation modes ([opModeCmdTbl]) are left out because their capitals make a difference: [wdsb] runs
    [wdsBridge] by the count of letters, though no entry begins with it letter for letter. *)
Theorem words_resolved t w :
  t ≠ TopModeCmdTbl → w ≠ [] →
  (λ x, (x.1.2, x.2)) <$> chosen (map tolower w) (entries t) = resolve (map tolower w) (entries t).
Proof.
  intros Ht Hw. apply chosen_resolve; [by apply tables_cased|apply lower_in_lower|by destruct w].
Qed.

(** C33: a line of at most 512 bytes is parsed with its last fifty words, which
    are popped in their order; a longer line leaves the buffer. *)
Theorem line_words t argv s :
  Forall nul_free argv →
  ((line_length argv <= CLI_INBUF)%nat →
     ∃ s', sccli_parser t argv s = tokenParser t s' ∧ machine s' = machine s ∧ screen s' = screen s ∧
       ∃ s'', pop_all (S MAX_TOKEN) s' = Done (drop (length (words argv) - MAX_TOKEN) (words argv), s'')) ∧
  ((CLI_INBUF < line_length argv)%nat → sccli_parser t argv s = Fault).
Proof.
  intros Hn. split; [|apply parser_overruns]. intros Hl.
  destruct (parser_starts t argv s Hn Hl) as (s' & (Hok & Hp & _ & _ & Hm & Hs & _) & E).
  exists s'. split; [done|]. split; [done|]. split; [done|].
  destruct (pop_all_pending (S MAX_TOKEN) s' Hok) as [s'' E'].
  - rewrite Hp, length_drop. lia.
  - exists s''. by rewrite E', Hp.
Qed.

(** whatever is typed, help ends: it prints and changes nothing else, and
    no line it composes leaves its 132 bytes. *)
Theorem help_prints_only t e pFilter verbose :
  e ∈ entries t →
  prints (helpCmdScan (Some t) [] pFilter verbose) ∧
  prints (helpCmdScan (pNxtParseTbl e) (pCmd e) pFilter verbose) ∧
  prints (helpCmdScan (Some t) (pCmd e) pFilter verbose).
Proof.
  intros He. pose proof (entry_short t e He).
  split; [|split]; apply help_prints; [cbn; lia|done|done].
Qed.

(** the tables are four deep: no command takes the parser to a fifth, so
    that its recursion is bounded by the tables and not by the line. *)
Theorem parser_depth_enough fuel t s :
  (DEPTH <= fuel)%nat → sccli_tokenParser fuel t s = tokenParser t s.
Proof. intros Hf. pose proof (rank_le t). apply parser_fuel; unfold DEPTH in *; lia. Qed.

(** C23: a line of at most fifty words that begins with [get], whatever
    follows, leaves the configuration as it was. *)
Theorem get_changes_nothing args s a rc s' :
  Forall nul_free args → (length (words args) < MAX_TOKEN)%nat → shows a s →
  sccli_parser TcmdTbl (("get" : cstr) :: args) s = Done (rc, s') → shows a s'.
Proof.
  intros Hn Hl Hs E. assert (Hn' : Forall nul_free (("get" : cstr) :: args)) by (apply List.Forall_cons; [closed|done]).
  destruct (Nat.le_gt_cases (line_length (("get" : cstr) :: args)) CLI_INBUF) as [Hi|Hi];
    [|by rewrite parser_overruns in E].
  destruct (parser_starts TcmdTbl _ s Hn' Hi) as (s1 & (Hok & Hp & Ht & _ & Hm & _ & Hu & Hv & _) & E1).
  rewrite E1 in E. change (words (("get" : cstr) :: args)) with (("get" : cstr) :: words args) in Hp.
  cbn [length] in Hp. replace (S (length (words args)) - MAX_TOKEN)%nat with 0%nat in Hp by lia. rewrite drop_0 in Hp.
  destruct (found_step 3 _ s1 _ _ _ found_get Hok Hp) as (s2 & Hst & E2);
    [by apply (tables_fit []); [|cbn; lia]|done|by apply word_fits; cbn; lia|].
  unfold tokenParser, DEPTH in E. rewrite E2 in E. destruct Hst as (_ & _ & _ & Hm2 & _ & Hu2 & Hv2).
  assert (Hs2 : shows a s2) by (apply (shows_same a s); [congruence..|done]).
  revert E. apply keeps_bind; [|intros rc'; eapply (after_one_keeps _ TcmdTbl), found_elem, found_get|exact Hs2].
  cbn [fHandler pNxtParseTbl run_handler]. unfold genericCmdHandler.
  apply keeps_bind; [gets|intros n]. destruct (negb _); [|gets]. by apply parser_keeps.
Qed.

(** C16: nineteen [set] and [get] commands are a board of switches: typing any
    lines of them prints what the board of the abstract configuration prints
    and leaves the machine representing that configuration; when the last line
    is a [set], the configuration is also committed: loading the partition, as a
    boot does, brings the shadow file back as it is then, whatever happened to
    the files, provided it fits the partition behind the header; a switch that
    was turned reads as it was turned, no other value changes, and no two
    switches share a value. *)
Theorem console_switchboard ls s a :
  Forall line_ok ls → shows a s →
  runs (each ls typed) s (λ _ s', shows (abs_lines (vap_ s) ls a).2 s' ∧
    screen s' = screen s ++ (abs_lines (vap_ s) ls a).1 ∧
    ∀ sw on, last ls = Some (Turn sw on) → committed (machine s')) ∧
  (∀ sw on b, sw ∈ switches → switch_reads sw (vap_ s) (turned sw (vap_ s) on b) = boolZ on ∧
     ∀ k, k ≠ sw_key sw (vap_ s) → safe (turned sw (vap_ s) on b) k = safe b k) ∧
  NoDup (map (λ sw, sw_key sw (vap_ s)) switches).
Proof.
  intros Hl Hs. split; [|split].
  - use_runs (switch_session_runs ls s a Hl Hs). by intros _ s' [(H1 & _ & H2) H3].
  - intros sw on b Hin. split; [by apply turned_reads|]. intros k Hk. by apply turned_other.
  - apply keys_apart. apply Hs.
Qed.

(** C39: [gen_wps_pin] prints eight digits whose checksum is right, and [set
    wps_pin] with these digits is accepted, stores them and commits: the
    configuration reads them back, and a load of the partition restores it. *)
Theorem wps_pin_accepted data s a :
  shows a s → (length (safe a (s_key pin_par)) < 9)%nat → urandom 7 = Some data → length data = 7%nat →
  ∃ pin, length pin = 8%nat ∧ IsValidWpsPin pin = true ∧
    runs (sccli_parser TcmdTbl ["gen_wps_pin" : cstr]) s (λ rc s1, rc = CLI_PARSE_OK ∧
      screen s1 = screen s ++ format "PIN Code: %s\n" [pin] ++
                  format "You may use 'set wps_pin' to assign it into device.\n" [] ∧
      runs (sccli_parser TcmdTbl ["set" : cstr; "wps_pin" : cstr; pin]) s1 (λ rc s2, rc = CLI_PARSE_OK ∧
        screen s2 = screen s1 ++ format "WPS PIN: %s\n" [pin] ∧
        shows (with_pin pin a) s2 ∧ committed (machine s2))) ∧
    safe (with_pin pin a) (s_key pin_par) = pin.
Proof.
  intros Hs Hf Hu Hl. destruct (new_pin_valid data Hl) as [H8 Hv]. exists (new_pin data).
  split; [done|]. split; [done|]. split.
  - use_runs (gen_line data s a Hs Hu Hl). intros rc s1 [-> (Hs1 & _ & Hsc)]. split; [done|]. split; [done|].
    use_runs (pin_line (new_pin data) s1 a Hs1 Hf H8 Hv). by intros rc s2 (-> & (Hs2 & _ & Hsc2) & Hc2).
  - apply with_pin_stored; [done|]. by apply pin_plain.
Qed.
End theorems.

(** ** A console on the sample machine *)

Definition sample_host : Host := {| now := Tm 0 0 0 1 0 100 6; v6_text := λ s, s; libiconv := λ _ _ s, Some s |}.
(** The bytes that [/dev/urandom] gives count up. *)
Definition sample_console : Console := {|
  Cli.apcfg_submit := CfgImpl.apcfg_submit (dev := ideal_dev) 7;
  localtime := λ _, Tm 0 0 0 1 0 100 6;
  urandom := λ n, Some (map (λ i, chr (Z.of_nat (3 * i + 1))) (seq 0 n));
|}.

#[local] Existing Instances sample_store sample_laws sample_host sample_console.

(** The commit writes the partition and the log of commands. *)
Lemma submit_keeps (s : sys) a :
  sys_rep s a → runs (CfgImpl.apcfg_submit (dev := ideal_dev) 7) s (λ _ s', sys_rep s' a ∧ committed s').
Proof.
  intros Hr. unfold CfgImpl.apcfg_submit. apply runs_bind. use_runs (nvram_commit_committed 7 s).
  intros _ s' [Hc Hf]. apply runs_ret. split; [|done]. by apply (sys_rep_files s).
Qed.

Definition sample_console_laws : ConsoleLaws sample_console := submit_keeps.
#[local] Existing Instance sample_console_laws.

Definition terminal : cli := sccli_Init sample.
Lemma terminal_shows : shows sample_cfg terminal.
Proof. split; [exact sample_cfg_rep|]. split_and!; by vm_compute. Qed.

(** An abbreviation takes the first of the commands it begins. *)
Example words_resolved_witness :
  (λ x, (x.1.2, x.2)) <$> chosen (map tolower "LOGS") (entries TgetCmdTbl) = resolve (map tolower "LOGS") (entries TgetCmdTbl) ∧
  (λ x, pCmd x.1) <$> resolve (map tolower "LOGS") (entries TgetCmdTbl) = Some ("logsuccess" : cstr).
Proof.
  split; [|vm_compute; reflexivity].
  apply (words_resolved TgetCmdTbl "LOGS"); discriminate.
Defined.

(** With fifty-one words the first is lost. *)
Example line_words_witness :
  let argv := ("get" : cstr) :: ("set" : cstr) :: replicate 49 ("x" : cstr) in
  ∃ s', sccli_parser TcmdTbl argv terminal = tokenParser TcmdTbl s' ∧ machine s' = sample ∧ screen s' = [] ∧
    ∃ s'', pop_all (S MAX_TOKEN) s' = Done (("set" : cstr) :: replicate 49 ("x" : cstr), s'').
Proof.
  refine (proj1 (line_words TcmdTbl (("get" : cstr) :: ("set" : cstr) :: replicate 49 ("x" : cstr)) terminal _) _).
  - apply (bool_decide_unpack _). vm_compute. exact I.
  - apply (bool_decide_unpack _). vm_compute. exact I.
Defined.

Example help_prints_only_witness :
  prints (helpCmdScan (Some TcmdTbl) [] None 10) ∧
  prints (helpCmdScan (Some TsetCmdTbl) "set" None 10) ∧
  prints (helpCmdScan (Some TcmdTbl) "set" None 10).
Proof.
  refine (help_prints_only TcmdTbl (Tok "set" None GenericSet (Some TsetCmdTbl) None 0) None 10 _).
  destruct found_set as (i & _ & Hi). exact (list_elem_of_lookup_2 _ _ _ Hi).
Defined.

Example parser_depth_enough_witness : sccli_tokenParser 9 TcmdTbl terminal = tokenParser TcmdTbl terminal.
Proof. apply (parser_depth_enough 9 TcmdTbl terminal). unfold DEPTH. lia. Defined.

Example get_changes_nothing_witness :
  ∃ rc s', sccli_parser TcmdTbl ["get" : cstr; "ssh" : cstr] terminal = Done (rc, s') ∧ shows sample_cfg s'.
Proof.
  destruct (sccli_parser TcmdTbl ["get" : cstr; "ssh" : cstr] terminal) as [[rc s']| |] eqn:E.
  - exists rc, s'. split; [reflexivity|].
    refine (get_changes_nothing ["ssh" : cstr] terminal sample_cfg rc s' _ _ terminal_shows E).
    + apply (bool_decide_unpack _). vm_compute. exact I.
    + apply (bool_decide_unpack _). vm_compute. exact I.
  - vm_compute in E. discriminate E.
  - vm_compute in E. discriminate E.
Defined.

(** Three lines; two of them on SSH. *)
Definition ssh_switch : switch := nth 13 switches (hd (Switch [] (λ _ _, mret 0) (λ _, mret 0) (λ _, []) (λ _ a, a) [] []) switches).
Definition sample_lines : list line := [Turn ssh_switch true; Ask ssh_switch; Turn ssh_switch false].

Lemma ssh_is_switch : ssh_switch ∈ switches.
Proof. apply (list_elem_of_lookup_2 _ 13). reflexivity. Qed.

Example console_switchboard_witness :
  (abs_lines 0 sample_lines sample_cfg).1 =
    ("SSH: enabled" ++ nl :: "SSH Mode: enabled" ++ nl :: "SSH: disabled" ++ [nl] : cstr) ∧
  runs (each sample_lines typed) terminal (λ _ s', shows (abs_lines 0 sample_lines sample_cfg).2 s' ∧
    screen s' = (abs_lines 0 sample_lines sample_cfg).1 ∧
    ∀ sw on, last sample_lines = Some (Turn sw on) → committed (machine s')).
Proof.
  split; [vm_compute; reflexivity|].
  refine (proj1 (console_switchboard sample_lines terminal sample_cfg _ terminal_shows)).
  repeat apply List.Forall_cons; [exact ssh_is_switch|exact ssh_is_switch|exact ssh_is_switch|apply List.Forall_nil].
Defined.

Example wps_pin_accepted_witness :
  ∃ pin, length pin = 8%nat ∧ IsValidWpsPin pin = true ∧
    runs (sccli_parser TcmdTbl ["gen_wps_pin" : cstr]) terminal (λ rc s1, rc = CLI_PARSE_OK ∧
      screen s1 = screen terminal ++ format "PIN Code: %s\n" [pin] ++
                  format "You may use 'set wps_pin' to assign it into device.\n" [] ∧
      runs (sccli_parser TcmdTbl ["set" : cstr; "wps_pin" : cstr; pin]) s1 (λ rc s2, rc = CLI_PARSE_OK ∧
        screen s2 = screen s1 ++ format "WPS PIN: %s\n" [pin] ∧
        shows (with_pin pin sample_cfg) s2 ∧ committed (machine s2))) ∧
    safe (with_pin pin sample_cfg) (s_key pin_par) = pin.
Proof.
  refine (wps_pin_accepted (map (λ i, chr (Z.of_nat (3 * i + 1))) (seq 0 7)) terminal sample_cfg terminal_shows _ eq_refl eq_refl).
  apply (bool_decide_unpack _). vm_compute. exact I.
Defined.
