(* ===== verification/WebText.v ===== *)
(** * The texts of the web server (mini_httpd-1.17beta1)

    Patterns, decoders, lines and tables; the names of files. *)

From S2P Require Import Prelude CLib Utility CfgStore ApCfgLists.

(** * The text routines of the web server (mini_httpd-1.17beta1)

    The file name matcher of [match.c]; the decoders of URLs, cookies and
    base 64, the reading of a request line, the table lookup for content types
    and the test for a password of [mini_httpd.c].  Characters are signed on
    the target, so a byte from 128 on is a negative index of a table. *)

(** [strstr(s, lit) != NULL], and the text from the first occurrence on. *)
Definition has (lit s : cstr) : bool := bool_decide (is_Some (strstr lit s)).
Definition from_first (lit s : cstr) : option cstr := (λ i, drop i s) <$> strstr lit s.

(** The value of a [char]. *)
Definition schar (c : ascii) : Z := if code c <? 128 then code c else code c - 256.

(** ** match.c *)

Fixpoint match_one (p s : cstr) : bool :=
  match p with
  | [] => bool_decide (s = [])
  | c :: p1 =>
      if decide (c = "?"%char) then
        match s with _ :: s' => match_one p1 s' | [] => false end
      else if decide (c = "*"%char) then
        match p1 with
        | d :: p2 =>
            if decide (d = "*"%char) then
              existsb (λ i, match_one p2 (drop i s)) (rev (seq 0 (S (length s))))
            else
              existsb (λ i, match_one p1 (drop i s))
                (rev (seq 0 (S (length (span_until ["/"%char] s).1))))
        | [] =>
            existsb (λ i, match_one p1 (drop i s))
              (rev (seq 0 (S (length (span_until ["/"%char] s).1))))
        end
      else match s with
           | d :: s' => if decide (c = d) then match_one p1 s' else false
           | [] => false
           end
  end.

(** The parts of a text between occurrences of a character. *)
Fixpoint split_on (d : ascii) (s : cstr) : list cstr :=
  match s with
  | [] => [[]]
  | c :: s' =>
      if decide (c = d) then [] :: split_on d s'
      else match split_on d s' with
           | w :: ws => (c :: w) :: ws
           | [] => [[c]]
           end
  end.

(** [match] (a keyword here) *)
Definition match_ (pattern string : cstr) : bool :=
  existsb (λ p, match_one p string) (split_on "|" pattern).

(** ** URLs *)

Definition isxdigit (c : ascii) : bool :=
  isdigit c || ((65 <=? code c) && (code c <=? 70)) || ((97 <=? code c) && (code c <=? 102)).

Definition hexit (c : ascii) : Z :=
  if isdigit c then code c - 48
  else if (97 <=? code c) && (code c <=? 102) then code c - 97 + 10
  else if (65 <=? code c) && (code c <=? 70) then code c - 65 + 10
  else 0.

Fixpoint strdecode_go (from : cstr) : bytes :=
  match from with
  | [] => []
  | c :: r =>
      match r with
      | a :: b :: r' =>
          if bool_decide (c = "%"%char) && isxdigit a && isxdigit b
          then chr (hexit a * 16 + hexit b) :: strdecode_go r'
          else c :: strdecode_go r
      | _ => c :: strdecode_go r
      end
  end.
(** What is written may hold a zero byte, which ends the text. *)
Definition strdecode (from : cstr) : cstr := cut_nul (strdecode_go from).

(** ** Cookies *)

Definition unhex (c : ascii) : Z :=
  if isdigit c then code c - 48
  else if (65 <=? code c) && (code c <=? 70) then code c - 65 + 10
  else schar c - 97 + 10.

Definition put (m : bytes) (i : nat) (c : ascii) : outcome bytes :=
  if decide (i < length m)%nat then Done (<[i := c]> m) else Fault.

(** In place in the buffer [m], reading at [s] and writing at [p].  Behind a
    percent sign two characters are skipped whatever they are, the terminator
    included. *)
Fixpoint unescape_loop (fuel : nat) (m : bytes) (p s : nat) : outcome bytes :=
  match fuel with
  | O => Stuck
  | S fuel =>
      c ← at_buf m s;
      if decide (c = NUL) then put m p NUL
      else if decide (c = "%"%char) then
        h ← at_buf m (s + 1);
        m ← (if decide (h = NUL) then Done m else put m p (chr (unhex h * 16)));
        l ← at_buf m (s + 2);
        if decide (l = NUL) then unescape_loop fuel m p (s + 3)
        else
          o ← at_buf m p;
          m ← put m p (chr (code o + unhex l));
          unescape_loop fuel m (S p) (s + 3)
      else
        m ← put m p c; unescape_loop fuel m (S p) (S s)
  end.
Definition nsldapi_hex_unescape (m : bytes) (s : nat) : outcome bytes :=
  unescape_loop (S (length m)) m s s.

(** ** Base 64 *)

Definition b64_decode_table : list Z :=
  replicate 43 (-1) ++ [62; -1; -1; -1; 63] ++ seqZ 52 10 ++ replicate 7 (-1) ++
  seqZ 0 26 ++ replicate 6 (-1) ++ seqZ 26 26 ++ replicate 133 (-1).

Definition b64_index (c : ascii) : outcome Z :=
  if schar c <? 0 then Fault
  else match b64_decode_table !! Z.to_nat (schar c) with Some d => Done d | None => Fault end.

(** The byte a digit completes, by the phase. *)
Definition b64_byte (phase prev_d d : Z) : option ascii :=
  if phase =? 1 then Some (chr (Z.lor (Z.shiftl prev_d 2) (Z.shiftr (Z.land d 48) 4)))
  else if phase =? 2 then Some (chr (Z.lor (Z.shiftl (Z.land prev_d 15) 4) (Z.shiftr (Z.land d 60) 2)))
  else if phase =? 3 then Some (chr (Z.lor (Z.shiftl (Z.land prev_d 3) 6) d))
  else None.

Fixpoint b64_loop (str : cstr) (phase prev_d : Z) (space : bytes) (size : nat) : outcome bytes :=
  match str with
  | [] => Done space
  | c :: str' =>
      d ← b64_index c;
      if d =? -1 then b64_loop str' phase prev_d space size
      else
        let space' := match b64_byte phase prev_d d with
                      | Some b => if decide (length space < size)%nat then space ++ [b] else space
                      | None => space
                      end in
        b64_loop str' ((phase + 1) mod 4) d space' size
  end.
Definition b64_decode (str : cstr) (size : nat) : outcome bytes := b64_loop str 0 0 [] size.

(** ** The lines of a request *)

(** The bytes up to a carriage return or a newline, and those behind it (and
    behind the newline that follows a carriage return). *)
Fixpoint request_line (r : bytes) : option (bytes * bytes) :=
  match r with
  | [] => None
  | c :: r' =>
      if decide (c = "010"%char) then Some ([], r')
      else if decide (c = "013"%char) then
        match r' with
        | d :: r'' => if decide (d = "010"%char) then Some ([], r'') else Some ([], r')
        | [] => Some ([], [])
        end
      else match request_line r' with
           | Some (l, rest) => Some (c :: l, rest)
           | None => None
           end
  end.

(** [p += strspn(p, ds)] is [skip_while]; [strpbrk] splits at the first. *)
Definition strpbrk (ds s : cstr) : option (cstr * cstr) :=
  let '(a, b) := span_until ds s in
  match b with [] => None | _ :: b' => Some (a, b') end.

(** [strrchr(s, c)]: the text before and the text behind the last [c]. *)
Fixpoint strrchr (c : ascii) (s : cstr) : option (cstr * cstr) :=
  match s with
  | [] => None
  | d :: s' =>
      match strrchr c s' with
      | Some (a, b) => Some (d :: a, b)
      | None => if decide (d = c) then Some ([], s') else None
      end
  end.

(** ** Content types *)

(** The sign of [strncasecmp(a, b, n)]. *)
Fixpoint strncasecmp (n : nat) (a b : cstr) : Z :=
  match n with
  | O => 0
  | S n' =>
      let x := code (tolower (hd NUL a)) in
      let y := code (tolower (hd NUL b)) in
      if x <? y then -1 else if y <? x then 1
      else if x =? 0 then 0 else strncasecmp n' (tail a) (tail b)
  end.

Definition text_plain : cstr := "text/plain; charset=%s".

(** The binary search over the sorted table of types. *)
Fixpoint type_search (fuel : nat) (tab : list (cstr * cstr)) (ext : cstr) (bot top : Z) : outcome cstr :=
  match fuel with
  | O => Stuck
  | S fuel =>
      if top <? bot then Done text_plain
      else
        let mid := (top + bot) / 2 in
        match tab !! Z.to_nat mid with
        | None => Fault
        | Some (e, v) =>
            let r := strncasecmp (length ext) ext e in
            if r <? 0 then type_search fuel tab ext bot (mid - 1)
            else if 0 <? r then type_search fuel tab ext (mid + 1) top
            else if (length ext <? length e)%nat then type_search fuel tab ext bot (mid - 1)
            else if (length e <? length ext)%nat then type_search fuel tab ext (mid + 1) top
            else Done v
        end
  end.

(** Adds the name of an encoding, as far as the buffer of [me_size] bytes goes. *)
Definition add_encoding (me_size : nat) (me v : cstr) : cstr :=
  let me := if negb (bool_decide (me = [])) && (length me + 1 <? me_size)%nat
            then me ++ [";"%char] else me in
  if (length me + length v <? me_size)%nat then me ++ v else me.

(** The encodings and the type of a name; an extension is peeled off as long as
    it is that of an encoding. *)
Fixpoint peel (fuel : nat) (enc_tab typ_tab : list (cstr * cstr)) (me_size : nat)
    (name me : cstr) : outcome (cstr * cstr) :=
  match fuel with
  | O => Stuck
  | S fuel =>
      match strrchr "." name with
      | None => Done (text_plain, me)
      | Some (before, ext) =>
          match find (λ e, bool_decide (length ext = length e.1) &&
                           (strncasecmp (length ext) ext e.1 =? 0)) enc_tab with
          | Some (_, v) => peel fuel enc_tab typ_tab me_size before (add_encoding me_size me v)
          | None =>
              t ← type_search (S (length typ_tab)) typ_tab ext 0 (zlen typ_tab - 1);
              Done (t, me)
          end
      end
  end.
Definition figure_mime (enc_tab typ_tab : list (cstr * cstr)) (name : cstr) (me_size : nat) :
    outcome (cstr * cstr) :=
  peel (S (length name)) enc_tab typ_tab me_size name [].

(** ** The password file *)

(** [line] is a pointer, so [fgets(line, sizeof(line), fp)] reads pieces of at
    most three characters. *)
Definition LINE_SIZE : nat := 4.

Definition nuke_newline (line : cstr) : outcome cstr :=
  match last line with
  | None => Fault
  | Some c => Done (if decide (c = "010"%char) then take (length line - 1) line else line)
  end.

Fixpoint need_loop (fuel : nat) (data : bytes) : outcome bool :=
  match fuel with
  | O => Stuck
  | S fuel =>
      match fgets LINE_SIZE data with
      | None => Done false
      | Some (line, rest) =>
          line ← nuke_newline line;
          if bool_decide (":"%char ∈ (line : cstr)) && (1 <? length (line : cstr))%nat then Done true
          else need_loop fuel rest
      end
  end.
(** [needPassword] on the contents of the file, if it can be opened. *)
Definition needPassword (file : option bytes) : outcome bool :=
  match file with None => Done false | Some data => need_loop (S (length data)) data end.

(** * The name of the file a request asks for (mini_httpd.c)

    [de_dotdot], one function for each of its loops, and [get_pathinfo]; and
    what they mean for the directories a name leads through.  The [strcpy]s of
    the source move a tail of the text towards its front within the same
    object, which is taken as the copy from front to back that the C library
    does. *)

(** ** de_dotdot *)

Abbreviation slash := ("/"%char).

(** Collapses multiple slashes. *)
Fixpoint collapse (fuel : nat) (file : cstr) : outcome cstr :=
  match fuel with
  | O => Stuck
  | S fuel =>
      match strstr "//" file with
      | None => Done file
      | Some cp => collapse fuel (take (cp + 1) file ++ skip_while [slash] (drop (cp + 2) file))
      end
  end.

(** Removes leading [./]. *)
Fixpoint lead_dots (fuel : nat) (file : cstr) : outcome cstr :=
  match fuel with
  | O => Stuck
  | S fuel => if starts "./" file then lead_dots fuel (drop 2 file) else Done file
  end.

(** Removes [/./] sequences. *)
Fixpoint inner_dots (fuel : nat) (file : cstr) : outcome cstr :=
  match fuel with
  | O => Stuck
  | S fuel =>
      match strstr "/./" file with
      | None => Done file
      | Some cp => inner_dots fuel (take cp file ++ drop (cp + 2) file)
      end
  end.

(** The text up to and with the last slash before [cp]. *)
Definition up_to_slash (file : cstr) (cp : nat) : cstr :=
  match strrchr slash (take cp file) with Some (a, _) => a ++ [slash] | None => [] end.

(** Alternates between removing leading [../] and removing [xxx/../]. *)
Fixpoint up_dirs (fuel : nat) (file : cstr) : outcome cstr :=
  match fuel with
  | O => Stuck
  | S fuel =>
      if starts "../" file then up_dirs fuel (drop 3 file)
      else match strstr "/../" file with
           | None => Done file
           | Some cp => up_dirs fuel (up_to_slash file cp ++ drop (cp + 4) file)
           end
  end.

(** Elides any [xxx/..] at the end. *)
Fixpoint end_dirs (fuel : nat) (file : cstr) : outcome cstr :=
  match fuel with
  | O => Stuck
  | S fuel =>
      let l := length file in
      if (3 <? l)%nat && bool_decide (drop (l - 3) file = "/.."%string) then
        match strrchr slash (take (l - 3) file) with
        | None => Done file
        | Some (a, _) => end_dirs fuel a
        end
      else Done file
  end.

Definition de_dotdot (file : cstr) : outcome cstr :=
  file ← collapse (S (length file)) file;
  file ← lead_dots (S (length (file : cstr))) file;
  file ← inner_dots (S (length (file : cstr))) file;
  file ← up_dirs (S (length (file : cstr))) file;
  end_dirs (S (length (file : cstr))) file.

(** The name is refused as illegal. *)
Definition illegal_name (file : cstr) : bool :=
  bool_decide (ch file 0 = slash) ||
  (bool_decide (ch file 0 = "."%char) && bool_decide (ch file 1 = "."%char) &&
   (bool_decide (ch file 2 = NUL) || bool_decide (ch file 2 = slash))).

(** ** get_pathinfo

    Looks for the longest front of the name, up to a slash, that exists; the
    rest is the path information.  [n] characters are left to look at. *)
Fixpoint pathinfo_loop {A} (stat : cstr → option A) (file : cstr) (n : nat) : option (cstr * cstr * A) :=
  match n with
  | O => None
  | S i =>
      if decide (i = O) then None
      else if decide (ch file i = slash) then
        match stat (take i file) with
        | Some sb => Some (take i file, drop (S i) file, sb)
        | None => pathinfo_loop stat file i
        end
      else pathinfo_loop stat file i
  end.
Definition get_pathinfo {A} (stat : cstr → option A) (file : cstr) : option (cstr * cstr * A) :=
  pathinfo_loop stat file (length file).

(** ** What a name means *)

(** The directories from the root that a list of names leads through; above the
    root there is nothing. *)
Fixpoint walk (stack : list cstr) (names : list cstr) : list cstr :=
  match names with
  | [] => stack
  | x :: names =>
      if decide (x = [] ∨ x = ["."%char]) then walk stack names
      else if decide (x = [".";"."]%char) then walk (tail stack) names
      else walk (x :: stack) names
  end.
Definition resolve (file : cstr) : list cstr := walk [] (split_on slash file).

(** On the way the root is left. *)
Fixpoint climbs (depth : nat) (names : list cstr) : bool :=
  match names with
  | [] => false
  | x :: names =>
      if decide (x = [] ∨ x = ["."%char]) then climbs depth names
      else if decide (x = [".";"."]%char) then
        match depth with O => true | S d => climbs d names end
      else climbs (S depth) names
  end.
