(* ===== verification/WebTextCorrect.v ===== *)
(** * Lemmas about the texts of the web server

    What the name of a file means, what a pattern means, and when the file of
    passwords asks for a password. *)

From S2P Require Import Prelude CLib Utility CfgStore ApCfgLists WebText.

(** * Names stay below the root of the web server

    [de_dotdot] ends, keeps where a name leads ([resolve]), and what it leaves
    either is refused or never climbs above the root ([climbs]). *)

(** ** Occurrences *)

Definition infix (p s : cstr) : Prop := ∃ a b, s = a ++ p ++ b.

Lemma take_prefix (p s : cstr) : take (length p) s = p → ∃ b, s = p ++ b.
Proof. intros H. exists (drop (length p) s). rewrite <- H at 1. by rewrite take_drop. Qed.

Lemma take_at {A} (a s : list A) k : take (length a + k) (a ++ s) = a ++ take k s.
Proof. induction a as [|x a IH]; cbn; [done|by rewrite IH]. Qed.
Lemma drop_at {A} (a s : list A) k : drop (length a + k) (a ++ s) = drop k s.
Proof. by induction a. Qed.

(** The first occurrence. *)
Lemma strstr_some p s i :
  strstr p s = Some i →
  ∃ a b, s = a ++ p ++ b ∧ i = length a ∧
    ∀ a' b', s = a' ++ p ++ b' → (length a <= length a')%nat.
Proof.
  revert i. induction s as [|c s IH]; intros i; cbn [strstr]; case_bool_decide as E; try done.
  1,2: intros [= <-]; apply take_prefix in E as (b & E); exists [], b; cbn [app length];
    split_and!; [done|done|lia].
  destruct (strstr p s) as [j|] eqn:Ej; [|done]. intros [= <-].
  destruct (IH j eq_refl) as (a & b & -> & -> & H). exists (c :: a), b.
  split_and!; [done|done|]. intros [|c' a'] b' H'.
  - exfalso. apply E. cbn [app] in H'. rewrite H'. apply take_app_length.
  - injection H' as -> H'. cbn [length]. specialize (H _ _ H'). lia.
Qed.

Lemma strstr_none p s : strstr p s = None → ¬ infix p s.
Proof.
  induction s as [|c s IH]; cbn [strstr]; case_bool_decide as E; try done.
  - intros _ (a & b & H). apply E. symmetry in H. apply app_eq_nil in H as [_ H].
    rewrite <- H. apply take_app_length.
  - destruct (strstr p s) eqn:Es; [done|]. intros _ (a & b & H).
    destruct a as [|c' a].
    + apply E. cbn [app] in H. rewrite H. apply take_app_length.
    + injection H as -> H. apply (IH eq_refl). by exists a, b.
Qed.

Lemma strrchr_some c s a b : strrchr c s = Some (a, b) → s = a ++ c :: b ∧ c ∉ b.
Proof.
  revert a b. induction s as [|d s IH]; intros a b; cbn [strrchr]; [done|].
  destruct (strrchr c s) as [[a' b']|] eqn:E.
  - intros [= <- <-]. destruct (IH _ _ eq_refl) as [-> ?]. done.
  - destruct (decide (d = c)) as [->|]; [|done]. intros [= <- <-]. split; [done|].
    clear IH. induction s as [|d s IH]; [apply not_elem_of_nil|]. cbn [strrchr] in E.
    destruct (strrchr c s) as [[??]|]; [done|]. destruct (decide (d = c)); [done|].
    apply not_elem_of_cons. split; [done|auto].
Qed.

Lemma strrchr_none c s : strrchr c s = None → c ∉ s.
Proof.
  induction s as [|d s IH]; [intros _; apply not_elem_of_nil|]. cbn [strrchr].
  destruct (strrchr c s) as [[??]|]; [done|]. destruct (decide (d = c)); [done|].
  intros _. apply not_elem_of_cons. split; [done|auto].
Qed.

Lemma starts_prefix lit s : starts lit s = true → ∃ b, s = lit ++ b.
Proof. intros E%bool_decide_eq_true. by apply take_prefix. Qed.

Lemma starts_app lit s : starts lit (lit ++ s) = true.
Proof. unfold starts. apply bool_decide_eq_true. apply take_app_length. Qed.

Lemma starts_front lit a s : starts lit (a ++ s) = false → starts lit a = false.
Proof.
  intros H. destruct (starts lit a) eqn:E; [|done]. apply starts_prefix in E as [b ->].
  by rewrite <- app_assoc, starts_app in H.
Qed.

(** ** Parts of a name *)

Lemma split_on_nonempty d s : split_on d s ≠ [].
Proof. destruct s as [|c s]; [done|]. cbn [split_on]. destruct (decide (c = d)); [done|]. by case_match. Qed.

Lemma split_on_app d a b : split_on d (a ++ d :: b) = split_on d a ++ split_on d b.
Proof.
  induction a as [|c a IH]; cbn [app split_on]; [by rewrite decide_True|].
  rewrite IH. destruct (decide (c = d)); [done|].
  pose proof (split_on_nonempty d a). by destruct (split_on d a).
Qed.

Lemma split_on_free d s : d ∉ s → split_on d s = [s].
Proof.
  induction s as [|c s IH]; [done|]. intros [Hc Hs]%not_elem_of_cons. cbn [split_on].
  rewrite decide_False by done. by rewrite IH.
Qed.

(** The first part and the rest. *)
Lemma split_on_first (d : ascii) (s : cstr) :
  (d ∉ s) ∨ ∃ w b, s = w ++ d :: b ∧ d ∉ w.
Proof.
  induction s as [|c s [IH|(w & b & -> & Hw)]].
  - left. apply not_elem_of_nil.
  - destruct (decide (c = d)) as [->|].
    + right. exists [], s. split; [done|apply not_elem_of_nil].
    + left. apply not_elem_of_cons. split; [congruence|done].
  - right. destruct (decide (c = d)) as [->|].
    + exists [], (w ++ d :: b). split; [done|apply not_elem_of_nil].
    + exists (c :: w), b. split; [done|]. apply not_elem_of_cons. split; [congruence|done].
Qed.

(** A part is between slashes, or the ends. *)
Lemma elem_of_split d s x :
  x ∈ split_on d s →
  ∃ a b, s = a ++ x ++ b ∧ (a = [] ∨ ∃ a', a = a' ++ [d]) ∧ (b = [] ∨ ∃ b', b = d :: b').
Proof.
  remember (length s) as n eqn:En. assert (length s <= n)%nat as Hn by lia. clear En.
  revert s Hn. induction n as [|n IH]; intros s Hn Hx;
    destruct (split_on_first d s) as [Hs|(w & b & -> & Hw)].
  1,3: rewrite split_on_free in Hx by done; apply list_elem_of_singleton in Hx as ->;
    exists [], []; rewrite app_nil_r; eauto.
  - rewrite length_app in Hn. cbn in Hn. lia.
  - rewrite split_on_app, split_on_free in Hx by done.
    rewrite length_app in Hn. cbn [length] in Hn.
    apply elem_of_cons in Hx as [->|Hx].
    + exists [], (d :: b). split; [done|]. split; [by left|right; by exists b].
    + destruct (IH b ltac:(lia) Hx) as (a1 & b1 & -> & Ha & Hb).
      exists (w ++ d :: a1), b1. rewrite <- app_assoc. split; [done|]. split; [|done].
      right. destruct Ha as [->|[a' ->]]; [by exists w|].
      exists (w ++ d :: a'). by rewrite <- app_assoc.
Qed.

(** ** Cutting a name

    Each loop replaces the name by [u ++ B], where [B] stands behind a slash of
    the name, and [u] is nothing or a front of the name that ends in a slash. *)

Definition cut (u B f : cstr) : Prop :=
  (∃ v, f = v ++ slash :: B) ∧ (u = [] ∨ ∃ a c, u = a ++ [slash] ∧ f = u ++ c).

Lemma infix_r p a b : infix p b → infix p (a ++ b).
Proof. intros (x & y & ->). exists (a ++ x), y. by rewrite app_assoc. Qed.
Lemma infix_l p a b : infix p a → infix p (a ++ b).
Proof. intros (x & y & ->). exists x, (y ++ b). by rewrite <- !app_assoc. Qed.

(** An occurrence lies to one side of the cut, or across it. *)
Lemma infix_app p a b :
  infix p (a ++ b) →
  infix p a ∨ infix p b ∨
  ∃ k k' x y, p = k ++ k' ∧ k ≠ [] ∧ k' ≠ [] ∧ a = x ++ k ∧ b = k' ++ y.
Proof.
  intros (x & y & [(k & -> & E)|(k & -> & ->)]%app_eq_inv).
  - symmetry in E. apply app_eq_inv in E as [(k' & -> & ->)|(k' & -> & ->)].
    + left. by exists x, k'.
    + destruct k as [|c k]; [right; left; by exists [], y|].
      destruct k' as [|c' k']; [left; exists x, []; by rewrite !app_nil_r|].
      right. right. by exists (c :: k), (c' :: k'), x, y.
  - right. left. by exists k, y.
Qed.

Lemma cut_infix p u B f :
  cut u B f →
  (∀ k k', p = k ++ k' → k ≠ [] → k' ≠ [] → last k = Some slash → p = slash :: k') →
  infix p (u ++ B) → infix p f.
Proof.
  intros [[v ->] Hu] Hp [H|[H|(k & k' & x & y & Ek & Hk & Hk' & Ea & Eb)]]%infix_app.
  - destruct Hu as [->|(a & c & -> & ->)]; [|by apply infix_l].
    destruct H as (x & y & E). symmetry in E. apply app_eq_nil in E as [_ [-> _]%app_eq_nil].
    by exists [], (v ++ slash :: B).
  - apply infix_r, (infix_r _ [slash]). done.
  - assert (last k = Some slash) as Hl.
    { destruct Hu as [->|(a & c & -> & _)].
      - symmetry in Ea. by apply app_eq_nil in Ea as [_ ->].
      - destruct (exists_last Hk) as (k0 & d & ->). rewrite app_assoc in Ea.
        apply app_inj_tail in Ea as [_ <-]. by rewrite last_snoc. }
    rewrite (Hp _ _ Ek Hk Hk' Hl), Eb. exists v, y. by rewrite <- app_comm_cons.
Qed.

Lemma cut_slashes u B f : cut u B f → infix "//" (u ++ B) → infix "//" f.
Proof.
  intros Hc. apply cut_infix; [done|]. intros k k' E Hk Hk' _.
  destruct k as [|? [|? [|? ?]]]; cbn in E; simplify_eq/=; done.
Qed.

Lemma cut_dots u B f : cut u B f → infix "/./" (u ++ B) → infix "/./" f.
Proof.
  intros Hc. apply cut_infix; [done|]. intros k k' E Hk Hk' Hl.
  destruct k as [|? [|? [|? [|? ?]]]]; cbn in E; simplify_eq/=; done.
Qed.

Lemma cut_start u B f :
  cut u B f → starts "./" (u ++ B) = true → starts "./" f = true ∨ infix "/./" f.
Proof.
  intros [[v ->] Hu] [b H]%starts_prefix. destruct Hu as [->|(a & c & -> & Ef)].
  - right. cbn [app] in H. rewrite H. by exists v, b.
  - left. rewrite Ef. destruct a as [|x [|y a]]; cbn in H |- *; simplify_eq/=; done.
Qed.

(** No doubled slash, and no [.] but at the end. *)
Definition tidy (f : cstr) : Prop :=
  ¬ infix "//" f ∧ ¬ infix "/./" f ∧ starts "./" f = false.

Lemma cut_tidy u B f : cut u B f → tidy f → tidy (u ++ B).
Proof.
  intros Hc (H1 & H2 & H3). split_and!.
  - by intros ?%(cut_slashes u B f).
  - by intros ?%(cut_dots u B f).
  - destruct (starts "./" (u ++ B)) eqn:E; [|done].
    destruct (cut_start u B f Hc E); [congruence|done].
Qed.

(** ** Where a name leads *)

Lemma walk_app st a b : walk st (a ++ b) = walk (walk st a) b.
Proof.
  revert st. induction a as [|x a IH]; intros st; [done|]. cbn [app walk].
  destruct (decide _); [done|]. by destruct (decide _).
Qed.

Lemma resolve_at a b : resolve (a ++ slash :: b) = walk (resolve a) (split_on slash b).
Proof. unfold resolve. by rewrite split_on_app, walk_app. Qed.

Lemma split_name x b : slash ∉ x → split_on slash (x ++ slash :: b) = x :: split_on slash b.
Proof. intros. by rewrite split_on_app, split_on_free. Qed.

Lemma walk_skip_slashes st b :
  walk st (split_on slash (skip_while [slash] b)) = walk st (split_on slash b).
Proof.
  induction b as [|c b IH]; [done|]. cbn [skip_while].
  destruct (decide (c ∈ [slash])) as [->%list_elem_of_singleton|]; [|done].
  rewrite IH. cbn [split_on]. rewrite decide_True by done. cbn [walk].
  by rewrite decide_True by auto.
Qed.

Lemma walk_name st x names :
  x ≠ [] → x ≠ ["."%char] → x ≠ [".";"."]%char → walk st (x :: [".";"."]%char :: names) = walk st names.
Proof.
  intros. cbn [walk]. rewrite decide_False by naive_solver. by rewrite decide_False by done.
Qed.

Lemma slash_dots : slash ∉ [".";"."]%char.
Proof. set_solver. Qed.

(** Above the root there is nothing. *)
Lemma walk_first x names : walk [] (x :: [".";"."]%char :: names) = walk [] names.
Proof. cbn [walk]. destruct (decide _); [done|]. by destruct (decide _). Qed.

(** ** The loops *)

(** Finds the first occurrence in a name and splits the name there. *)
Ltac find_first f E a b H :=
  destruct (strstr_some _ _ _ E) as (a & b & -> & -> & H); cbn [list_ascii_of_string] in *;
  rewrite ?take_at, ?drop_at, ?take_app_length, ?drop_0 in *; cbn [app take drop] in *;
  rewrite ?drop_0, ?length_app in *; cbn [length] in *.

Lemma collapse_ok fuel f :
  (length f < fuel)%nat →
  ∃ f', collapse fuel f = Done f' ∧ resolve f' = resolve f ∧ ¬ infix "//" f'.
Proof.
  revert f. induction fuel as [|fuel IH]; intros f Hf; [lia|]. cbn [collapse].
  destruct (strstr "//" f) as [i|] eqn:E; [|exists f; split_and!; [done..|by apply strstr_none]].
  find_first f E a b Hfirst. rewrite <- app_assoc. cbn [app].
  destruct (IH (a ++ slash :: skip_while [slash] b)) as (f' & H1 & H2 & H3).
  { rewrite length_app. cbn [length]. pose proof (skip_while_length [slash] b). lia. }
  exists f'. split_and!; [done| |done]. rewrite H2, !resolve_at, walk_skip_slashes.
  change ("/"%char :: b) with ([] ++ slash :: b). by rewrite split_on_app, walk_app.
Qed.

Lemma lead_dots_ok fuel f :
  (length f < fuel)%nat → ¬ infix "//" f →
  ∃ f', lead_dots fuel f = Done f' ∧ resolve f' = resolve f ∧ ¬ infix "//" f' ∧ starts "./" f' = false.
Proof.
  revert f. induction fuel as [|fuel IH]; intros f Hf Hs; [lia|]. cbn [lead_dots].
  destruct (starts "./" f) eqn:E; [|by exists f].
  apply starts_prefix in E as [b ->]. cbn [list_ascii_of_string app drop length] in *.
  destruct (IH b) as (f' & H1 & H2 & H3); [lia|..].
  - intros H. by apply Hs, (infix_r _ ["."; "/"]%char).
  - exists f'. split; [done|]. split; [|done]. by rewrite H2.
Qed.

Lemma inner_dots_ok fuel f :
  (length f < fuel)%nat → ¬ infix "//" f → starts "./" f = false →
  ∃ f', inner_dots fuel f = Done f' ∧ resolve f' = resolve f ∧ tidy f'.
Proof.
  revert f. induction fuel as [|fuel IH]; intros f Hf Hs Hd; [lia|]. cbn [inner_dots].
  destruct (strstr "/./" f) as [i|] eqn:E; [|exists f; split_and!; [done..|split_and!; auto using strstr_none]].
  find_first f E a b Hfirst.
  assert (cut (a ++ [slash]) b (a ++ "/"%char :: "."%char :: "/"%char :: b)) as Hc.
  { split; [exists (a ++ ["/"; "."]%char); by rewrite <- app_assoc|right].
    exists a, ("."%char :: "/"%char :: b). by rewrite <- app_assoc. }
  destruct (IH (a ++ slash :: b)) as (f' & H1 & H2 & H3).
  - rewrite length_app. cbn [length]. lia.
  - change (slash :: b) with ([slash] ++ b). rewrite app_assoc. by intros ?%(cut_slashes _ _ _ Hc).
  - (* a name that starts with a dot did so before *)
    destruct a as [|x [|y a]]; [done| |done]. cbn in Hd |- *. done.
  - exists f'. split_and!; [done| |done]. rewrite H2, !resolve_at.
    change ("."%char :: "/"%char :: b) with (["."%char] ++ slash :: b). by rewrite split_on_app, walk_app.
Qed.

(** The part in front of the first [/../] of a tidy name that does not start
    with [../] is a name of a directory, or the first part. *)
Lemma before_up a x b :
  slash ∉ x → tidy (a ++ slash :: x ++ "/../" ++ b) →
  (∀ a' b', a ++ slash :: x ++ "/../" ++ b = a' ++ "/../" ++ b' → (length (a ++ slash :: x) <= length a')%nat) →
  x ≠ [] ∧ x ≠ ["."%char] ∧ x ≠ [".";"."]%char.
Proof.
  intros Hx (H1 & H2 & _) Hfirst. split_and!; intros ->.
  - apply H1. by exists a, ("../" ++ b).
  - apply H2. by exists a, ("../" ++ b).
  - specialize (Hfirst a ("../" ++ b) eq_refl). rewrite length_app in Hfirst. cbn in Hfirst. lia.
Qed.

Lemma up_dirs_ok fuel f :
  (length f < fuel)%nat → tidy f →
  ∃ f', up_dirs fuel f = Done f' ∧ resolve f' = resolve f ∧ tidy f' ∧
    ¬ infix "/../" f' ∧ starts "../" f' = false.
Proof.
  revert f. induction fuel as [|fuel IH]; intros f Hf Ht; [lia|]. cbn [up_dirs].
  destruct (starts "../" f) eqn:E.
  { apply starts_prefix in E as [b ->]. cbn [list_ascii_of_string app drop length] in *.
    destruct (IH b) as (f' & H1 & H2 & H3); [lia| |].
    - apply (cut_tidy [] b _) in Ht; [done|]. split; [by exists [".";"."]%char|by left].
    - exists f'. split; [done|]. split; [by rewrite H2|done]. }
  destruct (strstr "/../" f) as [i|] eqn:E2; [|exists f; do 3 (split; [done|]); split; [by apply strstr_none|done]].
  find_first f E2 p b Hfirst. unfold up_to_slash. rewrite take_app_length.
  destruct (strrchr slash p) as [[a x]|] eqn:Ep.
  - apply strrchr_some in Ep as [-> Hx]. rewrite length_app in Hf. cbn [length] in Hf.
    rewrite <- app_assoc in Ht, Hfirst |- *. cbn [app] in *.
    destruct (before_up a x b Hx Ht) as (Hx1 & Hx2 & Hx3); [exact Hfirst|].
    destruct (IH (a ++ slash :: b)) as (f' & H1 & H2 & H3).
    + rewrite length_app. cbn [length]. lia.
    + change (slash :: b) with ([slash] ++ b). rewrite app_assoc. eapply cut_tidy, Ht.
      split; [exists (a ++ slash :: x ++ ["/";".";"."]%char)|right; exists a, (x ++ "/../" ++ b)].
      * by rewrite <- !app_assoc, <- app_comm_cons, <- app_assoc.
      * by rewrite <- app_assoc.
    + exists f'. rewrite <- app_assoc. split; [done|]. split; [|done]. rewrite H2. cbn [app]. rewrite !resolve_at.
      change ("."%char :: "."%char :: "/"%char :: b) with ([".";"."]%char ++ slash :: b).
      by rewrite !split_name, walk_name by (done || apply slash_dots).
  - apply strrchr_none in Ep. cbn [app].
    destruct (IH b) as (f' & H1 & H2 & H3); [lia| |].
    + eapply (cut_tidy [] b), Ht. split; [|by left]. exists (p ++ ["/";".";"."]%char). by rewrite <- app_assoc.
    + exists f'. split; [done|]. split; [|done]. rewrite H2. unfold resolve.
      change ("."%char :: "."%char :: "/"%char :: b) with ([".";"."]%char ++ slash :: b).
      rewrite !split_name by (done || apply slash_dots). symmetry. apply walk_first.
Qed.

Lemma end_dirs_ok fuel f :
  (length f < fuel)%nat → tidy f → ¬ infix "/../" f → starts "../" f = false →
  ∃ f', end_dirs fuel f = Done f' ∧ resolve f' = resolve f ∧ tidy f' ∧
    ¬ infix "/../" f' ∧ starts "../" f' = false ∧
    ∀ a, f' = a ++ "/.." → a = [] ∨ slash ∉ a.
Proof.
  revert f. induction fuel as [|fuel IH]; intros f Hf Ht Hi Hs; [lia|]. cbn [end_dirs].
  case_bool_decide as Ed; rewrite ?andb_false_r, ?andb_true_r.
  2: { exists f. do 5 (split; [done|]). intros a ->. exfalso. apply Ed.
    rewrite length_app, Nat.add_sub. apply drop_app_length. }
  assert (f = take (length f - 3) f ++ "/.."%string) as Ef by (by rewrite <- Ed, take_drop).
  set (p := take (length f - 3) f) in *. clearbody p. clear Ed. subst f.
  rewrite length_app in *. change (length (list_ascii_of_string "/..")) with 3%nat in *.
  destruct (Nat.ltb_spec 3 (length p + 3)) as [Hl|Hl].
  2: { exists (p ++ "/.."). do 5 (split; [done|]). intros a E%app_inv_tail. left. subst a.
    apply nil_length_inv. lia. }
  destruct (strrchr slash p) as [[a x]|] eqn:Ep.
  2: { exists (p ++ "/.."). do 5 (split; [done|]). intros a <-%app_inv_tail. right. by apply strrchr_none. }
  apply strrchr_some in Ep as [-> Hx]. rewrite <- app_assoc in *. cbn [app] in *.
  assert (x ≠ [] ∧ x ≠ ["."%char] ∧ x ≠ [".";"."]%char) as (Hx1 & Hx2 & Hx3).
  { destruct Ht as (H1 & H2 & _). split_and!; intros ->.
    - apply H1. by exists a, "..".
    - apply H2. by exists a, "..".
    - apply Hi. by exists a, "..". }
  destruct (IH a) as (f' & H1 & H2 & H3).
  - rewrite length_app in Hf. lia.
  - destruct Ht as (H1 & H2 & H3).
    split_and!; [intros H; by apply H1, infix_l|intros H; by apply H2, infix_l|].
    by apply starts_front in H3.
  - intros H. by apply Hi, infix_l.
  - by apply starts_front in Hs.
  - exists f'. split; [done|]. split; [|done]. rewrite H2, resolve_at.
    change (x ++ "/..") with (x ++ slash :: [".";"."]%char).
    by rewrite split_name, (split_on_free _ [_; _]), walk_name by (done || apply slash_dots).
Qed.

Lemma de_dotdot_ok f :
  ∃ f', de_dotdot f = Done f' ∧ resolve f' = resolve f ∧ tidy f' ∧
    ¬ infix "/../" f' ∧ starts "../" f' = false ∧
    ∀ a, f' = a ++ "/.." → a = [] ∨ slash ∉ a.
Proof.
  unfold de_dotdot.
  destruct (collapse_ok (S (length f)) f) as (f1 & E1 & R1 & H1); [lia|].
  destruct (lead_dots_ok (S (length f1)) f1) as (f2 & E2 & R2 & H2 & H2'); [lia|done|].
  destruct (inner_dots_ok (S (length f2)) f2) as (f3 & E3 & R3 & H3); [lia|done..|].
  destruct (up_dirs_ok (S (length f3)) f3) as (f4 & E4 & R4 & H4 & H5 & H6); [lia|done|].
  destruct (end_dirs_ok (S (length f4)) f4) as (f5 & E5 & R5 & H7); [lia|done..|].
  exists f5. unfold mbind, outcome_bind. rewrite E1, E2, E3, E4.
  split; [done|]. split; [congruence|done].
Qed.

(** ** What is left does not climb *)

(** A list of names climbs only through [..]. *)
Lemma climbs_up n names : climbs n names = true → [".";"."]%char ∈ names.
Proof.
  revert n. induction names as [|x names IH]; intros n; cbn [climbs]; [done|].
  destruct (decide _); [intros ?%IH; by apply list_elem_of_further|].
  destruct (decide (x = _)) as [->|]; [intros _; apply list_elem_of_here|].
  intros ?%IH. by apply list_elem_of_further.
Qed.

Lemma legal_start f :
  illegal_name f = false → (∀ b, f ≠ slash :: b) ∧ f ≠ ".." ∧ ∀ b, f ≠ "../" ++ b.
Proof.
  unfold illegal_name. intros H. split; [|split]; [intros b ->|intros ->|intros b ->]; done.
Qed.

Lemma stays_below f :
  tidy f → ¬ infix "/../" f → starts "../" f = false →
  (∀ a, f = a ++ "/.." → a = [] ∨ slash ∉ a) → illegal_name f = false →
  climbs 0 (split_on slash f) = false.
Proof.
  intros (_ & _ & Hd) Hi Hs He (L1 & L2 & L3)%legal_start.
  destruct (climbs 0 _) eqn:E; [|done].
  destruct (elem_of_split _ _ _ (climbs_up _ _ E)) as (a & b & Ef & Ha & Hb).
  destruct Ha as [->|[a' ->]], Hb as [->|[b' ->]].
  - by destruct L2.
  - by destruct (L3 b').
  - rewrite app_nil_r, <- app_assoc in Ef. destruct (He a' Ef) as [->|Ha].
    { by destruct (L1 ".."). }
    exfalso. revert E. rewrite Ef. cbn [app]. rewrite split_on_app, !split_on_free by (done || apply slash_dots).
    cbn [app climbs]. subst f. cbn [app] in *.
    destruct (decide _) as [[->| ->]|]; [by destruct (L1 "..")|done|].
    destruct (decide (a' = _)) as [->|]; [done|]. by vm_compute.
  - destruct Hi. exists a', b'. by rewrite Ef, <- app_assoc.
Qed.

(** ** Shorter names *)

Lemma skip_while_app ds (s : cstr) : ∃ t, s = t ++ skip_while ds s ∧ Forall (λ c, c ∈ ds) t.
Proof.
  induction s as [|c s (t & E & Ht)]; [by exists []|]. cbn [skip_while].
  destruct (decide (c ∈ ds)); [|by exists []]. exists (c :: t). rewrite E at 1. split; [done|by constructor].
Qed.

Lemma collapse_shorter fuel f f' : collapse fuel f = Done f' → (length f' <= length f)%nat.
Proof.
  revert f. induction fuel as [|fuel IH]; intros f; cbn [collapse]; [done|].
  destruct (strstr "//" f) as [i|] eqn:E; [|by intros [= ->]]. intros H%IH.
  find_first f E a b Hf. pose proof (skip_while_length [slash] b).
  rewrite ?length_app in H. cbn [length] in *. lia.
Qed.
Lemma lead_dots_shorter fuel f f' : lead_dots fuel f = Done f' → (length f' <= length f)%nat.
Proof.
  revert f. induction fuel as [|fuel IH]; intros f; cbn [lead_dots]; [done|].
  destruct (starts _ f); [|by intros [= ->]]. intros H%IH. rewrite length_drop in H. lia.
Qed.
Lemma inner_dots_shorter fuel f f' : inner_dots fuel f = Done f' → (length f' <= length f)%nat.
Proof.
  revert f. induction fuel as [|fuel IH]; intros f; cbn [inner_dots]; [done|].
  destruct (strstr "/./" f) as [i|] eqn:E; [|by intros [= ->]]. intros H%IH.
  find_first f E a b Hf. lia.
Qed.
Lemma up_to_slash_shorter f i : (length (up_to_slash f i) <= length (take i f))%nat.
Proof.
  unfold up_to_slash. destruct (strrchr slash (take i f)) as [[a x]|] eqn:E; [|cbn; lia].
  apply strrchr_some in E as [-> _]. rewrite !length_app. cbn. lia.
Qed.
Lemma up_dirs_shorter fuel f f' : up_dirs fuel f = Done f' → (length f' <= length f)%nat.
Proof.
  revert f. induction fuel as [|fuel IH]; intros f; cbn [up_dirs]; [done|].
  destruct (starts _ f); [intros H%IH; rewrite length_drop in H; lia|].
  destruct (strstr "/../" f) as [i|] eqn:E; [|by intros [= ->]]. intros H%IH.
  rewrite length_app, length_drop in H. pose proof (up_to_slash_shorter f i) as Hu.
  rewrite length_take in Hu. lia.
Qed.
Lemma end_dirs_shorter fuel f f' : end_dirs fuel f = Done f' → (length f' <= length f)%nat.
Proof.
  revert f. induction fuel as [|fuel IH]; intros f; cbn [end_dirs]; [done|].
  destruct (_ && _); [|by intros [= ->]].
  destruct (strrchr slash _) as [[a x]|] eqn:E; [|by intros [= ->]]. intros H%IH.
  apply strrchr_some in E as [E _]. apply (f_equal length) in E.
  rewrite length_take, length_app in E. lia.
Qed.

Lemma de_dotdot_shorter f f' : de_dotdot f = Done f' → (length f' <= length f)%nat.
Proof.
  unfold de_dotdot, mbind, outcome_bind.
  destruct (collapse _ _) eqn:E1; [|done..]. destruct (lead_dots _ _) eqn:E2; [|done..].
  destruct (inner_dots _ _) eqn:E3; [|done..]. destruct (up_dirs _ _) eqn:E4; [|done..].
  intros E5%end_dirs_shorter. apply collapse_shorter in E1. apply lead_dots_shorter in E2.
  apply inner_dots_shorter in E3. apply up_dirs_shorter in E4. lia.
Qed.

(** ** Names below the root *)

(** Below the root of the pages. *)
Definition below (f : cstr) : Prop := climbs 0 (split_on slash f) = false.

Lemma climbs_front n xs ys : climbs n (xs ++ ys) = false → climbs n xs = false.
Proof.
  revert n. induction xs as [|x xs IH]; intros n; [done|]. cbn [app climbs].
  destruct (decide _); [apply IH|]. destruct (decide (x = _)); [destruct n; [done|apply IH]|apply IH].
Qed.

Lemma climbs_snoc n xs y : y ≠ [".";"."]%char → climbs n xs = false → climbs n (xs ++ [y]) = false.
Proof.
  intros Hy. revert n. induction xs as [|x xs IH]; intros n; cbn [app climbs].
  - intros _. destruct (decide _); [done|]. by rewrite decide_False.
  - destruct (decide _); [apply IH|]. destruct (decide (x = _)); [destruct n; [done|apply IH]|apply IH].
Qed.

Lemma below_cut a b : below (a ++ slash :: b) → below a.
Proof. unfold below. rewrite split_on_app. apply climbs_front. Qed.

Lemma below_slashes a k : below (a ++ replicate k slash) → below a.
Proof.
  revert a. induction k as [|k IH]; intros a; [by rewrite app_nil_r|]. cbn [replicate]. apply below_cut.
Qed.

(** A file of a directory below the root. *)
Lemma below_index dir name :
  slash ∉ name → (2 < length name)%nat → below dir → below (dir ++ name).
Proof.
  intros Hs Hl. unfold below.
  assert (∀ x : cstr, x ++ name ≠ [".";"."]%char) as Hn.
  { intros x E. apply (f_equal length) in E. rewrite length_app in E. cbn in E. lia. }
  destruct (strrchr slash dir) as [[a x]|] eqn:E.
  - apply strrchr_some in E as [-> Hx]. intros H.
    rewrite <- app_assoc. cbn [app]. rewrite split_on_app, (split_on_free _ (x ++ name)).
    + apply climbs_snoc; [apply Hn|]. by apply below_cut in H.
    + rewrite not_elem_of_app. done.
  - apply strrchr_none in E. intros _. rewrite split_on_free; [|by rewrite not_elem_of_app].
    apply (climbs_snoc 0 []); [apply Hn|done].
Qed.

Lemma pathinfo_cut {A} (st : cstr → option A) file n f info e :
  (n <= length file)%nat → pathinfo_loop st file n = Some (f, info, e) → file = f ++ slash :: info.
Proof.
  induction n as [|i IH]; cbn [pathinfo_loop]; [done|]. intros Hn.
  destruct (decide (i = O)); [done|]. destruct (decide (ch file i = slash)) as [Hc|]; [|apply IH; lia].
  destruct (st _); [|apply IH; lia]. intros [= <- <- <-].
  rewrite <- (take_drop i file) at 1. f_equal.
  destruct (drop i file) as [|c r] eqn:Ed; [apply (f_equal length) in Ed; rewrite length_drop in Ed; cbn in Ed; lia|].
  unfold ch in Hc. rewrite <- (take_drop i file), Ed in Hc.
  rewrite app_nth2, length_take in Hc by (rewrite length_take; lia).
  replace (i - i `min` length file)%nat with 0%nat in Hc by lia. cbn in Hc. subst c. f_equal.
  by rewrite <- Nat.add_1_r, <- drop_drop, Ed.
Qed.

(** ** Occurrences in parts of a text *)

Lemma has_infix lit s : has lit s = true ↔ infix lit s.
Proof.
  unfold has. rewrite bool_decide_eq_true. split.
  - intros [i E]. apply strstr_some in E as (a & b & -> & _). by exists a, b.
  - intros H. destruct (strstr lit s) eqn:E; [done|]. by apply strstr_none in E.
Qed.
Lemma has_app_l lit s t : has lit s = true → has lit (s ++ t) = true.
Proof. rewrite !has_infix. apply infix_l. Qed.
Lemma has_app_r lit s t : has lit t = true → has lit (s ++ t) = true.
Proof. rewrite !has_infix. apply infix_r. Qed.

Lemma span_until_parts ds (s : cstr) : s = (span_until ds s).1 ++ (span_until ds s).2.
Proof.
  induction s as [|c s IH]; [done|]. cbn [span_until]. destruct (decide _); [done|].
  destruct (span_until ds s). cbn in *. by rewrite IH.
Qed.
Lemma strpbrk_parts ds s a b : strpbrk ds s = Some (a, b) → ∃ c, s = a ++ c :: b ∧ c ∈ ds.
Proof.
  unfold strpbrk. revert a b. induction s as [|c s IH]; intros a b; cbn [span_until]; [done|].
  destruct (decide (c ∈ ds)); [intros [= <- <-]; by exists c|].
  destruct (span_until ds s) as [x y]. destruct y as [|d y]; [done|]. intros [= <- <-].
  destruct (IH x y eq_refl) as (d' & -> & Hd). by exists d'.
Qed.

(** * Patterns and the password file of the web server

    [match_one] against the meaning of a pattern ([glob]); [needPassword] on a
    file with one line. *)

(** ** Patterns *)

(** A question mark is any character, a star any text without a slash, two
    stars any text. *)
Inductive glob : cstr → cstr → Prop :=
  | glob_nil : glob [] []
  | glob_char c p s : c ≠ "?"%char → c ≠ "*"%char → glob p s → glob (c :: p) (c :: s)
  | glob_any c p s : glob p s → glob ("?"%char :: p) (c :: s)
  | glob_star p s t :
      head p ≠ Some "*"%char → "/"%char ∉ s → glob p t → glob ("*"%char :: p) (s ++ t)
  | glob_stars p s t : glob p t → glob ("*"%char :: "*"%char :: p) (s ++ t).

(** The loop over the places where the rest of a pattern may match. *)
Definition match_from (p s : cstr) (n : nat) : bool :=
  existsb (λ i, match_one p (drop i s)) (rev (seq 0 (S n))).

Lemma match_from_true p s n :
  match_from p s n = true ↔ ∃ a t, s = a ++ t ∧ (length a <= n)%nat ∧ match_one p t = true.
Proof.
  unfold match_from. rewrite existsb_exists. split.
  - intros (i & Hi & Hm). apply in_rev, in_seq in Hi.
    exists (take i s), (drop i s). rewrite take_drop, length_take. split; [done|]. split; [lia|done].
  - intros (a & t & -> & Hl & Hm). exists (length a). rewrite <- in_rev, in_seq.
    split; [lia|]. by rewrite drop_app_length.
Qed.

Lemma span_until_free_length ds (a t : cstr) :
  (∀ c, c ∈ a → c ∉ ds) → (length a <= length (span_until ds (a ++ t)).1)%nat.
Proof.
  induction a as [|c a IH]; intros Ha; [cbn; lia|]. cbn [app span_until].
  rewrite decide_False by (apply Ha, list_elem_of_here).
  assert (∀ c, c ∈ a → c ∉ ds) as Ha' by (intros; apply Ha; by apply list_elem_of_further).
  specialize (IH Ha'). destruct (span_until ds (a ++ t)). cbn in *. lia.
Qed.

Lemma match_star p s :
  match_from p s (length (span_until ["/"%char] s).1) = true ↔
  ∃ a t, s = a ++ t ∧ "/"%char ∉ a ∧ match_one p t = true.
Proof.
  rewrite match_from_true. split; intros (a & t & -> & Ha & Hm); exists a, t; (split; [done|]; split; [|done]).
  - intros Hin. pose proof (span_until_parts ["/"%char] (a ++ t)) as E.
    destruct (span_until ["/"%char] (a ++ t)) as [x y] eqn:Ex. cbn in *.
    assert ("/"%char ∉ x) as Hx.
    { pose proof (span_until_fst_free ["/"%char] (a ++ t) "/"%char) as Hf. rewrite Ex in Hf.
      apply Hf, list_elem_of_here. }
    apply Hx. apply (f_equal (take (length a))) in E.
    rewrite take_app_length, take_app_le in E by done. rewrite E in Hin.
    by apply elem_of_take in Hin as (i & Hi & _); apply (list_elem_of_lookup_2 _ i).
  - apply span_until_free_length. intros c Hc ->%list_elem_of_singleton. done.
Qed.

Lemma match_stars p s :
  match_from p s (length s) = true ↔ ∃ a t, s = a ++ t ∧ match_one p t = true.
Proof.
  rewrite match_from_true. split; intros (a & t & -> & H).
  - exists a, t. by destruct H.
  - exists a, t. rewrite length_app. repeat split; [lia|done].
Qed.

(** One step of the matcher. *)
Lemma match_one_star p s :
  head p ≠ Some "*"%char →
  match_one ("*"%char :: p) s = match_from p s (length (span_until ["/"%char] s).1).
Proof.
  intros Hp. destruct p as [|d p]; [done|]. cbn [match_one]. rewrite decide_False by done.
  rewrite decide_True by done. rewrite decide_False; [done|]. by intros ->.
Qed.
Lemma match_one_stars p s : match_one ("*"%char :: "*"%char :: p) s = match_from p s (length s).
Proof. done. Qed.

Lemma match_one_glob p s : match_one p s = true ↔ glob p s.
Proof.
  split.
  - remember (length p) as n eqn:En. assert (length p <= n)%nat as Hn by lia. clear En.
    revert p s Hn. induction n as [|n IH]; intros p s Hn Hm; (destruct p as [|c p]; [|cbn in Hn]).
    1,3: apply bool_decide_eq_true in Hm as ->; constructor.
    { lia. }
    destruct (decide (c = "*"%char)) as [->|Hs].
    + destruct (decide (head p = Some "*"%char)) as [Hh|Hh].
      * destruct p as [|d p]; [done|]. injection Hh as ->. rewrite match_one_stars in Hm.
        apply match_stars in Hm as (a & t & -> & Hm). apply glob_stars, IH; [cbn in Hn; lia|done].
      * rewrite match_one_star in Hm by done. apply match_star in Hm as (a & t & -> & Ha & Hm).
        apply glob_star; [done..|]. apply IH; [lia|done].
    + cbn [match_one] in Hm. destruct (decide (c = "?"%char)) as [->|Hq].
      * destruct s as [|x s]; [done|]. apply glob_any, IH; [lia|done].
      * rewrite decide_False in Hm by done. destruct s as [|x s]; [done|].
        destruct (decide (c = x)) as [->|]; [|done]. apply glob_char; [done..|]. apply IH; [lia|done].
  - induction 1 as [|c p s Hq Hs _ IH|c p s _ IH|p s t Hp Ha _ IH|p s t _ IH].
    + done.
    + cbn [match_one]. rewrite !decide_False by done. by rewrite decide_True.
    + done.
    + rewrite match_one_star by done. apply match_star. by exists s, t.
    + rewrite match_one_stars. apply match_stars. by exists s, t.
Qed.

(** ** The password file *)

(** A line of a name and a password. *)
Definition no_line (s : cstr) : Prop := "010"%char ∉ s ∧ NUL ∉ s.

Lemma cut_nul_whole s : NUL ∉ s → cut_nul s = s.
Proof. intros Hs. unfold cut_nul. rewrite span_until_free; [done|]. by intros c ->%list_elem_of_singleton. Qed.

(** Three characters of a name are skipped. *)
Lemma need_loop_skip fuel a b c rest :
  no_line [a; b; c] → ":"%char ∉ [a; b; c] →
  need_loop (S fuel) (a :: b :: c :: rest) = need_loop fuel rest.
Proof.
  intros [Hn Hz] Hc. rewrite !not_elem_of_cons in Hn. destruct Hn as (H1 & H2 & H3 & _).
  cbn [need_loop]. unfold fgets, LINE_SIZE. cbn [Nat.sub fgets_go].
  rewrite !decide_False by done. rewrite cut_nul_whole by done.
  cbn [nuke_newline last]. unfold nuke_newline. cbn [last]. rewrite decide_False by done.
  cbn [mbind outcome_bind]. by rewrite bool_decide_eq_false_2.
Qed.

(** A piece of the file that holds a colon and another character ends the
    loop. *)
Lemma need_loop_found fuel piece rest line :
  fgets_go 3 (piece ++ rest) = (piece, rest) → NUL ∉ piece →
  nuke_newline piece = Done line → ":"%char ∈ line → (1 < length line)%nat →
  need_loop (S fuel) (piece ++ rest) = Done true.
Proof.
  intros Hp Hz Hn Hin Hl. cbn [need_loop]. unfold fgets, LINE_SIZE.
  destruct (piece ++ rest) as [|c d] eqn:E.
  - apply app_eq_nil in E as [-> ->]. cbn in Hn. done.
  - rewrite <- E in *. cbn [Nat.sub]. rewrite Hp. rewrite cut_nul_whole by done.
    rewrite Hn. cbn [mbind outcome_bind]. rewrite bool_decide_eq_true_2 by done.
    by rewrite (proj2 (Nat.ltb_lt _ _) Hl).
Qed.

#[local] Ltac piece :=
  repeat match goal with
  | |- context [decide (?x = ?y)] =>
      first [rewrite (decide_False (P := x = y)) by congruence|rewrite (decide_True (P := x = y)) by reflexivity]
  end.
#[local] Ltac found p l :=
  apply (need_loop_found _ p _ l);
  [cbn [fgets_go app]; piece; reflexivity
  |rewrite !not_elem_of_cons; repeat split; first [congruence|done|apply not_elem_of_nil]
  |unfold nuke_newline; cbn [last length take Nat.sub]; piece; reflexivity
  |repeat first [apply list_elem_of_here|apply list_elem_of_further]
  |cbn [length]; lia].

(** What is left of a line when a name has fewer than three characters. *)
Lemma need_loop_end fuel name pwd :
  (length name < 3)%nat → no_line name → ":"%char ∉ name → no_line pwd →
  need_loop (S (S fuel)) (name ++ ":"%char :: pwd ++ ["010"%char]) =
  Done (negb (bool_decide (name = [] ∧ pwd = []))).
Proof.
  intros Hl [Hn Hz] Hc [Hp Hpz].
  destruct name as [|a [|b [|c name]]]; [destruct pwd as [|x [|y pwd]]; [done|..]|
    destruct pwd as [|x pwd]| |cbn in Hl; lia];
    repeat match goal with H : _ ∉ _ :: _ |- _ => apply not_elem_of_cons in H as [? ?] end;
    rewrite (bool_decide_eq_false_2 (_ ∧ _)) by naive_solver; cbn [negb app].
  - found [":"%char; x; "010"%char] [":"%char; x].
  - found [":"%char; x; y] [":"%char; x; y].
  - found [a; ":"%char; "010"%char] [a; ":"%char].
  - found [a; ":"%char; x] [a; ":"%char; x].
  - found [a; b; ":"%char] [a; b; ":"%char].
Qed.

Lemma need_loop_line n : ∀ fuel name pwd,
  (length name <= n)%nat → (length name + 2 <= fuel)%nat →
  no_line name → ":"%char ∉ name → no_line pwd →
  need_loop fuel (name ++ ":"%char :: pwd ++ ["010"%char]) =
  Done (negb (bool_decide ((length name mod 3 = 0)%nat ∧ pwd = []))).
Proof.
  induction n as [n IH] using lt_wf_ind. intros fuel name pwd Hl Hf Hn Hc Hp.
  destruct (Nat.lt_ge_cases (length name) 3) as [Hs|Hs].
  - destruct fuel as [|[|fuel]]; [lia..|]. rewrite need_loop_end by done. f_equal. f_equal.
    apply bool_decide_ext. rewrite Nat.mod_small by done. by rewrite length_zero_iff_nil.
  - destruct name as [|a [|b [|c name]]]; cbn [length] in *; [lia..|].
    destruct fuel as [|fuel]; [lia|]. destruct Hn as [Hn Hz].
    change (a :: b :: c :: name) with ([a; b; c] ++ name) in *.
    rewrite not_elem_of_app in Hn, Hz, Hc. cbn [app].
    rewrite need_loop_skip by (split; apply Hn || apply Hz) || apply Hc.
    rewrite (IH (length name)) by first [lia|split; [apply Hn|apply Hz]|apply Hc|done].
    do 2 f_equal. apply bool_decide_ext.
    replace (S (S (S (length name)))) with (length name + 1 * 3)%nat by lia.
    by rewrite Nat.Div0.mod_add.
Qed.
