(* ===== verification/Web.v ===== *)
(** * The web server: state, answers and login (mini_httpd.c) *)

From S2P Require Import Prelude CLib Utility FileSys CfgStore ApCfgLists WebText.

(** * The state of the web server and its answers (mini_httpd.c)

    A request is served by a child process of its own: [web] is the state of
    the child, [session] the variables on who is logged in, of which the child
    has a copy.  What the child does to the outside is the list [events].  A
    function of the server ends, or exits the process: [W A].  The files below
    the directory of the pages, the clock's texts, the addresses of interfaces
    and what the tools of the radio print are the class [Www]; [httpd] are the
    options the server was started with. *)

Definition nl : ascii := "010"%char.
Definition crlf : cstr := ["013"; "010"]%char.
Definition AUTH_FILE : cstr := ".htpasswd".
Definition ERR_DIR : cstr := ".".
Definition LOG_ENANLE : cstr := "/tmp/log_enable".
Definition HTPASSWD : cstr := "/tmp/htpasswd".
Definition NEXTPAGE : cstr := "/tmp/nextpage".
Definition METHOD_UNKNOWN : Z := 0.
Definition METHOD_GET : Z := 1.
Definition METHOD_HEAD : Z := 2.
Definition METHOD_POST : Z := 3.
Definition DEFAULT_HTTP_PORT : Z := 80.
Definition DEFAULT_HTTPS_PORT : Z := 443.

(** ** The world around *)

(** What [stat] tells. *)
Record entry : Type := Entry { is_dir : bool; st_size : Z; st_mtime : Z }.

Class Www : Type := {
  www_stat : sys → cstr → option entry;    (** [stat] of a name relative to the pages *)
  www_read : sys → cstr → option bytes;    (** a file that can be opened, and its bytes *)
  www_exec : sys → option cstr → cstr → bool;  (** [execve] in a directory starts the program *)
  http_date : Z → cstr;                    (** [strftime] of a time in GMT *)
  log_date : Z → cstr;                     (** the date of the log, with the time zone *)
  if_addr : sys → cstr → option cstr;      (** the address of an interface, if it has one *)
  sta_list : sys → Z → bytes;              (** what [wlanconfig ath0x list sta] prints *)
}.

(** The options, and the tables of content types, which the build makes. *)
Record httpd : Type := Httpd {
  port : Z; ports : Z; httpport : Z;
  autohttps : bool; autohttp : bool;
  vhost : bool;
  cgi_pattern : option cstr; url_pattern : option cstr; local_pattern : option cstr;
  no_empty_referers : bool;
  hostname : cstr; charset : cstr; p3p : option cstr; max_age : Z;
  web_timeout : Z;
  logging : bool;
  cwd : cstr; tz : option cstr;
  enc_tab : list (cstr * cstr); typ_tab : list (cstr * cstr);
}.

(** ** The state *)

Inductive signal : Type := SIGINT | SIGHUP | SIGUSR2.

(** Where the standard input of a program comes from. *)
Inductive source : Type :=
  | Socket (rest : list bytes)
  | Piped (data : bytes).

Inductive event : Type :=
  | Wrote (data : bytes)                   (** to the client *)
  | SentFile (name : cstr) (data : bytes)  (** the contents of a file, to the client *)
  | Signalled (s : signal)                 (** to the parent *)
  | Executed (directory : option cstr) (binary : cstr) (argv envp : list cstr) (stdin : source)
      (parse_headers : bool)
  | Logged (text : cstr).

(** Which object the name of the file stands in: the request, with what of it
    lies in front of the name; a constant; a buffer of its own. *)
Inductive place : Type := InPath (lead : nat) | Constant | Own.

Record session : Type := Session {
  last_access_time : Z;
  someone_in_use : bool;
  remote_ip : cstr;
  last_remote_ip : cstr;
  still_timeout : bool;
}.

Record headers : Type := Headers {
  authorization : option cstr;
  content_length : Z;
  content_type : option cstr;
  cookie : option cstr;
  host : option cstr;
  referer : cstr;
  useragent : cstr;
}.

(** [request] is what of the request has not been looked at; [client] and
    [local_addr] are what [ntoa] prints of the two ends of the connection. *)
Record web : Type := Web {
  ses : session;
  mach : sys;
  uptime : Z;
  now : Z;
  do_ssl : bool;
  client : cstr;
  local_addr : cstr;
  input : list bytes;
  request : bytes;
  response : bytes;
  method : Z;
  path : option cstr;
  scpath : cstr;
  file : cstr;
  place_ : place;
  pathinfo : option cstr;
  sb : entry;
  query : cstr;
  protocol : option cstr;
  hdrs : headers;
  req_hostname : option cstr;
  remoteuser : option cstr;
  not_auth : bool;
  events : list event;
}.

Definition set_ses (x : session) (w : web) : web :=
  Web x (mach w) (uptime w) (now w) (do_ssl w) (client w) (local_addr w) (input w) (request w) (response w) (method w) (path w) (scpath w) (file w) (place_ w) (pathinfo w) (sb w) (query w) (protocol w) (hdrs w) (req_hostname w) (remoteuser w) (not_auth w) (events w).
Definition set_mach (x : sys) (w : web) : web :=
  Web (ses w) x (uptime w) (now w) (do_ssl w) (client w) (local_addr w) (input w) (request w) (response w) (method w) (path w) (scpath w) (file w) (place_ w) (pathinfo w) (sb w) (query w) (protocol w) (hdrs w) (req_hostname w) (remoteuser w) (not_auth w) (events w).
Definition set_input (x : list bytes) (w : web) : web :=
  Web (ses w) (mach w) (uptime w) (now w) (do_ssl w) (client w) (local_addr w) x (request w) (response w) (method w) (path w) (scpath w) (file w) (place_ w) (pathinfo w) (sb w) (query w) (protocol w) (hdrs w) (req_hostname w) (remoteuser w) (not_auth w) (events w).
Definition set_request (x : bytes) (w : web) : web :=
  Web (ses w) (mach w) (uptime w) (now w) (do_ssl w) (client w) (local_addr w) (input w) x (response w) (method w) (path w) (scpath w) (file w) (place_ w) (pathinfo w) (sb w) (query w) (protocol w) (hdrs w) (req_hostname w) (remoteuser w) (not_auth w) (events w).
Definition set_response (x : bytes) (w : web) : web :=
  Web (ses w) (mach w) (uptime w) (now w) (do_ssl w) (client w) (local_addr w) (input w) (request w) x (method w) (path w) (scpath w) (file w) (place_ w) (pathinfo w) (sb w) (query w) (protocol w) (hdrs w) (req_hostname w) (remoteuser w) (not_auth w) (events w).
Definition set_method (x : Z) (w : web) : web :=
  Web (ses w) (mach w) (uptime w) (now w) (do_ssl w) (client w) (local_addr w) (input w) (request w) (response w) x (path w) (scpath w) (file w) (place_ w) (pathinfo w) (sb w) (query w) (protocol w) (hdrs w) (req_hostname w) (remoteuser w) (not_auth w) (events w).
Definition set_path (x : option cstr) (w : web) : web :=
  Web (ses w) (mach w) (uptime w) (now w) (do_ssl w) (client w) (local_addr w) (input w) (request w) (response w) (method w) x (scpath w) (file w) (place_ w) (pathinfo w) (sb w) (query w) (protocol w) (hdrs w) (req_hostname w) (remoteuser w) (not_auth w) (events w).
Definition set_scpath (x : cstr) (w : web) : web :=
  Web (ses w) (mach w) (uptime w) (now w) (do_ssl w) (client w) (local_addr w) (input w) (request w) (response w) (method w) (path w) x (file w) (place_ w) (pathinfo w) (sb w) (query w) (protocol w) (hdrs w) (req_hostname w) (remoteuser w) (not_auth w) (events w).
Definition set_file (x : cstr) (w : web) : web :=
  Web (ses w) (mach w) (uptime w) (now w) (do_ssl w) (client w) (local_addr w) (input w) (request w) (response w) (method w) (path w) (scpath w) x (place_ w) (pathinfo w) (sb w) (query w) (protocol w) (hdrs w) (req_hostname w) (remoteuser w) (not_auth w) (events w).
Definition set_place (x : place) (w : web) : web :=
  Web (ses w) (mach w) (uptime w) (now w) (do_ssl w) (client w) (local_addr w) (input w) (request w) (response w) (method w) (path w) (scpath w) (file w) x (pathinfo w) (sb w) (query w) (protocol w) (hdrs w) (req_hostname w) (remoteuser w) (not_auth w) (events w).
Definition set_pathinfo (x : option cstr) (w : web) : web :=
  Web (ses w) (mach w) (uptime w) (now w) (do_ssl w) (client w) (local_addr w) (input w) (request w) (response w) (method w) (path w) (scpath w) (file w) (place_ w) x (sb w) (query w) (protocol w) (hdrs w) (req_hostname w) (remoteuser w) (not_auth w) (events w).
Definition set_sb (x : entry) (w : web) : web :=
  Web (ses w) (mach w) (uptime w) (now w) (do_ssl w) (client w) (local_addr w) (input w) (request w) (response w) (method w) (path w) (scpath w) (file w) (place_ w) (pathinfo w) x (query w) (protocol w) (hdrs w) (req_hostname w) (remoteuser w) (not_auth w) (events w).
Definition set_query (x : cstr) (w : web) : web :=
  Web (ses w) (mach w) (uptime w) (now w) (do_ssl w) (client w) (local_addr w) (input w) (request w) (response w) (method w) (path w) (scpath w) (file w) (place_ w) (pathinfo w) (sb w) x (protocol w) (hdrs w) (req_hostname w) (remoteuser w) (not_auth w) (events w).
Definition set_protocol (x : option cstr) (w : web) : web :=
  Web (ses w) (mach w) (uptime w) (now w) (do_ssl w) (client w) (local_addr w) (input w) (request w) (response w) (method w) (path w) (scpath w) (file w) (place_ w) (pathinfo w) (sb w) (query w) x (hdrs w) (req_hostname w) (remoteuser w) (not_auth w) (events w).
Definition set_hdrs (x : headers) (w : web) : web :=
  Web (ses w) (mach w) (uptime w) (now w) (do_ssl w) (client w) (local_addr w) (input w) (request w) (response w) (method w) (path w) (scpath w) (file w) (place_ w) (pathinfo w) (sb w) (query w) (protocol w) x (req_hostname w) (remoteuser w) (not_auth w) (events w).
Definition set_req_hostname (x : option cstr) (w : web) : web :=
  Web (ses w) (mach w) (uptime w) (now w) (do_ssl w) (client w) (local_addr w) (input w) (request w) (response w) (method w) (path w) (scpath w) (file w) (place_ w) (pathinfo w) (sb w) (query w) (protocol w) (hdrs w) x (remoteuser w) (not_auth w) (events w).
Definition set_remoteuser (x : option cstr) (w : web) : web :=
  Web (ses w) (mach w) (uptime w) (now w) (do_ssl w) (client w) (local_addr w) (input w) (request w) (response w) (method w) (path w) (scpath w) (file w) (place_ w) (pathinfo w) (sb w) (query w) (protocol w) (hdrs w) (req_hostname w) x (not_auth w) (events w).
Definition set_not_auth (x : bool) (w : web) : web :=
  Web (ses w) (mach w) (uptime w) (now w) (do_ssl w) (client w) (local_addr w) (input w) (request w) (response w) (method w) (path w) (scpath w) (file w) (place_ w) (pathinfo w) (sb w) (query w) (protocol w) (hdrs w) (req_hostname w) (remoteuser w) x (events w).
Definition set_events (x : list event) (w : web) : web :=
  Web (ses w) (mach w) (uptime w) (now w) (do_ssl w) (client w) (local_addr w) (input w) (request w) (response w) (method w) (path w) (scpath w) (file w) (place_ w) (pathinfo w) (sb w) (query w) (protocol w) (hdrs w) (req_hostname w) (remoteuser w) (not_auth w) x.

(** ** Programs that may exit *)

Definition W (A : Type) : Type := web → outcome (option A * web).

#[export] Instance W_ret : MRet W := λ A a w, Done (Some a, w).
#[export] Instance W_bind : MBind W := λ A B k m w,
  match m w with
  | Done (Some a, w') => k a w'
  | Done (None, w') => Done (None, w')
  | Fault => Fault
  | Stuck => Stuck
  end.

Definition getW : W web := λ w, Done (Some w, w).
Definition modW (f : web → web) : W () := λ w, Done (Some tt, f w).
Definition faultW {A} : W A := λ _, Fault.
Definition exitW {A} : W A := λ w, Done (None, w).
Definition liftW {A} (o : outcome A) : W A := λ w,
  match o with Done a => Done (Some a, w) | Fault => Fault | Stuck => Stuck end.
(** A call on the machine. *)
Definition sysW {A} (m : M sys A) : W A := λ w,
  match m (mach w) with
  | Done (a, t) => Done (Some a, set_mach t w)
  | Fault => Fault
  | Stuck => Stuck
  end.
Definition happens (e : event) : W () := modW (λ w, set_events (events w ++ [e]) w).
Definition kill_parent (s : signal) : W () := happens (Signalled s).

(** [NEEDCHECKPW], [LOGOUT] and [SAVETIME] *)
Definition NEEDCHECKPW : W () := kill_parent SIGINT.
Definition LOGOUT : W () := kill_parent SIGHUP.
Definition SAVETIME : W () := kill_parent SIGUSR2.

Section answers.
Context `{Www} (h : httpd).

(** ** Answers *)

Definition BUF : nat := 10000.

Definition start_response : W () := modW (set_response []).
Definition add_to_response (t : bytes) : W () := modW (λ w, set_response (response w ++ t) w).
(** [snprintf(buf, sizeof(buf), ...)] and [add_to_response] of the length that
    it answers, which is that of the whole text. *)
Definition add_text (t : cstr) : W () :=
  if decide (length t < BUF)%nat then add_to_response t
  else if decide (length t = BUF) then add_to_response (take (BUF - 1) t ++ [NUL])
  else faultW.
Definition add_line (t : cstr) : W () := add_text (t ++ crlf).
Definition send_response : W () := w ← getW; happens (Wrote (response w)).

Definition get_method_str (m : Z) : cstr :=
  if m =? METHOD_GET then "GET" else if m =? METHOD_HEAD then "HEAD"
  else if m =? METHOD_POST then "POST" else "UNKNOWN".

(** The line of the log; a null text is filled in for good. *)
Definition make_log_entry (status bytes_ : Z) : W () :=
  if logging h then
    _ ← modW (λ w, set_req_hostname (Some (default (hostname h) (req_hostname w)))
                  (set_path (Some (default [] (path w)))
                  (set_protocol (Some (default ("UNKNOWN" : cstr) (protocol w))) w)));
    w ← getW;
    let url := if vhost h then ("/" : cstr) ++ default [] (req_hostname w) ++ default [] (path w)
               else default [] (path w) in
    happens (Logged (format "%s - %s [%s] %q%s %s %s%q %d %s %q%s%q %q%s%q\n"
      [take 80 (client w); take 80 (default ("-" : cstr) (remoteuser w)); log_date (now w);
       take 80 (get_method_str (method w)); take 200 url; take 80 (default [] (protocol w));
       dec status; (if 0 <=? bytes_ then dec bytes_ else "-");
       take 200 (referer (hdrs w)); take 80 (useragent (hdrs w))]))
  else mret tt.

Definition header (name : cstr) (value : cstr) : W () := add_line (name ++ ": " ++ value).

Definition add_headers (s : Z) (title extra_header me mt : cstr) (b : Z) (mod_ : option Z) : W () :=
  _ ← make_log_entry s b;
  _ ← start_response;
  w ← getW;
  _ ← add_line (default ("(null)" : cstr) (protocol w) ++ " " ++ dec s ++ " " ++ title);
  _ ← header "Server" "";
  _ ← header "Date" (http_date (now w));
  _ ← (if decide (extra_header = []) then mret tt else add_line extra_header);
  _ ← (if decide (me = []) then mret tt else header "Content-Encoding" me);
  _ ← (if decide (mt = []) then mret tt else header "Content-Type" mt);
  _ ← (if 0 <=? b then header "Content-Length" (dec b) else mret tt);
  _ ← (match p3p h with
       | Some p => if decide (p = []) then mret tt else header "P3P" p
       | None => mret tt
       end);
  _ ← (if 0 <=? max_age h then
         add_text (("Cache-Control: max-age=" : cstr) ++ dec (max_age h) ++ crlf ++
                   "Expires: " ++ http_date (now w + max_age h) ++ crlf)
       else mret tt);
  _ ← (match mod_ with Some t => header "Last-Modified" (http_date t) | None => mret tt end);
  add_text (("Connection: close" : cstr) ++ crlf ++ crlf).

Definition send_error_file (filename : cstr) : W bool :=
  w ← getW;
  match www_read (mach w) filename with
  | None => mret false
  | Some data => _ ← add_to_response data; mret true
  end.

Definition builtin_page (s : Z) (title text : cstr) : W () :=
  _ ← add_text (format "<HTML>\n<HEAD><TITLE>%d %s</TITLE></HEAD>\n<BODY BGCOLOR=%q#cc9999%q TEXT=%q#000000%q LINK=%q#2020ff%q VLINK=%q#4040cc%q>\n<H4>%d %s</H4>\n"
                  [dec s; title; dec s; title]);
  add_text (text ++ [nl]).

Definition send_error_body (s : Z) (title text : cstr) : W () :=
  w ← getW;
  own ← (match req_hostname w with
         | Some rh => if vhost h then
                        send_error_file (take 999 (rh ++ "/" ++ ERR_DIR ++ "/err" ++ dec s ++ ".html"))
                      else mret false
         | None => mret false
         end);
  if (own : bool) then mret tt
  else
    let filename := if someone_in_use (ses w) then ERR_DIR ++ "/err888.html"
                    else if not_auth w then ERR_DIR ++ "/err" ++ dec s ++ ".htm"
                    else ERR_DIR ++ "/err" ++ dec s ++ ".html" in
    found ← send_error_file (take 999 filename);
    if (found : bool) then mret tt else builtin_page s title text.

Definition send_error {A} (s : Z) (title extra_header text : cstr) : W A :=
  _ ← add_headers s title extra_header "" "text/html" (-1) None;
  _ ← send_error_body s title text;
  _ ← send_response;
  exitW.

(** A page that is kept in the program: headers with its length, and the page. *)
Definition send_page {A} (page : cstr) : W A :=
  _ ← add_headers 200 "Ok" "" "" "text/html" (zlen page) None;
  _ ← add_to_response page;
  _ ← send_response;
  exitW.

Definition handle_sigalrm {A} : W A :=
  send_error 408 "Request Timeout" "" "No request appeared within a reasonable time period.".

Definition scPWWarningMessage : cstr := format "<html><head><meta name=%qdescription%q content=%qEWCAP 1001%q><meta http-equiv=%qcontent-type%q content=%qtext/html;charset=ISO-8859-1%q><META http-equiv=%qPragma%q CONTENT=%qno-cache%q><META HTTP-EQUIV=%qCache-Control%q CONTENT=%qno-cache%q><meta HTTP-EQUIV=%qExpires%q CONTENT=%qMon, 06 Jan 1990 00:00:01 GMT%q><title>Authorization warning</title></head><body background=%q#ffffff%q><table border=%q0%q cellpadding=%q0%q cellspacing=%q3%q width=%q100%%%q><tr><td colspan=%q2%q><h1><font face=%qArial, Helvetica, Geneva, Swiss, SunSans-Regular, sans-serif%q size=%q4%q>System Authentication Failed.</font></h1><hr></td></tr><tr><td colspan=%q2%q><font face=%qArial, Helvetica, Geneva, Swiss, SunSans-Regular, sans-serif%q size=%q2%q>Please contact your system administrator for the correct information.</font><hr></td></tr></table></body></html>" [].

Definition send_authenticateWarning {A} : W A := send_page scPWWarningMessage.

(** ** Redirection between HTTP and HTTPS *)

(** The address of the management bridge, whose number is in the second line of
    the file of VLANs.  The text of a line and of the address is not written
    when there is none. *)
Definition mgt_addr : W cstr :=
  conf ← sysW (read_file "/tmp/vlan.conf");
  ifName ← (match conf with
    | None => mret ("br0" : cstr)
    | Some data =>
        match fgets 64 data with
        | None => faultW
        | Some (first, rest) =>
            let line := match fgets 64 rest with Some (l, _) => l | None => first end in
            mret (("br" : cstr) ++ dec (atoi line))
        end
    end);
  w ← getW;
  match if_addr (mach w) ifName with Some a => mret a | None => faultW end.

(** [strncpy(lPath, path, 64)] and the cut at the first space: without either a
    terminator or a space the copy has no end. *)
Definition local_path (p : cstr) : W cstr :=
  if decide (length p < 64)%nat then mret (span_until [" "%char] p).1
  else if decide (" "%char ∈ take 64 p) then mret (span_until [" "%char] (take 64 p)).1
  else faultW.

Definition refresh_page (url : cstr) : cstr :=
  format "<html><head><meta http-equiv='Content-Type' content='text/html; charset=iso8859-1'><META http-equiv=Refresh content=%q0; URL=%s%q></head><body bgcolor=#FFFFFF></body></html>" [url].

Definition sendAutoHttps {A} (p : cstr) : W A :=
  ipstr ← mgt_addr;
  lPath ← local_path p;
  let start : cstr := if ports h =? DEFAULT_HTTPS_PORT then ("https://" : cstr) ++ ipstr
                      else ("https://" : cstr) ++ ipstr ++ ":" ++ dec (ports h) in
  send_page (refresh_page (start ++ lPath)).

Definition sendAutoHttp {A} (p : cstr) : W A :=
  ipstr ← mgt_addr;
  lPath ← local_path p;
  let start : cstr := if port h =? DEFAULT_HTTP_PORT then ("http://" : cstr) ++ ipstr
                      else ("http://" : cstr) ++ ipstr ++ ":" ++ dec (httpport h) in
  send_page (refresh_page (start ++ lPath)).

(** ** The session, seen from a child *)

Definition check_timeout (s : session) (up : Z) : bool :=
  if bool_decide (last_remote_ip s = remote_ip s) && still_timeout s then true
  else if last_access_time s =? 0 then false
  else (web_timeout h <? up - last_access_time s) && negb (web_timeout h =? 0).

Definition timed_out : W bool := w ← getW; mret (check_timeout (ses w) (uptime w)).

(** The pages of [send_return], by the statement of their script. *)
Definition script_page (body : cstr) : cstr :=
  format "<HTML>\n<HEAD>\n<META http-equiv=%qPragma%q CONTENT=%qno-cache%q>\n<META HTTP-EQUIV=%qCache-Control%q CONTENT=%qno-cache%q>\n<meta http-equiv=%qExpires%q content=%q-1%q>\n<script language=%qjavascript%q type=%qtext/javascript%q>\nfunction loadnext() {%s</script>\n</HEAD>\n<BODY  onload=%qloadnext()%q>\n" [body].
Definition to_login (page : cstr) : cstr :=
  script_page (format "\nif(window.opener){window.opener.top.location.href=%q%s%q;self.close();}\nelse{top.location.href=%q%s%q;}}\n" [page; page])
  ++ format "</BODY>\n</html>\n" [].
Definition to_home (line : cstr) : cstr :=
  script_page (format "var fm = document.forms[0];fm.submit();}\n" [])
  ++ format "<form action=%qHome.htm%q method=%qpost%q>\n<input type=%qhidden%q name=%qnext_file%q value=%qHome.htm%q>\n<input type=%qhidden%q name=%qthis_file%q value=%qHome.htm%q>\n<input type=%qhidden%q name=%qrpage%q value=%q%s%q>\n</form></BODY>\n</html>\n" [line].

(** The text of [send_return]; for the home page the variable [buflen] is
    written only when a line was read. *)
Definition return_text (type : Z) : W cstr :=
  if type =? 1 then mret (to_login "login.htm&no=2")
  else if type =? 2 then mret (to_login "../login.htm&no=2")
  else if type =? 3 then
    data ← sysW (read_file NEXTPAGE);
    match data with
    | None => faultW
    | Some d => match fgets 128 d with
                | Some (line, _) => _ ← sysW (unlink NEXTPAGE); mret (to_home line)
                | None => faultW
                end
    end
  else
    w ← getW;
    _ ← happens (Logged (("[SC][UnAuthLogin]Unauthorized Login Attempt from " : cstr) ++ remote_ip (ses w)));
    mret (to_login "login.htm&no=3").

Definition send_return {A} (type : Z) : W A :=
  _ ← LOGOUT;
  t ← return_text type;
  _ ← add_text t;
  _ ← send_response;
  exitW.
End answers.

(** * Who may see a page (mini_httpd.c)

    The name and the password in a cookie, [cookie_check], and the notes that
    are kept in files: [/tmp/nextpage], the page to go on with after a login,
    and [/tmp/log_enable]. *)

(** ** The cookie *)

(** [char buf[128]]: what lies behind the text is zero. *)
Definition COOKIE_BUF : nat := 128.
Definition cookie_buf (ck : cstr) : outcome bytes :=
  if decide (length ck < COOKIE_BUF)%nat then Done (ck ++ replicate (COOKIE_BUF - length ck) NUL)
  else Fault.

(** The text at a place of the buffer. *)
Definition text_at (m : bytes) (p : nat) : outcome cstr := rd_str (drop p m).

(** [p = strstr(m + p, label)] and the step behind the label; [None] also when
    nothing follows. *)
Definition value_at (m : bytes) (p : nat) (label : cstr) : outcome (option nat) :=
  t ← text_at m p;
  match strstr label t with
  | None => Done None
  | Some i =>
      let p1 := (p + i + length label)%nat in
      v ← text_at m p1;
      Done (if decide (v = []) then None else Some p1)
  end.

(** [p2 = strchr(m + p1, ';')], where a zero byte is put; [None] is no such. *)
Definition cut_value (m : bytes) (p1 : nat) : outcome (bytes * option nat) :=
  v ← text_at m p1;
  if decide (";"%char ∈ (v : cstr)) then
    let p2 := (p1 + length (span_until [";"%char] v).1)%nat in
    m ← put m p2 NUL; Done (m, Some p2)
  else Done (m, None).

Definition PWD_SIZE : nat := 499.

(** Unescapes and decodes the value at [p1]. *)
Definition decode_value (m : bytes) (p1 : nat) : outcome (bytes * cstr) :=
  m ← nsldapi_hex_unescape m p1;
  t ← text_at m p1;
  l ← b64_decode t PWD_SIZE;
  Done (m, cut_nul l).

(** [get_name_pwd] on the text of the cookie: the password and the name. *)
Definition name_pwd (ck : cstr) : outcome (option (cstr * cstr)) :=
  m ← cookie_buf ck;
  p1 ← value_at m 0 "LoginPWD=";
  match p1 with
  | None => Done None
  | Some p1 =>
      c ← cut_value m p1;
      let '(m, p2) := (c : bytes * option nat) in
      let p2 := match p2 with Some p => S p | None => 0%nat end in
      d ← decode_value m p1;
      let '(m, pwd) := (d : bytes * cstr) in
      p1 ← value_at m p2 "LoginName=";
      match p1 with
      | None => Done None
      | Some p1 =>
          c ← cut_value m p1;
          d ← decode_value c.1 p1;
          Done (Some (pwd, d.2))
      end
  end.

Definition get_name_pwd : W (option (cstr * cstr)) :=
  w ← getW;
  match cookie (hdrs w) with
  | None => _ ← modW (set_not_auth true); mret None
  | Some ck => liftW (name_pwd ck)
  end.

(** ** The password file *)

(** The text behind the colon of the first line whose front is the name. *)
Fixpoint find_entry (fuel : nat) (data : bytes) (name : cstr) : outcome (option cstr) :=
  match fuel with
  | O => Stuck
  | S fuel =>
      match fgets BUF data with
      | None => Done None
      | Some (line, rest) =>
          line ← nuke_newline line;
          if decide (":"%char ∈ (line : cstr)) then
            let '(user, cryp) := span_until [":"%char] line in
            if decide (user = name) then Done (Some (tail cryp)) else find_entry fuel rest name
          else find_entry fuel rest name
      end
  end.
Definition password_of (data : bytes) (name : cstr) : outcome (option cstr) :=
  find_entry (S (length data)) data name.

Section auth.
Context `{Www} (h : httpd).

(** ** Notes in files *)

(** What is noted as the page to go on with, from the text behind [next_file=],
    and whether it was a page of help. *)
Definition noted_page (p : cstr) : cstr * bool :=
  if has "WClientMACList.htm" p then ("WMACFilter.htm" : cstr, false)
  else if has "SiteSurvey.htm" p || has "SurveyWait.htm" p || has "RogueLegal.htm" p
  then ("ApMode.htm" : cstr, false)
  else if has "log_data.htm" p then ("Log.htm" : cstr, false)
  else if has "Ping.htm" p then ("Diagnostics.htm" : cstr, false)
  else if has "help/h_" p then (drop 7 p, true)
  else (p, false).

(** The session has timed out: the page is noted, and the client sent to the
    login. *)
Definition timeout_return {A} : W A :=
  w ← getW;
  match from_first "next_file=" (query w) with
  | Some p =>
      let '(page, IsHelp) := noted_page (drop 10 p) in
      _ ← sysW (write_file NEXTPAGE page);
      if IsHelp then send_return 2 else send_return 1
  | None => send_return 1
  end.

Definition AddLOGFlag : W () :=
  w ← getW;
  let note := happens (Logged (("[SC][AuthLogin]Authorized Login from " : cstr) ++ remote_ip (ses w))) in
  e ← sysW (access LOG_ENANLE);
  if (e : bool) then
    if bool_decide (last_remote_ip (ses w) = remote_ip (ses w)) then mret tt else note
  else _ ← sysW (write_file LOG_ENANLE (format "1\n" [])); note.

(** ** cookie_check *)

(** No password is asked for. *)
Definition unprotected_page : W () :=
  w ← getW;
  if bool_decide (last_remote_ip (ses w) = remote_ip (ses w)) then
    t ← timed_out h;
    if (t : bool) then send_return 1 else SAVETIME
  else
    _ ← happens (Logged (("Administrator login successful - IP:" : cstr) ++ remote_ip (ses w)));
    SAVETIME.

(** The client is not known: sent to the login in either case. *)
Definition unknown_client {A} : W A :=
  _ ← modW (set_not_auth true);
  t ← timed_out h;
  if (t : bool) then timeout_return else send_return 0.

(** The name and the password are right. *)
Definition known_client (name : cstr) : W () :=
  t ← timed_out h;
  if (t : bool) then timeout_return
  else
    w ← getW;
    noted ← sysW (access NEXTPAGE);
    if has "Home.htm" (query w) && noted then send_return 3
    else
      _ ← AddLOGFlag;
      _ ← modW (set_remoteuser (Some name));
      SAVETIME.

(** [authpath[strlen(dirname) - 1]] is looked at, and the path is then
    overwritten. *)
Definition cookie_check (dirname : cstr) : W () :=
  if decide (dirname = []) then faultW
  else
    file ← sysW (read_file HTPASSWD);
    need ← liftW (needPassword file);
    if negb need then unprotected_page
    else
      _ ← modW (set_not_auth false);
      np ← get_name_pwd;
      match np with
      | None => unknown_client
      | Some (pwd, name) =>
          match file with
          | None => send_error h 403 "Forbidden" "" "File is protected."
          | Some data =>
              cryp ← liftW (password_of data name);
              match cryp with
              | Some c => if decide (pwd = c) then known_client name else unknown_client
              | None => send_return 0
              end
          end
      end.
End auth.
