(* ===== verification/WebServe.v ===== *)
(** * The web server: requests, and the main process (mini_httpd.c) *)

From S2P Require Import Prelude CLib Utility FileSys Nvram CfgStore ApCfgLists WebText Web.

(** * Serving a request (mini_httpd.c)

    The programs behind the pages, the files, and [handle_request] from the
    bytes of the connection to the answer.  The pipes and processes between the
    server and a program always come about. *)

(** ** Input and output of a program *)

(** What one [read] of at most [n] bytes gives, of the pieces that arrive. *)
Definition read_piece (n : nat) (input : list bytes) : bytes * list bytes :=
  match input with
  | [] => ([], [])
  | c :: rest => (take n c, if decide (length c <= n)%nat then rest else drop n c :: rest)
  end.

(** The rest of the content behind the [c] bytes that were read with the
    request; the fuel is more than the number of bytes that arrive. *)
Fixpoint interpose_loop (fuel : nat) (c length_ : Z) (input : list bytes) : bytes :=
  match fuel with
  | O => []
  | S fuel =>
      if c <? length_ then
        let '(d, rest) := read_piece (Z.to_nat (Z.min 1024 (length_ - c))) input in
        if decide (d = []) then [] else d ++ interpose_loop fuel (c + zlen d) length_ rest
      else []
  end.
Definition cgi_interpose_input (pending : bytes) (length_ : Z) (input : list bytes) : bytes :=
  pending ++ interpose_loop (S (length (concat input))) (zlen pending) length_ input.

(** The headers a program prints, up to the empty line, and its place. *)
Fixpoint slurp (pieces : list bytes) (headers : bytes) : bytes * nat * list bytes :=
  match pieces with
  | [] => (headers, length headers, [])
  | p :: rest =>
      if decide (p = []) then (headers, length headers, rest)
      else
        let hs := headers ++ p in
        match strstr (crlf ++ crlf) (cut_nul hs) with
        | Some br => (hs, br, rest)
        | None => match strstr [nl; nl] (cut_nul hs) with
                  | Some br => (hs, br, rest)
                  | None => slurp rest hs
                  end
        end
  end.

(** The header stands in front of [br] at the beginning of a line. *)
Definition header_at (name : cstr) (headers : cstr) (br : nat) : option nat :=
  match strstr name headers with
  | Some cp => if (cp <? br)%nat && (bool_decide (cp = O) || bool_decide (ch headers (cp - 1) = nl))
               then Some cp else None
  | None => None
  end.

Definition status_title (status : Z) : cstr :=
  if status =? 200 then "OK" else if status =? 302 then "Found"
  else if status =? 304 then "Not Modified" else if status =? 400 then "Bad Request"
  else if status =? 401 then "Unauthorized" else if status =? 403 then "Forbidden"
  else if status =? 404 then "Not Found" else if status =? 408 then "Request Timeout"
  else if status =? 500 then "Internal Error" else if status =? 501 then "Not Implemented"
  else if status =? 503 then "Service Temporarily Overloaded" else "Something".

Definition blanks : list ascii := [" "; "009"]%char.

(** What the client gets of the pieces that a program prints.  Without the
    parsing of headers the zero byte behind the first line is sent too. *)
Definition cgi_interpose_output (parse_headers : bool) (pieces : list bytes) : bytes :=
  if negb parse_headers then ("HTTP/1.0 200 OK" : cstr) ++ crlf ++ [NUL] ++ concat pieces
  else
    let '(headers, br, rest) := slurp pieces [] in
    let hs := cut_nul headers in
    if decide (hs = []) then []
    else
      let status := match header_at "Status:" hs br with
                    | Some cp => atoi (skip_while blanks (drop (cp + 7) hs))
                    | None => 200
                    end in
      let status := match header_at "Location:" hs br with Some _ => 302 | None => status end in
      ("HTTP/1.0 " : cstr) ++ dec status ++ " " ++ status_title status ++ crlf ++ headers ++ concat rest.

Section serve.
Context `{Www} (h : httpd).

(** ** Arguments and environment *)

Definition base_name (file : cstr) : cstr :=
  match strrchr "/" file with Some (_, b) => b | None => file end.

(** The words between plus signs, when no equals sign stands in the query. *)
Definition make_argp (file query : cstr) : list cstr :=
  base_name file ::
  (if decide ("="%char ∈ query) then []
   else
     let words := split_on "+" query in
     let words := if decide (last words = Some []) then take (length words - 1) words else words in
     map strdecode words).

Definition env (name : cstr) (value : cstr) : list cstr := [name ++ "=" ++ value].
Definition env_opt (name : cstr) (value : option cstr) : list cstr :=
  match value with Some v => env name v | None => [] end.
Definition env_text (name : cstr) (value : cstr) : list cstr :=
  if decide (value = []) then [] else env name value.

Definition make_envp (w : web) : list cstr :=
  env "PATH" "./" ++ env "LD_LIBRARY_PATH" "/lib:/usr/local/lib:/usr/lib" ++ env "SERVER_SOFTWARE" "" ++
  env_opt "SERVER_NAME" (if vhost h then req_hostname w else Some (hostname h)) ++
  env "GATEWAY_INTERFACE" "CGI/1.1" ++ env "SERVER_PROTOCOL" "HTTP/1.0" ++
  env "SERVER_PORT" (dec (port h)) ++
  env "REQUEST_METHOD" (get_method_str (method w)) ++
  env "SCRIPT_NAME" (default [] (path w)) ++
  match pathinfo w with
  | Some p => env "PATH_INFO" (("/" : cstr) ++ p) ++
              env "PATH_TRANSLATED" (("/" : cstr) ++ take 255 (cwd h ++ p))
  | None => []
  end ++
  env_text "QUERY_STRING" (query w) ++
  env "REMOTE_ADDR" (client w) ++
  env_text "HTTP_REFERER" (referer (hdrs w)) ++
  env_text "HTTP_USER_AGENT" (useragent (hdrs w)) ++
  env_opt "HTTP_COOKIE" (cookie (hdrs w)) ++
  env_opt "CONTENT_TYPE" (content_type (hdrs w)) ++
  (if content_length (hdrs w) =? wrap32 (-1) then []
   else env "CONTENT_LENGTH" (dec (content_length (hdrs w)))) ++
  env_opt "REMOTE_USER" (remoteuser w) ++
  match authorization (hdrs w) with Some _ => env "AUTH_TYPE" "Basic" | None => [] end ++
  env_opt "TZ" (tz h).

(** ** do_cgi *)

Definition do_cgi : W () :=
  w ← getW;
  if negb ((method w =? METHOD_GET) || (method w =? METHOD_POST)) then
    send_error h 501 "Not Implemented" "" "That method is not implemented for CGI."
  else
    let envp := make_envp w in
    let argp := make_argp (file w) (query w) in
    let stdin := if ((method w =? METHOD_POST) && negb (bool_decide (request w = []))) || do_ssl w
                 then Piped (cgi_interpose_input (request w) (content_length (hdrs w)) (input w))
                 else Socket (input w) in
    let parse_headers := negb (starts "nph-" (hd [] argp)) in
    let '(directory, binary) := match strrchr "/" (file w) with
                                | Some (a, b) => (Some a, b)
                                | None => (None, file w)
                                end in
    if www_exec (mach w) directory binary then
      _ ← happens (Executed directory binary argp envp stdin parse_headers); exitW
    else send_error h 500 "Internal Error" "" "Something unexpected went wrong running a CGI program.".

(** ** The referer *)

Definition referer_ok (w : web) : bool :=
  match url_pattern h with
  | None => true
  | Some up =>
      let url_matches := match_ up (default [] (path w)) in
      match from_first "//" (referer (hdrs w)) with
      | None => negb (no_empty_referers h && url_matches)
      | Some cp1 =>
          let refhost := map tolower (span_until ["/"; ":"]%char (drop 2 cp1)).1 in
          let lp := match local_pattern h with
                    | Some l => Some l
                    | None => if vhost h then req_hostname w else Some (hostname h)
                    end in
          match lp with
          | None => true
          | Some l => negb (negb (match_ l refhost) && url_matches)
          end
      end
  end.

Definition check_referer : W () :=
  w ← getW;
  if referer_ok w then mret tt
  else
    let cp := if vhost h then default (hostname h) (req_hostname w) else hostname h in
    _ ← happens (Logged (format "%s non-local referer %q%s%s%q %q%s%q"
          [take 80 (client w); take 80 cp; take 80 (default [] (path w)); take 80 (referer (hdrs w))]));
    send_error h 403 "Forbidden" "" "You must supply a local referer.".

(** ** do_file *)

(** Nobody needs to be logged in. *)
Definition exempt (query file : cstr) : bool :=
  has "upload.cgi" file ||
  has "mgt_upgmsg.htm" query || has "galert.htm" query || has "index.htm" query ||
  has "login.htm" query || has ".gif" file || has ".jpg" file || has ".js" file ||
  has ".png" file || has ".css" file.

(** The name is that of the password file.  A shorter name is compared from a
    place in front of it, which must belong to the same object; there a slash
    or a zero byte stands in between. *)
Definition auth_file (file : cstr) (p : place) : outcome bool :=
  let l := length file in
  let n := length AUTH_FILE in
  if decide (file = AUTH_FILE) then Done true
  else if decide (l < n)%nat then
    match p with
    | InPath lead => if decide (n <= l + lead)%nat then Done false else Fault
    | _ => Fault
    end
  else Done (bool_decide (drop (l - n) file = AUTH_FILE) && bool_decide (ch file (l - n - 1) = "/"%char)).

Definition login_check : W () :=
  w ← getW;
  if exempt (query w) (file w) then
    if negb (has "upload.cgi" (file w)) && has "login.htm" (query w) then LOGOUT else mret tt
  else cookie_check h (match strrchr "/" (file w) with Some (a, _) => a | None => "." end).

(** The name in [fixed_mime_type]: the character set in place of [%s]. *)
Definition mime_charset (mime_type : cstr) : cstr :=
  take 499 match strstr "%s" mime_type with
           | Some i => take i mime_type ++ charset h ++ drop (i + 2) mime_type
           | None => mime_type
           end.

Definition send_file : W () :=
  w ← getW;
  match www_read (mach w) (file w) with
  | None =>
      _ ← happens (Logged (format "%s File %q%s%q is protected" [take 80 (client w); take 80 (default [] (path w))]));
      send_error h 403 "Forbidden" "" "File is protected."
  | Some data =>
      t ← liftW (figure_mime (enc_tab h) (typ_tab h) (file w) 500);
      _ ← add_headers h 200 "Ok" "" t.2 (mime_charset t.1) (st_size (sb w)) (Some (st_mtime (sb w)));
      _ ← send_response;
      if method w =? METHOD_HEAD then mret tt
      else if 0 <? st_size (sb w) then happens (SentFile (file w) (take (Z.to_nat (st_size (sb w))) data))
      else mret tt
  end.

Definition do_file : W () :=
  _ ← login_check;
  w ← getW;
  a ← liftW (auth_file (file w) (place_ w));
  if (a : bool) then
    _ ← happens (Logged (format "%s URL %q%s%q tried to retrieve an auth file"
                           [take 80 (client w); take 80 (default [] (path w))]));
    send_error h 403 "Forbidden" "" "File is protected."
  else
    _ ← check_referer;
    if match cgi_pattern h with Some p => match_ p (file w) | None => false end then do_cgi
    else match pathinfo w with
         | Some _ => send_error h 404 "Not Found" "" "File not found."
         | None => send_file
         end.

(** ** The lines of the request *)

(** Reads until an empty line has come. *)
Fixpoint read_request (input : list bytes) (request : bytes) : bytes * list bytes :=
  match input with
  | [] => (request, [])
  | c :: rest =>
      if decide (c = []) then (request, rest)
      else
        let request := request ++ c in
        let text := cut_nul request in
        if has (crlf ++ crlf) text || has [nl; nl] text then (request, rest)
        else read_request rest request
  end.

Definition get_request_line : W (option cstr) :=
  w ← getW;
  match request_line (request w) with
  | None => _ ← modW (set_request []); mret None
  | Some (l, rest) => _ ← modW (set_request rest); mret (Some (cut_nul l))
  end.

Definition no_headers : headers := Headers None (wrap32 (-1)) None None None [] [].

(** A header line; the date of [If-Modified-Since] is never looked at. *)
Definition set_header (line : cstr) (x : headers) : headers :=
  let '(Headers au cl ct ck ho re ua) := x in
  let value n := skip_while blanks (drop n line) in
  if starts_nocase "authorization:" line then Headers (Some (value 14%nat)) cl ct ck ho re ua
  else if starts_nocase "content-length:" line then Headers au (wrap32 (atoi (value 15%nat))) ct ck ho re ua
  else if starts_nocase "content-type:" line then Headers au cl (Some (value 13%nat)) ck ho re ua
  else if starts_nocase "cookie:" line then Headers au cl ct (Some (value 7%nat)) ho re ua
  else if starts_nocase "host:" line then Headers au cl ct ck (Some (value 5%nat)) re ua
  else if starts_nocase "if-modified-since:" line then x
  else if starts_nocase "referer:" line then Headers au cl ct ck ho (value 8%nat) ua
  else if starts_nocase "user-agent:" line then Headers au cl ct ck ho re (value 11%nat)
  else x.

Fixpoint read_headers (fuel : nat) : W () :=
  match fuel with
  | O => λ _, Stuck
  | S fuel =>
      l ← get_request_line;
      match l with
      | None => mret tt
      | Some line =>
          if decide (line = []) then mret tt
          else _ ← modW (λ w, set_hdrs (set_header line (hdrs w)) w); read_headers fuel
      end
  end.

(** ** The first line *)

Definition white : list ascii := [" "; "009"; "010"; "013"]%char.
Definition bad_request {A} : W A := send_error h 400 "Bad Request" "" "Can't parse request.".

(** A page without a program is asked of [setup.cgi]. *)
Definition page_request (p : cstr) : bool :=
  negb (has ".cgi" p) && (has ".htm" p || has ".xml" p).
Definition fake_path (p : cstr) : outcome cstr :=
  let p := if decide (hd NUL p = "/"%char) then tail p else p in
  let t := ("/setup.cgi?next_file=" : cstr) ++ p in
  if decide (length t < 128)%nat then Done t else Fault.

(** The page noted at a timeout: forgotten when the login page is asked for;
    while it is there, other pages are refused. *)
Definition next_page (p : cstr) : W () :=
  if has "login.htm" p then
    if has "login.htm&no=3" p || has "login.htm&no=2" p then mret tt else sysW (unlink NEXTPAGE)
  else if negb (has "Home.htm" p) && negb (has "index.htm" p) && (has ".htm" p || has ".cgi" p) then
    noted ← sysW (access NEXTPAGE);
    if (noted : bool) then send_return 1 else mret tt
  else mret tt.

(** [strcpy] into [scpath[100]]. *)
Definition save_path (p : cstr) : W () :=
  if decide (length p < 100)%nat then modW (set_scpath p) else faultW.

(** The method, and the number of bytes of the object in front of the path. *)
Definition first_line : W (cstr * nat) :=
  l ← get_request_line;
  match l with
  | None => bad_request
  | Some line =>
      match strpbrk white line with
      | None => bad_request
      | Some (method_str, p) =>
          let fake := page_request p in
          p ← liftW (if fake then fake_path p else Done p);
          _ ← modW (set_path (Some p));
          _ ← next_page p;
          _ ← save_path p;
          let url := skip_while white p in
          let lead := ((if fake then 0 else length method_str + 1) + (length p - length url))%nat in
          _ ← modW (set_path (Some url));
          match strpbrk white url with
          | None => bad_request
          | Some (url, proto) =>
              let '(pa, q) := span_until ["?"%char] url in
              _ ← modW (λ w, set_path (Some pa) (set_query (tail q) (set_protocol (Some proto) w)));
              mret (method_str, lead)
          end
      end
  end.

Definition redirect : W () :=
  w ← getW;
  if autohttps h && negb (do_ssl w) then sendAutoHttps h (scpath w)
  else if autohttp h && do_ssl w then sendAutoHttp h (scpath w)
  else mret tt.

Definition same_nocase (a b : cstr) : bool := bool_decide (map tolower a = map tolower b).
Definition set_method_of (method_str : cstr) : W () :=
  if same_nocase method_str "GET" then modW (set_method METHOD_GET)
  else if same_nocase method_str "HEAD" then modW (set_method METHOD_HEAD)
  else if same_nocase method_str "POST" then modW (set_method METHOD_POST)
  else send_error h 501 "Not Implemented" "" "That method is not implemented.".

(** ** The file *)

(** A new text for the file; what stands in the path changes with it. *)
Definition change_file (f : cstr) : W () :=
  w ← getW;
  match place_ w with
  | InPath _ => modW (λ w, set_path (Some ("/"%char :: f)) (set_file f w))
  | Own => modW (set_file f)
  | Constant => faultW
  end.

Definition virtual_file : W () :=
  modW (λ w,
    let name := map tolower (default (local_addr w) (host (hdrs w))) in
    set_place Own (set_file (take 9999 (name ++ "/" ++ file w)) (set_req_hostname (Some name) w))).

(** The name of the file in the path, with the refusals. *)
Definition file_name (lead : nat) : W () :=
  w ← getW;
  let p := strdecode (default [] (path w)) in
  _ ← modW (set_path (Some p));
  match p with
  | "/"%char :: f =>
      if someone_in_use (ses w) then
        send_error h 401 "Unauthorized" "" "Another Administrator online."
      else
        f ← liftW (de_dotdot f);
        _ ← modW (λ w, set_path (Some ("/"%char :: f)) (set_file f (set_place (InPath (S lead)) w)));
        _ ← (if decide (f = []) then modW (λ w, set_file "./" (set_place Constant w)) else mret tt);
        w ← getW;
        if illegal_name (file w) then send_error h 400 "Bad Request" "" "Illegal filename."
        else if vhost h then virtual_file else mret tt
  | _ => send_error h 400 "Bad Request" "" "Bad filename."
  end.

(** [stat], and [get_pathinfo] when that fails; a name that is a constant
    cannot be cut. *)
Definition find_file : W () :=
  w ← getW;
  match www_stat (mach w) (file w) with
  | Some e => modW (set_sb e)
  | None =>
      match place_ w with
      | Constant => faultW
      | _ =>
          match get_pathinfo (www_stat (mach w)) (file w) with
          | Some (f, info, e) => _ ← change_file f; modW (λ w, set_pathinfo (Some info) (set_sb e w))
          | None => send_error h 404 "Not Found" "" "File not found."
          end
      end
  end.

(** The text without slashes at its end. *)
Definition strip_slashes (f : cstr) : cstr := rev (skip_while ["/"%char] (rev f)).

Definition index_names : list cstr :=
  ["setup.cgi" : cstr; "index.html" : cstr; "index.htm" : cstr; "index.xhtml" : cstr;
   "index.xht" : cstr; "Default.htm" : cstr].

(** The index files of a directory.  Once one was sent, [file] is the buffer
    that the name of the next is formatted into from [file]. *)
Fixpoint index_loop (dir : cstr) (names : list cstr) (served : bool) : W () :=
  match names with
  | [] => mret tt
  | name :: names =>
      if served then faultW
      else
        let top := bool_decide (dir = "./") in
        _ ← (if top then modW (set_query "next_file=login.htm&no=0") else mret tt);
        let idx := if top then name else take 9999 (dir ++ name) in
        w ← getW;
        match www_stat (mach w) idx with
        | Some e =>
            _ ← modW (λ w, set_sb e (set_file idx (set_place Own w)));
            _ ← do_file; index_loop dir names true
        | None => index_loop dir names false
        end
  end.

Definition serve_directory : W () :=
  w ← getW;
  if negb (bool_decide (last (file w) = Some "/"%char)) && bool_decide (pathinfo w = None) then
    let p := default [] (path w) in
    let location := take 9999 (if decide (query w = []) then ("Location: " : cstr) ++ p ++ "/"
                               else ("Location: " : cstr) ++ p ++ "/?" ++ query w) in
    send_error h 302 "Found" location "Directories must end with a slash."
  else index_loop (file w) index_names false.

Definition serve_file : W () :=
  w ← getW;
  _ ← (if decide (last (file w) = Some "/"%char) then change_file (strip_slashes (file w)) else mret tt);
  do_file.

(** The variables of a request at its beginning. *)
Definition start_request (w : web) : web :=
  set_remoteuser None (set_method METHOD_UNKNOWN (set_path None (set_file [] (set_pathinfo None
    (set_query [] (set_protocol None (set_req_hostname None (set_hdrs no_headers w)))))))).

Definition handle_request : W () :=
  _ ← modW start_request;
  _ ← modW (λ w, let '(r, rest) := read_request (input w) [] in set_input rest (set_request r w));
  first ← first_line;
  let '(method_str, lead) := (first : cstr * nat) in
  _ ← redirect;
  w ← getW;
  _ ← read_headers (S (length (request w)));
  _ ← set_method_of method_str;
  w ← getW;
  _ ← (if has "ptimeout.cgi" (default [] (path w))
       then _ ← NEEDCHECKPW; send_authenticateWarning h else mret tt);
  _ ← file_name lead;
  _ ← find_file;
  w ← getW;
  if is_dir (sb w) then serve_directory else serve_file.
End serve.

(** * The main process of the web server (mini_httpd.c)

    The main loop accepts a connection, looks whether it may be served, notes
    who is there and forks a child; the child's signals arrive at any later
    time, in any order ([server_step]). *)

Section main.
Context `{Www} (h : httpd).

(** ** Clients of the radio *)

(** The first and the fourth word of a line of [/proc/net/arp]; the buffers
    hold 16 and 18 characters. *)
Definition arp_words (line : cstr) : outcome (option cstr * option cstr) :=
  let words := strtok_all [" "; "009"; "010"; "013"; "011"; "012"]%char line in
  let ip := words !! 0%nat in
  let mac := words !! 3%nat in
  if (default 0%nat (length <$> ip) <? 17)%nat && (default 0%nat (length <$> mac) <? 19)%nat
  then Done (ip, mac) else Fault.

(** The hardware address of [addr]; [wl_ipaddr] keeps its text, if any, when a
    line has no word. *)
Fixpoint arp_loop (fuel : nat) (addr : cstr) (data : bytes) (wl_ipaddr : option cstr) : outcome cstr :=
  match fuel with
  | O => Stuck
  | S fuel =>
      match fgets 256 data with
      | None => Done []
      | Some (line, rest) =>
          x ← arp_words line;
          match (match x.1 with Some ip => Some ip | None => wl_ipaddr end : option cstr) with
          | None => Fault
          | Some ip =>
              if decide (ip = addr) then Done (default [] x.2)
              else arp_loop fuel addr rest (Some ip)
          end
      end
  end.

Fixpoint mac_listed (fuel : nat) (data : bytes) (mac : cstr) : bool :=
  match fuel with
  | O => false
  | S fuel =>
      match fgets 256 data with
      | None => false
      | Some (line, rest) => has mac line || mac_listed fuel rest mac
      end
  end.

(** [/sbin/wlanconfig ath0x list sta >> /tmp/wlan_mac], for an access point
    that is up. *)
Definition WLAN_MAC : cstr := "/tmp/wlan_mac".
Definition list_stations (vap : Z) : M sys () :=
  up ← access (("/tmp/wlan_delif.ath0" : cstr) ++ dec vap);
  if (up : bool) then
    _ ← FileSys.system (("/sbin/wlanconfig ath0" : cstr) ++ dec vap ++ " list sta >> /tmp/wlan_mac");
    s ← getS; append_file WLAN_MAC (sta_list s vap)
  else mret tt.

(** The connection comes from the radio and is not wanted. *)
Definition wlan_blocked (addr : cstr) : M sys bool :=
  p ← Nvram.nvram_safe_get "wlan_manage";
  let wlan_mgr := match p with [] => 0 | c :: _ => schar c - 48 end in
  if negb (wlan_mgr =? 0) then mret false
  else if bool_decide (":"%char ∈ addr) then mret false
  else
    arp ← read_file "/proc/net/arp";
    mac ← (match arp with
           | None => mret []
           | Some data => liftO (arp_loop (S (length data)) addr data None)
           end);
    if decide (mac = []) then mret false
    else
      _ ← list_stations 0; _ ← list_stations 1; _ ← list_stations 2; _ ← list_stations 3;
      macs ← read_file WLAN_MAC;
      _ ← unlink WLAN_MAC;
      mret match macs with
           | None => false
           | Some data => mac_listed (S (length data)) data (map tolower mac)
           end.

(** ** Who is there *)

Definition new_client (addr : cstr) (s : session) : session :=
  Session (last_access_time s) false addr (remote_ip s) (still_timeout s).

(** The session at a connection from [addr]; [LOGOUT] here signals the parent
    of the main process, and the variables keep their values. *)
Definition note_client (up : Z) (addr : cstr) (s : session) : session :=
  if decide (last_remote_ip s = []) then new_client addr s
  else if negb (bool_decide (remote_ip s = addr)) && negb (check_timeout h s up)
          && negb (last_access_time s =? 0)
  then Session (last_access_time s) false (remote_ip s) (last_remote_ip s) (still_timeout s)
  else new_client addr s.

(** ** The handlers of signals *)

Definition handle_logout (s : session) : session :=
  Session 0 (someone_in_use s) (remote_ip s) (last_remote_ip s) false.
Definition handle_web_time (up : Z) (s : session) : session :=
  Session up (someone_in_use s) (remote_ip s) (last_remote_ip s) (still_timeout s).
Definition handle_timeout_stat (s : session) : session :=
  Session (last_access_time s) (someone_in_use s) (remote_ip s) (last_remote_ip s) true.

(** The file of [AddLOGFlag] goes with the session. *)
Definition handle_signal (sg : signal) (up : Z) (s : session) (m : sys) : session * sys :=
  match sg with
  | SIGHUP => (handle_logout s, set_files (delete LOG_ENANLE (files m)) m)
  | SIGUSR2 => (handle_web_time up s, m)
  | SIGINT => (handle_timeout_stat s, m)
  end.

(** ** The server *)

Record server : Type := Server {
  s_ses : session;
  s_mach : sys;
  s_uptime : Z;
  pending : list signal;           (** sent by children, not yet handled *)
}.

(** A connection: the addresses of its ends, its kind, the time, and what the
    client sends. *)
Record connection : Type := Connection {
  c_addr : cstr; c_local : cstr; c_ssl : bool; c_now : Z; c_input : list bytes;
}.

(** The state of the child that is forked for it. *)
Definition child (c : connection) (s : session) (m : sys) (up : Z) : web :=
  Web s m up (c_now c) (c_ssl c) (c_addr c) (c_local c) (c_input c) [] [] METHOD_UNKNOWN None [] []
    Constant None (Entry false 0 0) [] None no_headers None None false [].

Definition signals_of (es : list event) : list signal :=
  omap (λ e, match e with Signalled sg => Some sg | _ => None end) es.

(** One round of the main loop with the child run to its end: nothing for a
    connection that is closed at once. *)
Definition serve (c : connection) (s : server) : outcome (list event * server) :=
  b ← wlan_blocked (c_addr c) (s_mach s);
  let '(blocked, m) := (b : bool * sys) in
  if blocked then Done ([], Server (s_ses s) m (s_uptime s) (pending s))
  else
    let ses := note_client (s_uptime s) (c_addr c) (s_ses s) in
    match handle_request h (child c ses m (s_uptime s)) with
    | Done (_, w) => Done (events w, Server ses (mach w) (s_uptime s) (pending s ++ signals_of (events w)))
    | Fault => Fault
    | Stuck => Stuck
    end.

(** A step is labelled with the connection that is served, if any. *)
Inductive server_step : option connection → server → server → Prop :=
  | step_serve c es s s' : serve c s = Done (es, s') → server_step (Some c) s s'
  | step_signal s a sg b :
      pending s = a ++ sg :: b →
      server_step None s (Server (handle_signal sg (s_uptime s) (s_ses s) (s_mach s)).1
                                 (handle_signal sg (s_uptime s) (s_ses s) (s_mach s)).2
                                 (s_uptime s) (a ++ b))
  | step_time s t :
      s_uptime s <= t → server_step None s (Server (s_ses s) (s_mach s) t (pending s)).
End main.
