(* ===== verification/WebCorrect.v ===== *)
(** * Lemmas about the web server

    A logic for programs that end, exit or fault; the loops end; what every
    request keeps. *)

From S2P Require Import Prelude CLib Utility FileSys CfgStore ApCfgLists WebText WebTextCorrect Web WebServe.

(** * A logic for the programs of the web server

    [sends m w Q R]: from [w] the program ends with [Q], exits with [R], or
    does something that C leaves undefined; it does not run for ever.  [stays]
    says that a program keeps a predicate in both cases.  The answers of the
    server keep the [core] of the state. *)

Definition sends {A} (m : W A) (w : web) (Q : A → web → Prop) (R : web → Prop) : Prop :=
  match m w with
  | Done (Some a, w') => Q a w'
  | Done (None, w') => R w'
  | Fault => True
  | Stuck => False
  end.

(** ** The rules *)

Section rules.
Context {A B : Type}.

Lemma sends_bind (m : W A) (k : A → W B) w Q R :
  sends m w (λ a w', sends (k a) w' Q R) R → sends (m ≫= k) w Q R.
Proof. unfold sends, mbind, W_bind. by destruct (m w) as [[[a|] w']| |]. Qed.

Lemma sends_mono (m : W A) w (Q Q' : A → web → Prop) (R R' : web → Prop) :
  sends m w Q R → (∀ a w', Q a w' → Q' a w') → (∀ w', R w' → R' w') → sends m w Q' R'.
Proof. unfold sends. destruct (m w) as [[[a|] w']| |]; naive_solver. Qed.

Lemma sends_ret (a : A) w (Q : A → web → Prop) R : Q a w → sends (mret a) w Q R.
Proof. done. Qed.
Lemma sends_get w (Q : web → web → Prop) R : Q w w → sends getW w Q R.
Proof. done. Qed.
Lemma sends_mod f w (Q : () → web → Prop) R : Q tt (f w) → sends (modW f) w Q R.
Proof. done. Qed.
Lemma sends_exit w (Q : A → web → Prop) (R : web → Prop) : R w → sends exitW w Q R.
Proof. done. Qed.
Lemma sends_fault w (Q : A → web → Prop) (R : web → Prop) : sends faultW w Q R.
Proof. done. Qed.
Lemma sends_lift (o : outcome A) w (Q : A → web → Prop) (R : web → Prop) :
  o ≠ Stuck → (∀ a, o = Done a → Q a w) → sends (liftW o) w Q R.
Proof. unfold sends, liftW. destruct o; naive_solver. Qed.
End rules.

(** What the calls on files do. *)
Lemma sends_read path w (Q : option bytes → web → Prop) R :
  Q (files (mach w) !! path) w → sends (sysW (read_file path)) w Q R.
Proof. by destruct w. Qed.
Lemma sends_access path w (Q : bool → web → Prop) R :
  Q (bool_decide (is_Some (files (mach w) !! path))) w → sends (sysW (access path)) w Q R.
Proof. by destruct w. Qed.
Lemma sends_write path data w (Q : () → web → Prop) R :
  Q tt (set_mach (set_files (<[path := data]> (files (mach w))) (mach w)) w) →
  sends (sysW (write_file path data)) w Q R.
Proof. done. Qed.
Lemma sends_unlink path w (Q : () → web → Prop) R :
  Q tt (set_mach (set_files (delete path (files (mach w))) (mach w)) w) →
  sends (sysW (unlink path)) w Q R.
Proof. done. Qed.

(** ** Programs that keep a predicate *)

Definition stays {A} (P : web → Prop) (m : W A) : Prop :=
  ∀ w, P w → sends m w (λ _, P) P.

Section stays.
Context (P : web → Prop).

Lemma stays_bind {A B} (m : W A) (k : A → W B) :
  stays P m → (∀ a, stays P (k a)) → stays P (m ≫= k).
Proof.
  intros Hm Hk w Hw. apply sends_bind. eapply sends_mono; [by apply Hm| |done].
  intros a w' Hw'. by apply Hk.
Qed.
Lemma stays_ret {A} (a : A) : stays P (mret a).
Proof. by intros w. Qed.
Lemma stays_get : stays P getW.
Proof. by intros w. Qed.
Lemma stays_exit {A} : stays P (exitW : W A).
Proof. by intros w. Qed.
Lemma stays_fault {A} : stays P (faultW : W A).
Proof. by intros w. Qed.
Lemma stays_lift {A} (o : outcome A) : o ≠ Stuck → stays P (liftW o).
Proof. intros Ho w Hw. by apply sends_lift. Qed.
Lemma stays_mod f : (∀ w, P w → P (f w)) → stays P (modW f).
Proof. intros H w Hw. by apply H. Qed.
(** Programs that do not come back. *)
Definition leaves {A} (m : W A) : Prop := ∀ w, P w → sends m w (λ _ _, False) P.

Lemma leaves_stays {A} (m : W A) : leaves m → stays P m.
Proof. intros Hm w Hw. eapply sends_mono; [by apply Hm|done|done]. Qed.
Lemma leaves_exit {A} : leaves (exitW : W A).
Proof. by intros w. Qed.
Lemma leaves_fault {A} : leaves (faultW : W A).
Proof. by intros w. Qed.
Lemma leaves_bind {A B} (m : W A) (k : A → W B) :
  stays P m → (∀ a, leaves (k a)) → leaves (m ≫= k).
Proof.
  intros Hm Hk w Hw. apply sends_bind. eapply sends_mono; [by apply Hm| |done].
  intros a w' Hw'. by apply Hk.
Qed.

Lemma stays_read path : stays P (sysW (read_file path)).
Proof. intros w Hw. by apply sends_read. Qed.
Lemma stays_access path : stays P (sysW (access path)).
Proof. intros w Hw. by apply sends_access. Qed.
End stays.

Create HintDb web discriminated.
#[export] Hint Resolve stays_ret stays_get stays_exit stays_fault stays_read stays_access : web.

(** Splits [stays P m], or [leaves P m], along the structure of [m]. *)
Ltac stays_steps :=
  repeat first
    [ solve [auto with web nocore]
    | apply stays_bind; [|intros ?]
    | progress case_match | progress cbv beta zeta ].

Ltac leaves_steps :=
  repeat lazymatch goal with
    | |- leaves _ (mbind _ _) => apply leaves_bind; [|intros ?]
    | |- leaves _ exitW => apply leaves_exit
    | |- leaves _ faultW => apply leaves_fault
    | |- leaves _ _ => progress case_match
    | |- stays _ _ => solve [stays_steps]
    end.

(** ** The answers keep the core *)

(** The names of the files that were shown and of the programs that were run. *)
Definition shown (e : event) : option cstr :=
  match e with
  | SentFile f _ => Some f
  | Executed (Some d) b _ _ _ _ => Some (d ++ "/"%char :: b)
  | Executed None b _ _ _ _ => Some b
  | _ => None
  end.
Definition served (w : web) : list cstr := omap shown (events w).

(** What the decision on a request depends on, and what was shown. *)
Record core_of : Type := Core {
  k_ses : session; k_uptime : Z; k_mach : sys; k_hdrs : headers; k_query : cstr; k_file : cstr;
  k_served : list cstr;
}.
Definition core (w : web) : core_of :=
  Core (ses w) (uptime w) (mach w) (hdrs w) (query w) (file w) (served w).

(** A predicate that depends on the core alone. *)
Definition on_core (P : web → Prop) : Prop := ∀ w w', core w = core w' → P w → P w'.

Lemma served_app es w : served (set_events es w) = omap shown es.
Proof. done. Qed.

Lemma omap_snoc {A B} (f : A → option B) l x :
  omap f (l ++ [x]) = omap f l ++ match f x with Some y => [y] | None => [] end.
Proof. rewrite omap_app. cbn. by destruct (f x). Qed.

Section answers.
Context `{Www} (h : httpd) (P : web → Prop) (HP : on_core P).

Lemma stays_mod_core f : (∀ w, core (f w) = core w) → stays P (modW f).
Proof. intros Hf. apply stays_mod. intros w. by apply HP. Qed.

Lemma stays_happens e : shown e = None → stays P (happens e).
Proof.
  intros He. apply stays_mod_core. intros w. unfold core, served. cbn. by rewrite omap_snoc, He, app_nil_r.
Qed.

Lemma stays_kill s : stays P (kill_parent s).
Proof. by apply stays_happens. Qed.
Lemma stays_add t : stays P (add_to_response t).
Proof. by apply stays_mod_core. Qed.
Lemma stays_text t : stays P (add_text t).
Proof. unfold add_text. repeat case_decide; auto using stays_add with web. Qed.
Lemma stays_line t : stays P (add_line t).
Proof. apply stays_text. Qed.
Lemma stays_header n v : stays P (header n v).
Proof. apply stays_line. Qed.
Lemma stays_start : stays P start_response.
Proof. by apply stays_mod_core. Qed.
Lemma stays_send_response : stays P send_response.
Proof. unfold send_response. stays_steps. by apply stays_happens. Qed.
Hint Resolve stays_kill stays_add stays_text stays_line stays_header stays_start stays_send_response : web.

Lemma stays_log s b : stays P (make_log_entry h s b).
Proof.
  unfold make_log_entry. stays_steps.
  1: by apply stays_mod_core. all: by apply stays_happens.
Qed.
Hint Resolve stays_log : web.

Lemma stays_headers s t e me mt b m : stays P (add_headers h s t e me mt b m).
Proof. unfold add_headers. stays_steps. Qed.
Lemma stays_error_file f : stays P (send_error_file f).
Proof. unfold send_error_file. stays_steps. Qed.
Lemma stays_builtin s t x : stays P (builtin_page s t x).
Proof. unfold builtin_page. stays_steps. Qed.
Hint Resolve stays_headers stays_error_file stays_builtin : web.
Lemma stays_error_body s t x : stays P (send_error_body h s t x).
Proof. unfold send_error_body. stays_steps. Qed.
Hint Resolve stays_error_body : web.

Lemma leaves_send_error {A} s t e x : leaves P (send_error h s t e x : W A).
Proof. unfold send_error. leaves_steps. Qed.
Lemma leaves_page {A} p : leaves P (send_page h p : W A).
Proof. unfold send_page. leaves_steps. Qed.
Lemma stays_send_error {A} s t e x : stays P (send_error h s t e x : W A).
Proof. apply leaves_stays, leaves_send_error. Qed.
Lemma stays_page {A} p : stays P (send_page h p : W A).
Proof. apply leaves_stays, leaves_page. Qed.
Hint Resolve @stays_send_error @stays_page : web.

Lemma stays_mgt_addr : stays P mgt_addr.
Proof. unfold mgt_addr. stays_steps. Qed.
Lemma stays_local_path p : stays P (local_path p).
Proof. unfold local_path. stays_steps. Qed.
Hint Resolve stays_mgt_addr stays_local_path : web.
Lemma leaves_auto_https {A} p : leaves P (sendAutoHttps h p : W A).
Proof. unfold sendAutoHttps. leaves_steps; apply leaves_page. Qed.
Lemma leaves_auto_http {A} p : leaves P (sendAutoHttp h p : W A).
Proof. unfold sendAutoHttp. leaves_steps; apply leaves_page. Qed.
Lemma stays_redirect : stays P (redirect h).
Proof. unfold redirect, sendAutoHttps, sendAutoHttp. stays_steps. Qed.
Lemma stays_timed_out : stays P (timed_out h).
Proof. unfold timed_out. stays_steps. Qed.
Lemma stays_check_referer : stays P (check_referer h).
Proof. unfold check_referer. stays_steps; by apply stays_happens. Qed.
Lemma stays_set_method m : stays P (set_method_of h m).
Proof. unfold set_method_of. stays_steps; by apply stays_mod_core. Qed.

(** Leaving for the login page; only the way home touches a file. *)
Lemma stays_return_text type : type ≠ 3 → stays P (return_text type).
Proof.
  intros Ht. unfold return_text. rewrite (proj2 (Z.eqb_neq type 3)) by done.
  stays_steps; by apply stays_happens.
Qed.
Lemma leaves_send_return {A} type :
  stays P (return_text type) → leaves P (send_return type : W A).
Proof. intros Ht. unfold send_return, LOGOUT. leaves_steps. Qed.
End answers.

#[export] Hint Resolve stays_kill stays_text stays_send_response stays_log stays_headers stays_send_error
  stays_page stays_redirect stays_timed_out stays_check_referer stays_set_method : web.

(** * The loops of the web server end

    None of the loops runs out of its fuel: each round leaves less to read. *)

Lemma outcome_ends {A B} (o : outcome A) (k : A → outcome B) :
  o ≠ Stuck → (∀ a, o = Done a → k a ≠ Stuck) → o ≫= k ≠ Stuck.
Proof. destruct o; cbn; naive_solver. Qed.

Lemma rd_str_ends m : rd_str m ≠ Stuck.
Proof. induction m as [|c m IH]; cbn; [done|]. case_decide; [done|]. by apply outcome_ends. Qed.
Lemma at_buf_ends m i : at_buf m i ≠ Stuck.
Proof. unfold at_buf. by case_match. Qed.
Lemma put_ends m i c : put m i c ≠ Stuck.
Proof. unfold put. by case_decide. Qed.
Lemma put_length m i c m' : put m i c = Done m' → length m' = length m.
Proof. unfold put. case_decide; intros E; simplify_eq. by rewrite length_insert. Qed.
Lemma nuke_newline_ends l : nuke_newline l ≠ Stuck.
Proof. unfold nuke_newline. by repeat case_match. Qed.
#[local] Hint Resolve rd_str_ends at_buf_ends put_ends nuke_newline_ends : web.

(** ** Reading lines *)

Lemma need_loop_ends fuel data : (length data < fuel)%nat → need_loop fuel data ≠ Stuck.
Proof.
  revert data. induction fuel as [|fuel IH]; intros data Hf; [lia|]. cbn [need_loop].
  destruct (fgets LINE_SIZE data) as [[l rest]|] eqn:E; [|done].
  apply fgets_leaves_less in E; [|unfold LINE_SIZE; lia].
  apply outcome_ends; [auto with web|]. intros l' _. case_match; [done|]. apply IH. lia.
Qed.

Lemma needPassword_ends file : needPassword file ≠ Stuck.
Proof. destruct file; [|done]. apply need_loop_ends. lia. Qed.

Lemma password_of_ends data name : password_of data name ≠ Stuck.
Proof.
  unfold password_of. assert (length data < S (length data))%nat as Hf by lia.
  revert Hf. generalize (S (length data)). intros fuel. revert data.
  induction fuel as [|fuel IH]; intros data Hf; [lia|]. cbn [find_entry].
  destruct (fgets BUF data) as [[l rest]|] eqn:E; [|done].
  apply fgets_leaves_less in E; [|by apply Nat.ltb_lt].
  apply outcome_ends; [auto with web|]. intros l' _. case_decide; [|apply IH; lia].
  destruct (span_until _ _). case_decide; [done|]. apply IH. lia.
Qed.

(** ** Decoding *)

Lemma at_buf_inside m i c : at_buf m i = Done c → (i < length m)%nat.
Proof. unfold at_buf. destruct (m !! i) eqn:E; [|done]. by apply lookup_lt_Some in E. Qed.

Lemma unescape_loop_ends fuel m p s :
  (0 < fuel)%nat → (length m < fuel + s)%nat → unescape_loop fuel m p s ≠ Stuck.
Proof.
  revert m p s. induction fuel as [|fuel IH]; intros m p s Hf Hl; [lia|]. cbn [unescape_loop].
  apply outcome_ends; [auto with web|]. intros c Hs%at_buf_inside.
  case_decide; [auto with web|]. case_decide.
  - apply outcome_ends; [auto with web|]. intros hc _.
    apply outcome_ends; [case_decide; auto with web; done|]. intros m1 Hm1.
    assert (length m1 = length m) as E1.
    { revert Hm1. case_decide; [by intros [= ->]|apply put_length]. }
    apply outcome_ends; [auto with web|]. intros l _.
    destruct (decide (l = NUL)); [apply IH; lia|].
    apply outcome_ends; [auto with web|]. intros o _.
    apply outcome_ends; [auto with web|]. intros m2 Hm2%put_length. apply IH; lia.
  - apply outcome_ends; [auto with web|]. intros m1 Hm1%put_length. apply IH; lia.
Qed.

Lemma b64_decode_ends str size : b64_decode str size ≠ Stuck.
Proof.
  unfold b64_decode. generalize 0 at 1. generalize 0. generalize (@nil ascii).
  induction str as [|c str IH]; intros sp pv ph; cbn [b64_loop]; [done|].
  apply outcome_ends; [unfold b64_index; by repeat case_match|]. intros d _.
  by case_match.
Qed.

Lemma text_at_ends m p : text_at m p ≠ Stuck.
Proof. apply rd_str_ends. Qed.
#[local] Hint Resolve text_at_ends b64_decode_ends : web.

Lemma value_at_ends m p l : value_at m p l ≠ Stuck.
Proof.
  apply outcome_ends; [auto with web|]. intros t _. case_match; [|done].
  apply outcome_ends; [auto with web|done].
Qed.
Lemma cut_value_ends m p : cut_value m p ≠ Stuck.
Proof.
  apply outcome_ends; [auto with web|]. intros v _. case_decide; [|done].
  apply outcome_ends; [auto with web|done].
Qed.
Lemma decode_value_ends m p : decode_value m p ≠ Stuck.
Proof.
  apply outcome_ends; [apply unescape_loop_ends; lia|]. intros m1 _.
  apply outcome_ends; [auto with web|]. intros t _. apply outcome_ends; [auto with web|done].
Qed.
#[local] Hint Resolve value_at_ends cut_value_ends decode_value_ends : web.

Lemma name_pwd_ends ck : name_pwd ck ≠ Stuck.
Proof.
  apply outcome_ends; [unfold cookie_buf; by case_decide|]. intros m _.
  apply outcome_ends; [auto with web|]. intros [p1|] _; [|done].
  apply outcome_ends; [auto with web|]. intros [m1 p2] _.
  apply outcome_ends; [auto with web|]. intros [m2 pwd] _.
  apply outcome_ends; [auto with web|]. intros [p3|] _; [|done].
  apply outcome_ends; [auto with web|]. intros c _. apply outcome_ends; [auto with web|done].
Qed.

(** ** Content types *)

Lemma type_search_ends fuel tab ext bot top :
  (0 < fuel)%nat → 0 <= bot → top - bot + 1 < Z.of_nat fuel → type_search fuel tab ext bot top ≠ Stuck.
Proof.
  revert bot top. induction fuel as [|fuel IH]; intros bot top Hn Hb Hf; [lia|]. cbn [type_search].
  destruct (Z.ltb_spec top bot) as [|Hle]; [done|].
  assert (bot <= (top + bot) / 2 <= top) as Hm.
  { split; [apply Z.div_le_lower_bound; lia|apply Z.div_le_upper_bound; lia]. }
  destruct (tab !! _) as [[e v]|]; [|done]. repeat case_match; try done; apply IH; lia.
Qed.

Lemma figure_mime_ends enc typ name size : figure_mime enc typ name size ≠ Stuck.
Proof.
  unfold figure_mime. generalize (@nil ascii).
  assert (length name < S (length name))%nat as Hf by lia.
  revert Hf. generalize (S (length name)). intros fuel. revert name.
  induction fuel as [|fuel IH]; intros name Hf me; [lia|]. cbn [peel].
  destruct (strrchr _ name) as [[before ext]|] eqn:E; [|done].
  apply strrchr_some in E as [-> _]. rewrite length_app in Hf. cbn [length] in Hf.
  destruct (find _ enc) as [[? v]|]; [apply IH; lia|].
  apply outcome_ends; [apply type_search_ends; lia|done].
Qed.

(** ** Header lines *)

Lemma request_line_left r l rest :
  request_line r = Some (l, rest) → (length rest < length r)%nat.
Proof.
  revert l rest. induction r as [|c r IH]; intros l rest; cbn [request_line]; [done|].
  case_decide; [intros [= <- <-]; cbn; lia|]. case_decide.
  - destruct r as [|d r']; [intros [= <- <-]; cbn; lia|].
    case_decide; intros [= <- <-]; cbn; lia.
  - destruct (request_line r) as [[l' rest']|] eqn:E; [|done]. intros [= <- <-].
    specialize (IH _ _ eq_refl). cbn. lia.
Qed.

(** Reading the headers changes the headers, and what is left to read. *)
Lemma stays_read_headers (P : web → Prop) fuel :
  (∀ r w, P w → P (set_request r w)) → (∀ x w, P w → P (set_hdrs x w)) →
  ∀ w, (length (request w) < fuel)%nat → P w → sends (read_headers fuel) w (λ _, P) P.
Proof.
  intros Hr Hh. induction fuel as [|fuel IH]; intros w Hf Hw; [lia|]. cbn [read_headers].
  apply sends_bind. unfold get_request_line. apply sends_bind, sends_get.
  destruct (request_line (request w)) as [[l rest]|] eqn:E.
  - apply request_line_left in E. apply sends_bind, sends_mod, sends_ret.
    case_decide; [apply sends_ret; auto|].
    apply sends_bind, sends_mod, IH; [cbn; lia|auto].
  - apply sends_bind, sends_mod, sends_ret, sends_ret. auto.
Qed.

(** * What a child of the web server does, whatever the request

    One pass over [handle_request], for any predicate [J] on the machine that
    the notes of the server respect: nothing is shown unless the client is
    [granted] it, and then one file below the root. *)

Section grant.
Context (h : httpd).

(** The cookie holds a name and its password, and the session has not timed
    out. *)
Definition logged_in (w : web) : Prop :=
  ∃ ck pwd name data,
    cookie (hdrs w) = Some ck ∧ name_pwd ck = Done (Some (pwd, name)) ∧
    files (mach w) !! HTPASSWD = Some data ∧ password_of data name = Done (Some pwd) ∧
    check_timeout h (ses w) (uptime w) = false.

(** No password is set, and the session of this client has not timed out. *)
Definition unprotected (w : web) : Prop :=
  needPassword (files (mach w) !! HTPASSWD) = Done false ∧
  (last_remote_ip (ses w) ≠ remote_ip (ses w) ∨ check_timeout h (ses w) (uptime w) = false).

Definition granted (w : web) : Prop :=
  exempt (query w) (file w) = true ∨ unprotected w ∨ logged_in w.

Lemma granted_on_core : on_core granted.
Proof.
  intros w w' [= Es Eu Em Eh Eq Ef _]. unfold granted, unprotected, logged_in.
  by rewrite Es, Eu, Em, Eh, Eq, Ef.
Qed.

(** Another file of the machine changes nothing. *)
Lemma granted_mach w m :
  files m !! HTPASSWD = files (mach w) !! HTPASSWD → granted w → granted (set_mach m w).
Proof.
  intros E [Hg|[[H1 H2]|(ck & pwd & name & data & H1 & H2 & H3 & H4 & H5)]].
  - left. exact Hg.
  - right. left. rewrite <- E in H1. by split.
  - right. right. exists ck, pwd, name, data. rewrite <- E in H3. by repeat split.
Qed.
End grant.

Lemma sends_timed_out h w (Q : bool → web → Prop) R :
  Q (check_timeout h (ses w) (uptime w)) w → sends (timed_out h) w Q R.
Proof. done. Qed.

Section pass.
Context `{Www} (h : httpd) (J : sys → Prop) (forget : Prop) (ses0 : session) (up0 : Z).
Context (J_note : ∀ page m, J m → J (set_files (<[NEXTPAGE := page]> (files m)) m)).
Context (J_flag : ∀ text m, J m → J (set_files (<[LOG_ENANLE := text]> (files m)) m)).
Context (J_forget : forget → ∀ m, J m → J (set_files (delete NEXTPAGE (files m)) m)).

(** Nothing was shown so far; [F] holds of the file. *)
Definition Inv (F : cstr → Prop) (w : web) : Prop :=
  served w = [] ∧ ses w = ses0 ∧ uptime w = up0 ∧ J (mach w) ∧
  (has "Home.htm" (query w) = true → forget) ∧ F (file w).

(** At the end. *)
Definition Fin (F : cstr → Prop) (w : web) : Prop :=
  ses w = ses0 ∧ uptime w = up0 ∧ J (mach w) ∧
  (served w = [] ∨ (served w = [file w] ∧ granted h w ∧ F (file w))).

Lemma Inv_on_core F : on_core (Inv F).
Proof. intros w w' [= Es Eu Em _ Eq Ef Ev]. unfold Inv. by rewrite Es, Eu, Em, Eq, Ef, Ev. Qed.
Lemma Fin_on_core F : on_core (Fin F).
Proof.
  intros w w' E (H1 & H2 & H3 & H4). pose proof (granted_on_core h w w' E) as Hg.
  injection E as Es Eu Em _ _ Ef Ev. unfold Fin. rewrite <- Es, <- Eu, <- Em, <- Ef, <- Ev.
  naive_solver.
Qed.
Lemma Inv_Fin F F' w : Inv F w → Fin F' w.
Proof. intros (? & ? & ? & ? & _). unfold Fin. auto. Qed.
Lemma Inv_mach F m w : Inv F w → J m → Inv F (set_mach m w).
Proof. intros (H1 & H2 & H3 & H4 & H5 & H6) Hm. by repeat split. Qed.
Lemma Inv_weaken (F F' : cstr → Prop) w : Inv F w → F' (file w) → Inv F' w.
Proof. intros (? & ? & ? & ? & ? & _) ?. by repeat split. Qed.
Hint Resolve Inv_on_core Fin_on_core : web.

(** ** Leaving for the login *)

Section leave.
Context (F : cstr → Prop).

Lemma Inv_send_return {A} type : (type = 3 → forget) → leaves (Inv F) (send_return type : W A).
Proof.
  intros Ht. apply leaves_send_return; [auto with web|].
  destruct (decide (type = 3)) as [->|]; [|by apply stays_return_text; auto with web].
  unfold return_text.
  change (3 =? 1) with false. change (3 =? 2) with false. change (3 =? 3) with true. cbv iota.
  apply stays_bind; [auto with web|]. intros [d|]; [|auto with web].
  case_match; [|auto with web]. case_match. apply stays_bind; [|auto with web].
  intros w Hw. apply sends_unlink, Inv_mach; [done|]. destruct Hw as (? & ? & ? & ? & _). auto.
Qed.

Lemma Inv_timeout_return {A} : leaves (Inv F) (timeout_return : W A).
Proof.
  unfold timeout_return. apply leaves_bind; [auto with web|]. intros w.
  case_match; [|by apply Inv_send_return].
  case_match. apply leaves_bind.
  - intros w' Hw. apply sends_write, Inv_mach; [done|]. destruct Hw as (? & ? & ? & ? & _). auto.
  - intros _. case_match; by apply Inv_send_return.
Qed.

Lemma Inv_unknown {A} : leaves (Inv F) (unknown_client h : W A).
Proof.
  unfold unknown_client. apply leaves_bind; [by apply stays_mod|]. intros _.
  apply leaves_bind; [auto with web|]. intros t.
  destruct t; [apply Inv_timeout_return|by apply Inv_send_return].
Qed.
End leave.

(** ** The login *)

Lemma sends_leaves {A} (m : W A) (P : web → Prop) w Q : leaves P m → P w → sends m w Q P.
Proof. intros Hm Hw. eapply sends_mono; [by apply Hm|done|done]. Qed.

(** A program that keeps the predicate may go on with a fact about the core. *)
Lemma sends_stays {A} (m : W A) (P Q : web → Prop) w :
  stays (λ w, P w ∧ Q w) m → P w → Q w → sends m w (λ _ w, P w ∧ Q w) P.
Proof. intros Hm H1 H2. eapply sends_mono; [by apply Hm|done|by intros ? []]. Qed.

Lemma both_on_core P Q : on_core P → on_core Q → on_core (λ w, P w ∧ Q w).
Proof. intros HP HQ w w' E []. split; [by eapply HP|by eapply HQ]. Qed.
Hint Resolve both_on_core granted_on_core : web.

Lemma granted_save F w :
  Inv F w → granted h w → sends SAVETIME w (λ _ w, Inv F w ∧ granted h w) (Inv F).
Proof. intros. apply sends_stays; [|done..]. apply stays_kill. auto with web. Qed.

Lemma login_unprotected F w :
  Inv F w → needPassword (files (mach w) !! HTPASSWD) = Done false →
  sends (unprotected_page h) w (λ _ w, Inv F w ∧ granted h w) (Inv F).
Proof.
  intros Hw Hn. unfold unprotected_page. apply sends_bind, sends_get. case_bool_decide as Ei.
  - apply sends_bind, sends_timed_out. destruct (check_timeout _ _ _) eqn:Et.
    + by apply sends_leaves; [apply Inv_send_return|].
    + apply granted_save; [done|]. right. left. by split; [|right].
  - assert (granted h w) as Hg by (right; left; by split; [|left]).
    apply sends_bind. eapply sends_mono; [apply sends_stays; [|exact Hw|exact Hg]| |done].
    + apply stays_happens; auto with web.
    + intros _ w' [Hw' Hg']. by apply granted_save.
Qed.

Lemma flag_note F w :
  Inv F w → granted h w → sends AddLOGFlag w (λ _ w, Inv F w ∧ granted h w) (Inv F).
Proof.
  intros Hw Hg. unfold AddLOGFlag. apply sends_bind, sends_get. apply sends_bind, sends_access.
  assert (∀ w' t, Inv F w' → granted h w' →
    sends (happens (Logged t)) w' (λ _ w, Inv F w ∧ granted h w) (Inv F)) as Hlog.
  { intros. apply sends_stays; [|done..]. apply stays_happens; auto with web. }
  case_bool_decide; [case_match; [by apply sends_ret|auto]|].
  apply sends_bind, sends_write, Hlog.
  - apply Inv_mach; [done|]. destruct Hw as (? & ? & ? & ? & _). auto.
  - apply granted_mach; [|done]. cbn. by rewrite lookup_insert_ne.
Qed.

Lemma login_known F w name :
  Inv F w → (check_timeout h (ses w) (uptime w) = false → granted h w) →
  sends (known_client h name) w (λ _ w, Inv F w ∧ granted h w) (Inv F).
Proof.
  intros Hw Hg. unfold known_client. apply sends_bind, sends_timed_out.
  destruct (check_timeout _ _ _); [by apply sends_leaves; [apply Inv_timeout_return|]|].
  specialize (Hg eq_refl). apply sends_bind, sends_get. apply sends_bind, sends_access.
  destruct (has "Home.htm" (query w) && _) eqn:Eh.
  - apply andb_true_iff in Eh as [Eh _].
    apply sends_leaves; [apply Inv_send_return; intros _|done]. by destruct Hw as (_ & _ & _ & _ & Hf & _); auto.
  - apply sends_bind. eapply sends_mono; [by apply flag_note| |done]. intros _ w1 [Hw1 Hg1].
    apply sends_bind, sends_mod. by apply granted_save.
Qed.

Lemma login_ok F w :
  Inv F w → sends (login_check h) w (λ _ w, Inv F w ∧ granted h w) (Inv F).
Proof.
  intros Hw. unfold login_check. apply sends_bind, sends_get.
  destruct (exempt _ _) eqn:Ee.
  { assert (granted h w) by (by left).
    case_match; [|by apply sends_ret]. apply sends_stays; [|done..]. apply stays_kill. auto with web. }
  unfold cookie_check. case_decide as Hd; [done|].
  apply sends_bind, sends_read. apply sends_bind, sends_lift; [apply needPassword_ends|].
  intros need En. destruct need; cbn [negb]; [|by apply login_unprotected].
  apply sends_bind, sends_mod.
  assert (Inv F (set_not_auth false w)) as Hw1 by done.
  assert (files (mach w) = files (mach (set_not_auth false w))) as -> by done.
  revert Hw1. generalize (set_not_auth false w). clear w Hw Ee En Hd. intros w Hw.
  unfold get_name_pwd. apply sends_bind, sends_bind, sends_get.
  destruct (cookie (hdrs w)) as [ck|] eqn:Eck.
  2: { apply sends_bind, sends_mod, sends_ret. by apply sends_leaves; [apply Inv_unknown|]. }
  apply sends_lift; [apply name_pwd_ends|]. intros [[pwd name]|] En.
  2: { by apply sends_leaves; [apply Inv_unknown|]. }
  destruct (files (mach w) !! HTPASSWD) as [data|] eqn:Ed.
  2: { apply sends_leaves; [|done]. apply leaves_send_error; auto with web. }
  apply sends_bind, sends_lift; [apply password_of_ends|]. intros [c|] Ec.
  2: { by apply sends_leaves; [apply Inv_send_return|]. }
  case_decide as Ep; [|by apply sends_leaves; [apply Inv_unknown|]].
  subst c. apply login_known; [done|]. intros Et. right. right.
  exists ck, pwd, name, data. by repeat split.
Qed.

(** ** Showing *)

Lemma Fin_shown F w e :
  Inv F w → granted h w → shown e = Some (file w) →
  Fin F (set_events (events w ++ [e]) w).
Proof.
  intros (H1 & H2 & H3 & H4 & H5 & H6) Hg He. repeat split; try done. right. repeat split; try done.
  unfold served in *. cbn. by rewrite omap_snoc, He, H1.
Qed.

(** An answer that keeps the core. *)
Lemma sends_core {A} (m : W A) w (Q : A → web → Prop) (R : web → Prop) :
  (∀ P, on_core P → stays P m) → on_core R → R w →
  (∀ a w', core w = core w' → Q a w') → sends m w Q R.
Proof.
  intros Hm HR Hw HQ. eapply sends_mono; [apply (Hm (λ w', core w = core w')); [|done]|..].
  - intros w1 w2 E E'. congruence.
  - intros a w' E. by apply HQ.
  - intros w' E. exact (HR _ _ E Hw).
Qed.

Lemma refuse F {A} s t e x w (Q : A → web → Prop) : Inv F w → sends (send_error h s t e x) w Q (Fin F).
Proof.
  intros Hw. eapply sends_mono; [apply (leaves_send_error h (Inv F)); [auto with web|done]|done|].
  eapply Inv_Fin.
Qed.

Lemma do_cgi_ok F w : Inv F w → granted h w → sends (do_cgi h) w (λ _, Fin F) (Fin F).
Proof.
  intros Hw Hg. unfold do_cgi. apply sends_bind, sends_get.
  case_match; [by apply refuse|].
  destruct (strrchr "/" (file w)) as [[a b]|] eqn:Ef; (case_match; [|by apply refuse]);
    apply sends_bind, sends_mod, sends_exit, Fin_shown; try done.
  apply strrchr_some in Ef as [-> _]. done.
Qed.

Lemma send_file_ok F w : Inv F w → granted h w → sends (send_file h) w (λ _, Fin F) (Fin F).
Proof.
  intros Hw Hg. unfold send_file. apply sends_bind, sends_get.
  destruct (www_read _ _) as [data|].
  2: { apply sends_bind. eapply sends_core; [intros P HP; by apply stays_happens|auto with web|by eapply Inv_Fin|].
    intros _ w' E. apply refuse. by apply (Inv_on_core F _ _ E). }
  apply sends_bind, sends_lift; [apply figure_mime_ends|]. intros t _.
  apply sends_bind. eapply sends_core; [intros P HP; by apply stays_headers|auto with web|by eapply Inv_Fin|].
  intros _ w1 E1. apply sends_bind.
  eapply sends_core; [intros P HP; by apply stays_send_response|auto with web|apply (Fin_on_core F _ _ E1); by eapply Inv_Fin|].
  intros _ w2 E2. assert (core w = core w2) as E by congruence.
  pose proof (Inv_on_core F _ _ E Hw) as Hw2. pose proof (granted_on_core h _ _ E Hg) as Hg2.
  assert (file w = file w2) as Ef by (by injection E). rewrite Ef.
  case_match; [by eapply sends_ret, Inv_Fin|]. case_match; [|by eapply sends_ret, Inv_Fin].
  by apply sends_mod, Fin_shown.
Qed.

Lemma do_file_ok F w : Inv F w → sends (do_file h) w (λ _, Fin F) (Fin F).
Proof.
  intros Hw. unfold do_file. apply sends_bind.
  eapply sends_mono; [by apply (login_ok F)| |intros w'; by eapply Inv_Fin]. intros _ w1 [Hw1 Hg1].
  apply sends_bind, sends_get. apply sends_bind, sends_lift.
  { unfold auth_file. repeat case_match; done. }
  intros a _. destruct a.
  { apply sends_bind. eapply sends_core; [intros P HP; by apply stays_happens|auto with web|by eapply Inv_Fin|].
    intros _ w2 E. apply refuse. by apply (Inv_on_core F _ _ E). }
  apply sends_bind. eapply sends_mono; [apply (sends_stays (check_referer h) (Inv F) (granted h)); [|done..]| |intros w'; by eapply Inv_Fin].
  { apply stays_check_referer. auto with web. }
  intros _ w2 [Hw2 Hg2].
  lazymatch goal with |- sends (if ?b then _ else _) _ _ _ => destruct b end; [by apply do_cgi_ok|].
  destruct (pathinfo w1); [by apply refuse|by apply send_file_ok].
Qed.

(** ** The file *)

(** The pages are below the root unless the client names the host, and short. *)
Definition inside (f : cstr) : Prop := vhost h = false → below f ∧ (length f < 100)%nat.

Definition good_name (name : cstr) : Prop := "/"%char ∉ name ∧ (2 < length name < 20)%nat.

Lemma index_names_good : Forall good_name index_names.
Proof. unfold index_names, good_name. repeat constructor; try (cbn; lia); cbn; set_solver. Qed.

Definition rooted (f : cstr) : Prop := vhost h = false → below f.

Lemma index_file dir name :
  good_name name → inside dir → rooted (if bool_decide (dir = "./") then name else take 9999 (dir ++ name)).
Proof.
  intros [Hs Hl] Hd Hv. destruct (Hd Hv) as [Hb Hn]. case_bool_decide.
  - apply (below_index [] name); [done|lia|done].
  - rewrite take_ge; [apply below_index; [done|lia|done]|].
    rewrite length_app. transitivity 120%nat; [lia|by apply Nat.leb_le].
Qed.

Lemma index_loop_ok dir names (sent : bool) w :
  Forall good_name names → inside dir →
  (if sent then Fin rooted w else Inv (λ _, True) w) →
  sends (index_loop h dir names sent) w (λ _, Fin rooted) (Fin rooted).
Proof.
  revert sent w. induction names as [|name names IH]; intros sent w Hn Hd Hw; cbn [index_loop].
  { apply sends_ret. destruct sent; [done|by eapply Inv_Fin]. }
  apply Forall_cons in Hn as [Hn Hns]. destruct sent; [done|].
  apply sends_bind. eapply (sends_mono _ _ (λ _ : (), Inv (λ _, True)) _ (Inv (λ _, True))); [| |intros w'; by eapply Inv_Fin].
  { case_bool_decide; [apply sends_mod|by apply sends_ret].
    destruct Hw as (? & ? & ? & ? & _ & _). repeat split; done. }
  intros _ w1 Hw1. apply sends_bind, sends_get.
  destruct (www_stat _ _) as [e|]; [|by apply IH].
  apply sends_bind, sends_mod. apply sends_bind.
  eapply sends_mono; [apply (do_file_ok rooted)| |done].
  - destruct Hw1 as (? & ? & ? & ? & ? & _). repeat split; try done. cbn. by apply index_file.
  - intros [] w2 Hw2. by apply IH.
Qed.

Lemma serve_directory_ok w : Inv inside w → sends (serve_directory h) w (λ _, Fin rooted) (Fin rooted).
Proof.
  intros Hw. unfold serve_directory. apply sends_bind, sends_get.
  case_match.
  - apply refuse. by eapply Inv_weaken; [|intros Hv; apply Hw].
  - apply index_loop_ok; [apply index_names_good|by destruct Hw as (_ & _ & _ & _ & _ & Hf)|].
    by eapply Inv_weaken.
Qed.

Lemma strip_inside f : inside f → inside (strip_slashes f).
Proof.
  intros Hf Hv. destruct (Hf Hv) as [Hb Hl]. unfold strip_slashes.
  destruct (skip_while_app ["/"%char] (rev f)) as (t & E & Ht).
  apply (f_equal (@rev _)) in E. rewrite rev_involutive, rev_app_distr in E.
  assert (rev t = replicate (length t) "/"%char) as Et.
  { clear -Ht. rewrite <- length_rev. symmetry. apply replicate_as_Forall. split; [done|].
    apply Forall_rev. eapply Forall_impl; [exact Ht|]. by intros c ->%list_elem_of_singleton. }
  rewrite Et in E. rewrite E in Hb, Hl. rewrite length_app in Hl. split; [by apply below_slashes in Hb|lia].
Qed.

(** The file changes; the path may change with it. *)
Lemma change_file_ok (F F' : cstr → Prop) f w :
  Inv F w → F' f → sends (change_file f) w (λ _ w', Inv F' w' ∧ file w' = f) (Fin rooted).
Proof.
  intros (? & ? & ? & ? & ? & _) Hf. unfold change_file. apply sends_bind, sends_get.
  destruct (place_ w); [apply sends_mod|done|apply sends_mod]; by repeat split.
Qed.

Lemma serve_file_ok w : Inv inside w → sends (serve_file h) w (λ _, Fin rooted) (Fin rooted).
Proof.
  intros Hw. unfold serve_file. apply sends_bind, sends_get.
  apply sends_bind. eapply (sends_mono _ _ (λ _ : (), Inv inside) _ (Fin rooted)).
  - case_decide; [|by apply sends_ret].
    eapply sends_mono; [apply (change_file_ok inside inside); [done|]|by intros ? ? []|intros w'; exact id].
    apply strip_inside. by destruct Hw as (_ & _ & _ & _ & _ & Hf).
  - intros _ w1 Hw1. eapply sends_mono; [apply (do_file_ok inside); done|..]; intros * (? & ? & ? & Hf);
      (repeat split; [done..|]); (destruct Hf as [|(? & ? & Hf)]; [by left|right]); repeat split; try done;
      intros Hv; by apply Hf.
  - done.
Qed.

Lemma find_file_ok w : Inv inside w → sends (find_file h) w (λ _, Inv inside) (Fin rooted).
Proof.
  intros Hw. assert (inside (file w)) as Hf by (by destruct Hw as (_ & _ & _ & _ & _ & Hf)).
  unfold find_file. apply sends_bind, sends_get. destruct (www_stat _ _).
  { by apply sends_mod. }
  assert (sends (match get_pathinfo (www_stat (mach w)) (file w) with
          | Some (f, info, e) => _ ← change_file f; modW (λ w, set_pathinfo (Some info) (set_sb e w))
          | None => send_error h 404 "Not Found" "" "File not found."
          end) w (λ _, Inv inside) (Fin rooted)) as Hp.
  { destruct (get_pathinfo _ _) as [[[f info] e]|] eqn:Ep.
    2: { apply refuse. eapply Inv_weaken; [done|]. intros Hv. by apply Hf. }
    apply pathinfo_cut in Ep; [|done].
    apply sends_bind. eapply sends_mono; [apply (change_file_ok inside inside); [done|]| |done].
    - intros Hv. destruct (Hf Hv) as [Hb Hl]. rewrite Ep in Hb, Hl. rewrite length_app in Hl.
      split; [by apply below_cut in Hb|lia].
    - intros _ w1 [Hw1 _]. by apply sends_mod. }
  by destruct (place_ w).
Qed.

(** ** The first line *)

Lemma fake_path_ends p : fake_path p ≠ Stuck.
Proof. unfold fake_path. by case_decide. Qed.

(** The page noted at a timeout goes only when the path names one of two pages. *)
Lemma next_page_ok F p w :
  (has "login.htm" p = true → forget) → Inv F w → sends (next_page p) w (λ _ w', Inv F w' ∧ path w' = path w) (Inv F).
Proof.
  intros Hl Hw. unfold next_page. destruct (has "login.htm" p).
  - case_match; [by apply sends_ret|]. apply sends_unlink. split; [|done].
    apply Inv_mach; [done|]. apply J_forget; [by apply Hl|]. by destruct Hw as (_ & _ & _ & Hj & _).
  - case_match; [|by apply sends_ret]. apply sends_bind, sends_access.
    case_bool_decide; [|by apply sends_ret]. by apply sends_leaves; [apply Inv_send_return|].
Qed.

(** The query is a part of the path that was asked for. *)
Lemma query_part p url proto :
  strpbrk white (skip_while white p) = Some (url, proto) →
  has "Home.htm" (tail (span_until ["?"%char] url).2) = true → has "Home.htm" p = true.
Proof.
  intros (c & E & _)%strpbrk_parts Hq. destruct (skip_while_app white p) as (t & -> & _).
  apply has_app_r. rewrite E. apply has_app_l. rewrite (span_until_parts ["?"%char] url).
  apply has_app_r. destruct (span_until _ url).2 as [|d q]; [done|]. by apply (has_app_r _ [d]).
Qed.

(** The path that is asked for, as it is looked at and noted. *)
Definition asked_path (r : bytes) : option cstr :=
  match request_line r with
  | None => None
  | Some (l, _) =>
      match strpbrk white (cut_nul l) with
      | None => None
      | Some (_, p) =>
          if page_request p then match fake_path p with Done p => Some p | _ => None end else Some p
      end
  end.

Definition short_path (w : web) : Prop := (length (default [] (path w)) < 100)%nat.

Lemma first_line_ok F w :
  (∀ p, asked_path (request w) = Some p → has "login.htm" p = true ∨ has "Home.htm" p = true → forget) →
  Inv F w →
  sends (first_line h) w (λ _ w', Inv F w' ∧ short_path w') (Inv F).
Proof.
  intros Ha Hw. unfold first_line, get_request_line, asked_path in *.
  apply sends_bind, sends_bind, sends_get.
  assert (∀ {A} r (Q : A → web → Prop), sends (bad_request h) (set_request r w) Q (Inv F)) as Hbad.
  { intros. apply sends_leaves; [|done]. apply leaves_send_error. auto with web. }
  destruct (request_line (request w)) as [[l rest]|]; apply sends_bind, sends_mod, sends_ret; [|apply Hbad].
  destruct (strpbrk white (cut_nul l)) as [[ms p]|]; [|apply Hbad]. clear Hbad.
  apply sends_bind, sends_lift. { case_match; [apply fake_path_ends|done]. }
  intros p' Ep.
  assert (has "login.htm" p' = true ∨ has "Home.htm" p' = true → forget) as Hp.
  { apply Ha. destruct (page_request p); [by rewrite Ep|by injection Ep as ->]. }
  clear Ha. apply sends_bind, sends_mod. apply sends_bind.
  eapply sends_mono; [apply (next_page_ok F p'); [auto|done]| |done]. intros [] w1 [Hw1 _].
  apply sends_bind. unfold save_path. case_decide as Hl; [|done]. apply sends_mod.
  apply sends_bind, sends_mod.
  destruct (strpbrk white (skip_while white p')) as [[url proto]|] eqn:Eu.
  2: { apply sends_leaves; [apply leaves_send_error; auto with web|done]. }
  pose proof (query_part _ _ _ Eu) as Hq. apply strpbrk_parts in Eu as (c & Eu & _).
  destruct (span_until ["?"%char] url) as [pa q] eqn:Es. apply sends_bind, sends_mod, sends_ret.
  destruct Hw1 as (? & ? & ? & ? & _ & ?). split; [repeat split; try done|].
  - intros Hh. apply Hp. right. by apply Hq.
  - unfold short_path. cbn.
    pose proof (skip_while_length white p') as Hl1. rewrite Eu, length_app in Hl1. cbn in Hl1.
    pose proof (span_until_length ["?"%char] url) as Hl2. rewrite Es in Hl2. cbn in Hl2. lia.
Qed.

(** ** The name of the file *)

Lemma strdecode_shorter s : (length (strdecode s) <= length s)%nat.
Proof.
  assert (length (strdecode_go s) <= length s)%nat as Hg.
  { remember (length s) as n eqn:En. assert (length s <= n)%nat as Hn by lia. clear En.
    revert s Hn. induction n as [|n IH]; intros s Hn; (destruct s as [|c s]; [cbn; lia|cbn in Hn]); [lia|].
    cbn [strdecode_go]. destruct s as [|a [|b s]].
    - cbn. lia.
    - pose proof (IH [a]). cbn in *. lia.
    - case_match; cbn [length].
      + pose proof (IH s). cbn in *. lia.
      + pose proof (IH (a :: b :: s)). cbn [length] in *. lia. }
  unfold strdecode, cut_nul. pose proof (span_until_length [NUL] (strdecode_go s)). lia.
Qed.

Lemma file_name_ok lead w :
  Inv (λ _, True) w → short_path w →
  sends (file_name h lead) w (λ _, Inv inside) (Inv (λ _, True)).
Proof.
  intros Hw Hs. unfold file_name. apply sends_bind, sends_get. apply sends_bind, sends_mod.
  pose proof (strdecode_shorter (default [] (path w))) as Hd.
  assert (∀ {A} s t e x v (Q : A → web → Prop), Inv (λ _, True) v →
    sends (send_error h s t e x) v Q (Inv (λ _, True))) as Hbad.
  { intros. apply sends_leaves; [|done]. apply leaves_send_error. auto with web. }
  set (p := strdecode _) in *. clearbody p.
  destruct p as [|c f]; [by apply Hbad|].
  destruct (decide (c = "/"%char)) as [->|Hc].
  2: { destruct c as [[] [] [] [] [] [] [] []]; by apply Hbad || by destruct Hc. }
  destruct (someone_in_use (ses w)); [by apply Hbad|].
  destruct (de_dotdot_ok f) as (f' & Ef & _ & Ht & Hi & Hst & He).
  pose proof (de_dotdot_shorter _ _ Ef) as Hlf.
  apply sends_bind, sends_lift; [by rewrite Ef|]. rewrite Ef. intros ? [= <-].
  apply sends_bind, sends_mod. apply sends_bind. case_decide as Hn.
  - apply sends_mod, sends_bind, sends_get. cbn [file set_file set_place set_path].
    change (illegal_name "./") with false. cbv iota.
    assert (inside "./") as Hin by (intros _; split; [done|cbn; lia]).
    destruct (vhost h) eqn:Ev; [apply sends_mod|apply sends_ret];
      destruct Hw as (? & ? & ? & ? & ? & _); do 5 (split; [done|]); first [by intros Hv; congruence|done].
  - apply sends_ret, sends_bind, sends_get. cbn [file set_file set_place set_path].
    destruct (illegal_name f') eqn:Eil; [by apply Hbad|].
    assert (inside f') as Hin.
    { intros _. split; [by apply stays_below|]. unfold short_path in Hs. cbn in Hd. lia. }
    destruct (vhost h) eqn:Ev; [apply sends_mod|apply sends_ret];
      destruct Hw as (? & ? & ? & ? & ? & _); do 5 (split; [done|]); first [by intros Hv; congruence|done].
Qed.

(** ** A request *)

Lemma set_method_ok m w :
  Inv (λ _, True) w → short_path w →
  sends (set_method_of h m) w (λ _ w', Inv (λ _, True) w' ∧ short_path w') (Inv (λ _, True)).
Proof.
  intros Hw Hs. unfold set_method_of.
  do 3 (case_match; [by apply sends_mod|]).
  apply sends_leaves; [|done]. apply leaves_send_error. auto with web.
Qed.

Lemma handle_request_ok w :
  (∀ p, asked_path (read_request (input w) []).1 = Some p →
        has "login.htm" p = true ∨ has "Home.htm" p = true → forget) →
  events w = [] → ses w = ses0 → uptime w = up0 → J (mach w) →
  sends (handle_request h) w (λ _, Fin rooted) (Fin rooted).
Proof.
  intros Ha He Hs Hu Hj. unfold handle_request. apply sends_bind, sends_mod. apply sends_bind, sends_mod.
  cbn [input start_request set_remoteuser set_method set_path set_file set_pathinfo set_query set_protocol set_req_hostname set_hdrs].
  destruct (read_request (input w) []) as [r rest] eqn:Er. cbn [fst] in Ha.
  set (w1 := set_input rest _). assert (Inv (λ _, True) w1 ∧ request w1 = r) as [Hw1 Hr].
  { subst w1. repeat split; try done. unfold served. cbn. by rewrite He. }
  clearbody w1. clear w He Hs Hu Hj Er.
  assert (∀ v, Inv (λ _, True) v → Fin rooted v) as Hend by (intros v; by eapply Inv_Fin).
  apply sends_bind. eapply sends_mono; [apply (first_line_ok (λ _, True)); [by rewrite Hr|done]| |done].
  intros [ms lead] w2 [Hw2 Hp2]. apply sends_bind.
  eapply (sends_mono _ _ (λ _ w', Inv (λ _, True) w' ∧ short_path w') _ (Inv (λ _, True))); [| |done].
  { unfold redirect. apply sends_bind, sends_get.
    case_match; [apply sends_leaves; [apply leaves_auto_https; auto with web|done]|].
    case_match; [apply sends_leaves; [apply leaves_auto_http; auto with web|done]|].
    by apply sends_ret. }
  intros [] w3 [Hw3 Hp3]. apply sends_bind, sends_get. apply sends_bind.
  eapply sends_mono; [apply (stays_read_headers (λ w', Inv (λ _, True) w' ∧ short_path w')); [done..|lia|done]| |intros v [Hv _]; by apply Hend].
  intros [] w4 [Hw4 Hp4]. apply sends_bind.
  eapply sends_mono; [by apply set_method_ok| |done].
  intros [] w5 [Hw5 Hp5]. apply sends_bind, sends_get. apply sends_bind.
  eapply (sends_mono _ _ (λ _ w', Inv (λ _, True) w' ∧ short_path w') _ (Inv (λ _, True))); [| |done].
  { case_match; [|by apply sends_ret]. apply sends_leaves; [|done]. apply leaves_bind.
    - apply stays_kill. auto with web.
    - intros _. apply leaves_page. auto with web. }
  intros [] w6 [Hw6 Hp6]. apply sends_bind.
  eapply sends_mono; [by apply file_name_ok| |done]. intros [] w7 Hw7.
  apply sends_bind. eapply sends_mono; [by apply find_file_ok| |done]. intros [] w8 Hw8.
  apply sends_bind, sends_get. case_match; [by apply serve_directory_ok|by apply serve_file_ok].
Qed.
End pass.
