(* ===== verification/WebLock.v ===== *)
(** * Requests followed through the web server

    Pages refused after a timeout, and a request that is asked for no login. *)

From S2P Require Import Prelude CLib Utility FileSys Nvram CfgStore ApCfgLists WebText WebTextCorrect Web WebServe WebCorrect.

(** * The page noted at a timeout locks the pages of the web server

    While [/tmp/nextpage] is there, pages are refused whatever the cookie says;
    and only requests that name the login page or the home page take it away,
    over any steps of the server. *)

(** ** Running a program *)

Section run.
Context {A B : Type}.

Lemma run_bind (m : W A) (k : A → W B) w a w' : m w = Done (Some a, w') → (m ≫= k) w = k a w'.
Proof. intros E. unfold mbind, W_bind. by rewrite E. Qed.
Lemma run_exit (m : W A) (k : A → W B) w w' : m w = Done (None, w') → (m ≫= k) w = Done (None, w').
Proof. intros E. unfold mbind, W_bind. by rewrite E. Qed.
Lemma run_faults (m : W A) (k : A → W B) w : m w = Fault → (m ≫= k) w = Fault.
Proof. intros E. unfold mbind, W_bind. by rewrite E. Qed.
End run.

Lemma run_access path w :
  sysW (access path) w = Done (Some (bool_decide (is_Some (files (mach w) !! path))), w).
Proof. by destruct w. Qed.

(** The request of a connection, and the path it asks for. *)
Definition request_of (c : connection) : bytes := (read_request (c_input c) []).1.
Definition asks (c : connection) : option cstr := asked_path (request_of c).

(** The state in which the first line is read. *)
Definition reading (c : connection) (s : session) (m : sys) (up : Z) : web :=
  set_input (read_request (c_input c) []).2 (set_request (request_of c) (start_request (child c s m up))).

Section lock.
Context `{Www} (h : httpd).

Lemma handle_request_reading c s m up :
  handle_request h (child c s m up) =
  (first ← first_line h;
   let '(method_str, lead) := (first : cstr * nat) in
   _ ← redirect h;
   w ← getW;
   _ ← read_headers (S (length (request w)));
   _ ← set_method_of h method_str;
   w ← getW;
   _ ← (if has "ptimeout.cgi" (default [] (path w))
        then _ ← NEEDCHECKPW; send_authenticateWarning h else mret tt);
   _ ← file_name h lead;
   _ ← find_file h;
   w ← getW;
   if is_dir (sb w) then serve_directory h else serve_file h) (reading c s m up).
Proof.
  unfold handle_request, reading, request_of. erewrite run_bind by done. erewrite run_bind; [done|].
  unfold modW. change (input (start_request (child c s m up))) with (c_input c).
  by destruct (read_request (c_input c) []).
Qed.

(** The first line up to the path, whatever follows. *)
Lemma first_line_asked {w p} :
  asked_path (request w) = Some p →
  ∃ ms l rest n, request_line (request w) = Some (l, rest) ∧
    first_line h w =
    (_ ← next_page p;
     _ ← save_path p;
     _ ← modW (set_path (Some (skip_while white p)));
     match strpbrk white (skip_while white p) with
     | None => bad_request h
     | Some (url, proto) =>
         let '(pa, q) := span_until ["?"%char] url in
         _ ← modW (λ w, set_path (Some pa) (set_query (tail q) (set_protocol (Some proto) w)));
         mret (ms, (n + (length p - length (skip_while white p)))%nat)
     end) (set_path (Some p) (set_request rest w)).
Proof.
  unfold asked_path, first_line. destruct (request_line (request w)) as [[l rest]|] eqn:El; [|done].
  destruct (strpbrk white (cut_nul l)) as [[ms p0]|] eqn:Em; [|done].
  intros Ep. exists ms, l, rest, (if page_request p0 then 0 else length ms + 1)%nat. split; [done|].
  erewrite run_bind.
  2: { unfold get_request_line. erewrite run_bind by done. rewrite El. erewrite run_bind by done. done. }
  cbv beta zeta iota. rewrite Em. cbv beta zeta iota. erewrite run_bind.
  2: { unfold liftW. instantiate (1 := set_request rest w). instantiate (1 := p).
    destruct (page_request p0); [|by injection Ep as ->]. destruct (fake_path p0); by simplify_eq. }
  by erewrite run_bind by done.
Qed.

(** A page other than the login, the home page and the frame around them. *)
Definition locked_page (p : cstr) : bool :=
  negb (has "login.htm" p) && negb (has "Home.htm" p) && negb (has "index.htm" p) &&
  (has ".htm" p || has ".cgi" p).

(** The answer to such a request. *)
Definition login_again : list event := [Signalled SIGHUP; Wrote (to_login "login.htm&no=2")].

Lemma short_login : (length (to_login "login.htm&no=2") < BUF)%nat.
Proof. by apply Nat.ltb_lt; vm_compute. Qed.

Lemma send_return_login {A} w :
  response w = [] →
  (send_return 1 : W A) w = Done (None, set_events (events w ++ login_again) (set_response (to_login "login.htm&no=2") w)).
Proof.
  intros Hr. unfold send_return, return_text, login_again, LOGOUT. change (1 =? 1) with true. cbv iota.
  pose proof short_login as Hl. revert Hl. generalize (to_login "login.htm&no=2"). intros t Hl.
  erewrite run_bind by done. erewrite run_bind by done.
  unfold add_text. rewrite decide_True by done. erewrite run_bind by done. erewrite run_bind by done.
  unfold exitW. destruct w; cbn in *; subst. by rewrite <- app_assoc.
Qed.

Lemma refused c s m up p :
  asks c = Some p → locked_page p = true → is_Some (files m !! NEXTPAGE) →
  ∃ w, handle_request h (child c s m up) = Done (None, w) ∧ mach w = m ∧ events w = login_again.
Proof.
  intros Ha Hl Hn. rewrite handle_request_reading.
  destruct (first_line_asked (w := reading c s m up) Ha) as (ms & l & rest & n & _ & Ef).
  unfold locked_page in Hl. apply andb_true_iff in Hl as [[[Hl1 Hl2]%andb_true_iff Hl3]%andb_true_iff Hl4].
  apply negb_true_iff in Hl1.
  set (w1 := set_path (Some p) (set_request rest (reading c s m up))) in *.
  assert (next_page p w1 = Done (None,
    set_events login_again (set_response (to_login "login.htm&no=2") w1))) as En.
  { unfold next_page. rewrite Hl1, Hl2, Hl3, Hl4. cbn [andb].
    erewrite run_bind by apply run_access. rewrite bool_decide_eq_true_2 by done.
    by apply send_return_login. }
  eexists. split; [apply run_exit; rewrite Ef; apply run_exit; exact En|]. done.
Qed.

(** ** The rounds of the main loop *)

(** The page is noted. *)
Definition noted (m : sys) : Prop := is_Some (files m !! NEXTPAGE).

Lemma noted_write m path data : noted m → noted (set_files (<[path := data]> (files m)) m).
Proof.
  unfold noted. cbn. intros Hn. destruct (decide (path = NEXTPAGE)) as [->|].
  - rewrite lookup_insert_eq. by eexists.
  - by rewrite lookup_insert_ne.
Qed.
Lemma noted_delete m path : path ≠ NEXTPAGE → noted m → noted (set_files (delete path (files m)) m).
Proof. unfold noted. cbn. intros. by rewrite lookup_delete_ne. Qed.

Lemma keeps_system c : keeps noted (FileSys.system c).
Proof. by apply keeps_mod. Qed.
Lemma keeps_write path data : keeps noted (write_file path data).
Proof. apply keeps_mod. intros m. apply noted_write. Qed.
Lemma keeps_append path data : keeps noted (append_file path data).
Proof. apply keeps_mod. intros m. apply noted_write. Qed.
Lemma keeps_read path : keeps noted (read_file path).
Proof. unfold read_file. keeps_steps. Qed.
Lemma keeps_acc path : keeps noted (access path).
Proof. unfold access. keeps_steps. Qed.

Lemma keeps_unlink path : path ≠ NEXTPAGE → keeps noted (unlink path).
Proof. intros Hp. apply keeps_mod. intros m. by apply noted_delete. Qed.

Lemma keeps_nvram_safe_get name : keeps noted (Nvram.nvram_safe_get name).
Proof.
  unfold Nvram.nvram_safe_get, nvram_get_fun, Nvram.nvram_set, readFileBin, writeFileBin.
  repeat first [apply keeps_read | apply keeps_write | progress keeps_steps].
Qed.

Lemma keeps_wlan_blocked addr : keeps noted (wlan_blocked addr).
Proof.
  unfold wlan_blocked, list_stations. apply keeps_bind; [apply keeps_nvram_safe_get|]. intros p.
  repeat first [apply keeps_read | apply keeps_acc | apply keeps_system
    | apply keeps_append | by apply keeps_unlink | progress keeps_steps].
Qed.

(** A connection that does not ask for the login page or the home page. *)
Definition other_page (c : connection) : Prop :=
  ∀ p, asks c = Some p → has "login.htm" p = false ∧ has "Home.htm" p = false.

(** The child keeps the note. *)
Lemma child_keeps_noted c ses m up :
  other_page c → noted m →
  sends (handle_request h) (child c ses m up) (λ _ w, noted (mach w)) (λ w, noted (mach w)).
Proof.
  intros Hc Hn.
  eapply sends_mono; [apply (handle_request_ok h noted False ses up)|by intros ? ? (_ & _ & Hj & _)|by intros ? (_ & _ & Hj & _)].
  - intros page m'. apply noted_write.
  - intros text m'. apply noted_write.
  - intros [].
  - intros p Ea. destruct (Hc p Ea) as [-> ->]. by intros [].
  - reflexivity.
  - reflexivity.
  - reflexivity.
  - exact Hn.
Qed.

Lemma serve_keeps_noted c s es s' :
  other_page c → noted (s_mach s) → serve h c s = Done (es, s') → noted (s_mach s').
Proof.
  intros Hc Hn. unfold serve, mbind, outcome_bind.
  destruct (wlan_blocked (c_addr c) (s_mach s)) as [[b m]| |] eqn:Eb; [|done..].
  apply keeps_wlan_blocked in Eb; [|done]. destruct b; [by intros [= <- <-]|].
  pose proof (child_keeps_noted c (note_client h (s_uptime s) (c_addr c) (s_ses s)) m (s_uptime s) Hc Eb) as Hr.
  revert Hr. unfold sends. generalize (handle_request h (child c (note_client h (s_uptime s) (c_addr c) (s_ses s)) m (s_uptime s))).
  intros [[[[]|] w]| |]; [..|done|done]; intros Hr [= <- <-]; exact Hr.
Qed.

Lemma locked_other p : locked_page p = true → has "login.htm" p = false ∧ has "Home.htm" p = false.
Proof.
  unfold locked_page. intros [[[H1 H2]%andb_true_iff _]%andb_true_iff _]%andb_true_iff.
  by apply negb_true_iff in H1, H2.
Qed.

(** A locked page is refused, when the connection is not closed at once. *)
Lemma serve_locked c s es s' p :
  noted (s_mach s) → asks c = Some p → locked_page p = true → serve h c s = Done (es, s') →
  es = [] ∨ es = login_again.
Proof.
  intros Hn Ha Hl. unfold serve, mbind, outcome_bind.
  destruct (wlan_blocked (c_addr c) (s_mach s)) as [[b m]| |] eqn:Eb; [|done..].
  apply keeps_wlan_blocked in Eb; [|done]. destruct b; [intros [= <- <-]; by left|].
  destruct (refused c (note_client h (s_uptime s) (c_addr c) (s_ses s)) m (s_uptime s) p Ha Hl Eb) as (w & Er & _ & Ee).
  rewrite Er. intros [= <- <-]. by right.
Qed.

(** A step of the server in which nobody asks for the login or the home page. *)
Definition idle_step (s s' : server) : Prop :=
  ∃ l, server_step h l s s' ∧ match l with Some c => other_page c | None => True end.

Lemma idle_keeps_noted s s' : idle_step s s' → noted (s_mach s) → noted (s_mach s').
Proof.
  intros (l & Hs & Hl) Hn. destruct Hs as [c es s s' E|s a sg b E|s t Ht].
  - by eapply serve_keeps_noted.
  - destruct sg; cbn; [done| |done]. by apply noted_delete.
  - done.
Qed.

Lemma idle_trace_keeps_noted s s' : rtc idle_step s s' → noted (s_mach s) → noted (s_mach s').
Proof. induction 1; eauto using idle_keeps_noted. Qed.
End lock.

(** * A request that names the login page in its query

    [do_file] asks for no login when [login.htm] stands anywhere in the query.
    The request is followed from its first line to the program it starts. *)

(** The text of a query: nothing that ends a word, a line or a text, and short
    enough for the path to fit the buffers. *)
Definition query_text (q : cstr) : Prop :=
  (∀ c, c ∈ white → c ∉ q) ∧ NUL ∉ q ∧ (length q <= 70)%nat.

Definition program_path (q : cstr) : cstr := "/setup.cgi?" ++ q ++ " HTTP/1.0".
Definition program_line (q : cstr) : cstr := "GET " ++ program_path q.

(** ** The words of the line *)

Lemma request_line_crlf l rest :
  "010"%char ∉ l → "013"%char ∉ l → request_line (l ++ crlf ++ rest) = Some (l, rest).
Proof.
  induction l as [|c l IH]; intros H1 H2; [done|].
  apply not_elem_of_cons in H1 as [? H1], H2 as [? H2]. cbn [app request_line].
  rewrite !decide_False by done. by rewrite IH.
Qed.

Lemma program_line_free q c :
  query_text q → c ∈ (["010"; "013"; NUL]%char : list ascii) → c ∉ program_line q.
Proof.
  intros (Hw & Hn & _) Hc. unfold program_line, program_path.
  assert (c ∉ q) as Hq.
  { rewrite !elem_of_cons in Hc. destruct Hc as [->|[->|[->|Hc%elem_of_nil]]]; [apply Hw|apply Hw|done|done];
      unfold white; set_solver. }
  rewrite !not_elem_of_app.
  rewrite !elem_of_cons in Hc. destruct Hc as [->|[->|[->|Hc%elem_of_nil]]]; [..|done];
    (repeat split; [| |done|]); by apply (bool_decide_unpack _).
Qed.

Lemma program_method q : strpbrk white (program_line q) = Some ("GET" : cstr, program_path q).
Proof. reflexivity. Qed.

Lemma program_url q :
  query_text q → strpbrk white (program_path q) = Some (("/setup.cgi?" : cstr) ++ q, "HTTP/1.0" : cstr).
Proof.
  intros (Hw & _). unfold strpbrk, program_path.
  change (("/setup.cgi?" : cstr) ++ q ++ " HTTP/1.0") with ((("/setup.cgi?" : cstr) ++ q) ++ " "%char :: "HTTP/1.0").
  rewrite span_until_app; [done| |unfold white; set_solver].
  intros c Hc. rewrite not_elem_of_app. split; [|by apply Hw].
  revert c Hc. apply Forall_forall. by apply (bool_decide_unpack _).
Qed.

Lemma program_query q : span_until ["?"%char] (("/setup.cgi?" : cstr) ++ q) = ("/setup.cgi" : cstr, "?"%char :: q).
Proof. reflexivity. Qed.

Lemma program_page q : page_request (program_path q) = false.
Proof.
  unfold page_request. replace (has ".cgi" (program_path q)) with true; [done|].
  symmetry. by apply has_app_l.
Qed.

Section bypass.
Context `{Www} (h : httpd).

(** Reading the headers changes nothing but the headers and what is left. *)
Lemma read_headers_run fuel w :
  (length (request w) < fuel)%nat →
  ∃ x r, read_headers fuel w = Done (Some tt, set_hdrs x (set_request r w)).
Proof.
  revert w. induction fuel as [|fuel IH]; intros w Hf; [lia|]. cbn [read_headers].
  destruct (request_line (request w)) as [[l rest]|] eqn:E.
  - assert (get_request_line w = Done (Some (Some (cut_nul l)), set_request rest w)) as El.
    { unfold get_request_line. erewrite run_bind by done. rewrite E. by erewrite run_bind by done. }
    erewrite run_bind by exact El. cbv beta iota.
    apply request_line_left in E. case_decide.
    { exists (hdrs w), rest. by destruct w. }
    erewrite run_bind by done.
    edestruct (IH (set_hdrs (set_header (cut_nul l) (hdrs w)) (set_request rest w))) as (x & r & Ex); [cbn; lia|].
    exists x, r. exact Ex.
  - assert (get_request_line w = Done (Some None, set_request [] w)) as El.
    { unfold get_request_line. erewrite run_bind by done. rewrite E. by erewrite run_bind by done. }
    erewrite run_bind by exact El. exists (hdrs w), []. by destruct w.
Qed.

(** The server of the device: programs end in [.cgi], no check of the referer,
    no hosts and no redirection. *)
Definition plain_server : Prop :=
  cgi_pattern h = Some ("**.cgi" : cstr) ∧ url_pattern h = None ∧ vhost h = false ∧
  autohttps h = false ∧ autohttp h = false.

(** [setup.cgi] is there and starts. *)
Definition program_there : Prop :=
  ∀ m, (∃ size time, www_stat m "setup.cgi" = Some (Entry false size time)) ∧
       www_exec m None "setup.cgi" = true.

(** The request line, with the page noted at a timeout possibly forgotten. *)
Lemma program_first_line q rest w :
  query_text q → has "login.htm" q = true → request w = program_line q ++ crlf ++ rest →
  ∃ m, first_line h w = Done (Some ("GET" : cstr, 4%nat),
    set_path (Some ("/setup.cgi" : cstr)) (set_query q (set_protocol (Some ("HTTP/1.0" : cstr))
      (set_scpath (program_path q) (set_mach m (set_request rest w)))))).
Proof.
  intros Hq Hl Hr. unfold first_line.
  assert (get_request_line w = Done (Some (Some (program_line q)), set_request rest w)) as El.
  { unfold get_request_line. erewrite run_bind by done.
    rewrite Hr, request_line_crlf by (apply program_line_free; [done|set_solver]).
    erewrite run_bind by done. rewrite cut_nul_whole; [done|].
    apply program_line_free; [done|set_solver]. }
  erewrite run_bind by exact El. cbv beta iota. rewrite program_method. cbv beta iota zeta.
  rewrite program_page. erewrite run_bind by done. erewrite run_bind by done.
  assert (has "login.htm" (program_path q) = true) as Hp.
  { unfold program_path. by apply has_app_r, has_app_l. }
  assert (∃ m, next_page (program_path q) (set_path (Some (program_path q)) (set_request rest w)) =
    Done (Some tt, set_mach m (set_path (Some (program_path q)) (set_request rest w)))) as [m En].
  { unfold next_page. rewrite Hp. destruct (_ || _).
    - exists (mach w). by destruct w.
    - eexists. unfold sysW, unlink. reflexivity. }
  exists m. erewrite run_bind by exact En. unfold save_path. rewrite decide_True.
  2: { destruct Hq as (_ & _ & Hq). unfold program_path. rewrite !length_app. cbn. lia. }
  erewrite run_bind by done. change (skip_while white (program_path q)) with (program_path q).
  erewrite run_bind by done. rewrite program_url by done. cbv beta iota.
  rewrite program_query. cbv beta iota. erewrite run_bind by done.
  rewrite Nat.sub_diag. reflexivity.
Qed.

(** The file of that path. *)
Lemma program_file w lead :
  vhost h = false → someone_in_use (ses w) = false → path w = Some ("/setup.cgi" : cstr) →
  file_name h lead w = Done (Some tt,
    set_path (Some ("/setup.cgi" : cstr)) (set_file "setup.cgi" (set_place (InPath (S lead)) w))).
Proof.
  intros Hv Hs Hp. unfold file_name. erewrite run_bind by done. rewrite Hp.
  change (strdecode (default [] (Some ("/setup.cgi" : cstr)))) with ("/"%char :: list_ascii_of_string "setup.cgi").
  erewrite run_bind by done. cbv beta iota. rewrite Hs.
  change (de_dotdot (list_ascii_of_string "setup.cgi")) with (Done ("setup.cgi" : cstr)).
  erewrite run_bind by done. erewrite run_bind by done. cbv beta iota.
  rewrite decide_False by done. erewrite run_bind by done. erewrite run_bind by done.
  cbn [file set_file set_path]. change (illegal_name "setup.cgi") with false. cbv iota.
  rewrite Hv. reflexivity.
Qed.

Lemma program_do_file w q :
  plain_server → program_there → file w = "setup.cgi" → place_ w = InPath 5 → query w = q →
  has "login.htm" q = true → method w = METHOD_GET → events w = [] →
  ∃ w', do_file h w = Done (None, w') ∧ served w' = ["setup.cgi" : cstr].
Proof.
  intros (Hc & Hu & _) Hx Hf Hp Hq Hl Hm He. unfold do_file.
  assert (login_check h w = Done (Some tt, set_events [Signalled SIGHUP] w)) as El.
  { unfold login_check. erewrite run_bind by done. rewrite Hf, Hq. unfold exempt. rewrite Hl.
    rewrite !orb_true_r. change (has "upload.cgi" "setup.cgi") with false. cbn [orb negb andb].
    unfold LOGOUT, kill_parent, happens, modW. by rewrite He. }
  erewrite run_bind by exact El. erewrite run_bind by done.
  cbn [file place_ set_events]. rewrite Hf, Hp.
  change (auth_file (list_ascii_of_string "setup.cgi") (InPath 5)) with (Done false).
  erewrite run_bind by done. cbv iota.
  assert (check_referer h (set_events [Signalled SIGHUP] w) = Done (Some tt, set_events [Signalled SIGHUP] w)) as Er.
  { unfold check_referer. erewrite run_bind by done. unfold referer_ok. by rewrite Hu. }
  erewrite run_bind by exact Er. rewrite Hc.
  change (match_ (list_ascii_of_string "**.cgi") (list_ascii_of_string "setup.cgi")) with true. cbv iota.
  unfold do_cgi. erewrite run_bind by done. cbn [method set_events]. rewrite Hm.
  change (METHOD_GET =? METHOD_GET) with true. cbn [orb negb].
  cbn [file set_events]. rewrite Hf. change (strrchr "/" (list_ascii_of_string "setup.cgi")) with (@None (cstr * cstr)).
  cbv beta iota zeta. destruct (Hx (mach (set_events [Signalled SIGHUP] w))) as [_ ->].
  erewrite run_bind by done. eexists. split; [reflexivity|]. reflexivity.
Qed.

(** The whole request. *)
Lemma program_request c s m up q rest :
  plain_server → program_there → someone_in_use s = false →
  query_text q → has "login.htm" q = true → request_of c = program_line q ++ crlf ++ rest →
  ∃ w, handle_request h (child c s m up) = Done (None, w) ∧ served w = ["setup.cgi" : cstr].
Proof.
  intros Hh Hx Hs Hq Hl Hr. pose proof Hh as (_ & _ & Hv & Ha1 & Ha2).
  rewrite handle_request_reading.
  destruct (program_first_line q rest (reading c s m up) Hq Hl Hr) as [m' Ef].
  erewrite run_bind by exact Ef. clear Ef. cbv beta iota.
  erewrite run_bind.
  2: { unfold redirect. erewrite run_bind by done. rewrite Ha1, Ha2. reflexivity. }
  erewrite run_bind by done.
  lazymatch goal with |- ∃ _, (read_headers ?n ≫= _) ?w1 = _ ∧ _ =>
    destruct (read_headers_run n w1) as (x & r & Ex); [cbn; lia|] end.
  erewrite run_bind by exact Ex. clear Ex.
  erewrite run_bind by reflexivity. erewrite run_bind by done.
  erewrite run_bind by reflexivity.
  erewrite run_bind by (apply program_file; [exact Hv|exact Hs|reflexivity]).
  destruct (Hx m') as [(size & time & Est) _].
  erewrite run_bind.
  2: { unfold find_file. erewrite run_bind by done.
    lazymatch goal with |- match ?s with _ => _ end _ = _ => change s with (www_stat m' "setup.cgi") end.
    rewrite Est. reflexivity. }
  erewrite run_bind by done. cbn [is_dir sb set_sb]. cbv iota.
  unfold serve_file. erewrite run_bind by done. cbn [file set_file set_path set_sb].
  rewrite decide_False by done. erewrite run_bind by done.
  by eapply program_do_file.
Qed.
End bypass.
