(* ===== verification/WebTheorems.v ===== *)
(** * Theorems on the web server

    Who is shown a page and when nobody is asked, which files can be named, what
    a timeout leaves behind, what a pattern of names means, and where a request
    leaves the memory of the server. *)

From S2P Require Import Prelude CLib FileSys Nvram Utility CfgStore ApCfgLists WebText WebTextCorrect Web WebServe WebCorrect WebLock.

(** ** A server for the witnesses *)

(** The directory of the pages holds [setup.cgi] and a picture. *)
#[local] Instance sample_www : Www := {|
  www_stat := λ _ f, if decide (f = "setup.cgi" ∨ f = "logo.gif") then Some (Entry false 4 0)
                     else if decide (f = "./") then Some (Entry true 0 0) else None;
  www_read := λ _ f, if decide (f = "logo.gif") then Some (list_ascii_of_string "GIF8") else None;
  www_exec := λ _ _ f, bool_decide (f = "setup.cgi");
  http_date := λ _, "Thu, 01 Jan 1970 00:00:00 GMT";
  log_date := λ _, "01/Jan/1970:00:00:00 +0000";
  if_addr := λ _ _, Some (list_ascii_of_string "192.168.1.245");
  sta_list := λ _ _, [];
|}.

Definition sample_httpd : httpd :=
  Httpd 80 443 80 false false false (Some (list_ascii_of_string "**.cgi")) None None false "wap" "iso-8859-1" None (-1)
    300 false "/www/" None [] [].

Definition sample_session : session := Session 0 false "192.168.1.2" "192.168.1.2" false.
(** A machine with a password, and, or not, a noted page. *)
Definition sample_machine (note : bool) : sys :=
  Sys (if note then <[NEXTPAGE := list_ascii_of_string "Log.htm"]> (<[HTPASSWD := list_ascii_of_string "admin:admin" ++ [nl]]> ∅)
       else <[HTPASSWD := list_ascii_of_string "admin:admin" ++ [nl]]> ∅) None [].
Definition sample_connection (first : cstr) : connection :=
  Connection "192.168.1.2" "192.168.1.245" false 0 [first ++ crlf ++ crlf].

(** ** The end of a child *)

(** The file of passwords stays as it is. *)
Definition same_passwords (m m' : sys) : Prop := files m' !! HTPASSWD = files m !! HTPASSWD.

Lemma child_ends `{Www} h c s m up :
  sends (handle_request h) (child c s m up) (λ _, Fin h (same_passwords m) s up (rooted h))
    (Fin h (same_passwords m) s up (rooted h)).
Proof.
  apply (handle_request_ok h (same_passwords m) True).
  - intros page m' Hm. unfold same_passwords. cbn. by rewrite lookup_insert_ne.
  - intros text m' Hm. unfold same_passwords. cbn. by rewrite lookup_insert_ne.
  - intros _ m' Hm. unfold same_passwords. cbn. by rewrite lookup_delete_ne.
  - done.
  - reflexivity.
  - reflexivity.
  - reflexivity.
  - reflexivity.
Qed.

(** The end of a program, by its outcome. *)
Lemma sends_end (m : W ()) w (R : web → Prop) :
  sends m w (λ _, R) R → match m w with Done (_, w') => R w' | Fault => True | Stuck => False end.
Proof. unfold sends. by destruct (m w) as [[[[]|] w']| |]. Qed.

(** ** The properties *)

(** C7: A page is shown, or a program run, for at most one file, and only if no
    login is needed for it, no password is set, or the cookie holds a name with
    its password while the session has not timed out.  Every request ends, or
    does what C leaves undefined. *)
Theorem page_needs_login `{Www} h c s m up :
  match handle_request h (child c s m up) with
  | Done (_, w) =>
      ses w = s ∧ uptime w = up ∧ files (mach w) !! HTPASSWD = files m !! HTPASSWD ∧
      (served w = [] ∨
       served w = [file w] ∧
       (exempt (query w) (file w) = true ∨ unprotected h w ∨ logged_in h w))
  | Fault => True
  | Stuck => False
  end.
Proof.
  apply sends_end. eapply sends_mono; [apply child_ends|..]; intros *;
    intros (H1 & H2 & H3 & H4); repeat split; try done;
    (destruct H4 as [|(H4 & Hg & _)]; [by left|by right]).
Qed.

(** C8: Without hosts of their own, the files that are sent and the programs that
    are run lie below the root of the pages, whatever the client asks for. *)
Theorem served_below_root `{Www} h c s m up :
  vhost h = false →
  match handle_request h (child c s m up) with
  | Done (_, w) => Forall below (served w)
  | Fault => True
  | Stuck => False
  end.
Proof.
  intros Hv. apply (sends_end (handle_request h) _ (λ w, Forall below (served w))).
  eapply sends_mono; [apply child_ends|..]; intros *; intros (_ & _ & _ & H4);
    (destruct H4 as [-> |(-> & _ & Hb)]; [done|]); (constructor; [by apply Hb|done]).
Qed.

Lemma served_below_root_witness :
  match handle_request (H:=sample_www) sample_httpd
          (child (sample_connection "GET /../../logo.gif HTTP/1.0") sample_session (sample_machine false) 0) with
  | Done (_, w) => Forall below (served w)
  | Fault => True
  | Stuck => False
  end.
Proof. apply served_below_root. reflexivity. Defined.

(** C10: [de_dotdot] ends on every name and keeps where it leads below the root; a
    name it leaves that is not refused never climbs. *)
Theorem names_resolved (f : cstr) :
  ∃ f', de_dotdot f = Done f' ∧ resolve f' = resolve f ∧
    (illegal_name f' = false → climbs 0 (split_on slash f') = false).
Proof.
  destruct (de_dotdot_ok f) as (f' & E & Hr & Ht & Hi & Hs & He).
  exists f'. split; [done|]. split; [done|]. intros Hl. by apply stays_below.
Qed.

(** C9: Once a page is noted, then as long as nobody asks for the login or the home
    page, every other page is answered with the way to the login and nothing
    else, whatever the steps of the server and the cookies. *)
Theorem timeout_locks_pages `{Www} h s s' c p es s'' :
  rtc (idle_step h) s s' → is_Some (files (s_mach s) !! NEXTPAGE) →
  asks c = Some p → locked_page p = true → serve h c s' = Done (es, s'') →
  (es = [] ∨ es = [Signalled SIGHUP; Wrote (to_login "login.htm&no=2")]) ∧
  is_Some (files (s_mach s'') !! NEXTPAGE).
Proof.
  intros Hs Hn Ha Hl He. apply (idle_trace_keeps_noted h) in Hs; [|done].
  split; [|eapply serve_keeps_noted; [|exact Hs|exact He]].
  - exact (serve_locked h c s' es s'' p Hs Ha Hl He).
  - intros p' Ea. rewrite Ha in Ea. injection Ea as <-. by apply locked_other.
Qed.

Lemma timeout_locks_pages_witness :
  let s := Server sample_session (sample_machine true) 400 [] in
  let c := sample_connection "GET /setup.cgi?next_file=Setup.htm HTTP/1.0" in
  ∃ es s'', serve (H:=sample_www) sample_httpd c s = Done (es, s'') ∧
    (es = [] ∨ es = [Signalled SIGHUP; Wrote (to_login "login.htm&no=2")]) ∧
    is_Some (files (s_mach s'') !! NEXTPAGE).
Proof.
  intros s c.
  assert (∃ r, serve (H:=sample_www) sample_httpd c s = Done r) as [[es s''] E] by (vm_compute; by eexists).
  exists es, s''. split; [exact E|].
  apply (timeout_locks_pages sample_httpd s s c "/setup.cgi?next_file=Setup.htm HTTP/1.0" es s'');
    [apply rtc_refl|by eexists|vm_compute; reflexivity|vm_compute; reflexivity|exact E].
Defined.

(** C30: A path of a hundred bytes or more, with the query and the protocol, leaves
    the buffer it is saved in, before anybody is asked to log in. *)
Theorem long_path_overruns `{Www} h c s m up p :
  asks c = Some p → (100 <= length p)%nat → files m !! NEXTPAGE = None →
  handle_request h (child c s m up) = Fault.
Proof.
  intros Ha Hl Hn. rewrite handle_request_reading.
  destruct (first_line_asked h (w := reading c s m up) Ha) as (ms & l & rest & n & _ & Ef).
  apply run_faults. rewrite Ef.
  assert (∃ w', next_page p (set_path (Some p) (set_request rest (reading c s m up))) = Done (Some tt, w')) as [w' En].
  { unfold next_page. destruct (has "login.htm" p); [destruct (_ || _); eexists; reflexivity|].
    destruct (_ && _); [|eexists; reflexivity]. erewrite run_bind by apply run_access.
    rewrite bool_decide_eq_false_2; [eexists; reflexivity|].
    intros [x Hx]. change (files m !! NEXTPAGE = Some x) in Hx. congruence. }
  erewrite run_bind by exact En. apply run_faults. unfold save_path. rewrite decide_False by lia. done.
Qed.

Lemma long_path_overruns_witness :
  handle_request (H:=sample_www) sample_httpd
    (child (sample_connection ("GET /setup.cgi?" ++ replicate 90 "a"%char ++ " HTTP/1.0"))
       sample_session (sample_machine false) 0) = Fault.
Proof.
  apply (long_path_overruns sample_httpd _ _ _ _ ("/setup.cgi?" ++ replicate 90 "a"%char ++ " HTTP/1.0"));
    [vm_compute; reflexivity|vm_compute; lia|vm_compute; reflexivity].
Defined.

(** C29: A request for [setup.cgi] with [login.htm] anywhere in its query starts the
    program with that query, whatever the cookie, the file of passwords and the
    session: only another administrator keeps it out. *)
Theorem login_bypassed `{Www} h c s m up q rest :
  plain_server h → program_there → someone_in_use s = false →
  query_text q → has "login.htm" q = true → request_of c = program_line q ++ crlf ++ rest →
  ∃ w, handle_request h (child c s m up) = Done (None, w) ∧ served w = ["setup.cgi" : cstr].
Proof. apply program_request. Qed.

Lemma login_bypassed_witness :
  let c := sample_connection (program_line "todo=reboot&x=login.htm") in
  ∃ w, handle_request (H:=sample_www) sample_httpd (child c sample_session (sample_machine true) 0) = Done (None, w) ∧
    served w = ["setup.cgi" : cstr].
Proof.
  intros c. apply (login_bypassed sample_httpd c sample_session _ 0 "todo=reboot&x=login.htm" crlf).
  - by repeat split.
  - intros m. split; [by exists 4, 0|done].
  - done.
  - split; [|split].
    + intros x Hx. revert x Hx. apply Forall_forall. by apply (bool_decide_unpack _).
    + by apply (bool_decide_unpack _).
    + cbn. lia.
  - vm_compute. reflexivity.
  - vm_compute. reflexivity.
Defined.

(** C28: [match]: one of the patterns between the bars fits the text, where a
    question mark is any character, a star any text without a slash and two
    stars any text. *)
Theorem match_is_glob (pattern s : cstr) :
  match_ pattern s = true ↔ ∃ p, p ∈ split_on "|" pattern ∧ glob p s.
Proof.
  unfold match_. rewrite existsb_exists. split; intros (p & Hp & Hm); exists p.
  - apply list_elem_of_In in Hp. by apply match_one_glob in Hm.
  - apply list_elem_of_In in Hp. by apply match_one_glob in Hm.
Qed.

(** With one line in the file of passwords no login is asked for exactly when
    the password is empty and the length of the name divides by three: the line
    is read in pieces of three characters. *)
Theorem password_asked_iff (name pwd : cstr) :
  no_line name → ":"%char ∉ name → no_line pwd →
  needPassword (Some (name ++ ":"%char :: pwd ++ [nl])) =
  Done (negb (bool_decide ((length name mod 3 = 0)%nat ∧ pwd = []))).
Proof.
  intros. apply (need_loop_line (length name)); [done| |done..].
  rewrite length_app. cbn. rewrite length_app. cbn. lia.
Qed.

Lemma password_asked_iff_witness :
  needPassword (Some (list_ascii_of_string "admin" ++ ":"%char :: [] ++ [nl])) =
  Done (negb (bool_decide ((length (list_ascii_of_string "admin") mod 3 = 0)%nat ∧ [] = @nil ascii))).
Proof.
  apply (password_asked_iff "admin" []); try split; by apply (bool_decide_unpack _).
Defined.
