(* ===== verification/Led.v ===== *)
(** * The LED driver (led/led.c)

    A kernel module with one table of LEDs, two timers and the file [/proc/led]:
    a write starts or stops an LED, an expiring timer reverses every LED that
    blinks at its speed.  The driver runs with interrupts off, so a write and an
    expiry are atomic; the order in which the timers expire is arbitrary.  The
    WAP4410N build leaves out the code for the WSC LED. *)

From S2P Require Import Prelude CLib.

(** ** The GPIO registers of the AR7100 (ar7100.h) *)

Record gpio : Type := Gpio {
  GPIO_OE : Z;
  GPIO_IN : Z;
  GPIO_OUT : Z;
  GPIO_INT_ENABLE : Z;
}.

(** [reg | mask] and [reg & ~mask] on 32 bits. *)
Definition ar7100_reg_rmw_set (reg mask : Z) : Z := Z.lor reg mask.
Definition ar7100_reg_rmw_clear (reg mask : Z) : Z := Z.ldiff reg mask.

Definition bit_of (pin : Z) : Z := Z.shiftl 1 pin.

(** ** The table *)

Definition GPIO_WIRELESS : Z := 0.
Definition GPIO_POWER_GREEN : Z := 1.
Definition GPIO_POE : Z := 3.
Definition GPIO_RESERVER_LED1 : Z := 11.
Definition GPIO_RESERVER_LED2 : Z := 2.
Definition GPIO_NULL : Z := 255.

Definition LED_FAST : Z := 1.
Definition LED_SLOW : Z := 0.

Record led_data_s : Type := LedData {
  gpio_pin : Z;
  count : Z;           (** unsigned int *)
  logic : Z;           (** -1 negative, +1 *)
  speed : Z;           (** 0 slow, 1 fast *)
  last_stat : Z;       (** 0 off, 1 on, 2 previous *)
  init : Z;            (** 0 off, 1 on *)
}.

Definition led_data : list led_data_s :=
  [ LedData GPIO_POE 0 (-1) 0 2 1;
    LedData GPIO_WIRELESS 0 (-1) 0 2 0;
    LedData GPIO_POWER_GREEN 0 (-1) 0 2 1;
    LedData GPIO_NULL 0 0 0 0 0;
    LedData GPIO_RESERVER_LED1 0 (-1) 0 0 0;
    LedData GPIO_RESERVER_LED2 0 (-1) 0 0 0;
    LedData GPIO_NULL 0 0 0 0 0 ].

(** The module: registers, table, the running flags, and whether the kernel holds
    the timers. *)
Record led_state : Type := Led {
  regs : gpio;
  leds : list led_data_s;
  led_fast_timer_running : Z;
  led_slow_timer_running : Z;
  led_fast_timer : bool;
  led_slow_timer : bool;
}.

Definition set_regs (f : gpio → gpio) (s : led_state) : led_state :=
  Led (f (regs s)) (leds s) (led_fast_timer_running s) (led_slow_timer_running s)
      (led_fast_timer s) (led_slow_timer s).
Definition set_leds (l : list led_data_s) (s : led_state) : led_state :=
  Led (regs s) l (led_fast_timer_running s) (led_slow_timer_running s)
      (led_fast_timer s) (led_slow_timer s).

(** ** GPIO pins *)

Definition ar7100_gpio_config_int (pin : Z) (g : gpio) : gpio :=
  Gpio (GPIO_OE g) (GPIO_IN g) (GPIO_OUT g) (ar7100_reg_rmw_set (GPIO_INT_ENABLE g) (bit_of pin)).
Definition ar7100_gpio_config_input (pin : Z) (g : gpio) : gpio :=
  Gpio (ar7100_reg_rmw_clear (GPIO_OE g) (bit_of pin)) (GPIO_IN g) (GPIO_OUT g) (GPIO_INT_ENABLE g).
Definition ar7100_gpio_config_output (pin : Z) (g : gpio) : gpio :=
  Gpio (ar7100_reg_rmw_set (GPIO_OE g) (bit_of pin)) (GPIO_IN g) (GPIO_OUT g) (GPIO_INT_ENABLE g).

Definition ar7100_gpio_out_val (pin val : Z) (g : gpio) : gpio :=
  Gpio (GPIO_OE g) (GPIO_IN g)
       (if Z.land val 1 =? 0 then ar7100_reg_rmw_clear (GPIO_OUT g) (bit_of pin)
        else ar7100_reg_rmw_set (GPIO_OUT g) (bit_of pin))
       (GPIO_INT_ENABLE g).

(** The bit in its place. *)
Definition ar7100_gpio_out_add (pin : Z) (g : gpio) : Z := Z.land (bit_of pin) (GPIO_OUT g).
Definition ar7100_gpio_in_val (pin : Z) (g : gpio) : Z := Z.land (bit_of pin) (GPIO_IN g).

(** ** One LED *)

Definition led_on (pin logic : Z) : gpio → gpio :=
  if 0 <? logic then ar7100_gpio_out_val pin 1 else ar7100_gpio_out_val pin 0.
Definition led_off (pin logic : Z) : gpio → gpio :=
  if 0 <? logic then ar7100_gpio_out_val pin 0 else ar7100_gpio_out_val pin 1.
Definition led_init (pin init logic : Z) (g : gpio) : gpio :=
  let g := ar7100_gpio_config_output pin (ar7100_gpio_config_int pin g) in
  if init =? 0 then led_off pin logic g else led_on pin logic g.
Definition led_reverse (pin : Z) (g : gpio) : gpio :=
  if ar7100_gpio_out_add pin g =? 0 then ar7100_gpio_out_val pin 1 g else ar7100_gpio_out_val pin 0 g.

(** The digits at the front of a buffer; the value is an [int]. *)
Fixpoint atoi_go (val : Z) (name : bytes) : outcome Z :=
  match name with
  | [] => Fault
  | c :: name' =>
      if isdigit c then
        let val' := val * 10 + (code c - 48) in
        if val' <? 2 ^ 31 then atoi_go val' name' else Fault
      else Done val
  end.
Definition led_atoi (name : bytes) : outcome Z := atoi_go 0 name.

(** ** Timers *)

(** [add_timer] on a timer that is already pending is a bug check. *)
Definition add_timer (spd : Z) : M led_state unit := λ s,
  if spd =? LED_FAST then
    if led_fast_timer s then Fault
    else Done (tt, Led (regs s) (leds s) (led_fast_timer_running s) (led_slow_timer_running s)
                       true (led_slow_timer s))
  else
    if led_slow_timer s then Fault
    else Done (tt, Led (regs s) (leds s) (led_fast_timer_running s) (led_slow_timer_running s)
                       (led_fast_timer s) true).

Definition set_running (spd b : Z) (s : led_state) : led_state :=
  if spd =? LED_FAST
  then Led (regs s) (leds s) b (led_slow_timer_running s) (led_fast_timer s) (led_slow_timer s)
  else Led (regs s) (leds s) (led_fast_timer_running s) b (led_fast_timer s) (led_slow_timer s).

(** One LED at an expiry of [spd]: its entry, the registers, whether it blinks on. *)
Definition blink_one (spd : Z) (led : led_data_s) (g : gpio) : led_data_s * gpio * bool :=
  if (0 <? count led) && (speed led =? spd) then
    let g := led_reverse (gpio_pin led) g in
    let led := LedData (gpio_pin led) (count led - 1) (logic led) (speed led) (last_stat led) (init led) in
    if 0 <? count led then (led, g, true)
    else if last_stat led =? 0 then (led, led_off (gpio_pin led) (logic led) g, false)
    else if last_stat led =? 1 then (led, led_on (gpio_pin led) (logic led) g, false)
    else (led, g, false)
  else (led, g, false).

(** [for(led=led_data;led->gpio_pin!=GPIO_NULL;led++)] *)
Fixpoint blink_all (spd : Z) (l : list led_data_s) (g : gpio) (need : bool)
    : outcome (list led_data_s * gpio * bool) :=
  match l with
  | [] => Fault
  | led :: l' =>
      if gpio_pin led =? GPIO_NULL then Done (l, g, need)
      else
        let '(led1, g1, need1) := blink_one spd led g in
        r ← blink_all spd l' g1 (need || need1);
        let '(l2, g2, need2) := (r : list led_data_s * gpio * bool) in
        Done (led1 :: l2, g2, need2)
  end.

Definition led_blink_timer (spd : Z) : M led_state unit :=
  s ← getS;
  r ← liftO (blink_all spd (leds s) (regs s) false);
  let '(l, g, need_timer) := (r : list led_data_s * gpio * bool) in
  _ ← modS (λ s, set_leds l (set_regs (λ _, g) s));
  if (need_timer : bool) then add_timer spd
  else modS (set_running spd 0).

(** The entries of a pin are told to blink; [led->count] is unsigned. *)
Fixpoint blink_set (pin cnt spd last : Z) (l : list led_data_s) : outcome (list led_data_s) :=
  match l with
  | [] => Fault
  | led :: l' =>
      if gpio_pin led =? GPIO_NULL then Done l
      else
        r ← blink_set pin cnt spd last l';
        Done ((if gpio_pin led =? pin
               then LedData (gpio_pin led) (wrap32 (2 * cnt)) (logic led) spd last (init led)
               else led) :: r)
  end.

Definition led_blink (pin cnt spd last : Z) : M led_state unit :=
  s ← getS;
  l ← liftO (blink_set pin cnt spd last (leds s));
  _ ← modS (set_leds l);
  s ← getS;
  if (spd =? LED_FAST) && (led_fast_timer_running s =? 0) then
    _ ← modS (set_running LED_FAST 1); add_timer spd
  else if (spd =? LED_SLOW) && (led_slow_timer_running s =? 0) then
    _ ← modS (set_running LED_SLOW 1); add_timer spd
  else mret tt.

(** ** The file [/proc/led] *)

(** [tmp] is never written before [strlen] reads it. *)
Definition proc_read_led_fops (offp : Z) : M led_state bytes :=
  if negb (offp =? 0) then mret [] else faultM.

(** [switch(line[0])]; [rest] is the buffer from [line[1]] on. *)
Definition led_command (c : ascii) (rest : bytes) : M led_state unit :=
  let on := modS (set_regs (led_on GPIO_POWER_GREEN (-1))) in
  let power last := n ← liftO (led_atoi rest); led_blink GPIO_POWER_GREEN n LED_SLOW last in
  if decide (c = "u"%char) then _ ← on; power 1
  else if decide (c = "b"%char) then _ ← on; power 1
  else if decide (c = "r"%char) then _ ← on; power 1
  else if decide (c = "w"%char) then
    if decide (head rest = Some "0"%char) then modS (set_regs (led_off GPIO_WIRELESS (-1)))
    else n ← liftO (led_atoi rest); led_blink GPIO_WIRELESS n LED_FAST 1
  else if decide (c = "t"%char) then power 0
  else if decide (c = "d"%char) then power 1
  else mret tt.

(** A write of [buffer]: copied, with a terminator behind it, into 10 bytes of
    stack. *)
Definition proc_write_led_fops (buffer : bytes) : M led_state Z :=
  if (10 <=? zlen buffer) then faultM
  else
    match buffer with
    | [] => mret 0
    | c :: rest => _ ← led_command c (rest ++ [NUL]); mret (zlen buffer)
    end.

(** ** Loading the module *)

(** [for(i=0;led_data[i].logic!=0;i++)] *)
Fixpoint init_all (l : list led_data_s) (g : gpio) : outcome gpio :=
  match l with
  | [] => Fault
  | led :: l' =>
      if logic led =? 0 then Done g
      else init_all l' (led_init (gpio_pin led) (init led) (logic led) g)
  end.

Definition led_init_module : M led_state Z :=
  s ← getS;
  g ← liftO (init_all (leds s) (regs s));
  _ ← modS (set_regs (λ _, g));
  _ ← modS (λ s, Led (regs s) (leds s) (led_fast_timer_running s) (led_slow_timer_running s) false false);
  mret 0.

Definition led_cleanup_module : M led_state unit :=
  modS (λ s, Led (regs s) (leds s) (led_fast_timer_running s) (led_slow_timer_running s) false false).

(** The static data before the module is initialised. *)
Definition led_static (g : gpio) : led_state := Led g led_data 0 0 false false.

(** ** What can happen *)

Inductive led_event : Type :=
  | Write (buffer : bytes)
  | Expire (spd : Z).

Definition pending (spd : Z) (s : led_state) : bool :=
  if spd =? LED_FAST then led_fast_timer s else led_slow_timer s.

(** The kernel takes an expired timer off its list before it calls the function. *)
Definition take_timer (spd : Z) (s : led_state) : led_state :=
  if spd =? LED_FAST
  then Led (regs s) (leds s) (led_fast_timer_running s) (led_slow_timer_running s) false (led_slow_timer s)
  else Led (regs s) (leds s) (led_fast_timer_running s) (led_slow_timer_running s) (led_fast_timer s) false.

Definition expire (spd : Z) : M led_state unit := _ ← modS (take_timer spd); led_blink_timer spd.

Inductive led_step (s : led_state) : led_event → led_state → Prop :=
  | step_write buffer r s' :
      proc_write_led_fops buffer s = Done (r, s') → led_step s (Write buffer) s'
  | step_expire spd s' :
      spd = LED_FAST ∨ spd = LED_SLOW → pending spd s = true →
      expire spd s = Done (tt, s') → led_step s (Expire spd) s'.

Inductive led_reach : led_state → Prop :=
  | reach_init g s r : 0 <= GPIO_OUT g < 2 ^ 32 → led_init_module (led_static g) = Done (r, s) → led_reach s
  | reach_step s e s' : led_reach s → led_step s e s' → led_reach s'.
