(* ===== verification/LedCorrect.v ===== *)
(** * Lemmas about the LED driver

    The table is a list of live entries in front of the end marker.  What an
    expiry does to an entry ([tick]) and to its light ([shown]) is stated entry
    by entry; [final] is the light an entry ends with, and no expiry changes
    it. *)

From S2P Require Import Prelude CLib Led.

(** ** Pins *)

Definition lit (pin : Z) (g : gpio) : bool := negb (Z.testbit (GPIO_OUT g) pin).

Lemma bit_of_spec pin n : 0 <= pin → Z.testbit (bit_of pin) n = (n =? pin).
Proof.
  intros Hp. unfold bit_of. rewrite Z.shiftl_1_l.
  destruct (Z.eqb_spec n pin) as [->|Hne]; [by apply Z.pow2_bits_true|by apply Z.pow2_bits_false].
Qed.

Lemma bit_of_range pin : 0 <= pin < 32 → 0 <= bit_of pin < 2 ^ 32.
Proof.
  intros Hp. unfold bit_of. rewrite Z.shiftl_1_l. split; [lia|]. apply Z.pow_lt_mono_r; lia.
Qed.

Lemma out_val_lit pin val g q :
  0 <= pin → lit q (ar7100_gpio_out_val pin val g) =
    if q =? pin then Z.land val 1 =? 0 else lit q g.
Proof.
  intros Hp. unfold lit, ar7100_gpio_out_val, ar7100_reg_rmw_set, ar7100_reg_rmw_clear.
  cbn [GPIO_OUT]. destruct (Z.land val 1 =? 0).
  - rewrite Z.ldiff_spec, bit_of_spec by done. destruct (q =? pin); cbn [negb].
    + by rewrite andb_false_r.
    + by rewrite andb_true_r.
  - rewrite Z.lor_spec, bit_of_spec by done. destruct (q =? pin).
    + by rewrite orb_true_r.
    + by rewrite orb_false_r.
Qed.

Lemma range_bits w z : 0 <= w → 0 <= z → (∀ n, w <= n → Z.testbit z n = false) → z < 2 ^ w.
Proof.
  intros Hw Hz H. destruct (decide (z = 0)) as [->|Hne]; [lia|].
  apply Z.log2_lt_pow2; [lia|]. apply Z.nle_gt. intros Hlt.
  pose proof (Z.bit_log2 z ltac:(lia)) as Hb. by rewrite H in Hb.
Qed.

Lemma out_val_range pin val g :
  0 <= pin < 32 → 0 <= GPIO_OUT g < 2 ^ 32 → 0 <= GPIO_OUT (ar7100_gpio_out_val pin val g) < 2 ^ 32.
Proof.
  intros Hp Hg. pose proof (bit_of_range pin Hp) as Hb.
  assert (Hhigh : ∀ z, 0 <= z < 2 ^ 32 → ∀ n, 32 <= n → Z.testbit z n = false).
  { intros z Hz n Hn. rewrite <- (Z.mod_small z (2 ^ 32)) by done. by apply Z.mod_pow2_bits_high. }
  unfold ar7100_gpio_out_val, ar7100_reg_rmw_set, ar7100_reg_rmw_clear. cbn [GPIO_OUT].
  case_match.
  - assert (0 <= Z.ldiff (GPIO_OUT g) (bit_of pin)) by (apply Z.ldiff_nonneg; lia).
    split; [done|]. apply range_bits; [lia|done|]. intros n Hn. by rewrite Z.ldiff_spec, Hhigh.
  - assert (0 <= Z.lor (GPIO_OUT g) (bit_of pin)) by (apply Z.lor_nonneg; lia).
    split; [done|]. apply range_bits; [lia|done|]. intros n Hn. by rewrite Z.lor_spec, !Hhigh.
Qed.

Lemma out_add_lit pin g : 0 <= pin → (ar7100_gpio_out_add pin g =? 0) = lit pin g.
Proof.
  intros Hp. unfold ar7100_gpio_out_add, lit.
  destruct (Z.testbit (GPIO_OUT g) pin) eqn:E; cbn [negb].
  - apply Z.eqb_neq. intros H0.
    assert (Z.testbit (Z.land (bit_of pin) (GPIO_OUT g)) pin = true)
      by (rewrite Z.land_spec, bit_of_spec, Z.eqb_refl by done; done).
    rewrite H0 in *. by rewrite Z.bits_0 in *.
  - apply Z.eqb_eq, Z.bits_inj. intros n. rewrite Z.land_spec, bit_of_spec, Z.bits_0 by done.
    by destruct (Z.eqb_spec n pin) as [->|].
Qed.

(** ** One entry *)

(** An entry of a live LED of this board: negative logic. *)
Definition live (led : led_data_s) : Prop := 0 <= gpio_pin led < 32 ∧ logic led = -1.

Definition blinks (spd : Z) (led : led_data_s) : bool := (0 <? count led) && (speed led =? spd).

Definition tick (spd : Z) (led : led_data_s) : led_data_s :=
  if blinks spd led
  then LedData (gpio_pin led) (count led - 1) (logic led) (speed led) (last_stat led) (init led)
  else led.

(** The light after the last reversal. *)
Definition rest_light (last : Z) (b : bool) : bool :=
  if last =? 0 then false else if last =? 1 then true else b.

Definition shown (spd : Z) (led : led_data_s) (b : bool) : bool :=
  if blinks spd led
  then if 1 <? count led then negb b else rest_light (last_stat led) (negb b)
  else b.

Definition final (led : led_data_s) (b : bool) : bool :=
  if 0 <? count led then rest_light (last_stat led) (xorb b (Z.odd (count led))) else b.

Lemma reverse_lit pin g q :
  0 <= pin → lit q (led_reverse pin g) = if q =? pin then negb (lit q g) else lit q g.
Proof.
  intros Hp. unfold led_reverse. rewrite out_add_lit by done.
  destruct (lit pin g) eqn:E; rewrite out_val_lit by done; destruct (Z.eqb_spec q pin) as [->|]; try done.
  all: by rewrite E.
Qed.

Lemma off_lit pin g q : 0 <= pin → lit q (led_off pin (-1) g) = if q =? pin then false else lit q g.
Proof. intros Hp. exact (out_val_lit pin 1 g q Hp). Qed.
Lemma on_lit pin g q : 0 <= pin → lit q (led_on pin (-1) g) = if q =? pin then true else lit q g.
Proof. intros Hp. exact (out_val_lit pin 0 g q Hp). Qed.

Lemma reverse_range pin g :
  0 <= pin < 32 → 0 <= GPIO_OUT g < 2 ^ 32 → 0 <= GPIO_OUT (led_reverse pin g) < 2 ^ 32.
Proof. intros Hp Hg. unfold led_reverse. case_match; by apply out_val_range. Qed.

Lemma off_range pin g : 0 <= pin < 32 → 0 <= GPIO_OUT g < 2 ^ 32 → 0 <= GPIO_OUT (led_off pin (-1) g) < 2 ^ 32.
Proof. by apply out_val_range. Qed.
Lemma on_range pin g : 0 <= pin < 32 → 0 <= GPIO_OUT g < 2 ^ 32 → 0 <= GPIO_OUT (led_on pin (-1) g) < 2 ^ 32.
Proof. by apply out_val_range. Qed.

Lemma blink_one_spec spd led g q :
  live led → 0 <= GPIO_OUT g < 2 ^ 32 →
  let '(led', g', need) := blink_one spd led g in
  led' = tick spd led ∧ need = blinks spd led && (1 <? count led) ∧
  0 <= GPIO_OUT g' < 2 ^ 32 ∧
  lit q g' = if q =? gpio_pin led then shown spd led (lit q g) else lit q g.
Proof.
  intros [Hp Hl] Hg. unfold blink_one, tick, shown, blinks. rewrite Hl.
  pose proof (reverse_range (gpio_pin led) g Hp Hg) as Hr.
  destruct ((0 <? count led) && (speed led =? spd)) eqn:E.
  2: { split_and!; [done|done|lia|lia|]. by case_match. }
  cbn [count last_stat gpio_pin logic].
  assert ((0 <? count led - 1) = (1 <? count led)) as -> by (apply eq_true_iff_eq; rewrite !Z.ltb_lt; lia).
  unfold rest_light. cbn [andb].
  destruct (1 <? count led); [|destruct (last_stat led =? 0); [|destruct (last_stat led =? 1)]].
  - split_and!; [done|done|lia|lia|]. by rewrite reverse_lit by lia.
  - pose proof (off_range (gpio_pin led) _ Hp Hr). split_and!; [done|done|lia|lia|].
    rewrite off_lit, reverse_lit by lia. by destruct (q =? gpio_pin led).
  - pose proof (on_range (gpio_pin led) _ Hp Hr). split_and!; [done|done|lia|lia|].
    rewrite on_lit, reverse_lit by lia. by destruct (q =? gpio_pin led).
  - split_and!; [done|done|lia|lia|]. by rewrite reverse_lit by lia.
Qed.

(** No expiry changes the light an entry ends with. *)
Lemma final_tick spd led b : final (tick spd led) (shown spd led b) = final led b.
Proof.
  unfold final, tick, shown. destruct (blinks spd led) eqn:E; [|done].
  unfold blinks in E. apply andb_true_iff in E as [E%Z.ltb_lt _]. cbn [count last_stat].
  rewrite (proj2 (Z.ltb_lt 0 (count led))) by done.
  destruct (Z.ltb_spec 1 (count led)).
  - rewrite (proj2 (Z.ltb_lt 0 _)) by lia. f_equal.
    rewrite Z.odd_sub. by destruct b, (Z.odd (count led)).
  - replace (count led) with 1 by lia. cbn. by destruct b.
Qed.

Lemma tick_idle spd led : blinks spd led = false → tick spd led = led.
Proof. unfold tick. by intros ->. Qed.

Lemma tick_fields spd led :
  gpio_pin (tick spd led) = gpio_pin led ∧ logic (tick spd led) = logic led ∧
  init (tick spd led) = init led ∧ speed (tick spd led) = speed led ∧ last_stat (tick spd led) = last_stat led.
Proof. unfold tick. by destruct (blinks spd led). Qed.

(** ** The table *)

Definition led_tail : list led_data_s := drop 3 led_data.

Lemma blink_all_spec spd act g need q :
  Forall live act → NoDup (map gpio_pin act) → 0 <= GPIO_OUT g < 2 ^ 32 →
  ∃ g', blink_all spd (act ++ led_tail) g need =
    Done (map (tick spd) act ++ led_tail, g', need || existsb (λ led, blinks spd led && (1 <? count led)) act) ∧
  0 <= GPIO_OUT g' < 2 ^ 32 ∧
  (q ∉ map gpio_pin act → lit q g' = lit q g) ∧
  (∀ led, led ∈ act → q = gpio_pin led → lit q g' = shown spd led (lit q g)).
Proof.
  intros Hl. revert g need. induction Hl as [|led act Hled Hl IH]; intros g need Hnd Hg.
  { exists g. cbn. rewrite orb_false_r. split_and!; [done|lia|lia|done|by intros led ?%not_elem_of_nil]. }
  cbn [map] in Hnd. apply NoDup_cons in Hnd as [Hni Hnd]. cbn [app blink_all map existsb].
  assert (gpio_pin led =? GPIO_NULL = false) as ->
    by (destruct Hled; unfold GPIO_NULL; apply Z.eqb_neq; lia).
  pose proof (blink_one_spec spd led g q Hled Hg) as H.
  destruct (blink_one spd led g) as [[led1 g1] need1]. destruct H as (-> & -> & Hg1 & Hq).
  destruct (IH g1 (need || (blinks spd led && (1 <? count led))) Hnd Hg1) as (g' & -> & Hg' & Hout & Hin).
  exists g'. cbn [mbind outcome_bind]. split; [by rewrite <- orb_assoc|]. split; [done|].
  split.
  - intros Hn. apply not_elem_of_cons in Hn as [Hne Hn]. rewrite Hout by done.
    rewrite Hq. by rewrite (proj2 (Z.eqb_neq _ _)).
  - intros l Hin' E. apply elem_of_cons in Hin' as [->|Hin'].
    + rewrite Hout by (by rewrite E). rewrite Hq. by rewrite E, Z.eqb_refl.
    + rewrite (Hin l Hin' E), Hq. rewrite (proj2 (Z.eqb_neq _ _)); [done|].
      intros E'. apply Hni. rewrite <- E', E. by apply list_elem_of_fmap_2.
Qed.

Lemma blink_set_spec pin cnt spd last act :
  Forall live act →
  blink_set pin cnt spd last (act ++ led_tail) =
    Done (map (λ led, if gpio_pin led =? pin
                      then LedData (gpio_pin led) (wrap32 (2 * cnt)) (logic led) spd last (init led)
                      else led) act ++ led_tail).
Proof.
  intros Hl. induction Hl as [|led act Hled Hl IH]; [done|]. cbn [app blink_set map].
  assert (gpio_pin led =? GPIO_NULL = false) as ->
    by (destruct Hled; unfold GPIO_NULL; apply Z.eqb_neq; lia).
  by rewrite IH.
Qed.

(** ** The invariant *)

Definition key (led : led_data_s) : Z * Z * Z := (gpio_pin led, logic led, init led).

Definition entry_ok (led : led_data_s) : Prop :=
  0 <= count led < 2 ^ 32 ∧ (speed led = LED_FAST ∨ speed led = LED_SLOW) ∧ 0 <= last_stat led <= 2.

Record led_ok (act : list led_data_s) (s : led_state) : Prop := LedOk {
  ok_leds : leds s = act ++ led_tail;
  ok_keys : map key act = map key (take 3 led_data);
  ok_entries : Forall entry_ok act;
  ok_out : 0 <= GPIO_OUT (regs s) < 2 ^ 32;
  ok_fast : led_fast_timer_running s = boolZ (led_fast_timer s);
  ok_slow : led_slow_timer_running s = boolZ (led_slow_timer s);
  ok_need : Forall (λ led, 0 < count led → pending (speed led) s = true) act;
}.

Lemma keys_live act :
  map key act = map key (take 3 led_data) → Forall live act ∧ map gpio_pin act = [3; 0; 1].
Proof.
  intros H. do 3 (destruct act as [|[] act]; [discriminate H|]). destruct act; [|discriminate H].
  injection H as -> -> -> -> -> -> -> -> ->. split; [|done].
  repeat (apply List.Forall_cons; [split; [cbn; unfold GPIO_POE, GPIO_WIRELESS, GPIO_POWER_GREEN; lia|done]|]). apply List.Forall_nil.
Qed.

Lemma keys_nodup act : map key act = map key (take 3 led_data) → NoDup (map gpio_pin act).
Proof.
  intros H. destruct (keys_live act H) as [_ ->].
  repeat (apply NoDup_cons_2; [rewrite ?not_elem_of_cons; split_and?; try done; apply not_elem_of_nil|]).
  apply NoDup_nil_2.
Qed.

Lemma keys_map act f :
  (∀ led, key (f led) = key led) → map key act = map key (take 3 led_data) →
  map key (map f act) = map key (take 3 led_data).
Proof. intros Hf <-. rewrite map_map. by apply map_ext. Qed.

#[export] Instance entry_ok_dec led : Decision (entry_ok led).
Proof. unfold entry_ok. apply _. Defined.

Definition is_speed (spd : Z) : Prop := spd = LED_FAST ∨ spd = LED_SLOW.

Lemma speeds_ne spd spd' : is_speed spd → is_speed spd' → spd ≠ spd' → (spd' =? LED_FAST) = negb (spd =? LED_FAST).
Proof. intros [-> | ->] [-> | ->] H; done. Qed.

(** An expiry: the entries tick, the lights change with them, and the timer runs on
    exactly when an entry of its speed still blinks. *)
Lemma expire_spec act s spd :
  led_ok act s → is_speed spd → pending spd s = true →
  ∃ s', expire spd s = Done (tt, s') ∧ led_ok (map (tick spd) act) s' ∧
    (∀ led, led ∈ act → lit (gpio_pin led) (regs s') = shown spd led (lit (gpio_pin led) (regs s))) ∧
    pending spd s' = existsb (λ led, blinks spd led && (1 <? count led)) act ∧
    (∀ spd', is_speed spd' → spd' ≠ spd → pending spd' s' = pending spd' s).
Proof.
  intros [Hl Hk He Ho Hf Hs Hn] Hspd Hp. destruct (keys_live act Hk) as [Hlive _].
  pose proof (keys_nodup act Hk) as Hnd.
  destruct (blink_all_spec spd act (regs s) false 0 Hlive Hnd Ho) as (g' & Hb & Hg' & _ & _).
  assert (Hlit : ∀ led, led ∈ act → lit (gpio_pin led) g' = shown spd led (lit (gpio_pin led) (regs s))).
  { intros led Hin.
    destruct (blink_all_spec spd act (regs s) false (gpio_pin led) Hlive Hnd Ho) as (g2 & Hb2 & _ & _ & H).
    rewrite Hb in Hb2. injection Hb2 as <-. by apply H. }
  set (need := existsb _ act) in *. cbn [orb] in Hb.
  set (s1 := set_leds (map (tick spd) act ++ led_tail) (set_regs (λ _, g') (take_timer spd s))).
  assert (Hrun : expire spd s = (if need then add_timer spd else modS (set_running spd 0)) s1).
  { unfold expire, led_blink_timer, mbind, M_bind, modS, getS, liftO.
    assert (leds (take_timer spd s) = act ++ led_tail) as -> by (rewrite <- Hl; by destruct Hspd as [-> | ->]).
    assert (regs (take_timer spd s) = regs s) as -> by (by destruct Hspd as [-> | ->]).
    by rewrite Hb. }
  assert (Hent : Forall entry_ok (map (tick spd) act)).
  { apply List.Forall_map. eapply Forall_impl; [exact He|]. intros led (H1 & H2 & H3).
    destruct (tick_fields spd led) as (_ & _ & _ & E4 & E5). unfold entry_ok. rewrite E4, E5.
    split; [|done]. unfold tick, blinks. destruct (Z.ltb_spec 0 (count led)); cbn [andb]; [|done].
    destruct (speed led =? spd); cbn [count]; lia. }
  assert (Hkey : map key (map (tick spd) act) = map key (take 3 led_data)).
  { apply keys_map; [|done]. intros led. unfold key. destruct (tick_fields spd led) as (-> & -> & -> & _). done. }
  assert (Hneed : ∀ s', (∀ spd', is_speed spd' → spd' ≠ spd → pending spd' s' = pending spd' s) →
    pending spd s' = need → Forall (λ led, 0 < count led → pending (speed led) s' = true) (map (tick spd) act)).
  { intros s' Hother Hspd'. apply List.Forall_map, List.Forall_forall. intros led Hin%list_elem_of_In Hc.
    rewrite Forall_forall in Hn, He. destruct (tick_fields spd led) as (_ & _ & _ & E4 & _). rewrite E4 in *.
    destruct (He led Hin) as (_ & Hsp & _).
    destruct (decide (speed led = spd)) as [E|Hne].
    - rewrite E, Hspd'. unfold need. apply existsb_exists. exists led. split; [by apply list_elem_of_In|].
      unfold tick, blinks in Hc |- *. rewrite E, Z.eqb_refl, andb_true_r in *.
      destruct (Z.ltb_spec 0 (count led)); cbn [count] in Hc; [|lia]. apply Z.ltb_lt. lia.
    - rewrite Hother by done. apply Hn; [done|].
      unfold tick, blinks in Hc. rewrite (proj2 (Z.eqb_neq _ _) Hne), andb_false_r in Hc. done. }
  rewrite Hrun. unfold add_timer, modS, s1.
  destruct Hspd as [-> | ->]; unfold pending in Hp; cbn in Hp; rewrite Hp in *; destruct need; cbn;
    (eexists; split; [reflexivity|]);
    (split; [split; cbn; try done; apply Hneed; [intros ? [-> | ->] ?; done|done]|]);
    (split; [exact Hlit|]); (split; [done|]); intros ? [-> | ->] ?; done.
Qed.

(** [led_blink] sets the entry and sees that its timer runs. *)
Definition reset (pin cnt spd last : Z) (led : led_data_s) : led_data_s :=
  if gpio_pin led =? pin
  then LedData (gpio_pin led) (wrap32 (2 * cnt)) (logic led) spd last (init led) else led.

Lemma reset_key pin cnt spd last led : key (reset pin cnt spd last led) = key led.
Proof. unfold reset. by case_match. Qed.

Lemma led_blink_runs act s pin cnt spd last :
  led_ok act s → is_speed spd → 0 <= last <= 2 →
  runs (led_blink pin cnt spd last) s (λ _ s', led_ok (map (reset pin cnt spd last) act) s' ∧
    regs s' = regs s ∧ pending spd s' = true ∧
    (∀ spd', is_speed spd' → spd' ≠ spd → pending spd' s' = pending spd' s)).
Proof.
  intros [Hl Hk He Ho Hf Hs Hn] Hspd Hlast. destruct (keys_live act Hk) as [Hlive _].
  unfold led_blink. apply runs_bind, runs_get. rewrite Hl.
  apply runs_bind. eapply runs_lift; [by apply blink_set_spec|]. fold (reset pin cnt spd last).
  apply runs_bind, runs_mod, runs_bind, runs_get.
  change (λ led, if gpio_pin led =? pin then _ else led) with (reset pin cnt spd last).
  assert (Hkey : map key (map (reset pin cnt spd last) act) = map key (take 3 led_data)).
  { apply keys_map; [|done]. intros led. apply reset_key. }
  assert (Hent : Forall entry_ok (map (reset pin cnt spd last) act)).
  { apply List.Forall_map. eapply Forall_impl; [exact He|]. intros led Hok. unfold reset.
    case_match; [|done]. split_and!; cbn [count speed last_stat]; [apply wrap32_range|apply wrap32_range|done|lia|lia]. }
  assert (Hneed : ∀ s', (∀ spd', is_speed spd' → spd' ≠ spd → pending spd' s' = pending spd' s) →
    pending spd s' = true →
    Forall (λ led, 0 < count led → pending (speed led) s' = true) (map (reset pin cnt spd last) act)).
  { intros s' Hother Hspd'. apply List.Forall_map, List.Forall_forall. intros led Hin%list_elem_of_In.
    rewrite Forall_forall in Hn, He. unfold reset. destruct (gpio_pin led =? pin); cbn [count speed]; [done|].
    intros Hc. destruct (He led Hin) as (_ & Hsp & _).
    destruct (decide (speed led = spd)) as [->|]; [done|]. rewrite Hother by done. by apply Hn. }
  unfold set_leds. cbn [led_fast_timer_running led_slow_timer_running].
  rewrite Hf, Hs. unfold add_timer, modS.
  destruct Hspd as [-> | ->]; cbn [Z.eqb LED_FAST LED_SLOW andb Pos.eqb];
    [destruct (led_fast_timer s) eqn:E | destruct (led_slow_timer s) eqn:E]; cbn;
    (split; [split; cbn; try congruence; try done; apply Hneed; [intros ? [-> | ->] ?; done|cbn; congruence]|]);
    (split; [done|]); (split; [cbn; congruence|]); intros ? [-> | ->] ?; done.
Qed.

(** ** Writes *)

Lemma atoi_go_runs rest val k :
  0 <= val < 10 ^ Z.of_nat k → (k + length rest <= 9)%nat →
  ∃ n, atoi_go val (rest ++ [NUL]) = Done n ∧ 0 <= n < 10 ^ Z.of_nat (k + length rest).
Proof.
  revert val k. induction rest as [|c rest IH]; intros val k Hv Hk; cbn [app length atoi_go].
  { exists val. split; [done|]. by rewrite Nat.add_0_r. }
  cbn [length] in Hk.
  assert (Hmono : ∀ j, (k <= j)%nat → val < 10 ^ Z.of_nat j).
  { intros j Hj. apply Z.lt_le_trans with (10 ^ Z.of_nat k); [lia|]. apply Z.pow_le_mono_r; lia. }
  destruct (isdigit c) eqn:Hd.
  - unfold isdigit in Hd. apply andb_true_iff in Hd as [H1%Z.leb_le H2%Z.leb_le].
    assert (Hv' : 0 <= val * 10 + (code c - 48) < 10 ^ Z.of_nat (Datatypes.S k)).
    { rewrite Nat2Z.inj_succ, Z.pow_succ_r by lia. lia. }
    assert (val * 10 + (code c - 48) < 2 ^ 31).
    { apply Z.lt_le_trans with (10 ^ Z.of_nat (Datatypes.S k)); [lia|].
      transitivity (10 ^ 9); [apply Z.pow_le_mono_r; lia|]. lia. }
    rewrite (proj2 (Z.ltb_lt _ _)) by done.
    destruct (IH _ (Datatypes.S k) Hv' ltac:(lia)) as (n & -> & Hn). exists n. split; [done|].
    by replace (k + Datatypes.S (length rest))%nat with (Datatypes.S k + length rest)%nat by lia.
  - exists val. split; [done|]. split; [lia|]. apply Hmono. lia.
Qed.

Lemma led_atoi_runs rest :
  (length rest <= 8)%nat → ∃ n, led_atoi (rest ++ [NUL]) = Done n ∧ 0 <= n < 10 ^ 9.
Proof.
  intros Hl. destruct (atoi_go_runs rest 0 0) as (n & H & Hn); [cbn; lia|lia|].
  exists n. split; [done|]. split; [lia|]. apply Z.lt_le_trans with (10 ^ Z.of_nat (0 + length rest)); [lia|].
  apply Z.pow_le_mono_r; lia.
Qed.

Lemma ok_set_regs act s f :
  led_ok act s → 0 <= GPIO_OUT (f (regs s)) < 2 ^ 32 → led_ok act (set_regs f s).
Proof. intros [] Hf. by split. Qed.

(** Turning the power LED on, then telling an LED to blink. *)
Lemma on_ok act s : led_ok act s → led_ok act (set_regs (led_on GPIO_POWER_GREEN (-1)) s).
Proof. intros H. apply ok_set_regs; [done|]. apply on_range; [unfold GPIO_POWER_GREEN; lia|apply H]. Qed.

Lemma off_ok act s : led_ok act s → led_ok act (set_regs (led_off GPIO_WIRELESS (-1)) s).
Proof. intros H. apply ok_set_regs; [done|]. apply off_range; [unfold GPIO_WIRELESS; lia|apply H]. Qed.

Lemma blink_command_runs act s rest pin spd last :
  led_ok act s → (length rest <= 8)%nat → is_speed spd → 0 <= last <= 2 →
  runs (n ← liftO (led_atoi (rest ++ [NUL])); led_blink pin n spd last) s
    (λ _ s', ∃ act', led_ok act' s').
Proof.
  intros Hok Hl Hspd Hlast. destruct (led_atoi_runs rest Hl) as (n & Hn & _).
  apply runs_bind. eapply runs_lift; [exact Hn|].
  use_runs (led_blink_runs act s pin n spd last Hok Hspd Hlast). intros _ s' [? _]. by eexists.
Qed.

Lemma write_runs act s buffer :
  led_ok act s → zlen buffer < 10 →
  runs (proc_write_led_fops buffer) s (λ r s', r = zlen buffer ∧ ∃ act', led_ok act' s').
Proof.
  intros Hok Hl. unfold proc_write_led_fops. rewrite (proj2 (Z.leb_gt 10 _)) by done.
  destruct buffer as [|c rest]; [apply runs_ret; eauto|]. cbn [length] in Hl.
  assert (Hrest : (length rest <= 8)%nat) by lia.
  apply runs_bind. eapply runs_mono with (Q := λ _ s', ∃ act', led_ok act' s'); [|intros _ s' ?; by apply runs_ret].
  assert (Hslow : is_speed LED_SLOW) by (by right). assert (Hfast : is_speed LED_FAST) by (by left).
  pose proof (on_ok act s Hok) as Hon. pose proof (off_ok act s Hok) as Hoff.
  unfold led_command.
  repeat case_decide; try (apply runs_bind, runs_mod); try (by eapply blink_command_runs; [eassumption|..]);
    try (apply runs_mod; eauto); try (apply runs_ret; eauto).
Qed.

(** ** What is reachable *)

Definition first_entries : list led_data_s := take 3 led_data.

Lemma init_runs g : 0 <= GPIO_OUT g < 2 ^ 32 →
  runs led_init_module (led_static g) (λ _ s', led_ok first_entries s' ∧
    lit GPIO_POE (regs s') = true ∧ lit GPIO_WIRELESS (regs s') = false ∧
    lit GPIO_POWER_GREEN (regs s') = true).
Proof.
  intros Hg.
  set (g' := led_init 1 1 (-1) (led_init 0 0 (-1) (led_init 3 1 (-1) g))).
  assert (Hinit : init_all (leds (led_static g)) (regs (led_static g)) = Done g') by reflexivity.
  unfold led_init_module. apply runs_bind, runs_get, runs_bind. eapply runs_lift; [exact Hinit|].
  apply runs_bind, runs_mod, runs_bind, runs_mod, runs_ret.
  assert (Hr : ∀ pin i h, 0 <= pin < 32 → 0 <= GPIO_OUT h < 2 ^ 32 → 0 <= GPIO_OUT (led_init pin i (-1) h) < 2 ^ 32).
  { intros pin i h Hp Hh. unfold led_init. case_match; [by apply off_range|by apply on_range]. }
  assert (Hlit : ∀ pin i h q, 0 <= pin → lit q (led_init pin i (-1) h) = if q =? pin then negb (i =? 0) else lit q h).
  { intros pin i h q Hp. unfold led_init.
    destruct (i =? 0); [rewrite off_lit by done|rewrite on_lit by done]; done. }
  split.
  - apply LedOk; [done|done| | |done|done|].
    + by apply (bool_decide_unpack _).
    + cbn [regs set_regs]. unfold g'. apply Hr; [lia|]. apply Hr; [lia|]. by apply Hr; [lia|].
    + by repeat apply List.Forall_cons.
  - cbn [regs set_regs]. unfold g', GPIO_POE, GPIO_WIRELESS, GPIO_POWER_GREEN. by rewrite !Hlit by lia.
Qed.

Lemma reach_ok s : led_reach s → ∃ act, led_ok act s.
Proof.
  intros H. induction H as [g s r Hg Hi|s e s' Hr [act IH] Hs].
  - pose proof (init_runs g Hg) as H. unfold runs in H. rewrite Hi in H. exists first_entries. apply H.
  - destruct Hs as [buffer r s' Hw|spd s' Hspd Hp He].
    + destruct (Z.lt_ge_cases (zlen buffer) 10).
      * pose proof (write_runs act s buffer IH ltac:(done)) as H'. unfold runs in H'. rewrite Hw in H'. apply H'.
      * unfold proc_write_led_fops in Hw. by rewrite (proj2 (Z.leb_le 10 _)) in Hw.
    + destruct (expire_spec act s spd IH Hspd Hp) as (s2 & He2 & Hok & _).
      rewrite He in He2. injection He2 as <-. by eexists.
Qed.

(** ** Coming to rest *)

Definition at_rest (s : led_state) : Prop := pending LED_FAST s = false ∧ pending LED_SLOW s = false.

(** [within n P s]: without further writes, whatever the order in which the timers
    expire, at most [n] expiries lead to a state with [P], and until then a timer
    is pending and its expiry does not fail. *)
Inductive within (P : led_state → Prop) : nat → led_state → Prop :=
  | within_now n s : P s → within P n s
  | within_step n s :
      (∃ spd, is_speed spd ∧ pending spd s = true) →
      (∀ spd, is_speed spd → pending spd s = true →
         ∃ s', expire spd s = Done (tt, s') ∧ within P n s') →
      within P (Datatypes.S n) s.

Definition reversals (act : list led_data_s) : Z := fold_right (λ led n, count led + n) 0 act.
Definition work (act : list led_data_s) (s : led_state) : nat :=
  (Z.to_nat (reversals act) + (if pending LED_FAST s then 1 else 0) + (if pending LED_SLOW s then 1 else 0))%nat.

Lemma reversals_tick spd act :
  Forall entry_ok act → 0 <= reversals (map (tick spd) act) <= reversals act ∧
    (existsb (λ led, blinks spd led && (1 <? count led)) act = true →
     reversals (map (tick spd) act) < reversals act).
Proof.
  intros He. induction He as [|led act (Hc & _) He IH]; cbn [map existsb reversals fold_right].
  { split; [lia|done]. }
  fold (reversals (map (tick spd) act)) (reversals act).
  assert (Ht : count (tick spd led) = if blinks spd led then count led - 1 else count led)
    by (unfold tick; by destruct (blinks spd led)).
  rewrite Ht. destruct IH as [IH1 IH2]. unfold blinks in *.
  destruct (Z.ltb_spec 0 (count led)), (speed led =? spd), (Z.ltb_spec 1 (count led)); cbn [andb orb];
    (split; [lia|]); try lia; intros Hx; specialize (IH2 Hx); lia.
Qed.

#[export] Instance at_rest_dec s : Decision (at_rest s).
Proof. unfold at_rest. apply _. Defined.

Lemma rest_counts act s led : led_ok act s → at_rest s → led ∈ act → count led = 0.
Proof.
  intros [_ _ He _ _ _ Hn] [Hf Hs] Hin. rewrite Forall_forall in He, Hn.
  destruct (He led Hin) as (Hc & Hsp & _). apply Z.le_antisymm; [|lia]. apply Z.nlt_ge. intros Hpos.
  pose proof (Hn led Hin Hpos) as Hp. destruct Hsp as [E|E]; rewrite E in Hp; congruence.
Qed.

Lemma work_expire act s s' spd :
  led_ok act s → is_speed spd → pending spd s = true →
  pending spd s' = existsb (λ led, blinks spd led && (1 <? count led)) act →
  (∀ spd', is_speed spd' → spd' ≠ spd → pending spd' s' = pending spd' s) →
  (work (map (tick spd) act) s' < work act s)%nat.
Proof.
  intros Hok Hspd Hp Hp' Hother. destruct (reversals_tick spd act (ok_entries _ _ Hok)) as [H1 H2].
  assert (Hsum : ∀ b, (reversals (map (tick spd) act) < reversals act ∨ b = false) →
    (Z.to_nat (reversals (map (tick spd) act)) + (if b then 1 else 0) <
     Z.to_nat (reversals act) + 1)%nat) by (intros [] [Hlt|Hf]; [lia|done|lia|lia]).
  assert (Hb : reversals (map (tick spd) act) < reversals act ∨ pending spd s' = false).
  { rewrite Hp'. destruct (existsb _ act) eqn:E; [left; by apply H2|by right]. }
  specialize (Hsum _ Hb). unfold work. destruct Hspd as [-> | ->]; rewrite Hp.
  - rewrite (Hother LED_SLOW (or_intror eq_refl) ltac:(done)). lia.
  - rewrite (Hother LED_FAST (or_introl eq_refl) ltac:(done)). lia.
Qed.

(** From any good state the lights come to rest where [final] says. *)
Lemma comes_to_rest act s (P : led_state → Prop) n :
  led_ok act s → (work act s <= n)%nat →
  (∀ act' s', led_ok act' s' → at_rest s' →
     (∀ led, led ∈ act → lit (gpio_pin led) (regs s') = final led (lit (gpio_pin led) (regs s))) → P s') →
  within P n s.
Proof.
  revert act s P. induction n as [|n IH]; intros act s P Hok Hw HP;
    (destruct (decide (at_rest s)) as [Hrest|Hrest];
     [apply within_now, (HP act s Hok Hrest); intros led Hin; unfold final;
      by rewrite (rest_counts act s led)|]).
  - exfalso. apply Hrest. unfold work in Hw. split; apply not_true_iff_false; intros Hp; rewrite Hp in Hw; lia.
  - apply within_step.
    { unfold at_rest in Hrest. destruct (pending LED_FAST s) eqn:E1.
      - exists LED_FAST. split; [by left|done].
      - destruct (pending LED_SLOW s) eqn:E2; [|by destruct Hrest]. exists LED_SLOW. split; [by right|done]. }
    intros spd Hspd Hp. destruct (expire_spec act s spd Hok Hspd Hp) as (s' & He & Hok' & Hl & Hp' & Ho).
    exists s'. split; [done|]. apply (IH (map (tick spd) act)); [done| |].
    + pose proof (work_expire act s s' spd Hok Hspd Hp Hp' Ho). lia.
    + intros act' s2 Hok2 Hrest2 Hl2. apply (HP act' s2 Hok2 Hrest2). intros led Hin.
      specialize (Hl2 (tick spd led)). destruct (tick_fields spd led) as (Epin & _). rewrite Epin in Hl2.
      rewrite Hl2 by (by apply list_elem_of_fmap_2). rewrite Hl by done. apply final_tick.
Qed.

(** ** The wireless LED flashing *)

(** Expiries of the fast timer in a row. *)
Fixpoint expiries (k : nat) : M led_state unit :=
  match k with O => mret tt | S k' => _ ← expiries k'; expire LED_FAST end.

(** At the fast speed only the wireless LED blinks, with [c] reversals to go, and
    it stays on behind them. *)
Definition solo (c : Z) (led : led_data_s) : Prop :=
  if gpio_pin led =? GPIO_WIRELESS
  then count led = c ∧ speed led = LED_FAST ∧ last_stat led = 1 else blinks LED_FAST led = false.

Lemma solo_tick c led : 0 < c → solo c led → solo (c - 1) (tick LED_FAST led).
Proof.
  intros Hc. unfold solo. destruct (tick_fields LED_FAST led) as (-> & _ & _ & -> & ->).
  case_match; [|by intros H'; rewrite tick_idle].
  intros (Hcnt & Hs & Hl). split; [|done]. unfold tick, blinks.
  by rewrite Hcnt, Hs, Z.eqb_refl, (proj2 (Z.ltb_lt 0 c)) by done.
Qed.

Lemma wireless_in act : map key act = map key (take 3 led_data) → ∃ led, led ∈ act ∧ gpio_pin led = GPIO_WIRELESS.
Proof.
  intros [_ Hp]%keys_live.
  assert (Hin : GPIO_WIRELESS ∈ map gpio_pin act) by (rewrite Hp; by apply (bool_decide_unpack _)).
  apply list_elem_of_In, in_map_iff in Hin as (led & E & Hin). exists led. by rewrite list_elem_of_In.
Qed.

Lemma solo_expire act s c :
  led_ok act s → Forall (solo c) act → pending LED_FAST s = (0 <? c) → 0 < c →
  ∃ s' act', expire LED_FAST s = Done (tt, s') ∧ led_ok act' s' ∧ Forall (solo (c - 1)) act' ∧
    pending LED_FAST s' = (0 <? c - 1) ∧
    lit GPIO_WIRELESS (regs s') = (if 1 <? c then negb (lit GPIO_WIRELESS (regs s)) else true).
Proof.
  intros Hok Hsolo Hp Hc. rewrite (proj2 (Z.ltb_lt 0 c)) in Hp by done.
  destruct (expire_spec act s LED_FAST Hok (or_introl eq_refl) Hp) as (s' & He & Hok' & Hl & Hp' & _).
  destruct (wireless_in act (ok_keys _ _ Hok)) as (led & Hin & Epin).
  rewrite Forall_forall in Hsolo. pose proof (Hsolo led Hin) as Hled.
  unfold solo in Hled. rewrite Epin, Z.eqb_refl in Hled. destruct Hled as (Hcnt & Hspd & Hlast).
  exists s', (map (tick LED_FAST) act). split_and!; [done|done| | |].
  - apply List.Forall_map, List.Forall_forall. intros l Hl'%list_elem_of_In. by apply solo_tick, Hsolo.
  - rewrite Hp'. apply eq_true_iff_eq. rewrite existsb_exists, Z.ltb_lt. split.
    + intros (l & Hl'%list_elem_of_In & Hb). apply andb_true_iff in Hb as [Hb H1%Z.ltb_lt].
      pose proof (Hsolo l Hl') as Hsl. unfold solo in Hsl. case_match; [|congruence].
      destruct Hsl as (E & _). lia.
    + intros H1. exists led. split; [by apply list_elem_of_In|]. unfold blinks.
      rewrite Hcnt, Hspd, Z.eqb_refl. rewrite !(proj2 (Z.ltb_lt _ _)) by lia. done.
  - specialize (Hl led Hin). rewrite Epin in Hl. rewrite Hl. unfold shown, blinks.
    rewrite Hcnt, Hspd, Hlast, Z.eqb_refl, (proj2 (Z.ltb_lt 0 c)) by done. done.
Qed.

Lemma solo_expiries act s c k :
  led_ok act s → Forall (solo c) act → pending LED_FAST s = (0 <? c) → 0 < c → Z.of_nat k <= c →
  ∃ s' act', expiries k s = Done (tt, s') ∧ led_ok act' s' ∧ Forall (solo (c - Z.of_nat k)) act' ∧
    pending LED_FAST s' = (Z.of_nat k <? c) ∧
    lit GPIO_WIRELESS (regs s') =
      (if Z.of_nat k =? c then true else xorb (lit GPIO_WIRELESS (regs s)) (Nat.odd k)).
Proof.
  intros Hok Hsolo Hp Hc. induction k as [|k IH]; intros Hk.
  { exists s, act. rewrite Z.sub_0_r, (proj2 (Z.eqb_neq _ c)) by lia. cbn [Nat.odd Nat.even negb].
    by rewrite xorb_false_r. }
  destruct IH as (s1 & act1 & He & Hok1 & Hsolo1 & Hp1 & Hl1); [lia|].
  destruct (solo_expire act1 s1 (c - Z.of_nat k) Hok1 Hsolo1) as (s2 & act2 & He2 & Hok2 & Hs2 & Hp2 & Hl2);
    [rewrite Hp1; apply eq_true_iff_eq; rewrite !Z.ltb_lt; lia|lia|].
  exists s2, act2. cbn [expiries]. unfold mbind, M_bind. rewrite He, He2.
  replace (c - Z.of_nat (Datatypes.S k)) with (c - Z.of_nat k - 1) by lia. split_and!; [done|done|done| |].
  - rewrite Hp2. apply eq_true_iff_eq. rewrite !Z.ltb_lt. lia.
  - rewrite Hl2, Hl1, (proj2 (Z.eqb_neq (Z.of_nat k) c)), Nat.odd_succ, <- Nat.negb_odd by lia.
    destruct (Z.ltb_spec 1 (c - Z.of_nat k)), (Z.eqb_spec (Z.of_nat (Datatypes.S k)) c); try lia.
    by destruct (lit GPIO_WIRELESS (regs s)), (Nat.odd k).
Qed.
