(* ===== verification/LedAp.v ===== *)
(** * The LED daemon (led/led_ap.c)

    The daemon reads the counters of the network interfaces from
    [/proc/net/dev] every 0.4 seconds and tells the driver, through the shell,
    whether the wireless is off, on or busy.  The file is what the kernel
    prints (net/core/dev.c). *)

From S2P Require Import Prelude CLib CfgStore.

(** ** What the kernel prints *)

Definition padl (width : nat) (s : cstr) : cstr := replicate (width - length s) " "%char ++ s.

(** A device with the sixteen numbers of its line, in order. *)
Record net_device : Type := NetDevice { dev_name : cstr; dev_stats : list Z }.

Definition dev_widths : list nat := [8; 7; 4; 4; 4; 5; 10; 9; 8; 7; 4; 4; 4; 5; 7; 10]%nat.

(** [%8lu %7lu ...] *)
Fixpoint stats_text (ws : list nat) (vs : list Z) : cstr :=
  match ws, vs with
  | [w], [v] => padl w (dec v)
  | w :: ws', v :: vs' => padl w (dec v) ++ " "%char :: stats_text ws' vs'
  | _, _ => []
  end.

Definition dev_seq_printf_stats (d : net_device) : cstr :=
  padl 6 (dev_name d) ++ ":"%char :: stats_text dev_widths (dev_stats d) ++ ["010"%char].

Definition dev_seq_header : cstr :=
  ("Inter-|   Receive                            " ++
   "                    |  Transmit" ++ ["010"%char] ++
   " face |bytes    packets errs drop fifo frame " ++
   "compressed multicast|bytes    packets errs " ++
   "drop fifo colls carrier compressed" ++ ["010"%char])%list.

(** The file: the header, then the devices. *)
Definition proc_net_dev (ds : list net_device) : bytes :=
  dev_seq_header ++ concat (map dev_seq_printf_stats ds).

(** ** Reading it *)

Definition WLS_ERROR : Z := -1.
Definition WLS_OFF : Z := 0.
Definition WLS_ON : Z := 1.
Definition WLS_TRANSMIT : Z := 2.

(** The static variables. *)
Record led_ap : Type := LedAp { wls_packets : Z; wls_status : Z }.

(** [fgets(line, 1024, fp)] into a buffer of which [buf] has been written. *)
Definition fgets_line (buf data : bytes) : option (bytes * bytes) :=
  match data with
  | [] => None
  | _ => let '(l, rest) := fgets_go 1023 data in Some (l ++ NUL :: drop (S (length l)) buf, rest)
  end.

(** The loop up to the colon: the characters that are no white space go to [ifname],
    which has 32 bytes; the rest of the line stands behind the colon. *)
Fixpoint scan_ifname (i : nat) (s : bytes) : outcome (cstr * bytes) :=
  match s with
  | [] => Fault
  | c :: s' =>
      if decide (c = ":"%char) then (if (i <? 32)%nat then Done ([], s') else Fault)
      else if c_isspace c then scan_ifname i s'
      else if (i <? 32)%nat then
        r ← scan_ifname (S i) s';
        let '(n, t) := (r : cstr * bytes) in Done (c :: n, t)
      else Fault
  end.

Fixpoint skip_digits (s : cstr) : cstr :=
  match s with
  | c :: s' => if isdigit c then skip_digits s' else s
  | [] => []
  end.

(** [%Lu] of [sscanf]: the number and the rest; [None] is a matching failure. *)
Definition scan_u (s : cstr) : option (Z * cstr) :=
  let '(neg, s') := match skip_space s with
                    | "-"%char :: r => (true, r)
                    | "+"%char :: r => (false, r)
                    | r => (false, r)
                    end in
  match s' with
  | c :: _ =>
      if isdigit c then
        let v := Z.min (digits_val 0 s') (2 ^ 64 - 1) in
        Some ((if (neg : bool) then - v else v) mod 2 ^ 64, skip_digits s')
      else None
  | [] => None
  end.

(** [%*Lu], [n] times. *)
Fixpoint skip_fields (n : nat) (s : cstr) : option cstr :=
  match n with
  | O => Some s
  | S n' => match scan_u s with Some (_, t) => skip_fields n' t | None => None end
  end.

(** The tenth number, unless the line ends before it. *)
Definition scan_packets (s : cstr) : option Z :=
  t ← skip_fields 9 s; r ← scan_u t; Some r.1.

(** The loop over the lines: whether an interface was found, and the sum. *)
Fixpoint dev_loop (fuel : nat) (buf data : bytes) (is_on : bool) (packets_tmp cur_packets : Z)
    : outcome (bool * Z) :=
  match fuel with
  | O => Stuck
  | S fuel' =>
      match fgets_line buf data with
      | None => Done (is_on, cur_packets)
      | Some (line, rest) =>
          r ← scan_ifname 0 line;
          let '(ifname, s) := (r : cstr * bytes) in
          if bool_decide (take 3 ifname = ("ath" : cstr)) then
            t ← rd_str s;
            let packets_tmp := default packets_tmp (scan_packets t) in
            dev_loop fuel' line rest true packets_tmp ((cur_packets + packets_tmp) mod 2 ^ 64)
          else dev_loop fuel' line rest is_on packets_tmp cur_packets
      end
  end.

(** Two lines are eaten first; a missing line leaves the buffer as it was. *)
Definition eat_line (b : bytes * bytes) : bytes * bytes := default b (fgets_line b.1 b.2).

Definition get_wls_status (fp : option bytes) : M led_ap Z :=
  match fp with
  | None => mret WLS_ERROR
  | Some data =>
      let '(buf, rest) := eat_line (eat_line ([], data)) in
      r ← liftO (dev_loop (S (length rest)) buf rest false 0 0);
      let '(is_on, cur_packets) := (r : bool * Z) in
      if negb is_on then mret WLS_OFF
      else
        p ← getS;
        if Zdiffer cur_packets (wls_packets p) then
          _ ← putS (LedAp cur_packets (wls_status p)); mret WLS_TRANSMIT
        else mret WLS_ON
  end.

(** One round of the loop of [main], on what [/proc/net/dev] holds: the shell
    commands run. *)
Definition led_round (fp : option bytes) : M led_ap (list cstr) :=
  cur_status ← get_wls_status fp;
  p ← getS;
  let cmds :=
    if cur_status =? WLS_TRANSMIT then ["echo w4 > /proc/led&" : cstr]
    else if Zdiffer cur_status (wls_status p) then
      if cur_status =? WLS_OFF then ["echo w0 > /proc/led&" : cstr]
      else if cur_status =? WLS_ON then ["echo w1 > /proc/led&" : cstr]
      else []
    else [] in
  _ ← modS (λ p, LedAp (wls_packets p) cur_status);
  mret cmds.

(** The statics of a fresh daemon. *)
Definition led_ap_start : led_ap := LedAp 0 0.

(** The write that the shell makes of such a command: [echo] adds a newline. *)
Definition led_echo (cmd : cstr) : option bytes :=
  if bool_decide (take 5 cmd = ("echo " : cstr)) && bool_decide (drop 7 cmd = (" > /proc/led&" : cstr))
  then Some (take 2 (drop 5 cmd) ++ ["010"%char]) else None.
