(* ===== verification/Button.v ===== *)
(** * The reset button (push_button/push_button.c, push_button/pb_ap.c)

    The driver answers a read of [/proc/push_button] with the text RST while the
    button is down.  The daemon reads it every 0.4 seconds, times how long the
    button is held and on its release tests the LED, reboots, or restores the
    defaults and reboots. *)

From S2P Require Import Prelude CLib Led.

(** ** The driver *)

Definition GPIO_RESET_BUTTON : Z := 21.

Definition buttonIsPushed (g : gpio) : bool := ar7100_gpio_in_val GPIO_RESET_BUTTON g =? 0.

(** What a read at offset [offp] copies out, with the new offset. *)
Definition proc_read_push_button_fops (offp : Z) (g : gpio) : bytes * Z :=
  if negb (offp =? 0) then ([], offp)
  else
    let MyBuf := if buttonIsPushed g then ("RST " : cstr) else [] in
    (MyBuf ++ [NUL], zlen MyBuf + 1).

Definition proc_write_push_button_fops (buffer : bytes) : Z := zlen buffer.

Definition push_button_file_init_module (g : gpio) : gpio :=
  ar7100_gpio_config_input GPIO_RESET_BUTTON (ar7100_gpio_config_int GPIO_RESET_BUTTON g).

(** ** The daemon *)

(** [fread(cmd,1,31,fp)]: reads until the file ends or 31 bytes are there; the
    pin is read once, by the first read. *)
Definition fread_button (g : gpio) : bytes :=
  let '(b1, off1) := proc_read_push_button_fops 0 g in
  let '(b2, _) := proc_read_push_button_fops off1 g in
  take 31 (b1 ++ b2).

(** [cmd] is not written before: a byte that was not read is a fault. *)
Definition ButtonIsPushed (fp : option bytes) : outcome bool :=
  match fp with
  | None => Done false
  | Some cmd =>
      match cmd with
      | [] => Fault
      | c :: _ => if decide (c = NUL) then Done false else buf_prefix "RST " cmd
      end
  end.

Record timeval : Type := Timeval { tv_sec : Z; tv_usec : Z }.

(** [timerinterval], computed in [long], which has 32 bits: an overflow is
    undefined. *)
Definition long_op (z : Z) : outcome Z := if (- 2 ^ 31 <=? z) && (z <? 2 ^ 31) then Done z else Fault.
Definition timerinterval (tvp uvp : timeval) : outcome Z :=
  sec ← long_op (tv_sec tvp - tv_sec uvp);
  usec ← long_op (sec * 1000000);
  frac ← long_op (tv_usec tvp - tv_usec uvp);
  long_op (usec + frac).

Inductive button_state : Type := STATE_NORMAL | STATE_PRESSED.

(** The local variables of [main]; [running] is false behind [exit]. *)
Record pb : Type := Pb {
  state : button_state;
  beginTime : timeval;
  flag : bool;
  running : bool;
}.

Definition REBOOT_INTERVAL : Z := 1000000.
Definition RESTORE_INTERVAL : Z := 4000000.

(** The shell command that writes to [/proc/led]. *)
Definition quote : ascii := chr 34.
Definition led_write (x : cstr) : cstr := ("echo " : cstr) ++ [quote] ++ x ++ [quote] ++ (" > /proc/led&" : cstr).

Definition restore_commands : list cstr :=
  [led_write "d100"; "/usr/sbin/nvram set restore_defaults=1" : cstr; led_write "d1"; "/sbin/reboot &" : cstr].
Definition reboot_commands : list cstr := [led_write "r100"; "/sbin/reboot &" : cstr].
Definition test_commands : list cstr := [led_write "t"].
Definition prompt_commands : list cstr := [led_write "t2"].

(** One round of the loop: whether the button is down, and the time it is read at;
    the commands run. *)
Definition button_round (pushed : bool) (now : timeval) : M pb (list cstr) :=
  p ← getS;
  if pushed then
    match state p with
    | STATE_NORMAL => _ ← putS (Pb STATE_PRESSED now false (running p)); mret []
    | STATE_PRESSED =>
        interval ← liftO (timerinterval now (beginTime p));
        if negb (flag p) && (RESTORE_INTERVAL <? interval) then
          _ ← putS (Pb STATE_PRESSED (beginTime p) true (running p)); mret prompt_commands
        else mret []
    end
  else
    match state p with
    | STATE_NORMAL => mret []
    | STATE_PRESSED =>
        _ ← modS (λ p, Pb STATE_NORMAL (beginTime p) (flag p) (running p));
        interval ← liftO (timerinterval now (beginTime p));
        if RESTORE_INTERVAL <? interval then
          _ ← modS (λ p, Pb (state p) (beginTime p) (flag p) false); mret restore_commands
        else if REBOOT_INTERVAL <? interval then
          _ ← modS (λ p, Pb (state p) (beginTime p) (flag p) false); mret reboot_commands
        else mret test_commands
    end.

(** The loop over what happens: the state of the pins and the time of each round.
    It ends with [exit]. *)
Fixpoint button_main (rounds : list (gpio * timeval)) : M pb (list cstr) :=
  match rounds with
  | [] => mret []
  | (g, now) :: rounds' =>
      p ← getS;
      if running p then
        pushed ← liftO (ButtonIsPushed (Some (fread_button g)));
        cs ← button_round pushed now;
        cs' ← button_main rounds';
        mret (cs ++ cs')
      else mret []
  end.
