(* ===== verification/DeviceCorrect.v ===== *)
(** * Lemmas about the devices' daemons

    The LED daemon; the wireless commands of the LED driver; the reset button. *)

From S2P Require Import Prelude CLib CfgStore Led LedCorrect LedAp Button.

(** * Lemmas about the LED daemon

    Reading a line back that the kernel printed. *)

(** ** Numbers in a line *)

(** Spaces, as a prefix that scanning skips. *)
Definition blank (s : cstr) : Prop := Forall (λ c, c = " "%char) s.

Lemma skip_space_blank p s : blank p → skip_space (p ++ s) = skip_space s.
Proof. intros H. induction H as [|c p -> H IH]; [done|]. exact IH. Qed.

Lemma blank_replicate n : blank (replicate n " "%char).
Proof. unfold blank. by apply Forall_replicate. Qed.

Lemma dec_go_app fuel n acc : dec_go fuel n acc = dec_go fuel n [] ++ acc.
Proof.
  revert n acc. induction fuel as [|fuel IH]; intros n acc; [done|]. cbn [dec_go].
  destruct (n <? 10); [done|]. rewrite IH, (IH _ [_]), <- app_assoc. done.
Qed.

(** What does not begin with a digit. *)
Definition no_digit (s : cstr) : Prop := match s with c :: _ => isdigit c = false | [] => True end.

Lemma digits_val_stop a s : no_digit s → digits_val a s = a.
Proof. destruct s as [|c s]; [done|]. cbn. by intros ->. Qed.

Lemma skip_digits_app d s : (∀ c, c ∈ d → isdigit c = true) → no_digit s → skip_digits (d ++ s) = s.
Proof.
  induction d as [|c d IH]; intros Hd Hs; cbn [app].
  - destruct s as [|c s]; [done|]. cbn in *. by rewrite Hs.
  - cbn [skip_digits]. rewrite Hd by left. apply IH; [|done]. intros c' ?. apply Hd. by right.
Qed.

Lemma digit_head_scan c s :
  isdigit c = true → skip_space (c :: s) = c :: s ∧ c ≠ "-"%char ∧ c ≠ "+"%char.
Proof.
  intros Hc. unfold isdigit in Hc. apply andb_true_iff in Hc as [H1%Z.leb_le H2%Z.leb_le].
  split_and!.
  - cbn [skip_space]. unfold c_isspace. destruct (Z.eqb_spec (code c) 32), (Z.leb_spec 9 (code c)),
      (Z.leb_spec (code c) 13); cbn; try lia; done.
  - intros ->. by vm_compute in H1.
  - intros ->. by vm_compute in H1.
Qed.

Lemma digits_val_dec n s : 0 <= n → no_digit s → digits_val 0 (dec n ++ s) = n.
Proof.
  intros Hn Hs. unfold dec. rewrite (proj2 (Z.ltb_ge n 0)) by lia. rewrite <- dec_go_app.
  destruct (digits_val_dec_go (Datatypes.S (Z.to_nat (Z.log2 n))) n 0 s) as (k & _ & ->);
    [apply dec_fuel; lia|]. rewrite digits_val_stop by done. lia.
Qed.

(** A number other than zero does not begin with a zero. *)
Lemma dec_go_first fuel n acc :
  1 <= n < 2 ^ Z.of_nat fuel → head (dec_go fuel n acc) ≠ Some "0"%char.
Proof.
  revert n acc. induction fuel as [|fuel IH]; intros n acc Hn; [change (2 ^ Z.of_nat 0) with 1 in Hn; lia|].
  cbn [dec_go]. destruct (Z.ltb_spec n 10).
  - cbn. intros [= E]. apply (f_equal code) in E. unfold digit in E.
    rewrite code_chr, (Z.mod_small n 10), Z.mod_small in E by lia. change (code "0") with 48 in E. lia.
  - apply IH. split; [apply Z.div_le_lower_bound; lia|]. apply Z.div_lt_upper_bound; [lia|].
    rewrite Nat2Z.inj_succ, Z.pow_succ_r in Hn by lia.
    pose proof (Z.pow_nonneg 2 (Z.of_nat fuel) ltac:(lia)). lia.
Qed.

Lemma dec_first n s : 1 <= n → head (dec n ++ s) ≠ Some "0"%char.
Proof.
  intros Hn. unfold dec. rewrite (proj2 (Z.ltb_ge n 0)), <- dec_go_app by lia.
  apply dec_go_first. split; [done|]. by apply dec_fuel; lia.
Qed.

(** A number behind spaces. *)
Lemma scan_u_dec p n s :
  blank p → 0 <= n < 2 ^ 32 → no_digit s → scan_u (p ++ dec n ++ s) = Some (n, s).
Proof.
  intros Hp Hn Hs. unfold scan_u. rewrite skip_space_blank by done.
  pose proof (digits_val_dec n s ltac:(lia) Hs) as Hval.
  destruct (dec_go_head (Z.to_nat (Z.log2 n)) n [] ltac:(lia)) as (c & t & E & Hc).
  assert (Ed : dec n = c :: t) by (unfold dec; rewrite (proj2 (Z.ltb_ge n 0)) by lia; exact E).
  pose proof (skip_digits_app (dec n) s (λ c, dec_nonneg_digits n c ltac:(lia)) Hs) as Hskip.
  rewrite Ed in *. cbn [app] in *.
  destruct (digit_head_scan c (t ++ s) Hc) as (-> & Hm & Hpl).
  assert (Hhead : match c :: t ++ s with
                  | "-"%char :: r => (true, r) | "+"%char :: r => (false, r) | r => (false, r)
                  end = (false, c :: t ++ s)).
  { clear -Hm Hpl. destruct c as [[] [] [] [] [] [] [] []]; try done; by destruct Hm || by destruct Hpl. }
  rewrite Hhead, Hc, Hval, Hskip. do 2 f_equal.
  rewrite Z.min_l by lia. apply Z.mod_small. lia.
Qed.

(** ** A line *)

Definition stats_ok (vs : list Z) : Prop := length vs = 16%nat ∧ Forall (λ v, 0 <= v < 2 ^ 32) vs.

Definition name_char (c : ascii) : bool :=
  negb (c_isspace c) && negb (bool_decide (c = ":"%char)) && negb (bool_decide (c = NUL)).
Record dev_ok (d : net_device) : Prop := DevOk {
  dev_name_chars : forallb name_char (dev_name d) = true;
  dev_name_length : (length (dev_name d) < 16)%nat;
  dev_stats_ok : stats_ok (dev_stats d);
}.

(** What follows a number in a line. *)
Definition after (ws : list nat) (vs : list Z) (s : cstr) : cstr :=
  match ws with [] => s | _ => " "%char :: stats_text ws vs ++ s end.

Lemma stats_text_cons w ws v vs s :
  length ws = length vs → stats_text (w :: ws) (v :: vs) ++ s = padl w (dec v) ++ after ws vs s.
Proof.
  intros Hl. unfold after. destruct ws as [|w' ws], vs as [|v' vs]; try done.
  cbn [stats_text]. by rewrite <- app_assoc.
Qed.

Lemma after_no_digit ws vs s : no_digit s → no_digit (after ws vs s).
Proof. by destruct ws. Qed.

Lemma scan_u_stats p w ws v vs s :
  blank p → 0 <= v < 2 ^ 32 → length ws = length vs → no_digit s →
  scan_u (p ++ stats_text (w :: ws) (v :: vs) ++ s) = Some (v, after ws vs s).
Proof.
  intros Hp Hv Hl Hs. rewrite stats_text_cons by done. unfold padl. rewrite <- !app_assoc, app_assoc.
  apply scan_u_dec; [|done|by apply after_no_digit].
  apply Forall_app. split; [done|apply blank_replicate].
Qed.

Lemma skip_fields_stats n ws vs s p :
  blank p → Forall (λ v, 0 <= v < 2 ^ 32) vs → length ws = length vs → (n < length vs)%nat → no_digit s →
  ∃ p', blank p' ∧ skip_fields n (p ++ stats_text ws vs ++ s) = Some (p' ++ stats_text (drop n ws) (drop n vs) ++ s).
Proof.
  revert ws vs p. induction n as [|n IH]; intros ws vs p Hp Hv Hl Hn Hs; [by exists p|].
  destruct vs as [|v vs], ws as [|w ws]; try done; cbn [length] in *; [lia|].
  apply List.Forall_cons_iff in Hv as [Hv Hvs]. cbn [skip_fields drop].
  rewrite scan_u_stats by (done || lia). unfold after. destruct ws as [|w' ws]; [destruct vs; cbn in *; lia|].
  apply (IH (w' :: ws) vs [" "%char]); [|done|cbn in *; lia|cbn in *; lia|done].
  by repeat constructor.
Qed.

Lemma scan_packets_stats vs s :
  stats_ok vs → no_digit s → scan_packets (stats_text dev_widths vs ++ s) = Some (nth 9 vs 0).
Proof.
  intros [Hl Hv] Hs. unfold scan_packets.
  destruct (skip_fields_stats 9 dev_widths vs s [] ltac:(constructor) Hv) as (p & Hp & E); [done|lia|done|].
  cbn [app] in E. rewrite E. cbn [mbind option_bind].
  assert (Hd : drop 9 vs = nth 9 vs 0 :: drop 10 vs).
  { do 16 (destruct vs as [|? vs]; [discriminate Hl|]). done. }
  rewrite Hd. change (drop 9 dev_widths) with (7%nat :: drop 10 dev_widths).
  rewrite scan_u_stats; [done|done| | |done].
  - rewrite Forall_lookup in Hv. apply (Hv 9%nat). rewrite nth_lookup.
    destruct (lookup_lt_is_Some_2 vs 9 ltac:(lia)) as [v ->]. done.
  - rewrite !length_drop, Hl. done.
Qed.

Lemma stats_text_eq w ws v vs :
  stats_text (w :: ws) (v :: vs) = padl w (dec v) ++
    match ws, vs with [], [] => [] | _, _ => " "%char :: stats_text ws vs end.
Proof. destruct ws, vs; [by rewrite app_nil_r|done|done|done]. Qed.

Lemma stats_text_length ws vs :
  Forall (λ w, (w <= 10)%nat) ws → Forall (λ v, 0 <= v < 2 ^ 32) vs →
  (length (stats_text ws vs) <= 11 * length ws)%nat.
Proof.
  intros Hw. revert vs. induction Hw as [|w ws Hw Hws IH]; intros vs Hv; [cbn; lia|].
  destruct vs as [|v vs]; [destruct ws; cbn; lia|]. apply List.Forall_cons_iff in Hv as [Hv Hvs].
  assert (Hp : (length (padl w (dec v)) <= 10)%nat).
  { unfold padl. rewrite length_app, length_replicate.
    assert (length (dec v) <= 10)%nat; [|lia]. unfold dec. rewrite (proj2 (Z.ltb_ge v 0)) by lia.
    pose proof (dec_go_length (Datatypes.S (Z.to_nat (Z.log2 v))) v [] 10). cbn [length] in *. lia. }
  specialize (IH vs Hvs). rewrite stats_text_eq, length_app. cbn [length].
  destruct ws, vs; cbn [length] in *; lia.
Qed.

(** The characters of the numbers: digits and spaces. *)
Lemma stats_text_chars ws vs c :
  Forall (λ v, 0 <= v < 2 ^ 32) vs → c ∈ stats_text ws vs → isdigit c = true ∨ c = " "%char.
Proof.
  intros Hv. revert ws. induction Hv as [|v vs Hv Hvs IH]; intros ws Hc.
  { by destruct ws as [|w [|w' ws]]; apply not_elem_of_nil in Hc. }
  assert (Hp : ∀ w, c ∈ padl w (dec v) → isdigit c = true ∨ c = " "%char).
  { intros w [Hc'|Hc']%elem_of_app; [right; by apply elem_of_replicate in Hc' as [-> _]|left].
    eapply dec_nonneg_digits; [|done]. lia. }
  destruct ws as [|w ws]; [by apply not_elem_of_nil in Hc|].
  rewrite stats_text_eq in Hc. apply elem_of_app in Hc as [Hc|Hc]; [by apply Hp in Hc|].
  specialize (IH ws). destruct ws, vs; [by apply not_elem_of_nil in Hc|..];
    (apply elem_of_cons in Hc as [->|Hc]; [by right|by apply IH]).
Qed.

(** ** The loop *)

Lemma scan_ifname_blank n i s : scan_ifname i (replicate n " "%char ++ s) = scan_ifname i s.
Proof. induction n as [|n IH]; [done|]. exact IH. Qed.

Lemma name_char_facts c : name_char c = true → c_isspace c = false ∧ c ≠ ":"%char ∧ c ≠ NUL ∧ c ≠ "010"%char.
Proof.
  unfold name_char. intros [[H1%negb_true_iff H2%negb_true_iff]%andb_true_iff H3%negb_true_iff]%andb_true_iff.
  apply bool_decide_eq_false in H2, H3. split_and!; try done. by intros ->.
Qed.

Lemma scan_ifname_name nm i s :
  forallb name_char nm = true → (i + length nm < 32)%nat → scan_ifname i (nm ++ ":"%char :: s) = Done (nm, s).
Proof.
  revert i. induction nm as [|c nm IH]; intros i Hn Hi; cbn [app scan_ifname].
  { rewrite decide_True by done. cbn [length] in Hi. by rewrite (proj2 (Nat.ltb_lt i 32)) by lia. }
  cbn [forallb length] in *. apply andb_true_iff in Hn as [Hc Hn].
  destruct (name_char_facts c Hc) as (H1 & H2 & _). rewrite decide_False, H1 by done.
  rewrite (proj2 (Nat.ltb_lt i 32)) by lia. by rewrite IH by (done || lia).
Qed.

(** A line without its newline. *)
Definition line_of (d : net_device) : cstr :=
  padl 6 (dev_name d) ++ ":"%char :: stats_text dev_widths (dev_stats d).

Lemma line_text d : dev_seq_printf_stats d = line_of d ++ ["010"%char].
Proof. unfold dev_seq_printf_stats, line_of. rewrite <- app_assoc. done. Qed.

Lemma line_of_chars d c : dev_ok d → c ∈ line_of d → c ≠ "010"%char ∧ c ≠ NUL.
Proof.
  intros [Hn _ [_ Hv]]. unfold line_of, padl. rewrite forallb_forall in Hn.
  rewrite !elem_of_app, elem_of_cons. intros [[Hc|Hc]|[->|Hc]]; [..|done|].
  - by apply elem_of_replicate in Hc as [-> _].
  - apply list_elem_of_In in Hc. by destruct (name_char_facts c (Hn c Hc)) as (_ & _ & ? & ?).
  - destruct (stats_text_chars _ _ c Hv Hc) as [Hd| ->]; [|done]. by split; intros ->.
Qed.

Lemma line_of_length d : dev_ok d → (length (line_of d) < 1023)%nat.
Proof.
  intros [_ Hn [_ Hv]]. unfold line_of, padl. rewrite !length_app, length_replicate. cbn [length].
  pose proof (stats_text_length dev_widths (dev_stats d) ltac:(by apply (bool_decide_unpack _)) Hv) as H.
  change (11 * length dev_widths)%nat with 176%nat in H. lia.
Qed.

Lemma fgets_dev buf d rest : dev_ok d →
  fgets_line buf (dev_seq_printf_stats d ++ rest) =
    Some (line_of d ++ "010"%char :: NUL :: drop (Datatypes.S (length (line_of d ++ ["010"%char]))) buf, rest).
Proof.
  intros Hd. rewrite line_text, <- app_assoc. cbn [app]. unfold fgets_line.
  rewrite fgets_go_line; [|by intros Hc; destruct (line_of_chars d _ Hd Hc)|by apply line_of_length].
  rewrite <- app_assoc. cbn [app].
  destruct (line_of d); [done|]. done.
Qed.

Definition is_ath (d : net_device) : bool := bool_decide (take 3 (dev_name d) = ("ath" : cstr)).
Definition tx_packets (d : net_device) : Z := nth 9 (dev_stats d) 0.
Definition tx_total (ds : list net_device) : Z :=
  fold_left (λ n d, if is_ath d then (n + tx_packets d) mod 2 ^ 64 else n) ds 0.

Lemma dev_loop_spec ds fuel buf on tmp cur :
  Forall dev_ok ds → (length ds < fuel)%nat →
  dev_loop fuel buf (concat (map dev_seq_printf_stats ds)) on tmp cur =
    Done (on || existsb is_ath ds, fold_left (λ n d, if is_ath d then (n + tx_packets d) mod 2 ^ 64 else n) ds cur).
Proof.
  intros Hds. revert fuel buf on tmp cur. induction Hds as [|d ds Hd Hds IH]; intros fuel buf on tmp cur Hf;
    (destruct fuel as [|fuel]; [cbn in Hf; lia|]); cbn [map concat dev_loop existsb fold_left length] in *.
  { by rewrite orb_false_r. }
  rewrite fgets_dev by done. set (line := line_of d ++ _).
  assert (Hname : scan_ifname 0 line = Done (dev_name d,
    stats_text dev_widths (dev_stats d) ++ "010"%char :: NUL :: drop (Datatypes.S (length (line_of d ++ ["010"%char]))) buf)).
  { unfold line, line_of, padl. rewrite <- !app_assoc. cbn [app]. rewrite scan_ifname_blank.
    apply scan_ifname_name; [apply Hd|]. pose proof (dev_name_length d Hd). lia. }
  rewrite Hname. cbn [mbind outcome_bind]. fold (is_ath d). destruct Hd as [_ _ Hst].
  destruct (is_ath d) eqn:E; [|rewrite IH by lia; done].
  assert (Hs : rd_str (stats_text dev_widths (dev_stats d) ++ "010"%char :: NUL ::
      drop (Datatypes.S (length (line_of d ++ ["010"%char]))) buf) =
    Done (stats_text dev_widths (dev_stats d) ++ ["010"%char])).
  { pose proof (rd_str_app (stats_text dev_widths (dev_stats d) ++ ["010"%char])
      (drop (Datatypes.S (length (line_of d ++ ["010"%char]))) buf)) as H.
    rewrite <- app_assoc in H. apply H. destruct Hst as [_ Hv].
    rewrite nul_free_app, nul_free_cons. split_and!; [|done|apply nul_free_nil].
    intros Hc. destruct (stats_text_chars _ _ _ Hv Hc) as [?|?]; done. }
  rewrite Hs. cbn [mbind outcome_bind]. rewrite scan_packets_stats by done. cbn [default from_option].
  rewrite IH by lia. by rewrite orb_true_r.
Qed.

(** The header is two lines. *)
Definition header1 : cstr := (span_until ["010"%char] dev_seq_header).1.
Definition header2 : cstr := (span_until ["010"%char] (tail (span_until ["010"%char] dev_seq_header).2)).1.

Lemma header_lines : dev_seq_header = header1 ++ "010"%char :: header2 ++ ["010"%char].
Proof. vm_compute. reflexivity. Qed.

Lemma fgets_line_app buf l rest :
  "010"%char ∉ l → (length l < 1023)%nat →
  ∃ buf', fgets_line buf (l ++ "010"%char :: rest) = Some (buf', rest).
Proof.
  intros Hl Hn. unfold fgets_line. rewrite fgets_go_line by done. eexists. by destruct l.
Qed.

Lemma header_eaten t : ∃ buf, eat_line (eat_line ([], dev_seq_header ++ t)) = (buf, t).
Proof.
  rewrite header_lines, <- app_assoc. cbn [app]. rewrite <- app_assoc. cbn [app].
  unfold eat_line. cbn [fst snd].
  destruct (fgets_line_app [] header1 (header2 ++ "010"%char :: t)) as [b1 ->];
    [by apply (bool_decide_unpack _)|vm_compute; lia|]. cbn [default from_option id fst snd].
  destruct (fgets_line_app b1 header2 t) as [b2 ->];
    [by apply (bool_decide_unpack _)|vm_compute; lia|]. by exists b2.
Qed.

Lemma concat_lines_length ds : (length ds <= length (concat (map dev_seq_printf_stats ds)))%nat.
Proof.
  induction ds as [|d ds IH]; [done|]. cbn [map concat length]. rewrite length_app, line_text, length_app.
  cbn [length]. lia.
Qed.

(** The status of a list of devices. *)
Lemma get_wls_status_runs ds p :
  Forall dev_ok ds →
  runs (get_wls_status (Some (proc_net_dev ds))) p (λ r p',
    if existsb is_ath ds then
      if tx_total ds =? wls_packets p then r = WLS_ON ∧ p' = p
      else r = WLS_TRANSMIT ∧ p' = LedAp (tx_total ds) (wls_status p)
    else r = WLS_OFF ∧ p' = p).
Proof.
  intros Hds. unfold get_wls_status, proc_net_dev.
  destruct (header_eaten (concat (map dev_seq_printf_stats ds))) as [buf ->].
  apply runs_bind. eapply runs_lift.
  { apply dev_loop_spec; [done|]. pose proof (concat_lines_length ds). lia. }
  cbn [orb]. fold (tx_total ds). destruct (existsb is_ath ds); cbn [negb]; [|by apply runs_ret].
  apply runs_bind, runs_get. unfold Zdiffer. destruct (tx_total ds =? wls_packets p); cbn [negb].
  - by apply runs_ret.
  - by apply runs_bind, runs_put, runs_ret.
Qed.

Lemma tx_total_sum ds :
  tx_total ds = fold_right (λ d n, if is_ath d then tx_packets d + n else n) 0 ds mod 2 ^ 64.
Proof.
  unfold tx_total. rewrite <- (Z.add_0_l (fold_right _ _ _)).
  assert (H : ∀ a, fold_left (λ n d, if is_ath d then (n + tx_packets d) mod 2 ^ 64 else n) ds (a mod 2 ^ 64) =
    (a + fold_right (λ d n, if is_ath d then tx_packets d + n else n) 0 ds) mod 2 ^ 64); [|exact (H 0)].
  induction ds as [|d ds IH]; intros a; cbn [fold_left fold_right]; [by rewrite Z.add_0_r|].
  destruct (is_ath d); [|apply IH]. rewrite Zplus_mod_idemp_l, IH. f_equal. lia.
Qed.

(** A round without a wireless device. *)
Lemma led_round_off ds p :
  Forall dev_ok ds → existsb is_ath ds = false →
  led_round (Some (proc_net_dev ds)) p =
    Done (if wls_status p =? WLS_OFF then [] else ["echo w0 > /proc/led&" : cstr], LedAp (wls_packets p) WLS_OFF).
Proof.
  intros Hds Hno. pose proof (get_wls_status_runs ds p Hds) as H. rewrite Hno in H. unfold runs in H.
  unfold led_round, mbind at 1, M_bind at 1. destruct (get_wls_status _ p) as [[r p']| |]; [|done|done].
  destruct H as [-> ->]. unfold mbind, M_bind, getS, modS, Zdiffer. rewrite (Z.eqb_sym WLS_OFF (wls_status p)).
  by destruct (wls_status p =? WLS_OFF).
Qed.

(** * Lemmas about the LED driver's commands and the reset button

    The wireless commands of the LED driver, and a press of the button as the
    daemon sees it. *)

(** ** Commands *)

Lemma atoi_go_value rest val m : atoi_go val (rest ++ [NUL]) = Done m → m = digits_val val rest.
Proof.
  revert val. induction rest as [|c rest IH]; intros val; cbn [app atoi_go digits_val].
  { by intros [= ->]. }
  destruct (isdigit c); [|by intros [= ->]].
  destruct (_ <? _); [|done]. intros E%IH. by rewrite (Z.mul_comm 10).
Qed.

Lemma led_atoi_dec n t :
  0 <= n → no_digit t → (length (dec n ++ t) <= 8)%nat → led_atoi ((dec n ++ t) ++ [NUL]) = Done n.
Proof.
  intros Hn Ht Hl. destruct (led_atoi_runs _ Hl) as (m & E & _). rewrite E.
  apply atoi_go_value in E as ->. by rewrite digits_val_dec.
Qed.

(** The write that makes the wireless LED flash. *)
Lemma flash_runs act s n t :
  led_ok act s → pending LED_FAST s = false → 1 <= n < 2 ^ 31 → no_digit t → (length (dec n ++ t) <= 8)%nat →
  runs (proc_write_led_fops ("w"%char :: dec n ++ t)) s (λ _ s', ∃ act',
    led_ok act' s' ∧ Forall (solo (2 * n)) act' ∧ regs s' = regs s ∧ pending LED_FAST s' = true).
Proof.
  intros Hok Hp Hn Ht Hl. unfold proc_write_led_fops.
  rewrite (proj2 (Z.leb_gt 10 _)) by (cbn [length]; lia). apply runs_bind.
  eapply runs_mono with (Q := λ _ s', _); [|intros _ s' H; apply runs_ret; exact H].
  unfold led_command. do 3 rewrite decide_False by done. rewrite decide_True by done.
  rewrite decide_False by (rewrite <- app_assoc; apply dec_first; lia).
  apply runs_bind. eapply runs_lift; [apply led_atoi_dec; [lia|done|done]|].
  use_runs (led_blink_runs act s GPIO_WIRELESS n LED_FAST 1 Hok (or_introl eq_refl) ltac:(lia)).
  intros _ s' (Hok' & Hregs & Hp' & _). eexists. split; [exact Hok'|]. split; [|done].
  apply List.Forall_map, List.Forall_forall. intros led Hin%list_elem_of_In. unfold solo, reset.
  destruct (Z.eqb_spec (gpio_pin led) GPIO_WIRELESS) as [E|E]; cbn [gpio_pin count speed last_stat].
  - rewrite (proj2 (Z.eqb_eq _ _) E). split; [|done]. unfold wrap32. apply Z.mod_small. lia.
  - rewrite (proj2 (Z.eqb_neq _ _) E). pose proof (ok_need _ _ Hok) as Hneed. rewrite Forall_forall in Hneed.
    unfold blinks. destruct (Z.ltb_spec 0 (count led)) as [Hc|]; [|done].
    pose proof (Hneed led Hin Hc) as H. destruct (Z.eqb_spec (speed led) LED_FAST) as [Es|]; [|done].
    rewrite Es in H. congruence.
Qed.

(** The write that turns the wireless LED off. *)
Lemma off_runs act s :
  led_ok act s →
  proc_write_led_fops ["w"; "0"; "010"]%char s = Done (3, set_regs (led_off GPIO_WIRELESS (-1)) s) ∧
  led_ok act (set_regs (led_off GPIO_WIRELESS (-1)) s) ∧
  lit GPIO_WIRELESS (regs (set_regs (led_off GPIO_WIRELESS (-1)) s)) = false.
Proof.
  intros Hok. split_and!; [done|by apply off_ok|]. cbn [regs set_regs]. by rewrite off_lit.
Qed.

Lemma table_three act s : led_ok act s → take 3 (leds s) = act.
Proof.
  intros Hok. rewrite (ok_leds _ _ Hok). destruct (keys_live act (ok_keys _ _ Hok)) as [_ Hp].
  do 3 (destruct act as [|? act]; [discriminate Hp|]). destruct act; [done|discriminate Hp].
Qed.

(** ** The button *)

Lemma ButtonIsPushed_fread g : ButtonIsPushed (Some (fread_button g)) = Done (buttonIsPushed g).
Proof. unfold fread_button, proc_read_push_button_fops. by destruct (buttonIsPushed g). Qed.

Definition elapsed (now begin : timeval) : Z :=
  (tv_sec now - tv_sec begin) * 1000000 + (tv_usec now - tv_usec begin).

(** A time at most 2146 seconds behind [begin]. *)
Definition soon (begin now : timeval) : Prop :=
  0 <= tv_usec now < 1000000 ∧ 0 <= tv_usec begin < 1000000 ∧ 0 <= tv_sec now - tv_sec begin <= 2146.

Lemma long_op_ok z : - 2 ^ 31 <= z < 2 ^ 31 → long_op z = Done z.
Proof.
  intros H. unfold long_op. by rewrite (proj2 (Z.leb_le _ _)), (proj2 (Z.ltb_lt _ _)) by lia.
Qed.

Lemma timerinterval_soon now begin : soon begin now → timerinterval now begin = Done (elapsed now begin).
Proof.
  intros (H1 & H2 & H3). unfold timerinterval.
  rewrite long_op_ok by lia. cbn [mbind outcome_bind]. rewrite long_op_ok by lia. cbn [mbind outcome_bind].
  rewrite long_op_ok by lia. cbn [mbind outcome_bind]. by rewrite long_op_ok by lia.
Qed.

Lemma timerinterval_late now begin : 2148 <= tv_sec now - tv_sec begin → timerinterval now begin = Fault.
Proof.
  intros H. unfold timerinterval.
  assert (Hl : long_op ((tv_sec now - tv_sec begin) * 1000000) = Fault).
  { unfold long_op. rewrite (proj2 (Z.ltb_ge _ (2 ^ 31))) by lia. by rewrite andb_false_r. }
  destruct (long_op (tv_sec now - tv_sec begin)) as [sec| |] eqn:E;
    unfold long_op in E; case_match; try done. injection E as <-. cbn [mbind outcome_bind]. by rewrite Hl.
Qed.

(** While the button is held. *)
Definition held_flag (begin : timeval) (f : bool) (rounds : list (gpio * timeval)) : bool :=
  f || existsb (λ r, RESTORE_INTERVAL <? elapsed r.2 begin) rounds.

Lemma held_runs rounds begin f rest :
  Forall (λ r, buttonIsPushed r.1 = true ∧ soon begin r.2) rounds →
  button_main (rounds ++ rest) (Pb STATE_PRESSED begin f true) =
    (cs ← button_main rest;
     mret ((if negb f && held_flag begin f rounds then prompt_commands else []) ++ cs))
      (Pb STATE_PRESSED begin (held_flag begin f rounds) true).
Proof.
  intros H. revert f. unfold held_flag. induction H as [|[g now] rounds [Hg Hs] H IH]; intros f; cbn [app existsb fst snd].
  { rewrite orb_false_r. destruct f; cbn [negb andb app]; unfold mbind, M_bind;
      by destruct (button_main rest _) as [[cs s']| |]. }
  cbn [fst snd] in *. cbn [button_main]. unfold mbind at 1, M_bind at 1, getS at 1. cbn [running].
  rewrite ButtonIsPushed_fread, Hg.
  assert (Hr : button_round true now (Pb STATE_PRESSED begin f true) =
    let late := negb f && (RESTORE_INTERVAL <? elapsed now begin) in
    Done (if late then prompt_commands else [],
          Pb STATE_PRESSED begin (f || (RESTORE_INTERVAL <? elapsed now begin)) true)).
  { unfold button_round, mbind, M_bind, getS, liftO. cbn [state beginTime flag running].
    rewrite timerinterval_soon by done. by destruct f, (_ <? _). }
  unfold mbind at 1, M_bind at 1, liftO at 1. unfold mbind at 1, M_bind at 1. rewrite Hr.
  unfold mbind at 1, M_bind at 1. rewrite IH.
  unfold mbind, M_bind. rewrite orb_assoc.
  destruct (button_main rest _) as [[cs s']| |]; [|done|done].
  destruct f, (RESTORE_INTERVAL <? elapsed now begin), (existsb _ rounds); cbn [negb andb orb app]; done.
Qed.

(** What is run when the button is let go. *)
Definition release_commands (held : Z) : list cstr :=
  if RESTORE_INTERVAL <? held then restore_commands
  else if REBOOT_INTERVAL <? held then reboot_commands else test_commands.

Lemma release_runs g now begin f :
  buttonIsPushed g = false → soon begin now →
  button_main [(g, now)] (Pb STATE_PRESSED begin f true) =
    Done (release_commands (elapsed now begin),
          Pb STATE_NORMAL begin f (negb (REBOOT_INTERVAL <? elapsed now begin))).
Proof.
  intros Hg Hs. cbn [button_main]. unfold mbind at 1, M_bind at 1, getS at 1. cbn [running].
  rewrite ButtonIsPushed_fread, Hg. unfold button_round, release_commands, mbind, M_bind, getS, liftO, modS.
  cbn [state beginTime flag running]. rewrite timerinterval_soon by done.
  destruct (Z.ltb_spec RESTORE_INTERVAL (elapsed now begin)) as [Hlt|].
  { rewrite (proj2 (Z.ltb_lt REBOOT_INTERVAL _)); [done|]. unfold REBOOT_INTERVAL, RESTORE_INTERVAL in *. lia. }
  by destruct (REBOOT_INTERVAL <? elapsed now begin).
Qed.
