(* ===== verification/DeviceTheorems.v ===== *)
(** * The theorems about the LED and the reset button *)

From S2P Require Import Prelude CLib CfgStore Led LedCorrect LedAp DeviceCorrect Button.

(** ** The LED driver *)

(** C37: the LED driver stays well formed and in bounds.  In every state that
    writes to [/proc/led] and expiring timers lead to, in any order, the table is
    the board's, counts and registers have 32 bits, a timer is pending exactly
    when its flag says so and whenever an LED blinks at its speed, every write of
    fewer than ten bytes and every expiry is carried out without a fault (no timer
    is added twice); a write of ten bytes or more leaves the buffer on the stack. *)
Theorem led_driver_well_formed s :
  led_reach s →
  map key (leds s) = map key led_data ∧ Forall entry_ok (leds s) ∧ 0 <= GPIO_OUT (regs s) < 2 ^ 32 ∧
  led_fast_timer_running s = boolZ (led_fast_timer s) ∧
  led_slow_timer_running s = boolZ (led_slow_timer s) ∧
  Forall (λ led, 0 < count led → pending (speed led) s = true) (leds s) ∧
  (∀ buffer, zlen buffer < 10 → ∃ s', proc_write_led_fops buffer s = Done (zlen buffer, s')) ∧
  (∀ buffer, 10 <= zlen buffer → proc_write_led_fops buffer s = Fault) ∧
  (∀ spd, is_speed spd → pending spd s = true → ∃ s', expire spd s = Done (tt, s')).
Proof.
  intros [act Hok]%reach_ok. pose proof Hok as [Hl Hk He Ho Hf Hs Hn]. rewrite Hl. split_and!.
  - rewrite map_app, Hk. reflexivity.
  - apply Forall_app. split; [done|]. by apply (bool_decide_unpack _).
  - lia.
  - lia.
  - done.
  - done.
  - apply Forall_app. split; [done|]. by repeat apply List.Forall_cons.
  - intros buffer Hb. pose proof (write_runs act s buffer Hok Hb) as H. unfold runs in H.
    destruct (proc_write_led_fops buffer s) as [[r s']| |]; [|done|done]. destruct H as [-> _]. by exists s'.
  - intros buffer Hb. unfold proc_write_led_fops. by rewrite (proj2 (Z.leb_le 10 _)).
  - intros spd Hspd Hp. destruct (expire_spec act s spd Hok Hspd Hp) as (s' & ? & _). by exists s'.
Qed.

(** C36: blinking ends.  From every reachable state, without further writes and
    whatever the order in which the timers expire, after at most as many expiries
    as there are reversals to do and two more both timers are off.  An LED that was blinking then
    shows the state that its last blinking command named for the end ([final]: off, on, or as it was after
    the last reversal), even if [w0] turned it off in between.  An LED that did not blink
    shows what it showed. *)
Theorem led_blinking_ends s :
  led_reach s →
  within (λ s', at_rest s' ∧
      ∀ led, led ∈ take 3 (leds s) → lit (gpio_pin led) (regs s') = final led (lit (gpio_pin led) (regs s)))
    (Z.to_nat (reversals (take 3 (leds s))) + 2) s.
Proof.
  intros [act Hok]%reach_ok.
  rewrite (table_three act s Hok). apply (comes_to_rest act s); [done| |done].
  unfold work. repeat case_match; lia.
Qed.

(** The driver after booting, with every output low. *)
Definition booted : led_state :=
  match led_init_module (led_static (Gpio 0 0 0 0)) with Done (_, s) => s | _ => led_static (Gpio 0 0 0 0) end.

Lemma booted_reach : led_reach booted.
Proof. by apply (reach_init (Gpio 0 0 0 0) booted 0). Qed.

(** The state a write leaves. *)
Definition written (buffer : bytes) (s : led_state) : led_state :=
  match proc_write_led_fops buffer s with Done (_, s') => s' | _ => s end.

Lemma written_reach buffer s :
  match proc_write_led_fops buffer s with Done _ => True | _ => False end →
  led_reach s → led_reach (written buffer s).
Proof.
  intros H Hr. unfold written. destruct (proc_write_led_fops buffer s) as [[r s']| |] eqn:E; [|done|done].
  eapply reach_step; [exact Hr|]. eapply step_write. exact E.
Qed.

(** A write that makes the wireless LED flash twice. *)
Definition w2 : bytes := ["w"; "2"; "010"]%char.

Lemma led_driver_well_formed_witness :
  led_reach (written w2 booted) ∧
  ∃ s', expire LED_FAST (written w2 booted) = Done (tt, s').
Proof.
  assert (Hr : led_reach (written w2 booted)) by (apply written_reach; [exact I|exact booted_reach]).
  split; [exact Hr|].
  destruct (led_driver_well_formed (written w2 booted) Hr) as (_ & _ & _ & _ & _ & _ & _ & _ & H).
  apply H; [by left|reflexivity].
Defined.

Lemma led_blinking_ends_witness :
  within (λ s', at_rest s' ∧
      ∀ led, led ∈ take 3 (leds (written w2 booted)) →
        lit (gpio_pin led) (regs s') = final led (lit (gpio_pin led) (regs (written w2 booted)))) 6
    (written w2 booted).
Proof.
  apply (led_blinking_ends (written w2 booted)). apply written_reach; [exact I|exact booted_reach].
Defined.

(** How the wireless LED flashes.  With no fast blinking going on, writing
    ["w<n>"] (n at least 1, as [echo] writes it) to [/proc/led] reverses the wireless LED at each of the next
    [2n - 1] expiries of the fast timer and leaves it on at the last one, when the timer stops. *)
Theorem led_flashes s n k :
  led_reach s → pending LED_FAST s = false → 1 <= n < 10 ^ 7 → Z.of_nat k <= 2 * n →
  runs (_ ← proc_write_led_fops ("w"%char :: dec n ++ ["010"%char]); expiries k) s (λ _ s',
    lit GPIO_WIRELESS (regs s') =
      (if Z.of_nat k =? 2 * n then true else xorb (lit GPIO_WIRELESS (regs s)) (Nat.odd k)) ∧
    pending LED_FAST s' = (Z.of_nat k <? 2 * n)).
Proof.
  intros [act Hok]%reach_ok Hp Hn Hk.
  assert (Hlen : (length (dec n ++ ["010"%char]) <= 8)%nat).
  { rewrite length_app. cbn [length]. assert (length (dec n) <= 7)%nat; [|lia].
    unfold dec. rewrite (proj2 (Z.ltb_ge n 0)) by lia.
    pose proof (dec_go_length (Datatypes.S (Z.to_nat (Z.log2 n))) n [] 7) as H. cbn [length] in H. lia. }
  apply runs_bind. use_runs (flash_runs act s n ["010"%char] Hok Hp ltac:(lia) eq_refl Hlen).
  intros _ s1 (act1 & Hok1 & Hsolo & Hregs & Hp1).
  destruct (solo_expiries act1 s1 (2 * n) k Hok1 Hsolo) as (s2 & act2 & He & _ & _ & Hp2 & Hl2);
    [rewrite Hp1; symmetry; apply Z.ltb_lt; lia|lia|done|].
  unfold runs. rewrite He. by rewrite Hl2, Hp2, Hregs.
Qed.

Lemma led_flashes_witness :
  runs (_ ← proc_write_led_fops w2; expiries 3) booted (λ _ s',
    lit GPIO_WIRELESS (regs s') = true ∧ pending LED_FAST s' = true).
Proof.
  apply (led_flashes booted 2 3); [exact booted_reach|reflexivity|lia|lia].
Defined.

(** ** The LED daemon *)

(** a round of the LED daemon on what the kernel prints.  For any devices with
    names and 32-bit counters the file that the kernel prints is read back
    exactly: with no [ath] device the wireless is off, with the sum of their sent packets (modulo
    2^64) unchanged it is on, else it transmits; the command is [w4] for every round that saw packets,
    and [w0] or [w1] once when the status becomes off or on; each is run as a write that the driver takes. *)
Theorem led_daemon_round ds p :
  Forall dev_ok ds →
  let total := fold_right (λ d n, if is_ath d then tx_packets d + n else n) 0 ds mod 2 ^ 64 in
  let cmd x := ("echo " : cstr) ++ x ++ (" > /proc/led&" : cstr) in
  led_round (Some (proc_net_dev ds)) p = Done (
    if existsb is_ath ds then
      if total =? wls_packets p
      then (if wls_status p =? WLS_ON then [] else [cmd "w1"], LedAp (wls_packets p) WLS_ON)
      else ([cmd "w4"], LedAp total WLS_TRANSMIT)
    else (if wls_status p =? WLS_OFF then [] else [cmd "w0"], LedAp (wls_packets p) WLS_OFF)) ∧
  ∀ x, length x = 2%nat → led_echo (cmd x) = Some (x ++ ["010"%char]).
Proof.
  intros Hds total cmd. split.
  - pose proof (get_wls_status_runs ds p Hds) as H. rewrite tx_total_sum in H. fold total in H.
    unfold runs in H. unfold led_round, mbind at 1, M_bind at 1.
    destruct (get_wls_status _ p) as [[r p']| |]; [|done|done].
    destruct (existsb is_ath ds); [destruct (total =? wls_packets p)|]; destruct H as [-> ->];
      unfold mbind, M_bind, getS, modS; cbn [wls_packets wls_status]; unfold Zdiffer.
    + rewrite (Z.eqb_sym WLS_ON (wls_status p)). by destruct (wls_status p =? WLS_ON).
    + done.
    + rewrite (Z.eqb_sym WLS_OFF (wls_status p)). by destruct (wls_status p =? WLS_OFF).
  - intros [|a [|b [|c x]]] Hx; done.
Qed.

Definition dev_lo : net_device := NetDevice "lo" [1684; 20; 0; 0; 0; 0; 0; 0; 1684; 20; 0; 0; 0; 0; 0; 0].
Definition dev_ath0 : net_device :=
  NetDevice "ath0" [120000; 800; 0; 0; 0; 0; 0; 0; 4294967295; 654; 0; 0; 0; 0; 0; 0].

Lemma dev_ok_bool d :
  forallb name_char (dev_name d) && (length (dev_name d) <? 16)%nat && (length (dev_stats d) =? 16)%nat &&
    forallb (λ v, (0 <=? v) && (v <? 2 ^ 32)) (dev_stats d) = true → dev_ok d.
Proof.
  intros [[[H1 H2%Nat.ltb_lt]%andb_true_iff H3%Nat.eqb_eq]%andb_true_iff H4]%andb_true_iff.
  apply DevOk; [done|done|]. split; [done|]. apply List.Forall_forall. intros v Hv.
  rewrite forallb_forall in H4. specialize (H4 v Hv). lia.
Qed.

Lemma two_devices_ok : Forall dev_ok [dev_lo; dev_ath0].
Proof. repeat apply List.Forall_cons; [apply dev_ok_bool; reflexivity..|apply List.Forall_nil]. Qed.

Lemma led_daemon_round_witness :
  led_round (Some (proc_net_dev [dev_lo; dev_ath0])) (LedAp 600 WLS_ON) =
    Done (["echo w4 > /proc/led&" : cstr], LedAp 654 WLS_TRANSMIT).
Proof.
  exact (proj1 (led_daemon_round [dev_lo; dev_ath0] (LedAp 600 WLS_ON) two_devices_ok)).
Defined.

(** Switching the wireless LED off does not last while it flashes.  When the
    wireless goes down the daemon writes [w0] once and then keeps silent; if the LED still flashes then
    (as it does for 4 flashes behind the last packet seen), the write turns it off, but the pending reversals go on
    and it comes to rest switched on. *)
Theorem wireless_off_undone s led ds p :
  led_reach s → led ∈ leds s → gpio_pin led = GPIO_WIRELESS → 0 < count led → last_stat led = 1 →
  Forall dev_ok ds → existsb is_ath ds = false → wls_status p ≠ WLS_OFF →
  ∃ cmd p' w s' n,
    led_round (Some (proc_net_dev ds)) p = Done ([cmd], p') ∧
    led_echo cmd = Some w ∧ proc_write_led_fops w s = Done (3, s') ∧
    lit GPIO_WIRELESS (regs s') = false ∧
    within (λ s2, at_rest s2 ∧ lit GPIO_WIRELESS (regs s2) = true) n s' ∧
    led_round (Some (proc_net_dev ds)) p' = Done ([], p').
Proof.
  intros [act Hok]%reach_ok Hin Hpin Hc Hlast Hds Hno Hstat.
  assert (Hact : led ∈ act).
  { rewrite (ok_leds _ _ Hok) in Hin. apply elem_of_app in Hin as [?|Hin]; [done|].
    repeat (apply elem_of_cons in Hin as [->|Hin]; [discriminate Hpin|]). by apply not_elem_of_nil in Hin. }
  destruct (off_runs act s Hok) as (Hw & Hok' & Hoff).
  exists "echo w0 > /proc/led&", (LedAp (wls_packets p) WLS_OFF), ["w"; "0"; "010"]%char,
    (set_regs (led_off GPIO_WIRELESS (-1)) s), (work act (set_regs (led_off GPIO_WIRELESS (-1)) s)).
  split_and!; [|done|exact Hw|exact Hoff| |].
  - rewrite (led_round_off ds p Hds Hno). by rewrite (proj2 (Z.eqb_neq _ _)).
  - apply (comes_to_rest act); [done|done|]. intros act' s2 _ Hrest Hl. split; [done|].
    specialize (Hl led Hact). rewrite Hpin in Hl. rewrite Hl. unfold final.
    by rewrite (proj2 (Z.ltb_lt _ _)), Hlast.
  - by rewrite (led_round_off ds (LedAp (wls_packets p) WLS_OFF) Hds Hno).
Qed.

(** The driver behind the write [w4], and the entry that flashes. *)
Definition w4 : bytes := ["w"; "4"; "010"]%char.
Definition flashing : led_data_s := LedData 0 8 (-1) 1 1 0.

Lemma wireless_off_undone_witness :
  ∃ cmd p' w s' n,
    led_round (Some (proc_net_dev [dev_lo])) (LedAp 654 WLS_TRANSMIT) = Done ([cmd], p') ∧
    led_echo cmd = Some w ∧ proc_write_led_fops w (written w4 booted) = Done (3, s') ∧
    lit GPIO_WIRELESS (regs s') = false ∧
    within (λ s2, at_rest s2 ∧ lit GPIO_WIRELESS (regs s2) = true) n s' ∧
    led_round (Some (proc_net_dev [dev_lo])) p' = Done ([], p').
Proof.
  apply (wireless_off_undone (written w4 booted) flashing [dev_lo] (LedAp 654 WLS_TRANSMIT)).
  - apply written_reach; [exact I|exact booted_reach].
  - apply list_elem_of_In. right. left. reflexivity.
  - reflexivity.
  - reflexivity.
  - reflexivity.
  - apply List.Forall_cons; [apply dev_ok_bool; reflexivity|apply List.Forall_nil].
  - reflexivity.
  - discriminate.
Defined.

(** ** The reset button *)

(** C40: what a press of the reset button does.  When the button is seen down at
    [t0], in every one of [rounds] and then up at [t1], all within 2146 seconds, the daemon prompts once if a
    round came more than 4 s after [t0]; on the release it restores the defaults and reboots if more than
    4 s passed, reboots if more than 1 s did, and else tests the LED and goes on.  From 2148 seconds on the
    difference of the times does not fit in a [long]. *)
Theorem button_press_decides p g0 t0 rounds g1 t1 :
  state p = STATE_NORMAL → running p = true → buttonIsPushed g0 = true → buttonIsPushed g1 = false →
  Forall (λ r, buttonIsPushed r.1 = true ∧ soon t0 r.2) rounds → soon t0 t1 →
  let held := elapsed t1 t0 in
  let late := existsb (λ r, RESTORE_INTERVAL <? elapsed r.2 t0) rounds in
  button_main ((g0, t0) :: rounds ++ [(g1, t1)]) p =
    Done ((if late then [led_write "t2"] else []) ++
          (if 4000000 <? held
           then [led_write "d100"; "/usr/sbin/nvram set restore_defaults=1" : cstr; led_write "d1"; "/sbin/reboot &" : cstr]
           else if 1000000 <? held then [led_write "r100"; "/sbin/reboot &" : cstr] else [led_write "t"]),
          Pb STATE_NORMAL t0 late (held <=? 1000000)) ∧
  ∀ now f pushed, 2148 <= tv_sec now - tv_sec t0 →
    button_round pushed now (Pb STATE_PRESSED t0 f true) = Fault.
Proof.
  intros Hst Hrun Hg0 Hg1 Hr Ht1 held late. split.
  - cbn [button_main]. unfold mbind at 1, M_bind at 1, getS at 1. rewrite Hrun, ButtonIsPushed_fread, Hg0.
    assert (Hfirst : button_round true t0 p = Done ([], Pb STATE_PRESSED t0 false true)).
    { unfold button_round, mbind, M_bind, getS, putS. by rewrite Hst, Hrun. }
    unfold mbind at 1, M_bind at 1, liftO at 1. unfold mbind at 1, M_bind at 1. rewrite Hfirst.
    unfold mbind at 1, M_bind at 1. rewrite (held_runs rounds t0 false [(g1, t1)] Hr).
    unfold mbind at 1, M_bind at 1. rewrite release_runs by done. unfold held_flag. cbn [negb andb orb].
    fold late held. unfold release_commands. change RESTORE_INTERVAL with 4000000. change REBOOT_INTERVAL with 1000000.
    by rewrite <- Z.leb_antisym.
  - intros now f pushed Hlate. unfold button_round, mbind, M_bind, getS, liftO, modS.
    cbn [state beginTime]. rewrite timerinterval_late by done. by destruct pushed.
Qed.

(** A press of 1.2 seconds. *)
Lemma button_press_decides_witness :
  button_main [(Gpio 0 0 0 0, Timeval 100 500000); (Gpio 0 0 0 0, Timeval 100 900000);
               (Gpio 0 (2 ^ 21) 0 0, Timeval 101 700000)] (Pb STATE_NORMAL (Timeval 0 0) false true) =
    Done ([led_write "r100"; "/sbin/reboot &" : cstr], Pb STATE_NORMAL (Timeval 100 500000) false false).
Proof.
  refine (proj1 (button_press_decides (Pb STATE_NORMAL (Timeval 0 0) false true) (Gpio 0 0 0 0) (Timeval 100 500000)
    [(Gpio 0 0 0 0, Timeval 100 900000)] (Gpio 0 (2 ^ 21) 0 0) (Timeval 101 700000) _ _ _ _ _ _)); try reflexivity.
  - apply List.Forall_cons; [|apply List.Forall_nil]. split; [reflexivity|]. unfold soon. cbn. lia.
  - unfold soon. cbn. lia.
Defined.
